(* ===== verification/_CoqProject ===== *)
-Q . S2P
Prelude.v
BlobEval.v
Types.v
OpcodeGadgets.v
Borsh.v
Abi.v
Merkle.v
NativeKeccak.v
HashV5.v
HashV4.v
Hosting.v
WireV1.v
WireV4.v
FrameV4.v
WireJournalV4.v
State.v
StateEvm.v
Policy.v
Settlement.v
RosterV4.v
PresetV4.v
InboxV4.v
Compact.v
ExitV4.v
RosterV5.v
ExitV5.v
LiabilitiesV5.v
LedgerV5.v
ImportV5.v
Block.v
LigetronGuest.v
BatchData.v
ColdState.v
ColdRoom.v
BatchV4.v
GenesisV4.v
AdmissionV5.v
BatchV5.v
Guest.v
HostWitness.v
LivePrepare.v
HostHosting.v
