(* ===== verification/Prelude.v ===== *)
(** * zkdeal prover: verification of the state-transition function

    The repository proves, inside a RISC Zero guest, that batches of L2 transactions move a room
    from one state root to the next.  This development models that program: the crates
    [stf-types] (data, commitments, hosting statements), [stf-core] (execution, policy,
    settlement, rooms), the guest binary with its Keccak sponge, the Borsh wire messages of
    [stf-wire], the Ligetron guest and, of the RISC Zero host, the witnesses, live batches, blob
    bundles and aggregate receipts it prepares.  Paths below are relative to src/zkvm/crates/.

    ** How the parts interact

    A host builds a witness; the guest ([Guest], risc0/methods/guest/src/main.rs) selects one of
    four statements by the prefix of the frame, runs it and commits 32 bytes.  A batch of a
    long-lived room goes through [BatchV5] (stf-core/src/room_v5/mod.rs): the identity and roster
    of the journal ([RosterV5]), the escrow vectors ([LiabilitiesV5], refined to the abstract
    ledger of [LedgerV5]), the authenticated prestate ([Compact]), the L1 import ([ImportV5]),
    the certified policy ([Policy]), the blocks ([Block] over the database [State]/[StateEvm]),
    operator admissions and forced transactions ([AdmissionV5]) and the exits ([ExitV5]).  A
    seven-slot v4 room goes through [GenesisV4], then [BatchV4] with [RosterV4], [PresetV4],
    [InboxV4], [ExitV4] over the exit program of [Settlement]; [ColdState] and [ColdRoom] are the
    reusable constructor proof and its link to a batch.  The public commitments are [HashV4],
    [HashV5] and [BatchData], over the trees of [Merkle] and the words of [Abi]; the
    data-availability and aggregate statements are [Hosting], with blob opening in [BlobEval].
    [Borsh], [WireV1], [WireV4], [FrameV4] and [WireJournalV4] are the wire messages of stf-wire,
    and [LigetronGuest] the program that consumes the single-block one.  On the host's side
    [LivePrepare] derives a batch from live state and hands it to [HostWitness], which frames and
    addresses it; [HostHosting] prepares the inputs of the other two statements.

    ** Files and the code they model

    - [Prelude]: results, loops, integers, byte frames, ordered maps, tactics and hints.
    - [Types]: every struct of stf-types (block.rs, v4/types.rs, v5/types.rs, limits.rs) with
      its default and the predicate [_wf] that its fields fit their machine types.
    - [Abi], [Merkle], [HashV4], [HashV5], [BatchData]: abi.rs, v4/hash.rs, v4/cold.rs,
      domain.rs, v5/hash.rs, batch_data.rs.
    - [Hosting], [BlobEval]: stf-types/src/hosting.rs.
    - [State], [StateEvm]: stf-core/src/db/.  [Policy], [PresetV4]: policy/.  [Block]: block.rs,
      txenv.rs, report.rs, error.rs.  [Compact]: compact.rs.
    - [Settlement], [RosterV4], [InboxV4], [ExitV4]: settlement/{mod,program,roster,inbox,exit}.rs.
    - [BatchV4], [GenesisV4], [ColdState], [ColdRoom]: batch_v4.rs, genesis.rs, cold_state.rs,
      cold_room.rs.
    - [RosterV5], [ExitV5], [LiabilitiesV5], [ImportV5], [AdmissionV5], [BatchV5]: room_v5/.
      [LedgerV5] is the abstract escrow machine, not code.
    - [Guest], [NativeKeccak]: risc0/methods/guest/src/.
    - [Borsh], [WireV1], [WireV4], [FrameV4], [WireJournalV4]: stf-wire/src/.
    - [LigetronGuest]: ligetron-guest/src/main.rs.
    - [OpcodeGadgets]: stf-core/src/opcode_gadgets.rs and opcode_manifest.rs.
    - [HostWitness], [LivePrepare], [HostHosting]: risc0/host/src/witness.rs, live_prepare.rs,
      and hosting.rs with the journal check of receipt.rs.

    ** How the state and the operations correspond

    Rust structs are records with the source's fields behind a short prefix; [BTreeMap] and
    [BTreeSet] are [gmap] and [gset], iterated in key order by [sorted_entries]; [Vec] is a list.
    Integers, [U256], [Address] and [B256] are [Z] and keep their width: checked, saturating and
    wrapping operations are written out, and [usize] is that of the 32-bit guest.  A function
    that mutates its argument returns the new value; a [for] loop is [for_each] over the record
    of its mutable locals; [Result] is [result], [?] is [let?] and an early [return Err] is
    [fail_if].  A panic the proof cannot survive is an [Err] as well.  Error strings are the
    source's without interpolated values.

    Code that is not in the repository is a parameter, a class with its documented laws beside
    it and an instance for the witnesses: [Keccak]/[KeccakRange], [KeccakPermutation]/
    [KeccakLanes], [Sha256], [BlsScalar] with [ScalarField]/[ScalarEncoding]/[ScalarWide], [Revm]/
    [RevmLaws], [Evm], [OsakaPrecompiles], [AlloyTrie], [TxCodec], [AlloyRlp]/[RlpLaws],
    [AlloyRlpReader], [ExitProgramCodec]/[ExitCodecTyped], [PresetCodec], [StrictBincode],
    [Borsh]/[BorshLaws], [Interpreter]/[InterpreterLaws],
    [OsakaInventory], [HostBincode]/[HostBincodeLaws], [HostText]/[HexInjective], [K256],
    [LiveJson]/[LiveJsonLaws], [CKzg], [Receipts], [HostingJson],
    [HostingBincode]/[HostingBincodeLaws].
    No hash function is assumed injective: a binding theorem has the premise that the function
    does not collide on the finitely many preimages it names.

    ** What the theorems show

    - Batches: an accepted v6 batch is a transition of the room ([batch_v5_sound]: identity,
      authenticated opening, system effects, certified policy, blocks in order, terminal root,
      pins and writes, participants); what its roster, liability, admission and exit checks
      establish is stated apart ([roster_departure_paid], [liabilities_exact],
      [liabilities_refine_ledger], [admissions_exact], [exit_allocation_sound]). Every forced
      id between its cursors is disposed of ([forced_not_censored]). A v4 batch, a genesis and
      a cold preparation have their own contracts ([batch_v4_sound], [genesis_sound],
      [cold_room_sound]); a template opens the first batch, and a composed batch is the plain
      batch plus the cold link, which preserves the template.
    - Money: escrow vectors run the abstract ledger ([liabilities_refine_ledger]), the
      settlement conserves every asset, exits and the closing sweep are exact and within backing.
    - Rosters and inboxes: lifecycle invariants, paid departures, exact application.
    - Confinement: a certified preset or policy pins code, calls and storage; execution and
      admission of a block are characterised exactly.
    - Receipts: what a receipt of the guest attests, down to the batch run behind the committed
      hash and the members behind an aggregate; what satisfies the Ligetron circuit.
    - Data availability: the validator accepts exactly the openings of the packed data; the
      barycentric routine evaluates the interpolating polynomial; blobs read back to the data.
    - Wire: canonical frames and journals, typed expansion of every decoded message, refusal of
      wrong versions.
    - Interpreter: the fused opcodes change the end of no run.
    - Host: an accepted witness is the one the guest runs and its job id names it; a live
      batch is prepared exactly under its conditions, as the one batch of the request's items
      that the guest can execute from the same opening ([prepare_input_exact]), and what
      preparation announces the guest commits within the witness limit
      ([prepared_batch_provable]); collected receipts discharge the guest's assumptions; a blob bundle is the one the guest accepts.

    ** Recursion, fuel and bounds

    Loops are structural, except the Merkle loop ([length leaves] rounds, enough by
    [tree_fold_singleton]), binary search (its window shrinks, [binary_search_total]), the
    extended Euclid of the scalar instances and the challenge counter, which the source bounds by
    the range of [u32] and the model searches in that order.

    ** Not modelled

    - revm's interpreter, alloy's tries and codecs, serde, bincode, borsh, c-kzg, RISC Zero and
      the accelerators: libraries, parameters above.
    - The EIP-7610 create override of policy/inspector.rs, which acts on revm's journal, and the
      host-only motif counters.
    - The rest of the RISC Zero host (HTTP server, CLI, proving pipeline, GPU telemetry, JSON
      renderings, fixtures), the JSON bridge and binaries of stf-wire, stf-wasm and wasm-verifier:
      input and output around the modelled functions.
    - ligetron/sdk-rust, vendor and spikes: third-party or experimental code. *)

From stdpp Require Export base gmap list strings sorting.
From Stdlib Require Export ZArith Lia.
Open Scope Z_scope.

Declare Scope zk_scope.
Delimit Scope zk_scope with zk.
Global Open Scope zk_scope.

(** ** Byte strings and machine integers

    Every integer type of the source ([u8] .. [u64], [usize], [U256]) and the
    two fixed-size byte arrays [Address] (20 bytes) and [B256] (32 bytes) are
    represented by [Z]; the arrays by the value of their big-endian reading,
    so that the lexicographic [Ord] of the arrays is [Z.lt].  A byte is a [Z]
    in [0, 256). *)
Abbreviation bytes := (list Z).

Definition U64_MAX : Z := 2 ^ 64 - 1.
Definition U256_MAX : Z := 2 ^ 256 - 1.

(** [usize::MAX] of the riscv32 guest, the program the proofs are about. *)
Definition USIZE_MAX : Z := 2 ^ 32 - 1.

Definition in_u8 (x : Z) : Prop := 0 <= x < 2 ^ 8.
Definition in_u64 (x : Z) : Prop := 0 <= x < 2 ^ 64.
Definition in_u160 (x : Z) : Prop := 0 <= x < 2 ^ 160.
Definition in_u256 (x : Z) : Prop := 0 <= x < 2 ^ 256.
Definition is_byte (x : Z) : Prop := 0 <= x < 256.

(** Width-aware arithmetic of the Rust standard library and of [ruint]'s
    [U256]: [checked_*] return [None] on overflow, [saturating_add] clamps. *)
Definition checked_add (max a b : Z) : option Z :=
  if a + b <=? max then Some (a + b) else None.
Definition checked_sub (a b : Z) : option Z :=
  if b <=? a then Some (a - b) else None.
Definition checked_mul (max a b : Z) : option Z :=
  if a * b <=? max then Some (a * b) else None.
Definition saturating_add (max a b : Z) : Z := Z.min max (a + b).
Definition saturating_sub (a b : Z) : Z := Z.max 0 (a - b).

Definition Address_ZERO : Z := 0.
Definition B256_ZERO : Z := 0.

(** ** Results: fallible code *)
Inductive result (E A : Type) : Type :=
| Ok (a : A)
| Err (e : E).
Arguments Ok {E A} a.
Arguments Err {E A} e.

Definition rbind {E A B} (m : result E A) (k : A -> result E B) : result E B :=
  match m with Ok a => k a | Err e => Err e end.

Definition map_err {E F A} (f : E -> F) (m : result E A) : result F A :=
  match m with Ok a => Ok a | Err e => Err (f e) end.

Definition ok_or {E A} (o : option A) (e : E) : result E A :=
  match o with Some a => Ok a | None => Err e end.

Definition is_ok {E A} (m : result E A) : bool :=
  match m with Ok _ => true | Err _ => false end.

(** [let? x := e in k] is Rust's [let x = e?; k]; [fail_if b with e in k] is
    [if b { return Err(e) }; k]. *)
Notation "'let?' x ':=' e 'in' k" := (rbind e (fun x => k))
  (at level 10, x pattern, e at level 100, k at level 200) : zk_scope.
Notation "'fail_if' b 'with' e 'in' k" := (if b then Err e else k)
  (at level 10, b at level 100, e at level 100, k at level 200) : zk_scope.

(** A [for] loop over a slice that threads its mutable locals and may return
    early with an error. *)
Fixpoint for_each {E S A} (body : S -> A -> result E S) (s : S) (l : list A)
  : result E S :=
  match l with
  | [] => Ok s
  | x :: l' => let? s' := body s x in for_each body s' l'
  end.

(** [iter().enumerate()]. *)
Fixpoint enumerate_from {A} (i : Z) (l : list A) : list (Z * A) :=
  match l with
  | [] => []
  | x :: l' => (i, x) :: enumerate_from (i + 1) l'
  end.
Definition enumerate {A} (l : list A) : list (Z * A) := enumerate_from 0 l.

Definition zlen {A} (l : list A) : Z := Z.of_nat (length l).

(** Indexing a slice by a machine integer; [None] is the panic of [v[i]]. *)
Definition znth {A} (l : list A) (i : Z) : option A :=
  if i <? 0 then None else l !! Z.to_nat i.

Definition zsum (l : list Z) : Z := foldr Z.add 0 l.

(** [windows(2).any(|p| p[0] >= p[1])] negated: strictly increasing. *)
Fixpoint strictly_sorted (l : list Z) : bool :=
  match l with
  | [] => true
  | x :: l' =>
      match l' with
      | [] => true
      | y :: _ => (x <? y) && strictly_sorted l'
      end
  end.

(** [previous.is_some_and(|p| p >= x)]: the running order check of a loop. *)
Definition not_after (previous : option Z) (x : Z) : bool :=
  match previous with Some p => x <=? p | None => false end.

(** ** Tactics *)

(** Invert every successful step of a chain of [let?]/[fail_if] in the
    context. *)
Ltac inv_ok_step :=
  match goal with
  | H : Ok _ = Ok _ |- _ => injection H as H; try subst
  | H : Err _ = Ok _ |- _ => discriminate H
  | H : Ok _ = Err _ |- _ => discriminate H
  | H : rbind ?m _ = Ok _ |- _ =>
      let E := fresh "E" in destruct m eqn:E; cbn [rbind] in H
  | H : ok_or ?o _ = Ok _ |- _ =>
      let E := fresh "E" in destruct o eqn:E; cbn [ok_or] in H
  | H : map_err _ ?m = Ok _ |- _ =>
      let E := fresh "E" in destruct m eqn:E; cbn [map_err] in H
  | H : (if ?b then Err _ else _) = Ok _ |- _ =>
      let E := fresh "G" in destruct b eqn:E
  end.
Ltac inv_ok := repeat inv_ok_step.

(** Split boolean guards into propositions on [Z]. *)
Ltac bool_to_prop :=
  repeat match goal with
  | H : (_ || _)%bool = false |- _ => apply orb_false_iff in H; destruct H
  | H : (_ && _)%bool = true |- _ => apply andb_true_iff in H; destruct H
  | H : negb _ = false |- _ => apply negb_false_iff in H
  | H : negb _ = true |- _ => apply negb_true_iff in H
  | H : (_ =? _) = true |- _ => apply Z.eqb_eq in H
  | H : (_ =? _) = false |- _ => apply Z.eqb_neq in H
  | H : (_ <? _) = true |- _ => apply Z.ltb_lt in H
  | H : (_ <? _) = false |- _ => apply Z.ltb_ge in H
  | H : (_ <=? _) = true |- _ => apply Z.leb_le in H
  | H : (_ <=? _) = false |- _ => apply Z.leb_gt in H
  | H : bool_decide _ = true |- _ => apply bool_decide_eq_true in H
  | H : bool_decide _ = false |- _ => apply bool_decide_eq_false in H
  end.

(** ** Big-endian encodings: [to_be_bytes], [from_be_bytes] *)
Fixpoint be_bytes (n : nat) (z : Z) : bytes :=
  match n with
  | O => []
  | S n' => (z / 256 ^ Z.of_nat n') mod 256 :: be_bytes n' z
  end.

Fixpoint of_be_acc (acc : Z) (b : bytes) : Z :=
  match b with [] => acc | x :: b' => of_be_acc (acc * 256 + x) b' end.
Definition of_be (b : bytes) : Z := of_be_acc 0 b.

(** Byte-string literals [b"..."]. *)
Definition b_ (s : string) : bytes :=
  map (fun a => Z.of_N (Ascii.N_of_ascii a)) (String.list_ascii_of_string s).

(** ** Byte frames *)
(** [<[u8]>::strip_prefix]. *)
Fixpoint strip_prefix (prefix input : bytes) : option bytes :=
  match prefix, input with
  | [], _ => Some input
  | p :: prefix, x :: input => if p =? x then strip_prefix prefix input else None
  | _ :: _, [] => None
  end.

(** [u32::try_from]. *)
Definition u32_try_from (n : Z) : option Z := if n <? 2 ^ 32 then Some n else None.

(** [.expect(..)] on an error of the program. *)
Definition expect {E A} (message : string) (m : result E A) : result string A :=
  map_err (fun _ => message) m.

Lemma length_be_bytes n z : length (be_bytes n z) = n.
Proof. induction n; simpl; auto. Qed.

Lemma be_bytes_wf n z : Forall is_byte (be_bytes n z).
Proof.
  induction n; simpl; constructor; auto.
  unfold is_byte. apply Z.mod_pos_bound. lia.
Qed.

Lemma of_be_acc_spec b acc :
  of_be_acc acc b = acc * 256 ^ Z.of_nat (length b) + of_be b.
Proof.
  unfold of_be. revert acc. induction b as [|x b IH]; intros acc.
  { simpl. lia. }
  cbn [of_be_acc length].
  rewrite IH, (IH (0 * 256 + x)), Nat2Z.inj_succ, Z.pow_succ_r by lia. ring.
Qed.

Lemma of_be_be_bytes n z : of_be (be_bytes n z) = z mod 256 ^ Z.of_nat n.
Proof.
  induction n as [|n IH].
  { simpl. rewrite Z.mod_1_r. reflexivity. }
  unfold of_be. cbn [be_bytes of_be_acc].
  rewrite of_be_acc_spec, length_be_bytes, IH.
  rewrite Nat2Z.inj_succ, Z.pow_succ_r by lia.
  set (p := 256 ^ Z.of_nat n).
  assert (0 < p) by (apply Z.pow_pos_nonneg; lia).
  rewrite (Z.mul_comm 256 p), Z.rem_mul_r by lia. ring.
Qed.

Lemma of_be_bound b :
  Forall is_byte b -> 0 <= of_be b < 256 ^ Z.of_nat (length b).
Proof.
  induction b as [|x b IH]; intros H.
  { unfold of_be. simpl. lia. }
  inversion H as [|? ? Hx Hb]; subst. specialize (IH Hb). unfold is_byte in Hx.
  unfold of_be. cbn [of_be_acc length]. rewrite of_be_acc_spec.
  rewrite Nat2Z.inj_succ, Z.pow_succ_r by lia. nia.
Qed.

Lemma be_bytes_mod n m z :
  (n <= m)%nat -> be_bytes n (z mod 256 ^ Z.of_nat m) = be_bytes n z.
Proof.
  induction n as [|n IH]; intros Hle; [reflexivity|].
  cbn [be_bytes]. f_equal; [|apply IH; lia].
  assert (Hp : 256 ^ Z.of_nat m
               = 256 ^ Z.of_nat n * (256 * 256 ^ Z.of_nat (m - S n))).
  { rewrite <- Z.pow_succ_r by lia. rewrite <- Z.pow_add_r by lia.
    f_equal. lia. }
  rewrite Hp.
  set (p := 256 ^ Z.of_nat n). set (q := 256 ^ Z.of_nat (m - S n)).
  assert (0 < p) by (apply Z.pow_pos_nonneg; lia).
  assert (0 < q) by (apply Z.pow_pos_nonneg; lia).
  rewrite Z.rem_mul_r by lia.
  rewrite (Z.mul_comm p), Z.div_add by lia.
  rewrite Z.div_small by (apply Z.mod_pos_bound; lia).
  rewrite Z.add_0_l, Z.rem_mul_r by lia.
  rewrite Z.mul_comm, Z.mod_add by lia. apply Z.mod_mod. lia.
Qed.

Lemma be_bytes_of_be b :
  Forall is_byte b -> be_bytes (length b) (of_be b) = b.
Proof.
  induction b as [|x b IH]; intros H; [reflexivity|].
  inversion H as [|? ? Hx Hb]; subst. unfold is_byte in Hx.
  pose proof (of_be_bound b Hb) as Hbd.
  unfold of_be. cbn [of_be_acc length be_bytes]. rewrite of_be_acc_spec.
  set (p := 256 ^ Z.of_nat (length b)) in *.
  assert (0 < p) by (apply Z.pow_pos_nonneg; lia).
  f_equal.
  - rewrite Z.add_comm, Z.div_add by lia.
    rewrite Z.div_small by lia. rewrite Z.mod_small by lia. lia.
  - rewrite <- (be_bytes_mod (length b) (length b)) by lia. fold p.
    rewrite Z.add_comm, Z.mod_add by lia.
    rewrite Z.mod_small by lia. apply IH, Hb.
Qed.

(** Encoding at width [n] is injective on the values that fit the width. *)
Lemma be_bytes_inj n x y :
  0 <= x < 256 ^ Z.of_nat n -> 0 <= y < 256 ^ Z.of_nat n ->
  be_bytes n x = be_bytes n y -> x = y.
Proof.
  intros Hx Hy H. apply (f_equal of_be) in H.
  rewrite !of_be_be_bytes in H. rewrite !Z.mod_small in H by lia. exact H.
Qed.

(** Two concatenations with heads of equal length agree piecewise. *)
Lemma app_inj_len {A} (a a' b b' : list A) :
  length a = length a' -> a ++ b = a' ++ b' -> a = a' /\ b = b'.
Proof. intros Hl H. apply app_inj_1 in H; auto. Qed.

Lemma pow256_8 : 256 ^ Z.of_nat 8 = 2 ^ 64. Proof. reflexivity. Qed.
Lemma pow256_20 : 256 ^ Z.of_nat 20 = 2 ^ 160. Proof. reflexivity. Qed.
Lemma pow256_32 : 256 ^ Z.of_nat 32 = 2 ^ 256. Proof. reflexivity. Qed.

#[global] Arguments be_bytes : simpl never.

(** ** Loop rules *)
Lemma for_each_app {E S A} (body : S -> A -> result E S) s l1 l2 :
  for_each body s (l1 ++ l2)
  = (let? s' := for_each body s l1 in for_each body s' l2).
Proof.
  revert s. induction l1 as [|x l1 IH]; intros s; [reflexivity|].
  cbn [for_each app]. destruct (body s x); cbn [rbind]; auto.
Qed.

(** Invariant rule: [I] relates the processed prefix to the loop state. *)
Lemma for_each_inv {E S A} (I : list A -> S -> Prop)
    (body : S -> A -> result E S) s l s' :
  I [] s ->
  (forall done x s1 s2, I done s1 -> x ∈ l -> body s1 x = Ok s2 ->
                        I (done ++ [x]) s2) ->
  for_each body s l = Ok s' -> I l s'.
Proof.
  intros H0 Hstep.
  assert (G : forall rest done s1,
      I done s1 -> (forall x, x ∈ rest -> x ∈ l) ->
      for_each body s1 rest = Ok s' -> I (done ++ rest) s').
  { induction rest as [|x rest IH]; intros done s1 HI Hin H.
    - cbn in H. injection H as ->. rewrite app_nil_r. exact HI.
    - cbn [for_each] in H. inv_ok.
      replace (done ++ x :: rest) with ((done ++ [x]) ++ rest)
        by (rewrite <- app_assoc; reflexivity).
      eapply IH; [|intros y Hy; apply Hin; right; exact Hy|exact H].
      eapply Hstep; [exact HI| |eassumption]. apply Hin. left. }
  intros H. apply (G l [] s); auto.
Qed.

(** Progress rule: if the invariant makes every body step succeed, the loop
    succeeds. *)
Lemma for_each_total {E S A} (I : list A -> S -> Prop)
    (body : S -> A -> result E S) s l :
  I [] s ->
  (forall done x rest s1, l = done ++ x :: rest -> I done s1 ->
     exists s2, body s1 x = Ok s2 /\ I (done ++ [x]) s2) ->
  exists s', for_each body s l = Ok s' /\ I l s'.
Proof.
  intros H0 Hstep.
  assert (G : forall rest done s1, l = done ++ rest -> I done s1 ->
      exists s', for_each body s1 rest = Ok s' /\ I l s').
  { induction rest as [|x rest IH]; intros done s1 Hl HI.
    - rewrite app_nil_r in Hl. subst. exists s1. auto.
    - destruct (Hstep done x rest s1 Hl HI) as (s2 & Hb & HI2).
      cbn [for_each]. rewrite Hb. cbn [rbind].
      apply (IH (done ++ [x])); [|exact HI2].
      rewrite <- app_assoc. exact Hl. }
  apply (G l [] s); auto.
Qed.

(** Two loops whose bodies agree on the traversed elements agree. *)
Lemma for_each_ext {E S A} (f g : S -> A -> result E S) s l :
  (forall s x, x ∈ l -> f s x = g s x) -> for_each f s l = for_each g s l.
Proof.
  revert s. induction l as [|x l IH]; intros s H; [reflexivity|].
  cbn [for_each]. rewrite (H s x) by left.
  destruct (g s x); cbn [rbind]; auto. apply IH. intros; apply H; right; auto.
Qed.

(** ** Powers of two ([is_power_of_two], [next_power_of_two] of [u64]) *)
Definition is_power_of_two (x : Z) : bool := (0 <? x) && (x =? 2 ^ Z.log2 x).
Definition next_power_of_two (x : Z) : Z := if x <=? 1 then 1 else 2 ^ Z.log2_up x.

Lemma is_power_of_two_spec x :
  is_power_of_two x = true -> exists k, x = Z.of_nat (2 ^ k)%nat.
Proof.
  unfold is_power_of_two. intros H. bool_to_prop.
  exists (Z.to_nat (Z.log2 x)).
  rewrite Nat2Z.inj_pow, Z2Nat.id by apply Z.log2_nonneg. assumption.
Qed.

Lemma is_power_of_two_pow k : 0 <= k -> is_power_of_two (2 ^ k) = true.
Proof.
  intros Hk. unfold is_power_of_two. rewrite Z.log2_pow2 by lia.
  apply andb_true_iff. split; [|apply Z.eqb_refl].
  apply Z.ltb_lt, Z.pow_pos_nonneg; lia.
Qed.

Lemma next_power_of_two_spec x :
  1 <= x -> is_power_of_two (next_power_of_two x) = true /\
            x <= next_power_of_two x /\
            (forall p, is_power_of_two p = true -> x <= p -> next_power_of_two x <= p).
Proof.
  intros Hx. unfold next_power_of_two. destruct (x <=? 1) eqn:E; bool_to_prop.
  - split; [reflexivity|]. split; [lia|].
    intros p Hp Hle. lia.
  - pose proof (Z.log2_up_spec x ltac:(lia)) as [Hlo Hhi].
    split; [apply is_power_of_two_pow, Z.log2_up_nonneg|]. split; [lia|].
    intros p Hp Hle. apply is_power_of_two_spec in Hp as [k Hp].
    rewrite Nat2Z.inj_pow in Hp. subst p. apply Z.pow_le_mono_r; [lia|].
    apply Z.log2_up_le_pow2; lia.
Qed.

(** ** Lists ordered by a strictly increasing key *)
Definition key_sorted {A} (key : A -> Z) (l : list A) : Prop :=
  StronglySorted (fun a b => key a < key b) l.

Lemma key_sorted_NoDup {A} (key : A -> Z) l : key_sorted key l -> NoDup (map key l).
Proof.
  induction 1 as [|a l Hs IH Ha]; cbn; constructor; auto.
  intros Hin. apply list_elem_of_fmap in Hin as (b & Hk & Hb).
  rewrite Forall_forall in Ha. specialize (Ha b Hb). lia.
Qed.

(** A strictly sorted list is determined by its set of elements. *)
Lemma key_sorted_ext {A} (key : A -> Z) (l1 l2 : list A) :
  key_sorted key l1 -> key_sorted key l2 -> (forall x, x ∈ l1 <-> x ∈ l2) -> l1 = l2.
Proof.
  intros H1. revert l2. induction H1 as [|a l1 Hs IH Ha]; intros l2 H2 Hset.
  - destruct l2 as [|b l2]; [reflexivity|].
    assert (G : b ∈ @nil A) by (apply Hset; left). inversion G.
  - destruct H2 as [|b l2 Hs2 Hb].
    { exfalso. assert (G : a ∈ @nil A) by (apply Hset; left). inversion G. }
    rewrite Forall_forall in Ha, Hb.
    assert (a = b) as <-.
    { assert (Ha' : a ∈ b :: l2) by (apply Hset; left).
      assert (Hb' : b ∈ a :: l1) by (apply Hset; left).
      apply elem_of_cons in Ha' as [|Ha']; [auto|].
      apply elem_of_cons in Hb' as [|Hb']; [auto|].
      specialize (Ha b Hb'). specialize (Hb a Ha'). lia. }
    f_equal. apply IH; [exact Hs2|]. intros x. split; intros Hx.
    + assert (G : x ∈ a :: l2) by (apply Hset; right; exact Hx).
      apply elem_of_cons in G as [->|G]; [|exact G]. specialize (Ha a Hx). lia.
    + assert (G : x ∈ a :: l1) by (apply Hset; right; exact Hx).
      apply elem_of_cons in G as [->|G]; [|exact G]. specialize (Hb a Hx). lia.
Qed.

Lemma StronglySorted_snoc {A} (R : A -> A -> Prop) l x :
  StronglySorted R l -> Forall (fun y => R y x) l -> StronglySorted R (l ++ [x]).
Proof.
  induction 1 as [|a l Hs IH Ha]; intros Hx; cbn.
  - repeat constructor.
  - inversion Hx; subst. constructor; [auto|].
    apply Forall_app. split; [exact Ha|]. constructor; auto.
Qed.

(** The [previous] variable of an order-checking loop holds the last key. *)
Lemma key_sorted_snoc {A} (key : A -> Z) l x previous :
  key_sorted key l -> previous = (key <$> last l) ->
  not_after previous (key x) = false -> key_sorted key (l ++ [x]).
Proof.
  intros Hs Hp Hn. apply StronglySorted_snoc; [exact Hs|].
  destruct (last l) as [y|] eqn:El; cbn in Hp; subst previous.
  - cbn in Hn. bool_to_prop.
    apply last_Some in El as [l' ->].
    apply Forall_forall. intros z Hz. apply elem_of_app in Hz as [Hz|Hz].
    + assert (key z < key y); [|lia].
      clear -Hs Hz. induction l' as [|a l' IH]; [inversion Hz|].
      inversion Hs as [|? ? Hs' Ha]; subst. rewrite Forall_forall in Ha.
      apply elem_of_cons in Hz as [->|Hz]; [|auto].
      apply Ha, elem_of_app. right. left.
    + apply list_elem_of_singleton in Hz as ->. lia.
  - apply last_None in El as ->. constructor.
Qed.

(** ** BTreeMap iteration: the entries of a map in ascending key order *)
Definition entry_le {V} (p q : Z * V) : Prop := p.1 <= q.1.
#[export] Instance entry_le_dec {V} : RelDecision (@entry_le V).
Proof. intros p q. unfold entry_le. apply _. Defined.
#[export] Instance entry_le_total {V} : Total (@entry_le V).
Proof. intros p q. unfold entry_le. lia. Qed.
#[export] Instance entry_le_trans {V} : Transitive (@entry_le V).
Proof. intros p q r. unfold entry_le. lia. Qed.

Definition sorted_entries {V} (m : gmap Z V) : list (Z * V) :=
  merge_sort entry_le (map_to_list m).
Definition sorted_keys {V} (m : gmap Z V) : list Z := map fst (sorted_entries m).

Lemma sorted_entries_perm {V} (m : gmap Z V) : sorted_entries m ≡ₚ map_to_list m.
Proof. apply merge_sort_Permutation. Qed.

Lemma sorted_entries_elem {V} (m : gmap Z V) k v :
  (k, v) ∈ sorted_entries m <-> m !! k = Some v.
Proof. rewrite sorted_entries_perm. apply elem_of_map_to_list. Qed.

Lemma sorted_keys_elem {V} (m : gmap Z V) k : k ∈ sorted_keys m <-> is_Some (m !! k).
Proof.
  unfold sorted_keys. rewrite list_elem_of_fmap. split.
  - intros ([k' v] & -> & H). apply sorted_entries_elem in H. cbn. eauto.
  - intros [v H]. exists (k, v). split; [reflexivity|]. apply sorted_entries_elem, H.
Qed.

Lemma sorted_entries_sorted {V} (m : gmap Z V) : key_sorted fst (sorted_entries m).
Proof.
  assert (Hs : StronglySorted entry_le (sorted_entries m))
    by (apply StronglySorted_merge_sort; apply _).
  assert (Hn : NoDup (map fst (sorted_entries m))).
  { unfold sorted_entries. change (map fst ?l) with (fst <$> l).
    rewrite merge_sort_Permutation. apply NoDup_fst_map_to_list. }
  revert Hs Hn. generalize (sorted_entries m). intros l Hs.
  induction Hs as [|a l Hs IH Ha]; intros Hn; constructor.
  - apply IH. inversion Hn; assumption.
  - inversion Hn as [|? ? Hnin Hn']; subst.
    rewrite Forall_forall in *. intros b Hb. specialize (Ha b Hb).
    unfold entry_le in Ha.
    assert (a.1 <> b.1); [|lia]. intros He. apply Hnin. rewrite He.
    apply list_elem_of_fmap. eauto.
Qed.

(** Sums of a measure over the entries of a map. *)
Definition map_sum `{Countable K} {V} (f : K -> V -> Z) (m : gmap K V) : Z :=
  map_fold (fun k v acc => f k v + acc) 0 m.

Section MapSum.
Context `{Countable K} {V : Type} (f : K -> V -> Z).
Implicit Types m : gmap K V.

Lemma map_sum_empty : map_sum f (∅ : gmap K V) = 0.
Proof. reflexivity. Qed.

Lemma map_sum_insert m k v :
  m !! k = None -> map_sum f (<[k := v]> m) = f k v + map_sum f m.
Proof.
  intros Hk. unfold map_sum.
  rewrite map_fold_insert_L; [reflexivity| |exact Hk].
  intros. lia.
Qed.

Lemma map_sum_delete m k v :
  m !! k = Some v -> map_sum f m = f k v + map_sum f (delete k m).
Proof.
  intros Hk. rewrite <- (insert_delete_id m k v Hk) at 1.
  apply map_sum_insert, lookup_delete_eq.
Qed.

Lemma map_sum_update m k v v' :
  m !! k = Some v -> map_sum f (<[k := v']> m) = map_sum f m - f k v + f k v'.
Proof.
  intros Hk. rewrite <- insert_delete_eq.
  rewrite map_sum_insert by apply lookup_delete_eq.
  rewrite (map_sum_delete m k v Hk). lia.
Qed.
End MapSum.

(** Adding [x] to an entry that is zero when absent. *)
Lemma map_sum_add `{Countable K} (f : K -> Z -> Z) (m : gmap K Z) k x :
  (forall v w, f k (v + w) = f k v + f k w) ->
  map_sum f (<[k := default 0 (m !! k) + x]> m) = map_sum f m + f k x.
Proof.
  intros Hf. destruct (m !! k) as [v|] eqn:E; cbn.
  - rewrite (map_sum_update f m k v) by exact E. rewrite Hf. lia.
  - rewrite map_sum_insert by exact E. rewrite Z.add_0_l. lia.
Qed.

Lemma zsum_app l1 l2 : zsum (l1 ++ l2) = zsum l1 + zsum l2.
Proof. induction l1 as [|x l1 IH]; [reflexivity|]. unfold zsum in *. cbn. lia. Qed.

Lemma zsum_nonneg l : Forall (fun x => 0 <= x) l -> 0 <= zsum l.
Proof. induction 1; unfold zsum in *; cbn; lia. Qed.

(** Uniqueness checks by counting: [set.len() == list.len()]. *)
Lemma size_list_to_set_le `{Countable A} (l : list A) :
  (size (list_to_set l : gset A) <= length l)%nat.
Proof.
  induction l as [|x l IH]; cbn; [rewrite size_empty; lia|].
  pose proof (size_union_alt ({[x]} : gset A) (list_to_set l)) as Hs.
  rewrite size_singleton in Hs.
  assert (size ((list_to_set l : gset A) ∖ {[x]}) <= size (list_to_set l : gset A))%nat
    by (apply subseteq_size; set_solver). lia.
Qed.

Lemma size_list_to_set_NoDup `{Countable A} (l : list A) :
  size (list_to_set l : gset A) = length l <-> NoDup l.
Proof.
  split; [|apply size_list_to_set].
  induction l as [|x l IH]; intros Hs; constructor.
  - intros Hx. cbn in Hs.
    rewrite (subseteq_union_1_L {[x]} (list_to_set l)) in Hs by set_solver.
    pose proof (size_list_to_set_le l). lia.
  - apply IH. cbn in Hs.
    pose proof (size_union_alt ({[x]} : gset A) (list_to_set l)) as Hu.
    rewrite size_singleton in Hu.
    assert (size ((list_to_set l : gset A) ∖ {[x]}) <= size (list_to_set l : gset A))%nat
      by (apply subseteq_size; set_solver).
    pose proof (size_list_to_set_le l). lia.
Qed.

(** ** enumerate *)
Lemma enumerate_from_snoc {A} i (l : list A) x :
  enumerate_from i (l ++ [x]) = enumerate_from i l ++ [(i + zlen l, x)].
Proof.
  revert i. induction l as [|a l IH]; intros i; cbn.
  - unfold zlen. cbn. do 2 f_equal. lia.
  - rewrite IH. unfold zlen. cbn. do 4 f_equal. lia.
Qed.
Lemma enumerate_snoc {A} (l : list A) x : enumerate (l ++ [x]) = enumerate l ++ [(zlen l, x)].
Proof. unfold enumerate. rewrite enumerate_from_snoc. do 3 f_equal. Qed.
Lemma enumerate_from_prefix {A} (l : list A) i done x rest :
  enumerate_from i l = done ++ x :: rest ->
  exists l1 l2, l = l1 ++ x.2 :: l2 /\ done = enumerate_from i l1 /\ x.1 = i + zlen l1.
Proof.
  revert i l. induction done as [|d done IH]; intros i l H.
  - destruct l as [|a l]; [discriminate|]. cbn in H. injection H as <- <-.
    exists [], l. cbn. unfold zlen. cbn. split_and!; auto. lia.
  - destruct l as [|a l]; [discriminate|]. cbn in H. injection H as <- H.
    apply IH in H as (l1 & l2 & -> & -> & Hx).
    exists (a :: l1), l2. split_and!; auto. rewrite Hx. unfold zlen. cbn. lia.
Qed.

(** [option.is_some()] as a match. *)
Lemma bool_decide_is_Some {A} (o : option A) :
  bool_decide (is_Some o) = match o with Some _ => true | None => false end.
Proof. destruct o; [apply bool_decide_eq_true; eauto|apply bool_decide_eq_false; intros [? ?]; discriminate]. Qed.

Lemma enumerate_from_snd {A} i (l : list A) : map snd (enumerate_from i l) = l.
Proof. revert i. induction l as [|x l IH]; intros i; cbn; [|rewrite IH]; reflexivity. Qed.
Lemma enumerate_snd {A} (l : list A) : map snd (enumerate l) = l.
Proof. apply enumerate_from_snd. Qed.

Lemma enumerate_from_elem {A} i (l : list A) k x :
  l !! k = Some x -> (i + Z.of_nat k, x) ∈ enumerate_from i l.
Proof.
  revert i k. induction l as [|y l IH]; intros i [|k] H; try discriminate; cbn in H |- *.
  - injection H as ->. replace (i + Z.of_nat 0) with i by lia. left.
  - right. replace (i + Z.of_nat (S k)) with (i + 1 + Z.of_nat k) by lia. apply IH, H.
Qed.
Lemma enumerate_elem {A} (l : list A) k x : l !! k = Some x -> (Z.of_nat k, x) ∈ enumerate l.
Proof. apply (enumerate_from_elem 0). Qed.

(** Invariant rule that also knows where in the list the element stands. *)
Lemma for_each_inv_at {E S A} (I : list A -> S -> Prop)
    (body : S -> A -> result E S) s l s' :
  I [] s ->
  (forall done x rest s1 s2, l = done ++ x :: rest -> I done s1 -> body s1 x = Ok s2 ->
                             I (done ++ [x]) s2) ->
  for_each body s l = Ok s' -> I l s'.
Proof.
  intros H0 Hstep.
  assert (G : forall rest done s1, l = done ++ rest -> I done s1 ->
      for_each body s1 rest = Ok s' -> I l s').
  { induction rest as [|x rest IH]; intros done s1 Hl HI H.
    - cbn in H. injection H as <-. rewrite app_nil_r in Hl. subst. exact HI.
    - cbn [for_each] in H. inv_ok. apply (IH (done ++ [x]) a); [|eauto|exact H].
      rewrite <- app_assoc. exact Hl. }
  intros H. apply (G l [] s); auto.
Qed.

Lemma NoDup_map_middle {A B} (f : A -> B) done x rest :
  NoDup (map f (done ++ x :: rest)) -> f x ∉ map f done.
Proof.
  rewrite map_app. cbn. intros Hn Hx. apply NoDup_app in Hn as (_ & Hd & _).
  apply (Hd _ Hx). left.
Qed.

(** A map sum is a sum over any duplicate-free list of keys that covers it. *)
Lemma map_sum_keys `{Countable K} (f : K -> Z -> Z) (m : gmap K Z) (L : list K) :
  NoDup L -> (forall k, f k 0 = 0) ->
  (forall k v, m !! k = Some v -> f k v <> 0 -> k ∈ L) ->
  map_sum f m = zsum (map (fun k => f k (default 0 (m !! k))) L).
Proof.
  intros Hn Hf. revert m. induction Hn as [|k L Hk Hn IH]; intros m Hc.
  - revert Hc. induction m as [|k v m Hkm IHm] using map_ind; intros Hc; [reflexivity|].
    rewrite map_sum_insert by exact Hkm. rewrite IHm.
    + destruct (decide (f k v = 0)) as [->|Hne]; [reflexivity|].
      pose proof (Hc k v (lookup_insert_eq _ _ _) Hne) as Hin. inversion Hin.
    + intros k' v' Hk' Hne. apply (Hc k' v'); [|exact Hne].
      rewrite lookup_insert_ne; [exact Hk'|]. intros ->. congruence.
  - assert (HL : zsum (map (fun k0 => f k0 (default 0 (delete k m !! k0))) L)
            = zsum (map (fun k0 => f k0 (default 0 (m !! k0))) L)).
    { f_equal. apply map_ext_in. intros k' Hk'. apply list_elem_of_In in Hk'.
      rewrite lookup_delete_ne; [reflexivity|]. intros ->. contradiction. }
    change (zsum (map ?g (k :: L))) with (g k + zsum (map g L)). cbv beta.
    rewrite <- HL, <- IH.
    + destruct (m !! k) as [v|] eqn:E; cbn.
      * apply map_sum_delete, E.
      * rewrite Hf, delete_id by exact E. lia.
    + intros k' v' Hd Hne. apply lookup_delete_Some in Hd as [Hkk Hm].
      pose proof (Hc k' v' Hm Hne) as Hin. apply elem_of_cons in Hin as [->|]; [done|assumption].
Qed.

(** A list sorted by a key without repeated keys is strictly sorted. *)
Lemma key_sorted_strict {A} (key : A -> Z) l :
  StronglySorted (fun a b => key a <= key b) l -> NoDup (map key l) -> key_sorted key l.
Proof.
  intros Hs. induction Hs as [|a l Hs IH Ha]; intros Hn; constructor.
  - apply IH. inversion Hn; assumption.
  - inversion Hn as [|? ? Hnin Hn']; subst.
    rewrite Forall_forall in *. intros b Hb. specialize (Ha b Hb).
    assert (key a <> key b); [|lia]. intros He. apply Hnin. rewrite He.
    apply list_elem_of_fmap. eauto.
Qed.

Lemma zsum_perm l1 l2 : Permutation l1 l2 -> zsum l1 = zsum l2.
Proof. induction 1; unfold zsum in *; cbn in *; lia. Qed.

(** ** Acceptance as an equivalence: the reading of a chain of [?] and guards *)
Lemma rbind_Ok {E A B} (m : result E A) (k : A -> result E B) b :
  rbind m k = Ok b <-> exists a, m = Ok a /\ k a = Ok b.
Proof.
  destruct m as [a|e]; cbn; [|naive_solver].
  split; [eauto|]. intros (a' & H & Hk). injection H as ->. exact Hk.
Qed.
Lemma ok_or_Ok {E A} (o : option A) (e : E) a : ok_or o e = Ok a <-> o = Some a.
Proof. destruct o; cbn; split; intros H; congruence. Qed.
Lemma fail_if_Ok {E A} (b : bool) (e : E) (k : result E A) a :
  (if b then Err e else k) = Ok a <-> b = false /\ k = Ok a.
Proof. destruct b; naive_solver. Qed.
Lemma Ok_Ok {E A} (a b : A) : @Ok E A a = Ok b <-> a = b.
Proof. split; congruence. Qed.
Lemma checked_add_Some max a b c :
  checked_add max a b = Some c <-> a + b <= max /\ c = a + b.
Proof.
  unfold checked_add. destruct (Z.leb_spec (a + b) max); split; intros H';
    [injection H'; lia|destruct H'; f_equal; lia|discriminate|lia].
Qed.
Lemma checked_sub_Some a b c : checked_sub a b = Some c <-> b <= a /\ c = a - b.
Proof.
  unfold checked_sub. destruct (Z.leb_spec b a); split; intros H';
    [injection H'; lia|destruct H'; f_equal; lia|discriminate|lia].
Qed.

(** Guards as propositions: rewrite a boolean that must be [false]. *)
Lemma negb_eqb_false a b : negb (a =? b) = false <-> a = b.
Proof. rewrite negb_false_iff. apply Z.eqb_eq. Qed.
Lemma negb_bool_decide_false (P : Prop) `{Decision P} : negb (bool_decide P) = false <-> P.
Proof. rewrite negb_false_iff. apply bool_decide_eq_true. Qed.

Lemma existsb_false_iff {A} (f : A -> bool) l :
  existsb f l = false <-> forall x, x ∈ l -> f x = false.
Proof.
  induction l as [|a l IH]; cbn; [split; [intros _ x Hx; inversion Hx|auto]|].
  rewrite orb_false_iff, IH. split.
  - intros [Ha Hl] x Hx. apply elem_of_cons in Hx as [->|Hx]; auto.
  - intros H. split; [apply H; left|]. intros x Hx. apply H. right. exact Hx.
Qed.

(** The relation a list of steps runs through. *)
Inductive runs {S A} (R : S -> A -> S -> Prop) : S -> list A -> S -> Prop :=
| runs_nil s : runs R s [] s
| runs_cons s x s1 l s2 : R s x s1 -> runs R s1 l s2 -> runs R s (x :: l) s2.

Lemma for_each_runs {E S A} (body : S -> A -> result E S) (R : S -> A -> S -> Prop) s l s' :
  (forall s x s', body s x = Ok s' <-> R s x s') ->
  for_each body s l = Ok s' <-> runs R s l s'.
Proof.
  intros Hb. revert s. induction l as [|x l IH]; intros s; cbn.
  - rewrite Ok_Ok. split; [intros ->; constructor|]. inversion 1; auto.
  - rewrite rbind_Ok. split.
    + intros (s1 & H1 & H2). econstructor; [apply Hb, H1|apply IH, H2].
    + inversion 1; subst. exists s1. split; [apply Hb; assumption|apply IH; assumption].
Qed.

Lemma runs_app {S A} (R : S -> A -> S -> Prop) s l1 l2 s1 s2 :
  runs R s l1 s1 -> runs R s1 l2 s2 -> runs R s (l1 ++ l2) s2.
Proof. induction 1; intros H2; cbn; [exact H2|]. econstructor; eauto. Qed.
Lemma runs_snoc {S A} (R : S -> A -> S -> Prop) s l x s1 s2 :
  runs R s l s1 -> R s1 x s2 -> runs R s (l ++ [x]) s2.
Proof. intros H Hx. eapply runs_app; [exact H|]. econstructor; [exact Hx|constructor]. Qed.

(** Something true of the first state and false of the last was changed by
    one of the steps. *)
Lemma runs_app_inv {S A} (R : S -> A -> S -> Prop) s l1 l2 t :
  runs R s (l1 ++ l2) t -> exists m, runs R s l1 m /\ runs R m l2 t.
Proof.
  revert s. induction l1 as [|a l1 IH]; intros s H; [exists s; split; [constructor|exact H]|].
  inversion H; subst. edestruct IH as (m & Hm & Hr); [eassumption|].
  exists m. split; [econstructor; eassumption|exact Hr].
Qed.
Lemma runs_snoc_inv {S A} (R : S -> A -> S -> Prop) s l x t :
  runs R s (l ++ [x]) t -> exists m, runs R s l m /\ R m x t.
Proof.
  intros H. apply runs_app_inv in H as (m & Hm & Hx). exists m. split; [exact Hm|].
  inversion Hx as [|? ? ? ? ? Hr Hn]; subst. inversion Hn; subst. exact Hr.
Qed.

Lemma runs_change {S A} (R : S -> A -> S -> Prop) (P : S -> Prop) `{!forall s, Decision (P s)}
    s l s' :
  runs R s l s' -> P s -> ~ P s' ->
  exists s1 x s2, x ∈ l /\ R s1 x s2 /\ P s1 /\ ~ P s2.
Proof.
  induction 1 as [|s x s1 l s2 Hx Hr IH]; intros HP HN; [contradiction|].
  destruct (decide (P s1)) as [H1|H1].
  - destruct (IH H1 HN) as (a & y & b & Hy & ?). exists a, y, b. split; [right|]; auto.
  - exists s, x, s1. split; [left|]; auto.
Qed.

Lemma last_default {A} (c : A) l d d' : List.last (c :: l) d = List.last (c :: l) d'.
Proof. revert c. induction l as [|x l IH]; intros c; [reflexivity|]. apply (IH x). Qed.

(** Floor shares never exceed what is shared out. *)
Lemma floor_shares_bound (b t : Z) (shares : list Z) :
  0 <= b -> 0 < t -> Forall (fun s => 0 <= s) shares -> zsum shares <= t ->
  zsum (map (fun s => b * s / t) shares) <= b.
Proof.
  intros Hb Ht Hs Hsum.
  assert (G : t * zsum (map (fun s => b * s / t) shares) <= b * zsum shares).
  { clear Hsum. induction Hs as [|s l Hs Hl IH]; unfold zsum in *; cbn [map foldr]; [lia|].
    pose proof (Z.mul_div_le (b * s) t Ht). lia. }
  assert (0 <= zsum shares) by (apply zsum_nonneg; exact Hs). nia.
Qed.

Lemma key_sorted_app_l {A} (key : A -> Z) l1 l2 :
  key_sorted key (l1 ++ l2) -> key_sorted key l1.
Proof.
  induction l1 as [|a l1 IH]; intros H; [constructor|].
  inversion H as [|? ? H1 H2]; subst. constructor; [apply IH, H1|].
  apply Forall_app in H2 as [? _]. assumption.
Qed.

Lemma key_sorted_last {A} (key : A -> Z) l x y :
  key_sorted key (l ++ [x]) -> y ∈ l -> key y < key x.
Proof.
  induction l as [|a l IH]; intros H Hy; [inversion Hy|].
  inversion H as [|? ? H1 H2]; subst. apply elem_of_cons in Hy as [->|Hy]; [|auto].
  rewrite Forall_forall in H2. apply H2, elem_of_app. right. left.
Qed.

(** The running order check decides strict sortedness. *)
Lemma key_sorted_snoc_iff {A} (key : A -> Z) l x :
  key_sorted key (l ++ [x]) <->
  key_sorted key l /\ not_after (key <$> last l) (key x) = false.
Proof.
  split.
  - intros H. split; [eapply key_sorted_app_l; eauto|].
    destruct (last l) as [y|] eqn:El; [|reflexivity]. cbn. apply Z.leb_gt.
    eapply key_sorted_last; [exact H|]. apply last_Some in El as [l' ->].
    apply elem_of_app. right. left.
  - intros [Hs Hn]. eapply key_sorted_snoc; [exact Hs|reflexivity|exact Hn].
Qed.

(** Removing keys one after the other. *)
Definition without {V} (keys : list Z) (m : gmap Z V) : gmap Z V :=
  foldl (fun m k => delete k m) m keys.

Lemma without_snoc {V} keys k (m : gmap Z V) : without (keys ++ [k]) m = delete k (without keys m).
Proof. unfold without. rewrite foldl_app. reflexivity. Qed.

Lemma without_lookup {V} keys (m : gmap Z V) k :
  without keys m !! k = if decide (k ∈ keys) then None else m !! k.
Proof.
  induction keys as [|x keys IH] using rev_ind; [reflexivity|].
  rewrite without_snoc. destruct (decide (x = k)) as [->|Hx].
  - rewrite lookup_delete_eq, decide_True; [reflexivity|]. apply elem_of_app. right. left.
  - rewrite lookup_delete_ne, IH by exact Hx.
    destruct (decide (k ∈ keys)); destruct (decide (k ∈ keys ++ [x])) as [H|H]; auto.
    + exfalso. apply H, elem_of_app. auto.
    + exfalso. apply elem_of_app in H as [H|H]; [contradiction|].
      apply list_elem_of_singleton in H. congruence.
Qed.

Lemma without_empty {V} keys (m : gmap Z V) :
  without keys m = ∅ <-> forall k, is_Some (m !! k) -> k ∈ keys.
Proof.
  split.
  - intros H k [v Hk]. pose proof (without_lookup keys m k) as E. rewrite H, lookup_empty in E.
    destruct (decide (k ∈ keys)); [assumption|]. congruence.
  - intros H. apply map_eq. intros k. rewrite without_lookup, lookup_empty.
    destruct (decide (k ∈ keys)) as [|Hk]; [reflexivity|].
    destruct (m !! k) eqn:E; [|reflexivity]. destruct Hk. eauto.
Qed.

(** ** Paired vectors *)
Lemma Forall2_zip {A B} (R : A -> B -> Prop) l k :
  Forall2 R l k <-> length l = length k /\ Forall (fun p => R p.1 p.2) (zip l k).
Proof.
  split.
  - induction 1 as [|x y l k Hxy H [Hl Hz]]; cbn; [auto|]. split; [lia|constructor; auto].
  - revert k. induction l as [|x l IH]; intros [|y k] [Hl Hz]; try discriminate; constructor.
    + inversion Hz; assumption.
    + apply IH. cbn in Hl, Hz. inversion Hz; subst. split; [lia|assumption].
Qed.

Lemma map_fst_zip {A B} (l : list A) (k : list B) :
  length l = length k -> map fst (zip l k) = l.
Proof.
  revert k. induction l as [|x l IH]; intros [|y k] H; try discriminate; [reflexivity|].
  cbn in *. rewrite IH by lia. reflexivity.
Qed.

Lemma key_sorted_map {A B} (f : A -> B) (key : B -> Z) l :
  key_sorted key (map f l) <-> key_sorted (fun x => key (f x)) l.
Proof.
  induction l as [|x l IH]; cbn; [split; constructor|]. split; intros H;
    inversion H as [|? ? H1 H2]; subst; constructor; try (apply IH, H1).
  - rewrite Forall_map in H2. exact H2.
  - rewrite Forall_map. exact H2.
Qed.

(** ** Running counters with overflow checks *)
Lemma zlen_nonneg {A} (l : list A) : 0 <= zlen l.
Proof. unfold zlen. lia. Qed.

Lemma zsum_zlen_nonneg {A B} (f : A -> list B) l : 0 <= zsum (map (fun x => zlen (f x)) l).
Proof.
  apply zsum_nonneg, Forall_forall. intros v Hv. apply list_elem_of_fmap in Hv as (x & -> & _).
  apply zlen_nonneg.
Qed.

Lemma foldl_checked_add {A} (f : A -> Z) max n l m :
  Forall (fun x => 0 <= f x) l -> n <= max ->
  foldl (fun n x => match n with Some n => checked_add max n (f x) | None => None end) (Some n) l
    = Some m <-> n + zsum (map f l) <= max /\ m = n + zsum (map f l).
Proof.
  intros Hl. revert n. induction Hl as [|x l Hx Hl IH]; intros n Hn; cbn [foldl map].
  - unfold zsum. cbn. rewrite Z.add_0_r. split; [intros H; injection H; auto|intros [_ ->]; auto].
  - change (zsum (f x :: map f l)) with (f x + zsum (map f l)).
    assert (Hs : 0 <= zsum (map f l)) by (apply zsum_nonneg; rewrite Forall_map; exact Hl).
    unfold checked_add at 2. destruct (Z.leb_spec (n + f x) max) as [H|H].
    + rewrite IH by exact H. rewrite <- Z.add_assoc. reflexivity.
    + split; [|lia]. intros E. exfalso. clear -E.
      induction l as [|y l IH]; [discriminate|]. apply IH, E.
Qed.

Lemma NoDup_key_eq {A} (key : A -> Z) l x y :
  NoDup (map key l) -> x ∈ l -> y ∈ l -> key x = key y -> x = y.
Proof.
  induction l as [|a l IH]; intros Hn Hx Hy He; [inversion Hx|].
  inversion Hn as [|? ? Ha Hn']; subst.
  apply elem_of_cons in Hx as [->|Hx]; apply elem_of_cons in Hy as [->|Hy]; auto.
  - exfalso. apply Ha. rewrite He. apply list_elem_of_fmap. eauto.
  - exfalso. apply Ha. rewrite <- He. apply list_elem_of_fmap. eauto.
Qed.

(** ** Loops that only check *)
Lemma for_each_check {E A} (body : unit -> A -> result E unit) l :
  for_each body tt l = Ok tt <-> forall x, x ∈ l -> body tt x = Ok tt.
Proof.
  induction l as [|a l IH]; cbn [for_each].
  - split; [intros _ x Hx; inversion Hx|auto].
  - split.
    + intros H. destruct (body tt a) as [[]|] eqn:E0; cbn in H; [|discriminate].
      intros x Hx. apply elem_of_cons in Hx as [->|Hx]; [exact E0|].
      apply IH; assumption.
    + intros H. rewrite (H a) by left. cbn. apply IH. intros x Hx. apply H. right. exact Hx.
Qed.

(** The same over [enumerate()]: every element passes at its position. *)
Lemma for_each_enumerate {E A} (body : unit -> Z * A -> result E unit) l :
  for_each body tt (enumerate l) = Ok tt <->
  forall k x, l !! k = Some x -> body tt (Z.of_nat k, x) = Ok tt.
Proof.
  rewrite for_each_check. split; [intros H k x Hk; apply H, enumerate_elem, Hk|].
  induction l as [|y l IH] using rev_ind; intros H x Hx; [inversion Hx|].
  rewrite enumerate_snoc in Hx. apply elem_of_app in Hx as [Hx|Hx].
  - apply IH; [|exact Hx]. intros k z Hk. apply H, lookup_app_l_Some, Hk.
  - apply list_elem_of_singleton in Hx as ->. apply H, list_lookup_middle. reflexivity.
Qed.

(** [iter().find(..)]: the first element that satisfies the predicate. *)
Definition first_match {A} (p : A -> bool) (l : list A) (x : A) : Prop :=
  exists done rest, l = done ++ x :: rest /\ p x = true /\ forall y, y ∈ done -> p y = false.

Lemma find_first_match {A} (p : A -> bool) l x :
  List.find p l = Some x <-> first_match p l x.
Proof.
  induction l as [|a l IH]; cbn.
  - split; [discriminate|]. intros ([|] & rest & H & _); discriminate.
  - destruct (p a) eqn:Ha.
    + split.
      * intros H. injection H as <-. exists [], l. split_and!; auto. intros y Hy. inversion Hy.
      * intros ([|b done] & rest & H & Hx & Hd); injection H as -> H; [reflexivity|].
        rewrite (Hd b) in Ha by left. discriminate.
    + rewrite IH. split.
      * intros (done & rest & -> & Hx & Hd). exists (a :: done), rest. split_and!; auto.
        intros y Hy. apply elem_of_cons in Hy as [->|Hy]; auto.
      * intros ([|b done] & rest & H & Hx & Hd); injection H as -> H; [congruence|].
        exists done, rest. split_and!; auto. intros y Hy. apply Hd. right. exact Hy.
Qed.

Lemma first_match_elem {A} (p : A -> bool) l x : first_match p l x -> x ∈ l /\ p x = true.
Proof.
  intros (done & rest & -> & Hx & _). split; [|exact Hx]. apply elem_of_app. right. left.
Qed.

(** Where keys are unique the first match is the match. *)
Lemma first_match_key {A} (key : A -> Z) l x k :
  NoDup (map key l) -> x ∈ l -> key x = k -> first_match (fun y => key y =? k) l x.
Proof.
  intros Hn Hx <-. apply list_elem_of_split in Hx as (done & rest & ->).
  exists done, rest. split_and!; [reflexivity|apply Z.eqb_refl|]. intros y Hy. apply Z.eqb_neq.
  intros He. apply NoDup_map_middle in Hn. apply Hn. rewrite <- He.
  apply list_elem_of_fmap. eauto.
Qed.

Lemma enumerate_from_elem_inv {A} i (l : list A) p :
  p ∈ enumerate_from i l -> exists k, p.1 = i + Z.of_nat k /\ l !! k = Some p.2.
Proof.
  revert i. induction l as [|x l IH]; intros i H; [inversion H|]. cbn in H.
  apply elem_of_cons in H as [->|H].
  - exists 0%nat. cbn. split; [lia|reflexivity].
  - apply IH in H as (k & Hk & Hx). exists (S k). split; [lia|exact Hx].
Qed.
Lemma enumerate_elem_inv {A} (l : list A) p :
  p ∈ enumerate l -> exists k, p.1 = Z.of_nat k /\ l !! k = Some p.2.
Proof. apply (enumerate_from_elem_inv 0). Qed.

(** Adjacent elements never decrease. *)
Definition nondecreasing (l : list Z) : Prop :=
  forall k x y, l !! k = Some x -> l !! S k = Some y -> x <= y.

Lemma nondecreasing_snoc l x :
  nondecreasing l -> (forall p, last l = Some p -> p <= x) -> nondecreasing (l ++ [x]).
Proof.
  intros Hl Hx k a b Ha Hb. apply lookup_app_Some in Hb as [Hb|[Hlen Hb]].
  - apply (Hl k a b); [|exact Hb]. apply lookup_lt_Some in Hb.
    rewrite lookup_app_l in Ha by lia. exact Ha.
  - assert (S k = length l) as Hk.
    { destruct (S k - length l)%nat eqn:E; [lia|discriminate]. }
    rewrite Hk, Nat.sub_diag in Hb. injection Hb as <-.
    apply Hx. rewrite last_lookup, <- Hk. cbn. rewrite lookup_app_l in Ha by lia. exact Ha.
Qed.

(** Two loops that step alike wherever both succeed end alike. *)
Lemma for_each_det {E S A} (f g : S -> A -> result E S) s l s1 s2 :
  (forall s x s1 s2, f s x = Ok s1 -> g s x = Ok s2 -> s1 = s2) ->
  for_each f s l = Ok s1 -> for_each g s l = Ok s2 -> s1 = s2.
Proof.
  intros Hd. revert s. induction l as [|x l IH]; intros s H1 H2; cbn in *; [congruence|].
  apply rbind_Ok in H1 as (a & Ha & H1). apply rbind_Ok in H2 as (b & Hb & H2).
  rewrite (Hd s x a b Ha Hb) in H1. eauto.
Qed.

(** A loop that collects a list under a set of keys it has seen: the items are
    resolved in order and their keys are distinct. *)
Lemma for_each_keyed {E K A B} `{Countable K} (key : B -> K) (R : A -> B -> Prop)
    (body : gset K * list B -> A -> result E (gset K * list B)) xs keys items :
  (forall ks l a s, body (ks, l) a = Ok s ->
     exists b, s.2 = l ++ [b] /\ s.1 = {[key b]} ∪ ks /\ key b ∉ ks /\ R a b) ->
  for_each body (∅, []) xs = Ok (keys, items) ->
  Forall2 R xs items /\ NoDup (map key items).
Proof.
  intros Hb Hf.
  assert (G : Forall2 R xs (keys, items).2 /\ NoDup (map key (keys, items).2)
              /\ (keys, items).1 = list_to_set (map key (keys, items).2)); [|tauto].
  refine (for_each_inv (fun done s => Forall2 R done s.2 /\ NoDup (map key s.2)
    /\ s.1 = list_to_set (map key s.2)) _ _ _ _ _ _ Hf); [repeat constructor|].
  intros done a [ks l] [ks' l'] (I1 & I2 & I3) _ Hs. apply Hb in Hs as (b & Hl & Hks & Hk & Hr).
  cbn [fst snd] in *. subst ks ks' l'. rewrite elem_of_list_to_set in Hk.
  rewrite map_app, list_to_set_app_L. cbn [map list_to_set]. split_and!.
  - apply Forall2_app; [exact I1|]. constructor; [exact Hr|constructor].
  - apply NoDup_app. split_and!; [exact I2| |apply NoDup_singleton].
    intros k Hk' ->%list_elem_of_singleton. contradiction.
  - set_solver.
Qed.
(** The same for a loop that collects without keys. *)
Lemma for_each_collect {E A B} (R : A -> B -> Prop) (body : list B -> A -> result E (list B))
    xs items :
  (forall l a s, body l a = Ok s -> exists b, s = l ++ [b] /\ R a b) ->
  for_each body [] xs = Ok items -> Forall2 R xs items.
Proof.
  intros Hb Hf. refine (for_each_inv (fun done l => Forall2 R done l) _ _ _ _ _ _ Hf).
  - constructor.
  - intros done a l s I _ Hs. apply Hb in Hs as (b & -> & Hr).
    apply Forall2_app; [exact I|]. constructor; [exact Hr|constructor].
Qed.
(** A loop that only checks, with a set of keys: every element was accepted. *)
Lemma for_each_passed {E S A} (P : A -> Prop) (body : S -> A -> result E S) s xs s' :
  (forall t a t', body t a = Ok t' -> P a) -> for_each body s xs = Ok s' -> Forall P xs.
Proof.
  intros Hb Hf. refine (for_each_inv (fun done _ => Forall P done) _ _ _ _ _ _ Hf).
  - constructor.
  - intros done a t t' I _ Hs. apply Forall_app. split; [exact I|].
    constructor; [eapply Hb, Hs|constructor].
Qed.

(** A loop that collects distinct keys: the set holds exactly what the elements denote. *)
Lemma for_each_distinct {E K A} `{Countable K} (R : A -> K -> Prop)
    (body : gset K -> A -> result E (gset K)) xs keys :
  (forall ks a ks', body ks a = Ok ks' -> exists k, ks' = {[k]} ∪ ks /\ k ∉ ks /\ R a k) ->
  for_each body ∅ xs = Ok keys ->
  exists items, Forall2 R xs items /\ NoDup items /\ keys = list_to_set items.
Proof.
  intros Hb Hf. refine (for_each_inv (fun done ks => exists items, Forall2 R done items
    /\ NoDup items /\ ks = list_to_set items) _ _ _ _ _ _ Hf).
  - exists []. repeat constructor.
  - intros done a s s' (items & I1 & I2 & ->) _ Hs. apply Hb in Hs as (k & -> & Hk & Hr).
    rewrite elem_of_list_to_set in Hk. exists (items ++ [k]). split_and!.
    + apply Forall2_app; [exact I1|]. constructor; [exact Hr|constructor].
    + apply NoDup_app. split_and!; [exact I2| |apply NoDup_singleton].
      intros k' Hk' ->%list_elem_of_singleton. contradiction.
    + rewrite list_to_set_app_L. cbn [list_to_set]. set_solver.
Qed.

(** A loop that checks each element and that the keys ascend. *)
Lemma for_each_ordered {E A} (key : A -> Z) (P : A -> Prop)
    (body : option Z -> A -> result E (option Z)) l s :
  (forall p a s', body p a = Ok s' <-> not_after p (key a) = false /\ P a /\ s' = Some (key a)) ->
  for_each body None l = Ok s <-> key_sorted key l /\ Forall P l /\ s = (key <$> last l).
Proof.
  intros Hb. revert s. induction l as [|x l IH] using rev_ind; intros s.
  - cbn. split; [intros H; injection H as <-; repeat constructor|intros (_ & _ & ->); reflexivity].
  - rewrite for_each_app, rbind_Ok, key_sorted_snoc_iff, Forall_app, Forall_singleton, last_snoc.
    cbn [for_each]. setoid_rewrite rbind_Ok. setoid_rewrite Hb. setoid_rewrite IH.
    setoid_rewrite Ok_Ok. cbn [fmap option_fmap option_map]. naive_solver.
Qed.

Lemma strictly_sorted_key {A} (key : A -> Z) l :
  strictly_sorted (map key l) = true <-> key_sorted key l.
Proof.
  induction l as [|a l IH]; [split; constructor|].
  destruct l as [|b l].
  - split; [repeat constructor|reflexivity].
  - change (strictly_sorted (map key (a :: b :: l)))
      with ((key a <? key b) && strictly_sorted (map key (b :: l))).
    rewrite andb_true_iff, IH, Z.ltb_lt. unfold key_sorted. split.
    + intros [Hab Hs]. constructor; [exact Hs|]. inversion Hs as [|? ? Hs' Hb]; subst.
      constructor; [exact Hab|]. eapply Forall_impl; [exact Hb|]. cbn. lia.
    + intros H. inversion H as [|? ? Hs Ha]; subst. inversion Ha; subst. auto.
Qed.

Lemma strictly_sorted_id l : strictly_sorted l = true <-> key_sorted id l.
Proof. rewrite <- (strictly_sorted_key id). change (map id l) with (map (fun x => x) l). rewrite map_id. reflexivity. Qed.

(** ** [iter().map(..).collect::<BTreeMap>()]: the last entry of a key wins *)
Definition keyed_map {A V} (key : A -> Z) (val : A -> V) (l : list A) : gmap Z V :=
  foldl (fun m e => <[key e := val e]> m) ∅ l.

Lemma keyed_map_snoc {A V} (key : A -> Z) (val : A -> V) l x :
  keyed_map key val (l ++ [x]) = <[key x := val x]> (keyed_map key val l).
Proof. unfold keyed_map. rewrite foldl_app. reflexivity. Qed.

Lemma keyed_map_is_Some {A V} (key : A -> Z) (val : A -> V) l a :
  is_Some (keyed_map key val l !! a) <-> exists e, e ∈ l /\ key e = a.
Proof.
  induction l as [|x l IH] using rev_ind.
  - cbn. rewrite lookup_empty. split; [intros [? H]; discriminate|].
    intros (e & He & _). inversion He.
  - rewrite keyed_map_snoc, lookup_insert_is_Some, IH. setoid_rewrite elem_of_app.
    setoid_rewrite list_elem_of_singleton. destruct (decide (key x = a)); naive_solver.
Qed.

Lemma keyed_map_lookup {A V} (key : A -> Z) (val : A -> V) l a v :
  NoDup (map key l) ->
  keyed_map key val l !! a = Some v <-> exists e, e ∈ l /\ key e = a /\ val e = v.
Proof.
  induction l as [|x l IH] using rev_ind; intros Hn.
  - cbn. rewrite lookup_empty. split; [discriminate|]. intros (e & He & _). inversion He.
  - rewrite map_app in Hn. apply NoDup_app in Hn as (Hn & Hd & _). cbn [map] in Hd.
    specialize (IH Hn). rewrite keyed_map_snoc, lookup_insert_Some. setoid_rewrite elem_of_app.
    setoid_rewrite list_elem_of_singleton. split.
    + intros [[<- <-]|[Hne H]]; [eauto|]. apply IH in H as (y & Hy & H). eauto.
    + intros (y & [Hy| ->] & <- & <-); [|auto]. right. split; [|apply IH; eauto].
      intros Heq. apply (Hd (key y)); [apply list_elem_of_fmap; eauto|]. rewrite <- Heq. left.
Qed.

Lemma map_err_Ok {E F A} (f : E -> F) (m : result E A) a : map_err f m = Ok a <-> m = Ok a.
Proof. destruct m; cbn; split; congruence. Qed.

Lemma zlen_zero {A} (l : list A) : zlen l = 0 <-> l = [].
Proof. unfold zlen. destruct l; cbn; split; intros H; congruence || lia. Qed.

Lemma strip_prefix_Some prefix input rest :
  strip_prefix prefix input = Some rest <-> input = prefix ++ rest.
Proof.
  revert input. induction prefix as [|p prefix IH]; intros input; cbn [strip_prefix app].
  - split; [intros H; injection H as ->; reflexivity|intros ->; reflexivity].
  - destruct input as [|x input]; [split; discriminate|].
    destruct (Z.eqb_spec p x) as [->|Hn].
    + rewrite IH. split; [intros ->; reflexivity|intros H; injection H as ->; reflexivity].
    + split; [discriminate|]. intros H. injection H as -> _. contradiction.
Qed.

Lemma strip_prefix_app prefix rest : strip_prefix prefix (prefix ++ rest) = Some rest.
Proof. apply strip_prefix_Some. reflexivity. Qed.
Lemma strip_prefix_other p q rest :
  length p = length q -> p <> q -> strip_prefix p (q ++ rest) = None.
Proof.
  intros L Hn. destruct (strip_prefix p (q ++ rest)) eqn:E; [|reflexivity].
  apply strip_prefix_Some, app_inj_len in E as [E _]; [|symmetry; exact L]. congruence.
Qed.

Lemma zlen_app {A} (l1 l2 : list A) : zlen (l1 ++ l2) = zlen l1 + zlen l2.
Proof. unfold zlen. rewrite length_app. lia. Qed.
