(* ===== verification/BlobEval.v ===== *)
(** * Opening a blob: [evaluate_blob] of stf-types/src/hosting.rs

    The barycentric evaluation of an EIP-4844 blob, over the scalar field of
    [bls12_381], which is a parameter.  The main theorem is independent of the formula:
    when the blob holds the values of a polynomial of degree below 4096 on the bit-reversed
    roots of unity, the routine (batch inversion included) returns the polynomial's value
    at the point. *)

From Stdlib Require Import Field_theory Ring_theory Field.
From S2P Require Import Prelude.
Open Scope Z_scope.

Definition FIELD_ELEMENTS_PER_BLOB_V1 : Z := 4096.

(** bls12_381::Scalar.  Byte strings are little endian; [None] is a scalar that is not
    canonical, or the inverse of zero. *)
Class BlsScalar := {
  Scalar : Type;
  scalar_eq_dec :: EqDecision Scalar;
  ZERO : Scalar;
  ONE : Scalar;
  add : Scalar -> Scalar -> Scalar;
  sub : Scalar -> Scalar -> Scalar;
  mul : Scalar -> Scalar -> Scalar;
  invert : Scalar -> option Scalar;
  pow_vartime : Scalar -> list Z -> Scalar;
  from_u64 : Z -> Scalar;
  from_bytes : bytes -> option Scalar;
  to_bytes : Scalar -> bytes;
  SCALAR_S : Z;
  ROOT_OF_UNITY : Scalar
}.

(** ** Bit reversal: [index.reverse_bits() >> (usize::BITS - 12)] on the 32-bit guest *)
Fixpoint reverse_bits (width : nat) (x : Z) : Z :=
  match width with
  | O => 0
  | S width =>
      (if Z.testbit x 0 then 2 ^ Z.of_nat width else 0) + reverse_bits width (Z.shiftr x 1)
  end.
Definition bit_reversed (index : Z) : Z := Z.shiftr (reverse_bits 32 index) (32 - 12).

Section Evaluate.
Context {BS : BlsScalar}.

(** ** The domain *)
Definition domain_generator : Scalar :=
  let exponent := Z.shiftl 1 (SCALAR_S - 12) in
  pow_vartime ROOT_OF_UNITY [exponent; 0; 0; 0].

(** [natural_roots[index] = natural_roots[index - 1] * omega] from [ONE]. *)
Fixpoint natural_roots (n : nat) (root omega : Scalar) : list Scalar :=
  match n with
  | O => []
  | S n => root :: natural_roots n (mul root omega) omega
  end.

Definition blob_indices : list Z := map Z.of_nat (seq 0 (Z.to_nat FIELD_ELEMENTS_PER_BLOB_V1)).
Definition blob_roots : list Scalar :=
  let natural := natural_roots (Z.to_nat FIELD_ELEMENTS_PER_BLOB_V1) ONE domain_generator in
  map (fun index => default ZERO (znth natural (bit_reversed index))) blob_indices.

(** [iter().position(|root| *root == z)]. *)
Fixpoint position (z : Scalar) (roots : list Scalar) : option nat :=
  match roots with
  | [] => None
  | root :: rest => if decide (root = z) then Some O else S <$> position z rest
  end.

(** ** Batch inversion *)

(** The prefix products and the full product. *)
Fixpoint prefix_products (product : Scalar) (denominators : list Scalar)
  : list Scalar * Scalar :=
  match denominators with
  | [] => ([], product)
  | denominator :: rest =>
      let '(prefixes, total) := prefix_products (mul product denominator) rest in
      (product :: prefixes, total)
  end.

(** The body of the backward loop; an item is (value, root, denominator, prefix). *)
Definition barycentric_step (s : Scalar * Scalar) (item : Scalar * Scalar * Scalar * Scalar)
  : Scalar * Scalar :=
  let '(product_inverse, sum) := s in
  let '(value, root, denominator, prefix) := item in
  let denominator_inverse := mul product_inverse prefix in
  (mul product_inverse denominator,
   add sum (mul (mul value root) denominator_inverse)).

Definition barycentric_sum (items : list (Scalar * Scalar * Scalar * Scalar))
    (product_inverse : Scalar) : Scalar :=
  (foldl barycentric_step (product_inverse, ZERO) (rev items)).2.

Definition evaluate_blob (values : list Scalar) (z : Scalar) : result string Scalar :=
  let roots := blob_roots in
  match position z roots with
  | Some index => ok_or (values !! index) "panic: index out of bounds"%string
  | None =>
      let denominators := map (fun root => sub z root) roots in
      let '(prefixes, product) := prefix_products ONE denominators in
      let? product_inverse := ok_or (invert product)
        "panic: all non-zero domain denominators have a non-zero product"%string in
      let sum := barycentric_sum (zip (zip (zip values roots) denominators) prefixes)
                   product_inverse in
      let? n_inverse := ok_or (invert (from_u64 FIELD_ELEMENTS_PER_BLOB_V1))
        "panic: the non-zero domain size is invertible"%string in
      Ok (mul (mul (sub (pow_vartime z [FIELD_ELEMENTS_PER_BLOB_V1; 0; 0; 0]) ONE) n_inverse)
            sum)
  end.
End Evaluate.

(** * Properties *)

(** ** The laws of the scalar field *)
Definition opp `{BlsScalar} (x : Scalar) : Scalar := sub ZERO x.
Definition inv `{BlsScalar} (x : Scalar) : Scalar := default ZERO (invert x).
Definition div `{BlsScalar} (x y : Scalar) : Scalar := mul x (inv y).
Fixpoint power `{BlsScalar} (x : Scalar) (n : nat) : Scalar :=
  match n with O => ONE | S n => mul x (power x n) end.
Fixpoint repeated `{BlsScalar} (n : nat) : Scalar :=
  match n with O => ZERO | S n => add ONE (repeated n) end.

(** A field with a primitive root of unity of order [2^S]. *)
Class ScalarField {BS : BlsScalar} : Prop := {
  scalar_field : field_theory ZERO ONE add mul sub opp div inv eq;
  invert_zero : forall x, invert x = None <-> x = ZERO;
  pow_vartime_spec : forall x e, 0 <= e < 2 ^ 64 ->
    pow_vartime x [e; 0; 0; 0] = power x (Z.to_nat e);
  from_u64_spec : forall n, 0 <= n < 2 ^ 64 -> from_u64 n = repeated (Z.to_nat n);
  two_adicity : 12 <= SCALAR_S < 64;
  root_order : power ROOT_OF_UNITY (Z.to_nat (2 ^ SCALAR_S)) = ONE;
  root_primitive : power ROOT_OF_UNITY (Z.to_nat (2 ^ (SCALAR_S - 1))) <> ONE
}.

(** ** The bits of a reversed index *)
Lemma reverse_bits_spec width x j :
  0 <= j -> Z.testbit (reverse_bits width x) j
            = (if j <? Z.of_nat width then Z.testbit x (Z.of_nat width - 1 - j) else false).
Proof.
  revert x j. induction width as [|w IH]; intros x j Hj.
  - destruct (Z.ltb_spec j (Z.of_nat 0)); [lia|]. apply Z.bits_0.
  - cbn [reverse_bits]. set (rest := reverse_bits w (Z.shiftr x 1)).
    assert (E : (if Z.testbit x 0 then 2 ^ Z.of_nat w else 0) + rest
                = Z.lxor (if Z.testbit x 0 then 2 ^ Z.of_nat w else 0) rest).
    { apply Z.add_nocarry_lxor, Z.bits_inj'. intros i Hi. rewrite Z.land_spec, Z.bits_0.
      unfold rest. rewrite IH by exact Hi. destruct (Z.ltb_spec i (Z.of_nat w)); [|apply andb_false_r].
      destruct (Z.testbit x 0); [rewrite Z.pow2_bits_false by lia|rewrite Z.bits_0]; reflexivity. }
    rewrite E, Z.lxor_spec. unfold rest. rewrite IH by exact Hj. clear E.
    destruct (Z.ltb_spec j (Z.of_nat w)), (Z.ltb_spec j (Z.of_nat (S w))); try lia.
    + rewrite Z.shiftr_spec by lia. replace (Z.of_nat w - 1 - j + 1) with (Z.of_nat (S w) - 1 - j) by lia.
      destruct (Z.testbit x 0); [rewrite Z.pow2_bits_false by lia|rewrite Z.bits_0]; apply xorb_false_l.
    + replace (Z.of_nat (S w) - 1 - j) with 0 by lia. rewrite xorb_false_r.
      replace j with (Z.of_nat w) by lia.
      destruct (Z.testbit x 0); [apply Z.pow2_bits_true; lia|apply Z.bits_0].
    + rewrite xorb_false_r.
      destruct (Z.testbit x 0); [apply Z.pow2_bits_false; lia|apply Z.bits_0].
Qed.
Lemma bit_reversed_spec x j :
  0 <= j -> Z.testbit (bit_reversed x) j = (if j <? 12 then Z.testbit x (11 - j) else false).
Proof.
  intros Hj. unfold bit_reversed. rewrite Z.shiftr_spec, reverse_bits_spec by lia.
  change (Z.of_nat 32) with 32. destruct (Z.ltb_spec (j + (32 - 12)) 32), (Z.ltb_spec j 12); try lia.
  f_equal. lia.
Qed.
Lemma bits12_bound x : (forall j, 12 <= j -> Z.testbit x j = false) -> 0 <= x mod 4096 /\ x mod 4096 = x.
Proof.
  intros H. split; [apply Z.mod_pos_bound; lia|]. apply Z.bits_inj'. intros j Hj.
  change 4096 with (2 ^ 12). destruct (Z.lt_ge_cases j 12).
  - apply Z.mod_pow2_bits_low. lia.
  - rewrite Z.mod_pow2_bits_high by lia. symmetry. apply H. lia.
Qed.

Section Field.
Context {BS : BlsScalar} {SF : ScalarField}.
Add Field scalars : scalar_field.

Declare Scope scalar_scope.
Delimit Scope scalar_scope with scalar.
Local Infix "+" := add : scalar_scope.
Local Infix "-" := sub : scalar_scope.
Local Infix "*" := mul : scalar_scope.
Local Infix "/" := div : scalar_scope.
Local Infix "^" := power : scalar_scope.
Local Open Scope scalar_scope.

Lemma one_nonzero : ONE <> ZERO.
Proof. apply (F_1_neq_0 scalar_field). Qed.

Lemma mul_nonzero x y : x <> ZERO -> y <> ZERO -> x * y <> ZERO.
Proof.
  intros Hx Hy E. apply Hx. transitivity (x * y / y); [field; exact Hy|].
  rewrite E. field. exact Hy.
Qed.
Lemma mul_zero x y : x * y = ZERO -> x = ZERO \/ y = ZERO.
Proof.
  intros E. destruct (decide (x = ZERO)); [left; assumption|].
  destruct (decide (y = ZERO)); [right; assumption|]. destruct (mul_nonzero x y); assumption.
Qed.
Lemma sub_zero x y : x - y = ZERO -> x = y.
Proof. intros E. transitivity (x - y + y); [ring|]. rewrite E. ring. Qed.

Lemma power_add x m n : x ^ (m + n)%nat = x ^ m * x ^ n.
Proof. induction m as [|m IH]; cbn; [ring|]. rewrite IH. ring. Qed.
Lemma power_mul x m n : x ^ (m * n)%nat = (x ^ m) ^ n.
Proof.
  induction n as [|n IH]; [rewrite Nat.mul_0_r; reflexivity|].
  rewrite Nat.mul_succ_r, Nat.add_comm, power_add, IH. reflexivity.
Qed.
Lemma power_one n : ONE ^ n = ONE.
Proof. induction n as [|n IH]; cbn; [reflexivity|]. rewrite IH. ring. Qed.
Lemma repeated_mul m n : repeated (m * n)%nat = repeated m * repeated n.
Proof.
  assert (A : forall a b, repeated (a + b)%nat = repeated a + repeated b).
  { induction a as [|a IH]; intros b; cbn; [ring|]. rewrite IH. ring. }
  induction m as [|m IH]; cbn; [ring|]. rewrite A, IH. ring.
Qed.

(** ** Sums *)
Definition ssum (l : list Scalar) : Scalar := foldr add ZERO l.

Lemma ssum_cons x l : ssum (x :: l) = x + ssum l.
Proof. reflexivity. Qed.
Lemma ssum_app l1 l2 : ssum (l1 ++ l2) = ssum l1 + ssum l2.
Proof. induction l1 as [|x l IH]; cbn [app]; rewrite ?ssum_cons; [cbn; ring|]. rewrite IH. ring. Qed.
Lemma ssum_perm l1 l2 : Permutation l1 l2 -> ssum l1 = ssum l2.
Proof.
  induction 1; cbn [ssum foldr]; [reflexivity| | |congruence].
  - change (foldr add ZERO) with ssum in *. congruence.
  - ring.
Qed.
Lemma ssum_ext {A} (f g : A -> Scalar) l :
  (forall x, x ∈ l -> f x = g x) -> ssum (map f l) = ssum (map g l).
Proof.
  induction l as [|x l IH]; intros H; [reflexivity|]. cbn [map]. rewrite !ssum_cons.
  rewrite (H x) by left. rewrite IH; [reflexivity|]. intros y Hy. apply H. right. exact Hy.
Qed.
Lemma ssum_scale {A} c (f : A -> Scalar) l : ssum (map (fun x => c * f x) l) = c * ssum (map f l).
Proof. induction l as [|x l IH]; cbn [map]; rewrite ?ssum_cons; [cbn; ring|]. rewrite IH. ring. Qed.
Lemma ssum_add {A} (f g : A -> Scalar) l :
  ssum (map (fun x => f x + g x) l) = ssum (map f l) + ssum (map g l).
Proof. induction l as [|x l IH]; cbn [map]; rewrite ?ssum_cons; [cbn; ring|]. rewrite IH. ring. Qed.
Lemma ssum_const {A} c (l : list A) : ssum (map (fun _ => c) l) = repeated (length l) * c.
Proof.
  induction l as [|x l IH]; cbn [map length repeated]; rewrite ?ssum_cons; [cbn; ring|].
  rewrite IH. ring.
Qed.
Lemma ssum_swap {A B} (f : A -> B -> Scalar) l k :
  ssum (map (fun x => ssum (map (f x) k)) l)
  = ssum (map (fun y => ssum (map (fun x => f x y) l)) k).
Proof.
  induction l as [|x l IH]; cbn [map].
  - transitivity (ssum (map (fun _ : B => ZERO) k)); [rewrite ssum_const; cbn; ring|reflexivity].
  - rewrite ssum_cons, IH, <- ssum_add. apply ssum_ext. intros y _. reflexivity.
Qed.
(** A sum with one term that is not zero. *)
Lemma ssum_single {A} (f : A -> Scalar) (l : list A) a :
  NoDup l -> a ∈ l -> (forall x, x ∈ l -> x <> a -> f x = ZERO) -> ssum (map f l) = f a.
Proof.
  induction l as [|x l IH]; intros Hn Ha Hz; [inversion Ha|].
  inversion Hn as [|? ? Hx Hl]; subst. cbn [map]. rewrite ssum_cons.
  assert (Hr : forall y, y ∈ l -> y <> a -> f y = ZERO) by (intros; apply Hz; [right|]; assumption).
  apply elem_of_cons in Ha as [->|Ha].
  - rewrite (ssum_ext f (fun _ => ZERO)), ssum_const; [ring|].
    intros y Hy. apply Hr; [exact Hy|]. intros ->. contradiction.
  - rewrite IH by assumption. rewrite (Hz x); [ring|left|]. intros ->. contradiction.
Qed.

Lemma power_multiple x m k : x ^ m = ONE -> x ^ (k * m)%nat = ONE.
Proof. intros E. rewrite Nat.mul_comm, power_mul, E. apply power_one. Qed.

(** Geometric sums. *)
Definition powers (x : Scalar) : list nat -> list Scalar := map (fun i => x ^ i).

Lemma geometric_sum x n : (x - ONE) * ssum (powers x (seq 0 n)) = x ^ n - ONE.
Proof.
  induction n as [|n IH]; [cbn; ring|]. unfold powers in *.
  rewrite seq_S, map_app, ssum_app. cbn [map]. rewrite ssum_cons. change (0 + n)%nat with n.
  transitivity ((x - ONE) * ssum (map (fun i => x ^ i) (seq 0 n)) + (x - ONE) * x ^ n);
    [cbn; ring|]. rewrite IH. cbn [power]. ring.
Qed.

Lemma power_difference z w n :
  (z - w) * ssum (map (fun j => z ^ (n - 1 - j) * w ^ j) (seq 0 n)) = z ^ n - w ^ n.
Proof.
  induction n as [|n IH]; [cbn; ring|].
  rewrite seq_S, map_app, ssum_app. cbn [map]. rewrite ssum_cons. change (0 + n)%nat with n.
  rewrite (ssum_ext _ (fun j => z * (z ^ (n - 1 - j) * w ^ j))).
  2: { intros j Hj. apply elem_of_seq in Hj. replace (S n - 1 - j)%nat with (S (n - 1 - j)) by lia.
       cbn [power]. ring. }
  rewrite ssum_scale. replace (S n - 1 - n)%nat with O by lia.
  transitivity (z * ((z - w) * ssum (map (fun j => z ^ (n - 1 - j) * w ^ j) (seq 0 n)))
                + (z - w) * w ^ n); [cbn; ring|]. rewrite IH. cbn [power]. ring.
Qed.

Lemma ring_comm x y : x * y = y * x.
Proof. ring. Qed.

(** A polynomial by its coefficients, lowest first. *)
Fixpoint peval (coefficients : list Scalar) (x : Scalar) : Scalar :=
  match coefficients with [] => ZERO | a :: rest => a + x * peval rest x end.

(** ** The interpolation identity over the powers of a primitive root of order [n] *)
Section Interpolation.
Context (n : nat) (w : Scalar) (Hw : w ^ n = ONE)
  (Hprim : forall m, w ^ m = ONE -> (m mod n = 0)%nat).

(** The power sums of the domain. *)
Lemma domain_power_sum m :
  ssum (map (fun i => (w ^ i) ^ m) (seq 0 n))
  = if decide (m mod n = 0)%nat then repeated n else ZERO.
Proof.
  rewrite (ssum_ext _ (fun i => (w ^ m) ^ i)).
  2: { intros i _. rewrite <- !power_mul. f_equal. lia. }
  destruct (decide _) as [Hm|Hm].
  - rewrite (ssum_ext _ (fun _ => ONE)).
    + rewrite ssum_const, length_seq. ring.
    + intros i _. apply Nat.Lcm0.mod_divide in Hm as [k ->].
      rewrite (power_multiple _ _ k Hw). apply power_one.
  - pose proof (geometric_sum (w ^ m) n) as G.
    replace ((w ^ m) ^ n) with ONE in G.
    + assert (Z : (w ^ m - ONE) * ssum (powers (w ^ m) (seq 0 n)) = ZERO)
        by (rewrite G; ring).
      destruct (mul_zero _ _ Z) as [E|E]; [|exact E].
      destruct Hm. apply Hprim, sub_zero, E.
    + rewrite <- power_mul. symmetry. rewrite Nat.mul_comm, power_mul, Hw.
      apply power_one.
Qed.

Definition off_domain (z : Scalar) : Prop := forall i, (i < n)%nat -> z <> w ^ i.

Lemma off_domain_sub z i : off_domain z -> (i < n)%nat -> z - w ^ i <> ZERO.
Proof. intros Hz Hi E. apply (Hz i Hi), sub_zero, E. Qed.

Lemma root_quotient z i s :
  off_domain z -> (i < n)%nat ->
  (z ^ n - ONE) * ((w ^ i) ^ s / (z - w ^ i))
  = ssum (map (fun j => z ^ (n - 1 - j) * (w ^ i) ^ (j + s)%nat) (seq 0 n)).
Proof.
  intros Hz Hi. pose proof (off_domain_sub z i Hz Hi) as Hd.
  rewrite (ssum_ext _ (fun j => (w ^ i) ^ s * (z ^ (n - 1 - j) * (w ^ i) ^ j))).
  2: { intros j _. rewrite power_add. ring. }
  rewrite ssum_scale. pose proof (power_difference z (w ^ i) n) as P.
  replace ((w ^ i) ^ n) with ONE in P.
  - rewrite <- P. field. exact Hd.
  - rewrite <- power_mul, Nat.mul_comm, power_mul, Hw. symmetry. apply power_one.
Qed.

Lemma monomial_sum z s :
  off_domain z -> (s < n)%nat ->
  (z ^ n - ONE)
  * ssum (map (fun i => (w ^ i) ^ (S s) / (z - w ^ i)) (seq 0 n))
  = repeated n * z ^ s.
Proof.
  intros Hz Hs. rewrite <- ssum_scale.
  rewrite (ssum_ext _ (fun i =>
    ssum (map (fun j => z ^ (n - 1 - j) * (w ^ i) ^ (j + S s)%nat) (seq 0 n)))).
  2: { intros i Hi. apply elem_of_seq in Hi. apply root_quotient; [exact Hz|lia]. }
  rewrite ssum_swap.
  rewrite (ssum_ext _ (fun j => z ^ (n - 1 - j)
    * (if decide ((j + S s) mod n = 0)%nat then repeated n else ZERO))).
  2: { intros j _. rewrite ssum_scale, domain_power_sum. reflexivity. }
  rewrite (ssum_single _ _ (n - 1 - s)%nat).
  - replace (n - 1 - s + S s)%nat with n by lia. rewrite Nat.Div0.mod_same.
    destruct (decide _) as [|H]; [|destruct H; reflexivity].
    replace (n - 1 - (n - 1 - s))%nat with s by lia. ring.
  - apply NoDup_seq.
  - apply elem_of_seq. lia.
  - intros j Hj Hne. apply elem_of_seq in Hj. destruct (decide _) as [Hm|]; [|ring].
    apply Nat.Lcm0.mod_divide in Hm as [k Hk].
    assert (k = 1)%nat by (destruct k as [|[|k]]; lia). subst k. lia.
Qed.

Lemma barycentric_identity coefficients z s :
  off_domain z -> (length coefficients + s <= n)%nat ->
  (z ^ n - ONE)
  * ssum (map (fun i => peval coefficients (w ^ i) * (w ^ i) ^ (S s) / (z - w ^ i))
            (seq 0 n))
  = repeated n * (z ^ s * peval coefficients z).
Proof.
  intros Hz. revert s. induction coefficients as [|a l IH]; intros s Hl.
  - cbn [peval]. rewrite (ssum_ext _ (fun _ => ZERO)).
    + rewrite ssum_const. ring.
    + intros i Hi. apply elem_of_seq in Hi. field. apply off_domain_sub; [exact Hz|lia].
  - cbn [length] in Hl.
    rewrite (ssum_ext _ (fun i => a * ((w ^ i) ^ (S s) / (z - w ^ i))
      + peval l (w ^ i) * (w ^ i) ^ (S (S s)) / (z - w ^ i))).
    2: { intros i Hi. apply elem_of_seq in Hi. cbn [peval power]. field.
         apply off_domain_sub; [exact Hz|lia]. }
    rewrite ssum_add, ssum_scale.
    pose proof (monomial_sum z s Hz ltac:(lia)) as M. pose proof (IH (S s) ltac:(lia)) as I.
    match goal with |- ?c * (a * ?A + ?B) = _ => transitivity (a * (c * A) + c * B); [ring|] end.
    rewrite M, I. cbn [peval power]. ring.
Qed.

(** Every list of values is interpolated: the inverse transform of the domain. *)
Lemma peval_sum (c : nat -> Scalar) x k s :
  peval (map c (seq s k)) x = ssum (map (fun j => c j * x ^ (j - s)) (seq s k)).
Proof.
  revert s. induction k as [|k IH]; intros s; [reflexivity|]. cbn [seq map peval].
  rewrite ssum_cons, IH, <- ssum_scale, Nat.sub_diag. cbn [power].
  rewrite (ssum_ext _ (fun j => c j * x ^ (j - s))).
  - ring.
  - intros j Hj. apply elem_of_seq in Hj. replace (j - s)%nat with (S (j - S s)) by lia.
    cbn [power]. ring.
Qed.

Definition transform (f : nat -> Scalar) (j : nat) : Scalar :=
  ssum (map (fun i => f i * w ^ ((n - i) * j) / repeated n) (seq 0 n)).

Lemma transform_interpolates (Hn : repeated n <> ZERO) f k :
  (k < n)%nat -> peval (map (transform f) (seq 0 n)) (w ^ k) = f k.
Proof.
  intros Hk. rewrite peval_sum. unfold transform.
  rewrite (ssum_ext _ (fun j => ssum (map (fun i =>
    f i / repeated n * (w ^ j) ^ (n - i + k)) (seq 0 n)))).
  2: { intros j _. rewrite Nat.sub_0_r, (ring_comm _ ((w ^ k) ^ j)), <- ssum_scale. apply ssum_ext. intros i _.
       rewrite power_add, <- !power_mul, (Nat.mul_comm j (n - i)), (Nat.mul_comm j k).
       field. exact Hn. }
  rewrite ssum_swap.
  rewrite (ssum_ext _ (fun i => f i / repeated n
    * (if decide ((n - i + k) mod n = 0)%nat then repeated n else ZERO))).
  2: { intros i _. rewrite ssum_scale, domain_power_sum. reflexivity. }
  rewrite (ssum_single _ _ k).
  - replace (n - k + k)%nat with n by lia. rewrite Nat.Div0.mod_same.
    destruct (decide _) as [|H]; [|destruct H; reflexivity]. field. exact Hn.
  - apply NoDup_seq.
  - apply elem_of_seq. lia.
  - intros i Hi Hne. apply elem_of_seq in Hi. destruct (decide _) as [Hm|]; [|ring].
    apply Nat.Lcm0.mod_divide in Hm as [q Hq].
    assert (q = 1)%nat by (destruct q as [|[|q]]; nia). subst q. lia.
Qed.
End Interpolation.

(** ** The domain: all powers of one primitive 4096th root of unity *)
Abbreviation size := 4096%nat.
Abbreviation omega := domain_generator.

Lemma generator_power m :
  omega ^ m = ROOT_OF_UNITY ^ (Z.to_nat (2 ^ (SCALAR_S - 12)) * m)%nat.
Proof.
  pose proof two_adicity. unfold domain_generator. rewrite Z.shiftl_1_l, pow_vartime_spec.
  - symmetry. apply power_mul.
  - split; [apply Z.pow_nonneg; lia|apply Z.pow_lt_mono_r; lia].
Qed.
Lemma generator_order : omega ^ size = ONE.
Proof.
  rewrite generator_power, <- root_order. f_equal. pose proof two_adicity.
  replace size with (Z.to_nat (2 ^ 12)) by reflexivity.
  rewrite <- Z2Nat.inj_mul by (apply Z.pow_nonneg; lia). f_equal.
  rewrite <- Z.pow_add_r by lia. f_equal. lia.
Qed.
Lemma generator_half : omega ^ 2048 <> ONE.
Proof.
  rewrite generator_power. intros E. apply root_primitive. rewrite <- E. f_equal.
  pose proof two_adicity. replace 2048%nat with (Z.to_nat (2 ^ 11)) by reflexivity.
  rewrite <- Z2Nat.inj_mul by (apply Z.pow_nonneg; lia). f_equal.
  rewrite <- Z.pow_add_r by lia. f_equal. lia.
Qed.

(** A divisor of a power of two is the whole of it or divides its half. *)
Lemma pow2_cofactor k c g : (c * g = 2 ^ k)%nat -> (c = 1 \/ exists c', c = 2 * c')%nat.
Proof.
  intros H. destruct (Nat.Even_or_Odd c) as [[c' ->]|Ho]; [right; eauto|left].
  assert (G : Nat.gcd c 2 = 1%nat).
  { destruct Ho as [c' ->]. rewrite Nat.gcd_comm, (Nat.add_comm (2 * c')).
    rewrite (Nat.mul_comm 2 c'), Nat.gcd_add_mult_diag_r. reflexivity. }
  assert (D : Nat.divide c (2 ^ k)) by (exists g; lia). clear H. revert D.
  induction k as [|k IH]; intros D; [apply Nat.divide_1_r in D; exact D|].
  apply IH. rewrite Nat.pow_succ_r' in D. exact (Nat.gauss _ _ _ D G).
Qed.

(** The exponents that give one are the multiples of the size. *)
Lemma generator_primitive m : omega ^ m = ONE -> (m mod size = 0)%nat.
Proof.
  intros Hm. set (g := Nat.gcd m size).
  assert (Hg : omega ^ g = ONE).
  { destruct (Nat.gcd_bezout m size) as [(a & b & E)|(a & b & E)]; fold g in E.
    - pose proof (power_multiple _ _ a Hm) as P. rewrite E, power_add in P.
      rewrite (power_multiple _ _ b generator_order) in P. rewrite <- P. ring.
    - pose proof (power_multiple _ _ a generator_order) as P. rewrite E, power_add in P.
      rewrite (power_multiple _ _ b Hm) in P. rewrite <- P. ring. }
  assert (D : (size mod g = 0)%nat) by apply Nat.Lcm0.mod_divide, Nat.gcd_divide_r.
  assert (Hb : (1 <= g <= size)%nat).
  { pose proof (Nat.gcd_divide_r m size) as Hd. fold g in Hd. split.
    - destruct g; [|lia]. destruct Hd as [x Hx]. lia.
    - apply Nat.divide_pos_le in Hd; lia. }
  assert (C : (g = size \/ 2048 mod g = 0)%nat).
  { apply Nat.Lcm0.mod_divide in D as [c Hc]. destruct (pow2_cofactor 12 c g (eq_sym Hc)) as [->|[c' ->]].
    - left. lia.
    - right. apply Nat.Lcm0.mod_divide. exists c'. lia. }
  destruct C as [C|C].
  - apply Nat.Lcm0.mod_divide. rewrite <- C. apply Nat.gcd_divide_l.
  - destruct generator_half. apply Nat.Lcm0.mod_divide in C as [k ->].
    apply power_multiple, Hg.
Qed.

Lemma size_nonzero : repeated size <> ZERO.
Proof.
  assert (H2 : repeated 2 <> ZERO).
  { intros E. apply generator_half.
    assert (Hs : (omega ^ 2048 - ONE) * (omega ^ 2048 - ONE) = ZERO).
    { transitivity (omega ^ 2048 * omega ^ 2048 + ONE - repeated 2 * omega ^ 2048);
        [cbn [repeated]; ring|].
      rewrite <- power_add. change (2048 + 2048)%nat with size. rewrite generator_order, E.
      transitivity (repeated 2); [cbn [repeated]; ring|exact E]. }
    destruct (mul_zero _ _ Hs) as [E'|E']; apply sub_zero in E'; exact E'. }
  assert (P : forall k, repeated (2 ^ k)%nat <> ZERO).
  { induction k as [|k IH]; [cbn; intros E; apply one_nonzero; rewrite <- E; ring|].
    rewrite Nat.pow_succ_r', repeated_mul. apply mul_nonzero; assumption. }
  apply (P 12%nat).
Qed.

(** ** The roots in bit-reversed order *)
Lemma natural_roots_lookup n root generator i :
  (i < n)%nat -> natural_roots n root generator !! i = Some (root * generator ^ i).
Proof.
  revert root i. induction n as [|n IH]; intros root i Hi; [lia|].
  destruct i as [|i]; cbn [natural_roots lookup list_lookup power].
  - f_equal. ring.
  - rewrite IH by lia. f_equal. cbn [power]. ring.
Qed.

(** Twelve-bit reversal is an involution of the indices. *)
Definition reversed (i : nat) : nat := Z.to_nat (bit_reversed (Z.of_nat i)).
Lemma reversed_spec i :
  (i < size)%nat -> (reversed i < size)%nat /\ reversed (reversed i) = i /\
  Z.of_nat (reversed i) = bit_reversed (Z.of_nat i).
Proof.
  intros Hi.
  assert (B : 0 <= bit_reversed (Z.of_nat i) < 4096).
  { destruct (bits12_bound (bit_reversed (Z.of_nat i))) as [B1 B2].
    - intros j Hj. rewrite bit_reversed_spec by lia. destruct (Z.ltb_spec j 12); [lia|reflexivity].
    - pose proof (Z.mod_pos_bound (bit_reversed (Z.of_nat i)) 4096). lia. }
  assert (E : Z.of_nat (reversed i) = bit_reversed (Z.of_nat i)) by (apply Z2Nat.id; lia).
  split; [lia|]. split; [|exact E]. apply Nat2Z.inj. unfold reversed at 1. rewrite E.
  assert (I : bit_reversed (bit_reversed (Z.of_nat i)) = Z.of_nat i); [|rewrite I; lia].
  apply Z.bits_inj'. intros j Hj. rewrite bit_reversed_spec by lia.
  destruct (Z.ltb_spec j 12) as [L|L].
  - rewrite bit_reversed_spec by lia. destruct (Z.ltb_spec (11 - j)%Z 12); [|lia]. f_equal. lia.
  - rewrite <- (Z.mod_small (Z.of_nat i) (2 ^ 12)%Z) by lia. symmetry. apply Z.mod_pow2_bits_high. lia.
Qed.

Lemma blob_roots_spec : blob_roots = map (fun i => omega ^ (reversed i)) (seq 0 size).
Proof.
  unfold blob_roots, blob_indices. rewrite map_map. apply map_ext_in. intros i Hi.
  apply in_seq in Hi. destruct (reversed_spec i) as (R1 & _ & R3); [lia|].
  rewrite <- R3. unfold znth. destruct (Z.ltb_spec (Z.of_nat (reversed i)) 0); [lia|].
  rewrite Nat2Z.id. change (Z.to_nat FIELD_ELEMENTS_PER_BLOB_V1) with size.
  rewrite natural_roots_lookup by exact R1. cbn [default id]. ring.
Qed.

Lemma blob_roots_perm {A} (f : nat -> A) :
  Permutation (map (fun i => f (reversed i)) (seq 0 size)) (map f (seq 0 size)).
Proof.
  rewrite <- (map_map reversed f). apply Permutation_map. symmetry.
  apply NoDup_Permutation_bis.
  - apply NoDup_ListNoDup, NoDup_seq.
  - rewrite length_map. reflexivity.
  - intros i Hi. apply in_seq in Hi. destruct (reversed_spec i) as (R1 & R2 & _); [lia|].
    apply in_map_iff. exists (reversed i). split; [exact R2|]. apply in_seq. lia.
Qed.

Lemma position_None z roots : position z roots = None <-> ~ z ∈ roots.
Proof.
  induction roots as [|r l IH]; cbn [position]; [split; [intros _ H; inversion H|reflexivity]|].
  destruct (decide (r = z)) as [->|Hn].
  - split; [discriminate|]. intros H. destruct H. left.
  - rewrite not_elem_of_cons, <- IH. destruct (position z l); cbn; [|naive_solver].
    split; [discriminate|]. intros [_ H]. discriminate.
Qed.
Lemma position_Some z roots i : position z roots = Some i -> roots !! i = Some z.
Proof.
  revert i. induction roots as [|r l IH]; cbn [position]; [discriminate|].
  destruct (decide (r = z)) as [->|Hn]; [intros i H; injection H as <-; reflexivity|].
  destruct (position z l); [|discriminate]. intros i H. injection H as <-. apply IH. reflexivity.
Qed.

(** ** Batch inversion *)
Definition sprod (l : list Scalar) : Scalar := foldr mul ONE l.

Lemma prefix_products_spec a l :
  length (prefix_products a l).1 = length l /\ (prefix_products a l).2 = a * sprod l.
Proof.
  revert a. induction l as [|d l IH]; intros a; [cbn; split; [reflexivity|ring]|].
  cbn [prefix_products]. specialize (IH (a * d)).
  destruct (prefix_products (a * d) l) as [ps t]. cbn [fst snd length sprod foldr] in *.
  destruct IH as [-> ->]. split; [reflexivity|]. change (foldr mul ONE l) with (sprod l). ring.
Qed.

Lemma sprod_nonzero l : Forall (fun d => d <> ZERO) l -> sprod l <> ZERO.
Proof.
  induction 1; cbn; [apply one_nonzero|apply mul_nonzero; assumption].
Qed.

(** The backward pass over (value, root) pairs computes the quotients one by one. *)
Lemma backward_pass (pairs : list (Scalar * Scalar)) (ds : list Scalar) a p :
  length pairs = length ds -> Forall (fun d => d <> ZERO) ds -> a <> ZERO ->
  p * (a * sprod ds) = ONE ->
  let items := zip (zip pairs ds) (prefix_products a ds).1 in
  let r := foldl barycentric_step (p, ZERO) (rev items) in
  r.1 * a = ONE /\
  r.2 = ssum (map (fun q => q.1.1 * q.1.2 / q.2) (zip pairs ds)).
Proof.
  revert a pairs. induction ds as [|d ds IH]; intros a pairs Hl Hd Ha Hp.
  { destruct pairs; [|discriminate]. cbn in *. split; [rewrite <- Hp; ring|reflexivity]. }
  destruct pairs as [|[v w] pairs]; [discriminate|]. injection Hl as Hl.
  apply Forall_cons in Hd as [Hd0 Hd]. cbn [prefix_products].
  specialize (IH (a * d) pairs Hl Hd (mul_nonzero _ _ Ha Hd0)).
  destruct (prefix_products (a * d) ds) as [ps t]. cbn [fst zip zip_with] in *.
  cbn [rev]. rewrite foldl_app. cbn [sprod foldr] in Hp. fold (sprod ds) in Hp.
  destruct IH as [I1 I2]; [rewrite <- Hp; ring|].
  set (s := foldl barycentric_step _ _) in *. destruct s as [pi sum]. cbn [fst snd] in *.
  cbn [foldl barycentric_step fst snd map]. rewrite ssum_cons. split.
  - rewrite <- I1. ring.
  - rewrite I2. cbn [fst snd].
    assert (E : pi * a = ONE / d).
    { transitivity (pi * (a * d) / d); [field; exact Hd0|]. rewrite I1. reflexivity. }
    rewrite E. field. exact Hd0.
Qed.
Lemma zip_maps {A B C} (f : A -> B) (g : A -> C) l :
  zip (zip (map f l) l) (map g l) = map (fun x => (f x, x, g x)) l.
Proof. induction l as [|x l IH]; cbn; [reflexivity|]. f_equal. exact IH. Qed.

Lemma invert_Some x : x <> ZERO -> invert x = Some (inv x).
Proof.
  intros Hx. unfold inv. destruct (invert x) eqn:E; [reflexivity|].
  apply invert_zero in E. contradiction.
Qed.
Lemma inv_mul x : x <> ZERO -> inv x * x = ONE.
Proof. apply (Finv_l scalar_field). Qed.

(** What the routine computes off the domain, for any values: the barycentric formula. *)
Definition barycentric (f : Scalar -> Scalar) (z : Scalar) : Scalar :=
  (power z size - ONE) / repeated size
  * ssum (map (fun root => f root * root / (z - root)) blob_roots).

Lemma evaluate_off_domain f z :
  ~ z ∈ blob_roots -> evaluate_blob (map f blob_roots) z = Ok (barycentric f z).
Proof.
  intros Hz. unfold evaluate_blob, barycentric. rewrite (proj2 (position_None _ _) Hz).
  pose proof size_nonzero as Hn. rewrite pow_vartime_spec, from_u64_spec
    by (unfold FIELD_ELEMENTS_PER_BLOB_V1; lia).
  change (Z.to_nat FIELD_ELEMENTS_PER_BLOB_V1) with size. revert Hn Hz.
  generalize (repeated size) (power z size) blob_roots. intros n zn roots Hn Hz.
  set (ds := map (fun root => z - root) roots).
  assert (Hd : Forall (fun d => d <> ZERO) ds).
  { apply Forall_map, Forall_forall. intros r Hr E. apply Hz. apply sub_zero in E as ->. exact Hr. }
  destruct (prefix_products_spec ONE ds) as [Hl Hp].
  pose proof (sprod_nonzero ds Hd) as Hs.
  destruct (prefix_products ONE ds) as [prefixes product] eqn:E. cbn [fst snd] in Hl, Hp.
  assert (Hne : product <> ZERO) by (rewrite Hp; apply mul_nonzero; [apply one_nonzero|exact Hs]).
  rewrite (invert_Some _ Hne), (invert_Some _ Hn). cbn [ok_or rbind]. f_equal.
  destruct (backward_pass (zip (map f roots) roots) ds ONE (inv product)) as [_ B].
  - unfold ds. rewrite length_zip_with, !length_map. lia.
  - exact Hd.
  - apply one_nonzero.
  - rewrite <- Hp. apply inv_mul, Hne.
  - rewrite E in B. cbn [fst] in B. unfold barycentric_sum. rewrite B.
    unfold ds. rewrite zip_maps, map_map. cbn [fst snd].
    generalize (ssum (map (fun root => f root * root / (z - root)) roots)). intros t.
    unfold div. ring.
Qed.

Lemma evaluate_blob_polynomial coefficients z :
  (length coefficients <= size)%nat ->
  evaluate_blob (map (peval coefficients) blob_roots) z = Ok (peval coefficients z).
Proof.
  intros Hl. destruct (position z blob_roots) as [i|] eqn:E.
  - unfold evaluate_blob. rewrite E. apply position_Some in E.
    rewrite list_lookup_fmap, E. reflexivity.
  - apply position_None in E. rewrite evaluate_off_domain by exact E. f_equal.
    assert (Hz : off_domain size omega z).
    { intros i Hi ->. apply E. rewrite blob_roots_spec.
      destruct (reversed_spec i Hi) as (R1 & R2 & _). apply list_elem_of_fmap.
      exists (reversed i). rewrite R2. split; [reflexivity|]. apply elem_of_seq. lia. }
    pose proof (barycentric_identity size omega generator_order generator_primitive
                  coefficients z 0 Hz ltac:(lia)) as B.
    unfold barycentric. rewrite blob_roots_spec, map_map.
    rewrite (ssum_perm _ _ (blob_roots_perm
      (fun i => peval coefficients (omega ^ i) * omega ^ i / (z - omega ^ i)))).
    rewrite (ssum_ext (fun i => peval coefficients (omega ^ i) * (omega ^ i) ^ 1 / _)
      (fun i => peval coefficients (omega ^ i) * omega ^ i / (z - omega ^ i))) in B.
    2: { intros i Hi. apply elem_of_seq in Hi. cbn [power]. field.
         apply (off_domain_sub size omega); [exact Hz|lia]. }
    revert B. pose proof size_nonzero as Hn. revert Hn.
    generalize (repeated size) (power z size). intros n zn Hn.
    match goal with |- context [ssum ?l] => generalize (ssum l) end. intros t B.
    transitivity ((zn - ONE) * t / n); [field; exact Hn|]. rewrite B. cbn [power]. field. exact Hn.
Qed.

(** The polynomial of degree below 4096 a blob stands for. *)
Definition blob_polynomial (values coefficients : list Scalar) : Prop :=
  (length coefficients <= size)%nat /\ map (peval coefficients) blob_roots = values.

Lemma blob_polynomial_exists values :
  length values = size -> exists coefficients, blob_polynomial values coefficients.
Proof.
  intros L. set (f := fun j => default ZERO (values !! reversed j)).
  exists (map (transform size omega f) (seq 0 size)). split.
  - rewrite length_map, length_seq. reflexivity.
  - rewrite blob_roots_spec, map_map. rewrite (map_ext_in _ (fun i => default ZERO (values !! i))).
    + rewrite <- L. clear L f. induction values as [|v l IH]; [reflexivity|].
      cbn [length seq map]. f_equal. rewrite <- seq_shift, map_map. exact IH.
    + intros i Hi. apply in_seq in Hi. destruct (reversed_spec i) as (R1 & R2 & _); [lia|].
      rewrite transform_interpolates; [|exact generator_order|exact generator_primitive
        |exact size_nonzero|exact R1].
      unfold f. rewrite R2. reflexivity.
Qed.

Lemma evaluate_blob_exact values z y :
  length values = size ->
  evaluate_blob values z = Ok y <->
  exists coefficients, blob_polynomial values coefficients /\ y = peval coefficients z.
Proof.
  intros L. split.
  - intros E. destruct (blob_polynomial_exists values L) as (c & Hc & Hv). exists c.
    split; [split; assumption|]. rewrite <- Hv, evaluate_blob_polynomial in E by exact Hc. congruence.
  - intros (c & [Hc <-] & ->). apply evaluate_blob_polynomial, Hc.
Qed.
(** A blob with one nonzero element, its first: a geometric polynomial. *)
Lemma peval_repeat c n z : (z - ONE) * peval (repeat c n) z = c * (z ^ n - ONE).
Proof.
  induction n as [|n IH]; cbn [repeat peval power]; [ring|].
  transitivity ((z - ONE) * c + z * ((z - ONE) * peval (repeat c n) z)); [ring|]. rewrite IH. ring.
Qed.
Lemma peval_repeat_one c n : peval (repeat c n) ONE = repeated n * c.
Proof. induction n as [|n IH]; cbn [repeat peval repeated]; [ring|]. rewrite IH. ring. Qed.
Lemma map_zeros {A} (f : A -> Scalar) l :
  (forall x, x ∈ l -> f x = ZERO) -> map f l = repeat ZERO (length l).
Proof.
  induction l as [|x l IH]; intros H; [reflexivity|]. cbn [map length repeat].
  rewrite (H x) by left. rewrite IH; [reflexivity|]. intros y Hy. apply H. right. exact Hy.
Qed.

Definition impulse (v : Scalar) : list Scalar := repeat (v / repeated size) size.
Lemma impulse_polynomial v : blob_polynomial (v :: repeat ZERO 4095) (impulse v).
Proof.
  split; [unfold impulse; rewrite repeat_length; reflexivity|].
  rewrite blob_roots_spec, map_map. change (seq 0 size) with (0%nat :: seq 1 4095). cbn [map]. f_equal.
  - change (reversed 0) with 0%nat. cbn [power]. unfold impulse. rewrite peval_repeat_one.
    pose proof size_nonzero as Hn. revert Hn. generalize (repeated size). intros n Hn. field. exact Hn.
  - rewrite map_zeros, length_seq; [reflexivity|]. intros i Hi. apply elem_of_seq in Hi.
    destruct (reversed_spec i) as (R1 & R2 & _); [lia|].
    pose proof (peval_repeat (v / repeated size) size (omega ^ reversed i)) as P.
    assert (E : (omega ^ reversed i) ^ size = ONE).
    { rewrite <- power_mul, Nat.mul_comm, power_mul, generator_order. apply power_one. }
    rewrite E in P. fold (impulse v) in P.
    assert (Z : (omega ^ reversed i - ONE) * peval (impulse v) (omega ^ reversed i) = ZERO).
    { rewrite P. ring. }
    destruct (mul_zero _ _ Z) as [E'|E']; [exfalso|exact E'].
    apply sub_zero, generator_primitive in E'. rewrite Nat.mod_small in E' by exact R1.
    rewrite E' in R2. change (reversed 0) with 0%nat in R2. lia.
Qed.
Lemma impulse_evaluates v z y :
  z <> ONE -> repeated size * ((z - ONE) * y) = v * (z ^ size - ONE) -> peval (impulse v) z = y.
Proof.
  intros Hz H. pose proof (peval_repeat (v / repeated size) size z) as P. fold (impulse v) in P.
  pose proof size_nonzero as Hn. revert H P Hn. generalize (repeated size), (peval (impulse v) z), (z ^ size).
  intros n x zn H P Hn.
  assert (Hd : z - ONE <> ZERO) by (intros E; apply Hz, sub_zero, E).
  assert (E : n * (z - ONE) * (x - y) = ZERO).
  { transitivity (n * ((z - ONE) * x) - n * ((z - ONE) * y)); [ring|]. rewrite P, H. field. exact Hn. }
  destruct (mul_zero _ _ E) as [E'|E']; [destruct (mul_nonzero _ _ Hn Hd E')|]. apply sub_zero, E'.
Qed.

Lemma evaluate_blob_refines values z y :
  zlen values = FIELD_ELEMENTS_PER_BLOB_V1 ->
  evaluate_blob values z = Ok y <->
  exists coefficients, blob_polynomial values coefficients /\ y = peval coefficients z.
Proof. intros L. apply evaluate_blob_exact. apply Nat2Z.inj, L. Qed.
End Field.

(** ** Prime fields as residues: instances of the interface *)
Section Residue.
Variable modulus : positive.

Definition residue : Type := {x : Z | ((0 <=? x) && (x <? Zpos modulus)) = true}.
Lemma residue_range x : ((0 <=? x mod Zpos modulus) && (x mod Zpos modulus <? Zpos modulus)) = true.
Proof. apply andb_true_iff. rewrite Z.leb_le, Z.ltb_lt. apply Z.mod_pos_bound. lia. Qed.
Definition to_residue (x : Z) : residue := exist _ (x mod Zpos modulus) (residue_range x).
Lemma residue_eq (x y : residue) : `x = `y -> x = y.
Proof.
  destruct x as [x Hx], y as [y Hy]. cbn. intros ->. f_equal. apply Eqdep_dec.UIP_dec, bool_dec.
Qed.
#[local] Instance residue_eq_dec : EqDecision residue := fun x y =>
  match decide (`x = `y) with
  | left E => left (residue_eq x y E)
  | right N => right (fun E => N (f_equal (@proj1_sig _ _) E))
  end.

(** [x ^ e] by squaring. *)
Fixpoint power_mod (x : Z) (e : positive) : Z :=
  match e with
  | xH => x mod Zpos modulus
  | xO e => let y := power_mod x e in (y * y) mod Zpos modulus
  | xI e => let y := power_mod x e in (x * (y * y)) mod Zpos modulus
  end.
Lemma power_mod_spec x e : power_mod x e = (x ^ Zpos e) mod Zpos modulus.
Proof.
  induction e as [e IH|e IH|]; cbn [power_mod]; rewrite ?IH.
  - rewrite <- Zmult_mod_idemp_r, <- Z.mul_mod, Zmult_mod_idemp_r by lia. f_equal.
    rewrite (Pos2Z.inj_xI e), Z.pow_add_r, Z.pow_1_r, Z.mul_comm by lia. f_equal.
    replace (2 * Zpos e) with (Zpos e + Zpos e) by lia. rewrite Z.pow_add_r by lia. reflexivity.
  - rewrite <- Z.mul_mod by lia. f_equal.
    rewrite (Pos2Z.inj_xO e). replace (2 * Zpos e) with (Zpos e + Zpos e) by lia.
    rewrite Z.pow_add_r by lia. reflexivity.
  - rewrite Z.pow_1_r. reflexivity.
Qed.

(** The extended Euclidean algorithm; two steps halve the second argument, so 1023 steps are
    enough below [2 ^ 511]. *)
Fixpoint bezout (fuel : nat) (a b : Z) : Z * Z :=
  match fuel with
  | O => (1, 0)
  | S fuel =>
      if b =? 0 then (1, 0)
      else let '(u, v) := bezout fuel b (a mod b) in (v, u - a / b * v)
  end.
Lemma bezout_step fuel a b :
  0 < b -> (let '(u, v) := bezout fuel b (a mod b) in u * b + v * (a mod b) = Z.gcd b (a mod b)) ->
  let '(u, v) := bezout (S fuel) a b in u * a + v * b = Z.gcd a b.
Proof.
  intros Hb H. cbn [bezout]. destruct (Z.eqb_spec b 0); [lia|].
  destruct (bezout fuel b (a mod b)) as [u v]. rewrite (Z.gcd_comm b (a mod b)), Z.gcd_mod, Z.gcd_comm in H by lia.
  rewrite <- H, (Z.mod_eq a b) by lia. ring.
Qed.
Lemma bezout_zero fuel a : 0 <= a -> let '(u, v) := bezout (S fuel) a 0 in u * a + v * 0 = Z.gcd a 0.
Proof. intros Ha. cbn [bezout]. change (0 =? 0) with true. cbn. rewrite Z.gcd_0_r. lia. Qed.
Lemma bezout_spec j a b :
  0 <= a -> 0 <= b < 2 ^ Z.of_nat j ->
  let '(u, v) := bezout (2 * j + 1) a b in u * a + v * b = Z.gcd a b.
Proof.
  revert a b. induction j as [|j IH]; intros a b Ha Hb.
  - replace b with 0 by (change (2 ^ Z.of_nat 0) with 1 in Hb; lia). apply (bezout_zero 0), Ha.
  - rewrite Nat2Z.inj_succ, Z.pow_succ_r in Hb by lia.
    replace (2 * S j + 1)%nat with (S (S (2 * j + 1))) by lia.
    destruct (Z.eq_dec b 0) as [->|Hn]; [apply (bezout_zero (S (2 * j + 1))), Ha|].
    pose proof (Z.mod_pos_bound a b ltac:(lia)) as R.
    apply bezout_step; [lia|]. destruct (Z.eq_dec (a mod b) 0) as [->|Hr].
    + apply (bezout_zero (2 * j + 1)). lia.
    + apply bezout_step; [lia|]. pose proof (Z.mod_pos_bound b (a mod b) ltac:(lia)).
      pose proof (Z.div_mod b (a mod b) ltac:(lia)).
      assert (1 <= b / (a mod b)) by (apply Z.div_le_lower_bound; lia).
      apply IH; [lia|]. split; [lia|]. nia.
Qed.

(** The value of the four little-endian limbs of an exponent. *)
Definition limbs_value (limbs : list Z) : Z :=
  foldr (fun limb value => limb + 2 ^ 64 * value) 0 limbs.

Definition residue_scalar (two_adicity root : Z) : BlsScalar := {|
  Scalar := residue;
  ZERO := to_residue 0;
  ONE := to_residue 1;
  add x y := to_residue (`x + `y);
  sub x y := to_residue (`x - `y);
  mul x y := to_residue (`x * `y);
  invert x :=
    if `x =? 0 then None else Some (to_residue (bezout 1023 (`x) (Zpos modulus)).1);
  pow_vartime x limbs :=
    match limbs_value limbs with
    | Zpos e => to_residue (power_mod (`x) e)
    | _ => to_residue 1
    end;
  from_u64 n := to_residue n;
  from_bytes b :=
    let value := of_be (rev b) in
    if value <? Zpos modulus then Some (to_residue value) else None;
  to_bytes x := rev (be_bytes 32 (`x));
  SCALAR_S := two_adicity;
  ROOT_OF_UNITY := to_residue root
|}.

Lemma residue_bound (x : residue) : 0 <= `x < Zpos modulus.
Proof.
  destruct x as [x Hx]. cbn. apply andb_true_iff in Hx. rewrite Z.leb_le, Z.ltb_lt in Hx. exact Hx.
Qed.
Lemma residue_self (x : residue) : to_residue (`x) = x.
Proof. apply residue_eq. cbn. apply Z.mod_small, residue_bound. Qed.
Lemma to_residue_iff a b : to_residue a = to_residue b <-> a mod Zpos modulus = b mod Zpos modulus.
Proof.
  split; [intros E; apply (f_equal (@proj1_sig _ _)) in E; exact E|].
  intros E. apply residue_eq. exact E.
Qed.
End Residue.

(** A small field with the laws: the unit group modulo 12289 has order 3 * 2^12. *)
Definition small_scalar : BlsScalar := residue_scalar 12289 12 1331.

(** The parameters of bls12_381::Scalar itself. *)
Definition bls_scalar : BlsScalar := residue_scalar
  52435875175126190479447740508185965837690552500527637822603658699938581184513 32
  10238227357739495823651030575849232062558860180284477541189508159991286009131.

Abbreviation small_residue := (to_residue 12289).

Lemma small_modulus_prime x : 0 < x < 12289 -> Z.gcd x 12289 = 1.
Proof.
  intros Hx. set (g := Z.gcd x 12289).
  assert (Hg : 0 <= g) by apply Z.gcd_nonneg.
  destruct (Z.gcd_divide_r x 12289) as [c Hc]. fold g in Hc.
  assert (L : g <= x) by (apply Z.divide_pos_le; [lia|apply Z.gcd_divide_l]).
  assert (T : forall d e, 2 <= d <= 110 -> 12289 <> e * d).
  { intros d e Hd E. assert (Hm : 12289 mod d = 0) by (rewrite E; apply Z.mod_mul; lia).
    assert (F : forallb (fun k => negb (12289 mod (Z.of_nat k + 2) =? 0)) (seq 0 109) = true)
      by reflexivity.
    rewrite forallb_forall in F. assert (Hi : (0 <= Z.to_nat (d - 2) < 0 + 109)%nat) by lia.
    specialize (F (Z.to_nat (d - 2)) (proj2 (in_seq 109 0 _) Hi)). rewrite Z2Nat.id in F by lia. replace (d - 2 + 2) with d in F by lia.
    rewrite Hm in F. discriminate F. }
  destruct (Z.le_gt_cases g 110) as [G|G].
  - assert (g <> 0) by (intros E; rewrite E in Hc; lia). clearbody g.
    destruct (Z.le_gt_cases g 1); [lia|]. destruct (T g c); [lia|exact Hc].
  - destruct (Z.le_gt_cases c 110).
    + destruct (Z.le_gt_cases c 1); [nia|]. destruct (T c g); [lia|]. rewrite Hc. apply Z.mul_comm.
    + nia.
Qed.
Lemma residue_inverse (x : residue 12289) :
  `x <> 0 -> ((bezout 1023 (`x) 12289).1 mod 12289 * `x) mod 12289 = 1.
Proof.
  intros Hx. pose proof (residue_bound 12289 x) as Hb.
  pose proof (bezout_spec 511 (`x) 12289 ltac:(lia) ltac:(split; [lia|reflexivity])) as B.
  change (2 * 511 + 1)%nat with 1023%nat in B. destruct (bezout 1023 (`x) 12289) as [u v]. cbn [fst].
  rewrite small_modulus_prime in B by lia. rewrite Z.mul_mod_idemp_l by lia.
  replace (u * `x) with (1 + (- v) * 12289) by lia. rewrite Z.mod_add by lia. reflexivity.
Qed.

Lemma small_power (x : residue 12289) n :
  @power small_scalar x n = small_residue (`x ^ Z.of_nat n).
Proof.
  induction n as [|n IH]; [reflexivity|]. cbn [power]. rewrite IH. apply to_residue_iff.
  cbn [proj1_sig to_residue]. rewrite Z.mul_mod_idemp_r by discriminate. f_equal.
  rewrite Nat2Z.inj_succ, Z.pow_succ_r by lia. reflexivity.
Qed.

Lemma small_power_one (x : residue 12289) n e :
  Z.of_nat n = Zpos e ->
  @power small_scalar x n = @ONE small_scalar <-> power_mod 12289 (`x) e = 1.
Proof.
  intros He. rewrite power_mod_spec, <- He. split.
  - intros E. apply (eq_trans (eq_sym (small_power x n))), to_residue_iff in E. exact E.
  - intros E. apply (eq_trans (small_power x n)), to_residue_iff. exact E.
Qed.

Lemma small_scalar_field : @ScalarField small_scalar.
Proof.
  pose proof (to_residue_iff 12289) as M. assert (P : 12289 <> 0) by discriminate.
  split.
  - unfold small_scalar, residue_scalar; cbn [Scalar ZERO ONE add sub mul invert pow_vartime
      from_u64 SCALAR_S ROOT_OF_UNITY].
    split; [split| | |]; unfold opp, div, inv; cbn [Scalar ZERO ONE add sub mul invert];
      intros; try reflexivity.
    + apply residue_eq. cbn [proj1_sig to_residue]. change (0 mod 12289) with 0.
      apply Z.mod_small, (residue_bound 12289).
    + apply M. f_equal. lia.
    + apply M. cbn. rewrite Z.add_mod_idemp_r, Z.add_mod_idemp_l by exact P. f_equal. lia.
    + apply residue_eq. cbn [proj1_sig to_residue]. change (1 mod 12289) with 1.
      rewrite Z.mul_1_l. apply Z.mod_small, (residue_bound 12289).
    + apply M. f_equal. lia.
    + apply M. cbn. rewrite Z.mul_mod_idemp_r, Z.mul_mod_idemp_l by exact P. f_equal. lia.
    + apply M. cbn. rewrite Z.mul_mod_idemp_l, <- Z.add_mod by exact P. f_equal. lia.
    + apply M. cbn [proj1_sig to_residue]. rewrite Z.add_mod_idemp_r by exact P. f_equal.
    + apply M. cbn [proj1_sig to_residue]. rewrite Z.add_mod_idemp_r by exact P.
      change (0 mod 12289) with 0. replace (`x + (0 - `x)) with 0 by lia. reflexivity.
    + intros E. apply M in E. discriminate.
    + assert (Hp : `p <> 0).
      { intros E. apply H. rewrite <- (residue_self 12289 p), E. reflexivity. }
      destruct (Z.eqb_spec (`p) 0); [contradiction|]. cbn [default id].
      apply M. cbn [proj1_sig to_residue].
      rewrite (residue_inverse p Hp). reflexivity.
  - unfold small_scalar, residue_scalar; cbn [Scalar ZERO ONE add sub mul invert pow_vartime
      from_u64 SCALAR_S ROOT_OF_UNITY].
    intros x. destruct (Z.eqb_spec (`x) 0) as [E|E]; split; intros H; try discriminate.
    + rewrite <- (residue_self 12289 x), E. reflexivity.
    + reflexivity.
    + subst x. destruct E. reflexivity.
  - unfold small_scalar, residue_scalar; cbn [Scalar ZERO ONE add sub mul invert pow_vartime
      from_u64 SCALAR_S ROOT_OF_UNITY].
    intros x e He.
    etransitivity; [|symmetry; apply small_power]. rewrite Z2Nat.id by lia.
    replace (limbs_value [e; 0; 0; 0]) with e by (cbn; lia).
    destruct e as [|e|e]; [reflexivity| |lia].
    apply M. rewrite power_mod_spec. apply Z.mod_mod. exact P.
  - unfold small_scalar, residue_scalar; cbn [Scalar ZERO ONE add sub mul invert pow_vartime
      from_u64 SCALAR_S ROOT_OF_UNITY].
    intros n Hn. rewrite <- (Z2Nat.id n) at 1 by lia.
    induction (Z.to_nat n) as [|k IH]; [reflexivity|].
    refine (eq_trans _ (f_equal (fun y => small_residue (proj1_sig (small_residue 1) + `y)) IH)).
    apply M. cbn [proj1_sig to_residue]. rewrite Z.add_mod_idemp_r by exact P.
    change (1 mod 12289) with 1. f_equal. lia.
  - cbn. lia.
  - apply (small_power_one _ _ 4096); [apply Z2Nat.id; lia|]. vm_compute. reflexivity.
  - rewrite (small_power_one _ _ 2048) by (apply Z2Nat.id; lia). vm_compute. discriminate.
Qed.

Lemma small_mul a b : @mul small_scalar (small_residue a) (small_residue b) = small_residue (a * b).
Proof. apply to_residue_iff. cbn [proj1_sig to_residue]. symmetry. apply Z.mul_mod. discriminate. Qed.
Lemma small_sub a b : @sub small_scalar (small_residue a) (small_residue b) = small_residue (a - b).
Proof. apply to_residue_iff. cbn [proj1_sig to_residue]. symmetry. apply Zminus_mod. Qed.

(** The value of an impulse, by one exponentiation. *)
Lemma small_impulse v z y zn :
  z mod 12289 <> 1 -> power_mod 12289 (z mod 12289) 4096 = zn ->
  (4096 * ((z - 1) * y)) mod 12289 = (v * (zn - 1)) mod 12289 ->
  @peval small_scalar (@impulse small_scalar (small_residue v)) (small_residue z) = small_residue y.
Proof.
  intros Hz Hp H. pose proof (to_residue_iff 12289) as M.
  apply (@impulse_evaluates small_scalar small_scalar_field).
  - intros E. apply M in E. contradiction.
  - pose proof (@from_u64_spec small_scalar small_scalar_field 4096 ltac:(lia)) as F.
    change (Z.to_nat 4096) with 4096%nat in F. rewrite <- F. clear F. rewrite small_power.
    change (Z.of_nat 4096) with (Zpos 4096). cbn [proj1_sig to_residue].
    assert (E : small_residue ((z mod 12289) ^ Zpos 4096) = small_residue zn).
    { apply M. rewrite <- Hp, power_mod_spec. symmetry. apply Z.mod_mod. discriminate. }
    rewrite E. change (@from_u64 small_scalar 4096) with (small_residue 4096).
    change (@ONE small_scalar) with (small_residue 1).
    rewrite !small_sub, !small_mul. apply M. exact H.
Qed.

(** C15: opening a blob is polynomial evaluation: 4096 field elements are the values, on the
    bit-reversed roots of unity, of a polynomial of degree below 4096, and the routine -
    direct lookup on the domain, barycentric formula with one batch inversion off it -
    returns exactly the value of that polynomial at the point, without reaching one of its
    panics. *)
Theorem evaluate_blob_interpolates {BS : BlsScalar} {SF : ScalarField} values z y :
  zlen values = FIELD_ELEMENTS_PER_BLOB_V1 ->
  evaluate_blob values z = Ok y <->
  exists coefficients, blob_polynomial values coefficients /\ y = peval coefficients z.
Proof. apply evaluate_blob_refines. Qed.

#[local] Existing Instance small_scalar.
#[local] Existing Instance small_scalar_field.

(** The polynomial [3 + 5 X^2]. *)
Definition demo_polynomial : list (@Scalar small_scalar) :=
  [small_residue 3; small_residue 0; small_residue 5].

Lemma demo_polynomial_small : (length demo_polynomial <= Z.to_nat 4096)%nat.
Proof. cbn [length demo_polynomial]. lia. Qed.
Lemma zlen_blob_roots : zlen blob_roots = 4096.
Proof. unfold zlen, blob_roots, blob_indices. rewrite !length_map, length_seq. reflexivity. Qed.

Lemma evaluate_blob_interpolates_witness :
  zlen (map (peval demo_polynomial) blob_roots) = FIELD_ELEMENTS_PER_BLOB_V1 /\
  evaluate_blob (map (peval demo_polynomial) blob_roots) (small_residue 7) = Ok (small_residue 248).
Proof.
  assert (L : zlen (map (peval demo_polynomial) blob_roots) = FIELD_ELEMENTS_PER_BLOB_V1).
  { unfold zlen. rewrite length_map. exact zlen_blob_roots. }
  split; [exact L|].
  apply (evaluate_blob_interpolates (BS := small_scalar) _ (small_residue 7) (small_residue 248) L).
  exists demo_polynomial. split; [split; [exact demo_polynomial_small|reflexivity]|].
  reflexivity.
Defined.
