(* ===== verification/Types.v ===== *)
(** * Data of the state-transition function

    The structs of [stf-types] ([block.rs], [v4/types.rs], [v5/types.rs]) and
    the resource limits of [limits.rs], field for field.  Each field keeps its
    name behind a short prefix that identifies its struct, because Rocq record
    projections share one name space.  Unsigned integers, [U256], [Address]
    and [B256] are [Z] (see [Prelude]); [Vec<u8>]/[Bytes] are byte lists. *)

From S2P Require Import Prelude.
Open Scope Z_scope.

(** ** src/zkvm/crates/stf-types/src/limits.rs *)
Definition JOURNAL_VERSION : Z := 2.
Definition BATCH_JOURNAL_VERSION_V4 : Z := 4.
Definition BATCH_JOURNAL_VERSION_V6 : Z := 6.
Definition MAX_BATCH_BLOCKS_V4 : Z := 4.
Definition MAX_COMPACT_ACCOUNTS_V4 : Z := 128.
Definition MAX_COMPACT_STORAGE_SLOTS_V4 : Z := 2048.
Definition MAX_COMPACT_PROOF_NODES_V4 : Z := 4096.
Definition MAX_COMPACT_CODE_BYTES_V4 : Z := 2 * 1024 * 1024.
Definition MAX_BATCH_WITNESS_BYTES_V4 : Z := 8 * 1024 * 1024.
Definition MAX_POSITIONAL_CAPACITY_V5 : Z := 256.
Definition MAX_WITHDRAWAL_CAPACITY_V5 : Z := 32768.
Definition MAX_EXIT_ASSETS_V5 : Z := 256.
Definition MAX_COLD_BLOCKS_V4 : Z := 32.
Definition MAX_COLD_TRANSACTIONS_V4 : Z := 256.
Definition MAX_COLD_GAS_PER_BLOCK_V4 : Z := 30000000.
Definition COLD_TEMPLATE_CHAIN_ID_V4 : Z := 77999999.

(** ** Ranges of the remaining field types *)
Definition in_u16 (x : Z) : Prop := 0 <= x < 2 ^ 16.
Definition in_u32 (x : Z) : Prop := 0 <= x < 2 ^ 32.
Definition bytes_wf (b : bytes) : Prop := Forall is_byte b.
Definition array_wf (n : Z) (b : bytes) : Prop := zlen b = n /\ bytes_wf b.
Definition option_wf {A} (P : A -> Prop) (o : option A) : Prop :=
  match o with Some a => P a | None => True end.
Definition pair_wf {A B} (P : A -> Prop) (Q : B -> Prop) (p : A * B) : Prop :=
  P p.1 /\ Q p.2.

(** ** src/zkvm/crates/stf-types/src/block.rs *)
Record AccountState := mk_AccountState {
  as_nonce : Z;
  as_balance : Z;
  as_code : bytes;
  as_storage : list (Z * Z)
}.

Record BlockEnvV1 := mk_BlockEnvV1 {
  env_number : Z;
  env_timestamp : Z;
  env_gas_limit : Z;
  env_coinbase : Z;
  env_base_fee : Z;
  env_prev_randao : Z;
  env_difficulty : Z;
  env_excess_blob_gas : Z;
  env_chain_id : Z
}.

Record HistoricalBlockHash := mk_HistoricalBlockHash {
  hbh_number : Z;
  hbh_hash : Z
}.

Record StfInput := mk_StfInput {
  si_room_id : Z;
  si_block_number : Z;
  si_prev_state_root : Z;
  si_state : list (Z * AccountState);
  si_raw_txs : list bytes;
  si_env : BlockEnvV1;
  si_block_hashes : list HistoricalBlockHash
}.

Record StfJournal := mk_StfJournal {
  sj_v : Z;
  sj_room_id : Z;
  sj_block_number : Z;
  sj_prev_state_root : Z;
  sj_post_state_root : Z;
  sj_tx_commitment : Z;
  sj_env_hash : Z
}.


(** ** src/zkvm/crates/stf-types/src/v4/types.rs *)
Record BatchBlockV4 := mk_BatchBlockV4 {
  bb4_block_number : Z;
  bb4_raw_txs : list bytes;
  bb4_env : BlockEnvV1;
  bb4_expected_post_state_root : Z
}.

Record CompactStorageWitnessV4 := mk_CompactStorageWitnessV4 {
  csw_slot : Z;
  csw_value : Z;
  csw_proof : list bytes
}.

Record CompactAccountWitnessV4 := mk_CompactAccountWitnessV4 {
  caw_address : Z;
  caw_exists : bool;
  caw_nonce : Z;
  caw_balance : Z;
  caw_code : bytes;
  caw_canonical_storage_root : Z;
  caw_account_proof : list bytes;
  caw_storage : list CompactStorageWitnessV4
}.

Record CompactStateWitnessV4 := mk_CompactStateWitnessV4 {
  cst_canonical_state_root : Z;
  cst_accounts : list CompactAccountWitnessV4
}.

Record MemberSlotWitnessV4 := mk_MemberSlotWitnessV4 {
  msl_slot : Z;
  msl_state : Z;
  msl_account : Z;
  msl_joined_at_batch : Z;
  msl_retired_at_batch : option Z
}.

Record AssetTotalWitnessV4 := mk_AssetTotalWitnessV4 {
  atw_asset_id : Z;
  atw_total : Z
}.

Record ExitAllocationV4 := mk_ExitAllocationV4 {
  xal_slot : Z;
  xal_asset_id : Z;
  xal_recipient : Z;
  xal_amount : Z
}.

Record AssetAccountingV4 := mk_AssetAccountingV4 {
  aac_asset_id : Z;
  aac_total : Z;
  aac_exit_total : Z;
  aac_fee_total : Z
}.

Record ResidualAllocationV4 := mk_ResidualAllocationV4 {
  ral_position : Z;
  ral_asset_id : Z;
  ral_recipient_slot : Z
}.

Record InboxAssetAmountV4 := mk_InboxAssetAmountV4 {
  iaa_asset_id : Z;
  iaa_amount : Z
}.

Record InboxEntryWitnessV4 := mk_InboxEntryWitnessV4 {
  inb_index : Z;
  inb_kind : Z;
  inb_account : Z;
  inb_beneficiary_slot : Z;
  inb_status : Z;
  inb_deposits : list InboxAssetAmountV4
}.

Record MembershipDeltaWitnessV4 := mk_MembershipDeltaWitnessV4 {
  mdl_action : Z;
  mdl_slot : Z;
  mdl_member : Z;
  mdl_join_request_index : Z;
  mdl_acceptance_expiry : Z
}.

Record BatchInputV4 := mk_BatchInputV4 {
  bi4_encoded_witness_bytes : Z;
  bi4_deployment_id : Z;
  bi4_room_id : Z;
  bi4_preset_hash : Z;
  bi4_manifest_hash : Z;
  bi4_proof_program_id : Z;
  bi4_batch_index : Z;
  bi4_l2_start_height : Z;
  bi4_previous_block_timestamp : Z;
  bi4_prev_state_root : Z;
  bi4_pre_roster_root : Z;
  bi4_post_roster_root : Z;
  bi4_active_mask : Z;
  bi4_pre_used_mask : Z;
  bi4_post_active_mask : Z;
  bi4_used_mask : Z;
  bi4_inbox_start : Z;
  bi4_inbox_end : Z;
  bi4_inbox_inputs_hash : Z;
  bi4_expected_block_data_hash : Z;
  bi4_asset_totals_hash : Z;
  bi4_exit_totals_hash : Z;
  bi4_fee_totals_hash : Z;
  bi4_membership_deltas_hash : Z;
  bi4_previous_exit_root : Z;
  bi4_exit_root : Z;
  bi4_close : bool;
  bi4_l1_inclusion_deadline : Z;
  bi4_canonical_preset_json : bytes;
  bi4_canonical_exit_program_json : bytes;
  bi4_pre_roster_slots : list MemberSlotWitnessV4;
  bi4_post_roster_slots : list MemberSlotWitnessV4;
  bi4_membership_deltas : list MembershipDeltaWitnessV4;
  bi4_inbox_entries : list InboxEntryWitnessV4;
  bi4_asset_totals : list AssetTotalWitnessV4;
  bi4_residual_allocations : list ResidualAllocationV4;
  bi4_previous_exit_allocations : list ExitAllocationV4;
  bi4_compact_state : CompactStateWitnessV4;
  bi4_blocks : list BatchBlockV4
}.

Record BatchBlockJournalV4 := mk_BatchBlockJournalV4 {
  bbj_block_number : Z;
  bbj_post_state_root : Z;
  bbj_tx_commitment : Z;
  bbj_env_hash : Z
}.

Record BatchJournalV4 := mk_BatchJournalV4 {
  bj4_v : Z;
  bj4_deployment_id : Z;
  bj4_room_id : Z;
  bj4_preset_hash : Z;
  bj4_manifest_hash : Z;
  bj4_proof_program_id : Z;
  bj4_batch_index : Z;
  bj4_l2_start_height : Z;
  bj4_l2_end_height : Z;
  bj4_previous_block_timestamp : Z;
  bj4_final_block_timestamp : Z;
  bj4_prev_state_root : Z;
  bj4_post_state_root : Z;
  bj4_block_roots_hash : Z;
  bj4_blocks : list BatchBlockJournalV4;
  bj4_pre_roster_root : Z;
  bj4_post_roster_root : Z;
  bj4_active_mask : Z;
  bj4_post_active_mask : Z;
  bj4_used_mask : Z;
  bj4_inbox_start : Z;
  bj4_inbox_end : Z;
  bj4_inbox_inputs_hash : Z;
  bj4_block_data_hash : Z;
  bj4_asset_totals_hash : Z;
  bj4_exit_totals_hash : Z;
  bj4_fee_totals_hash : Z;
  bj4_membership_deltas_hash : Z;
  bj4_previous_exit_root : Z;
  bj4_exit_root : Z;
  bj4_close : bool;
  bj4_l1_inclusion_deadline : Z;
  bj4_exit_allocations : list ExitAllocationV4;
  bj4_asset_accounting : list AssetAccountingV4
}.

Record GenesisInputV4 := mk_GenesisInputV4 {
  gi4_encoded_witness_bytes : Z;
  gi4_deployment_id : Z;
  gi4_room_id : Z;
  gi4_config_hash : Z;
  gi4_preset_hash : Z;
  gi4_manifest_hash : Z;
  gi4_proof_program_id : Z;
  gi4_l1_block_number : Z;
  gi4_l1_block_hash : Z;
  gi4_l1_state_root : Z;
  gi4_l1_header_rlp : bytes;
  gi4_genesis_state_root : Z;
  gi4_genesis_roster_root : Z;
  gi4_genesis_exit_root : Z;
  gi4_active_mask : Z;
  gi4_used_mask : Z;
  gi4_inbox_cursor : Z;
  gi4_asset_totals_hash : Z;
  gi4_exit_totals_hash : Z;
  gi4_fee_totals_hash : Z;
  gi4_l1_inclusion_deadline : Z;
  gi4_canonical_preset_json : bytes;
  gi4_canonical_exit_program_json : bytes;
  gi4_roster_slots : list MemberSlotWitnessV4;
  gi4_asset_totals : list AssetTotalWitnessV4;
  gi4_residual_allocations : list ResidualAllocationV4;
  gi4_compact_state : CompactStateWitnessV4
}.

Record GenesisJournalV4 := mk_GenesisJournalV4 {
  gj4_v : Z;
  gj4_deployment_id : Z;
  gj4_room_id : Z;
  gj4_config_hash : Z;
  gj4_preset_hash : Z;
  gj4_manifest_hash : Z;
  gj4_proof_program_id : Z;
  gj4_l1_block_number : Z;
  gj4_l1_block_hash : Z;
  gj4_l1_state_root : Z;
  gj4_genesis_state_root : Z;
  gj4_genesis_roster_root : Z;
  gj4_genesis_exit_root : Z;
  gj4_active_mask : Z;
  gj4_used_mask : Z;
  gj4_inbox_cursor : Z;
  gj4_asset_totals_hash : Z;
  gj4_exit_totals_hash : Z;
  gj4_fee_totals_hash : Z;
  gj4_l1_inclusion_deadline : Z;
  gj4_exit_allocations : list ExitAllocationV4;
  gj4_asset_accounting : list AssetAccountingV4
}.

Record ColdRuntimeCodeV4 := mk_ColdRuntimeCodeV4 {
  crc_address : Z;
  crc_code_hash : Z
}.

Record ColdStateAccessV4 := mk_ColdStateAccessV4 {
  csa_address : Z;
  csa_storage_slots : list Z
}.

Record ColdStateRefreshV4 := mk_ColdStateRefreshV4 {
  csr_address : Z;
  csr_refresh_nonce : bool;
  csr_refresh_balance : bool;
  csr_refresh_all_storage : bool;
  csr_storage_slots : list Z
}.

Record ColdRoomInputV4 := mk_ColdRoomInputV4 {
  cri_encoded_witness_bytes : Z;
  cri_compiled_bundle_hash : Z;
  cri_preset_hash : Z;
  cri_manifest_hash : Z;
  cri_proof_program_id : Z;
  cri_initial_state_root : Z;
  cri_initialized_state_root : Z;
  cri_analyzed_artifact_root : Z;
  cri_allowed_call_target_root : Z;
  cri_initial_state : list (Z * AccountState);
  cri_setup_blocks : list BatchBlockV4;
  cri_runtime_code : list ColdRuntimeCodeV4;
  cri_state_access : list ColdStateAccessV4;
  cri_state_refresh : list ColdStateRefreshV4
}.

Record ColdRoomJournalV4 := mk_ColdRoomJournalV4 {
  crj_v : Z;
  crj_template_id : Z;
  crj_compiled_bundle_hash : Z;
  crj_preset_hash : Z;
  crj_manifest_hash : Z;
  crj_proof_program_id : Z;
  crj_constructor_chain_id : Z;
  crj_initial_state_root : Z;
  crj_initialized_state_root : Z;
  crj_setup_data_hash : Z;
  crj_runtime_code_root : Z;
  crj_state_access_root : Z;
  crj_state_refresh_root : Z;
  crj_static_state_commitment : Z;
  crj_analyzed_artifact_root : Z;
  crj_allowed_call_target_root : Z
}.

Record ComposedBatchInputV4 := mk_ComposedBatchInputV4 {
  cbi_cold_journal : ColdRoomJournalV4;
  cbi_runtime_code : list ColdRuntimeCodeV4;
  cbi_state_access : list ColdStateAccessV4;
  cbi_state_refresh : list ColdStateRefreshV4;
  cbi_batch : BatchInputV4
}.


(** ** src/zkvm/crates/stf-types/src/v5/types.rs *)
Record BatchBlockV5 := mk_BatchBlockV5 {
  bb5_block_number : Z;
  bb5_raw_txs : list bytes;
  bb5_env : BlockEnvV1;
  bb5_block_hashes : list HistoricalBlockHash;
  bb5_expected_post_state_root : Z
}.

Record RosterMemberV5 := mk_RosterMemberV5 {
  rm_index : Z;
  rm_member : Z;
  rm_joined_epoch : Z
}.

Record RosterChangeV5 := mk_RosterChangeV5 {
  rc_action : Z;
  rc_request_id : Z;
  rc_index : Z;
  rc_joined_epoch : Z;
  rc_deadline : Z;
  rc_member : Z;
  rc_withdrawal_commitment : Z
}.

Record AdmissionReceiptV5 := mk_AdmissionReceiptV5 {
  arc_admission_id : Z;
  arc_transaction_hash : Z;
  arc_deposit_inbox_id : Z;
  arc_deposit_content_hash : Z;
  arc_deadline_block : Z;
  arc_maximum_batch_index : Z;
  arc_bond_epoch : Z;
  arc_admission_fee : Z;
  arc_signature : bytes
}.

Record AdmissionOutcomeV5 := mk_AdmissionOutcomeV5 {
  aoc_admission_id : Z;
  aoc_transaction_hash : Z;
  aoc_status : Z;
  aoc_l2_block_number : Z;
  aoc_transaction_index : Z;
  aoc_reason_hash : Z
}.

Record AdmissionRecordV5 := mk_AdmissionRecordV5 {
  are_receipt : AdmissionReceiptV5;
  are_outcome : AdmissionOutcomeV5
}.

Record ForcedTransactionV5 := mk_ForcedTransactionV5 {
  ftx_forced_id : Z;
  ftx_raw_transaction : bytes;
  ftx_outcome : AdmissionOutcomeV5
}.

Record AssetLiabilityV5 := mk_AssetLiabilityV5 {
  al_asset : Z;
  al_pending : Z;
  al_controlled : Z;
  al_claimable : Z;
  al_paid : Z
}.

Record DepositV5 := mk_DepositV5 {
  dp_inbox_id : Z;
  dp_depositor : Z;
  dp_beneficiary : Z;
  dp_asset : Z;
  dp_amount : Z;
  dp_queued_at_block : Z;
  dp_consumed : bool;
  dp_refunded : bool
}.

Record WithdrawalV5 := mk_WithdrawalV5 {
  wd_index : Z;
  wd_roster_epoch : Z;
  wd_recipient : Z;
  wd_asset : Z;
  wd_amount : Z
}.

Record L1StorageSlotV5 := mk_L1StorageSlotV5 {
  lss_key : Z;
  lss_value : Z;
  lss_proof : list bytes
}.

Record L1MirrorBindingV5 := mk_L1MirrorBindingV5 {
  lmb_source_key : Z;
  lmb_room_contract : Z;
  lmb_room_slot : Z
}.

Record CertifiedImportBindingV5 := mk_CertifiedImportBindingV5 {
  cib_adapter_id : Z;
  cib_adapter_version : Z;
  cib_source : Z;
  cib_source_key : Z;
  cib_room_contract : Z;
  cib_room_slot : Z
}.

Record L1ImportWitnessV5 := mk_L1ImportWitnessV5 {
  liw_source_block : Z;
  liw_expiry_block : Z;
  liw_header_hash : Z;
  liw_state_root : Z;
  liw_source : Z;
  liw_source_nonce : Z;
  liw_source_balance : Z;
  liw_source_storage_root : Z;
  liw_source_code_hash : Z;
  liw_account_proof : list bytes;
  liw_storage_keys_root : Z;
  liw_adapter_id : Z;
  liw_adapter_version : Z;
  liw_storage : list L1StorageSlotV5;
  liw_mirror_bindings : list L1MirrorBindingV5
}.

Record CodeCommitmentV5 := mk_CodeCommitmentV5 {
  cc_address : Z;
  cc_runtime_code_hash : Z
}.

Record CallRuleV5 := mk_CallRuleV5 {
  clr_caller : Z;
  clr_target : Z;
  clr_selectors : list bytes;
  clr_kinds : bytes
}.

Record StorageNamespaceV5 := mk_StorageNamespaceV5 {
  sns_contract : Z;
  sns_slot_prefix : Z;
  sns_prefix_bits : Z;
  sns_writable : bool
}.

Record ParticipantRegistryBindingV5 := mk_ParticipantRegistryBindingV5 {
  prb_contract : Z;
  prb_root_slot : Z;
  prb_epoch_slot : Z;
  prb_count_slot : Z;
  prb_capacity_slot : Z
}.

Record ExitAssetBindingV5 := mk_ExitAssetBindingV5 {
  eab_asset : Z;
  eab_kind : Z;
  eab_token : Z;
  eab_balance_slot : Z
}.

Record ExitBindingV5 := mk_ExitBindingV5 {
  eb_queue_contract : Z;
  eb_count_slot : Z;
  eb_records_base_slot : Z;
  eb_assets : list ExitAssetBindingV5;
  eb_fallback_recipient : Z
}.

Record ExecutionPolicyV5 := mk_ExecutionPolicyV5 {
  ep5_state_commitment : Z;
  ep5_max_blocks_per_batch : Z;
  ep5_max_transactions_per_block : Z;
  ep5_max_gas_per_block : Z;
  ep5_max_memory_bytes : Z;
  ep5_allow_contract_creation : bool;
  ep5_allow_self_destruct : bool;
  ep5_code : list CodeCommitmentV5;
  ep5_calls : list CallRuleV5;
  ep5_storage : list StorageNamespaceV5;
  ep5_imports : list CertifiedImportBindingV5;
  ep5_participant_registry : option ParticipantRegistryBindingV5;
  ep5_exit : option ExitBindingV5
}.

Record BatchJournalV5 := mk_BatchJournalV5 {
  bj5_protocol_version : Z;
  bj5_deployment_domain : Z;
  bj5_room_id : Z;
  bj5_authorization_mode : Z;
  bj5_cold_template_id : Z;
  bj5_proof_program_id : Z;
  bj5_proof_system_version : Z;
  bj5_policy_hash : Z;
  bj5_batch_index : Z;
  bj5_start_l2_block : Z;
  bj5_end_l2_block : Z;
  bj5_pre_state_root : Z;
  bj5_post_state_root : Z;
  bj5_batch_data_hash : Z;
  bj5_canonical_data_hash : Z;
  bj5_pre_participant_root : Z;
  bj5_post_participant_root : Z;
  bj5_pre_participant_epoch : Z;
  bj5_post_participant_epoch : Z;
  bj5_pre_participant_count : Z;
  bj5_post_participant_count : Z;
  bj5_participant_capacity : Z;
  bj5_pre_roster_root : Z;
  bj5_post_roster_root : Z;
  bj5_pre_roster_epoch : Z;
  bj5_post_roster_epoch : Z;
  bj5_pre_active_count : Z;
  bj5_post_active_count : Z;
  bj5_roster_change_cursor_before : Z;
  bj5_roster_change_cursor_after : Z;
  bj5_inbox_cursor_before : Z;
  bj5_inbox_cursor_after : Z;
  bj5_inbox_records_hash : Z;
  bj5_admission_cursor_before : Z;
  bj5_admission_cursor_after : Z;
  bj5_admission_records_hash : Z;
  bj5_forced_cursor_before : Z;
  bj5_forced_cursor_after : Z;
  bj5_forced_outcomes_hash : Z;
  bj5_import_cursor_before : Z;
  bj5_import_cursor_after : Z;
  bj5_imported_l1_block : Z;
  bj5_imported_l1_header_hash : Z;
  bj5_imported_l1_state_root : Z;
  bj5_import_root : Z;
  bj5_outbox_epoch : Z;
  bj5_withdrawal_root : Z;
  bj5_pre_liabilities_hash : Z;
  bj5_post_liabilities_hash : Z;
  bj5_roster_changes_hash : Z;
  bj5_l1_inclusion_deadline : Z;
  bj5_close : bool
}.

Record BatchInputV5 := mk_BatchInputV5 {
  bi5_encoded_witness_bytes : Z;
  bi5_l1_chain_id : Z;
  bi5_journal : BatchJournalV5;
  bi5_policy : ExecutionPolicyV5;
  bi5_roster_capacity : Z;
  bi5_pre_roster : list RosterMemberV5;
  bi5_post_roster : list RosterMemberV5;
  bi5_roster_changes : list RosterChangeV5;
  bi5_admissions : list AdmissionRecordV5;
  bi5_forced_transactions : list ForcedTransactionV5;
  bi5_canonical_batch_data : bytes;
  bi5_pre_liabilities : list AssetLiabilityV5;
  bi5_post_liabilities : list AssetLiabilityV5;
  bi5_deposits : list DepositV5;
  bi5_withdrawals : list WithdrawalV5;
  bi5_withdrawal_capacity : Z;
  bi5_l1_import : option L1ImportWitnessV5;
  bi5_compact_state : CompactStateWitnessV4;
  bi5_blocks : list BatchBlockV5
}.

Record ColdTemplateInputV5 := mk_ColdTemplateInputV5 {
  cti_template_id : Z;
  cti_initial_state_root : Z;
  cti_policy_hash : Z;
  cti_proof_program_id : Z;
  cti_proof_system_version : Z;
  cti_policy : ExecutionPolicyV5;
  cti_compact_state : CompactStateWitnessV4
}.

(** ** [#[derive(Default)]]: zero, empty, [false] and [None] everywhere *)
Definition AccountState_default : AccountState :=
  mk_AccountState 0 0 [] [].
Definition BlockEnvV1_default : BlockEnvV1 :=
  mk_BlockEnvV1 0 0 0 0 0 0 0 0 0.
Definition HistoricalBlockHash_default : HistoricalBlockHash :=
  mk_HistoricalBlockHash 0 0.
Definition StfInput_default : StfInput :=
  mk_StfInput 0 0 0 [] [] BlockEnvV1_default [].
Definition StfJournal_default : StfJournal :=
  mk_StfJournal 0 0 0 0 0 0 0.
Definition BatchBlockV4_default : BatchBlockV4 :=
  mk_BatchBlockV4 0 [] BlockEnvV1_default 0.
Definition CompactStorageWitnessV4_default : CompactStorageWitnessV4 :=
  mk_CompactStorageWitnessV4 0 0 [].
Definition CompactAccountWitnessV4_default : CompactAccountWitnessV4 :=
  mk_CompactAccountWitnessV4 0 false 0 0 [] 0 [] [].
Definition CompactStateWitnessV4_default : CompactStateWitnessV4 :=
  mk_CompactStateWitnessV4 0 [].
Definition MemberSlotWitnessV4_default : MemberSlotWitnessV4 :=
  mk_MemberSlotWitnessV4 0 0 0 0 None.
Definition AssetTotalWitnessV4_default : AssetTotalWitnessV4 :=
  mk_AssetTotalWitnessV4 0 0.
Definition ExitAllocationV4_default : ExitAllocationV4 :=
  mk_ExitAllocationV4 0 0 0 0.
Definition AssetAccountingV4_default : AssetAccountingV4 :=
  mk_AssetAccountingV4 0 0 0 0.
Definition ResidualAllocationV4_default : ResidualAllocationV4 :=
  mk_ResidualAllocationV4 0 0 0.
Definition InboxAssetAmountV4_default : InboxAssetAmountV4 :=
  mk_InboxAssetAmountV4 0 0.
Definition InboxEntryWitnessV4_default : InboxEntryWitnessV4 :=
  mk_InboxEntryWitnessV4 0 0 0 0 0 [].
Definition MembershipDeltaWitnessV4_default : MembershipDeltaWitnessV4 :=
  mk_MembershipDeltaWitnessV4 0 0 0 0 0.
Definition BatchInputV4_default : BatchInputV4 :=
  mk_BatchInputV4 0 0 0 0 0 0 0 0 0 0 0 0 0 0 0 0 0 0 0 0 0 0 0 0 0 0 false 0 [] []
    [] [] [] [] [] [] [] CompactStateWitnessV4_default [].
Definition BatchBlockJournalV4_default : BatchBlockJournalV4 :=
  mk_BatchBlockJournalV4 0 0 0 0.
Definition BatchJournalV4_default : BatchJournalV4 :=
  mk_BatchJournalV4 0 0 0 0 0 0 0 0 0 0 0 0 0 0 [] 0 0 0 0 0 0 0 0 0 0 0 0 0 0 0 false
    0 [] [].
Definition GenesisInputV4_default : GenesisInputV4 :=
  mk_GenesisInputV4 0 0 0 0 0 0 0 0 0 0 [] 0 0 0 0 0 0 0 0 0 0 [] [] [] [] []
    CompactStateWitnessV4_default.
Definition GenesisJournalV4_default : GenesisJournalV4 :=
  mk_GenesisJournalV4 0 0 0 0 0 0 0 0 0 0 0 0 0 0 0 0 0 0 0 0 [] [].
Definition ColdRuntimeCodeV4_default : ColdRuntimeCodeV4 :=
  mk_ColdRuntimeCodeV4 0 0.
Definition ColdStateAccessV4_default : ColdStateAccessV4 :=
  mk_ColdStateAccessV4 0 [].
Definition ColdStateRefreshV4_default : ColdStateRefreshV4 :=
  mk_ColdStateRefreshV4 0 false false false [].
Definition ColdRoomInputV4_default : ColdRoomInputV4 :=
  mk_ColdRoomInputV4 0 0 0 0 0 0 0 0 0 [] [] [] [] [].
Definition ColdRoomJournalV4_default : ColdRoomJournalV4 :=
  mk_ColdRoomJournalV4 0 0 0 0 0 0 0 0 0 0 0 0 0 0 0 0.
Definition ComposedBatchInputV4_default : ComposedBatchInputV4 :=
  mk_ComposedBatchInputV4 ColdRoomJournalV4_default [] [] [] BatchInputV4_default.
Definition BatchBlockV5_default : BatchBlockV5 :=
  mk_BatchBlockV5 0 [] BlockEnvV1_default [] 0.
Definition RosterMemberV5_default : RosterMemberV5 :=
  mk_RosterMemberV5 0 0 0.
Definition RosterChangeV5_default : RosterChangeV5 :=
  mk_RosterChangeV5 0 0 0 0 0 0 0.
Definition AdmissionReceiptV5_default : AdmissionReceiptV5 :=
  mk_AdmissionReceiptV5 0 0 0 0 0 0 0 0 [].
Definition AdmissionOutcomeV5_default : AdmissionOutcomeV5 :=
  mk_AdmissionOutcomeV5 0 0 0 0 0 0.
Definition AdmissionRecordV5_default : AdmissionRecordV5 :=
  mk_AdmissionRecordV5 AdmissionReceiptV5_default AdmissionOutcomeV5_default.
Definition ForcedTransactionV5_default : ForcedTransactionV5 :=
  mk_ForcedTransactionV5 0 [] AdmissionOutcomeV5_default.
Definition AssetLiabilityV5_default : AssetLiabilityV5 :=
  mk_AssetLiabilityV5 0 0 0 0 0.
Definition DepositV5_default : DepositV5 :=
  mk_DepositV5 0 0 0 0 0 0 false false.
Definition WithdrawalV5_default : WithdrawalV5 :=
  mk_WithdrawalV5 0 0 0 0 0.
Definition L1StorageSlotV5_default : L1StorageSlotV5 :=
  mk_L1StorageSlotV5 0 0 [].
Definition L1MirrorBindingV5_default : L1MirrorBindingV5 :=
  mk_L1MirrorBindingV5 0 0 0.
Definition CertifiedImportBindingV5_default : CertifiedImportBindingV5 :=
  mk_CertifiedImportBindingV5 0 0 0 0 0 0.
Definition L1ImportWitnessV5_default : L1ImportWitnessV5 :=
  mk_L1ImportWitnessV5 0 0 0 0 0 0 0 0 0 [] 0 0 0 [] [].
Definition CodeCommitmentV5_default : CodeCommitmentV5 :=
  mk_CodeCommitmentV5 0 0.
Definition CallRuleV5_default : CallRuleV5 :=
  mk_CallRuleV5 0 0 [] [].
Definition StorageNamespaceV5_default : StorageNamespaceV5 :=
  mk_StorageNamespaceV5 0 0 0 false.
Definition ParticipantRegistryBindingV5_default : ParticipantRegistryBindingV5 :=
  mk_ParticipantRegistryBindingV5 0 0 0 0 0.
Definition ExitAssetBindingV5_default : ExitAssetBindingV5 :=
  mk_ExitAssetBindingV5 0 0 0 0.
Definition ExitBindingV5_default : ExitBindingV5 :=
  mk_ExitBindingV5 0 0 0 [] 0.
Definition ExecutionPolicyV5_default : ExecutionPolicyV5 :=
  mk_ExecutionPolicyV5 0 0 0 0 0 false false [] [] [] [] None None.
Definition BatchJournalV5_default : BatchJournalV5 :=
  mk_BatchJournalV5 0 0 0 0 0 0 0 0 0 0 0 0 0 0 0 0 0 0 0 0 0 0 0 0 0 0 0 0 0 0 0 0 0
    0 0 0 0 0 0 0 0 0 0 0 0 0 0 0 0 0 0 false.
Definition BatchInputV5_default : BatchInputV5 :=
  mk_BatchInputV5 0 0 BatchJournalV5_default ExecutionPolicyV5_default 0 [] [] [] []
    [] [] [] [] [] [] 0 None CompactStateWitnessV4_default [].
Definition ColdTemplateInputV5_default : ColdTemplateInputV5 :=
  mk_ColdTemplateInputV5 0 0 0 0 0 ExecutionPolicyV5_default CompactStateWitnessV4_default.

(** ** Machine-type well-formedness: every field is in the range of its
    declared Rust type *)
Definition AccountState_wf (x : AccountState) : Prop :=
  in_u64 (as_nonce x) /\
  in_u256 (as_balance x) /\
  bytes_wf (as_code x) /\
  (Forall (pair_wf in_u256 in_u256)) (as_storage x).
Definition BlockEnvV1_wf (x : BlockEnvV1) : Prop :=
  in_u64 (env_number x) /\
  in_u64 (env_timestamp x) /\
  in_u64 (env_gas_limit x) /\
  in_u160 (env_coinbase x) /\
  in_u256 (env_base_fee x) /\
  in_u256 (env_prev_randao x) /\
  in_u256 (env_difficulty x) /\
  in_u64 (env_excess_blob_gas x) /\
  in_u64 (env_chain_id x).
Definition HistoricalBlockHash_wf (x : HistoricalBlockHash) : Prop :=
  in_u64 (hbh_number x) /\
  in_u256 (hbh_hash x).
Definition StfInput_wf (x : StfInput) : Prop :=
  in_u64 (si_room_id x) /\
  in_u64 (si_block_number x) /\
  in_u256 (si_prev_state_root x) /\
  (Forall (pair_wf in_u160 AccountState_wf)) (si_state x) /\
  (Forall bytes_wf) (si_raw_txs x) /\
  BlockEnvV1_wf (si_env x) /\
  (Forall HistoricalBlockHash_wf) (si_block_hashes x).
Definition StfJournal_wf (x : StfJournal) : Prop :=
  in_u8 (sj_v x) /\
  in_u64 (sj_room_id x) /\
  in_u64 (sj_block_number x) /\
  in_u256 (sj_prev_state_root x) /\
  in_u256 (sj_post_state_root x) /\
  in_u256 (sj_tx_commitment x) /\
  in_u256 (sj_env_hash x).
Definition BatchBlockV4_wf (x : BatchBlockV4) : Prop :=
  in_u64 (bb4_block_number x) /\
  (Forall bytes_wf) (bb4_raw_txs x) /\
  BlockEnvV1_wf (bb4_env x) /\
  in_u256 (bb4_expected_post_state_root x).
Definition CompactStorageWitnessV4_wf (x : CompactStorageWitnessV4) : Prop :=
  in_u256 (csw_slot x) /\
  in_u256 (csw_value x) /\
  (Forall bytes_wf) (csw_proof x).
Definition CompactAccountWitnessV4_wf (x : CompactAccountWitnessV4) : Prop :=
  in_u160 (caw_address x) /\
  in_u64 (caw_nonce x) /\
  in_u256 (caw_balance x) /\
  bytes_wf (caw_code x) /\
  in_u256 (caw_canonical_storage_root x) /\
  (Forall bytes_wf) (caw_account_proof x) /\
  (Forall CompactStorageWitnessV4_wf) (caw_storage x).
Definition CompactStateWitnessV4_wf (x : CompactStateWitnessV4) : Prop :=
  in_u256 (cst_canonical_state_root x) /\
  (Forall CompactAccountWitnessV4_wf) (cst_accounts x).
Definition MemberSlotWitnessV4_wf (x : MemberSlotWitnessV4) : Prop :=
  in_u8 (msl_slot x) /\
  in_u8 (msl_state x) /\
  in_u160 (msl_account x) /\
  in_u64 (msl_joined_at_batch x) /\
  (option_wf in_u64) (msl_retired_at_batch x).
Definition AssetTotalWitnessV4_wf (x : AssetTotalWitnessV4) : Prop :=
  in_u8 (atw_asset_id x) /\
  in_u256 (atw_total x).
Definition ExitAllocationV4_wf (x : ExitAllocationV4) : Prop :=
  in_u8 (xal_slot x) /\
  in_u8 (xal_asset_id x) /\
  in_u160 (xal_recipient x) /\
  in_u256 (xal_amount x).
Definition AssetAccountingV4_wf (x : AssetAccountingV4) : Prop :=
  in_u8 (aac_asset_id x) /\
  in_u256 (aac_total x) /\
  in_u256 (aac_exit_total x) /\
  in_u256 (aac_fee_total x).
Definition ResidualAllocationV4_wf (x : ResidualAllocationV4) : Prop :=
  in_u8 (ral_position x) /\
  in_u8 (ral_asset_id x) /\
  in_u8 (ral_recipient_slot x).
Definition InboxAssetAmountV4_wf (x : InboxAssetAmountV4) : Prop :=
  in_u8 (iaa_asset_id x) /\
  in_u256 (iaa_amount x).
Definition InboxEntryWitnessV4_wf (x : InboxEntryWitnessV4) : Prop :=
  in_u64 (inb_index x) /\
  in_u8 (inb_kind x) /\
  in_u160 (inb_account x) /\
  in_u8 (inb_beneficiary_slot x) /\
  in_u8 (inb_status x) /\
  (Forall InboxAssetAmountV4_wf) (inb_deposits x).
Definition MembershipDeltaWitnessV4_wf (x : MembershipDeltaWitnessV4) : Prop :=
  in_u8 (mdl_action x) /\
  in_u8 (mdl_slot x) /\
  in_u160 (mdl_member x) /\
  in_u64 (mdl_join_request_index x) /\
  in_u64 (mdl_acceptance_expiry x).
Definition BatchInputV4_wf (x : BatchInputV4) : Prop :=
  in_u32 (bi4_encoded_witness_bytes x) /\
  in_u256 (bi4_deployment_id x) /\
  in_u64 (bi4_room_id x) /\
  in_u256 (bi4_preset_hash x) /\
  in_u256 (bi4_manifest_hash x) /\
  in_u256 (bi4_proof_program_id x) /\
  in_u64 (bi4_batch_index x) /\
  in_u64 (bi4_l2_start_height x) /\
  in_u64 (bi4_previous_block_timestamp x) /\
  in_u256 (bi4_prev_state_root x) /\
  in_u256 (bi4_pre_roster_root x) /\
  in_u256 (bi4_post_roster_root x) /\
  in_u8 (bi4_active_mask x) /\
  in_u8 (bi4_pre_used_mask x) /\
  in_u8 (bi4_post_active_mask x) /\
  in_u8 (bi4_used_mask x) /\
  in_u64 (bi4_inbox_start x) /\
  in_u64 (bi4_inbox_end x) /\
  in_u256 (bi4_inbox_inputs_hash x) /\
  in_u256 (bi4_expected_block_data_hash x) /\
  in_u256 (bi4_asset_totals_hash x) /\
  in_u256 (bi4_exit_totals_hash x) /\
  in_u256 (bi4_fee_totals_hash x) /\
  in_u256 (bi4_membership_deltas_hash x) /\
  in_u256 (bi4_previous_exit_root x) /\
  in_u256 (bi4_exit_root x) /\
  in_u64 (bi4_l1_inclusion_deadline x) /\
  bytes_wf (bi4_canonical_preset_json x) /\
  bytes_wf (bi4_canonical_exit_program_json x) /\
  (Forall MemberSlotWitnessV4_wf) (bi4_pre_roster_slots x) /\
  (Forall MemberSlotWitnessV4_wf) (bi4_post_roster_slots x) /\
  (Forall MembershipDeltaWitnessV4_wf) (bi4_membership_deltas x) /\
  (Forall InboxEntryWitnessV4_wf) (bi4_inbox_entries x) /\
  (Forall AssetTotalWitnessV4_wf) (bi4_asset_totals x) /\
  (Forall ResidualAllocationV4_wf) (bi4_residual_allocations x) /\
  (Forall ExitAllocationV4_wf) (bi4_previous_exit_allocations x) /\
  CompactStateWitnessV4_wf (bi4_compact_state x) /\
  (Forall BatchBlockV4_wf) (bi4_blocks x).
Definition BatchBlockJournalV4_wf (x : BatchBlockJournalV4) : Prop :=
  in_u64 (bbj_block_number x) /\
  in_u256 (bbj_post_state_root x) /\
  in_u256 (bbj_tx_commitment x) /\
  in_u256 (bbj_env_hash x).
Definition BatchJournalV4_wf (x : BatchJournalV4) : Prop :=
  in_u8 (bj4_v x) /\
  in_u256 (bj4_deployment_id x) /\
  in_u64 (bj4_room_id x) /\
  in_u256 (bj4_preset_hash x) /\
  in_u256 (bj4_manifest_hash x) /\
  in_u256 (bj4_proof_program_id x) /\
  in_u64 (bj4_batch_index x) /\
  in_u64 (bj4_l2_start_height x) /\
  in_u64 (bj4_l2_end_height x) /\
  in_u64 (bj4_previous_block_timestamp x) /\
  in_u64 (bj4_final_block_timestamp x) /\
  in_u256 (bj4_prev_state_root x) /\
  in_u256 (bj4_post_state_root x) /\
  in_u256 (bj4_block_roots_hash x) /\
  (Forall BatchBlockJournalV4_wf) (bj4_blocks x) /\
  in_u256 (bj4_pre_roster_root x) /\
  in_u256 (bj4_post_roster_root x) /\
  in_u8 (bj4_active_mask x) /\
  in_u8 (bj4_post_active_mask x) /\
  in_u8 (bj4_used_mask x) /\
  in_u64 (bj4_inbox_start x) /\
  in_u64 (bj4_inbox_end x) /\
  in_u256 (bj4_inbox_inputs_hash x) /\
  in_u256 (bj4_block_data_hash x) /\
  in_u256 (bj4_asset_totals_hash x) /\
  in_u256 (bj4_exit_totals_hash x) /\
  in_u256 (bj4_fee_totals_hash x) /\
  in_u256 (bj4_membership_deltas_hash x) /\
  in_u256 (bj4_previous_exit_root x) /\
  in_u256 (bj4_exit_root x) /\
  in_u64 (bj4_l1_inclusion_deadline x) /\
  (Forall ExitAllocationV4_wf) (bj4_exit_allocations x) /\
  (Forall AssetAccountingV4_wf) (bj4_asset_accounting x).
Definition GenesisInputV4_wf (x : GenesisInputV4) : Prop :=
  in_u32 (gi4_encoded_witness_bytes x) /\
  in_u256 (gi4_deployment_id x) /\
  in_u64 (gi4_room_id x) /\
  in_u256 (gi4_config_hash x) /\
  in_u256 (gi4_preset_hash x) /\
  in_u256 (gi4_manifest_hash x) /\
  in_u256 (gi4_proof_program_id x) /\
  in_u64 (gi4_l1_block_number x) /\
  in_u256 (gi4_l1_block_hash x) /\
  in_u256 (gi4_l1_state_root x) /\
  bytes_wf (gi4_l1_header_rlp x) /\
  in_u256 (gi4_genesis_state_root x) /\
  in_u256 (gi4_genesis_roster_root x) /\
  in_u256 (gi4_genesis_exit_root x) /\
  in_u8 (gi4_active_mask x) /\
  in_u8 (gi4_used_mask x) /\
  in_u64 (gi4_inbox_cursor x) /\
  in_u256 (gi4_asset_totals_hash x) /\
  in_u256 (gi4_exit_totals_hash x) /\
  in_u256 (gi4_fee_totals_hash x) /\
  in_u64 (gi4_l1_inclusion_deadline x) /\
  bytes_wf (gi4_canonical_preset_json x) /\
  bytes_wf (gi4_canonical_exit_program_json x) /\
  (Forall MemberSlotWitnessV4_wf) (gi4_roster_slots x) /\
  (Forall AssetTotalWitnessV4_wf) (gi4_asset_totals x) /\
  (Forall ResidualAllocationV4_wf) (gi4_residual_allocations x) /\
  CompactStateWitnessV4_wf (gi4_compact_state x).
Definition GenesisJournalV4_wf (x : GenesisJournalV4) : Prop :=
  in_u8 (gj4_v x) /\
  in_u256 (gj4_deployment_id x) /\
  in_u64 (gj4_room_id x) /\
  in_u256 (gj4_config_hash x) /\
  in_u256 (gj4_preset_hash x) /\
  in_u256 (gj4_manifest_hash x) /\
  in_u256 (gj4_proof_program_id x) /\
  in_u64 (gj4_l1_block_number x) /\
  in_u256 (gj4_l1_block_hash x) /\
  in_u256 (gj4_l1_state_root x) /\
  in_u256 (gj4_genesis_state_root x) /\
  in_u256 (gj4_genesis_roster_root x) /\
  in_u256 (gj4_genesis_exit_root x) /\
  in_u8 (gj4_active_mask x) /\
  in_u8 (gj4_used_mask x) /\
  in_u64 (gj4_inbox_cursor x) /\
  in_u256 (gj4_asset_totals_hash x) /\
  in_u256 (gj4_exit_totals_hash x) /\
  in_u256 (gj4_fee_totals_hash x) /\
  in_u64 (gj4_l1_inclusion_deadline x) /\
  (Forall ExitAllocationV4_wf) (gj4_exit_allocations x) /\
  (Forall AssetAccountingV4_wf) (gj4_asset_accounting x).
Definition ColdRuntimeCodeV4_wf (x : ColdRuntimeCodeV4) : Prop :=
  in_u160 (crc_address x) /\
  in_u256 (crc_code_hash x).
Definition ColdStateAccessV4_wf (x : ColdStateAccessV4) : Prop :=
  in_u160 (csa_address x) /\
  (Forall in_u256) (csa_storage_slots x).
Definition ColdStateRefreshV4_wf (x : ColdStateRefreshV4) : Prop :=
  in_u160 (csr_address x) /\
  (Forall in_u256) (csr_storage_slots x).
Definition ColdRoomInputV4_wf (x : ColdRoomInputV4) : Prop :=
  in_u32 (cri_encoded_witness_bytes x) /\
  in_u256 (cri_compiled_bundle_hash x) /\
  in_u256 (cri_preset_hash x) /\
  in_u256 (cri_manifest_hash x) /\
  in_u256 (cri_proof_program_id x) /\
  in_u256 (cri_initial_state_root x) /\
  in_u256 (cri_initialized_state_root x) /\
  in_u256 (cri_analyzed_artifact_root x) /\
  in_u256 (cri_allowed_call_target_root x) /\
  (Forall (pair_wf in_u160 AccountState_wf)) (cri_initial_state x) /\
  (Forall BatchBlockV4_wf) (cri_setup_blocks x) /\
  (Forall ColdRuntimeCodeV4_wf) (cri_runtime_code x) /\
  (Forall ColdStateAccessV4_wf) (cri_state_access x) /\
  (Forall ColdStateRefreshV4_wf) (cri_state_refresh x).
Definition ColdRoomJournalV4_wf (x : ColdRoomJournalV4) : Prop :=
  in_u8 (crj_v x) /\
  in_u256 (crj_template_id x) /\
  in_u256 (crj_compiled_bundle_hash x) /\
  in_u256 (crj_preset_hash x) /\
  in_u256 (crj_manifest_hash x) /\
  in_u256 (crj_proof_program_id x) /\
  in_u64 (crj_constructor_chain_id x) /\
  in_u256 (crj_initial_state_root x) /\
  in_u256 (crj_initialized_state_root x) /\
  in_u256 (crj_setup_data_hash x) /\
  in_u256 (crj_runtime_code_root x) /\
  in_u256 (crj_state_access_root x) /\
  in_u256 (crj_state_refresh_root x) /\
  in_u256 (crj_static_state_commitment x) /\
  in_u256 (crj_analyzed_artifact_root x) /\
  in_u256 (crj_allowed_call_target_root x).
Definition ComposedBatchInputV4_wf (x : ComposedBatchInputV4) : Prop :=
  ColdRoomJournalV4_wf (cbi_cold_journal x) /\
  (Forall ColdRuntimeCodeV4_wf) (cbi_runtime_code x) /\
  (Forall ColdStateAccessV4_wf) (cbi_state_access x) /\
  (Forall ColdStateRefreshV4_wf) (cbi_state_refresh x) /\
  BatchInputV4_wf (cbi_batch x).
Definition BatchBlockV5_wf (x : BatchBlockV5) : Prop :=
  in_u64 (bb5_block_number x) /\
  (Forall bytes_wf) (bb5_raw_txs x) /\
  BlockEnvV1_wf (bb5_env x) /\
  (Forall HistoricalBlockHash_wf) (bb5_block_hashes x) /\
  in_u256 (bb5_expected_post_state_root x).
Definition RosterMemberV5_wf (x : RosterMemberV5) : Prop :=
  in_u64 (rm_index x) /\
  in_u160 (rm_member x) /\
  in_u64 (rm_joined_epoch x).
Definition RosterChangeV5_wf (x : RosterChangeV5) : Prop :=
  in_u8 (rc_action x) /\
  in_u64 (rc_request_id x) /\
  in_u64 (rc_index x) /\
  in_u64 (rc_joined_epoch x) /\
  in_u64 (rc_deadline x) /\
  in_u160 (rc_member x) /\
  in_u256 (rc_withdrawal_commitment x).
Definition AdmissionReceiptV5_wf (x : AdmissionReceiptV5) : Prop :=
  in_u64 (arc_admission_id x) /\
  in_u256 (arc_transaction_hash x) /\
  in_u64 (arc_deposit_inbox_id x) /\
  in_u256 (arc_deposit_content_hash x) /\
  in_u64 (arc_deadline_block x) /\
  in_u64 (arc_maximum_batch_index x) /\
  in_u64 (arc_bond_epoch x) /\
  in_u256 (arc_admission_fee x) /\
  bytes_wf (arc_signature x).
Definition AdmissionOutcomeV5_wf (x : AdmissionOutcomeV5) : Prop :=
  in_u64 (aoc_admission_id x) /\
  in_u256 (aoc_transaction_hash x) /\
  in_u8 (aoc_status x) /\
  in_u64 (aoc_l2_block_number x) /\
  in_u32 (aoc_transaction_index x) /\
  in_u256 (aoc_reason_hash x).
Definition AdmissionRecordV5_wf (x : AdmissionRecordV5) : Prop :=
  AdmissionReceiptV5_wf (are_receipt x) /\
  AdmissionOutcomeV5_wf (are_outcome x).
Definition ForcedTransactionV5_wf (x : ForcedTransactionV5) : Prop :=
  in_u64 (ftx_forced_id x) /\
  bytes_wf (ftx_raw_transaction x) /\
  AdmissionOutcomeV5_wf (ftx_outcome x).
Definition AssetLiabilityV5_wf (x : AssetLiabilityV5) : Prop :=
  in_u160 (al_asset x) /\
  in_u256 (al_pending x) /\
  in_u256 (al_controlled x) /\
  in_u256 (al_claimable x) /\
  in_u256 (al_paid x).
Definition DepositV5_wf (x : DepositV5) : Prop :=
  in_u64 (dp_inbox_id x) /\
  in_u160 (dp_depositor x) /\
  in_u160 (dp_beneficiary x) /\
  in_u160 (dp_asset x) /\
  in_u256 (dp_amount x) /\
  in_u64 (dp_queued_at_block x).
Definition WithdrawalV5_wf (x : WithdrawalV5) : Prop :=
  in_u64 (wd_index x) /\
  in_u64 (wd_roster_epoch x) /\
  in_u160 (wd_recipient x) /\
  in_u160 (wd_asset x) /\
  in_u256 (wd_amount x).
Definition L1StorageSlotV5_wf (x : L1StorageSlotV5) : Prop :=
  in_u256 (lss_key x) /\
  in_u256 (lss_value x) /\
  (Forall bytes_wf) (lss_proof x).
Definition L1MirrorBindingV5_wf (x : L1MirrorBindingV5) : Prop :=
  in_u256 (lmb_source_key x) /\
  in_u160 (lmb_room_contract x) /\
  in_u256 (lmb_room_slot x).
Definition CertifiedImportBindingV5_wf (x : CertifiedImportBindingV5) : Prop :=
  in_u256 (cib_adapter_id x) /\
  in_u256 (cib_adapter_version x) /\
  in_u160 (cib_source x) /\
  in_u256 (cib_source_key x) /\
  in_u160 (cib_room_contract x) /\
  in_u256 (cib_room_slot x).
Definition L1ImportWitnessV5_wf (x : L1ImportWitnessV5) : Prop :=
  in_u64 (liw_source_block x) /\
  in_u64 (liw_expiry_block x) /\
  in_u256 (liw_header_hash x) /\
  in_u256 (liw_state_root x) /\
  in_u160 (liw_source x) /\
  in_u64 (liw_source_nonce x) /\
  in_u256 (liw_source_balance x) /\
  in_u256 (liw_source_storage_root x) /\
  in_u256 (liw_source_code_hash x) /\
  (Forall bytes_wf) (liw_account_proof x) /\
  in_u256 (liw_storage_keys_root x) /\
  in_u256 (liw_adapter_id x) /\
  in_u256 (liw_adapter_version x) /\
  (Forall L1StorageSlotV5_wf) (liw_storage x) /\
  (Forall L1MirrorBindingV5_wf) (liw_mirror_bindings x).
Definition CodeCommitmentV5_wf (x : CodeCommitmentV5) : Prop :=
  in_u160 (cc_address x) /\
  in_u256 (cc_runtime_code_hash x).
Definition CallRuleV5_wf (x : CallRuleV5) : Prop :=
  in_u160 (clr_caller x) /\
  in_u160 (clr_target x) /\
  (Forall (array_wf 4)) (clr_selectors x) /\
  bytes_wf (clr_kinds x).
Definition StorageNamespaceV5_wf (x : StorageNamespaceV5) : Prop :=
  in_u160 (sns_contract x) /\
  in_u256 (sns_slot_prefix x) /\
  in_u16 (sns_prefix_bits x).
Definition ParticipantRegistryBindingV5_wf (x : ParticipantRegistryBindingV5) : Prop :=
  in_u160 (prb_contract x) /\
  in_u256 (prb_root_slot x) /\
  in_u256 (prb_epoch_slot x) /\
  in_u256 (prb_count_slot x) /\
  in_u256 (prb_capacity_slot x).
Definition ExitAssetBindingV5_wf (x : ExitAssetBindingV5) : Prop :=
  in_u160 (eab_asset x) /\
  in_u8 (eab_kind x) /\
  in_u160 (eab_token x) /\
  in_u256 (eab_balance_slot x).
Definition ExitBindingV5_wf (x : ExitBindingV5) : Prop :=
  in_u160 (eb_queue_contract x) /\
  in_u256 (eb_count_slot x) /\
  in_u256 (eb_records_base_slot x) /\
  (Forall ExitAssetBindingV5_wf) (eb_assets x) /\
  in_u160 (eb_fallback_recipient x).
Definition ExecutionPolicyV5_wf (x : ExecutionPolicyV5) : Prop :=
  in_u8 (ep5_state_commitment x) /\
  in_u64 (ep5_max_blocks_per_batch x) /\
  in_u64 (ep5_max_transactions_per_block x) /\
  in_u64 (ep5_max_gas_per_block x) /\
  in_u64 (ep5_max_memory_bytes x) /\
  (Forall CodeCommitmentV5_wf) (ep5_code x) /\
  (Forall CallRuleV5_wf) (ep5_calls x) /\
  (Forall StorageNamespaceV5_wf) (ep5_storage x) /\
  (Forall CertifiedImportBindingV5_wf) (ep5_imports x) /\
  (option_wf ParticipantRegistryBindingV5_wf) (ep5_participant_registry x) /\
  (option_wf ExitBindingV5_wf) (ep5_exit x).
Definition BatchJournalV5_wf (x : BatchJournalV5) : Prop :=
  in_u8 (bj5_protocol_version x) /\
  in_u256 (bj5_deployment_domain x) /\
  in_u64 (bj5_room_id x) /\
  in_u8 (bj5_authorization_mode x) /\
  in_u256 (bj5_cold_template_id x) /\
  in_u256 (bj5_proof_program_id x) /\
  in_u256 (bj5_proof_system_version x) /\
  in_u256 (bj5_policy_hash x) /\
  in_u64 (bj5_batch_index x) /\
  in_u64 (bj5_start_l2_block x) /\
  in_u64 (bj5_end_l2_block x) /\
  in_u256 (bj5_pre_state_root x) /\
  in_u256 (bj5_post_state_root x) /\
  in_u256 (bj5_batch_data_hash x) /\
  in_u256 (bj5_canonical_data_hash x) /\
  in_u256 (bj5_pre_participant_root x) /\
  in_u256 (bj5_post_participant_root x) /\
  in_u64 (bj5_pre_participant_epoch x) /\
  in_u64 (bj5_post_participant_epoch x) /\
  in_u64 (bj5_pre_participant_count x) /\
  in_u64 (bj5_post_participant_count x) /\
  in_u64 (bj5_participant_capacity x) /\
  in_u256 (bj5_pre_roster_root x) /\
  in_u256 (bj5_post_roster_root x) /\
  in_u64 (bj5_pre_roster_epoch x) /\
  in_u64 (bj5_post_roster_epoch x) /\
  in_u64 (bj5_pre_active_count x) /\
  in_u64 (bj5_post_active_count x) /\
  in_u64 (bj5_roster_change_cursor_before x) /\
  in_u64 (bj5_roster_change_cursor_after x) /\
  in_u64 (bj5_inbox_cursor_before x) /\
  in_u64 (bj5_inbox_cursor_after x) /\
  in_u256 (bj5_inbox_records_hash x) /\
  in_u64 (bj5_admission_cursor_before x) /\
  in_u64 (bj5_admission_cursor_after x) /\
  in_u256 (bj5_admission_records_hash x) /\
  in_u64 (bj5_forced_cursor_before x) /\
  in_u64 (bj5_forced_cursor_after x) /\
  in_u256 (bj5_forced_outcomes_hash x) /\
  in_u64 (bj5_import_cursor_before x) /\
  in_u64 (bj5_import_cursor_after x) /\
  in_u64 (bj5_imported_l1_block x) /\
  in_u256 (bj5_imported_l1_header_hash x) /\
  in_u256 (bj5_imported_l1_state_root x) /\
  in_u256 (bj5_import_root x) /\
  in_u64 (bj5_outbox_epoch x) /\
  in_u256 (bj5_withdrawal_root x) /\
  in_u256 (bj5_pre_liabilities_hash x) /\
  in_u256 (bj5_post_liabilities_hash x) /\
  in_u256 (bj5_roster_changes_hash x) /\
  in_u64 (bj5_l1_inclusion_deadline x).
Definition BatchInputV5_wf (x : BatchInputV5) : Prop :=
  in_u32 (bi5_encoded_witness_bytes x) /\
  in_u64 (bi5_l1_chain_id x) /\
  BatchJournalV5_wf (bi5_journal x) /\
  ExecutionPolicyV5_wf (bi5_policy x) /\
  in_u64 (bi5_roster_capacity x) /\
  (Forall RosterMemberV5_wf) (bi5_pre_roster x) /\
  (Forall RosterMemberV5_wf) (bi5_post_roster x) /\
  (Forall RosterChangeV5_wf) (bi5_roster_changes x) /\
  (Forall AdmissionRecordV5_wf) (bi5_admissions x) /\
  (Forall ForcedTransactionV5_wf) (bi5_forced_transactions x) /\
  bytes_wf (bi5_canonical_batch_data x) /\
  (Forall AssetLiabilityV5_wf) (bi5_pre_liabilities x) /\
  (Forall AssetLiabilityV5_wf) (bi5_post_liabilities x) /\
  (Forall DepositV5_wf) (bi5_deposits x) /\
  (Forall WithdrawalV5_wf) (bi5_withdrawals x) /\
  in_u64 (bi5_withdrawal_capacity x) /\
  (option_wf L1ImportWitnessV5_wf) (bi5_l1_import x) /\
  CompactStateWitnessV4_wf (bi5_compact_state x) /\
  (Forall BatchBlockV5_wf) (bi5_blocks x).
Definition ColdTemplateInputV5_wf (x : ColdTemplateInputV5) : Prop :=
  in_u256 (cti_template_id x) /\
  in_u256 (cti_initial_state_root x) /\
  in_u256 (cti_policy_hash x) /\
  in_u256 (cti_proof_program_id x) /\
  in_u256 (cti_proof_system_version x) /\
  ExecutionPolicyV5_wf (cti_policy x) /\
  CompactStateWitnessV4_wf (cti_compact_state x).

(** ** [#[derive(PartialEq, Eq)]]: the structs the code compares *)
#[export] Instance MemberSlotWitnessV4_eq_dec : EqDecision MemberSlotWitnessV4.
Proof. solve_decision. Defined.
#[export] Instance RosterMemberV5_eq_dec : EqDecision RosterMemberV5.
Proof. solve_decision. Defined.
#[export] Instance WithdrawalV5_eq_dec : EqDecision WithdrawalV5.
Proof. solve_decision. Defined.
#[export] Instance BatchJournalV5_eq_dec : EqDecision BatchJournalV5.
Proof. solve_decision. Defined.
#[export] Instance ExitAllocationV4_eq_dec : EqDecision ExitAllocationV4.
Proof. solve_decision. Defined.
