(* ===== verification/OpcodeGadgets.v ===== *)
(** * Opcode superinstructions ([stf-core/src/opcode_gadgets.rs])

    Fifty pairs of adjacent arithmetic opcodes run under one dispatch of the interpreter.  The
    interpreter of revm is a parameter: its state, its program counter, gas and instruction
    functions, and its [step], whose law is the one the source restates ("advance the PC, charge
    static gas, then run standard semantics").  The theorems: the table, the recogniser and the
    dispatch agree on every pair of bytes, and a program run with the installed gadgets ends in
    the state it ends in without them. *)

From S2P Require Import Prelude.
Open Scope Z_scope.

(** The instruction functions of revm the gadgets call. *)
Inductive pure_op :=
| AddOp
| MulOp
| SubOp
| DivOp
| SdivOp
| RemOp
| SmodOp
| AddmodOp
| MulmodOp
| ExpOp
| SignextendOp
| LtOp
| GtOp
| SltOp
| SgtOp
| EqOp
| IszeroOp
| AndOp
| OrOp
| XorOp
| NotOp
| ByteOp
| ShlOp
| ShrOp
| SarOp
| ClzOp.

(** revm's interpreter, its Osaka instruction table and [Interpreter::step]. *)
Class Interpreter := {
  istate : Type;
  opcode : istate -> Z;
  is_end : istate -> bool;
  relative_jump : Z -> istate -> istate;
  record_cost : Z -> istate -> bool * istate;
  halt_oog : istate -> istate;
  semantics : pure_op -> istate -> istate;
  osaka_table : Z -> (istate -> istate) * Z;
  step : (Z -> (istate -> istate) * Z) -> istate -> istate
}.

Record OpcodeMotif := mk_OpcodeMotif {
  mo_rank : Z;
  mo_first : Z;
  mo_second : Z;
  mo_first_name : string;
  mo_second_name : string;
  mo_corpus_occurrences : Z
}.

Definition TOP_50_SOLIDITY_MOTIFS : list OpcodeMotif := [
  mk_OpcodeMotif 1 0x1b 0x03 "SHL" "SUB" 8310;
  mk_OpcodeMotif 2 0x01 0x12 "ADD" "SLT" 2296;
  mk_OpcodeMotif 3 0x19 0x01 "NOT" "ADD" 1935;
  mk_OpcodeMotif 4 0x03 0x16 "SUB" "AND" 1920;
  mk_OpcodeMotif 5 0x03 0x12 "SUB" "SLT" 1174;
  mk_OpcodeMotif 6 0x01 0x03 "ADD" "SUB" 1141;
  mk_OpcodeMotif 7 0x10 0x15 "LT" "ISZERO" 1107;
  mk_OpcodeMotif 8 0x19 0x16 "NOT" "AND" 1038;
  mk_OpcodeMotif 9 0x1c 0x16 "SHR" "AND" 961;
  mk_OpcodeMotif 10 0x01 0x01 "ADD" "ADD" 838;
  mk_OpcodeMotif 11 0x15 0x15 "ISZERO" "ISZERO" 718;
  mk_OpcodeMotif 12 0x16 0x17 "AND" "OR" 601;
  mk_OpcodeMotif 13 0x14 0x15 "EQ" "ISZERO" 571;
  mk_OpcodeMotif 14 0x03 0x19 "SUB" "NOT" 521;
  mk_OpcodeMotif 15 0x1b 0x16 "SHL" "AND" 506;
  mk_OpcodeMotif 16 0x03 0x01 "SUB" "ADD" 456;
  mk_OpcodeMotif 17 0x16 0x15 "AND" "ISZERO" 411;
  mk_OpcodeMotif 18 0x11 0x17 "GT" "OR" 353;
  mk_OpcodeMotif 19 0x11 0x15 "GT" "ISZERO" 246;
  mk_OpcodeMotif 20 0x12 0x15 "SLT" "ISZERO" 238;
  mk_OpcodeMotif 21 0x16 0x14 "AND" "EQ" 230;
  mk_OpcodeMotif 22 0x01 0x16 "ADD" "AND" 228;
  mk_OpcodeMotif 23 0x16 0x10 "AND" "LT" 204;
  mk_OpcodeMotif 24 0x1b 0x19 "SHL" "NOT" 203;
  mk_OpcodeMotif 25 0x1b 0x01 "SHL" "ADD" 192;
  mk_OpcodeMotif 26 0x1b 0x1c "SHL" "SHR" 182;
  mk_OpcodeMotif 27 0x16 0x01 "AND" "ADD" 162;
  mk_OpcodeMotif 28 0x01 0x11 "ADD" "GT" 159;
  mk_OpcodeMotif 29 0x10 0x17 "LT" "OR" 135;
  mk_OpcodeMotif 30 0x16 0x11 "AND" "GT" 135;
  mk_OpcodeMotif 31 0x16 0x16 "AND" "AND" 105;
  mk_OpcodeMotif 32 0x1b 0x17 "SHL" "OR" 93;
  mk_OpcodeMotif 33 0x03 0x02 "SUB" "MUL" 91;
  mk_OpcodeMotif 34 0x1c 0x19 "SHR" "NOT" 88;
  mk_OpcodeMotif 35 0x16 0x03 "AND" "SUB" 56;
  mk_OpcodeMotif 36 0x01 0x10 "ADD" "LT" 53;
  mk_OpcodeMotif 37 0x1c 0x03 "SHR" "SUB" 53;
  mk_OpcodeMotif 38 0x16 0x1c "AND" "SHR" 44;
  mk_OpcodeMotif 39 0x17 0x15 "OR" "ISZERO" 43;
  mk_OpcodeMotif 40 0x17 0x17 "OR" "OR" 43;
  mk_OpcodeMotif 41 0x15 0x17 "ISZERO" "OR" 35;
  mk_OpcodeMotif 42 0x10 0x14 "LT" "EQ" 34;
  mk_OpcodeMotif 43 0x16 0x1b "AND" "SHL" 29;
  mk_OpcodeMotif 44 0x03 0x04 "SUB" "DIV" 26;
  mk_OpcodeMotif 45 0x02 0x01 "MUL" "ADD" 20;
  mk_OpcodeMotif 46 0x15 0x03 "ISZERO" "SUB" 18;
  mk_OpcodeMotif 47 0x03 0x06 "SUB" "MOD" 14;
  mk_OpcodeMotif 48 0x02 0x18 "MUL" "XOR" 13;
  mk_OpcodeMotif 49 0x04 0x01 "DIV" "ADD" 13;
  mk_OpcodeMotif 50 0x04 0x17 "DIV" "OR" 13
].

Definition opcode_pair (first second : Z) : Z := Z.lor (Z.shiftl first 8) second.

Definition top_50_motif_rank (first second : Z) : option Z :=
  match opcode_pair first second with
  | 0x1b03 => Some 1
  | 0x0112 => Some 2
  | 0x1901 => Some 3
  | 0x0316 => Some 4
  | 0x0312 => Some 5
  | 0x0103 => Some 6
  | 0x1015 => Some 7
  | 0x1916 => Some 8
  | 0x1c16 => Some 9
  | 0x0101 => Some 10
  | 0x1515 => Some 11
  | 0x1617 => Some 12
  | 0x1415 => Some 13
  | 0x0319 => Some 14
  | 0x1b16 => Some 15
  | 0x0301 => Some 16
  | 0x1615 => Some 17
  | 0x1117 => Some 18
  | 0x1115 => Some 19
  | 0x1215 => Some 20
  | 0x1614 => Some 21
  | 0x0116 => Some 22
  | 0x1610 => Some 23
  | 0x1b19 => Some 24
  | 0x1b01 => Some 25
  | 0x1b1c => Some 26
  | 0x1601 => Some 27
  | 0x0111 => Some 28
  | 0x1017 => Some 29
  | 0x1611 => Some 30
  | 0x1616 => Some 31
  | 0x1b17 => Some 32
  | 0x0302 => Some 33
  | 0x1c19 => Some 34
  | 0x1603 => Some 35
  | 0x0110 => Some 36
  | 0x1c03 => Some 37
  | 0x161c => Some 38
  | 0x1715 => Some 39
  | 0x1717 => Some 40
  | 0x1517 => Some 41
  | 0x1014 => Some 42
  | 0x161b => Some 43
  | 0x0304 => Some 44
  | 0x0201 => Some 45
  | 0x1503 => Some 46
  | 0x0306 => Some 47
  | 0x0218 => Some 48
  | 0x0401 => Some 49
  | 0x0417 => Some 50
  | _ => None
  end.

Definition static_gas (opcode : Z) : Z :=
  match opcode with
  | 0x01 | 0x03 => 3
  | 0x02 | 0x04 | 0x05 | 0x06 | 0x07 | 0x0b => 5
  | 0x08 | 0x09 => 8
  | 0x0a => 10
  | 0x10 | 0x11 | 0x12 | 0x13 | 0x14 | 0x15 | 0x16 | 0x17 | 0x18 | 0x19 | 0x1a | 0x1b | 0x1c | 0x1d => 3
  | 0x1e => 5
  | _ => 0
  end.

(** [execute_pure]: [None] is its [unreachable!]. *)
Definition pure_of (opcode : Z) : option pure_op :=
  match opcode with
  | 0x01 => Some AddOp
  | 0x02 => Some MulOp
  | 0x03 => Some SubOp
  | 0x04 => Some DivOp
  | 0x05 => Some SdivOp
  | 0x06 => Some RemOp
  | 0x07 => Some SmodOp
  | 0x08 => Some AddmodOp
  | 0x09 => Some MulmodOp
  | 0x0a => Some ExpOp
  | 0x0b => Some SignextendOp
  | 0x10 => Some LtOp
  | 0x11 => Some GtOp
  | 0x12 => Some SltOp
  | 0x13 => Some SgtOp
  | 0x14 => Some EqOp
  | 0x15 => Some IszeroOp
  | 0x16 => Some AndOp
  | 0x17 => Some OrOp
  | 0x18 => Some XorOp
  | 0x19 => Some NotOp
  | 0x1a => Some ByteOp
  | 0x1b => Some ShlOp
  | 0x1c => Some ShrOp
  | 0x1d => Some SarOp
  | 0x1e => Some ClzOp
  | _ => None
  end.

(** The second operation of the [match pair] of [execute_fused]. *)
Definition second_of (pair : Z) : option pure_op :=
  match pair with
  | 0x1901 | 0x0101 | 0x0301 | 0x1b01 | 0x1601 | 0x0201 | 0x0401 => Some AddOp
  | 0x0302 => Some MulOp
  | 0x1b03 | 0x0103 | 0x1603 | 0x1c03 | 0x1503 => Some SubOp
  | 0x0304 => Some DivOp
  | 0x0306 => Some RemOp
  | 0x1610 | 0x0110 => Some LtOp
  | 0x0111 | 0x1611 => Some GtOp
  | 0x0112 | 0x0312 => Some SltOp
  | 0x1614 | 0x1014 => Some EqOp
  | 0x1015 | 0x1515 | 0x1415 | 0x1615 | 0x1115 | 0x1215 | 0x1715 => Some IszeroOp
  | 0x0316 | 0x1916 | 0x1c16 | 0x1b16 | 0x0116 | 0x1616 => Some AndOp
  | 0x1617 | 0x1117 | 0x1017 | 0x1b17 | 0x1717 | 0x1517 | 0x0417 => Some OrOp
  | 0x0218 => Some XorOp
  | 0x0319 | 0x1b19 | 0x1c19 => Some NotOp
  | 0x161b => Some ShlOp
  | 0x1b1c | 0x161c => Some ShrOp
  | _ => None
  end.

Section Gadgets.
Context {IN : Interpreter}.

Definition execute_pure (opcode : Z) (s : istate) : istate :=
  match pure_of opcode with Some op => semantics op s | None => s end.

Definition execute_fused (first : Z) (s : istate) : istate :=
  let second := opcode s in
  let pair := opcode_pair first second in
  let s := execute_pure first s in
  if is_end s then s else
  match second_of pair with
  | Some op =>
      let s := relative_jump 1 s in
      let (out_of_gas, s) := record_cost (static_gas second) s in
      if out_of_gas then halt_oog s else semantics op s
  | None => s
  end.

(** [insert_instruction] replaces the entry of one byte. *)
Definition insert_instruction (byte : Z) (entry : (istate -> istate) * Z)
    (table : Z -> (istate -> istate) * Z) : Z -> (istate -> istate) * Z :=
  fun b => if b =? byte then entry else table b.
Definition install_top_50_opcode_gadgets (table : Z -> (istate -> istate) * Z)
  : Z -> (istate -> istate) * Z :=
  insert_instruction 0x1c (execute_fused 0x1c, 3)
  (insert_instruction 0x1b (execute_fused 0x1b, 3)
  (insert_instruction 0x19 (execute_fused 0x19, 3)
  (insert_instruction 0x17 (execute_fused 0x17, 3)
  (insert_instruction 0x16 (execute_fused 0x16, 3)
  (insert_instruction 0x15 (execute_fused 0x15, 3)
  (insert_instruction 0x14 (execute_fused 0x14, 3)
  (insert_instruction 0x12 (execute_fused 0x12, 3)
  (insert_instruction 0x11 (execute_fused 0x11, 3)
  (insert_instruction 0x10 (execute_fused 0x10, 3)
  (insert_instruction 0x04 (execute_fused 0x04, 5)
  (insert_instruction 0x03 (execute_fused 0x03, 3)
  (insert_instruction 0x02 (execute_fused 0x02, 5)
  (insert_instruction 0x01 (execute_fused 0x01, 3)
  table))))))))))))).

(** The interpreter's loop, cut off after [n] steps. *)
Fixpoint run (table : Z -> (istate -> istate) * Z) (n : nat) (s : istate) : istate :=
  match n with
  | O => s
  | S n => if is_end s then s else run table n (step table s)
  end.
End Gadgets.

(** ** The opcode inventory ([stf-core/src/opcode_manifest.rs])

    revm's [OpCode::new] with its name, and its Osaka precompile addresses, are parameters. *)
Class OsakaInventory := {
  opcode_new : Z -> option string;
  precompile_addresses : list Z
}.
Inductive OpcodeStatus := Active | Invalid.
Record OpcodeManifestEntry := mk_OpcodeManifestEntry {
  ome_byte : Z;
  ome_name : string;
  ome_status : OpcodeStatus
}.
Section Manifest.
Context {OI : OsakaInventory}.

Definition manifest_entry (byte : Z) : OpcodeManifestEntry :=
  match opcode_new byte with
  | Some name => mk_OpcodeManifestEntry byte name Active
  | None => mk_OpcodeManifestEntry byte "INVALID" Invalid
  end.
Definition osaka_opcode_manifest : list OpcodeManifestEntry :=
  map manifest_entry (map Z.of_nat (seq 0 256)).
Definition osaka_precompile_addresses : list Z := merge_sort Z.le precompile_addresses.
End Manifest.

(** * Properties *)

#[export] Instance pure_op_eq_dec : EqDecision pure_op.
Proof. solve_decision. Defined.

(** The Osaka arithmetic of the Yellow Paper: byte, operation and base gas. *)
Definition osaka_arithmetic : list (Z * pure_op * Z) := [
  (0x01, AddOp, 3); (0x02, MulOp, 5); (0x03, SubOp, 3); (0x04, DivOp, 5); (0x06, RemOp, 5);
  (0x10, LtOp, 3); (0x11, GtOp, 3); (0x12, SltOp, 3); (0x14, EqOp, 3); (0x15, IszeroOp, 3);
  (0x16, AndOp, 3); (0x17, OrOp, 3); (0x18, XorOp, 3); (0x19, NotOp, 3); (0x1b, ShlOp, 3);
  (0x1c, ShrOp, 3)].

Class InterpreterLaws {IN : Interpreter} : Prop := {
  step_spec : forall table s,
    step table s
    = let '(out_of_gas, s') := record_cost (snd (table (opcode s))) (relative_jump 1 s) in
      if out_of_gas then halt_oog s' else fst (table (opcode s)) s';
  opcode_byte : forall s, 0 <= opcode s < 256;
  pure_keeps_pc : forall op s, is_end (semantics op s) = false -> opcode (semantics op s) = opcode s;
  osaka_pure : forall b op g, (b, op, g) ∈ osaka_arithmetic -> osaka_table b = (semantics op, g)
}.

(** ** The table and its two matches *)
Lemma opcode_pair_value first second :
  0 <= second < 256 -> opcode_pair first second = first * 256 + second.
Proof.
  intros H. unfold opcode_pair. change 256 with (2 ^ 8). rewrite <- Z.shiftl_mul_pow2 by lia.
  symmetry. apply Z.add_nocarry_lor. apply Z.bits_inj'. intros n Hn.
  rewrite Z.land_spec, Z.bits_0, Z.shiftl_spec by lia. destruct (Z.ltb_spec n 8).
  - rewrite Z.testbit_neg_r by lia. reflexivity.
  - assert (2 ^ 8 <= 2 ^ n) by (apply Z.pow_le_mono_r; lia).
    rewrite (Z.testbit_eqb second), (Z.div_small second) by lia. apply andb_false_r.
Qed.

Definition motif_key (m : OpcodeMotif) : Z := opcode_pair (mo_first m) (mo_second m).

Ltac invert_match H :=
  repeat match type of H with context [match ?x with _ => _ end] => destruct x; try discriminate H end.
Lemma rank_in_table first second r :
  top_50_motif_rank first second = Some r ->
  In (opcode_pair first second, r) (map (fun m => (motif_key m, mo_rank m)) TOP_50_SOLIDITY_MOTIFS).
Proof.
  unfold top_50_motif_rank. generalize (opcode_pair first second). intros p H.
  invert_match H; injection H as <-; vm_compute; tauto.
Qed.
Lemma second_in_table p op : second_of p = Some op -> In p (map motif_key TOP_50_SOLIDITY_MOTIFS).
Proof. unfold second_of. intros H. invert_match H; vm_compute; tauto. Qed.

(** Each row of the table is recognised with its rank and dispatched to an operation of the
    installed gadgets whose charged gas is the operation's own. *)
Definition row_ok (m : OpcodeMotif) : bool :=
  (0 <=? mo_first m) && (mo_first m <? 256) && (0 <=? mo_second m) && (mo_second m <? 256)
  && bool_decide (top_50_motif_rank (mo_first m) (mo_second m) = Some (mo_rank m))
  && match second_of (motif_key m) with
     | Some op => bool_decide ((mo_second m, op, static_gas (mo_second m)) ∈ osaka_arithmetic)
     | None => false
     end.
Lemma rows_ok m : m ∈ TOP_50_SOLIDITY_MOTIFS -> row_ok m = true.
Proof.
  assert (H : forallb row_ok TOP_50_SOLIDITY_MOTIFS = true) by (vm_compute; reflexivity).
  rewrite forallb_forall in H. intros Hm. apply H, list_elem_of_In, Hm.
Qed.
Lemma row_bytes m :
  m ∈ TOP_50_SOLIDITY_MOTIFS -> 0 <= mo_first m < 256 /\ 0 <= mo_second m < 256.
Proof. intros H%rows_ok. unfold row_ok in H. bool_to_prop. lia. Qed.
Lemma key_inj first second m :
  m ∈ TOP_50_SOLIDITY_MOTIFS -> 0 <= second < 256 ->
  opcode_pair first second = motif_key m -> first = mo_first m /\ second = mo_second m.
Proof.
  intros Hm Hs H. destruct (row_bytes m Hm) as [_ Hb]. unfold motif_key in H.
  rewrite !opcode_pair_value in H by assumption. lia.
Qed.

(** The recogniser is the table. *)
Lemma rank_exact first second r :
  0 <= second < 256 ->
  top_50_motif_rank first second = Some r <->
  exists m, m ∈ TOP_50_SOLIDITY_MOTIFS /\ mo_first m = first /\ mo_second m = second /\ mo_rank m = r.
Proof.
  intros Hs. split.
  - intros H. apply rank_in_table, in_map_iff in H as (m & E & Hm). injection E as E <-.
    apply list_elem_of_In in Hm. exists m. split; [exact Hm|].
    destruct (key_inj first second m Hm Hs (eq_sym E)). auto.
  - intros (m & Hm & <- & <- & <-). apply rows_ok in Hm. unfold row_ok in Hm.
    apply andb_true_iff in Hm as [Hm _]. apply andb_true_iff in Hm as [_ Hm].
    apply bool_decide_eq_true in Hm. exact Hm.
Qed.
(** The dispatch runs the second opcode of a row, at its own gas, and nothing on other pairs. *)
Lemma second_spec first second op :
  0 <= second < 256 -> second_of (opcode_pair first second) = Some op ->
  (second, op, static_gas second) ∈ osaka_arithmetic.
Proof.
  intros Hs H. pose proof H as K. apply second_in_table, in_map_iff in K as (m & E & Hm).
  apply list_elem_of_In in Hm. destruct (key_inj first second m Hm Hs (eq_sym E)) as [-> ->].
  apply rows_ok in Hm. unfold row_ok in Hm. rewrite E, H in Hm. bool_to_prop. assumption.
Qed.
Lemma dispatch_exact first second :
  0 <= second < 256 ->
  is_Some (second_of (opcode_pair first second)) <-> is_Some (top_50_motif_rank first second).
Proof.
  intros Hs. split; intros [x H].
  - pose proof H as K. apply second_in_table, in_map_iff in K as (m & E & Hm).
    apply list_elem_of_In in Hm. destruct (key_inj first second m Hm Hs (eq_sym E)) as [-> ->].
    exists (mo_rank m). apply rank_exact; eauto.
  - apply rank_exact in H as (m & Hm & <- & <- & _); [|exact Hs]. apply rows_ok in Hm.
    unfold row_ok, motif_key in Hm. apply andb_true_iff in Hm as [_ Hm].
    destruct (second_of _); [eauto|discriminate].
Qed.

(** ** Fusion *)
Section Fusion.
Context {IN : Interpreter} {IL : InterpreterLaws}.
Let plain := osaka_table.
Let fused := install_top_50_opcode_gadgets osaka_table.

(** An entry of the installed table is revm's, or runs revm's function first, at its gas. *)
Lemma installed_entry b :
  fused b = plain b \/
  exists op g, plain b = (semantics op, g) /\ fused b = (execute_fused b, g)
    /\ forall s, execute_pure b s = semantics op s.
Proof.
  unfold fused, plain, install_top_50_opcode_gadgets, insert_instruction.
  repeat match goal with
  | |- context [if b =? ?k then _ else _] => destruct (Z.eqb_spec b k) as [->|];
      [right; eexists _, _; split;
        [apply osaka_pure, list_elem_of_In; repeat first [left; reflexivity|right]|split; reflexivity]|]
  end.
  left. reflexivity.
Qed.

(** One step of the installed table is one or two steps of revm's. *)
Lemma fused_step s :
  step fused s = step plain s
  \/ is_end (step plain s) = false /\ step fused s = step plain (step plain s).
Proof.
  rewrite (step_spec fused s), (step_spec plain s).
  destruct (installed_entry (opcode s)) as [->|(op & g & Hp & -> & Hx)]; [left; reflexivity|].
  rewrite Hp. cbn [fst snd]. destruct (record_cost g (relative_jump 1 s)) as [oog s2].
  destruct oog; [left; reflexivity|]. unfold execute_fused. rewrite Hx.
  destruct (is_end (semantics op s2)) eqn:E; [left; reflexivity|].
  destruct (second_of _) as [op2|] eqn:S; [|left; reflexivity]. right. split; [reflexivity|].
  apply second_spec, osaka_pure in S; [|apply opcode_byte].
  rewrite step_spec, (pure_keeps_pc op s2 E). fold plain in S. rewrite S. reflexivity.
Qed.

Lemma run_fused n s : exists m, (m <= 2 * n)%nat /\ run plain m s = run fused n s.
Proof.
  revert s. induction n as [|n IH]; intros s; [exists O; auto|]. cbn [run].
  destruct (is_end s) eqn:E; [exists O; split; [lia|reflexivity]|].
  destruct (IH (step fused s)) as (m & Hm & H). rewrite <- H.
  destruct (fused_step s) as [->|[E' ->]].
  - exists (S m). split; [lia|]. cbn [run]. rewrite E. reflexivity.
  - exists (S (S m)). split; [lia|]. cbn [run]. rewrite E, E'. reflexivity.
Qed.
Lemma run_plain n s :
  is_end (run plain n s) = true -> exists m, (m <= n)%nat /\ run fused m s = run plain n s.
Proof.
  revert s. induction n as [n IH] using lt_wf_ind. intros s H. destruct n as [|n].
  { exists O. auto. }
  cbn [run] in *. destruct (is_end s) eqn:E.
  { exists O. split; [lia|reflexivity]. }
  destruct (fused_step s) as [F|[E' F]].
  - destruct (IH n ltac:(lia) _ H) as (m & Hm & R). exists (S m). split; [lia|].
    cbn [run]. rewrite E, F. exact R.
  - destruct n as [|n]; [cbn [run] in H; congruence|]. cbn [run] in *. rewrite E' in *.
    destruct (IH n ltac:(lia) _ H) as (m & Hm & R). exists (S m). split; [lia|].
    cbn [run]. rewrite E, F. exact R.
Qed.

(** C21: The superinstructions change no result: a program that ends under revm's own table ends
    in the same state under the installed one, in no more dispatches, and conversely; every
    state a run with the gadgets passes through is one revm's run passes through. *)
Theorem gadgets_preserve_runs s :
  (forall n, is_end (run osaka_table n s) = true ->
     exists m, (m <= n)%nat
       /\ run (install_top_50_opcode_gadgets osaka_table) m s = run osaka_table n s) /\
  (forall n, exists m, (m <= 2 * n)%nat
     /\ run osaka_table m s = run (install_top_50_opcode_gadgets osaka_table) n s).
Proof. split; intros n; [apply run_plain|apply run_fused]. Qed.
End Fusion.

(** On every pair of bytes the table, the compiled recogniser and the dispatch of the second
    operation agree: the recogniser returns the rank of exactly the table's rows, the dispatch
    runs an operation for exactly the recognised pairs, and it is revm's operation of the second
    byte at its own gas; the fifty ranks are one to fifty. *)
Theorem motif_table_exact first second :
  0 <= second < 256 ->
  (forall r, top_50_motif_rank first second = Some r <->
     exists m, m ∈ TOP_50_SOLIDITY_MOTIFS /\ mo_first m = first /\ mo_second m = second
       /\ mo_rank m = r) /\
  (is_Some (second_of (opcode_pair first second)) <-> is_Some (top_50_motif_rank first second)) /\
  (forall op, second_of (opcode_pair first second) = Some op ->
     (second, op, static_gas second) ∈ osaka_arithmetic) /\
  map mo_rank TOP_50_SOLIDITY_MOTIFS = map Z.of_nat (seq 1 50).
Proof.
  intros Hs. split; [intros r; apply rank_exact, Hs|]. split; [apply dispatch_exact, Hs|].
  split; [intros op; apply second_spec, Hs|reflexivity].
Qed.

(** ** The inventory is exhaustive *)
Lemma manifest_exhaustive {OI : OsakaInventory} byte :
  0 <= byte < 256 -> osaka_opcode_manifest !! Z.to_nat byte = Some (manifest_entry byte).
Proof.
  intros H. unfold osaka_opcode_manifest. rewrite !list_lookup_fmap, lookup_seq_lt by lia.
  cbn [fmap option_fmap option_map]. do 2 f_equal. lia.
Qed.
Lemma precompiles_sorted {OI : OsakaInventory} :
  Sorted Z.le osaka_precompile_addresses /\ osaka_precompile_addresses ≡ₚ precompile_addresses.
Proof. split; [apply Sorted_merge_sort; intros x y; lia|apply merge_sort_Permutation]. Qed.

(** ** Witness: a stack machine with revm's step *)
Record machine := mk_machine {
  mc_code : list Z;
  mc_pc : Z;
  mc_stack : list Z;
  mc_gas : Z;
  mc_ended : bool
}.
Definition mc_end (s : machine) : machine := mk_machine (mc_code s) (mc_pc s) (mc_stack s) (mc_gas s) true.
Definition mc_opcode (s : machine) : Z := default 0 (znth (mc_code s) (mc_pc s)) mod 256.
Definition mc_put (s : machine) (stack : list Z) : machine :=
  mk_machine (mc_code s) (mc_pc s) stack (mc_gas s) (mc_ended s).
Definition mc_binary (f : Z -> Z -> Z) (s : machine) : machine :=
  match mc_stack s with a :: b :: rest => mc_put s (f a b mod 2 ^ 256 :: rest) | _ => mc_end s end.
Definition mc_unary (f : Z -> Z) (s : machine) : machine :=
  match mc_stack s with a :: rest => mc_put s (f a mod 2 ^ 256 :: rest) | _ => mc_end s end.
Definition mc_semantics (op : pure_op) : machine -> machine :=
  match op with
  | AddOp => mc_binary Z.add
  | MulOp => mc_binary Z.mul
  | SubOp => mc_binary Z.sub
  | DivOp => mc_binary Z.div
  | RemOp => mc_binary Z.modulo
  | LtOp => mc_binary (fun a b => if a <? b then 1 else 0)
  | GtOp => mc_binary (fun a b => if b <? a then 1 else 0)
  | EqOp => mc_binary (fun a b => if a =? b then 1 else 0)
  | IszeroOp => mc_unary (fun a => if a =? 0 then 1 else 0)
  | AndOp => mc_binary Z.land
  | OrOp => mc_binary Z.lor
  | XorOp => mc_binary Z.lxor
  | NotOp => mc_unary (fun a => 2 ^ 256 - 1 - a)
  | ShlOp => mc_binary (fun a b => Z.shiftl b a)
  | ShrOp => mc_binary (fun a b => Z.shiftr b a)
  | _ => mc_end
  end.
Definition mc_charge (g : Z) (s : machine) : bool * machine :=
  (mc_gas s <? g, mk_machine (mc_code s) (mc_pc s) (mc_stack s) (mc_gas s - g) (mc_ended s)).
Definition mc_jump (n : Z) (s : machine) : machine :=
  mk_machine (mc_code s) (mc_pc s + n) (mc_stack s) (mc_gas s) (mc_ended s).
Definition mc_table (b : Z) : (machine -> machine) * Z :=
  match find (fun '(c, _, _) => b =? c) osaka_arithmetic with
  | Some (_, op, g) => (mc_semantics op, g)
  | None => (mc_end, 0)
  end.
Definition stack_machine : Interpreter := {|
  istate := machine;
  opcode := mc_opcode;
  is_end := mc_ended;
  relative_jump := mc_jump;
  record_cost := mc_charge;
  halt_oog := mc_end;
  semantics := mc_semantics;
  osaka_table := mc_table;
  step table s :=
    let '(out_of_gas, s') := mc_charge (snd (table (mc_opcode s))) (mc_jump 1 s) in
    if out_of_gas then mc_end s' else fst (table (mc_opcode s)) s'
|}.
Lemma stack_machine_laws : @InterpreterLaws stack_machine.
Proof.
  split.
  - reflexivity.
  - intros s. apply Z.mod_pos_bound. lia.
  - intros op s. cbn [semantics stack_machine]. unfold mc_semantics.
    destruct op; unfold mc_binary, mc_unary; destruct (mc_stack s) as [|a [|b rest]]; intros H;
      try discriminate H; reflexivity.
  - intros b op g Hin. apply list_elem_of_In in Hin. cbn in Hin.
    repeat (destruct Hin as [Hin|Hin]; [injection Hin as <- <- <-; reflexivity|]). destruct Hin.
Qed.

(** [SUB; ADD; STOP] on 9, 4, 2: three dispatches of revm, two with the gadgets. *)
Definition sub_add : machine := mk_machine [0x03; 0x01; 0x00] 0 [9; 4; 2] 100 false.
Lemma gadgets_preserve_runs_witness :
  exists m, (m <= 3)%nat
    /\ run (IN := stack_machine) (install_top_50_opcode_gadgets (IN := stack_machine) mc_table) m sub_add
       = run (IN := stack_machine) mc_table 3 sub_add
    /\ mc_stack (run (IN := stack_machine) mc_table 3 sub_add) = [7]
    /\ run (IN := stack_machine) (install_top_50_opcode_gadgets (IN := stack_machine) mc_table) 2 sub_add
       = run (IN := stack_machine) mc_table 3 sub_add.
Proof.
  destruct (@gadgets_preserve_runs stack_machine stack_machine_laws sub_add) as [H _].
  destruct (H 3%nat) as (m & Hm & R); [vm_compute; reflexivity|].
  exists m. split; [exact Hm|]. split; [exact R|]. split; vm_compute; reflexivity.
Defined.
Lemma motif_table_exact_witness : top_50_motif_rank 0x1b 0x03 = Some 1.
Proof.
  apply (motif_table_exact 0x1b 0x03); [lia|].
  exists (mk_OpcodeMotif 1 0x1b 0x03 "SHL" "SUB" 8310). repeat split. left.
Defined.
