(* ===== verification/Borsh.v ===== *)
(** * The Borsh codec interface of the wire crate

    The [borsh] crate is a parameter: its codecs of the primitive types and of [Vec] and
    [Option], with the documented law that decoding and encoding are mutually inverse.  A
    struct's derived codec is the concatenation of its fields' in declaration order
    ([borsh_pair], [borsh_struct]).  An encoder returns [None] where [to_vec] fails. *)

From S2P Require Import Prelude Types.
Open Scope Z_scope.

Record Codec (A : Type) := mk_Codec {
  encode : A -> option bytes;
  decode : bytes -> option (A * bytes)
}.
Arguments mk_Codec {A} encode decode.
Arguments encode {A} c a : rename.
Arguments decode {A} c b : rename.

Class Borsh := {
  borsh_u8 : Codec Z;
  borsh_u64 : Codec Z;
  borsh_bool : Codec bool;
  borsh_array : Z -> Codec bytes;
  borsh_vec : forall A, Codec A -> Codec (list A);
  borsh_option : forall A, Codec A -> Codec (option A)
}.
Arguments borsh_vec {Borsh} {A} c.
Arguments borsh_option {Borsh} {A} c.

(** ** Derived codecs *)
Definition borsh_pair {A B} (ca : Codec A) (cb : Codec B) : Codec (A * B) := {|
  encode p := x ← encode ca p.1; y ← encode cb p.2; Some (x ++ y);
  decode b := '(a, rest) ← decode ca b; '(c, rest) ← decode cb rest; Some ((a, c), rest)
|}.
Definition borsh_struct {A B} (make : A -> B) (fields : B -> A) (c : Codec A) : Codec B := {|
  encode b := encode c (fields b);
  decode b := '(a, rest) ← decode c b; Some (make a, rest)
|}.
Infix "⊗" := borsh_pair (at level 55, right associativity) : zk_scope.

(** [borsh::to_vec] and [BorshDeserialize::try_from_slice], which refuses trailing bytes. *)
Definition to_vec {A} (c : Codec A) (a : A) : option bytes := encode c a.
Definition try_from_slice {A} (c : Codec A) (b : bytes) : option A :=
  '(a, rest) ← decode c b; if decide (rest = []) then Some a else None.

(** * Properties *)

(** ** The law: mutual inverses, on the values of the type *)
Record lawful {A} (valid : A -> Prop) (c : Codec A) : Prop := {
  encode_decode : forall a, valid a -> exists e,
    encode c a = Some e /\ bytes_wf e /\ forall rest, decode c (e ++ rest) = Some (a, rest);
  decode_encode : forall b a rest, bytes_wf b -> decode c b = Some (a, rest) ->
    valid a /\ exists e, encode c a = Some e /\ b = e ++ rest;
  encode_nonempty : forall a, encode c a <> Some []
}.

Definition vec_valid {A} (valid : A -> Prop) (l : list A) : Prop :=
  Forall valid l /\ in_u32 (zlen l).

Class BorshLaws {BO : Borsh} : Prop := {
  u8_law : lawful in_u8 borsh_u8;
  u64_law : lawful in_u64 borsh_u64;
  bool_law : lawful (fun _ => True) borsh_bool;
  array_law : forall n, 0 < n -> lawful (array_wf n) (borsh_array n);
  vec_law : forall A (valid : A -> Prop) c, lawful valid c -> lawful (vec_valid valid) (borsh_vec c);
  option_law : forall A (valid : A -> Prop) c, lawful valid c ->
    lawful (option_wf valid) (borsh_option c);
  u8_size : forall x e, encode borsh_u8 x = Some e -> zlen e = 1;
  u64_size : forall x e, encode borsh_u64 x = Some e -> zlen e = 8;
  array_size : forall n a e, encode (borsh_array n) a = Some e -> zlen e = n
}.

(** The values a codec is for, found by the structure of the codec. *)
Class Lawful {A} (c : Codec A) := { valid : A -> Prop; is_lawful : lawful valid c }.
Arguments valid {A} c {Lawful} a.
Arguments is_lawful {A} c {Lawful}.

(** A codec whose encodings all have one length. *)
Class FixedSize {A} (c : Codec A) := {
  size : Z;
  has_size : forall a e, encode c a = Some e -> zlen e = size
}.
Arguments size {A} c {FixedSize}.
Arguments has_size {A} c {FixedSize}.

Section Instances.
Context {BO : Borsh} {BL : BorshLaws}.

#[export] Instance u8_lawful : Lawful borsh_u8 := {| is_lawful := u8_law |}.
#[export] Instance u64_lawful : Lawful borsh_u64 := {| is_lawful := u64_law |}.
#[export] Instance bool_lawful : Lawful borsh_bool := {| is_lawful := bool_law |}.
#[export] Instance array20_lawful : Lawful (borsh_array 20) := {| is_lawful := array_law 20 eq_refl |}.
#[export] Instance array32_lawful : Lawful (borsh_array 32) := {| is_lawful := array_law 32 eq_refl |}.
#[export] Instance vec_lawful {A} (c : Codec A) (L : Lawful c) : Lawful (borsh_vec c) :=
  {| is_lawful := vec_law _ _ c (is_lawful c) |}.
#[export] Instance option_lawful {A} (c : Codec A) (L : Lawful c) : Lawful (borsh_option c) :=
  {| is_lawful := option_law _ _ c (is_lawful c) |}.

Lemma pair_law {A B} (va : A -> Prop) (vb : B -> Prop) ca cb :
  lawful va ca -> lawful vb cb -> lawful (fun p => va p.1 /\ vb p.2) (ca ⊗ cb).
Proof.
  intros La Lb. split.
  - intros [a b] [Ha Hb]. cbn [fst snd] in *.
    destruct (encode_decode _ _ La a Ha) as (x & Ex & Wx & Dx).
    destruct (encode_decode _ _ Lb b Hb) as (y & Ey & Wy & Dy).
    exists (x ++ y). cbn [encode borsh_pair fst snd]. rewrite Ex. cbn. rewrite Ey. cbn.
    split; [reflexivity|]. split; [apply Forall_app; auto|]. intros rest.
    rewrite <- app_assoc, Dx. cbn. rewrite Dy. reflexivity.
  - intros b [a c] rest W H. cbn [decode borsh_pair] in H.
    destruct (decode ca b) as [[a' r1]|] eqn:E1; [|discriminate]. cbn in H.
    destruct (decode cb r1) as [[c' r2]|] eqn:E2; [|discriminate]. cbn in H. injection H as -> -> ->.
    destruct (decode_encode _ _ La _ _ _ W E1) as (Ha & x & Ex & ->).
    apply Forall_app in W as [_ W]. destruct (decode_encode _ _ Lb _ _ _ W E2) as (Hb & y & Ey & ->).
    split; [split; assumption|]. exists (x ++ y). cbn [encode borsh_pair fst snd]. rewrite Ex. cbn.
    rewrite Ey. cbn. rewrite app_assoc. auto.
  - intros [a b] H. cbn [encode borsh_pair fst snd] in H.
    destruct (encode ca a) as [x|] eqn:Ex; [|discriminate]. cbn in H.
    destruct (encode cb b) as [y|]; [|discriminate]. cbn in H. injection H as H.
    apply app_eq_nil in H as [-> _]. exact (encode_nonempty _ _ La a Ex).
Qed.
#[export] Instance pair_lawful {A B} (ca : Codec A) (cb : Codec B) (La : Lawful ca) (Lb : Lawful cb)
  : Lawful (ca ⊗ cb) := {| is_lawful := pair_law _ _ ca cb (is_lawful ca) (is_lawful cb) |}.

Lemma struct_law {A B} (make : A -> B) (fields : B -> A) (v : A -> Prop) c :
  (forall a, fields (make a) = a) -> (forall b, make (fields b) = b) ->
  lawful v c -> lawful (fun b => v (fields b)) (borsh_struct make fields c).
Proof.
  intros Hm Hf L. split; cbn [encode decode borsh_struct].
  - intros b Hb. destruct (encode_decode _ _ L _ Hb) as (e & E & W & D). exists e.
    split; [exact E|]. split; [exact W|]. intros rest. rewrite D. cbn. rewrite Hf. reflexivity.
  - intros b s rest W H. destruct (decode c b) as [[a r]|] eqn:E; [|discriminate]. cbn in H.
    injection H as <- <-. rewrite Hm. exact (decode_encode _ _ L _ _ _ W E).
  - intros b. apply (encode_nonempty _ _ L).
Qed.
Definition struct_lawful {A B} (make : A -> B) (fields : B -> A) (c : Codec A) (L : Lawful c)
    (Hm : forall a, fields (make a) = a) (Hf : forall b, make (fields b) = b)
  : Lawful (borsh_struct make fields c) :=
  {| is_lawful := struct_law make fields _ c Hm Hf (is_lawful c) |}.

(** ** Lengths *)
#[export] Instance u8_fixed : FixedSize borsh_u8 := {| size := 1; has_size := u8_size |}.
#[export] Instance u64_fixed : FixedSize borsh_u64 := {| size := 8; has_size := u64_size |}.
#[export] Instance array_fixed n : FixedSize (borsh_array n) := {| size := n; has_size := array_size n |}.
Lemma pair_encoded {A B} (ca : Codec A) (cb : Codec B) p e :
  encode (ca ⊗ cb) p = Some e ->
  exists x y, encode ca p.1 = Some x /\ encode cb p.2 = Some y /\ e = x ++ y.
Proof.
  cbn [encode borsh_pair]. intros H. destruct (encode ca p.1) as [x|]; [|discriminate]. cbn in H.
  destruct (encode cb p.2) as [y|]; [|discriminate]. cbn in H. injection H as <-. eauto.
Qed.
Lemma pair_size {A B} (ca : Codec A) (cb : Codec B) (n m : Z) :
  (forall a e, encode ca a = Some e -> zlen e = n) -> (forall b e, encode cb b = Some e -> zlen e = m) ->
  forall p e, encode (ca ⊗ cb) p = Some e -> zlen e = n + m.
Proof.
  intros Ha Hb p e H. apply pair_encoded in H as (x & y & Ex & Ey & ->).
  rewrite zlen_app, (Ha _ _ Ex), (Hb _ _ Ey). reflexivity.
Qed.
#[export] Instance pair_fixed {A B} (ca : Codec A) (cb : Codec B) (Fa : FixedSize ca) (Fb : FixedSize cb)
  : FixedSize (ca ⊗ cb) := {| has_size := pair_size ca cb _ _ (has_size ca) (has_size cb) |}.
Lemma struct_size {A B} (make : A -> B) (fields : B -> A) (c : Codec A) (n : Z) :
  (forall a e, encode c a = Some e -> zlen e = n) ->
  forall b e, encode (borsh_struct make fields c) b = Some e -> zlen e = n.
Proof. intros Hs b e. exact (Hs (fields b) e). Qed.
Definition struct_fixed {A B} (make : A -> B) (fields : B -> A) (c : Codec A) (F : FixedSize c)
  : FixedSize (borsh_struct make fields c) :=
  {| has_size := struct_size make fields c _ (has_size c) |}.

(** ** Whole messages *)
Lemma to_vec_round {A} (c : Codec A) (L : Lawful c) a :
  valid c a -> exists e, to_vec c a = Some e /\ bytes_wf e /\ try_from_slice c e = Some a.
Proof.
  intros V. destruct (encode_decode _ _ (is_lawful c) a V) as (e & E & W & D). exists e.
  split; [exact E|]. split; [exact W|]. specialize (D []). rewrite app_nil_r in D.
  unfold try_from_slice. rewrite D. reflexivity.
Qed.
Lemma try_from_slice_canonical {A} (c : Codec A) (L : Lawful c) b a :
  bytes_wf b -> try_from_slice c b = Some a -> valid c a /\ to_vec c a = Some b.
Proof.
  intros W H. unfold try_from_slice in H. destruct (decode c b) as [[x rest]|] eqn:E; [|discriminate].
  cbn in H. destruct (decide (rest = [])) as [->|]; [|discriminate]. injection H as ->.
  destruct (decode_encode _ _ (is_lawful c) _ _ _ W E) as (V & e & Ee & ->).
  rewrite app_nil_r. auto.
Qed.
End Instances.

(** Derive the instance of a struct's codec from those of its fields. *)
Ltac struct_inverse :=
  intros x; cbn; repeat match goal with p : (_ * _)%type |- _ => destruct p end;
  try destruct x; reflexivity.
Ltac derive_lawful := unshelve eapply struct_lawful; [typeclasses eauto|struct_inverse|struct_inverse].
Ltac derive_fixed := eapply struct_fixed; typeclasses eauto.

(** ** Typed conversions *)

(** A codec's values are what the program's type holds. *)
#[global] Arguments of_be : simpl never.
Lemma array32_typed b : array_wf 32 b -> in_u256 (of_be b).
Proof.
  intros [L W]. pose proof (of_be_bound b W) as B. replace (length b) with 32%nat in B by (unfold zlen in L; lia).
  exact B.
Qed.
Lemma array20_typed b : array_wf 20 b -> in_u160 (of_be b).
Proof.
  intros [L W]. pose proof (of_be_bound b W) as B. replace (length b) with 20%nat in B by (unfold zlen in L; lia).
  exact B.
Qed.
Lemma vec_typed {A} (v P : A -> Prop) l : (forall a, v a -> P a) -> vec_valid v l -> Forall P l.
Proof. intros H [F _]. exact (Forall_impl _ _ _ F H). Qed.
Lemma vec_map_typed {A B} (v : A -> Prop) (P : B -> Prop) (f : A -> B) l :
  (forall a, v a -> P (f a)) -> vec_valid v l -> Forall P (map f l).
Proof. intros H [F _]. apply Forall_map. exact (Forall_impl _ _ _ F H). Qed.
Lemma array32_encoded n : in_u256 n -> array_wf 32 (be_bytes 32 n).
Proof. intros _. split; [unfold zlen; rewrite length_be_bytes; reflexivity|apply be_bytes_wf]. Qed.
Lemma array20_encoded n : in_u160 n -> array_wf 20 (be_bytes 20 n).
Proof. intros _. split; [unfold zlen; rewrite length_be_bytes; reflexivity|apply be_bytes_wf]. Qed.
Lemma array32_decoded n : in_u256 n -> of_be (be_bytes 32 n) = n.
Proof. intros H. rewrite of_be_be_bytes, pow256_32. apply Z.mod_small, H. Qed.
Lemma array20_decoded n : in_u160 n -> of_be (be_bytes 20 n) = n.
Proof. intros H. rewrite of_be_be_bytes, pow256_20. apply Z.mod_small, H. Qed.
Lemma array32_canonical b : array_wf 32 b -> be_bytes 32 (of_be b) = b.
Proof.
  intros [L W]. replace 32%nat with (length b) by (unfold zlen in L; lia). apply be_bytes_of_be, W.
Qed.
Lemma array20_canonical b : array_wf 20 b -> be_bytes 20 (of_be b) = b.
Proof.
  intros [L W]. replace 20%nat with (length b) by (unfold zlen in L; lia). apply be_bytes_of_be, W.
Qed.
Lemma map_inverse {A B} (v : A -> Prop) (f : A -> B) (g : B -> A) l :
  (forall a, v a -> g (f a) = a) -> Forall v l -> map g (map f l) = l.
Proof.
  intros H F. induction F as [|a l Ha _ IH]; cbn [map]; [reflexivity|]. rewrite H, IH by exact Ha. reflexivity.
Qed.
Lemma vec_encoded {A B} (v : A -> Prop) (P : B -> Prop) (f : A -> B) l :
  (forall a, v a -> P (f a)) -> Forall v l -> in_u32 (zlen l) -> vec_valid P (map f l).
Proof.
  intros H F L. split; [apply Forall_map; exact (Forall_impl _ _ _ F H)|].
  unfold zlen. rewrite length_map. exact L.
Qed.
Lemma u8_bytes l : vec_valid in_u8 l -> bytes_wf l.
Proof. apply vec_typed. auto. Qed.

(** Split the validity of a wire value and the range goals of the program's value, and close
    each field by the lemma of its type. *)
Create HintDb wire.
#[export] Hint Resolve array32_typed array20_typed u8_bytes : wire.
Ltac wire_element :=
  intros; repeat match goal with p : (_ * _)%type |- _ => destruct p end; unfold pair_wf in *; cbn in *;
  repeat match goal with H : _ /\ _ |- _ => destruct H end;
  repeat match goal with |- _ /\ _ => split end; eauto with wire.
Ltac wire_field :=
  cbn; first
    [ assumption
    | apply array32_typed; assumption
    | apply array20_typed; assumption
    | eapply vec_map_typed; [|eassumption]; solve [eauto with wire | wire_element]
    | eapply vec_typed; [|eassumption]; solve [eauto with wire | wire_element]
    | solve [eauto with wire] ].
Ltac wire_fields :=
  hnf; repeat match goal with |- _ /\ _ => split; [wire_field|] end; first [wire_field|wire_fields].
Ltac wire_typed :=
  intros; match goal with V : valid _ _ |- _ => cbn in V end;
  repeat match goal with H : _ /\ _ |- _ => destruct H end;
  wire_fields.

(** Rewrite the fields of a struct that was encoded and read back, or read and re-encoded. *)
Ltac wire_inverse :=
  rewrite ?array32_decoded, ?array20_decoded, ?array32_canonical, ?array20_canonical by assumption.

(** ** The format itself, as an instance: little-endian integers, one byte for [bool] and for
    the tag of an [Option], a 32-bit count before the elements of a [Vec] *)
Definition le_codec (n : nat) : Codec Z := {|
  encode x := if (0 <=? x) && (x <? 256 ^ Z.of_nat n) then Some (rev (be_bytes n x)) else None;
  decode (b : bytes) := if (length b <? n)%nat then None else Some (of_be (rev (take n b)), drop n b)
|}.
Definition bool_codec : Codec bool := {|
  encode (x : bool) := Some [if x then 1 else 0];
  decode (b : bytes) := match b with
              | x :: rest => if x =? 0 then Some (false, rest) else if x =? 1 then Some (true, rest) else None
              | [] => None
              end
|}.
Definition array_codec (n : Z) : Codec bytes := {|
  encode (a : bytes) := if (zlen a =? n) && (0 <? n) then Some a else None;
  decode (b : bytes) := if zlen b <? n then None else Some (take (Z.to_nat n) b, drop (Z.to_nat n) b)
|}.
Fixpoint encode_all {A} (c : Codec A) (l : list A) : option bytes :=
  match l with
  | [] => Some []
  | a :: l => x ← encode c a; y ← encode_all c l; Some (x ++ y)
  end.
Fixpoint decode_all {A} (c : Codec A) (n : nat) (b : bytes) : option (list A * bytes) :=
  match n with
  | O => Some ([], b)
  | S n => '(a, rest) ← decode c b; '(l, rest) ← decode_all c n rest; Some (a :: l, rest)
  end.
Definition vec_codec {A} (c : Codec A) : Codec (list A) := {|
  encode (l : list A) := n ← encode (le_codec 4) (zlen l); x ← encode_all c l; Some (n ++ x);
  decode (b : bytes) := '(n, rest) ← decode (le_codec 4) b; decode_all c (Z.to_nat n) rest
|}.
Definition option_codec {A} (c : Codec A) : Codec (option A) := {|
  encode (o : option A) := match o with None => Some [0] | Some a => x ← encode c a; Some (1 :: x) end;
  decode (b : bytes) := match b with
              | x :: rest => if x =? 0 then Some (None, rest)
                             else if x =? 1 then '(a, rest) ← decode c rest; Some (Some a, rest)
                             else None
              | [] => None
              end
|}.
Definition borsh_format : Borsh := {|
  borsh_u8 := le_codec 1;
  borsh_u64 := le_codec 8;
  borsh_bool := bool_codec;
  borsh_array := array_codec;
  borsh_vec A := @vec_codec A;
  borsh_option A := @option_codec A
|}.

Lemma le_law n : (0 < n)%nat -> lawful (fun x => 0 <= x < 256 ^ Z.of_nat n) (le_codec n).
Proof.
  intros Hn. split; cbn [encode decode le_codec].
  - intros x Hx. exists (rev (be_bytes n x)).
    destruct (Z.leb_spec 0 x), (Z.ltb_spec x (256 ^ Z.of_nat n)); try lia. cbn [andb].
    split; [reflexivity|]. split; [apply Forall_rev, be_bytes_wf|]. intros rest.
    assert (L : length (rev (be_bytes n x)) = n) by (rewrite length_rev; apply length_be_bytes).
    rewrite length_app, L. destruct (Nat.ltb_spec (n + length rest) n); [lia|].
    rewrite take_app_length', drop_app_length', rev_involutive, of_be_be_bytes by (symmetry; exact L).
    rewrite Z.mod_small by lia. reflexivity.
  - intros b a rest W H. destruct (Nat.ltb_spec (length b) n); [discriminate|].
    injection H as <- <-.
    assert (L : length (rev (take n b)) = n) by (rewrite length_rev, length_take; lia).
    assert (Wt : Forall is_byte (rev (take n b))) by (apply Forall_rev, Forall_take, W).
    pose proof (of_be_bound _ Wt) as B. rewrite L in B. split; [exact B|].
    exists (take n b). split; [|symmetry; apply take_drop].
    destruct (Z.leb_spec 0 (of_be (rev (take n b)))), (Z.ltb_spec (of_be (rev (take n b))) (256 ^ Z.of_nat n));
      try lia. cbn [andb]. f_equal. rewrite <- L at 1. rewrite be_bytes_of_be by exact Wt. apply rev_involutive.
  - intros a H. destruct (_ && _); [|discriminate]. injection H as H.
    apply (f_equal length) in H. rewrite length_rev, length_be_bytes in H. cbn in H. lia.
Qed.

Lemma le_size n x e : encode (le_codec n) x = Some e -> zlen e = Z.of_nat n.
Proof.
  cbn [encode le_codec]. destruct (_ && _); [|discriminate]. intros H. injection H as <-.
  unfold zlen. rewrite length_rev, length_be_bytes. reflexivity.
Qed.

Lemma bool_codec_law : lawful (fun _ => True) bool_codec.
Proof.
  split; cbn [encode decode bool_codec].
  - intros a _. eexists. split; [reflexivity|]. split.
    + destruct a; repeat constructor; unfold is_byte; lia.
    + intros rest. destruct a; reflexivity.
  - intros [|x b] a rest _ H; [discriminate|]. split; [exact I|].
    destruct (Z.eqb_spec x 0) as [->|]; [injection H as <- <-; eexists; split; reflexivity|].
    destruct (Z.eqb_spec x 1) as [->|]; [injection H as <- <-; eexists; split; reflexivity|discriminate].
  - intros a. discriminate.
Qed.

Lemma array_codec_law n : 0 < n -> lawful (array_wf n) (array_codec n).
Proof.
  intros Hn. split; cbn [encode decode array_codec].
  - intros a [L W]. exists a. rewrite L, Z.eqb_refl. destruct (Z.ltb_spec 0 n); [|lia].
    split; [reflexivity|]. split; [exact W|]. intros rest.
    assert (La : Z.to_nat n = length a) by (unfold zlen in L; lia).
    destruct (Z.ltb_spec (zlen (a ++ rest)) n) as [C|_].
    { unfold zlen in *. rewrite length_app in C. lia. }
    rewrite La, take_app_length, drop_app_length. reflexivity.
  - intros b a rest W H. destruct (Z.ltb_spec (zlen b) n); [discriminate|]. injection H as <- <-.
    assert (L : zlen (take (Z.to_nat n) b) = n) by (unfold zlen in *; rewrite length_take; lia).
    split; [split; [exact L|apply Forall_take, W]|]. exists (take (Z.to_nat n) b).
    rewrite L, Z.eqb_refl. destruct (Z.ltb_spec 0 n); [|lia].
    split; [reflexivity|symmetry; apply take_drop].
  - intros a H. destruct (Z.eqb_spec (zlen a) n), (Z.ltb_spec 0 n); try discriminate.
    cbn in H. injection H as ->. unfold zlen in *. cbn in *. lia.
Qed.

Lemma all_law {A} (valid : A -> Prop) c :
  lawful valid c ->
  (forall l, Forall valid l -> exists e, encode_all c l = Some e /\ bytes_wf e
     /\ forall rest, decode_all c (length l) (e ++ rest) = Some (l, rest))
  /\ (forall n b l rest, bytes_wf b -> decode_all c n b = Some (l, rest) ->
     Forall valid l /\ length l = n /\ exists e, encode_all c l = Some e /\ b = e ++ rest).
Proof.
  intros L. split.
  - induction 1 as [|a l Ha Hl IH]; cbn [encode_all length decode_all].
    + exists []. split; [reflexivity|]. split; [constructor|reflexivity].
    + destruct (encode_decode _ _ L a Ha) as (x & Ex & Wx & Dx). destruct IH as (y & Ey & Wy & Dy).
      exists (x ++ y). rewrite Ex. cbn. rewrite Ey. cbn. split; [reflexivity|].
      split; [apply Forall_app; auto|]. intros rest. rewrite <- app_assoc, Dx. cbn. rewrite Dy. reflexivity.
  - induction n as [|n IH]; intros b l rest W H; cbn [decode_all] in H.
    + injection H as <- <-. split; [constructor|]. split; [reflexivity|]. exists []. auto.
    + destruct (decode c b) as [[a r]|] eqn:E; [|discriminate]. cbn in H.
      destruct (decode_all c n r) as [[l' r']|] eqn:E'; [|discriminate]. cbn in H. injection H as <- ->.
      destruct (decode_encode _ _ L _ _ _ W E) as (Ha & x & Ex & ->).
      apply Forall_app in W as [_ W]. destruct (IH _ _ _ W E') as (Hl & Ln & y & Ey & ->).
      split; [constructor; assumption|]. split; [cbn; congruence|]. exists (x ++ y).
      cbn [encode_all]. rewrite Ex. cbn. rewrite Ey. cbn. rewrite app_assoc. auto.
Qed.

Lemma vec_codec_law {A} (valid : A -> Prop) c : lawful valid c -> lawful (vec_valid valid) (vec_codec c).
Proof.
  intros L. destruct (all_law valid c L) as [A1 A2]. pose proof (le_law 4 ltac:(lia)) as U.
  split; cbn [encode decode vec_codec].
  - intros l [Hl Hn]. destruct (encode_decode _ _ U (zlen l) Hn) as (x & Ex & Wx & Dx).
    destruct (A1 l Hl) as (y & Ey & Wy & Dy). exists (x ++ y). rewrite Ex. cbn [mbind option_bind].
    rewrite Ey. cbn [mbind option_bind]. split; [reflexivity|]. split; [apply Forall_app; auto|].
    intros rest. rewrite <- app_assoc, Dx. cbn [mbind option_bind]. unfold zlen. rewrite Nat2Z.id. apply Dy.
  - intros b l rest W H. destruct (decode (le_codec 4) b) as [[n r]|] eqn:E; [|discriminate].
    cbn [mbind option_bind] in H. destruct (decode_encode _ _ U _ _ _ W E) as (Hn & x & Ex & ->).
    apply Forall_app in W as [_ W]. destruct (A2 _ _ _ _ W H) as (Hl & Ln & y & Ey & ->).
    assert (Zn : zlen l = n) by (unfold zlen; lia).
    split; [split; [exact Hl|rewrite Zn; exact Hn]|]. exists (x ++ y). rewrite Zn, Ex. cbn [mbind option_bind].
    rewrite Ey. cbn [mbind option_bind]. rewrite app_assoc. auto.
  - intros l H. destruct (encode (le_codec 4) (zlen l)) as [x|] eqn:Ex; [|discriminate].
    cbn [mbind option_bind] in H. destruct (encode_all c l); [|discriminate]. cbn in H. injection H as H.
    apply app_eq_nil in H as [-> _]. exact (encode_nonempty _ _ U _ Ex).
Qed.

Lemma option_codec_law {A} (valid : A -> Prop) c :
  lawful valid c -> lawful (option_wf valid) (option_codec c).
Proof.
  intros L. split; cbn [encode decode option_codec].
  - intros [a|] Ha.
    + destruct (encode_decode _ _ L a Ha) as (x & Ex & Wx & Dx). exists (1 :: x). rewrite Ex.
      split; [reflexivity|]. split; [constructor; [unfold is_byte; lia|exact Wx]|]. intros rest.
      cbn. rewrite Dx. reflexivity.
    + exists [0]. split; [reflexivity|]. split; [repeat constructor; unfold is_byte; lia|reflexivity].
  - intros [|x b] o rest W H; [discriminate|].
    destruct (Z.eqb_spec x 0) as [->|]; [injection H as <- <-; split; [exact I|eexists; split; reflexivity]|].
    destruct (Z.eqb_spec x 1) as [->|]; [|discriminate].
    destruct (decode c b) as [[a r]|] eqn:E; [|discriminate]. cbn in H. injection H as <- <-.
    inversion W as [|? ? _ W']; subst. destruct (decode_encode _ _ L _ _ _ W' E) as (Ha & y & Ey & ->).
    split; [exact Ha|]. exists (1 :: y). rewrite Ey. auto.
  - intros [a|]; [|discriminate]. destruct (encode c a); discriminate.
Qed.

Lemma borsh_format_laws : @BorshLaws borsh_format.
Proof.
  split.
  - apply (le_law 1). lia.
  - apply (le_law 8). lia.
  - exact bool_codec_law.
  - exact array_codec_law.
  - intros A valid c. apply vec_codec_law.
  - intros A valid c. apply option_codec_law.
  - apply (le_size 1).
  - apply (le_size 8).
  - intros n a e. cbn [encode borsh_array borsh_format array_codec].
    destruct (Z.eqb_spec (zlen a) n), (0 <? n); try discriminate. cbn. intros H. injection H as <-. assumption.
Qed.
