(* ===== verification/Abi.v ===== *)
(** * ABI words and the Keccak interface (stf-types/src/abi.rs)

    [keccak256] is code of [alloy-primitives], so the development takes it as
    the operation of the class [Keccak]; [KeccakRange] states that it returns a
    32-byte array.  Nothing else is assumed of it: the binding theorems carry
    the explicit premise that the function does not collide on the finitely
    many preimages the two commitments hash.  [toy_keccak] is a concrete
    instance for the witnesses. *)

From S2P Require Import Prelude Types.
Open Scope Z_scope.

Class Keccak := keccak256 : bytes -> Z.
Class KeccakRange {KK : Keccak} := keccak_range : forall b, in_u256 (keccak256 b).

Definition toy_step (h x : Z) : Z :=
  Z.land (h * 16777619 + x + 1) 18446744073709551615.
Definition toy_keccak : Keccak := fun b => foldl toy_step 2166136261 b.

Lemma toy_keccak_range : @KeccakRange toy_keccak.
Proof.
  intros b. unfold keccak256, toy_keccak.
  assert (G : in_u256 2166136261) by (unfold in_u256; lia).
  revert G. generalize 2166136261.
  induction b as [|x b IH]; intros h Hh; [exact Hh|].
  cbn [foldl]. apply IH. unfold toy_step.
  change 18446744073709551615 with (Z.ones 64). rewrite Z.land_ones by lia.
  pose proof (Z.mod_pos_bound (h * 16777619 + x + 1) (2 ^ 64)).
  unfold in_u256. lia.
Qed.

(** ** Words *)
Definition abi_u64_word_v5 (value : Z) : bytes := repeat 0 24 ++ be_bytes 8 value.
Definition abi_bool_word_v5 (value : bool) : bytes :=
  abi_u64_word_v5 (if value then 1 else 0).
Definition abi_address_word_v5 (value : Z) : bytes :=
  repeat 0 12 ++ be_bytes 20 value.
Definition abi_u256_word_v5 (value : Z) : bytes := be_bytes 32 value.
Definition u256_word (value : Z) : bytes := repeat 0 24 ++ be_bytes 8 value.
Definition uint256_word (value : Z) : bytes := be_bytes 32 value.
Definition address_word (value : Z) : bytes := repeat 0 12 ++ be_bytes 20 value.
Definition b256_word (value : Z) : bytes := be_bytes 32 value.

(** [B256::as_slice], [Address::as_slice]. *)
Definition b256_bytes (value : Z) : bytes := be_bytes 32 value.
Definition address_bytes (value : Z) : bytes := be_bytes 20 value.

#[global] Arguments abi_u64_word_v5 : simpl never.
#[global] Arguments abi_address_word_v5 : simpl never.

Definition bool_u64 (b : bool) : Z := if b then 1 else 0.

Section Hashing.
Context {KK : Keccak}.

Definition keccak_words_v5 (words : list bytes) : Z := keccak256 (concat words).
Definition hash_words (words : list bytes) : Z := keccak256 (concat words).
End Hashing.

(** ** Words are the 32-byte encodings of their values *)
Lemma be_bytes_zero_pad k n z :
  0 <= z < 256 ^ Z.of_nat n -> be_bytes (k + n) z = repeat 0 k ++ be_bytes n z.
Proof.
  intros Hz. induction k as [|k IH]; [reflexivity|].
  change (be_bytes (S k + n) z)
    with ((z / 256 ^ Z.of_nat (k + n)) mod 256 :: be_bytes (k + n) z).
  cbn [repeat app]. f_equal; [|exact IH].
  rewrite Z.div_small; [reflexivity|].
  split; [lia|]. apply Z.lt_le_trans with (256 ^ Z.of_nat n); [lia|].
  apply Z.pow_le_mono_r; lia.
Qed.

Lemma abi_u64_word_spec v : in_u64 v -> abi_u64_word_v5 v = be_bytes 32 v.
Proof.
  intros H. unfold abi_u64_word_v5.
  rewrite <- (be_bytes_zero_pad 24 8); [reflexivity|]. exact H.
Qed.

Lemma abi_address_word_spec v : in_u160 v -> abi_address_word_v5 v = be_bytes 32 v.
Proof.
  intros H. unfold abi_address_word_v5.
  rewrite <- (be_bytes_zero_pad 12 20); [reflexivity|]. exact H.
Qed.

Lemma abi_bool_word_spec b : abi_bool_word_v5 b = be_bytes 32 (bool_u64 b).
Proof. destruct b; reflexivity. Qed.

Lemma u256_word_spec v : in_u64 v -> u256_word v = be_bytes 32 v.
Proof. apply abi_u64_word_spec. Qed.
Lemma address_word_spec v : in_u160 v -> address_word v = be_bytes 32 v.
Proof. apply abi_address_word_spec. Qed.

Lemma in_u8_u64 v : in_u8 v -> in_u64 v.
Proof. unfold in_u8, in_u64. lia. Qed.
Lemma in_u32_u64 v : in_u32 v -> in_u64 v.
Proof. unfold in_u32, in_u64. lia. Qed.
Lemma in_u64_u256 v : in_u64 v -> in_u256 v.
Proof. unfold in_u64, in_u256. lia. Qed.
Lemma in_u160_u256 v : in_u160 v -> in_u256 v.
Proof. unfold in_u160, in_u256. lia. Qed.
Lemma bool_u64_range b : in_u64 (bool_u64 b).
Proof. destruct b; unfold in_u64; cbn; lia. Qed.
Lemma bool_u64_inj a b : bool_u64 a = bool_u64 b -> a = b.
Proof. destruct a, b; cbn; congruence. Qed.

Create HintDb word_range.
#[export] Hint Resolve in_u8_u64 in_u32_u64 in_u64_u256 in_u160_u256
  bool_u64_range keccak_range : word_range.

(** Concatenations of 32-byte words are injective in the word values. *)
Lemma words_inj (xs ys : list Z) :
  Forall in_u256 xs -> Forall in_u256 ys -> length xs = length ys ->
  concat (map (be_bytes 32) xs) = concat (map (be_bytes 32) ys) -> xs = ys.
Proof.
  revert ys. induction xs as [|x xs IH]; intros [|y ys] Hx Hy Hl H;
    try discriminate Hl; [reflexivity|].
  inversion Hx; inversion Hy; subst. cbn [map concat] in H.
  apply app_inj_len in H as [Hhd Htl]; [|rewrite !length_be_bytes; reflexivity].
  f_equal; [eapply (be_bytes_inj 32); eauto|].
  apply IH; auto.
Qed.

Lemma length_concat_words (xs : list Z) :
  length (concat (map (be_bytes 32) xs)) = (32 * length xs)%nat.
Proof.
  induction xs as [|x xs IH]; [reflexivity|].
  cbn [map concat length]. rewrite length_app, length_be_bytes, IH. lia.
Qed.

(** The same without knowing the lengths: they follow from the bytes. *)
Lemma words_inj' (xs ys : list Z) :
  Forall in_u256 xs -> Forall in_u256 ys ->
  concat (map (be_bytes 32) xs) = concat (map (be_bytes 32) ys) -> xs = ys.
Proof.
  intros Hx Hy H. apply words_inj; auto.
  apply (f_equal length) in H. rewrite !length_concat_words in H. lia.
Qed.

(** Concatenations of items of one width are injective. *)
Lemma concat_width_inj {A} n (l1 l2 : list (list A)) :
  Forall (fun x => length x = n) l1 -> Forall (fun x => length x = n) l2 ->
  length l1 = length l2 -> concat l1 = concat l2 -> l1 = l2.
Proof.
  intros F1. revert l2. induction F1 as [|x l1 Hx F1 IH]; intros [|y l2] F2 Hl H;
    try discriminate; [reflexivity|].
  inversion F2 as [|? ? Hy F2']; subst. cbn [concat] in H.
  apply app_inj_len in H as [-> H]; [|congruence]. f_equal. apply IH; auto.
Qed.

(** [keccak256] is collision free on the preimages [P]. *)
Definition no_collision {KK : Keccak} (P : list bytes) : Prop :=
  forall x y, x ∈ P -> y ∈ P -> keccak256 x = keccak256 y -> x = y.

Lemma no_collision_mono {KK : Keccak} P Q :
  (forall x, x ∈ P -> x ∈ Q) -> no_collision Q -> no_collision P.
Proof. intros Hs HQ x y Hx Hy. apply HQ; auto. Qed.

(** Rewrite every word of a goal or hypothesis into [be_bytes 32] form. *)
Ltac norm_words :=
  unfold b256_word, uint256_word, abi_u256_word_v5, b256_bytes in *;
  repeat first
    [ rewrite abi_bool_word_spec in *
    | rewrite abi_u64_word_spec in * by eauto with word_range
    | rewrite u256_word_spec in * by eauto with word_range
    | rewrite abi_address_word_spec in * by eauto with word_range
    | rewrite address_word_spec in * by eauto with word_range ].

(** Restrict a no-collision premise to a sublist of its preimages. *)
Ltac nc_sub H :=
  eapply no_collision_mono; [|exact H];
  intros ?; rewrite ?elem_of_app, ?elem_of_cons, ?elem_of_app; tauto.

(** ** Prefix-injective encoders: an encoding followed by anything determines
    the value and what follows it *)
Definition prefix_inj {A} (P : A -> Prop) (enc : A -> bytes) : Prop :=
  forall x y r s, P x -> P y -> enc x ++ r = enc y ++ s -> x = y /\ r = s.

Lemma prefix_inj_be n : prefix_inj (fun z => 0 <= z < 256 ^ Z.of_nat n) (be_bytes n).
Proof.
  intros x y r s Hx Hy H.
  apply app_inj_len in H as [H ->]; [|rewrite !length_be_bytes; reflexivity].
  apply be_bytes_inj in H; auto.
Qed.

Lemma prefix_inj_array n : prefix_inj (fun b => zlen b = n) (fun b => b).
Proof.
  unfold zlen. intros x y r s Hx Hy H. apply app_inj_len in H; [exact H|lia].
Qed.

Lemma prefix_inj_byte : prefix_inj (fun _ => True) (fun z => [z]).
Proof. intros x y r s _ _ H. injection H. auto. Qed.

(** Items after their count. *)
Lemma prefix_inj_items {A} (P : A -> Prop) (enc : A -> bytes) n :
  prefix_inj P enc ->
  prefix_inj (fun l => Forall P l /\ length l = n) (fun l => concat (map enc l)).
Proof.
  intros He. induction n as [|n IH]; intros l1 l2 r s [F1 L1] [F2 L2] H.
  - destruct l1, l2; try discriminate. auto.
  - destruct l1 as [|x l1], l2 as [|y l2]; try discriminate.
    cbn [map concat] in H. rewrite <- !app_assoc in H.
    inversion F1; inversion F2; subst.
    apply He in H as [-> H]; auto.
    apply IH in H as [-> ->]; [auto|split; auto..].
Qed.

Lemma prefix_inj_list {A} (P : A -> Prop) (enc : A -> bytes) :
  prefix_inj P enc ->
  prefix_inj (fun l => Forall P l /\ in_u64 (zlen l))
             (fun l => be_bytes 8 (zlen l) ++ concat (map enc l)).
Proof.
  intros He l1 l2 r s [F1 L1] [F2 L2] H. rewrite <- !app_assoc in H.
  apply prefix_inj_be in H as [Hl H]; [|exact L1|exact L2].
  unfold zlen in Hl.
  apply (prefix_inj_items P enc (length l2)) in H; auto.
  split; [exact F1|lia].
Qed.

(** Peel the next field of two equal encodings with a [prefix_inj] lemma. *)
Ltac peel H lem :=
  let E := fresh "E" in
  apply lem in H as [E H]; [|solve [assumption|exact I|auto]..].

(** ** Executable check of [no_collision] for the witnesses *)
Definition no_collisionb {KK : Keccak} (P : list bytes) : bool :=
  let H := map (fun x => (keccak256 x, x)) P in
  forallb (fun x => forallb (fun y =>
    if x.1 =? y.1 then bool_decide (x.2 = y.2) else true) H) H.

Lemma no_collisionb_spec {KK : Keccak} P : no_collisionb P = true -> no_collision P.
Proof.
  unfold no_collisionb. intros H x y Hx Hy He.
  rewrite forallb_forall in H.
  specialize (H (keccak256 x, x)). rewrite forallb_forall in H.
  assert (G : forall z, z ∈ P -> In (keccak256 z, z) (map (fun x => (keccak256 x, x)) P)).
  { intros z Hz. apply in_map_iff. exists z. split; [reflexivity|].
    apply list_elem_of_In. exact Hz. }
  specialize (H (G x Hx) (keccak256 y, y) (G y Hy)). cbn in H.
  rewrite He, Z.eqb_refl in H. apply bool_decide_eq_true in H. exact H.
Qed.

(** ** Tactics for machine-typed values *)
Ltac destruct_wf H :=
  repeat match type of H with
  | _ /\ _ => let H1 := fresh "W" in destruct H as [H1 H]
  end.

Ltac solve_range :=
  repeat match goal with |- Forall _ _ => constructor end;
  eauto 5 with word_range.

Ltac solve_wf :=
  repeat match goal with
  | |- _ /\ _ => split
  | |- Forall _ [] => constructor
  | |- Forall _ (_ :: _) => constructor
  | |- True => exact I
  | |- in_u8 _ => unfold in_u8
  | |- in_u16 _ => unfold in_u16
  | |- in_u32 _ => unfold in_u32
  | |- in_u64 _ => unfold in_u64
  | |- in_u160 _ => unfold in_u160
  | |- in_u256 _ => unfold in_u256
  | |- is_byte _ => unfold is_byte
  | |- _ <= _ < _ => lia
  | |- _ <= _ => lia
  | |- _ < _ => lia
  | |- _ = _ => reflexivity
  | |- _ => progress cbn
  end.

Lemma keccak256_inj {KK : Keccak} p q :
  no_collision [p; q] -> keccak256 p = keccak256 q -> p = q.
Proof. intros Hn H. apply Hn; [left|right; left|exact H]. Qed.
