(* ===== verification/Merkle.v ===== *)
(** * Merkle trees of the public commitments

    Two tree shapes occur in the source, always as a [while leaves.len() > 1]
    loop over a vector: the OpenZeppelin-compatible tree with sorted pairs and
    duplicated odd nodes ([member_roster_root_v4], [claim_merkle_root_v4]) and
    the positional tree over a power-of-two vector ([roster_root_v5],
    [withdrawal_root_v5]).  The loop is [tree_fold]; [tree_fold_singleton]
    shows that [length leaves] rounds always suffice.  The binding lemmas say
    what equal roots imply for the leaves; their only premise on Keccak is
    [no_collision] on the preimages actually hashed. *)

From S2P Require Import Prelude Types Abi.
Open Scope Z_scope.

Section Trees.
Context {KK : Keccak}.

(** [encoded[..32] = left; encoded[32..] = right; keccak256(encoded)]. *)
Definition pair_preimage (left right : Z) : bytes :=
  b256_bytes left ++ b256_bytes right.
Definition hash_pair (left right : Z) : Z := keccak256 (pair_preimage left right).

(** [if a <= b { (a, b) } else { (b, a) }]. *)
Definition sorted_preimage (a b : Z) : bytes :=
  if a <=? b then pair_preimage a b else pair_preimage b a.
Definition hash_sorted_pair (a b : Z) : Z := keccak256 (sorted_preimage a b).

(** One round over [chunks(2)] with [pair.get(1).unwrap_or(&a)]. *)
Fixpoint sorted_layer (leaves : list Z) : list Z :=
  match leaves with
  | [] => []
  | [a] => [hash_sorted_pair a a]
  | a :: b :: rest => hash_sorted_pair a b :: sorted_layer rest
  end.

(** One round over [chunks_exact(2)]. *)
Fixpoint positional_layer (leaves : list Z) : list Z :=
  match leaves with
  | a :: b :: rest => hash_pair a b :: positional_layer rest
  | _ => []
  end.

(** [while leaves.len() > 1 { leaves = layer(leaves) }]. *)
Fixpoint tree_fold (layer : list Z -> list Z) (fuel : nat) (leaves : list Z)
  : list Z :=
  match leaves, fuel with
  | _ :: _ :: _, S fuel' => tree_fold layer fuel' (layer leaves)
  | _, _ => leaves
  end.

Definition sorted_tree (leaves : list Z) : list Z :=
  tree_fold sorted_layer (length leaves) leaves.
Definition positional_tree (leaves : list Z) : list Z :=
  tree_fold positional_layer (length leaves) leaves.

(** Preimages hashed by one round and by the whole loop. *)
Fixpoint sorted_layer_preimages (leaves : list Z) : list bytes :=
  match leaves with
  | [] => []
  | [a] => [sorted_preimage a a]
  | a :: b :: rest => sorted_preimage a b :: sorted_layer_preimages rest
  end.
Fixpoint positional_layer_preimages (leaves : list Z) : list bytes :=
  match leaves with
  | a :: b :: rest => pair_preimage a b :: positional_layer_preimages rest
  | _ => []
  end.
Fixpoint tree_preimages (layer : list Z -> list Z)
    (pre : list Z -> list bytes) (fuel : nat) (leaves : list Z) : list bytes :=
  match leaves, fuel with
  | _ :: _ :: _, S fuel' =>
      pre leaves ++ tree_preimages layer pre fuel' (layer leaves)
  | _, _ => []
  end.
Definition sorted_tree_preimages (leaves : list Z) : list bytes :=
  tree_preimages sorted_layer sorted_layer_preimages (length leaves) leaves.
Definition positional_tree_preimages (leaves : list Z) : list bytes :=
  tree_preimages positional_layer positional_layer_preimages
    (length leaves) leaves.
End Trees.

(** ** Termination: the loop ends with exactly one node *)
Section Termination.
Context {KK : Keccak}.

Lemma list_pair_ind {A} (P : list A -> Prop) :
  P [] -> (forall a, P [a]) -> (forall a b l, P l -> P (a :: b :: l)) ->
  forall l, P l.
Proof.
  intros H0 H1 H2. fix IH 1. intros [|a [|b l]]; [exact H0|apply H1|].
  apply H2. apply IH.
Qed.

Lemma length_sorted_layer l :
  (2 * length (sorted_layer l) <= length l + 1)%nat /\
  (length l <= 2 * length (sorted_layer l))%nat.
Proof. induction l using list_pair_ind; cbn [sorted_layer length] in *; lia. Qed.

Lemma length_positional_layer l :
  (2 * length (positional_layer l) <= length l)%nat /\
  (length l <= 2 * length (positional_layer l) + 1)%nat.
Proof. induction l using list_pair_ind; cbn [positional_layer length] in *; lia. Qed.

(** A round shrinks a vector of two or more to a shorter non-empty one. *)
Definition shrinking (layer : list Z -> list Z) : Prop :=
  forall l, (2 <= length l)%nat -> (1 <= length (layer l) < length l)%nat.

Lemma sorted_layer_shrinking : shrinking sorted_layer.
Proof. intros l H. pose proof (length_sorted_layer l). lia. Qed.
Lemma positional_layer_shrinking : shrinking positional_layer.
Proof. intros l H. pose proof (length_positional_layer l). lia. Qed.

Lemma tree_fold_singleton layer fuel l :
  shrinking layer -> (1 <= length l <= fuel)%nat ->
  exists r, tree_fold layer fuel l = [r].
Proof.
  intros Hs. revert l. induction fuel as [|fuel IH]; intros l Hl; [lia|].
  destruct l as [|a [|b l]]; [cbn in Hl; lia|eexists; reflexivity|].
  cbn [tree_fold].
  assert (H2 : (2 <= length (a :: b :: l))%nat) by (cbn; lia).
  specialize (Hs _ H2). apply IH. cbn [length] in *. lia.
Qed.

(** Number of rounds and the loop as an iteration. *)
Fixpoint tree_depth (layer : list Z -> list Z) (fuel : nat) (l : list Z) : nat :=
  match l, fuel with
  | _ :: _ :: _, S fuel' => S (tree_depth layer fuel' (layer l))
  | _, _ => O
  end.

Lemma tree_fold_iter layer fuel l :
  tree_fold layer fuel l = Nat.iter (tree_depth layer fuel l) layer l.
Proof.
  revert l. induction fuel as [|fuel IH]; intros [|a [|b l]]; try reflexivity.
  cbn [tree_fold tree_depth]. rewrite IH. rewrite <- Nat.iter_succ_r.
  reflexivity.
Qed.
End Termination.

(** ** Positional trees bind every leaf *)
Section PositionalBinding.
Context {KK : Keccak} {KR : KeccakRange}.

Lemma pair_preimage_inj a b c d :
  in_u256 a -> in_u256 b -> in_u256 c -> in_u256 d ->
  pair_preimage a b = pair_preimage c d -> a = c /\ b = d.
Proof.
  unfold pair_preimage, b256_bytes. intros Ha Hb Hc Hd H.
  apply app_inj_len in H as [H1 H2]; [|rewrite !length_be_bytes; reflexivity].
  split; eapply (be_bytes_inj 32); eauto.
Qed.

Lemma positional_layer_range l : Forall in_u256 (positional_layer l).
Proof.
  induction l using list_pair_ind; cbn [positional_layer]; constructor; auto.
  apply keccak_range.
Qed.

Lemma positional_layer_inj l1 l2 :
  Forall in_u256 l1 -> Forall in_u256 l2 ->
  length l1 = length l2 -> Nat.Even (length l1) ->
  no_collision (positional_layer_preimages l1 ++ positional_layer_preimages l2) ->
  positional_layer l1 = positional_layer l2 -> l1 = l2.
Proof.
  revert l2. induction l1 as [|a|a b l1 IH] using list_pair_ind;
    intros l2 H1 H2 Hl He Hn H.
  - destruct l2; [reflexivity|discriminate].
  - destruct He as [k Hk]. cbn in Hk. lia.
  - destruct l2 as [|c [|d l2]]; try discriminate Hl.
    cbn [positional_layer positional_layer_preimages] in *.
    injection H as Hh Ht.
    repeat match goal with H : Forall _ (_ :: _) |- _ =>
      apply Forall_cons in H; destruct H end.
    assert (Hp : pair_preimage a b = pair_preimage c d).
    { apply Hn; [set_solver|set_solver|exact Hh]. }
    apply pair_preimage_inj in Hp as [-> ->]; auto. do 2 f_equal.
    apply IH; auto.
    + cbn [length] in Hl. lia.
    + destruct He as [k Hk]. cbn [length] in Hk. red. exists (k - 1)%nat. lia.
    + nc_sub Hn.
Qed.

(** Equal roots of two vectors of the same power-of-two length. *)
Lemma positional_tree_inj_fuel k fuel l1 l2 :
  length l1 = (2 ^ k)%nat -> length l2 = (2 ^ k)%nat -> (k <= fuel)%nat ->
  Forall in_u256 l1 -> Forall in_u256 l2 ->
  no_collision
    (tree_preimages positional_layer positional_layer_preimages fuel l1 ++
     tree_preimages positional_layer positional_layer_preimages fuel l2) ->
  tree_fold positional_layer fuel l1 = tree_fold positional_layer fuel l2 ->
  l1 = l2.
Proof.
  revert fuel l1 l2. induction k as [|k IH]; intros fuel l1 l2 L1 L2 Hf R1 R2 Hn H.
  - destruct l1 as [|a [|]], l2 as [|b [|]]; try discriminate.
    destruct fuel; exact H.
  - assert (Hk : (1 <= 2 ^ k)%nat) by (apply Nat.neq_0_lt_0, Nat.pow_nonzero; lia).
    cbn [Nat.pow] in L1, L2.
    destruct fuel as [|fuel]; [lia|].
    destruct l1 as [|a [|a' l1]]; [cbn in L1; lia|cbn in L1; lia|].
    destruct l2 as [|b [|b' l2]]; [cbn in L2; lia|cbn in L2; lia|].
    cbn [tree_fold tree_preimages] in H, Hn.
    apply positional_layer_inj; auto; [congruence| | |].
    + red. exists (2 ^ k)%nat. lia.
    + nc_sub Hn.
    + pose proof (length_positional_layer (a :: a' :: l1)).
      pose proof (length_positional_layer (b :: b' :: l2)).
      apply (IH fuel); auto using positional_layer_range; try lia.
      nc_sub Hn.
Qed.

Lemma positional_tree_inj k l1 l2 :
  length l1 = (2 ^ k)%nat -> length l2 = (2 ^ k)%nat ->
  Forall in_u256 l1 -> Forall in_u256 l2 ->
  no_collision (positional_tree_preimages l1 ++ positional_tree_preimages l2) ->
  positional_tree l1 = positional_tree l2 -> l1 = l2.
Proof.
  unfold positional_tree, positional_tree_preimages.
  intros L1 L2 R1 R2 Hn H. rewrite L1, L2 in *.
  apply (positional_tree_inj_fuel k (2 ^ k) l1 l2); auto.
  apply Nat.lt_le_incl, Nat.pow_gt_lin_r. lia.
Qed.
End PositionalBinding.

(** ** Sorted trees bind the set of leaves

    Sorting the pair forgets left and right, and duplicating an odd node
    forgets the exact count, so the root determines the leaves only as a set;
    the callers add the slot or sort key that makes the list unique. *)
Section SortedBinding.
Context {KK : Keccak} {KR : KeccakRange}.

Lemma sorted_preimage_comm a b : sorted_preimage a b = sorted_preimage b a.
Proof.
  unfold sorted_preimage.
  destruct (a <=? b) eqn:E1, (b <=? a) eqn:E2; bool_to_prop; try reflexivity; try lia.
  assert (a = b) by lia. subst. reflexivity.
Qed.

Lemma sorted_preimage_inj a b c d :
  in_u256 a -> in_u256 b -> in_u256 c -> in_u256 d ->
  sorted_preimage a b = sorted_preimage c d ->
  (a = c /\ b = d) \/ (a = d /\ b = c).
Proof.
  unfold sorted_preimage. intros Ha Hb Hc Hd.
  destruct (a <=? b), (c <=? d); intros H; apply pair_preimage_inj in H; auto;
    destruct H; auto.
Qed.

Lemma length_sorted_preimage a b : length (sorted_preimage a b) = 64%nat.
Proof.
  unfold sorted_preimage, pair_preimage, b256_bytes.
  destruct (a <=? b); rewrite length_app, !length_be_bytes; reflexivity.
Qed.

Lemma sorted_layer_map l :
  sorted_layer l = map keccak256 (sorted_layer_preimages l).
Proof.
  induction l using list_pair_ind; cbn [sorted_layer sorted_layer_preimages map];
    unfold hash_sorted_pair; congruence.
Qed.

Lemma sorted_layer_preimages_elem p l :
  p ∈ sorted_layer_preimages l ->
  exists a b, a ∈ l /\ b ∈ l /\ p = sorted_preimage a b.
Proof.
  induction l as [|a|a b l IH] using list_pair_ind;
    cbn [sorted_layer_preimages]; intros H.
  - inversion H.
  - apply list_elem_of_singleton in H. exists a, a. set_solver.
  - apply elem_of_cons in H as [->|H].
    + exists a, b. set_solver.
    + destruct (IH H) as (c & d & ? & ? & ?). exists c, d. set_solver.
Qed.

Lemma sorted_layer_preimages_covers a l :
  a ∈ l -> exists b, b ∈ l /\ sorted_preimage a b ∈ sorted_layer_preimages l.
Proof.
  induction l as [|c|c d l IH] using list_pair_ind;
    cbn [sorted_layer_preimages]; intros H.
  - inversion H.
  - apply list_elem_of_singleton in H as ->. exists c. set_solver.
  - apply elem_of_cons in H as [->|H]; [exists d; set_solver|].
    apply elem_of_cons in H as [->|H].
    + exists c. rewrite sorted_preimage_comm. set_solver.
    + destruct (IH H) as (b & ? & ?). exists b. set_solver.
Qed.

Lemma sorted_layer_range l : Forall in_u256 (sorted_layer l).
Proof.
  rewrite sorted_layer_map. apply Forall_map, Forall_true.
  intros x. apply keccak_range.
Qed.

(** One round is injective on leaf sets. *)
Lemma sorted_layer_incl A B :
  Forall in_u256 A -> Forall in_u256 B ->
  no_collision (sorted_layer_preimages A ++ sorted_layer_preimages B) ->
  (forall x, x ∈ sorted_layer A -> x ∈ sorted_layer B) ->
  forall x, x ∈ A -> x ∈ B.
Proof.
  intros RA RB Hn Hincl x Hx.
  destruct (sorted_layer_preimages_covers x A Hx) as (b & Hb & Hp).
  assert (Hk : keccak256 (sorted_preimage x b) ∈ sorted_layer B).
  { apply Hincl. rewrite sorted_layer_map. apply list_elem_of_fmap. eauto. }
  rewrite sorted_layer_map in Hk.
  apply list_elem_of_fmap in Hk as (q & Hq & Hqin).
  assert (Heq : sorted_preimage x b = q).
  { apply Hn; [apply elem_of_app; auto|apply elem_of_app; auto|exact Hq]. }
  subst q. apply sorted_layer_preimages_elem in Hqin as (c & d & Hc & Hd & He).
  rewrite Forall_forall in RA, RB.
  apply sorted_preimage_inj in He as [[-> ->]|[-> ->]]; auto.
Qed.

Definition sorted_rounds (k : nat) (l : list Z) : list Z :=
  Nat.iter k sorted_layer l.
Definition sorted_depth (l : list Z) : nat :=
  tree_depth sorted_layer (length l) l.

Lemma sorted_rounds_range k l : Forall in_u256 l -> Forall in_u256 (sorted_rounds k l).
Proof. destruct k; [auto|intros _; apply sorted_layer_range]. Qed.

Lemma sorted_rounds_preimages k fuel l p :
  (k < tree_depth sorted_layer fuel l)%nat ->
  p ∈ sorted_layer_preimages (sorted_rounds k l) ->
  p ∈ tree_preimages sorted_layer sorted_layer_preimages fuel l.
Proof.
  revert k l. induction fuel as [|fuel IH]; intros k [|a [|b l]] Hk Hp;
    cbn [tree_depth] in Hk; try lia.
  cbn [tree_preimages]. apply elem_of_app.
  destruct k as [|k]; [left; exact Hp|right].
  apply (IH k); [lia|]. unfold sorted_rounds in *.
  rewrite <- Nat.iter_succ_r. exact Hp.
Qed.

Lemma sorted_rounds_aligned l1 l2 j :
  Forall in_u256 l1 -> Forall in_u256 l2 ->
  no_collision (sorted_tree_preimages l1 ++ sorted_tree_preimages l2) ->
  sorted_tree l1 = sorted_tree l2 ->
  (j <= sorted_depth l1)%nat -> (j <= sorted_depth l2)%nat ->
  forall x, x ∈ sorted_rounds (sorted_depth l1 - j) l1 <->
            x ∈ sorted_rounds (sorted_depth l2 - j) l2.
Proof.
  intros R1 R2 Hn H.
  unfold sorted_tree in H. rewrite !tree_fold_iter in H.
  fold (sorted_depth l1) (sorted_depth l2) in H.
  induction j as [|j IH]; intros J1 J2.
  { intros x. unfold sorted_rounds. rewrite !Nat.sub_0_r, H. tauto. }
  specialize (IH ltac:(lia) ltac:(lia)).
  set (k1 := (sorted_depth l1 - S j)%nat). set (k2 := (sorted_depth l2 - S j)%nat).
  replace (sorted_depth l1 - j)%nat with (S k1) in IH by lia.
  replace (sorted_depth l2 - j)%nat with (S k2) in IH by lia.
  assert (P1 : forall p, p ∈ sorted_layer_preimages (sorted_rounds k1 l1) ->
                         p ∈ sorted_tree_preimages l1).
  { intros p. apply sorted_rounds_preimages. fold (sorted_depth l1). lia. }
  assert (P2 : forall p, p ∈ sorted_layer_preimages (sorted_rounds k2 l2) ->
                         p ∈ sorted_tree_preimages l2).
  { intros p. apply sorted_rounds_preimages. fold (sorted_depth l2). lia. }
  intros x. split; apply sorted_layer_incl; auto using sorted_rounds_range;
    try (intros y; apply IH);
    (eapply no_collision_mono; [|exact Hn]; intros y; rewrite !elem_of_app;
     intros [Hy|Hy]; auto).
Qed.

(** The leaves are hashes of preimages that are not 64 bytes long, so no
    leaf is an inner node and the two trees have the same depth. *)
Definition leaf_preimages (LP : list bytes) (leaves : list Z) : Prop :=
  leaves = map keccak256 LP /\ Forall (fun p => length p <> 64%nat) LP.

Lemma leaf_not_node LP l l' :
  leaf_preimages LP l -> l <> [] ->
  no_collision (LP ++ sorted_layer_preimages l') ->
  (forall x, x ∈ l <-> x ∈ sorted_layer l') -> False.
Proof.
  intros [-> Hlen] Hne Hn Hset. destruct LP as [|p LP]; [contradiction|].
  specialize (Hset (keccak256 p)). destruct Hset as [Hset _].
  specialize (Hset ltac:(left)). rewrite sorted_layer_map in Hset.
  apply list_elem_of_fmap in Hset as (q & Hq & Hin).
  assert (p = q) by (apply Hn; [set_solver|set_solver|exact Hq]). subst q.
  apply sorted_layer_preimages_elem in Hin as (a & b & _ & _ & ->).
  inversion Hlen as [|? ? Hp _]. apply Hp, length_sorted_preimage.
Qed.

Lemma leaf_preimages_range LP l : leaf_preimages LP l -> Forall in_u256 l.
Proof.
  intros [-> _]. apply Forall_map, Forall_true. intros x. apply keccak_range.
Qed.

Lemma sorted_depth_le LP1 l1 l2 :
  leaf_preimages LP1 l1 -> Forall in_u256 l2 -> l1 <> [] ->
  no_collision (LP1 ++ sorted_tree_preimages l1 ++ sorted_tree_preimages l2) ->
  sorted_tree l1 = sorted_tree l2 -> (sorted_depth l2 <= sorted_depth l1)%nat.
Proof.
  intros H1 R2 Hne Hn H.
  destruct (Nat.le_gt_cases (sorted_depth l2) (sorted_depth l1)) as [|Hlt]; [auto|].
  exfalso.
  pose proof (sorted_rounds_aligned l1 l2 (sorted_depth l1)
    (leaf_preimages_range _ _ H1) R2 ltac:(nc_sub Hn) H ltac:(lia) ltac:(lia)) as G.
  rewrite Nat.sub_diag in G.
  set (k := (sorted_depth l2 - sorted_depth l1 - 1)%nat).
  replace (sorted_depth l2 - sorted_depth l1)%nat with (S k) in G by lia.
  apply (leaf_not_node LP1 l1 (sorted_rounds k l2)); auto.
  eapply no_collision_mono; [|exact Hn]. intros p.
  rewrite !elem_of_app. intros [Hp|Hp]; [auto|right; right].
  apply (sorted_rounds_preimages k); [|exact Hp].
  fold (sorted_depth l2). lia.
Qed.

(** Equal roots: the same set of leaf preimages. *)
Lemma sorted_tree_binds LP1 LP2 l1 l2 :
  leaf_preimages LP1 l1 -> leaf_preimages LP2 l2 -> l1 <> [] -> l2 <> [] ->
  no_collision (LP1 ++ LP2 ++ sorted_tree_preimages l1 ++ sorted_tree_preimages l2) ->
  sorted_tree l1 = sorted_tree l2 ->
  forall p, p ∈ LP1 <-> p ∈ LP2.
Proof.
  intros H1 H2 N1 N2 Hn H.
  assert (D : sorted_depth l1 = sorted_depth l2).
  { apply Nat.le_antisymm.
    - apply (sorted_depth_le LP2); eauto using leaf_preimages_range. nc_sub Hn.
    - apply (sorted_depth_le LP1); eauto using leaf_preimages_range. nc_sub Hn. }
  pose proof (sorted_rounds_aligned l1 l2 (sorted_depth l1)
    (leaf_preimages_range _ _ H1) (leaf_preimages_range _ _ H2)
    ltac:(nc_sub Hn) H ltac:(lia) ltac:(lia)) as G.
  rewrite <- D, Nat.sub_diag in G. cbn in G.
  destruct H1 as [-> _], H2 as [-> _].
  intros p. split; intros Hp.
  - assert (Hq : keccak256 p ∈ map keccak256 LP2)
      by (apply G, list_elem_of_fmap; eauto).
    apply list_elem_of_fmap in Hq as (q & Hq & Hin).
    assert (p = q) as -> by (apply Hn; [set_solver|set_solver|exact Hq]). exact Hin.
  - assert (Hq : keccak256 p ∈ map keccak256 LP1)
      by (apply G, list_elem_of_fmap; eauto).
    apply list_elem_of_fmap in Hq as (q & Hq & Hin).
    assert (p = q) as -> by (apply Hn; [set_solver|set_solver|exact Hq]). exact Hin.
Qed.
End SortedBinding.
