(* ===== verification/NativeKeccak.v ===== *)
(** * The guest's Keccak-256: risc0/methods/guest/src/native_keccak.rs

    The sponge that every [keccak256] of the proved program runs through, around the
    permutation of the RISC Zero accelerator, which is a parameter.  It refines the sponge of
    the Keccak specification, stated over a 200-byte state and the padded message; with the
    permutation of that specification it gives the known digests. *)

From S2P Require Import Prelude Types Abi.
Open Scope Z_scope.

(** [env::risc0_keccak_update] on the 25 lanes. *)
Class KeccakPermutation := keccak_f : list Z -> list Z.

Definition KECCAK256_RATE : nat := 136.

(** [u64::from_le_bytes], [u64::to_le_bytes]. *)
Definition from_le_bytes (b : bytes) : Z := of_be (rev b).
Definition to_le_bytes (x : Z) : bytes := rev (be_bytes 8 x).

(** [chunks_exact(n)]: the whole chunks, and the remainder. *)
Fixpoint whole_chunks (count n : nat) (b : bytes) : list bytes :=
  match count with
  | O => []
  | S count => take n b :: whole_chunks count n (drop n b)
  end.
Definition chunks_exact (n : nat) (b : bytes) : list bytes := whole_chunks (length b / n) n b.
Definition remainder (n : nat) (b : bytes) : bytes := drop (length b / n * n) b.

Section Sponge.
Context {KF : KeccakPermutation}.

Definition absorb_block (state : list Z) (block : bytes) : list Z :=
  let state := foldl (fun state '(lane, bytes) =>
    alter (fun x => Z.lxor x (from_le_bytes bytes)) (Z.to_nat lane) state)
    state (enumerate (chunks_exact 8 block)) in
  keccak_f state.

Definition final_block (rest : bytes) : bytes :=
  let block := rest ++ drop (length rest) (repeat 0 KECCAK256_RATE) in
  let block := alter (Z.lxor 0x01) (length rest) block in
  alter (Z.lxor 0x80) (KECCAK256_RATE - 1)%nat block.

Definition native_keccak256 (input : bytes) : bytes :=
  let state := foldl absorb_block (repeat 0 25%nat) (chunks_exact KECCAK256_RATE input) in
  let state := absorb_block state (final_block (remainder KECCAK256_RATE input)) in
  concat (map to_le_bytes (take 4 state)).
End Sponge.

(** * Properties *)

(** ** The specification: pad10*1 with the Keccak domain bit, a byte state *)
Definition keccak_padding (n : nat) : bytes :=
  let q := (KECCAK256_RATE - n mod KECCAK256_RATE)%nat in
  if (q =? 1)%nat then [0x81] else 0x01 :: repeat 0 (q - 2) ++ [0x80].
Definition lanes_of (state : bytes) : list Z := map from_le_bytes (chunks_exact 8 state).
Definition bytes_of (lanes : list Z) : bytes := concat (map to_le_bytes lanes).

Section Specification.
Context {KF : KeccakPermutation}.
Definition spec_absorb (state block : bytes) : bytes :=
  bytes_of (keccak_f (lanes_of (zip_with Z.lxor (take 136 state) block ++ drop 136 state))).
Definition spec_keccak256 (input : bytes) : bytes :=
  let padded := input ++ keccak_padding (length input) in
  take 32 (foldl spec_absorb (repeat 0 200) (chunks_exact KECCAK256_RATE padded)).
End Specification.

(** The permutation maps 25 lanes of 64 bits to 25 lanes of 64 bits. *)
Definition lanes_wf (lanes : list Z) : Prop := length lanes = 25%nat /\ Forall in_u64 lanes.
Class KeccakLanes {KF : KeccakPermutation} : Prop :=
  keccak_f_wf : forall lanes, lanes_wf lanes -> lanes_wf (keccak_f lanes).

(** ** Exclusive or of encoded integers *)
Lemma land_shifted x m a : 0 <= m -> 0 <= a < 2 ^ m -> Z.land (Z.shiftl x m) a = 0.
Proof.
  intros Hm Ha. apply Z.bits_inj'. intros i Hi. rewrite Z.land_spec, Z.bits_0.
  destruct (Z.lt_ge_cases i m).
  - rewrite Z.shiftl_spec_low by lia. reflexivity.
  - rewrite <- (Z.mod_small a (2 ^ m)), Z.mod_pow2_bits_high by lia. apply andb_false_r.
Qed.
Lemma lxor_bound a b m : 0 <= m -> 0 <= a < 2 ^ m -> 0 <= b < 2 ^ m -> 0 <= Z.lxor a b < 2 ^ m.
Proof.
  intros Hm Ha Hb. assert (H0 : 0 <= Z.lxor a b) by (apply Z.lxor_nonneg; lia).
  split; [exact H0|]. destruct (Z.eq_dec (Z.lxor a b) 0) as [->|Hne]; [apply Z.pow_pos_nonneg; lia|].
  assert (L : forall c, 0 <= c < 2 ^ m -> Z.log2 c < Z.max 1 m).
  { intros c Hc. destruct (Z.eq_dec c 0) as [->|]; [cbn; lia|].
    assert (Z.log2 c < m) by (apply Z.log2_lt_pow2; lia). lia. }
  assert (m <> 0).
  { intros ->. change (2 ^ 0) with 1 in *. apply Hne. replace a with 0 by lia. replace b with 0 by lia. reflexivity. }
  apply Z.log2_lt_pow2; [lia|]. pose proof (Z.log2_lxor a b ltac:(lia) ltac:(lia)).
  pose proof (L a Ha). pose proof (L b Hb). lia.
Qed.
Lemma lxor_byte x y : is_byte x -> is_byte y -> is_byte (Z.lxor x y).
Proof. unfold is_byte. apply (lxor_bound x y 8). lia. Qed.

Lemma of_be_cons x b : of_be (x :: b) = x * 256 ^ Z.of_nat (length b) + of_be b.
Proof. unfold of_be. cbn [of_be_acc]. rewrite of_be_acc_spec. reflexivity. Qed.

Lemma of_be_lxor a b :
  bytes_wf a -> bytes_wf b -> length a = length b ->
  of_be (zip_with Z.lxor a b) = Z.lxor (of_be a) (of_be b).
Proof.
  intros Wa. revert b. induction Wa as [|x a Hx Wa IH]; intros [|y b] Wb L; try discriminate;
    [reflexivity|]. inversion Wb as [|? ? Hy Wb']; subst. injection L as L.
  cbn [zip_with]. rewrite !of_be_cons, IH by assumption. rewrite length_zip_with, L, Nat.min_id.
  pose proof (of_be_bound a Wa) as Ba. pose proof (of_be_bound b Wb') as Bb. rewrite L in Ba.
  replace (256 ^ Z.of_nat (length b)) with (2 ^ (8 * Z.of_nat (length b))) in *
    by (rewrite Z.pow_mul_r by lia; reflexivity).
  set (m := 8 * Z.of_nat (length b)) in *. assert (Hm : 0 <= m) by lia.
  rewrite <- !Z.shiftl_mul_pow2 by lia.
  rewrite (Z.add_nocarry_lxor (Z.shiftl (Z.lxor x y) m)) by
    (apply land_shifted; [lia|apply lxor_bound; assumption]).
  rewrite (Z.add_nocarry_lxor (Z.shiftl x m)) by (apply land_shifted; [lia|exact Ba]).
  rewrite (Z.add_nocarry_lxor (Z.shiftl y m)) by (apply land_shifted; [lia|exact Bb]).
  rewrite Z.shiftl_lxor, !Z.lxor_assoc. f_equal.
  rewrite (Z.lxor_comm (of_be a)), (Z.lxor_comm (of_be a)), !Z.lxor_assoc. reflexivity.
Qed.

Lemma zip_with_rev {A B C} (f : A -> B -> C) l k :
  length l = length k -> zip_with f (rev l) (rev k) = rev (zip_with f l k).
Proof.
  revert k. induction l as [|x l IH]; intros [|y k] L; try discriminate; [reflexivity|].
  injection L as L. cbn [rev zip_with]. rewrite zip_with_app by (rewrite !length_rev; exact L).
  rewrite IH by exact L. reflexivity.
Qed.
Lemma from_le_lxor a b :
  bytes_wf a -> bytes_wf b -> length a = length b ->
  from_le_bytes (zip_with Z.lxor a b) = Z.lxor (from_le_bytes a) (from_le_bytes b).
Proof.
  intros Wa Wb L. unfold from_le_bytes. rewrite <- zip_with_rev by exact L.
  apply of_be_lxor; [apply Forall_rev, Wa|apply Forall_rev, Wb|rewrite !length_rev; exact L].
Qed.
Lemma from_to_le x : in_u64 x -> from_le_bytes (to_le_bytes x) = x.
Proof.
  intros H. unfold from_le_bytes, to_le_bytes. rewrite rev_involutive, of_be_be_bytes, pow256_8.
  apply Z.mod_small, H.
Qed.
Lemma length_to_le x : length (to_le_bytes x) = 8%nat.
Proof. unfold to_le_bytes. rewrite length_rev. apply length_be_bytes. Qed.
Lemma to_le_wf x : bytes_wf (to_le_bytes x).
Proof. apply Forall_rev, be_bytes_wf. Qed.
Lemma from_le_range b : bytes_wf b -> length b = 8%nat -> in_u64 (from_le_bytes b).
Proof.
  intros W L. unfold from_le_bytes. pose proof (of_be_bound (rev b) (Forall_rev W)) as B.
  rewrite length_rev, L in B. exact B.
Qed.

(** ** Chunks *)
Lemma whole_chunks_app count n b c :
  length b = (count * n)%nat ->
  forall more, whole_chunks (count + more) n (b ++ c) = whole_chunks count n b ++ whole_chunks more n c.
Proof.
  revert b. induction count as [|count IH]; intros b L more.
  - destruct b; [reflexivity|discriminate].
  - rewrite Nat.mul_succ_l in L. cbn [Nat.add whole_chunks app]. rewrite take_app_le, drop_app_le by lia.
    rewrite IH; [reflexivity|]. rewrite length_drop. lia.
Qed.
Lemma whole_chunks_take count n b :
  (count * n <= length b)%nat -> whole_chunks count n (take (count * n) b) = whole_chunks count n b.
Proof.
  revert b. induction count as [|count IH]; intros b L; [reflexivity|].
  rewrite Nat.mul_succ_l in *. cbn [whole_chunks]. rewrite take_take. f_equal; [f_equal; lia|].
  rewrite <- (IH (drop n b)) by (rewrite length_drop; lia). rewrite take_drop_commute. do 3 f_equal. lia.
Qed.
Lemma whole_chunks_all count n b :
  (count * n <= length b)%nat -> Forall (fun c => length c = n) (whole_chunks count n b).
Proof.
  revert b. induction count as [|count IH]; intros b L; cbn [whole_chunks]; constructor;
    rewrite Nat.mul_succ_l in L.
  - rewrite length_take. lia.
  - apply IH. rewrite length_drop. lia.
Qed.
Lemma whole_chunks_wf count n b : bytes_wf b -> Forall bytes_wf (whole_chunks count n b).
Proof.
  revert b. induction count as [|count IH]; intros b W; cbn [whole_chunks]; constructor.
  - apply Forall_take, W.
  - apply IH, Forall_drop, W.
Qed.
Lemma length_whole_chunks count n b : length (whole_chunks count n b) = count.
Proof. revert b. induction count as [|count IH]; intros b; cbn; auto. Qed.

(** ** Lanes and bytes *)
Lemma length_bytes_of lanes : length (bytes_of lanes) = (8 * length lanes)%nat.
Proof.
  unfold bytes_of. induction lanes as [|x l IH]; [reflexivity|]. cbn [map concat length].
  rewrite length_app, length_to_le, IH. lia.
Qed.
Lemma lanes_of_bytes lanes :
  Forall in_u64 lanes -> map from_le_bytes (whole_chunks (length lanes) 8 (bytes_of lanes)) = lanes.
Proof.
  induction 1 as [|x l Hx Hl IH]; [reflexivity|]. unfold bytes_of in *.
  cbn [length whole_chunks map concat].
  rewrite take_app_length', drop_app_length' by (symmetry; apply length_to_le).
  rewrite IH, from_to_le by exact Hx. reflexivity.
Qed.

Lemma lanes_absorbed lanes k block :
  Forall in_u64 lanes -> (k <= length lanes)%nat -> length block = (8 * k)%nat -> bytes_wf block ->
  map from_le_bytes (whole_chunks (length lanes) 8
    (zip_with Z.lxor (take (8 * k) (bytes_of lanes)) block ++ drop (8 * k) (bytes_of lanes)))
  = zip_with (fun x c => Z.lxor x (from_le_bytes c)) (take k lanes) (whole_chunks k 8 block)
    ++ drop k lanes.
Proof.
  intros Wl. revert k block. induction Wl as [|x l Hx Wl IH]; intros k block Hk L W.
  - assert (k = 0)%nat by (cbn in Hk; lia). subst k. reflexivity.
  - destruct k as [|k].
    + change (8 * 0)%nat with 0%nat. cbn [take drop zip_with app]. apply lanes_of_bytes. constructor; assumption.
    + cbn [length] in Hk. replace (8 * S k)%nat with (8 + 8 * k)%nat in * by lia.
      change (bytes_of (x :: l)) with (to_le_bytes x ++ bytes_of l).
      rewrite take_app_add', drop_app_add' by (symmetry; apply length_to_le).
      rewrite <- (take_drop 8 block) at 1.
      assert (L8 : length (take 8 block) = 8%nat) by (rewrite length_take; lia).
      rewrite zip_with_app by (rewrite L8; apply length_to_le). rewrite <- app_assoc.
      cbn [length whole_chunks map].
      assert (Lz : length (zip_with Z.lxor (to_le_bytes x) (take 8 block)) = 8%nat)
        by (rewrite length_zip_with, length_to_le, L8; reflexivity).
      rewrite take_app_length', drop_app_length' by (symmetry; exact Lz).
      rewrite IH by (lia || (rewrite length_drop; lia) || apply Forall_drop, W).
      cbn [take drop zip_with app]. f_equal.
      rewrite from_le_lxor by (apply to_le_wf || apply Forall_take, W || (rewrite L8; apply length_to_le)).
      rewrite from_to_le by exact Hx. reflexivity.
Qed.

Lemma alter_lanes chunks done lanes :
  (length chunks <= length lanes)%nat ->
  foldl (fun state '(lane, bytes) =>
    alter (fun x => Z.lxor x (from_le_bytes bytes)) (Z.to_nat lane) state)
    (done ++ lanes) (enumerate_from (Z.of_nat (length done)) chunks)
  = done ++ zip_with (fun x c => Z.lxor x (from_le_bytes c)) (take (length chunks) lanes) chunks
    ++ drop (length chunks) lanes.
Proof.
  revert done lanes. induction chunks as [|c chunks IH]; intros done lanes L; [reflexivity|].
  destruct lanes as [|x lanes]; [cbn in L; lia|]. cbn [enumerate_from foldl length take drop zip_with].
  rewrite Nat2Z.id.
  assert (E : alter (fun x => Z.lxor x (from_le_bytes c)) (length done) (done ++ x :: lanes)
              = (done ++ [Z.lxor x (from_le_bytes c)]) ++ lanes).
  { rewrite <- app_assoc. cbn [app]. rewrite <- (Nat.add_0_r (length done)). rewrite alter_app_r.
    reflexivity. }
  rewrite E. replace (Z.of_nat (length done) + 1) with (Z.of_nat (length (done ++ [Z.lxor x (from_le_bytes c)])))
    by (rewrite length_app; cbn [length]; lia).
  rewrite IH by (cbn in L; lia). rewrite <- app_assoc. reflexivity.
Qed.

(** ** The sponge refines the specification *)
Section Refinement.
Context {KF : KeccakPermutation} {KL : KeccakLanes}.

Lemma absorb_refines lanes block :
  lanes_wf lanes -> length block = 136%nat -> bytes_wf block ->
  lanes_wf (absorb_block lanes block)
  /\ bytes_of (absorb_block lanes block) = spec_absorb (bytes_of lanes) block.
Proof.
  intros [Ll Wl] L W. unfold absorb_block, chunks_exact, enumerate. rewrite L.
  change (136 / 8)%nat with 17%nat.
  pose proof (alter_lanes (whole_chunks 17 8 block) [] lanes) as A. cbn [length app] in A.
  change (Z.of_nat 0) with 0 in A. rewrite A; rewrite !length_whole_chunks; [|lia]. clear A.
  assert (E : lanes_of (zip_with Z.lxor (take 136 (bytes_of lanes)) block ++ drop 136 (bytes_of lanes))
              = zip_with (fun x c => Z.lxor x (from_le_bytes c)) (take 17 lanes) (whole_chunks 17 8 block)
                ++ drop 17 lanes).
  { unfold lanes_of, chunks_exact.
    assert (Lb : length (bytes_of lanes) = 200%nat) by (rewrite length_bytes_of; lia).
    rewrite length_app, length_zip_with, length_take, length_drop, Lb, L.
    replace ((136 `min` 200) `min` 136 + (200 - 136))%nat with 200%nat by reflexivity.
    change (200 / 8)%nat with 25%nat.
    pose proof (lanes_absorbed lanes 17 block Wl ltac:(lia) L W) as Q. rewrite Ll in Q. exact Q. }
  unfold spec_absorb. rewrite E. split; [|reflexivity]. apply keccak_f_wf. split.
  - rewrite length_app, length_zip_with, length_take, length_drop, length_whole_chunks, Ll. reflexivity.
  - apply Forall_app. split; [|apply Forall_drop, Wl].
    pose proof (whole_chunks_all 17 8 block ltac:(lia)) as C1. pose proof (whole_chunks_wf 17 8 block W) as C2.
    apply (Forall_take _ 17) in Wl. revert C1 C2 Wl. generalize (whole_chunks 17 8 block), (take 17 lanes).
    intros cs ls C1. revert ls. induction C1 as [|c cs Hc C1 IH]; intros [|x ls] C2 Wl; cbn [zip_with];
      constructor; inversion C2; inversion Wl; subst; [|auto].
    apply (lxor_bound _ _ 64); [lia|assumption|]. apply from_le_range; assumption.
Qed.

Lemma absorb_all blocks lanes :
  lanes_wf lanes -> Forall (fun b => length b = 136%nat /\ bytes_wf b) blocks ->
  lanes_wf (foldl absorb_block lanes blocks)
  /\ bytes_of (foldl absorb_block lanes blocks) = foldl spec_absorb (bytes_of lanes) blocks.
Proof.
  revert lanes. induction blocks as [|b blocks IH]; intros lanes W F; [auto|].
  inversion F as [|? ? [L Wb] F']; subst. cbn [foldl].
  destruct (absorb_refines lanes b W L Wb) as [W' E]. rewrite <- E. apply IH; assumption.
Qed.

(** The last block is the remainder and the padding. *)
Lemma final_block_padding rest n :
  (n mod KECCAK256_RATE = length rest)%nat -> final_block rest = rest ++ keccak_padding n.
Proof.
  intros Hn. unfold keccak_padding. rewrite Hn.
  assert (B : (length rest < 136)%nat) by (rewrite <- Hn; apply Nat.mod_upper_bound; discriminate).
  unfold final_block, KECCAK256_RATE.
  assert (D : drop (length rest) (repeat 0 136) = repeat 0 (136 - length rest)).
  { replace 136%nat with (length rest + (136 - length rest))%nat at 1 by lia.
    rewrite repeat_app, drop_app_length' by (symmetry; apply repeat_length). reflexivity. }
  rewrite D. destruct (Nat.eqb_spec (136 - length rest) 1) as [E|E].
  - rewrite E. rewrite <- (Nat.add_0_r (length rest)) at 1. rewrite alter_app_r.
    replace (136 - 1)%nat with (length rest + 0)%nat by lia. rewrite alter_app_r. reflexivity.
  - replace (136 - length rest)%nat with (S (S (136 - length rest - 2))) at 1 by lia.
    rewrite <- (Nat.add_0_r (length rest)) at 1. rewrite alter_app_r.
    replace (136 - 1)%nat with (length rest + S (136 - length rest - 2))%nat by lia.
    rewrite alter_app_r. f_equal. cbn [repeat]. change (Z.lxor 1 0) with 1.
    set (k := (136 - length rest - 2)%nat). clearbody k. cbn. f_equal.
    change (0 :: repeat 0 k) with (repeat 0 (S k)). clear.
    induction k as [|k IH]; [reflexivity|]. cbn in *. f_equal. exact IH.
Qed.
Lemma keccak_padding_wf n : bytes_wf (keccak_padding n).
Proof.
  unfold keccak_padding. destruct (_ =? 1)%nat; repeat constructor; try (unfold is_byte; lia).
  apply Forall_app. split; [|repeat constructor; unfold is_byte; lia].
  apply Forall_forall. intros x Hx. apply list_elem_of_In, repeat_spec in Hx as ->. unfold is_byte. lia.
Qed.
Lemma length_keccak_padding n :
  length (keccak_padding n) = (KECCAK256_RATE - n mod KECCAK256_RATE)%nat.
Proof.
  unfold keccak_padding. pose proof (Nat.mod_upper_bound n KECCAK256_RATE ltac:(discriminate)) as B.
  destruct (Nat.eqb_spec (KECCAK256_RATE - n mod KECCAK256_RATE) 1) as [E|E]; [rewrite E; reflexivity|].
  cbn [length]. rewrite length_app, repeat_length. cbn [length]. lia.
Qed.

Lemma length_remainder n b : n <> O -> length (remainder n b) = (length b mod n)%nat.
Proof.
  intros Hn. unfold remainder. rewrite length_drop. rewrite Nat.Div0.mod_eq. lia.
Qed.

Lemma padded_blocks input :
  chunks_exact KECCAK256_RATE (input ++ keccak_padding (length input))
  = chunks_exact KECCAK256_RATE input ++ [final_block (remainder KECCAK256_RATE input)].
Proof.
  assert (Hr : KECCAK256_RATE <> O) by discriminate.
  rewrite (final_block_padding _ (length input)) by (symmetry; apply length_remainder, Hr).
  pose proof (Nat.div_mod (length input) KECCAK256_RATE Hr) as Dm.
  pose proof (Nat.mod_upper_bound (length input) KECCAK256_RATE Hr) as Bm.
  pose proof (length_keccak_padding (length input)) as Lp.
  unfold chunks_exact, remainder. rewrite length_app, Lp.
  revert Hr Dm Bm Lp. generalize KECCAK256_RATE, (keccak_padding (length input)).
  intros r padding Hr Dm Bm Lp.
  set (k := (length input / r)%nat) in *. set (m := (length input mod r)%nat) in *.
  replace (length input + (r - m))%nat with ((k + 1) * r)%nat by lia.
  rewrite Nat.div_mul by exact Hr.
  assert (Lt : length (take (k * r) input) = (k * r)%nat) by (rewrite length_take; lia).
  rewrite <- (take_drop (k * r) input) at 1. rewrite <- app_assoc.
  rewrite (whole_chunks_app k r _ _ Lt 1), whole_chunks_take by lia. f_equal.
  cbn [whole_chunks]. f_equal. apply take_ge. rewrite length_app, length_drop. lia.
Qed.

Lemma take_bytes_of k lanes : take (8 * k) (bytes_of lanes) = bytes_of (take k lanes).
Proof.
  revert k. induction lanes as [|x l IH]; intros k; [destruct k; reflexivity|].
  destruct k as [|k]; [reflexivity|]. replace (8 * S k)%nat with (8 + 8 * k)%nat by lia.
  change (bytes_of (x :: l)) with (to_le_bytes x ++ bytes_of l).
  rewrite take_app_add' by (symmetry; apply length_to_le). rewrite IH. reflexivity.
Qed.

Lemma lanes_zero : lanes_wf (repeat 0 25).
Proof. split; [reflexivity|]. refine (bool_decide_unpack _ _). vm_compute. exact I. Qed.

Lemma native_refines input :
  bytes_wf input ->
  native_keccak256 input = spec_keccak256 input /\ array_wf 32 (native_keccak256 input).
Proof.
  intros W. unfold native_keccak256, spec_keccak256. cbv zeta. rewrite padded_blocks.
  set (blocks := chunks_exact KECCAK256_RATE input).
  set (last := final_block (remainder KECCAK256_RATE input)).
  assert (F : Forall (fun b => length b = 136%nat /\ bytes_wf b) (blocks ++ [last])).
  { apply Forall_and. unfold blocks, last. rewrite <- padded_blocks. unfold chunks_exact. split.
    - apply whole_chunks_all. rewrite Nat.mul_comm. apply Nat.Div0.mul_div_le.
    - apply whole_chunks_wf, Forall_app. split; [exact W|apply keccak_padding_wf]. }
  destruct (absorb_all _ _ lanes_zero F) as [Wl E]. rewrite foldl_snoc in Wl, E.
  change (repeat 0 200) with (bytes_of (repeat 0 25)). rewrite <- E.
  change 32%nat with (8 * 4)%nat. rewrite take_bytes_of. split; [reflexivity|].
  fold (bytes_of (take 4 (absorb_block (foldl absorb_block (repeat 0 25%nat) blocks) last))).
  split.
  - unfold zlen. rewrite length_bytes_of, length_take, (proj1 Wl). reflexivity.
  - unfold bytes_wf, bytes_of. apply Forall_concat, Forall_fmap, Forall_forall. intros x _. apply to_le_wf.
Qed.
End Refinement.

(** C35: the guest's sponge is Keccak-256: for every message, including those whose length is a
    multiple of the rate and those one byte short of it, absorbing whole blocks and one last
    block of the remainder into 64-bit lanes gives the specification's digest of the padded
    message over a byte state; it is 32 bytes long. *)
Theorem native_keccak256_exact {KF : KeccakPermutation} {KL : KeccakLanes} input :
  bytes_wf input ->
  native_keccak256 input = spec_keccak256 input /\ array_wf 32 (native_keccak256 input).
Proof. apply native_refines. Qed.

(** ** The permutation of the specification, Keccak-f[1600] *)
Definition round_constants : list Z :=
  [0x1; 0x8082; 0x800000000000808a; 0x8000000080008000;
   0x808b; 0x80000001; 0x8000000080008081; 0x8000000000008009;
   0x8a; 0x88; 0x80008009; 0x8000000a;
   0x8000808b; 0x800000000000008b; 0x8000000000008089; 0x8000000000008003;
   0x8000000000008002; 0x8000000000000080; 0x800a; 0x800000008000000a;
   0x8000000080008081; 0x8000000000008080; 0x80000001; 0x8000000080008008].
Definition rotations : list Z := [0; 1; 62; 28; 27; 36; 44; 6; 55; 20; 3; 10; 43; 25; 39; 41; 45; 15; 21; 8; 18; 2; 61; 56; 14].
Definition rotate (x n : Z) : Z := Z.lor (Z.shiftl x n mod 2 ^ 64) (Z.shiftr x (64 - n)).
Definition indices : list nat := seq 0 25.

Definition keccak_round (state : list Z) (constant : Z) : list Z :=
  let lane i := nth i state 0 in
  let columns := map (fun x => foldl Z.lxor (lane x) [lane (x + 5); lane (x + 10); lane (x + 15);
                                             lane (x + 20)]%nat) (seq 0 5) in
  let column x := nth (x mod 5) columns 0 in
  let mixed := map (fun i => Z.lxor (lane i)
    (Z.lxor (column (i + 4)%nat) (rotate (column (i + 1)%nat) 1))) indices in
  let moved := map (fun i =>
    let source := ((i mod 5 + 3 * (i / 5)) mod 5 + 5 * (i mod 5))%nat in
    rotate (nth source mixed 0) (nth source rotations 0)) indices in
  let row i k := nth ((i mod 5 + k) mod 5 + 5 * (i / 5))%nat moved 0 in
  map (fun i => Z.lxor (Z.lxor (row i 0%nat) (Z.land (Z.lxor (row i 1%nat) (2 ^ 64 - 1)) (row i 2%nat)))
    (if (i =? 0)%nat then constant else 0) mod 2 ^ 64) indices.

Definition keccak_f1600 : KeccakPermutation := fun state => foldl keccak_round state round_constants.

Lemma keccak_round_wf state constant : lanes_wf (keccak_round state constant).
Proof.
  unfold keccak_round. cbv zeta. split; [rewrite length_map; reflexivity|].
  apply Forall_fmap, Forall_forall. intros i _. apply Z.mod_pos_bound. lia.
Qed.
Lemma keccak_f1600_lanes : @KeccakLanes keccak_f1600.
Proof.
  intros lanes _. unfold keccak_f, keccak_f1600.
  replace round_constants with (removelast round_constants ++ [0x8000000080008008]) by reflexivity.
  rewrite foldl_snoc. apply keccak_round_wf.
Qed.

(** The known digest of the empty message. *)
Definition empty_digest : Z := 0xc5d2460186f7233c927e7db2dcc703c0e500b653ca82273b7bfad8045d85a470.
Lemma empty_digest_computed : of_be (@native_keccak256 keccak_f1600 []) = empty_digest.
Proof. vm_compute. reflexivity. Qed.
Lemma native_keccak256_exact_witness : of_be (@spec_keccak256 keccak_f1600 []) = empty_digest.
Proof.
  rewrite <- (proj1 (@native_keccak256_exact keccak_f1600 keccak_f1600_lanes [] (Forall_nil_2 _))).
  exact empty_digest_computed.
Defined.
