(* ===== verification/HashV5.v ===== *)
(** * Commitments of the long-lived (v5/v6) rooms: stf-types/src/v5/hash.rs

    Every function is the source's, with the hashed preimage given a name of
    its own so that the binding theorems can speak about it. *)

From S2P Require Import Prelude Types Abi Merkle.
Open Scope Z_scope.

Section Commitments.
Context {KK : Keccak}.

(** [abi.encode(journal)]: the 52 words of [hash_batch_journal_v5]. *)
Definition batch_journal_words_v5 (journal : BatchJournalV5) : list bytes :=
  [ abi_u64_word_v5 (bj5_protocol_version journal);
    b256_word (bj5_deployment_domain journal);
    abi_u64_word_v5 (bj5_room_id journal);
    abi_u64_word_v5 (bj5_authorization_mode journal);
    b256_word (bj5_cold_template_id journal);
    b256_word (bj5_proof_program_id journal);
    b256_word (bj5_proof_system_version journal);
    b256_word (bj5_policy_hash journal);
    abi_u64_word_v5 (bj5_batch_index journal);
    abi_u64_word_v5 (bj5_start_l2_block journal);
    abi_u64_word_v5 (bj5_end_l2_block journal);
    b256_word (bj5_pre_state_root journal);
    b256_word (bj5_post_state_root journal);
    b256_word (bj5_batch_data_hash journal);
    b256_word (bj5_canonical_data_hash journal);
    b256_word (bj5_pre_participant_root journal);
    b256_word (bj5_post_participant_root journal);
    abi_u64_word_v5 (bj5_pre_participant_epoch journal);
    abi_u64_word_v5 (bj5_post_participant_epoch journal);
    abi_u64_word_v5 (bj5_pre_participant_count journal);
    abi_u64_word_v5 (bj5_post_participant_count journal);
    abi_u64_word_v5 (bj5_participant_capacity journal);
    b256_word (bj5_pre_roster_root journal);
    b256_word (bj5_post_roster_root journal);
    abi_u64_word_v5 (bj5_pre_roster_epoch journal);
    abi_u64_word_v5 (bj5_post_roster_epoch journal);
    abi_u64_word_v5 (bj5_pre_active_count journal);
    abi_u64_word_v5 (bj5_post_active_count journal);
    abi_u64_word_v5 (bj5_roster_change_cursor_before journal);
    abi_u64_word_v5 (bj5_roster_change_cursor_after journal);
    abi_u64_word_v5 (bj5_inbox_cursor_before journal);
    abi_u64_word_v5 (bj5_inbox_cursor_after journal);
    b256_word (bj5_inbox_records_hash journal);
    abi_u64_word_v5 (bj5_admission_cursor_before journal);
    abi_u64_word_v5 (bj5_admission_cursor_after journal);
    b256_word (bj5_admission_records_hash journal);
    abi_u64_word_v5 (bj5_forced_cursor_before journal);
    abi_u64_word_v5 (bj5_forced_cursor_after journal);
    b256_word (bj5_forced_outcomes_hash journal);
    abi_u64_word_v5 (bj5_import_cursor_before journal);
    abi_u64_word_v5 (bj5_import_cursor_after journal);
    abi_u64_word_v5 (bj5_imported_l1_block journal);
    b256_word (bj5_imported_l1_header_hash journal);
    b256_word (bj5_imported_l1_state_root journal);
    b256_word (bj5_import_root journal);
    abi_u64_word_v5 (bj5_outbox_epoch journal);
    b256_word (bj5_withdrawal_root journal);
    b256_word (bj5_pre_liabilities_hash journal);
    b256_word (bj5_post_liabilities_hash journal);
    b256_word (bj5_roster_changes_hash journal);
    abi_u64_word_v5 (bj5_l1_inclusion_deadline journal);
    abi_bool_word_v5 (bj5_close journal) ].

Definition hash_batch_journal_v5 (journal : BatchJournalV5) : Z :=
  keccak_words_v5 (batch_journal_words_v5 journal).

Definition cold_template_id_v5
    (initial_state_root policy_hash proof_system_version : Z) : Z :=
  keccak256 (b256_bytes (keccak256 (b_ "zkdeal/cold-template-id/v5"))
             ++ b256_bytes initial_state_root ++ b256_bytes policy_hash
             ++ b256_bytes proof_system_version).

(** [Vec::resize(n, 0)]. *)
Definition resize (n : nat) (l : bytes) : bytes :=
  take n l ++ repeat 0 (n - length l).

Definition cold_template_statement_v6 (input : ColdTemplateInputV5)
    (genesis_data_hash : Z) : Z :=
  let label := b_ "zkdeal/cold-template/v6" in
  keccak256 (resize (32 * 9)
    (abi_u64_word_v5 (32 * 7) ++ b256_bytes (cti_template_id input)
     ++ b256_bytes (cti_initial_state_root input)
     ++ b256_bytes (cti_policy_hash input)
     ++ b256_bytes (cti_proof_program_id input)
     ++ b256_bytes (cti_proof_system_version input)
     ++ b256_bytes genesis_data_hash
     ++ abi_u64_word_v5 (zlen label) ++ label)).

(** ** Positional trees

    [roster_root_v5] and [withdrawal_root_v5] share this loop: every item
    must have an index inside the capacity, pass its own check and follow
    the previous index strictly; its leaf is then written at its index. *)
Definition fill_leaf {A} (idx leaf : A -> Z) (bad : A -> bool) (capacity : Z)
    (s : option Z * list Z) (item : A) : result unit (option Z * list Z) :=
  let '(previous, leaves) := s in
  fail_if (capacity <=? idx item) || bad item || not_after previous (idx item)
    with tt in
  Ok (Some (idx item), <[Z.to_nat (idx item) := leaf item]> leaves).

Definition positional_root {A} (idx leaf : A -> Z) (bad : A -> bool)
    (capacity : Z) (items : list A) : option Z :=
  match for_each (fill_leaf idx leaf bad capacity)
                 (None, replicate (Z.to_nat capacity) B256_ZERO) items with
  | Ok (_, leaves) => last (positional_tree leaves)
  | Err _ => None
  end.

Definition roster_leaf_words (member : RosterMemberV5) : list bytes :=
  [ abi_u64_word_v5 (rm_index member);
    abi_address_word_v5 (rm_member member);
    abi_u64_word_v5 (rm_joined_epoch member) ].
Definition roster_leaf_v5 (member : RosterMemberV5) : Z :=
  keccak_words_v5 (roster_leaf_words member).
Definition roster_member_bad (member : RosterMemberV5) : bool :=
  (rm_member member =? Address_ZERO) || (rm_joined_epoch member =? 0).

Definition roster_root_v5 (members : list RosterMemberV5) (capacity : Z)
  : option Z :=
  if (capacity =? 0) || negb (is_power_of_two capacity)
     || (MAX_POSITIONAL_CAPACITY_V5 <? capacity)
  then None
  else positional_root rm_index roster_leaf_v5 roster_member_bad capacity members.

Definition roster_change_hash_v5 (change : RosterChangeV5) : Z :=
  keccak_words_v5
    [ abi_u64_word_v5 (rc_request_id change);
      abi_u64_word_v5 (rc_action change);
      abi_u64_word_v5 (rc_index change);
      abi_u64_word_v5 (rc_joined_epoch change);
      abi_u64_word_v5 (rc_deadline change);
      abi_address_word_v5 (rc_member change);
      b256_word (rc_withdrawal_commitment change) ].

(** [abi.encode(bytes32[])] of item hashes: offset, length, items. *)
Definition abi_list_words (hashes : list Z) : list bytes :=
  abi_u64_word_v5 32 :: abi_u64_word_v5 (zlen hashes) :: map b256_word hashes.

Definition roster_changes_hash_v5 (changes : list RosterChangeV5) : Z :=
  keccak_words_v5 (abi_list_words (map roster_change_hash_v5 changes)).

Definition admission_record_hash_v5 (record : AdmissionRecordV5) : Z :=
  let receipt := are_receipt record in
  let outcome := are_outcome record in
  keccak_words_v5
    [ abi_u64_word_v5 (arc_admission_id receipt);
      b256_word (arc_transaction_hash receipt);
      abi_u64_word_v5 (arc_deposit_inbox_id receipt);
      b256_word (arc_deposit_content_hash receipt);
      abi_u64_word_v5 (arc_deadline_block receipt);
      abi_u64_word_v5 (arc_maximum_batch_index receipt);
      abi_u64_word_v5 (arc_bond_epoch receipt);
      abi_u256_word_v5 (arc_admission_fee receipt);
      b256_word (keccak256 (arc_signature receipt));
      abi_u64_word_v5 (aoc_admission_id outcome);
      b256_word (aoc_transaction_hash outcome);
      abi_u64_word_v5 (aoc_status outcome);
      abi_u64_word_v5 (aoc_l2_block_number outcome);
      abi_u64_word_v5 (aoc_transaction_index outcome);
      b256_word (aoc_reason_hash outcome) ].

Definition deposit_content_words (deposit : DepositV5) : list bytes :=
  [ abi_address_word_v5 (dp_depositor deposit);
    abi_address_word_v5 (dp_beneficiary deposit);
    abi_address_word_v5 (dp_asset deposit);
    abi_u256_word_v5 (dp_amount deposit) ].
Definition deposit_content_hash_v5 (deposit : DepositV5) : Z :=
  keccak_words_v5 (deposit_content_words deposit).

Definition inbox_record_words (deposit : DepositV5) : list bytes :=
  [ abi_u64_word_v5 (dp_inbox_id deposit);
    b256_word (deposit_content_hash_v5 deposit);
    abi_u64_word_v5 (dp_queued_at_block deposit);
    abi_bool_word_v5 (dp_consumed deposit);
    abi_bool_word_v5 (dp_refunded deposit) ].
Definition inbox_record_hash_v5 (deposit : DepositV5) : Z :=
  keccak_words_v5 (inbox_record_words deposit).

Definition inbox_records_hash_v5 (deposits : list DepositV5) : Z :=
  keccak_words_v5 (abi_list_words (map inbox_record_hash_v5 deposits)).

Definition admission_records_hash_v5 (records : list AdmissionRecordV5) : Z :=
  keccak_words_v5 (abi_list_words (map admission_record_hash_v5 records)).

Definition forced_outcome_hash_v5 (forced : ForcedTransactionV5) : Z :=
  let outcome := ftx_outcome forced in
  keccak_words_v5
    [ abi_u64_word_v5 (ftx_forced_id forced);
      b256_word (keccak256 (ftx_raw_transaction forced));
      abi_u64_word_v5 (aoc_status outcome);
      abi_u64_word_v5 (aoc_l2_block_number outcome);
      abi_u64_word_v5 (aoc_transaction_index outcome);
      b256_word (aoc_reason_hash outcome) ].

Definition forced_outcomes_hash_v5 (forced : list ForcedTransactionV5) : Z :=
  keccak_words_v5 (abi_list_words (map forced_outcome_hash_v5 forced)).

Definition FORCED_REJECTION_UNDECODABLE_V5 : Z := 1.
Definition FORCED_REJECTION_POLICY_V5 : Z := 2.
Definition FORCED_REJECTION_SENDER_V5 : Z := 3.

Definition forced_rejection_reason_hash_v5 (transaction_hash reason : Z) : Z :=
  keccak_words_v5
    [ b256_word (keccak256 (b_ "zkdeal/forced-rejection/v5"));
      b256_word transaction_hash;
      abi_u64_word_v5 reason ].

Definition liability_words (value : AssetLiabilityV5) : list bytes :=
  [ abi_address_word_v5 (al_asset value);
    abi_u256_word_v5 (al_pending value);
    abi_u256_word_v5 (al_controlled value);
    abi_u256_word_v5 (al_claimable value);
    abi_u256_word_v5 (al_paid value) ].
Definition liabilities_words (values : list AssetLiabilityV5) : list bytes :=
  abi_u64_word_v5 32 :: abi_u64_word_v5 (zlen values)
    :: concat (map liability_words values).
Definition liabilities_hash_v5 (values : list AssetLiabilityV5) : Z :=
  keccak_words_v5 (liabilities_words values).

Definition withdrawal_leaf_words (deployment_domain room_id outbox_epoch : Z)
    (withdrawal : WithdrawalV5) : list bytes :=
  [ b256_word deployment_domain;
    abi_u64_word_v5 room_id;
    abi_u64_word_v5 outbox_epoch;
    abi_u64_word_v5 (wd_index withdrawal);
    abi_u64_word_v5 (wd_roster_epoch withdrawal);
    abi_address_word_v5 (wd_recipient withdrawal);
    abi_address_word_v5 (wd_asset withdrawal);
    abi_u256_word_v5 (wd_amount withdrawal) ].
Definition withdrawal_leaf_v5 (deployment_domain room_id outbox_epoch : Z)
    (withdrawal : WithdrawalV5) : Z :=
  keccak_words_v5
    (withdrawal_leaf_words deployment_domain room_id outbox_epoch withdrawal).
Definition withdrawal_bad (withdrawal : WithdrawalV5) : bool :=
  (wd_recipient withdrawal =? Address_ZERO) || (wd_amount withdrawal =? 0).

Definition withdrawal_root_v5 (deployment_domain room_id outbox_epoch : Z)
    (withdrawals : list WithdrawalV5) (capacity : Z) : option Z :=
  match withdrawals with
  | [] => Some B256_ZERO
  | _ =>
      if (capacity =? 0) || negb (is_power_of_two capacity)
         || (MAX_WITHDRAWAL_CAPACITY_V5 <? capacity)
      then None
      else positional_root wd_index
             (withdrawal_leaf_v5 deployment_domain room_id outbox_epoch)
             withdrawal_bad capacity withdrawals
  end.

(** ** L1 imports *)
Definition storage_keys_root_v5 (keys : list Z) : Z :=
  keccak256 (b_ "zkdeal/l1-storage-keys/v5" ++ concat (map (be_bytes 32) keys)).

Definition import_payload_commitment_v5 (storage : list L1StorageSlotV5) : Z :=
  keccak256 (b_ "zkdeal/l1-storage-values/v5"
    ++ concat (map (fun slot => be_bytes 32 (lss_key slot)
                                ++ be_bytes 32 (lss_value slot)) storage)).

Definition import_policy_leaf_v5 (chain_id : Z) (import : L1ImportWitnessV5) : Z :=
  keccak_words_v5
    [ abi_u64_word_v5 chain_id;
      abi_address_word_v5 (liw_source import);
      b256_word (liw_source_code_hash import);
      b256_word (liw_storage_keys_root import);
      b256_word (liw_adapter_id import);
      b256_word (liw_adapter_version import) ].

Definition import_root_v5 (room_id chain_id : Z) (import : L1ImportWitnessV5) : Z :=
  keccak_words_v5
    [ abi_u64_word_v5 room_id;
      abi_u64_word_v5 (liw_source_block import);
      b256_word (liw_header_hash import);
      b256_word (liw_state_root import);
      b256_word (import_policy_leaf_v5 chain_id import);
      b256_word (import_payload_commitment_v5 (liw_storage import));
      abi_u64_word_v5 (liw_expiry_block import) ].

(** ** Execution policy *)
Definition u64_bytes (v : Z) : bytes := be_bytes 8 v.
Definition u256_bytes (v : Z) : bytes := be_bytes 32 v.
Definition bool_byte (b : bool) : bytes := [bool_u64 b].

Definition code_commitment_bytes (code : CodeCommitmentV5) : bytes :=
  address_bytes (cc_address code) ++ b256_bytes (cc_runtime_code_hash code).
Definition call_rule_bytes (call : CallRuleV5) : bytes :=
  address_bytes (clr_caller call) ++ address_bytes (clr_target call)
  ++ u64_bytes (zlen (clr_selectors call)) ++ concat (clr_selectors call)
  ++ u64_bytes (zlen (clr_kinds call)) ++ clr_kinds call.
Definition storage_namespace_bytes (namespace : StorageNamespaceV5) : bytes :=
  address_bytes (sns_contract namespace) ++ u256_bytes (sns_slot_prefix namespace)
  ++ be_bytes 2 (sns_prefix_bits namespace) ++ bool_byte (sns_writable namespace).
Definition import_binding_bytes (binding : CertifiedImportBindingV5) : bytes :=
  b256_bytes (cib_adapter_id binding) ++ b256_bytes (cib_adapter_version binding)
  ++ address_bytes (cib_source binding) ++ u256_bytes (cib_source_key binding)
  ++ address_bytes (cib_room_contract binding) ++ u256_bytes (cib_room_slot binding).
Definition participant_registry_bytes (registry : option ParticipantRegistryBindingV5)
  : bytes :=
  match registry with
  | Some binding =>
      [1] ++ address_bytes (prb_contract binding) ++ u256_bytes (prb_root_slot binding)
      ++ u256_bytes (prb_epoch_slot binding) ++ u256_bytes (prb_count_slot binding)
      ++ u256_bytes (prb_capacity_slot binding)
  | None => [0]
  end.
Definition exit_asset_bytes (asset : ExitAssetBindingV5) : bytes :=
  address_bytes (eab_asset asset) ++ [eab_kind asset]
  ++ address_bytes (eab_token asset) ++ u256_bytes (eab_balance_slot asset).
Definition exit_binding_bytes (exit : option ExitBindingV5) : bytes :=
  match exit with
  | Some exit =>
      [1] ++ address_bytes (eb_queue_contract exit) ++ u256_bytes (eb_count_slot exit)
      ++ u256_bytes (eb_records_base_slot exit)
      ++ u64_bytes (zlen (eb_assets exit))
      ++ concat (map exit_asset_bytes (eb_assets exit))
      ++ address_bytes (eb_fallback_recipient exit)
  | None => []
  end.

Definition execution_policy_bytes (policy : ExecutionPolicyV5) : bytes :=
  b_ "zkdeal/execution-policy/v5"
  ++ [ep5_state_commitment policy]
  ++ u64_bytes (ep5_max_blocks_per_batch policy)
  ++ u64_bytes (ep5_max_transactions_per_block policy)
  ++ u64_bytes (ep5_max_gas_per_block policy)
  ++ u64_bytes (ep5_max_memory_bytes policy)
  ++ bool_byte (ep5_allow_contract_creation policy)
  ++ bool_byte (ep5_allow_self_destruct policy)
  ++ u64_bytes (zlen (ep5_code policy))
  ++ concat (map code_commitment_bytes (ep5_code policy))
  ++ u64_bytes (zlen (ep5_calls policy))
  ++ concat (map call_rule_bytes (ep5_calls policy))
  ++ u64_bytes (zlen (ep5_storage policy))
  ++ concat (map storage_namespace_bytes (ep5_storage policy))
  ++ u64_bytes (zlen (ep5_imports policy))
  ++ concat (map import_binding_bytes (ep5_imports policy))
  ++ participant_registry_bytes (ep5_participant_registry policy)
  ++ exit_binding_bytes (ep5_exit policy).

Definition execution_policy_hash_v5 (policy : ExecutionPolicyV5) : Z :=
  keccak256 (execution_policy_bytes policy).
End Commitments.

(** ** The journal hash binds every field *)
Definition batch_journal_values_v5 (journal : BatchJournalV5) : list Z :=
  [ bj5_protocol_version journal;
    bj5_deployment_domain journal;
    bj5_room_id journal;
    bj5_authorization_mode journal;
    bj5_cold_template_id journal;
    bj5_proof_program_id journal;
    bj5_proof_system_version journal;
    bj5_policy_hash journal;
    bj5_batch_index journal;
    bj5_start_l2_block journal;
    bj5_end_l2_block journal;
    bj5_pre_state_root journal;
    bj5_post_state_root journal;
    bj5_batch_data_hash journal;
    bj5_canonical_data_hash journal;
    bj5_pre_participant_root journal;
    bj5_post_participant_root journal;
    bj5_pre_participant_epoch journal;
    bj5_post_participant_epoch journal;
    bj5_pre_participant_count journal;
    bj5_post_participant_count journal;
    bj5_participant_capacity journal;
    bj5_pre_roster_root journal;
    bj5_post_roster_root journal;
    bj5_pre_roster_epoch journal;
    bj5_post_roster_epoch journal;
    bj5_pre_active_count journal;
    bj5_post_active_count journal;
    bj5_roster_change_cursor_before journal;
    bj5_roster_change_cursor_after journal;
    bj5_inbox_cursor_before journal;
    bj5_inbox_cursor_after journal;
    bj5_inbox_records_hash journal;
    bj5_admission_cursor_before journal;
    bj5_admission_cursor_after journal;
    bj5_admission_records_hash journal;
    bj5_forced_cursor_before journal;
    bj5_forced_cursor_after journal;
    bj5_forced_outcomes_hash journal;
    bj5_import_cursor_before journal;
    bj5_import_cursor_after journal;
    bj5_imported_l1_block journal;
    bj5_imported_l1_header_hash journal;
    bj5_imported_l1_state_root journal;
    bj5_import_root journal;
    bj5_outbox_epoch journal;
    bj5_withdrawal_root journal;
    bj5_pre_liabilities_hash journal;
    bj5_post_liabilities_hash journal;
    bj5_roster_changes_hash journal;
    bj5_l1_inclusion_deadline journal;
    bool_u64 (bj5_close journal) ].


Lemma batch_journal_words_spec journal :
  BatchJournalV5_wf journal ->
  batch_journal_words_v5 journal
  = map (be_bytes 32) (batch_journal_values_v5 journal).
Proof.
  intros H. unfold BatchJournalV5_wf in H. destruct_wf H.
  unfold batch_journal_words_v5, batch_journal_values_v5. cbn [map].
  unfold b256_word.
  repeat first [ rewrite abi_bool_word_spec
               | rewrite abi_u64_word_spec by eauto 3 with word_range ].
  reflexivity.
Qed.

Lemma batch_journal_values_range journal :
  BatchJournalV5_wf journal -> Forall in_u256 (batch_journal_values_v5 journal).
Proof.
  intros H. unfold BatchJournalV5_wf in H. destruct_wf H.
  unfold batch_journal_values_v5. solve_range.
Qed.

Lemma batch_journal_values_inj j1 j2 :
  batch_journal_values_v5 j1 = batch_journal_values_v5 j2 -> j1 = j2.
Proof.
  destruct j1, j2. unfold batch_journal_values_v5. cbn. intros H.
  injection H. clear H. intros.
  match goal with Hb : bool_u64 _ = bool_u64 _ |- _ => apply bool_u64_inj in Hb end.
  subst. reflexivity.
Qed.

(** ** Leaves of the positional trees *)
Section PositionalLeaves.
Context {A : Type} (idx leaf : A -> Z) (bad : A -> bool) (capacity : Z).

(** What [fill_leaf] has established after a prefix of the items. *)
Definition leaf_at (items : list A) (i : nat) : Z :=
  match list_find (fun x => Z.to_nat (idx x) = i) items with
  | Some (_, x) => leaf x
  | None => B256_ZERO
  end.

Record filled (items : list A) (s : option Z * list Z) : Prop := {
  filled_previous : s.1 = idx <$> last items;
  filled_sorted : key_sorted idx items;
  filled_checked : Forall (fun x => idx x < capacity /\ bad x = false) items;
  filled_length : length s.2 = Z.to_nat capacity;
  filled_leaf : forall i, (i < Z.to_nat capacity)%nat ->
                          s.2 !! i = Some (leaf_at items i)
}.

Lemma list_find_snoc_eq (P : A -> Prop) `{!forall x, Decision (P x)} l x :
  P x -> (forall y, y ∈ l -> ~ P y) -> list_find P (l ++ [x]) = Some (length l, x).
Proof.
  intros Hx Hl. rewrite list_find_app_r.
  - cbn. rewrite decide_True by exact Hx. reflexivity.
  - apply list_find_None, Forall_forall. exact Hl.
Qed.

Lemma fill_leaf_filled items s x s' :
  0 <= capacity -> 0 <= idx x -> Forall (fun y => 0 <= idx y) items ->
  filled items s -> fill_leaf idx leaf bad capacity s x = Ok s' ->
  filled (items ++ [x]) s'.
Proof.
  destruct s as [previous leaves]. intros Hc Hx Hpos [Hp Hs Hf Hl Hleaf] H.
  unfold fill_leaf in H. inv_ok. bool_to_prop. cbn in *.
  assert (Hs' : key_sorted idx (items ++ [x])) by (eapply key_sorted_snoc; eauto).
  split; cbn; [rewrite last_snoc; reflexivity|exact Hs'| | |].
  { apply Forall_app; split; [exact Hf|]; repeat constructor; auto. }
  { rewrite length_insert; exact Hl. }
  assert (Hlt : forall y, y ∈ items -> idx y < idx x).
  { revert Hs'. clear.
    induction items as [|a l IH]; intros H y Hy; [inversion Hy|].
    cbn in H. inversion H as [|? ? Hs Ha]; subst.
    apply elem_of_cons in Hy as [->|Hy]; [|apply IH; auto].
    rewrite Forall_forall in Ha. apply Ha, elem_of_app. right. left. }
  intros i Hi. rewrite list_lookup_insert. unfold leaf_at.
  destruct (decide (Z.to_nat (idx x) = i /\ Z.to_nat (idx x) < length leaves)%nat)
    as [[<- _]|Hne].
  - rewrite list_find_snoc_eq; [reflexivity|reflexivity|].
    intros y Hy. rewrite Forall_forall in Hpos.
    specialize (Hpos y Hy). specialize (Hlt y Hy). lia.
  - rewrite Hleaf by exact Hi. unfold leaf_at. f_equal.
    destruct (list_find (fun y => Z.to_nat (idx y) = i) items) as [[j y]|] eqn:E.
    + rewrite (list_find_app_l _ _ _ j y E). reflexivity.
    + rewrite list_find_app_r by exact E. cbn.
      rewrite decide_False by lia. reflexivity.
Qed.

Lemma fill_items_filled items s' :
  0 <= capacity -> Forall (fun x => 0 <= idx x) items ->
  for_each (fill_leaf idx leaf bad capacity)
    (None, replicate (Z.to_nat capacity) B256_ZERO) items = Ok s' ->
  filled items s'.
Proof.
  intros Hc Hpos. rewrite Forall_forall in Hpos.
  assert (G : forall done rest s, filled done s -> Forall (fun y => 0 <= idx y) done ->
      Forall (fun y => 0 <= idx y) rest ->
      for_each (fill_leaf idx leaf bad capacity) s rest = Ok s' ->
      filled (done ++ rest) s').
  { intros done rest. revert done. induction rest as [|x rest IH];
      intros done s Hf Hd Hr H.
    - cbn in H. injection H as ->. rewrite app_nil_r. exact Hf.
    - cbn [for_each] in H. inversion Hr; subst. inv_ok.
      replace (done ++ x :: rest) with ((done ++ [x]) ++ rest)
        by (rewrite <- app_assoc; reflexivity).
      eapply IH; eauto using fill_leaf_filled.
      apply Forall_app. split; [assumption|repeat constructor; assumption]. }
  apply (G []); [|constructor|apply Forall_forall; exact Hpos].
  split; cbn; [reflexivity|constructor|constructor|apply length_replicate|].
  intros i Hi. unfold leaf_at. cbn.
  rewrite lookup_replicate_2 by exact Hi. reflexivity.
Qed.

Lemma leaf_at_elem items x :
  key_sorted idx items -> Forall (fun y => 0 <= idx y) items -> x ∈ items ->
  leaf_at items (Z.to_nat (idx x)) = leaf x.
Proof.
  intros Hs Hpos Hx. unfold leaf_at.
  destruct (list_find _ items) as [[j y]|] eqn:E.
  - apply list_find_Some in E as (Hj & Hk & _). apply list_elem_of_lookup_2 in Hj.
    rewrite Forall_forall in Hpos. pose proof (Hpos x Hx). pose proof (Hpos y Hj).
    apply key_sorted_NoDup in Hs.
    apply list_elem_of_lookup in Hx as [i Hi]. apply list_elem_of_lookup in Hj as [k Hk'].
    assert (i = k).
    { eapply NoDup_lookup; [exact Hs| |].
      - apply list_lookup_fmap_Some. eauto.
      - apply list_lookup_fmap_Some. exists y. split; [lia|exact Hk']. }
    subst k. congruence.
  - apply list_find_None in E. rewrite Forall_forall in E. exfalso.
    exact (E x Hx eq_refl).
Qed.

(** Equal leaf vectors come from equal item lists. *)
Lemma filled_inj items1 items2 s1 s2 :
  filled items1 s1 -> filled items2 s2 ->
  Forall (fun y => 0 <= idx y) items1 -> Forall (fun y => 0 <= idx y) items2 ->
  (forall x, x ∈ items1 ++ items2 -> leaf x <> B256_ZERO) ->
  (forall x y, x ∈ items1 ++ items2 -> y ∈ items1 ++ items2 -> leaf x = leaf y -> x = y) ->
  s1.2 = s2.2 -> items1 = items2.
Proof.
  intros F1 F2 P1 P2 Hnz Hinj Heq.
  assert (G : forall l l' s s', filled l s -> filled l' s' ->
    Forall (fun y => 0 <= idx y) l -> (forall x, x ∈ l ++ l' -> x ∈ items1 ++ items2) ->
    s.2 = s'.2 -> forall x, x ∈ l -> x ∈ l').
  { intros l l' s s' F F' P Hsub He x Hx.
    pose proof (filled_checked _ _ F) as Hc. rewrite Forall_forall in Hc, P.
    destruct (Hc x Hx) as [Hlt _]. pose proof (P x Hx) as Hge.
    assert (Hi : (Z.to_nat (idx x) < Z.to_nat capacity)%nat) by lia.
    pose proof (filled_leaf _ _ F _ Hi) as L1.
    pose proof (filled_leaf _ _ F' _ Hi) as L2. rewrite He, L2 in L1.
    rewrite (leaf_at_elem l x) in L1;
      [|apply F|apply Forall_forall; exact P|exact Hx].
    injection L1 as L1. unfold leaf_at in L1.
    destruct (list_find _ l') as [[j y]|] eqn:E.
    - apply list_find_Some in E as (Hj & _ & _). apply list_elem_of_lookup_2 in Hj.
      assert (y = x) as <-; [|exact Hj].
      apply Hinj; [| |exact L1]; apply Hsub, elem_of_app; auto.
    - exfalso. apply (Hnz x); [apply Hsub, elem_of_app; auto|]. symmetry. exact L1. }
  apply (key_sorted_ext idx); [apply F1|apply F2|]. intros x. split.
  - apply (G items1 items2 s1 s2); auto.
  - apply (G items2 items1 s2 s1); auto. intros y. rewrite !elem_of_app. tauto.
Qed.
End PositionalLeaves.

(** Keccak does not map any of the preimages [P] to the zero leaf. *)
Definition no_zero_hash {KK : Keccak} (P : list bytes) : Prop :=
  forall p, p ∈ P -> keccak256 p <> B256_ZERO.

Section PositionalRoots.
Context {KK : Keccak} {KR : KeccakRange}.

Definition positional_leaves {A} (idx leaf : A -> Z) (bad : A -> bool)
    (capacity : Z) (items : list A) : list Z :=
  match for_each (fill_leaf idx leaf bad capacity)
                 (None, replicate (Z.to_nat capacity) B256_ZERO) items with
  | Ok (_, leaves) => leaves
  | Err _ => []
  end.

(** Generic binding: [pre x] is the preimage of [leaf x]. *)
Lemma positional_root_binds {A} (idx leaf : A -> Z) (pre : A -> bytes)
    (bad : A -> bool) (capacity : Z) (items1 items2 : list A) r :
  (forall x, leaf x = keccak256 (pre x)) ->
  is_power_of_two capacity = true ->
  Forall (fun x => 0 <= idx x) items1 -> Forall (fun x => 0 <= idx x) items2 ->
  (forall x y, x ∈ items1 ++ items2 -> y ∈ items1 ++ items2 -> pre x = pre y -> x = y) ->
  let P := map pre (items1 ++ items2)
           ++ positional_tree_preimages (positional_leaves idx leaf bad capacity items1)
           ++ positional_tree_preimages (positional_leaves idx leaf bad capacity items2) in
  no_collision P -> no_zero_hash P ->
  positional_root idx leaf bad capacity items1 = Some r ->
  positional_root idx leaf bad capacity items2 = Some r ->
  items1 = items2.
Proof.
  intros Hleaf Hcap P1 P2 Hpre P Hn Hz H1 H2.
  unfold positional_root in H1, H2. subst P. unfold positional_leaves in Hn, Hz.
  destruct (for_each _ _ items1) as [[p1 l1]|] eqn:E1; [|discriminate].
  destruct (for_each _ _ items2) as [[p2 l2]|] eqn:E2; [|discriminate].
  apply is_power_of_two_spec in Hcap as [k Hk].
  apply fill_items_filled in E1; [|lia|exact P1].
  apply fill_items_filled in E2; [|lia|exact P2].
  pose proof (filled_length _ _ _ _ _ _ E1) as L1.
  pose proof (filled_length _ _ _ _ _ _ E2) as L2. cbn in L1, L2.
  assert (Hk1 : (1 <= 2 ^ k)%nat) by (apply Nat.neq_0_lt_0, Nat.pow_nonzero; lia).
  assert (R : forall items p l, filled idx leaf bad capacity items (p, l) ->
              Forall in_u256 l).
  { intros items p l F. apply Forall_lookup. intros i z Hi.
    assert (Hlt : (i < Z.to_nat capacity)%nat).
    { pose proof (filled_length _ _ _ _ _ _ F) as Hlen. cbn in Hlen.
      rewrite <- Hlen. apply lookup_lt_Some in Hi. exact Hi. }
    pose proof (filled_leaf _ _ _ _ _ _ F i Hlt) as Hf. cbn in Hf.
    rewrite Hi in Hf. injection Hf as ->. unfold leaf_at.
    destruct (list_find _ items) as [[? ?]|]; [rewrite Hleaf; apply keccak_range|].
    unfold in_u256, B256_ZERO. lia. }
  assert (T : l1 = l2).
  { apply (positional_tree_inj k); eauto; try lia; [nc_sub Hn|].
    destruct (tree_fold_singleton positional_layer (length l1) l1) as [r1 T1];
      [apply positional_layer_shrinking|lia|].
    destruct (tree_fold_singleton positional_layer (length l2) l2) as [r2 T2];
      [apply positional_layer_shrinking|lia|].
    unfold positional_tree in *. rewrite T1 in *. rewrite T2 in *.
    cbn in H1, H2. congruence. }
  eapply (filled_inj idx leaf bad capacity); eauto.
  - intros x Hx. rewrite Hleaf. apply Hz, elem_of_app. left.
    apply list_elem_of_fmap. eauto.
  - intros x y Hx Hy He. rewrite !Hleaf in He. apply Hpre; auto.
    apply Hn; [apply elem_of_app; left; apply list_elem_of_fmap; eauto..|exact He].
Qed.
End PositionalRoots.

(** ** The policy encoding is injective *)
Lemma tail_inj {A} (x y : A) l l' : x :: l = y :: l' -> l = l'.
Proof. congruence. Qed.

Section PolicyEncoding.
Definition fits_list {A} (l : list A) : Prop := in_u64 (zlen l).

Lemma address_prefix_inj : prefix_inj in_u160 address_bytes.
Proof. exact (prefix_inj_be 20). Qed.
Lemma b256_prefix_inj : prefix_inj in_u256 b256_bytes.
Proof. exact (prefix_inj_be 32). Qed.
Lemma u256_prefix_inj : prefix_inj in_u256 u256_bytes.
Proof. exact (prefix_inj_be 32). Qed.
Lemma u64_prefix_inj : prefix_inj in_u64 u64_bytes.
Proof. exact (prefix_inj_be 8). Qed.
Lemma u16_prefix_inj : prefix_inj in_u16 (be_bytes 2).
Proof. exact (prefix_inj_be 2). Qed.
Lemma bool_prefix_inj : prefix_inj (fun _ => True) bool_byte.
Proof. intros [] [] r s _ _ H; injection H; auto; discriminate. Qed.

Lemma code_commitment_prefix_inj : prefix_inj CodeCommitmentV5_wf code_commitment_bytes.
Proof.
  intros [] [] r s W1 W2 H. unfold code_commitment_bytes, CodeCommitmentV5_wf in *. cbn in *.
  destruct_wf W1; destruct_wf W2. repeat rewrite <- app_assoc in H.
  peel H address_prefix_inj. peel H b256_prefix_inj. subst. auto.
Qed.

(** A call rule whose two counters fit their 8-byte length prefixes. *)
Definition call_rule_fits (call : CallRuleV5) : Prop :=
  CallRuleV5_wf call /\ fits_list (clr_selectors call) /\ fits_list (clr_kinds call).

Lemma concat_map_id (l : list bytes) : concat l = concat (map (fun b => b) l).
Proof. rewrite map_id. reflexivity. Qed.

Lemma kinds_concat (l : bytes) : l = concat (map (fun z => [z]) l).
Proof. induction l as [|z l IH]; cbn; congruence. Qed.

Lemma call_rule_prefix_inj : prefix_inj call_rule_fits call_rule_bytes.
Proof.
  intros [c1 t1 s1 k1] [c2 t2 s2 k2] r s (W1 & Ls1 & Lk1) (W2 & Ls2 & Lk2) H.
  unfold call_rule_bytes, CallRuleV5_wf in *. cbn in *.
  destruct_wf W1; destruct_wf W2. repeat rewrite <- app_assoc in H.
  peel H address_prefix_inj. peel H address_prefix_inj.
  rewrite (concat_map_id s1), (concat_map_id s2) in H.
  rewrite !(app_assoc (u64_bytes (zlen s1))), !(app_assoc (u64_bytes (zlen s2))) in H.
  apply (prefix_inj_list _ _ (prefix_inj_array 4)) in H as [E1 H];
    [|split; [eapply Forall_impl; [eassumption|]; intros ? []; assumption|assumption]..].
  rewrite (kinds_concat k1), (kinds_concat k2) in H at 2.
  rewrite !(app_assoc (u64_bytes _)) in H.
  apply (prefix_inj_list _ _ prefix_inj_byte) in H as [E2 H];
    [|split; [apply Forall_true; auto|assumption]..].
  subst. auto.
Qed.

Lemma storage_namespace_prefix_inj :
  prefix_inj StorageNamespaceV5_wf storage_namespace_bytes.
Proof.
  intros [] [] r s W1 W2 H. unfold storage_namespace_bytes, StorageNamespaceV5_wf in *. cbn in *.
  destruct_wf W1; destruct_wf W2. repeat rewrite <- app_assoc in H.
  peel H address_prefix_inj. peel H u256_prefix_inj. peel H u16_prefix_inj.
  peel H bool_prefix_inj. subst. auto.
Qed.

Lemma import_binding_prefix_inj :
  prefix_inj CertifiedImportBindingV5_wf import_binding_bytes.
Proof.
  intros [] [] r s W1 W2 H. unfold import_binding_bytes, CertifiedImportBindingV5_wf in *. cbn in *.
  destruct_wf W1; destruct_wf W2. repeat rewrite <- app_assoc in H.
  peel H b256_prefix_inj. peel H b256_prefix_inj. peel H address_prefix_inj.
  peel H u256_prefix_inj. peel H address_prefix_inj. peel H u256_prefix_inj.
  subst. auto.
Qed.

Lemma participant_registry_prefix_inj :
  prefix_inj (option_wf ParticipantRegistryBindingV5_wf) participant_registry_bytes.
Proof.
  intros [[]|] [[]|] r s W1 W2 H; cbn in *; try discriminate H.
  - unfold participant_registry_bytes, ParticipantRegistryBindingV5_wf in *. cbn in *.
    destruct_wf W1; destruct_wf W2. apply tail_inj in H. repeat rewrite <- app_assoc in H.
    peel H address_prefix_inj. do 3 (peel H u256_prefix_inj). peel H u256_prefix_inj.
    subst. auto.
  - injection H as ->. auto.
Qed.

Lemma exit_asset_prefix_inj : prefix_inj ExitAssetBindingV5_wf exit_asset_bytes.
Proof.
  intros [] [] r s W1 W2 H. unfold exit_asset_bytes, ExitAssetBindingV5_wf in *. cbn in *.
  destruct_wf W1; destruct_wf W2. repeat rewrite <- app_assoc in H.
  peel H address_prefix_inj. peel H prefix_inj_byte.
  peel H address_prefix_inj. peel H u256_prefix_inj. subst. auto.
Qed.

Definition exit_fits (exit : ExitBindingV5) : Prop :=
  ExitBindingV5_wf exit /\ fits_list (eb_assets exit).

Lemma exit_binding_inj e1 e2 :
  option_wf exit_fits e1 -> option_wf exit_fits e2 ->
  exit_binding_bytes e1 = exit_binding_bytes e2 -> e1 = e2.
Proof.
  destruct e1 as [[q1 c1 b1 a1 f1]|], e2 as [[q2 c2 b2 a2 f2]|];
    cbn; try discriminate; [|reflexivity].
  intros [W1 L1] [W2 L2] H. unfold ExitBindingV5_wf in *. cbn in *.
  destruct_wf W1; destruct_wf W2. apply tail_inj in H.
  peel H address_prefix_inj. peel H u256_prefix_inj. peel H u256_prefix_inj.
  rewrite (app_assoc (u64_bytes (zlen a1))), (app_assoc (u64_bytes (zlen a2))) in H.
  apply (prefix_inj_list _ _ exit_asset_prefix_inj) in H as [E2 H]; [|split; assumption..].
  apply (be_bytes_inj 20) in H; auto. subst. reflexivity.
Qed.

(** Machine-typed policies whose vectors have fewer than 2^64 items. *)
Definition policy_fits (policy : ExecutionPolicyV5) : Prop :=
  ExecutionPolicyV5_wf policy /\
  fits_list (ep5_code policy) /\ fits_list (ep5_calls policy) /\
  Forall call_rule_fits (ep5_calls policy) /\
  fits_list (ep5_storage policy) /\ fits_list (ep5_imports policy) /\
  option_wf exit_fits (ep5_exit policy).
End PolicyEncoding.

Lemma execution_policy_bytes_inj p1 p2 :
  policy_fits p1 -> policy_fits p2 ->
  execution_policy_bytes p1 = execution_policy_bytes p2 -> p1 = p2.
Proof.
  destruct p1 as [sc1 b1 t1 g1 m1 ac1 sd1 co1 ca1 st1 im1 pr1 ex1].
  destruct p2 as [sc2 b2 t2 g2 m2 ac2 sd2 co2 ca2 st2 im2 pr2 ex2].
  unfold policy_fits, execution_policy_bytes, ExecutionPolicyV5_wf, fits_list.
  cbn [ep5_state_commitment ep5_max_blocks_per_batch ep5_max_transactions_per_block
       ep5_max_gas_per_block ep5_max_memory_bytes ep5_allow_contract_creation
       ep5_allow_self_destruct ep5_code ep5_calls ep5_storage ep5_imports
       ep5_participant_registry ep5_exit].
  intros (W1 & A1 & B1 & C1 & D1 & E1 & F1) (W2 & A2 & B2 & C2 & D2 & E2 & F2) H.
  destruct_wf W1. destruct_wf W2.
  apply app_inv_head in H.
  peel H prefix_inj_byte. peel H u64_prefix_inj. peel H u64_prefix_inj.
  peel H u64_prefix_inj. peel H u64_prefix_inj.
  peel H bool_prefix_inj. peel H bool_prefix_inj.
  rewrite !(app_assoc (u64_bytes (zlen co1))), !(app_assoc (u64_bytes (zlen co2))) in H.
  apply (prefix_inj_list _ _ code_commitment_prefix_inj) in H as [? H]; [|split; assumption..].
  rewrite !(app_assoc (u64_bytes (zlen ca1))), !(app_assoc (u64_bytes (zlen ca2))) in H.
  apply (prefix_inj_list _ _ call_rule_prefix_inj) in H as [? H]; [|split; assumption..].
  rewrite !(app_assoc (u64_bytes (zlen st1))), !(app_assoc (u64_bytes (zlen st2))) in H.
  apply (prefix_inj_list _ _ storage_namespace_prefix_inj) in H as [? H]; [|split; assumption..].
  rewrite !(app_assoc (u64_bytes (zlen im1))), !(app_assoc (u64_bytes (zlen im2))) in H.
  apply (prefix_inj_list _ _ import_binding_prefix_inj) in H as [? H]; [|split; assumption..].
  peel H participant_registry_prefix_inj.
  apply exit_binding_inj in H; [|assumption..].
  subst. reflexivity.
Qed.

Section BindingTheorems.
Context {KK : Keccak} {KR : KeccakRange}.

Lemma keccak_words_inj w1 w2 :
  no_collision [concat w1; concat w2] ->
  keccak_words_v5 w1 = keccak_words_v5 w2 -> concat w1 = concat w2.
Proof. intros Hn H. apply Hn; [left|right; left|exact H]. Qed.

(** The journal hash the receipt commits binds every journal field: two
    machine-typed journals with the same hash are equal, provided keccak does
    not collide on their two encodings. *)
Theorem hash_batch_journal_v5_binding j1 j2 :
  BatchJournalV5_wf j1 -> BatchJournalV5_wf j2 ->
  no_collision [concat (batch_journal_words_v5 j1); concat (batch_journal_words_v5 j2)] ->
  hash_batch_journal_v5 j1 = hash_batch_journal_v5 j2 -> j1 = j2.
Proof.
  intros W1 W2 Hn H. apply keccak_words_inj in H; [|exact Hn].
  rewrite !batch_journal_words_spec in H by assumption.
  apply words_inj' in H; auto using batch_journal_values_range.
  apply batch_journal_values_inj. exact H.
Qed.

Definition roster_preimages (capacity : Z) (m1 m2 : list RosterMemberV5) : list bytes :=
  map (fun m => concat (roster_leaf_words m)) (m1 ++ m2)
  ++ positional_tree_preimages
       (positional_leaves rm_index roster_leaf_v5 roster_member_bad capacity m1)
  ++ positional_tree_preimages
       (positional_leaves rm_index roster_leaf_v5 roster_member_bad capacity m2).

Lemma roster_leaf_words_inj x y :
  RosterMemberV5_wf x -> RosterMemberV5_wf y ->
  concat (roster_leaf_words x) = concat (roster_leaf_words y) -> x = y.
Proof.
  destruct x as [i1 a1 e1], y as [i2 a2 e2].
  unfold RosterMemberV5_wf, roster_leaf_words. cbn [rm_index rm_member rm_joined_epoch].
  intros (X1 & X2 & X3) (Y1 & Y2 & Y3) H.
  rewrite !abi_u64_word_spec, !abi_address_word_spec in H by assumption.
  apply (words_inj' [i1; a1; e1] [i2; a2; e2]) in H; [|solve_range..].
  congruence.
Qed.

Lemma roster_root_v5_binds m1 m2 capacity root :
  Forall RosterMemberV5_wf m1 -> Forall RosterMemberV5_wf m2 ->
  no_collision (roster_preimages capacity m1 m2) ->
  no_zero_hash (roster_preimages capacity m1 m2) ->
  roster_root_v5 m1 capacity = Some root ->
  roster_root_v5 m2 capacity = Some root ->
  m1 = m2.
Proof.
  intros W1 W2 Hn Hz H1 H2. unfold roster_root_v5 in H1, H2.
  destruct (_ || _)%bool eqn:G in H1; [discriminate|]. rewrite G in H2. bool_to_prop.
  assert (Hpos : forall m, Forall RosterMemberV5_wf m -> Forall (fun x => 0 <= rm_index x) m).
  { intros m W. eapply Forall_impl; [exact W|]. intros x (? & _). unfold in_u64 in *. lia. }
  eapply (positional_root_binds rm_index roster_leaf_v5
            (fun m => concat (roster_leaf_words m))); eauto.
  intros x y Hx Hy. assert (W : Forall RosterMemberV5_wf (m1 ++ m2)) by
    (apply Forall_app; auto).
  rewrite Forall_forall in W. apply roster_leaf_words_inj; auto.
Qed.

(** The positional approver root authenticates the complete member list: two
    preimages accepted for one root and capacity are the same list. *)
Theorem roster_root_v5_binding m1 m2 capacity root :
  Forall RosterMemberV5_wf m1 -> Forall RosterMemberV5_wf m2 ->
  no_collision (roster_preimages capacity m1 m2) ->
  no_zero_hash (roster_preimages capacity m1 m2) ->
  roster_root_v5 m1 capacity = Some root ->
  roster_root_v5 m2 capacity = Some root ->
  m1 = m2.
Proof. apply roster_root_v5_binds. Qed.

Definition withdrawal_preimages (domain room epoch capacity : Z)
    (w1 w2 : list WithdrawalV5) : list bytes :=
  let leaves := positional_leaves wd_index (withdrawal_leaf_v5 domain room epoch)
                  withdrawal_bad capacity in
  map (fun w => concat (withdrawal_leaf_words domain room epoch w)) (w1 ++ w2)
  ++ positional_tree_preimages (leaves w1) ++ positional_tree_preimages (leaves w2).

Lemma withdrawal_leaf_words_inj domain room epoch x y :
  in_u256 domain -> in_u64 room -> in_u64 epoch ->
  WithdrawalV5_wf x -> WithdrawalV5_wf y ->
  concat (withdrawal_leaf_words domain room epoch x)
  = concat (withdrawal_leaf_words domain room epoch y) -> x = y.
Proof.
  destruct x as [i1 e1 r1 a1 v1], y as [i2 e2 r2 a2 v2].
  unfold WithdrawalV5_wf, withdrawal_leaf_words, b256_word, abi_u256_word_v5.
  cbn [wd_index wd_roster_epoch wd_recipient wd_asset wd_amount].
  intros Hd Hr He (X1 & X2 & X3 & X4 & X5) (Y1 & Y2 & Y3 & Y4 & Y5) H.
  rewrite !abi_u64_word_spec, !abi_address_word_spec in H by assumption.
  apply (words_inj' [domain; room; epoch; i1; e1; r1; a1; v1]
                    [domain; room; epoch; i2; e2; r2; a2; v2]) in H; [|solve_range..].
  congruence.
Qed.

(** The withdrawal root of an outbox epoch authenticates the complete list of
    withdrawals, their indices, recipients, assets and amounts. *)
Theorem withdrawal_root_v5_binding domain room epoch capacity w1 w2 root :
  in_u256 domain -> in_u64 room -> in_u64 epoch ->
  Forall WithdrawalV5_wf w1 -> Forall WithdrawalV5_wf w2 -> w1 <> [] -> w2 <> [] ->
  no_collision (withdrawal_preimages domain room epoch capacity w1 w2) ->
  no_zero_hash (withdrawal_preimages domain room epoch capacity w1 w2) ->
  withdrawal_root_v5 domain room epoch w1 capacity = Some root ->
  withdrawal_root_v5 domain room epoch w2 capacity = Some root ->
  w1 = w2.
Proof.
  intros Hd Hr He W1 W2 N1 N2 Hn Hz H1 H2. unfold withdrawal_root_v5 in H1, H2.
  destruct w1 as [|x1 w1]; [congruence|]. destruct w2 as [|x2 w2]; [congruence|].
  destruct (_ || _)%bool eqn:G in H1; [discriminate|]. rewrite G in H2. bool_to_prop.
  assert (Hpos : forall w, Forall WithdrawalV5_wf w -> Forall (fun x => 0 <= wd_index x) w).
  { intros m W. eapply Forall_impl; [exact W|]. intros x (? & _). unfold in_u64 in *. lia. }
  eapply (positional_root_binds wd_index (withdrawal_leaf_v5 domain room epoch)
            (fun w => concat (withdrawal_leaf_words domain room epoch w))); eauto.
  intros x y Hx Hy.
  assert (W : Forall WithdrawalV5_wf ((x1 :: w1) ++ (x2 :: w2))) by
    (apply Forall_app; auto).
  rewrite Forall_forall in W. apply withdrawal_leaf_words_inj; auto.
Qed.

(** The policy hash authenticates the structured policy: the encoding, with
    its optional exit tail absent or present, is injective. *)
Theorem execution_policy_hash_v5_binding p1 p2 :
  policy_fits p1 -> policy_fits p2 ->
  no_collision [execution_policy_bytes p1; execution_policy_bytes p2] ->
  execution_policy_hash_v5 p1 = execution_policy_hash_v5 p2 -> p1 = p2.
Proof.
  intros W1 W2 Hn H. apply execution_policy_bytes_inj; auto.
  apply Hn; [left|right; left|exact H].
Qed.
End BindingTheorems.

(** ** Witnesses: the binding theorems applied at concrete inputs *)
Definition witness_member (i : Z) : RosterMemberV5 := mk_RosterMemberV5 i (1000 + i) 1.
Definition witness_withdrawal (i : Z) : WithdrawalV5 :=
  mk_WithdrawalV5 i 1 (1000 + i) 7 50.
Definition witness_policy : ExecutionPolicyV5 :=
  mk_ExecutionPolicyV5 0 4 8 30000000 65536 false false
    [mk_CodeCommitmentV5 5 77]
    [mk_CallRuleV5 0 5 [[1; 2; 3; 4]] [0]]
    [mk_StorageNamespaceV5 5 0 0 true]
    [] (Some (mk_ParticipantRegistryBindingV5 5 0 1 2 3))
    (Some (mk_ExitBindingV5 6 0 10 [mk_ExitAssetBindingV5 0 0 0 0] 9)).


Lemma hash_batch_journal_v5_binding_witness :
  BatchJournalV5_default = BatchJournalV5_default.
Proof.
  apply (@hash_batch_journal_v5_binding toy_keccak BatchJournalV5_default
           BatchJournalV5_default).
  - unfold BatchJournalV5_wf. cbn. solve_wf.
  - unfold BatchJournalV5_wf. cbn. solve_wf.
  - apply no_collisionb_spec. vm_compute. reflexivity.
  - reflexivity.
Defined.

Definition no_zero_hashb {KK : Keccak} (P : list bytes) : bool :=
  forallb (fun p => negb (keccak256 p =? B256_ZERO)) P.
Lemma no_zero_hashb_spec {KK : Keccak} P : no_zero_hashb P = true -> no_zero_hash P.
Proof.
  unfold no_zero_hashb. intros H p Hp. rewrite forallb_forall in H.
  apply list_elem_of_In in Hp. specialize (H p Hp). bool_to_prop. exact H.
Qed.

Lemma roster_root_v5_binding_witness :
  [witness_member 0; witness_member 2] = [witness_member 0; witness_member 2].
Proof.
  apply (@roster_root_v5_binding toy_keccak toy_keccak_range
    [witness_member 0; witness_member 2] [witness_member 0; witness_member 2] 4
    (match @roster_root_v5 toy_keccak [witness_member 0; witness_member 2] 4 with
     | Some r => r | None => 0 end)).
  - unfold RosterMemberV5_wf, witness_member. solve_wf.
  - unfold RosterMemberV5_wf, witness_member. solve_wf.
  - apply no_collisionb_spec. vm_compute. reflexivity.
  - apply no_zero_hashb_spec. vm_compute. reflexivity.
  - vm_compute. reflexivity.
  - vm_compute. reflexivity.
Defined.

Lemma withdrawal_root_v5_binding_witness :
  [witness_withdrawal 0; witness_withdrawal 1] = [witness_withdrawal 0; witness_withdrawal 1].
Proof.
  apply (@withdrawal_root_v5_binding toy_keccak toy_keccak_range 3 7 1 2
    [witness_withdrawal 0; witness_withdrawal 1]
    [witness_withdrawal 0; witness_withdrawal 1]
    (match @withdrawal_root_v5 toy_keccak 3 7 1
             [witness_withdrawal 0; witness_withdrawal 1] 2 with
     | Some r => r | None => 0 end)).
  - solve_wf.
  - solve_wf.
  - solve_wf.
  - unfold WithdrawalV5_wf, witness_withdrawal. solve_wf.
  - unfold WithdrawalV5_wf, witness_withdrawal. solve_wf.
  - discriminate.
  - discriminate.
  - apply no_collisionb_spec. vm_compute. reflexivity.
  - apply no_zero_hashb_spec. vm_compute. reflexivity.
  - vm_compute. reflexivity.
  - vm_compute. reflexivity.
Defined.

Lemma witness_policy_fits : policy_fits witness_policy.
Proof.
  unfold policy_fits, ExecutionPolicyV5_wf, call_rule_fits, option_wf, witness_policy,
    CodeCommitmentV5_wf, CallRuleV5_wf, StorageNamespaceV5_wf,
    ParticipantRegistryBindingV5_wf, ExitBindingV5_wf, ExitAssetBindingV5_wf,
    exit_fits, ExitBindingV5_wf, ExitAssetBindingV5_wf, fits_list, array_wf,
    bytes_wf, zlen. cbn. solve_wf.
Qed.

Lemma execution_policy_hash_v5_binding_witness : witness_policy = witness_policy.
Proof.
  apply (@execution_policy_hash_v5_binding toy_keccak witness_policy witness_policy).
  - exact witness_policy_fits.
  - exact witness_policy_fits.
  - apply no_collisionb_spec. vm_compute. reflexivity.
  - reflexivity.
Defined.
