(* ===== verification/HashV4.v ===== *)
(** * Commitments of the seven-slot (v4) rooms

    stf-types/src/v4/hash.rs, v4/cold.rs and domain.rs.  Each hashed preimage
    is named so that the binding theorems can speak about it. *)

From S2P Require Import Prelude Types Abi Merkle.
Open Scope Z_scope.

Section Commitments.
Context {KK : Keccak}.

(** ** Roster root *)
Definition member_slot_words_v4 (slot : MemberSlotWitnessV4) : list bytes :=
  [ b256_word (keccak256 (b_ "MemberSlotV4(uint8 slot,uint8 state,address account,uint64 joinedAtBatch,uint64 retiredAtBatch)"));
    u256_word (msl_slot slot);
    u256_word (msl_state slot);
    address_word (msl_account slot);
    u256_word (msl_joined_at_batch slot);
    u256_word (default 0 (msl_retired_at_batch slot)) ].

Definition member_roster_leaves_v4 (slots : list MemberSlotWitnessV4) : list Z :=
  map (fun slot => keccak256 (concat (member_slot_words_v4 slot))) slots.

Definition member_roster_root_v4 (slots : list MemberSlotWitnessV4) : option Z :=
  match slots with
  | [] => None
  | _ => last (sorted_tree (member_roster_leaves_v4 slots))
  end.

(** ** Lists of hashes: domain, count, items *)
Definition list_preimage (domain : bytes) (count : Z) (words : list bytes) : bytes :=
  b256_word (keccak256 domain) ++ u256_word count ++ concat words.

Definition batch_block_roots_hash_v4 (blocks : list BatchBlockJournalV4) : Z :=
  keccak256 (list_preimage (b_ "BatchBlockRootsV4[]") (zlen blocks)
    (map (fun block => b256_word (bbj_post_state_root block)) blocks)).

Definition hash_join_acceptance_struct_v4 (room_id request_index slot member
    deposits_hash config_hash journal_hash expiry : Z) : Z :=
  hash_words
    [ b256_word (keccak256 (b_ "JoinAcceptanceV4(uint256 roomId,uint64 requestIndex,uint8 slot,address member,bytes32 depositsHash,bytes32 configHash,bytes32 journalHash,uint64 expiry)"));
      u256_word room_id; u256_word request_index; u256_word slot;
      address_word member; b256_word deposits_hash; b256_word config_hash;
      b256_word journal_hash; u256_word expiry ].

Definition asset_amount_words_v4 (asset_id amount : Z) : list bytes :=
  [ b256_word (keccak256 (b_ "AssetAmountV4(uint8 assetId,uint256 amount)"));
    u256_word asset_id; uint256_word amount ].
Definition hash_asset_amount_v4 (asset_id amount : Z) : Z :=
  hash_words (asset_amount_words_v4 asset_id amount).

Definition hash_amount_projection_v4 (list_domain : bytes) (values : list (Z * Z)) : Z :=
  keccak256 (list_preimage list_domain (zlen values)
    (map (fun v => b256_word (hash_asset_amount_v4 v.1 v.2)) values)).

Definition hash_asset_totals_v4 (values : list AssetAccountingV4) : Z :=
  hash_amount_projection_v4 (b_ "AssetTotalsV4[]")
    (map (fun v => (aac_asset_id v, aac_total v)) values).
Definition hash_exit_totals_v4 (values : list AssetAccountingV4) : Z :=
  hash_amount_projection_v4 (b_ "ExitTotalsV4[]")
    (map (fun v => (aac_asset_id v, aac_exit_total v)) values).
Definition hash_fee_totals_v4 (values : list AssetAccountingV4) : Z :=
  hash_amount_projection_v4 (b_ "FeeTotalsV4[]")
    (map (fun v => (aac_asset_id v, aac_fee_total v)) values).

Definition membership_delta_words_v4 (value : MembershipDeltaWitnessV4) : list bytes :=
  [ b256_word (keccak256 (b_ "MembershipDeltaV4(uint8 action,uint8 slot,address member,uint64 joinRequestIndex,uint64 acceptanceExpiry)"));
    u256_word (mdl_action value);
    u256_word (mdl_slot value);
    address_word (mdl_member value);
    u256_word (mdl_join_request_index value);
    u256_word (mdl_acceptance_expiry value) ].
Definition hash_membership_deltas_v4 (values : list MembershipDeltaWitnessV4) : Z :=
  keccak256 (list_preimage (b_ "MembershipDeltaV4[]") (zlen values)
    (map (fun v => b256_word (hash_words (membership_delta_words_v4 v))) values)).

Definition hash_inbox_entry_v4 (value : InboxEntryWitnessV4) : Z :=
  let join :=
    hash_words
      [ b256_word (keccak256 (b_ "JoinRequestInboxV4(uint64 index,address candidate,bytes32 depositsHash,uint8 status)"));
        u256_word (inb_index value);
        address_word (inb_account value);
        b256_word (hash_amount_projection_v4 (b_ "AssetAmountV4[]")
          (map (fun e => (iaa_asset_id e, iaa_amount e)) (inb_deposits value)));
        u256_word (inb_status value) ] in
  if inb_kind value =? 1 then
    match inb_deposits value with
    | [deposit] =>
        hash_words
          [ b256_word (keccak256 (b_ "DepositInboxV4(uint64 index,address depositor,uint8 beneficiarySlot,uint8 assetId,uint256 amount,uint8 status)"));
            u256_word (inb_index value);
            address_word (inb_account value);
            u256_word (inb_beneficiary_slot value);
            u256_word (iaa_asset_id deposit);
            uint256_word (iaa_amount deposit);
            u256_word (inb_status value) ]
    | _ => B256_ZERO
    end
  else if inb_kind value =? 2 then join
  else B256_ZERO.
Definition hash_inbox_entries_v4 (values : list InboxEntryWitnessV4) : Z :=
  keccak256 (list_preimage (b_ "InboxSegmentV4[]") (zlen values)
    (map (fun v => b256_word (hash_inbox_entry_v4 v)) values)).

(** ** Exit claims *)
Definition claim_leaf_words_v4 (deployment_id room_id : Z) (allocation : ExitAllocationV4)
  : list bytes :=
  [ b256_word (keccak256 (b_ "ClaimLeafV4(bytes32 deploymentDomain,uint256 roomId,uint8 slot,uint8 assetId,address recipient,uint256 amount)"));
    b256_word deployment_id;
    u256_word room_id;
    u256_word (xal_slot allocation);
    u256_word (xal_asset_id allocation);
    address_word (xal_recipient allocation);
    uint256_word (xal_amount allocation) ].
Definition hash_claim_leaf_v4 (deployment_id room_id : Z) (allocation : ExitAllocationV4) : Z :=
  hash_words (claim_leaf_words_v4 deployment_id room_id allocation).

Definition claim_leaves_v4 (deployment_id room_id : Z) (allocations : list ExitAllocationV4)
  : list Z :=
  map (hash_claim_leaf_v4 deployment_id room_id) allocations.
Definition empty_claim_preimage_v4 : bytes := b_ "zkdeal/merkle-empty/v4".

Definition claim_merkle_root_v4 (deployment_id room_id : Z)
    (allocations : list ExitAllocationV4) : Z :=
  match allocations with
  | [] => keccak256 empty_claim_preimage_v4
  | _ => hd B256_ZERO (sorted_tree (claim_leaves_v4 deployment_id room_id allocations))
  end.

(** ** Journals *)
Definition batch_journal_words_v4 (journal : BatchJournalV4) : list bytes :=
  [ b256_word (keccak256 (b_ "BatchJournalV4(uint256 protocolVersion,bytes32 deploymentDomain,uint256 roomId,bytes32 presetHash,bytes32 manifestHash,bytes32 proofProgramId,uint64 batchIndex,uint64 startL2Block,uint64 endL2Block,uint64 previousBlockTimestamp,uint64 finalBlockTimestamp,bytes32 preStateRoot,bytes32 postStateRoot,bytes32 blockRootsHash,bytes32 preRosterRoot,bytes32 postRosterRoot,uint8 preActiveMask,uint8 postActiveMask,uint8 usedMask,uint64 inboxCursorBefore,uint64 inboxCursorAfter,bytes32 inboxInputsHash,bytes32 batchDataHash,bytes32 assetTotalsHash,bytes32 exitTotalsHash,bytes32 feeTotalsHash,bytes32 membershipDeltasHash,bytes32 previousExitRoot,bytes32 exitRoot,bool close,uint64 l1InclusionDeadline)"));
    u256_word (bj4_v journal);
    b256_word (bj4_deployment_id journal);
    u256_word (bj4_room_id journal);
    b256_word (bj4_preset_hash journal);
    b256_word (bj4_manifest_hash journal);
    b256_word (bj4_proof_program_id journal);
    u256_word (bj4_batch_index journal);
    u256_word (bj4_l2_start_height journal);
    u256_word (bj4_l2_end_height journal);
    u256_word (bj4_previous_block_timestamp journal);
    u256_word (bj4_final_block_timestamp journal);
    b256_word (bj4_prev_state_root journal);
    b256_word (bj4_post_state_root journal);
    b256_word (bj4_block_roots_hash journal);
    b256_word (bj4_pre_roster_root journal);
    b256_word (bj4_post_roster_root journal);
    u256_word (bj4_active_mask journal);
    u256_word (bj4_post_active_mask journal);
    u256_word (bj4_used_mask journal);
    u256_word (bj4_inbox_start journal);
    u256_word (bj4_inbox_end journal);
    b256_word (bj4_inbox_inputs_hash journal);
    b256_word (bj4_block_data_hash journal);
    b256_word (bj4_asset_totals_hash journal);
    b256_word (bj4_exit_totals_hash journal);
    b256_word (bj4_fee_totals_hash journal);
    b256_word (bj4_membership_deltas_hash journal);
    b256_word (bj4_previous_exit_root journal);
    b256_word (bj4_exit_root journal);
    u256_word (bool_u64 (bj4_close journal));
    u256_word (bj4_l1_inclusion_deadline journal) ].
Definition hash_batch_journal_v4 (journal : BatchJournalV4) : Z :=
  keccak256 (concat (batch_journal_words_v4 journal)).

Definition genesis_journal_words_v4 (journal : GenesisJournalV4) : list bytes :=
  [ b256_word (keccak256 (b_ "GenesisJournalV4(uint256 protocolVersion,bytes32 deploymentDomain,uint256 roomId,bytes32 configHash,bytes32 presetHash,bytes32 manifestHash,bytes32 proofProgramId,uint64 l1BlockNumber,bytes32 l1BlockHash,bytes32 l1StateRoot,bytes32 genesisStateRoot,bytes32 genesisRosterRoot,bytes32 genesisExitRoot,uint8 activeMask,uint8 usedMask,uint64 inboxCursor,bytes32 assetTotalsHash,bytes32 exitTotalsHash,bytes32 feeTotalsHash,uint64 l1InclusionDeadline)"));
    u256_word (gj4_v journal);
    b256_word (gj4_deployment_id journal);
    u256_word (gj4_room_id journal);
    b256_word (gj4_config_hash journal);
    b256_word (gj4_preset_hash journal);
    b256_word (gj4_manifest_hash journal);
    b256_word (gj4_proof_program_id journal);
    u256_word (gj4_l1_block_number journal);
    b256_word (gj4_l1_block_hash journal);
    b256_word (gj4_l1_state_root journal);
    b256_word (gj4_genesis_state_root journal);
    b256_word (gj4_genesis_roster_root journal);
    b256_word (gj4_genesis_exit_root journal);
    u256_word (gj4_active_mask journal);
    u256_word (gj4_used_mask journal);
    u256_word (gj4_inbox_cursor journal);
    b256_word (gj4_asset_totals_hash journal);
    b256_word (gj4_exit_totals_hash journal);
    b256_word (gj4_fee_totals_hash journal);
    u256_word (gj4_l1_inclusion_deadline journal) ].
Definition hash_genesis_journal_v4 (journal : GenesisJournalV4) : Z :=
  keccak256 (concat (genesis_journal_words_v4 journal)).

(** ** Cold preparation (v4/cold.rs) *)
Definition hash_cold_runtime_code_v4 (values : list ColdRuntimeCodeV4) : Z :=
  keccak256 (list_preimage (b_ "ColdRuntimeCodeV4[]") (zlen values)
    (map (fun value => b256_word (hash_words
       [ b256_word (keccak256 (b_ "ColdRuntimeCodeV4(address contractAddress,bytes32 codeHash)"));
         address_word (crc_address value);
         b256_word (crc_code_hash value) ])) values)).

Definition hash_cold_slot_list_v4 (domain : bytes) (slots : list Z) : Z :=
  keccak256 (list_preimage domain (zlen slots) (map uint256_word slots)).

Definition hash_cold_state_access_v4 (values : list ColdStateAccessV4) : Z :=
  keccak256 (list_preimage (b_ "ColdStateAccessV4[]") (zlen values)
    (map (fun value => b256_word (hash_words
       [ b256_word (keccak256 (b_ "ColdStateAccessV4(address account,bytes32 storageSlotsHash)"));
         address_word (csa_address value);
         b256_word (hash_cold_slot_list_v4 (b_ "ColdStateAccessStorageSlotV4[]")
                      (csa_storage_slots value)) ])) values)).

Definition hash_cold_state_refresh_v4 (values : list ColdStateRefreshV4) : Z :=
  keccak256 (list_preimage (b_ "ColdStateRefreshV4[]") (zlen values)
    (map (fun value => b256_word (hash_words
       [ b256_word (keccak256 (b_ "ColdStateRefreshV4(address account,bool refreshNonce,bool refreshBalance,bool refreshAllStorage,bytes32 storageSlotsHash)"));
         address_word (csr_address value);
         u256_word (bool_u64 (csr_refresh_nonce value));
         u256_word (bool_u64 (csr_refresh_balance value));
         u256_word (bool_u64 (csr_refresh_all_storage value));
         b256_word (hash_cold_slot_list_v4 (b_ "ColdStateRefreshStorageSlotV4[]")
                      (csr_storage_slots value)) ])) values)).

Definition cold_template_words_v4 (journal : ColdRoomJournalV4) : list bytes :=
  [ b256_word (keccak256 (b_ "ColdTemplateIdV4(bytes32 compiledBundleHash,bytes32 presetHash,bytes32 manifestHash,bytes32 proofProgramId,uint64 constructorChainId,bytes32 initialStateRoot,bytes32 initializedStateRoot,bytes32 setupDataHash,bytes32 runtimeCodeRoot,bytes32 stateAccessRoot,bytes32 stateRefreshRoot,bytes32 staticStateCommitment,bytes32 analyzedArtifactRoot,bytes32 allowedCallTargetRoot)"));
    b256_word (crj_compiled_bundle_hash journal);
    b256_word (crj_preset_hash journal);
    b256_word (crj_manifest_hash journal);
    b256_word (crj_proof_program_id journal);
    u256_word (crj_constructor_chain_id journal);
    b256_word (crj_initial_state_root journal);
    b256_word (crj_initialized_state_root journal);
    b256_word (crj_setup_data_hash journal);
    b256_word (crj_runtime_code_root journal);
    b256_word (crj_state_access_root journal);
    b256_word (crj_state_refresh_root journal);
    b256_word (crj_static_state_commitment journal);
    b256_word (crj_analyzed_artifact_root journal);
    b256_word (crj_allowed_call_target_root journal) ].
Definition cold_template_id_v4 (journal : ColdRoomJournalV4) : Z :=
  hash_words (cold_template_words_v4 journal).

Definition cold_journal_words_v4 (journal : ColdRoomJournalV4) : list bytes :=
  [ b256_word (keccak256 (b_ "ColdRoomJournalV4(uint256 protocolVersion,bytes32 templateId,bytes32 compiledBundleHash,bytes32 presetHash,bytes32 manifestHash,bytes32 proofProgramId,uint64 constructorChainId,bytes32 initialStateRoot,bytes32 initializedStateRoot,bytes32 setupDataHash,bytes32 runtimeCodeRoot,bytes32 stateAccessRoot,bytes32 stateRefreshRoot,bytes32 staticStateCommitment,bytes32 analyzedArtifactRoot,bytes32 allowedCallTargetRoot)"));
    u256_word (crj_v journal);
    b256_word (crj_template_id journal);
    b256_word (crj_compiled_bundle_hash journal);
    b256_word (crj_preset_hash journal);
    b256_word (crj_manifest_hash journal);
    b256_word (crj_proof_program_id journal);
    u256_word (crj_constructor_chain_id journal);
    b256_word (crj_initial_state_root journal);
    b256_word (crj_initialized_state_root journal);
    b256_word (crj_setup_data_hash journal);
    b256_word (crj_runtime_code_root journal);
    b256_word (crj_state_access_root journal);
    b256_word (crj_state_refresh_root journal);
    b256_word (crj_static_state_commitment journal);
    b256_word (crj_analyzed_artifact_root journal);
    b256_word (crj_allowed_call_target_root journal) ].
Definition hash_cold_room_journal_v4 (journal : ColdRoomJournalV4) : Z :=
  hash_words (cold_journal_words_v4 journal).

Definition prepared_room_instance_id_v4 (cold_journal_hash template_id deployment_id
    room_id config_hash : Z) : Z :=
  hash_words
    [ b256_word (keccak256 (b_ "PreparedRoomInstanceV4(bytes32 coldJournalHash,bytes32 templateId,bytes32 deploymentDomain,uint256 roomId,bytes32 configHash)"));
      b256_word cold_journal_hash; b256_word template_id; b256_word deployment_id;
      u256_word room_id; b256_word config_hash ].

(** ** Chain identifiers and application domains (domain.rs) *)
Definition room_chain_id (label : bytes) (deployment_id room_id : Z) : Z :=
  let digest := keccak256 (b256_bytes (keccak256 label) ++ b256_bytes deployment_id
                           ++ repeat 0 24 ++ be_bytes 8 room_id) in
  let prefix := of_be (take 8 (b256_bytes digest)) in
  Z.lor (Z.shiftr prefix 14) (Z.shiftl 1 50).
Definition room_chain_id_v4 (deployment_id room_id : Z) : Z :=
  room_chain_id (b_ "RoomChainIdV4(bytes32 deploymentDomain,uint256 roomId)")
    deployment_id room_id.
Definition room_chain_id_v5 (deployment_id room_id : Z) : Z :=
  room_chain_id (b_ "RoomChainIdV5(bytes32 deploymentDomain,uint256 roomId)")
    deployment_id room_id.

Definition application_domain_preimage_v4 (tag : bytes) (deployment_id room_id : Z) : bytes :=
  let padded := Z.to_nat ((zlen tag + 31) / 32 * 32) in
  be_bytes 32 96 ++ b256_bytes deployment_id
  ++ (repeat 0 24 ++ be_bytes 8 room_id) ++ (repeat 0 24 ++ be_bytes 8 (zlen tag))
  ++ tag ++ repeat 0 (padded - length tag).
Definition application_domain_v4 (tag : bytes) (deployment_id room_id : Z) : Z :=
  keccak256 (application_domain_preimage_v4 tag deployment_id room_id).
Definition card_application_domain_v4 (deployment_id room_id : Z) : Z :=
  application_domain_v4 (b_ "zkdeal/card-application/v4") deployment_id room_id.

(** ** The words as values *)
Definition batch_journal_values_v4 (journal : BatchJournalV4) : list Z :=
  [ keccak256 (b_ "BatchJournalV4(uint256 protocolVersion,bytes32 deploymentDomain,uint256 roomId,bytes32 presetHash,bytes32 manifestHash,bytes32 proofProgramId,uint64 batchIndex,uint64 startL2Block,uint64 endL2Block,uint64 previousBlockTimestamp,uint64 finalBlockTimestamp,bytes32 preStateRoot,bytes32 postStateRoot,bytes32 blockRootsHash,bytes32 preRosterRoot,bytes32 postRosterRoot,uint8 preActiveMask,uint8 postActiveMask,uint8 usedMask,uint64 inboxCursorBefore,uint64 inboxCursorAfter,bytes32 inboxInputsHash,bytes32 batchDataHash,bytes32 assetTotalsHash,bytes32 exitTotalsHash,bytes32 feeTotalsHash,bytes32 membershipDeltasHash,bytes32 previousExitRoot,bytes32 exitRoot,bool close,uint64 l1InclusionDeadline)");
    bj4_v journal;
    bj4_deployment_id journal;
    bj4_room_id journal;
    bj4_preset_hash journal;
    bj4_manifest_hash journal;
    bj4_proof_program_id journal;
    bj4_batch_index journal;
    bj4_l2_start_height journal;
    bj4_l2_end_height journal;
    bj4_previous_block_timestamp journal;
    bj4_final_block_timestamp journal;
    bj4_prev_state_root journal;
    bj4_post_state_root journal;
    bj4_block_roots_hash journal;
    bj4_pre_roster_root journal;
    bj4_post_roster_root journal;
    bj4_active_mask journal;
    bj4_post_active_mask journal;
    bj4_used_mask journal;
    bj4_inbox_start journal;
    bj4_inbox_end journal;
    bj4_inbox_inputs_hash journal;
    bj4_block_data_hash journal;
    bj4_asset_totals_hash journal;
    bj4_exit_totals_hash journal;
    bj4_fee_totals_hash journal;
    bj4_membership_deltas_hash journal;
    bj4_previous_exit_root journal;
    bj4_exit_root journal;
    bool_u64 (bj4_close journal);
    bj4_l1_inclusion_deadline journal ].
Definition genesis_journal_values_v4 (journal : GenesisJournalV4) : list Z :=
  [ keccak256 (b_ "GenesisJournalV4(uint256 protocolVersion,bytes32 deploymentDomain,uint256 roomId,bytes32 configHash,bytes32 presetHash,bytes32 manifestHash,bytes32 proofProgramId,uint64 l1BlockNumber,bytes32 l1BlockHash,bytes32 l1StateRoot,bytes32 genesisStateRoot,bytes32 genesisRosterRoot,bytes32 genesisExitRoot,uint8 activeMask,uint8 usedMask,uint64 inboxCursor,bytes32 assetTotalsHash,bytes32 exitTotalsHash,bytes32 feeTotalsHash,uint64 l1InclusionDeadline)");
    gj4_v journal;
    gj4_deployment_id journal;
    gj4_room_id journal;
    gj4_config_hash journal;
    gj4_preset_hash journal;
    gj4_manifest_hash journal;
    gj4_proof_program_id journal;
    gj4_l1_block_number journal;
    gj4_l1_block_hash journal;
    gj4_l1_state_root journal;
    gj4_genesis_state_root journal;
    gj4_genesis_roster_root journal;
    gj4_genesis_exit_root journal;
    gj4_active_mask journal;
    gj4_used_mask journal;
    gj4_inbox_cursor journal;
    gj4_asset_totals_hash journal;
    gj4_exit_totals_hash journal;
    gj4_fee_totals_hash journal;
    gj4_l1_inclusion_deadline journal ].
Definition cold_journal_values_v4 (journal : ColdRoomJournalV4) : list Z :=
  [ keccak256 (b_ "ColdRoomJournalV4(uint256 protocolVersion,bytes32 templateId,bytes32 compiledBundleHash,bytes32 presetHash,bytes32 manifestHash,bytes32 proofProgramId,uint64 constructorChainId,bytes32 initialStateRoot,bytes32 initializedStateRoot,bytes32 setupDataHash,bytes32 runtimeCodeRoot,bytes32 stateAccessRoot,bytes32 stateRefreshRoot,bytes32 staticStateCommitment,bytes32 analyzedArtifactRoot,bytes32 allowedCallTargetRoot)");
    crj_v journal;
    crj_template_id journal;
    crj_compiled_bundle_hash journal;
    crj_preset_hash journal;
    crj_manifest_hash journal;
    crj_proof_program_id journal;
    crj_constructor_chain_id journal;
    crj_initial_state_root journal;
    crj_initialized_state_root journal;
    crj_setup_data_hash journal;
    crj_runtime_code_root journal;
    crj_state_access_root journal;
    crj_state_refresh_root journal;
    crj_static_state_commitment journal;
    crj_analyzed_artifact_root journal;
    crj_allowed_call_target_root journal ].
End Commitments.

(** * Binding *)
Section Facts.
Context {KK : Keccak} {KR : KeccakRange}.

Lemma tail_inj2 (x : Z) l1 l2 : x :: l1 = x :: l2 -> l1 = l2.
Proof. congruence. Qed.

Ltac words_values :=
  cbn [map]; unfold b256_word, uint256_word;
  repeat first [ rewrite u256_word_spec by eauto 3 with word_range
               | rewrite address_word_spec by eauto 3 with word_range ];
  reflexivity.

Lemma batch_journal_words_v4_spec j : BatchJournalV4_wf j ->
  batch_journal_words_v4 j = map (be_bytes 32) (batch_journal_values_v4 j).
Proof.
  intros H. unfold BatchJournalV4_wf in H. destruct_wf H.
  unfold batch_journal_words_v4, batch_journal_values_v4. words_values.
Qed.
Lemma batch_journal_values_v4_range j : BatchJournalV4_wf j ->
  Forall in_u256 (batch_journal_values_v4 j).
Proof.
  intros H. unfold BatchJournalV4_wf in H. destruct_wf H.
  unfold batch_journal_values_v4. solve_range.
Qed.

(** What [hash_batch_journal_v4] commits: every scalar field; the three lists
    enter through their own hashes among the scalars. *)
Definition journal_scalars_v4 (j : BatchJournalV4) : list Z := tail (batch_journal_values_v4 j).

Lemma genesis_journal_words_v4_spec j : GenesisJournalV4_wf j ->
  genesis_journal_words_v4 j = map (be_bytes 32) (genesis_journal_values_v4 j).
Proof.
  intros H. unfold GenesisJournalV4_wf in H. destruct_wf H.
  unfold genesis_journal_words_v4, genesis_journal_values_v4. words_values.
Qed.
Lemma genesis_journal_values_v4_range j : GenesisJournalV4_wf j ->
  Forall in_u256 (genesis_journal_values_v4 j).
Proof.
  intros H. unfold GenesisJournalV4_wf in H. destruct_wf H.
  unfold genesis_journal_values_v4. solve_range.
Qed.

Lemma cold_journal_words_v4_spec j : ColdRoomJournalV4_wf j ->
  cold_journal_words_v4 j = map (be_bytes 32) (cold_journal_values_v4 j).
Proof.
  intros H. unfold ColdRoomJournalV4_wf in H. destruct_wf H.
  unfold cold_journal_words_v4, cold_journal_values_v4. words_values.
Qed.
Lemma cold_journal_values_v4_range j : ColdRoomJournalV4_wf j ->
  Forall in_u256 (cold_journal_values_v4 j).
Proof.
  intros H. unfold ColdRoomJournalV4_wf in H. destruct_wf H.
  unfold cold_journal_values_v4. solve_range.
Qed.
Lemma cold_journal_values_v4_inj j1 j2 :
  cold_journal_values_v4 j1 = cold_journal_values_v4 j2 -> j1 = j2.
Proof.
  destruct j1, j2. unfold cold_journal_values_v4. intros H.
  apply tail_inj2 in H. cbn in H.
  injection H. clear H. intros. subst. reflexivity.
Qed.

(** ** Roster leaves *)
Definition slot_values_v4 (s : MemberSlotWitnessV4) : list Z :=
  [ keccak256 (b_ "MemberSlotV4(uint8 slot,uint8 state,address account,uint64 joinedAtBatch,uint64 retiredAtBatch)");
    msl_slot s; msl_state s; msl_account s; msl_joined_at_batch s;
    default 0 (msl_retired_at_batch s) ].
Lemma member_slot_words_spec s : MemberSlotWitnessV4_wf s ->
  member_slot_words_v4 s = map (be_bytes 32) (slot_values_v4 s) /\
  Forall in_u256 (slot_values_v4 s).
Proof.
  intros H. unfold MemberSlotWitnessV4_wf in H. destruct_wf H.
  assert (in_u64 (default 0 (msl_retired_at_batch s))).
  { destruct (msl_retired_at_batch s); cbn in *; [assumption|unfold in_u64; lia]. }
  split; [|unfold slot_values_v4; solve_range].
  unfold member_slot_words_v4, slot_values_v4. words_values.
Qed.

Lemma member_slot_words_inj s1 s2 :
  MemberSlotWitnessV4_wf s1 -> MemberSlotWitnessV4_wf s2 ->
  concat (member_slot_words_v4 s1) = concat (member_slot_words_v4 s2) ->
  msl_slot s1 = msl_slot s2 /\ msl_state s1 = msl_state s2 /\
  msl_account s1 = msl_account s2 /\ msl_joined_at_batch s1 = msl_joined_at_batch s2 /\
  default 0 (msl_retired_at_batch s1) = default 0 (msl_retired_at_batch s2).
Proof.
  intros [E1 R1]%member_slot_words_spec [E2 R2]%member_slot_words_spec H.
  rewrite E1, E2 in H. apply words_inj' in H; [|assumption..].
  apply tail_inj2 in H. split_and!; congruence.
Qed.

Lemma length_member_slot_words s : length (concat (member_slot_words_v4 s)) = 192%nat.
Proof.
  unfold member_slot_words_v4, b256_word, u256_word, address_word.
  cbn [concat]. rewrite !length_app, !length_be_bytes. reflexivity.
Qed.

Definition roster_leaf_preimages_v4 (slots : list MemberSlotWitnessV4) : list bytes :=
  map (fun slot => concat (member_slot_words_v4 slot)) slots.

Lemma roster_leaf_preimages_ok slots :
  leaf_preimages (roster_leaf_preimages_v4 slots) (member_roster_leaves_v4 slots).
Proof.
  split.
  - unfold member_roster_leaves_v4, roster_leaf_preimages_v4. rewrite map_map. reflexivity.
  - apply Forall_map, Forall_true. intros s. rewrite length_member_slot_words. lia.
Qed.

(** Every preimage the comparison of two roster roots hashes. *)
Definition roster_root_preimages (l1 l2 : list MemberSlotWitnessV4) : list bytes :=
  roster_leaf_preimages_v4 l1 ++ roster_leaf_preimages_v4 l2
  ++ sorted_tree_preimages (member_roster_leaves_v4 l1)
  ++ sorted_tree_preimages (member_roster_leaves_v4 l2).

Lemma sorted_tree_last l1 l2 :
  l1 <> [] -> l2 <> [] -> last (sorted_tree l1) = last (sorted_tree l2) ->
  sorted_tree l1 = sorted_tree l2.
Proof.
  intros N1 N2 H. unfold sorted_tree in *.
  destruct (tree_fold_singleton sorted_layer (length l1) l1 sorted_layer_shrinking) as [r1 E1];
    [destruct l1; [done|cbn; lia]|].
  destruct (tree_fold_singleton sorted_layer (length l2) l2 sorted_layer_shrinking) as [r2 E2];
    [destruct l2; [done|cbn; lia]|].
  rewrite E1, E2 in *. cbn in H. congruence.
Qed.

(** Equal roots: the same set of leaf encodings. *)
Lemma roster_root_binds l1 l2 root :
  no_collision (roster_root_preimages l1 l2) ->
  member_roster_root_v4 l1 = Some root -> member_roster_root_v4 l2 = Some root ->
  forall p, p ∈ roster_leaf_preimages_v4 l1 <-> p ∈ roster_leaf_preimages_v4 l2.
Proof.
  intros Hn H1 H2.
  assert (N : l1 <> [] /\ l2 <> []) by (destruct l1, l2; split; try discriminate; done).
  destruct N as [N1 N2].
  assert (H : last (sorted_tree (member_roster_leaves_v4 l1))
              = last (sorted_tree (member_roster_leaves_v4 l2))).
  { destruct l1; [done|]. destruct l2; [done|]. etransitivity; [exact H1|symmetry; exact H2]. }
  apply sorted_tree_last in H; [|destruct l1; done|destruct l2; done].
  eapply sorted_tree_binds; eauto using roster_leaf_preimages_ok.
  - destruct l1; done.
  - destruct l2; done.
Qed.

(** ** Claim leaves *)
Definition claim_values (d r : Z) (a : ExitAllocationV4) : list Z :=
  [ keccak256 (b_ "ClaimLeafV4(bytes32 deploymentDomain,uint256 roomId,uint8 slot,uint8 assetId,address recipient,uint256 amount)");
    d; r; xal_slot a; xal_asset_id a; xal_recipient a; xal_amount a ].
Lemma claim_words_spec d r a : in_u256 d -> in_u64 r -> ExitAllocationV4_wf a ->
  claim_leaf_words_v4 d r a = map (be_bytes 32) (claim_values d r a) /\
  Forall in_u256 (claim_values d r a).
Proof.
  intros Hd Hr H. unfold ExitAllocationV4_wf in H. destruct_wf H.
  split; [|unfold claim_values; solve_range].
  unfold claim_leaf_words_v4, claim_values. words_values.
Qed.

Lemma claim_words_inj d r a1 a2 : in_u256 d -> in_u64 r ->
  ExitAllocationV4_wf a1 -> ExitAllocationV4_wf a2 ->
  concat (claim_leaf_words_v4 d r a1) = concat (claim_leaf_words_v4 d r a2) -> a1 = a2.
Proof.
  intros Hd Hr W1 W2 H.
  destruct (claim_words_spec d r a1 Hd Hr W1) as [E1 R1].
  destruct (claim_words_spec d r a2 Hd Hr W2) as [E2 R2].
  rewrite E1, E2 in H. apply words_inj' in H; [|assumption..].
  apply tail_inj2 in H. destruct a1, a2. cbn in H. congruence.
Qed.

Lemma length_claim_words d r a : length (concat (claim_leaf_words_v4 d r a)) = 224%nat.
Proof.
  unfold claim_leaf_words_v4, b256_word, u256_word, address_word, uint256_word.
  cbn [concat]. rewrite !length_app, !length_be_bytes. reflexivity.
Qed.

Definition claim_leaf_preimages_v4 (d r : Z) (l : list ExitAllocationV4) : list bytes :=
  map (fun a => concat (claim_leaf_words_v4 d r a)) l.

Lemma claim_leaf_preimages_ok d r l :
  leaf_preimages (claim_leaf_preimages_v4 d r l) (claim_leaves_v4 d r l).
Proof.
  split.
  - unfold claim_leaves_v4, claim_leaf_preimages_v4. rewrite map_map. reflexivity.
  - apply Forall_map, Forall_true. intros s. rewrite length_claim_words. lia.
Qed.

Definition claim_root_preimages (d r : Z) (l1 l2 : list ExitAllocationV4) : list bytes :=
  claim_leaf_preimages_v4 d r l1 ++ claim_leaf_preimages_v4 d r l2
  ++ sorted_tree_preimages (claim_leaves_v4 d r l1)
  ++ sorted_tree_preimages (claim_leaves_v4 d r l2).

(** Claims ordered by (slot, asset), as the protocol requires. *)
Definition claim_key (a : ExitAllocationV4) : Z := xal_slot a * 256 + xal_asset_id a.

Lemma claim_preimages_incl d r l1 l2 : in_u256 d -> in_u64 r ->
  Forall ExitAllocationV4_wf l1 -> Forall ExitAllocationV4_wf l2 ->
  (forall p, p ∈ claim_leaf_preimages_v4 d r l1 -> p ∈ claim_leaf_preimages_v4 d r l2) ->
  forall a, a ∈ l1 -> a ∈ l2.
Proof.
  intros Hd Hr W1 W2 H a Ha. rewrite Forall_forall in W1, W2.
  specialize (H (concat (claim_leaf_words_v4 d r a))).
  unfold claim_leaf_preimages_v4 in H.
  change (map ?f ?l) with (f <$> l) in H.
  rewrite !list_elem_of_fmap in H. destruct H as (b & Hb & Hin); [eauto|].
  apply claim_words_inj in Hb; auto. subst. exact Hin.
Qed.

Lemma sorted_tree_hd l1 l2 :
  l1 <> [] -> l2 <> [] -> hd B256_ZERO (sorted_tree l1) = hd B256_ZERO (sorted_tree l2) ->
  sorted_tree l1 = sorted_tree l2.
Proof.
  intros N1 N2 H. unfold sorted_tree in *.
  destruct (tree_fold_singleton sorted_layer (length l1) l1 sorted_layer_shrinking) as [r1 E1];
    [destruct l1; [done|cbn; lia]|].
  destruct (tree_fold_singleton sorted_layer (length l2) l2 sorted_layer_shrinking) as [r2 E2];
    [destruct l2; [done|cbn; lia]|].
  rewrite E1, E2 in *. cbn in H. congruence.
Qed.

(** Equal claim roots of non-empty sorted lists: the same list. *)
Lemma claim_root_determines d r l1 l2 : in_u256 d -> in_u64 r ->
  Forall ExitAllocationV4_wf l1 -> Forall ExitAllocationV4_wf l2 ->
  key_sorted claim_key l1 -> key_sorted claim_key l2 -> l1 <> [] -> l2 <> [] ->
  no_collision (claim_root_preimages d r l1 l2) ->
  claim_merkle_root_v4 d r l1 = claim_merkle_root_v4 d r l2 -> l1 = l2.
Proof.
  intros Hd Hr W1 W2 S1 S2 N1 N2 Hn H.
  assert (H' : sorted_tree (claim_leaves_v4 d r l1) = sorted_tree (claim_leaves_v4 d r l2)).
  { apply sorted_tree_hd; [destruct l1; done|destruct l2; done|].
    destruct l1; [done|]. destruct l2; [done|]. exact H. }
  assert (G : forall p, p ∈ claim_leaf_preimages_v4 d r l1
                   <-> p ∈ claim_leaf_preimages_v4 d r l2).
  { eapply sorted_tree_binds; eauto using claim_leaf_preimages_ok.
    - destruct l1; done.
    - destruct l2; done. }
  apply (key_sorted_ext claim_key); [assumption..|].
  intros a. split; apply (claim_preimages_incl d r); auto; apply G.
Qed.
End Facts.

Section Claims.
Context {KK : Keccak} {KR : KeccakRange}.

(** The v4 journal hash the receipt commits fixes every scalar of the journal,
    among them the hashes of its block, exit and accounting lists: two
    machine-typed journals with one hash agree on all 31 words, as long as keccak
    does not collide on the two encodings. *)
Theorem hash_batch_journal_v4_binding (j1 j2 : BatchJournalV4) :
  BatchJournalV4_wf j1 -> BatchJournalV4_wf j2 ->
  no_collision [concat (batch_journal_words_v4 j1); concat (batch_journal_words_v4 j2)] ->
  hash_batch_journal_v4 j1 = hash_batch_journal_v4 j2 ->
  journal_scalars_v4 j1 = journal_scalars_v4 j2.
Proof.
  intros W1 W2 Hn H. apply (keccak256_inj _ _ Hn) in H.
  rewrite !batch_journal_words_v4_spec in H by assumption.
  apply words_inj' in H; auto using batch_journal_values_v4_range.
  unfold journal_scalars_v4. rewrite H. reflexivity.
Qed.

(** The exit root L1 honours determines the exact list of claims: two lists of
    machine-typed allocations in the protocol's strict (slot, asset) order with
    the same root, deployment and room are equal, although the tree sorts its
    pairs and duplicates odd nodes. *)
Theorem claim_merkle_root_v4_binding (d r : Z) (l1 l2 : list ExitAllocationV4) :
  in_u256 d -> in_u64 r ->
  Forall ExitAllocationV4_wf l1 -> Forall ExitAllocationV4_wf l2 ->
  key_sorted claim_key l1 -> key_sorted claim_key l2 -> l1 <> [] -> l2 <> [] ->
  no_collision (claim_root_preimages d r l1 l2) ->
  claim_merkle_root_v4 d r l1 = claim_merkle_root_v4 d r l2 -> l1 = l2.
Proof. apply claim_root_determines. Qed.

(** The cold journal hash determines the whole cold-preparation journal. *)
Theorem hash_cold_room_journal_v4_binding (j1 j2 : ColdRoomJournalV4) :
  ColdRoomJournalV4_wf j1 -> ColdRoomJournalV4_wf j2 ->
  no_collision [concat (cold_journal_words_v4 j1); concat (cold_journal_words_v4 j2)] ->
  hash_cold_room_journal_v4 j1 = hash_cold_room_journal_v4 j2 -> j1 = j2.
Proof.
  intros W1 W2 Hn H. apply (keccak256_inj _ _ Hn) in H.
  rewrite !cold_journal_words_v4_spec in H by assumption.
  apply words_inj' in H; auto using cold_journal_values_v4_range.
  apply cold_journal_values_v4_inj, H.
Qed.

Lemma lor_add_pow2 x n : 0 <= n -> 0 <= x < 2 ^ n -> Z.lor x (Z.shiftl 1 n) = x + 2 ^ n.
Proof.
  intros Hn Hx. rewrite Z.shiftl_1_l. rewrite Z.add_nocarry_lxor, <- Z.lxor_lor;
    [reflexivity| |];
    apply Z.bits_inj'; intros m Hm; rewrite Z.land_spec, Z.bits_0, Z.pow2_bits_eqb by lia;
    destruct (Z.eqb_spec n m) as [<-|]; rewrite ?andb_false_r, ?andb_true_r; try reflexivity;
    rewrite Z.testbit_eqb by lia; rewrite Z.div_small by lia; reflexivity.
Qed.

Lemma room_chain_id_range label d r :
  2 ^ 50 <= room_chain_id label d r < 2 ^ 51.
Proof.
  unfold room_chain_id. set (digest := keccak256 _).
  set (prefix := of_be _).
  assert (Hp : 0 <= prefix < 2 ^ 64).
  { unfold prefix. pose proof (of_be_bound (take 8 (b256_bytes digest))) as Hb.
    assert (El : length (b256_bytes digest) = 32%nat) by apply length_be_bytes.
    rewrite length_take, El in Hb. apply Hb.
    apply Forall_take. apply be_bytes_wf. }
  assert (Hs : 0 <= Z.shiftr prefix 14 < 2 ^ 50).
  { rewrite Z.shiftr_div_pow2 by lia. split; [apply Z.div_pos; lia|].
    apply Z.div_lt_upper_bound; lia. }
  rewrite (lor_add_pow2 _ 50) by lia. lia.
Qed.

(** The full application domain separates rooms: equal domains mean equal
    tag, deployment and room, unlike the 51-bit chain id. *)
Theorem application_domain_v4_binding (t1 t2 : bytes) (d1 d2 r1 r2 : Z) :
  in_u64 (zlen t1) -> in_u64 (zlen t2) -> in_u256 d1 -> in_u256 d2 ->
  in_u64 r1 -> in_u64 r2 ->
  no_collision [application_domain_preimage_v4 t1 d1 r1;
                application_domain_preimage_v4 t2 d2 r2] ->
  application_domain_v4 t1 d1 r1 = application_domain_v4 t2 d2 r2 ->
  t1 = t2 /\ d1 = d2 /\ r1 = r2.
Proof.
  intros T1 T2 D1 D2 R1 R2 Hn H. apply (keccak256_inj _ _ Hn) in H.
  unfold application_domain_preimage_v4 in H.
  apply app_inv_head in H. unfold b256_bytes in H.
  apply (prefix_inj_be 32) in H as [-> H]; [|assumption..].
  rewrite <- !app_assoc in H. apply app_inv_head in H.
  apply (prefix_inj_be 8) in H as [-> H]; [|assumption..].
  apply app_inv_head in H.
  apply (prefix_inj_be 8) in H as [Hl H]; [|assumption..].
  apply app_inj_len in H as [-> _]; [auto|]. unfold zlen in Hl. lia.
Qed.
End Claims.

(** ** Witnesses *)
Lemma hash_batch_journal_v4_binding_witness :
  @journal_scalars_v4 toy_keccak BatchJournalV4_default
  = @journal_scalars_v4 toy_keccak BatchJournalV4_default.
Proof.
  apply (@hash_batch_journal_v4_binding toy_keccak toy_keccak_range).
  - unfold BatchJournalV4_wf. cbn. solve_wf.
  - unfold BatchJournalV4_wf. cbn. solve_wf.
  - apply no_collisionb_spec. vm_compute. reflexivity.
  - reflexivity.
Defined.

Definition demo_claim (slot asset amount : Z) : ExitAllocationV4 :=
  mk_ExitAllocationV4 slot asset (1000 + slot) amount.
Definition demo_claims : list ExitAllocationV4 :=
  [demo_claim 0 0 5; demo_claim 0 7 9; demo_claim 3 0 4].

Lemma claim_merkle_root_v4_binding_witness : demo_claims = demo_claims.
Proof.
  apply (@claim_merkle_root_v4_binding toy_keccak toy_keccak_range 44 7).
  - solve_wf.
  - solve_wf.
  - unfold ExitAllocationV4_wf, demo_claims, demo_claim. solve_wf.
  - unfold ExitAllocationV4_wf, demo_claims, demo_claim. solve_wf.
  - repeat constructor; cbn; lia.
  - repeat constructor; cbn; lia.
  - discriminate.
  - discriminate.
  - apply no_collisionb_spec. vm_compute. reflexivity.
  - reflexivity.
Defined.

Lemma hash_cold_room_journal_v4_binding_witness :
  ColdRoomJournalV4_default = ColdRoomJournalV4_default.
Proof.
  apply (@hash_cold_room_journal_v4_binding toy_keccak toy_keccak_range).
  - unfold ColdRoomJournalV4_wf. cbn. solve_wf.
  - unfold ColdRoomJournalV4_wf. cbn. solve_wf.
  - apply no_collisionb_spec. vm_compute. reflexivity.
  - reflexivity.
Defined.

Lemma application_domain_v4_binding_witness :
  b_ "card" = b_ "card" /\ 5 = 5 /\ 7 = 7.
Proof.
  apply (@application_domain_v4_binding toy_keccak (b_ "card") (b_ "card") 5 5 7 7).
  - unfold zlen. cbn. solve_wf.
  - unfold zlen. cbn. solve_wf.
  - solve_wf.
  - solve_wf.
  - solve_wf.
  - solve_wf.
  - apply no_collisionb_spec. vm_compute. reflexivity.
  - reflexivity.
Defined.
