(* ===== verification/Hosting.v ===== *)
(** * Hosting statements (stf-types/src/hosting.rs)

    The data-availability equivalence of one room's batch and the recursive aggregate of
    several rooms: the statements, the canonical packing of the public bytes into blobs, the
    transcript challenge and the two validators.  [evaluate_blob] is in [BlobEval].  SHA-256
    and the BLS12-381 scalar are parameters. *)

From S2P Require Import Prelude BlobEval Types Abi.
Open Scope Z_scope.

Definition MAX_BLOBS_PER_BATCH_V1 : Z := 6.
Definition MAX_AGGREGATE_ROOMS_V1 : Z := 8.
Definition CANONICAL_BYTES_PER_FIELD_ELEMENT_V1 : Z := 31.
Definition CANONICAL_BYTES_PER_BLOB_V1 : Z :=
  FIELD_ELEMENTS_PER_BLOB_V1 * CANONICAL_BYTES_PER_FIELD_ELEMENT_V1.
Definition VERSIONED_HASH_VERSION_KZG : Z := 1.
Definition DATA_AVAILABILITY_STATEMENT_LABEL : bytes := b_ "zkdeal.data-availability.eip4844.v1".
Definition AGGREGATE_STATEMENT_LABEL : bytes := b_ "zkdeal.recursive-aggregate.v1".
Definition EQUIVALENCE_CHALLENGE_LABEL : bytes := b_ "zkdeal.blob-equivalence.challenge.v1".

Record BlobEquivalenceInputV1 := mk_BlobEquivalenceInputV1 {
  bei_deployment_domain : Z;
  bei_room_id : Z;
  bei_journal_hash : Z;
  bei_canonical_data : bytes;
  bei_blob_start_index : Z;
  bei_blob_versioned_hashes : list Z;
  bei_commitments : list bytes;
  bei_evaluation_points : list Z;
  bei_evaluations : list Z
}.

Record AggregateMemberStatementV1 := mk_AggregateMemberStatementV1 {
  ams_room_id : Z;
  ams_room_program_id : Z;
  ams_journal_hash : Z;
  ams_equivalence_program_id : Z;
  ams_equivalence_statement : Z
}.

Record AggregateInputV1 := mk_AggregateInputV1 {
  agi_deployment_domain : Z;
  agi_members : list AggregateMemberStatementV1
}.

Inductive HostingStatementError :=
| EmptyCanonicalData
| BadBlobCount
| NonCanonicalBlobCount
| BadBlobRange
| VectorLengthMismatch
| BadCommitmentLength
| BadVersionedHash
| BadChallenge
| NonCanonicalEvaluation
| EvaluationMismatch
| BadAggregateCount
| ZeroRoom
| DuplicateRoom
| ZeroRoomProgram
| IncompleteEquivalence.

(** A call ends with a value, an error of the enum, or a panic. *)
Inductive hosting_failure :=
| Refused (error : HostingStatementError)
| Panicked (message : string).

(** sha2::Sha256: the digest of the concatenated updates, 32 bytes. *)
Class Sha256 := sha256 : bytes -> bytes.
Class Sha256Range {SH : Sha256} := sha256_range : forall b, array_wf 32 (sha256 b).

(** [usize::div_ceil], for a positive divisor. *)
Definition div_ceil (n d : Z) : Z := (n + d - 1) / d.

Section Statements.
Context {KK : Keccak}.

Definition abi_b256_array_hash (values : list Z) : Z :=
  keccak_words_v5 (abi_u64_word_v5 32 :: abi_u64_word_v5 (zlen values) :: map b256_bytes values).

(** The offsets of the elements, accumulated by the first loop. *)
Fixpoint abi_offsets (offset : Z) (values : list bytes) : bytes :=
  match values with
  | [] => []
  | value :: rest =>
      abi_u64_word_v5 offset ++ abi_offsets (offset + (32 + div_ceil (zlen value) 32 * 32)) rest
  end.

(** The second loop: length word, bytes, and [resize] to the next multiple of 32 of the whole
    buffer. *)
Definition abi_append (encoded value : bytes) : bytes :=
  let encoded := encoded ++ abi_u64_word_v5 (zlen value) ++ value in
  encoded ++ repeat 0 (Z.to_nat (div_ceil (zlen encoded) 32 * 32 - zlen encoded)).

Definition abi_bytes_array (values : list bytes) : bytes :=
  let encoded := abi_u64_word_v5 32 ++ abi_u64_word_v5 (zlen values)
                 ++ abi_offsets (zlen values * 32) values in
  foldl abi_append encoded values.
Definition abi_bytes_array_hash (values : list bytes) : Z := keccak256 (abi_bytes_array values).

Definition data_availability_statement_v1 (input : BlobEquivalenceInputV1) : Z :=
  keccak_words_v5
    [ b256_bytes (keccak256 DATA_AVAILABILITY_STATEMENT_LABEL);
      b256_bytes (bei_deployment_domain input);
      abi_u64_word_v5 (bei_room_id input);
      b256_bytes (bei_journal_hash input);
      b256_bytes (keccak256 (bei_canonical_data input));
      abi_u64_word_v5 (zlen (bei_canonical_data input));
      abi_u64_word_v5 (bei_blob_start_index input);
      b256_bytes (abi_b256_array_hash (bei_blob_versioned_hashes input));
      b256_bytes (abi_bytes_array_hash (bei_commitments input));
      b256_bytes (abi_b256_array_hash (bei_evaluation_points input));
      b256_bytes (abi_b256_array_hash (bei_evaluations input)) ].

Definition aggregate_member_hash_v1 (member : AggregateMemberStatementV1) : Z :=
  keccak_words_v5
    [ abi_u64_word_v5 (ams_room_id member);
      b256_bytes (ams_room_program_id member);
      b256_bytes (ams_journal_hash member);
      b256_bytes (ams_equivalence_program_id member);
      b256_bytes (ams_equivalence_statement member) ].

Definition aggregate_statement_v1 (input : AggregateInputV1) : Z :=
  let members := map aggregate_member_hash_v1 (agi_members input) in
  keccak_words_v5
    [ b256_bytes (keccak256 AGGREGATE_STATEMENT_LABEL);
      b256_bytes (agi_deployment_domain input);
      b256_bytes (abi_b256_array_hash members) ].

(** The checks on one member, given the members before it. *)
Definition validate_member (prior : list AggregateMemberStatementV1)
    (member : AggregateMemberStatementV1)
  : result HostingStatementError (list AggregateMemberStatementV1) :=
  fail_if ams_room_id member =? 0 with ZeroRoom in
  fail_if ams_room_program_id member =? B256_ZERO with ZeroRoomProgram in
  fail_if existsb (fun earlier => ams_room_id earlier =? ams_room_id member) prior
    with DuplicateRoom in
  fail_if negb (Bool.eqb (ams_equivalence_program_id member =? B256_ZERO)
                         (ams_equivalence_statement member =? B256_ZERO))
    with IncompleteEquivalence in
  Ok (prior ++ [member]).

Definition validate_aggregate_v1 (input : AggregateInputV1) : result HostingStatementError Z :=
  fail_if (zlen (agi_members input) =? 0) || (MAX_AGGREGATE_ROOMS_V1 <? zlen (agi_members input))
    with BadAggregateCount in
  let? _ := for_each validate_member [] (agi_members input) in
  Ok (aggregate_statement_v1 input).
End Statements.

Section Equivalence.
Context {KK : Keccak} {SH : Sha256} {BS : BlsScalar}.

Definition scalar_from_be (value : Z) : option Scalar := from_bytes (rev (b256_bytes value)).
Definition scalar_to_be (value : Scalar) : Z := of_be (rev (to_bytes value)).

Definition blob_versioned_hash_v1 (commitment : bytes) : Z :=
  of_be (<[0%nat := VERSIONED_HASH_VERSION_KZG]> (sha256 commitment)).

(** The loop over the field elements from element [field_index] on, [n] of them left; the
    ones after the [break] stay zero. *)
Fixpoint field_values (n : nat) (canonical_data : bytes) (blob_start field_index : Z)
  : result hosting_failure (list Scalar) :=
  match n with
  | O => Ok []
  | S n' =>
      let start := blob_start + field_index * CANONICAL_BYTES_PER_FIELD_ELEMENT_V1 in
      if zlen canonical_data <=? start then Ok (repeat ZERO n)
      else
        let end_ := Z.min (start + CANONICAL_BYTES_PER_FIELD_ELEMENT_V1) (zlen canonical_data) in
        let payload := take (Z.to_nat (end_ - start)) (drop (Z.to_nat start) canonical_data) in
        let word := repeat 0 (Z.to_nat (32 - (end_ - start))) ++ payload in
        let? value := ok_or (scalar_from_be (of_be word))
          (Panicked "a 31-byte big-endian payload is below the BLS modulus"%string) in
        let? values := field_values n' canonical_data blob_start (field_index + 1) in
        Ok (value :: values)
  end.

Definition blob_field_values (canonical_data : bytes) (blob_index : Z)
  : result hosting_failure (list Scalar) :=
  field_values (Z.to_nat FIELD_ELEMENTS_PER_BLOB_V1) canonical_data
    (blob_index * CANONICAL_BYTES_PER_BLOB_V1) 0.

Definition canonical_blob_bytes_v1 (canonical_data : bytes) (blob_index : Z)
  : result hosting_failure bytes :=
  let? values := blob_field_values canonical_data blob_index in
  Ok (concat (map (fun value => b256_bytes (scalar_to_be value)) values)).

Definition blob_equivalence_evaluation_v1 (input : BlobEquivalenceInputV1) (blob_index : Z)
  : result hosting_failure Z :=
  let? point := ok_or (znth (bei_evaluation_points input) blob_index) (Refused BadChallenge) in
  let? z := ok_or (scalar_from_be point) (Refused BadChallenge) in
  let? values := blob_field_values (bei_canonical_data input) blob_index in
  let? value := map_err Panicked (evaluate_blob values z) in
  Ok (scalar_to_be value).

(** The transcript of one blob opening at one counter, and its digest read as a [B256]. *)
Definition challenge_transcript (input : BlobEquivalenceInputV1) (blob_index : Z)
    (versioned_hash : Z) (commitment : bytes) (counter : Z) : bytes :=
  EQUIVALENCE_CHALLENGE_LABEL
  ++ b256_bytes (bei_deployment_domain input)
  ++ be_bytes 8 (bei_room_id input)
  ++ b256_bytes (bei_journal_hash input)
  ++ b256_bytes (keccak256 (bei_canonical_data input))
  ++ be_bytes 8 (zlen (bei_canonical_data input))
  ++ be_bytes 8 (bei_blob_start_index input)
  ++ be_bytes 8 blob_index
  ++ b256_bytes versioned_hash
  ++ commitment
  ++ be_bytes 4 counter.
Definition challenge_candidate (input : BlobEquivalenceInputV1) (blob_index : Z)
    (versioned_hash : Z) (commitment : bytes) (counter : Z) : option Z :=
  let candidate :=
    of_be (sha256 (challenge_transcript input blob_index versioned_hash commitment counter)) in
  match scalar_from_be candidate with Some _ => Some candidate | None => None end.

(** The first result over the [2 ^ depth] counters from [start] on, in increasing order,
    stopping at the first [Some]. *)
Fixpoint first_counter {A} (depth : nat) (start : Z) (body : Z -> option A) : option A :=
  match depth with
  | O => body start
  | S depth =>
      match first_counter depth start body with
      | Some found => Some found
      | None => first_counter depth (start + 2 ^ Z.of_nat depth) body
      end
  end.

Definition blob_equivalence_challenge_v1 (input : BlobEquivalenceInputV1) (blob_index : Z)
  : option Z :=
  commitment ← znth (bei_commitments input) blob_index;
  versioned_hash ← znth (bei_blob_versioned_hashes input) blob_index;
  first_counter 32 0 (challenge_candidate input blob_index versioned_hash commitment).

(** The body of the validation loop. *)
Definition validate_blob (input : BlobEquivalenceInputV1) (_ : unit) (index : Z)
  : result hosting_failure unit :=
  let indexed {A} (values : list A) :=
    ok_or (znth values index) (Panicked "index out of bounds"%string) in
  let? commitment := indexed (bei_commitments input) in
  fail_if negb (zlen commitment =? 48) with Refused BadCommitmentLength in
  let? versioned_hash := indexed (bei_blob_versioned_hashes input) in
  fail_if negb (blob_versioned_hash_v1 commitment =? versioned_hash)
    with Refused BadVersionedHash in
  let? expected_challenge :=
    ok_or (blob_equivalence_challenge_v1 input index) (Refused BadChallenge) in
  let? point := indexed (bei_evaluation_points input) in
  fail_if negb (point =? expected_challenge) with Refused BadChallenge in
  let? _ := ok_or (scalar_from_be point) (Refused BadChallenge) in
  let? evaluation := indexed (bei_evaluations input) in
  let? supplied_y := ok_or (scalar_from_be evaluation) (Refused NonCanonicalEvaluation) in
  let? expected_y := blob_equivalence_evaluation_v1 input index in
  fail_if negb (scalar_to_be supplied_y =? expected_y) with Refused EvaluationMismatch in
  Ok tt.

Definition validate_blob_equivalence_v1 (input : BlobEquivalenceInputV1)
  : result hosting_failure Z :=
  fail_if zlen (bei_canonical_data input) =? 0 with Refused EmptyCanonicalData in
  let count := zlen (bei_blob_versioned_hashes input) in
  fail_if (count =? 0) || (MAX_BLOBS_PER_BATCH_V1 <? count) with Refused BadBlobCount in
  fail_if MAX_BLOBS_PER_BATCH_V1 <? bei_blob_start_index input + count with Refused BadBlobRange in
  let canonical_count := div_ceil (zlen (bei_canonical_data input)) CANONICAL_BYTES_PER_BLOB_V1 in
  fail_if negb (count =? canonical_count) with Refused NonCanonicalBlobCount in
  fail_if negb (zlen (bei_commitments input) =? count)
          || negb (zlen (bei_evaluation_points input) =? count)
          || negb (zlen (bei_evaluations input) =? count) with Refused VectorLengthMismatch in
  let? _ := for_each (validate_blob input) tt (map Z.of_nat (seq 0 (Z.to_nat count))) in
  Ok (data_availability_statement_v1 input).
End Equivalence.

(** * Properties *)

(** ** The scalar's encoding: canonical 32-byte little-endian strings (documented behaviour
    of [Scalar::from_bytes] and [Scalar::to_bytes]) *)
Class ScalarEncoding {BS : BlsScalar} : Prop := {
  from_to : forall s, from_bytes (to_bytes s) = Some s;
  to_from : forall b s, array_wf 32 b -> from_bytes b = Some s -> to_bytes s = b;
  to_bytes_wf : forall s, array_wf 32 (to_bytes s);
  zero_bytes : to_bytes ZERO = repeat 0 32
}.
(** The modulus is above [2 ^ 248]. *)
Class ScalarWide {BS : BlsScalar} : Prop :=
  canonical_small : forall b, array_wf 32 b -> of_be (rev b) < 2 ^ 248 -> is_Some (from_bytes b).

Definition blob_equivalence_wf (input : BlobEquivalenceInputV1) : Prop :=
  in_u256 (bei_deployment_domain input) /\ in_u64 (bei_room_id input)
  /\ in_u256 (bei_journal_hash input) /\ bytes_wf (bei_canonical_data input)
  /\ in_u64 (zlen (bei_canonical_data input)) /\ in_u8 (bei_blob_start_index input)
  /\ Forall in_u256 (bei_blob_versioned_hashes input)
  /\ in_u64 (zlen (bei_blob_versioned_hashes input))
  /\ Forall (fun c => bytes_wf c /\ in_u64 (zlen c)) (bei_commitments input)
  /\ in_u64 (zlen (bei_commitments input))
  /\ Forall in_u256 (bei_evaluation_points input)
  /\ in_u64 (zlen (bei_evaluation_points input))
  /\ Forall in_u256 (bei_evaluations input) /\ in_u64 (zlen (bei_evaluations input)).
Definition aggregate_member_wf (member : AggregateMemberStatementV1) : Prop :=
  in_u64 (ams_room_id member) /\ in_u256 (ams_room_program_id member)
  /\ in_u256 (ams_journal_hash member) /\ in_u256 (ams_equivalence_program_id member)
  /\ in_u256 (ams_equivalence_statement member).
Definition aggregate_wf (input : AggregateInputV1) : Prop :=
  in_u256 (agi_deployment_domain input) /\ Forall aggregate_member_wf (agi_members input)
  /\ in_u64 (zlen (agi_members input)).

Lemma znth_lookup {A} (l : list A) k : znth l (Z.of_nat k) = l !! k.
Proof. unfold znth. destruct (Z.ltb_spec (Z.of_nat k) 0); [lia|]. rewrite Nat2Z.id. reflexivity. Qed.

Lemma div_ceil_spec n d : 0 <= n -> 0 < d -> n <= div_ceil n d * d < n + d.
Proof.
  intros Hn Hd. unfold div_ceil. pose proof (Z.div_mod (n + d - 1) d).
  pose proof (Z.mod_pos_bound (n + d - 1) d). nia.
Qed.

(** ** The challenge: the least counter whose digest is a canonical scalar *)
Definition least_counter {A} (bound : Z) (body : Z -> option A) (a : A) : Prop :=
  exists c, 0 <= c < bound /\ body c = Some a /\ forall earlier, 0 <= earlier < c -> body earlier = None.

Lemma first_counter_spec {A} depth start (body : Z -> option A) :
  match first_counter depth start body with
  | Some a => exists c, start <= c < start + 2 ^ Z.of_nat depth /\ body c = Some a
                        /\ forall earlier, start <= earlier < c -> body earlier = None
  | None => forall c, start <= c < start + 2 ^ Z.of_nat depth -> body c = None
  end.
Proof.
  revert start. induction depth as [|depth IH]; intros start; cbn [first_counter].
  - change (2 ^ Z.of_nat 0) with 1. destruct (body start) as [a|] eqn:E.
    + exists start. split_and!; [lia|lia|exact E|]. intros e He. lia.
    + intros c Hc. replace c with start by lia. exact E.
  - rewrite Nat2Z.inj_succ, Z.pow_succ_r by lia. pose proof (IH start) as I1.
    destruct (first_counter depth start body) as [a|].
    + destruct I1 as (c & Hc & Hb & He). exists c. split_and!; [lia|lia|exact Hb|exact He].
    + specialize (IH (start + 2 ^ Z.of_nat depth)).
      destruct (first_counter depth (start + 2 ^ Z.of_nat depth) body) as [a|].
      * destruct IH as (c & Hc & Hb & He). exists c. split_and!; [lia|lia|exact Hb|].
        intros e Hr. destruct (Z.lt_ge_cases e (start + 2 ^ Z.of_nat depth));
          [apply I1; lia|apply He; lia].
      * intros c Hc. destruct (Z.lt_ge_cases c (start + 2 ^ Z.of_nat depth));
          [apply I1; lia|apply IH; lia].
Qed.

Lemma first_counter_least {A} (body : Z -> option A) a :
  first_counter 32 0 body = Some a <-> least_counter (2 ^ 32) body a.
Proof.
  pose proof (first_counter_spec 32 0 body) as F. change (Z.of_nat 32) with 32 in F.
  unfold least_counter. destruct (first_counter 32 0 body) as [b|].
  - destruct F as (c & Hc & Hb & He). split.
    + intros E. injection E as <-. exists c. split_and!; [lia|lia|exact Hb|exact He].
    + intros (c' & Hc' & Hb' & He'). f_equal. assert (c = c'); [|congruence].
      destruct (Z.lt_trichotomy c c') as [L|[L|L]]; [|exact L|].
      * rewrite He' in Hb by lia. discriminate.
      * rewrite He in Hb' by lia. discriminate.
  - split; [discriminate|]. intros (c & Hc & Hb & _). rewrite F in Hb by lia. discriminate.
Qed.

Section Scalars.
Context {BS : BlsScalar} {SE : ScalarEncoding}.

Lemma scalar_bytes (s : Scalar) : b256_bytes (scalar_to_be s) = rev (to_bytes s).
Proof.
  destruct (to_bytes_wf s) as [L W]. unfold b256_bytes, scalar_to_be.
  rewrite <- (be_bytes_of_be (rev (to_bytes s))) at 2 by (apply Forall_rev, W).
  rewrite length_rev. unfold zlen in L. replace (length (to_bytes s)) with 32%nat by lia.
  reflexivity.
Qed.
Lemma scalar_from_to (s : Scalar) : scalar_from_be (scalar_to_be s) = Some s.
Proof. unfold scalar_from_be. rewrite scalar_bytes, rev_involutive. apply from_to. Qed.
Lemma scalar_to_be_inj (s t : Scalar) : scalar_to_be s = scalar_to_be t -> s = t.
Proof. intros H. apply (f_equal scalar_from_be) in H. rewrite !scalar_from_to in H. congruence. Qed.

(** A word of at most 31 payload bytes behind zeros is a scalar, encoded as that word. *)
Definition element_word (payload : bytes) : bytes := repeat 0 (32 - length payload) ++ payload.

Lemma element_word_wf payload :
  (length payload <= 31)%nat -> bytes_wf payload -> array_wf 32 (element_word payload).
Proof.
  intros L W. unfold element_word. split.
  - unfold zlen. rewrite length_app, repeat_length. lia.
  - apply Forall_app. split; [|exact W]. apply Forall_forall. intros x Hx.
    apply list_elem_of_In, repeat_spec in Hx as ->. unfold is_byte. lia.
Qed.
Lemma of_be_zeros n payload : of_be (repeat 0 n ++ payload) = of_be payload.
Proof. unfold of_be. induction n as [|n IH]; [reflexivity|]. exact IH. Qed.

Lemma element_scalar {SW : ScalarWide} payload :
  (length payload <= 31)%nat -> bytes_wf payload ->
  exists s, scalar_from_be (of_be (element_word payload)) = Some s
            /\ b256_bytes (scalar_to_be s) = element_word payload.
Proof.
  intros L W. pose proof (element_word_wf payload L W) as [Lw Ww]. unfold zlen in Lw.
  assert (B : b256_bytes (of_be (element_word payload)) = element_word payload).
  { unfold b256_bytes. rewrite <- (be_bytes_of_be (element_word payload) Ww) at 2.
    f_equal. lia. }
  assert (R : array_wf 32 (rev (element_word payload))).
  { split; [unfold zlen; rewrite length_rev; exact Lw|apply Forall_rev, Ww]. }
  unfold scalar_from_be. rewrite B. destruct (canonical_small _ R) as [s Hs].
  - rewrite rev_involutive. unfold element_word. rewrite of_be_zeros.
    pose proof (of_be_bound payload W) as Hb.
    assert (256 ^ Z.of_nat (length payload) <= 256 ^ 31) by (apply Z.pow_le_mono_r; lia).
    change (256 ^ 31) with (2 ^ 248) in *. lia.
  - exists s. split; [exact Hs|]. rewrite scalar_bytes, (to_from _ _ R Hs). apply rev_involutive.
Qed.
End Scalars.

(** ** Packing: one 32-byte element per 31 bytes of data *)
Fixpoint elements (n : nat) (data : bytes) : bytes :=
  match n with
  | O => []
  | S n => element_word (take 31 data) ++ elements n (drop 31 data)
  end.

(** The reader of packed elements, which knows how many bytes they carry. *)
Fixpoint unpack (n : nat) (packed : bytes) (remaining : Z) : bytes :=
  match n with
  | O => []
  | S n =>
      let payload := Z.min 31 remaining in
      drop (Z.to_nat (32 - payload)) (take 32 packed)
      ++ unpack n (drop 32 packed) (remaining - payload)
  end.

Lemma length_element_word payload :
  (length payload <= 32)%nat -> length (element_word payload) = 32%nat.
Proof. intros H. unfold element_word. rewrite length_app, repeat_length. lia. Qed.

Lemma length_elements n data : length (elements n data) = (32 * n)%nat.
Proof.
  revert data. induction n as [|n IH]; intros data; [reflexivity|]. cbn [elements].
  rewrite length_app, IH, length_element_word; [lia|]. rewrite length_take. lia.
Qed.

Lemma elements_app n m data :
  elements (n + m) data = elements n data ++ elements m (drop (31 * n) data).
Proof.
  revert data. induction n as [|n IH]; intros data; [reflexivity|].
  cbn [Nat.add elements]. rewrite IH, <- app_assoc, drop_drop. do 4 f_equal. lia.
Qed.

Lemma elements_nil n : elements n [] = repeat 0 (32 * n).
Proof.
  induction n as [|n IH]; [reflexivity|]. cbn [elements take drop]. rewrite IH.
  replace (32 * S n)%nat with (32 + 32 * n)%nat by lia. rewrite repeat_app. reflexivity.
Qed.

Lemma unpack_elements n data :
  (length data <= 31 * n)%nat -> unpack n (elements n data) (zlen data) = data.
Proof.
  revert data. induction n as [|n IH]; intros data H.
  - destruct data; [reflexivity|cbn in H; lia].
  - cbn [unpack elements].
    assert (Lt : length (take 31 data) = Nat.min 31 (length data)) by apply length_take.
    assert (Le : length (element_word (take 31 data)) = 32%nat)
      by (apply length_element_word; lia).
    rewrite take_app_length', drop_app_length' by (symmetry; exact Le).
    replace (zlen data - Z.min 31 (zlen data)) with (zlen (drop 31 data))
      by (unfold zlen; rewrite length_drop; lia).
    rewrite IH by (rewrite length_drop; lia).
    unfold element_word. rewrite drop_app_length' by (rewrite repeat_length, Lt; unfold zlen; lia).
    apply take_drop.
Qed.

Section Packing.
Context {BS : BlsScalar} {SE : ScalarEncoding} {SW : ScalarWide}.

Definition packed (values : list Scalar) : bytes :=
  concat (map (fun value => b256_bytes (scalar_to_be value)) values).

Lemma packed_zeros n : packed (repeat ZERO n) = repeat 0 (32 * n).
Proof.
  induction n as [|n IH]; [reflexivity|]. unfold packed in *. cbn [repeat map concat].
  rewrite IH, scalar_bytes, zero_bytes.
  replace (32 * S n)%nat with (32 + 32 * n)%nat by lia. rewrite repeat_app. reflexivity.
Qed.

Lemma field_values_spec n data blob_start index :
  bytes_wf data -> 0 <= blob_start -> 0 <= index ->
  exists values, field_values n data blob_start index = Ok values
    /\ length values = n
    /\ packed values = elements n (drop (Z.to_nat (blob_start + index * 31)) data).
Proof.
  intros W Hb. revert index. induction n as [|n IH]; intros index Hi; [exists []; auto|].
  cbn [field_values]. unfold CANONICAL_BYTES_PER_FIELD_ELEMENT_V1.
  set (start := blob_start + index * 31). assert (Hs0 : 0 <= start) by (unfold start; lia).
  destruct (Z.leb_spec (zlen data) start) as [G|G].
  - exists (repeat ZERO (S n)). rewrite repeat_length, packed_zeros.
    rewrite drop_ge by (unfold zlen in G; lia). rewrite elements_nil. auto.
  - set (rest := drop (Z.to_nat start) data).
    assert (Lr : zlen rest = zlen data - start) by (unfold rest, zlen; rewrite length_drop; unfold zlen in *; lia).
    assert (E : take (Z.to_nat (Z.min (start + 31) (zlen data) - start)) rest = take 31 rest).
    { destruct (Z.le_gt_cases (start + 31) (zlen data)).
      - f_equal. lia.
      - rewrite !take_ge; [reflexivity| |]; unfold zlen in *; lia. }
    fold rest. rewrite E.
    assert (Ew : repeat 0 (Z.to_nat (32 - (Z.min (start + 31) (zlen data) - start)))
                ++ take 31 rest = element_word (take 31 rest)).
    { unfold element_word. do 2 f_equal. rewrite length_take. unfold zlen in *. lia. }
    rewrite Ew.
    destruct (element_scalar (take 31 rest)) as (s & Hs & Hw).
    { rewrite length_take. lia. }
    { apply Forall_take, Forall_drop, W. }
    rewrite Hs. cbn [ok_or rbind]. destruct (IH (index + 1) ltac:(lia)) as (l & Hl & Ll & Hp).
    rewrite Hl. exists (s :: l). cbn [rbind]. split; [reflexivity|].
    split; [cbn; congruence|]. cbn [elements]. unfold packed in *. cbn [map concat].
    rewrite Hw, Hp. unfold rest. rewrite drop_drop. do 3 f_equal. lia.
Qed.

Lemma blob_field_values_total data index :
  bytes_wf data -> 0 <= index ->
  exists values, blob_field_values data index = Ok values
    /\ packed values = elements (Z.to_nat FIELD_ELEMENTS_PER_BLOB_V1)
                         (drop (Z.to_nat (index * CANONICAL_BYTES_PER_BLOB_V1)) data).
Proof.
  intros W Hi. unfold blob_field_values.
  destruct (field_values_spec (Z.to_nat FIELD_ELEMENTS_PER_BLOB_V1) data
    (index * CANONICAL_BYTES_PER_BLOB_V1) 0 W) as (l & -> & _ & Hp).
  - assert (0 <= CANONICAL_BYTES_PER_BLOB_V1) by discriminate. nia.
  - lia.
  - rewrite Z.mul_0_l, Z.add_0_r in Hp. exists l. auto.
Qed.

Lemma blob_bytes_spec data index :
  bytes_wf data -> 0 <= index ->
  canonical_blob_bytes_v1 data index
  = Ok (elements (Z.to_nat FIELD_ELEMENTS_PER_BLOB_V1)
          (drop (Z.to_nat (index * CANONICAL_BYTES_PER_BLOB_V1)) data)).
Proof.
  intros W Hi. destruct (blob_field_values_total data index W Hi) as (l & Hl & Hp).
  unfold canonical_blob_bytes_v1. rewrite Hl. cbn [rbind]. rewrite <- Hp. reflexivity.
Qed.

(** The blobs of the data, one after the other. *)
Lemma elements_blobs n count data :
  concat (map (fun index => elements n (drop (index * (31 * n)) data)) (seq 0 count))
  = elements (count * n) data.
Proof.
  induction count as [|count IH] using nat_ind; [reflexivity|].
  rewrite seq_S, map_app, concat_app, IH. cbn [map concat]. rewrite app_nil_r.
  replace (S count * n)%nat with (count * n + n)%nat by lia. rewrite elements_app.
  do 3 f_equal. lia.
Qed.

Lemma blobs_recover data count :
  bytes_wf data -> 0 <= count -> zlen data <= count * CANONICAL_BYTES_PER_BLOB_V1 ->
  exists blobs,
    Forall2 (fun index blob => canonical_blob_bytes_v1 data index = Ok blob
                               /\ zlen blob = 32 * FIELD_ELEMENTS_PER_BLOB_V1)
      (map Z.of_nat (seq 0 (Z.to_nat count))) blobs
    /\ unpack (Z.to_nat (count * FIELD_ELEMENTS_PER_BLOB_V1)) (concat blobs) (zlen data) = data.
Proof.
  intros W Hc Hl.
  assert (HN : exists N, FIELD_ELEMENTS_PER_BLOB_V1 = Z.of_nat N)
    by (exists (Z.to_nat FIELD_ELEMENTS_PER_BLOB_V1); symmetry; apply Z2Nat.id; discriminate).
  destruct HN as [N HN].
  exists (map (fun index => elements N (drop (index * (31 * N)) data)) (seq 0 (Z.to_nat count))).
  unfold CANONICAL_BYTES_PER_BLOB_V1, CANONICAL_BYTES_PER_FIELD_ELEMENT_V1 in *. split.
  - apply Forall2_fmap, Forall_Forall2_diag, Forall_forall. intros i _. split.
    + rewrite blob_bytes_spec by (exact W || lia).
      unfold CANONICAL_BYTES_PER_BLOB_V1, CANONICAL_BYTES_PER_FIELD_ELEMENT_V1.
      rewrite HN, Nat2Z.id. do 3 f_equal. lia.
    + unfold zlen. rewrite length_elements, HN. lia.
  - rewrite elements_blobs, HN, Z2Nat.inj_mul, Nat2Z.id by lia. apply unpack_elements.
    rewrite HN in Hl. unfold zlen in Hl. nia.
Qed.
End Packing.

(** ** Acceptance of an equivalence witness *)
Lemma field_values_length {BS : BlsScalar} n data blob_start index values :
  field_values n data blob_start index = Ok values -> length values = n.
Proof.
  revert index values. induction n as [|n IH]; intros index values H; cbn [field_values] in H.
  - apply Ok_Ok in H as <-. reflexivity.
  - destruct (zlen data <=? _) in H; [apply Ok_Ok in H as <-; apply repeat_length|].
    apply rbind_Ok in H as (v & _ & H). apply rbind_Ok in H as (l & Hl & H).
    apply Ok_Ok in H as <-. cbn [length]. f_equal. eapply IH, Hl.
Qed.

#[local] Opaque field_values.
Lemma blob_field_values_length {BS : BlsScalar} data index values :
  blob_field_values data index = Ok values -> zlen values = FIELD_ELEMENTS_PER_BLOB_V1.
Proof.
  intros H. unfold zlen. rewrite (field_values_length _ _ _ _ _ H). apply Z2Nat.id. discriminate.
Qed.

#[local] Opaque first_counter blob_field_values evaluate_blob.

Section Acceptance.
Context {KK : Keccak} {SH : Sha256} {BS : BlsScalar} {SE : ScalarEncoding} {SF : ScalarField}.

(** What one accepted blob establishes: its versioned hash commits to the 48-byte commitment,
    its point is the least-counter challenge of the transcript, and the evaluation is the
    canonical encoding of the value at the point of the polynomial whose values on the domain
    are the packed public bytes. *)
Definition blob_opened (input : BlobEquivalenceInputV1) (index : Z) : Prop :=
  exists commitment point z values coefficients evaluation,
    znth (bei_commitments input) index = Some commitment /\ zlen commitment = 48
    /\ znth (bei_blob_versioned_hashes input) index = Some (blob_versioned_hash_v1 commitment)
    /\ znth (bei_evaluation_points input) index = Some point
    /\ least_counter (2 ^ 32)
         (challenge_candidate input index (blob_versioned_hash_v1 commitment) commitment) point
    /\ scalar_from_be point = Some z
    /\ blob_field_values (bei_canonical_data input) index = Ok values
    /\ blob_polynomial values coefficients
    /\ znth (bei_evaluations input) index = Some evaluation
    /\ scalar_from_be evaluation = Some (peval coefficients z).

Lemma validate_blob_spec input index :
  validate_blob input tt index = Ok tt <-> blob_opened input index.
Proof.
  unfold validate_blob, blob_equivalence_evaluation_v1, blob_equivalence_challenge_v1. split.
  - intros H. apply rbind_Ok in H as (commitment & Hc & H). apply ok_or_Ok in Hc.
    apply fail_if_Ok in H as [G H]. apply negb_eqb_false in G.
    apply rbind_Ok in H as (hash & Hh & H). apply ok_or_Ok in Hh.
    apply fail_if_Ok in H as [G1 H]. apply negb_eqb_false in G1. subst hash.
    rewrite Hc, Hh in H. cbn [mbind option_bind] in H.
    apply rbind_Ok in H as (challenge & Hch & H). apply ok_or_Ok, first_counter_least in Hch.
    apply rbind_Ok in H as (point & Hp & H). apply ok_or_Ok in Hp.
    apply fail_if_Ok in H as [G2 H]. apply negb_eqb_false in G2. subst challenge.
    apply rbind_Ok in H as (z & Hz & H). apply ok_or_Ok in Hz.
    apply rbind_Ok in H as (evaluation & He & H). apply ok_or_Ok in He.
    apply rbind_Ok in H as (supplied & Hs & H). apply ok_or_Ok in Hs.
    apply rbind_Ok in H as (expected & Hx & H). apply fail_if_Ok in H as [G3 _].
    apply negb_eqb_false in G3. rewrite Hp in Hx. cbn [ok_or rbind] in Hx.
    rewrite Hz in Hx. cbn [ok_or rbind] in Hx. apply rbind_Ok in Hx as (values & Hv & Hx).
    apply rbind_Ok in Hx as (y & Hy & Hx). apply map_err_Ok in Hy. apply Ok_Ok in Hx as <-.
    apply scalar_to_be_inj in G3 as ->.
    apply evaluate_blob_refines in Hy as (coefficients & Hpoly & ->);
      [|exact (blob_field_values_length _ _ _ Hv)].
    exists commitment, point, z, values, coefficients, evaluation. split_and!; assumption.
  - intros (commitment & point & z & values & coefficients & evaluation & Hc & L & Hh & Hp & Hch
      & Hz & Hv & Hpoly & He & Hs).
    apply first_counter_least in Hch. rewrite Hc. cbn [ok_or rbind].
    rewrite (proj2 (negb_eqb_false _ _) L), Hh. cbn [ok_or rbind mbind option_bind].
    rewrite Z.eqb_refl. cbn [negb]. rewrite Hch. cbn [ok_or rbind]. rewrite Hp. cbn [ok_or rbind].
    rewrite Z.eqb_refl. cbn [negb]. rewrite Hz. cbn [ok_or rbind]. rewrite He. cbn [ok_or rbind].
    rewrite Hs. cbn [ok_or rbind]. rewrite Hv. cbn [rbind].
    rewrite (proj2 (evaluate_blob_refines values z _ (blob_field_values_length _ _ _ Hv))
               (ex_intro _ _ (conj Hpoly eq_refl))).
    cbn [map_err rbind]. rewrite Z.eqb_refl. reflexivity.
Qed.

Definition equivalence_shape (input : BlobEquivalenceInputV1) : Prop :=
  let count := zlen (bei_blob_versioned_hashes input) in
  1 <= count <= MAX_BLOBS_PER_BATCH_V1
  /\ bei_blob_start_index input + count <= MAX_BLOBS_PER_BATCH_V1
  /\ (count - 1) * CANONICAL_BYTES_PER_BLOB_V1 < zlen (bei_canonical_data input)
       <= count * CANONICAL_BYTES_PER_BLOB_V1
  /\ zlen (bei_commitments input) = count /\ zlen (bei_evaluation_points input) = count
  /\ zlen (bei_evaluations input) = count.

Lemma div_ceil_eq n d q : 0 < d -> div_ceil n d = q <-> (q - 1) * d < n <= q * d.
Proof.
  intros Hd. unfold div_ceil. split.
  - intros <-. pose proof (Z.div_mod (n + d - 1) d). pose proof (Z.mod_pos_bound (n + d - 1) d). nia.
  - intros H. symmetry. apply (Z.div_unique_pos _ _ _ (n + d - 1 - q * d)); nia.
Qed.

Lemma validate_equivalence_spec input statement :
  validate_blob_equivalence_v1 input = Ok statement <->
  equivalence_shape input
  /\ (forall index, 0 <= index < zlen (bei_blob_versioned_hashes input) -> blob_opened input index)
  /\ statement = data_availability_statement_v1 input.
Proof.
  unfold validate_blob_equivalence_v1, equivalence_shape. cbv zeta.
  assert (Hd : 0 < CANONICAL_BYTES_PER_BLOB_V1) by reflexivity.
  set (data := bei_canonical_data input). set (count := zlen (bei_blob_versioned_hashes input)).
  assert (H0 : 0 <= count) by (unfold count, zlen; lia).
  assert (Hl : forall index, index ∈ map Z.of_nat (seq 0 (Z.to_nat count)) <-> 0 <= index < count).
  { intros index. setoid_rewrite list_elem_of_fmap. setoid_rewrite elem_of_seq. split.
    - intros (k & -> & Hk). lia.
    - intros Hi. exists (Z.to_nat index). lia. }
  rewrite !fail_if_Ok, Z.eqb_neq, orb_false_iff, Z.eqb_neq, !Z.ltb_ge, negb_eqb_false, !orb_false_iff,
    !negb_eqb_false, rbind_Ok.
  rewrite (Z.eq_sym_iff count (div_ceil _ _)), (div_ceil_eq _ _ _ Hd).
  unfold MAX_BLOBS_PER_BATCH_V1. split.
  - intros (G & [G1 G2] & G3 & G4 & [[G5 G6] G7] & [] & Hf & E). apply Ok_Ok in E as <-.
    rewrite for_each_check in Hf. split_and!; try lia.
    intros index Hi. apply validate_blob_spec, Hf, Hl, Hi.
  - intros ((G1 & G2 & G3 & G4 & G5 & G6) & Ho & ->). split_and!; try lia; [nia|].
    exists tt. split; [|reflexivity]. apply for_each_check. intros index Hi.
    apply validate_blob_spec, Ho, Hl, Hi.
Qed.
End Acceptance.

(** ** The residue fields have the encoding *)
Lemma residue_encoding modulus two_adicity root :
  Zpos modulus <= 2 ^ 256 -> @ScalarEncoding (residue_scalar modulus two_adicity root).
Proof.
  intros Hm.
  assert (F : forall x : residue modulus, of_be (be_bytes 32 (`x)) = `x).
  { intros x. rewrite of_be_be_bytes, pow256_32. pose proof (residue_bound modulus x).
    apply Z.mod_small. lia. }
  split; unfold residue_scalar; cbn [Scalar from_bytes to_bytes ZERO].
  - intros x. rewrite rev_involutive, F. pose proof (residue_bound modulus x) as B.
    destruct (Z.ltb_spec (`x) (Zpos modulus)); [|lia]. f_equal. apply residue_self.
  - intros b s [L W] H. destruct (Z.ltb_spec (of_be (rev b)) (Zpos modulus)); [|discriminate].
    injection H as <-. cbn [proj1_sig to_residue].
    pose proof (of_be_bound (rev b) (Forall_rev W)) as B.
    rewrite Z.mod_small by lia. unfold zlen in L. rewrite <- (rev_involutive b) at 2. f_equal.
    rewrite <- (be_bytes_of_be (rev b)) at 2 by (apply Forall_rev, W). f_equal.
    rewrite length_rev. lia.
  - intros s. split; [unfold zlen; rewrite length_rev, length_be_bytes; reflexivity|].
    apply Forall_rev, be_bytes_wf.
  - cbn [proj1_sig to_residue]. rewrite Z.mod_0_l by discriminate. reflexivity.
Qed.

Lemma small_scalar_encoding : @ScalarEncoding small_scalar.
Proof. apply residue_encoding. lia. Qed.
Lemma bls_scalar_encoding : @ScalarEncoding bls_scalar.
Proof. apply residue_encoding. lia. Qed.
Lemma bls_scalar_wide : @ScalarWide bls_scalar.
Proof.
  intros b _ H. unfold bls_scalar, residue_scalar. cbn [from_bytes].
  destruct (Z.ltb_spec (of_be (rev b))
    52435875175126190479447740508185965837690552500527637822603658699938581184513); [eauto|lia].
Qed.

(** ** Aggregates *)
Section AggregateSpec.
Context {KK : Keccak}.

(** A member names a room and its program, and an equivalence proof completely or not at all. *)
Definition member_ok (member : AggregateMemberStatementV1) : Prop :=
  ams_room_id member <> 0 /\ ams_room_program_id member <> B256_ZERO
  /\ (ams_equivalence_program_id member = B256_ZERO <-> ams_equivalence_statement member = B256_ZERO).

Lemma validate_member_spec prior member done :
  validate_member prior member = Ok done <->
  member_ok member /\ ams_room_id member ∉ map ams_room_id prior /\ done = prior ++ [member].
Proof.
  unfold validate_member, member_ok.
  rewrite !fail_if_Ok, !Z.eqb_neq, negb_false_iff, eqb_true_iff, Ok_Ok, existsb_false_iff.
  assert (B : ((ams_equivalence_program_id member =? B256_ZERO)
               = (ams_equivalence_statement member =? B256_ZERO)) <->
              (ams_equivalence_program_id member = B256_ZERO
               <-> ams_equivalence_statement member = B256_ZERO)).
  { rewrite <- !Z.eqb_eq. apply eq_iff_eq_true. }
  rewrite B, list_elem_of_fmap. setoid_rewrite Z.eqb_neq. naive_solver.
Qed.

Lemma validate_members_spec members prior done :
  NoDup (map ams_room_id prior) ->
  for_each validate_member prior members = Ok done <->
  Forall member_ok members /\ NoDup (map ams_room_id (prior ++ members)) /\ done = prior ++ members.
Proof.
  revert prior. induction members as [|m l IH]; intros prior Hn; cbn [for_each].
  - rewrite app_nil_r, Ok_Ok. split; [intros <-; repeat constructor; exact Hn|intros (_ & _ & ->); reflexivity].
  - rewrite rbind_Ok. setoid_rewrite validate_member_spec. rewrite Forall_cons.
    assert (Ha : forall done, prior ++ m :: l = done <-> (prior ++ [m]) ++ l = done)
      by (intros; rewrite <- app_assoc; reflexivity).
    assert (Hm : ams_room_id m ∉ map ams_room_id prior <-> NoDup (map ams_room_id (prior ++ [m]))).
    { rewrite map_app, NoDup_app. cbn [map]. split.
      - intros Hi. split_and!; [exact Hn| |apply NoDup_singleton].
        intros x Hx ->%list_elem_of_singleton. contradiction.
      - intros (_ & Hd & _) Hx. apply (Hd _ Hx). left. }
    split.
    + intros (p & (Hok & Hi & ->) & Hl). apply IH in Hl as (Hf & Hd & ->); [|apply Hm, Hi].
      rewrite <- app_assoc in *. auto.
    + intros ([Hok Hf] & Hd & ->). exists (prior ++ [m]).
      assert (Hi : NoDup (map ams_room_id (prior ++ [m]))).
      { change (m :: l) with ([m] ++ l) in Hd. rewrite app_assoc, map_app in Hd.
        apply NoDup_app in Hd as [Hd _]. exact Hd. }
      split; [split_and!; [exact Hok|apply Hm, Hi|reflexivity]|].
      apply IH; [exact Hi|]. rewrite <- app_assoc. auto.
Qed.

Lemma validate_aggregate_spec input statement :
  validate_aggregate_v1 input = Ok statement <->
  1 <= zlen (agi_members input) <= MAX_AGGREGATE_ROOMS_V1
  /\ Forall member_ok (agi_members input)
  /\ NoDup (map ams_room_id (agi_members input))
  /\ statement = aggregate_statement_v1 input.
Proof.
  unfold validate_aggregate_v1. rewrite fail_if_Ok, orb_false_iff, Z.eqb_neq, Z.ltb_ge, rbind_Ok.
  setoid_rewrite (validate_members_spec _ [] _ (NoDup_nil_2 : NoDup (map ams_room_id []))).
  setoid_rewrite Ok_Ok. cbn [app]. assert (0 <= zlen (agi_members input)) by (unfold zlen; lia).
  split.
  - intros ([G1 G2] & d & (Hf & Hd & _) & <-). split_and!; auto; lia.
  - intros ([G1 G2] & Hf & Hd & ->). split; [lia|]. eauto 6.
Qed.
End AggregateSpec.

(** ** The statements bind their inputs *)
Section Binding.
Context {KK : Keccak} {KR : KeccakRange}.

Definition abi_b256_array (values : list Z) : bytes :=
  concat (abi_u64_word_v5 32 :: abi_u64_word_v5 (zlen values) :: map b256_bytes values).

Lemma abi_b256_array_inj l1 l2 :
  Forall in_u256 l1 -> Forall in_u256 l2 -> in_u64 (zlen l1) -> in_u64 (zlen l2) ->
  abi_b256_array l1 = abi_b256_array l2 -> l1 = l2.
Proof.
  unfold abi_b256_array. intros F1 F2 L1 L2 H.
  assert (W : in_u64 32) by (unfold in_u64; lia). norm_words.
  change (concat (map (be_bytes 32) (32 :: zlen l1 :: l1))
          = concat (map (be_bytes 32) (32 :: zlen l2 :: l2))) in H.
  apply words_inj' in H; [congruence|..]; (constructor; [apply in_u64_u256, W|]);
    constructor; auto with word_range.
Qed.

(** One element of [bytes[]]: its length word and its bytes, padded to whole words. *)
Definition abi_tail (value : bytes) : bytes :=
  abi_u64_word_v5 (zlen value) ++ value
  ++ repeat 0 (Z.to_nat (div_ceil (zlen value) 32 * 32 - zlen value)).

Lemma zlen_abi_word v : zlen (abi_u64_word_v5 v) = 32.
Proof. unfold zlen, abi_u64_word_v5. rewrite length_app, repeat_length, length_be_bytes. reflexivity. Qed.

Lemma div_ceil_shift n q d : 0 < d -> div_ceil (q * d + n) d = q + div_ceil n d.
Proof.
  intros Hd. unfold div_ceil. replace (q * d + n + d - 1) with (q * d + (n + d - 1)) by lia.
  rewrite Z.div_add_l by lia. reflexivity.
Qed.

Lemma abi_append_tail encoded value :
  zlen encoded mod 32 = 0 -> abi_append encoded value = encoded ++ abi_tail value.
Proof.
  intros Hm. unfold abi_append, abi_tail. rewrite <- !app_assoc. do 4 f_equal.
  rewrite !zlen_app, zlen_abi_word. apply Z.div_exact in Hm; [|lia].
  replace (zlen encoded + (32 + zlen value))
    with ((zlen encoded / 32 + 1) * 32 + zlen value) by lia.
  rewrite div_ceil_shift by lia. lia.
Qed.
Lemma zlen_abi_tail value : zlen (abi_tail value) mod 32 = 0.
Proof.
  unfold abi_tail. rewrite !zlen_app, zlen_abi_word.
  pose proof (div_ceil_spec (zlen value) 32 ltac:(unfold zlen; lia) ltac:(lia)) as D.
  unfold zlen at 2. rewrite repeat_length, Z2Nat.id by lia.
  replace (32 + (zlen value + (div_ceil (zlen value) 32 * 32 - zlen value)))
    with ((1 + div_ceil (zlen value) 32) * 32) by lia. apply Z.mod_mul. lia.
Qed.
Lemma abi_append_tails values encoded :
  zlen encoded mod 32 = 0 ->
  foldl abi_append encoded values = encoded ++ concat (map abi_tail values).
Proof.
  revert encoded. induction values as [|v l IH]; intros encoded Hm; cbn [foldl map concat].
  - rewrite app_nil_r. reflexivity.
  - rewrite abi_append_tail by exact Hm. rewrite IH, <- app_assoc; [reflexivity|].
    rewrite zlen_app, Z.add_mod, Hm, zlen_abi_tail by lia. reflexivity.
Qed.

Lemma length_abi_offsets offset values : zlen (abi_offsets offset values) = 32 * zlen values.
Proof.
  revert offset. induction values as [|v l IH]; intros offset; [reflexivity|].
  cbn [abi_offsets]. rewrite zlen_app, zlen_abi_word, IH. unfold zlen. cbn [length]. lia.
Qed.

Lemma abi_bytes_array_eq values :
  abi_bytes_array values
  = abi_u64_word_v5 32 ++ abi_u64_word_v5 (zlen values) ++ abi_offsets (zlen values * 32) values
    ++ concat (map abi_tail values).
Proof.
  unfold abi_bytes_array. rewrite abi_append_tails.
  - rewrite <- !app_assoc. reflexivity.
  - rewrite !zlen_app, !zlen_abi_word, length_abi_offsets.
    replace (32 + (32 + 32 * zlen values)) with ((2 + zlen values) * 32) by lia.
    apply Z.mod_mul. lia.
Qed.

Lemma abi_tail_inj : prefix_inj (fun value => in_u64 (zlen value)) abi_tail.
Proof.
  intros x y r s Hx Hy H. unfold abi_tail in H. rewrite !abi_u64_word_spec in H by assumption.
  rewrite <- !app_assoc in H.
  apply prefix_inj_be in H as [Hl H]; [|apply in_u64_u256, Hx|apply in_u64_u256, Hy].
  apply app_inj_len in H as [-> H]; [|unfold zlen in Hl; lia].
  apply app_inv_head in H as ->. auto.
Qed.

Lemma abi_bytes_array_inj l1 l2 :
  Forall (fun c => in_u64 (zlen c)) l1 -> Forall (fun c => in_u64 (zlen c)) l2 ->
  in_u64 (zlen l1) -> in_u64 (zlen l2) -> abi_bytes_array l1 = abi_bytes_array l2 -> l1 = l2.
Proof.
  intros F1 F2 L1 L2 H. rewrite !abi_bytes_array_eq in H. apply app_inv_head in H.
  rewrite !abi_u64_word_spec in H by assumption.
  apply prefix_inj_be in H as [Hl H]; [|apply in_u64_u256, L1|apply in_u64_u256, L2].
  pose proof (length_abi_offsets (zlen l1 * 32) l1) as O1.
  pose proof (length_abi_offsets (zlen l2 * 32) l2) as O2.
  apply app_inj_len in H as [_ H]; [|unfold zlen in *; lia].
  rewrite <- (app_nil_r (concat (map abi_tail l1))) in H.
  rewrite <- (app_nil_r (concat (map abi_tail l2))) in H.
  apply (prefix_inj_items _ _ (length l2) abi_tail_inj) in H as [-> _]; auto.
  split; [exact F1|]. unfold zlen in Hl. lia.
Qed.

Definition da_words (input : BlobEquivalenceInputV1) : list Z :=
  [ keccak256 DATA_AVAILABILITY_STATEMENT_LABEL; bei_deployment_domain input; bei_room_id input;
    bei_journal_hash input; keccak256 (bei_canonical_data input);
    zlen (bei_canonical_data input); bei_blob_start_index input;
    abi_b256_array_hash (bei_blob_versioned_hashes input);
    abi_bytes_array_hash (bei_commitments input);
    abi_b256_array_hash (bei_evaluation_points input);
    abi_b256_array_hash (bei_evaluations input) ].

Definition da_preimages (input : BlobEquivalenceInputV1) : list bytes :=
  [ concat (map (be_bytes 32) (da_words input)); bei_canonical_data input;
    abi_b256_array (bei_blob_versioned_hashes input); abi_bytes_array (bei_commitments input);
    abi_b256_array (bei_evaluation_points input); abi_b256_array (bei_evaluations input) ].

Lemma da_statement_words input :
  blob_equivalence_wf input ->
  data_availability_statement_v1 input = keccak256 (concat (map (be_bytes 32) (da_words input))).
Proof.
  intros (H1 & H2 & H3 & H4 & H5 & H6 & _). unfold data_availability_statement_v1, keccak_words_v5, da_words.
  norm_words. reflexivity.
Qed.
Lemma da_words_range input : blob_equivalence_wf input -> Forall in_u256 (da_words input).
Proof.
  intros (H1 & H2 & H3 & H4 & H5 & H6 & _). unfold da_words, abi_b256_array_hash,
    abi_bytes_array_hash, keccak_words_v5. solve_range.
Qed.

Lemma da_binding i1 i2 :
  blob_equivalence_wf i1 -> blob_equivalence_wf i2 ->
  no_collision (da_preimages i1 ++ da_preimages i2) ->
  data_availability_statement_v1 i1 = data_availability_statement_v1 i2 -> i1 = i2.
Proof.
  intros W1 W2 Hn H. rewrite !da_statement_words in H by assumption.
  assert (Inj : forall k x y, da_preimages i1 !! k = Some x -> da_preimages i2 !! k = Some y ->
            keccak256 x = keccak256 y -> x = y).
  { intros k x y Hx Hy. apply Hn; apply elem_of_app; [left|right];
    eapply list_elem_of_lookup_2; eassumption. }
  apply (Inj 0%nat _ _ eq_refl eq_refl), words_inj' in H; [|apply da_words_range; assumption..].
  unfold da_words in H. injection H as Hd Hr Hj Hc _ Hs Hv Hm Hp He.
  destruct W1 as (A1 & A2 & A3 & A4 & A5 & A6 & A7 & A8 & A9 & A10 & A11 & A12 & A13 & A14).
  destruct W2 as (B1 & B2 & B3 & B4 & B5 & B6 & B7 & B8 & B9 & B10 & B11 & B12 & B13 & B14).
  apply (Inj 1%nat _ _ eq_refl eq_refl) in Hc.
  apply (Inj 2%nat _ _ eq_refl eq_refl), abi_b256_array_inj in Hv; [|assumption..].
  apply (Inj 3%nat _ _ eq_refl eq_refl), abi_bytes_array_inj in Hm;
    [|eapply Forall_impl; [eassumption|intros ? []; assumption]
     |eapply Forall_impl; [eassumption|intros ? []; assumption]
     |assumption|assumption].
  apply (Inj 4%nat _ _ eq_refl eq_refl), abi_b256_array_inj in Hp; [|assumption..].
  apply (Inj 5%nat _ _ eq_refl eq_refl), abi_b256_array_inj in He; [|assumption..].
  destruct i1, i2. cbn in *. congruence.
Qed.

Definition member_words (member : AggregateMemberStatementV1) : list Z :=
  [ ams_room_id member; ams_room_program_id member; ams_journal_hash member;
    ams_equivalence_program_id member; ams_equivalence_statement member ].
Definition aggregate_preimages (input : AggregateInputV1) : list bytes :=
  map (fun member => concat (map (be_bytes 32) (member_words member))) (agi_members input)
  ++ [ abi_b256_array (map aggregate_member_hash_v1 (agi_members input));
       concat (map (be_bytes 32)
         [ keccak256 AGGREGATE_STATEMENT_LABEL; agi_deployment_domain input;
           abi_b256_array_hash (map aggregate_member_hash_v1 (agi_members input)) ]) ].

Lemma member_hash_words member :
  aggregate_member_wf member ->
  aggregate_member_hash_v1 member = keccak256 (concat (map (be_bytes 32) (member_words member))).
Proof.
  intros (H1 & _). unfold aggregate_member_hash_v1, keccak_words_v5, member_words.
  norm_words. reflexivity.
Qed.

Lemma member_hashes_inj P l1 l2 :
  no_collision P -> Forall aggregate_member_wf l1 -> Forall aggregate_member_wf l2 ->
  (forall m, m ∈ l1 ++ l2 -> concat (map (be_bytes 32) (member_words m)) ∈ P) ->
  map aggregate_member_hash_v1 l1 = map aggregate_member_hash_v1 l2 -> l1 = l2.
Proof.
  intros Hn F1. revert l2. induction F1 as [|m l1 W F1 IH]; intros [|m2 l2] F2 Hp H;
    try discriminate; [reflexivity|].
  inversion F2 as [|? ? W2 F2']; subst. injection H as Hm Hl. f_equal.
  - rewrite !member_hash_words in Hm by assumption.
    apply Hn in Hm; [|apply Hp, elem_of_app; left; left|apply Hp, elem_of_app; right; left].
    destruct W as (? & ? & ? & ? & ?), W2 as (? & ? & ? & ? & ?).
    apply words_inj' in Hm; [|solve_range..].
    destruct m, m2. unfold member_words in Hm. cbn in Hm. congruence.
  - apply IH; [exact F2'| |exact Hl]. intros x Hx. apply Hp. apply elem_of_app in Hx as [Hx|Hx];
      apply elem_of_app; [left|right]; right; exact Hx.
Qed.

Lemma aggregate_binding i1 i2 :
  aggregate_wf i1 -> aggregate_wf i2 ->
  no_collision (aggregate_preimages i1 ++ aggregate_preimages i2) ->
  aggregate_statement_v1 i1 = aggregate_statement_v1 i2 -> i1 = i2.
Proof.
  intros (D1 & F1 & L1) (D2 & F2 & L2) Hn H. unfold aggregate_statement_v1, keccak_words_v5 in H.
  norm_words.
  assert (R : forall l, Forall in_u256 (map aggregate_member_hash_v1 l)).
  { intros l. apply Forall_fmap, Forall_forall. intros x _. apply keccak_range. }
  match type of H with keccak256 ?a = keccak256 ?b => change (keccak256 (concat (map (be_bytes 32)
    [ keccak256 AGGREGATE_STATEMENT_LABEL; agi_deployment_domain i1;
      abi_b256_array_hash (map aggregate_member_hash_v1 (agi_members i1)) ]))
    = keccak256 (concat (map (be_bytes 32) [ keccak256 AGGREGATE_STATEMENT_LABEL; agi_deployment_domain i2;
      abi_b256_array_hash (map aggregate_member_hash_v1 (agi_members i2)) ]))) in H end.
  assert (Last : forall i k x,
    [ abi_b256_array (map aggregate_member_hash_v1 (agi_members i));
       concat (map (be_bytes 32)
         [ keccak256 AGGREGATE_STATEMENT_LABEL; agi_deployment_domain i;
           abi_b256_array_hash (map aggregate_member_hash_v1 (agi_members i)) ]) ] !! k = Some x ->
    x ∈ aggregate_preimages i).
  { intros i k x Hx. unfold aggregate_preimages. apply elem_of_app. right.
    eapply list_elem_of_lookup_2, Hx. }
  apply Hn in H; [|apply elem_of_app; left; apply (Last i1 1%nat); cbn; auto
    |apply elem_of_app; right; apply (Last i2 1%nat); cbn; auto].
  apply words_inj' in H; [|(unfold abi_b256_array_hash, keccak_words_v5; solve_range)..].
  injection H as Hd Hm. apply Hn, abi_b256_array_inj in Hm;
    [|apply R|apply R|unfold zlen in *; rewrite length_map; assumption|unfold zlen in *; rewrite length_map; assumption
     |apply elem_of_app; left; apply (Last i1 0%nat); cbn; auto
     |apply elem_of_app; right; apply (Last i2 0%nat); cbn; auto].
  apply (member_hashes_inj _ _ _ Hn F1 F2) in Hm.
  - destruct i1, i2. cbn in *. congruence.
  - intros m Hin. apply elem_of_app in Hin as [Hin|Hin]; apply elem_of_app; [left|right];
      apply elem_of_app; left; apply list_elem_of_fmap; eauto.
Qed.
End Binding.

(** ** No panic *)
Section NoPanic.
Context {KK : Keccak} {SH : Sha256} {BS : BlsScalar}
  {SE : ScalarEncoding} {SW : ScalarWide} {SF : ScalarField}.

Definition no_panic {A} (r : result hosting_failure A) : Prop :=
  forall message, r <> Err (Panicked message).

Lemma no_panic_Ok {A} (a : A) : no_panic (Ok a).
Proof. intros m. discriminate. Qed.
Lemma no_panic_refused {A} e : no_panic (A := A) (Err (Refused e)).
Proof. intros m. discriminate. Qed.
Lemma no_panic_bind {A B} (m : result hosting_failure A) (k : A -> result hosting_failure B) :
  no_panic m -> (forall a, m = Ok a -> no_panic (k a)) -> no_panic (rbind m k).
Proof.
  intros Hm Hk. destruct m as [a|e]; [exact (Hk a eq_refl)|].
  intros message E. apply (Hm message). exact (f_equal (fun r => match r with Ok _ => Err e | Err e => Err e end) E).
Qed.
Lemma no_panic_guard {A} (b : bool) e (k : result hosting_failure A) :
  (b = false -> no_panic k) -> no_panic (if b then Err (Refused e) else k).
Proof. destruct b; intros H; [apply no_panic_refused|auto]. Qed.
Lemma no_panic_option {A} (o : option A) e : no_panic (ok_or o (Refused e)).
Proof. destruct o; [apply no_panic_Ok|apply no_panic_refused]. Qed.
Lemma no_panic_index {A} (l : list A) index message :
  0 <= index < zlen l -> no_panic (ok_or (znth l index) (Panicked message)).
Proof.
  intros H. unfold znth. destruct (Z.ltb_spec index 0); [lia|].
  destruct (lookup_lt_is_Some_2 l (Z.to_nat index)) as [x ->]; [unfold zlen in H; lia|].
  apply no_panic_Ok.
Qed.

Lemma no_panic_evaluation input index :
  bytes_wf (bei_canonical_data input) -> 0 <= index ->
  no_panic (blob_equivalence_evaluation_v1 input index).
Proof.
  intros W Hi. unfold blob_equivalence_evaluation_v1.
  apply no_panic_bind; [apply no_panic_option|intros point _].
  apply no_panic_bind; [apply no_panic_option|intros z _].
  destruct (blob_field_values_total (bei_canonical_data input) index W Hi) as (values & Hv & _).
  apply no_panic_bind; [rewrite Hv; apply no_panic_Ok|].
  intros l Hl. apply blob_field_values_length in Hl.
  destruct (blob_polynomial_exists l) as (c & Hc); [apply Nat2Z.inj, Hl|].
  rewrite (proj2 (evaluate_blob_refines l z _ Hl) (ex_intro _ c (conj Hc eq_refl))).
  apply no_panic_Ok.
Qed.

Lemma no_panic_loop {A} (body : unit -> A -> result hosting_failure unit) l :
  (forall x, x ∈ l -> no_panic (body tt x)) -> no_panic (for_each body tt l).
Proof.
  induction l as [|x l IH]; intros H; cbn [for_each]; [apply no_panic_Ok|].
  apply no_panic_bind; [apply H; left|]. intros [] _. apply IH. intros y Hy. apply H. right. exact Hy.
Qed.

Lemma validate_never_panics input :
  bytes_wf (bei_canonical_data input) -> no_panic (validate_blob_equivalence_v1 input).
Proof.
  intros W. unfold validate_blob_equivalence_v1. cbv zeta. repeat (apply no_panic_guard; intros ?).
  bool_to_prop. rewrite ?negb_false_iff, ?Z.eqb_eq in *.
  apply no_panic_bind; [|intros; apply no_panic_Ok].
  apply no_panic_loop. intros index Hi. apply list_elem_of_fmap in Hi as (k & -> & Hk).
  apply elem_of_seq in Hk.
  assert (L : 0 <= Z.of_nat k < zlen (bei_blob_versioned_hashes input)) by lia.
  unfold validate_blob. cbv zeta.
  repeat first
    [ apply no_panic_guard; intros ?
    | apply no_panic_bind; [first [apply no_panic_option | apply no_panic_index; lia
                                  | apply no_panic_evaluation; [exact W|lia]]|intros ? _] ].
  apply no_panic_Ok.
Qed.
End NoPanic.

(** * Claims *)

(** C13: the equivalence validator accepts a witness exactly when the data is split into the
    least number of blobs, within the six of a transaction from its start index on, and every
    blob is opened: commitment of 48 bytes under its versioned hash, the point being the
    transcript's least-counter canonical challenge, and the evaluation being the canonical
    value, at the point, of the polynomial of degree below 4096 that takes the packed public
    bytes as values on the domain; the result is the data-availability statement. *)
Theorem blob_equivalence_exact {KK : Keccak} {SH : Sha256} {BS : BlsScalar}
    {SE : ScalarEncoding} {SF : ScalarField} input statement :
  validate_blob_equivalence_v1 input = Ok statement <->
  equivalence_shape input
  /\ (forall index, 0 <= index < zlen (bei_blob_versioned_hashes input) -> blob_opened input index)
  /\ statement = data_availability_statement_v1 input.
Proof. apply validate_equivalence_spec. Qed.

(** The canonical blobs carry the data: the blobs of the indices below the count, 4096
    canonical field elements each, read back to the public bytes given their length. *)
Theorem canonical_blobs_recover {BS : BlsScalar} {SE : ScalarEncoding} {SW : ScalarWide} data count :
  bytes_wf data -> 0 <= count -> zlen data <= count * CANONICAL_BYTES_PER_BLOB_V1 ->
  exists blobs,
    Forall2 (fun index blob => canonical_blob_bytes_v1 data index = Ok blob
                               /\ zlen blob = 32 * FIELD_ELEMENTS_PER_BLOB_V1)
      (map Z.of_nat (seq 0 (Z.to_nat count))) blobs
    /\ unpack (Z.to_nat (count * FIELD_ELEMENTS_PER_BLOB_V1)) (concat blobs) (zlen data) = data.
Proof. apply blobs_recover. Qed.

(** An aggregate is accepted exactly when it has one to eight members, all of distinct
    nonzero rooms, each with a program and with an equivalence proof that is either complete
    or absent; its result is the aggregate statement. *)
Theorem aggregate_exact {KK : Keccak} input statement :
  validate_aggregate_v1 input = Ok statement <->
  1 <= zlen (agi_members input) <= MAX_AGGREGATE_ROOMS_V1
  /\ Forall member_ok (agi_members input)
  /\ NoDup (map ams_room_id (agi_members input))
  /\ statement = aggregate_statement_v1 input.
Proof. apply validate_aggregate_spec. Qed.

(** C36: the 32-byte aggregate statement commits to the public bytes of its members: two
    aggregates with the same statement have the same members in the same order, and where a
    member carries a data-availability statement, the canonical data, blob range, versioned
    hashes, commitments, points and evaluations behind it are the same (absent a collision on
    the encodings listed). *)
Theorem aggregate_commits_to_data {KK : Keccak} {KR : KeccakRange} a1 a2 k m1 m2 i1 i2 :
  aggregate_wf a1 -> aggregate_wf a2 -> blob_equivalence_wf i1 -> blob_equivalence_wf i2 ->
  no_collision (aggregate_preimages a1 ++ aggregate_preimages a2) ->
  no_collision (da_preimages i1 ++ da_preimages i2) ->
  aggregate_statement_v1 a1 = aggregate_statement_v1 a2 ->
  agi_members a1 !! k = Some m1 -> agi_members a2 !! k = Some m2 ->
  ams_equivalence_statement m1 = data_availability_statement_v1 i1 ->
  ams_equivalence_statement m2 = data_availability_statement_v1 i2 ->
  a1 = a2 /\ i1 = i2.
Proof.
  intros A1 A2 W1 W2 N1 N2 E K1 K2 S1 S2.
  apply aggregate_binding in E as ->; [|assumption..]. split; [reflexivity|].
  apply da_binding; [assumption..|]. congruence.
Qed.

(** ** Witnesses *)
Definition demo_sha : Sha256 := fun b => be_bytes 32 ((@keccak256 toy_keccak b * 7919) mod 20000).
Definition demo_data : bytes := [9].
Definition demo_commitment : bytes := repeat 66 48.

(** One blob of a room with one public byte; the first counter is rejected. *)
Definition demo_equivalence : BlobEquivalenceInputV1 :=
  mk_BlobEquivalenceInputV1 17 7 34 demo_data 2 [@blob_versioned_hash_v1 demo_sha demo_commitment]
    [demo_commitment] [749] [3544].
Definition demo_statement : Z := @data_availability_statement_v1 toy_keccak demo_equivalence.
Definition demo_aggregate : AggregateInputV1 :=
  mk_AggregateInputV1 17 [ mk_AggregateMemberStatementV1 7 5 34 6 demo_statement;
                           mk_AggregateMemberStatementV1 12 5 35 0 0 ].

Lemma demo_values :
  @blob_field_values small_scalar demo_data 0 = Ok (small_residue 9 :: repeat (small_residue 0) 4095).
Proof. reflexivity. Qed.
Lemma demo_opened : @blob_opened toy_keccak demo_sha small_scalar demo_equivalence 0.
Proof.
  exists demo_commitment, 749, (small_residue 749), (small_residue 9 :: repeat (small_residue 0) 4095),
    (@impulse small_scalar (small_residue 9)), 3544. split_and!; try reflexivity.
  - exists 1. split; [lia|]. split; [vm_compute; reflexivity|].
    intros e He. replace e with 0 by lia. vm_compute. reflexivity.
  - apply (@impulse_polynomial small_scalar small_scalar_field).
  - change 3544 with (@scalar_to_be small_scalar (small_residue 3544)).
    rewrite (@scalar_from_to small_scalar small_scalar_encoding). f_equal. symmetry.
    apply (small_impulse 9 749 3544 6048); [discriminate|vm_compute; reflexivity|reflexivity].
Qed.
Lemma demo_equivalence_accepted :
  @validate_blob_equivalence_v1 toy_keccak demo_sha small_scalar demo_equivalence = Ok demo_statement.
Proof.
  apply (@validate_equivalence_spec toy_keccak demo_sha small_scalar small_scalar_encoding
    small_scalar_field). split_and!.
  - refine (bool_decide_unpack _ _). vm_compute. exact I.
  - intros index Hi. change (zlen (bei_blob_versioned_hashes demo_equivalence)) with 1 in Hi.
    replace index with 0 by lia. exact demo_opened.
  - reflexivity.
Qed.

Lemma blob_equivalence_exact_witness :
  equivalence_shape demo_equivalence
  /\ (forall index, 0 <= index < 1 ->
        @blob_opened toy_keccak demo_sha small_scalar demo_equivalence index).
Proof.
  destruct (proj1 (@blob_equivalence_exact toy_keccak demo_sha small_scalar small_scalar_encoding
    small_scalar_field demo_equivalence demo_statement) demo_equivalence_accepted) as (S & O & _).
  exact (conj S O).
Defined.

Lemma demo_data_wf : bytes_wf demo_data.
Proof. refine (bool_decide_unpack _ _). vm_compute. exact I. Qed.
Lemma canonical_blobs_recover_witness :
  exists blobs,
    Forall2 (fun index blob => @canonical_blob_bytes_v1 bls_scalar demo_data index = Ok blob
                               /\ zlen blob = 32 * FIELD_ELEMENTS_PER_BLOB_V1) [0] blobs
    /\ unpack (Z.to_nat (1 * FIELD_ELEMENTS_PER_BLOB_V1)) (concat blobs) 1 = demo_data.
Proof.
  apply (@canonical_blobs_recover bls_scalar bls_scalar_encoding bls_scalar_wide demo_data 1).
  - exact demo_data_wf.
  - lia.
  - intros H. discriminate H.
Defined.

Lemma demo_equivalence_wf : blob_equivalence_wf demo_equivalence.
Proof. refine (bool_decide_unpack _ _). vm_compute. exact I. Qed.
Lemma demo_aggregate_wf : aggregate_wf demo_aggregate.
Proof. refine (bool_decide_unpack _ _). vm_compute. exact I. Qed.
Lemma aggregate_commits_to_data_witness :
  demo_aggregate = demo_aggregate /\ demo_equivalence = demo_equivalence.
Proof.
  apply (@aggregate_commits_to_data toy_keccak toy_keccak_range demo_aggregate demo_aggregate 0
    (mk_AggregateMemberStatementV1 7 5 34 6 demo_statement)
    (mk_AggregateMemberStatementV1 7 5 34 6 demo_statement) demo_equivalence demo_equivalence);
    try reflexivity.
  - exact demo_aggregate_wf.
  - exact demo_aggregate_wf.
  - exact demo_equivalence_wf.
  - exact demo_equivalence_wf.
  - apply no_collisionb_spec. vm_compute. reflexivity.
  - apply no_collisionb_spec. vm_compute. reflexivity.
Defined.
