(* ===== verification/WireV1.v ===== *)
(** * The single-block wire messages ([stf-wire/src/block_v1.rs])

    The Borsh structs of a one-block witness and of its journal, their derived codecs, the
    expansion of the witness into the program's input and the fixed-length journal codec.
    The codec of the [borsh] crate is the parameter [Borsh]; its laws are [BorshLaws]. *)

From S2P Require Import Prelude Types Borsh.
Open Scope Z_scope.

(** ** src/zkvm/crates/stf-wire/src/block_v1.rs *)
Record AccountWire := mk_AccountWire {
  aw_address : bytes;
  aw_nonce : Z;
  aw_balance : bytes;
  aw_code : bytes;
  aw_storage : list (bytes * bytes)
}.

Record EnvWire := mk_EnvWire {
  ew_timestamp : Z;
  ew_gas_limit : Z
}.

Record HistoricalBlockHashWire := mk_HistoricalBlockHashWire {
  hw_number : Z;
  hw_hash : bytes
}.

Record StfInputWire := mk_StfInputWire {
  siw_room_id : Z;
  siw_block_number : Z;
  siw_prev_state_root : bytes;
  siw_state : list AccountWire;
  siw_raw_txs : list bytes;
  siw_env : EnvWire;
  siw_block_hashes : list HistoricalBlockHashWire
}.

Record JournalWire := mk_JournalWire {
  jw_v : Z;
  jw_room_id : Z;
  jw_block_number : Z;
  jw_prev_state_root : bytes;
  jw_post_state_root : bytes;
  jw_tx_commitment : bytes;
  jw_env_hash : bytes
}.

(** ** Derived codecs *)
Section Codecs.
Context {BO : Borsh}.

Definition AccountWire_codec : Codec AccountWire :=
  borsh_struct
    (fun '(x0, (x1, (x2, (x3, x4)))) =>
       mk_AccountWire x0 x1 x2 x3 x4)
    (fun w =>
       (aw_address w, (aw_nonce w, (aw_balance w, (aw_code w, aw_storage w)))))
    ((borsh_array 20) ⊗ borsh_u64 ⊗ (borsh_array 32) ⊗ (borsh_vec borsh_u8) ⊗ (borsh_vec
    ((borsh_array 32) ⊗ (borsh_array 32)))).
Definition EnvWire_codec : Codec EnvWire :=
  borsh_struct
    (fun '(x0, x1) =>
       mk_EnvWire x0 x1)
    (fun w =>
       (ew_timestamp w, ew_gas_limit w))
    (borsh_u64 ⊗ borsh_u64).
Definition HistoricalBlockHashWire_codec : Codec HistoricalBlockHashWire :=
  borsh_struct
    (fun '(x0, x1) =>
       mk_HistoricalBlockHashWire x0 x1)
    (fun w =>
       (hw_number w, hw_hash w))
    (borsh_u64 ⊗ (borsh_array 32)).
Definition StfInputWire_codec : Codec StfInputWire :=
  borsh_struct
    (fun '(x0, (x1, (x2, (x3, (x4, (x5, x6)))))) =>
       mk_StfInputWire x0 x1 x2 x3 x4 x5 x6)
    (fun w =>
       (siw_room_id w, (siw_block_number w, (siw_prev_state_root w, (siw_state w, (siw_raw_txs
       w, (siw_env w, siw_block_hashes w)))))))
    (borsh_u64 ⊗ borsh_u64 ⊗ (borsh_array 32) ⊗ (borsh_vec AccountWire_codec) ⊗ (borsh_vec
    (borsh_vec borsh_u8)) ⊗ EnvWire_codec ⊗ (borsh_vec HistoricalBlockHashWire_codec)).
Definition JournalWire_codec : Codec JournalWire :=
  borsh_struct
    (fun '(x0, (x1, (x2, (x3, (x4, (x5, x6)))))) =>
       mk_JournalWire x0 x1 x2 x3 x4 x5 x6)
    (fun w =>
       (jw_v w, (jw_room_id w, (jw_block_number w, (jw_prev_state_root w, (jw_post_state_root w,
       (jw_tx_commitment w, jw_env_hash w)))))))
    (borsh_u8 ⊗ borsh_u64 ⊗ borsh_u64 ⊗ (borsh_array 32) ⊗ (borsh_array 32) ⊗ (borsh_array 32) ⊗
    (borsh_array 32)).
End Codecs.

(** ** Expansion and journals *)
Definition l2_chain_id (room_id : Z) : Z := 77000000 + room_id mod 1000000.

Definition account_from_wire (a : AccountWire) : Z * AccountState :=
  (of_be (aw_address a),
   mk_AccountState (aw_nonce a) (of_be (aw_balance a)) (aw_code a)
     (map (fun '(k, v) => (of_be k, of_be v)) (aw_storage a))).

Definition stf_to_input (self : StfInputWire) : StfInput :=
  mk_StfInput (siw_room_id self) (siw_block_number self) (of_be (siw_prev_state_root self))
    (map account_from_wire (siw_state self)) (siw_raw_txs self) (mk_BlockEnvV1
    (siw_block_number self) (ew_timestamp (siw_env self)) (ew_gas_limit (siw_env self))
    Address_ZERO 0 B256_ZERO 0 0 (l2_chain_id (siw_room_id self))) (map (fun entry =>
    mk_HistoricalBlockHash (hw_number entry) (of_be (hw_hash entry))) (siw_block_hashes self)).

Definition journal_wire (j : StfJournal) : JournalWire :=
  mk_JournalWire (sj_v j) (sj_room_id j) (sj_block_number j) (be_bytes 32 (sj_prev_state_root
    j)) (be_bytes 32 (sj_post_state_root j)) (be_bytes 32 (sj_tx_commitment j)) (be_bytes 32
    (sj_env_hash j)).

Definition journal_of_wire (w : JournalWire) : StfJournal :=
  mk_StfJournal (jw_v w) (jw_room_id w) (jw_block_number w) (of_be (jw_prev_state_root w))
    (of_be (jw_post_state_root w)) (of_be (jw_tx_commitment w)) (of_be (jw_env_hash w)).

Definition JOURNAL_WIRE_LEN : Z := 1 + 8 + 8 + 32 + 32 + 32 + 32.

Section Functions.
Context {BO : Borsh}.

Definition input_to_borsh (w : StfInputWire) : result string bytes :=
  ok_or (to_vec StfInputWire_codec w) "input borsh encode cannot fail"%string.
Definition input_from_borsh (b : bytes) : result string StfInputWire :=
  ok_or (try_from_slice StfInputWire_codec b) "input borsh"%string.
Definition journal_to_borsh (j : StfJournal) : result string bytes :=
  ok_or (to_vec JournalWire_codec (journal_wire j)) "journal borsh encode cannot fail"%string.
Definition journal_from_borsh (b : bytes) : result string StfJournal :=
  fail_if negb (zlen b =? JOURNAL_WIRE_LEN) with "journal wire length"%string in
  let? w := ok_or (try_from_slice JournalWire_codec b) "journal borsh"%string in
  Ok (journal_of_wire w).
End Functions.

(** * Properties *)

Section Props.
Context {BO : Borsh} {BL : BorshLaws}.

#[export] Instance AccountWire_lawful : Lawful AccountWire_codec :=
  ltac:(derive_lawful).
#[export] Instance EnvWire_lawful : Lawful EnvWire_codec :=
  ltac:(derive_lawful).
#[export] Instance HistoricalBlockHashWire_lawful : Lawful HistoricalBlockHashWire_codec :=
  ltac:(derive_lawful).
#[export] Instance StfInputWire_lawful : Lawful StfInputWire_codec :=
  ltac:(derive_lawful).
#[export] Instance JournalWire_lawful : Lawful JournalWire_codec :=
  ltac:(derive_lawful).

Lemma l2_chain_id_u64 room : in_u64 (l2_chain_id room).
Proof. unfold l2_chain_id, in_u64. pose proof (Z.mod_pos_bound room 1000000). lia. Qed.
(** A legacy room can have the chain id of the cold templates. *)
Lemma legacy_room_on_template_chain room :
  l2_chain_id room = COLD_TEMPLATE_CHAIN_ID_V4 <-> room mod 1000000 = 999999.
Proof. unfold l2_chain_id, COLD_TEMPLATE_CHAIN_ID_V4. lia. Qed.
Lemma account_typed a :
  valid AccountWire_codec a -> pair_wf in_u160 AccountState_wf (account_from_wire a).
Proof. wire_typed. Qed.
Lemma stf_block_hash_typed w :
  valid HistoricalBlockHashWire_codec w ->
  HistoricalBlockHash_wf (mk_HistoricalBlockHash (hw_number w) (of_be (hw_hash w))).
Proof. wire_typed. Qed.
Hint Resolve l2_chain_id_u64 account_typed stf_block_hash_typed : wire.
Lemma stf_env_typed number timestamp gas_limit chain_id :
  in_u64 number -> in_u64 timestamp -> in_u64 gas_limit -> in_u64 chain_id ->
  BlockEnvV1_wf (mk_BlockEnvV1 number timestamp gas_limit Address_ZERO 0 B256_ZERO 0 0 chain_id).
Proof.
  intros. unfold BlockEnvV1_wf, in_u160, in_u256, Address_ZERO, B256_ZERO. cbn.
  unfold in_u64 in *. repeat split; lia.
Qed.
Hint Resolve stf_env_typed : wire.
Lemma stf_input_typed w : valid StfInputWire_codec w -> StfInput_wf (stf_to_input w).
Proof. wire_typed. Qed.

(** ** Whole messages *)
Lemma input_from_borsh_canonical b w :
  bytes_wf b ->
  input_from_borsh b = Ok w <-> valid StfInputWire_codec w /\ input_to_borsh w = Ok b.
Proof.
  intros W. unfold input_from_borsh, input_to_borsh. rewrite !ok_or_Ok. split.
  - intros H. exact (try_from_slice_canonical _ _ b w W H).
  - intros [V H]. destruct (to_vec_round _ _ w V) as (e & E & _ & D). congruence.
Qed.

Lemma journal_wire_valid j :
  StfJournal_wf j -> valid JournalWire_codec (journal_wire j) /\ journal_of_wire (journal_wire j) = j.
Proof.
  intros (H1 & H2 & H3 & H4 & H5 & H6 & H7). split.
  - cbn. auto 10 using array32_encoded.
  - destruct j. cbn in *. unfold journal_of_wire. cbn. wire_inverse. reflexivity.
Qed.
Lemma journal_of_wire_typed w :
  valid JournalWire_codec w -> StfJournal_wf (journal_of_wire w) /\ journal_wire (journal_of_wire w) = w.
Proof.
  intros V. split; [revert V; wire_typed|]. cbn in V. destruct V as (_ & _ & _ & H1 & H2 & H3 & H4).
  destruct w. unfold journal_wire. cbn in *. wire_inverse. reflexivity.
Qed.
Instance JournalWire_fixed : FixedSize JournalWire_codec := ltac:(derive_fixed).
Lemma journal_wire_length w e : to_vec JournalWire_codec w = Some e -> zlen e = JOURNAL_WIRE_LEN.
Proof. exact (has_size JournalWire_codec w e). Qed.

Lemma journal_roundtrip b j :
  bytes_wf b ->
  journal_from_borsh b = Ok j
  <-> zlen b = JOURNAL_WIRE_LEN /\ StfJournal_wf j /\ journal_to_borsh j = Ok b.
Proof.
  intros W. unfold journal_from_borsh, journal_to_borsh.
  rewrite fail_if_Ok, negb_eqb_false, rbind_Ok, ok_or_Ok. split.
  - intros (L & w & H & E). injection E as <-. apply ok_or_Ok in H.
    apply (try_from_slice_canonical _ _ b w W) in H as [V H].
    destruct (journal_of_wire_typed w V) as [T ->]. auto.
  - intros (L & T & H). split; [exact L|]. exists (journal_wire j).
    destruct (journal_wire_valid j T) as [V I]. rewrite I.
    destruct (to_vec_round _ _ _ V) as (e & E & _ & D). split; [apply ok_or_Ok; congruence|reflexivity].
Qed.
Lemma journal_encodes j :
  StfJournal_wf j -> exists b, journal_to_borsh j = Ok b /\ bytes_wf b /\ zlen b = JOURNAL_WIRE_LEN.
Proof.
  intros T. destruct (journal_wire_valid j T) as [V _].
  destruct (to_vec_round _ _ _ V) as (b & E & W & _). exists b.
  split; [unfold journal_to_borsh; rewrite E; reflexivity|].
  split; [exact W|exact (journal_wire_length _ _ E)].
Qed.

(** C34: The journal of a block has a canonical wire form: every journal of the machine types is
    encoded, in 145 bytes, and the decoder accepts exactly the encodings, returning the journal
    that was encoded. *)
Theorem journal_wire_exact :
  (forall j, StfJournal_wf j ->
     exists b, journal_to_borsh j = Ok b /\ zlen b = 145 /\ journal_from_borsh b = Ok j) /\
  (forall b j, bytes_wf b -> journal_from_borsh b = Ok j ->
     StfJournal_wf j /\ zlen b = 145 /\ journal_to_borsh j = Ok b).
Proof.
  split.
  - intros j T. destruct (journal_encodes j T) as (b & E & W & L). exists b.
    split; [exact E|]. split; [exact L|]. apply journal_roundtrip; auto.
  - intros b j W H. apply journal_roundtrip in H as (L & T & E); auto.
Qed.
End Props.

(** ** Witness: a journal in the Borsh format itself *)
Definition demo_journal : StfJournal := mk_StfJournal 2 42 7 170 187 204 221.
Lemma journal_wire_exact_witness :
  exists b, @journal_to_borsh borsh_format demo_journal = Ok b /\ zlen b = 145
    /\ @journal_from_borsh borsh_format b = Ok demo_journal.
Proof.
  apply (@journal_wire_exact borsh_format borsh_format_laws).
  refine (bool_decide_unpack _ _). vm_compute. exact I.
Defined.
