(* ===== verification/WireV4.v ===== *)
(** * The v4 witness messages ([stf-wire/src/batch_input_v4.rs], [cold_input_v4.rs])

    The Borsh structs of the batch, genesis, cold-room and composed witnesses, their derived
    codecs, and [to_input], which expands a decoded message into the program's input: the fixed
    block environment, the room's chain id and the exact length of the witness frame are added
    here and are not part of the message.  Error strings are given without their interpolated
    values; [usize] is the guest's. *)

From S2P Require Import Prelude Types Borsh Abi HashV4 WireV1.
Open Scope Z_scope.

(** ** src/zkvm/crates/stf-wire/src/batch_input_v4.rs *)
Record BatchBlockWireV4 := mk_BatchBlockWireV4 {
  bbw_block_number : Z;
  bbw_raw_txs : list bytes;
  bbw_env : EnvWire;
  bbw_expected_post_state_root : bytes
}.

Record CompactStorageWireV4 := mk_CompactStorageWireV4 {
  csww_slot : bytes;
  csww_value : bytes;
  csww_proof : list bytes
}.

Record CompactAccountWireV4 := mk_CompactAccountWireV4 {
  caww_address : bytes;
  caww_exists : bool;
  caww_nonce : Z;
  caww_balance : bytes;
  caww_code : bytes;
  caww_canonical_storage_root : bytes;
  caww_account_proof : list bytes;
  caww_storage : list CompactStorageWireV4
}.

Record CompactStateWireV4 := mk_CompactStateWireV4 {
  cstw_canonical_state_root : bytes;
  cstw_accounts : list CompactAccountWireV4
}.

Record MemberSlotWireV4 := mk_MemberSlotWireV4 {
  mslw_slot : Z;
  mslw_state : Z;
  mslw_account : bytes;
  mslw_joined_at_batch : Z;
  mslw_retired_at_batch : option Z
}.

Record AssetTotalWireV4 := mk_AssetTotalWireV4 {
  atww_asset_id : Z;
  atww_total : bytes
}.

Record ResidualAllocationWireV4 := mk_ResidualAllocationWireV4 {
  ralw_position : Z;
  ralw_asset_id : Z;
  ralw_recipient_slot : Z
}.

Record ExitAllocationWireV4 := mk_ExitAllocationWireV4 {
  xalw_slot : Z;
  xalw_asset_id : Z;
  xalw_recipient : bytes;
  xalw_amount : bytes
}.

Record InboxAssetAmountWireV4 := mk_InboxAssetAmountWireV4 {
  iaaw_asset_id : Z;
  iaaw_amount : bytes
}.

Record InboxEntryWireV4 := mk_InboxEntryWireV4 {
  inbw_index : Z;
  inbw_kind : Z;
  inbw_account : bytes;
  inbw_beneficiary_slot : Z;
  inbw_status : Z;
  inbw_deposits : list InboxAssetAmountWireV4
}.

Record MembershipDeltaWireV4 := mk_MembershipDeltaWireV4 {
  mdlw_action : Z;
  mdlw_slot : Z;
  mdlw_member : bytes;
  mdlw_join_request_index : Z;
  mdlw_acceptance_expiry : Z
}.

Record BatchInputWireV4 := mk_BatchInputWireV4 {
  biw_v : Z;
  biw_deployment_id : bytes;
  biw_room_id : Z;
  biw_preset_hash : bytes;
  biw_manifest_hash : bytes;
  biw_proof_program_id : bytes;
  biw_batch_index : Z;
  biw_l2_start_height : Z;
  biw_previous_block_timestamp : Z;
  biw_prev_state_root : bytes;
  biw_pre_roster_root : bytes;
  biw_post_roster_root : bytes;
  biw_active_mask : Z;
  biw_pre_used_mask : Z;
  biw_post_active_mask : Z;
  biw_used_mask : Z;
  biw_inbox_start : Z;
  biw_inbox_end : Z;
  biw_inbox_inputs_hash : bytes;
  biw_expected_block_data_hash : bytes;
  biw_asset_totals_hash : bytes;
  biw_exit_totals_hash : bytes;
  biw_fee_totals_hash : bytes;
  biw_membership_deltas_hash : bytes;
  biw_previous_exit_root : bytes;
  biw_exit_root : bytes;
  biw_close : bool;
  biw_l1_inclusion_deadline : Z;
  biw_canonical_preset_json : bytes;
  biw_canonical_exit_program_json : bytes;
  biw_pre_roster_slots : list MemberSlotWireV4;
  biw_post_roster_slots : list MemberSlotWireV4;
  biw_membership_deltas : list MembershipDeltaWireV4;
  biw_inbox_entries : list InboxEntryWireV4;
  biw_asset_totals : list AssetTotalWireV4;
  biw_residual_allocations : list ResidualAllocationWireV4;
  biw_previous_exit_allocations : list ExitAllocationWireV4;
  biw_compact_state : CompactStateWireV4;
  biw_blocks : list BatchBlockWireV4
}.

Record GenesisInputWireV4 := mk_GenesisInputWireV4 {
  giw_v : Z;
  giw_deployment_id : bytes;
  giw_room_id : Z;
  giw_config_hash : bytes;
  giw_preset_hash : bytes;
  giw_manifest_hash : bytes;
  giw_proof_program_id : bytes;
  giw_l1_block_number : Z;
  giw_l1_block_hash : bytes;
  giw_l1_state_root : bytes;
  giw_l1_header_rlp : bytes;
  giw_genesis_state_root : bytes;
  giw_genesis_roster_root : bytes;
  giw_genesis_exit_root : bytes;
  giw_active_mask : Z;
  giw_used_mask : Z;
  giw_inbox_cursor : Z;
  giw_asset_totals_hash : bytes;
  giw_exit_totals_hash : bytes;
  giw_fee_totals_hash : bytes;
  giw_l1_inclusion_deadline : Z;
  giw_canonical_preset_json : bytes;
  giw_canonical_exit_program_json : bytes;
  giw_roster_slots : list MemberSlotWireV4;
  giw_asset_totals : list AssetTotalWireV4;
  giw_residual_allocations : list ResidualAllocationWireV4;
  giw_compact_state : CompactStateWireV4
}.

(** ** src/zkvm/crates/stf-wire/src/cold_input_v4.rs *)
Record ColdRuntimeCodeWireV4 := mk_ColdRuntimeCodeWireV4 {
  crcw_address : bytes;
  crcw_code_hash : bytes
}.

Record ColdStateAccessWireV4 := mk_ColdStateAccessWireV4 {
  csaw_address : bytes;
  csaw_storage_slots : list bytes
}.

Record ColdStateRefreshWireV4 := mk_ColdStateRefreshWireV4 {
  csrw_address : bytes;
  csrw_refresh_nonce : bool;
  csrw_refresh_balance : bool;
  csrw_refresh_all_storage : bool;
  csrw_storage_slots : list bytes
}.

Record ColdRoomInputWireV4 := mk_ColdRoomInputWireV4 {
  criw_v : Z;
  criw_compiled_bundle_hash : bytes;
  criw_preset_hash : bytes;
  criw_manifest_hash : bytes;
  criw_proof_program_id : bytes;
  criw_initial_state_root : bytes;
  criw_initialized_state_root : bytes;
  criw_analyzed_artifact_root : bytes;
  criw_allowed_call_target_root : bytes;
  criw_initial_state : list AccountWire;
  criw_setup_blocks : list BatchBlockWireV4;
  criw_runtime_code : list ColdRuntimeCodeWireV4;
  criw_state_access : list ColdStateAccessWireV4;
  criw_state_refresh : list ColdStateRefreshWireV4
}.

Record ColdRoomJournalWireV4 := mk_ColdRoomJournalWireV4 {
  crjw_v : Z;
  crjw_template_id : bytes;
  crjw_compiled_bundle_hash : bytes;
  crjw_preset_hash : bytes;
  crjw_manifest_hash : bytes;
  crjw_proof_program_id : bytes;
  crjw_constructor_chain_id : Z;
  crjw_initial_state_root : bytes;
  crjw_initialized_state_root : bytes;
  crjw_setup_data_hash : bytes;
  crjw_runtime_code_root : bytes;
  crjw_state_access_root : bytes;
  crjw_state_refresh_root : bytes;
  crjw_static_state_commitment : bytes;
  crjw_analyzed_artifact_root : bytes;
  crjw_allowed_call_target_root : bytes
}.

Record ComposedBatchInputWireV4 := mk_ComposedBatchInputWireV4 {
  cbiw_v : Z;
  cbiw_cold_journal : ColdRoomJournalWireV4;
  cbiw_runtime_code : list ColdRuntimeCodeWireV4;
  cbiw_state_access : list ColdStateAccessWireV4;
  cbiw_state_refresh : list ColdStateRefreshWireV4;
  cbiw_batch : BatchInputWireV4
}.

(** ** Derived codecs *)
Section Codecs.
Context {BO : Borsh}.

Definition BatchBlockWireV4_codec : Codec BatchBlockWireV4 :=
  borsh_struct
    (fun '(x0, (x1, (x2, x3))) =>
       mk_BatchBlockWireV4 x0 x1 x2 x3)
    (fun w =>
       (bbw_block_number w, (bbw_raw_txs w, (bbw_env w, bbw_expected_post_state_root w))))
    (borsh_u64 ⊗ (borsh_vec (borsh_vec borsh_u8)) ⊗ EnvWire_codec ⊗ (borsh_array 32)).
Definition CompactStorageWireV4_codec : Codec CompactStorageWireV4 :=
  borsh_struct
    (fun '(x0, (x1, x2)) =>
       mk_CompactStorageWireV4 x0 x1 x2)
    (fun w =>
       (csww_slot w, (csww_value w, csww_proof w)))
    ((borsh_array 32) ⊗ (borsh_array 32) ⊗ (borsh_vec (borsh_vec borsh_u8))).
Definition CompactAccountWireV4_codec : Codec CompactAccountWireV4 :=
  borsh_struct
    (fun '(x0, (x1, (x2, (x3, (x4, (x5, (x6, x7))))))) =>
       mk_CompactAccountWireV4 x0 x1 x2 x3 x4 x5 x6 x7)
    (fun w =>
       (caww_address w, (caww_exists w, (caww_nonce w, (caww_balance w, (caww_code w,
       (caww_canonical_storage_root w, (caww_account_proof w, caww_storage w))))))))
    ((borsh_array 20) ⊗ borsh_bool ⊗ borsh_u64 ⊗ (borsh_array 32) ⊗ (borsh_vec borsh_u8) ⊗
    (borsh_array 32) ⊗ (borsh_vec (borsh_vec borsh_u8)) ⊗ (borsh_vec
    CompactStorageWireV4_codec)).
Definition CompactStateWireV4_codec : Codec CompactStateWireV4 :=
  borsh_struct
    (fun '(x0, x1) =>
       mk_CompactStateWireV4 x0 x1)
    (fun w =>
       (cstw_canonical_state_root w, cstw_accounts w))
    ((borsh_array 32) ⊗ (borsh_vec CompactAccountWireV4_codec)).
Definition MemberSlotWireV4_codec : Codec MemberSlotWireV4 :=
  borsh_struct
    (fun '(x0, (x1, (x2, (x3, x4)))) =>
       mk_MemberSlotWireV4 x0 x1 x2 x3 x4)
    (fun w =>
       (mslw_slot w, (mslw_state w, (mslw_account w, (mslw_joined_at_batch w,
       mslw_retired_at_batch w)))))
    (borsh_u8 ⊗ borsh_u8 ⊗ (borsh_array 20) ⊗ borsh_u64 ⊗ (borsh_option borsh_u64)).
Definition AssetTotalWireV4_codec : Codec AssetTotalWireV4 :=
  borsh_struct
    (fun '(x0, x1) =>
       mk_AssetTotalWireV4 x0 x1)
    (fun w =>
       (atww_asset_id w, atww_total w))
    (borsh_u8 ⊗ (borsh_array 32)).
Definition ResidualAllocationWireV4_codec : Codec ResidualAllocationWireV4 :=
  borsh_struct
    (fun '(x0, (x1, x2)) =>
       mk_ResidualAllocationWireV4 x0 x1 x2)
    (fun w =>
       (ralw_position w, (ralw_asset_id w, ralw_recipient_slot w)))
    (borsh_u8 ⊗ borsh_u8 ⊗ borsh_u8).
Definition ExitAllocationWireV4_codec : Codec ExitAllocationWireV4 :=
  borsh_struct
    (fun '(x0, (x1, (x2, x3))) =>
       mk_ExitAllocationWireV4 x0 x1 x2 x3)
    (fun w =>
       (xalw_slot w, (xalw_asset_id w, (xalw_recipient w, xalw_amount w))))
    (borsh_u8 ⊗ borsh_u8 ⊗ (borsh_array 20) ⊗ (borsh_array 32)).
Definition InboxAssetAmountWireV4_codec : Codec InboxAssetAmountWireV4 :=
  borsh_struct
    (fun '(x0, x1) =>
       mk_InboxAssetAmountWireV4 x0 x1)
    (fun w =>
       (iaaw_asset_id w, iaaw_amount w))
    (borsh_u8 ⊗ (borsh_array 32)).
Definition InboxEntryWireV4_codec : Codec InboxEntryWireV4 :=
  borsh_struct
    (fun '(x0, (x1, (x2, (x3, (x4, x5))))) =>
       mk_InboxEntryWireV4 x0 x1 x2 x3 x4 x5)
    (fun w =>
       (inbw_index w, (inbw_kind w, (inbw_account w, (inbw_beneficiary_slot w, (inbw_status w,
       inbw_deposits w))))))
    (borsh_u64 ⊗ borsh_u8 ⊗ (borsh_array 20) ⊗ borsh_u8 ⊗ borsh_u8 ⊗ (borsh_vec
    InboxAssetAmountWireV4_codec)).
Definition MembershipDeltaWireV4_codec : Codec MembershipDeltaWireV4 :=
  borsh_struct
    (fun '(x0, (x1, (x2, (x3, x4)))) =>
       mk_MembershipDeltaWireV4 x0 x1 x2 x3 x4)
    (fun w =>
       (mdlw_action w, (mdlw_slot w, (mdlw_member w, (mdlw_join_request_index w,
       mdlw_acceptance_expiry w)))))
    (borsh_u8 ⊗ borsh_u8 ⊗ (borsh_array 20) ⊗ borsh_u64 ⊗ borsh_u64).
Definition BatchInputWireV4_codec : Codec BatchInputWireV4 :=
  borsh_struct
    (fun '(x0, (x1, (x2, (x3, (x4, (x5, (x6, (x7, (x8, (x9, (x10, (x11, (x12, (x13, (x14, (x15, (x16, (x17, (x18, (x19, (x20, (x21, (x22, (x23, (x24, (x25, (x26, (x27, (x28, (x29, (x30, (x31, (x32, (x33, (x34, (x35, (x36, (x37, x38)))))))))))))))))))))))))))))))))))))) =>
       mk_BatchInputWireV4 x0 x1 x2 x3 x4 x5 x6 x7 x8 x9 x10 x11 x12 x13 x14 x15 x16 x17 x18 x19
       x20 x21 x22 x23 x24 x25 x26 x27 x28 x29 x30 x31 x32 x33 x34 x35 x36 x37 x38)
    (fun w =>
       (biw_v w, (biw_deployment_id w, (biw_room_id w, (biw_preset_hash w, (biw_manifest_hash w,
       (biw_proof_program_id w, (biw_batch_index w, (biw_l2_start_height w,
       (biw_previous_block_timestamp w, (biw_prev_state_root w, (biw_pre_roster_root w,
       (biw_post_roster_root w, (biw_active_mask w, (biw_pre_used_mask w, (biw_post_active_mask
       w, (biw_used_mask w, (biw_inbox_start w, (biw_inbox_end w, (biw_inbox_inputs_hash w,
       (biw_expected_block_data_hash w, (biw_asset_totals_hash w, (biw_exit_totals_hash w,
       (biw_fee_totals_hash w, (biw_membership_deltas_hash w, (biw_previous_exit_root w,
       (biw_exit_root w, (biw_close w, (biw_l1_inclusion_deadline w, (biw_canonical_preset_json
       w, (biw_canonical_exit_program_json w, (biw_pre_roster_slots w, (biw_post_roster_slots w,
       (biw_membership_deltas w, (biw_inbox_entries w, (biw_asset_totals w,
       (biw_residual_allocations w, (biw_previous_exit_allocations w, (biw_compact_state w,
       biw_blocks w)))))))))))))))))))))))))))))))))))))))
    (borsh_u8 ⊗ (borsh_array 32) ⊗ borsh_u64 ⊗ (borsh_array 32) ⊗ (borsh_array 32) ⊗
    (borsh_array 32) ⊗ borsh_u64 ⊗ borsh_u64 ⊗ borsh_u64 ⊗ (borsh_array 32) ⊗ (borsh_array 32) ⊗
    (borsh_array 32) ⊗ borsh_u8 ⊗ borsh_u8 ⊗ borsh_u8 ⊗ borsh_u8 ⊗ borsh_u64 ⊗ borsh_u64 ⊗
    (borsh_array 32) ⊗ (borsh_array 32) ⊗ (borsh_array 32) ⊗ (borsh_array 32) ⊗ (borsh_array 32)
    ⊗ (borsh_array 32) ⊗ (borsh_array 32) ⊗ (borsh_array 32) ⊗ borsh_bool ⊗ borsh_u64 ⊗
    (borsh_vec borsh_u8) ⊗ (borsh_vec borsh_u8) ⊗ (borsh_vec MemberSlotWireV4_codec) ⊗
    (borsh_vec MemberSlotWireV4_codec) ⊗ (borsh_vec MembershipDeltaWireV4_codec) ⊗ (borsh_vec
    InboxEntryWireV4_codec) ⊗ (borsh_vec AssetTotalWireV4_codec) ⊗ (borsh_vec
    ResidualAllocationWireV4_codec) ⊗ (borsh_vec ExitAllocationWireV4_codec) ⊗
    CompactStateWireV4_codec ⊗ (borsh_vec BatchBlockWireV4_codec)).
Definition GenesisInputWireV4_codec : Codec GenesisInputWireV4 :=
  borsh_struct
    (fun '(x0, (x1, (x2, (x3, (x4, (x5, (x6, (x7, (x8, (x9, (x10, (x11, (x12, (x13, (x14, (x15, (x16, (x17, (x18, (x19, (x20, (x21, (x22, (x23, (x24, (x25, x26)))))))))))))))))))))))))) =>
       mk_GenesisInputWireV4 x0 x1 x2 x3 x4 x5 x6 x7 x8 x9 x10 x11 x12 x13 x14 x15 x16 x17 x18
       x19 x20 x21 x22 x23 x24 x25 x26)
    (fun w =>
       (giw_v w, (giw_deployment_id w, (giw_room_id w, (giw_config_hash w, (giw_preset_hash w,
       (giw_manifest_hash w, (giw_proof_program_id w, (giw_l1_block_number w, (giw_l1_block_hash
       w, (giw_l1_state_root w, (giw_l1_header_rlp w, (giw_genesis_state_root w,
       (giw_genesis_roster_root w, (giw_genesis_exit_root w, (giw_active_mask w, (giw_used_mask
       w, (giw_inbox_cursor w, (giw_asset_totals_hash w, (giw_exit_totals_hash w,
       (giw_fee_totals_hash w, (giw_l1_inclusion_deadline w, (giw_canonical_preset_json w,
       (giw_canonical_exit_program_json w, (giw_roster_slots w, (giw_asset_totals w,
       (giw_residual_allocations w, giw_compact_state w)))))))))))))))))))))))))))
    (borsh_u8 ⊗ (borsh_array 32) ⊗ borsh_u64 ⊗ (borsh_array 32) ⊗ (borsh_array 32) ⊗
    (borsh_array 32) ⊗ (borsh_array 32) ⊗ borsh_u64 ⊗ (borsh_array 32) ⊗ (borsh_array 32) ⊗
    (borsh_vec borsh_u8) ⊗ (borsh_array 32) ⊗ (borsh_array 32) ⊗ (borsh_array 32) ⊗ borsh_u8 ⊗
    borsh_u8 ⊗ borsh_u64 ⊗ (borsh_array 32) ⊗ (borsh_array 32) ⊗ (borsh_array 32) ⊗ borsh_u64 ⊗
    (borsh_vec borsh_u8) ⊗ (borsh_vec borsh_u8) ⊗ (borsh_vec MemberSlotWireV4_codec) ⊗
    (borsh_vec AssetTotalWireV4_codec) ⊗ (borsh_vec ResidualAllocationWireV4_codec) ⊗
    CompactStateWireV4_codec).
Definition ColdRuntimeCodeWireV4_codec : Codec ColdRuntimeCodeWireV4 :=
  borsh_struct
    (fun '(x0, x1) =>
       mk_ColdRuntimeCodeWireV4 x0 x1)
    (fun w =>
       (crcw_address w, crcw_code_hash w))
    ((borsh_array 20) ⊗ (borsh_array 32)).
Definition ColdStateAccessWireV4_codec : Codec ColdStateAccessWireV4 :=
  borsh_struct
    (fun '(x0, x1) =>
       mk_ColdStateAccessWireV4 x0 x1)
    (fun w =>
       (csaw_address w, csaw_storage_slots w))
    ((borsh_array 20) ⊗ (borsh_vec (borsh_array 32))).
Definition ColdStateRefreshWireV4_codec : Codec ColdStateRefreshWireV4 :=
  borsh_struct
    (fun '(x0, (x1, (x2, (x3, x4)))) =>
       mk_ColdStateRefreshWireV4 x0 x1 x2 x3 x4)
    (fun w =>
       (csrw_address w, (csrw_refresh_nonce w, (csrw_refresh_balance w,
       (csrw_refresh_all_storage w, csrw_storage_slots w)))))
    ((borsh_array 20) ⊗ borsh_bool ⊗ borsh_bool ⊗ borsh_bool ⊗ (borsh_vec (borsh_array 32))).
Definition ColdRoomInputWireV4_codec : Codec ColdRoomInputWireV4 :=
  borsh_struct
    (fun '(x0, (x1, (x2, (x3, (x4, (x5, (x6, (x7, (x8, (x9, (x10, (x11, (x12, x13))))))))))))) =>
       mk_ColdRoomInputWireV4 x0 x1 x2 x3 x4 x5 x6 x7 x8 x9 x10 x11 x12 x13)
    (fun w =>
       (criw_v w, (criw_compiled_bundle_hash w, (criw_preset_hash w, (criw_manifest_hash w,
       (criw_proof_program_id w, (criw_initial_state_root w, (criw_initialized_state_root w,
       (criw_analyzed_artifact_root w, (criw_allowed_call_target_root w, (criw_initial_state w,
       (criw_setup_blocks w, (criw_runtime_code w, (criw_state_access w, criw_state_refresh
       w))))))))))))))
    (borsh_u8 ⊗ (borsh_array 32) ⊗ (borsh_array 32) ⊗ (borsh_array 32) ⊗ (borsh_array 32) ⊗
    (borsh_array 32) ⊗ (borsh_array 32) ⊗ (borsh_array 32) ⊗ (borsh_array 32) ⊗ (borsh_vec
    AccountWire_codec) ⊗ (borsh_vec BatchBlockWireV4_codec) ⊗ (borsh_vec
    ColdRuntimeCodeWireV4_codec) ⊗ (borsh_vec ColdStateAccessWireV4_codec) ⊗ (borsh_vec
    ColdStateRefreshWireV4_codec)).
Definition ColdRoomJournalWireV4_codec : Codec ColdRoomJournalWireV4 :=
  borsh_struct
    (fun '(x0, (x1, (x2, (x3, (x4, (x5, (x6, (x7, (x8, (x9, (x10, (x11, (x12, (x13, (x14, x15))))))))))))))) =>
       mk_ColdRoomJournalWireV4 x0 x1 x2 x3 x4 x5 x6 x7 x8 x9 x10 x11 x12 x13 x14 x15)
    (fun w =>
       (crjw_v w, (crjw_template_id w, (crjw_compiled_bundle_hash w, (crjw_preset_hash w,
       (crjw_manifest_hash w, (crjw_proof_program_id w, (crjw_constructor_chain_id w,
       (crjw_initial_state_root w, (crjw_initialized_state_root w, (crjw_setup_data_hash w,
       (crjw_runtime_code_root w, (crjw_state_access_root w, (crjw_state_refresh_root w,
       (crjw_static_state_commitment w, (crjw_analyzed_artifact_root w,
       crjw_allowed_call_target_root w))))))))))))))))
    (borsh_u8 ⊗ (borsh_array 32) ⊗ (borsh_array 32) ⊗ (borsh_array 32) ⊗ (borsh_array 32) ⊗
    (borsh_array 32) ⊗ borsh_u64 ⊗ (borsh_array 32) ⊗ (borsh_array 32) ⊗ (borsh_array 32) ⊗
    (borsh_array 32) ⊗ (borsh_array 32) ⊗ (borsh_array 32) ⊗ (borsh_array 32) ⊗ (borsh_array 32)
    ⊗ (borsh_array 32)).
Definition ComposedBatchInputWireV4_codec : Codec ComposedBatchInputWireV4 :=
  borsh_struct
    (fun '(x0, (x1, (x2, (x3, (x4, x5))))) =>
       mk_ComposedBatchInputWireV4 x0 x1 x2 x3 x4 x5)
    (fun w =>
       (cbiw_v w, (cbiw_cold_journal w, (cbiw_runtime_code w, (cbiw_state_access w,
       (cbiw_state_refresh w, cbiw_batch w))))))
    (borsh_u8 ⊗ ColdRoomJournalWireV4_codec ⊗ (borsh_vec ColdRuntimeCodeWireV4_codec) ⊗
    (borsh_vec ColdStateAccessWireV4_codec) ⊗ (borsh_vec ColdStateRefreshWireV4_codec) ⊗
    BatchInputWireV4_codec).
End Codecs.

(** ** [to_input] *)
Section ToInput.
Context {KK : Keccak} {BO : Borsh}.

Definition compact_storage_from_wire (slot : CompactStorageWireV4) : CompactStorageWitnessV4 :=
  mk_CompactStorageWitnessV4 (of_be (csww_slot slot)) (of_be (csww_value slot)) (csww_proof
    slot).
Definition compact_account_from_wire (account : CompactAccountWireV4) : CompactAccountWitnessV4 :=
  mk_CompactAccountWitnessV4 (of_be (caww_address account)) (caww_exists account) (caww_nonce
    account) (of_be (caww_balance account)) (caww_code account) (of_be
    (caww_canonical_storage_root account)) (caww_account_proof account) (map
    compact_storage_from_wire (caww_storage account)).
Definition compact_state_from_wire (source : CompactStateWireV4) : CompactStateWitnessV4 :=
  mk_CompactStateWitnessV4 (of_be (cstw_canonical_state_root source)) (map
    compact_account_from_wire (cstw_accounts source)).
Definition member_slot_from_wire (slot : MemberSlotWireV4) : MemberSlotWitnessV4 :=
  mk_MemberSlotWitnessV4 (mslw_slot slot) (mslw_state slot) (of_be (mslw_account slot))
    (mslw_joined_at_batch slot) (mslw_retired_at_batch slot).
Definition membership_delta_from_wire (delta : MembershipDeltaWireV4) : MembershipDeltaWitnessV4 :=
  mk_MembershipDeltaWitnessV4 (mdlw_action delta) (mdlw_slot delta) (of_be (mdlw_member
    delta)) (mdlw_join_request_index delta) (mdlw_acceptance_expiry delta).
Definition deposit_from_wire (deposit : InboxAssetAmountWireV4) : InboxAssetAmountV4 :=
  mk_InboxAssetAmountV4 (iaaw_asset_id deposit) (of_be (iaaw_amount deposit)).
Definition inbox_entry_from_wire (entry : InboxEntryWireV4) : InboxEntryWitnessV4 :=
  mk_InboxEntryWitnessV4 (inbw_index entry) (inbw_kind entry) (of_be (inbw_account entry))
    (inbw_beneficiary_slot entry) (inbw_status entry) (map deposit_from_wire (inbw_deposits
    entry)).
Definition asset_total_from_wire (total : AssetTotalWireV4) : AssetTotalWitnessV4 :=
  mk_AssetTotalWitnessV4 (atww_asset_id total) (of_be (atww_total total)).
Definition residual_from_wire (allocation : ResidualAllocationWireV4) : ResidualAllocationV4 :=
  mk_ResidualAllocationV4 (ralw_position allocation) (ralw_asset_id allocation)
    (ralw_recipient_slot allocation).
Definition exit_allocation_from_wire (allocation : ExitAllocationWireV4) : ExitAllocationV4 :=
  mk_ExitAllocationV4 (xalw_slot allocation) (xalw_asset_id allocation) (of_be (xalw_recipient
    allocation)) (of_be (xalw_amount allocation)).
Definition block_from_wire (chain_id : Z) (block : BatchBlockWireV4) : BatchBlockV4 :=
  mk_BatchBlockV4 (bbw_block_number block) (bbw_raw_txs block) (mk_BlockEnvV1
    (bbw_block_number block) (ew_timestamp (bbw_env block)) (ew_gas_limit (bbw_env block))
    Address_ZERO 0 B256_ZERO 0 0 chain_id) (of_be (bbw_expected_post_state_root block)).
Definition l2_chain_id_v4 (deployment_id room_id : Z) : Z := room_chain_id_v4 deployment_id room_id.
Definition batch_input_of_wire (self : BatchInputWireV4) (encoded_witness_bytes : Z)
  : BatchInputV4 :=
  let chain_id := l2_chain_id_v4 (of_be (biw_deployment_id self)) (biw_room_id self) in
  mk_BatchInputV4 encoded_witness_bytes (of_be (biw_deployment_id self)) (biw_room_id self)
    (of_be (biw_preset_hash self)) (of_be (biw_manifest_hash self)) (of_be
    (biw_proof_program_id self)) (biw_batch_index self) (biw_l2_start_height self)
    (biw_previous_block_timestamp self) (of_be (biw_prev_state_root self)) (of_be
    (biw_pre_roster_root self)) (of_be (biw_post_roster_root self)) (biw_active_mask self)
    (biw_pre_used_mask self) (biw_post_active_mask self) (biw_used_mask self) (biw_inbox_start
    self) (biw_inbox_end self) (of_be (biw_inbox_inputs_hash self)) (of_be
    (biw_expected_block_data_hash self)) (of_be (biw_asset_totals_hash self)) (of_be
    (biw_exit_totals_hash self)) (of_be (biw_fee_totals_hash self)) (of_be
    (biw_membership_deltas_hash self)) (of_be (biw_previous_exit_root self)) (of_be
    (biw_exit_root self)) (biw_close self) (biw_l1_inclusion_deadline self)
    (biw_canonical_preset_json self) (biw_canonical_exit_program_json self) (map
    member_slot_from_wire (biw_pre_roster_slots self)) (map member_slot_from_wire
    (biw_post_roster_slots self)) (map membership_delta_from_wire (biw_membership_deltas
    self)) (map inbox_entry_from_wire (biw_inbox_entries self)) (map asset_total_from_wire
    (biw_asset_totals self)) (map residual_from_wire (biw_residual_allocations self)) (map
    exit_allocation_from_wire (biw_previous_exit_allocations self)) (compact_state_from_wire
    (biw_compact_state self)) (map (block_from_wire chain_id) (biw_blocks self)).
Definition genesis_input_of_wire (self : GenesisInputWireV4) (encoded_witness_bytes : Z)
  : GenesisInputV4 :=
  mk_GenesisInputV4 encoded_witness_bytes (of_be (giw_deployment_id self)) (giw_room_id self)
    (of_be (giw_config_hash self)) (of_be (giw_preset_hash self)) (of_be (giw_manifest_hash
    self)) (of_be (giw_proof_program_id self)) (giw_l1_block_number self) (of_be
    (giw_l1_block_hash self)) (of_be (giw_l1_state_root self)) (giw_l1_header_rlp self) (of_be
    (giw_genesis_state_root self)) (of_be (giw_genesis_roster_root self)) (of_be
    (giw_genesis_exit_root self)) (giw_active_mask self) (giw_used_mask self)
    (giw_inbox_cursor self) (of_be (giw_asset_totals_hash self)) (of_be (giw_exit_totals_hash
    self)) (of_be (giw_fee_totals_hash self)) (giw_l1_inclusion_deadline self)
    (giw_canonical_preset_json self) (giw_canonical_exit_program_json self) (map
    member_slot_from_wire (giw_roster_slots self)) (map asset_total_from_wire
    (giw_asset_totals self)) (map residual_from_wire (giw_residual_allocations self))
    (compact_state_from_wire (giw_compact_state self)).
Definition cold_runtime_from_wire (values : list ColdRuntimeCodeWireV4) : list ColdRuntimeCodeV4 :=
  map (fun entry => mk_ColdRuntimeCodeV4 (of_be (crcw_address entry)) (of_be (crcw_code_hash entry))) values.
Definition cold_access_from_wire (values : list ColdStateAccessWireV4) : list ColdStateAccessV4 :=
  map (fun entry => mk_ColdStateAccessV4 (of_be (csaw_address entry)) (map of_be (csaw_storage_slots entry))) values.
Definition cold_refresh_from_wire (values : list ColdStateRefreshWireV4) : list ColdStateRefreshV4 :=
  map (fun entry => mk_ColdStateRefreshV4 (of_be (csrw_address entry)) (csrw_refresh_nonce
    entry) (csrw_refresh_balance entry) (csrw_refresh_all_storage entry) (map of_be
    (csrw_storage_slots entry))) values.
Definition cold_input_of_wire (self : ColdRoomInputWireV4) (encoded_witness_bytes : Z)
  : ColdRoomInputV4 :=
  mk_ColdRoomInputV4 encoded_witness_bytes (of_be (criw_compiled_bundle_hash self)) (of_be
    (criw_preset_hash self)) (of_be (criw_manifest_hash self)) (of_be (criw_proof_program_id
    self)) (of_be (criw_initial_state_root self)) (of_be (criw_initialized_state_root self))
    (of_be (criw_analyzed_artifact_root self)) (of_be (criw_allowed_call_target_root self))
    (map account_from_wire (criw_initial_state self)) (map (block_from_wire
    COLD_TEMPLATE_CHAIN_ID_V4) (criw_setup_blocks self)) (cold_runtime_from_wire
    (criw_runtime_code self)) (cold_access_from_wire (criw_state_access self))
    (cold_refresh_from_wire (criw_state_refresh self)).
Definition to_journal (self : ColdRoomJournalWireV4) : ColdRoomJournalV4 :=
  mk_ColdRoomJournalV4 (crjw_v self) (of_be (crjw_template_id self)) (of_be
    (crjw_compiled_bundle_hash self)) (of_be (crjw_preset_hash self)) (of_be
    (crjw_manifest_hash self)) (of_be (crjw_proof_program_id self)) (crjw_constructor_chain_id
    self) (of_be (crjw_initial_state_root self)) (of_be (crjw_initialized_state_root self))
    (of_be (crjw_setup_data_hash self)) (of_be (crjw_runtime_code_root self)) (of_be
    (crjw_state_access_root self)) (of_be (crjw_state_refresh_root self)) (of_be
    (crjw_static_state_commitment self)) (of_be (crjw_analyzed_artifact_root self)) (of_be
    (crjw_allowed_call_target_root self)).
Definition cold_journal_wire (value : ColdRoomJournalV4) : ColdRoomJournalWireV4 :=
  mk_ColdRoomJournalWireV4 (crj_v value) (be_bytes 32 (crj_template_id value)) (be_bytes 32
    (crj_compiled_bundle_hash value)) (be_bytes 32 (crj_preset_hash value)) (be_bytes 32
    (crj_manifest_hash value)) (be_bytes 32 (crj_proof_program_id value))
    (crj_constructor_chain_id value) (be_bytes 32 (crj_initial_state_root value)) (be_bytes 32
    (crj_initialized_state_root value)) (be_bytes 32 (crj_setup_data_hash value)) (be_bytes 32
    (crj_runtime_code_root value)) (be_bytes 32 (crj_state_access_root value)) (be_bytes 32
    (crj_state_refresh_root value)) (be_bytes 32 (crj_static_state_commitment value))
    (be_bytes 32 (crj_analyzed_artifact_root value)) (be_bytes 32
    (crj_allowed_call_target_root value)).

(** The length of the witness frame: four bytes of magic and the encoding. *)
Definition frame_bytes (kind : string) (body : option bytes) : result string Z :=
  let? body := ok_or body (kind +:+ " input borsh")%string in
  let? n := ok_or (checked_add USIZE_MAX 4 (zlen body)) (kind +:+ " witness length overflow")%string in
  ok_or (u32_try_from n) (kind +:+ " witness length exceeds u32")%string.

Definition batch_to_input (self : BatchInputWireV4) : result string BatchInputV4 :=
  fail_if negb (biw_v self =? BATCH_JOURNAL_VERSION_V4) with "batch input version"%string in
  let? encoded_witness_bytes := frame_bytes "batch" (to_vec BatchInputWireV4_codec self) in
  Ok (batch_input_of_wire self encoded_witness_bytes).
Definition genesis_to_input (self : GenesisInputWireV4) : result string GenesisInputV4 :=
  fail_if negb (giw_v self =? BATCH_JOURNAL_VERSION_V4) with "genesis input version"%string in
  let? encoded_witness_bytes := frame_bytes "genesis" (to_vec GenesisInputWireV4_codec self) in
  Ok (genesis_input_of_wire self encoded_witness_bytes).
Definition cold_to_input (self : ColdRoomInputWireV4) : result string ColdRoomInputV4 :=
  fail_if negb (criw_v self =? BATCH_JOURNAL_VERSION_V4) with "cold input version"%string in
  let? encoded_witness_bytes := frame_bytes "cold" (to_vec ColdRoomInputWireV4_codec self) in
  Ok (cold_input_of_wire self encoded_witness_bytes).

Definition with_encoded_witness_bytes (input : BatchInputV4) (n : Z) : BatchInputV4 :=
  mk_BatchInputV4 n (bi4_deployment_id input) (bi4_room_id input) (bi4_preset_hash input)
    (bi4_manifest_hash input) (bi4_proof_program_id input) (bi4_batch_index input)
    (bi4_l2_start_height input) (bi4_previous_block_timestamp input) (bi4_prev_state_root
    input) (bi4_pre_roster_root input) (bi4_post_roster_root input) (bi4_active_mask input)
    (bi4_pre_used_mask input) (bi4_post_active_mask input) (bi4_used_mask input)
    (bi4_inbox_start input) (bi4_inbox_end input) (bi4_inbox_inputs_hash input)
    (bi4_expected_block_data_hash input) (bi4_asset_totals_hash input) (bi4_exit_totals_hash
    input) (bi4_fee_totals_hash input) (bi4_membership_deltas_hash input)
    (bi4_previous_exit_root input) (bi4_exit_root input) (bi4_close input)
    (bi4_l1_inclusion_deadline input) (bi4_canonical_preset_json input)
    (bi4_canonical_exit_program_json input) (bi4_pre_roster_slots input)
    (bi4_post_roster_slots input) (bi4_membership_deltas input) (bi4_inbox_entries input)
    (bi4_asset_totals input) (bi4_residual_allocations input) (bi4_previous_exit_allocations
    input) (bi4_compact_state input) (bi4_blocks input).

Definition composed_to_input_with_encoded_witness_bytes (self : ComposedBatchInputWireV4)
    (encoded_witness_bytes : Z) : result string ComposedBatchInputV4 :=
  fail_if negb (cbiw_v self =? BATCH_JOURNAL_VERSION_V4)
    with "composed batch input version"%string in
  let? batch := batch_to_input (cbiw_batch self) in
  let batch := with_encoded_witness_bytes batch encoded_witness_bytes in
  Ok (mk_ComposedBatchInputV4 (to_journal (cbiw_cold_journal self))
        (cold_runtime_from_wire (cbiw_runtime_code self))
        (cold_access_from_wire (cbiw_state_access self))
        (cold_refresh_from_wire (cbiw_state_refresh self)) batch).
Definition composed_to_input (self : ComposedBatchInputWireV4) : result string ComposedBatchInputV4 :=
  let? encoded_witness_bytes := frame_bytes "composed" (to_vec ComposedBatchInputWireV4_codec self) in
  composed_to_input_with_encoded_witness_bytes self encoded_witness_bytes.
End ToInput.

(** * Properties *)

Section Props.
Context {KK : Keccak} {BO : Borsh} {BL : BorshLaws}.

#[export] Instance BatchBlockWireV4_lawful : Lawful BatchBlockWireV4_codec :=
  ltac:(derive_lawful).
#[export] Instance CompactStorageWireV4_lawful : Lawful CompactStorageWireV4_codec :=
  ltac:(derive_lawful).
#[export] Instance CompactAccountWireV4_lawful : Lawful CompactAccountWireV4_codec :=
  ltac:(derive_lawful).
#[export] Instance CompactStateWireV4_lawful : Lawful CompactStateWireV4_codec :=
  ltac:(derive_lawful).
#[export] Instance MemberSlotWireV4_lawful : Lawful MemberSlotWireV4_codec :=
  ltac:(derive_lawful).
#[export] Instance AssetTotalWireV4_lawful : Lawful AssetTotalWireV4_codec :=
  ltac:(derive_lawful).
#[export] Instance ResidualAllocationWireV4_lawful : Lawful ResidualAllocationWireV4_codec :=
  ltac:(derive_lawful).
#[export] Instance ExitAllocationWireV4_lawful : Lawful ExitAllocationWireV4_codec :=
  ltac:(derive_lawful).
#[export] Instance InboxAssetAmountWireV4_lawful : Lawful InboxAssetAmountWireV4_codec :=
  ltac:(derive_lawful).
#[export] Instance InboxEntryWireV4_lawful : Lawful InboxEntryWireV4_codec :=
  ltac:(derive_lawful).
#[export] Instance MembershipDeltaWireV4_lawful : Lawful MembershipDeltaWireV4_codec :=
  ltac:(derive_lawful).
#[export] Instance BatchInputWireV4_lawful : Lawful BatchInputWireV4_codec :=
  ltac:(derive_lawful).
#[export] Instance GenesisInputWireV4_lawful : Lawful GenesisInputWireV4_codec :=
  ltac:(derive_lawful).
#[export] Instance ColdRuntimeCodeWireV4_lawful : Lawful ColdRuntimeCodeWireV4_codec :=
  ltac:(derive_lawful).
#[export] Instance ColdStateAccessWireV4_lawful : Lawful ColdStateAccessWireV4_codec :=
  ltac:(derive_lawful).
#[export] Instance ColdStateRefreshWireV4_lawful : Lawful ColdStateRefreshWireV4_codec :=
  ltac:(derive_lawful).
#[export] Instance ColdRoomInputWireV4_lawful : Lawful ColdRoomInputWireV4_codec :=
  ltac:(derive_lawful).
#[export] Instance ColdRoomJournalWireV4_lawful : Lawful ColdRoomJournalWireV4_codec :=
  ltac:(derive_lawful).
#[export] Instance ComposedBatchInputWireV4_lawful : Lawful ComposedBatchInputWireV4_codec :=
  ltac:(derive_lawful).

(** ** Chain identifiers *)
Lemma l2_chain_id_v4_u64 d r : in_u64 (l2_chain_id_v4 d r).
Proof.
  pose proof (room_chain_id_range (b_ "RoomChainIdV4(bytes32 deploymentDomain,uint256 roomId)") d r).
  unfold l2_chain_id_v4, room_chain_id_v4, in_u64. lia.
Qed.

(** ** Typed conversions *)
#[local] Arguments l2_chain_id_v4 : simpl never.
#[local] Arguments block_from_wire : simpl never.
Hint Resolve l2_chain_id_v4_u64 account_typed stf_env_typed : wire.
Lemma compact_storage_typed w :
  valid CompactStorageWireV4_codec w -> CompactStorageWitnessV4_wf (compact_storage_from_wire w).
Proof. wire_typed. Qed.
Lemma compact_account_typed w :
  valid CompactAccountWireV4_codec w -> CompactAccountWitnessV4_wf (compact_account_from_wire w).
Proof. pose proof compact_storage_typed. wire_typed. Qed.
Lemma compact_state_typed w :
  valid CompactStateWireV4_codec w -> CompactStateWitnessV4_wf (compact_state_from_wire w).
Proof. pose proof compact_account_typed. wire_typed. Qed.
Lemma compact_state_parts w :
  array_wf 32 (cstw_canonical_state_root w) ->
  vec_valid (valid CompactAccountWireV4_codec) (cstw_accounts w) ->
  CompactStateWitnessV4_wf (compact_state_from_wire w).
Proof. intros H1 H2. apply compact_state_typed. split; assumption. Qed.
Lemma member_slot_typed w :
  valid MemberSlotWireV4_codec w -> MemberSlotWitnessV4_wf (member_slot_from_wire w).
Proof. wire_typed. Qed.
Lemma membership_delta_typed w :
  valid MembershipDeltaWireV4_codec w -> MembershipDeltaWitnessV4_wf (membership_delta_from_wire w).
Proof. wire_typed. Qed.
Lemma deposit_typed w :
  valid InboxAssetAmountWireV4_codec w -> InboxAssetAmountV4_wf (deposit_from_wire w).
Proof. wire_typed. Qed.
Lemma inbox_entry_typed w :
  valid InboxEntryWireV4_codec w -> InboxEntryWitnessV4_wf (inbox_entry_from_wire w).
Proof. pose proof deposit_typed. wire_typed. Qed.
Lemma asset_total_typed w :
  valid AssetTotalWireV4_codec w -> AssetTotalWitnessV4_wf (asset_total_from_wire w).
Proof. wire_typed. Qed.
Lemma residual_typed w :
  valid ResidualAllocationWireV4_codec w -> ResidualAllocationV4_wf (residual_from_wire w).
Proof. wire_typed. Qed.
Lemma exit_allocation_typed w :
  valid ExitAllocationWireV4_codec w -> ExitAllocationV4_wf (exit_allocation_from_wire w).
Proof. wire_typed. Qed.
Lemma block_typed chain_id w :
  in_u64 chain_id -> valid BatchBlockWireV4_codec w -> BatchBlockV4_wf (block_from_wire chain_id w).
Proof. wire_typed. Qed.
Hint Resolve compact_state_parts member_slot_typed membership_delta_typed inbox_entry_typed
  asset_total_typed residual_typed exit_allocation_typed block_typed : wire.

Lemma batch_input_typed w n :
  valid BatchInputWireV4_codec w -> in_u32 n -> BatchInputV4_wf (batch_input_of_wire w n).
Proof. wire_typed. Qed.
Lemma genesis_input_typed w n :
  valid GenesisInputWireV4_codec w -> in_u32 n -> GenesisInputV4_wf (genesis_input_of_wire w n).
Proof. wire_typed. Qed.
Lemma cold_runtime_typed l :
  vec_valid (valid ColdRuntimeCodeWireV4_codec) l -> Forall ColdRuntimeCodeV4_wf (cold_runtime_from_wire l).
Proof. apply vec_map_typed. wire_typed. Qed.
Lemma cold_access_typed l :
  vec_valid (valid ColdStateAccessWireV4_codec) l -> Forall ColdStateAccessV4_wf (cold_access_from_wire l).
Proof. apply vec_map_typed. wire_typed. Qed.
Lemma cold_refresh_typed l :
  vec_valid (valid ColdStateRefreshWireV4_codec) l -> Forall ColdStateRefreshV4_wf (cold_refresh_from_wire l).
Proof. apply vec_map_typed. wire_typed. Qed.
Lemma cold_chain_id_u64 : in_u64 COLD_TEMPLATE_CHAIN_ID_V4.
Proof. split; [discriminate|reflexivity]. Qed.
Hint Resolve cold_runtime_typed cold_access_typed cold_refresh_typed cold_chain_id_u64 : wire.
Lemma cold_input_typed w n :
  valid ColdRoomInputWireV4_codec w -> in_u32 n -> ColdRoomInputV4_wf (cold_input_of_wire w n).
Proof. wire_typed. Qed.
Lemma cold_journal_typed w :
  valid ColdRoomJournalWireV4_codec w -> ColdRoomJournalV4_wf (to_journal w).
Proof. wire_typed. Qed.

(** ** Lengths and totality of [to_input] *)
Lemma frame_bytes_Ok kind body n :
  frame_bytes kind body = Ok n <-> exists e, body = Some e /\ n = 4 + zlen e /\ n < 2 ^ 32.
Proof.
  unfold frame_bytes, checked_add, u32_try_from, USIZE_MAX. rewrite rbind_Ok. split.
  - intros (e & He & H). apply ok_or_Ok in He. apply rbind_Ok in H as (m & Hm & H).
    apply ok_or_Ok in Hm, H. destruct (Z.leb_spec (4 + zlen e) (2 ^ 32 - 1)); [|discriminate].
    injection Hm as <-. destruct (Z.ltb_spec (4 + zlen e) (2 ^ 32)); [|discriminate].
    injection H as <-. eauto.
  - intros (e & -> & -> & L). exists e. split; [reflexivity|].
    destruct (Z.leb_spec (4 + zlen e) (2 ^ 32 - 1)); [|lia]. cbn [ok_or rbind].
    destruct (Z.ltb_spec (4 + zlen e) (2 ^ 32)); [reflexivity|lia].
Qed.
Lemma versioned_Ok {A} version error kind body (make : Z -> A) (a : A) :
  (fail_if negb (version =? BATCH_JOURNAL_VERSION_V4) with error in
   let? n := frame_bytes kind body in Ok (make n)) = Ok a
  <-> version = BATCH_JOURNAL_VERSION_V4 /\ exists e, body = Some e
      /\ 4 + zlen e < 2 ^ 32 /\ a = make (4 + zlen e).
Proof.
  rewrite fail_if_Ok, negb_eqb_false, rbind_Ok. setoid_rewrite frame_bytes_Ok. setoid_rewrite Ok_Ok.
  naive_solver.
Qed.
Lemma batch_to_input_Ok w input :
  batch_to_input w = Ok input
  <-> biw_v w = BATCH_JOURNAL_VERSION_V4 /\ exists e, to_vec BatchInputWireV4_codec w = Some e
      /\ 4 + zlen e < 2 ^ 32 /\ input = batch_input_of_wire w (4 + zlen e).
Proof. apply versioned_Ok. Qed.
Lemma genesis_to_input_Ok w input :
  genesis_to_input w = Ok input
  <-> giw_v w = BATCH_JOURNAL_VERSION_V4 /\ exists e, to_vec GenesisInputWireV4_codec w = Some e
      /\ 4 + zlen e < 2 ^ 32 /\ input = genesis_input_of_wire w (4 + zlen e).
Proof. apply versioned_Ok. Qed.
Lemma cold_to_input_Ok w input :
  cold_to_input w = Ok input
  <-> criw_v w = BATCH_JOURNAL_VERSION_V4 /\ exists e, to_vec ColdRoomInputWireV4_codec w = Some e
      /\ 4 + zlen e < 2 ^ 32 /\ input = cold_input_of_wire w (4 + zlen e).
Proof. apply versioned_Ok. Qed.
Definition composed_of_wire (w : ComposedBatchInputWireV4) (n : Z) : ComposedBatchInputV4 :=
  mk_ComposedBatchInputV4 (to_journal (cbiw_cold_journal w))
    (cold_runtime_from_wire (cbiw_runtime_code w)) (cold_access_from_wire (cbiw_state_access w))
    (cold_refresh_from_wire (cbiw_state_refresh w)) (batch_input_of_wire (cbiw_batch w) n).
Lemma composed_known_length_Ok w n input :
  composed_to_input_with_encoded_witness_bytes w n = Ok input
  <-> cbiw_v w = BATCH_JOURNAL_VERSION_V4 /\ biw_v (cbiw_batch w) = BATCH_JOURNAL_VERSION_V4
      /\ (exists e, to_vec BatchInputWireV4_codec (cbiw_batch w) = Some e /\ 4 + zlen e < 2 ^ 32)
      /\ input = composed_of_wire w n.
Proof.
  unfold composed_to_input_with_encoded_witness_bytes. rewrite fail_if_Ok, negb_eqb_false, rbind_Ok.
  setoid_rewrite batch_to_input_Ok. setoid_rewrite Ok_Ok. unfold composed_of_wire. split.
  - intros (V & b & (Vb & e & E & L & ->) & <-). eauto 10.
  - intros (V & Vb & (e & E & L) & ->). split; [exact V|].
    exists (batch_input_of_wire (cbiw_batch w) (4 + zlen e)). split; [eauto|reflexivity].
Qed.
Lemma composed_typed w n :
  valid ComposedBatchInputWireV4_codec w -> in_u32 n -> ComposedBatchInputV4_wf (composed_of_wire w n).
Proof.
  intros V N. destruct V as (_ & J & R & A & F & B). 
  split; [exact (cold_journal_typed _ J)|]. split; [exact (cold_runtime_typed _ R)|].
  split; [exact (cold_access_typed _ A)|]. split; [exact (cold_refresh_typed _ F)|].
  exact (batch_input_typed _ _ B N).
Qed.
End Props.
