(* ===== verification/FrameV4.v ===== *)
(** * The v4 witness frames ([stf-wire/src/frame_v4.rs])

    Four kinds of witness, each behind its own four-byte tag: the encoders, and the decoders
    that check the byte cap, the tag and the Borsh body in that order.  A failing encoder is the
    panic of its [expect]; error strings are given without their interpolated values. *)

From S2P Require Import Prelude Types Borsh Abi HashV4 WireV1 WireV4.
Open Scope Z_scope.

Definition BATCH_INPUT_MAGIC_V4 : bytes := b_ "ZK4B".
Definition GENESIS_INPUT_MAGIC_V4 : bytes := b_ "ZK4G".
Definition COLD_INPUT_MAGIC_V4 : bytes := b_ "ZK4K".
Definition COMPOSED_BATCH_INPUT_MAGIC_V4 : bytes := b_ "ZK4C".

(** The two function bodies the four kinds share. *)
Definition frame_to_borsh {A} (magic : bytes) (c : Codec A) (expected : string) (w : A)
  : result string bytes :=
  let? body := ok_or (to_vec c w) expected in
  Ok (magic ++ body).
Definition frame_from_borsh {A} (magic : bytes) (c : Codec A) (too_long no_magic malformed : string)
    (b : bytes) : result string A :=
  fail_if MAX_BATCH_WITNESS_BYTES_V4 <? zlen b with too_long in
  let? body := ok_or (strip_prefix magic b) no_magic in
  ok_or (try_from_slice c body) malformed.

Section Frames.
Context {BO : Borsh}.

Definition batch_input_to_borsh_v4 (w : BatchInputWireV4) : result string bytes :=
  frame_to_borsh BATCH_INPUT_MAGIC_V4 BatchInputWireV4_codec
    "batch input borsh encode cannot fail" w.
Definition batch_input_from_borsh_v4 (b : bytes) : result string BatchInputWireV4 :=
  frame_from_borsh BATCH_INPUT_MAGIC_V4 BatchInputWireV4_codec
    "v4 batch witness exceeds the cap" "v4 batch input magic missing" "v4 batch input borsh" b.
Definition genesis_input_to_borsh_v4 (w : GenesisInputWireV4) : result string bytes :=
  frame_to_borsh GENESIS_INPUT_MAGIC_V4 GenesisInputWireV4_codec
    "genesis input borsh encode cannot fail" w.
Definition genesis_input_from_borsh_v4 (b : bytes) : result string GenesisInputWireV4 :=
  frame_from_borsh GENESIS_INPUT_MAGIC_V4 GenesisInputWireV4_codec
    "v4 genesis witness exceeds the cap" "v4 genesis input magic missing" "v4 genesis input borsh" b.
Definition cold_input_to_borsh_v4 (w : ColdRoomInputWireV4) : result string bytes :=
  frame_to_borsh COLD_INPUT_MAGIC_V4 ColdRoomInputWireV4_codec
    "cold input borsh encode cannot fail" w.
Definition cold_input_from_borsh_v4 (b : bytes) : result string ColdRoomInputWireV4 :=
  frame_from_borsh COLD_INPUT_MAGIC_V4 ColdRoomInputWireV4_codec
    "v4 cold witness exceeds the cap" "cold input magic mismatch" "cold input borsh" b.
Definition composed_batch_input_to_borsh_v4 (w : ComposedBatchInputWireV4) : result string bytes :=
  frame_to_borsh COMPOSED_BATCH_INPUT_MAGIC_V4 ComposedBatchInputWireV4_codec
    "composed batch input borsh encode cannot fail" w.
Definition composed_batch_input_from_borsh_v4 (b : bytes) : result string ComposedBatchInputWireV4 :=
  frame_from_borsh COMPOSED_BATCH_INPUT_MAGIC_V4 ComposedBatchInputWireV4_codec
    "v4 composed witness exceeds the cap" "composed batch input magic mismatch"
    "composed batch input borsh" b.
End Frames.

(** * Properties *)

Section Props.
Context {KK : Keccak} {BO : Borsh} {BL : BorshLaws}.

Lemma frame_from_Ok {A} magic (c : Codec A) m1 m2 m3 b w :
  frame_from_borsh magic c m1 m2 m3 b = Ok w
  <-> zlen b <= MAX_BATCH_WITNESS_BYTES_V4
      /\ exists body, b = magic ++ body /\ try_from_slice c body = Some w.
Proof.
  unfold frame_from_borsh. rewrite fail_if_Ok, Z.ltb_ge, rbind_Ok. setoid_rewrite ok_or_Ok.
  setoid_rewrite strip_prefix_Some. reflexivity.
Qed.

(** A decoder accepts exactly the encodings of its kind under the cap. *)
Lemma frame_canonical {A} magic (c : Codec A) (L : Lawful c) m m1 m2 m3 b w :
  bytes_wf b ->
  frame_from_borsh magic c m1 m2 m3 b = Ok w
  <-> zlen b <= MAX_BATCH_WITNESS_BYTES_V4 /\ valid c w /\ frame_to_borsh magic c m w = Ok b.
Proof.
  intros W. rewrite frame_from_Ok. unfold frame_to_borsh. rewrite rbind_Ok. setoid_rewrite ok_or_Ok.
  setoid_rewrite Ok_Ok. split.
  - intros (Hl & body & -> & D). apply Forall_app in W as [_ W].
    destruct (try_from_slice_canonical c L body w W D) as [V E]. eauto 6.
  - intros (Hl & V & body & E & <-). split; [exact Hl|]. exists body. split; [reflexivity|].
    destruct (to_vec_round c L w V) as (e & E' & _ & D). congruence.
Qed.
Lemma frame_magic {A} magic (c : Codec A) m1 m2 m3 b w :
  frame_from_borsh magic c m1 m2 m3 b = Ok w -> take (length magic) b = magic.
Proof. rewrite frame_from_Ok. intros (_ & body & -> & _). apply take_app_length. Qed.

(** What a decoder hands over: a typed message whose frame is its tag and encoding. *)
Lemma frame_decoded {A} magic (c : Codec A) (L : Lawful c) m1 m2 m3 b w :
  bytes_wf b -> frame_from_borsh magic c m1 m2 m3 b = Ok w -> zlen magic = 4 ->
  valid c w /\ exists e, to_vec c w = Some e /\ zlen b = 4 + zlen e /\ 4 + zlen e < 2 ^ 32.
Proof.
  intros W H M. apply frame_from_Ok in H as (Hl & body & -> & D).
  apply Forall_app in W as [_ W]. destruct (try_from_slice_canonical c L body w W D) as [V E].
  split; [exact V|]. exists body. rewrite zlen_app, M in *. unfold MAX_BATCH_WITNESS_BYTES_V4 in Hl.
  split; [exact E|]. lia.
Qed.
(** ** From a frame to the program's input *)

(** The environment a block of a decoded message runs in: only the time and the gas limit are
    the sender's. *)
Definition room_env (chain_id : Z) (block : BatchBlockV4) : Prop :=
  bb4_env block
  = mk_BlockEnvV1 (bb4_block_number block) (env_timestamp (bb4_env block))
      (env_gas_limit (bb4_env block)) Address_ZERO 0 B256_ZERO 0 0 chain_id.
Lemma block_room_env chain_id l : Forall (room_env chain_id) (map (block_from_wire chain_id) l).
Proof. apply Forall_map, Forall_true. intros block. reflexivity. Qed.

Lemma batch_frame_input b w :
  bytes_wf b -> batch_input_from_borsh_v4 b = Ok w -> biw_v w = BATCH_JOURNAL_VERSION_V4 ->
  exists input, batch_to_input w = Ok input /\ BatchInputV4_wf input
    /\ bi4_encoded_witness_bytes input = zlen b
    /\ Forall (room_env (room_chain_id_v4 (bi4_deployment_id input) (bi4_room_id input))) (bi4_blocks input).
Proof.
  intros W D V. destruct (frame_decoded _ _ _ _ _ _ b w W D eq_refl) as (Vw & e & E & L & B).
  exists (batch_input_of_wire w (4 + zlen e)). split; [apply batch_to_input_Ok; eauto|].
  split; [apply batch_input_typed; [exact Vw|split; [unfold zlen; lia|exact B]]|].
  split; [symmetry; exact L|apply block_room_env].
Qed.
Lemma genesis_frame_input b w :
  bytes_wf b -> genesis_input_from_borsh_v4 b = Ok w -> giw_v w = BATCH_JOURNAL_VERSION_V4 ->
  exists input, genesis_to_input w = Ok input /\ GenesisInputV4_wf input
    /\ gi4_encoded_witness_bytes input = zlen b.
Proof.
  intros W D V. destruct (frame_decoded _ _ _ _ _ _ b w W D eq_refl) as (Vw & e & E & L & B).
  exists (genesis_input_of_wire w (4 + zlen e)). split; [apply genesis_to_input_Ok; eauto|].
  split; [apply genesis_input_typed; [exact Vw|split; [unfold zlen; lia|exact B]]|symmetry; exact L].
Qed.
Lemma cold_frame_input b w :
  bytes_wf b -> cold_input_from_borsh_v4 b = Ok w -> criw_v w = BATCH_JOURNAL_VERSION_V4 ->
  exists input, cold_to_input w = Ok input /\ ColdRoomInputV4_wf input
    /\ cri_encoded_witness_bytes input = zlen b
    /\ Forall (room_env COLD_TEMPLATE_CHAIN_ID_V4) (cri_setup_blocks input).
Proof.
  intros W D V. destruct (frame_decoded _ _ _ _ _ _ b w W D eq_refl) as (Vw & e & E & L & B).
  exists (cold_input_of_wire w (4 + zlen e)). split; [apply cold_to_input_Ok; eauto|].
  split; [apply cold_input_typed; [exact Vw|split; [unfold zlen; lia|exact B]]|].
  split; [symmetry; exact L|apply block_room_env].
Qed.

(** The batch inside a composed witness is shorter than the witness. *)
Lemma composed_batch_shorter w e :
  to_vec ComposedBatchInputWireV4_codec w = Some e ->
  exists eb, to_vec BatchInputWireV4_codec (cbiw_batch w) = Some eb /\ zlen eb <= zlen e.
Proof.
  intros E. unfold to_vec, ComposedBatchInputWireV4_codec, borsh_struct in E. cbn [encode] in E.
  do 5 (apply pair_encoded in E as (? & ? & _ & E & ->)). cbn [fst snd] in E.
  eexists. split; [exact E|]. rewrite !zlen_app. unfold zlen. lia.
Qed.

Lemma composed_frame_length b w :
  bytes_wf b -> composed_batch_input_from_borsh_v4 b = Ok w ->
  valid ComposedBatchInputWireV4_codec w /\ in_u32 (zlen b)
  /\ composed_to_input w = composed_to_input_with_encoded_witness_bytes w (zlen b)
  /\ exists eb, to_vec BatchInputWireV4_codec (cbiw_batch w) = Some eb /\ 4 + zlen eb < 2 ^ 32.
Proof.
  intros W D. destruct (frame_decoded _ _ _ _ _ _ b w W D eq_refl) as (Vw & e & E & L & B).
  split; [exact Vw|]. split; [unfold in_u32, zlen in *; lia|]. split.
  - unfold composed_to_input. rewrite (proj2 (frame_bytes_Ok _ _ (zlen b))) by (exists e; rewrite L; auto).
    reflexivity.
  - destruct (composed_batch_shorter w e E) as (eb & Eb & Hl). exists eb. split; [exact Eb|lia].
Qed.
Lemma composed_frame_input b w :
  bytes_wf b -> composed_batch_input_from_borsh_v4 b = Ok w ->
  cbiw_v w = BATCH_JOURNAL_VERSION_V4 -> biw_v (cbiw_batch w) = BATCH_JOURNAL_VERSION_V4 ->
  exists input, composed_to_input w = Ok input /\ ComposedBatchInputV4_wf input
    /\ bi4_encoded_witness_bytes (cbi_batch input) = zlen b
    /\ Forall (room_env (room_chain_id_v4 (bi4_deployment_id (cbi_batch input))
                           (bi4_room_id (cbi_batch input)))) (bi4_blocks (cbi_batch input)).
Proof.
  intros W D V Vb. destruct (composed_frame_length b w W D) as (Vw & U & -> & eb & Eb & B).
  exists (composed_of_wire w (zlen b)). split; [apply composed_known_length_Ok; repeat (split; [eassumption|]); eauto|].
  split; [exact (composed_typed w _ Vw U)|]. split; [reflexivity|apply block_room_env].
Qed.

(** ** Wrong versions *)
Lemma versioned_Err {A} version error kind body (make : Z -> A) :
  version <> BATCH_JOURNAL_VERSION_V4 ->
  (fail_if negb (version =? BATCH_JOURNAL_VERSION_V4) with error in
   let? n := frame_bytes kind body in Ok (make n)) = Err error.
Proof. intros H. apply Z.eqb_neq in H. rewrite H. reflexivity. Qed.
Lemma composed_version_Err b w :
  bytes_wf b -> composed_batch_input_from_borsh_v4 b = Ok w -> cbiw_v w <> BATCH_JOURNAL_VERSION_V4 ->
  composed_to_input w = Err "composed batch input version"%string.
Proof.
  intros W D H. destruct (composed_frame_length b w W D) as (_ & _ & -> & _).
  unfold composed_to_input_with_encoded_witness_bytes. apply Z.eqb_neq in H. rewrite H. reflexivity.
Qed.
Lemma composed_batch_version_Err b w :
  bytes_wf b -> composed_batch_input_from_borsh_v4 b = Ok w -> cbiw_v w = BATCH_JOURNAL_VERSION_V4 ->
  biw_v (cbiw_batch w) <> BATCH_JOURNAL_VERSION_V4 ->
  composed_to_input w = Err "batch input version"%string.
Proof.
  intros W D V H. destruct (composed_frame_length b w W D) as (_ & _ & -> & _).
  unfold composed_to_input_with_encoded_witness_bytes, batch_to_input. apply Z.eqb_neq in H.
  rewrite V, Z.eqb_refl, H. reflexivity.
Qed.

(** C30: Each of the four witness kinds has one canonical frame: the decoder accepts exactly the
    byte strings under the cap that the encoder produces from a message of the wire types, and
    returns that message. *)
Theorem wire_frames_canonical b :
  bytes_wf b ->
  (forall w, batch_input_from_borsh_v4 b = Ok w <-> zlen b <= MAX_BATCH_WITNESS_BYTES_V4
     /\ valid BatchInputWireV4_codec w /\ batch_input_to_borsh_v4 w = Ok b) /\
  (forall w, genesis_input_from_borsh_v4 b = Ok w <-> zlen b <= MAX_BATCH_WITNESS_BYTES_V4
     /\ valid GenesisInputWireV4_codec w /\ genesis_input_to_borsh_v4 w = Ok b) /\
  (forall w, cold_input_from_borsh_v4 b = Ok w <-> zlen b <= MAX_BATCH_WITNESS_BYTES_V4
     /\ valid ColdRoomInputWireV4_codec w /\ cold_input_to_borsh_v4 w = Ok b) /\
  (forall w, composed_batch_input_from_borsh_v4 b = Ok w <-> zlen b <= MAX_BATCH_WITNESS_BYTES_V4
     /\ valid ComposedBatchInputWireV4_codec w /\ composed_batch_input_to_borsh_v4 w = Ok b).
Proof.
  intros W. split; [|split; [|split]]; intros w;
    exact (frame_canonical _ _ _ _ _ _ _ b w W).
Qed.

(** C31: A decoded message of version 4 always expands, whatever the sender wrote: the program's
    input has every field in the range of its type, its witness size is the length of the frame
    that was decoded, and its blocks run in the fixed room environment on the room's own chain
    (a cold setup on the template chain). *)
Theorem decoded_frame_opens b :
  bytes_wf b ->
  (forall w, batch_input_from_borsh_v4 b = Ok w -> biw_v w = BATCH_JOURNAL_VERSION_V4 ->
     exists input, batch_to_input w = Ok input /\ BatchInputV4_wf input
       /\ bi4_encoded_witness_bytes input = zlen b
       /\ Forall (room_env (room_chain_id_v4 (bi4_deployment_id input) (bi4_room_id input)))
            (bi4_blocks input)) /\
  (forall w, genesis_input_from_borsh_v4 b = Ok w -> giw_v w = BATCH_JOURNAL_VERSION_V4 ->
     exists input, genesis_to_input w = Ok input /\ GenesisInputV4_wf input
       /\ gi4_encoded_witness_bytes input = zlen b) /\
  (forall w, cold_input_from_borsh_v4 b = Ok w -> criw_v w = BATCH_JOURNAL_VERSION_V4 ->
     exists input, cold_to_input w = Ok input /\ ColdRoomInputV4_wf input
       /\ cri_encoded_witness_bytes input = zlen b
       /\ Forall (room_env COLD_TEMPLATE_CHAIN_ID_V4) (cri_setup_blocks input)) /\
  (forall w, composed_batch_input_from_borsh_v4 b = Ok w -> cbiw_v w = BATCH_JOURNAL_VERSION_V4 ->
     biw_v (cbiw_batch w) = BATCH_JOURNAL_VERSION_V4 ->
     exists input, composed_to_input w = Ok input /\ ComposedBatchInputV4_wf input
       /\ bi4_encoded_witness_bytes (cbi_batch input) = zlen b
       /\ Forall (room_env (room_chain_id_v4 (bi4_deployment_id (cbi_batch input))
                              (bi4_room_id (cbi_batch input)))) (bi4_blocks (cbi_batch input))).
Proof.
  intros W. split; [|split; [|split]]; intros w.
  - exact (batch_frame_input b w W).
  - exact (genesis_frame_input b w W).
  - exact (cold_frame_input b w W).
  - exact (composed_frame_input b w W).
Qed.

(** C33: A decoded message of another version is refused with its version error and nothing
    else: a batch, genesis or cold message by its own version, a composed message by its own
    first and then by that of the batch inside it. *)
Theorem wrong_version_refused b :
  bytes_wf b ->
  (forall w, batch_input_from_borsh_v4 b = Ok w -> biw_v w <> BATCH_JOURNAL_VERSION_V4 ->
     batch_to_input w = Err "batch input version"%string) /\
  (forall w, genesis_input_from_borsh_v4 b = Ok w -> giw_v w <> BATCH_JOURNAL_VERSION_V4 ->
     genesis_to_input w = Err "genesis input version"%string) /\
  (forall w, cold_input_from_borsh_v4 b = Ok w -> criw_v w <> BATCH_JOURNAL_VERSION_V4 ->
     cold_to_input w = Err "cold input version"%string) /\
  (forall w, composed_batch_input_from_borsh_v4 b = Ok w ->
     (cbiw_v w <> BATCH_JOURNAL_VERSION_V4 ->
        composed_to_input w = Err "composed batch input version"%string) /\
     (cbiw_v w = BATCH_JOURNAL_VERSION_V4 -> biw_v (cbiw_batch w) <> BATCH_JOURNAL_VERSION_V4 ->
        composed_to_input w = Err "batch input version"%string)).
Proof.
  intros W. split; [|split; [|split]]; [intros w _; apply versioned_Err..|].
  intros w D. split; [exact (composed_version_Err b w W D)|exact (composed_batch_version_Err b w W D)].
Qed.

(** ** One statement per frame *)
Inductive witness_kind := BatchWitness | GenesisWitness | ColdWitness | ComposedWitness.
Definition decodes (k : witness_kind) (b : bytes) : bool :=
  match k with
  | BatchWitness => is_ok (batch_input_from_borsh_v4 b)
  | GenesisWitness => is_ok (genesis_input_from_borsh_v4 b)
  | ColdWitness => is_ok (cold_input_from_borsh_v4 b)
  | ComposedWitness => is_ok (composed_batch_input_from_borsh_v4 b)
  end.
Definition kind_magic (k : witness_kind) : bytes :=
  match k with
  | BatchWitness => BATCH_INPUT_MAGIC_V4
  | GenesisWitness => GENESIS_INPUT_MAGIC_V4
  | ColdWitness => COLD_INPUT_MAGIC_V4
  | ComposedWitness => COMPOSED_BATCH_INPUT_MAGIC_V4
  end.
Lemma decodes_magic k b : decodes k b = true -> take 4 b = kind_magic k.
Proof.
  unfold decodes. destruct k;
    match goal with |- is_ok ?m = true -> _ => destruct m eqn:E end; try discriminate;
    intros _; exact (frame_magic _ _ _ _ _ b _ E).
Qed.

(** No byte string is a witness of two kinds: a proof request is never decoded as another
    statement. *)
Theorem wire_frames_disjoint k1 k2 b : decodes k1 b = true -> decodes k2 b = true -> k1 = k2.
Proof.
  intros H1%decodes_magic H2%decodes_magic. rewrite H1 in H2.
  destruct k1, k2; (reflexivity || discriminate H2).
Qed.
End Props.

(** ** Witnesses: a frame of an empty batch, read in the Borsh format itself *)
Definition demo_batch_wire (version : Z) : BatchInputWireV4 :=
  let zero := repeat 0 32 in
  mk_BatchInputWireV4 version zero 7 zero zero zero 1 1 0 zero zero zero 0 0 0 0 0 0 zero zero zero zero
    zero zero zero zero false 9 [1] [2] [] [] [] [] [] [] [] (mk_CompactStateWireV4 zero [])
    [mk_BatchBlockWireV4 1 [[3]] (mk_EnvWire 5 6) zero].
Definition demo_frame (version : Z) : bytes :=
  match @batch_input_to_borsh_v4 borsh_format (demo_batch_wire version) with Ok b => b | Err _ => [] end.
Lemma demo_frame_wf : bytes_wf (demo_frame 4) /\ bytes_wf (demo_frame 5).
Proof. refine (bool_decide_unpack _ _). vm_compute. exact I. Qed.
Lemma demo_frame_decodes version :
  version = 4 \/ version = 5 ->
  @batch_input_from_borsh_v4 borsh_format (demo_frame version) = Ok (demo_batch_wire version).
Proof. intros [->| ->]; vm_compute; reflexivity. Qed.

Lemma wire_frames_canonical_witness :
  @batch_input_to_borsh_v4 borsh_format (demo_batch_wire 4) = Ok (demo_frame 4)
  /\ zlen (demo_frame 4) <= MAX_BATCH_WITNESS_BYTES_V4.
Proof.
  destruct (@wire_frames_canonical borsh_format borsh_format_laws (demo_frame 4) (proj1 demo_frame_wf))
    as [H _].
  destruct (proj1 (H _) (demo_frame_decodes 4 (or_introl eq_refl))) as (L & _ & E). auto.
Defined.
Lemma decoded_frame_opens_witness :
  exists input, @batch_to_input toy_keccak borsh_format (demo_batch_wire 4) = Ok input
    /\ bi4_encoded_witness_bytes input = zlen (demo_frame 4).
Proof.
  destruct (@decoded_frame_opens toy_keccak borsh_format borsh_format_laws (demo_frame 4)
              (proj1 demo_frame_wf)) as [H _].
  destruct (H _ (demo_frame_decodes 4 (or_introl eq_refl)) eq_refl) as (input & E & _ & L & _). eauto.
Defined.
Lemma wrong_version_refused_witness :
  @batch_to_input toy_keccak borsh_format (demo_batch_wire 5) = Err "batch input version"%string.
Proof.
  destruct (@wrong_version_refused toy_keccak borsh_format borsh_format_laws (demo_frame 5)
              (proj2 demo_frame_wf)) as [H _].
  apply (H _ (demo_frame_decodes 5 (or_intror eq_refl))). discriminate.
Defined.
Lemma wire_frames_disjoint_witness :
  @decodes borsh_format BatchWitness (demo_frame 4) = true
  /\ forall k, @decodes borsh_format k (demo_frame 4) = true -> k = BatchWitness.
Proof.
  assert (D : @decodes borsh_format BatchWitness (demo_frame 4) = true)
    by (vm_compute; reflexivity).
  split; [exact D|]. intros k Hk. exact (@wire_frames_disjoint borsh_format k BatchWitness _ Hk D).
Defined.
