(* ===== verification/WireJournalV4.v ===== *)
(** * The v4 batch journal message ([stf-wire/src/batch_journal_v4.rs])

    The Borsh mirror of a batch journal and its codec functions. *)

From S2P Require Import Prelude Types Borsh.
Open Scope Z_scope.

(** ** src/zkvm/crates/stf-wire/src/batch_journal_v4.rs *)
Record BatchBlockJournalWireV4 := mk_BatchBlockJournalWireV4 {
  bbjw_block_number : Z;
  bbjw_post_state_root : bytes;
  bbjw_tx_commitment : bytes;
  bbjw_env_hash : bytes
}.

Record ExitAllocationJournalWireV4 := mk_ExitAllocationJournalWireV4 {
  xajw_slot : Z;
  xajw_asset_id : Z;
  xajw_recipient : bytes;
  xajw_amount : bytes
}.

Record AssetAccountingJournalWireV4 := mk_AssetAccountingJournalWireV4 {
  aajw_asset_id : Z;
  aajw_total : bytes;
  aajw_exit_total : bytes;
  aajw_fee_total : bytes
}.

Record BatchJournalWireV4 := mk_BatchJournalWireV4 {
  bjw_v : Z;
  bjw_deployment_id : bytes;
  bjw_room_id : Z;
  bjw_preset_hash : bytes;
  bjw_manifest_hash : bytes;
  bjw_proof_program_id : bytes;
  bjw_batch_index : Z;
  bjw_l2_start_height : Z;
  bjw_l2_end_height : Z;
  bjw_previous_block_timestamp : Z;
  bjw_final_block_timestamp : Z;
  bjw_prev_state_root : bytes;
  bjw_post_state_root : bytes;
  bjw_block_roots_hash : bytes;
  bjw_blocks : list BatchBlockJournalWireV4;
  bjw_pre_roster_root : bytes;
  bjw_post_roster_root : bytes;
  bjw_active_mask : Z;
  bjw_post_active_mask : Z;
  bjw_used_mask : Z;
  bjw_inbox_start : Z;
  bjw_inbox_end : Z;
  bjw_inbox_inputs_hash : bytes;
  bjw_block_data_hash : bytes;
  bjw_asset_totals_hash : bytes;
  bjw_exit_totals_hash : bytes;
  bjw_fee_totals_hash : bytes;
  bjw_membership_deltas_hash : bytes;
  bjw_previous_exit_root : bytes;
  bjw_exit_root : bytes;
  bjw_close : bool;
  bjw_l1_inclusion_deadline : Z;
  bjw_exit_allocations : list ExitAllocationJournalWireV4;
  bjw_asset_accounting : list AssetAccountingJournalWireV4
}.

Section Codecs.
Context {BO : Borsh}.

Definition BatchBlockJournalWireV4_codec : Codec BatchBlockJournalWireV4 :=
  borsh_struct
    (fun '(x0, (x1, (x2, x3))) =>
       mk_BatchBlockJournalWireV4 x0 x1 x2 x3)
    (fun w =>
       (bbjw_block_number w, (bbjw_post_state_root w, (bbjw_tx_commitment w, bbjw_env_hash w))))
    (borsh_u64 ⊗ (borsh_array 32) ⊗ (borsh_array 32) ⊗ (borsh_array 32)).
Definition ExitAllocationJournalWireV4_codec : Codec ExitAllocationJournalWireV4 :=
  borsh_struct
    (fun '(x0, (x1, (x2, x3))) =>
       mk_ExitAllocationJournalWireV4 x0 x1 x2 x3)
    (fun w =>
       (xajw_slot w, (xajw_asset_id w, (xajw_recipient w, xajw_amount w))))
    (borsh_u8 ⊗ borsh_u8 ⊗ (borsh_array 20) ⊗ (borsh_array 32)).
Definition AssetAccountingJournalWireV4_codec : Codec AssetAccountingJournalWireV4 :=
  borsh_struct
    (fun '(x0, (x1, (x2, x3))) =>
       mk_AssetAccountingJournalWireV4 x0 x1 x2 x3)
    (fun w =>
       (aajw_asset_id w, (aajw_total w, (aajw_exit_total w, aajw_fee_total w))))
    (borsh_u8 ⊗ (borsh_array 32) ⊗ (borsh_array 32) ⊗ (borsh_array 32)).
Definition BatchJournalWireV4_codec : Codec BatchJournalWireV4 :=
  borsh_struct
    (fun '(x0, (x1, (x2, (x3, (x4, (x5, (x6, (x7, (x8, (x9, (x10, (x11, (x12, (x13, (x14, (x15, (x16, (x17, (x18, (x19, (x20, (x21, (x22, (x23, (x24, (x25, (x26, (x27, (x28, (x29, (x30, (x31, (x32, x33))))))))))))))))))))))))))))))))) =>
       mk_BatchJournalWireV4 x0 x1 x2 x3 x4 x5 x6 x7 x8 x9 x10 x11 x12 x13 x14 x15 x16 x17 x18
       x19 x20 x21 x22 x23 x24 x25 x26 x27 x28 x29 x30 x31 x32 x33)
    (fun w =>
       (bjw_v w, (bjw_deployment_id w, (bjw_room_id w, (bjw_preset_hash w, (bjw_manifest_hash w,
       (bjw_proof_program_id w, (bjw_batch_index w, (bjw_l2_start_height w, (bjw_l2_end_height
       w, (bjw_previous_block_timestamp w, (bjw_final_block_timestamp w, (bjw_prev_state_root w,
       (bjw_post_state_root w, (bjw_block_roots_hash w, (bjw_blocks w, (bjw_pre_roster_root w,
       (bjw_post_roster_root w, (bjw_active_mask w, (bjw_post_active_mask w, (bjw_used_mask w,
       (bjw_inbox_start w, (bjw_inbox_end w, (bjw_inbox_inputs_hash w, (bjw_block_data_hash w,
       (bjw_asset_totals_hash w, (bjw_exit_totals_hash w, (bjw_fee_totals_hash w,
       (bjw_membership_deltas_hash w, (bjw_previous_exit_root w, (bjw_exit_root w, (bjw_close w,
       (bjw_l1_inclusion_deadline w, (bjw_exit_allocations w, bjw_asset_accounting
       w))))))))))))))))))))))))))))))))))
    (borsh_u8 ⊗ (borsh_array 32) ⊗ borsh_u64 ⊗ (borsh_array 32) ⊗ (borsh_array 32) ⊗
    (borsh_array 32) ⊗ borsh_u64 ⊗ borsh_u64 ⊗ borsh_u64 ⊗ borsh_u64 ⊗ borsh_u64 ⊗ (borsh_array
    32) ⊗ (borsh_array 32) ⊗ (borsh_array 32) ⊗ (borsh_vec BatchBlockJournalWireV4_codec) ⊗
    (borsh_array 32) ⊗ (borsh_array 32) ⊗ borsh_u8 ⊗ borsh_u8 ⊗ borsh_u8 ⊗ borsh_u64 ⊗ borsh_u64
    ⊗ (borsh_array 32) ⊗ (borsh_array 32) ⊗ (borsh_array 32) ⊗ (borsh_array 32) ⊗ (borsh_array
    32) ⊗ (borsh_array 32) ⊗ (borsh_array 32) ⊗ (borsh_array 32) ⊗ borsh_bool ⊗ borsh_u64 ⊗
    (borsh_vec ExitAllocationJournalWireV4_codec) ⊗ (borsh_vec
    AssetAccountingJournalWireV4_codec)).
End Codecs.

Definition batch_block_journal_of_wire (b : BatchBlockJournalWireV4) : BatchBlockJournalV4 :=
  mk_BatchBlockJournalV4 (bbjw_block_number b) (of_be (bbjw_post_state_root b)) (of_be
    (bbjw_tx_commitment b)) (of_be (bbjw_env_hash b)).
Definition exit_journal_of_wire (allocation : ExitAllocationJournalWireV4) : ExitAllocationV4 :=
  mk_ExitAllocationV4 (xajw_slot allocation) (xajw_asset_id allocation) (of_be (xajw_recipient
    allocation)) (of_be (xajw_amount allocation)).
Definition accounting_of_wire (accounting : AssetAccountingJournalWireV4) : AssetAccountingV4 :=
  mk_AssetAccountingV4 (aajw_asset_id accounting) (of_be (aajw_total accounting)) (of_be
    (aajw_exit_total accounting)) (of_be (aajw_fee_total accounting)).
Definition batch_journal_of_wire (w : BatchJournalWireV4) : BatchJournalV4 :=
  mk_BatchJournalV4 (bjw_v w) (of_be (bjw_deployment_id w)) (bjw_room_id w) (of_be
    (bjw_preset_hash w)) (of_be (bjw_manifest_hash w)) (of_be (bjw_proof_program_id w))
    (bjw_batch_index w) (bjw_l2_start_height w) (bjw_l2_end_height w)
    (bjw_previous_block_timestamp w) (bjw_final_block_timestamp w) (of_be (bjw_prev_state_root
    w)) (of_be (bjw_post_state_root w)) (of_be (bjw_block_roots_hash w)) (map
    batch_block_journal_of_wire (bjw_blocks w)) (of_be (bjw_pre_roster_root w)) (of_be
    (bjw_post_roster_root w)) (bjw_active_mask w) (bjw_post_active_mask w) (bjw_used_mask w)
    (bjw_inbox_start w) (bjw_inbox_end w) (of_be (bjw_inbox_inputs_hash w)) (of_be
    (bjw_block_data_hash w)) (of_be (bjw_asset_totals_hash w)) (of_be (bjw_exit_totals_hash
    w)) (of_be (bjw_fee_totals_hash w)) (of_be (bjw_membership_deltas_hash w)) (of_be
    (bjw_previous_exit_root w)) (of_be (bjw_exit_root w)) (bjw_close w)
    (bjw_l1_inclusion_deadline w) (map exit_journal_of_wire (bjw_exit_allocations w)) (map
    accounting_of_wire (bjw_asset_accounting w)).
Definition batch_block_journal_wire (b : BatchBlockJournalV4) : BatchBlockJournalWireV4 :=
  mk_BatchBlockJournalWireV4 (bbj_block_number b) (be_bytes 32 (bbj_post_state_root b))
    (be_bytes 32 (bbj_tx_commitment b)) (be_bytes 32 (bbj_env_hash b)).
Definition exit_journal_wire (allocation : ExitAllocationV4) : ExitAllocationJournalWireV4 :=
  mk_ExitAllocationJournalWireV4 (xal_slot allocation) (xal_asset_id allocation) (be_bytes 20
    (xal_recipient allocation)) (be_bytes 32 (xal_amount allocation)).
Definition accounting_wire (accounting : AssetAccountingV4) : AssetAccountingJournalWireV4 :=
  mk_AssetAccountingJournalWireV4 (aac_asset_id accounting) (be_bytes 32 (aac_total
    accounting)) (be_bytes 32 (aac_exit_total accounting)) (be_bytes 32 (aac_fee_total
    accounting)).
Definition batch_journal_wire (j : BatchJournalV4) : BatchJournalWireV4 :=
  mk_BatchJournalWireV4 (bj4_v j) (be_bytes 32 (bj4_deployment_id j)) (bj4_room_id j)
    (be_bytes 32 (bj4_preset_hash j)) (be_bytes 32 (bj4_manifest_hash j)) (be_bytes 32
    (bj4_proof_program_id j)) (bj4_batch_index j) (bj4_l2_start_height j) (bj4_l2_end_height
    j) (bj4_previous_block_timestamp j) (bj4_final_block_timestamp j) (be_bytes 32
    (bj4_prev_state_root j)) (be_bytes 32 (bj4_post_state_root j)) (be_bytes 32
    (bj4_block_roots_hash j)) (map batch_block_journal_wire (bj4_blocks j)) (be_bytes 32
    (bj4_pre_roster_root j)) (be_bytes 32 (bj4_post_roster_root j)) (bj4_active_mask j)
    (bj4_post_active_mask j) (bj4_used_mask j) (bj4_inbox_start j) (bj4_inbox_end j) (be_bytes
    32 (bj4_inbox_inputs_hash j)) (be_bytes 32 (bj4_block_data_hash j)) (be_bytes 32
    (bj4_asset_totals_hash j)) (be_bytes 32 (bj4_exit_totals_hash j)) (be_bytes 32
    (bj4_fee_totals_hash j)) (be_bytes 32 (bj4_membership_deltas_hash j)) (be_bytes 32
    (bj4_previous_exit_root j)) (be_bytes 32 (bj4_exit_root j)) (bj4_close j)
    (bj4_l1_inclusion_deadline j) (map exit_journal_wire (bj4_exit_allocations j)) (map
    accounting_wire (bj4_asset_accounting j)).

Section Functions.
Context {BO : Borsh}.

Definition batch_journal_to_borsh_v4 (j : BatchJournalV4) : result string bytes :=
  ok_or (to_vec BatchJournalWireV4_codec (batch_journal_wire j))
    "v4 batch journal borsh encode cannot fail"%string.
Definition batch_journal_from_borsh_v4 (b : bytes) : result string BatchJournalV4 :=
  let? w := ok_or (try_from_slice BatchJournalWireV4_codec b) "v4 batch journal borsh"%string in
  fail_if negb (bjw_v w =? BATCH_JOURNAL_VERSION_V4) with "batch journal version"%string in
  Ok (batch_journal_of_wire w).
End Functions.

(** * Properties *)

Section Props.
Context {BO : Borsh} {BL : BorshLaws}.

#[export] Instance BatchBlockJournalWireV4_lawful : Lawful BatchBlockJournalWireV4_codec :=
  ltac:(derive_lawful).
#[export] Instance ExitAllocationJournalWireV4_lawful : Lawful ExitAllocationJournalWireV4_codec :=
  ltac:(derive_lawful).
#[export] Instance AssetAccountingJournalWireV4_lawful : Lawful AssetAccountingJournalWireV4_codec :=
  ltac:(derive_lawful).
#[export] Instance BatchJournalWireV4_lawful : Lawful BatchJournalWireV4_codec :=
  ltac:(derive_lawful).

Lemma block_journal_typed w :
  valid BatchBlockJournalWireV4_codec w ->
  BatchBlockJournalV4_wf (batch_block_journal_of_wire w)
  /\ batch_block_journal_wire (batch_block_journal_of_wire w) = w.
Proof.
  intros V. split; [revert V; wire_typed|]. cbn in V. destruct V as (_ & H1 & H2 & H3).
  destruct w. unfold batch_block_journal_wire. cbn in *. wire_inverse. reflexivity.
Qed.
Lemma exit_journal_typed w :
  valid ExitAllocationJournalWireV4_codec w ->
  ExitAllocationV4_wf (exit_journal_of_wire w) /\ exit_journal_wire (exit_journal_of_wire w) = w.
Proof.
  intros V. split; [revert V; wire_typed|]. cbn in V. destruct V as (_ & _ & H1 & H2).
  destruct w. unfold exit_journal_wire. cbn in *. wire_inverse. reflexivity.
Qed.
Lemma accounting_typed w :
  valid AssetAccountingJournalWireV4_codec w ->
  AssetAccountingV4_wf (accounting_of_wire w) /\ accounting_wire (accounting_of_wire w) = w.
Proof.
  intros V. split; [revert V; wire_typed|]. cbn in V. destruct V as (_ & H1 & H2 & H3).
  destruct w. unfold accounting_wire. cbn in *. wire_inverse. reflexivity.
Qed.
Lemma block_journal_valid x :
  BatchBlockJournalV4_wf x ->
  valid BatchBlockJournalWireV4_codec (batch_block_journal_wire x)
  /\ batch_block_journal_of_wire (batch_block_journal_wire x) = x.
Proof.
  intros (H1 & H2 & H3 & H4). split; [cbn; auto using array32_encoded|].
  destruct x. unfold batch_block_journal_of_wire. cbn in *. wire_inverse. reflexivity.
Qed.
Lemma exit_journal_valid x :
  ExitAllocationV4_wf x ->
  valid ExitAllocationJournalWireV4_codec (exit_journal_wire x)
  /\ exit_journal_of_wire (exit_journal_wire x) = x.
Proof.
  intros (H1 & H2 & H3 & H4). split; [cbn; auto using array32_encoded, array20_encoded|].
  destruct x. unfold exit_journal_of_wire. cbn in *. wire_inverse. reflexivity.
Qed.
Lemma accounting_valid x :
  AssetAccountingV4_wf x ->
  valid AssetAccountingJournalWireV4_codec (accounting_wire x) /\ accounting_of_wire (accounting_wire x) = x.
Proof.
  intros (H1 & H2 & H3 & H4). split; [cbn; auto using array32_encoded|].
  destruct x. unfold accounting_of_wire. cbn in *. wire_inverse. reflexivity.
Qed.

(** The Borsh counts of the journal's three lists fit their 32-bit fields. *)
Definition journal_counts (j : BatchJournalV4) : Prop :=
  in_u32 (zlen (bj4_blocks j)) /\ in_u32 (zlen (bj4_exit_allocations j))
  /\ in_u32 (zlen (bj4_asset_accounting j)).

Lemma batch_journal_of_wire_typed w :
  valid BatchJournalWireV4_codec w -> BatchJournalV4_wf (batch_journal_of_wire w).
Proof.
  pose proof (fun w V => proj1 (block_journal_typed w V)).
  pose proof (fun w V => proj1 (exit_journal_typed w V)).
  pose proof (fun w V => proj1 (accounting_typed w V)). wire_typed.
Qed.
Lemma batch_journal_of_wire_inverse w :
  valid BatchJournalWireV4_codec w -> batch_journal_wire (batch_journal_of_wire w) = w.
Proof.
  intros V. cbn in V. repeat match goal with H : _ /\ _ |- _ => destruct H end.
  repeat match goal with H : vec_valid _ _ |- _ => destruct H as [H _] end.
  destruct w. unfold batch_journal_wire. cbn in *. wire_inverse.
  rewrite (map_inverse _ _ _ _ (fun a V => proj2 (block_journal_typed a V))) by assumption.
  rewrite (map_inverse _ _ _ _ (fun a V => proj2 (exit_journal_typed a V))) by assumption.
  rewrite (map_inverse _ _ _ _ (fun a V => proj2 (accounting_typed a V))) by assumption.
  reflexivity.
Qed.
Lemma batch_journal_wire_inverse j :
  BatchJournalV4_wf j -> batch_journal_of_wire (batch_journal_wire j) = j.
Proof.
  intros V. hnf in V. repeat match goal with H : _ /\ _ |- _ => destruct H end.
  destruct j. unfold batch_journal_of_wire. cbn in *. wire_inverse.
  rewrite (map_inverse _ _ _ _ (fun a V => proj2 (block_journal_valid a V))) by assumption.
  rewrite (map_inverse _ _ _ _ (fun a V => proj2 (exit_journal_valid a V))) by assumption.
  rewrite (map_inverse _ _ _ _ (fun a V => proj2 (accounting_valid a V))) by assumption.
  reflexivity.
Qed.
Lemma batch_journal_wire_valid j :
  BatchJournalV4_wf j -> journal_counts j -> valid BatchJournalWireV4_codec (batch_journal_wire j).
Proof.
  intros V (C1 & C2 & C3). hnf in V. repeat match goal with H : _ /\ _ |- _ => destruct H end. cbn.
  repeat match goal with |- _ /\ _ => split end; auto using array32_encoded;
    (eapply vec_encoded; [|eassumption|assumption]).
  - exact (fun a V => proj1 (block_journal_valid a V)).
  - exact (fun a V => proj1 (exit_journal_valid a V)).
  - exact (fun a V => proj1 (accounting_valid a V)).
Qed.

(** The wire form of a v4 batch journal is canonical: every journal of the machine types is
    encoded and read back unchanged, and the decoder accepts exactly the encodings of version-4
    journals, refusing any other version. *)
Theorem batch_journal_wire_exact :
  (forall j, BatchJournalV4_wf j -> journal_counts j -> bj4_v j = BATCH_JOURNAL_VERSION_V4 ->
     exists b, batch_journal_to_borsh_v4 j = Ok b /\ batch_journal_from_borsh_v4 b = Ok j) /\
  (forall j, BatchJournalV4_wf j -> journal_counts j -> bj4_v j <> BATCH_JOURNAL_VERSION_V4 ->
     exists b, batch_journal_to_borsh_v4 j = Ok b
       /\ batch_journal_from_borsh_v4 b = Err "batch journal version"%string) /\
  (forall b j, bytes_wf b -> batch_journal_from_borsh_v4 b = Ok j ->
     BatchJournalV4_wf j /\ bj4_v j = BATCH_JOURNAL_VERSION_V4 /\ batch_journal_to_borsh_v4 j = Ok b).
Proof.
  assert (R : forall j, BatchJournalV4_wf j -> journal_counts j -> exists b,
    batch_journal_to_borsh_v4 j = Ok b
    /\ try_from_slice BatchJournalWireV4_codec b = Some (batch_journal_wire j)).
  { intros j T C. destruct (to_vec_round _ _ _ (batch_journal_wire_valid j T C)) as (b & E & _ & D).
    exists b. split; [unfold batch_journal_to_borsh_v4; rewrite E; reflexivity|exact D]. }
  unfold batch_journal_from_borsh_v4. split; [|split].
  - intros j T C V. destruct (R j T C) as (b & E & D). exists b. split; [exact E|].
    rewrite D. cbn [ok_or rbind]. change (bjw_v (batch_journal_wire j)) with (bj4_v j).
    rewrite V, Z.eqb_refl. cbn [negb]. rewrite batch_journal_wire_inverse by exact T. reflexivity.
  - intros j T C V. destruct (R j T C) as (b & E & D). exists b. split; [exact E|].
    rewrite D. cbn [ok_or rbind]. change (bjw_v (batch_journal_wire j)) with (bj4_v j).
    apply Z.eqb_neq in V. rewrite V. reflexivity.
  - intros b j W H. apply rbind_Ok in H as (w & D & H). apply ok_or_Ok in D.
    apply fail_if_Ok in H as [V H]. apply negb_eqb_false in V. apply Ok_Ok in H as <-.
    apply (try_from_slice_canonical _ _ b w W) in D as [Vw E].
    split; [exact (batch_journal_of_wire_typed w Vw)|]. split; [exact V|].
    unfold batch_journal_to_borsh_v4. rewrite (batch_journal_of_wire_inverse w Vw), E. reflexivity.
Qed.
End Props.

(** ** Witness *)
Definition demo_batch_journal : BatchJournalV4 :=
  mk_BatchJournalV4 4 1 42 2 18 3 8 10 11 1000 1002 4 6 20 [mk_BatchBlockJournalV4 10 5 21 37]
    7 8 3 5 7 4 7 25 9 10 26 42 58 74 11 false 99 [mk_ExitAllocationV4 1 0 77 30]
    [mk_AssetAccountingV4 0 37 37 0].
Lemma batch_journal_wire_exact_witness :
  exists b, @batch_journal_to_borsh_v4 borsh_format demo_batch_journal = Ok b
    /\ @batch_journal_from_borsh_v4 borsh_format b = Ok demo_batch_journal.
Proof.
  apply (@batch_journal_wire_exact borsh_format borsh_format_laws).
  - refine (bool_decide_unpack _ _). vm_compute. exact I.
  - refine (bool_decide_unpack _ _). vm_compute. exact I.
  - reflexivity.
Defined.
