(* ===== verification/State.v ===== *)
(** * Room state and the revm database adapter

    [AccountRecord] and [StateMap] of stf-core/src/db/mod.rs, the two state
    commitments of db/roots.rs, and the [Database]/[DatabaseCommit]
    implementations of db/evm.rs.  revm's [Bytecode] and alloy's Merkle-Patricia
    tries are foreign code and enter as the classes [Revm] and [AlloyTrie].
    A [BTreeMap] is a [gmap]; [sorted_entries] gives its iteration order. *)

From S2P Require Import Prelude Types Abi.
Open Scope Z_scope.

(** ** Foreign interfaces *)

(** revm: bytecode values and the hash constant of empty code. *)
Class Revm := {
  Bytecode : Type;
  bytecode_new_raw : bytes -> Bytecode;
  bytecode_new_raw_checked : bytes -> option Bytecode;
  bytecode_is_legacy : Bytecode -> bool;
  bytecode_original : Bytecode -> bytes;
  bytecode_is_empty : Bytecode -> bool;
  bytecode_default : Bytecode;
  KECCAK_EMPTY : Z
}.

Record TrieAccount := mk_TrieAccount {
  ta_nonce : Z;
  ta_balance : Z;
  ta_storage_root : Z;
  ta_code_hash : Z
}.

(** alloy-trie and alloy-rlp: roots, inclusion proofs and the value encoding
    they are stated over. *)
Class AlloyTrie := {
  EMPTY_ROOT_HASH : Z;
  storage_root_unhashed : list (Z * Z) -> Z;
  state_root_unhashed : list (Z * TrieAccount) -> Z;
  verify_proof : Z -> Z -> option bytes -> list bytes -> bool;
  rlp_trie_account : TrieAccount -> bytes;
  rlp_u256 : Z -> bytes
}.

(** ** Records of db/mod.rs *)
Record AccountRecord := mk_AccountRecord {
  ar_nonce : Z;
  ar_balance : Z;
  ar_code : bytes;
  ar_storage : gmap Z Z
}.
Definition AccountRecord_default : AccountRecord := mk_AccountRecord 0 0 [] ∅.

Inductive StfDbError :=
| UndeclaredAccount (address : Z)
| UndeclaredStorage (address slot : Z).

Record DbAccessMetrics := mk_DbAccessMetrics {
  dm_account_reads : Z;
  dm_code_reads : Z;
  dm_storage_reads : Z;
  dm_block_hash_reads : Z;
  dm_account_writes : Z;
  dm_storage_writes : Z
}.
Definition DbAccessMetrics_default : DbAccessMetrics := mk_DbAccessMetrics 0 0 0 0 0 0.

Record PreparedCodeCacheReport := mk_PreparedCodeCacheReport {
  pr_requested_contracts : Z;
  pr_cached_contracts : Z;
  pr_dynamic_interpreter_contracts : Z;
  pr_fallback_contracts : Z
}.

Record StateMap {RV : Revm} := mk_StateMap {
  sm_accounts : gmap Z AccountRecord;
  sm_block_hashes : gmap Z Z;
  sm_access_accounts : option (gset Z);
  sm_access_storage : option (gmap Z (gset Z));
  sm_access_violation : option StfDbError;
  sm_prepared_code : gmap Z Bytecode;
  sm_prepared_code_addresses : gmap Z Z;
  sm_access_metrics : DbAccessMetrics
}.

Section Setters.
Context {RV : Revm}.

Definition StateMap_default : StateMap :=
  mk_StateMap _ ∅ ∅ None None None ∅ ∅ DbAccessMetrics_default.

Definition set_accounts (a : gmap Z AccountRecord) (s : StateMap) : StateMap :=
  mk_StateMap _ a (sm_block_hashes s) (sm_access_accounts s) (sm_access_storage s)
    (sm_access_violation s) (sm_prepared_code s) (sm_prepared_code_addresses s)
    (sm_access_metrics s).
Definition set_block_hashes (h : gmap Z Z) (s : StateMap) : StateMap :=
  mk_StateMap _ (sm_accounts s) h (sm_access_accounts s) (sm_access_storage s)
    (sm_access_violation s) (sm_prepared_code s) (sm_prepared_code_addresses s)
    (sm_access_metrics s).
Definition set_violation (v : option StfDbError) (s : StateMap) : StateMap :=
  mk_StateMap _ (sm_accounts s) (sm_block_hashes s) (sm_access_accounts s)
    (sm_access_storage s) v (sm_prepared_code s) (sm_prepared_code_addresses s)
    (sm_access_metrics s).
Definition set_prepared (c : gmap Z Bytecode) (a : gmap Z Z) (s : StateMap) : StateMap :=
  mk_StateMap _ (sm_accounts s) (sm_block_hashes s) (sm_access_accounts s)
    (sm_access_storage s) (sm_access_violation s) c a (sm_access_metrics s).
Definition set_metrics (m : DbAccessMetrics) (s : StateMap) : StateMap :=
  mk_StateMap _ (sm_accounts s) (sm_block_hashes s) (sm_access_accounts s)
    (sm_access_storage s) (sm_access_violation s) (sm_prepared_code s)
    (sm_prepared_code_addresses s) m.
End Setters.

Section Db.
Context {KK : Keccak} {RV : Revm} {AT : AlloyTrie}.

(** ** AccountRecord *)
Definition is_empty (a : AccountRecord) : bool :=
  (ar_nonce a =? 0) && (ar_balance a =? 0) && bool_decide (ar_code a = [])
  && bool_decide (ar_storage a = ∅).

Definition code_hash (a : AccountRecord) : Z :=
  if bool_decide (ar_code a = []) then KECCAK_EMPTY else keccak256 (ar_code a).

Definition storage_root (a : AccountRecord) : Z :=
  if bool_decide (ar_storage a = ∅) then EMPTY_ROOT_HASH
  else storage_root_unhashed
         (filter (fun kv => kv.2 <> 0) (sorted_entries (ar_storage a))).

(** ** Construction *)
Definition nonzero_storage (l : list (Z * Z)) : gmap Z Z :=
  foldl (fun m kv => <[kv.1 := kv.2]> m) ∅ (filter (fun kv => kv.2 <> 0) l).

(** [StateMap::from_input]; the policy has a constructor of that name too. *)
Definition state_map_from_input (state : list (Z * AccountState)) : StateMap :=
  let accounts := foldl (fun m '(address, acct) =>
      <[address := mk_AccountRecord (as_nonce acct) (as_balance acct) (as_code acct)
                     (nonzero_storage (as_storage acct))]> m) ∅ state in
  mk_StateMap _ accounts ∅ None None None ∅ ∅ DbAccessMetrics_default.

Definition from_compact (accounts : gmap Z AccountRecord) (access_accounts : gset Z)
    (access_storage : gmap Z (gset Z)) : StateMap :=
  mk_StateMap _ accounts ∅ (Some access_accounts) (Some access_storage) None ∅ ∅
    DbAccessMetrics_default.

Definition install_block_hash (current_number oldest : Z)
    (s : option Z * gmap Z Z) (entry : Z * Z) : result string (option Z * gmap Z Z) :=
  let '(previous, hashes) := s in
  let '(number, hash) := entry in
  fail_if (number <? oldest) || (current_number <=? number)
    with "block-hash entry is outside the window"%string in
  fail_if not_after previous number
    with "block-hash history must be strictly ordered and unique"%string in
  Ok (Some number, <[number := hash]> hashes).

Definition install_block_hashes (current_number : Z) (history : list (Z * Z))
    (self : StateMap) : result string StateMap :=
  fail_if 256 <? zlen history
    with "block-hash history exceeds 256 entries"%string in
  let oldest := saturating_sub current_number 256 in
  let? (_, hashes) := for_each (install_block_hash current_number oldest)
                        (None, ∅) history in
  Ok (set_block_hashes hashes self).

(** [has_dynamic_interpreter_control_flow]: skip PUSH immediates, look for a
    JUMP/CALL/CREATE-family opcode.  [code] is the suffix at [pc]; a program
    counter past the end is the empty suffix, so [length code] steps suffice. *)
Definition is_dynamic_opcode (opcode : Z) : bool :=
  existsb (Z.eqb opcode) [0x56; 0x57; 0xf0; 0xf1; 0xf2; 0xf4; 0xf5; 0xfa].
Definition push_width (opcode : Z) : Z :=
  if (0x60 <=? opcode) && (opcode <=? 0x7f) then opcode - 0x5f else 0.
Fixpoint dynamic_from (fuel : nat) (code : bytes) : bool :=
  match fuel, code with
  | S fuel', opcode :: rest =>
      if is_dynamic_opcode opcode then true
      else dynamic_from fuel' (drop (Z.to_nat (push_width opcode)) rest)
  | _, _ => false
  end.
Definition has_dynamic_interpreter_control_flow (code : bytes) : bool :=
  dynamic_from (length code) code.

(** ** Prepared runtime code *)
Definition prepare_one (accounts : gmap Z AccountRecord)
    (s : PreparedCodeCacheReport * gmap Z Bytecode) (entry : Z * Z)
  : result string (PreparedCodeCacheReport * gmap Z Bytecode) :=
  let '(report, cache) := s in
  let '(address, expected_hash) := entry in
  let fallback := mk_PreparedCodeCacheReport (pr_requested_contracts report)
      (pr_cached_contracts report) (pr_dynamic_interpreter_contracts report)
      (pr_fallback_contracts report + 1) in
  let? account := ok_or (accounts !! address)
                    "prepared runtime account is absent"%string in
  let actual_hash := code_hash account in
  fail_if negb (actual_hash =? expected_hash)
    with "prepared runtime code hash mismatch"%string in
  if bool_decide (ar_code account = []) then Ok (fallback, cache) else
  match bytecode_new_raw_checked (ar_code account) with
  | None => Ok (fallback, cache)
  | Some analyzed =>
      if negb (bytecode_is_legacy analyzed) then Ok (fallback, cache) else
      Ok (mk_PreparedCodeCacheReport (pr_requested_contracts report)
            (pr_cached_contracts report + 1)
            (pr_dynamic_interpreter_contracts report
             + bool_u64 (has_dynamic_interpreter_control_flow (ar_code account)))
            (pr_fallback_contracts report),
          <[actual_hash := analyzed]> cache)
  end.

Definition install_prepared_runtime_code (frozen_code_hashes : gmap Z Z)
    (self : StateMap) : result string (PreparedCodeCacheReport * StateMap) :=
  let? (report, cache) :=
    for_each (prepare_one (sm_accounts self))
      (mk_PreparedCodeCacheReport (Z.of_nat (size frozen_code_hashes)) 0 0 0, ∅)
      (sorted_entries frozen_code_hashes) in
  Ok (report, set_prepared cache frozen_code_hashes self).

Definition clear_prepared_runtime_code (self : StateMap) : StateMap :=
  set_prepared ∅ ∅ self.

Definition validated_prepared_code (self : StateMap) (address : Z)
    (account : AccountRecord) : option (Z * Bytecode) :=
  match sm_prepared_code_addresses self !! address with
  | None => None
  | Some hash =>
      match sm_prepared_code self !! hash with
      | None => None
      | Some bytecode =>
          if bool_decide (bytecode_original bytecode = ar_code account)
          then Some (hash, bytecode) else None
      end
  end.

(** ** db/roots.rs *)
Definition state_root_code_hash (self : StateMap) (address : Z) (a : AccountRecord) : Z :=
  match validated_prepared_code self address a with
  | Some (hash, _) => hash
  | None => code_hash a
  end.

Definition live_accounts (self : StateMap) : list (Z * AccountRecord) :=
  filter (fun p => is_empty p.2 = false) (sorted_entries (sm_accounts self)).

Definition state_root (self : StateMap) : Z :=
  state_root_unhashed (map (fun '(address, a) =>
    (address, mk_TrieAccount (ar_nonce a) (ar_balance a) (storage_root a)
                (state_root_code_hash self address a))) (live_accounts self)).

(** [tree_root] of [sparse_state_root_v5]: pad to a power of two with zero
    leaves, hash tagged pairs, commit tag, count and root. *)
Definition tagged_preimage (tag : bytes) (left right : Z) : bytes :=
  b256_bytes (keccak256 tag) ++ b256_bytes left ++ b256_bytes right.
Fixpoint tagged_layer (tag : bytes) (leaves : list Z) : list Z :=
  match leaves with
  | a :: b :: rest => keccak256 (tagged_preimage tag a b) :: tagged_layer tag rest
  | _ => []
  end.
Fixpoint tagged_fold (tag : bytes) (fuel : nat) (leaves : list Z) : list Z :=
  match leaves, fuel with
  | _ :: _ :: _, S fuel' => tagged_fold tag fuel' (tagged_layer tag leaves)
  | _, _ => leaves
  end.
Definition padded_leaves (leaves : list Z) : list Z :=
  match leaves with
  | [] => [B256_ZERO]
  | _ => leaves ++ replicate (Z.to_nat (next_power_of_two (zlen leaves)) - length leaves)
                     B256_ZERO
  end.
Definition tree_root (tag : bytes) (leaves : list Z) : Z :=
  let folded := tagged_fold tag (length (padded_leaves leaves)) (padded_leaves leaves) in
  keccak256 (tag ++ be_bytes 8 (zlen leaves) ++ b256_bytes (hd B256_ZERO folded)).

Definition sparse_storage_leaf (kv : Z * Z) : Z :=
  keccak256 (b256_bytes (keccak256 (b_ "zkdeal/sparse-storage-leaf/v5"))
             ++ be_bytes 32 kv.1 ++ be_bytes 32 kv.2).
Definition sparse_storage_root (a : AccountRecord) : Z :=
  tree_root (b_ "zkdeal/sparse-storage-tree/v5")
    (map sparse_storage_leaf
       (filter (fun kv => kv.2 <> 0) (sorted_entries (ar_storage a)))).
Definition sparse_account_leaf (p : Z * AccountRecord) : Z :=
  let '(address, a) := p in
  keccak256 (b256_bytes (keccak256 (b_ "zkdeal/sparse-account-leaf/v5"))
             ++ repeat 0 12 ++ be_bytes 20 address
             ++ repeat 0 24 ++ be_bytes 8 (ar_nonce a)
             ++ be_bytes 32 (ar_balance a)
             ++ b256_bytes (code_hash a) ++ b256_bytes (sparse_storage_root a)).
Definition sparse_state_root_v5 (self : StateMap) : Z :=
  tree_root (b_ "zkdeal/sparse-account-tree/v5")
    (map sparse_account_leaf (live_accounts self)).

Definition to_input_state (self : StateMap) : list (Z * AccountState) :=
  map (fun '(address, a) =>
    (address, mk_AccountState (ar_nonce a) (ar_balance a) (ar_code a)
                (sorted_entries (ar_storage a)))) (live_accounts self).
End Db.
