(* ===== verification/StateEvm.v ===== *)
(** * The revm database adapter: stf-core/src/db/evm.rs

    [Database] reads return the state with its access counters advanced and
    either a value or the error of an access outside the witness envelope.
    [commit] consumes revm's change set, whose iteration order is that of a
    hash map and therefore an arbitrary list here. *)

From S2P Require Import Prelude Types Abi State.
Open Scope Z_scope.

(** revm's [AccountInfo] and the fields of [Account] that [commit] reads. *)
Record AccountInfo {RV : Revm} := mk_AccountInfo {
  ai_balance : Z;
  ai_nonce : Z;
  ai_code_hash : Z;
  ai_code : option Bytecode
}.

Record Account {RV : Revm} := mk_Account {
  ac_touched : bool;
  ac_selfdestructed : bool;
  ac_created : bool;
  ac_info : AccountInfo;
  ac_storage : list (Z * Z)   (* key, present value *)
}.

Section Evm.
Context {KK : Keccak} {RV : Revm}.

Definition sat_inc (x : Z) : Z := saturating_add U64_MAX x 1.

Definition bump_account_reads (m : DbAccessMetrics) : DbAccessMetrics :=
  mk_DbAccessMetrics (sat_inc (dm_account_reads m)) (dm_code_reads m)
    (dm_storage_reads m) (dm_block_hash_reads m) (dm_account_writes m)
    (dm_storage_writes m).
Definition bump_code_reads (m : DbAccessMetrics) : DbAccessMetrics :=
  mk_DbAccessMetrics (dm_account_reads m) (sat_inc (dm_code_reads m))
    (dm_storage_reads m) (dm_block_hash_reads m) (dm_account_writes m)
    (dm_storage_writes m).
Definition bump_storage_reads (m : DbAccessMetrics) : DbAccessMetrics :=
  mk_DbAccessMetrics (dm_account_reads m) (dm_code_reads m)
    (sat_inc (dm_storage_reads m)) (dm_block_hash_reads m) (dm_account_writes m)
    (dm_storage_writes m).
Definition bump_block_hash_reads (m : DbAccessMetrics) : DbAccessMetrics :=
  mk_DbAccessMetrics (dm_account_reads m) (dm_code_reads m)
    (dm_storage_reads m) (sat_inc (dm_block_hash_reads m)) (dm_account_writes m)
    (dm_storage_writes m).
Definition bump_writes (slots : Z) (m : DbAccessMetrics) : DbAccessMetrics :=
  mk_DbAccessMetrics (dm_account_reads m) (dm_code_reads m)
    (dm_storage_reads m) (dm_block_hash_reads m) (sat_inc (dm_account_writes m))
    (saturating_add U64_MAX (dm_storage_writes m) slots).

(** The envelope tests [access_accounts.is_some_and(|a| !a.contains(..))]. *)
Definition account_outside (self : StateMap) (address : Z) : bool :=
  match sm_access_accounts self with
  | Some allowed => negb (bool_decide (address ∈ allowed))
  | None => false
  end.
Definition storage_outside (self : StateMap) (address slot : Z) : bool :=
  match sm_access_storage self with
  | Some allowed =>
      match allowed !! address with
      | Some slots => negb (bool_decide (slot ∈ slots))
      | None => true
      end
  | None => false
  end.

(** The value of a slot, zero when absent. *)
Definition storage_value (accounts : gmap Z AccountRecord) (address slot : Z) : Z :=
  match accounts !! address with
  | Some a => default 0 (ar_storage a !! slot)
  | None => 0
  end.

(** ** impl Database for StateMap *)
Definition basic (self : StateMap) (address : Z)
  : StateMap * result StfDbError (option AccountInfo) :=
  let self := set_metrics (bump_account_reads (sm_access_metrics self)) self in
  (self,
   if account_outside self address then Err (UndeclaredAccount address)
   else Ok (match sm_accounts self !! address with
            | None => None
            | Some a =>
                let prepared := validated_prepared_code self address a in
                let hash := match prepared with
                            | Some (hash, _) => hash | None => code_hash a end in
                let code := match prepared with
                            | Some (_, code) => code
                            | None => bytecode_new_raw (ar_code a) end in
                Some (mk_AccountInfo _ (ar_balance a) (ar_nonce a) hash (Some code))
            end)).

Definition code_by_hash (self : StateMap) (hash : Z)
  : StateMap * result StfDbError Bytecode :=
  let self := set_metrics (bump_code_reads (sm_access_metrics self)) self in
  (self,
   Ok (match sm_prepared_code self !! hash with
       | Some code => code
       | None =>
           match list_find (fun p : Z * AccountRecord =>
                   ar_code p.2 <> [] /\ code_hash p.2 = hash)
                   (sorted_entries (sm_accounts self)) with
           | Some (_, (_, a)) => bytecode_new_raw (ar_code a)
           | None => bytecode_default
           end
       end)).

Definition storage (self : StateMap) (address index : Z)
  : StateMap * result StfDbError Z :=
  let self := set_metrics (bump_storage_reads (sm_access_metrics self)) self in
  (self,
   if storage_outside self address index then Err (UndeclaredStorage address index)
   else Ok (storage_value (sm_accounts self) address index)).

Definition block_hash (self : StateMap) (number : Z)
  : StateMap * result StfDbError Z :=
  let self := set_metrics (bump_block_hash_reads (sm_access_metrics self)) self in
  (self, Ok (default B256_ZERO (sm_block_hashes self !! number))).

(** ** impl DatabaseCommit for StateMap *)
Definition get_or_insert (v : option StfDbError) (e : StfDbError) : option StfDbError :=
  match v with Some v => Some v | None => Some e end.

Definition latch_violations (self : StateMap) (address : Z) (account : Account)
  : option StfDbError :=
  let v := if account_outside self address
           then get_or_insert (sm_access_violation self) (UndeclaredAccount address)
           else sm_access_violation self in
  foldl (fun v kv => if storage_outside self address kv.1
                     then get_or_insert v (UndeclaredStorage address kv.1) else v)
        v (ac_storage account).

Definition merge_slot (storage : gmap Z Z) (kv : Z * Z) : gmap Z Z :=
  if kv.2 =? 0 then delete kv.1 storage else <[kv.1 := kv.2]> storage.

Definition merge_code (account : Account) (old : bytes) : bytes :=
  match ai_code (ac_info account) with
  | Some code => if bytecode_is_empty code
                 then if ai_code_hash (ac_info account) =? KECCAK_EMPTY then [] else old
                 else bytecode_original code
  | None => if ai_code_hash (ac_info account) =? KECCAK_EMPTY then [] else old
  end.

Definition merge_record (account : Account) (record : AccountRecord) : AccountRecord :=
  let storage := if ac_created account then ∅ else ar_storage record in
  mk_AccountRecord (ai_nonce (ac_info account)) (ai_balance (ac_info account))
    (merge_code account (ar_code record))
    (foldl merge_slot storage (ac_storage account)).

(** What one change does to the account map. *)
Definition commit_account (accounts : gmap Z AccountRecord) (change : Z * Account)
  : gmap Z AccountRecord :=
  let '(address, account) := change in
  if negb (ac_touched account) then accounts
  else if ac_selfdestructed account then delete address accounts
  else
    let record := merge_record account (default AccountRecord_default (accounts !! address)) in
    if is_empty record then delete address accounts
    else <[address := record]> accounts.

(** A prepared address survives only while its bytes keep the frozen hash. *)
Definition commit_prepared (prepared : gmap Z Z) (accounts : gmap Z AccountRecord)
    (change : Z * Account) : gmap Z Z :=
  let '(address, account) := change in
  if negb (ac_touched account) then prepared
  else match accounts !! address with
       | None => delete address prepared
       | Some record =>
           match prepared !! address with
           | Some expected =>
               if negb (code_hash record =? expected) then delete address prepared
               else prepared
           | None => prepared
           end
       end.

Definition commit_one (self : StateMap) (change : Z * Account) : StateMap :=
  let '(address, account) := change in
  if negb (ac_touched account) then self
  else
    let accounts := commit_account (sm_accounts self) change in
    mk_StateMap _ accounts (sm_block_hashes self) (sm_access_accounts self)
      (sm_access_storage self) (latch_violations self address account)
      (sm_prepared_code self)
      (commit_prepared (sm_prepared_code_addresses self) accounts change)
      (bump_writes (zlen (ac_storage account)) (sm_access_metrics self)).

Definition commit (self : StateMap) (changes : list (Z * Account)) : StateMap :=
  foldl commit_one self changes.
End Evm.

(** * Properties *)

(** The documented contract of [Bytecode]: analysis keeps the original bytes. *)
Class RevmLaws (RV : Revm) : Prop := {
  original_new_raw : forall c, bytecode_original (bytecode_new_raw c) = c;
  original_new_raw_checked : forall c b,
    bytecode_new_raw_checked c = Some b -> bytecode_original b = c
}.

(** A concrete instance: code is its bytes, analysis rejects a leading 0xEF. *)
Definition toy_revm : Revm := {|
  Bytecode := bytes;
  bytecode_new_raw := fun c => c;
  bytecode_new_raw_checked := fun c => match c with 0xef :: _ => None | _ => Some c end;
  bytecode_is_legacy := fun _ => true;
  bytecode_original := fun c => c;
  bytecode_is_empty := fun c => bool_decide (c = []);
  bytecode_default := [];
  KECCAK_EMPTY := 77
|}.
#[global] Instance toy_revm_laws : RevmLaws toy_revm.
Proof.
  split; cbn; [reflexivity|]. intros c b H.
  repeat case_match; congruence.
Qed.

Section CommitFacts.
Context {KK : Keccak} {RV : Revm}.
Implicit Types (s : StateMap) (changes : list (Z * Account)).

Lemma commit_snoc s changes c : commit s (changes ++ [c]) = commit_one (commit s changes) c.
Proof. unfold commit. rewrite foldl_app. reflexivity. Qed.

Lemma commit_one_accounts s c :
  sm_accounts (commit_one s c) = commit_account (sm_accounts s) c.
Proof.
  destruct c as [address account]. unfold commit_one, commit_account.
  destruct (ac_touched account); reflexivity.
Qed.

Lemma commit_accounts s changes :
  sm_accounts (commit s changes) = foldl commit_account (sm_accounts s) changes.
Proof.
  induction changes as [|c changes IH] using rev_ind; [reflexivity|].
  rewrite commit_snoc, commit_one_accounts, IH, foldl_app. reflexivity.
Qed.

Lemma commit_prepared_code s changes :
  sm_prepared_code (commit s changes) = sm_prepared_code s.
Proof.
  induction changes as [|[a c] changes IH] using rev_ind; [reflexivity|].
  rewrite commit_snoc. unfold commit_one. destruct (ac_touched c); exact IH.
Qed.

Lemma commit_envelope s changes :
  sm_access_accounts (commit s changes) = sm_access_accounts s /\
  sm_access_storage (commit s changes) = sm_access_storage s.
Proof.
  induction changes as [|[a c] changes IH] using rev_ind; [auto|].
  rewrite commit_snoc. unfold commit_one. destruct (ac_touched c); exact IH.
Qed.

(** ** Canonical states *)
Definition canonical_record (r : AccountRecord) : Prop :=
  is_empty r = false /\ map_Forall (fun _ v => v <> 0) (ar_storage r).
Definition canonical (accounts : gmap Z AccountRecord) : Prop :=
  map_Forall (fun _ r => canonical_record r) accounts.

Lemma merge_slots_nonzero slots st :
  map_Forall (fun _ v => v <> 0) st ->
  map_Forall (fun _ v => v <> 0) (foldl merge_slot st slots).
Proof.
  revert st. induction slots as [|[k v] slots IH]; intros st Hst; [exact Hst|].
  cbn [foldl]. apply IH. unfold merge_slot. cbn. destruct (v =? 0) eqn:E.
  - apply map_Forall_delete. exact Hst.
  - bool_to_prop. apply map_Forall_insert_2; auto.
Qed.

Lemma commit_account_canonical accounts c :
  canonical accounts -> canonical (commit_account accounts c).
Proof.
  intros Hc. destruct c as [a c]. unfold commit_account.
  destruct (ac_touched c); cbn; [|exact Hc].
  destruct (ac_selfdestructed c); [apply map_Forall_delete, Hc|].
  destruct (is_empty _) eqn:E; [apply map_Forall_delete, Hc|].
  apply map_Forall_insert_2; [|exact Hc]. split; [exact E|].
  unfold merge_record. cbn. apply merge_slots_nonzero.
  destruct (ac_created c); [apply map_Forall_empty|].
  destruct (accounts !! a) as [r|] eqn:Er; cbn; [|apply map_Forall_empty].
  apply (Hc a r Er).
Qed.

(** ** Order independence of one change set *)
Lemma commit_account_lookup accounts c a :
  c.1 <> a -> commit_account accounts c !! a = accounts !! a.
Proof.
  destruct c as [b c]. cbn. intros Hne. unfold commit_account.
  repeat case_match; auto; rewrite ?lookup_delete_ne, ?lookup_insert_ne; auto.
Qed.

Lemma commit_account_self accounts accounts' c :
  accounts !! c.1 = accounts' !! c.1 ->
  commit_account accounts c !! c.1 = commit_account accounts' c !! c.1.
Proof.
  destruct c as [b c]. cbn. intros He. unfold commit_account. rewrite He.
  repeat case_match; auto; rewrite ?lookup_delete_eq, ?lookup_insert_eq; auto.
Qed.

Lemma commit_account_comm accounts c1 c2 :
  c1.1 <> c2.1 ->
  commit_account (commit_account accounts c1) c2
  = commit_account (commit_account accounts c2) c1.
Proof.
  intros Hne. apply map_eq. intros a.
  destruct (decide (c1.1 = a)) as [<-|H1]; [|destruct (decide (c2.1 = a)) as [<-|H2]].
  - rewrite commit_account_lookup by auto. apply commit_account_self.
    rewrite commit_account_lookup; auto.
  - rewrite (commit_account_lookup _ c1) by auto. apply commit_account_self.
    rewrite commit_account_lookup; auto.
  - rewrite !commit_account_lookup; auto.
Qed.

Lemma foldl_commit_perm l1 l2 :
  Permutation l1 l2 -> NoDup (map fst l1) -> forall accounts,
  foldl commit_account accounts l1 = foldl commit_account accounts l2.
Proof.
  induction 1 as [|c l1 l2 Hp IH|c1 c2 l|l1 l2 l3 H12 IH12 H23 IH23];
    intros Hn accounts; cbn [foldl map] in *.
  - reflexivity.
  - inversion Hn; subst. apply IH. assumption.
  - inversion Hn as [|? ? Hn1 Hn2]; subst. rewrite commit_account_comm; [reflexivity|].
    intros He. apply Hn1. rewrite <- He. left.
  - rewrite IH12 by assumption. apply IH23.
    change (map fst ?l) with (fst <$> l) in *. rewrite <- H12. exact Hn.
Qed.

(** ** The violation latch *)
Definition change_inside s (c : Z * Account) : bool :=
  negb (ac_touched c.2)
  || negb (account_outside s c.1)
     && forallb (fun kv => negb (storage_outside s c.1 kv.1)) (ac_storage c.2).

Lemma get_or_insert_not_none v e : get_or_insert v e <> None.
Proof. destruct v; discriminate. Qed.

Lemma latch_slots_none s address slots v :
  foldl (fun v (kv : Z * Z) => if storage_outside s address kv.1
         then get_or_insert v (UndeclaredStorage address kv.1) else v) v slots = None
  <-> v = None /\ forallb (fun kv => negb (storage_outside s address kv.1)) slots = true.
Proof.
  revert v. induction slots as [|kv slots IH]; intros v; cbn [foldl forallb].
  - tauto.
  - rewrite IH, andb_true_iff. destruct (storage_outside s address kv.1); cbn.
    + split; [intros [H _]; destruct (get_or_insert_not_none _ _ H)|].
      intros (_ & ? & _). discriminate.
    + tauto.
Qed.

Lemma latch_slots_some s address slots v :
  foldl (fun v (kv : Z * Z) => if storage_outside s address kv.1
         then get_or_insert v (UndeclaredStorage address kv.1) else v) (Some v) slots
  = Some v.
Proof.
  induction slots as [|kv slots IH]; cbn [foldl]; [reflexivity|].
  destruct (storage_outside s address kv.1); exact IH.
Qed.

Lemma commit_one_violation s c :
  sm_access_violation (commit_one s c) = None
  <-> sm_access_violation s = None /\ change_inside s c = true.
Proof.
  destruct c as [a c]. unfold commit_one, change_inside. cbn.
  destruct (ac_touched c); cbn; [|tauto].
  unfold latch_violations. rewrite latch_slots_none.
  destruct (account_outside s a); cbn.
  - split; [intros [H _]; destruct (get_or_insert_not_none _ _ H)|]. intros (_ & ?); discriminate.
  - tauto.
Qed.

Lemma change_inside_ext s s' c :
  sm_access_accounts s = sm_access_accounts s' ->
  sm_access_storage s = sm_access_storage s' ->
  change_inside s c = change_inside s' c.
Proof.
  unfold change_inside, account_outside, storage_outside. intros -> ->. reflexivity.
Qed.

(** ** The prepared-code cache *)

(** Every cached analysis is filed under the hash of the bytes it analysed. *)
Definition cache_sound s : Prop :=
  map_Forall (fun hash b => hash = code_hash (mk_AccountRecord 0 0 (bytecode_original b) ∅))
    (sm_prepared_code s).

Lemma validated_sound s address a hash b :
  cache_sound s -> validated_prepared_code s address a = Some (hash, b) ->
  hash = code_hash a /\ bytecode_original b = ar_code a.
Proof.
  unfold validated_prepared_code. intros Hs H.
  destruct (sm_prepared_code_addresses s !! address) as [h|]; [|discriminate].
  destruct (sm_prepared_code s !! h) as [b'|] eqn:Eb; [|discriminate].
  destruct (bool_decide _) eqn:Ed; [|discriminate]. injection H as <- <-.
  bool_to_prop. specialize (Hs h b' Eb). cbn in Hs. unfold code_hash in *. cbn in Hs.
  rewrite Ed in Hs. auto.
Qed.

Lemma commit_cache_sound s changes : cache_sound s -> cache_sound (commit s changes).
Proof. unfold cache_sound. rewrite commit_prepared_code. auto. Qed.

Lemma install_cache_sound {RL : RevmLaws RV} frozen s report s' :
  install_prepared_runtime_code frozen s = Ok (report, s') ->
  cache_sound s' /\ sm_accounts s' = sm_accounts s.
Proof.
  unfold install_prepared_runtime_code. intros H.
  destruct (for_each _ _ _) as [[r cache]|] eqn:E; cbn in H; [|discriminate].
  injection H as <- <-. split; [|reflexivity]. unfold cache_sound. cbn.
  change cache with ((r, cache).2).
  eapply (for_each_inv (fun _ (st : PreparedCodeCacheReport * gmap Z Bytecode) =>
    map_Forall (fun hash b =>
      hash = code_hash (mk_AccountRecord 0 0 (bytecode_original b) ∅)) st.2)); [| |exact E].
  - cbn. apply map_Forall_empty.
  - intros _ [a h] [r1 c1] [r2 c2] Hi _ Hb. cbn in Hi |- *.
    unfold prepare_one in Hb. inv_ok. bool_to_prop.
    destruct (bool_decide (ar_code a0 = [])); [injection Hb as <- <-; exact Hi|].
    destruct (bytecode_new_raw_checked (ar_code a0)) as [b|] eqn:Eb;
      [|injection Hb as <- <-; exact Hi].
    destruct (negb _); injection Hb as <- <-; [exact Hi|].
    apply map_Forall_insert_2; [|exact Hi].
    rewrite (original_new_raw_checked _ _ Eb). reflexivity.
Qed.

(** What execution can observe of an account read. *)
Definition account_view (r : result StfDbError (option AccountInfo))
  : result StfDbError (option (Z * Z * Z * option bytes)) :=
  match r with
  | Ok i => Ok ((fun i => (ai_balance i, ai_nonce i, ai_code_hash i,
                           bytecode_original <$> ai_code i)) <$> i)
  | Err e => Err e
  end.

Lemma basic_clear {RL : RevmLaws RV} s address :
  cache_sound s ->
  account_view (basic s address).2
  = account_view (basic (clear_prepared_runtime_code s) address).2.
Proof.
  intros Hs.
  assert (Hc : forall m a, validated_prepared_code
                 (set_metrics m (clear_prepared_runtime_code s)) address a = None)
    by reflexivity.
  assert (Hv : forall m a, validated_prepared_code (set_metrics m s) address a
                 = validated_prepared_code s address a) by reflexivity.
  assert (Ho : forall m m', account_outside (set_metrics m s) address
                 = account_outside (set_metrics m' (clear_prepared_runtime_code s)) address)
    by reflexivity.
  unfold basic. cbn [snd]. rewrite (Ho _ (bump_account_reads
    (sm_access_metrics (clear_prepared_runtime_code s)))).
  destruct (account_outside _ address); [reflexivity|].
  cbn [set_metrics clear_prepared_runtime_code set_prepared sm_accounts].
  destruct (sm_accounts s !! address) as [a|]; [|reflexivity].
  rewrite Hc, Hv.
  destruct (validated_prepared_code s address a) as [[h b]|] eqn:E; [|reflexivity].
  apply validated_sound in E as [-> Hb]; [|exact Hs]. cbn.
  rewrite original_new_raw, Hb. reflexivity.
Qed.
End CommitFacts.

Section Claims.
Context {KK : Keccak} {RV : Revm} {AT : AlloyTrie}.

(** Committing any sequence of revm change sets keeps the room state
    canonical: no account that is empty (zero nonce, zero balance, no code, no
    storage) and no storage slot holding zero is ever stored, so the state roots
    are computed over canonical tries. *)
Theorem commit_keeps_canonical (s : StateMap) (changes : list (Z * Account)) :
  canonical (sm_accounts s) -> canonical (sm_accounts (commit s changes)).
Proof.
  intros H. rewrite commit_accounts. revert H. generalize (sm_accounts s).
  induction changes as [|c changes IH]; intros accounts H; [exact H|].
  cbn [foldl]. apply IH, commit_account_canonical, H.
Qed.

(** Revm hands [commit] a hash map, so the iteration order is arbitrary; for
    a change set with one entry per address the committed accounts, the state
    root and the sparse V5 root do not depend on that order. *)
Theorem commit_order_irrelevant (s : StateMap) (changes changes' : list (Z * Account)) :
  NoDup (map fst changes) -> Permutation changes changes' ->
  sm_accounts (commit s changes) = sm_accounts (commit s changes') /\
  sparse_state_root_v5 (commit s changes) = sparse_state_root_v5 (commit s changes').
Proof.
  intros Hn Hp.
  assert (He : sm_accounts (commit s changes) = sm_accounts (commit s changes')).
  { rewrite !commit_accounts. apply foldl_commit_perm; assumption. }
  split; [exact He|]. unfold sparse_state_root_v5, live_accounts. rewrite He. reflexivity.
Qed.

(** The access violation latch is exact: after any sequence of commits it is
    clear iff it was clear before and every touched account and every storage key
    handed over with it lies inside the declared witness envelope; a violation
    once latched is never overwritten or cleared. *)
Theorem commit_violation_exact (s : StateMap) (changes : list (Z * Account)) :
  (sm_access_violation (commit s changes) = None
   <-> sm_access_violation s = None /\ forallb (change_inside s) changes = true)
  /\ (forall e, sm_access_violation s = Some e ->
       sm_access_violation (commit s changes) = Some e).
Proof.
  split.
  - induction changes as [|c changes IH] using rev_ind; [cbn; tauto|].
    rewrite commit_snoc, commit_one_violation, IH, forallb_app. cbn.
    rewrite andb_true_r, andb_true_iff.
    destruct (commit_envelope s changes) as [H1 H2].
    rewrite (change_inside_ext _ _ c H1 H2). tauto.
  - intros e He. induction changes as [|[a c] changes IH] using rev_ind; [exact He|].
    rewrite commit_snoc. unfold commit_one. destruct (ac_touched c); cbn; [|exact IH].
    unfold latch_violations. rewrite IH.
    destruct (account_outside _ a); cbn; apply latch_slots_some.
Qed.

(** The prepared-code cache is transparent: after installing any accepted
    set of frozen code hashes and committing any change sets, the state root and
    every account read (nonce, balance, code hash, code bytes) are those of the
    same state with the cache cleared, although cached entries skip rehashing. *)
Theorem prepared_cache_transparent {RL : RevmLaws RV} (s s1 s2 : StateMap)
    (frozen : gmap Z Z) (report : PreparedCodeCacheReport) changes :
  install_prepared_runtime_code frozen s = Ok (report, s1) ->
  s2 = commit s1 changes ->
  state_root s2 = state_root (clear_prepared_runtime_code s2) /\
  (forall address,
     account_view (basic s2 address).2
     = account_view (basic (clear_prepared_runtime_code s2) address).2).
Proof.
  intros Hi ->.
  pose proof (commit_cache_sound _ changes (proj1 (install_cache_sound _ _ _ _ Hi))) as Hs.
  set (s2 := commit s1 changes) in *.
  split.
  - unfold state_root. f_equal. unfold live_accounts. cbn.
    apply map_ext. intros [address a]. do 2 f_equal. unfold state_root_code_hash at 1.
    destruct (validated_prepared_code s2 address a) as [[h b]|] eqn:E; [|reflexivity].
    apply validated_sound in E as [-> _]; auto.
  - intros address. apply basic_clear, Hs.
Qed.
End Claims.

(** ** Witnesses *)
#[local] Existing Instance toy_keccak.
#[local] Existing Instance toy_revm.

Definition demo_info (nonce : Z) (code : bytes) : @AccountInfo toy_revm :=
  mk_AccountInfo toy_revm 5 nonce (if bool_decide (code = []) then 77 else keccak256 code)
    (Some code).
Definition demo_state : @StateMap toy_revm :=
  set_accounts {[ 1 := mk_AccountRecord 1 9 [0x60; 0x56; 0x00] {[ 3 := 4 ]};
                  2 := mk_AccountRecord 7 0 [] ∅ ]} StateMap_default.
Definition demo_changes : list (Z * @Account toy_revm) :=
  [ (1, mk_Account toy_revm true false false (demo_info 2 [0x60; 0x56; 0x00]) [(3, 0); (8, 1)]);
    (2, mk_Account toy_revm true true false (demo_info 7 []) []) ].

Lemma commit_keeps_canonical_witness :
  canonical (sm_accounts (RV:=toy_revm) (@commit toy_keccak toy_revm demo_state demo_changes)).
Proof.
  apply (@commit_keeps_canonical toy_keccak toy_revm demo_state demo_changes).
  apply map_Forall_insert_2; [|apply map_Forall_insert_2; [|apply map_Forall_empty]];
    split; try reflexivity; cbn.
  - apply map_Forall_singleton. lia.
  - apply map_Forall_empty.
Defined.

Lemma commit_order_irrelevant_witness :
  sm_accounts (RV:=toy_revm) (@commit toy_keccak toy_revm demo_state demo_changes)
  = sm_accounts (@commit toy_keccak toy_revm demo_state (rev demo_changes)).
Proof.
  apply (@commit_order_irrelevant toy_keccak toy_revm demo_state demo_changes
           (rev demo_changes)).
  - vm_compute. repeat constructor; set_solver.
  - apply Permutation_rev.
Defined.

Definition demo_frozen : gmap Z Z :=
  {[ 1 := @keccak256 toy_keccak [0x60; 0x56; 0x00] ]}.
Definition demo_installed : @StateMap toy_revm :=
  match @install_prepared_runtime_code toy_keccak toy_revm demo_frozen demo_state with
  | Ok (_, s) => s | Err _ => demo_state end.

Definition toy_trie : AlloyTrie := {|
  EMPTY_ROOT_HASH := 11;
  storage_root_unhashed := fun l => zsum (map (fun kv => kv.1 * 31 + kv.2) l);
  state_root_unhashed := fun l =>
    zsum (map (fun '(a, t) => a * 7 + ta_nonce t + ta_balance t + ta_storage_root t
                              + ta_code_hash t) l);
  verify_proof := fun root key expected _ =>
    match expected with Some v => root =? of_be v + key | None => true end;
  rlp_trie_account := fun t => be_bytes 8 (ta_nonce t);
  rlp_u256 := be_bytes 32
|}.

Lemma prepared_cache_transparent_witness :
  @state_root toy_keccak toy_revm toy_trie (commit demo_installed demo_changes)
  = @state_root toy_keccak toy_revm toy_trie
      (clear_prepared_runtime_code (@commit toy_keccak toy_revm demo_installed demo_changes)).
Proof.
  apply (@prepared_cache_transparent toy_keccak toy_revm toy_trie toy_revm_laws demo_state
           demo_installed _ demo_frozen (mk_PreparedCodeCacheReport 1 1 0 0) demo_changes).
  - vm_compute. reflexivity.
  - reflexivity.
Defined.
