(* ===== verification/Policy.v ===== *)
(** * Certified execution policies

    stf-core/src/policy/{mod,enforce,from_v5,inspector}.rs: the resolved policy
    record, its v5 constructor, what it permits during execution and what the
    terminal state may look like.  revm's precompile set is foreign. *)

From S2P Require Import Prelude Types Abi Merkle HashV5 HashV4 State StateEvm.
Open Scope Z_scope.

(** revm: membership of the Osaka precompile set. *)
Class OsakaPrecompiles := is_precompile : Z -> bool.

(** ** Resolved rules *)
Inductive AllowedCallKind := Call | StaticCall | DelegateCall.
#[export] Instance AllowedCallKind_eq_dec : EqDecision AllowedCallKind.
Proof. solve_decision. Defined.
(** [kind as u8]. *)
Definition call_kind_u8 (k : AllowedCallKind) : Z :=
  match k with Call => 0 | StaticCall => 1 | DelegateCall => 2 end.

Record CallRule := mk_CallRule {
  cru_caller : Z;
  cru_target : Z;
  cru_selectors : gset bytes;
  cru_kinds : gset Z
}.
Record StorageNamespace := mk_StorageNamespace {
  ns_contract : Z;
  ns_slot_prefix : Z;
  ns_prefix_bits : Z;
  ns_writable : bool
}.
Record ActiveMemberArgumentRule := mk_ActiveMemberArgumentRule {
  ama_target : Z;
  ama_selector : bytes;
  ama_argument_word_indices : list Z
}.
Record MembershipStateGuard := mk_MembershipStateGuard {
  msg_contract : Z;
  msg_storage_slot : Z;
  msg_bit_offset : Z;
  msg_bit_width : Z;
  msg_allowed_values : gset Z
}.
Record ExecutionPolicyV4 := mk_ExecutionPolicyV4 {
  xp_certified : bool;
  xp_active_members : gset Z;
  xp_code_hashes : gmap Z Z;
  xp_call_rules : list CallRule;
  xp_storage_namespaces : list StorageNamespace;
  xp_active_member_argument_rules : list ActiveMemberArgumentRule;
  xp_membership_state_guards : list MembershipStateGuard;
  xp_membership_changed : bool;
  xp_allow_contract_creation : bool;
  xp_allow_self_destruct : bool;
  xp_max_gas_per_block : Z;
  xp_max_memory_bytes : Z;
  xp_exit_program_id : Z;
  xp_preset_asset_ids : list Z
}.

Definition ACTIVE_MEMBER_SENTINEL : Z := Address_ZERO.

Definition slot_has_prefix (slot prefix bits : Z) : bool :=
  if bits =? 0 then true
  else let shift := 256 - bits in
       Z.shiftr slot shift =? Z.shiftr prefix shift.

Definition legacy_unrestricted : ExecutionPolicyV4 :=
  mk_ExecutionPolicyV4 false ∅ ∅ [] [] [] [] false true true U64_MAX USIZE_MAX
    B256_ZERO [].

(** ** from_v5, one definition per section of the constructor *)
Section FromV5.
Context {KK : Keccak} {RV : Revm}.

Definition from_v5_envelope (policy : ExecutionPolicyV5) (expected_hash : Z)
    (active_members : gset Z) : result string unit :=
  fail_if negb (execution_policy_hash_v5 policy =? expected_hash)
    with "structured v5 policy does not hash to policyHash"%string in
  fail_if (1 <? ep5_state_commitment policy)
       || (ep5_max_blocks_per_batch policy =? 0)
       || (64 <? ep5_max_blocks_per_batch policy)
       || (ep5_max_transactions_per_block policy =? 0)
       || (4096 <? ep5_max_transactions_per_block policy)
       || (ep5_max_gas_per_block policy =? 0)
       || (ep5_max_memory_bytes policy =? 0)
       || bool_decide (active_members = ∅)
    with "v5 state commitment, resource envelope or active roster is invalid"%string in
  fail_if ep5_allow_contract_creation policy || ep5_allow_self_destruct policy
    with "certified v5 rooms cannot permit creation or selfdestruct; use generic execution"%string in
  Ok tt.

Definition from_v5_code_one (accounts : gmap Z AccountRecord)
    (s : option Z * gmap Z Z) (code : CodeCommitmentV5)
  : result string (option Z * gmap Z Z) :=
  let '(previous_code, code_hashes) := s in
  fail_if (cc_address code =? Address_ZERO)
       || (cc_runtime_code_hash code =? B256_ZERO)
       || not_after previous_code (cc_address code)
       || bool_decide (is_Some (code_hashes !! cc_address code))
    with "v5 code commitments must be non-zero, sorted, and unique"%string in
  let? account := ok_or (accounts !! cc_address code)
                    "v5 pinned code account is absent"%string in
  fail_if negb (code_hash account =? cc_runtime_code_hash code)
    with "v5 runtime code hash mismatch"%string in
  Ok (Some (cc_address code),
      <[cc_address code := cc_runtime_code_hash code]> code_hashes).

Definition from_v5_code (policy : ExecutionPolicyV5) (accounts : gmap Z AccountRecord)
  : result string (gmap Z Z) :=
  let? (_, code_hashes) :=
    for_each (from_v5_code_one accounts) (None, ∅) (ep5_code policy) in
  fail_if bool_decide (code_hashes = ∅)
    with "certified v5 policy has no code commitments"%string in
  fail_if existsb (fun '(address, account) =>
            negb (bool_decide (ar_code account = []))
            && negb (bool_decide (is_Some (code_hashes !! address))))
          (sorted_entries accounts)
    with "uncommitted executable code"%string in
  Ok code_hashes.

Definition pinned (code_hashes : gmap Z Z) (address : Z) : bool :=
  bool_decide (is_Some (code_hashes !! address)).

Definition from_v5_call_kind (kinds : gset Z) (kind : Z) : result string (gset Z) :=
  fail_if (call_kind_u8 DelegateCall <? kind) || bool_decide (kind ∈ kinds)
    with "v5 call kinds must be unique CALL/STATICCALL/DELEGATECALL"%string in
  Ok ({[kind]} ∪ kinds).

Definition from_v5_call (code_hashes : gmap Z Z)
    (s : gset (Z * Z) * list CallRule) (rule : CallRuleV5)
  : result string (gset (Z * Z) * list CallRule) :=
  let '(call_keys, call_rules) := s in
  fail_if (clr_target rule =? Address_ZERO)
       || negb (pinned code_hashes (clr_target rule))
       || (negb (clr_caller rule =? ACTIVE_MEMBER_SENTINEL)
           && negb (pinned code_hashes (clr_caller rule)))
       || bool_decide ((clr_caller rule, clr_target rule) ∈ call_keys)
    with "v5 call rules require unique code-pinned caller/target pairs"%string in
  let selectors := list_to_set (clr_selectors rule) : gset bytes in
  fail_if bool_decide (selectors = ∅)
       || negb (Nat.eqb (size selectors) (length (clr_selectors rule)))
    with "v5 call selectors must be non-empty and unique"%string in
  let? kinds := for_each from_v5_call_kind ∅ (clr_kinds rule) in
  fail_if bool_decide (kinds = ∅)
    with "v5 call rule has no allowed call kind"%string in
  Ok ({[(clr_caller rule, clr_target rule)]} ∪ call_keys,
      call_rules ++ [mk_CallRule (clr_caller rule) (clr_target rule) selectors kinds]).

Definition from_v5_calls (policy : ExecutionPolicyV5) (code_hashes : gmap Z Z)
  : result string (list CallRule) :=
  let? (_, call_rules) :=
    for_each (from_v5_call code_hashes) (∅, []) (ep5_calls policy) in
  fail_if bool_decide (length call_rules = 0%nat)
    with "certified v5 policy has no call rules"%string in
  Ok call_rules.

Definition from_v5_namespace (code_hashes : gmap Z Z)
    (s : gset (Z * Z * Z) * list StorageNamespace) (n : StorageNamespaceV5)
  : result string (gset (Z * Z * Z) * list StorageNamespace) :=
  let '(storage_keys, namespaces) := s in
  let key := (sns_contract n, sns_slot_prefix n, sns_prefix_bits n) in
  fail_if (256 <? sns_prefix_bits n)
       || negb (pinned code_hashes (sns_contract n))
       || bool_decide (key ∈ storage_keys)
    with "v5 storage namespaces must be unique and refer to code-pinned contracts"%string in
  Ok ({[key]} ∪ storage_keys,
      namespaces ++ [mk_StorageNamespace (sns_contract n) (sns_slot_prefix n)
                       (sns_prefix_bits n) (sns_writable n)]).

(** [storage_namespaces.iter().any(..)], without and with the writable flag. *)
Definition in_namespace (namespaces : list StorageNamespace) (contract slot : Z) : bool :=
  existsb (fun n => (ns_contract n =? contract)
                    && slot_has_prefix slot (ns_slot_prefix n) (ns_prefix_bits n))
          namespaces.
Definition in_writable (namespaces : list StorageNamespace) (contract slot : Z) : bool :=
  existsb (fun n => (ns_contract n =? contract) && ns_writable n
                    && slot_has_prefix slot (ns_slot_prefix n) (ns_prefix_bits n))
          namespaces.

Definition from_v5_storage (policy : ExecutionPolicyV5) (code_hashes : gmap Z Z)
    (accounts : gmap Z AccountRecord) : result string (list StorageNamespace) :=
  let? (_, namespaces) :=
    for_each (from_v5_namespace code_hashes) (∅, []) (ep5_storage policy) in
  fail_if existsb (fun '(address, account) =>
            existsb (fun slot => negb (in_namespace namespaces address slot))
                    (sorted_keys (ar_storage account)))
          (sorted_entries accounts)
    with "storage is outside the certified v5 namespace"%string in
  fail_if existsb (fun b => negb (in_writable namespaces (cib_room_contract b)
                                               (cib_room_slot b)))
          (ep5_imports policy)
    with "L1 import mirror destinations must be in a writable v5 namespace"%string in
  Ok namespaces.

Definition registry_slots (p : ParticipantRegistryBindingV5) : list Z :=
  [prb_root_slot p; prb_epoch_slot p; prb_count_slot p; prb_capacity_slot p].

Definition from_v5_registry_slot (policy : ExecutionPolicyV5)
    (namespaces : list StorageNamespace) (contract : Z) (_ : unit) (slot : Z)
  : result string unit :=
  fail_if negb (in_writable namespaces contract slot)
    with "participant registry slots must be in a writable namespace"%string in
  fail_if existsb (fun b => (cib_room_contract b =? contract) && (cib_room_slot b =? slot))
            (ep5_imports policy)
    with "L1 imports cannot overwrite participant registry metadata"%string in
  Ok tt.

Definition from_v5_participant (policy : ExecutionPolicyV5) (code_hashes : gmap Z Z)
    (namespaces : list StorageNamespace)
  : result string ParticipantRegistryBindingV5 :=
  let? participant := ok_or (ep5_participant_registry policy)
                        "v5 participant registry binding is required"%string in
  fail_if (prb_contract participant =? Address_ZERO)
       || negb (pinned code_hashes (prb_contract participant))
       || negb (Nat.eqb (size (list_to_set (registry_slots participant) : gset Z)) 4)
    with "participant registry must name one code-pinned contract and four unique slots"%string in
  let? _ := for_each (from_v5_registry_slot policy namespaces (prb_contract participant))
              tt (registry_slots participant) in
  Ok participant.

Definition from_v5_exit_asset (code_hashes : gmap Z Z) (previous_asset : option Z)
    (asset : ExitAssetBindingV5) : result string (option Z) :=
  fail_if not_after previous_asset (eab_asset asset)
    with "exit assets must be sorted and unique"%string in
  if eab_kind asset =? 0 then
    fail_if negb (eab_asset asset =? Address_ZERO) || negb (eab_token asset =? Address_ZERO)
         || negb (eab_balance_slot asset =? 0)
      with "native exit asset must use the zero asset, token and balance slot"%string in
    Ok (Some (eab_asset asset))
  else if eab_kind asset =? 1 then
    fail_if (eab_asset asset =? Address_ZERO) || (eab_token asset =? Address_ZERO)
         || negb (pinned code_hashes (eab_token asset))
      with "ERC-20 exit asset requires a non-zero asset and a code-pinned token"%string in
    Ok (Some (eab_asset asset))
  else Err "exit asset kind must be native or ERC-20"%string.

Definition from_v5_exit (policy : ExecutionPolicyV5) (code_hashes : gmap Z Z)
    (namespaces : list StorageNamespace) (participant : ParticipantRegistryBindingV5)
  : result string unit :=
  match ep5_exit policy with
  | None => Ok tt
  | Some exit =>
      fail_if (eb_queue_contract exit =? Address_ZERO)
           || negb (pinned code_hashes (eb_queue_contract exit))
           || (eb_queue_contract exit =? prb_contract participant)
           || (eb_fallback_recipient exit =? Address_ZERO)
        with "exit binding requires a code-pinned queue distinct from the participant registry and a non-zero fallback recipient"%string in
      fail_if existsb (fun slot => negb (in_writable namespaces (eb_queue_contract exit) slot))
                [eb_count_slot exit; eb_records_base_slot exit]
        with "exit queue slots must be in a writable namespace"%string in
      fail_if existsb (fun b => cib_room_contract b =? eb_queue_contract exit)
                (ep5_imports policy)
        with "L1 imports cannot write into the exit queue contract"%string in
      fail_if MAX_EXIT_ASSETS_V5 <? zlen (eb_assets exit)
        with "exit binding declares more assets than MAX_EXIT_ASSETS_V5"%string in
      let? _ := for_each (from_v5_exit_asset code_hashes) None (eb_assets exit) in
      Ok tt
  end.

Definition from_v5 (policy : ExecutionPolicyV5) (expected_hash : Z)
    (active_members : gset Z) (state : StateMap) (membership_changed : bool)
  : result string ExecutionPolicyV4 :=
  let? _ := from_v5_envelope policy expected_hash active_members in
  let? code_hashes := from_v5_code policy (sm_accounts state) in
  let? call_rules := from_v5_calls policy code_hashes in
  let? namespaces := from_v5_storage policy code_hashes (sm_accounts state) in
  let? participant := from_v5_participant policy code_hashes namespaces in
  let? _ := from_v5_exit policy code_hashes namespaces participant in
  fail_if USIZE_MAX <? ep5_max_memory_bytes policy
    with "v5 maxMemoryBytes exceeds host usize"%string in
  Ok (mk_ExecutionPolicyV4 true active_members code_hashes call_rules namespaces [] []
        membership_changed false false (ep5_max_gas_per_block policy)
        (ep5_max_memory_bytes policy) B256_ZERO []).
End FromV5.

(** ** Enforcement predicates (enforce.rs) *)
Section Enforce.
Context {KK : Keccak} {RV : Revm} {OP : OsakaPrecompiles}.

Definition rule_allows (caller_rule target : Z) (kind : AllowedCallKind)
    (selector : bytes) (rule : CallRule) : bool :=
  (cru_caller rule =? caller_rule) && (cru_target rule =? target)
  && bool_decide (call_kind_u8 kind ∈ cru_kinds rule)
  && bool_decide (selector ∈ cru_selectors rule).

Definition allows_call (self : ExecutionPolicyV4) (caller target : Z)
    (kind : AllowedCallKind) (selector : option bytes) : bool :=
  if negb (xp_certified self) then true
  else if is_precompile target && pinned (xp_code_hashes self) caller
  then negb (bool_decide (kind = DelegateCall))
  else
    let caller_rule := if bool_decide (caller ∈ xp_active_members self)
                       then ACTIVE_MEMBER_SENTINEL else caller in
    match selector with
    | None => false
    | Some selector => existsb (rule_allows caller_rule target kind selector)
                         (xp_call_rules self)
    end.

(** [input.get(start..end)]. *)
Definition get_range (input : bytes) (start stop : Z) : option bytes :=
  if (start <=? stop) && (stop <=? zlen input)
  then Some (take (Z.to_nat (stop - start)) (drop (Z.to_nat start) input)) else None.

Definition active_member_argument (self : ExecutionPolicyV4) (input : bytes)
    (_ : unit) (word_index : Z) : result string unit :=
  let? offset := ok_or (checked_mul USIZE_MAX word_index 32) "ABI index overflow"%string in
  let? start := ok_or (checked_add USIZE_MAX 4 offset) "ABI index overflow"%string in
  let? stop := ok_or (checked_add USIZE_MAX start 32) "ABI index overflow"%string in
  let? word := ok_or (get_range input start stop)
                 "active-member ABI argument is missing"%string in
  fail_if existsb (fun byte => negb (byte =? 0)) (take 12 word)
    with "active-member ABI argument is not a canonical address"%string in
  fail_if negb (bool_decide (of_be (drop 12 word) ∈ xp_active_members self))
    with "active-member ABI argument is not in the authenticated roster"%string in
  Ok tt.

Definition validate_active_member_arguments (self : ExecutionPolicyV4) (target : Z)
    (selector : option bytes) (input : bytes) : result string unit :=
  match selector with
  | None => Ok tt
  | Some selector =>
      match list_find (fun rule => ama_target rule = target /\ ama_selector rule = selector)
              (xp_active_member_argument_rules self) with
      | None => Ok tt
      | Some (_, rule) =>
          for_each (active_member_argument self input) tt (ama_argument_word_indices rule)
      end
  end.

(** [(U256::from(1) << width) - 1] wraps like [ruint]'s operators. *)
Definition guard_mask (bit_width : Z) : Z :=
  if bit_width =? 256 then U256_MAX else (2 ^ bit_width mod 2 ^ 256 - 1) mod 2 ^ 256.
Definition guard_value (guard : MembershipStateGuard) (packed : Z) : Z :=
  Z.land (Z.shiftr packed (msg_bit_offset guard)) (guard_mask (msg_bit_width guard)).

Definition membership_state_guard (accounts : gmap Z AccountRecord) (_ : unit)
    (guard : MembershipStateGuard) : result string unit :=
  let? account := ok_or (accounts !! msg_contract guard)
                    "membership guard contract is absent"%string in
  let packed := default 0 (ar_storage account !! msg_storage_slot guard) in
  fail_if negb (bool_decide (guard_value guard packed ∈ msg_allowed_values guard))
    with "membership change is forbidden by state value"%string in
  Ok tt.

Definition validate_membership_state_guards (self : ExecutionPolicyV4) (state : StateMap)
  : result string unit :=
  if negb (xp_membership_changed self) then Ok tt
  else for_each (membership_state_guard (sm_accounts state)) tt
         (xp_membership_state_guards self).

Definition pinned_code_intact (accounts : gmap Z AccountRecord) (_ : unit)
    (pin : Z * Z) : result string unit :=
  let? account := ok_or (accounts !! pin.1) "pinned code account disappeared"%string in
  fail_if negb (code_hash account =? pin.2) with "pinned code changed"%string in
  Ok tt.

(** Value of a slot before and after execution, zero when absent. *)
Definition old_value (pre_storage : gmap Z (gmap Z Z)) (address slot : Z) : Z :=
  default 0 (pre_storage !! address ≫= fun storage => storage !! slot).
Definition new_value (accounts : gmap Z AccountRecord) (address slot : Z) : Z :=
  default 0 (accounts !! address ≫= fun account => ar_storage account !! slot).

Definition touched_slots (before : option (gmap Z Z)) (after : option AccountRecord)
  : gset Z :=
  dom (default ∅ before) ∪ dom (default ∅ (ar_storage <$> after)).

Definition slot_write_allowed (self : ExecutionPolicyV4)
    (pre_storage : gmap Z (gmap Z Z)) (accounts : gmap Z AccountRecord)
    (address : Z) (_ : unit) (slot : Z) : result string unit :=
  fail_if negb (old_value pre_storage address slot =? new_value accounts address slot)
          && negb (in_writable (xp_storage_namespaces self) address slot)
    with "write to read-only/out-of-envelope storage"%string in
  Ok tt.

Definition address_writes_allowed (self : ExecutionPolicyV4)
    (pre_storage : gmap Z (gmap Z Z)) (accounts : gmap Z AccountRecord)
    (_ : unit) (address : Z) : result string unit :=
  for_each (slot_write_allowed self pre_storage accounts address) tt
    (elements (touched_slots (pre_storage !! address) (accounts !! address))).

Definition validate_post_state (self : ExecutionPolicyV4)
    (pre_storage : gmap Z (gmap Z Z)) (post : StateMap) : result string unit :=
  if negb (xp_certified self) then Ok tt
  else
    let? _ := for_each (pinned_code_intact (sm_accounts post)) tt
                (sorted_entries (xp_code_hashes self)) in
    let? _ := for_each (address_writes_allowed self pre_storage (sm_accounts post)) tt
                (elements (dom pre_storage ∪ dom (sm_accounts post))) in
    let? _ := validate_membership_state_guards self post in
    Ok tt.
End Enforce.

(** ** The policy inspector (inspector.rs) *)
Inductive TxKind := TxCreate | TxCall (target : Z).
Inductive CallScheme := SchemeCall | SchemeStaticCall | SchemeDelegateCall | SchemeCallCode.

Record InspectorProofWork := mk_InspectorProofWork {
  pw_opcode_steps : Z;
  pw_fused_motif_hits : Z;
  pw_fused_motif_opcodes : Z;
  pw_keccak_opcodes : Z;
  pw_call_opcodes : Z;
  pw_precompile_calls : Z;
  pw_max_memory_bytes : Z
}.
Definition InspectorProofWork_default : InspectorProofWork :=
  mk_InspectorProofWork 0 0 0 0 0 0 0.

(** The guest build of [CertifiedPolicyInspectorV4]; the policy is a borrowed
    reference and stays an argument of the hooks. *)
Record CertifiedPolicyInspectorV4 := mk_CertifiedPolicyInspectorV4 {
  insp_violation : option string;
  insp_proof_work : InspectorProofWork
}.

Section Inspector.
Context {OP : OsakaPrecompiles}.

Definition inspector_new : CertifiedPolicyInspectorV4 :=
  mk_CertifiedPolicyInspectorV4 None InspectorProofWork_default.
Definition inspector_reset (self : CertifiedPolicyInspectorV4) : CertifiedPolicyInspectorV4 :=
  mk_CertifiedPolicyInspectorV4 None (insp_proof_work self).

(** [input.get(..4)]. *)
Definition selector_of (input : bytes) : option bytes := get_range input 0 4.

Definition validate_transaction_entry (policy : ExecutionPolicyV4) (caller : Z)
    (kind : TxKind) (input : bytes) : result string unit :=
  if negb (xp_certified policy) then Ok tt
  else match kind with
  | TxCreate =>
      if xp_allow_contract_creation policy then Ok tt
      else Err "contract creation is disabled by the preset"%string
  | TxCall target =>
      let selector := selector_of input in
      fail_if negb (allows_call policy caller target Call selector)
        with "root transaction is outside the certified envelope"%string in
      validate_active_member_arguments policy target selector input
  end.

Definition get_or_insert_violation (v : option string) (e : string) : option string :=
  match v with Some v => Some v | None => Some e end.

Definition sat_succ (x : Z) : Z := saturating_add U64_MAX x 1.

(** [step]: counters, then the memory bound. *)
Definition inspector_step_work (opcode memory_size : Z) (w : InspectorProofWork)
  : InspectorProofWork :=
  mk_InspectorProofWork (sat_succ (pw_opcode_steps w)) (pw_fused_motif_hits w)
    (pw_fused_motif_opcodes w)
    (if opcode =? 0x20 then sat_succ (pw_keccak_opcodes w) else pw_keccak_opcodes w)
    (if existsb (Z.eqb opcode) [0xf0; 0xf1; 0xf2; 0xf4; 0xf5; 0xfa]
     then sat_succ (pw_call_opcodes w) else pw_call_opcodes w)
    (pw_precompile_calls w)
    (Z.max (pw_max_memory_bytes w) memory_size).

Definition memory_violation (policy : ExecutionPolicyV4) (memory_size : Z)
    (v : option string) : option string :=
  if xp_max_memory_bytes policy <? memory_size
  then get_or_insert_violation v "EVM memory exceeds preset maxMemoryPages"%string else v.

Definition inspector_step (policy : ExecutionPolicyV4) (opcode memory_size : Z)
    (self : CertifiedPolicyInspectorV4) : CertifiedPolicyInspectorV4 :=
  mk_CertifiedPolicyInspectorV4 (memory_violation policy memory_size (insp_violation self))
    (inspector_step_work opcode memory_size (insp_proof_work self)).
Definition inspector_step_end (policy : ExecutionPolicyV4) (memory_size : Z)
    (self : CertifiedPolicyInspectorV4) : CertifiedPolicyInspectorV4 :=
  mk_CertifiedPolicyInspectorV4 (memory_violation policy memory_size (insp_violation self))
    (insp_proof_work self).

Definition call_kind_of (scheme : CallScheme) : option AllowedCallKind :=
  match scheme with
  | SchemeCall => Some Call
  | SchemeStaticCall => Some StaticCall
  | SchemeDelegateCall => Some DelegateCall
  | SchemeCallCode => None
  end.

Definition bump_precompile_calls (address : Z) (w : InspectorProofWork) : InspectorProofWork :=
  if is_precompile address then
    mk_InspectorProofWork (pw_opcode_steps w) (pw_fused_motif_hits w)
      (pw_fused_motif_opcodes w) (pw_keccak_opcodes w) (pw_call_opcodes w)
      (sat_succ (pw_precompile_calls w)) (pw_max_memory_bytes w)
  else w.

Definition inspector_call (policy : ExecutionPolicyV4) (scheme : CallScheme)
    (caller bytecode_address : Z) (input : bytes)
    (self : CertifiedPolicyInspectorV4) : CertifiedPolicyInspectorV4 :=
  match insp_violation self with
  | Some _ => self
  | None =>
      match call_kind_of scheme with
      | None => mk_CertifiedPolicyInspectorV4
                  (Some "CALLCODE is outside every certified preset"%string)
                  (insp_proof_work self)
      | Some kind =>
          let work := bump_precompile_calls bytecode_address (insp_proof_work self) in
          let selector := selector_of input in
          if negb (allows_call policy caller bytecode_address kind selector)
          then mk_CertifiedPolicyInspectorV4
                 (Some "call is outside the certified envelope"%string) work
          else match validate_active_member_arguments policy bytecode_address selector input with
               | Err error => mk_CertifiedPolicyInspectorV4 (Some error) work
               | Ok _ => mk_CertifiedPolicyInspectorV4 (insp_violation self) work
               end
      end
  end.

Definition inspector_create (policy : ExecutionPolicyV4)
    (self : CertifiedPolicyInspectorV4) : CertifiedPolicyInspectorV4 :=
  if negb (xp_allow_contract_creation policy)
  then mk_CertifiedPolicyInspectorV4
         (get_or_insert_violation (insp_violation self)
            "contract creation is disabled by the preset"%string) (insp_proof_work self)
  else self.

Definition inspector_selfdestruct (policy : ExecutionPolicyV4)
    (self : CertifiedPolicyInspectorV4) : CertifiedPolicyInspectorV4 :=
  if negb (xp_allow_self_destruct policy)
  then mk_CertifiedPolicyInspectorV4
         (get_or_insert_violation (insp_violation self)
            "selfdestruct is disabled by the preset"%string) (insp_proof_work self)
  else self.

(** The callbacks revm makes while it executes one transaction. *)
Inductive hook :=
| HStep (opcode memory_size : Z)
| HStepEnd (memory_size : Z)
| HCall (scheme : CallScheme) (caller bytecode_address : Z) (input : bytes)
| HCreate
| HSelfDestruct.

Definition run_hook (policy : ExecutionPolicyV4) (self : CertifiedPolicyInspectorV4)
    (h : hook) : CertifiedPolicyInspectorV4 :=
  match h with
  | HStep opcode memory_size => inspector_step policy opcode memory_size self
  | HStepEnd memory_size => inspector_step_end policy memory_size self
  | HCall scheme caller address input =>
      inspector_call policy scheme caller address input self
  | HCreate => inspector_create policy self
  | HSelfDestruct => inspector_selfdestruct policy self
  end.

(** What the policy permits, callback by callback. *)
Definition hook_permitted (policy : ExecutionPolicyV4) (h : hook) : bool :=
  match h with
  | HStep _ memory_size | HStepEnd memory_size => memory_size <=? xp_max_memory_bytes policy
  | HCall scheme caller address input =>
      match call_kind_of scheme with
      | None => false
      | Some kind =>
          allows_call policy caller address kind (selector_of input)
          && is_ok (validate_active_member_arguments policy address (selector_of input) input)
      end
  | HCreate => xp_allow_contract_creation policy
  | HSelfDestruct => xp_allow_self_destruct policy
  end.

Lemma run_hook_violation policy self h :
  insp_violation (run_hook policy self h) = None
  <-> insp_violation self = None /\ hook_permitted policy h = true.
Proof.
  assert (M : forall m v, memory_violation policy m v = None
              <-> v = None /\ (m <=? xp_max_memory_bytes policy) = true).
  { intros m v. unfold memory_violation, get_or_insert_violation.
    destruct (Z.ltb_spec (xp_max_memory_bytes policy) m); destruct v;
      rewrite Z.leb_le; split; try discriminate; intros; destruct_and?; auto; try lia;
      discriminate. }
  destruct h; cbn [run_hook hook_permitted].
  - apply M.
  - apply M.
  - unfold inspector_call. destruct (insp_violation self) eqn:Ev; [rewrite Ev; split; intros; destruct_and?; discriminate|].
    destruct (call_kind_of scheme) as [kind|]; [|cbn; naive_solver].
    destruct (allows_call _ _ _ _ _); [|cbn; naive_solver].
    destruct (validate_active_member_arguments _ _ _ _); cbn; naive_solver.
  - unfold inspector_create, get_or_insert_violation.
    destruct (xp_allow_contract_creation policy), (insp_violation self) eqn:Ev; cbn;
      rewrite ?Ev; naive_solver.
  - unfold inspector_selfdestruct, get_or_insert_violation.
    destruct (xp_allow_self_destruct policy), (insp_violation self) eqn:Ev; cbn;
      rewrite ?Ev; naive_solver.
Qed.
End Inspector.

(** * Properties *)

(** A loop without state that only checks its elements. *)
(** The prefix test compares exactly the top [bits] bits. *)
Lemma slot_has_prefix_spec slot prefix bits :
  in_u256 slot -> in_u256 prefix -> 0 <= bits <= 256 ->
  slot_has_prefix slot prefix bits = true <->
  (forall i, 256 - bits <= i < 256 -> Z.testbit slot i = Z.testbit prefix i).
Proof.
  intros Hs Hp Hb. unfold slot_has_prefix.
  destruct (Z.eqb_spec bits 0) as [->|Hnz]; [split; [intros _ i Hi; lia|auto]|].
  rewrite Z.eqb_eq. split.
  - intros H i Hi. apply (f_equal (fun z => Z.testbit z (i - (256 - bits)))) in H.
    rewrite !Z.shiftr_spec in H by lia.
    replace (i - (256 - bits) + (256 - bits)) with i in H by lia. exact H.
  - intros H. apply Z.bits_inj'. intros n Hn. rewrite !Z.shiftr_spec by lia.
    destruct (decide (n + (256 - bits) < 256)); [apply H; lia|].
    unfold in_u256 in *. rewrite !Z.testbit_eqb by lia.
    rewrite !Z.div_small; [reflexivity| |];
      (split; [lia|]); eapply Z.lt_le_trans; [apply Hp|..| apply Hs|];
      apply Z.pow_le_mono_r; lia.
Qed.

Section FromV5Facts.
Context {KK : Keccak} {RV : Revm}.

Lemma sorted_entries_forall {V} (m : gmap Z V) (P : Z -> V -> Prop) :
  (forall p, p ∈ sorted_entries m -> P p.1 p.2) <-> map_Forall P m.
Proof.
  split.
  - intros H k v Hk. apply (H (k, v)). apply sorted_entries_elem. exact Hk.
  - intros H [k v] Hp. apply sorted_entries_elem in Hp. apply (H k v Hp).
Qed.

Lemma pinned_spec code_hashes address :
  pinned code_hashes address = true <-> is_Some (code_hashes !! address).
Proof. unfold pinned. apply bool_decide_eq_true. Qed.

(** Every pin names a live account with exactly that code. *)
Definition pins_live (accounts : gmap Z AccountRecord) (code_hashes : gmap Z Z) : Prop :=
  map_Forall (fun address hash => address <> Address_ZERO /\
    exists account, accounts !! address = Some account /\ code_hash account = hash)
    code_hashes.

Lemma from_v5_code_spec policy accounts code_hashes :
  from_v5_code policy accounts = Ok code_hashes ->
  pins_live accounts code_hashes /\
  map_Forall (fun address account =>
    ar_code account <> [] -> is_Some (code_hashes !! address)) accounts.
Proof.
  unfold from_v5_code. intros H.
  destruct (for_each _ _ _) as [[prev ch]|] eqn:E; cbn in H; [|discriminate].
  inv_ok. clear G. split.
  - change code_hashes with ((prev, code_hashes).2).
    refine (for_each_inv (fun _ s => pins_live accounts s.2) _ _ _ _ _ _ E).
    { apply map_Forall_empty. }
    intros _ x [p1 c1] s2 Hi _ Hb. unfold from_v5_code_one in Hb. inv_ok. bool_to_prop.
    cbn in Hi |- *. apply map_Forall_insert_2; [|exact Hi]. eauto.
  - rewrite existsb_false_iff in G0. apply sorted_entries_forall.
    intros [a r] Hin Hc. specialize (G0 _ Hin). cbn in G0, Hc |- *.
    apply andb_false_iff in G0 as [G0|G0]; bool_to_prop; [done|exact G0].
Qed.

Definition rule_pinned (code_hashes : gmap Z Z) (rule : CallRule) : Prop :=
  pinned code_hashes (cru_target rule) = true /\
  (cru_caller rule = ACTIVE_MEMBER_SENTINEL \/ pinned code_hashes (cru_caller rule) = true).

Lemma from_v5_calls_spec policy code_hashes rules :
  from_v5_calls policy code_hashes = Ok rules ->
  Forall (rule_pinned code_hashes) rules /\ rules <> [].
Proof.
  unfold from_v5_calls. intros H.
  destruct (for_each _ _ _) as [[keys rs]|] eqn:E; cbn in H; [|discriminate].
  inv_ok. bool_to_prop. split; [|destruct rules; done].
  change rules with ((keys, rules).2).
  refine (for_each_inv (fun _ s => Forall (rule_pinned code_hashes) s.2) _ _ _ _ _ _ E).
  { constructor. }
  intros _ x [k1 r1] s2 Hi _ Hb. unfold from_v5_call in Hb. inv_ok. cbn in Hi |- *.
  apply Forall_app. split; [exact Hi|]. constructor; [|constructor].
  bool_to_prop. split; cbn; [assumption|].
  match goal with H : (_ && _)%bool = false |- _ => apply andb_false_iff in H as [H|H] end;
    bool_to_prop; auto.
Qed.

Lemma from_v5_storage_spec policy code_hashes accounts namespaces :
  from_v5_storage policy code_hashes accounts = Ok namespaces ->
  Forall (fun n => pinned code_hashes (ns_contract n) = true /\ ns_prefix_bits n <= 256)
    namespaces /\
  map_Forall (fun address account => map_Forall (fun slot _ =>
    in_namespace namespaces address slot = true) (ar_storage account)) accounts /\
  Forall (fun b => in_writable namespaces (cib_room_contract b) (cib_room_slot b) = true)
    (ep5_imports policy).
Proof.
  unfold from_v5_storage. intros H.
  destruct (for_each _ _ _) as [[keys ns]|] eqn:E; cbn in H; [|discriminate].
  inv_ok. rewrite existsb_false_iff in G. rewrite existsb_false_iff in G0. split_and!.
  - change namespaces with ((keys, namespaces).2).
    refine (for_each_inv (fun _ s => Forall (fun n => pinned code_hashes (ns_contract n) = true
      /\ ns_prefix_bits n <= 256) s.2) _ _ _ _ _ _ E); [constructor|].
    intros _ x [k1 r1] s2 Hi _ Hb. unfold from_v5_namespace in Hb. inv_ok. cbn in Hi |- *.
    apply Forall_app. split; [exact Hi|]. bool_to_prop. repeat constructor; auto.
  - apply sorted_entries_forall. intros [a r] Hin. specialize (G _ Hin). cbn in G |- *.
    rewrite existsb_false_iff in G. intros slot v Hs.
    specialize (G slot). rewrite negb_false_iff in G. apply G.
    unfold sorted_keys. apply list_elem_of_fmap. exists (slot, v).
    split; [reflexivity|]. apply sorted_entries_elem, Hs.
  - apply Forall_forall. intros b Hb. specialize (G0 b Hb). bool_to_prop. exact G0.
Qed.

(** No L1 import targets the slot. *)
Definition not_imported (policy : ExecutionPolicyV5) (contract slot : Z) : Prop :=
  Forall (fun b => ~ (cib_room_contract b = contract /\ cib_room_slot b = slot))
    (ep5_imports policy).

Lemma from_v5_participant_spec policy code_hashes namespaces p :
  from_v5_participant policy code_hashes namespaces = Ok p ->
  ep5_participant_registry policy = Some p /\
  pinned code_hashes (prb_contract p) = true /\ NoDup (registry_slots p) /\
  Forall (fun slot => in_writable namespaces (prb_contract p) slot = true /\
                      not_imported policy (prb_contract p) slot) (registry_slots p).
Proof.
  unfold from_v5_participant. intros H.
  destruct (ep5_participant_registry policy) as [q|] eqn:Eq; cbn [ok_or rbind] in H; [|discriminate].
  destruct (_ || _ || _) eqn:Eg; [discriminate|].
  destruct (for_each _ _ _) as [[]|] eqn:Ef; cbn [rbind] in H; [|discriminate].
  injection H as ->. bool_to_prop. split_and!; auto.
  - apply size_list_to_set_NoDup. apply Nat.eqb_eq. assumption.
  - apply Forall_forall. rewrite for_each_check in Ef. intros slot Hs.
    specialize (Ef slot Hs). unfold from_v5_registry_slot in Ef.
    destruct (negb _) eqn:Ew; [discriminate|].
    destruct (existsb _ _) eqn:Ei; [discriminate|]. rewrite existsb_false_iff in Ei.
    bool_to_prop. split; [assumption|]. apply Forall_forall. intros b Hb [Hc Hsl].
    specialize (Ei b Hb). apply andb_false_iff in Ei as [Ei|Ei]; bool_to_prop; contradiction.
Qed.

(** What a declared exit queue is guaranteed to be. *)
Record exit_certified (policy : ExecutionPolicyV5) (code_hashes : gmap Z Z)
    (namespaces : list StorageNamespace) (registry : Z) (exit : ExitBindingV5) : Prop := {
  exc_pinned : pinned code_hashes (eb_queue_contract exit) = true;
  exc_distinct : eb_queue_contract exit <> registry;
  exc_fallback : eb_fallback_recipient exit <> Address_ZERO;
  exc_count : in_writable namespaces (eb_queue_contract exit) (eb_count_slot exit) = true;
  exc_records :
    in_writable namespaces (eb_queue_contract exit) (eb_records_base_slot exit) = true;
  exc_imports :
    Forall (fun b => cib_room_contract b <> eb_queue_contract exit) (ep5_imports policy);
  exc_assets : key_sorted eab_asset (eb_assets exit);
  exc_asset_kinds : Forall (fun a =>
    eab_kind a = 0 /\ eab_asset a = Address_ZERO \/
    eab_kind a = 1 /\ eab_asset a <> Address_ZERO /\
      pinned code_hashes (eab_token a) = true) (eb_assets exit)
}.

Lemma from_v5_exit_assets_spec code_hashes assets last_asset :
  for_each (from_v5_exit_asset code_hashes) None assets = Ok last_asset ->
  key_sorted eab_asset assets /\
  Forall (fun a =>
    eab_kind a = 0 /\ eab_asset a = Address_ZERO \/
    eab_kind a = 1 /\ eab_asset a <> Address_ZERO /\
      pinned code_hashes (eab_token a) = true) assets.
Proof.
  intros E.
  assert (G : (key_sorted eab_asset assets /\ Forall (fun a =>
      eab_kind a = 0 /\ eab_asset a = Address_ZERO \/
      eab_kind a = 1 /\ eab_asset a <> Address_ZERO /\
      pinned code_hashes (eab_token a) = true) assets)
      /\ last_asset = (eab_asset <$> last assets)); [|tauto].
  refine (for_each_inv (fun l s => (key_sorted eab_asset l /\ Forall (fun a =>
      eab_kind a = 0 /\ eab_asset a = Address_ZERO \/
      eab_kind a = 1 /\ eab_asset a <> Address_ZERO /\
      pinned code_hashes (eab_token a) = true) l)
      /\ s = (eab_asset <$> last l)) _ _ _ _ _ _ E).
  { repeat constructor. }
  intros done x s1 s2 [[Hs Hk] Hp] _ Hb. unfold from_v5_exit_asset in Hb.
  destruct (not_after s1 (eab_asset x)) eqn:En; [discriminate|].
  assert (K : key_sorted eab_asset (done ++ [x])) by (eapply key_sorted_snoc; eauto).
  assert (R : s2 = Some (eab_asset x) /\ (eab_kind x = 0 /\ eab_asset x = Address_ZERO \/
      eab_kind x = 1 /\ eab_asset x <> Address_ZERO /\
      pinned code_hashes (eab_token x) = true)).
  { destruct (Z.eqb_spec (eab_kind x) 0) as [Hk0|]; [inv_ok; bool_to_prop; auto|].
    destruct (Z.eqb_spec (eab_kind x) 1) as [Hk1|]; [|discriminate].
    inv_ok. bool_to_prop. auto. }
  destruct R as [-> R]. rewrite last_snoc. split; [split|reflexivity]; [exact K|].
  apply Forall_app. split; [exact Hk|]. constructor; [exact R|constructor].
Qed.

Lemma from_v5_exit_spec policy code_hashes namespaces p :
  from_v5_exit policy code_hashes namespaces p = Ok tt ->
  forall exit, ep5_exit policy = Some exit ->
    exit_certified policy code_hashes namespaces (prb_contract p) exit.
Proof.
  unfold from_v5_exit. intros H exit He. rewrite He in H.
  destruct (_ || _ || _ || _) eqn:Eg; [discriminate|]. bool_to_prop.
  destruct (existsb _ [_; _]) eqn:Es; [discriminate|].
  destruct (existsb _ (ep5_imports policy)) eqn:Ei; [discriminate|].
  destruct (MAX_EXIT_ASSETS_V5 <? _); [discriminate|].
  destruct (for_each _ _ _) as [l|] eqn:Ef; [|discriminate].
  apply from_v5_exit_assets_spec in Ef as [Ks Kk].
  cbn in Es. bool_to_prop.
  split; auto. apply Forall_forall. intros b Hb.
  rewrite existsb_false_iff in Ei. specialize (Ei b Hb). bool_to_prop. exact Ei.
Qed.

(** The contract of an accepted v5 policy. *)
Record certified_by (policy : ExecutionPolicyV5) (accounts : gmap Z AccountRecord)
    (p : ExecutionPolicyV4) (registry : ParticipantRegistryBindingV5) : Prop := {
  cb_certified : xp_certified p = true;
  cb_no_create : xp_allow_contract_creation p = false;
  cb_no_selfdestruct : xp_allow_self_destruct p = false;
  cb_pins : pins_live accounts (xp_code_hashes p);
  cb_code_covered : map_Forall (fun address account =>
    ar_code account <> [] -> is_Some (xp_code_hashes p !! address)) accounts;
  cb_rules : Forall (rule_pinned (xp_code_hashes p)) (xp_call_rules p);
  cb_storage_covered : map_Forall (fun address account => map_Forall (fun slot _ =>
    in_namespace (xp_storage_namespaces p) address slot = true) (ar_storage account)) accounts;
  cb_namespaces : Forall (fun n => pinned (xp_code_hashes p) (ns_contract n) = true
    /\ ns_prefix_bits n <= 256) (xp_storage_namespaces p);
  cb_imports : Forall (fun b => in_writable (xp_storage_namespaces p)
    (cib_room_contract b) (cib_room_slot b) = true) (ep5_imports policy);
  cb_registry : ep5_participant_registry policy = Some registry;
  cb_registry_slots : NoDup (registry_slots registry);
  cb_registry_pinned : pinned (xp_code_hashes p) (prb_contract registry) = true;
  cb_registry_writable : Forall (fun slot =>
    in_writable (xp_storage_namespaces p) (prb_contract registry) slot = true
    /\ not_imported policy (prb_contract registry) slot) (registry_slots registry);
  cb_exit : forall exit, ep5_exit policy = Some exit ->
    exit_certified policy (xp_code_hashes p) (xp_storage_namespaces p)
      (prb_contract registry) exit
}.

Lemma from_v5_certified policy expected members state changed p :
  from_v5 policy expected members state changed = Ok p ->
  execution_policy_hash_v5 policy = expected /\ xp_active_members p = members /\
  members <> ∅ /\ exists registry, certified_by policy (sm_accounts state) p registry.
Proof.
  unfold from_v5. intros H.
  destruct (from_v5_envelope _ _ _) as [[]|] eqn:E0; cbn [rbind] in H; [|discriminate].
  destruct (from_v5_code _ _) as [ch|] eqn:E1; cbn [rbind] in H; [|discriminate].
  destruct (from_v5_calls _ _) as [cr|] eqn:E2; cbn [rbind] in H; [|discriminate].
  destruct (from_v5_storage _ _ _) as [ns|] eqn:E3; cbn [rbind] in H; [|discriminate].
  destruct (from_v5_participant _ _ _) as [pr|] eqn:E4; cbn [rbind] in H; [|discriminate].
  destruct (from_v5_exit _ _ _ _) as [[]|] eqn:E5; cbn [rbind] in H; [|discriminate].
  destruct (USIZE_MAX <? _); [discriminate|]. injection H as <-.
  unfold from_v5_envelope in E0. inv_ok. bool_to_prop.
  apply from_v5_code_spec in E1 as [? ?]. apply from_v5_calls_spec in E2 as [? ?].
  apply from_v5_storage_spec in E3 as (? & ? & ?).
  apply from_v5_participant_spec in E4 as (? & ? & ? & ?).
  split_and!; auto. exists pr. split; auto. apply from_v5_exit_spec, E5.
Qed.
End FromV5Facts.

Section EnforceFacts.
Context {KK : Keccak} {RV : Revm} {OP : OsakaPrecompiles}.

(** What an allowed call of a certified policy can be. *)
Lemma allows_call_cases p caller target kind selector :
  xp_certified p = true -> allows_call p caller target kind selector = true ->
  (is_precompile target = true /\ is_Some (xp_code_hashes p !! caller)
   /\ kind <> DelegateCall) \/
  exists rule sel, selector = Some sel /\ rule ∈ xp_call_rules p /\
    cru_target rule = target /\ sel ∈ cru_selectors rule /\
    call_kind_u8 kind ∈ cru_kinds rule /\
    cru_caller rule = (if bool_decide (caller ∈ xp_active_members p)
                       then ACTIVE_MEMBER_SENTINEL else caller).
Proof.
  intros Hc H. unfold allows_call in H. rewrite Hc in H. cbn [negb] in H.
  destruct (is_precompile target && pinned (xp_code_hashes p) caller) eqn:Ep.
  - left. bool_to_prop. rewrite pinned_spec in *. auto.
  - right. destruct selector as [sel|]; [|discriminate].
    apply existsb_exists in H as (rule & Hin & Hr). unfold rule_allows in Hr. bool_to_prop.
    exists rule, sel. apply list_elem_of_In in Hin. auto 6.
Qed.

(** The per-slot verdict of [validate_post_state]. *)
Definition write_ok (p : ExecutionPolicyV4) (pre : gmap Z (gmap Z Z))
    (accounts : gmap Z AccountRecord) (address slot : Z) : Prop :=
  old_value pre address slot <> new_value accounts address slot ->
  in_writable (xp_storage_namespaces p) address slot = true.

Lemma untouched_values pre accounts address slot :
  (address ∉ dom pre ∪ dom accounts \/
   slot ∉ touched_slots (pre !! address) (accounts !! address)) ->
  old_value pre address slot = new_value accounts address slot.
Proof.
  unfold old_value, new_value, touched_slots.
  intros [H|H].
  - apply not_elem_of_union in H as [H1%not_elem_of_dom H2%not_elem_of_dom].
    rewrite H1, H2. reflexivity.
  - apply not_elem_of_union in H as [H1%not_elem_of_dom H2%not_elem_of_dom].
    destruct (pre !! address), (accounts !! address); cbn in *; rewrite ?H1, ?H2; reflexivity.
Qed.

Lemma writes_allowed_spec p pre accounts :
  for_each (address_writes_allowed p pre accounts) tt
    (elements (dom pre ∪ dom accounts)) = Ok tt
  <-> forall address slot, write_ok p pre accounts address slot.
Proof.
  rewrite for_each_check. split.
  - intros H address slot Hne.
    destruct (decide (address ∈ dom pre ∪ dom accounts)) as [Ha|Ha];
      [|destruct Hne; apply untouched_values; auto].
    destruct (decide (slot ∈ touched_slots (pre !! address) (accounts !! address))) as [Hs|Hs];
      [|destruct Hne; apply untouched_values; auto].
    specialize (H address). rewrite elem_of_elements in H. specialize (H Ha).
    unfold address_writes_allowed in H. rewrite for_each_check in H.
    specialize (H slot). rewrite elem_of_elements in H. specialize (H Hs).
    unfold slot_write_allowed in H. destruct (_ && _) eqn:E; [discriminate|].
    apply andb_false_iff in E as [E|E]; bool_to_prop; [contradiction|exact E].
  - intros H address _. unfold address_writes_allowed. rewrite for_each_check.
    intros slot _. unfold slot_write_allowed. specialize (H address slot).
    destruct (Z.eqb_spec (old_value pre address slot) (new_value accounts address slot));
      cbn; [reflexivity|]. rewrite H by assumption. reflexivity.
Qed.

Definition guards_ok (p : ExecutionPolicyV4) (accounts : gmap Z AccountRecord) : Prop :=
  xp_membership_changed p = true ->
  Forall (fun g => exists account, accounts !! msg_contract g = Some account /\
    guard_value g (default 0 (ar_storage account !! msg_storage_slot g))
      ∈ msg_allowed_values g) (xp_membership_state_guards p).

Lemma guards_spec p state :
  validate_membership_state_guards p state = Ok tt <-> guards_ok p (sm_accounts state).
Proof.
  unfold validate_membership_state_guards, guards_ok.
  destruct (xp_membership_changed p); cbn; [|split; [discriminate 2 || auto|reflexivity]].
  - rewrite for_each_check, Forall_forall. split.
    + intros H _ g Hg. specialize (H g Hg). unfold membership_state_guard in H.
      destruct (sm_accounts state !! msg_contract g) as [a|]; cbn in H; [|discriminate].
      exists a. split; [reflexivity|]. destruct (negb _) eqn:E; [discriminate|].
      bool_to_prop. exact E.
    + intros H g Hg. destruct (H eq_refl g Hg) as (a & Ha & Hv).
      unfold membership_state_guard. rewrite Ha. cbn.
      rewrite bool_decide_eq_true_2 by exact Hv. reflexivity.
Qed.

Lemma pins_intact_spec accounts pins :
  for_each (pinned_code_intact accounts) tt (sorted_entries pins) = Ok tt
  <-> map_Forall (fun address hash => exists account,
        accounts !! address = Some account /\ code_hash account = hash) pins.
Proof.
  rewrite for_each_check, <- sorted_entries_forall.
  split; intros H pin Hp; specialize (H pin Hp); unfold pinned_code_intact in *.
  - destruct (accounts !! pin.1) as [a|]; cbn in H; [|discriminate].
    exists a. split; [reflexivity|]. destruct (negb _) eqn:E; [discriminate|].
    bool_to_prop. exact E.
  - destruct H as (a & -> & Hh). cbn. rewrite Hh, Z.eqb_refl. reflexivity.
Qed.
Lemma validate_post_state_spec p pre (post : StateMap) :
  xp_certified p = true ->
  validate_post_state p pre post = Ok tt <->
  map_Forall (fun address hash => exists account,
    sm_accounts post !! address = Some account /\ code_hash account = hash)
    (xp_code_hashes p) /\
  (forall address slot, write_ok p pre (sm_accounts post) address slot) /\
  guards_ok p (sm_accounts post).
Proof.
  intros Hc. unfold validate_post_state. rewrite Hc. cbn [negb].
  rewrite <- pins_intact_spec, <- writes_allowed_spec, <- guards_spec.
  destruct (for_each (pinned_code_intact _) _ _) as [[]|]; cbn [rbind];
    [|naive_solver].
  destruct (for_each (address_writes_allowed _ _ _) _ _) as [[]|]; cbn [rbind];
    [|naive_solver].
  destruct (validate_membership_state_guards _ _) as [[]|]; cbn [rbind]; naive_solver.
Qed.
(** A policy whose call rules enter pinned, live code only. *)
Record confining (accounts : gmap Z AccountRecord) (p : ExecutionPolicyV4) : Prop := {
  cf_certified : xp_certified p = true;
  cf_no_create : xp_allow_contract_creation p = false;
  cf_no_selfdestruct : xp_allow_self_destruct p = false;
  cf_pins : map_Forall (fun address hash => exists account,
    accounts !! address = Some account /\ code_hash account = hash) (xp_code_hashes p);
  cf_rules : Forall (rule_pinned (xp_code_hashes p)) (xp_call_rules p)
}.

(** Every call of a trace without violation, as the policy confines it. *)
Definition call_confined (accounts : gmap Z AccountRecord) (p : ExecutionPolicyV4)
    (scheme : CallScheme) (caller target : Z) (input : bytes) : Prop :=
  exists kind, call_kind_of scheme = Some kind /\
  (is_precompile target = true /\ is_Some (xp_code_hashes p !! caller) /\
     kind <> DelegateCall \/
   exists rule sel account, rule ∈ xp_call_rules p /\ cru_target rule = target /\
     selector_of input = Some sel /\ sel ∈ cru_selectors rule /\
     call_kind_u8 kind ∈ cru_kinds rule /\
     accounts !! target = Some account /\
     xp_code_hashes p !! target = Some (code_hash account) /\
     cru_caller rule = (if bool_decide (caller ∈ xp_active_members p)
                        then ACTIVE_MEMBER_SENTINEL else caller)).

Lemma permitted_trace p self (trace : list hook) h :
  insp_violation (foldl (run_hook p) (inspector_reset self) trace) = None ->
  h ∈ trace -> hook_permitted p h = true.
Proof.
  intros Ht. revert h. rewrite <- Forall_forall. revert Ht.
  induction trace as [|h trace IH] using rev_ind; intros Ht; [constructor|].
  rewrite foldl_app in Ht. cbn [foldl] in Ht. apply run_hook_violation in Ht as [Ht Hh].
  apply Forall_app. split; [auto|]. constructor; [exact Hh|constructor].
Qed.

Lemma confined_trace accounts p self trace :
  confining accounts p ->
  insp_violation (foldl (run_hook p) (inspector_reset self) trace) = None ->
  HCreate ∉ trace /\ HSelfDestruct ∉ trace /\
  (forall scheme caller target input, HCall scheme caller target input ∈ trace ->
     call_confined accounts p scheme caller target input).
Proof.
  intros [C1 C2 C3 C4 C5] Ht. pose proof (permitted_trace p self trace) as P. split_and!.
  - intros Hin. apply P in Hin; [cbn in Hin; congruence|exact Ht].
  - intros Hin. apply P in Hin; [cbn in Hin; congruence|exact Ht].
  - intros scheme caller target input Hin. apply P in Hin; [|exact Ht]. cbn in Hin.
    unfold call_confined. destruct (call_kind_of scheme) as [kind|]; [|discriminate].
    exists kind. split; [reflexivity|]. apply andb_true_iff in Hin as [Ha _].
    apply allows_call_cases in Ha as [Ha|(rule & sel & Hsel & Hr & Ht' & Hs & Hk & Hc)];
      [left; exact Ha| |assumption].
    right. rewrite Forall_forall in C5. destruct (C5 rule Hr) as [Hp _].
    rewrite Ht' in Hp. apply pinned_spec in Hp as [hash Hp].
    destruct (C4 target hash Hp) as (account & Ha & <-).
    exists rule, sel, account. auto 12.
Qed.

(** A contract without a writable namespace keeps its storage. *)
Lemma confined_storage p pre (post : StateMap) contract slot :
  xp_certified p = true -> validate_post_state p pre post = Ok tt ->
  Forall (fun n => ns_contract n <> contract \/ ns_writable n = false)
    (xp_storage_namespaces p) ->
  old_value pre contract slot = new_value (sm_accounts post) contract slot.
Proof.
  intros Hc Hv Hn. apply validate_post_state_spec in Hv as (_ & Hw & _); [|exact Hc].
  destruct (decide (old_value pre contract slot = new_value (sm_accounts post) contract slot))
    as [|Hne]; [assumption|].
  specialize (Hw contract slot Hne). unfold in_writable in Hw.
  apply existsb_exists in Hw as (n & Hin & Hb). apply list_elem_of_In in Hin.
  rewrite Forall_forall in Hn. specialize (Hn n Hin). bool_to_prop.
  destruct Hn; congruence.
Qed.

Lemma certified_confining policy accounts p registry :
  certified_by policy accounts p registry -> confining accounts p.
Proof.
  intros []. split; auto. intros a h Hp. destruct (cb_pins0 a h Hp) as (_ & r & Hr). eauto.
Qed.
End EnforceFacts.

Section Claims.
Context {KK : Keccak} {RV : Revm} {OP : OsakaPrecompiles}.

(** An accepted v5 policy is authenticated by the committed policy hash and is
    sound for the state it was checked against: every pinned contract is live with
    exactly the pinned code, all other code is absent, call rules connect pinned
    contracts (or members) only, every stored slot lies in a declared namespace, the
    participant registry and the exit queue are pinned and writable, and no L1
    import can reach the registry metadata or the queue. *)
Theorem from_v5_sound policy expected members (state : StateMap) changed p :
  from_v5 policy expected members state changed = Ok p ->
  execution_policy_hash_v5 policy = expected /\ xp_active_members p = members /\
  members <> ∅ /\ exists registry, certified_by policy (sm_accounts state) p registry.
Proof. apply from_v5_certified. Qed.

(** The terminal state check is exact: a certified post-state is accepted iff
    every pinned contract still has its pinned code, every slot whose value differs
    from the pre-state (over all addresses and slots, absent meaning zero) lies in a
    writable namespace, and the membership guards hold if the roster changed. *)
Theorem validate_post_state_exact p pre (post : StateMap) :
  xp_certified p = true ->
  validate_post_state p pre post = Ok tt <->
  map_Forall (fun address hash => exists account,
    sm_accounts post !! address = Some account /\ code_hash account = hash)
    (xp_code_hashes p) /\
  (forall address slot, write_ok p pre (sm_accounts post) address slot) /\
  guards_ok p (sm_accounts post).
Proof. apply validate_post_state_spec. Qed.

(** The inspector's latch is exact on every execution trace: after any sequence
    of revm callbacks (steps, nested calls, creates, selfdestructs) following a
    reset, no violation is recorded iff the policy permits every single callback,
    although later calls are not examined once a violation is latched. *)
Theorem inspector_trace_exact p self (trace : list hook) :
  insp_violation (foldl (run_hook p) (inspector_reset self) trace) = None
  <-> forallb (hook_permitted p) trace = true.
Proof.
  induction trace as [|h trace IH] using rev_ind; [cbn; tauto|].
  rewrite foldl_app, forallb_app. cbn [foldl forallb].
  rewrite run_hook_violation, IH, andb_true_r, andb_true_iff. reflexivity.
Qed.

End Claims.

(** ** Witnesses: one pinned contract with a read-only counter slot *)
#[local] Existing Instance toy_keccak.
#[local] Existing Instance toy_revm.
#[local] Instance toy_precompiles : OsakaPrecompiles := fun a => (1 <=? a) && (a <=? 17).

Definition demo_code : bytes := [0x60; 0x00].
Definition demo_policy5 : ExecutionPolicyV5 :=
  mk_ExecutionPolicyV5 0 4 8 30000000 65536 false false
    [mk_CodeCommitmentV5 50 (keccak256 demo_code);
     mk_CodeCommitmentV5 60 (keccak256 demo_code)]
    [mk_CallRuleV5 0 50 [[1; 2; 3; 4]] [0]]
    [mk_StorageNamespaceV5 50 0 0 true; mk_StorageNamespaceV5 60 0 0 false]
    [] (Some (mk_ParticipantRegistryBindingV5 50 0 1 2 3)) None.
Definition demo_room : @StateMap toy_revm :=
  set_accounts {[ 50 := mk_AccountRecord 1 0 demo_code {[ 9 := 7 ]};
                  60 := mk_AccountRecord 1 0 demo_code {[ 9 := 7 ]} ]} StateMap_default.
Definition demo_post : @StateMap toy_revm :=
  set_accounts {[ 50 := mk_AccountRecord 1 0 demo_code {[ 9 := 8 ]};
                  60 := mk_AccountRecord 1 0 demo_code {[ 9 := 7 ]} ]} StateMap_default.
Definition demo_p : ExecutionPolicyV4 :=
  match from_v5 demo_policy5 (execution_policy_hash_v5 demo_policy5) {[ 5 ]} demo_room false with
  | Ok p => p | Err _ => legacy_unrestricted end.
Definition demo_trace : list hook := [HStep 0x60 32; HCall SchemeCall 5 50 [1; 2; 3; 4; 9]].
Definition demo_pre : gmap Z (gmap Z Z) := {[ 50 := {[ 9 := 7 ]}; 60 := {[ 9 := 7 ]} ]}.

Lemma from_v5_sound_witness :
  exists registry, certified_by demo_policy5 (sm_accounts demo_room) demo_p registry.
Proof.
  apply (from_v5_sound demo_policy5 (execution_policy_hash_v5 demo_policy5) {[ 5 ]}
           demo_room false demo_p).
  vm_compute. reflexivity.
Defined.

Lemma validate_post_state_exact_witness :
  in_writable (xp_storage_namespaces demo_p) 50 9 = true.
Proof.
  apply (validate_post_state_exact demo_p demo_pre demo_post);
    [vm_compute; reflexivity|vm_compute; reflexivity|vm_compute; discriminate].
Defined.

