(* ===== verification/Settlement.v ===== *)
(** * The exit program of a v4 room and its state access

    stf-core/src/settlement/mod.rs and settlement/program.rs.  serde_json's
    value type, the derived [Deserialize] and alloy's address parser are
    foreign and enter through [ExitProgramCodec]. *)

From S2P Require Import Prelude Types Abi Merkle HashV5 HashV4 State StateEvm Policy.
Open Scope Z_scope.

(** ** Constants of settlement/mod.rs *)
Definition MAX_ASSETS : Z := 16.
Definition MAX_MEMBERS : Z := 7.
Definition INBOX_DEPOSIT : Z := 1.
Definition INBOX_JOIN : Z := 2.
Definition INBOX_PENDING : Z := 1.
Definition INBOX_CONSUMED : Z := 2.
Definition INBOX_SKIPPED : Z := 3.
Definition INBOX_REFUNDED : Z := 4.
Definition MEMBER_UNUSED : Z := 0.
Definition MEMBER_ACTIVE : Z := 1.
Definition MEMBER_RETIRED : Z := 2.
Definition MEMBER_ACTIVATE : Z := 1.
Definition MEMBER_RETIRE : Z := 2.
Definition JOIN_SLOT_SENTINEL : Z := 255.

(** ** Resolved exit program *)
Inductive ExitAssetKindV4 :=
| Native
| Erc20 (token balance_slot total_supply_slot : Z).
Record ExitAssetV4 := mk_ExitAssetV4 {
  xa_asset_id : Z;
  xa_kind : ExitAssetKindV4
}.
Record PositionBackingV4 := mk_PositionBackingV4 {
  pb_asset_id : Z;
  pb_reserve_slot : option Z
}.
Record ProRataPositionV4 := mk_ProRataPositionV4 {
  prp_contract : Z;
  prp_share_balance_slot : Z;
  prp_total_supply_slot : Z;
  prp_excluded_share_accounts : list Z;
  prp_backings : list PositionBackingV4
}.
Record ExitProgramV4 := mk_ExitProgramV4 {
  xpr_assets : list ExitAssetV4;
  xpr_positions : list ProRataPositionV4
}.
Record DerivedSettlementV4 := mk_DerivedSettlementV4 {
  ds_exit_allocations : list ExitAllocationV4;
  ds_accounting : list AssetAccountingV4;
  ds_asset_totals_hash : Z;
  ds_exit_totals_hash : Z;
  ds_fee_totals_hash : Z;
  ds_exit_root : Z
}.

(** ** State access *)
Section Access.
Context {KK : Keccak} {RV : Revm}.

Definition mapping_slot (account slot : Z) : Z :=
  keccak256 (repeat 0 12 ++ address_bytes account ++ be_bytes 32 slot).

Definition read_storage (state : StateMap) (address slot : Z) : result string Z :=
  fail_if storage_outside state address slot
    with "storage is outside the complete compact-state envelope"%string in
  Ok (storage_value (sm_accounts state) address slot).

Definition write_storage (state : StateMap) (address slot value : Z)
  : result string StateMap :=
  fail_if storage_outside state address slot
    with "storage is outside the complete compact-state envelope"%string in
  let? account := ok_or (sm_accounts state !! address) "token account is absent"%string in
  Ok (set_accounts
        (<[address := mk_AccountRecord (ar_nonce account) (ar_balance account)
                        (ar_code account) (merge_slot (ar_storage account) (slot, value))]>
           (sm_accounts state)) state).

Definition add_u256 (left right : Z) : result string Z :=
  ok_or (checked_add U256_MAX left right) "uint256 addition overflow"%string.

Definition mul_div_floor (value numerator denominator : Z) : result string Z :=
  fail_if denominator =? 0 with "division by zero"%string in
  let? product := ok_or (checked_mul U256_MAX value numerator)
                    "uint256 multiplication overflow"%string in
  Ok (product / denominator).
End Access.

(** ** The JSON schema (program.rs) *)
Record ExitAssetJsonV4 := mk_ExitAssetJsonV4 {
  eaj_asset_id : Z;
  eaj_kind : bytes;
  eaj_token : option bytes;
  eaj_balance_slot : option bytes;
  eaj_total_supply_slot : option bytes
}.
Record PositionBackingJsonV4 := mk_PositionBackingJsonV4 {
  pbj_asset_id : Z;
  pbj_reserve_slot : option bytes
}.
Record ProRataPositionJsonV4 := mk_ProRataPositionJsonV4 {
  ppj_kind : bytes;
  ppj_contract : bytes;
  ppj_share_balance_slot : bytes;
  ppj_total_supply_slot : bytes;
  ppj_excluded_share_accounts : list bytes;
  ppj_backings : list PositionBackingJsonV4
}.
Record ExitProgramJsonV4 := mk_ExitProgramJsonV4 {
  epj_version : Z;
  epj_assets : list ExitAssetJsonV4;
  epj_positions : list ProRataPositionJsonV4
}.

(** serde_json ([from_slice], [to_vec], [from_value]) and [str::parse::<Address>]. *)
Class ExitProgramCodec := {
  JsonValue : Type;
  json_from_slice : bytes -> option JsonValue;
  json_to_vec : JsonValue -> option bytes;
  exit_program_from_value : JsonValue -> option ExitProgramJsonV4;
  address_from_str : bytes -> option Z
}.

Definition is_ascii_digit (b : Z) : bool := (48 <=? b) && (b <=? 57).

(** [U256::from_str_radix(value, 10)] on digits. *)
Definition decimal_value (value : bytes) : Z :=
  foldl (fun acc b => acc * 10 + (b - 48)) 0 value.

Definition parse_decimal_u256 (value : bytes) : result string Z :=
  fail_if bool_decide (value = [])
       || ((1 <? zlen value) && bool_decide (head value = Some 48))
       || negb (forallb is_ascii_digit value)
    with "expected canonical decimal uint256"%string in
  fail_if U256_MAX <? decimal_value value with "uint256 overflow"%string in
  Ok (decimal_value value).

Section Parse.
Context {KK : Keccak} {EC : ExitProgramCodec}.

Definition parse_address (value : bytes) : result string Z :=
  ok_or (address_from_str value) "invalid address"%string.

Definition parse_exit_asset (policy : ExecutionPolicyV4)
    (s : option Z * list ExitAssetV4) (asset : ExitAssetJsonV4)
  : result string (option Z * list ExitAssetV4) :=
  let '(previous_asset, assets) := s in
  fail_if not_after previous_asset (eaj_asset_id asset)
    with "exit program assets must be sorted by unique assetId"%string in
  let? kind :=
    if bool_decide (eaj_kind asset = b_ "native") then
      fail_if negb (eaj_asset_id asset =? 0)
           || bool_decide (is_Some (eaj_token asset))
           || bool_decide (is_Some (eaj_balance_slot asset))
           || bool_decide (is_Some (eaj_total_supply_slot asset))
        with "native exit asset must be id 0 and have no token/slots"%string in
      Ok Native
    else if bool_decide (eaj_kind asset = b_ "erc20") then
      let? token_text := ok_or (eaj_token asset) "erc20 exit asset has no token"%string in
      let? token := parse_address token_text in
      let? balance_text := ok_or (eaj_balance_slot asset)
                             "erc20 exit asset has no balanceSlot"%string in
      let? balance_slot := parse_decimal_u256 balance_text in
      let? supply_text := ok_or (eaj_total_supply_slot asset)
                            "erc20 exit asset has no totalSupplySlot"%string in
      let? total_supply_slot := parse_decimal_u256 supply_text in
      fail_if xp_certified policy && negb (pinned (xp_code_hashes policy) token)
        with "exit asset token is not code-hash pinned"%string in
      Ok (Erc20 token balance_slot total_supply_slot)
    else Err "unsupported exit asset kind"%string in
  Ok (Some (eaj_asset_id asset), assets ++ [mk_ExitAssetV4 (eaj_asset_id asset) kind]).

Definition find_asset (assets : list ExitAssetV4) (asset_id : Z) : option ExitAssetV4 :=
  snd <$> list_find (fun asset => xa_asset_id asset = asset_id) assets.

Definition is_erc20 (asset : ExitAssetV4) : bool :=
  match xa_kind asset with Erc20 _ _ _ => true | Native => false end.

Definition parse_excluded (s : option Z * list Z) (text : bytes)
  : result string (option Z * list Z) :=
  let '(previous, excluded) := s in
  let? account := parse_address text in
  fail_if (account =? Address_ZERO) || not_after previous account
    with "excluded accounts must be sorted, unique and nonzero"%string in
  Ok (Some account, excluded ++ [account]).

Definition parse_backing (assets : list ExitAssetV4)
    (s : option Z * list PositionBackingV4) (backing : PositionBackingJsonV4)
  : result string (option Z * list PositionBackingV4) :=
  let '(previous, backings) := s in
  match find_asset assets (pbj_asset_id backing) with
  | None => Err "backings must be sorted unique known assets"%string
  | Some asset =>
      fail_if not_after previous (pbj_asset_id backing)
        with "backings must be sorted unique known assets"%string in
      fail_if negb (is_erc20 asset) with "backing must be ERC-20"%string in
      let? reserve_slot :=
        match pbj_reserve_slot backing with
        | None => Ok None
        | Some text => let? v := parse_decimal_u256 text in Ok (Some v)
        end in
      Ok (Some (pbj_asset_id backing),
          backings ++ [mk_PositionBackingV4 (pbj_asset_id backing) reserve_slot])
  end.

Definition parse_position (policy : ExecutionPolicyV4) (assets : list ExitAssetV4)
    (s : gset Z * list ProRataPositionV4) (position : ProRataPositionJsonV4)
  : result string (gset Z * list ProRataPositionV4) :=
  let '(seen_contracts, positions) := s in
  fail_if negb (bool_decide (ppj_kind position = b_ "pro-rata"))
    with "unsupported position kind"%string in
  let? contract := parse_address (ppj_contract position) in
  fail_if bool_decide (contract ∈ seen_contracts)
    with "exit positions must use unique contract addresses"%string in
  fail_if xp_certified policy && negb (pinned (xp_code_hashes policy) contract)
    with "exit position is not code-hash pinned"%string in
  let? share_balance_slot := parse_decimal_u256 (ppj_share_balance_slot position) in
  let? total_supply_slot := parse_decimal_u256 (ppj_total_supply_slot position) in
  fail_if bool_decide (length (ppj_backings position) = 0%nat)
    with "position has no backing assets"%string in
  let? (_, excluded) := for_each parse_excluded (None, [])
                          (ppj_excluded_share_accounts position) in
  let? (_, backings) := for_each (parse_backing assets) (None, [])
                          (ppj_backings position) in
  Ok ({[contract]} ∪ seen_contracts,
      positions ++ [mk_ProRataPositionV4 contract share_balance_slot total_supply_slot
                      excluded backings]).

(** [ExitProgramV4::parse]: authenticate the JSON, then resolve it. *)
Definition authenticate_exit_program (canonical_json : bytes) (policy : ExecutionPolicyV4)
  : result string ExitProgramJsonV4 :=
  let? value := ok_or (json_from_slice canonical_json) "exit program JSON"%string in
  let? canonical := ok_or (json_to_vec value) "canonical exit program JSON"%string in
  fail_if negb (bool_decide (canonical = canonical_json))
    with "exit program JSON is not canonical"%string in
  fail_if negb (keccak256 canonical =? xp_exit_program_id policy)
    with "canonical exit program JSON does not hash to preset.exitProgramId"%string in
  let? parsed := ok_or (exit_program_from_value value) "exit program schema"%string in
  fail_if negb (epj_version parsed =? 4) with "exit program version must be 4"%string in
  fail_if (zlen (epj_assets parsed) =? 0) || (MAX_ASSETS <? zlen (epj_assets parsed))
    with "exit program needs 1..16 assets"%string in
  Ok parsed.

Definition parse (canonical_json : bytes) (policy : ExecutionPolicyV4)
  : result string ExitProgramV4 :=
  let? parsed := authenticate_exit_program canonical_json policy in
  let? (_, assets) := for_each (parse_exit_asset policy) (None, []) (epj_assets parsed) in
  fail_if existsb (fun preset => negb (bool_decide (is_Some (find_asset assets preset))))
            (xp_preset_asset_ids policy)
    with "preset asset is absent from exit program"%string in
  let? (_, positions) := for_each (parse_position policy assets) (∅, [])
                           (epj_positions parsed) in
  Ok (mk_ExitProgramV4 assets positions).
End Parse.

(** ** Deposit credit *)
Section Credit.
Context {KK : Keccak} {RV : Revm}.

Definition asset (self : ExitProgramV4) (asset_id : Z) : result string ExitAssetV4 :=
  ok_or (find_asset (xpr_assets self) asset_id)
    "asset is not declared by the exit program"%string.

Definition credit_native (state : StateMap) (recipient amount : Z)
  : result string StateMap :=
  fail_if account_outside state recipient
    with "inbox recipient is outside the complete compact-state envelope"%string in
  let account := default AccountRecord_default (sm_accounts state !! recipient) in
  let? balance := add_u256 (ar_balance account) amount in
  Ok (set_accounts (<[recipient := mk_AccountRecord (ar_nonce account) balance
                        (ar_code account) (ar_storage account)]> (sm_accounts state)) state).

(** Read, add, write back: both ERC-20 credit steps. *)
Definition add_to_slot (state : StateMap) (address slot amount : Z)
  : result string StateMap :=
  let? current := read_storage state address slot in
  let? total := add_u256 current amount in
  write_storage state address slot total.

Definition credit (self : ExitProgramV4) (state : StateMap)
    (asset_id recipient amount : Z) : result string StateMap :=
  fail_if amount =? 0 with "inbox deposit amount must be positive"%string in
  let? a := asset self asset_id in
  match xa_kind a with
  | Native => credit_native state recipient amount
  | Erc20 token balance_slot total_supply_slot =>
      let? state := add_to_slot state token (mapping_slot recipient balance_slot) amount in
      add_to_slot state token total_supply_slot amount
  end.
End Credit.

(** * Properties *)

(** ** State access *)
Section AccessFacts.
Context {KK : Keccak} {RV : Revm}.
Implicit Types state : StateMap.

Definition native_balance (accounts : gmap Z AccountRecord) (account : Z) : Z :=
  match accounts !! account with Some a => ar_balance a | None => 0 end.

Lemma merge_slot_lookup st k v k' :
  default 0 (merge_slot st (k, v) !! k') = if decide (k = k') then v else default 0 (st !! k').
Proof.
  unfold merge_slot. cbn. destruct (Z.eqb_spec v 0) as [->|].
  - destruct (decide (k = k')) as [<-|]; [rewrite lookup_delete_eq|rewrite lookup_delete_ne];
      auto.
  - destruct (decide (k = k')) as [<-|]; [rewrite lookup_insert_eq|rewrite lookup_insert_ne];
      auto.
Qed.

Lemma write_storage_value state a s v state' :
  write_storage state a s v = Ok state' ->
  forall a' s', storage_value (sm_accounts state') a' s'
    = if decide ((a, s) = (a', s')) then v else storage_value (sm_accounts state) a' s'.
Proof.
  unfold write_storage. intros H a' s'.
  destruct (storage_outside _ _ _); [discriminate|].
  destruct (sm_accounts state !! a) as [r|] eqn:Er; cbn in H; [|discriminate].
  injection H as <-. unfold storage_value. cbn [sm_accounts set_accounts].
  destruct (decide (a = a')) as [<-|Hne].
  - rewrite lookup_insert_eq, Er. cbn [ar_storage]. rewrite merge_slot_lookup.
    destruct (decide (s = s')) as [<-|]; repeat case_decide; congruence.
  - rewrite lookup_insert_ne by assumption. case_decide; congruence.
Qed.

Lemma write_storage_balance state a s v state' :
  write_storage state a s v = Ok state' ->
  forall x, native_balance (sm_accounts state') x = native_balance (sm_accounts state) x.
Proof.
  unfold write_storage. intros H x.
  destruct (storage_outside _ _ _); [discriminate|].
  destruct (sm_accounts state !! a) as [r|] eqn:Er; cbn in H; [|discriminate].
  injection H as <-. unfold native_balance. cbn [sm_accounts set_accounts].
  destruct (decide (a = x)) as [<-|Hne];
    [rewrite lookup_insert_eq, Er|rewrite lookup_insert_ne by assumption]; reflexivity.
Qed.

Lemma add_u256_ok l r t : add_u256 l r = Ok t <-> t = l + r /\ l + r <= U256_MAX.
Proof.
  unfold add_u256, checked_add. destruct (Z.leb_spec (l + r) U256_MAX); cbn;
    (split; [intros H'; inversion H'; auto|intros [-> ?]; auto; lia]).
Qed.

(** The value of a slot after adding [amount] to slot [(a, s)]. *)
Lemma add_to_slot_spec state a s amount state' :
  add_to_slot state a s amount = Ok state' ->
  storage_value (sm_accounts state) a s + amount <= U256_MAX /\
  (forall x, native_balance (sm_accounts state') x = native_balance (sm_accounts state) x) /\
  (forall a' s', storage_value (sm_accounts state') a' s'
     = storage_value (sm_accounts state) a' s'
       + if decide ((a, s) = (a', s')) then amount else 0).
Proof.
  unfold add_to_slot, read_storage. intros H.
  destruct (storage_outside _ _ _); cbn [rbind] in H; [discriminate|].
  destruct (add_u256 _ _) as [t|] eqn:Et; cbn [rbind] in H; [|discriminate].
  apply add_u256_ok in Et as [-> Hle]. split; [exact Hle|]. split.
  - eapply write_storage_balance; eauto.
  - intros a' s'. rewrite (write_storage_value _ _ _ _ _ H).
    case_decide as E; [injection E as -> ->|]; lia.
Qed.

(** What one credit does, native or ERC-20. *)
Lemma credit_spec program state asset_id recipient amount state' :
  credit program state asset_id recipient amount = Ok state' ->
  amount <> 0 /\ exists a, asset program asset_id = Ok a /\
  match xa_kind a with
  | Native =>
      native_balance (sm_accounts state) recipient + amount <= U256_MAX /\
      (forall x, native_balance (sm_accounts state') x = native_balance (sm_accounts state) x
         + if decide (recipient = x) then amount else 0) /\
      (forall t s, storage_value (sm_accounts state') t s = storage_value (sm_accounts state) t s)
  | Erc20 token balance_slot supply_slot =>
      (forall x, native_balance (sm_accounts state') x = native_balance (sm_accounts state) x) /\
      (forall t s, storage_value (sm_accounts state') t s
         = storage_value (sm_accounts state) t s
           + (if decide ((token, mapping_slot recipient balance_slot) = (t, s))
              then amount else 0)
           + (if decide ((token, supply_slot) = (t, s)) then amount else 0))
  end.
Proof.
  unfold credit. intros H. destruct (Z.eqb_spec amount 0); [discriminate|]. split; [assumption|].
  destruct (asset program asset_id) as [a|]; cbn [rbind] in H; [|discriminate].
  exists a. split; [reflexivity|]. destruct (xa_kind a) as [|token bs ts].
  - unfold credit_native in H. destruct (account_outside _ _); [discriminate|].
    destruct (add_u256 _ _) as [b|] eqn:Eb; cbn [rbind] in H; [|discriminate].
    injection H as <-. apply add_u256_ok in Eb as [-> Hle].
    assert (Hd : ar_balance (default AccountRecord_default (sm_accounts state !! recipient))
                 = native_balance (sm_accounts state) recipient)
      by (unfold native_balance; destruct (sm_accounts state !! recipient); reflexivity).
    rewrite Hd in *. split_and!; [exact Hle| |].
    + intros x. unfold native_balance at 1. cbn [sm_accounts set_accounts].
      case_decide as E; [subst x; rewrite lookup_insert_eq; reflexivity|].
      rewrite lookup_insert_ne by assumption. unfold native_balance. lia.
    + intros t s. unfold storage_value. cbn [sm_accounts set_accounts].
      destruct (decide (recipient = t)) as [<-|];
        [rewrite lookup_insert_eq|rewrite lookup_insert_ne by assumption; reflexivity].
      cbn. destruct (sm_accounts state !! recipient); reflexivity.
  - destruct (add_to_slot state _ _ _) as [s1|] eqn:E1; cbn [rbind] in H; [|discriminate].
    apply add_to_slot_spec in E1 as (_ & B1 & S1). apply add_to_slot_spec in H as (_ & B2 & S2).
    split; [intros x; rewrite B2; apply B1|]. intros t s. rewrite S2, S1. reflexivity.
Qed.

(** The declared envelope is not changed by a credit. *)
Lemma credit_envelope program state asset_id recipient amount state' :
  credit program state asset_id recipient amount = Ok state' ->
  sm_access_accounts state' = sm_access_accounts state /\
  sm_access_storage state' = sm_access_storage state.
Proof.
  assert (W : forall st a s v st', write_storage st a s v = Ok st' ->
    sm_access_accounts st' = sm_access_accounts st /\
    sm_access_storage st' = sm_access_storage st).
  { intros st a s v st' H. unfold write_storage in H. inv_ok. auto. }
  assert (T : forall st a s v st', add_to_slot st a s v = Ok st' ->
    sm_access_accounts st' = sm_access_accounts st /\
    sm_access_storage st' = sm_access_storage st).
  { intros st a s v st' H. unfold add_to_slot in H. inv_ok. eapply W; eauto. }
  unfold credit. intros H. inv_ok. destruct (xa_kind a) as [|t b u].
  - unfold credit_native in H. inv_ok. auto.
  - inv_ok. apply T in E0 as [A1 A2]. apply T in H as [B1 B2]. split; congruence.
Qed.
End AccessFacts.

(** ** Well-formed exit programs *)
Section ParseFacts.
Context {KK : Keccak} {EC : ExitProgramCodec}.

Definition asset_wf (policy : ExecutionPolicyV4) (a : ExitAssetV4) : Prop :=
  match xa_kind a with
  | Native => xa_asset_id a = 0
  | Erc20 token balance_slot supply_slot =>
      balance_slot <= U256_MAX /\ supply_slot <= U256_MAX /\
      (xp_certified policy = true -> pinned (xp_code_hashes policy) token = true)
  end.

Record position_wf (policy : ExecutionPolicyV4) (assets : list ExitAssetV4)
    (p : ProRataPositionV4) : Prop := {
  pwf_pinned : xp_certified policy = true ->
    pinned (xp_code_hashes policy) (prp_contract p) = true;
  pwf_excluded : key_sorted id (prp_excluded_share_accounts p);
  pwf_excluded_nonzero :
    Forall (fun a => a <> Address_ZERO) (prp_excluded_share_accounts p);
  pwf_backings : key_sorted pb_asset_id (prp_backings p);
  pwf_backings_nonempty : prp_backings p <> [];
  pwf_backings_erc20 : Forall (fun b => exists a,
    find_asset assets (pb_asset_id b) = Some a /\ is_erc20 a = true) (prp_backings p)
}.

Record exit_program_wf (policy : ExecutionPolicyV4) (program : ExitProgramV4) : Prop := {
  epw_count : 1 <= zlen (xpr_assets program) <= MAX_ASSETS;
  epw_sorted : key_sorted xa_asset_id (xpr_assets program);
  epw_assets : Forall (asset_wf policy) (xpr_assets program);
  epw_preset : Forall (fun id => is_Some (find_asset (xpr_assets program) id))
    (xp_preset_asset_ids policy);
  epw_contracts : NoDup (map prp_contract (xpr_positions program));
  epw_positions :
    Forall (position_wf policy (xpr_assets program)) (xpr_positions program)
}.

Lemma parse_decimal_bound text v : parse_decimal_u256 text = Ok v -> v <= U256_MAX.
Proof. unfold parse_decimal_u256. intros H. inv_ok. bool_to_prop. assumption. Qed.

Lemma parse_exit_assets_spec policy l s :
  for_each (parse_exit_asset policy) (None, []) l = Ok s ->
  key_sorted xa_asset_id s.2 /\ Forall (asset_wf policy) s.2 /\ length s.2 = length l
  /\ map xa_asset_id s.2 = map eaj_asset_id l.
Proof.
  intros E.
  assert (G : (key_sorted xa_asset_id s.2 /\ Forall (asset_wf policy) s.2
    /\ length s.2 = length l /\ map xa_asset_id s.2 = map eaj_asset_id l)
    /\ s.1 = (xa_asset_id <$> last s.2)); [|tauto].
  refine (for_each_inv (fun l (s : option Z * list ExitAssetV4) =>
    (key_sorted xa_asset_id s.2 /\ Forall (asset_wf policy) s.2
     /\ length s.2 = length l /\ map xa_asset_id s.2 = map eaj_asset_id l)
    /\ s.1 = (xa_asset_id <$> last s.2)) _ _ _ _ _ _ E).
  { cbn. repeat constructor. }
  intros done x [prev acc] s2 [(Hs & Hw & Hl & Hm) Hp] _ Hb. cbn in Hs, Hw, Hl, Hm, Hp.
  unfold parse_exit_asset in Hb.
  destruct (not_after prev (eaj_asset_id x)) eqn:En; [discriminate|].
  match type of Hb with rbind ?m _ = _ => destruct m as [kind|] eqn:Ek end;
    cbn [rbind] in Hb; [|discriminate].
  injection Hb as <-. cbn [fst snd]. rewrite last_snoc, !length_app, !map_app.
  split; [|reflexivity]. split_and!.
  - eapply key_sorted_snoc; eauto.
  - apply Forall_app. split; [exact Hw|]. constructor; [|constructor].
    unfold asset_wf. cbn.
    destruct (bool_decide (eaj_kind x = b_ "native")); [inv_ok; bool_to_prop; assumption|].
    destruct (bool_decide (eaj_kind x = b_ "erc20")); [|discriminate].
    inv_ok. split_and!; [eapply parse_decimal_bound; eauto..|].
    intros Hc. rewrite Hc in *. cbn [andb] in *. bool_to_prop. assumption.
  - cbn. lia.
  - cbn. rewrite Hm. reflexivity.
Qed.

Lemma parse_excluded_spec l s :
  for_each parse_excluded (None, []) l = Ok s ->
  key_sorted id s.2 /\ Forall (fun a => a <> Address_ZERO) s.2.
Proof.
  intros E.
  assert (G : (key_sorted id s.2 /\ Forall (fun a => a <> Address_ZERO) s.2)
    /\ s.1 = (id <$> last s.2)); [|tauto].
  refine (for_each_inv (fun _ (s : option Z * list Z) =>
    (key_sorted id s.2 /\ Forall (fun a => a <> Address_ZERO) s.2)
    /\ s.1 = (id <$> last s.2)) _ _ _ _ _ _ E).
  { cbn. repeat constructor. }
  intros done x [prev acc] s2 [(Hs & Hw) Hp] _ Hb. cbn in Hs, Hw, Hp.
  unfold parse_excluded in Hb. inv_ok. cbn [fst snd]. bool_to_prop.
  rewrite last_snoc. split; [|reflexivity]. split.
  - eapply key_sorted_snoc; eauto.
  - apply Forall_app. split; [exact Hw|]. constructor; [assumption|constructor].
Qed.

Lemma parse_backings_spec assets l s :
  for_each (parse_backing assets) (None, []) l = Ok s ->
  key_sorted pb_asset_id s.2 /\ length s.2 = length l /\
  Forall (fun b => exists a, find_asset assets (pb_asset_id b) = Some a /\ is_erc20 a = true) s.2.
Proof.
  intros E.
  assert (G : (key_sorted pb_asset_id s.2 /\ length s.2 = length l /\ Forall (fun b => exists a,
      find_asset assets (pb_asset_id b) = Some a /\ is_erc20 a = true) s.2)
    /\ s.1 = (pb_asset_id <$> last s.2)); [|tauto].
  refine (for_each_inv (fun l (s : option Z * list PositionBackingV4) =>
    (key_sorted pb_asset_id s.2 /\ length s.2 = length l /\ Forall (fun b => exists a,
      find_asset assets (pb_asset_id b) = Some a /\ is_erc20 a = true) s.2)
    /\ s.1 = (pb_asset_id <$> last s.2)) _ _ _ _ _ _ E).
  { cbn. repeat constructor. }
  intros done x [prev acc] s2 [(Hs & Hl & Hw) Hp] _ Hb. cbn in Hs, Hl, Hw, Hp.
  unfold parse_backing in Hb.
  destruct (find_asset assets (pbj_asset_id x)) as [a|] eqn:Ea; [|discriminate].
  destruct (not_after _ _) eqn:En; [discriminate|].
  destruct (is_erc20 a) eqn:Ek; [|discriminate]. cbn [negb] in Hb.
  match type of Hb with rbind ?m _ = _ => destruct m end; cbn [rbind] in Hb; [|discriminate].
  injection Hb as <-. cbn [fst snd]. rewrite last_snoc, !length_app. split; [|reflexivity].
  split_and!; [eapply key_sorted_snoc; eauto|cbn; lia|].
  apply Forall_app. split; [exact Hw|]. constructor; [|constructor]. cbn. eauto.
Qed.

Lemma parse_positions_spec policy assets l s :
  for_each (parse_position policy assets) (∅, []) l = Ok s ->
  NoDup (map prp_contract s.2) /\ Forall (position_wf policy assets) s.2.
Proof.
  intros E.
  assert (G : (NoDup (map prp_contract s.2) /\ Forall (position_wf policy assets) s.2)
    /\ (forall c, c ∈ s.1 <-> c ∈ map prp_contract s.2)); [|tauto].
  refine (for_each_inv (fun _ (s : gset Z * list ProRataPositionV4) =>
    (NoDup (map prp_contract s.2) /\ Forall (position_wf policy assets) s.2)
    /\ (forall c, c ∈ s.1 <-> c ∈ map prp_contract s.2)) _ _ _ _ _ _ E).
  { cbn. split; [split; constructor|]. intros c. split; [set_solver|intros H; inversion H]. }
  intros done x [seen acc] s2 [(Hn & Hw) Hs] _ Hb. cbn in Hn, Hw, Hs.
  unfold parse_position in Hb.
  destruct (negb _); [discriminate|].
  destruct (parse_address _) as [contract|]; cbn [rbind] in Hb; [|discriminate].
  destruct (bool_decide (contract ∈ seen)) eqn:Ec; [discriminate|].
  destruct (xp_certified policy && _) eqn:Ep; [discriminate|].
  destruct (parse_decimal_u256 _) as [ss|]; cbn [rbind] in Hb; [|discriminate].
  destruct (parse_decimal_u256 _) as [ts|]; cbn [rbind] in Hb; [|discriminate].
  destruct (bool_decide (length (ppj_backings x) = 0%nat)) eqn:Eb; [discriminate|].
  destruct (for_each parse_excluded _ _) as [[pe ex]|] eqn:Ee; cbn [rbind] in Hb; [|discriminate].
  destruct (for_each (parse_backing assets) _ _) as [[pb bk]|] eqn:Ek; cbn [rbind] in Hb;
    [|discriminate].
  injection Hb as <-. cbn [fst snd]. bool_to_prop.
  apply parse_excluded_spec in Ee as [? ?]. apply parse_backings_spec in Ek as (? & Hl & ?).
  cbn in *. rewrite map_app. cbn. split; [split|].
  - apply NoDup_app. split_and!; [exact Hn| |apply NoDup_singleton].
    intros c Hc ->%list_elem_of_singleton. rewrite <- Hs in Hc. contradiction.
  - apply Forall_app. split; [exact Hw|]. constructor; [|constructor].
    split; cbn; auto.
    + intros Hc. rewrite Hc in Ep. cbn in Ep. bool_to_prop. exact Ep.
    + intros ->. cbn in Hl. congruence.
  - intros c. rewrite elem_of_union, elem_of_app, Hs, elem_of_singleton, list_elem_of_singleton.
    tauto.
Qed.

Lemma parse_wf canonical policy program :
  parse canonical policy = Ok program ->
  exit_program_wf policy program /\ keccak256 canonical = xp_exit_program_id policy.
Proof.
  unfold parse. intros H.
  destruct (authenticate_exit_program _ _) as [parsed|] eqn:E0; cbn [rbind] in H; [|discriminate].
  destruct (for_each (parse_exit_asset _) _ _) as [[pa assets]|] eqn:E1; cbn [rbind] in H;
    [|discriminate].
  destruct (existsb _ _) eqn:E2; [discriminate|].
  destruct (for_each (parse_position _ _) _ _) as [[pp positions]|] eqn:E3; cbn [rbind] in H;
    [|discriminate].
  injection H as <-. unfold authenticate_exit_program in E0. inv_ok. bool_to_prop.
  apply parse_exit_assets_spec in E1 as (? & ? & Hl & _). cbn in *.
  apply parse_positions_spec in E3 as [? ?]. cbn in *. split; [|congruence].
  split; cbn; auto.
  - unfold zlen in *. lia.
  - apply Forall_forall. intros id Hid. rewrite existsb_false_iff in E2.
    specialize (E2 id Hid). bool_to_prop. exact E2.
Qed.
End ParseFacts.

Section Claims.
Context {KK : Keccak} {EC : ExitProgramCodec}.

(** A parsed exit program is authenticated and well-formed: its canonical JSON
    hashes to the preset's commitment, its 1..16 assets are strictly sorted with only
    asset 0 native, every preset asset is present, and its positions have distinct
    (and, when certified, code-pinned) contracts, sorted nonzero excluded accounts
    and sorted backings that are declared ERC-20 assets. *)
Theorem exit_program_parse_sound canonical policy program :
  parse canonical policy = Ok program ->
  exit_program_wf policy program /\ keccak256 canonical = xp_exit_program_id policy.
Proof. apply parse_wf. Qed.
End Claims.

(** ** Witness: a native asset, one ERC-20 and one position *)
#[local] Existing Instance toy_keccak.
Definition toy_codec : ExitProgramCodec := {|
  JsonValue := unit;
  json_from_slice := fun _ => Some tt;
  json_to_vec := fun _ => Some [1];
  exit_program_from_value := fun _ => Some (mk_ExitProgramJsonV4 4
    [mk_ExitAssetJsonV4 0 (b_ "native") None None None;
     mk_ExitAssetJsonV4 16 (b_ "erc20") (Some (b_ "2")) (Some (b_ "0")) (Some (b_ "1"))]
    [mk_ProRataPositionJsonV4 (b_ "pro-rata") (b_ "<") (b_ "2") (b_ "3") []
       [mk_PositionBackingJsonV4 16 None]]);
  address_from_str := fun s => Some (of_be s)
|}.
#[local] Existing Instance toy_codec.
Definition toy_policy : ExecutionPolicyV4 :=
  mk_ExecutionPolicyV4 false ∅ ∅ [] [] [] [] false true true 1 1 (keccak256 [1]) [0].

Definition toy_program : ExitProgramV4 :=
  mk_ExitProgramV4
    [mk_ExitAssetV4 0 Native; mk_ExitAssetV4 16 (Erc20 50 0 1)]
    [mk_ProRataPositionV4 60 2 3 [] [mk_PositionBackingV4 16 None]].

Lemma exit_program_parse_sound_witness : exit_program_wf toy_policy toy_program.
Proof. apply (exit_program_parse_sound [1]). vm_compute. reflexivity. Defined.
