(* ===== verification/RosterV4.v ===== *)
(** * The seven-slot roster: shape rules and the proved membership transition

    stf-core/src/settlement/roster.rs and [verify_roster] of policy/mod.rs.
    The panic of an out-of-range index is an [Err] of its own. *)

From S2P Require Import Prelude Types Abi Merkle HashV4 State StateEvm HashV5 Policy Settlement.
Open Scope Z_scope.

Definition index_panic : string := "panic: index out of bounds".

Section Roster.
Context {KK : Keccak}.

(** [computed |= 1 << index] on [u8]. *)
Definition set_bit (mask index : Z) : Z := Z.lor mask (Z.shiftl 1 index).

Definition roster_shape_slot (s : Z * Z * gset Z) (entry : Z * MemberSlotWitnessV4)
  : result string (Z * Z * gset Z) :=
  let '(computed_active, computed_used, occupants) := s in
  let '(index, slot) := entry in
  fail_if negb (msl_slot slot =? index)
    with "slot is missing or out of order"%string in
  if msl_state slot =? MEMBER_UNUSED then
    fail_if negb (msl_account slot =? Address_ZERO)
         || negb (msl_joined_at_batch slot =? 0)
         || bool_decide (is_Some (msl_retired_at_batch slot))
      with "unused slot is not zeroed"%string in
    Ok s
  else if msl_state slot =? MEMBER_ACTIVE then
    fail_if (msl_account slot =? Address_ZERO)
         || bool_decide (is_Some (msl_retired_at_batch slot))
      with "active slot is malformed"%string in
    fail_if bool_decide (msl_account slot ∈ occupants)
      with "duplicate lifetime occupant"%string in
    Ok (set_bit computed_active index, set_bit computed_used index,
        {[msl_account slot]} ∪ occupants)
  else if msl_state slot =? MEMBER_RETIRED then
    match msl_retired_at_batch slot with
    | None => Err "retired slot is malformed"%string
    | Some retired =>
        fail_if (msl_account slot =? Address_ZERO) || (retired <? msl_joined_at_batch slot)
          with "retired slot is malformed"%string in
        fail_if bool_decide (msl_account slot ∈ occupants)
          with "duplicate lifetime occupant"%string in
        Ok (computed_active, set_bit computed_used index,
            {[msl_account slot]} ∪ occupants)
    end
  else Err "slot has invalid state"%string.

Definition validate_roster_shape (slots : list MemberSlotWitnessV4)
    (expected_root active_mask used_mask : Z) : result string unit :=
  fail_if negb (zlen slots =? MAX_MEMBERS) with "roster needs seven slots"%string in
  let? (computed_active, computed_used, _) :=
    for_each roster_shape_slot (0, 0, ∅) (enumerate slots) in
  fail_if negb (computed_active =? active_mask) || negb (computed_used =? used_mask)
    with "masks do not match roster"%string in
  fail_if negb (bool_decide (member_roster_root_v4 slots = Some expected_root))
    with "root does not match roster"%string in
  Ok tt.

(** The [BTreeMap] of deltas by slot. *)
Definition index_delta (s : gmap Z MembershipDeltaWitnessV4 * option Z)
    (delta : MembershipDeltaWitnessV4)
  : result string (gmap Z MembershipDeltaWitnessV4 * option Z) :=
  let '(by_slot, previous) := s in
  fail_if (MAX_MEMBERS <=? mdl_slot delta) || not_after previous (mdl_slot delta)
       || bool_decide (is_Some (by_slot !! mdl_slot delta))
    with "membership deltas must be sorted by unique valid slot"%string in
  Ok (<[mdl_slot delta := delta]> by_slot, Some (mdl_slot delta)).

Definition malformed_activation (batch_index : Z) (previous next : MemberSlotWitnessV4)
    (delta : MembershipDeltaWitnessV4) : bool :=
  negb (msl_state previous =? MEMBER_UNUSED) || negb (msl_state next =? MEMBER_ACTIVE)
  || negb (msl_account next =? mdl_member delta)
  || negb (msl_joined_at_batch next =? batch_index)
  || bool_decide (is_Some (msl_retired_at_batch next))
  || (mdl_member delta =? Address_ZERO)
  || (mdl_join_request_index delta =? 0) || (mdl_acceptance_expiry delta =? 0).

Definition malformed_retirement (batch_index : Z) (previous next : MemberSlotWitnessV4)
    (delta : MembershipDeltaWitnessV4) : bool :=
  negb (msl_state previous =? MEMBER_ACTIVE) || negb (msl_state next =? MEMBER_RETIRED)
  || negb (msl_account next =? msl_account previous)
  || negb (mdl_member delta =? msl_account previous)
  || negb (msl_joined_at_batch next =? msl_joined_at_batch previous)
  || negb (bool_decide (msl_retired_at_batch next = Some batch_index))
  || negb (mdl_join_request_index delta =? 0) || negb (mdl_acceptance_expiry delta =? 0).

Definition slot_transition (batch_index : Z) (before after : list MemberSlotWitnessV4)
    (by_slot : gmap Z MembershipDeltaWitnessV4) (_ : unit) (slot : Z) : result string unit :=
  match znth before slot, znth after slot with
  | Some previous, Some next =>
      match by_slot !! slot with
      | None =>
          fail_if negb (bool_decide (previous = next))
            with "slot changed without a membership delta"%string in
          Ok tt
      | Some delta =>
          if mdl_action delta =? MEMBER_ACTIVATE then
            fail_if malformed_activation batch_index previous next delta
              with "slot has malformed activation"%string in
            Ok tt
          else if mdl_action delta =? MEMBER_RETIRE then
            fail_if malformed_retirement batch_index previous next delta
              with "slot has malformed retirement"%string in
            Ok tt
          else Err "slot has invalid membership action"%string
      end
  | _, _ => Err index_panic
  end.

Definition slot_indices : list Z := [0; 1; 2; 3; 4; 5; 6].

Definition validate_membership_transition_v4 (batch_index : Z)
    (before after : list MemberSlotWitnessV4) (deltas : list MembershipDeltaWitnessV4)
    (pre_root post_root pre_active_mask pre_used_mask post_active_mask post_used_mask : Z)
  : result string Z :=
  fail_if batch_index =? 0
    with "membership transition batch index must be positive"%string in
  let? _ := validate_roster_shape before pre_root pre_active_mask pre_used_mask in
  let? _ := validate_roster_shape after post_root post_active_mask post_used_mask in
  fail_if MAX_MEMBERS <? zlen deltas with "too many membership deltas"%string in
  let? (by_slot, _) := for_each index_delta (∅, None) deltas in
  let? _ := for_each (slot_transition batch_index before after by_slot) tt slot_indices in
  Ok (hash_membership_deltas_v4 deltas).

(** [verify_roster] of policy/mod.rs; the seven leaves are never empty, so the
    [expect] on the root is reached with [Some]. *)
Definition verify_roster_slot (s : gset Z * Z * Z) (entry : Z * MemberSlotWitnessV4)
  : result string (gset Z * Z * Z) :=
  let '(active, computed_active, computed_used) := s in
  let '(index, slot) := entry in
  fail_if negb (msl_slot slot =? index)
    with "pre-roster slot missing or out of order"%string in
  if msl_state slot =? 0 then
    fail_if negb (msl_account slot =? Address_ZERO)
         || negb (msl_joined_at_batch slot =? 0)
         || bool_decide (is_Some (msl_retired_at_batch slot))
      with "unused roster slot is not zeroed"%string in
    Ok s
  else if msl_state slot =? 1 then
    fail_if (msl_account slot =? Address_ZERO)
         || bool_decide (is_Some (msl_retired_at_batch slot))
      with "active roster slot is malformed"%string in
    fail_if bool_decide (msl_account slot ∈ active)
      with "duplicate active roster account"%string in
    Ok ({[msl_account slot]} ∪ active, set_bit computed_active index,
        set_bit computed_used index)
  else if msl_state slot =? 2 then
    let? retired := ok_or (msl_retired_at_batch slot)
                      "retired roster slot has no retire batch"%string in
    fail_if (msl_account slot =? Address_ZERO) || (retired <? msl_joined_at_batch slot)
      with "retired roster slot is malformed"%string in
    Ok (active, computed_active, set_bit computed_used index)
  else Err "roster slot has invalid state"%string.

Definition verify_roster (slots : list MemberSlotWitnessV4)
    (expected_root active_mask used_mask : Z) : result string (gset Z) :=
  fail_if negb (zlen slots =? 7) with "pre-roster requires exactly seven slots"%string in
  let? (active, computed_active, computed_used) :=
    for_each verify_roster_slot (∅, 0, 0) (enumerate slots) in
  let? computed_root := ok_or (member_roster_root_v4 slots)
                          "panic: seven roster slots are non-empty"%string in
  fail_if negb (computed_root =? expected_root) with "pre-roster root mismatch"%string in
  fail_if negb (computed_active =? active_mask) || negb (computed_used =? used_mask)
    with "pre-roster masks do not match the batch journal masks"%string in
  Ok active.
End Roster.

(** * Declarative shape *)
Definition is_active (s : MemberSlotWitnessV4) : bool := msl_state s =? MEMBER_ACTIVE.
Definition is_used (s : MemberSlotWitnessV4) : bool := negb (msl_state s =? MEMBER_UNUSED).

Definition slot_wf (s : MemberSlotWitnessV4) : Prop :=
  (msl_state s = MEMBER_UNUSED /\ msl_account s = 0 /\ msl_joined_at_batch s = 0
   /\ msl_retired_at_batch s = None)
  \/ (msl_state s = MEMBER_ACTIVE /\ msl_account s <> 0 /\ msl_retired_at_batch s = None)
  \/ (msl_state s = MEMBER_RETIRED /\ msl_account s <> 0 /\
      exists r, msl_retired_at_batch s = Some r /\ msl_joined_at_batch s <= r).

Definition mask (p : MemberSlotWitnessV4 -> bool) (slots : list MemberSlotWitnessV4) : Z :=
  foldl (fun m e => if p e.2 then set_bit m e.1 else m) 0 (enumerate slots).

Definition occupants_of (slots : list MemberSlotWitnessV4) : list Z :=
  map msl_account (filter is_used slots).

Record roster_ok (slots : list MemberSlotWitnessV4) : Prop := {
  ro_length : length slots = 7%nat;
  ro_indexed : forall i s, slots !! i = Some s -> msl_slot s = Z.of_nat i;
  ro_slots : Forall slot_wf slots;
  ro_occupants : NoDup (occupants_of slots)
}.

Lemma mask_snoc p l x :
  mask p (l ++ [x]) = if p x then set_bit (mask p l) (zlen l) else mask p l.
Proof. unfold mask. rewrite enumerate_snoc, foldl_app. reflexivity. Qed.

Lemma testbit_set_bit m i j :
  0 <= i -> 0 <= j -> Z.testbit (set_bit m i) j = Z.testbit m j || (i =? j).
Proof.
  intros Hi Hj. unfold set_bit. rewrite Z.lor_spec, Z.shiftl_1_l, Z.pow2_bits_eqb by lia.
  reflexivity.
Qed.

Lemma mask_testbit p l i :
  Z.testbit (mask p l) (Z.of_nat i) = match l !! i with Some s => p s | None => false end.
Proof.
  induction l as [|x l IH] using rev_ind; [cbn; apply Z.bits_0|].
  rewrite mask_snoc. unfold zlen.
  destruct (decide (i < length l)%nat) as [Hi|Hi].
  - rewrite lookup_app_l by exact Hi. rewrite <- IH.
    destruct (p x); [|reflexivity]. rewrite testbit_set_bit by lia.
    destruct (Z.eqb_spec (Z.of_nat (length l)) (Z.of_nat i)); [lia|apply orb_false_r].
  - rewrite lookup_app_r by lia. rewrite lookup_ge_None_2 in IH by lia.
    destruct (p x) eqn:Ep; [rewrite testbit_set_bit by lia|]; rewrite IH;
      (destruct (decide (i = length l)) as [->|];
        [rewrite Nat.sub_diag; cbn; rewrite ?Z.eqb_refl, ?Ep; reflexivity|
         rewrite lookup_ge_None_2 by (cbn; lia)]); cbn;
      try destruct (Z.eqb_spec (Z.of_nat (length l)) (Z.of_nat i)); reflexivity || lia.
Qed.

(** ** The shape check is exactly [roster_ok] plus masks and root *)
Section ShapeFacts.
Context {KK : Keccak}.

Definition shape_result (l : list MemberSlotWitnessV4) : Z * Z * gset Z :=
  (mask is_active l, mask is_used l, list_to_set (occupants_of l)).

Lemma occupants_snoc l x :
  occupants_of (l ++ [x]) = occupants_of l ++ (if is_used x then [msl_account x] else []).
Proof.
  unfold occupants_of. rewrite filter_app, map_app. f_equal.
  cbn. destruct (is_used x); reflexivity.
Qed.

Lemma shape_result_snoc l x :
  shape_result (l ++ [x]) =
  (if is_active x then set_bit (mask is_active l) (zlen l) else mask is_active l,
   if is_used x then set_bit (mask is_used l) (zlen l) else mask is_used l,
   if is_used x then {[msl_account x]} ∪ list_to_set (occupants_of l)
   else list_to_set (occupants_of l)).
Proof.
  unfold shape_result. rewrite !mask_snoc, occupants_snoc. f_equal.
  destruct (is_used x); [set_solver|]. rewrite app_nil_r. reflexivity.
Qed.

Definition fresh_for (P : MemberSlotWitnessV4 -> bool) (l : list MemberSlotWitnessV4)
    (x : MemberSlotWitnessV4) : Prop :=
  P x = true -> msl_account x ∉ map msl_account (filter P l).
Abbreviation fresh_occupant := (fresh_for is_used).

Ltac refute_slot :=
  intros [(_ & Hw & _) _];
  destruct Hw as [(? & ? & ? & ?)|[(? & ? & ?)|(? & ? & ? & ? & ?)]]; first [congruence | simplify_eq; lia].

Lemma roster_shape_step l x r :
  roster_shape_slot (shape_result l) (zlen l, x) = Ok r <->
  (msl_slot x = zlen l /\ slot_wf x /\ fresh_occupant l x) /\ r = shape_result (l ++ [x]).
Proof.
  rewrite shape_result_snoc.
  unfold roster_shape_slot, shape_result, slot_wf, fresh_for, occupants_of, is_active, is_used,
    MEMBER_UNUSED, MEMBER_ACTIVE, MEMBER_RETIRED, Address_ZERO.
  rewrite !bool_decide_is_Some.
  destruct (Z.eqb_spec (msl_slot x) (zlen l)) as [Hs|Hs]; cbn [negb];
    [|split; [discriminate|tauto]].
  destruct (Z.eqb_spec (msl_state x) 0) as [H0|H0]; cbn [negb].
  { rewrite H0. cbn.
    destruct (Z.eqb_spec (msl_account x) 0), (Z.eqb_spec (msl_joined_at_batch x) 0),
      (msl_retired_at_batch x) eqn:Er; cbn;
      try (split; [discriminate|]; refute_slot).
    split; [intros H; injection H as <-; naive_solver|]. intros [_ ->]. reflexivity. }
  destruct (Z.eqb_spec (msl_state x) 1) as [H1|H1]; cbn [negb].
  { destruct (Z.eqb_spec (msl_account x) 0), (msl_retired_at_batch x) eqn:Er; cbn [orb];
      try (split; [discriminate|]; refute_slot).
    case_bool_decide as Ho; rewrite elem_of_list_to_set in Ho.
    - split; [discriminate|]. intros [(_ & _ & Hf) _]. destruct Hf; auto.
    - split; [intros H; injection H as <-; naive_solver|]. intros [_ ->]. reflexivity. }
  destruct (Z.eqb_spec (msl_state x) 2) as [H2|H2];
    [|split; [discriminate|]; refute_slot].
  destruct (msl_retired_at_batch x) as [t|] eqn:Er;
    [|split; [discriminate|]; refute_slot].
  destruct (Z.eqb_spec (msl_account x) 0); cbn [orb];
    [split; [discriminate|]; refute_slot|].
  destruct (Z.ltb_spec t (msl_joined_at_batch x));
    [split; [discriminate|]; refute_slot|].
  case_bool_decide as Ho; rewrite elem_of_list_to_set in Ho.
  - split; [discriminate|]. intros [(_ & _ & Hf) _]. destruct Hf; auto.
  - split; [intros E; injection E as <-|intros [_ ->]; reflexivity].
    split; [|reflexivity]. split_and!; auto. right. right. eauto.
Qed.

(** In order, every slot well formed, no account twice among the slots [P] selects. *)
Definition shape_for (P : MemberSlotWitnessV4 -> bool) (l : list MemberSlotWitnessV4) : Prop :=
  (forall i s, l !! i = Some s -> msl_slot s = Z.of_nat i) /\
  Forall slot_wf l /\ NoDup (map msl_account (filter P l)).
Abbreviation shape_ok := (shape_for is_used).

Lemma shape_for_snoc P l x :
  shape_for P (l ++ [x]) <->
  shape_for P l /\ msl_slot x = zlen l /\ slot_wf x /\ fresh_for P l x.
Proof.
  unfold shape_for, fresh_for. rewrite filter_app, map_app, Forall_app, Forall_singleton.
  assert (Hi : (forall i s, (l ++ [x]) !! i = Some s -> msl_slot s = Z.of_nat i)
          <-> (forall i s, l !! i = Some s -> msl_slot s = Z.of_nat i) /\ msl_slot x = zlen l).
  { split.
    - intros H. split; [intros i s Hs; apply H, lookup_app_l_Some, Hs|].
      apply H. rewrite lookup_app_r, Nat.sub_diag by lia. reflexivity.
    - intros [H Hx] i s Hs. apply lookup_app_Some in Hs as [Hs|[Hge Hs]]; [auto|].
      destruct (i - length l)%nat eqn:E; [|destruct n; discriminate]. cbn in Hs.
      injection Hs as ->. rewrite Hx. unfold zlen. lia. }
  rewrite Hi, NoDup_app. cbn [filter list_filter]. destruct (decide (P x)) as [Hp|Hp]; cbn [map].
  - apply Is_true_eq_true in Hp. split.
    + intros ((? & ?) & (? & ?) & ? & Hd & ?). split_and!; auto. intros _ Hin.
      apply (Hd _ Hin). left.
    + intros ((? & ? & ?) & ? & ? & Hf). split_and!; auto; [|apply NoDup_singleton].
      intros y Hy ->%list_elem_of_singleton. apply Hf; auto.
  - split.
    + intros ((? & ?) & (? & ?) & ? & Hd & ?). split_and!; auto.
    + intros ((? & ? & ?) & ? & ? & Hf). split_and!; auto using NoDup_nil_2.
      intros y _ Hin. inversion Hin.
Qed.

Lemma roster_shape_loop l r :
  for_each roster_shape_slot (0, 0, ∅) (enumerate l) = Ok r
  <-> shape_ok l /\ r = shape_result l.
Proof.
  revert r. induction l as [|x l IH] using rev_ind; intros r.
  { cbn. split; [intros H; injection H as <-|intros [_ ->]; reflexivity].
    repeat split; try constructor. intros i s H. rewrite lookup_nil in H. discriminate. }
  rewrite enumerate_snoc, for_each_app, shape_for_snoc.
  destruct (for_each roster_shape_slot (0, 0, ∅) (enumerate l)) as [s|e] eqn:E.
  - destruct (proj1 (IH s) eq_refl) as [Hok ->]. cbn [rbind for_each].
    transitivity (roster_shape_slot (shape_result l) (zlen l, x) = Ok r);
      [destruct (roster_shape_slot _ _); reflexivity|].
    rewrite roster_shape_step. tauto.
  - cbn. split; [discriminate|]. intros [[Hok _] _]. 
    specialize (IH (shape_result l)). destruct IH as [_ IH].
    specialize (IH (conj Hok eq_refl)). discriminate.
Qed.

Lemma roster_ok_shape l : roster_ok l <-> length l = 7%nat /\ shape_ok l.
Proof. split; [intros []; unfold shape_for; auto|intros (? & ? & ? & ?); split; auto]. Qed.

Lemma validate_roster_shape_spec slots root am um :
  validate_roster_shape slots root am um = Ok tt <->
  roster_ok slots /\ am = mask is_active slots /\ um = mask is_used slots
  /\ member_roster_root_v4 slots = Some root.
Proof.
  rewrite roster_ok_shape. unfold validate_roster_shape, zlen, MAX_MEMBERS.
  destruct (Z.eqb_spec (Z.of_nat (length slots)) 7) as [Hl|Hl]; cbn [negb];
    [|split; [discriminate|intros [[] _]; lia]].
  destruct (for_each _ _ _) as [r|e] eqn:E.
  - apply roster_shape_loop in E as [Hok ->]. cbn [rbind shape_result].
    destruct (Z.eqb_spec (mask is_active slots) am), (Z.eqb_spec (mask is_used slots) um);
      cbn; try (split; [discriminate|]; intros (_ & ? & ? & _); congruence).
    case_bool_decide as Hr; cbn.
    + split; [intros _|reflexivity]. split_and!; auto. lia.
    + split; [discriminate|]. intros (_ & _ & _ & ?). contradiction.
  - cbn. split; [discriminate|]. intros [[_ Hok] _].
    destruct (roster_shape_loop slots (shape_result slots)) as [_ H].
    specialize (H (conj Hok eq_refl)). congruence.
Qed.
End ShapeFacts.

(** * The membership state machine *)
Section Transition.
Context {KK : Keccak}.

(** One slot across one batch: kept, activated or retired. *)
Inductive slot_step (batch_index : Z) (previous next : MemberSlotWitnessV4)
  : option MembershipDeltaWitnessV4 -> Prop :=
| step_keep : previous = next -> slot_step batch_index previous next None
| step_activate delta :
    mdl_action delta = MEMBER_ACTIVATE ->
    msl_state previous = MEMBER_UNUSED -> msl_state next = MEMBER_ACTIVE ->
    msl_account next = mdl_member delta -> msl_joined_at_batch next = batch_index ->
    msl_retired_at_batch next = None -> mdl_member delta <> Address_ZERO ->
    mdl_join_request_index delta <> 0 -> mdl_acceptance_expiry delta <> 0 ->
    slot_step batch_index previous next (Some delta)
| step_retire delta :
    mdl_action delta = MEMBER_RETIRE ->
    msl_state previous = MEMBER_ACTIVE -> msl_state next = MEMBER_RETIRED ->
    msl_account next = msl_account previous -> mdl_member delta = msl_account previous ->
    msl_joined_at_batch next = msl_joined_at_batch previous ->
    msl_retired_at_batch next = Some batch_index ->
    mdl_join_request_index delta = 0 -> mdl_acceptance_expiry delta = 0 ->
    slot_step batch_index previous next (Some delta).

Lemma malformed_activation_spec b p n d :
  malformed_activation b p n d = false <->
  msl_state p = MEMBER_UNUSED /\ msl_state n = MEMBER_ACTIVE /\
  msl_account n = mdl_member d /\ msl_joined_at_batch n = b /\
  msl_retired_at_batch n = None /\ mdl_member d <> Address_ZERO /\
  mdl_join_request_index d <> 0 /\ mdl_acceptance_expiry d <> 0.
Proof.
  unfold malformed_activation. rewrite bool_decide_is_Some.
  split.
  - intros H. bool_to_prop. destruct (msl_retired_at_batch n); [discriminate|]. auto 10.
  - intros (-> & -> & -> & -> & -> & H1 & H2 & H3).
    rewrite !Z.eqb_refl. apply Z.eqb_neq in H1, H2, H3. rewrite H1, H2, H3. reflexivity.
Qed.

Lemma malformed_retirement_spec b p n d :
  malformed_retirement b p n d = false <->
  msl_state p = MEMBER_ACTIVE /\ msl_state n = MEMBER_RETIRED /\
  msl_account n = msl_account p /\ mdl_member d = msl_account p /\
  msl_joined_at_batch n = msl_joined_at_batch p /\
  msl_retired_at_batch n = Some b /\
  mdl_join_request_index d = 0 /\ mdl_acceptance_expiry d = 0.
Proof.
  unfold malformed_retirement. split.
  - intros H. bool_to_prop. auto 10.
  - intros (-> & -> & -> & -> & -> & -> & -> & ->).
    rewrite !Z.eqb_refl, bool_decide_eq_true_2 by reflexivity. reflexivity.
Qed.

Lemma slot_transition_spec b before after by_slot i p n :
  znth before i = Some p -> znth after i = Some n ->
  slot_transition b before after by_slot tt i = Ok tt <-> slot_step b p n (by_slot !! i).
Proof.
  intros Hp Hn. unfold slot_transition. rewrite Hp, Hn.
  destruct (by_slot !! i) as [d|].
  - destruct (Z.eqb_spec (mdl_action d) MEMBER_ACTIVATE) as [Ha|Ha].
    { pose proof (malformed_activation_spec b p n d) as M.
      destruct (malformed_activation b p n d).
      - split; [discriminate|]. intros Hs. inversion Hs; subst.
        + destruct M as [_ M]. discriminate M. auto 10.
        + rewrite Ha in *. discriminate.
      - split; [|reflexivity]. intros _.
        destruct (proj1 M eq_refl) as (?&?&?&?&?&?&?&?). apply step_activate; auto. }
    destruct (Z.eqb_spec (mdl_action d) MEMBER_RETIRE) as [Hr|Hr].
    { pose proof (malformed_retirement_spec b p n d) as M.
      destruct (malformed_retirement b p n d).
      - split; [discriminate|]. intros Hs. inversion Hs; subst; [contradiction|].
        destruct M as [_ M]. discriminate M. auto 10.
      - split; [|reflexivity]. intros _.
        destruct (proj1 M eq_refl) as (?&?&?&?&?&?&?&?). apply step_retire; auto. }
    split; [discriminate|]. intros Hs. inversion Hs; subst; contradiction.
  - case_bool_decide as E; cbn.
    + split; [intros _; apply step_keep, E|reflexivity].
    + split; [discriminate|]. intros Hs. inversion Hs. contradiction.
Qed.

(** The deltas as a map from slots. *)
Definition delta_at (deltas : list MembershipDeltaWitnessV4) (i : Z)
  : option MembershipDeltaWitnessV4 :=
  foldr (fun d found => if mdl_slot d =? i then Some d else found) None deltas.

Definition deltas_ok (deltas : list MembershipDeltaWitnessV4) : Prop :=
  key_sorted mdl_slot deltas /\ Forall (fun d => mdl_slot d < MAX_MEMBERS) deltas.

Lemma delta_at_snoc l d i :
  delta_at (l ++ [d]) i =
  match delta_at l i with Some x => Some x
  | None => if decide (mdl_slot d = i) then Some d else None end.
Proof.
  unfold delta_at. induction l as [|x l IH]; cbn.
  - destruct (Z.eqb_spec (mdl_slot d) i); case_decide; congruence.
  - destruct (mdl_slot x =? i); [reflexivity|exact IH].
Qed.

Lemma delta_at_Some l i d : delta_at l i = Some d -> d ∈ l /\ mdl_slot d = i.
Proof.
  unfold delta_at. induction l as [|x l IH]; cbn; [discriminate|].
  destruct (Z.eqb_spec (mdl_slot x) i) as [Hx|Hx].
  - intros H. injection H as <-. split; [left|exact Hx].
  - intros H. destruct (IH H). split; [right|]; assumption.
Qed.

Definition deltas_indexed (l : list MembershipDeltaWitnessV4)
    (s : gmap Z MembershipDeltaWitnessV4 * option Z) : Prop :=
  deltas_ok l /\ (forall i, s.1 !! i = delta_at l i) /\ s.2 = (mdl_slot <$> last l).

Lemma index_deltas_sound l s :
  for_each index_delta (∅, None) l = Ok s -> deltas_indexed l s.
Proof.
  intros E. refine (for_each_inv deltas_indexed _ _ _ _ _ _ E).
  { split_and!; [split; constructor|intros i; apply lookup_empty|reflexivity]. }
  intros done x [m p] s2 ((Hs & Hr) & Hm & Hp) _ Hb. cbn in Hm, Hp.
  unfold index_delta in Hb. inv_ok. bool_to_prop. rewrite Hm in *.
  assert (Hn : delta_at done (mdl_slot x) = None).
  { destruct (delta_at done (mdl_slot x)); [|reflexivity].
    match goal with H : ~ is_Some _ |- _ => destruct H; eauto end. }
  split_and!; cbn.
  - split; [eapply key_sorted_snoc; eauto|]. apply Forall_app. split; [exact Hr|].
    constructor; [assumption|constructor].
  - intros i. rewrite delta_at_snoc. destruct (decide (mdl_slot x = i)) as [<-|Hne].
    + rewrite lookup_insert_eq, Hn. reflexivity.
    + rewrite lookup_insert_ne, Hm by exact Hne. destruct (delta_at done i); reflexivity.
  - rewrite last_snoc. reflexivity.
Qed.

Lemma index_deltas_complete l :
  deltas_ok l -> exists s, for_each index_delta (∅, None) l = Ok s.
Proof.
  induction l as [|x l IH] using rev_ind; intros [Hs Hr]; [cbn; eauto|].
  apply Forall_app in Hr as [Hr Hx]. inversion Hx; subst.
  destruct IH as [[m p] E]; [split; [eapply key_sorted_app_l; eauto|exact Hr]|].
  pose proof (index_deltas_sound _ _ E) as (_ & Hm & Hp). cbn in Hm, Hp.
  rewrite for_each_app, E. cbn [rbind for_each]. unfold index_delta.
  assert (Hlt : forall y, y ∈ l -> mdl_slot y < mdl_slot x)
    by (intros y Hy; eapply (key_sorted_last mdl_slot); eauto).
  replace (MAX_MEMBERS <=? mdl_slot x) with false by (symmetry; apply Z.leb_gt; assumption).
  replace (not_after p (mdl_slot x)) with false.
  2: { subst p. destruct (last l) as [y|] eqn:El; [|reflexivity]. cbn. symmetry.
       apply Z.leb_gt, Hlt. apply last_Some in El as [l' ->]. apply elem_of_app. right. left. }
  rewrite bool_decide_is_Some, Hm.
  destruct (delta_at l (mdl_slot x)) as [d|] eqn:Ed; [|cbn; eauto].
  apply delta_at_Some in Ed as [Hd Hk]. specialize (Hlt d Hd). lia.
Qed.

(** What an accepted transition is. *)
Record transition_ok (batch_index : Z) (before after : list MemberSlotWitnessV4)
    (deltas : list MembershipDeltaWitnessV4) (pre_root post_root pre_active pre_used
     post_active post_used : Z) : Prop := {
  tro_batch : batch_index <> 0;
  tro_before : roster_ok before;
  tro_after : roster_ok after;
  tro_pre_active : pre_active = mask is_active before;
  tro_pre_used : pre_used = mask is_used before;
  tro_post_active : post_active = mask is_active after;
  tro_post_used : post_used = mask is_used after;
  tro_pre_root : member_roster_root_v4 before = Some pre_root;
  tro_post_root : member_roster_root_v4 after = Some post_root;
  tro_deltas : deltas_ok deltas /\ zlen deltas <= MAX_MEMBERS;
  tro_slots : forall i p n, before !! i = Some p -> after !! i = Some n ->
    slot_step batch_index p n (delta_at deltas (Z.of_nat i))
}.

Lemma slots_step_spec b before after (by_slot : gmap Z MembershipDeltaWitnessV4) deltas :
  length before = 7%nat -> length after = 7%nat ->
  (forall i, by_slot !! i = delta_at deltas i) ->
  for_each (slot_transition b before after by_slot) tt slot_indices = Ok tt <->
  (forall i p n, before !! i = Some p -> after !! i = Some n ->
     slot_step b p n (delta_at deltas (Z.of_nat i))).
Proof.
  intros Hb Ha Hd. rewrite for_each_check. split.
  - intros H i p n Hp Hn. rewrite <- Hd.
    assert (Hi : (i < 7)%nat) by (rewrite <- Hb; eapply lookup_lt_Some, Hp).
    apply (slot_transition_spec b before after).
    + unfold znth. destruct (Z.ltb_spec (Z.of_nat i) 0); [lia|]. rewrite Nat2Z.id. exact Hp.
    + unfold znth. destruct (Z.ltb_spec (Z.of_nat i) 0); [lia|]. rewrite Nat2Z.id. exact Hn.
    + apply H. apply list_elem_of_In. unfold slot_indices. cbn [In]. lia.
  - intros H i Hi.
    assert (Hr : 0 <= i < 7).
    { unfold slot_indices in Hi. repeat (apply elem_of_cons in Hi as [->|Hi]; [lia|]).
      inversion Hi. }
    destruct (lookup_lt_is_Some_2 before (Z.to_nat i)) as [p Hp]; [lia|].
    destruct (lookup_lt_is_Some_2 after (Z.to_nat i)) as [n Hn]; [lia|].
    apply (slot_transition_spec b before after by_slot i p n).
    + unfold znth. destruct (Z.ltb_spec i 0); [lia|exact Hp].
    + unfold znth. destruct (Z.ltb_spec i 0); [lia|exact Hn].
    + rewrite Hd. specialize (H _ _ _ Hp Hn). rewrite Z2Nat.id in H by lia. exact H.
Qed.

Lemma transition_exact_lemma b before after deltas r1 r2 a1 u1 a2 u2 h :
  validate_membership_transition_v4 b before after deltas r1 r2 a1 u1 a2 u2 = Ok h <->
  transition_ok b before after deltas r1 r2 a1 u1 a2 u2 /\
  h = hash_membership_deltas_v4 deltas.
Proof.
  unfold validate_membership_transition_v4.
  pose proof (validate_roster_shape_spec before r1 a1 u1) as S1.
  pose proof (validate_roster_shape_spec after r2 a2 u2) as S2.
  destruct (Z.eqb_spec b 0) as [Hb|Hb];
    [split; [discriminate|intros [[] _]; contradiction]|].
  destruct (validate_roster_shape before _ _ _) as [[]|]; cbn [rbind];
    [|split; [discriminate|]; intros [[] _]; destruct S1 as [_ S1]; discriminate S1; auto].
  destruct (validate_roster_shape after _ _ _) as [[]|]; cbn [rbind];
    [|split; [discriminate|]; intros [[] _]; destruct S2 as [_ S2]; discriminate S2; auto].
  destruct (proj1 S1 eq_refl) as (O1 & -> & -> & R1).
  destruct (proj1 S2 eq_refl) as (O2 & -> & -> & R2).
  destruct (Z.ltb_spec MAX_MEMBERS (zlen deltas)) as [Hl|Hl];
    [split; [discriminate|]; intros [[] _]; lia|].
  destruct (for_each index_delta _ _) as [[m p]|] eqn:Ei; cbn [rbind].
  2: { split; [discriminate|]. intros [[] _]. destruct tro_deltas0 as [Hd _].
       apply index_deltas_complete in Hd as [s Hd]. congruence. }
  apply index_deltas_sound in Ei as (Hd & Hm & _). cbn in Hm.
  pose proof (slots_step_spec b before after m deltas (ro_length _ O1) (ro_length _ O2) Hm) as SS.
  destruct (for_each (slot_transition _ _ _ _) _ _) as [[]|]; cbn [rbind].
  - split.
    + intros H. injection H as <-. split; [|reflexivity]. split; auto. apply SS. reflexivity.
    + intros [_ ->]. reflexivity.
  - split; [discriminate|]. intros [[] _]. destruct SS as [_ SS]. discriminate SS. auto.
Qed.
End Transition.

(** ** Histories of accepted batches *)
Section History.
Context {KK : Keccak} {KR : KeccakRange}.

(** Rosters reachable through accepted transitions, whatever the batches. *)
Inductive roster_history : list MemberSlotWitnessV4 -> list MemberSlotWitnessV4 -> Prop :=
| history_start l : roster_ok l -> roster_history l l
| history_batch l m n b deltas r1 r2 a1 u1 a2 u2 h :
    roster_history l m ->
    validate_membership_transition_v4 b m n deltas r1 r2 a1 u1 a2 u2 = Ok h ->
    roster_history l n.

(** What one slot may become over any number of batches. *)
Definition slot_evolves (s t : MemberSlotWitnessV4) : Prop :=
  0 <= msl_state s <= msl_state t /\
  (is_used s = true -> msl_account t = msl_account s /\
                       msl_joined_at_batch t = msl_joined_at_batch s) /\
  (msl_state s = MEMBER_RETIRED -> t = s).

Lemma slot_evolves_trans s t u : slot_evolves s t -> slot_evolves t u -> slot_evolves s u.
Proof.
  unfold slot_evolves, is_used, MEMBER_UNUSED, MEMBER_RETIRED.
  intros (H1 & H2 & H3) (K1 & K2 & K3). split_and!.
  - lia.
  - lia.
  - intros Hu. destruct (H2 Hu) as [Ha Hj]. bool_to_prop.
    destruct K2 as [Ka Kj]; [apply negb_true_iff, Z.eqb_neq; lia|]. split; congruence.
  - intros E. rewrite (H3 E) in *. auto.
Qed.

Lemma slot_step_evolves b p n d :
  slot_wf p -> slot_step b p n d -> slot_evolves p n.
Proof.
  unfold slot_evolves, is_used. intros Hw Hs.
  assert (0 <= msl_state p).
  { unfold slot_wf, MEMBER_UNUSED, MEMBER_ACTIVE, MEMBER_RETIRED in Hw. lia. }
  destruct Hs as [->|d Ha Hp Hn|d Ha Hp Hn].
  - split_and!; auto; lia.
  - rewrite Hp, Hn. unfold MEMBER_UNUSED, MEMBER_ACTIVE, MEMBER_RETIRED in *. cbn.
    split_and!; [lia|lia|discriminate|discriminate].
  - rewrite Hp, Hn. unfold MEMBER_UNUSED, MEMBER_ACTIVE, MEMBER_RETIRED in *. cbn.
    split_and!; [lia|lia|auto|discriminate].
Qed.

Lemma history_ok l n : roster_history l n -> roster_ok l /\ roster_ok n.
Proof.
  induction 1 as [l Hl|l m n b deltas r1 r2 a1 u1 a2 u2 h Hh [IH1 IH2] Hv]; [auto|].
  apply transition_exact_lemma in Hv as [[] _]. auto.
Qed.

Lemma roster_lookup l i : roster_ok l -> (i < 7)%nat -> exists s, l !! i = Some s.
Proof. intros [Hl _ _ _] Hi. apply lookup_lt_is_Some_2. lia. Qed.

Lemma history_evolves l n :
  roster_history l n -> forall i s t, l !! i = Some s -> n !! i = Some t -> slot_evolves s t.
Proof.
  induction 1 as [l Hl|l m n b deltas r1 r2 a1 u1 a2 u2 h Hh IH Hv]; intros i s t Hs Ht.
  - rewrite Hs in Ht. injection Ht as <-. apply (slot_step_evolves 0 s s None);
      [|constructor; reflexivity].
    destruct Hl as [_ _ Hw _]. rewrite Forall_forall in Hw.
    apply Hw. eapply list_elem_of_lookup_2, Hs.
  - apply transition_exact_lemma in Hv as [T _]. destruct T.
    destruct (roster_lookup m i tro_before0) as [q Hq].
    { rewrite <- (ro_length _ tro_after0). eapply lookup_lt_Some, Ht. }
    eapply slot_evolves_trans; [apply (IH i s q); assumption|].
    eapply slot_step_evolves; [|apply (tro_slots0 i q t); assumption].
    destruct tro_before0 as [_ _ Hw _]. rewrite Forall_forall in Hw.
    apply Hw. eapply list_elem_of_lookup_2, Hq.
Qed.

(** Positions of the occupants. *)
Lemma occupant_position l i j s t :
  roster_ok l -> l !! i = Some s -> l !! j = Some t ->
  is_used s = true -> is_used t = true -> msl_account s = msl_account t -> i = j.
Proof.
  intros [_ _ _ Hn]. revert i j.
  unfold occupants_of in Hn. induction l as [|x l IH]; intros i j Hi Hj Us Ut Ha.
  { rewrite lookup_nil in Hi. discriminate. }
  assert (Hin : forall k y, l !! k = Some y -> is_used y = true ->
            msl_account y ∈ map msl_account (filter is_used l)).
  { intros k y Hk Uy. apply list_elem_of_fmap. exists y. split; [reflexivity|].
    apply list_elem_of_filter. split; [rewrite Uy; exact I|].
    eapply list_elem_of_lookup_2, Hk. }
  rewrite filter_cons in Hn.
  destruct i as [|i], j as [|j]; cbn in Hi, Hj; [reflexivity| | |].
  - injection Hi as ->. rewrite decide_True in Hn by (rewrite Us; exact I).
    inversion Hn as [|? ? Hx _]; subst. destruct Hx. rewrite Ha. eauto.
  - injection Hj as ->. rewrite decide_True in Hn by (rewrite Ut; exact I).
    inversion Hn as [|? ? Hx _]; subst. destruct Hx. rewrite <- Ha. eauto.
  - f_equal. apply IH; auto. case_decide; [inversion Hn|]; assumption.
Qed.

(** ** The root determines a valid roster *)
Lemma slot_wf_retired s t :
  slot_wf s -> slot_wf t -> msl_slot s = msl_slot t -> msl_state s = msl_state t ->
  msl_account s = msl_account t -> msl_joined_at_batch s = msl_joined_at_batch t ->
  default 0 (msl_retired_at_batch s) = default 0 (msl_retired_at_batch t) -> s = t.
Proof.
  destruct s as [i1 s1 a1 j1 q1], t as [i2 s2 a2 j2 q2]. unfold slot_wf. cbn.
  unfold MEMBER_UNUSED, MEMBER_ACTIVE, MEMBER_RETIRED.
  intros Hs Ht -> -> -> -> Hr. f_equal.
  destruct Hs as [(? & ? & ? & ->)|[(? & ? & ->)|(? & ? & r & -> & ?)]];
    destruct Ht as [(? & ? & ? & ->)|[(? & ? & ->)|(? & ? & r' & -> & ?)]];
    try reflexivity; try lia; cbn in Hr; congruence.
Qed.

Lemma indexed_sorted l :
  (forall i s, l !! i = Some s -> msl_slot s = Z.of_nat i) -> key_sorted msl_slot l.
Proof.
  assert (G : forall l k, (forall i s, l !! i = Some s -> msl_slot s = k + Z.of_nat i) ->
              key_sorted msl_slot l /\ Forall (fun s => k <= msl_slot s) l).
  { clear l. induction l as [|x l IH]; intros k Hi; [split; constructor|].
    destruct (IH (k + 1)) as [Hs Hf].
    { intros i s Hs. rewrite (Hi (S i) s Hs). lia. }
    assert (Hx : msl_slot x = k) by (rewrite (Hi 0%nat x eq_refl); lia).
    split; constructor; auto; try lia.
    - eapply Forall_impl; [exact Hf|]. cbn. intros; lia.
    - eapply Forall_impl; [exact Hf|]. cbn. intros; lia. }
  intros Hi. apply (G l 0). intros i s Hs. rewrite (Hi i s Hs). lia.
Qed.

Lemma roster_ok_sorted l : roster_ok l -> key_sorted msl_slot l.
Proof. intros [_ Hi _ _]. apply indexed_sorted, Hi. Qed.

Lemma roster_leaf_incl l1 l2 :
  Forall slot_wf l1 -> Forall slot_wf l2 ->
  Forall MemberSlotWitnessV4_wf l1 -> Forall MemberSlotWitnessV4_wf l2 ->
  (forall p, p ∈ roster_leaf_preimages_v4 l1 -> p ∈ roster_leaf_preimages_v4 l2) ->
  forall s, s ∈ l1 -> s ∈ l2.
Proof.
  intros V1 V2 W1 W2 H s Hs. rewrite Forall_forall in V1, V2, W1, W2.
  specialize (H (concat (member_slot_words_v4 s))).
  unfold roster_leaf_preimages_v4 in H. change (map ?f ?l) with (f <$> l) in H.
  rewrite !list_elem_of_fmap in H. destruct H as (t & Ht & Hin); [eauto|].
  apply member_slot_words_inj in Ht as (?&?&?&?&?); auto.
  rewrite (slot_wf_retired s t); auto.
Qed.

(** Distinct occupants are not needed: the leaves carry the slot number. *)
Lemma shaped_root_determines P1 P2 l1 l2 root :
  shape_for P1 l1 -> shape_for P2 l2 ->
  Forall MemberSlotWitnessV4_wf l1 -> Forall MemberSlotWitnessV4_wf l2 ->
  no_collision (roster_root_preimages l1 l2) ->
  member_roster_root_v4 l1 = Some root -> member_roster_root_v4 l2 = Some root -> l1 = l2.
Proof.
  intros (I1 & S1 & _) (I2 & S2 & _) W1 W2 Hn H1 H2.
  pose proof (roster_root_binds l1 l2 root Hn H1 H2) as G.
  apply (key_sorted_ext msl_slot); auto using indexed_sorted.
  intros s. split; apply roster_leaf_incl; auto; intros p; apply G.
Qed.

Lemma roster_root_determines l1 l2 root :
  roster_ok l1 -> roster_ok l2 ->
  Forall MemberSlotWitnessV4_wf l1 -> Forall MemberSlotWitnessV4_wf l2 ->
  no_collision (roster_root_preimages l1 l2) ->
  member_roster_root_v4 l1 = Some root -> member_roster_root_v4 l2 = Some root -> l1 = l2.
Proof.
  intros [_ O1]%roster_ok_shape [_ O2]%roster_ok_shape. apply (shaped_root_determines _ _ _ _ _ O1 O2).
Qed.
End History.

(** ** The policy's roster check agrees *)
Section Verify.
Context {KK : Keccak}.

Definition active_set (l : list MemberSlotWitnessV4) : gset Z :=
  list_to_set (map msl_account (filter is_active l)).

Lemma active_set_snoc l x :
  active_set (l ++ [x]) = if is_active x then {[msl_account x]} ∪ active_set l else active_set l.
Proof.
  unfold active_set. rewrite filter_app, map_app. cbn.
  destruct (is_active x); cbn; [set_solver|]. rewrite app_nil_r. reflexivity.
Qed.

Lemma active_set_elem l a :
  a ∈ active_set l <-> exists s, s ∈ l /\ is_active s = true /\ msl_account s = a.
Proof.
  unfold active_set. rewrite elem_of_list_to_set, list_elem_of_fmap.
  setoid_rewrite list_elem_of_filter. split.
  - intros (s & -> & Hp & Hin). exists s. split_and!; [exact Hin| |reflexivity].
    apply Is_true_eq_true, Hp.
  - intros (s & Hin & Hp & <-). exists s. auto using Is_true_eq_left.
Qed.

Lemma active_NoDup l :
  NoDup (occupants_of l) -> NoDup (map msl_account (filter is_active l)).
Proof.
  unfold occupants_of. intros H. eapply sublist_NoDup; [exact H|]. clear H.
  induction l as [|x l IH]; [constructor|]. cbn [filter list_filter]. unfold is_active, is_used, MEMBER_ACTIVE, MEMBER_UNUSED in *.
  destruct (Z.eqb_spec (msl_state x) 1) as [->|]; cbn; [constructor; exact IH|].
  destruct (msl_state x =? 0); cbn; [exact IH|constructor; exact IH].
Qed.

Lemma verify_step l x r :
  verify_roster_slot (active_set l, mask is_active l, mask is_used l) (zlen l, x) = Ok r <->
  (msl_slot x = zlen l /\ slot_wf x /\ fresh_for is_active l x) /\
  r = (active_set (l ++ [x]), mask is_active (l ++ [x]), mask is_used (l ++ [x])).
Proof.
  rewrite active_set_snoc, !mask_snoc.
  unfold verify_roster_slot, slot_wf, fresh_for, active_set, is_active, is_used, MEMBER_UNUSED,
    MEMBER_ACTIVE, MEMBER_RETIRED, Address_ZERO.
  rewrite fail_if_Ok, negb_eqb_false, !bool_decide_is_Some.
  destruct (Z.eqb_spec (msl_state x) 0) as [H0|H0];
    [rewrite H0; cbn|destruct (Z.eqb_spec (msl_state x) 1) as [H1|H1];
      [rewrite H1; cbn|destruct (Z.eqb_spec (msl_state x) 2) as [H2|H2]; [rewrite H2; cbn|]]].
  - rewrite fail_if_Ok, Ok_Ok, !orb_false_iff, !negb_eqb_false.
    destruct (msl_retired_at_batch x); naive_solver.
  - rewrite !fail_if_Ok, Ok_Ok, orb_false_iff, bool_decide_eq_false, elem_of_list_to_set,
      Z.eqb_neq. destruct (msl_retired_at_batch x); naive_solver.
  - destruct (msl_retired_at_batch x) as [t|]; cbn [ok_or rbind]; [|naive_solver].
    rewrite fail_if_Ok, Ok_Ok, orb_false_iff, Z.eqb_neq, Z.ltb_ge. naive_solver.
  - naive_solver.
Qed.

Lemma verify_loop l r :
  for_each verify_roster_slot (∅, 0, 0) (enumerate l) = Ok r <->
  shape_for is_active l /\ r = (active_set l, mask is_active l, mask is_used l).
Proof.
  revert r. induction l as [|x l IH] using rev_ind; intros r.
  { cbn. split; [intros H; injection H as <-|intros [_ ->]; reflexivity].
    repeat split; try constructor. intros i s H. rewrite lookup_nil in H. discriminate. }
  rewrite enumerate_snoc, for_each_app, shape_for_snoc, rbind_Ok. split.
  - intros (s & Hs & H). apply IH in Hs as [Hok ->]. cbn [for_each] in H.
    apply rbind_Ok in H as (s & Hs & H). apply Ok_Ok in H as ->.
    apply verify_step in Hs. tauto.
  - intros ((Hok & Hx) & ->). eexists. split; [apply IH; auto|]. cbn [for_each].
    apply rbind_Ok. eexists. split; [apply verify_step; split; [exact Hx|reflexivity]|].
    reflexivity.
Qed.

Lemma verify_roster_spec slots root am um active :
  verify_roster slots root am um = Ok active <->
  length slots = 7%nat /\ shape_for is_active slots /\ am = mask is_active slots /\
  um = mask is_used slots /\ member_roster_root_v4 slots = Some root /\
  active = active_set slots.
Proof.
  unfold verify_roster. rewrite fail_if_Ok, negb_eqb_false, rbind_Ok. split.
  - intros (Hl & [[s m] u] & Hs & H). apply verify_loop in Hs as [Hok E]. injection E as -> -> ->.
    apply rbind_Ok in H as (r & Hr & H). apply ok_or_Ok in Hr.
    rewrite !fail_if_Ok, orb_false_iff, !negb_eqb_false, Ok_Ok in H.
    destruct H as (-> & [<- <-] & <-). unfold zlen in Hl. split_and!; auto. lia.
  - intros (Hl & Hok & -> & -> & Hr & ->). split; [unfold zlen; lia|].
    eexists. split; [apply verify_loop; auto|]. cbn. rewrite Hr. cbn.
    rewrite !Z.eqb_refl. reflexivity.
Qed.
End Verify.

Section Claims.
Context {KK : Keccak} {KR : KeccakRange}.

(** The membership transition is accepted exactly when both rosters are
    well-formed seven-slot rosters matching their masks and roots, the deltas are in
    strict slot order, and every slot is kept without a delta, activated from unused
    by an activation delta of this batch, or retired from active by a retirement
    delta of this batch; the result is the hash of the deltas. *)
Theorem membership_transition_exact b before after deltas r1 r2 a1 u1 a2 u2 h :
  validate_membership_transition_v4 b before after deltas r1 r2 a1 u1 a2 u2 = Ok h <->
  transition_ok b before after deltas r1 r2 a1 u1 a2 u2 /\
  h = hash_membership_deltas_v4 deltas.
Proof. apply transition_exact_lemma. Qed.

(** C25: over any sequence of accepted batches a member slot only moves unused ->
    active -> retired, keeps its account and join batch once used, and is frozen once
    retired; the used mask never loses a bit, and an account that ever retired cannot
    hold any other slot afterwards. *)
Theorem roster_lifecycle l n :
  roster_history l n ->
  (forall i s t, l !! i = Some s -> n !! i = Some t -> slot_evolves s t) /\
  (forall i, Z.testbit (mask is_used l) (Z.of_nat i) = true ->
             Z.testbit (mask is_used n) (Z.of_nat i) = true) /\
  (forall i j s t, l !! i = Some s -> msl_state s = MEMBER_RETIRED ->
     n !! j = Some t -> is_used t = true -> msl_account t = msl_account s ->
     j = i /\ t = s).
Proof.
  intros H. pose proof (history_evolves l n H) as He.
  destruct (history_ok l n H) as [Ol On].
  assert (L : forall i s, l !! i = Some s -> exists t, n !! i = Some t).
  { intros i s Hs. apply roster_lookup; [exact On|].
    rewrite <- (ro_length _ Ol). eapply lookup_lt_Some, Hs. }
  split_and!; [exact He| |].
  - intros i. rewrite !mask_testbit. destruct (l !! i) as [s|] eqn:Es; [|discriminate].
    destruct (L i s Es) as [t Et]. rewrite Et. intros Hu.
    destruct (He i s t Es Et) as (Hs & _). unfold is_used, MEMBER_UNUSED in *. bool_to_prop.
    apply negb_true_iff, Z.eqb_neq. lia.
  - intros i j s t Hs Hr Ht Hu Ha. destruct (L i s Hs) as [s' Hs'].
    destruct (He i s s' Hs Hs') as (_ & _ & Hf). rewrite (Hf Hr) in Hs'.
    assert (Us : is_used s = true).
    { unfold is_used. rewrite Hr. reflexivity. }
    assert (j = i) as -> by (eapply (occupant_position n); eauto).
    split; [reflexivity|]. congruence.
Qed.

(** The roster root authenticates the roster: two machine-typed, well-formed
    rosters with the same root are the same seven slots, so the roster a batch ends
    with is the only one the next batch can present for that root. *)
Theorem roster_root_v4_binding l1 l2 root :
  roster_ok l1 -> roster_ok l2 ->
  Forall MemberSlotWitnessV4_wf l1 -> Forall MemberSlotWitnessV4_wf l2 ->
  no_collision (roster_root_preimages l1 l2) ->
  member_roster_root_v4 l1 = Some root -> member_roster_root_v4 l2 = Some root -> l1 = l2.
Proof. apply roster_root_determines. Qed.

(** The policy's own roster check is the settlement's, but for retired members: a roster
    passes the settlement's shape check exactly when it passes [verify_roster] for the same
    root and masks and no account occupies two used slots, while [verify_roster] by itself
    only keeps the active accounts distinct; what it returns is the set of active accounts. *)
Theorem verify_roster_exact slots root am um :
  (validate_roster_shape slots root am um = Ok tt <->
   (exists active, verify_roster slots root am um = Ok active) /\ NoDup (occupants_of slots)) /\
  (forall active, verify_roster slots root am um = Ok active ->
     NoDup (map msl_account (filter is_active slots)) /\
     forall a, a ∈ active <-> exists s, s ∈ slots /\ is_active s = true /\ msl_account s = a).
Proof.
  split.
  - rewrite validate_roster_shape_spec, roster_ok_shape.
    setoid_rewrite verify_roster_spec. split.
    + intros ((Hl & H1 & H2 & H3) & -> & -> & Hr). split; [|exact H3]. eexists.
      split_and!; auto. unfold shape_for. split_and!; auto. apply active_NoDup, H3.
    + intros ((active & Hl & (H1 & H2 & _) & -> & -> & Hr & _) & H3). unfold shape_for.
      split_and!; auto.
  - intros active (Hl & (_ & _ & Hn) & _ & _ & _ & ->)%verify_roster_spec.
    split; [exact Hn|]. intros a. apply active_set_elem.
Qed.
End Claims.

(** ** Witnesses: slot 0 retires while slot 1 joins in batch 3 *)
#[local] Existing Instance toy_keccak.
Definition empty_slot (i : Z) : MemberSlotWitnessV4 := mk_MemberSlotWitnessV4 i 0 0 0 None.
Definition demo_before : list MemberSlotWitnessV4 :=
  mk_MemberSlotWitnessV4 0 1 501 0 None :: map empty_slot [1; 2; 3; 4; 5; 6].
Definition demo_after : list MemberSlotWitnessV4 :=
  mk_MemberSlotWitnessV4 0 2 501 0 (Some 3) :: mk_MemberSlotWitnessV4 1 1 502 3 None
  :: map empty_slot [2; 3; 4; 5; 6].
Definition demo_deltas : list MembershipDeltaWitnessV4 :=
  [mk_MembershipDeltaWitnessV4 2 0 501 0 0; mk_MembershipDeltaWitnessV4 1 1 502 9 99].
Definition demo_root (l : list MemberSlotWitnessV4) : Z := default 0 (member_roster_root_v4 l).

Lemma demo_transition :
  validate_membership_transition_v4 3 demo_before demo_after demo_deltas
    (demo_root demo_before) (demo_root demo_after) 1 1 2 3
  = Ok (hash_membership_deltas_v4 demo_deltas).
Proof. vm_compute. reflexivity. Qed.

Lemma membership_transition_exact_witness :
  transition_ok 3 demo_before demo_after demo_deltas
    (demo_root demo_before) (demo_root demo_after) 1 1 2 3.
Proof.
  apply (membership_transition_exact 3 demo_before demo_after demo_deltas
    (demo_root demo_before) (demo_root demo_after) 1 1 2 3
    (hash_membership_deltas_v4 demo_deltas)).
  vm_compute. reflexivity.
Defined.

Lemma demo_before_ok : roster_ok demo_before.
Proof.
  eapply (validate_roster_shape_spec demo_before (demo_root demo_before) 1 1).
  vm_compute. reflexivity.
Qed.

Lemma roster_lifecycle_witness :
  slot_evolves (mk_MemberSlotWitnessV4 0 1 501 0 None)
               (mk_MemberSlotWitnessV4 0 2 501 0 (Some 3)).
Proof.
  apply (roster_lifecycle demo_before demo_after) with (i := 0%nat); [|reflexivity..].
  eapply history_batch; [apply history_start, demo_before_ok|apply demo_transition].
Defined.

Lemma roster_root_v4_binding_witness : demo_before = demo_before.
Proof.
  apply (@roster_root_v4_binding toy_keccak toy_keccak_range demo_before demo_before
           (demo_root demo_before)).
  - apply demo_before_ok.
  - apply demo_before_ok.
  - unfold demo_before, MemberSlotWitnessV4_wf. cbn. solve_wf.
  - unfold demo_before, MemberSlotWitnessV4_wf. cbn. solve_wf.
  - apply no_collisionb_spec. vm_compute. reflexivity.
  - vm_compute. reflexivity.
  - vm_compute. reflexivity.
Defined.

Lemma verify_roster_exact_witness :
  exists active, verify_roster demo_before (demo_root demo_before) 1 1 = Ok active /\ 501 ∈ active.
Proof.
  destruct (verify_roster_exact demo_before (demo_root demo_before) 1 1) as [H1 H2].
  destruct H1 as [H1 _]. destruct H1 as [[active Ha] _]; [vm_compute; reflexivity|].
  exists active. split; [exact Ha|]. apply (H2 active Ha).
  exists (mk_MemberSlotWitnessV4 0 1 501 0 None). split_and!; [left|reflexivity|reflexivity].
Defined.
