(* ===== verification/PresetV4.v ===== *)
(** * The v4 preset: policy/from_input.rs and the JSON schema of policy/mod.rs

    The canonical preset JSON is authenticated against the registry hash, parsed
    section by section and checked against the room-local prestate.  serde_json
    and alloy's parsers are foreign and enter through [ExitProgramCodec] and
    [PresetCodec]; strings are their UTF-8 bytes. *)

From S2P Require Import Prelude Types Abi Merkle HashV5 HashV4 State StateEvm Policy Settlement RosterV4.
Open Scope Z_scope.

(** ** The schema *)
Record CodeJsonV4 := mk_CodeJsonV4 {
  coj_address : bytes;
  coj_runtime_code_hash : bytes
}.
Record CallRuleJsonV4 := mk_CallRuleJsonV4 {
  crj4_caller : bytes;
  crj4_target : bytes;
  crj4_selectors : list bytes;
  crj4_kinds : list bytes
}.
Record StorageNamespaceJsonV4 := mk_StorageNamespaceJsonV4 {
  snj_contract : bytes;
  snj_slot_prefix : bytes;
  snj_prefix_bits : Z;
  snj_writable : bool
}.
Record ApplicationDomainBindingJsonV4 := mk_ApplicationDomainBindingJsonV4 {
  adj_contract : bytes;
  adj_storage_slot : bytes;
  adj_domain_tag : bytes
}.
Record ActiveMemberArgumentRuleJsonV4 := mk_ActiveMemberArgumentRuleJsonV4 {
  amj_target : bytes;
  amj_selector : bytes;
  amj_argument_word_indices : list Z
}.
Record MembershipStateGuardJsonV4 := mk_MembershipStateGuardJsonV4 {
  mgj_contract : bytes;
  mgj_storage_slot : bytes;
  mgj_bit_offset : Z;
  mgj_bit_width : Z;
  mgj_allowed_values : list Z
}.
Record ResourceEnvelopeJsonV4 := mk_ResourceEnvelopeJsonV4 {
  rej_max_blocks_per_batch : Z;
  rej_max_transactions_per_block : Z;
  rej_max_gas_per_block : bytes;
  rej_max_witness_bytes : Z;
  rej_max_memory_pages : Z;
  rej_max_touched_accounts : Z;
  rej_max_touched_storage_slots : Z
}.
Record PresetJsonV4 := mk_PresetJsonV4 {
  psj_version : Z;
  psj_execution_level : bytes;
  psj_fork : bytes;
  psj_code : list CodeJsonV4;
  psj_call_rules : list CallRuleJsonV4;
  psj_storage_namespaces : list StorageNamespaceJsonV4;
  psj_application_domain_bindings : list ApplicationDomainBindingJsonV4;
  psj_active_member_argument_rules : list ActiveMemberArgumentRuleJsonV4;
  psj_membership_state_guards : list MembershipStateGuardJsonV4;
  psj_resources : ResourceEnvelopeJsonV4;
  psj_allow_contract_creation : bool;
  psj_allow_self_destruct : bool;
  psj_exit_program_id : bytes;
  psj_asset_ids : list Z
}.

(** serde's derived [Deserialize] of the schema and [str::parse::<B256>]. *)
Class PresetCodec {EC : ExitProgramCodec} := {
  preset_from_value : JsonValue -> option PresetJsonV4;
  b256_from_str : bytes -> option Z
}.

(** ** Integers out of text: the standard library's [from_str_radix] *)

Definition digit_value (radix b : Z) : option Z :=
  let d := if (48 <=? b) && (b <=? 57) then b - 48
           else if (97 <=? b) && (b <=? 122) then b - 97 + 10
           else if (65 <=? b) && (b <=? 90) then b - 65 + 10
           else radix in
  if d <? radix then Some d else None.

Definition radix_step (max radix : Z) (acc : option Z) (b : Z) : option Z :=
  acc ≫= fun a => digit_value radix b ≫= fun d =>
  checked_mul max a radix ≫= fun m => checked_add max m d.

(** Unsigned: an optional plus sign, then at least one digit, no overflow. *)
Definition from_str_radix (max radix : Z) (s : bytes) : option Z :=
  let digits := match s with 43 :: rest => rest | _ => s end in
  if bool_decide (digits = []) then None
  else foldl (radix_step max radix) (Some 0) digits.

(** [str::is_char_boundary] on the UTF-8 bytes. *)
Definition is_char_boundary (s : bytes) (i : Z) : bool :=
  if i =? zlen s then true
  else match znth s i with
       | Some b => negb ((128 <=? b) && (b <? 192))
       | None => false
       end.

Definition is_ascii_control (b : Z) : bool := (b <? 32) || (b =? 127).

Section Preset.
Context {KK : Keccak} {RV : Revm} {EC : ExitProgramCodec} {PC : PresetCodec}.

Definition parse_b256 (value : bytes) : result string Z :=
  ok_or (b256_from_str value) "invalid bytes32"%string.

(** One byte of the selector: the slice panics off a character boundary. *)
Definition selector_byte (value : bytes) (selector : bytes) (index : Z)
  : result string bytes :=
  fail_if negb (is_char_boundary value (index * 2))
          || negb (is_char_boundary value (index * 2 + 2))
    with "panic: byte index is not a char boundary"%string in
  let? byte := ok_or (from_str_radix 255 16
                        (take 2 (drop (Z.to_nat (index * 2)) value)))
                 "selector is not hex"%string in
  Ok (selector ++ [byte]).

Definition parse_selector (value : bytes) : result string bytes :=
  match value with
  | 48 :: 120 :: value =>
      fail_if negb (zlen value =? 8) with "selector is not bytes4"%string in
      for_each (selector_byte value) [] [0; 1; 2; 3]
  | _ => Err "selector needs 0x prefix"%string
  end.

(** ** from_input, one definition per section of the constructor *)

Definition authenticate_preset (canonical_json : bytes) (preset_hash : Z)
  : result string PresetJsonV4 :=
  let? value := ok_or (json_from_slice canonical_json) "preset JSON"%string in
  let? canonical := ok_or (json_to_vec value) "canonical preset JSON"%string in
  fail_if negb (bool_decide (canonical = canonical_json))
    with "preset JSON is not canonical"%string in
  fail_if negb (keccak256 canonical =? preset_hash)
    with "canonical preset JSON does not hash to presetHash"%string in
  let? preset := ok_or (preset_from_value value) "preset schema"%string in
  fail_if negb (psj_version preset =? 4) || negb (bool_decide (psj_fork preset = b_ "osaka"))
    with "preset must be v4 with Osaka semantics"%string in
  Ok preset.

Definition execution_level (preset : PresetJsonV4) : result string bool :=
  if bool_decide (psj_execution_level preset = b_ "generic") then Ok false
  else if bool_decide (psj_execution_level preset = b_ "certified") then Ok true
  else Err "unknown preset executionLevel"%string.

Definition preset_asset (previous_asset : option Z) (asset_id : Z)
  : result string (option Z) :=
  fail_if (16 <=? asset_id) || not_after previous_asset asset_id
    with "preset assetIds must be sorted unique values below 16"%string in
  Ok (Some asset_id).

Definition touched_slot_count (accounts : list CompactAccountWitnessV4) : Z :=
  zsum (map (fun account => zlen (caw_storage account)) accounts).

Definition block_transactions_capped (cap : Z) (_ : unit) (block : BatchBlockV4)
  : result string unit :=
  fail_if cap <? zlen (bb4_raw_txs block)
    with "block exceeds preset transaction cap"%string in
  Ok tt.

Definition resource_invalid (input : BatchInputV4) (r : ResourceEnvelopeJsonV4)
    (max_gas_per_block : Z) : bool :=
  (max_gas_per_block =? 0)
  || (rej_max_transactions_per_block r =? 0)
  || (rej_max_witness_bytes r =? 0)
  || (MAX_BATCH_WITNESS_BYTES_V4 <? rej_max_witness_bytes r)
  || (bi4_encoded_witness_bytes input =? 0)
  || (rej_max_witness_bytes r <? bi4_encoded_witness_bytes input)
  || (rej_max_memory_pages r =? 0)
  || (4096 <? rej_max_memory_pages r)
  || (rej_max_touched_accounts r =? 0)
  || (MAX_COMPACT_ACCOUNTS_V4 <? rej_max_touched_accounts r)
  || (rej_max_touched_storage_slots r =? 0)
  || (MAX_COMPACT_STORAGE_SLOTS_V4 <? rej_max_touched_storage_slots r).

(** The resource envelope: the gas and memory caps of the policy. *)
Definition preset_resources (input : BatchInputV4) (r : ResourceEnvelopeJsonV4)
  : result string (Z * Z) :=
  fail_if (rej_max_blocks_per_batch r =? 0)
       || (MAX_BATCH_BLOCKS_V4 <? rej_max_blocks_per_batch r)
       || (rej_max_blocks_per_batch r <? zlen (bi4_blocks input))
    with "preset maxBlocksPerBatch is invalid or exceeded"%string in
  let? max_gas_per_block := ok_or (from_str_radix U64_MAX 10 (rej_max_gas_per_block r))
                              "preset maxGasPerBlock is not a u64 decimal"%string in
  fail_if resource_invalid input r max_gas_per_block
    with "preset resource envelope is invalid or exceeds guest caps"%string in
  fail_if (256 * 1024 <? zlen (bi4_canonical_preset_json input))
       || (64 * 1024 <? zlen (bi4_canonical_exit_program_json input))
    with "preset/exit-program component byte cap exceeded"%string in
  let? max_memory_bytes := ok_or (checked_mul USIZE_MAX (rej_max_memory_pages r) 65536)
                             "preset maxMemoryPages byte overflow"%string in
  fail_if rej_max_touched_accounts r <? zlen (cst_accounts (bi4_compact_state input))
    with "preset touched-account cap exceeded"%string in
  fail_if rej_max_touched_storage_slots r
          <? touched_slot_count (cst_accounts (bi4_compact_state input))
    with "preset touched-storage cap exceeded"%string in
  let? _ := for_each (block_transactions_capped (rej_max_transactions_per_block r)) tt
              (bi4_blocks input) in
  Ok (max_gas_per_block, max_memory_bytes).

Definition preset_code (code_hashes : gmap Z Z) (code : CodeJsonV4)
  : result string (gmap Z Z) :=
  let? address := parse_address (coj_address code) in
  let? code_hash := parse_b256 (coj_runtime_code_hash code) in
  fail_if bool_decide (is_Some (code_hashes !! address))
    with "duplicate preset code address"%string in
  Ok (<[address := code_hash]> code_hashes).

Definition code_pin_live (accounts : gmap Z AccountRecord) (_ : unit) (pin : Z * Z)
  : result string unit :=
  let? account := ok_or (accounts !! pin.1) "pinned code account is absent"%string in
  fail_if negb (code_hash account =? pin.2) with "runtime code hash mismatch"%string in
  Ok tt.

Definition preset_codes (certified : bool) (preset : PresetJsonV4)
    (accounts : gmap Z AccountRecord) : result string (gmap Z Z) :=
  let? code_hashes := for_each preset_code ∅ (psj_code preset) in
  fail_if certified && bool_decide (code_hashes = ∅)
    with "certified preset has no code commitments"%string in
  fail_if certified && (psj_allow_contract_creation preset || psj_allow_self_destruct preset)
    with "certified preset cannot allow creation or selfdestruct"%string in
  let? _ := for_each (code_pin_live accounts) tt (sorted_entries code_hashes) in
  fail_if certified
          && existsb (fun '(address, account) =>
               negb (bool_decide (ar_code account = [])) && negb (pinned code_hashes address))
               (sorted_entries accounts)
    with "uncommitted executable code"%string in
  Ok code_hashes.

(** The storage of a bound contract must hold the room's derived domain. *)
Definition preset_domain (input : BatchInputV4) (code_hashes : gmap Z Z)
    (accounts : gmap Z AccountRecord) (keys : gset (Z * Z))
    (binding : ApplicationDomainBindingJsonV4) : result string (gset (Z * Z)) :=
  let? contract := parse_address (adj_contract binding) in
  fail_if negb (pinned code_hashes contract)
    with "applicationDomainBindings contract is not code-pinned"%string in
  let? storage_slot := parse_b256 (adj_storage_slot binding) in
  fail_if bool_decide ((contract, storage_slot) ∈ keys)
    with "duplicate application-domain binding"%string in
  let tag := adj_domain_tag binding in
  fail_if bool_decide (tag = []) || (64 <? zlen tag) || existsb is_ascii_control tag
    with "domainTag must be 1..64 printable UTF-8 bytes"%string in
  let expected := application_domain_v4 tag (bi4_deployment_id input) (bi4_room_id input) in
  let? account := ok_or (accounts !! contract)
                    "applicationDomainBindings contract is absent"%string in
  fail_if negb (default 0 (ar_storage account !! storage_slot) =? expected)
    with "storage does not match the derived room application domain"%string in
  Ok ({[(contract, storage_slot)]} ∪ keys).

Definition preset_selector (selectors : gset bytes) (selector : bytes)
  : result string (gset bytes) :=
  let? selector := parse_selector selector in
  fail_if bool_decide (selector ∈ selectors) with "duplicate call selector"%string in
  Ok ({[selector]} ∪ selectors).

Definition preset_call_kind (kinds : gset Z) (kind : bytes) : result string (gset Z) :=
  let? kind :=
    if bool_decide (kind = b_ "call") then Ok Call
    else if bool_decide (kind = b_ "staticcall") then Ok StaticCall
    else if bool_decide (kind = b_ "delegatecall") then Ok DelegateCall
    else Err "unsupported certified call kind"%string in
  Ok ({[call_kind_u8 kind]} ∪ kinds).

Definition preset_call (certified : bool) (code_hashes : gmap Z Z)
    (s : gset (Z * Z) * list CallRule) (rule : CallRuleJsonV4)
  : result string (gset (Z * Z) * list CallRule) :=
  let '(call_rule_keys, call_rules) := s in
  let? caller := parse_address (crj4_caller rule) in
  let? target := parse_address (crj4_target rule) in
  fail_if certified && negb (caller =? ACTIVE_MEMBER_SENTINEL)
          && negb (pinned code_hashes caller)
    with "callRules caller is not code-pinned"%string in
  fail_if certified && negb (pinned code_hashes target)
    with "callRules target is not code-pinned"%string in
  fail_if bool_decide ((caller, target) ∈ call_rule_keys)
    with "duplicate call rule"%string in
  let? selectors := for_each preset_selector ∅ (crj4_selectors rule) in
  fail_if bool_decide (selectors = ∅) with "call rule has no selectors"%string in
  let? kinds := for_each preset_call_kind ∅ (crj4_kinds rule) in
  fail_if bool_decide (kinds = ∅) with "call rule has no call kinds"%string in
  Ok ({[(caller, target)]} ∪ call_rule_keys,
      call_rules ++ [mk_CallRule caller target selectors kinds]).

(** [windows(2).any(|pair| pair[0] >= pair[1])] on an empty-checked list. *)
Definition preset_argument_rule (code_hashes : gmap Z Z) (call_rules : list CallRule)
    (s : gset (Z * bytes) * list ActiveMemberArgumentRule)
    (rule : ActiveMemberArgumentRuleJsonV4)
  : result string (gset (Z * bytes) * list ActiveMemberArgumentRule) :=
  let '(keys, rules) := s in
  let? target := parse_address (amj_target rule) in
  fail_if negb (pinned code_hashes target)
    with "activeMemberArgumentRules target is not code-pinned"%string in
  let? selector := parse_selector (amj_selector rule) in
  fail_if bool_decide ((target, selector) ∈ keys)
    with "duplicate active-member argument rule"%string in
  fail_if bool_decide (amj_argument_word_indices rule = [])
          || negb (strictly_sorted (amj_argument_word_indices rule))
    with "argumentWordIndices must be sorted, unique, and non-empty"%string in
  fail_if negb (existsb (fun call_rule =>
            (cru_caller call_rule =? ACTIVE_MEMBER_SENTINEL)
            && (cru_target call_rule =? target)
            && bool_decide (selector ∈ cru_selectors call_rule)) call_rules)
    with "selector is not an active-member entry point"%string in
  Ok ({[(target, selector)]} ∪ keys,
      rules ++ [mk_ActiveMemberArgumentRule target selector (amj_argument_word_indices rule)]).

Definition preset_allowed_value (max_value : Z) (allowed_values : gset Z) (value : Z)
  : result string (gset Z) :=
  fail_if (max_value <? value) || bool_decide (value ∈ allowed_values)
    with "allowedValues are duplicate or outside the field"%string in
  Ok ({[value]} ∪ allowed_values).

Definition preset_guard (code_hashes : gmap Z Z)
    (s : gset (Z * Z * Z * Z) * list MembershipStateGuard) (guard : MembershipStateGuardJsonV4)
  : result string (gset (Z * Z * Z * Z) * list MembershipStateGuard) :=
  let '(keys, guards) := s in
  let? contract := parse_address (mgj_contract guard) in
  fail_if negb (pinned code_hashes contract)
    with "membershipStateGuards contract is not code-pinned"%string in
  let? storage_slot := parse_b256 (mgj_storage_slot guard) in
  fail_if (mgj_bit_width guard =? 0) || (256 <=? mgj_bit_offset guard)
          || (256 - mgj_bit_offset guard <? mgj_bit_width guard)
    with "membershipStateGuards bit range is invalid"%string in
  let key := (contract, storage_slot, mgj_bit_offset guard, mgj_bit_width guard) in
  fail_if bool_decide (key ∈ keys) with "duplicate membership state guard"%string in
  let? allowed_values := for_each (preset_allowed_value (guard_mask (mgj_bit_width guard))) ∅
                           (mgj_allowed_values guard) in
  fail_if bool_decide (allowed_values = ∅)
    with "allowedValues must be non-empty"%string in
  Ok ({[key]} ∪ keys,
      guards ++ [mk_MembershipStateGuard contract storage_slot (mgj_bit_offset guard)
                   (mgj_bit_width guard) allowed_values]).

Definition preset_namespace (certified : bool) (code_hashes : gmap Z Z)
    (namespaces : list StorageNamespace) (namespace : StorageNamespaceJsonV4)
  : result string (list StorageNamespace) :=
  fail_if 256 <? snj_prefix_bits namespace with "prefixBits exceeds 256"%string in
  let? contract := parse_address (snj_contract namespace) in
  fail_if certified && negb (pinned code_hashes contract)
    with "storageNamespaces contract is not code-pinned"%string in
  let? prefix := parse_b256 (snj_slot_prefix namespace) in
  Ok (namespaces ++ [mk_StorageNamespace contract prefix (snj_prefix_bits namespace)
                       (snj_writable namespace)]).

(** Declared storage of a certified room lies in a namespace of a pinned contract. *)
Definition witness_in_namespaces (code_hashes : gmap Z Z) (namespaces : list StorageNamespace)
    (_ : unit) (account : CompactAccountWitnessV4) : result string unit :=
  if bool_decide (caw_storage account = []) then Ok tt else
  fail_if negb (pinned code_hashes (caw_address account))
    with "storage declared for non-code-pinned account"%string in
  fail_if existsb (fun slot =>
            negb (in_namespace namespaces (caw_address account) (csw_slot slot)))
            (caw_storage account)
    with "storage is outside the certified namespace"%string in
  Ok tt.

Definition preset_namespaces (certified : bool) (input : BatchInputV4) (preset : PresetJsonV4)
    (code_hashes : gmap Z Z) : result string (list StorageNamespace) :=
  let? namespaces := for_each (preset_namespace certified code_hashes) []
                       (psj_storage_namespaces preset) in
  let? _ := if certified
            then for_each (witness_in_namespaces code_hashes namespaces) tt
                   (cst_accounts (bi4_compact_state input))
            else Ok tt in
  Ok namespaces.

(** [ExecutionPolicyV4::from_input]. *)
Definition from_input (input : BatchInputV4) (state : StateMap)
  : result string ExecutionPolicyV4 :=
  let? preset := authenticate_preset (bi4_canonical_preset_json input)
                   (bi4_preset_hash input) in
  let? certified := execution_level preset in
  let? exit_program_id := parse_b256 (psj_exit_program_id preset) in
  let? _ := for_each preset_asset None (psj_asset_ids preset) in
  let? (max_gas_per_block, max_memory_bytes) := preset_resources input (psj_resources preset) in
  let? active_members := verify_roster (bi4_pre_roster_slots input) (bi4_pre_roster_root input)
                           (bi4_active_mask input) (bi4_pre_used_mask input) in
  let? code_hashes := preset_codes certified preset (sm_accounts state) in
  let? _ := for_each (preset_domain input code_hashes (sm_accounts state)) ∅
              (psj_application_domain_bindings preset) in
  let? (_, call_rules) := for_each (preset_call certified code_hashes) (∅, [])
                            (psj_call_rules preset) in
  let? (_, argument_rules) := for_each (preset_argument_rule code_hashes call_rules) (∅, [])
                                (psj_active_member_argument_rules preset) in
  let? (_, guards) := for_each (preset_guard code_hashes) (∅, [])
                        (psj_membership_state_guards preset) in
  let? namespaces := preset_namespaces certified input preset code_hashes in
  let policy := mk_ExecutionPolicyV4 certified active_members code_hashes call_rules namespaces
    argument_rules guards (negb (bool_decide (bi4_membership_deltas input = [])))
    (psj_allow_contract_creation preset) (psj_allow_self_destruct preset) max_gas_per_block
    max_memory_bytes exit_program_id (psj_asset_ids preset) in
  let? _ := validate_membership_state_guards policy state in
  Ok policy.
End Preset.

(** * Properties *)

(** ** What a selector text denotes, independently of the parser *)

(** A hexadecimal digit of either case and its value. *)
Inductive hex_value : Z -> Z -> Prop :=
| hex_decimal d : 0 <= d <= 9 -> hex_value (48 + d) d
| hex_lower d : 10 <= d <= 15 -> hex_value (87 + d) d
| hex_upper d : 10 <= d <= 15 -> hex_value (55 + d) d.

(** Two characters of a selector: two digits, or the plus sign that
    [u8::from_str_radix] reads, and one digit. *)
Inductive byte_text : bytes -> Z -> Prop :=
| byte_digits h l x y : hex_value h x -> hex_value l y -> byte_text [h; l] (16 * x + y)
| byte_signed l y : hex_value l y -> byte_text [43; l] y.

(** ["0x"] and the four bytes in order. *)
Inductive selector_denotes : bytes -> bytes -> Prop :=
| selector_of t0 t1 t2 t3 b0 b1 b2 b3 :
    byte_text t0 b0 -> byte_text t1 b1 -> byte_text t2 b2 -> byte_text t3 b3 ->
    selector_denotes (b_ "0x" ++ t0 ++ t1 ++ t2 ++ t3) [b0; b1; b2; b3].

(** The name of a call kind in the schema. *)
Definition kind_name (k : AllowedCallKind) : bytes :=
  b_ (match k with
      | Call => "call" | StaticCall => "staticcall" | DelegateCall => "delegatecall"
      end)%string.

Lemma digit_value_spec b d : digit_value 16 b = Some d <-> hex_value b d.
Proof.
  unfold digit_value. split.
  - destruct (Z.leb_spec 48 b), (Z.leb_spec b 57), (Z.leb_spec 97 b), (Z.leb_spec b 122),
      (Z.leb_spec 65 b), (Z.leb_spec b 90); cbn [andb]; try lia;
      match goal with |- context [?x <? 16] => destruct (Z.ltb_spec x 16) end;
      intros H'; try discriminate H'; injection H' as <-; try lia.
    + replace b with (48 + (b - 48)) at 1 by lia. constructor. lia.
    + replace b with (87 + (b - 97 + 10)) at 1 by lia. constructor. lia.
    + replace b with (55 + (b - 65 + 10)) at 1 by lia. constructor. lia.
  - intros [d' H|d' H|d' H];
    match goal with |- context [(48 <=? ?b)] =>
      destruct (Z.leb_spec 48 b), (Z.leb_spec b 57), (Z.leb_spec 97 b), (Z.leb_spec b 122),
        (Z.leb_spec 65 b), (Z.leb_spec b 90) end; cbn [andb]; try lia;
      match goal with |- context [?x <? 16] => destruct (Z.ltb_spec x 16) end; try lia;
      f_equal; lia.
Qed.

Lemma hex_value_range h x : hex_value h x -> 0 <= x <= 15 /\ 48 <= h < 128.
Proof. intros [d H|d H|d H]; lia. Qed.

Lemma radix_step_spec a b v :
  0 <= a <= 15 ->
  radix_step 255 16 (Some a) b = Some v <-> exists d, hex_value b d /\ v = 16 * a + d.
Proof.
  intros Ha. unfold radix_step. cbn [mbind option_bind]. split.
  - destruct (digit_value 16 b) as [d|] eqn:Hd; [|discriminate].
    apply digit_value_spec in Hd as Hh. pose proof (hex_value_range _ _ Hh).
    unfold checked_mul, checked_add. cbn [mbind option_bind].
    rewrite (proj2 (Z.leb_le (a * 16) 255)) by lia. cbn [mbind option_bind].
    rewrite (proj2 (Z.leb_le (a * 16 + d) 255)) by lia.
    injection 1 as <-. exists d. split; [exact Hh|lia].
  - intros (d & Hh & ->). pose proof (hex_value_range _ _ Hh).
    apply digit_value_spec in Hh as ->. unfold checked_mul, checked_add.
    cbn [mbind option_bind].
    rewrite (proj2 (Z.leb_le (a * 16) 255)) by lia. cbn [mbind option_bind].
    rewrite (proj2 (Z.leb_le (a * 16 + d) 255)) by lia. f_equal. lia.
Qed.

Lemma byte_text_spec a b v : from_str_radix 255 16 [a; b] = Some v <-> byte_text [a; b] v.
Proof.
  assert (Hd : forall l w, foldl (radix_step 255 16) (Some 0) [l] = Some w <-> hex_value l w).
  { intros l w. cbn [foldl]. rewrite radix_step_spec by lia. split.
    - intros (d & H & ->). exact H.
    - intros H. exists w. auto. }
  destruct (decide (a = 43)) as [->|Hne].
  - change (from_str_radix 255 16 [43; b])
      with (foldl (radix_step 255 16) (Some 0) [b]). rewrite Hd. split; [apply byte_signed|].
    intros H. inversion H as [h l x y Hh|]; subst; [|assumption].
    apply hex_value_range in Hh. lia.
  - assert (E : from_str_radix 255 16 [a; b] = foldl (radix_step 255 16) (Some 0) [a; b]).
    { unfold from_str_radix. rewrite bool_decide_eq_false_2; [|]; repeat case_match; congruence. }
    rewrite E. change (foldl (radix_step 255 16) (Some 0) [a; b])
      with (radix_step 255 16 (foldl (radix_step 255 16) (Some 0) [a]) b). split.
    + destruct (foldl _ _ [a]) as [x|] eqn:Hx; [|discriminate]. apply Hd in Hx.
      rewrite radix_step_spec by (apply hex_value_range in Hx; lia).
      intros (d & Hl & ->). constructor; assumption.
    + intros H. inversion H as [h l x y Hh Hl|]; subst; [|congruence].
      rewrite (proj2 (Hd _ _) Hh).
      rewrite radix_step_spec by (apply hex_value_range in Hh; lia). eauto.
Qed.

Lemma byte_text_ascii t b : byte_text t b -> length t = 2%nat /\ Forall (fun c => c < 128) t.
Proof.
  intros [h l x y Hh%hex_value_range Hl%hex_value_range|l y Hl%hex_value_range];
    repeat constructor; lia.
Qed.

Lemma ascii_boundary s i :
  Forall (fun c => c < 128) s -> 0 <= i <= zlen s -> is_char_boundary s i = true.
Proof.
  intros Hs Hi. unfold is_char_boundary. destruct (Z.eqb_spec i (zlen s)) as [|Hne]; [reflexivity|].
  unfold znth, zlen in *. destruct (Z.ltb_spec i 0); [lia|].
  destruct (lookup_lt_is_Some_2 s (Z.to_nat i)) as [c Hc]; [lia|]. rewrite Hc.
  rewrite Forall_lookup in Hs. specialize (Hs _ _ Hc). cbn in Hs.
  destruct (Z.leb_spec 128 c); [lia|reflexivity].
Qed.

(** One byte of an eight-byte text: the two characters at its place denote it. *)
Lemma selector_byte_exact a0 b0 a1 b1 a2 b2 a3 b3 acc (i : nat) acc' :
  (i < 4)%nat ->
  let text := [a0; b0; a1; b1; a2; b2; a3; b3] in
  let pair := take 2 (drop (2 * i) text) in
  (selector_byte text acc (Z.of_nat i) = Ok acc' ->
   exists b, byte_text pair b /\ acc' = acc ++ [b]) /\
  (Forall (fun c => c < 128) text -> forall b, byte_text pair b ->
   selector_byte text acc (Z.of_nat i) = Ok (acc ++ [b])).
Proof.
  intros Hi text pair. unfold selector_byte.
  replace (Z.to_nat (Z.of_nat i * 2)) with (2 * i)%nat by lia. fold pair.
  assert (exists x y, pair = [x; y]) as (x & y & ->)
    by (unfold pair, text; do 4 (destruct i as [|i]; [cbn; eauto|]); lia).
  split.
  - intros H. apply fail_if_Ok in H as [_ H]. apply rbind_Ok in H as (b & Hb & H).
    apply ok_or_Ok in Hb. apply byte_text_spec in Hb. apply Ok_Ok in H as <-. eauto.
  - intros Ha b Hb. rewrite !ascii_boundary by (auto; unfold text, zlen; cbn [length]; lia).
    cbn [negb orb]. rewrite (proj2 (byte_text_spec _ _ _) Hb). reflexivity.
Qed.

(** The parser accepts exactly the selector texts, and reads what they denote. *)
Lemma selector_exact text selector :
  parse_selector text = Ok selector <-> selector_denotes text selector.
Proof.
  split.
  - intros H. destruct text as [|c0 text]; [discriminate|].
    destruct (decide (c0 = 48)) as [->|Hc];
      [|unfold parse_selector in H; repeat case_match; congruence].
    destruct text as [|c1 text]; [discriminate|].
    destruct (decide (c1 = 120)) as [->|Hc];
      [|unfold parse_selector in H; repeat case_match; congruence].
    cbn [parse_selector] in H. apply fail_if_Ok in H as [G H]. apply negb_eqb_false in G.
    unfold zlen in G.
    destruct text as [|a0 [|b0 [|a1 [|b1 [|a2 [|b2 [|a3 [|b3 [|]]]]]]]]]; cbn in G; try lia.
    cbn [for_each] in H.
    apply rbind_Ok in H as (s0 & H0 & H). apply rbind_Ok in H as (s1 & H1 & H).
    apply rbind_Ok in H as (s2 & H2 & H). apply rbind_Ok in H as (s3 & H3 & H).
    apply Ok_Ok in H as <-.
    apply (proj1 (selector_byte_exact a0 b0 a1 b1 a2 b2 a3 b3 [] 0 s0 ltac:(lia))) in H0
      as (x0 & T0 & ->).
    apply (proj1 (selector_byte_exact a0 b0 a1 b1 a2 b2 a3 b3 _ 1 s1 ltac:(lia))) in H1
      as (x1 & T1 & ->).
    apply (proj1 (selector_byte_exact a0 b0 a1 b1 a2 b2 a3 b3 _ 2 s2 ltac:(lia))) in H2
      as (x2 & T2 & ->).
    apply (proj1 (selector_byte_exact a0 b0 a1 b1 a2 b2 a3 b3 _ 3 s3 ltac:(lia))) in H3
      as (x3 & T3 & ->).
    exact (selector_of _ _ _ _ _ _ _ _ T0 T1 T2 T3).
  - intros [t0 t1 t2 t3 x0 x1 x2 x3 T0 T1 T2 T3].
    destruct (byte_text_ascii _ _ T0) as [L0 A0], (byte_text_ascii _ _ T1) as [L1 A1],
      (byte_text_ascii _ _ T2) as [L2 A2], (byte_text_ascii _ _ T3) as [L3 A3].
    destruct t0 as [|a0 [|b0 [|]]]; try discriminate. destruct t1 as [|a1 [|b1 [|]]]; try discriminate.
    destruct t2 as [|a2 [|b2 [|]]]; try discriminate. destruct t3 as [|a3 [|b3 [|]]]; try discriminate.
    assert (HA : Forall (fun c => c < 128) [a0; b0; a1; b1; a2; b2; a3; b3])
      by (repeat rewrite Forall_cons in *; tauto).
    change (for_each (selector_byte [a0; b0; a1; b1; a2; b2; a3; b3]) []
      (map Z.of_nat [0; 1; 2; 3]%nat) = Ok [x0; x1; x2; x3]). cbn [for_each map].
    rewrite (proj2 (selector_byte_exact a0 b0 a1 b1 a2 b2 a3 b3 [] 0 [] ltac:(lia)) HA x0 T0).
    cbn [rbind].
    rewrite (proj2 (selector_byte_exact a0 b0 a1 b1 a2 b2 a3 b3 _ 1 [] ltac:(lia)) HA x1 T1).
    cbn [rbind].
    rewrite (proj2 (selector_byte_exact a0 b0 a1 b1 a2 b2 a3 b3 _ 2 [] ltac:(lia)) HA x2 T2).
    cbn [rbind].
    rewrite (proj2 (selector_byte_exact a0 b0 a1 b1 a2 b2 a3 b3 _ 3 [] ltac:(lia)) HA x3 T3).
    reflexivity.
Qed.

Section PresetFacts.
Context {KK : Keccak} {RV : Revm} {EC : ExitProgramCodec} {PC : PresetCodec}.
Implicit Types (state : StateMap) (input : BatchInputV4) (preset : PresetJsonV4)
  (p : ExecutionPolicyV4) (code_hashes : gmap Z Z).

(** ** What each section establishes *)

(** The pins of a preset: the declared commitments, each live in the state. *)
Definition pins_hold (accounts : gmap Z AccountRecord) code_hashes : Prop :=
  map_Forall (fun address hash => exists account,
    accounts !! address = Some account /\ code_hash account = hash) code_hashes.

Definition code_covered (accounts : gmap Z AccountRecord) code_hashes : Prop :=
  map_Forall (fun address account =>
    ar_code account <> [] -> is_Some (code_hashes !! address)) accounts.

Lemma code_pins_spec accounts code_hashes :
  for_each (code_pin_live accounts) tt (sorted_entries code_hashes) = Ok tt
  <-> pins_hold accounts code_hashes.
Proof.
  rewrite for_each_check. unfold pins_hold. rewrite <- sorted_entries_forall.
  split; intros H pin Hp; specialize (H pin Hp); unfold code_pin_live in *.
  - apply rbind_Ok in H as (a & Ha & H). apply ok_or_Ok in Ha. apply fail_if_Ok in H as [G _].
    apply negb_eqb_false in G. eauto.
  - destruct H as (a & -> & Hh). cbn. rewrite Hh, Z.eqb_refl. reflexivity.
Qed.

Lemma uncommitted_spec (accounts : gmap Z AccountRecord) code_hashes :
  existsb (fun '(address, account) =>
    negb (bool_decide (ar_code account = [])) && negb (pinned code_hashes address))
    (sorted_entries accounts) = false
  -> code_covered accounts code_hashes.
Proof.
  intros H. rewrite existsb_false_iff in H. apply sorted_entries_forall.
  intros [a r] Hin Hc. specialize (H _ Hin). cbn in H, Hc.
  apply andb_false_iff in H as [H|H]; bool_to_prop; [contradiction|apply pinned_spec, H].
Qed.

(** One commitment of the JSON as an address and the hash of its code. *)
Definition pin_named (j : CodeJsonV4) (pin : Z * Z) : Prop :=
  address_from_str (coj_address j) = Some pin.1 /\
  b256_from_str (coj_runtime_code_hash j) = Some pin.2.

(** The pins are the commitments of the JSON, one per address. *)
Definition pins_named (js : list CodeJsonV4) code_hashes : Prop :=
  exists pins, Forall2 pin_named js pins /\ NoDup pins.*1 /\
    forall address hash, code_hashes !! address = Some hash <-> (address, hash) ∈ pins.

Lemma pins_named_spec js code_hashes :
  for_each preset_code ∅ js = Ok code_hashes -> pins_named js code_hashes.
Proof.
  intros H. assert (G : exists pins, Forall2 pin_named js pins /\ NoDup pins.*1 /\
    code_hashes = list_to_map pins).
  - refine (for_each_inv (fun done (ch : gmap Z Z) => exists pins, Forall2 pin_named done pins /\
      NoDup pins.*1 /\ ch = list_to_map pins) _ _ _ _ _ _ H).
    + exists []. repeat constructor.
    + intros done j ch ch' (pins & I1 & I2 & ->) _ Hb. unfold preset_code in Hb.
      apply rbind_Ok in Hb as (a & Ha & Hb). apply ok_or_Ok in Ha.
      apply rbind_Ok in Hb as (h & Hh & Hb). apply ok_or_Ok in Hh.
      apply fail_if_Ok in Hb as [G Hb]. apply Ok_Ok in Hb as <-.
      apply bool_decide_eq_false, eq_None_not_Some in G.
      apply not_elem_of_list_to_map in G. exists (pins ++ [(a, h)]).
      assert (Hn : NoDup ((pins ++ [(a, h)]).*1)).
      { rewrite fmap_app. apply NoDup_app. split_and!; [exact I2| |apply NoDup_singleton].
        intros k Hk ->%list_elem_of_singleton. contradiction. }
      split_and!; [|exact Hn|].
      * apply Forall2_app; [exact I1|]. repeat constructor; assumption.
      * change (<[a:=h]> (list_to_map pins : gmap Z Z)) with (list_to_map ((a, h) :: pins) : gmap Z Z).
        symmetry. apply list_to_map_proper; [exact Hn|]. symmetry. apply Permutation_cons_append.
  - destruct G as (pins & G1 & G2 & ->). exists pins. split_and!; auto.
    intros a h. symmetry. apply elem_of_list_to_map, G2.
Qed.

Lemma preset_codes_spec certified preset accounts code_hashes :
  preset_codes certified preset accounts = Ok code_hashes ->
  pins_named (psj_code preset) code_hashes /\ pins_hold accounts code_hashes /\
  (certified = true -> code_hashes <> ∅ /\ code_covered accounts code_hashes /\
     psj_allow_contract_creation preset = false /\ psj_allow_self_destruct preset = false).
Proof.
  unfold preset_codes. intros H. apply rbind_Ok in H as (ch & Hn & H).
  apply pins_named_spec in Hn. apply fail_if_Ok in H as [G1 H]. apply fail_if_Ok in H as [G2 H].
  apply rbind_Ok in H as ([] & Hp & H). apply code_pins_spec in Hp.
  apply fail_if_Ok in H as [G3 H]. apply Ok_Ok in H as <-.
  split; [exact Hn|]. split; [exact Hp|]. intros ->. cbn [andb] in *. bool_to_prop.
  split_and!; auto. apply uncommitted_spec, G3.
Qed.

(** A binding of one contract's slot, which stores the derived application domain of the
    room under a printable tag. *)
Definition domain_bound input code_hashes (accounts : gmap Z AccountRecord)
    (b : ApplicationDomainBindingJsonV4) (key : Z * Z) : Prop :=
  exists account,
    address_from_str (adj_contract b) = Some key.1 /\
    b256_from_str (adj_storage_slot b) = Some key.2 /\
    is_Some (code_hashes !! key.1) /\ accounts !! key.1 = Some account /\
    0 < zlen (adj_domain_tag b) <= 64 /\
    Forall (fun c => 32 <= c /\ c <> 127) (adj_domain_tag b) /\
    default 0 (ar_storage account !! key.2)
    = application_domain_v4 (adj_domain_tag b) (bi4_deployment_id input) (bi4_room_id input).

Lemma preset_domains_spec input code_hashes accounts bindings keys :
  for_each (preset_domain input code_hashes accounts) ∅ bindings = Ok keys ->
  exists bound, Forall2 (domain_bound input code_hashes accounts) bindings bound /\ NoDup bound.
Proof.
  intros Hf. apply (for_each_distinct (domain_bound input code_hashes accounts)) in Hf
    as (bound & H1 & H2 & _); [eauto|]. clear. intros ks b ks' H.
  unfold preset_domain, parse_address, parse_b256 in H.
  apply rbind_Ok in H as (c & Hc & H). apply ok_or_Ok in Hc. apply fail_if_Ok in H as [Gp H].
  apply negb_false_iff, pinned_spec in Gp. apply rbind_Ok in H as (s & Hs & H).
  apply ok_or_Ok in Hs. apply fail_if_Ok in H as [Gk H]. apply fail_if_Ok in H as [Gt H].
  apply rbind_Ok in H as (r & Hr & H). apply ok_or_Ok in Hr.
  apply fail_if_Ok in H as [Gv H]. apply Ok_Ok in H as <-. apply negb_eqb_false in Gv.
  apply orb_false_iff in Gt as [Gt Gc]. bool_to_prop.
  exists (c, s). split; [reflexivity|]. split; [assumption|].
  exists r. split_and!; auto.
  - unfold zlen. destruct (adj_domain_tag b); [contradiction|]. cbn. lia.
  - apply Forall_forall. intros ch Hch. rewrite existsb_false_iff in Gc. specialize (Gc _ Hch).
    unfold is_ascii_control in Gc. bool_to_prop. lia.
Qed.

(** A resolved call rule: the accounts the JSON names; its selectors are exactly what the
    selector texts denote, each once; every kind text names a call kind, and the kinds are
    exactly the named ones. *)
Record call_resolved (certified : bool) code_hashes (j : CallRuleJsonV4) (r : CallRule)
  : Prop := {
  clr_caller : address_from_str (crj4_caller j) = Some (cru_caller r);
  clr_target : address_from_str (crj4_target j) = Some (cru_target r);
  clr_selectors : crj4_selectors j <> [] /\
    exists selectors, Forall2 selector_denotes (crj4_selectors j) selectors /\
      NoDup selectors /\ forall s, s ∈ cru_selectors r <-> s ∈ selectors;
  clr_kinds : crj4_kinds j <> [] /\
    (forall text, text ∈ crj4_kinds j -> exists k, text = kind_name k) /\
    forall z, z ∈ cru_kinds r <-> exists k, z = call_kind_u8 k /\ kind_name k ∈ crj4_kinds j;
  clr_pinned : certified = true -> rule_pinned code_hashes r
}.

Lemma preset_selectors_spec (texts : list bytes) (selectors : gset bytes) :
  for_each preset_selector ∅ texts = Ok selectors ->
  exists l, Forall2 selector_denotes texts l /\ NoDup l /\ selectors = list_to_set l.
Proof.
  apply for_each_distinct. intros ks text ks' H. unfold preset_selector in H.
  apply rbind_Ok in H as (s & Hs & H). apply selector_exact in Hs.
  apply fail_if_Ok in H as [G H]. apply Ok_Ok in H as <-. bool_to_prop. eauto.
Qed.

Lemma preset_kind_spec (kinds kinds' : gset Z) text :
  preset_call_kind kinds text = Ok kinds' ->
  exists k, text = kind_name k /\ kinds' = {[call_kind_u8 k]} ∪ kinds.
Proof.
  unfold preset_call_kind. intros H. apply rbind_Ok in H as (k & Hk & H).
  apply Ok_Ok in H as <-. exists k. split; [|reflexivity]. revert Hk.
  case_bool_decide as E1; [|case_bool_decide as E2; [|case_bool_decide as E3; [|discriminate]]];
    intros E; injection E as <-; assumption.
Qed.

Lemma kind_name_inj k1 k2 : kind_name k1 = kind_name k2 -> k1 = k2.
Proof. destruct k1, k2; (reflexivity || discriminate). Qed.

Lemma preset_kinds_spec (texts : list bytes) (kinds : gset Z) :
  for_each preset_call_kind ∅ texts = Ok kinds ->
  (forall text, text ∈ texts -> exists k, text = kind_name k) /\
  forall z, z ∈ kinds <-> exists k, z = call_kind_u8 k /\ kind_name k ∈ texts.
Proof.
  intros H. refine (for_each_inv (fun done (kinds : gset Z) =>
    (forall text, text ∈ done -> exists k, text = kind_name k) /\
    forall z, z ∈ kinds <-> exists k, z = call_kind_u8 k /\ kind_name k ∈ done) _ _ _ _ _ _ H).
  - split; [intros t Ht%elem_of_nil; contradiction|]. intros z. split.
    + intros Hz%elem_of_empty. contradiction.
    + intros (k & _ & Hk%elem_of_nil). contradiction.
  - intros done text ks ks' [I1 I2] _ Hb. apply preset_kind_spec in Hb as (k & -> & ->). split.
    + intros t [Ht| ->%list_elem_of_singleton]%elem_of_app; eauto.
    + intros z. rewrite elem_of_union, elem_of_singleton, I2. split.
      * intros [->|(k' & -> & Hk)]; [exists k|exists k']; split; auto; apply elem_of_app; auto.
        right. left.
      * intros (k' & -> & [Hk|Hk%list_elem_of_singleton]%elem_of_app); [eauto|].
        apply kind_name_inj in Hk as ->. auto.
Qed.

Definition rule_key (r : CallRule) : Z * Z := (cru_caller r, cru_target r).

Lemma preset_calls_spec certified code_hashes js keys rules :
  for_each (preset_call certified code_hashes) (∅, []) js = Ok (keys, rules) ->
  Forall2 (call_resolved certified code_hashes) js rules /\ NoDup (map rule_key rules).
Proof.
  apply for_each_keyed. intros ks l j s H. unfold preset_call, parse_address in H.
  apply rbind_Ok in H as (caller & Hc & H). apply ok_or_Ok in Hc.
  apply rbind_Ok in H as (target & Ht & H). apply ok_or_Ok in Ht.
  apply fail_if_Ok in H as [G1 H]. apply fail_if_Ok in H as [G2 H].
  apply fail_if_Ok in H as [G3 H]. apply rbind_Ok in H as (sels & Hs & H).
  apply preset_selectors_spec in Hs as (l' & S1 & S2 & S3). apply fail_if_Ok in H as [G4 H]. apply rbind_Ok in H as (kinds & Hk & H).
  apply preset_kinds_spec in Hk as [K1 K2]. apply fail_if_Ok in H as [G5 H]. apply Ok_Ok in H as <-. bool_to_prop.
  eexists. split; [reflexivity|]. split; [reflexivity|]. split; [exact G3|].
  split; cbn [cru_caller cru_target cru_selectors cru_kinds]; auto.
  { split; [intros E; rewrite E in S1; apply Forall2_nil_inv_l in S1 as ->; contradiction|].
    exists l'. split_and!; auto. intros x. rewrite S3. apply elem_of_list_to_set. }
  { split; [|auto]. intros E. apply G5. apply set_eq. intros z. rewrite K2, E.
    split; [intros (k & _ & Hk%elem_of_nil)|intros Hz%elem_of_empty]; contradiction. }
  intros ->. cbn [andb] in *. bool_to_prop. split; cbn [cru_target cru_caller].
  - exact G2.
  - apply andb_false_iff in G1 as [G1|G1]; bool_to_prop; auto.
Qed.

Record argument_resolved code_hashes (rules : list CallRule)
    (j : ActiveMemberArgumentRuleJsonV4) (r : ActiveMemberArgumentRule) : Prop := {
  agr_target : address_from_str (amj_target j) = Some (ama_target r);
  agr_pinned : is_Some (code_hashes !! ama_target r);
  agr_selector : selector_denotes (amj_selector j) (ama_selector r);
  agr_indices : ama_argument_word_indices r = amj_argument_word_indices j /\
    ama_argument_word_indices r <> [] /\
    strictly_sorted (ama_argument_word_indices r) = true;
  agr_entry : exists rule, rule ∈ rules /\ cru_caller rule = ACTIVE_MEMBER_SENTINEL /\
    cru_target rule = ama_target r /\ ama_selector r ∈ cru_selectors rule
}.

Lemma preset_arguments_spec code_hashes rules js keys items :
  for_each (preset_argument_rule code_hashes rules) (∅, []) js = Ok (keys, items) ->
  Forall2 (argument_resolved code_hashes rules) js items /\
  NoDup (map (fun r => (ama_target r, ama_selector r)) items).
Proof.
  apply for_each_keyed. intros ks l j s H. unfold preset_argument_rule, parse_address in H.
  apply rbind_Ok in H as (target & Ht & H). apply ok_or_Ok in Ht.
  apply fail_if_Ok in H as [G1 H]. apply rbind_Ok in H as (sel & Hs & H).
  apply fail_if_Ok in H as [G2 H]. apply fail_if_Ok in H as [G3 H].
  apply fail_if_Ok in H as [G4 H]. apply Ok_Ok in H as <-. apply selector_exact in Hs.
  apply negb_false_iff, pinned_spec in G1. bool_to_prop.
  eexists. split; [reflexivity|]. split; [reflexivity|]. split; [assumption|]. split; auto.
  apply existsb_exists in G4 as (rule & Hin & Hr). apply list_elem_of_In in Hin.
  bool_to_prop. exists rule. auto.
Qed.

Record guard_resolved code_hashes (j : MembershipStateGuardJsonV4) (g : MembershipStateGuard)
  : Prop := {
  gdr_contract : address_from_str (mgj_contract j) = Some (msg_contract g);
  gdr_pinned : is_Some (code_hashes !! msg_contract g);
  gdr_slot : b256_from_str (mgj_storage_slot j) = Some (msg_storage_slot g);
  gdr_bits : msg_bit_offset g = mgj_bit_offset j /\ msg_bit_width g = mgj_bit_width j /\
    msg_bit_width g <> 0 /\ msg_bit_offset g + msg_bit_width g <= 256;
  gdr_values : msg_allowed_values g <> ∅ /\
    msg_allowed_values g = list_to_set (mgj_allowed_values j) /\
    NoDup (mgj_allowed_values j) /\
    forall v, v ∈ msg_allowed_values g -> v <= guard_mask (msg_bit_width g)
}.

Lemma allowed_values_spec mask values (s : gset Z) :
  for_each (preset_allowed_value mask) ∅ values = Ok s ->
  s = list_to_set values /\ NoDup values /\ forall v, v ∈ s -> v <= mask.
Proof.
  intros H. refine (for_each_inv (fun done (s : gset Z) => s = list_to_set done /\ NoDup done /\
    forall v, v ∈ s -> v <= mask) _ _ _ _ _ _ H).
  - split_and!; [reflexivity|constructor|set_solver].
  - intros done v s1 s2 (I1 & I2 & I3) _ Hb. unfold preset_allowed_value in Hb.
    apply fail_if_Ok in Hb as [G Hb]. apply Ok_Ok in Hb as <-. bool_to_prop. subst s1.
    rewrite list_to_set_app_L. split_and!.
    + cbn. set_solver.
    + apply NoDup_app. split_and!; [exact I2| |apply NoDup_singleton].
      intros k Hk ->%list_elem_of_singleton. apply H1, elem_of_list_to_set, Hk.
    + intros w Hw. apply elem_of_union in Hw as [->%elem_of_singleton|Hw]; auto.
Qed.

Definition guard_key (g : MembershipStateGuard) : Z * Z * Z * Z :=
  (msg_contract g, msg_storage_slot g, msg_bit_offset g, msg_bit_width g).

Lemma preset_guards_spec code_hashes js keys guards :
  for_each (preset_guard code_hashes) (∅, []) js = Ok (keys, guards) ->
  Forall2 (guard_resolved code_hashes) js guards /\ NoDup (map guard_key guards).
Proof.
  apply for_each_keyed.
  intros ks l j s H. unfold preset_guard, parse_address, parse_b256 in H.
  apply rbind_Ok in H as (c & Hc & H). apply ok_or_Ok in Hc. apply fail_if_Ok in H as [G1 H].
  apply rbind_Ok in H as (slot & Hs & H). apply ok_or_Ok in Hs.
  apply fail_if_Ok in H as [G2 H]. apply fail_if_Ok in H as [G3 H].
  apply rbind_Ok in H as (vs & Hv & H). apply allowed_values_spec in Hv as (V1 & V2 & V3).
  apply fail_if_Ok in H as [G4 H]. apply Ok_Ok in H as <-.
  apply negb_false_iff, pinned_spec in G1. bool_to_prop.
  eexists. split; [reflexivity|]. split; [reflexivity|]. split; [assumption|].
  split; cbn [msg_contract msg_storage_slot msg_bit_offset msg_bit_width msg_allowed_values];
    split_and?; auto; lia.
Qed.

Definition namespace_resolved (certified : bool) code_hashes (j : StorageNamespaceJsonV4)
    (n : StorageNamespace) : Prop :=
  address_from_str (snj_contract j) = Some (ns_contract n) /\
  b256_from_str (snj_slot_prefix j) = Some (ns_slot_prefix n) /\
  ns_prefix_bits n = snj_prefix_bits j /\ ns_prefix_bits n <= 256 /\
  ns_writable n = snj_writable j /\
  (certified = true -> pinned code_hashes (ns_contract n) = true).

(** The declared storage of the witness lies in the namespaces of pinned contracts. *)
Definition witness_covered code_hashes (namespaces : list StorageNamespace)
    (accounts : list CompactAccountWitnessV4) : Prop :=
  Forall (fun account => caw_storage account <> [] ->
    pinned code_hashes (caw_address account) = true /\
    Forall (fun slot => in_namespace namespaces (caw_address account) (csw_slot slot) = true)
      (caw_storage account)) accounts.

Lemma witness_covered_spec code_hashes namespaces accounts :
  for_each (witness_in_namespaces code_hashes namespaces) tt accounts = Ok tt ->
  witness_covered code_hashes namespaces accounts.
Proof.
  apply for_each_passed. intros [] a [] H Hne. unfold witness_in_namespaces in H.
  rewrite bool_decide_eq_false_2 in H by exact Hne. apply fail_if_Ok in H as [G1 H].
  apply fail_if_Ok in H as [G2 _]. apply negb_false_iff in G1. split; [exact G1|].
  rewrite existsb_false_iff in G2. apply Forall_forall. intros s Hs.
  apply negb_false_iff, G2, Hs.
Qed.

Lemma preset_namespaces_spec certified input preset code_hashes namespaces :
  preset_namespaces certified input preset code_hashes = Ok namespaces ->
  Forall2 (namespace_resolved certified code_hashes) (psj_storage_namespaces preset) namespaces /\
  (certified = true ->
   witness_covered code_hashes namespaces (cst_accounts (bi4_compact_state input))).
Proof.
  unfold preset_namespaces. intros H. apply rbind_Ok in H as (ns & Hn & H).
  apply rbind_Ok in H as ([] & Hw & H). apply Ok_Ok in H as <-. split.
  - revert Hn. apply for_each_collect. intros l j s Hb.
    unfold preset_namespace, parse_address, parse_b256 in Hb. apply fail_if_Ok in Hb as [G1 Hb].
    apply rbind_Ok in Hb as (c & Hc & Hb). apply ok_or_Ok in Hc.
    apply fail_if_Ok in Hb as [G2 Hb]. apply rbind_Ok in Hb as (pre & Hp & Hb).
    apply ok_or_Ok in Hp. apply Ok_Ok in Hb as <-. bool_to_prop.
    eexists. split; [reflexivity|]. split_and!; auto. intros ->. cbn in G2. bool_to_prop. exact G2.
  - intros ->. apply witness_covered_spec, Hw.
Qed.

(** The resource envelope, as accepted. *)
Record resources_ok input (r : ResourceEnvelopeJsonV4) (gas memory : Z) : Prop := {
  rso_blocks : zlen (bi4_blocks input) <= rej_max_blocks_per_batch r <= MAX_BATCH_BLOCKS_V4;
  rso_gas : from_str_radix U64_MAX 10 (rej_max_gas_per_block r) = Some gas /\ gas <> 0;
  rso_transactions : Forall (fun block =>
    zlen (bb4_raw_txs block) <= rej_max_transactions_per_block r) (bi4_blocks input);
  rso_witness : bi4_encoded_witness_bytes input <> 0 /\
    bi4_encoded_witness_bytes input <= rej_max_witness_bytes r <= MAX_BATCH_WITNESS_BYTES_V4;
  rso_memory : memory = rej_max_memory_pages r * 65536 /\ rej_max_memory_pages r <= 4096;
  rso_accounts : zlen (cst_accounts (bi4_compact_state input)) <= rej_max_touched_accounts r
    <= MAX_COMPACT_ACCOUNTS_V4;
  rso_slots : touched_slot_count (cst_accounts (bi4_compact_state input))
    <= rej_max_touched_storage_slots r <= MAX_COMPACT_STORAGE_SLOTS_V4;
  rso_json : zlen (bi4_canonical_preset_json input) <= 256 * 1024 /\
    zlen (bi4_canonical_exit_program_json input) <= 64 * 1024
}.

Lemma preset_resources_spec input r gas memory :
  preset_resources input r = Ok (gas, memory) -> resources_ok input r gas memory.
Proof.
  unfold preset_resources. intros H. apply fail_if_Ok in H as [G1 H].
  apply rbind_Ok in H as (g & Hg & H). apply ok_or_Ok in Hg. apply fail_if_Ok in H as [G2 H].
  apply fail_if_Ok in H as [G3 H]. apply rbind_Ok in H as (m & Hm & H). apply ok_or_Ok in Hm.
  apply fail_if_Ok in H as [G4 H]. apply fail_if_Ok in H as [G5 H].
  apply rbind_Ok in H as ([] & Ht & H). injection H as <- <-.
  unfold checked_mul in Hm. destruct (_ <=? _); [|discriminate]. injection Hm as <-.
  unfold resource_invalid in G2. bool_to_prop. split; auto; try lia.
  revert Ht. apply for_each_passed. intros [] b [] Hb. unfold block_transactions_capped in Hb.
  apply fail_if_Ok in Hb as [Hb _]. apply Z.ltb_ge in Hb. exact Hb.
Qed.

(** The asset list of an accepted preset. *)
Lemma preset_assets_spec ids s :
  for_each preset_asset None ids = Ok s ->
  key_sorted id ids /\ Forall (fun a => a < 16) ids.
Proof.
  intros H. assert (G : (key_sorted id ids /\ Forall (fun a => a < 16) ids) /\ s = last ids);
    [|tauto].
  refine (for_each_inv (fun done s => (key_sorted id done /\ Forall (fun a => a < 16) done)
    /\ s = last done) _ _ _ _ _ _ H); [repeat constructor|].
  intros done a s1 s2 [[I1 I2] ->] _ Hb. unfold preset_asset in Hb.
  apply fail_if_Ok in Hb as [G Hb]. apply Ok_Ok in Hb as <-. bool_to_prop.
  split; [|rewrite last_snoc; reflexivity]. split.
  - apply key_sorted_snoc_iff. split; [exact I1|]. destruct (last done); assumption.
  - apply Forall_app. split; [exact I2|]. repeat constructor. assumption.
Qed.

(** ** The contract of an accepted v4 preset *)

(** What only a certified preset guarantees. *)
Record certified_preset input (accounts : gmap Z AccountRecord) p : Prop := {
  cpr_no_create : xp_allow_contract_creation p = false;
  cpr_no_selfdestruct : xp_allow_self_destruct p = false;
  cpr_pins : xp_code_hashes p <> ∅;
  cpr_code_covered : code_covered accounts (xp_code_hashes p);
  cpr_rules : Forall (rule_pinned (xp_code_hashes p)) (xp_call_rules p);
  cpr_namespaces : Forall (fun n => pinned (xp_code_hashes p) (ns_contract n) = true)
    (xp_storage_namespaces p);
  cpr_storage_covered : witness_covered (xp_code_hashes p) (xp_storage_namespaces p)
    (cst_accounts (bi4_compact_state input))
}.

(** The roster of the input: seven well-formed slots in order, no two active ones with the
    same account, authenticated by the announced masks and root, and the set of its active
    accounts. *)
Record roster_accepted input (active : gset Z) : Prop := {
  rac_seven : length (bi4_pre_roster_slots input) = 7%nat;
  rac_shape : shape_for is_active (bi4_pre_roster_slots input);
  rac_masks : bi4_active_mask input = mask is_active (bi4_pre_roster_slots input) /\
    bi4_pre_used_mask input = mask is_used (bi4_pre_roster_slots input);
  rac_root : member_roster_root_v4 (bi4_pre_roster_slots input)
    = Some (bi4_pre_roster_root input);
  rac_active : forall a, a ∈ active <->
    exists s, s ∈ bi4_pre_roster_slots input /\ is_active s = true /\ msl_account s = a
}.

Lemma roster_accepted_spec input active :
  verify_roster (bi4_pre_roster_slots input) (bi4_pre_roster_root input)
    (bi4_active_mask input) (bi4_pre_used_mask input) = Ok active ->
  roster_accepted input active.
Proof.
  intros (H1 & H2 & H3 & H4 & H5 & ->)%verify_roster_spec. split; auto.
  intros a. apply active_set_elem.
Qed.

Record preset_accepted input (accounts : gmap Z AccountRecord) preset p : Prop := {
  pa_hash : keccak256 (bi4_canonical_preset_json input) = bi4_preset_hash input;
  pa_version : psj_version preset = 4 /\ psj_fork preset = b_ "osaka";
  pa_level : psj_execution_level preset
    = if xp_certified p then b_ "certified" else b_ "generic";
  pa_exit_program : b256_from_str (psj_exit_program_id preset) = Some (xp_exit_program_id p);
  pa_assets : xp_preset_asset_ids p = psj_asset_ids preset /\
    key_sorted id (xp_preset_asset_ids p) /\ Forall (fun a => a < 16) (xp_preset_asset_ids p);
  pa_resources : resources_ok input (psj_resources preset) (xp_max_gas_per_block p)
    (xp_max_memory_bytes p);
  pa_members : roster_accepted input (xp_active_members p);
  pa_codes : pins_named (psj_code preset) (xp_code_hashes p);
  pa_pins : pins_hold accounts (xp_code_hashes p);
  pa_domains : exists bound,
    Forall2 (domain_bound input (xp_code_hashes p) accounts)
      (psj_application_domain_bindings preset) bound /\ NoDup bound;
  pa_calls : Forall2 (call_resolved (xp_certified p) (xp_code_hashes p)) (psj_call_rules preset)
    (xp_call_rules p) /\ NoDup (map rule_key (xp_call_rules p));
  pa_arguments : Forall2 (argument_resolved (xp_code_hashes p) (xp_call_rules p))
    (psj_active_member_argument_rules preset) (xp_active_member_argument_rules p) /\
    NoDup (map (fun r => (ama_target r, ama_selector r)) (xp_active_member_argument_rules p));
  pa_guards : Forall2 (guard_resolved (xp_code_hashes p)) (psj_membership_state_guards preset)
    (xp_membership_state_guards p) /\ NoDup (map guard_key (xp_membership_state_guards p));
  pa_namespaces : Forall2 (namespace_resolved (xp_certified p) (xp_code_hashes p))
    (psj_storage_namespaces preset) (xp_storage_namespaces p);
  pa_changed : xp_membership_changed p = true <-> bi4_membership_deltas input <> [];
  pa_guards_hold : guards_ok p accounts;
  pa_certified : xp_certified p = true -> certified_preset input accounts p
}.

Lemma authenticate_preset_spec json hash preset :
  authenticate_preset json hash = Ok preset ->
  keccak256 json = hash /\ psj_version preset = 4 /\ psj_fork preset = b_ "osaka" /\
  exists value, json_from_slice json = Some value /\ json_to_vec value = Some json /\
    preset_from_value value = Some preset.
Proof.
  unfold authenticate_preset. intros H. apply rbind_Ok in H as (v & Hv & H).
  apply rbind_Ok in H as (c & Hc & H). apply fail_if_Ok in H as [G1 H].
  apply negb_bool_decide_false in G1 as ->. apply fail_if_Ok in H as [G2 H].
  apply rbind_Ok in H as (q & Hq & H). apply fail_if_Ok in H as [G3 H].
  apply Ok_Ok in H as <-. apply ok_or_Ok in Hv, Hc, Hq. bool_to_prop. eauto 8.
Qed.

Lemma execution_level_spec preset certified :
  execution_level preset = Ok certified ->
  psj_execution_level preset = if certified then b_ "certified" else b_ "generic".
Proof.
  unfold execution_level. intros H. case_bool_decide as G1; [injection H as <-; exact G1|].
  case_bool_decide as G2; [injection H as <-; exact G2|discriminate].
Qed.

Lemma Forall2_Forall_r' {A B} (R : A -> B -> Prop) (P : B -> Prop) l k :
  (forall a b, R a b -> P b) -> Forall2 R l k -> Forall P k.
Proof. intros H Hf. induction Hf; constructor; eauto. Qed.

Lemma from_input_spec input state p :
  from_input input state = Ok p ->
  exists value preset, json_from_slice (bi4_canonical_preset_json input) = Some value /\
    json_to_vec value = Some (bi4_canonical_preset_json input) /\
    preset_from_value value = Some preset /\
    preset_accepted input (sm_accounts state) preset p.
Proof.
  unfold from_input. intros H. apply rbind_Ok in H as (preset & Ha & H).
  apply authenticate_preset_spec in Ha as (Hhash & Hver & Hfork & value & J1 & J2 & J3).
  apply rbind_Ok in H as (certified & Hl & H). apply execution_level_spec in Hl.
  apply rbind_Ok in H as (exit_id & He & H). apply ok_or_Ok in He.
  apply rbind_Ok in H as (last_asset & Hs & H). apply preset_assets_spec in Hs as [Hs1 Hs2].
  apply rbind_Ok in H as ([gas memory] & Hr & H). apply preset_resources_spec in Hr.
  apply rbind_Ok in H as (members & Hm & H). apply roster_accepted_spec in Hm.
  apply rbind_Ok in H as (ch & Hc & H). apply preset_codes_spec in Hc as (Hc0 & Hc1 & Hc2).
  apply rbind_Ok in H as (dk & Hd & H). apply preset_domains_spec in Hd.
  apply rbind_Ok in H as ([ck rules] & Hcr & H). apply preset_calls_spec in Hcr.
  apply rbind_Ok in H as ([ak args] & Hag & H). apply preset_arguments_spec in Hag.
  apply rbind_Ok in H as ([gk guards] & Hg & H). apply preset_guards_spec in Hg.
  apply rbind_Ok in H as (namespaces & Hn & H). apply preset_namespaces_spec in Hn as [Hn1 Hn2].
  apply rbind_Ok in H as ([] & Hgs & H). apply guards_spec in Hgs. apply Ok_Ok in H as <-.
  exists value, preset. split_and!; auto. split; cbn; auto.
  - rewrite negb_true_iff, bool_decide_eq_false. reflexivity.
  - intros ->. destruct (Hc2 eq_refl) as (Q1 & Q2 & Q3 & Q4). split; cbn; auto.
    + destruct Hcr as [Hcr _]. revert Hcr. apply Forall2_Forall_r'. intros j r Hres. apply (clr_pinned _ _ _ _ Hres).
      reflexivity.
    + revert Hn1. apply Forall2_Forall_r'. intros j n (_ & _ & _ & _ & _ & Hn'). auto.
Qed.
End PresetFacts.

(** ** Selector text *)
Definition hex_digit (d : Z) : Z := if d <? 10 then 48 + d else 87 + d.
Definition hex_byte (b : Z) : bytes := [hex_digit (b / 16); hex_digit (b mod 16)].
(** ["0x"] and two lower-case digits per byte. *)
Definition selector_text (selector : bytes) : bytes :=
  b_ "0x" ++ concat (map hex_byte selector).

Lemma hex_digit_value d : 0 <= d < 16 -> hex_value (hex_digit d) d.
Proof.
  intros H. unfold hex_digit. destruct (Z.ltb_spec d 10); constructor; lia.
Qed.

Lemma hex_byte_text b : is_byte b -> byte_text (hex_byte b) b.
Proof.
  intros [H1 H2]. unfold hex_byte. rewrite (Z.div_mod b 16) at 3 by lia.
  constructor; apply hex_digit_value.
  - split; [apply Z.div_pos|apply Z.div_lt_upper_bound]; lia.
  - apply Z.mod_pos_bound. lia.
Qed.

Lemma selector_roundtrip selector :
  length selector = 4%nat -> Forall is_byte selector ->
  parse_selector (selector_text selector) = Ok selector.
Proof.
  intros Hl Hs. destruct selector as [|a [|b [|c [|d [|]]]]]; try discriminate.
  rewrite !Forall_cons in Hs. destruct Hs as (H1 & H2 & H3 & H4 & _). apply selector_exact.
  exact (selector_of _ _ _ _ _ _ _ _ (hex_byte_text _ H1) (hex_byte_text _ H2)
    (hex_byte_text _ H3) (hex_byte_text _ H4)).
Qed.

Section Claims.
Context {KK : Keccak} {RV : Revm} {EC : ExitProgramCodec} {PC : PresetCodec}
  {OP : OsakaPrecompiles}.
Implicit Types (state : StateMap) (input : BatchInputV4) (p : ExecutionPolicyV4).

(** C17: an accepted v4 preset is the canonical JSON that hashes to presetHash, and the
    policy it resolves to means what the JSON says and holds on the authenticated prestate.
    The members are the active accounts of the roster that the announced root and masks
    authenticate. The code pins are the declared commitments, one per address, each live with
    exactly that code. Every application-domain slot, named once, holds the room's derived
    domain under a printable tag. Each call rule, one per caller and target, allows exactly the
    selectors its texts denote (each once) and exactly the call kinds it names; each argument
    rule (one per target and selector) belongs to an active-member entry point; each guard (one
    per contract, slot and bit range) lists its values once within its field; the namespaces
    are the declared ones in order. The batch fits the resource envelope, and a certified
    preset covers all executable code and all declared storage. What a selector text denotes
    and how a kind is named are stated apart from the parser. *)
Theorem from_input_sound input state p :
  from_input input state = Ok p ->
  exists value preset, json_from_slice (bi4_canonical_preset_json input) = Some value /\
    json_to_vec value = Some (bi4_canonical_preset_json input) /\
    preset_from_value value = Some preset /\
    preset_accepted input (sm_accounts state) preset p.
Proof. apply from_input_spec. Qed.

Lemma certified_preset_confining input state p :
  from_input input state = Ok p -> xp_certified p = true -> confining (sm_accounts state) p.
Proof.
  intros (value & preset & _ & _ & _ & A)%from_input_spec Hc.
  destruct (pa_certified _ _ _ _ A Hc). split; auto. apply (pa_pins _ _ _ _ A).
Qed.

End Claims.

(** Every four-byte selector survives its hexadecimal text. *)
Theorem parse_selector_roundtrip selector :
  length selector = 4%nat -> Forall is_byte selector ->
  parse_selector (selector_text selector) = Ok selector.
Proof. apply selector_roundtrip. Qed.

(** Text that is not hexadecimal is accepted as well: [u8::from_str_radix] reads a sign. *)
Lemma selector_sign_accepted : parse_selector (b_ "0x+1+2+3+4") = Ok [1; 2; 3; 4].
Proof. reflexivity. Qed.

(** ** Witnesses: a certified preset with one pinned contract bound to the room's domain *)

(** JSON as opaque bytes and text as the big-endian bytes of what it names. *)
Definition hall_preset_json : bytes := [1].
Definition hall_exit_json : bytes := [2].
Definition hall_codec : ExitProgramCodec := {|
  JsonValue := bytes;
  json_from_slice := Some;
  json_to_vec := Some;
  exit_program_from_value v :=
    if bool_decide (v = hall_exit_json)
    then Some (mk_ExitProgramJsonV4 4 [mk_ExitAssetJsonV4 0 (b_ "native") None None None] [])
    else None;
  address_from_str s := Some (of_be s)
|}.
Definition hall_code : bytes := [0x60; 0x00].
Definition hall_preset : PresetJsonV4 :=
  mk_PresetJsonV4 4 (b_ "certified") (b_ "osaka")
    [mk_CodeJsonV4 [50] (be_bytes 32 (@keccak256 toy_keccak hall_code))]
    [mk_CallRuleJsonV4 [0] [50] [b_ "0x01020304"] [b_ "call"]]
    [mk_StorageNamespaceJsonV4 [50] [0] 0 true]
    [mk_ApplicationDomainBindingJsonV4 [50] [8] (b_ "hall")]
    []
    [mk_MembershipStateGuardJsonV4 [50] [9] 0 8 [0; 5]]
    (mk_ResourceEnvelopeJsonV4 4 8 (b_ "30000000") 1000 64 16 64)
    false false (be_bytes 32 (@keccak256 toy_keccak hall_exit_json)) [0].
Definition hall_preset_of (value : bytes) : option PresetJsonV4 :=
  if bool_decide (value = hall_preset_json) then Some hall_preset else None.
Definition hall_presets : @PresetCodec hall_codec :=
  @Build_PresetCodec hall_codec hall_preset_of (fun s => Some (of_be s)).

#[local] Existing Instance toy_keccak.
#[local] Existing Instance toy_revm.
#[local] Existing Instance hall_codec.
#[local] Existing Instance hall_presets.
#[local] Instance toy_precompiles : OsakaPrecompiles := fun a => (1 <=? a) && (a <=? 17).

Definition hall_domain : Z := Eval vm_compute in application_domain_v4 (b_ "hall") 3 7.
Definition hall_compact : CompactStateWitnessV4 :=
  mk_CompactStateWitnessV4 0
    [ mk_CompactAccountWitnessV4 50 true 1 0 hall_code 11 []
        [mk_CompactStorageWitnessV4 8 hall_domain []; mk_CompactStorageWitnessV4 9 0 []];
      mk_CompactAccountWitnessV4 101 true 0 30 [] 11 [] [] ].
Definition hall_state : StateMap :=
  set_accounts {[ 50 := mk_AccountRecord 1 0 hall_code {[ 8 := hall_domain ]};
                  101 := mk_AccountRecord 0 30 [] ∅ ]} StateMap_default.
Definition hall_post : StateMap :=
  set_accounts {[ 50 := mk_AccountRecord 1 0 hall_code {[ 8 := hall_domain; 9 := 5 ]};
                  101 := mk_AccountRecord 1 30 [] ∅ ]} StateMap_default.
Definition hall_roster : list MemberSlotWitnessV4 :=
  mk_MemberSlotWitnessV4 0 1 101 0 None :: map empty_slot [1; 2; 3; 4; 5; 6].
Definition hall_roster_root : Z := Eval vm_compute in demo_root hall_roster.
Definition hall_input : BatchInputV4 :=
  mk_BatchInputV4 500 3 7 (keccak256 hall_preset_json) 0 0 0 0 0 0 hall_roster_root 0 1 1
    0 0 0 0 0 0 0 0 0 0 0 0 false 0 hall_preset_json hall_exit_json hall_roster [] [] []
    [] [] [] hall_compact [].
Definition hall_policy : ExecutionPolicyV4 :=
  match from_input hall_input hall_state with Ok p => p | Err _ => legacy_unrestricted end.
Lemma hall_accepted : from_input hall_input hall_state = Ok hall_policy.
Proof. vm_compute. reflexivity. Qed.

Lemma from_input_sound_witness :
  exists preset, preset_accepted hall_input (sm_accounts hall_state) preset hall_policy /\
    xp_certified hall_policy = true.
Proof.
  destruct (from_input_sound hall_input hall_state hall_policy hall_accepted)
    as (v & preset & _ & _ & _ & H).
  exists preset. split; [exact H|]. vm_compute. reflexivity.
Defined.


Lemma parse_selector_roundtrip_witness :
  parse_selector (b_ "0xa9059cbb") = Ok [0xa9; 0x05; 0x9c; 0xbb].
Proof.
  apply (parse_selector_roundtrip [0xa9; 0x05; 0x9c; 0xbb]); [reflexivity|].
  refine (bool_decide_unpack _ _). vm_compute. exact I.
Defined.
