(* ===== verification/InboxV4.v ===== *)
(** * The inbox segment of a v4 batch: stf-core/src/settlement/inbox.rs

    [apply_inbox_v4] checks the segment against the cursors, resolves every
    entry (consumed, skipped, already refunded) and credits the consumed ones.
    The source writes each resolved status into its own copy of the entries at
    the entry's offset; here the resolved copy is built by appending. *)

From S2P Require Import Prelude Types Abi Merkle HashV5 HashV4 State StateEvm Policy.
From S2P Require Import Settlement RosterV4.
Open Scope Z_scope.

(** [x as usize] on the guest. *)
Definition as_usize (x : Z) : Z := x mod (USIZE_MAX + 1).

Definition set_status (entry : InboxEntryWitnessV4) (status : Z) : InboxEntryWitnessV4 :=
  mk_InboxEntryWitnessV4 (inb_index entry) (inb_kind entry) (inb_account entry)
    (inb_beneficiary_slot entry) status (inb_deposits entry).

Section Inbox.
Context {KK : Keccak} {RV : Revm}.

Definition is_activation (delta : MembershipDeltaWitnessV4) : bool :=
  mdl_action delta =? MEMBER_ACTIVATE.

(** [deltas.iter().filter(..).map(..).collect::<BTreeMap>()]. *)
Definition activations_of (deltas : list MembershipDeltaWitnessV4)
  : gmap Z MembershipDeltaWitnessV4 :=
  foldl (fun m delta => <[mdl_join_request_index delta := delta]> m) ∅
        (filter is_activation deltas).

Definition inbox_deposit_check (program : ExitProgramV4) (previous_asset : option Z)
    (deposit : InboxAssetAmountV4) : result string (option Z) :=
  fail_if (iaa_amount deposit =? 0) || not_after previous_asset (iaa_asset_id deposit)
    with "inbox deposits must be positive and sorted unique"%string in
  let? _ := asset program (iaa_asset_id deposit) in
  Ok (Some (iaa_asset_id deposit)).

Definition inbox_entry_check (program : ExitProgramV4) (cursor_before offset : Z)
    (entry : InboxEntryWitnessV4) : result string unit :=
  let? expected_index := ok_or (checked_add U64_MAX cursor_before (offset + 1))
                           "inbox index overflow"%string in
  fail_if negb (inb_index entry =? expected_index)
    with "inbox entry has an unexpected index"%string in
  fail_if (zlen (inb_deposits entry) =? 0) || (MAX_ASSETS <? zlen (inb_deposits entry))
    with "inbox entry has invalid deposit count"%string in
  fail_if negb (inb_status entry =? INBOX_PENDING) && negb (inb_status entry =? INBOX_REFUNDED)
    with "inbox entry input status is not Pending/Refunded"%string in
  let? _ := for_each (inbox_deposit_check program) None (inb_deposits entry) in
  Ok tt.

(** The [match entry.kind]: the resolved status and, when the entry is
    consumed, the credited account; [None] is the source's [continue]. *)
Definition resolve_deposit (pre_roster : list MemberSlotWitnessV4)
    (entry : InboxEntryWitnessV4) : result string (Z * option Z) :=
  fail_if negb (zlen (inb_deposits entry) =? 1) || (MAX_MEMBERS <=? inb_beneficiary_slot entry)
    with "top-up inbox entry is malformed"%string in
  if inb_status entry =? INBOX_REFUNDED then Ok (inb_status entry, None) else
  let? slot := ok_or (znth pre_roster (inb_beneficiary_slot entry)) index_panic in
  if negb (msl_state slot =? MEMBER_ACTIVE) || negb (msl_account slot =? inb_account entry)
  then Ok (INBOX_SKIPPED, None)
  else Ok (INBOX_CONSUMED, Some (msl_account slot)).

Definition resolve_join (activations : gmap Z MembershipDeltaWitnessV4)
    (post_roster : list MemberSlotWitnessV4)
    (entry : InboxEntryWitnessV4) : result string (Z * option Z) :=
  fail_if negb (inb_beneficiary_slot entry =? JOIN_SLOT_SENTINEL)
       || (inb_account entry =? Address_ZERO)
    with "join inbox entry is malformed"%string in
  if inb_status entry =? INBOX_REFUNDED then
    fail_if bool_decide (is_Some (activations !! inb_index entry))
      with "refunded join inbox entry cannot activate"%string in
    Ok (inb_status entry, None)
  else match activations !! inb_index entry with
  | None => Ok (INBOX_SKIPPED, None)
  | Some delta =>
      fail_if negb (mdl_member delta =? inb_account entry)
        with "join inbox entry does not match activation acceptance"%string in
      let? slot := ok_or (znth post_roster (mdl_slot delta)) index_panic in
      fail_if negb (msl_state slot =? MEMBER_ACTIVE)
           || negb (msl_account slot =? inb_account entry)
        with "join inbox entry does not match post-roster"%string in
      Ok (INBOX_CONSUMED, Some (msl_account slot))
  end.

Definition resolve_entry (activations : gmap Z MembershipDeltaWitnessV4)
    (pre_roster post_roster : list MemberSlotWitnessV4)
    (entry : InboxEntryWitnessV4) : result string (Z * option Z) :=
  if inb_kind entry =? INBOX_DEPOSIT then resolve_deposit pre_roster entry
  else if inb_kind entry =? INBOX_JOIN then resolve_join activations post_roster entry
  else Err "inbox entry has unsupported kind"%string.

Definition inbox_credit (program : ExitProgramV4) (recipient : Z) (state : StateMap)
    (deposit : InboxAssetAmountV4) : result string StateMap :=
  credit program state (iaa_asset_id deposit) recipient (iaa_amount deposit).

Record InboxState := mk_InboxState {
  ibs_state : StateMap;
  ibs_consumed_joins : gset Z;
  ibs_resolved : list InboxEntryWitnessV4
}.

Definition inbox_step (program : ExitProgramV4)
    (activations : gmap Z MembershipDeltaWitnessV4)
    (pre_roster post_roster : list MemberSlotWitnessV4) (cursor_before : Z)
    (s : InboxState) (item : Z * InboxEntryWitnessV4) : result string InboxState :=
  let '(offset, entry) := item in
  let? _ := inbox_entry_check program cursor_before offset entry in
  let? (status, recipient) := resolve_entry activations pre_roster post_roster entry in
  let resolved := ibs_resolved s ++ [set_status entry status] in
  match recipient with
  | None => Ok (mk_InboxState (ibs_state s) (ibs_consumed_joins s) resolved)
  | Some recipient =>
      let consumed := if inb_kind entry =? INBOX_JOIN
                      then {[inb_index entry]} ∪ ibs_consumed_joins s
                      else ibs_consumed_joins s in
      let? state := for_each (inbox_credit program recipient) (ibs_state s)
                      (inb_deposits entry) in
      Ok (mk_InboxState state consumed resolved)
  end.

Definition apply_inbox_v4 (program : ExitProgramV4) (state : StateMap)
    (entries : list InboxEntryWitnessV4) (deltas : list MembershipDeltaWitnessV4)
    (pre_roster post_roster : list MemberSlotWitnessV4) (cursor_before cursor_after : Z)
  : result string (Z * StateMap) :=
  fail_if cursor_after <? cursor_before with "inbox cursor moved backwards"%string in
  let? range := ok_or (checked_sub cursor_after cursor_before)
                  "inbox cursor underflow"%string in
  fail_if negb (zlen entries =? as_usize range)
    with "inbox preimage length does not cover the cursor range"%string in
  let activations := activations_of deltas in
  fail_if negb (Nat.eqb (size activations) (length (filter is_activation deltas)))
    with "activation deltas reuse a join request index"%string in
  let? s := for_each (inbox_step program activations pre_roster post_roster cursor_before)
              (mk_InboxState state ∅ []) (enumerate entries) in
  fail_if negb (Nat.eqb (size (ibs_consumed_joins s)) (size activations))
    with "an activation delta does not consume an inbox join request in this segment"%string in
  Ok (hash_inbox_entries_v4 (ibs_resolved s), ibs_state s).
End Inbox.

(** * Properties *)
Section Facts.
Context {KK : Keccak} {RV : Revm}.

(** What consuming a deposit of [amount] of an asset adds to a native balance
    and to a storage slot. *)
Definition native_credit (program : ExitProgramV4) (recipient : Z)
    (x : Z) (deposit : InboxAssetAmountV4) : Z :=
  match asset program (iaa_asset_id deposit) with
  | Ok a => match xa_kind a with
            | Native => if decide (recipient = x) then iaa_amount deposit else 0
            | Erc20 _ _ _ => 0
            end
  | Err _ => 0
  end.
Definition slot_credit (program : ExitProgramV4) (recipient : Z)
    (t s : Z) (deposit : InboxAssetAmountV4) : Z :=
  match asset program (iaa_asset_id deposit) with
  | Ok a => match xa_kind a with
            | Native => 0
            | Erc20 token balance_slot supply_slot =>
                (if decide ((token, mapping_slot recipient balance_slot) = (t, s))
                 then iaa_amount deposit else 0)
                + (if decide ((token, supply_slot) = (t, s)) then iaa_amount deposit else 0)
            end
  | Err _ => 0
  end.

(** The same over the consumed entries of a resolved segment. *)
Definition entry_credits (f : Z -> InboxAssetAmountV4 -> Z)
    (entry : InboxEntryWitnessV4) : Z :=
  if inb_status entry =? INBOX_CONSUMED
  then zsum (map (f (inb_account entry)) (inb_deposits entry)) else 0.
Definition segment_credits (f : Z -> InboxAssetAmountV4 -> Z)
    (entries : list InboxEntryWitnessV4) : Z :=
  zsum (map (entry_credits f) entries).

Lemma credit_deposits_spec program recipient state deposits state' :
  for_each (inbox_credit program recipient) state deposits = Ok state' ->
  (forall x, native_balance (sm_accounts state') x = native_balance (sm_accounts state) x
     + zsum (map (native_credit program recipient x) deposits)) /\
  (forall t s, storage_value (sm_accounts state') t s = storage_value (sm_accounts state) t s
     + zsum (map (slot_credit program recipient t s) deposits)).
Proof.
  revert state. induction deposits as [|d deposits IH]; intros state H; cbn [for_each] in H.
  { injection H as <-. unfold zsum. cbn. split; intros; lia. }
  destruct (inbox_credit program recipient state d) as [s1|] eqn:E1; cbn [rbind] in H;
    [|discriminate].
  destruct (IH s1 H) as [B S]. unfold inbox_credit in E1.
  apply credit_spec in E1 as (_ & a & Ha & K).
  split; intros; cbn [map]; unfold zsum in *; cbn [foldr].
  - rewrite B. unfold native_credit at 2. rewrite Ha. destruct (xa_kind a).
    + destruct K as (_ & K & _). rewrite K. lia.
    + destruct K as (K & _). rewrite K. lia.
  - rewrite S. unfold slot_credit at 2. rewrite Ha. destruct (xa_kind a).
    + destruct K as (_ & _ & K). rewrite K. lia.
    + destruct K as (_ & K). rewrite K. lia.
Qed.

(** ** Resolution of one entry *)

(** The membership fact that lets an entry be consumed. *)
Definition consumable (activations : gmap Z MembershipDeltaWitnessV4)
    (pre_roster : list MemberSlotWitnessV4) (entry : InboxEntryWitnessV4) : Prop :=
  inb_status entry = INBOX_PENDING /\
  ((inb_kind entry = INBOX_DEPOSIT /\
    exists slot, znth pre_roster (inb_beneficiary_slot entry) = Some slot /\
      msl_state slot = MEMBER_ACTIVE /\ msl_account slot = inb_account entry) \/
   (inb_kind entry = INBOX_JOIN /\
    exists delta, activations !! inb_index entry = Some delta)).

Record resolved_as (activations : gmap Z MembershipDeltaWitnessV4)
    (pre_roster post_roster : list MemberSlotWitnessV4)
    (entry resolved : InboxEntryWitnessV4) : Prop := {
  ra_frame : resolved = set_status entry (inb_status resolved);
  ra_refunded : inb_status entry = INBOX_REFUNDED -> inb_status resolved = INBOX_REFUNDED;
  ra_consumed : inb_status resolved = INBOX_CONSUMED
                <-> consumable activations pre_roster entry;
  ra_skipped : inb_status resolved = INBOX_SKIPPED <->
    inb_status entry = INBOX_PENDING /\ ~ consumable activations pre_roster entry;
  ra_join : inb_kind entry = INBOX_JOIN -> inb_status resolved = INBOX_CONSUMED ->
    exists delta slot, activations !! inb_index entry = Some delta /\
      mdl_member delta = inb_account entry /\ znth post_roster (mdl_slot delta) = Some slot /\
      msl_state slot = MEMBER_ACTIVE /\ msl_account slot = inb_account entry
}.

Lemma resolve_entry_spec activations pre post entry status recipient :
  (inb_status entry = INBOX_PENDING \/ inb_status entry = INBOX_REFUNDED) ->
  resolve_entry activations pre post entry = Ok (status, recipient) ->
  resolved_as activations pre post entry (set_status entry status) /\
  recipient = (if status =? INBOX_CONSUMED then Some (inb_account entry) else None) /\
  (inb_kind entry = INBOX_DEPOSIT \/ inb_kind entry = INBOX_JOIN).
Proof.
  unfold resolve_entry. intros Hst H.
  assert (D : INBOX_PENDING <> INBOX_REFUNDED) by discriminate.
  destruct (Z.eqb_spec (inb_kind entry) INBOX_DEPOSIT) as [Hk|Hk].
  - unfold resolve_deposit in H. destruct (_ || _); [discriminate|].
    destruct (Z.eqb_spec (inb_status entry) INBOX_REFUNDED) as [Hr|Hr].
    { injection H as <- <-. rewrite Hr. split_and!; [|reflexivity|auto].
      split; unfold consumable; cbn; rewrite ?Hr, ?Hk; try easy; naive_solver. }
    destruct Hst as [Hp|]; [|contradiction].
    destruct (znth pre (inb_beneficiary_slot entry)) as [slot|] eqn:Es; cbn [ok_or rbind] in H;
      [|discriminate].
    destruct (negb (msl_state slot =? MEMBER_ACTIVE) || _) eqn:G; injection H as <- <-.
    + split_and!; [|reflexivity|auto].
      assert (N : ~ consumable activations pre entry).
      { intros [_ [(_ & sl & Hs & H1 & H2)|(Hj & _)]];
          [|rewrite Hk in Hj; discriminate].
        rewrite Es in Hs. injection Hs as <-. rewrite H1, H2, !Z.eqb_refl in G. discriminate. }
      split; cbn; try easy; try (rewrite Hp; easy); rewrite Hk; discriminate.
    + bool_to_prop. split_and!; [|cbn; congruence|auto].
      assert (C : consumable activations pre entry).
      { split; [exact Hp|]. left. split; [exact Hk|]. eauto. }
      split; cbn; try easy; try (rewrite Hp; easy); rewrite Hk; discriminate.
  - destruct (Z.eqb_spec (inb_kind entry) INBOX_JOIN) as [Hj|]; [|discriminate].
    unfold resolve_join in H. destruct (_ || _); [discriminate|].
    destruct (Z.eqb_spec (inb_status entry) INBOX_REFUNDED) as [Hr|Hr].
    { rewrite bool_decide_is_Some in H.
      destruct (activations !! inb_index entry); [discriminate|].
      injection H as <- <-. rewrite Hr. split_and!; [|reflexivity|auto].
      split; unfold consumable; cbn; rewrite ?Hr, ?Hk; try easy; naive_solver. }
    destruct Hst as [Hp|]; [|contradiction].
    destruct (activations !! inb_index entry) as [d|] eqn:Ed.
    + destruct (Z.eqb_spec (mdl_member d) (inb_account entry)) as [Hm|]; [|discriminate].
      cbn [negb] in H.
      destruct (znth post (mdl_slot d)) as [slot|] eqn:Es; cbn [ok_or rbind] in H;
        [|discriminate].
      destruct (_ || _) eqn:G; [discriminate|]. injection H as <- <-. bool_to_prop.
      split_and!; [|cbn; congruence|auto].
      assert (C : consumable activations pre entry).
      { split; [exact Hp|]. right. split; [exact Hj|]. eauto. }
      split; cbn; try easy; try (rewrite Hp; easy).
      intros _ _. exists d, slot. auto.
    + injection H as <- <-. split_and!; [|reflexivity|auto].
      assert (N : ~ consumable activations pre entry).
      { intros [_ [(Hd & _)|(_ & dl & Hd)]]; [contradiction|]. congruence. }
      split; cbn; try easy; try (rewrite Hp; easy).
Qed.

Lemma entry_check_spec program cursor offset entry :
  inbox_entry_check program cursor offset entry = Ok tt ->
  inb_index entry = cursor + (offset + 1) /\
  (inb_status entry = INBOX_PENDING \/ inb_status entry = INBOX_REFUNDED) /\
  1 <= zlen (inb_deposits entry) <= MAX_ASSETS.
Proof.
  unfold inbox_entry_check, checked_add. intros H.
  destruct (_ <=? U64_MAX); cbn [ok_or rbind] in H; [|discriminate].
  destruct (Z.eqb_spec (inb_index entry) (cursor + (offset + 1))); [|discriminate].
  cbn [negb] in H.
  destruct ((zlen (inb_deposits entry) =? 0) || _) eqn:G1; [discriminate|].
  destruct (_ && _) eqn:G2; [discriminate|]. bool_to_prop.
  split; [assumption|]. split; [|unfold zlen in *; lia].
  apply andb_false_iff in G2 as [G2|G2]; bool_to_prop; auto.
Qed.

(** The loop invariant over the processed prefix. *)
Record inbox_inv (program : ExitProgramV4) (activations : gmap Z MembershipDeltaWitnessV4)
    (pre post : list MemberSlotWitnessV4) (cursor : Z) (state : StateMap)
    (done : list (Z * InboxEntryWitnessV4)) (s : InboxState) : Prop := {
  ii_resolved : Forall2 (resolved_as activations pre post) (map snd done) (ibs_resolved s);
  ii_native : forall x, native_balance (sm_accounts (ibs_state s)) x
    = native_balance (sm_accounts state) x
      + segment_credits (fun r => native_credit program r x) (ibs_resolved s);
  ii_slots : forall t k, storage_value (sm_accounts (ibs_state s)) t k
    = storage_value (sm_accounts state) t k
      + segment_credits (fun r => slot_credit program r t k) (ibs_resolved s);
  ii_index : Forall (fun item => inb_index item.2 = cursor + (item.1 + 1)) done;
  ii_joins : forall j, j ∈ ibs_consumed_joins s <->
    exists e, e ∈ ibs_resolved s /\ inb_kind e = INBOX_JOIN /\
      inb_status e = INBOX_CONSUMED /\ inb_index e = j
}.

Lemma segment_credits_snoc f l e :
  segment_credits f (l ++ [e]) = segment_credits f l + entry_credits f e.
Proof. unfold segment_credits. rewrite map_app, zsum_app. unfold zsum. cbn. lia. Qed.

Lemma joins_snoc (S : gset Z) l e (b : bool) :
  (forall j, j ∈ S <-> exists x, x ∈ l /\ inb_kind x = INBOX_JOIN /\
      inb_status x = INBOX_CONSUMED /\ inb_index x = j) ->
  (b = true <-> inb_kind e = INBOX_JOIN /\ inb_status e = INBOX_CONSUMED) ->
  forall j, j ∈ (if b then {[inb_index e]} ∪ S else S) <->
    exists x, x ∈ l ++ [e] /\ inb_kind x = INBOX_JOIN /\
      inb_status x = INBOX_CONSUMED /\ inb_index x = j.
Proof.
  intros HS Hb j. setoid_rewrite elem_of_app. setoid_rewrite list_elem_of_singleton.
  destruct b; rewrite ?elem_of_union, ?elem_of_singleton, HS.
  - destruct Hb as [Hb _]. destruct (Hb eq_refl) as [Hk Hc]. split.
    + intros [->|(x & Hx & Hr)]; [exists e; auto|exists x; auto].
    + intros (x & [Hx| ->] & Hr); [right; exists x; auto|left; symmetry; apply Hr].
  - destruct Hb as [_ Hb]. split.
    + intros (x & ? & ?). exists x. auto.
    + intros (x & [? | ->] & Hk & Hc & ?); [exists x; auto|]. discriminate (Hb (conj Hk Hc)).
Qed.

Lemma inbox_step_inv program activations pre post cursor state done s item s' :
  inbox_inv program activations pre post cursor state done s ->
  inbox_step program activations pre post cursor s item = Ok s' ->
  inbox_inv program activations pre post cursor state (done ++ [item]) s'.
Proof.
  intros [I1 I2 I3 I4 I5] H. destruct item as [offset entry]. unfold inbox_step in H.
  destruct (inbox_entry_check _ _ _ _) as [[]|] eqn:Ec; cbn [rbind] in H; [|discriminate].
  destruct (resolve_entry _ _ _ _) as [[status recipient]|] eqn:Er; cbn [rbind] in H;
    [|discriminate].
  apply entry_check_spec in Ec as (Hi & Hst & _).
  apply resolve_entry_spec in Er as (R & Hrec & Hkind); [|exact Hst].
  assert (Fwd : Forall2 (resolved_as activations pre post) (map snd (done ++ [(offset, entry)]))
            (ibs_resolved s ++ [set_status entry status])).
  { rewrite map_app. apply Forall2_app; [exact I1|]. constructor; [exact R|constructor]. }
  assert (Idx : Forall (fun item => inb_index item.2 = cursor + (item.1 + 1))
            (done ++ [(offset, entry)])).
  { apply Forall_app. split; [exact I4|]. constructor; [exact Hi|constructor]. }
  destruct (Z.eqb_spec status INBOX_CONSUMED) as [->|Hns]; subst recipient.
  - destruct (for_each _ _ _) as [st|] eqn:Ef; cbn [rbind] in H; [|discriminate].
    injection H as <-. apply credit_deposits_spec in Ef as [B S].
    split; cbn [ibs_state ibs_resolved ibs_consumed_joins]; auto.
    + intros x. rewrite segment_credits_snoc, B, I2. unfold entry_credits.
      cbn [inb_status set_status inb_account inb_deposits]. rewrite Z.eqb_refl. lia.
    + intros t k. rewrite segment_credits_snoc, S, I3. unfold entry_credits.
      cbn [inb_status set_status inb_account inb_deposits]. rewrite Z.eqb_refl. lia.
    + apply (joins_snoc _ _ (set_status entry INBOX_CONSUMED)); [exact I5|]. cbn.
      rewrite Z.eqb_eq. tauto.
  - injection H as <-. split; cbn [ibs_state ibs_resolved ibs_consumed_joins]; auto.
    + intros x. rewrite segment_credits_snoc, I2. unfold entry_credits. cbn.
      destruct (Z.eqb_spec status INBOX_CONSUMED); [contradiction|]. lia.
    + intros t k. rewrite segment_credits_snoc, I3. unfold entry_credits. cbn.
      destruct (Z.eqb_spec status INBOX_CONSUMED); [contradiction|]. lia.
    + apply (joins_snoc _ _ (set_status entry status) false I5). cbn.
      split; [discriminate|]. intros [_ ?]. contradiction.
Qed.

Lemma filter_activations_index deltas i :
  is_Some (activations_of deltas !! i) <->
  exists d, d ∈ deltas /\ mdl_action d = MEMBER_ACTIVATE /\ mdl_join_request_index d = i.
Proof.
  unfold activations_of.
  assert (G : forall l (m : gmap Z MembershipDeltaWitnessV4),
    is_Some (foldl (fun m d => <[mdl_join_request_index d := d]> m) m l !! i) <->
    is_Some (m !! i) \/ exists d, d ∈ l /\ mdl_join_request_index d = i).
  { induction l as [|x l IH]; intros m; cbn.
    - split; [auto|]. intros [|(d & Hd & _)]; [assumption|inversion Hd].
    - rewrite IH. destruct (decide (mdl_join_request_index x = i)) as [<-|Hne].
      + rewrite lookup_insert_eq. split; [intros _|eauto].
        right. exists x. split; [left|reflexivity].
      + rewrite lookup_insert_ne by assumption. split.
        * intros [|(d & Hd & <-)]; [auto|]. right. exists d. split; [right; exact Hd|reflexivity].
        * intros [|(d & Hd & <-)]; [auto|]. apply elem_of_cons in Hd as [->|Hd];
            [contradiction|]. right. eauto. }
  rewrite G, lookup_empty. setoid_rewrite list_elem_of_filter. unfold is_activation.
  split.
  - intros [[? ?]|(d & (Ha & Hd) & <-)]; [discriminate|]. exists d. split_and!; auto.
    apply Is_true_eq_true, Z.eqb_eq in Ha. exact Ha.
  - intros (d & Hd & Ha & <-). right. exists d. split_and!; auto.
    apply Is_true_eq_left, Z.eqb_eq, Ha.
Qed.

(** What an accepted inbox segment did. *)
Record inbox_effect (program : ExitProgramV4) (state state' : StateMap)
    (entries resolved : list InboxEntryWitnessV4) (deltas : list MembershipDeltaWitnessV4)
    (pre post : list MemberSlotWitnessV4) (cursor_before : Z) : Prop := {
  ie_resolved : Forall2 (resolved_as (activations_of deltas) pre post) entries resolved;
  ie_index : forall i e, entries !! i = Some e -> inb_index e = cursor_before + Z.of_nat i + 1;
  ie_native : forall x, native_balance (sm_accounts state') x
    = native_balance (sm_accounts state) x
      + segment_credits (fun r => native_credit program r x) resolved;
  ie_slots : forall t k, storage_value (sm_accounts state') t k
    = storage_value (sm_accounts state) t k
      + segment_credits (fun r => slot_credit program r t k) resolved;
  ie_joins : forall d, d ∈ deltas -> mdl_action d = MEMBER_ACTIVATE ->
    exists e, e ∈ resolved /\ inb_kind e = INBOX_JOIN /\ inb_status e = INBOX_CONSUMED /\
              inb_index e = mdl_join_request_index d
}.

Lemma apply_inbox_effect program state entries deltas pre post c0 c1 h state' :
  apply_inbox_v4 program state entries deltas pre post c0 c1 = Ok (h, state') ->
  zlen entries = as_usize (c1 - c0) /\ c0 <= c1 /\
  exists resolved, h = hash_inbox_entries_v4 resolved /\
    inbox_effect program state state' entries resolved deltas pre post c0.
Proof.
  unfold apply_inbox_v4, checked_sub. intros H.
  destruct (Z.ltb_spec c1 c0); [discriminate|].
  destruct (Z.leb_spec c0 c1); [|lia]. cbn [ok_or rbind] in H.
  destruct (Z.eqb_spec (zlen entries) (as_usize (c1 - c0))) as [Hl|]; [|discriminate].
  cbn [negb] in H. destruct (negb _) eqn:Gs; [discriminate|].
  destruct (for_each _ _ _) as [s|] eqn:E; cbn [rbind] in H; [|discriminate].
  destruct (negb (Nat.eqb (size (ibs_consumed_joins s)) _)) eqn:Gj; [discriminate|].
  injection H as <- <-. split; [exact Hl|]. split; [lia|].
  assert (I : inbox_inv program (activations_of deltas) pre post c0 state (enumerate entries) s).
  { refine (for_each_inv (inbox_inv program (activations_of deltas) pre post c0 state)
      _ _ _ _ _ _ E).
    - split; cbn; [constructor|..|constructor|];
        try (intros; unfold segment_credits, zsum; cbn; lia).
      intros j. split; [set_solver|]. intros (e & He & _). inversion He.
    - intros done x s1 s2 Hi _ Hb. eapply inbox_step_inv; eauto. }
  destruct I as [I1 I2 I3 I4 I5]. rewrite enumerate_snd in I1.
  exists (ibs_resolved s). split; [reflexivity|]. split; auto.
  - intros i e He. rewrite Forall_forall in I4. specialize (I4 _ (enumerate_elem _ _ _ He)).
    cbn in I4. lia.
  - intros d Hd Ha. apply I5.
    assert (Hsub : ibs_consumed_joins s ⊆ dom (activations_of deltas)).
    { intros j Hj. apply I5 in Hj as (e & He & Hk & Hc & <-).
      apply list_elem_of_lookup in He as [k Hk'].
      destruct (Forall2_lookup_r _ _ _ _ _ I1 Hk') as (e0 & He0 & R).
      pose proof (ra_frame _ _ _ _ _ R) as Rf. apply (ra_consumed _ _ _ _ _ R) in Hc.
      rewrite Rf. cbn. apply elem_of_dom.
      destruct Hc as [Hp [[Hd' Hsl]|[Hd' [dl Hdl]]]]; [|rewrite Hdl; eauto].
      rewrite Rf in Hk. cbn in Hk. rewrite Hk in Hd'. discriminate. }
    assert (Heq : ibs_consumed_joins s = dom (activations_of deltas)).
    { apply set_subseteq_size_eq; [exact Hsub|]. rewrite size_dom.
      apply negb_false_iff, Nat.eqb_eq in Gj. lia. }
    rewrite Heq. apply elem_of_dom, filter_activations_index. eauto.
Qed.
End Facts.

Section Claims.
Context {KK : Keccak} {RV : Revm}.

(** C40: An accepted inbox segment covers exactly the cursor range with consecutive
    indices (for ranges that fit the guest's 32-bit [usize]) and its effect on the
    room is exact: of every entry only the status changes, it is consumed iff
    it was pending and its depositor is the active pre-roster member of its slot or
    an activation delta accepts its join, every other pending entry is skipped,
    refunded ones stay refunded; every native balance and every storage slot grows
    by precisely the consumed deposits addressed to it, and every activation delta
    consumes a join request of this segment. *)
Theorem apply_inbox_exact program (state state' : StateMap) entries deltas pre post c0 c1 h :
  c1 - c0 <= USIZE_MAX ->
  apply_inbox_v4 program state entries deltas pre post c0 c1 = Ok (h, state') ->
  c0 + zlen entries = c1 /\
  exists resolved, h = hash_inbox_entries_v4 resolved /\
    inbox_effect program state state' entries resolved deltas pre post c0.
Proof.
  intros Hw H. apply apply_inbox_effect in H as (Hl & Hc & Hr). split; [|exact Hr].
  unfold as_usize in Hl. rewrite Z.mod_small in Hl by (unfold USIZE_MAX in *; lia). lia.
Qed.

(** The cast [as usize] truncates on the 32-bit guest: a cursor range of 2^32
    entries is accepted with an empty preimage, for every program, state and roster,
    although the range is meant to be covered entry by entry. *)
Theorem inbox_cursor_truncates program (state : StateMap) pre post c :
  apply_inbox_v4 program state [] [] pre post c (c + 2 ^ 32)
  = Ok (hash_inbox_entries_v4 [], state).
Proof.
  unfold apply_inbox_v4, checked_sub.
  destruct (Z.ltb_spec (c + 2 ^ 32) c); [lia|].
  destruct (Z.leb_spec c (c + 2 ^ 32)); [|lia]. cbn [ok_or rbind].
  replace (c + 2 ^ 32 - c) with (2 ^ 32) by lia. reflexivity.
Qed.
End Claims.

(** ** Witness: a top-up of an active member *)
#[local] Existing Instance toy_keccak.
#[local] Existing Instance toy_revm.
Definition demo_native_program : ExitProgramV4 := mk_ExitProgramV4 [mk_ExitAssetV4 0 Native] [].
Definition demo_deposit (index account : Z) : InboxEntryWitnessV4 :=
  mk_InboxEntryWitnessV4 index INBOX_DEPOSIT account 0 INBOX_PENDING [mk_InboxAssetAmountV4 0 7].
Definition demo_segment : list InboxEntryWitnessV4 := [demo_deposit 5 501; demo_deposit 6 777].
Definition demo_inbox_result : Z * StateMap :=
  match apply_inbox_v4 demo_native_program StateMap_default demo_segment []
          demo_before demo_before 4 6 with
  | Ok r => r | Err _ => (0, StateMap_default) end.

Lemma apply_inbox_exact_witness :
  4 + zlen demo_segment = 6 /\
  native_balance (sm_accounts demo_inbox_result.2) 501 = 7 /\
  native_balance (sm_accounts demo_inbox_result.2) 777 = 0.
Proof.
  split; [|split; vm_compute; reflexivity].
  apply (apply_inbox_exact demo_native_program StateMap_default demo_inbox_result.2
           demo_segment [] demo_before demo_before 4 6 demo_inbox_result.1).
  - unfold USIZE_MAX. lia.
  - vm_compute. reflexivity.
Defined.
