(* ===== verification/Compact.v ===== *)
(** * The compact state witness: stf-core/src/compact.rs

    [verify_compact_state_v4] turns a bounded, sorted witness into a room
    state with a closed access envelope; against a nonzero canonical root every
    account and slot is proved first. *)

From S2P Require Import Prelude Types Abi State StateEvm.
Open Scope Z_scope.

(** The mutable locals of the account loop. *)
Record CompactScan := mk_CompactScan {
  sc_previous_address : option Z;
  sc_storage_count : Z;
  sc_proof_count : Z;
  sc_code_bytes : Z;
  sc_records : gmap Z AccountRecord;
  sc_allowed_accounts : gset Z;
  sc_allowed_storage : gmap Z (gset Z)
}.
Definition CompactScan_default : CompactScan := mk_CompactScan None 0 0 0 ∅ ∅ ∅.

Section Compact.
Context {KK : Keccak} {RV : Revm} {AT : AlloyTrie}.

(** The three running counters and their envelope. *)
Definition compact_counts (s : CompactScan) (account : CompactAccountWitnessV4)
  : result string (Z * Z * Z) :=
  let? code_bytes := ok_or (checked_add USIZE_MAX (sc_code_bytes s) (zlen (caw_code account)))
                       "code byte count overflow"%string in
  let? storage_count :=
    ok_or (checked_add USIZE_MAX (sc_storage_count s) (zlen (caw_storage account)))
      "storage count overflow"%string in
  let? proof_count :=
    ok_or (foldl (fun n slot => match n with
                                | Some n => checked_add USIZE_MAX n (zlen (csw_proof slot))
                                | None => None
                                end)
             (checked_add USIZE_MAX (sc_proof_count s) (zlen (caw_account_proof account)))
             (caw_storage account))
      "proof count overflow"%string in
  fail_if (MAX_COMPACT_STORAGE_SLOTS_V4 <? storage_count)
       || (MAX_COMPACT_PROOF_NODES_V4 <? proof_count)
       || (MAX_COMPACT_CODE_BYTES_V4 <? code_bytes)
    with "account/storage/proof/code resource envelope exceeded"%string in
  Ok (code_bytes, storage_count, proof_count).

Definition compact_nodes (account : CompactAccountWitnessV4) : list bytes :=
  caw_account_proof account ++ concat (map csw_proof (caw_storage account)).

Definition compact_proof_shape (canonical : bool) (account : CompactAccountWitnessV4)
  : result string unit :=
  fail_if existsb (fun node => 1024 <? zlen node) (compact_nodes account)
    with "MPT proof node exceeds 1024 bytes"%string in
  fail_if negb canonical
       && (negb (bool_decide (caw_account_proof account = []))
           || existsb (fun slot => negb (bool_decide (csw_proof slot = []))) (caw_storage account))
    with "later room-root witness must not smuggle unauthenticated canonical proofs"%string in
  Ok tt.

(** The trie leaf of an account, [None] for an excluded one. *)
Definition compact_account_value (account : CompactAccountWitnessV4)
  : result string (option bytes) :=
  if caw_exists account then
    fail_if (caw_nonce account =? 0) && (caw_balance account =? 0)
         && bool_decide (caw_code account = [])
      with "EIP-161-empty account must be represented as absent and cannot carry storage"%string in
    Ok (Some (rlp_trie_account
                (mk_TrieAccount (caw_nonce account) (caw_balance account)
                   (caw_canonical_storage_root account)
                   (if bool_decide (caw_code account = []) then KECCAK_EMPTY
                    else keccak256 (caw_code account)))))
  else
    fail_if negb (caw_nonce account =? 0) || negb (caw_balance account =? 0)
         || negb (bool_decide (caw_code account = []))
         || negb (bool_decide (caw_storage account = []))
         || negb (caw_canonical_storage_root account =? EMPTY_ROOT_HASH)
      with "excluded account carries non-empty state"%string in
    Ok None.

(** The body of the slot loop. *)
Definition compact_slot (canonical : bool) (storage_root : Z)
    (s : option Z * gset Z * gmap Z Z) (slot : CompactStorageWitnessV4)
  : result string (option Z * gset Z * gmap Z Z) :=
  let '(previous_slot, slots, storage) := s in
  fail_if not_after previous_slot (csw_slot slot)
    with "storage slots must be strictly sorted and unique"%string in
  fail_if canonical
       && negb (verify_proof storage_root (keccak256 (be_bytes 32 (csw_slot slot)))
                  (if csw_value slot =? 0 then None else Some (rlp_u256 (csw_value slot)))
                  (csw_proof slot))
    with "storage proof"%string in
  Ok (Some (csw_slot slot), {[csw_slot slot]} ∪ slots,
      if csw_value slot =? 0 then storage else <[csw_slot slot := csw_value slot]> storage).

(** The body of the account loop. *)
Definition compact_account (root : Z) (s : CompactScan) (account : CompactAccountWitnessV4)
  : result string CompactScan :=
  let canonical := negb (root =? B256_ZERO) in
  fail_if not_after (sc_previous_address s) (caw_address account)
    with "accounts must be strictly address-sorted and unique"%string in
  let? (code_bytes, storage_count, proof_count) := compact_counts s account in
  let? _ := compact_proof_shape canonical account in
  let? account_value := compact_account_value account in
  fail_if canonical
       && negb (verify_proof root (keccak256 (address_bytes (caw_address account)))
                  account_value (caw_account_proof account))
    with "account proof"%string in
  let? (_, slots, storage) :=
    for_each (compact_slot canonical (caw_canonical_storage_root account)) (None, ∅, ∅)
      (caw_storage account) in
  Ok (mk_CompactScan (Some (caw_address account)) storage_count proof_count code_bytes
        (if caw_exists account then
           <[caw_address account := mk_AccountRecord (caw_nonce account) (caw_balance account)
                                      (caw_code account) storage]> (sc_records s)
         else sc_records s)
        ({[caw_address account]} ∪ sc_allowed_accounts s)
        (<[caw_address account := slots]> (sc_allowed_storage s))).

Definition verify_compact_state_v4 (witness : CompactStateWitnessV4)
  : result string StateMap :=
  fail_if MAX_COMPACT_ACCOUNTS_V4 <? zlen (cst_accounts witness)
    with "accounts exceed the cap"%string in
  let? s := for_each (compact_account (cst_canonical_state_root witness)) CompactScan_default
              (cst_accounts witness) in
  Ok (from_compact (sc_records s) (sc_allowed_accounts s) (sc_allowed_storage s)).
End Compact.

(** * Specification *)
Section CompactSpec.
Context {KK : Keccak} {RV : Revm} {AT : AlloyTrie}.

Definition account_leaf (a : CompactAccountWitnessV4) : option bytes :=
  if caw_exists a then
    Some (rlp_trie_account
            (mk_TrieAccount (caw_nonce a) (caw_balance a) (caw_canonical_storage_root a)
               (if bool_decide (caw_code a = []) then KECCAK_EMPTY
                else keccak256 (caw_code a))))
  else None.

Definition slot_proved (storage_root : Z) (slot : CompactStorageWitnessV4) : Prop :=
  verify_proof storage_root (keccak256 (be_bytes 32 (csw_slot slot)))
    (if csw_value slot =? 0 then None else Some (rlp_u256 (csw_value slot)))
    (csw_proof slot) = true.

Record compact_account_ok (root : Z) (a : CompactAccountWitnessV4) : Prop := {
  ca_nodes : Forall (fun node => zlen node <= 1024) (compact_nodes a);
  ca_local : root = 0 ->
    caw_account_proof a = [] /\ Forall (fun slot => csw_proof slot = []) (caw_storage a);
  ca_present : caw_exists a = true ->
    caw_nonce a <> 0 \/ caw_balance a <> 0 \/ caw_code a <> [];
  ca_absent : caw_exists a = false ->
    caw_nonce a = 0 /\ caw_balance a = 0 /\ caw_code a = [] /\ caw_storage a = [] /\
    caw_canonical_storage_root a = EMPTY_ROOT_HASH;
  ca_slots : key_sorted csw_slot (caw_storage a);
  ca_proved : root <> 0 ->
    verify_proof root (keccak256 (address_bytes (caw_address a))) (account_leaf a)
      (caw_account_proof a) = true /\
    Forall (slot_proved (caw_canonical_storage_root a)) (caw_storage a)
}.

Definition code_total (l : list CompactAccountWitnessV4) : Z :=
  zsum (map (fun a => zlen (caw_code a)) l).
Definition storage_total (l : list CompactAccountWitnessV4) : Z :=
  zsum (map (fun a => zlen (caw_storage a)) l).
Definition proof_total (l : list CompactAccountWitnessV4) : Z :=
  zsum (map (fun a => zlen (caw_account_proof a)
                      + zsum (map (fun slot => zlen (csw_proof slot)) (caw_storage a))) l).

Record compact_witness_ok (w : CompactStateWitnessV4) : Prop := {
  cw_count : zlen (cst_accounts w) <= MAX_COMPACT_ACCOUNTS_V4;
  cw_sorted : key_sorted caw_address (cst_accounts w);
  cw_storage : storage_total (cst_accounts w) <= MAX_COMPACT_STORAGE_SLOTS_V4;
  cw_proofs : proof_total (cst_accounts w) <= MAX_COMPACT_PROOF_NODES_V4;
  cw_code : code_total (cst_accounts w) <= MAX_COMPACT_CODE_BYTES_V4;
  cw_accounts : Forall (compact_account_ok (cst_canonical_state_root w)) (cst_accounts w)
}.

(** The state a witness stands for. *)
Definition slot_map (l : list CompactStorageWitnessV4) : gmap Z Z :=
  list_to_map (map (fun s => (csw_slot s, csw_value s))
                 (filter (fun s => csw_value s <> 0) l)).
Definition slot_set (l : list CompactStorageWitnessV4) : gset Z :=
  list_to_set (map csw_slot l).
Definition witness_record (a : CompactAccountWitnessV4) : AccountRecord :=
  mk_AccountRecord (caw_nonce a) (caw_balance a) (caw_code a) (slot_map (caw_storage a)).
Definition record_map (l : list CompactAccountWitnessV4) : gmap Z AccountRecord :=
  list_to_map (map (fun a => (caw_address a, witness_record a))
                 (filter (fun a => caw_exists a = true) l)).
Definition account_set (l : list CompactAccountWitnessV4) : gset Z :=
  list_to_set (map caw_address l).
Definition slot_sets (l : list CompactAccountWitnessV4) : gmap Z (gset Z) :=
  list_to_map (map (fun a => (caw_address a, slot_set (caw_storage a))) l).
Definition witness_state (w : CompactStateWitnessV4) : StateMap :=
  from_compact (record_map (cst_accounts w)) (account_set (cst_accounts w))
    (slot_sets (cst_accounts w)).

Lemma sorted_fresh {A} (key : A -> Z) l x : key_sorted key (l ++ [x]) -> key x ∉ map key l.
Proof.
  intros H. apply key_sorted_NoDup in H. apply (NoDup_map_middle key l x [] H).
Qed.

Lemma list_to_map_filtered_snoc {A V} (key : A -> Z) (val : A -> V) (P : A -> Prop)
    `{!forall x, Decision (P x)} l x :
  key x ∉ map key l ->
  (list_to_map (map (fun y => (key y, val y)) (filter P (l ++ [x]))) : gmap Z V)
  = if decide (P x) then <[key x := val x]> (list_to_map (map (fun y => (key y, val y)) (filter P l)))
    else list_to_map (map (fun y => (key y, val y)) (filter P l)).
Proof.
  intros Hx. rewrite filter_app, map_app. cbn. unfold filter at 2. cbn. case_decide.
  - cbn. apply list_to_map_snoc. intros Hin. apply Hx.
    apply list_elem_of_fmap in Hin as (p & E & Hp).
    apply list_elem_of_fmap in Hp as (y & -> & Hy). cbn in E.
    apply list_elem_of_filter in Hy as [_ Hy]. rewrite E. apply list_elem_of_fmap. eauto.
  - cbn. rewrite app_nil_r. reflexivity.
Qed.

Lemma list_to_set_snoc (l : list Z) x :
  (list_to_set (l ++ [x]) : gset Z) = {[x]} ∪ list_to_set l.
Proof. rewrite list_to_set_app_L. cbn. set_solver. Qed.

(** The slot loop of one account. *)
Lemma compact_slot_loop canonical root l r :
  for_each (compact_slot canonical root) (None, ∅, ∅) l = Ok r <->
  key_sorted csw_slot l /\ (canonical = true -> Forall (slot_proved root) l) /\
  r = (csw_slot <$> last l, slot_set l, slot_map l).
Proof.
  revert r. induction l as [|x l IH] using rev_ind; intros r.
  { cbn. rewrite Ok_Ok. split; [intros <-; split_and!; constructor || auto|].
    intros (_ & _ & ->). reflexivity. }
  rewrite for_each_app, rbind_Ok, key_sorted_snoc_iff, Forall_app, Forall_singleton, last_snoc.
  setoid_rewrite IH.
  assert (Hstep : forall r', key_sorted csw_slot l ->
    for_each (compact_slot canonical root) (csw_slot <$> last l, slot_set l, slot_map l) [x] = Ok r'
    <-> not_after (csw_slot <$> last l) (csw_slot x) = false /\
        (canonical = true -> slot_proved root x) /\
        r' = (Some (csw_slot x), slot_set (l ++ [x]), slot_map (l ++ [x]))).
  { intros r' Hs. cbn [for_each]. unfold compact_slot, slot_proved.
    destruct (not_after _ _) eqn:En; cbn [rbind];
      [split; [discriminate|intros [? _]; discriminate]|].
    assert (Hx : csw_slot x ∉ map csw_slot l)
      by (apply sorted_fresh, key_sorted_snoc_iff; auto).
    assert (Hsm : slot_map (l ++ [x]) = if csw_value x =? 0 then slot_map l
                  else <[csw_slot x := csw_value x]> (slot_map l)).
    { unfold slot_map. rewrite (list_to_map_filtered_snoc csw_slot csw_value) by exact Hx.
      destruct (Z.eqb_spec (csw_value x) 0); case_decide; congruence. }
    assert (Hss : slot_set (l ++ [x]) = {[csw_slot x]} ∪ slot_set l)
      by (unfold slot_set; rewrite map_app; apply list_to_set_snoc).
    rewrite Hsm, Hss.
    destruct canonical; cbn [andb].
    - destruct (verify_proof _ _ _ _); cbn; [|split; [discriminate|]; intros (_ & H & _);
        discriminate (H eq_refl)].
      rewrite Ok_Ok. split; [intros <-; auto|intros (_ & _ & ->); reflexivity].
    - cbn. rewrite Ok_Ok. split; [intros <-; split_and!; auto; discriminate|].
      intros (_ & _ & ->). reflexivity. }
  split.
  - intros (s & (H1 & H2 & ->) & H). apply Hstep in H as (? & ? & ->); auto.
  - intros ((H1 & H2) & H3 & ->). eexists. split; [split_and!; eauto; apply H3|].
    apply Hstep; [exact H1|]. split_and!; auto. intros Hc. apply H3, Hc.
Qed.

(** The counters. *)
Lemma compact_counts_spec s a r :
  0 <= sc_storage_count s <= MAX_COMPACT_STORAGE_SLOTS_V4 ->
  0 <= sc_proof_count s <= MAX_COMPACT_PROOF_NODES_V4 ->
  0 <= sc_code_bytes s <= MAX_COMPACT_CODE_BYTES_V4 ->
  let proofs := zlen (caw_account_proof a)
                + zsum (map (fun slot => zlen (csw_proof slot)) (caw_storage a)) in
  compact_counts s a = Ok r <->
  sc_code_bytes s + zlen (caw_code a) <= MAX_COMPACT_CODE_BYTES_V4 /\
  sc_storage_count s + zlen (caw_storage a) <= MAX_COMPACT_STORAGE_SLOTS_V4 /\
  sc_proof_count s + proofs <= MAX_COMPACT_PROOF_NODES_V4 /\
  r = (sc_code_bytes s + zlen (caw_code a), sc_storage_count s + zlen (caw_storage a),
       sc_proof_count s + proofs).
Proof.
  intros B1 B2 B3 proofs.
  unfold MAX_COMPACT_STORAGE_SLOTS_V4, MAX_COMPACT_PROOF_NODES_V4, MAX_COMPACT_CODE_BYTES_V4 in *.
  pose proof (zlen_nonneg (caw_account_proof a)) as P1.
  pose proof (zsum_zlen_nonneg csw_proof (caw_storage a)) as P2.
  assert (Hf : forall n, sc_proof_count s + zlen (caw_account_proof a) <= USIZE_MAX ->
    foldl (fun n slot => match n with
                         | Some n => checked_add USIZE_MAX n (zlen (csw_proof slot))
                         | None => None end)
      (Some (sc_proof_count s + zlen (caw_account_proof a))) (caw_storage a) = Some n <->
    sc_proof_count s + proofs <= USIZE_MAX /\ n = sc_proof_count s + proofs).
  { intros n Hle. rewrite (foldl_checked_add (fun slot => zlen (csw_proof slot)));
      [unfold proofs; rewrite Z.add_assoc; reflexivity| |exact Hle].
    apply Forall_forall. intros x _. apply zlen_nonneg. }
  unfold compact_counts. split.
  - intros H. apply rbind_Ok in H as (c & Hc & H). apply ok_or_Ok, checked_add_Some in Hc as [_ ->].
    apply rbind_Ok in H as (n & Hn & H). apply ok_or_Ok, checked_add_Some in Hn as [_ ->].
    apply rbind_Ok in H as (p & Hp & H). apply ok_or_Ok in Hp.
    assert (Hle : sc_proof_count s + zlen (caw_account_proof a) <= USIZE_MAX).
    { destruct (Z.leb_spec (sc_proof_count s + zlen (caw_account_proof a)) USIZE_MAX) as [|Hgt];
        [assumption|]. exfalso. unfold checked_add at 2 in Hp. apply Z.leb_gt in Hgt.
      rewrite Hgt in Hp. clear -Hp. induction (caw_storage a); [discriminate|auto]. }
    unfold checked_add at 2 in Hp. rewrite (proj2 (Z.leb_le _ _) Hle) in Hp.
    apply Hf in Hp as [_ ->]; [|exact Hle].
    apply fail_if_Ok in H as [G H]. rewrite !orb_false_iff, !Z.ltb_ge in G.
    apply Ok_Ok in H as <-. intuition.
  - intros (H1 & H2 & H3 & ->).
    assert (L1 : sc_code_bytes s + zlen (caw_code a) <= USIZE_MAX) by (unfold USIZE_MAX; lia).
    assert (L2 : sc_storage_count s + zlen (caw_storage a) <= USIZE_MAX)
      by (unfold USIZE_MAX; lia).
    assert (L3 : sc_proof_count s + proofs <= USIZE_MAX) by (unfold USIZE_MAX; lia).
    assert (L4 : sc_proof_count s + zlen (caw_account_proof a) <= USIZE_MAX)
      by (unfold proofs in L3; lia).
    rewrite (proj2 (checked_add_Some _ _ _ _) (conj L1 eq_refl)). cbn [ok_or rbind].
    rewrite (proj2 (checked_add_Some _ _ _ _) (conj L2 eq_refl)). cbn [ok_or rbind].
    unfold checked_add at 2. rewrite (proj2 (Z.leb_le _ _) L4).
    rewrite (proj2 (Hf _ L4) (conj L3 eq_refl)).
    cbn [ok_or rbind]. apply fail_if_Ok. rewrite !orb_false_iff, !Z.ltb_ge. auto.
Qed.

Lemma proof_shape_spec canonical a :
  compact_proof_shape canonical a = Ok tt <->
  Forall (fun node => zlen node <= 1024) (compact_nodes a) /\
  (canonical = false ->
   caw_account_proof a = [] /\ Forall (fun slot => csw_proof slot = []) (caw_storage a)).
Proof.
  unfold compact_proof_shape. rewrite !fail_if_Ok, existsb_false_iff.
  assert (Hn : (forall x, x ∈ compact_nodes a -> (1024 <? zlen x) = false)
               <-> Forall (fun node => zlen node <= 1024) (compact_nodes a)).
  { rewrite Forall_forall. setoid_rewrite Z.ltb_ge. reflexivity. }
  rewrite Hn. destruct canonical; cbn [negb andb].
  - split; [intros (H1 & _); split; [exact H1|discriminate]|intros (H1 & _); auto].
  - rewrite orb_false_iff, negb_bool_decide_false, existsb_false_iff,
      (Forall_forall (fun slot => csw_proof slot = [])).
    setoid_rewrite negb_bool_decide_false. split.
    + intros (H1 & (H2 & H3) & _). auto.
    + intros (H1 & H2). destruct (H2 eq_refl). auto.
Qed.

Lemma account_value_spec a v :
  compact_account_value a = Ok v <->
  (caw_exists a = true -> caw_nonce a <> 0 \/ caw_balance a <> 0 \/ caw_code a <> []) /\
  (caw_exists a = false ->
   caw_nonce a = 0 /\ caw_balance a = 0 /\ caw_code a = [] /\ caw_storage a = [] /\
   caw_canonical_storage_root a = EMPTY_ROOT_HASH) /\
  v = account_leaf a.
Proof.
  unfold compact_account_value, account_leaf. destruct (caw_exists a).
  - rewrite fail_if_Ok, Ok_Ok, !andb_false_iff, !Z.eqb_neq, bool_decide_eq_false.
    split; [intros [H <-]; split_and!; [tauto|discriminate|reflexivity]|].
    intros (H & _ & ->). split; [specialize (H eq_refl); tauto|reflexivity].
  - rewrite fail_if_Ok, Ok_Ok, !orb_false_iff, !negb_eqb_false, !negb_bool_decide_false.
    split; [intros [H <-]; split_and!; [discriminate|tauto|reflexivity]|].
    intros (_ & H & ->). split; [specialize (H eq_refl); tauto|reflexivity].
Qed.

(** The loop state after a prefix of the accounts. *)
Definition scan_of (l : list CompactAccountWitnessV4) : CompactScan :=
  mk_CompactScan (caw_address <$> last l) (storage_total l) (proof_total l) (code_total l)
    (record_map l) (account_set l) (slot_sets l).

Lemma scan_of_snoc l a :
  caw_address a ∉ map caw_address l ->
  scan_of (l ++ [a]) =
  mk_CompactScan (Some (caw_address a)) (storage_total l + zlen (caw_storage a))
    (proof_total l + (zlen (caw_account_proof a)
                      + zsum (map (fun slot => zlen (csw_proof slot)) (caw_storage a))))
    (code_total l + zlen (caw_code a))
    (if caw_exists a then <[caw_address a := witness_record a]> (record_map l) else record_map l)
    ({[caw_address a]} ∪ account_set l)
    (<[caw_address a := slot_set (caw_storage a)]> (slot_sets l)).
Proof.
  intros Hx. unfold scan_of. f_equal.
  - rewrite last_snoc. reflexivity.
  - unfold storage_total. rewrite map_app, zsum_app. unfold zsum. cbn. lia.
  - unfold proof_total. rewrite map_app, zsum_app. unfold zsum. cbn. lia.
  - unfold code_total. rewrite map_app, zsum_app. unfold zsum. cbn. lia.
  - unfold record_map. rewrite (list_to_map_filtered_snoc caw_address) by exact Hx.
    destruct (caw_exists a); reflexivity.
  - unfold account_set. rewrite map_app. apply list_to_set_snoc.
  - unfold slot_sets. rewrite map_app. cbn. apply list_to_map_snoc.
    intros Hin. apply Hx. apply list_elem_of_fmap in Hin as (p & E & Hp).
    apply list_elem_of_fmap in Hp as (y & -> & Hy). cbn in E. rewrite E.
    apply list_elem_of_fmap. eauto.
Qed.

Definition within_caps (l : list CompactAccountWitnessV4) : Prop :=
  code_total l <= MAX_COMPACT_CODE_BYTES_V4 /\
  storage_total l <= MAX_COMPACT_STORAGE_SLOTS_V4 /\
  proof_total l <= MAX_COMPACT_PROOF_NODES_V4.

Lemma totals_nonneg l : 0 <= storage_total l /\ 0 <= proof_total l /\ 0 <= code_total l.
Proof.
  split_and!; [apply zsum_zlen_nonneg| |apply zsum_zlen_nonneg].
  apply zsum_nonneg, Forall_forall. intros v Hv.
  apply list_elem_of_fmap in Hv as (a & -> & _).
  pose proof (zlen_nonneg (caw_account_proof a)).
  pose proof (zsum_zlen_nonneg csw_proof (caw_storage a)). lia.
Qed.

Lemma compact_account_step root l a r :
  within_caps l -> key_sorted caw_address l ->
  compact_account root (scan_of l) a = Ok r <->
  not_after (caw_address <$> last l) (caw_address a) = false /\ within_caps (l ++ [a]) /\
  compact_account_ok root a /\ r = scan_of (l ++ [a]).
Proof.
  intros (C1 & C2 & C3) Hs. destruct (totals_nonneg l) as (N1 & N2 & N3).
  unfold compact_account. rewrite fail_if_Ok. cbn [sc_previous_address scan_of].
  destruct (not_after _ _) eqn:En; [intuition discriminate|].
  assert (Hx : caw_address a ∉ map caw_address l)
    by (apply sorted_fresh, key_sorted_snoc_iff; auto).
  rewrite scan_of_snoc by exact Hx.
  assert (Hcap : within_caps (l ++ [a]) <->
    code_total l + zlen (caw_code a) <= MAX_COMPACT_CODE_BYTES_V4 /\
    storage_total l + zlen (caw_storage a) <= MAX_COMPACT_STORAGE_SLOTS_V4 /\
    proof_total l + (zlen (caw_account_proof a)
      + zsum (map (fun slot => zlen (csw_proof slot)) (caw_storage a)))
      <= MAX_COMPACT_PROOF_NODES_V4).
  { pose proof (scan_of_snoc l a Hx) as E. unfold within_caps.
    change (code_total (l ++ [a])) with (sc_code_bytes (scan_of (l ++ [a]))).
    change (storage_total (l ++ [a])) with (sc_storage_count (scan_of (l ++ [a]))).
    change (proof_total (l ++ [a])) with (sc_proof_count (scan_of (l ++ [a]))).
    rewrite E. reflexivity. }
  rewrite Hcap.
  assert (Hcan : negb (root =? B256_ZERO) = true <-> root <> 0)
    by (unfold B256_ZERO; rewrite negb_true_iff; apply Z.eqb_neq).
  assert (Hnot : negb (root =? B256_ZERO) = false <-> root = 0) by apply negb_eqb_false.
  set (canonical := negb (root =? B256_ZERO)) in *.
  split.
  - intros [_ H]. apply rbind_Ok in H as (counts & Hc & H).
    apply compact_counts_spec in Hc as (H1 & H2 & H3 & ->); cbn; auto.
    apply rbind_Ok in H as ([] & Hp & H). apply proof_shape_spec in Hp as [H4 H5].
    apply rbind_Ok in H as (v & Hv & H). apply account_value_spec in Hv as (H6 & H7 & ->).
    apply fail_if_Ok in H as [G H]. rewrite andb_false_iff, negb_false_iff in G.
    apply rbind_Ok in H as (r' & Hl & H). apply compact_slot_loop in Hl as (H8 & H9 & ->).
    apply Ok_Ok in H as <-. split_and!; auto. split; auto.
    + intros Hr. apply H5, Hnot, Hr.
    + intros Hr. apply Hcan in Hr. split; [|apply H9, Hr]. destruct G; congruence.
  - intros (_ & (H1 & H2 & H3) & [A1 A2 A3 A4 A5 A6] & ->). split; [reflexivity|].
    apply rbind_Ok. eexists. split.
    { apply compact_counts_spec; cbn; auto 10. }
    cbn beta iota. apply rbind_Ok. exists tt. split.
    { apply proof_shape_spec. split; [exact A1|]. intros Hr. apply A2, Hnot, Hr. }
    apply rbind_Ok. eexists. split; [apply account_value_spec; split_and!; eauto|].
    apply fail_if_Ok. split.
    { rewrite andb_false_iff, negb_false_iff. destruct canonical eqn:Ec; [|left; reflexivity].
      right. apply A6, Hcan. reflexivity. }
    apply rbind_Ok. eexists. split.
    { apply compact_slot_loop. split_and!; [exact A5| |reflexivity].
      intros Hr. apply A6, Hcan, Hr. }
    reflexivity.
Qed.

Lemma within_caps_app_l l1 l2 : within_caps (l1 ++ l2) -> within_caps l1.
Proof.
  unfold within_caps, code_total, storage_total, proof_total. rewrite !map_app, !zsum_app.
  pose proof (totals_nonneg l2) as (? & ? & ?). unfold storage_total, proof_total, code_total in *.
  lia.
Qed.

Lemma compact_loop root l r :
  for_each (compact_account root) CompactScan_default l = Ok r <->
  key_sorted caw_address l /\ within_caps l /\ Forall (compact_account_ok root) l /\
  r = scan_of l.
Proof.
  revert r. induction l as [|a l IH] using rev_ind; intros r.
  { cbn. rewrite Ok_Ok.
    assert (within_caps []) by (unfold within_caps, code_total, storage_total, proof_total,
      MAX_COMPACT_CODE_BYTES_V4, MAX_COMPACT_STORAGE_SLOTS_V4, MAX_COMPACT_PROOF_NODES_V4, zsum;
      cbn; lia).
    split; [intros <-; split_and!; try constructor; apply H|intros (_ & _ & _ & ->); reflexivity]. }
  rewrite for_each_app, rbind_Ok, key_sorted_snoc_iff, Forall_app, Forall_singleton.
  setoid_rewrite IH. cbn [for_each]. split.
  - intros (s & (H1 & H2 & H3 & ->) & H). apply rbind_Ok in H as (s & H & E).
    apply Ok_Ok in E as <-. apply compact_account_step in H as (? & ? & ? & ->); auto.
  - intros ((H1 & H2) & H3 & (H4 & H5) & ->). pose proof (within_caps_app_l _ _ H3) as H6.
    eexists. split; [split_and!; eauto|]. apply rbind_Ok. eexists. split; [|reflexivity].
    apply compact_account_step; auto.
Qed.

Lemma verify_compact_spec w state :
  verify_compact_state_v4 w = Ok state <-> compact_witness_ok w /\ state = witness_state w.
Proof.
  unfold verify_compact_state_v4. rewrite fail_if_Ok, Z.ltb_ge, rbind_Ok.
  setoid_rewrite compact_loop. setoid_rewrite Ok_Ok. split.
  - intros (H1 & s & (H2 & (H3 & H4 & H5) & H6 & ->) & <-). split; [split; auto|reflexivity].
  - intros [[H1 H2 H3 H4 H5 H6] ->]. split; [exact H1|]. eexists.
    split; [split_and!; eauto; split_and!; auto|reflexivity].
Qed.
End CompactSpec.

(** * What the verified state guarantees *)
Section CompactFacts.
Context {KK : Keccak} {RV : Revm} {AT : AlloyTrie}.

Lemma keyed_lookup {A V} (key : A -> Z) (val : A -> V) l i v :
  NoDup (map key l) ->
  (list_to_map (map (fun y => (key y, val y)) l) : gmap Z V) !! i = Some v <->
  exists x, x ∈ l /\ key x = i /\ val x = v.
Proof.
  intros Hn. rewrite <- elem_of_list_to_map.
  - rewrite list_elem_of_fmap. split.
    + intros (x & E & Hx). injection E as -> ->. eauto.
    + intros (x & Hx & <- & <-). eauto.
  - change (NoDup (map fst (map (fun y => (key y, val y)) l))). rewrite map_map. exact Hn.
Qed.

Lemma NoDup_filter_key {A} (key : A -> Z) (P : A -> Prop) `{!forall x, Decision (P x)} l :
  NoDup (map key l) -> NoDup (map key (filter P l)).
Proof.
  induction l as [|x l IH]; intros Hn; [constructor|]. inversion Hn as [|? ? Hx Hn']; subst.
  unfold filter. cbn. case_decide; [|apply IH, Hn']. cbn. constructor; [|apply IH, Hn'].
  intros Hin. apply Hx. apply list_elem_of_fmap in Hin as (y & -> & Hy).
  apply list_elem_of_fmap. exists y. split; [reflexivity|].
  apply (list_elem_of_filter P l y) in Hy as [_ Hy]. exact Hy.
Qed.

Lemma record_map_lookup l i r :
  NoDup (map caw_address l) ->
  record_map l !! i = Some r <->
  exists a, a ∈ l /\ caw_exists a = true /\ caw_address a = i /\ witness_record a = r.
Proof.
  intros Hn. unfold record_map.
  rewrite (keyed_lookup caw_address) by (apply NoDup_filter_key, Hn).
  setoid_rewrite list_elem_of_filter. naive_solver.
Qed.

Lemma slot_map_lookup l i v :
  NoDup (map csw_slot l) ->
  slot_map l !! i = Some v <-> exists s, s ∈ l /\ v <> 0 /\ csw_slot s = i /\ csw_value s = v.
Proof.
  intros Hn. unfold slot_map. rewrite (keyed_lookup csw_slot) by (apply NoDup_filter_key, Hn).
  setoid_rewrite list_elem_of_filter. naive_solver.
Qed.

Lemma slot_map_value l s :
  NoDup (map csw_slot l) -> s ∈ l -> default 0 (slot_map l !! csw_slot s) = csw_value s.
Proof.
  intros Hn Hs. destruct (slot_map l !! csw_slot s) as [v|] eqn:E; cbn.
  - apply slot_map_lookup in E as (t & Ht & _ & Hk & <-); [|exact Hn].
    rewrite (NoDup_key_eq csw_slot l t s) by assumption. reflexivity.
  - destruct (decide (csw_value s = 0)) as [|Hv]; [congruence|].
    exfalso. rewrite (proj2 (slot_map_lookup l (csw_slot s) (csw_value s) Hn)) in E; [discriminate|].
    eauto 10.
Qed.

Record faithful_state (w : CompactStateWitnessV4) (state : StateMap) : Prop := {
  fs_canonical : canonical (sm_accounts state);
  fs_closed : forall address r, sm_accounts state !! address = Some r ->
    account_outside state address = false /\
    forall slot, is_Some (ar_storage r !! slot) -> storage_outside state address slot = false;
  fs_accounts : forall a, a ∈ cst_accounts w ->
    account_outside state (caw_address a) = false /\
    sm_accounts state !! caw_address a
    = if caw_exists a then Some (witness_record a) else None;
  fs_slots : forall a s, a ∈ cst_accounts w -> s ∈ caw_storage a ->
    storage_outside state (caw_address a) (csw_slot s) = false /\
    storage_value (sm_accounts state) (caw_address a) (csw_slot s) = csw_value s;
  fs_outside : forall address, address ∉ map caw_address (cst_accounts w) ->
    account_outside state address = true /\
    forall slot, storage_outside state address slot = true;
  fs_proved : cst_canonical_state_root w <> 0 -> forall a, a ∈ cst_accounts w ->
    verify_proof (cst_canonical_state_root w) (keccak256 (address_bytes (caw_address a)))
      (account_leaf a) (caw_account_proof a) = true /\
    Forall (slot_proved (caw_canonical_storage_root a)) (caw_storage a)
}.

Lemma faithful_spec w state :
  verify_compact_state_v4 w = Ok state -> faithful_state w state.
Proof.
  intros H. apply verify_compact_spec in H as [[_ Hs _ _ _ Ha] ->].
  pose proof (key_sorted_NoDup _ _ Hs) as Hn. rewrite Forall_forall in Ha.
  assert (Hns : forall a, a ∈ cst_accounts w -> NoDup (map csw_slot (caw_storage a)))
    by (intros a Hin; apply key_sorted_NoDup, (ca_slots _ _ (Ha a Hin))).
  assert (Hacc : forall a, a ∈ cst_accounts w ->
                 account_outside (witness_state w) (caw_address a) = false).
  { intros a Hin. unfold account_outside, witness_state. cbn [sm_access_accounts from_compact].
    rewrite bool_decide_eq_true_2; [reflexivity|]. unfold account_set.
    apply elem_of_list_to_set, list_elem_of_fmap. eauto. }
  assert (Hst : forall a s, a ∈ cst_accounts w -> s ∈ map csw_slot (caw_storage a) ->
                storage_outside (witness_state w) (caw_address a) s = false).
  { intros a s Hin Hslot. unfold storage_outside, witness_state.
    cbn [sm_access_storage from_compact].
    assert (E : slot_sets (cst_accounts w) !! caw_address a = Some (slot_set (caw_storage a)))
      by (unfold slot_sets; apply (keyed_lookup caw_address); eauto).
    rewrite E, bool_decide_eq_true_2; [reflexivity|]. apply elem_of_list_to_set, Hslot. }
  assert (Hrec : forall a, a ∈ cst_accounts w ->
    record_map (cst_accounts w) !! caw_address a
    = if caw_exists a then Some (witness_record a) else None).
  { intros a Hin. destruct (caw_exists a) eqn:Ex; [apply record_map_lookup; eauto|].
    destruct (record_map _ !! _) as [r|] eqn:E; [|reflexivity]. exfalso.
    apply record_map_lookup in E as (b & Hb & Hbe & Hk & _); [|exact Hn].
    rewrite (NoDup_key_eq caw_address _ b a Hn Hb Hin Hk) in Hbe. congruence. }
  split.
  - intros i r E. apply record_map_lookup in E as (a & Hin & Hex & _ & <-); [|exact Hn].
    split.
    + unfold is_empty, witness_record. cbn [ar_nonce ar_balance ar_code ar_storage].
      destruct (ca_present _ _ (Ha a Hin) Hex) as [Hz|[Hz|Hz]].
      * rewrite (proj2 (Z.eqb_neq _ _) Hz). reflexivity.
      * rewrite (proj2 (Z.eqb_neq _ _) Hz), andb_false_r. reflexivity.
      * rewrite (bool_decide_eq_false_2 _ Hz), andb_false_r. reflexivity.
    + intros k v Hk. cbn in Hk. apply slot_map_lookup in Hk as (s & _ & Hv & _); auto.
  - intros i r E. apply record_map_lookup in E as (a & Hin & Hex & <- & <-); [|exact Hn].
    split; [apply Hacc, Hin|]. intros slot [v Hv]. cbn in Hv.
    apply slot_map_lookup in Hv as (s & Hs' & _ & <- & _); [|auto].
    apply Hst; [exact Hin|]. apply list_elem_of_fmap. eauto.
  - intros a Hin. split; [apply Hacc, Hin|apply Hrec, Hin].
  - intros a s Hin Hs'. split; [apply Hst; [exact Hin|]; apply list_elem_of_fmap; eauto|].
    unfold storage_value. cbn [sm_accounts witness_state from_compact]. rewrite Hrec by exact Hin.
    destruct (caw_exists a) eqn:Ex; [apply slot_map_value; auto|].
    destruct (ca_absent _ _ (Ha a Hin) Ex) as (_ & _ & _ & Hnil & _).
    rewrite Hnil in Hs'. inversion Hs'.
  - intros i Hi. unfold account_outside, storage_outside, witness_state.
    cbn [sm_access_accounts sm_access_storage from_compact]. split.
    + rewrite bool_decide_eq_false_2; [reflexivity|]. unfold account_set.
      rewrite elem_of_list_to_set. exact Hi.
    + intros slot. destruct (slot_sets (cst_accounts w) !! i) as [v|] eqn:E; [|reflexivity].
      exfalso. unfold slot_sets in E. apply (keyed_lookup caw_address) in E as (a & Hin & <- & _);
        [|exact Hn]. apply Hi, list_elem_of_fmap. eauto.
  - intros Hr a Hin. apply (ca_proved _ _ (Ha a Hin) Hr).
Qed.

(** The compact witness check accepts exactly the well-formed witnesses (at most 128
    accounts, strictly sorted accounts and slots, the storage, proof-node and code
    envelopes, nodes of at most 1024 bytes, no proofs in a room-local witness, no
    EIP-161-empty account marked present, nothing in an absent one, and every account and
    slot proved when there is a canonical root) and returns the state they stand for. *)
Theorem compact_witness_exact w state :
  verify_compact_state_v4 w = Ok state <-> compact_witness_ok w /\ state = witness_state w.
Proof. apply verify_compact_spec. Qed.

(** C29: A verified state is canonical and faithful to its witness: no empty account and no
    zero slot is stored, every stored account and slot is inside the access envelope, the
    witnessed accounts and slots read back exactly the witnessed values, every other
    account is outside the envelope, and with a canonical root every leaf was proved. *)
Theorem compact_state_faithful w state :
  verify_compact_state_v4 w = Ok state -> faithful_state w state.
Proof. apply faithful_spec. Qed.
End CompactFacts.

(** ** Witness *)
Definition compact_demo : CompactStateWitnessV4 :=
  mk_CompactStateWitnessV4 0
    [ mk_CompactAccountWitnessV4 60 true 1 0 [1] 11 []
        [mk_CompactStorageWitnessV4 3 5 []; mk_CompactStorageWitnessV4 4 0 []];
      mk_CompactAccountWitnessV4 61 false 0 0 [] 11 [] [];
      mk_CompactAccountWitnessV4 1001 true 0 30 [] 11 [] [] ].

Lemma compact_state_faithful_witness :
  @storage_value (@sm_accounts toy_revm (@witness_state toy_revm compact_demo)) 60 3 = 5.
Proof.
  assert (H : faithful_state (KK:=toy_keccak) (RV:=toy_revm) (AT:=toy_trie) compact_demo
                (@witness_state toy_revm compact_demo)).
  { apply (@compact_state_faithful toy_keccak toy_revm toy_trie). vm_compute. reflexivity. }
  refine (proj2 (fs_slots _ _ H _ _ (list_elem_of_here _ _) (list_elem_of_here _ _))).
Defined.
