(* ===== verification/ExitV4.v ===== *)
(** * Terminal settlement of a v4 room: stf-core/src/settlement/exit.rs

    [derive_settlement_v4] is split at the source's own blank lines: totals,
    member balances, residual choices, position unwinding, per-asset
    accounting.  The tuple keys of the source's ordered maps are pairs. *)

From S2P Require Import Prelude Types Abi Merkle HashV5 HashV4 State StateEvm Policy.
From S2P Require Import Settlement RosterV4 InboxV4.
Open Scope Z_scope.

(** [key <= previous] on tuples. *)
Definition pair_leb (a b : Z * Z) : bool :=
  (a.1 <? b.1) || ((a.1 =? b.1) && (a.2 <=? b.2)).
Definition pair_not_after (previous : option (Z * Z)) (key : Z * Z) : bool :=
  match previous with Some p => pair_leb key p | None => false end.

Section Settlement.
Context {KK : Keccak} {RV : Revm}.

(** ** Totals *)
Definition settlement_total (total_map : gmap Z Z)
    (item : ExitAssetV4 * AssetTotalWitnessV4) : result string (gmap Z Z) :=
  let '(asset, total) := item in
  fail_if negb (atw_asset_id total =? xa_asset_id asset)
       || bool_decide (is_Some (total_map !! atw_asset_id total))
    with "asset totals must be sorted and exactly match exit-program assets"%string in
  Ok (<[atw_asset_id total := atw_total total]> total_map).

Definition settlement_totals (program : ExitProgramV4) (totals : list AssetTotalWitnessV4)
  : result string (gmap Z Z) :=
  fail_if negb (Nat.eqb (length totals) (length (xpr_assets program)))
    with "asset totals must exactly cover the exit-program asset set"%string in
  for_each settlement_total ∅ (zip (xpr_assets program) totals).

(** ** Direct member balances *)
Definition member_balance (state : StateMap) (slot : MemberSlotWitnessV4)
    (asset : ExitAssetV4) : result string Z :=
  match xa_kind asset with
  | Native => Ok (native_balance (sm_accounts state) (msl_account slot))
  | Erc20 token balance_slot _ =>
      read_storage state token (mapping_slot (msl_account slot) balance_slot)
  end.

Definition insert_balance (state : StateMap) (slot : MemberSlotWitnessV4)
    (amounts : gmap (Z * Z) Z) (asset : ExitAssetV4) : result string (gmap (Z * Z) Z) :=
  let? balance := member_balance state slot asset in
  Ok (<[(msl_slot slot, xa_asset_id asset) := balance]> amounts).

Definition member_balances (program : ExitProgramV4) (state : StateMap)
    (used : list MemberSlotWitnessV4) : result string (gmap (Z * Z) Z) :=
  for_each (fun amounts slot =>
    for_each (insert_balance state slot) amounts (xpr_assets program)) ∅ used.

(** ** Residual choices *)
Definition residual_choice (program : ExitProgramV4)
    (s : gmap (Z * Z) Z * option (Z * Z)) (residual : ResidualAllocationV4)
  : result string (gmap (Z * Z) Z * option (Z * Z)) :=
  let '(residual_choices, previous_key) := s in
  let key := (ral_position residual, ral_asset_id residual) in
  fail_if (zlen (xpr_positions program) <=? ral_position residual)
       || (MAX_MEMBERS <=? ral_recipient_slot residual)
       || pair_not_after previous_key key
       || bool_decide (is_Some (residual_choices !! key))
    with "residual allocations must be sorted, unique and in range"%string in
  Ok (<[key := ral_recipient_slot residual]> residual_choices, Some key).

(** ** Position unwinding *)
Definition member_shares_step (state : StateMap) (position : ProRataPositionV4)
    (s : Z * list (Z * Z)) (slot : MemberSlotWitnessV4) : result string (Z * list (Z * Z)) :=
  let '(attributed_supply, member_shares) := s in
  let? shares := read_storage state (prp_contract position)
                   (mapping_slot (msl_account slot) (prp_share_balance_slot position)) in
  let? attributed_supply := add_u256 attributed_supply shares in
  Ok (attributed_supply, member_shares ++ [(msl_slot slot, shares)]).

Definition excluded_shares_step (state : StateMap) (position : ProRataPositionV4)
    (attributed_supply account : Z) : result string Z :=
  let? shares := read_storage state (prp_contract position)
                   (mapping_slot account (prp_share_balance_slot position)) in
  add_u256 attributed_supply shares.

(** Total supply and member shares of a position whose shares are all
    attributed. *)
Definition position_shares (state : StateMap) (used : list MemberSlotWitnessV4)
    (position : ProRataPositionV4) : result string (Z * list (Z * Z)) :=
  let? total_supply := read_storage state (prp_contract position)
                         (prp_total_supply_slot position) in
  let? (attributed_supply, member_shares) :=
    for_each (member_shares_step state position) (0, []) used in
  let? attributed_supply := for_each (excluded_shares_step state position)
                              attributed_supply (prp_excluded_share_accounts position) in
  fail_if negb (attributed_supply =? total_supply)
    with "position has shares outside used members and explicitly excluded accounts"%string in
  Ok (total_supply, member_shares).

(** The synchronised token balance backing a position. *)
Definition backing_balance (program : ExitProgramV4) (state : StateMap)
    (position : ProRataPositionV4) (total_supply : Z) (backing : PositionBackingV4)
  : result string Z :=
  let? a := asset program (pb_asset_id backing) in
  match xa_kind a with
  | Native => Err "pro-rata backing must be ERC-20"%string
  | Erc20 token balance_slot _ =>
      let? backing_balance := read_storage state token
                                (mapping_slot (prp_contract position) balance_slot) in
      let? _ := match pb_reserve_slot backing with
                | None => Ok tt
                | Some reserve_slot =>
                    let? reserve := read_storage state (prp_contract position) reserve_slot in
                    fail_if negb (reserve =? backing_balance)
                      with "reserve is not synchronized to token balance"%string in
                    Ok tt
                end in
      fail_if (total_supply =? 0) && negb (backing_balance =? 0)
        with "position has backing with zero share supply"%string in
      Ok backing_balance
  end.

(** [*amounts.entry(key).or_default() += amount], checked. *)
Definition add_amount (amounts : gmap (Z * Z) Z) (key : Z * Z) (amount : Z)
  : result string (gmap (Z * Z) Z) :=
  let? total := add_u256 (default 0 (amounts !! key)) amount in
  Ok (<[key := total]> amounts).

Definition distribute_step (backing_balance total_supply asset_id : Z)
    (s : gmap (Z * Z) Z * Z) (member : Z * Z) : result string (gmap (Z * Z) Z * Z) :=
  let '(amounts, distributed) := s in
  let '(slot, shares) := member in
  let? claim := mul_div_floor backing_balance shares total_supply in
  let? amounts := add_amount amounts (slot, asset_id) claim in
  let? distributed := add_u256 distributed claim in
  Ok (amounts, distributed).

Definition allocate_residual (roster : list MemberSlotWitnessV4)
    (residual_choices : gmap (Z * Z) Z) (key : Z * Z) (residual : Z)
    (s : gmap (Z * Z) Z * gset (Z * Z)) : result string (gmap (Z * Z) Z * gset (Z * Z)) :=
  let '(amounts, consumed_residuals) := s in
  match residual =? 0, residual_choices !! key with
  | true, None => Ok (amounts, consumed_residuals)
  | true, Some _ => Err "declares a zero residual"%string
  | false, None => Err "has an unallocated residual"%string
  | false, Some slot =>
      match znth roster slot with
      | None => Err "residual recipient slot is unused"%string
      | Some member =>
          fail_if negb (is_used member) with "residual recipient slot is unused"%string in
          let? amounts := add_amount amounts (msl_slot member, key.2) residual in
          Ok (amounts, {[key]} ∪ consumed_residuals)
      end
  end.

Definition unwind_backing (program : ExitProgramV4) (state : StateMap)
    (roster : list MemberSlotWitnessV4) (residual_choices : gmap (Z * Z) Z)
    (position_index : Z) (position : ProRataPositionV4) (total_supply : Z)
    (member_shares : list (Z * Z))
    (s : gmap (Z * Z) Z * gset (Z * Z)) (backing : PositionBackingV4)
  : result string (gmap (Z * Z) Z * gset (Z * Z)) :=
  let '(amounts, consumed_residuals) := s in
  let? balance := backing_balance program state position total_supply backing in
  let? (amounts, distributed) :=
    if total_supply =? 0 then Ok (amounts, 0)
    else for_each (distribute_step balance total_supply (pb_asset_id backing))
           (amounts, 0) member_shares in
  let? residual := ok_or (checked_sub balance distributed)
                     "position distribution exceeds backing"%string in
  allocate_residual roster residual_choices (position_index mod 256, pb_asset_id backing)
    residual (amounts, consumed_residuals).

Definition unwind_position (program : ExitProgramV4) (state : StateMap)
    (roster used : list MemberSlotWitnessV4) (residual_choices : gmap (Z * Z) Z)
    (s : gmap (Z * Z) Z * gset (Z * Z)) (item : Z * ProRataPositionV4)
  : result string (gmap (Z * Z) Z * gset (Z * Z)) :=
  let '(position_index, position) := item in
  let? (total_supply, member_shares) := position_shares state used position in
  for_each (unwind_backing program state roster residual_choices position_index position
              total_supply member_shares) s (prp_backings position).

(** ** Per-asset accounting *)
Definition supply_matches (state : StateMap) (total_map : gmap Z Z) (asset : ExitAssetV4)
  : result string unit :=
  match xa_kind asset with
  | Native => Ok tt
  | Erc20 token _ total_supply_slot =>
      let? supply := read_storage state token total_supply_slot in
      let? funded := ok_or (total_map !! xa_asset_id asset) index_panic in
      fail_if negb (supply =? funded)
        with "room token supply does not match L1-funded total"%string in
      Ok tt
  end.

Definition collect_exit (amounts : gmap (Z * Z) Z) (asset_id : Z)
    (s : list ExitAllocationV4 * Z) (slot : MemberSlotWitnessV4)
  : result string (list ExitAllocationV4 * Z) :=
  let '(exit_allocations, exit_total) := s in
  let amount := default 0 (amounts !! (msl_slot slot, asset_id)) in
  if amount =? 0 then Ok s else
  let? exit_total := add_u256 exit_total amount in
  Ok (exit_allocations
        ++ [mk_ExitAllocationV4 (msl_slot slot) asset_id (msl_account slot) amount],
      exit_total).

Definition account_asset (state : StateMap) (used : list MemberSlotWitnessV4)
    (total_map : gmap Z Z) (amounts : gmap (Z * Z) Z)
    (s : list ExitAllocationV4 * list AssetAccountingV4) (asset : ExitAssetV4)
  : result string (list ExitAllocationV4 * list AssetAccountingV4) :=
  let '(exit_allocations, accounting) := s in
  let? _ := supply_matches state total_map asset in
  let? (exit_allocations, exit_total) :=
    for_each (collect_exit amounts (xa_asset_id asset)) (exit_allocations, 0) used in
  let? total := ok_or (total_map !! xa_asset_id asset) index_panic in
  fail_if negb (exit_total =? total) with "asset is not exactly conserved"%string in
  Ok (exit_allocations,
      accounting ++ [mk_AssetAccountingV4 (xa_asset_id asset) total exit_total 0]).

(** [sort_by_key(|a| (a.slot, a.asset_id))], a stable sort; both key parts are
    bytes. *)
Definition claim_le (a b : ExitAllocationV4) : Prop := claim_key a <= claim_key b.
#[export] Instance claim_le_total : Total claim_le.
Proof. intros a b. unfold claim_le. lia. Qed.
#[export] Instance claim_le_trans : Transitive claim_le.
Proof. intros a b c. unfold claim_le. lia. Qed.
#[export] Instance claim_le_dec : RelDecision claim_le.
Proof. intros a b. unfold claim_le. apply _. Defined.

Definition settlement_amounts (program : ExitProgramV4) (state : StateMap)
    (roster used : list MemberSlotWitnessV4)
    (residual_allocations : list ResidualAllocationV4) : result string (gmap (Z * Z) Z) :=
  let? amounts := member_balances program state used in
  let? (residual_choices, _) :=
    for_each (residual_choice program) (∅, None) residual_allocations in
  let? (amounts, consumed_residuals) :=
    for_each (unwind_position program state roster used residual_choices) (amounts, ∅)
      (enumerate (xpr_positions program)) in
  fail_if negb (Nat.eqb (size consumed_residuals) (size residual_choices))
    with "a residual allocation does not identify a nonzero derived residual"%string in
  Ok amounts.

Definition derive_settlement_v4 (program : ExitProgramV4) (state : StateMap)
    (roster : list MemberSlotWitnessV4) (totals : list AssetTotalWitnessV4)
    (residual_allocations : list ResidualAllocationV4) (deployment_id room_id : Z)
  : result string DerivedSettlementV4 :=
  let? total_map := settlement_totals program totals in
  let used := filter is_used roster in
  fail_if bool_decide (length used = 0%nat)
    with "settlement requires at least one lifetime-used member"%string in
  let? amounts := settlement_amounts program state roster used residual_allocations in
  let? (exit_allocations, accounting) :=
    for_each (account_asset state used total_map amounts) ([], []) (xpr_assets program) in
  let exit_allocations := merge_sort claim_le exit_allocations in
  Ok (mk_DerivedSettlementV4 exit_allocations accounting
        (hash_asset_totals_v4 accounting) (hash_exit_totals_v4 accounting)
        (hash_fee_totals_v4 accounting)
        (claim_merkle_root_v4 deployment_id room_id exit_allocations)).

(** ** Authentication of the previous allocations *)
Definition authenticate_allocation (program : ExitProgramV4)
    (roster : list MemberSlotWitnessV4) (used_mask : Z) (previous_key : option Z)
    (allocation : ExitAllocationV4) : result string (option Z) :=
  fail_if (MAX_MEMBERS <=? xal_slot allocation) || (MAX_ASSETS <=? xal_asset_id allocation)
       || negb (is_ok (asset program (xal_asset_id allocation)))
       || (xal_amount allocation =? 0)
    with "previous exit allocations contain an out-of-range or zero leaf"%string in
  let bit := Z.shiftl 1 (xal_slot allocation) in
  match znth roster (xal_slot allocation) with
  | None => Err "previous exit allocation references an unused roster slot"%string
  | Some member =>
      fail_if negb (msl_slot member =? xal_slot allocation) || negb (is_used member)
        with "previous exit allocation references an unused roster slot"%string in
      fail_if (Z.land used_mask bit =? 0)
           || negb (xal_recipient allocation =? msl_account member)
        with "previous exit allocation recipient/slot does not match pre-roster"%string in
      let key := xal_slot allocation * MAX_ASSETS + xal_asset_id allocation in
      fail_if not_after previous_key key
        with "previous exit allocations must be sorted and unique"%string in
      Ok (Some key)
  end.

Definition authenticate_previous_exit_allocations_v4 (program : ExitProgramV4)
    (roster : list MemberSlotWitnessV4) (used_mask : Z)
    (allocations : list ExitAllocationV4) (expected_root deployment_id room_id : Z)
  : result string unit :=
  fail_if MAX_MEMBERS * zlen (xpr_assets program) <? zlen allocations
    with "previous exit allocation list exceeds room dimensions"%string in
  let? _ := for_each (authenticate_allocation program roster used_mask) None allocations in
  fail_if negb (claim_merkle_root_v4 deployment_id room_id allocations =? expected_root)
    with "previous exit allocation root does not match previousExitRoot"%string in
  Ok tt.

(** ** Continuity of retired exits *)
Definition amounts_of (allocations : list ExitAllocationV4) : gmap (Z * Z) Z :=
  foldl (fun m a => <[(xal_slot a, xal_asset_id a) := xal_amount a]> m) ∅ allocations.

(** [1u8 << slot]; the shift amount wraps at the width. *)
Definition slot_bit (slot : Z) : Z := Z.shiftl 1 (slot mod 8).

Definition retired_key_unchanged (already_retired : Z) (previous current : gmap (Z * Z) Z)
    (_ : unit) (key : Z * Z) : result string unit :=
  if Z.land already_retired (slot_bit key.1) =? 0 then Ok tt else
  fail_if negb (default 0 (previous !! key) =? default 0 (current !! key))
    with "retired slot exit changed"%string in
  Ok tt.

Definition enforce_retired_exit_continuity_v4 (previous current : list ExitAllocationV4)
    (pre_used_mask pre_active_mask : Z) : result string unit :=
  let already_retired := Z.land (Z.land pre_used_mask (Z.lxor pre_active_mask 0xff)) 0x7f in
  if already_retired =? 0 then Ok tt else
  let previous_amounts := amounts_of previous in
  let current_amounts := amounts_of current in
  for_each (retired_key_unchanged already_retired previous_amounts current_amounts) tt
    (elements (dom previous_amounts ∪ dom current_amounts)).
End Settlement.

(** * Conservation *)
Section Conservation.
Context {KK : Keccak} {RV : Revm}.
Implicit Types (amounts : gmap (Z * Z) Z) (state : StateMap).

(** Everything owed in one asset. *)
Definition owed (asset_id : Z) (key : Z * Z) (v : Z) : Z := if key.2 =? asset_id then v else 0.
Definition asset_sum (amounts : gmap (Z * Z) Z) (asset_id : Z) : Z :=
  map_sum (owed asset_id) amounts.

Lemma owed_add a k v w : owed a k (v + w) = owed a k v + owed a k w.
Proof. unfold owed. destruct (k.2 =? a); lia. Qed.

(** All keys name used slots. *)
Definition keys_used (used : list MemberSlotWitnessV4) amounts : Prop :=
  map_Forall (fun key _ => exists s, s ∈ used /\ msl_slot s = key.1) amounts.

Lemma keys_used_insert used amounts s a v :
  s ∈ used -> keys_used used amounts -> keys_used used (<[(msl_slot s, a) := v]> amounts).
Proof. intros Hs Hk. apply map_Forall_insert_2; [exists s; auto|exact Hk]. Qed.

Lemma add_amount_spec amounts key x amounts' :
  add_amount amounts key x = Ok amounts' ->
  amounts' = <[key := default 0 (amounts !! key) + x]> amounts /\
  forall a, asset_sum amounts' a = asset_sum amounts a + owed a key x.
Proof.
  unfold add_amount. intros H.
  destruct (add_u256 _ _) as [t|] eqn:E; cbn [rbind] in H; [|discriminate].
  apply add_u256_ok in E as [-> _]. injection H as <-. split; [reflexivity|].
  intros a. apply map_sum_add. intros. apply owed_add.
Qed.

(** ** Pro-rata distribution *)
Lemma distribute_spec used balance supply asset_id shares amounts s :
  (forall m, m ∈ shares -> exists x, x ∈ used /\ msl_slot x = m.1) ->
  keys_used used amounts ->
  for_each (distribute_step balance supply asset_id) (amounts, 0) shares = Ok s ->
  keys_used used s.1 /\
  (forall a, asset_sum s.1 a = asset_sum amounts a + (if asset_id =? a then s.2 else 0)) /\
  s.2 = zsum (map (fun m => balance * m.2 / supply) shares).
Proof.
  intros Hm Hk E.
  refine (for_each_inv (fun done s => keys_used used s.1 /\
    (forall a, asset_sum s.1 a = asset_sum amounts a + (if asset_id =? a then s.2 else 0)) /\
    s.2 = zsum (map (fun m => balance * m.2 / supply) done)) _ _ _ _ _ _ E).
  - cbn. split_and!; auto. intros a. destruct (asset_id =? a); lia.
  - intros done [slot sh] [am dist] s2 (I1 & I2 & I3) Hin Hb. cbn [fst snd] in *.
    unfold distribute_step in Hb.
    destruct (mul_div_floor _ _ _) as [claim|] eqn:Ec; cbn [rbind] in Hb; [|discriminate].
    destruct (add_amount _ _ _) as [am'|] eqn:Ea; cbn [rbind] in Hb; [|discriminate].
    destruct (add_u256 _ _) as [d'|] eqn:Ed; cbn [rbind] in Hb; [|discriminate].
    injection Hb as <-. cbn [fst snd]. apply add_u256_ok in Ed as [-> _].
    apply add_amount_spec in Ea as [-> Hs].
    assert (claim = balance * sh / supply) as ->.
    { unfold mul_div_floor, checked_mul in Ec. destruct (supply =? 0); [discriminate|].
      destruct (_ <=? _); cbn in Ec; [|discriminate]. injection Ec as <-. reflexivity. }
    split_and!.
    + destruct (Hm (slot, sh) Hin) as (x & Hx & Hsx). cbn in Hsx. subst slot.
      apply keys_used_insert; assumption.
    + intros a. rewrite Hs, I2. unfold owed. cbn. destruct (asset_id =? a); lia.
    + rewrite map_app, zsum_app, I3. unfold zsum. cbn. lia.
Qed.

(** ** One backing, one position, all positions *)
Definition backing_value (program : ExitProgramV4) (state : StateMap)
    (position : ProRataPositionV4) (backing : PositionBackingV4) : Z :=
  match asset program (pb_asset_id backing) with
  | Ok a => match xa_kind a with
            | Erc20 token balance_slot _ =>
                storage_value (sm_accounts state) token
                  (mapping_slot (prp_contract position) balance_slot)
            | Native => 0
            end
  | Err _ => 0
  end.

Definition position_value (program : ExitProgramV4) (state : StateMap) (asset_id : Z)
    (position : ProRataPositionV4) : Z :=
  zsum (map (fun b => if pb_asset_id b =? asset_id
                      then backing_value program state position b else 0)
            (prp_backings position)).

Lemma read_storage_ok state a s v :
  read_storage state a s = Ok v -> v = storage_value (sm_accounts state) a s.
Proof. unfold read_storage. destruct (storage_outside _ _ _); congruence. Qed.

Lemma backing_balance_spec program state position supply backing v :
  backing_balance program state position supply backing = Ok v ->
  v = backing_value program state position backing /\ (supply = 0 -> v = 0).
Proof.
  unfold backing_balance, backing_value. intros H.
  destruct (asset program _) as [a|]; cbn [rbind] in H; [|discriminate].
  destruct (xa_kind a); [discriminate|].
  destruct (read_storage _ _ _) as [w|] eqn:Er; cbn [rbind] in H; [|discriminate].
  apply read_storage_ok in Er.
  match type of H with rbind ?m _ = _ => destruct m end; cbn [rbind] in H; [|discriminate].
  destruct (Z.eqb_spec supply 0), (Z.eqb_spec w 0); cbn in H; try discriminate;
    injection H as <-; split; auto; lia.
Qed.

Lemma allocate_residual_spec roster choices key residual amounts consumed s :
  allocate_residual roster choices key residual (amounts, consumed) = Ok s ->
  keys_used (filter is_used roster) amounts ->
  keys_used (filter is_used roster) s.1 /\
  forall a, asset_sum s.1 a = asset_sum amounts a + (if key.2 =? a then residual else 0).
Proof.
  unfold allocate_residual. intros H Hk.
  destruct (Z.eqb_spec residual 0) as [->|Hr]; destruct (choices !! key) as [slot|];
    try discriminate.
  { injection H as <-. cbn. split; [exact Hk|]. intros a. destruct (key.2 =? a); lia. }
  destruct (znth roster slot) as [member|] eqn:Em; [|discriminate].
  destruct (is_used member) eqn:Eu; [|discriminate]. cbn [negb] in H.
  destruct (add_amount _ _ _) as [am|] eqn:Ea; cbn [rbind] in H; [|discriminate].
  injection H as <-. apply add_amount_spec in Ea as [-> Hs]. cbn [fst snd]. split.
  - apply keys_used_insert; [|exact Hk]. apply list_elem_of_filter.
    split; [apply Is_true_eq_left, Eu|]. unfold znth in Em.
    destruct (slot <? 0); [discriminate|]. eapply list_elem_of_lookup_2, Em.
  - intros a. rewrite Hs. unfold owed. cbn. reflexivity.
Qed.

Lemma unwind_backing_spec program state roster choices i position supply shares s backing s' :
  (forall m, m ∈ shares -> exists x, x ∈ filter is_used roster /\ msl_slot x = m.1) ->
  keys_used (filter is_used roster) s.1 ->
  unwind_backing program state roster choices i position supply shares s backing = Ok s' ->
  keys_used (filter is_used roster) s'.1 /\
  forall a, asset_sum s'.1 a = asset_sum s.1 a
    + (if pb_asset_id backing =? a then backing_value program state position backing else 0).
Proof.
  intros Hm Hk H. destruct s as [amounts consumed]. unfold unwind_backing in H.
  destruct (backing_balance _ _ _ _ _) as [balance|] eqn:Eb; cbn [rbind] in H; [|discriminate].
  apply backing_balance_spec in Eb as [-> Hz].
  match type of H with rbind ?m _ = _ => destruct m as [[am dist]|] eqn:Ed end;
    cbn [rbind] in H; [|discriminate].
  destruct (checked_sub _ _) as [residual|] eqn:Er; cbn [ok_or rbind] in H; [|discriminate].
  assert (D : keys_used (filter is_used roster) am /\ forall a, asset_sum am a
    = asset_sum amounts a + (if pb_asset_id backing =? a then dist else 0)).
  { destruct (supply =? 0).
    - injection Ed as <- <-. split; [exact Hk|]. intros a. destruct (_ =? _); lia.
    - pose proof (distribute_spec _ _ _ _ _ _ _ Hm Hk Ed) as (D1 & D2 & _). auto. }
  destruct D as [D1 D2].
  apply allocate_residual_spec in H as [R1 R2]; [|exact D1]. split; [exact R1|].
  intros a. rewrite R2, D2. cbn [snd fst]. unfold checked_sub in Er.
  destruct (dist <=? _); [|discriminate]. injection Er as <-.
  destruct (pb_asset_id backing =? a); lia.
Qed.

Lemma position_shares_spec state used position r :
  position_shares state used position = Ok r ->
  map fst r.2 = map msl_slot used /\
  r.1 = storage_value (sm_accounts state) (prp_contract position)
          (prp_total_supply_slot position) /\
  map snd r.2 = map (fun s => storage_value (sm_accounts state) (prp_contract position)
    (mapping_slot (msl_account s) (prp_share_balance_slot position))) used.
Proof.
  unfold position_shares. intros H.
  destruct (read_storage _ _ _) as [ts|] eqn:Et; cbn [rbind] in H; [|discriminate].
  destruct (for_each (member_shares_step _ _) _ _) as [[att ms]|] eqn:Em; cbn [rbind] in H;
    [|discriminate].
  destruct (for_each (excluded_shares_step _ _) _ _) as [att'|]; cbn [rbind] in H; [|discriminate].
  destruct (negb _); [discriminate|]. injection H as <-. cbn [fst snd].
  apply read_storage_ok in Et.
  assert (G : map fst ms = map msl_slot used /\
    map snd ms = map (fun s => storage_value (sm_accounts state) (prp_contract position)
      (mapping_slot (msl_account s) (prp_share_balance_slot position))) used); [|tauto].
  change ms with ((att, ms).2).
  refine (for_each_inv (fun done s => map fst s.2 = map msl_slot done /\
    map snd s.2 = map (fun s => storage_value (sm_accounts state) (prp_contract position)
      (mapping_slot (msl_account s) (prp_share_balance_slot position))) done) _ _ _ _ _ _ Em).
  { auto. }
  intros done x [a1 m1] s2 [I1 I2] _ Hb. cbn [fst snd] in *. unfold member_shares_step in Hb.
  destruct (read_storage _ _ _) as [sh|] eqn:Es; cbn [rbind] in Hb; [|discriminate].
  destruct (add_u256 _ _); cbn [rbind] in Hb; [|discriminate]. injection Hb as <-.
  apply read_storage_ok in Es. cbn [snd]. rewrite !map_app, I1, I2. subst sh. auto.
Qed.

Lemma unwind_position_spec program state roster choices s item s' :
  keys_used (filter is_used roster) s.1 ->
  unwind_position program state roster (filter is_used roster) choices s item = Ok s' ->
  keys_used (filter is_used roster) s'.1 /\
  forall a, asset_sum s'.1 a = asset_sum s.1 a + position_value program state a item.2.
Proof.
  intros Hk H. destruct item as [i position]. unfold unwind_position in H.
  destruct (position_shares _ _ _) as [[supply shares]|] eqn:Ep; cbn [rbind] in H; [|discriminate].
  apply position_shares_spec in Ep as (Hf & _ & _). cbn [fst snd] in *.
  assert (Hm : forall m, m ∈ shares -> exists x, x ∈ filter is_used roster /\ msl_slot x = m.1).
  { intros m Hin. assert (G : m.1 ∈ map msl_slot (filter is_used roster)).
    { rewrite <- Hf. apply list_elem_of_fmap. eauto. }
    apply list_elem_of_fmap in G as (x & -> & Hx). eauto. }
  unfold position_value.
  refine (for_each_inv (fun done s1 => keys_used (filter is_used roster) s1.1 /\
    forall a, asset_sum s1.1 a = asset_sum s.1 a
      + zsum (map (fun b => if pb_asset_id b =? a
                            then backing_value program state position b else 0) done))
    _ _ _ _ _ _ H).
  - split; [exact Hk|]. intros a. unfold zsum. cbn. lia.
  - intros done x s1 s2 [I1 I2] _ Hb.
    apply unwind_backing_spec in Hb as [B1 B2]; auto. split; [exact B1|].
    intros a. rewrite B2, I2, map_app, zsum_app. unfold zsum. cbn. lia.
Qed.

Lemma unwind_positions_spec program state roster choices amounts s' :
  keys_used (filter is_used roster) amounts ->
  for_each (unwind_position program state roster (filter is_used roster) choices) (amounts, ∅)
    (enumerate (xpr_positions program)) = Ok s' ->
  keys_used (filter is_used roster) s'.1 /\
  forall a, asset_sum s'.1 a = asset_sum amounts a
    + zsum (map (position_value program state a) (xpr_positions program)).
Proof.
  intros Hk H. rewrite <- (enumerate_snd (xpr_positions program)).
  refine (for_each_inv (fun done s1 => keys_used (filter is_used roster) s1.1 /\
    forall a, asset_sum s1.1 a = asset_sum amounts a
      + zsum (map (position_value program state a) (map snd done))) _ _ _ _ _ _ H).
  - split; [exact Hk|]. intros a. unfold zsum. cbn. lia.
  - intros done x s1 s2 [I1 I2] _ Hb. apply unwind_position_spec in Hb as [B1 B2]; auto.
    split; [exact B1|]. intros a. rewrite B2, I2, !map_app, zsum_app. unfold zsum. cbn. lia.
Qed.

(** ** Member balances *)
Definition balance_value (state : StateMap) (slot : MemberSlotWitnessV4) (a : ExitAssetV4) : Z :=
  match xa_kind a with
  | Native => native_balance (sm_accounts state) (msl_account slot)
  | Erc20 token balance_slot _ =>
      storage_value (sm_accounts state) token (mapping_slot (msl_account slot) balance_slot)
  end.

Definition row_value (state : StateMap) (assets : list ExitAssetV4) (asset_id : Z)
    (slot : MemberSlotWitnessV4) : Z :=
  zsum (map (fun b => if xa_asset_id b =? asset_id then balance_value state slot b else 0) assets).

Lemma member_balance_ok state slot a v :
  member_balance state slot a = Ok v -> v = balance_value state slot a.
Proof.
  unfold member_balance, balance_value. destruct (xa_kind a); [congruence|].
  apply read_storage_ok.
Qed.

(** Keys written so far: rows of [slots], then the current row. *)
Definition row_keys (slots : list MemberSlotWitnessV4) (current : option Z)
    (ids : list Z) amounts : Prop :=
  map_Forall (fun key _ => key.1 ∈ map msl_slot slots
                           \/ (Some key.1 = current /\ key.2 ∈ ids)) amounts.

Lemma member_row_spec state slots slot assets amounts amounts' :
  msl_slot slot ∉ map msl_slot slots -> NoDup (map xa_asset_id assets) ->
  row_keys slots None [] amounts ->
  for_each (insert_balance state slot) amounts assets = Ok amounts' ->
  row_keys (slots ++ [slot]) None [] amounts' /\
  forall a, asset_sum amounts' a = asset_sum amounts a + row_value state assets a slot.
Proof.
  intros Hs Hn Hk E.
  assert (G : row_keys slots (Some (msl_slot slot)) (map xa_asset_id assets) amounts' /\
    forall a, asset_sum amounts' a = asset_sum amounts a + row_value state assets a slot).
  { refine (for_each_inv_at (fun done am =>
      row_keys slots (Some (msl_slot slot)) (map xa_asset_id done) am /\
      forall a, asset_sum am a = asset_sum amounts a + row_value state done a slot)
      _ _ _ _ _ _ E).
    - split; [|intros a; unfold row_value, zsum; cbn; lia].
      intros key v Hkv. destruct (Hk key v Hkv) as [?|[? _]]; [auto|discriminate].
    - intros done x rest am am' Hl [I1 I2] Hb. unfold insert_balance in Hb.
      destruct (member_balance _ _ _) as [v|] eqn:Ev; cbn [rbind] in Hb; [|discriminate].
      injection Hb as <-. apply member_balance_ok in Ev as ->.
      rewrite Hl in Hn. pose proof (NoDup_map_middle _ _ _ _ Hn) as Hx.
      assert (Hfresh : am !! (msl_slot slot, xa_asset_id x) = None).
      { destruct (am !! _) as [w|] eqn:Ew; [|reflexivity].
        destruct (I1 _ _ Ew) as [H|[_ H]]; cbn in H; contradiction. }
      split.
      + apply map_Forall_insert_2.
        * right. split; [reflexivity|]. cbn. rewrite map_app. apply elem_of_app. right. left.
        * intros key w Hkw. destruct (I1 key w Hkw) as [?|[? ?]]; [auto|right].
          split; [assumption|]. rewrite map_app. apply elem_of_app. auto.
      + intros a. unfold asset_sum at 1. rewrite map_sum_insert by exact Hfresh.
        fold (asset_sum am a). rewrite I2. unfold row_value. rewrite map_app, zsum_app.
        unfold owed, zsum. cbn. lia. }
  destruct G as [G1 G2]. split; [|exact G2].
  intros key v Hkv. left. rewrite map_app. apply elem_of_app.
  destruct (G1 key v Hkv) as [?|[E1 _]]; [auto|]. right. injection E1 as ->. left.
Qed.

Lemma member_balances_spec program state used amounts :
  NoDup (map msl_slot used) -> NoDup (map xa_asset_id (xpr_assets program)) ->
  member_balances program state used = Ok amounts ->
  keys_used used amounts /\
  forall a, asset_sum amounts a = zsum (map (row_value state (xpr_assets program) a) used).
Proof.
  intros Hs Hn E. unfold member_balances in E.
  assert (G : row_keys used None [] amounts /\
    forall a, asset_sum amounts a = zsum (map (row_value state (xpr_assets program) a) used)).
  { refine (for_each_inv_at (fun done am => row_keys done None [] am /\
      forall a, asset_sum am a = zsum (map (row_value state (xpr_assets program) a) done))
      _ _ _ _ _ _ E).
    - split; [apply map_Forall_empty|reflexivity].
    - intros done x rest am am' Hl [I1 I2] Hb. rewrite Hl in Hs.
      apply NoDup_map_middle in Hs. eapply member_row_spec in Hb as [B1 B2]; eauto.
      split; [exact B1|]. intros a. rewrite B2, I2, map_app, zsum_app. unfold zsum. cbn. lia. }
  destruct G as [G1 G2]. split; [|exact G2]. intros key v Hkv.
  destruct (G1 key v Hkv) as [Hin|[? _]]; [|discriminate].
  apply list_elem_of_fmap in Hin as (s & -> & Hin). eauto.
Qed.

Lemma row_value_single state assets slot a :
  NoDup (map xa_asset_id assets) -> a ∈ assets ->
  row_value state assets (xa_asset_id a) slot = balance_value state slot a.
Proof.
  unfold row_value. intros Hn Ha. induction assets as [|b l IH]; [inversion Ha|].
  cbn in Hn. inversion Hn as [|? ? Hb Hn']; subst.
  change (zsum (map ?g (b :: l))) with (g b + zsum (map g l)). cbv beta.
  apply elem_of_cons in Ha as [->|Ha].
  - rewrite Z.eqb_refl.
    assert (Hz : zsum (map (fun c => if xa_asset_id c =? xa_asset_id b
                                 then balance_value state slot c else 0) l) = 0).
    { clear -Hb. induction l as [|c l IH]; [reflexivity|]. cbn in Hb.
      apply not_elem_of_cons in Hb as [Hbc Hb]. unfold zsum in *. cbn.
      destruct (Z.eqb_spec (xa_asset_id c) (xa_asset_id b)); [congruence|].
      rewrite IH by exact Hb. reflexivity. }
    lia.
  - rewrite IH by assumption. destruct (Z.eqb_spec (xa_asset_id b) (xa_asset_id a)) as [E|]; [|lia].
    destruct Hb. rewrite E. apply list_elem_of_fmap. eauto.
Qed.

(** ** Accounting *)
Definition amount_of amounts (asset_id : Z) (slot : MemberSlotWitnessV4) : Z :=
  default 0 (amounts !! (msl_slot slot, asset_id)).

(** The claims of one asset, in slot order. *)
Definition asset_claims amounts (used : list MemberSlotWitnessV4) (asset_id : Z)
  : list ExitAllocationV4 :=
  omap (fun slot => if amount_of amounts asset_id slot =? 0 then None
     else Some (mk_ExitAllocationV4 (msl_slot slot) asset_id (msl_account slot)
                  (amount_of amounts asset_id slot))) used.

Lemma collect_exit_spec amounts asset_id used l0 s :
  for_each (collect_exit amounts asset_id) (l0, 0) used = Ok s ->
  s.1 = l0 ++ asset_claims amounts used asset_id /\
  s.2 = zsum (map (amount_of amounts asset_id) used).
Proof.
  intros E. refine (for_each_inv (fun done s =>
    s.1 = l0 ++ asset_claims amounts done asset_id /\
    s.2 = zsum (map (amount_of amounts asset_id) done)) _ _ _ _ _ _ E).
  { cbn. rewrite app_nil_r. auto. }
  intros done x [l t] s2 [I1 I2] _ Hb. cbn [fst snd] in *. unfold collect_exit in Hb.
  fold (amount_of amounts asset_id x) in Hb.
  unfold asset_claims. rewrite omap_app, map_app, zsum_app. cbn [omap list_omap map].
  destruct (Z.eqb_spec (amount_of amounts asset_id x) 0) as [Hz|Hz].
  - injection Hb as <-. cbn [fst snd]. rewrite app_nil_r, Hz. unfold zsum in *. cbn.
    split; [exact I1|lia].
  - destruct (add_u256 _ _) as [t'|] eqn:Et; cbn [rbind] in Hb; [|discriminate].
    injection Hb as <-. apply add_u256_ok in Et as [-> _]. cbn [fst snd].
    rewrite I1, app_assoc. unfold zsum in *. cbn. split; [reflexivity|lia].
Qed.

Lemma asset_sum_used amounts used asset_id :
  NoDup (map msl_slot used) -> keys_used used amounts ->
  asset_sum amounts asset_id = zsum (map (amount_of amounts asset_id) used).
Proof.
  intros Hn Hk. unfold asset_sum.
  rewrite (map_sum_keys _ _ (map (fun s => (msl_slot s, asset_id)) used)).
  - rewrite map_map. f_equal. apply map_ext. intros s. unfold owed, amount_of. cbn.
    rewrite Z.eqb_refl. reflexivity.
  - clear Hk. induction used as [|s l IH]; cbn in *; [constructor|].
    inversion Hn as [|? ? Hs Hl]; subst. constructor; [|auto].
    intros Hin. apply list_elem_of_fmap in Hin as (t & Ht & Hin). injection Ht as Ht.
    apply Hs. rewrite Ht. apply list_elem_of_fmap. eauto.
  - intros k. unfold owed. destruct (k.2 =? asset_id); reflexivity.
  - intros [i a] v Hkv Hne. unfold owed in Hne. cbn in Hne.
    destruct (Z.eqb_spec a asset_id) as [->|]; [|contradiction].
    destruct (Hk _ _ Hkv) as (s & Hs & Hi). cbn in Hi. subst i.
    apply list_elem_of_fmap. eauto.
Qed.

(** What the accounting loop establishes for one asset. *)
Definition asset_accounted (state : StateMap) (used : list MemberSlotWitnessV4)
    (total_map : gmap Z Z) amounts (a : ExitAssetV4) (acc : AssetAccountingV4) : Prop :=
  acc = mk_AssetAccountingV4 (xa_asset_id a) (aac_total acc) (aac_total acc) 0 /\
  total_map !! xa_asset_id a = Some (aac_total acc) /\
  aac_total acc = zsum (map (amount_of amounts (xa_asset_id a)) used) /\
  (forall token b supply_slot, xa_kind a = Erc20 token b supply_slot ->
     storage_value (sm_accounts state) token supply_slot = aac_total acc).

Lemma account_assets_spec state used total_map amounts assets s :
  for_each (account_asset state used total_map amounts) ([], []) assets = Ok s ->
  s.1 = concat (map (fun a => asset_claims amounts used (xa_asset_id a)) assets) /\
  Forall2 (asset_accounted state used total_map amounts) assets s.2.
Proof.
  intros E. refine (for_each_inv (fun done s =>
    s.1 = concat (map (fun a => asset_claims amounts used (xa_asset_id a)) done) /\
    Forall2 (asset_accounted state used total_map amounts) done s.2) _ _ _ _ _ _ E).
  { cbn. split; [reflexivity|constructor]. }
  intros done x [l accs] s2 [I1 I2] _ Hb. cbn [fst snd] in *. unfold account_asset in Hb.
  destruct (supply_matches _ _ _) as [[]|] eqn:Es; cbn [rbind] in Hb; [|discriminate].
  match type of Hb with rbind ?m _ = _ => destruct m as [[l' t]|] eqn:Ec end;
    cbn [rbind] in Hb; [|discriminate].
  destruct (total_map !! xa_asset_id x) as [total|] eqn:Et; cbn [ok_or rbind] in Hb;
    [|discriminate].
  destruct (Z.eqb_spec t total) as [->|]; [|discriminate]. injection Hb as <-.
  apply collect_exit_spec in Ec as [C1 C2]. cbn [fst snd] in *. split.
  - rewrite C1, I1, map_app, concat_app. cbn. rewrite app_nil_r. reflexivity.
  - apply Forall2_app; [exact I2|]. constructor; [|constructor].
    split_and!; cbn; auto. intros token b sp Hk. unfold supply_matches in Es.
    rewrite Hk in Es. destruct (read_storage _ _ _) as [v|] eqn:Er; cbn [rbind] in Es;
      [|discriminate].
    apply read_storage_ok in Er. rewrite Et in Es. cbn [ok_or rbind] in Es.
    destruct (Z.eqb_spec v total); cbn [negb] in Es; congruence.
Qed.

(** ** The sorted claim list *)
Definition claims_total (asset_id : Z) (claims : list ExitAllocationV4) : Z :=
  zsum (map (fun c => if xal_asset_id c =? asset_id then xal_amount c else 0) claims).

Lemma claims_total_app a l1 l2 :
  claims_total a (l1 ++ l2) = claims_total a l1 + claims_total a l2.
Proof. unfold claims_total. rewrite map_app. apply zsum_app. Qed.

Lemma asset_claims_total amounts used b a :
  claims_total a (asset_claims amounts used b)
  = if b =? a then zsum (map (amount_of amounts b) used) else 0.
Proof.
  induction used as [|s l IH].
  - unfold claims_total, zsum. cbn. destruct (b =? a); reflexivity.
  - unfold asset_claims in *. cbn [omap list_omap map].
    change (zsum (amount_of amounts b s :: ?r)) with (amount_of amounts b s + zsum r).
    destruct (Z.eqb_spec (amount_of amounts b s) 0) as [Hz|Hz].
    + rewrite IH, Hz. destruct (b =? a); lia.
    + unfold claims_total in *. cbn [map xal_asset_id xal_amount].
      change (zsum (?x :: ?r)) with (x + zsum r). rewrite IH. destruct (b =? a); lia.
Qed.

Lemma asset_claims_elem amounts used b c :
  c ∈ asset_claims amounts used b ->
  exists s, s ∈ used /\ xal_slot c = msl_slot s /\ xal_asset_id c = b /\
    xal_recipient c = msl_account s /\ xal_amount c = amount_of amounts b s /\
    xal_amount c <> 0.
Proof.
  unfold asset_claims. intros H. apply list_elem_of_omap in H as (s & Hs & Hc).
  destruct (Z.eqb_spec (amount_of amounts b s) 0); [discriminate|].
  injection Hc as <-. exists s. split_and!; auto.
Qed.

Lemma all_claims_elem amounts used assets c :
  c ∈ concat (map (fun a => asset_claims amounts used (xa_asset_id a)) assets) ->
  exists a s, a ∈ assets /\ s ∈ used /\ xal_slot c = msl_slot s /\
    xal_asset_id c = xa_asset_id a /\ xal_recipient c = msl_account s /\ xal_amount c <> 0.
Proof.
  induction assets as [|a l IH]; cbn; intros H; [inversion H|].
  apply elem_of_app in H as [H|H].
  - apply asset_claims_elem in H as (s & ?&?&?&?&?&?). exists a, s. split_and!; auto. left.
  - destruct (IH H) as (b & s & Hb & Hr). exists b, s. split; [right; exact Hb|exact Hr].
Qed.

Lemma all_claims_total amounts used assets a :
  NoDup (map xa_asset_id assets) -> a ∈ assets ->
  claims_total (xa_asset_id a)
    (concat (map (fun a => asset_claims amounts used (xa_asset_id a)) assets))
  = zsum (map (amount_of amounts (xa_asset_id a)) used).
Proof.
  induction assets as [|b l IH]; cbn [map concat]; intros Hn Ha; [inversion Ha|].
  inversion Hn as [|? ? Hb Hn']; subst. rewrite claims_total_app, asset_claims_total.
  apply elem_of_cons in Ha as [->|Ha].
  - rewrite Z.eqb_refl.
    assert (Hz : forall l', (forall c, c ∈ l' -> xal_asset_id c <> xa_asset_id b) ->
               claims_total (xa_asset_id b) l' = 0).
    { clear. induction l' as [|c l' IH]; intros H; [reflexivity|].
      unfold claims_total in *. cbn. unfold zsum in *. cbn.
      destruct (Z.eqb_spec (xal_asset_id c) (xa_asset_id b)) as [E|_];
        [destruct (H c); [left|exact E]|]. rewrite IH; [reflexivity|].
      intros c' Hc'. apply H. right. exact Hc'. }
    rewrite Hz; [lia|]. intros c Hc E.
    apply all_claims_elem in Hc as (a & s & Ha & _ & _ & Hid & _).
    apply Hb. rewrite <- E, Hid. apply list_elem_of_fmap. eauto.
  - rewrite IH by assumption.
    destruct (Z.eqb_spec (xa_asset_id b) (xa_asset_id a)) as [E|]; [|lia].
    destruct Hb. rewrite E. apply list_elem_of_fmap. eauto.
Qed.

Lemma asset_claims_keys amounts used b :
  NoDup (map msl_slot used) -> NoDup (map claim_key (asset_claims amounts used b)).
Proof.
  induction used as [|s l IH]; cbn; intros Hn; [constructor|].
  inversion Hn as [|? ? Hs Hn']; subst. unfold asset_claims. cbn [omap list_omap].
  destruct (amount_of amounts b s =? 0); [apply IH, Hn'|]. cbn. constructor; [|apply IH, Hn'].
  intros Hin. apply list_elem_of_fmap in Hin as (c & Hk & Hc).
  apply asset_claims_elem in Hc as (t & Ht & Hts & Hta & _). unfold claim_key in Hk.
  cbn in Hk. rewrite Hta, Hts in Hk. apply Hs. replace (msl_slot s) with (msl_slot t) by lia.
  apply list_elem_of_fmap. eauto.
Qed.

Lemma all_claims_keys amounts used assets :
  NoDup (map msl_slot used) -> NoDup (map xa_asset_id assets) ->
  Forall (fun a => in_u8 (xa_asset_id a)) assets ->
  NoDup (map claim_key (concat (map (fun a => asset_claims amounts used (xa_asset_id a)) assets))).
Proof.
  intros Hs. induction assets as [|b l IH]; cbn; intros Hn Hu; [constructor|].
  inversion Hn as [|? ? Hb Hn']; subst. inversion Hu as [|? ? Ub Ul]; subst.
  rewrite map_app. apply NoDup_app. split_and!; [apply asset_claims_keys, Hs| |auto].
  intros k Hk Hk'. apply list_elem_of_fmap in Hk as (c & -> & Hc).
  apply list_elem_of_fmap in Hk' as (c' & Hkk & Hc').
  apply asset_claims_elem in Hc as (s & _ & _ & Ha & _).
  apply all_claims_elem in Hc' as (a & t & Hal & _ & _ & Ha' & _).
  rewrite Forall_forall in Ul. specialize (Ul a Hal). unfold in_u8 in *.
  unfold claim_key in Hkk. rewrite Ha, Ha' in Hkk.
  apply Hb. replace (xa_asset_id b) with (xa_asset_id a) by lia.
  apply list_elem_of_fmap. eauto.
Qed.

(** ** The settlement as a whole *)
Lemma settlement_totals_spec program totals total_map :
  NoDup (map xa_asset_id (xpr_assets program)) ->
  settlement_totals program totals = Ok total_map ->
  Forall2 (fun a t => atw_asset_id t = xa_asset_id a /\
                      total_map !! xa_asset_id a = Some (atw_total t))
    (xpr_assets program) totals.
Proof.
  intros Hn H. unfold settlement_totals in H.
  destruct (Nat.eqb_spec (length totals) (length (xpr_assets program))) as [Hl|]; [|discriminate].
  cbn [negb] in H.
  assert (G : Forall (fun p : ExitAssetV4 * AssetTotalWitnessV4 =>
      atw_asset_id p.2 = xa_asset_id p.1 /\ total_map !! xa_asset_id p.1 = Some (atw_total p.2))
      (zip (xpr_assets program) totals)).
  { assert (Hz : map (fun p : ExitAssetV4 * AssetTotalWitnessV4 => xa_asset_id p.1)
                  (zip (xpr_assets program) totals) = map xa_asset_id (xpr_assets program)).
    { rewrite <- (fst_zip (xpr_assets program) totals) at 2 by lia. rewrite map_map. reflexivity. }
    refine (for_each_inv_at (fun done m => Forall (fun p : ExitAssetV4 * AssetTotalWitnessV4 =>
      atw_asset_id p.2 = xa_asset_id p.1 /\ m !! xa_asset_id p.1 = Some (atw_total p.2)) done)
      _ _ _ _ _ _ H); [constructor|].
    intros done [a t] rest m m' Hd Hi Hb. unfold settlement_total in Hb. inv_ok. bool_to_prop.
    rewrite Hd in Hz. rewrite <- Hz in Hn. apply NoDup_map_middle in Hn. cbn in Hn.
    apply Forall_app. split; [|repeat constructor; cbn; auto; rewrite H0; apply lookup_insert_eq].
    rewrite Forall_forall in *. intros p Hp. destruct (Hi p Hp) as [E1 E2]. split; [exact E1|].
    rewrite lookup_insert_ne; [exact E2|]. intros E. apply Hn. rewrite <- H0, E.
    apply list_elem_of_fmap. eauto. }
  apply Forall2_same_length_lookup_2; [auto|]. intros i a t Ha Ht.
  rewrite Forall_forall in G. apply (G (a, t)). eapply list_elem_of_lookup_2.
  rewrite lookup_zip_with, Ha. cbn. rewrite Ht. reflexivity.
Qed.

(** What an accepted settlement guarantees. *)
Record settlement_ok (program : ExitProgramV4) (state : StateMap)
    (roster : list MemberSlotWitnessV4) (totals : list AssetTotalWitnessV4)
    (deployment_id room_id : Z) (ds : DerivedSettlementV4) : Prop := {
  so_totals : map (fun t => (atw_asset_id t, atw_total t)) totals
              = map (fun acc => (aac_asset_id acc, aac_total acc)) (ds_accounting ds);
  so_accounting : Forall2 (fun a acc =>
      aac_asset_id acc = xa_asset_id a /\ aac_exit_total acc = aac_total acc /\
      aac_fee_total acc = 0 /\
      aac_total acc = claims_total (xa_asset_id a) (ds_exit_allocations ds) /\
      aac_total acc = zsum (map (fun s => balance_value state s a) (filter is_used roster))
        + zsum (map (position_value program state (xa_asset_id a)) (xpr_positions program)) /\
      (forall token b supply_slot, xa_kind a = Erc20 token b supply_slot ->
         storage_value (sm_accounts state) token supply_slot = aac_total acc))
    (xpr_assets program) (ds_accounting ds);
  so_sorted : key_sorted claim_key (ds_exit_allocations ds);
  so_claims : Forall (fun c => xal_amount c <> 0 /\
      (exists a, a ∈ xpr_assets program /\ xa_asset_id a = xal_asset_id c) /\
      (exists s, s ∈ roster /\ is_used s = true /\ msl_slot s = xal_slot c /\
                 msl_account s = xal_recipient c)) (ds_exit_allocations ds);
  so_root : ds_exit_root ds
            = claim_merkle_root_v4 deployment_id room_id (ds_exit_allocations ds);
  so_hashes : ds_asset_totals_hash ds = hash_asset_totals_v4 (ds_accounting ds) /\
              ds_exit_totals_hash ds = hash_exit_totals_v4 (ds_accounting ds) /\
              ds_fee_totals_hash ds = hash_fee_totals_v4 (ds_accounting ds)
}.

Lemma roster_slots_NoDup roster (P : MemberSlotWitnessV4 -> bool) :
  key_sorted msl_slot roster -> NoDup (map msl_slot (filter P roster)).
Proof.
  intros Hr. apply key_sorted_NoDup in Hr.
  induction roster as [|s l IH]; [constructor|]. cbn in Hr. inversion Hr as [|? ? Hs Hl]; subst.
  rewrite filter_cons. case_decide; [cbn; constructor|]; auto.
  intros Hin. apply Hs. apply list_elem_of_fmap in Hin as (t & -> & Ht).
  apply list_elem_of_filter in Ht as [_ Ht]. apply list_elem_of_fmap. eauto.
Qed.

Lemma settlement_amounts_spec program state roster residuals amounts :
  key_sorted msl_slot roster -> NoDup (map xa_asset_id (xpr_assets program)) ->
  settlement_amounts program state roster (filter is_used roster) residuals = Ok amounts ->
  keys_used (filter is_used roster) amounts /\
  forall a, a ∈ xpr_assets program ->
    asset_sum amounts (xa_asset_id a)
    = zsum (map (fun s => balance_value state s a) (filter is_used roster))
      + zsum (map (position_value program state (xa_asset_id a)) (xpr_positions program)).
Proof.
  intros Hr Hn H. unfold settlement_amounts in H.
  destruct (member_balances _ _ _) as [am0|] eqn:E0; cbn [rbind] in H; [|discriminate].
  match type of H with rbind ?m _ = _ => destruct m as [[choices prev]|] eqn:E1 end;
    cbn [rbind] in H; [|discriminate].
  match type of H with rbind ?m _ = _ => destruct m as [[am1 consumed]|] eqn:E2 end;
    cbn [rbind] in H; [|discriminate].
  destruct (negb _); [discriminate|]. injection H as <-.
  apply member_balances_spec in E0 as [K0 S0]; [|apply roster_slots_NoDup, Hr|exact Hn].
  apply unwind_positions_spec in E2 as [K1 S1]; [|exact K0]. cbn [fst] in *.
  split; [exact K1|]. intros a Ha. rewrite S1, S0. f_equal. f_equal.
  apply map_ext. intros s. apply row_value_single; assumption.
Qed.

Lemma settlement_spec program state roster totals residuals d r ds :
  key_sorted msl_slot roster -> key_sorted xa_asset_id (xpr_assets program) ->
  Forall (fun a => in_u8 (xa_asset_id a)) (xpr_assets program) ->
  derive_settlement_v4 program state roster totals residuals d r = Ok ds ->
  settlement_ok program state roster totals d r ds.
Proof.
  intros Hr Hk Hu H. pose proof (key_sorted_NoDup _ _ Hk) as Hn.
  unfold derive_settlement_v4 in H.
  destruct (settlement_totals program totals) as [tm|] eqn:Et; cbn [rbind] in H; [|discriminate].
  destruct (bool_decide _); [discriminate|].
  destruct (settlement_amounts _ _ _ _ _) as [amounts|] eqn:Ea; cbn [rbind] in H; [|discriminate].
  match type of H with rbind ?m _ = _ => destruct m as [[claims accs]|] eqn:Ec end;
    cbn [rbind] in H; [|discriminate].
  injection H as <-. apply settlement_totals_spec in Et; [|exact Hn].
  apply settlement_amounts_spec in Ea as [Hkeys Hsum]; [|assumption..].
  apply account_assets_spec in Ec as [Hcl Hacc]. cbn [fst snd] in *.
  pose proof (merge_sort_Permutation claim_le claims) as Hp.
  split; cbn [ds_exit_allocations ds_accounting ds_exit_root ds_asset_totals_hash
              ds_exit_totals_hash ds_fee_totals_hash]; auto.
  - clear -Et Hacc. revert accs Hacc.
    induction Et as [|a t la lt [E1 E2] Et IH]; intros accs Hacc; inversion Hacc as [|? acc ? accs' A B];
      subst; [reflexivity|].
    cbn. rewrite (IH accs' B). destruct A as (A1 & A2 & _). rewrite A1. cbn. do 2 f_equal; congruence.
  - apply Forall2_same_length_lookup_2; [eapply Forall2_length; eauto|].
    intros i a acc Hi Hj. pose proof (Forall2_lookup_lr _ _ _ _ _ _ Hacc Hi Hj) as (A1 & A2 & A3 & A4).
    assert (Ha : a ∈ xpr_assets program) by (eapply list_elem_of_lookup_2; eauto).
    assert (Hs : aac_total acc = asset_sum amounts (xa_asset_id a)).
    { rewrite (asset_sum_used _ (filter is_used roster)); auto using roster_slots_NoDup. }
    split_and!; try (rewrite A1; reflexivity); auto.
    + unfold claims_total. rewrite (zsum_perm _ (map (fun c => if xal_asset_id c =? xa_asset_id a
        then xal_amount c else 0) claims)) by (apply Permutation_map, Hp).
      fold (claims_total (xa_asset_id a) claims). rewrite Hcl, all_claims_total; auto.
    + rewrite Hs. apply Hsum, Ha.
  - apply key_sorted_strict; [apply (StronglySorted_merge_sort claim_le)|].
    change (map ?f ?l) with (f <$> l). rewrite Hp, Hcl. apply all_claims_keys; auto.
    apply roster_slots_NoDup, Hr.
  - rewrite Forall_forall. intros c Hc. rewrite Hp, Hcl in Hc.
    apply all_claims_elem in Hc as (a & s & Ha & Hs & E1 & E2 & E3 & E4).
    apply list_elem_of_filter in Hs as [Hus Hs]. apply Is_true_eq_true in Hus.
    split_and!; [exact E4|exists a; auto|exists s; auto].
Qed.
End Conservation.

(** * Re-authentication, continuity and bounds *)
Section Continuity.
Context {KK : Keccak} {RV : Revm}.

Lemma land_bit m i : 0 <= i -> (Z.land m (Z.shiftl 1 i) =? 0) = negb (Z.testbit m i).
Proof.
  intros Hi. rewrite Z.shiftl_1_l. destruct (Z.testbit m i) eqn:E; cbn.
  - apply Z.eqb_neq. intros H. apply (f_equal (fun z => Z.testbit z i)) in H.
    rewrite Z.land_spec, E, Z.pow2_bits_true, Z.bits_0 in H by lia. discriminate.
  - apply Z.eqb_eq. apply Z.bits_inj'. intros n Hn.
    rewrite Z.land_spec, Z.bits_0, Z.pow2_bits_eqb by lia.
    destruct (Z.eqb_spec i n) as [<-|]; [rewrite E; reflexivity|apply andb_false_r].
Qed.

Lemma find_asset_elem assets a :
  a ∈ assets -> exists b, find_asset assets (xa_asset_id a) = Some b.
Proof.
  intros Ha. unfold find_asset.
  destruct (list_find_elem_of (fun b => xa_asset_id b = xa_asset_id a) assets a Ha eq_refl)
    as [[i b] Hb]. rewrite Hb. eauto.
Qed.

Definition auth_key (c : ExitAllocationV4) : Z := xal_slot c * MAX_ASSETS + xal_asset_id c.

(** One claim of a settlement that is accepted by the next batch. *)
Definition claim_authentic (program : ExitProgramV4) (roster : list MemberSlotWitnessV4)
    (c : ExitAllocationV4) : Prop :=
  0 <= xal_asset_id c < MAX_ASSETS /\ xal_amount c <> 0 /\
  (exists a, a ∈ xpr_assets program /\ xa_asset_id a = xal_asset_id c) /\
  (exists s, s ∈ roster /\ is_used s = true /\ msl_slot s = xal_slot c /\
             msl_account s = xal_recipient c).

Lemma authenticate_step program roster c previous :
  roster_ok roster -> claim_authentic program roster c ->
  not_after previous (auth_key c) = false ->
  authenticate_allocation program roster (mask is_used roster) previous c
  = Ok (Some (auth_key c)).
Proof.
  intros Hr (Ha & Hz & (a & Hin & Hid) & (s & Hs & Hu & Hsl & Hrec)) Hp.
  apply list_elem_of_lookup in Hs as [i Hi]. pose proof (ro_indexed _ Hr i s Hi) as Hx.
  assert (Hlt : (i < 7)%nat) by (rewrite <- (ro_length _ Hr); eapply lookup_lt_Some, Hi).
  assert (Hslot : xal_slot c = Z.of_nat i) by congruence.
  unfold authenticate_allocation. fold (auth_key c). rewrite Hp.
  destruct (Z.leb_spec MAX_MEMBERS (xal_slot c)); [unfold MAX_MEMBERS in *; lia|].
  destruct (Z.leb_spec MAX_ASSETS (xal_asset_id c)); [lia|].
  destruct (find_asset_elem _ _ Hin) as [b Hb]. rewrite Hid in Hb.
  unfold asset. rewrite Hb. cbn [ok_or is_ok negb orb].
  destruct (Z.eqb_spec (xal_amount c) 0); [contradiction|].
  unfold znth. destruct (Z.ltb_spec (xal_slot c) 0); [lia|].
  rewrite Hslot, Nat2Z.id, Hi, Hx, Hu, Z.eqb_refl. cbn [negb orb].
  rewrite land_bit, mask_testbit, Hi, Hu by lia. cbn [negb orb].
  rewrite Hrec, Z.eqb_refl. reflexivity.
Qed.

Lemma claim_slot_range roster c s :
  roster_ok roster -> s ∈ roster -> msl_slot s = xal_slot c -> 0 <= xal_slot c < 7.
Proof.
  intros Hr Hs <-. apply list_elem_of_lookup in Hs as [i Hi].
  rewrite (ro_indexed _ Hr i s Hi).
  assert (Hlt : (i < 7)%nat) by (rewrite <- (ro_length _ Hr); eapply lookup_lt_Some, Hi). lia.
Qed.

Lemma auth_sorted program roster claims :
  roster_ok roster -> Forall (claim_authentic program roster) claims ->
  key_sorted claim_key claims -> key_sorted auth_key claims.
Proof.
  intros Hr Hc Hs. induction Hs as [|c l Hs IH Hl]; [constructor|].
  inversion Hc as [|? ? Hx Hc']; subst. constructor; [apply IH, Hc'|].
  rewrite Forall_forall in *. intros e He. specialize (Hl e He).
  destruct Hx as (? & _). destruct (Hc' e He) as (? & _).
  unfold auth_key, claim_key, MAX_ASSETS in *. lia.
Qed.

Lemma claims_fit program roster claims :
  roster_ok roster -> Forall (claim_authentic program roster) claims ->
  key_sorted claim_key claims ->
  zlen claims <= MAX_MEMBERS * zlen (xpr_assets program).
Proof.
  intros Hr Hc Hs.
  set (pairs := list_prod slot_indices (map xa_asset_id (xpr_assets program))).
  assert (Hp : length pairs = (7 * length (xpr_assets program))%nat).
  { unfold pairs. rewrite length_prod, length_map. reflexivity. }
  assert (Hle : (length (map (fun c => (xal_slot c, xal_asset_id c)) claims)
                 <= length pairs)%nat).
  { apply NoDup_incl_length.
    - apply key_sorted_NoDup in Hs. clear -Hs. apply NoDup_ListNoDup.
      induction claims as [|c l IH]; [constructor|]. inversion Hs as [|? ? Hn Hs']; subst.
      cbn. constructor; [|apply IH, Hs']. intros Hin. apply Hn.
      apply list_elem_of_fmap in Hin as (e & He & Hin). apply list_elem_of_fmap.
      exists e. split; [|exact Hin]. injection He as H1 H2. unfold claim_key. lia.
    - intros [s a] Hin. apply in_map_iff in Hin as (c & E & Hin). injection E as <- <-.
      rewrite Forall_forall in Hc. apply list_elem_of_In in Hin.
      destruct (Hc c Hin) as (_ & _ & (b & Hb & Eb) & (m & Hm & _ & Em & _)).
      pose proof (claim_slot_range roster c m Hr Hm Em). unfold pairs.
      apply in_prod; [unfold slot_indices; cbn [In]; lia|].
      apply list_elem_of_In, list_elem_of_fmap. eauto. }
  rewrite length_map, Hp in Hle. unfold zlen, MAX_MEMBERS. lia.
Qed.

Lemma authenticate_ok program roster claims root d r :
  roster_ok roster -> Forall (claim_authentic program roster) claims ->
  key_sorted claim_key claims -> root = claim_merkle_root_v4 d r claims ->
  authenticate_previous_exit_allocations_v4 program roster (mask is_used roster) claims root d r
  = Ok tt.
Proof.
  intros Hr Hc Hs ->. unfold authenticate_previous_exit_allocations_v4.
  pose proof (claims_fit _ _ _ Hr Hc Hs).
  destruct (Z.ltb_spec (MAX_MEMBERS * zlen (xpr_assets program)) (zlen claims)); [lia|].
  pose proof (auth_sorted _ _ _ Hr Hc Hs) as Ha.
  destruct (for_each_total (fun done s => s = (auth_key <$> last done))
    (authenticate_allocation program roster (mask is_used roster)) None claims) as (s & E & _).
  - reflexivity.
  - intros done c rest s1 Hl ->. exists (Some (auth_key c)). rewrite last_snoc.
    split; [|reflexivity]. apply authenticate_step; auto.
    + rewrite Forall_forall in Hc. apply Hc. rewrite Hl. apply elem_of_app. right. left.
    + destruct (last done) as [e|] eqn:El; [|reflexivity]. cbn. apply Z.leb_gt.
      apply last_Some in El as [d' ->]. rewrite Hl in Ha.
      replace ((d' ++ [e]) ++ c :: rest) with ((d' ++ [e] ++ [c]) ++ rest) in Ha
        by (rewrite <- !app_assoc; reflexivity).
      apply key_sorted_app_l in Ha. rewrite app_assoc in Ha.
      apply (key_sorted_last auth_key _ c e) in Ha; [exact Ha|].
      apply elem_of_app. right. left.
  - rewrite E. cbn [rbind]. rewrite Z.eqb_refl. reflexivity.
Qed.

(** ** Continuity of retired exits *)
Definition claim_amount (claims : list ExitAllocationV4) (slot asset_id : Z) : Z :=
  default 0 (amounts_of claims !! (slot, asset_id)).

Definition slots_valid (claims : list ExitAllocationV4) : Prop :=
  Forall (fun c => 0 <= xal_slot c < MAX_MEMBERS) claims.

Lemma amounts_of_slots claims key v :
  slots_valid claims -> amounts_of claims !! key = Some v -> 0 <= key.1 < MAX_MEMBERS.
Proof.
  unfold amounts_of, slots_valid.
  induction claims as [|c claims IH] using rev_ind; intros Hv H; [discriminate|].
  apply Forall_app in Hv as [Hv Hc]. inversion Hc; subst.
  rewrite foldl_app in H. cbn in H. apply lookup_insert_Some in H as [[<- _]|[_ H]]; auto.
Qed.

Lemma retired_bits used active slot :
  0 <= slot < 7 ->
  Z.testbit (Z.land (Z.land used (Z.lxor active 255)) 127) slot
  = Z.testbit used slot && negb (Z.testbit active slot).
Proof.
  intros Hs. rewrite !Z.land_spec, Z.lxor_spec.
  replace (Z.testbit 127 slot) with true
    by (symmetry; change 127 with (Z.ones 7); apply Z.ones_spec_low; lia).
  replace (Z.testbit 255 slot) with true
    by (symmetry; change 255 with (Z.ones 8); apply Z.ones_spec_low; lia).
  rewrite andb_true_r. f_equal.
Qed.

Lemma continuity_spec previous current used active :
  slots_valid previous -> slots_valid current ->
  enforce_retired_exit_continuity_v4 previous current used active = Ok tt <->
  forall slot asset_id, 0 <= slot < MAX_MEMBERS ->
    Z.testbit used slot = true -> Z.testbit active slot = false ->
    claim_amount previous slot asset_id = claim_amount current slot asset_id.
Proof.
  intros Vp Vc. unfold enforce_retired_exit_continuity_v4, MAX_MEMBERS in *.
  pose proof (retired_bits used active) as B.
  set (retired := Z.land (Z.land used (Z.lxor active 255)) 127) in *.
  destruct (Z.eqb_spec retired 0) as [Hz|Hz].
  { split; [|reflexivity]. intros _ slot a Hs Hu Ha. specialize (B slot Hs).
    rewrite Hz, Z.bits_0, Hu, Ha in B. discriminate. }
  rewrite for_each_check. unfold claim_amount. split.
  - intros H slot a Hs Hu Ha. specialize (H (slot, a)). rewrite elem_of_elements in H.
    destruct (decide ((slot, a) ∈ dom (amounts_of previous) ∪ dom (amounts_of current)))
      as [Hin|Hin].
    + specialize (H Hin). unfold retired_key_unchanged, slot_bit in H. cbn [fst] in H.
      rewrite Z.mod_small, land_bit, (B slot Hs), Hu, Ha in H by lia. cbn in H.
      destruct (Z.eqb_spec (default 0 (amounts_of previous !! (slot, a)))
                 (default 0 (amounts_of current !! (slot, a)))); [assumption|discriminate].
    + apply not_elem_of_union in Hin as [H1%not_elem_of_dom H2%not_elem_of_dom].
      rewrite H1, H2. reflexivity.
  - intros H [slot a] Hin. apply elem_of_elements, elem_of_union in Hin.
    assert (Hs : 0 <= slot < 7).
    { destruct Hin as [Hin|Hin]; apply elem_of_dom in Hin as [v Hin];
        apply (amounts_of_slots _ (slot, a) v) in Hin; auto. }
    unfold retired_key_unchanged, slot_bit. cbn [fst].
    rewrite Z.mod_small, land_bit, (B slot Hs) by lia.
    destruct (Z.testbit used slot) eqn:Eu, (Z.testbit active slot) eqn:Ea; cbn; try reflexivity.
    rewrite (H slot a Hs Eu Ea), Z.eqb_refl. reflexivity.
Qed.

(** ** The distribution of a position never exceeds its backing *)
Definition storage_nonneg (accounts : gmap Z AccountRecord) : Prop :=
  forall t s, 0 <= storage_value accounts t s.

Lemma position_shares_sum state used position r :
  position_shares state used position = Ok r ->
  r.1 = zsum (map snd r.2) + zsum (map (fun a => storage_value (sm_accounts state)
    (prp_contract position) (mapping_slot a (prp_share_balance_slot position)))
    (prp_excluded_share_accounts position)).
Proof.
  unfold position_shares. intros H.
  destruct (read_storage _ _ _) as [ts|]; cbn [rbind] in H; [|discriminate].
  destruct (for_each (member_shares_step _ _) _ _) as [[att ms]|] eqn:Em; cbn [rbind] in H;
    [|discriminate].
  destruct (for_each (excluded_shares_step _ _) _ _) as [att'|] eqn:Ee; cbn [rbind] in H;
    [|discriminate].
  destruct (Z.eqb_spec att' ts) as [<-|]; [|discriminate]. injection H as <-. cbn [fst snd].
  assert (A1 : att = zsum (map snd ms)).
  { change (att = zsum (map snd ms)) with ((att, ms).1 = zsum (map snd (att, ms).2)).
    refine (for_each_inv (fun _ s => s.1 = zsum (map snd s.2)) _ _ _ _ _ _ Em); [reflexivity|].
    intros _ x [a1 m1] s2 I _ Hb. cbn [fst snd] in *. unfold member_shares_step in Hb. inv_ok.
    cbn [fst snd]. apply add_u256_ok in E0 as [-> _]. rewrite map_app, zsum_app.
    unfold zsum. cbn. lia. }
  subst att. revert Ee. generalize (zsum (map snd ms)). intros z Ee.
  refine (for_each_inv (fun done s => s = z + zsum (map (fun a => storage_value
    (sm_accounts state) (prp_contract position)
    (mapping_slot a (prp_share_balance_slot position))) done)) _ _ _ _ _ _ Ee).
  - unfold zsum. cbn. lia.
  - intros done x s1 s2 -> _ Hb. unfold excluded_shares_step in Hb.
    destruct (read_storage _ _ _) as [v|] eqn:Er; cbn [rbind] in Hb; [|discriminate].
    apply read_storage_ok in Er as ->. apply add_u256_ok in Hb as [-> _].
    rewrite map_app, zsum_app. unfold zsum. cbn. lia.
Qed.

Lemma distribution_bound program state used position supply shares backing balance amounts s :
  storage_nonneg (sm_accounts state) ->
  position_shares state used position = Ok (supply, shares) -> supply <> 0 ->
  backing_balance program state position supply backing = Ok balance ->
  for_each (distribute_step balance supply (pb_asset_id backing)) (amounts, 0) shares = Ok s ->
  0 <= s.2 <= balance.
Proof.
  intros Hnn Hp Hz Hb He.
  pose proof (position_shares_sum _ _ _ _ Hp) as Hsum.
  apply position_shares_spec in Hp as (_ & Hsup & Hvals). cbn [fst snd] in *.
  apply backing_balance_spec in Hb as [-> _].
  assert (Hbal : 0 <= backing_value program state position backing).
  { unfold backing_value. destruct (asset _ _) as [a|]; [|lia].
    destruct (xa_kind a); [lia|apply Hnn]. }
  assert (Hd : s.2 = zsum (map (fun m => backing_value program state position backing * m.2
                                / supply) shares)).
  { refine (for_each_inv (fun done s => s.2 = zsum (map (fun m =>
      backing_value program state position backing * m.2 / supply) done)) _ _ _ _ _ _ He);
      [reflexivity|].
    intros done [sl sh] [am dist] s2 I _ Hb. cbn [fst snd] in *. unfold distribute_step in Hb.
    destruct (mul_div_floor _ _ _) as [claim|] eqn:Ec; cbn [rbind] in Hb; [|discriminate].
    destruct (add_amount _ _ _); cbn [rbind] in Hb; [|discriminate].
    destruct (add_u256 _ _) as [d'|] eqn:Ed; cbn [rbind] in Hb; [|discriminate].
    injection Hb as <-. apply add_u256_ok in Ed as [-> _]. cbn [snd].
    assert (claim = backing_value program state position backing * sh / supply) as ->.
    { unfold mul_div_floor, checked_mul in Ec. destruct (supply =? 0); [discriminate|].
      destruct (_ <=? _); cbn in Ec; congruence. }
    rewrite map_app, zsum_app, I. unfold zsum. cbn. lia. }
  assert (Hsh : Forall (fun x => 0 <= x) (map snd shares)).
  { rewrite Hvals. apply Forall_map, Forall_true. intros x. apply Hnn. }
  assert (Hex : 0 <= zsum (map (fun a => storage_value (sm_accounts state)
    (prp_contract position) (mapping_slot a (prp_share_balance_slot position)))
    (prp_excluded_share_accounts position))).
  { apply zsum_nonneg, Forall_map, Forall_true. intros x. apply Hnn. }
  assert (Hpos : 0 < supply).
  { pose proof (Hnn (prp_contract position) (prp_total_supply_slot position)). lia. }
  rewrite Hd. split.
  - apply zsum_nonneg. clear -Hsh Hpos Hbal.
    induction shares as [|[sl sh] l IH]; cbn in *; [constructor|].
    inversion Hsh; subst. constructor; [apply Z.div_pos; nia|auto].
  - rewrite <- (map_map snd (fun x => backing_value program state position backing * x / supply)).
    apply floor_shares_bound; auto. lia.
Qed.
End Continuity.

Section Claims.
Context {KK : Keccak} {RV : Revm}.

(** C20: an accepted v4 settlement conserves every asset exactly: for each declared
    asset the L1-funded total equals the sum of the derived exit claims, equals the
    used members' balances plus the token balances backing every pro-rata position
    (floor shares plus the declared residual), and for an ERC-20 equals the room
    token's supply; the claims are nonzero, strictly (slot, asset)-sorted and pay
    only the recorded account of a used slot, and the roots and hashes are theirs. *)
Theorem settlement_conserves program (state : StateMap) roster totals residuals d r ds :
  roster_ok roster -> key_sorted xa_asset_id (xpr_assets program) ->
  Forall (fun a => in_u8 (xa_asset_id a)) (xpr_assets program) ->
  derive_settlement_v4 program state roster totals residuals d r = Ok ds ->
  settlement_ok program state roster totals d r ds.
Proof. intros Hr. apply settlement_spec, roster_ok_sorted, Hr. Qed.

(** The exits a batch settles are accepted by the next batch: with all asset ids
    below [MAX_ASSETS] the derived claims authenticate against the derived root, the
    same roster and its used mask. *)
Theorem settlement_reauthenticates program (state : StateMap) roster totals residuals d r ds :
  roster_ok roster -> key_sorted xa_asset_id (xpr_assets program) ->
  Forall (fun a => 0 <= xa_asset_id a < MAX_ASSETS) (xpr_assets program) ->
  derive_settlement_v4 program state roster totals residuals d r = Ok ds ->
  authenticate_previous_exit_allocations_v4 program roster (mask is_used roster)
    (ds_exit_allocations ds) (ds_exit_root ds) d r = Ok tt.
Proof.
  intros Hr Hk Hu H. apply settlement_spec in H; auto using roster_ok_sorted.
  - destruct H. apply authenticate_ok; auto.
    eapply Forall_impl; [exact so_claims0|]. intros c (Hz & (a & Ha & Hid) & Hs).
    split_and!; eauto; rewrite Forall_forall in Hu; specialize (Hu a Ha); lia.
  - eapply Forall_impl; [exact Hu|]. unfold MAX_ASSETS, in_u8. cbn. intros. lia.
Qed.

(** An exit program may declare an asset id of 16 or more, and then the protocol
    gets stuck: no list of claims containing such an asset is ever accepted as the
    previous allocations of a batch, whatever root, roster and mask it is given
    with. *)
Theorem high_asset_claims_rejected program roster used_mask claims root d r c :
  c ∈ claims -> MAX_ASSETS <= xal_asset_id c ->
  authenticate_previous_exit_allocations_v4 program roster used_mask claims root d r <> Ok tt.
Proof.
  intros Hc Ha H. unfold authenticate_previous_exit_allocations_v4 in H.
  destruct (_ <? _); [discriminate|].
  destruct (for_each _ _ _) as [s|] eqn:E; cbn [rbind] in H; [|discriminate].
  assert (G : Forall (fun c => xal_asset_id c < MAX_ASSETS) claims).
  { refine (for_each_inv (fun done _ => Forall (fun c => xal_asset_id c < MAX_ASSETS) done)
      _ _ _ _ _ _ E); [constructor|].
    intros done x s1 s2 I _ Hb. apply Forall_app. split; [exact I|].
    unfold authenticate_allocation in Hb. destruct (_ || _) eqn:G; [discriminate|].
    bool_to_prop. constructor; [assumption|constructor]. }
  rewrite Forall_forall in G. specialize (G c Hc). lia.
Qed.

(** The continuity check is exact: it accepts iff for every slot already retired
    before the batch (used and not active) and every asset the claimed amount is
    unchanged, a missing claim counting as zero; so a frozen exit can be neither
    reduced, increased, dropped nor invented. *)
Theorem retired_exit_continuity_exact previous current used active :
  slots_valid previous -> slots_valid current ->
  enforce_retired_exit_continuity_v4 previous current used active = Ok tt <->
  forall slot asset_id, 0 <= slot < MAX_MEMBERS ->
    Z.testbit used slot = true -> Z.testbit active slot = false ->
    claim_amount previous slot asset_id = claim_amount current slot asset_id.
Proof. apply continuity_spec. Qed.

(** Once a position's shares are fully attributed, its floor pro-rata
    distribution never exceeds the token balance backing it, so the residual
    subtraction cannot fail. *)
Theorem pro_rata_within_backing program (state : StateMap) used position supply shares backing
    balance amounts s :
  storage_nonneg (sm_accounts state) ->
  position_shares state used position = Ok (supply, shares) -> supply <> 0 ->
  backing_balance program state position supply backing = Ok balance ->
  for_each (distribute_step balance supply (pb_asset_id backing)) (amounts, 0) shares = Ok s ->
  0 <= s.2 <= balance.
Proof. apply distribution_bound. Qed.
End Claims.

(** ** Witnesses: a native and an ERC-20 asset, a pool with a rounding residual *)
#[local] Existing Instance toy_keccak.
#[local] Existing Instance toy_revm.
Definition pool_program (erc20_id : Z) : ExitProgramV4 :=
  mk_ExitProgramV4
    [mk_ExitAssetV4 0 Native; mk_ExitAssetV4 erc20_id (Erc20 50 0 1)]
    [mk_ProRataPositionV4 60 2 3 [] [mk_PositionBackingV4 erc20_id None]].
Definition pool_roster : list MemberSlotWitnessV4 :=
  mk_MemberSlotWitnessV4 0 1 501 0 None :: mk_MemberSlotWitnessV4 1 1 502 0 None
  :: map empty_slot [2; 3; 4; 5; 6].
Definition pool_token : gmap Z Z :=
  <[1 := 20]> (<[mapping_slot 501 0 := 9]> (<[mapping_slot 60 0 := 11]> ∅)).
Definition pool_shares : gmap Z Z :=
  <[3 := 3]> (<[mapping_slot 501 2 := 1]> (<[mapping_slot 502 2 := 2]> ∅)).
Definition pool_state : @StateMap toy_revm :=
  set_accounts {[ 501 := mk_AccountRecord 1 5 [] ∅;
                  50 := mk_AccountRecord 1 0 [1] pool_token;
                  60 := mk_AccountRecord 1 0 [1] pool_shares ]} StateMap_default.
Definition pool_totals (erc20_id : Z) : list AssetTotalWitnessV4 :=
  [mk_AssetTotalWitnessV4 0 5; mk_AssetTotalWitnessV4 erc20_id 20].
Definition pool_residuals (erc20_id : Z) : list ResidualAllocationV4 :=
  [mk_ResidualAllocationV4 0 erc20_id 1].
Definition pool_settlement (erc20_id : Z) : DerivedSettlementV4 :=
  match derive_settlement_v4 (pool_program erc20_id) pool_state pool_roster
          (pool_totals erc20_id) (pool_residuals erc20_id) 44 7 with
  | Ok ds => ds | Err _ => mk_DerivedSettlementV4 [] [] 0 0 0 0 end.

Lemma pool_derives :
  derive_settlement_v4 (pool_program 3) pool_state pool_roster (pool_totals 3)
    (pool_residuals 3) 44 7 = Ok (pool_settlement 3).
Proof. vm_compute. reflexivity. Qed.
Lemma pool_roster_ok : roster_ok pool_roster.
Proof.
  eapply (validate_roster_shape_spec pool_roster (demo_root pool_roster) 3 3).
  vm_compute. reflexivity.
Qed.

Lemma settlement_conserves_witness :
  settlement_ok (pool_program 3) pool_state pool_roster (pool_totals 3) 44 7
    (pool_settlement 3).
Proof.
  apply (settlement_conserves (pool_program 3) pool_state pool_roster (pool_totals 3)
           (pool_residuals 3) 44 7 (pool_settlement 3)).
  - apply pool_roster_ok.
  - repeat constructor; cbn; lia.
  - unfold in_u8. repeat constructor; cbn; lia.
  - apply pool_derives.
Defined.

Lemma settlement_reauthenticates_witness :
  authenticate_previous_exit_allocations_v4 (pool_program 3) pool_roster
    (mask is_used pool_roster) (ds_exit_allocations (pool_settlement 3))
    (ds_exit_root (pool_settlement 3)) 44 7 = Ok tt.
Proof.
  apply (settlement_reauthenticates (pool_program 3) pool_state pool_roster (pool_totals 3)
           (pool_residuals 3) 44 7 (pool_settlement 3)).
  - apply pool_roster_ok.
  - repeat constructor; cbn; lia.
  - unfold MAX_ASSETS. repeat constructor; cbn; lia.
  - apply pool_derives.
Defined.

(** The parser accepts asset id 16, the settlement derives its claims, and the
    next batch rejects them. *)
#[local] Existing Instance toy_codec.
Lemma high_asset_claims_rejected_witness :
  parse [1] toy_policy = Ok (pool_program 16) /\
  derive_settlement_v4 (pool_program 16) pool_state pool_roster (pool_totals 16)
    (pool_residuals 16) 44 7 = Ok (pool_settlement 16) /\
  authenticate_previous_exit_allocations_v4 (pool_program 16) pool_roster 3
    (ds_exit_allocations (pool_settlement 16)) (ds_exit_root (pool_settlement 16)) 44 7
  <> Ok tt.
Proof.
  split; [vm_compute; reflexivity|]. split; [vm_compute; reflexivity|].
  apply (high_asset_claims_rejected _ _ _ _ _ _ _ (mk_ExitAllocationV4 0 16 501 12)).
  - vm_compute. right. left.
  - vm_compute. discriminate.
Defined.

Definition frozen_claims : list ExitAllocationV4 :=
  [mk_ExitAllocationV4 0 0 501 6; mk_ExitAllocationV4 1 0 502 4].

Lemma retired_exit_continuity_exact_witness :
  claim_amount frozen_claims 0 0
  = claim_amount [mk_ExitAllocationV4 0 0 501 6; mk_ExitAllocationV4 1 0 502 9] 0 0.
Proof.
  apply (retired_exit_continuity_exact frozen_claims
    [mk_ExitAllocationV4 0 0 501 6; mk_ExitAllocationV4 1 0 502 9] 3 2).
  - repeat constructor; cbn; unfold MAX_MEMBERS; lia.
  - repeat constructor; cbn; unfold MAX_MEMBERS; lia.
  - vm_compute. reflexivity.
  - unfold MAX_MEMBERS. lia.
  - reflexivity.
  - reflexivity.
Defined.

Lemma pool_storage_nonneg : storage_nonneg (sm_accounts pool_state).
Proof.
  intros t s. unfold storage_value. destruct (sm_accounts pool_state !! t) as [a|] eqn:E; [|lia].
  assert (H : map_Forall (fun _ r => map_Forall (fun _ v => 0 <= v) (ar_storage r))
                (sm_accounts pool_state)).
  { apply (bool_decide_unpack _). vm_compute. exact I. }
  specialize (H t a E). destruct (ar_storage a !! s) as [v|] eqn:Ev; cbn; [|lia].
  apply (H s v Ev).
Qed.

Definition pool_distribution : gmap (Z * Z) Z * Z :=
  match for_each (distribute_step 11 3 3) (∅, 0) [(0, 1); (1, 2)] with
  | Ok s => s | Err _ => (∅, 0) end.

Lemma pro_rata_within_backing_witness : 0 <= pool_distribution.2 <= 11.
Proof.
  apply (pro_rata_within_backing (pool_program 3) pool_state (filter is_used pool_roster)
           (mk_ProRataPositionV4 60 2 3 [] [mk_PositionBackingV4 3 None]) 3 [(0, 1); (1, 2)]
           (mk_PositionBackingV4 3 None) 11 ∅ pool_distribution).
  - apply pool_storage_nonneg.
  - vm_compute. reflexivity.
  - lia.
  - vm_compute. reflexivity.
  - vm_compute. reflexivity.
Defined.
