(* ===== verification/RosterV5.v ===== *)
(** * The positional roster of long-lived rooms: stf-core/src/room_v5/roster.rs

    [validate_roster_transition_v5] replays the queued add and remove
    operations of a batch over the committed roster.  A [BTreeMap] is a [gmap]
    and a [BTreeSet] a [gset]. *)

From S2P Require Import Prelude Types Abi State HashV5.
Open Scope Z_scope.

(** [values().any(p)] of a [BTreeMap]. *)
Definition any_value {V} (p : V -> bool) (m : gmap Z V) : bool :=
  existsb p (map snd (sorted_entries m)).

Section RosterV5.
Context {KK : Keccak}.

(** The body of the member loop of [active_roster_map_v5]. *)
Definition add_active_member (s : gset Z * gmap Z RosterMemberV5) (member : RosterMemberV5)
  : result string (gset Z * gmap Z RosterMemberV5) :=
  let '(addresses, by_index) := s in
  fail_if bool_decide (rm_member member ∈ addresses)
       || bool_decide (is_Some (by_index !! rm_index member))
    with "active roster contains a duplicate index or account"%string in
  Ok ({[rm_member member]} ∪ addresses, <[rm_index member := member]> by_index).

Definition active_roster_map_v5 (members : list RosterMemberV5) (capacity expected_root : Z)
  : result string (gmap Z RosterMemberV5) :=
  let? computed := ok_or (roster_root_v5 members capacity)
                     "invalid positional roster preimage"%string in
  fail_if negb (computed =? expected_root)
    with "positional roster preimage does not match journal root"%string in
  let? (_, by_index) := for_each add_active_member (∅, ∅) members in
  Ok by_index.

Definition add_member (journal : BatchJournalV5) (change : RosterChangeV5)
    (expected : gmap Z RosterMemberV5) : result string (gmap Z RosterMemberV5) :=
  fail_if (rc_member change =? Address_ZERO)
       || negb (rc_joined_epoch change =? bj5_post_roster_epoch journal)
       || negb (rc_withdrawal_commitment change =? B256_ZERO)
       || any_value (fun member => rm_member member =? rc_member change) expected
       || bool_decide (is_Some (expected !! rc_index change))
    with "invalid add-member transition"%string in
  Ok (<[rc_index change := mk_RosterMemberV5 (rc_index change) (rc_member change)
                             (rc_joined_epoch change)]> expected).

Definition remove_member (input : BatchInputV5) (change : RosterChangeV5)
    (expected : gmap Z RosterMemberV5) : result string (gmap Z RosterMemberV5) :=
  let journal := bi5_journal input in
  let? removed := ok_or (expected !! rc_index change)
                    "remove operation names an inactive index"%string in
  fail_if negb (rm_member removed =? rc_member change)
       || negb (rm_joined_epoch removed =? rc_joined_epoch change)
       || (rc_withdrawal_commitment change =? B256_ZERO)
    with "remove operation does not match the active member"%string in
  let? withdrawal := ok_or (List.find (fun w => wd_index w =? rc_index change)
                              (bi5_withdrawals input))
                       "removed member has no withdrawal allocation"%string in
  fail_if negb (wd_recipient withdrawal =? rc_member change)
       || negb (wd_roster_epoch withdrawal =? bj5_post_roster_epoch journal)
       || negb (withdrawal_leaf_v5 (bj5_deployment_domain journal) (bj5_room_id journal)
                  (bj5_outbox_epoch journal) withdrawal
                =? rc_withdrawal_commitment change)
    with "removed member allocation commitment is invalid"%string in
  Ok (delete (rc_index change) expected).

(** The body of the loop over [roster_changes.iter().enumerate()]. *)
Definition apply_roster_change (input : BatchInputV5) (expected : gmap Z RosterMemberV5)
    (entry : Z * RosterChangeV5) : result string (gmap Z RosterMemberV5) :=
  let journal := bi5_journal input in
  let '(offset, change) := entry in
  let? request_id :=
    ok_or (checked_add U64_MAX (bj5_roster_change_cursor_before journal) (offset + 1))
      "roster request id overflow"%string in
  fail_if negb (rc_request_id change =? request_id)
       || (rc_deadline change <? bj5_l1_inclusion_deadline journal)
    with "roster operation request id or deadline is invalid"%string in
  if rc_action change =? 0 then add_member journal change expected
  else if rc_action change =? 1 then remove_member input change expected
  else Err "unknown roster action"%string.

(** The authorization mode without checkpoint approvers. *)
Definition validity_only_violation (input : BatchInputV5) : bool :=
  let journal := bi5_journal input in
  negb (bj5_pre_roster_root journal =? B256_ZERO)
  || negb (bj5_post_roster_root journal =? B256_ZERO)
  || negb (bj5_pre_active_count journal =? 0)
  || negb (bj5_post_active_count journal =? 0)
  || negb (bj5_pre_roster_epoch journal =? bj5_post_roster_epoch journal)
  || negb (bj5_roster_change_cursor_before journal
           =? bj5_roster_change_cursor_after journal)
  || negb (bool_decide (bi5_pre_roster input = []))
  || negb (bool_decide (bi5_post_roster input = []))
  || negb (bool_decide (bi5_roster_changes input = []))
  || negb (bj5_roster_changes_hash journal =? roster_changes_hash_v5 []).

Definition validate_roster_transition_v5 (input : BatchInputV5) : result string (gset Z) :=
  let journal := bi5_journal input in
  if bj5_authorization_mode journal =? 1 then
    fail_if validity_only_violation input
      with "validity-only rooms cannot carry checkpoint approvers"%string in
    Ok ∅
  else
  fail_if negb (bj5_authorization_mode journal =? 0)
    with "unknown room authorization mode"%string in
  let? expected := active_roster_map_v5 (bi5_pre_roster input) (bi5_roster_capacity input)
                     (bj5_pre_roster_root journal) in
  let? post := active_roster_map_v5 (bi5_post_roster input) (bi5_roster_capacity input)
                 (bj5_post_roster_root journal) in
  fail_if negb (Z.of_nat (size expected) =? bj5_pre_active_count journal)
       || negb (Z.of_nat (size post) =? bj5_post_active_count journal)
    with "roster active count does not match its complete preimage"%string in
  let? change_count :=
    ok_or (checked_sub (bj5_roster_change_cursor_after journal)
             (bj5_roster_change_cursor_before journal))
      "roster cursor moved backwards"%string in
  fail_if negb (change_count =? zlen (bi5_roster_changes input))
       || negb (roster_changes_hash_v5 (bi5_roster_changes input)
                =? bj5_roster_changes_hash journal)
    with "roster operations do not match cursor range or journal hash"%string in
  let? expected_post_epoch :=
    ok_or (checked_add U64_MAX (bj5_pre_roster_epoch journal)
             (bool_u64 (negb (bool_decide (bi5_roster_changes input = [])))))
      "roster epoch overflow"%string in
  fail_if negb (bj5_post_roster_epoch journal =? expected_post_epoch)
    with "roster epoch does not match the proved transition"%string in
  let? expected := for_each (apply_roster_change input) expected
                     (enumerate (bi5_roster_changes input)) in
  fail_if negb (bool_decide (expected = post))
    with "post-roster preimage is not the result of queued operations"%string in
  Ok (list_to_set (map rm_member (bi5_pre_roster input))).
End RosterV5.

(** * Specification: the roster as a positional map and its two operations *)
Definition roster_map (members : list RosterMemberV5) : gmap Z RosterMemberV5 :=
  list_to_map (map (fun m => (rm_index m, m)) members).

Section Spec.
Context {KK : Keccak}.

(** The roster a journal commits to. *)
Definition committed_roster (members : list RosterMemberV5) (capacity root : Z) : Prop :=
  roster_root_v5 members capacity = Some root /\
  NoDup (map rm_index members) /\ NoDup (map rm_member members).

(** The allocation a removal is bound to. *)
Definition allocated (input : BatchInputV5) (change : RosterChangeV5) (w : WithdrawalV5)
  : Prop :=
  let journal := bi5_journal input in
  List.find (fun w => wd_index w =? rc_index change) (bi5_withdrawals input) = Some w /\
  wd_recipient w = rc_member change /\
  wd_roster_epoch w = bj5_post_roster_epoch journal /\
  withdrawal_leaf_v5 (bj5_deployment_domain journal) (bj5_room_id journal)
    (bj5_outbox_epoch journal) w = rc_withdrawal_commitment change /\
  rc_withdrawal_commitment change <> B256_ZERO.

Inductive roster_op (input : BatchInputV5)
  : gmap Z RosterMemberV5 -> RosterChangeV5 -> gmap Z RosterMemberV5 -> Prop :=
| op_add m change :
    rc_action change = 0 -> rc_member change <> Address_ZERO ->
    rc_joined_epoch change = bj5_post_roster_epoch (bi5_journal input) ->
    rc_withdrawal_commitment change = B256_ZERO ->
    (forall i x, m !! i = Some x -> rm_member x <> rc_member change) ->
    m !! rc_index change = None ->
    roster_op input m change
      (<[rc_index change := mk_RosterMemberV5 (rc_index change) (rc_member change)
                              (rc_joined_epoch change)]> m)
| op_remove m change x w :
    rc_action change = 1 -> m !! rc_index change = Some x ->
    rm_member x = rc_member change -> rm_joined_epoch x = rc_joined_epoch change ->
    allocated input change w ->
    roster_op input m change (delete (rc_index change) m).

(** One queued operation: its request id continues the cursor and its
    deadline covers the batch. *)
Definition queued_op (input : BatchInputV5) (m : gmap Z RosterMemberV5)
    (entry : Z * RosterChangeV5) (m' : gmap Z RosterMemberV5) : Prop :=
  let journal := bi5_journal input in
  bj5_roster_change_cursor_before journal + (entry.1 + 1) <= U64_MAX /\
  rc_request_id entry.2 = bj5_roster_change_cursor_before journal + (entry.1 + 1) /\
  bj5_l1_inclusion_deadline journal <= rc_deadline entry.2 /\
  roster_op input m entry.2 m'.

(** A validity-only room carries no approvers. *)
Definition validity_only (input : BatchInputV5) : Prop :=
  let journal := bi5_journal input in
  bj5_pre_roster_root journal = 0 /\ bj5_post_roster_root journal = 0 /\
  bj5_pre_active_count journal = 0 /\ bj5_post_active_count journal = 0 /\
  bj5_pre_roster_epoch journal = bj5_post_roster_epoch journal /\
  bj5_roster_change_cursor_before journal = bj5_roster_change_cursor_after journal /\
  bi5_pre_roster input = [] /\ bi5_post_roster input = [] /\
  bi5_roster_changes input = [] /\
  bj5_roster_changes_hash journal = roster_changes_hash_v5 [].

Record approver_transition (input : BatchInputV5) : Prop := {
  at_pre : committed_roster (bi5_pre_roster input) (bi5_roster_capacity input)
             (bj5_pre_roster_root (bi5_journal input));
  at_post : committed_roster (bi5_post_roster input) (bi5_roster_capacity input)
              (bj5_post_roster_root (bi5_journal input));
  at_pre_count : bj5_pre_active_count (bi5_journal input) = zlen (bi5_pre_roster input);
  at_post_count : bj5_post_active_count (bi5_journal input) = zlen (bi5_post_roster input);
  at_cursor : bj5_roster_change_cursor_after (bi5_journal input)
              = bj5_roster_change_cursor_before (bi5_journal input)
                + zlen (bi5_roster_changes input);
  at_hash : bj5_roster_changes_hash (bi5_journal input)
            = roster_changes_hash_v5 (bi5_roster_changes input);
  at_epoch : bj5_post_roster_epoch (bi5_journal input)
             = bj5_pre_roster_epoch (bi5_journal input)
               + (if decide (bi5_roster_changes input = []) then 0 else 1);
  at_epoch_fits : bj5_post_roster_epoch (bi5_journal input) <= U64_MAX;
  at_run : runs (queued_op input) (roster_map (bi5_pre_roster input))
             (enumerate (bi5_roster_changes input)) (roster_map (bi5_post_roster input))
}.

Lemma any_value_false {V} (p : V -> bool) (m : gmap Z V) :
  any_value p m = false <-> forall i x, m !! i = Some x -> p x = false.
Proof.
  unfold any_value. rewrite existsb_false_iff. split.
  - intros H i x Hx. apply H, list_elem_of_fmap. exists (i, x).
    split; [reflexivity|]. apply sorted_entries_elem, Hx.
  - intros H x Hx. apply list_elem_of_fmap in Hx as ([i y] & -> & Hx).
    apply (H i), sorted_entries_elem, Hx.
Qed.

Lemma roster_map_elem members i x :
  NoDup (map rm_index members) ->
  roster_map members !! i = Some x <-> x ∈ members /\ rm_index x = i.
Proof.
  intros Hn. unfold roster_map. rewrite <- elem_of_list_to_map.
  - rewrite list_elem_of_fmap. split.
    + intros (y & E & Hy). injection E as -> ->. auto.
    + intros [Hx <-]. eauto.
  - change (NoDup (map fst (map (fun m => (rm_index m, m)) members))).
    rewrite map_map. exact Hn.
Qed.

Lemma roster_map_None members i :
  roster_map members !! i = None <-> i ∉ map rm_index members.
Proof.
  unfold roster_map. rewrite <- not_elem_of_list_to_map.
  change (i ∉ map fst (map (fun m => (rm_index m, m)) members) <-> i ∉ map rm_index members).
  rewrite map_map. reflexivity.
Qed.

Lemma roster_map_snoc members x :
  rm_index x ∉ map rm_index members ->
  roster_map (members ++ [x]) = <[rm_index x := x]> (roster_map members).
Proof.
  intros Hx. unfold roster_map. rewrite map_app. apply list_to_map_snoc.
  change (rm_index x ∉ map fst (map (fun m => (rm_index m, m)) members)).
  rewrite map_map. exact Hx.
Qed.

Lemma roster_map_size members :
  NoDup (map rm_index members) -> Z.of_nat (size (roster_map members)) = zlen members.
Proof.
  intros Hn. unfold roster_map, zlen. f_equal.
  rewrite <- length_map_to_list, map_to_list_to_map; [apply length_map|].
  change (NoDup (map fst (map (fun m => (rm_index m, m)) members))).
    rewrite map_map. exact Hn.
Qed.

Lemma NoDup_map_snoc {A B} (f : A -> B) l x :
  NoDup (map f (l ++ [x])) <-> NoDup (map f l) /\ f x ∉ map f l.
Proof.
  rewrite map_app, NoDup_app. cbn. split.
  - intros (H & Hd & _). split; [exact H|]. intros Hx. apply (Hd _ Hx). left.
  - intros [H Hx]. split_and!; [exact H| |apply NoDup_singleton].
    intros y Hy E. apply list_elem_of_singleton in E as ->. contradiction.
Qed.

Lemma add_active_member_loop members r :
  for_each add_active_member (∅, ∅) members = Ok r <->
  NoDup (map rm_index members) /\ NoDup (map rm_member members) /\
  r = (list_to_set (map rm_member members), roster_map members).
Proof.
  revert r. induction members as [|x l IH] using rev_ind; intros r.
  { cbn. rewrite Ok_Ok. split; [intros <-|intros (_ & _ & ->); reflexivity].
    repeat split; constructor. }
  rewrite for_each_app, rbind_Ok, !NoDup_map_snoc. split.
  - intros (s & Hs & H). apply IH in Hs as (Hi & Ha & ->). cbn in H.
    destruct (bool_decide _ || bool_decide _) eqn:G in H; [discriminate|].
    injection H as <-. bool_to_prop.
    rewrite <- eq_None_not_Some, roster_map_None in H0. rewrite elem_of_list_to_set in H.
    split_and!; auto. rewrite map_app, roster_map_snoc by assumption. f_equal.
    rewrite list_to_set_app_L. cbn. set_solver.
  - intros ([Hi Hxi] & [Ha Hxa] & ->). eexists. split; [apply IH; eauto|]. cbn.
    rewrite bool_decide_eq_false_2 by (rewrite elem_of_list_to_set; exact Hxa).
    rewrite bool_decide_is_Some, (proj2 (roster_map_None _ _) Hxi). cbn.
    rewrite map_app, roster_map_snoc by assumption. do 2 f_equal.
    rewrite list_to_set_app_L. cbn. set_solver.
Qed.

Lemma active_roster_map_spec members capacity root m :
  active_roster_map_v5 members capacity root = Ok m <->
  committed_roster members capacity root /\ m = roster_map members.
Proof.
  unfold active_roster_map_v5, committed_roster. rewrite rbind_Ok. split.
  - intros (c & Hc & H). apply ok_or_Ok in Hc. apply fail_if_Ok in H as [G H].
    apply negb_eqb_false in G as ->. apply rbind_Ok in H as ([s bi] & Hl & H).
    apply Ok_Ok in H as <-. apply add_active_member_loop in Hl as (? & ? & E).
    injection E as -> ->. auto.
  - intros [(Hr & Hi & Ha) ->]. exists root. rewrite ok_or_Ok, fail_if_Ok, negb_eqb_false.
    split_and!; [exact Hr|reflexivity|].
    rewrite (proj2 (add_active_member_loop members _)) by eauto. reflexivity.
Qed.

Lemma add_member_spec input change m m' :
  rc_action change = 0 ->
  add_member (bi5_journal input) change m = Ok m' <-> roster_op input m change m'.
Proof.
  intros Ha. unfold add_member.
  rewrite fail_if_Ok, Ok_Ok, !orb_false_iff, !negb_eqb_false, Z.eqb_neq,
    any_value_false, bool_decide_eq_false, <- eq_None_not_Some. split.
  - intros [[[[[H1 H2] H3] H4] H5] <-]. apply op_add; auto.
    intros i x Hx. apply Z.eqb_neq, (H4 i x Hx).
  - inversion 1; subst; [|congruence]. split_and!; auto.
    intros i x Hx. apply Z.eqb_neq. eauto.
Qed.

Lemma remove_member_spec input change m m' :
  rc_action change = 1 ->
  remove_member input change m = Ok m' <-> roster_op input m change m'.
Proof.
  intros Ha. unfold remove_member. rewrite rbind_Ok. split.
  - intros (x & Hx & H). apply ok_or_Ok in Hx.
    apply fail_if_Ok in H as [G H]. rewrite !orb_false_iff, !negb_eqb_false in G.
    destruct G as [[G1 G2] G3]. apply rbind_Ok in H as (w & Hw & H).
    apply ok_or_Ok in Hw. apply fail_if_Ok in H as [G H].
    rewrite !orb_false_iff, !negb_eqb_false in G. destruct G as [[G4 G5] G6].
    apply Ok_Ok in H as <-. apply (op_remove input m change x w); auto.
    split_and!; auto. apply Z.eqb_neq, G3.
  - inversion 1 as [|? ? x w ? Hx Hm Hj (Hf & Hr & He & Hl & Hn)]; subst; [congruence|].
    exists x. rewrite ok_or_Ok, fail_if_Ok, !orb_false_iff, !negb_eqb_false, Z.eqb_neq.
    split; [exact Hx|]. split; [auto|]. rewrite Hf. cbn.
    rewrite fail_if_Ok, !orb_false_iff, !negb_eqb_false. auto.
Qed.

Lemma apply_roster_change_spec input m entry m' :
  apply_roster_change input m entry = Ok m' <-> queued_op input m entry m'.
Proof.
  destruct entry as [offset change]. unfold apply_roster_change, queued_op. cbn [fst snd].
  rewrite rbind_Ok. split.
  - intros (id & Hid & H). apply ok_or_Ok, checked_add_Some in Hid as [Hle ->].
    apply fail_if_Ok in H as [G H]. rewrite orb_false_iff, negb_eqb_false, Z.ltb_ge in G.
    destruct G. split_and!; auto.
    destruct (Z.eqb_spec (rc_action change) 0); [apply add_member_spec; auto|].
    destruct (Z.eqb_spec (rc_action change) 1); [apply remove_member_spec; auto|discriminate].
  - intros (Hle & Hid & Hd & Hop). eexists. split.
    { apply ok_or_Ok, checked_add_Some. split; [exact Hle|reflexivity]. }
    apply fail_if_Ok. rewrite orb_false_iff, negb_eqb_false, Z.ltb_ge. split; [auto|].
    destruct (Z.eqb_spec (rc_action change) 0); [apply add_member_spec; auto|].
    destruct (Z.eqb_spec (rc_action change) 1); [apply remove_member_spec; auto|].
    inversion Hop; congruence.
Qed.

Lemma validity_only_spec input :
  validity_only_violation input = false <-> validity_only input.
Proof.
  unfold validity_only_violation, validity_only.
  rewrite !orb_false_iff, !negb_eqb_false, !negb_bool_decide_false. tauto.
Qed.

Lemma epoch_bump_spec (changes : list RosterChangeV5) :
  bool_u64 (negb (bool_decide (changes = []))) = if decide (changes = []) then 0 else 1.
Proof. destruct changes; reflexivity. Qed.

(** The approver branch, read as [approver_transition]. *)
Lemma approver_transition_spec input s :
  bj5_authorization_mode (bi5_journal input) = 0 ->
  validate_roster_transition_v5 input = Ok s <->
  approver_transition input /\ s = list_to_set (map rm_member (bi5_pre_roster input)).
Proof.
  intros Hm. unfold validate_roster_transition_v5. rewrite Hm. cbn [Z.eqb negb].
  rewrite rbind_Ok. setoid_rewrite active_roster_map_spec. split.
  - intros (pre & [Hpre ->] & H).
    apply rbind_Ok in H as (post & Hp & H). apply active_roster_map_spec in Hp as [Hpost ->].
    apply fail_if_Ok in H as [G H]. rewrite orb_false_iff, !negb_eqb_false in G.
    rewrite !roster_map_size in G by (apply Hpre || apply Hpost). destruct G as [G1 G2].
    apply rbind_Ok in H as (n & Hn & H). apply ok_or_Ok, checked_sub_Some in Hn as [Hn ->].
    apply fail_if_Ok in H as [G H]. rewrite orb_false_iff, !negb_eqb_false in G.
    destruct G as [G3 G4]. apply rbind_Ok in H as (e & He & H).
    rewrite epoch_bump_spec in He.
    apply ok_or_Ok, checked_add_Some in He as [He ->].
    apply fail_if_Ok in H as [G5 H]. apply negb_eqb_false in G5.
    apply rbind_Ok in H as (m & Hr & H).
    apply (for_each_runs _ _ _ _ _ (apply_roster_change_spec input)) in Hr.
    apply fail_if_Ok in H as [G6 H]. apply negb_bool_decide_false in G6 as ->.
    apply Ok_Ok in H as <-. split; [|reflexivity]. split; auto; lia.
  - intros [[Hpre Hpost Hc1 Hc2 Hcur Hh He Hef Hrun] ->].
    eexists. split; [eauto|]. apply rbind_Ok. eexists.
    split; [apply active_roster_map_spec; eauto|].
    apply fail_if_Ok. rewrite orb_false_iff, !negb_eqb_false.
    rewrite !roster_map_size by (apply Hpre || apply Hpost). split; [auto|].
    apply rbind_Ok. exists (zlen (bi5_roster_changes input)). split.
    { apply ok_or_Ok, checked_sub_Some. unfold zlen in *. lia. }
    apply fail_if_Ok. rewrite orb_false_iff, !negb_eqb_false. split; [auto|].
    apply rbind_Ok. exists (bj5_post_roster_epoch (bi5_journal input)). split.
    { apply ok_or_Ok, checked_add_Some. rewrite epoch_bump_spec. lia. }
    apply fail_if_Ok. rewrite negb_eqb_false. split; [reflexivity|].
    apply rbind_Ok. eexists. split.
    { apply (for_each_runs _ _ _ _ _ (apply_roster_change_spec input)). exact Hrun. }
    apply fail_if_Ok. rewrite negb_bool_decide_false. auto.
Qed.
End Spec.

(** * Departures over the life of a room *)
Section History.
Context {KK : Keccak} {KR : KeccakRange}.

(** A seat only disappears through a remove operation that names it. *)
Lemma roster_op_departure input m change m' x :
  roster_op input m change m' -> m !! rm_index x = Some x -> m' !! rm_index x <> Some x ->
  rc_action change = 1 /\ rc_index change = rm_index x /\ rc_member change = rm_member x /\
  exists w, allocated input change w.
Proof.
  intros H Hm Hm'. inversion H as [? ? ? Hz ? ? ? Hn|? ? y w ? Hy Hx Hj Hw]; subst.
  - destruct (decide (rc_index change = rm_index x)) as [E|E]; [congruence|].
    rewrite lookup_insert_ne in Hm' by exact E. contradiction.
  - destruct (decide (rc_index change = rm_index x)) as [E|E].
    + rewrite E in Hy. split_and!; eauto; congruence.
    + rewrite lookup_delete_ne in Hm' by exact E. contradiction.
Qed.

(** A batch of an approver room whose roster transition is accepted. *)
Definition roster_accepted (input : BatchInputV5) : Prop :=
  bj5_authorization_mode (bi5_journal input) = 0 /\
  Forall RosterMemberV5_wf (bi5_pre_roster input) /\
  Forall RosterMemberV5_wf (bi5_post_roster input) /\
  exists s, validate_roster_transition_v5 input = Ok s.

(** What L1 enforces between consecutive batches: the roster root is carried
    over (and Keccak does not collide on the two preimages). *)
Definition roster_handed_over (b next : BatchInputV5) : Prop :=
  let capacity := bi5_roster_capacity b in
  bi5_roster_capacity next = capacity /\
  bj5_pre_roster_root (bi5_journal next) = bj5_post_roster_root (bi5_journal b) /\
  no_collision (roster_preimages capacity (bi5_post_roster b) (bi5_pre_roster next)) /\
  no_zero_hash (roster_preimages capacity (bi5_post_roster b) (bi5_pre_roster next)).

Fixpoint roster_history (b : BatchInputV5) (rest : list BatchInputV5) : Prop :=
  roster_accepted b /\
  match rest with
  | [] => True
  | next :: rest' => roster_handed_over b next /\ roster_history next rest'
  end.

(** The payment a departing member is owed. *)
Definition departure_paid (b : BatchInputV5) (x : RosterMemberV5) : Prop :=
  exists change w,
    change ∈ bi5_roster_changes b /\ rc_action change = 1 /\
    rc_index change = rm_index x /\ rc_member change = rm_member x /\
    w ∈ bi5_withdrawals b /\ wd_index w = rm_index x /\ wd_recipient w = rm_member x /\
    wd_roster_epoch w = bj5_post_roster_epoch (bi5_journal b) /\
    withdrawal_leaf_v5 (bj5_deployment_domain (bi5_journal b)) (bj5_room_id (bi5_journal b))
      (bj5_outbox_epoch (bi5_journal b)) w = rc_withdrawal_commitment change /\
    rc_withdrawal_commitment change <> B256_ZERO.

Lemma allocated_elem input change w :
  allocated input change w -> w ∈ bi5_withdrawals input /\ wd_index w = rc_index change.
Proof.
  intros [Hf _]. apply List.find_some in Hf as [Hin Hi].
  split; [apply list_elem_of_In, Hin|apply Z.eqb_eq, Hi].
Qed.

Lemma batch_departure b x :
  roster_accepted b -> x ∈ bi5_pre_roster b -> x ∉ bi5_post_roster b -> departure_paid b x.
Proof.
  intros (Hm & _ & _ & s & Hs) Hpre Hpost.
  apply approver_transition_spec in Hs as [[Cpre Cpost _ _ _ _ _ _ Hrun] _]; [|exact Hm].
  destruct Cpre as (_ & Npre & _), Cpost as (_ & Npost & _).
  destruct (runs_change _ (fun m => m !! rm_index x = Some x) _ _ _ Hrun)
    as (m1 & e & m2 & He & (_ & _ & _ & Hop) & H1 & H2).
  - apply roster_map_elem; auto.
  - intros H. apply roster_map_elem in H as [H _]; auto.
  - apply roster_op_departure with (x := x) in Hop as (Ha & Hi & Hx & w & Hw); auto.
    pose proof (allocated_elem _ _ _ Hw) as [Hin Hwi].
    destruct Hw as (_ & Hr & Hep & Hl & Hz).
    exists e.2, w. split_and!; auto; try congruence.
    rewrite <- (enumerate_snd (bi5_roster_changes b)). apply list_elem_of_fmap. eauto.
Qed.

Lemma handed_over_same b next :
  roster_accepted b -> roster_accepted next -> roster_handed_over b next ->
  bi5_post_roster b = bi5_pre_roster next.
Proof.
  intros (Hm & _ & Wb & s & Hs) (Hm' & Wn & _ & s' & Hs') (Hc & Hr & Hn & Hz).
  apply approver_transition_spec in Hs as [[_ Cpost _ _ _ _ _ _ _] _]; [|exact Hm].
  apply approver_transition_spec in Hs' as [[Cpre _ _ _ _ _ _ _ _] _]; [|exact Hm'].
  destruct Cpost as [Cpost _], Cpre as [Cpre _]. rewrite Hr, Hc in Cpre.
  eapply roster_root_v5_binds; eauto.
Qed.

Lemma history_departure rest b x :
  roster_history b rest -> x ∈ bi5_pre_roster b ->
  x ∉ bi5_post_roster (List.last rest b) ->
  exists d, d ∈ b :: rest /\ departure_paid d x.
Proof.
  revert b. induction rest as [|next rest IH]; intros b [Ha H] Hpre Hpost.
  - exists b. split; [left|]. apply batch_departure; auto.
  - destruct (decide (x ∈ bi5_post_roster b)) as [Hin|Hout].
    + destruct H as [Hh Hr].
      assert (Hacc : roster_accepted next) by (destruct rest; apply Hr).
      rewrite (handed_over_same b next) in Hin by assumption.
      destruct (IH next Hr Hin) as (d & Hd & Hp).
      * destruct rest as [|c rest]; [exact Hpost|].
        rewrite (last_default c rest next b). exact Hpost.
      * exists d. split; [right|]; assumption.
    + exists b. split; [left|]. apply batch_departure; auto.
Qed.
End History.

Section Claims.
Context {KK : Keccak} {KR : KeccakRange}.

(** [validate_roster_transition_v5] accepts exactly two kinds of batches.  A
    validity-only room carries no approver, no operation and an unchanged epoch.  An
    approver room has both roster preimages committed by the journal with the announced
    counts, consumes exactly the queued operations between its cursors, moves the epoch by
    one iff there is an operation, and its post roster is the result of running those
    operations one by one over the pre roster, each with the next request id, a deadline
    that covers the batch, and the conditions of [roster_op].  The returned signers are the
    members of the pre roster. *)
Theorem roster_transition_v5_exact input s :
  validate_roster_transition_v5 input = Ok s <->
  (bj5_authorization_mode (bi5_journal input) = 1 /\ validity_only input /\ s = ∅) \/
  (bj5_authorization_mode (bi5_journal input) = 0 /\ approver_transition input /\
   s = list_to_set (map rm_member (bi5_pre_roster input))).
Proof.
  destruct (decide (bj5_authorization_mode (bi5_journal input) = 0)) as [H0|H0].
  - rewrite approver_transition_spec by exact H0. rewrite H0. intuition discriminate.
  - unfold validate_roster_transition_v5.
    destruct (Z.eqb_spec (bj5_authorization_mode (bi5_journal input)) 1) as [H1|H1].
    + rewrite fail_if_Ok, validity_only_spec, Ok_Ok. intuition congruence.
    + rewrite (proj2 (Z.eqb_neq _ _) H0). cbn [negb]. intuition discriminate.
Qed.

(** C28: A member never loses its seat unpaid.  Over any history of accepted batches of an
    approver room whose roster root is carried from batch to batch, a member of the first
    roster that is absent from the last one was removed by a queued remove operation of one
    of the batches, and that batch mints a withdrawal to the member at its roster index, of
    the batch's epoch, whose leaf is the commitment the operation carries. *)
Theorem roster_departure_paid b rest x :
  roster_history b rest -> x ∈ bi5_pre_roster b ->
  x ∉ bi5_post_roster (List.last rest b) ->
  exists d, d ∈ b :: rest /\ departure_paid d x.
Proof. apply history_departure. Qed.
End Claims.

(** ** Witness: a member joins in one batch, another leaves in the next *)
#[local] Existing Instance toy_keccak.
#[local] Existing Instance toy_keccak_range.

Definition demo_root (members : list RosterMemberV5) : Z :=
  default 0 (roster_root_v5 members 4).
Definition demo_roster_journal (epoch cursor : Z) (pre post : list RosterMemberV5)
    (changes : list RosterChangeV5) : BatchJournalV5 :=
  mk_BatchJournalV5 0 3 7 0 0 0 0 0 0 0 0 0 0 0 0 0 0 0 0 0 0 0 (demo_root pre)
    (demo_root post) epoch (epoch + 1) (zlen pre) (zlen post) cursor (cursor + 1)
    0 0 0 0 0 0 0 0 0 0 0 0 0 0 0 1 0 0 0 (roster_changes_hash_v5 changes) 0 false.
Definition demo_roster_batch (epoch cursor : Z) (pre post : list RosterMemberV5)
    (changes : list RosterChangeV5) (withdrawals : list WithdrawalV5) : BatchInputV5 :=
  mk_BatchInputV5 0 0 (demo_roster_journal epoch cursor pre post changes)
    ExecutionPolicyV5_default 4 pre post changes [] [] [] [] [] []
    withdrawals 4 None CompactStateWitnessV4_default [].

Definition demo_first : list RosterMemberV5 := [witness_member 0; witness_member 2].
Definition demo_joined : RosterMemberV5 := mk_RosterMemberV5 1 555 2.
Definition demo_second : list RosterMemberV5 :=
  [witness_member 0; demo_joined; witness_member 2].
Definition demo_third : list RosterMemberV5 := [witness_member 0; demo_joined].
Definition demo_join : RosterChangeV5 := mk_RosterChangeV5 0 11 1 2 100 555 0.
Definition demo_payment : WithdrawalV5 := mk_WithdrawalV5 2 3 1002 0 40.
Definition demo_leave : RosterChangeV5 :=
  mk_RosterChangeV5 1 12 2 1 100 1002 (withdrawal_leaf_v5 3 7 1 demo_payment).
Definition demo_batch_1 : BatchInputV5 :=
  demo_roster_batch 1 10 demo_first demo_second [demo_join] [].
Definition demo_batch_2 : BatchInputV5 :=
  demo_roster_batch 2 11 demo_second demo_third [demo_leave] [demo_payment].

Lemma demo_members_wf :
  Forall RosterMemberV5_wf demo_first /\ Forall RosterMemberV5_wf demo_second /\
  Forall RosterMemberV5_wf demo_third.
Proof.
  unfold RosterMemberV5_wf, demo_first, demo_second, demo_third, demo_joined, witness_member.
  solve_wf.
Qed.
Lemma demo_accepted_1 : roster_accepted demo_batch_1.
Proof.
  split; [reflexivity|]. split; [apply demo_members_wf|]. split; [apply demo_members_wf|].
  eexists. vm_compute. reflexivity.
Qed.
Lemma demo_accepted_2 : roster_accepted demo_batch_2.
Proof.
  split; [reflexivity|]. split; [apply demo_members_wf|]. split; [apply demo_members_wf|].
  eexists. vm_compute. reflexivity.
Qed.
Lemma demo_handed_over : roster_handed_over demo_batch_1 demo_batch_2.
Proof.
  split_and!; [reflexivity|reflexivity| |].
  - apply no_collisionb_spec. vm_compute. reflexivity.
  - apply no_zero_hashb_spec. vm_compute. reflexivity.
Qed.

Lemma roster_departure_paid_witness :
  exists d, d ∈ [demo_batch_1; demo_batch_2] /\ departure_paid d (witness_member 2).
Proof.
  apply (roster_departure_paid demo_batch_1 [demo_batch_2] (witness_member 2)).
  - exact (conj demo_accepted_1 (conj demo_handed_over (conj demo_accepted_2 I))).
  - right. left.
  - refine (bool_decide_unpack (witness_member 2 ∉ demo_third) _). vm_compute. exact I.
Defined.
