(* ===== verification/ExitV5.v ===== *)
(** * Proof-derived exits of validity-only rooms: stf-core/src/room_v5/exit.rs

    Records read from the policy-bound queue, the pro rata sweep of a closing
    batch, and the comparison of both with the withdrawals of the batch.  A
    [BTreeMap<Address, U256>] of totals is a [gmap Z Z]. *)

From S2P Require Import Prelude Types Abi HashV5 State StateEvm Settlement.
Open Scope Z_scope.

Record ExitRecordV5 := mk_ExitRecordV5 {
  er_recipient : Z;
  er_asset : Z;
  er_amount : Z
}.

(** [previous + amount] into the entry of [asset], as every total is built. *)
Definition add_total (label : string) (totals : gmap Z Z) (asset amount : Z)
  : result string (gmap Z Z) :=
  let previous := default 0 (totals !! asset) in
  let? total := ok_or (checked_add U256_MAX previous amount)
                  (label ++ " overflow")%string in
  Ok (<[asset := total]> totals).

Definition withdrawal_tree_capacity_v5 (leaf_count : Z) : result string Z :=
  if leaf_count =? 0 then Ok 0 else
  fail_if MAX_WITHDRAWAL_CAPACITY_V5 <? leaf_count
    with "exit allocation exceeds MAX_WITHDRAWAL_CAPACITY_V5"%string in
  Ok (next_power_of_two leaf_count).

Section ExitV5.
Context {KK : Keccak} {RV : Revm}.

Definition mapping_slot_v5 (account slot : Z) : Z :=
  keccak256 (repeat 0 12 ++ address_bytes account ++ be_bytes 32 slot).

Definition read_storage_v5 (state : StateMap) (address slot : Z) (label : string)
  : result string Z :=
  fail_if storage_outside state address slot
    with (label ++ ": storage is outside the complete compact-state envelope")%string in
  Ok (storage_value (sm_accounts state) address slot).

Definition address_from_word_v5 (value : Z) (label : string) : result string Z :=
  let bytes := be_bytes 32 value in
  fail_if existsb (fun byte => negb (byte =? 0)) (take 12 bytes)
    with (label ++ " is wider than an address")%string in
  Ok (of_be (drop 12 bytes)).

Definition checked_add_exit_v5 (left right : Z) (label : string) : result string Z :=
  ok_or (checked_add U256_MAX left right) (label ++ " overflow")%string.

Definition exit_record_count_v5 (binding : ExitBindingV5) (state : StateMap)
  : result string Z :=
  let? count := read_storage_v5 state (eb_queue_contract binding) (eb_count_slot binding)
                  "exit record count" in
  fail_if U64_MAX <? count with "exit record count exceeds u64"%string in
  Ok count.

(** The body of the record loop: record [index] of the queue. *)
Definition read_exit_record (binding : ExitBindingV5) (terminal_state : StateMap) (index : Z)
  : result string ExitRecordV5 :=
  let queue := eb_queue_contract binding in
  let? offset :=
    ok_or (match checked_mul U256_MAX index 3 with
           | Some words => checked_add U256_MAX (eb_records_base_slot binding) words
           | None => None
           end) "exit record slot overflow"%string in
  let? asset_slot := checked_add_exit_v5 offset 1 "exit record slot" in
  let? amount_slot := checked_add_exit_v5 offset 2 "exit record slot" in
  let? recipient_word := read_storage_v5 terminal_state queue offset "exit record recipient" in
  let? recipient := address_from_word_v5 recipient_word "exit record recipient" in
  let? asset_word := read_storage_v5 terminal_state queue asset_slot "exit record asset" in
  let? asset := address_from_word_v5 asset_word "exit record asset" in
  let? amount := read_storage_v5 terminal_state queue amount_slot "exit record amount" in
  fail_if (recipient =? Address_ZERO) || (amount =? 0)
       || negb (existsb (fun bound => eab_asset bound =? asset) (eb_assets binding))
    with "exit record has a zero recipient, zero amount, or undeclared asset"%string in
  Ok (mk_ExitRecordV5 recipient asset amount).

Definition read_exit_records_v5 (binding : ExitBindingV5) (terminal_state : StateMap)
    (from to : Z) : result string (list ExitRecordV5) :=
  for_each (fun records index =>
      let? record := read_exit_record binding terminal_state index in
      Ok (records ++ [record]))
    [] (seqZ from (to - from)).

(** ** The close sweep *)

(** The body of the account loop: the balance a code-free account is swept by. *)
Definition sweep_account (terminal_state : StateMap) (bound : ExitAssetBindingV5)
    (s : Z * list (Z * Z)) (entry : Z * AccountRecord) : result string (Z * list (Z * Z)) :=
  let '(total, balances) := s in
  let '(address, account) := entry in
  if (address =? Address_ZERO) || negb (bool_decide (ar_code account = [])) then Ok s else
  let? balance :=
    if eab_kind bound =? 0 then Ok (ar_balance account)
    else if eab_kind bound =? 1 then
      read_storage_v5 terminal_state (eab_token bound)
        (mapping_slot_v5 address (eab_balance_slot bound)) "exit sweep ERC-20 balance"
    else Err "exit asset kind is not native or ERC-20"%string in
  if balance =? 0 then Ok s else
  let? total := checked_add_exit_v5 total balance "exit sweep balance total" in
  Ok (total, balances ++ [(address, balance)]).

(** The body of the share loop. *)
Definition sweep_share (asset residual total : Z) (s : Z * list ExitRecordV5)
    (entry : Z * Z) : result string (Z * list ExitRecordV5) :=
  let '(distributed, leaves) := s in
  let '(address, balance) := entry in
  let? product := ok_or (checked_mul U256_MAX residual balance)
                    "exit sweep share overflow"%string in
  let share := product / total in
  if share =? 0 then Ok s else
  let? distributed := checked_add_exit_v5 distributed share "exit sweep distributed total" in
  Ok (distributed, leaves ++ [mk_ExitRecordV5 address asset share]).

(** The body of the asset loop. *)
Definition sweep_asset (binding : ExitBindingV5) (terminal_state : StateMap)
    (residuals : gmap Z Z) (leaves : list ExitRecordV5) (bound : ExitAssetBindingV5)
  : result string (list ExitRecordV5) :=
  let asset := eab_asset bound in
  let residual := default 0 (residuals !! asset) in
  if residual =? 0 then Ok leaves else
  let? (total, balances) :=
    for_each (sweep_account terminal_state bound) (0, [])
      (sorted_entries (sm_accounts terminal_state)) in
  if total =? 0 then
    Ok (leaves ++ [mk_ExitRecordV5 (eb_fallback_recipient binding) asset residual])
  else
  let? (distributed, leaves) :=
    for_each (sweep_share asset residual total) (0, leaves) balances in
  let? dust := ok_or (checked_sub residual distributed)
                 "exit sweep distributed more than the residual"%string in
  if dust =? 0 then Ok leaves
  else Ok (leaves ++ [mk_ExitRecordV5 (eb_fallback_recipient binding) asset dust]).

Definition derive_close_sweep_v5 (binding : ExitBindingV5) (terminal_state : StateMap)
    (residuals : gmap Z Z) : result string (list ExitRecordV5) :=
  for_each (sweep_asset binding terminal_state residuals) [] (eb_assets binding).

(** ** The residual escrow of a closing batch *)
Definition consume_deposit (label : string) (totals : gmap Z Z) (deposit : DepositV5)
  : result string (gmap Z Z) :=
  if dp_refunded deposit then Ok totals
  else add_total label totals (dp_asset deposit) (dp_amount deposit).

Definition residual_of (consumed recorded residuals : gmap Z Z) (pre : AssetLiabilityV5)
  : result string (gmap Z Z) :=
  let? available :=
    checked_add_exit_v5 (al_controlled pre) (default 0 (consumed !! al_asset pre))
      "exit controlled total" in
  let? residual := ok_or (checked_sub available (default 0 (recorded !! al_asset pre)))
                     "exit records exceed controlled escrow"%string in
  Ok (if residual =? 0 then residuals else <[al_asset pre := residual]> residuals).

Definition close_residuals (input : BatchInputV5) (expected : list ExitRecordV5)
  : result string (gmap Z Z) :=
  let? consumed := for_each (consume_deposit "exit deposit total") ∅ (bi5_deposits input) in
  let? recorded :=
    for_each (fun totals record =>
        add_total "exit record total" totals (er_asset record) (er_amount record))
      ∅ expected in
  for_each (residual_of consumed recorded) ∅ (bi5_pre_liabilities input).

(** [into_iter().enumerate().map(..)]: positional withdrawals of the epoch. *)
Definition number_exits (roster_epoch : Z) (records : list ExitRecordV5)
  : list WithdrawalV5 :=
  map (fun '(index, record) =>
    mk_WithdrawalV5 index roster_epoch (er_recipient record) (er_asset record)
      (er_amount record)) (enumerate records).

Definition validate_exit_v5 (input : BatchInputV5) (pre_exit_count : Z)
    (terminal_state : StateMap) : result string unit :=
  let journal := bi5_journal input in
  match ep5_exit (bi5_policy input) with
  | None => Ok tt
  | Some binding =>
      if negb (bj5_authorization_mode journal =? 1) then Ok tt else
      let? post_count := exit_record_count_v5 binding terminal_state in
      fail_if post_count <? pre_exit_count
        with "exit record count regressed inside the batch"%string in
      let? expected := read_exit_records_v5 binding terminal_state pre_exit_count post_count in
      let? expected :=
        if bj5_close journal then
          let? residuals := close_residuals input expected in
          let? sweep := derive_close_sweep_v5 binding terminal_state residuals in
          Ok (expected ++ sweep)
        else Ok expected in
      let expected := number_exits (bj5_post_roster_epoch journal) expected in
      let? expected_capacity := withdrawal_tree_capacity_v5 (zlen expected) in
      fail_if negb (bool_decide (bi5_withdrawals input = expected))
           || negb (bi5_withdrawal_capacity input =? expected_capacity)
        with "withdrawals do not equal the proof-derived exit allocation"%string in
      Ok tt
  end.
End ExitV5.

(** * Specification *)

(** ** The sweep, declaratively *)
Section SweepSpec.
Context {KK : Keccak} {RV : Revm}.
Implicit Types (state : StateMap) (bound : ExitAssetBindingV5).

Definition swept_balance state bound (address : Z) (account : AccountRecord) : Z :=
  if eab_kind bound =? 0 then ar_balance account
  else storage_value (sm_accounts state) (eab_token bound)
         (mapping_slot_v5 address (eab_balance_slot bound)).

(** The code-free accounts of the room, in address order. *)
Definition sweepable state : list (Z * AccountRecord) :=
  filter (fun p => p.1 <> 0 /\ ar_code p.2 = []) (sorted_entries (sm_accounts state)).

(** Their positive balances of an asset. *)
Definition holdings state bound : list (Z * Z) :=
  filter (fun p => p.2 <> 0)
    (map (fun p => (p.1, swept_balance state bound p.1 p.2)) (sweepable state)).
Definition holdings_total state bound : Z := zsum (map snd (holdings state bound)).

(** Floor shares of a residual, zero shares dropped. *)
Definition floor_shares (asset residual total : Z) (balances : list (Z * Z))
  : list ExitRecordV5 :=
  filter (fun r => er_amount r <> 0)
    (map (fun p => mk_ExitRecordV5 p.1 asset (residual * p.2 / total)) balances).

Definition fallback_leaf (binding : ExitBindingV5) (asset amount : Z) : list ExitRecordV5 :=
  if amount =? 0 then []
  else [mk_ExitRecordV5 (eb_fallback_recipient binding) asset amount].

Definition asset_sweep (binding : ExitBindingV5) state (residuals : gmap Z Z) bound
  : list ExitRecordV5 :=
  let asset := eab_asset bound in
  let residual := default 0 (residuals !! asset) in
  let total := holdings_total state bound in
  if residual =? 0 then []
  else if total =? 0 then fallback_leaf binding asset residual
  else
    let shares := floor_shares asset residual total (holdings state bound) in
    shares ++ fallback_leaf binding asset (residual - zsum (map er_amount shares)).

(** What the code needs of an asset with a residual: a known kind, balances
    inside the envelope, and no 256-bit overflow. *)
Definition account_readable state bound (entry : Z * AccountRecord) : Prop :=
  eab_kind bound = 0 \/
  (eab_kind bound = 1 /\
   storage_outside state (eab_token bound)
     (mapping_slot_v5 entry.1 (eab_balance_slot bound)) = false).
Definition sweep_fits state (residuals : gmap Z Z) bound : Prop :=
  let residual := default 0 (residuals !! eab_asset bound) in
  residual <> 0 ->
  Forall (account_readable state bound) (sweepable state) /\
  holdings_total state bound <= U256_MAX /\
  Forall (fun p => residual * p.2 <= U256_MAX) (holdings state bound).

Definition balances_nonneg state : Prop :=
  (forall a r, sm_accounts state !! a = Some r -> 0 <= ar_balance r) /\
  (forall t s, 0 <= storage_value (sm_accounts state) t s).

Definition asset_amount (records : list ExitRecordV5) (asset : Z) : Z :=
  zsum (map er_amount (filter (fun r => er_asset r = asset) records)).

Lemma filter_snoc {A} (P : A -> Prop) `{!forall x, Decision (P x)} l x :
  filter P (l ++ [x]) = filter P l ++ (if decide (P x) then [x] else []).
Proof. rewrite filter_app. f_equal. Qed.

Lemma balance_read_ok state bound address account v :
  (if eab_kind bound =? 0 then Ok (ar_balance account)
   else if eab_kind bound =? 1 then
     read_storage_v5 state (eab_token bound)
       (mapping_slot_v5 address (eab_balance_slot bound)) "exit sweep ERC-20 balance"
   else Err "exit asset kind is not native or ERC-20"%string) = Ok v
  <-> account_readable state bound (address, account) /\
      v = swept_balance state bound address account.
Proof.
  unfold account_readable, swept_balance, read_storage_v5. cbn [fst].
  destruct (Z.eqb_spec (eab_kind bound) 0) as [H0|H0].
  - rewrite Ok_Ok. intuition congruence.
  - destruct (Z.eqb_spec (eab_kind bound) 1) as [H1|H1];
      [|split; [discriminate|]; intros [[?|[? _]] _]; contradiction].
    rewrite fail_if_Ok, Ok_Ok. intuition congruence.
Qed.

(** The account loop over any list of entries. *)
Definition entry_holdings state bound (entries : list (Z * AccountRecord)) : list (Z * Z) :=
  filter (fun p => p.2 <> 0)
    (map (fun p => (p.1, swept_balance state bound p.1 p.2))
       (filter (fun p => p.1 <> 0 /\ ar_code p.2 = []) entries)).

Lemma swept_balance_nonneg state bound entry :
  balances_nonneg state -> entry ∈ sorted_entries (sm_accounts state) ->
  0 <= swept_balance state bound entry.1 entry.2.
Proof.
  intros [Hb Hs] Hin. unfold swept_balance. destruct (_ =? _); [|apply Hs].
  destruct entry as [a r]. apply sorted_entries_elem in Hin. eauto.
Qed.

Lemma entry_holdings_nonneg state bound entries :
  balances_nonneg state -> (forall e, e ∈ entries -> e ∈ sorted_entries (sm_accounts state)) ->
  Forall (fun x => 0 <= x) (map snd (entry_holdings state bound entries)).
Proof.
  intros Hn Hin. apply Forall_forall. intros x Hx.
  apply list_elem_of_fmap in Hx as (p & -> & Hp).
  apply list_elem_of_filter in Hp as [_ Hp].
  apply list_elem_of_fmap in Hp as (e & -> & He).
  apply list_elem_of_filter in He as [_ He].
  cbn. apply swept_balance_nonneg; auto.
Qed.

Lemma sweep_account_loop state bound entries r :
  balances_nonneg state -> (forall e, e ∈ entries -> e ∈ sorted_entries (sm_accounts state)) ->
  for_each (sweep_account state bound) (0, []) entries = Ok r <->
  Forall (account_readable state bound)
    (filter (fun p => p.1 <> 0 /\ ar_code p.2 = []) entries) /\
  zsum (map snd (entry_holdings state bound entries)) <= U256_MAX /\
  r = (zsum (map snd (entry_holdings state bound entries)), entry_holdings state bound entries).
Proof.
  intros Hn. revert r. induction entries as [|[a acct] l IH] using rev_ind; intros r Hin.
  { cbn. rewrite Ok_Ok. unfold zsum, U256_MAX. cbn.
    split; [intros <-; split_and!; [constructor|lia|reflexivity]|intros (_ & _ & ->); auto]. }
  assert (Hl : forall e, e ∈ l -> e ∈ sorted_entries (sm_accounts state))
    by (intros e He; apply Hin, elem_of_app; auto).
  rewrite for_each_app, rbind_Ok. setoid_rewrite (fun s => IH s Hl).
  unfold entry_holdings. rewrite filter_snoc.
  pose proof (zsum_nonneg _ (entry_holdings_nonneg state bound l Hn Hl)) as Hnn.
  pose proof (swept_balance_nonneg state bound (a, acct) Hn
                (Hin _ ltac:(apply elem_of_app; right; left))) as Hb. cbn [fst snd] in Hb.
  unfold entry_holdings in Hnn.
  set (L := filter _ (map _ (filter _ l))) in *.
  cbn [for_each]. case_decide as Hd; cbn [fst snd] in Hd.
  - rewrite map_app, filter_app, map_app, zsum_app. cbn [map fst snd].
    set (b := swept_balance state bound a acct) in *.
    assert (Hstep : zsum (map snd L) <= U256_MAX -> forall s',
      sweep_account state bound (zsum (map snd L), L) (a, acct) = Ok s' <->
      account_readable state bound (a, acct) /\ zsum (map snd L) + b <= U256_MAX /\
      s' = (zsum (map snd L) + b, L ++ (if decide (b <> 0) then [(a, b)] else []))).
    { intros HL s'. unfold sweep_account, Address_ZERO. destruct Hd as [Hz Hc].
      rewrite (proj2 (Z.eqb_neq _ _) Hz), (bool_decide_eq_true_2 _ Hc). cbn [negb orb].
      rewrite rbind_Ok. setoid_rewrite balance_read_ok. fold b.
      destruct (Z.eqb_spec b 0) as [E|E].
      - rewrite E, decide_False, app_nil_r, Z.add_0_r by lia. split.
        + intros (v & [Hr Hv] & H). rewrite Hv in H. apply Ok_Ok in H as <-. auto.
        + intros (Hr & _ & ->). exists 0. auto.
      - rewrite decide_True by exact E. split.
        + intros (v & [Hr Hv] & H). fold b in Hv. rewrite Hv, (proj2 (Z.eqb_neq _ _) E) in H.
          apply rbind_Ok in H as (t & Ht & H). apply ok_or_Ok, checked_add_Some in Ht as [? ->].
          apply Ok_Ok in H as <-. auto.
        + intros (Hr & Hle & ->). exists b. split; [auto|].
          rewrite (proj2 (Z.eqb_neq _ _) E). apply rbind_Ok. eexists.
          split; [apply ok_or_Ok, checked_add_Some; eauto|reflexivity]. }
    assert (HF : filter (fun p : Z * Z => p.2 <> 0) [(a, b)]
                 = if decide (b <> 0) then [(a, b)] else []) by reflexivity.
    rewrite HF. assert (HS : zsum (map snd (if decide (b <> 0) then [(a, b)] else [])) = b)
      by (case_decide; unfold zsum; cbn; lia).
    rewrite HS, Forall_app, Forall_singleton. fold L. split.
    + intros (s & (H1 & H2 & ->) & H). apply rbind_Ok in H as (s' & H & E).
      apply Ok_Ok in E as <-. apply Hstep in H as (? & ? & ->); auto.
    + intros ([H1 H3] & H2 & ->). eexists. split; [split_and!; [exact H1|lia|reflexivity]|].
      apply rbind_Ok. eexists. split; [apply Hstep; [lia|split_and!; eauto]|reflexivity].
  - rewrite !app_nil_r.
    assert (Hstep : forall s, sweep_account state bound s (a, acct) = Ok s).
    { intros [t bs]. unfold sweep_account, Address_ZERO. destruct (Z.eqb_spec a 0); [reflexivity|].
      case_bool_decide; [|reflexivity]. exfalso. auto. }
    setoid_rewrite Hstep. cbn [rbind]. setoid_rewrite Ok_Ok. split.
    + intros (s & (? & ? & ->) & <-). auto.
    + intros (? & ? & ->). eauto.
Qed.

(** ** The share loop *)
Lemma floor_shares_snoc asset residual total balances p :
  floor_shares asset residual total (balances ++ [p])
  = floor_shares asset residual total balances
    ++ (if decide (residual * p.2 / total <> 0)
        then [mk_ExitRecordV5 p.1 asset (residual * p.2 / total)] else []).
Proof. unfold floor_shares. rewrite map_app, filter_app. reflexivity. Qed.

Lemma floor_shares_sum asset residual total balances :
  zsum (map er_amount (floor_shares asset residual total balances))
  = zsum (map (fun s => residual * s / total) (map snd balances)).
Proof.
  induction balances as [|p l IH] using rev_ind; [reflexivity|].
  rewrite floor_shares_snoc, !map_app, !zsum_app, IH. f_equal.
  case_decide; unfold zsum; cbn; lia.
Qed.

Lemma floor_shares_within asset residual total balances :
  0 <= residual -> 0 < total -> Forall (fun s => 0 <= s) (map snd balances) ->
  zsum (map snd balances) <= total ->
  zsum (map er_amount (floor_shares asset residual total balances)) <= residual.
Proof. intros. rewrite floor_shares_sum. apply floor_shares_bound; assumption. Qed.

Lemma sweep_share_loop asset residual total leaves balances r :
  0 <= residual <= U256_MAX -> 0 < total ->
  Forall (fun s => 0 <= s) (map snd balances) -> zsum (map snd balances) <= total ->
  for_each (sweep_share asset residual total) (0, leaves) balances = Ok r <->
  Forall (fun p => residual * p.2 <= U256_MAX) balances /\
  r = (zsum (map er_amount (floor_shares asset residual total balances)),
       leaves ++ floor_shares asset residual total balances).
Proof.
  intros Hr Ht. revert r. induction balances as [|[a b] l IH] using rev_ind; intros r Hn Hs.
  { cbn. rewrite Ok_Ok, app_nil_r. split; [intros <-; auto|intros [_ ->]; auto]. }
  pose proof (floor_shares_within asset residual total (l ++ [(a, b)])
                ltac:(lia) Ht Hn Hs) as Hle.
  rewrite map_app, Forall_app in Hn. destruct Hn as [Hn Hb]. cbn in Hb.
  inversion Hb as [|? ? Hb0 Hb1]; subst; clear Hb1.
  assert (Hs' : zsum (map snd l) <= total).
  { rewrite map_app, zsum_app in Hs. unfold zsum in Hs |- *. cbn in Hs. lia. }
  rewrite for_each_app, rbind_Ok. setoid_rewrite (fun s => IH s Hn Hs').
  rewrite floor_shares_snoc in Hle |- *. rewrite map_app, zsum_app in Hle |- *. cbn [fst snd] in *.
  set (d := zsum (map er_amount (floor_shares asset residual total l))) in *.
  set (F := floor_shares asset residual total l) in *.
  assert (Hstep : forall s', sweep_share asset residual total (d, leaves ++ F) (a, b) = Ok s' <->
    residual * b <= U256_MAX /\
    s' = (d + residual * b / total,
          leaves ++ F ++ if decide (residual * b / total <> 0)
                         then [mk_ExitRecordV5 a asset (residual * b / total)] else [])).
  { intros s'. unfold sweep_share, checked_mul.
    destruct (Z.leb_spec (residual * b) U256_MAX) as [Hm|Hm]; cbn [ok_or rbind];
      [|split; [discriminate|lia]].
    destruct (Z.eqb_spec (residual * b / total) 0) as [E|E].
    - rewrite decide_False, app_nil_r by lia. rewrite Ok_Ok, E, Z.add_0_r.
      split; [intros <-; auto|intros [_ ->]; auto].
    - rewrite decide_True in Hle |- * by exact E. unfold zsum in Hle. cbn in Hle.
      rewrite rbind_Ok, app_assoc. split.
      + intros (t & H5 & H6). apply ok_or_Ok, checked_add_Some in H5 as [_ ->].
        apply Ok_Ok in H6 as <-. auto.
      + intros [_ ->]. eexists. split; [apply ok_or_Ok, checked_add_Some|reflexivity].
        split; [|reflexivity]. lia. }
  assert (HS : zsum (map er_amount (if decide (residual * b / total <> 0)
                 then [mk_ExitRecordV5 a asset (residual * b / total)] else []))
               = residual * b / total)
    by (case_decide; unfold zsum; cbn; lia).
  rewrite HS, Forall_app, Forall_singleton. cbn [for_each snd]. split.
  - intros (s & (H2 & ->) & H'). apply rbind_Ok in H' as (s' & H' & E).
    apply Ok_Ok in E as <-. apply Hstep in H' as (? & ->). auto.
  - intros ([H1 H3] & ->). eexists. split; [eauto|].
    apply rbind_Ok. eexists. split; [apply Hstep; eauto|reflexivity].
Qed.

(** ** One asset and the whole sweep *)
Lemma holdings_nonneg state bound :
  balances_nonneg state -> Forall (fun x => 0 <= x) (map snd (holdings state bound)).
Proof. intros Hn. apply (entry_holdings_nonneg state bound _ Hn). auto. Qed.

Lemma asset_sweep_spec binding state residuals leaves bound r :
  balances_nonneg state -> 0 <= default 0 (residuals !! eab_asset bound) <= U256_MAX ->
  sweep_asset binding state residuals leaves bound = Ok r <->
  sweep_fits state residuals bound /\ r = leaves ++ asset_sweep binding state residuals bound.
Proof.
  intros Hn Hr. unfold sweep_asset, asset_sweep, sweep_fits, fallback_leaf.
  set (residual := default 0 (residuals !! eab_asset bound)) in *.
  destruct (Z.eqb_spec residual 0) as [E|E].
  { rewrite Ok_Ok, app_nil_r. split; [intros <-; split; [contradiction|auto]|intros [_ ->]; auto]. }
  rewrite rbind_Ok. setoid_rewrite (fun s => sweep_account_loop state bound _ s Hn (fun _ H => H)).
  change (entry_holdings state bound (sorted_entries (sm_accounts state)))
    with (holdings state bound).
  change (zsum (map snd (holdings state bound))) with (holdings_total state bound).
  pose proof (holdings_nonneg state bound Hn) as Hh.
  pose proof (zsum_nonneg _ Hh) as Ht. fold (holdings_total state bound) in Ht.
  destruct (Z.eqb_spec (holdings_total state bound) 0) as [T|T].
  - assert (Hz : Forall (fun p => residual * p.2 <= U256_MAX) (holdings state bound)).
    { apply Forall_forall. intros p Hp. exfalso.
      assert (Hle : p.2 <= holdings_total state bound).
      { unfold holdings_total. clear -Hh Hp. induction (holdings state bound) as [|q l IH];
          [inversion Hp|]. cbn in Hh. inversion Hh; subst. pose proof (zsum_nonneg _ H2).
        apply elem_of_cons in Hp as [->|Hp]; [|specialize (IH H2 Hp)];
          unfold zsum in *; cbn; lia. }
      pose proof Hp as Hp'. apply list_elem_of_filter in Hp' as [Hp0 _].
      rewrite Forall_forall in Hh.
      specialize (Hh p.2 ltac:(apply list_elem_of_fmap; eauto)). cbn in Hh. lia. }
    split.
    + intros (s & (H1 & H2 & ->) & H). cbn [Z.eqb] in H. rewrite T in H. cbn in H.
      apply Ok_Ok in H as <-. auto.
    + intros [H ->]. destruct (H E) as (H1 & H2 & _). eexists. split; [eauto|].
      cbn beta iota. rewrite T. reflexivity.
  - assert (Hpos : 0 < holdings_total state bound) by lia.
    split.
    + intros (s & (H1 & H2 & ->) & H). apply Z.eqb_neq in T. rewrite T in H.
      apply rbind_Ok in H as (s & Hs & H).
      apply sweep_share_loop in Hs as [H3 ->]; auto; [|unfold holdings_total; lia].
      apply rbind_Ok in H as (dust & Hd & H). apply ok_or_Ok, checked_sub_Some in Hd as [_ ->].
      cbn beta iota in H. split; [auto|]. revert H.
      destruct (residual - zsum _ =? 0); intros H; apply Ok_Ok in H as <-; [rewrite app_nil_r|rewrite app_assoc]; auto.
    + intros [H ->]. destruct (H E) as (H1 & H2 & H3). eexists. split; [eauto|].
      cbn beta iota. rewrite (proj2 (Z.eqb_neq _ _) T).
      apply rbind_Ok. eexists. split; [apply sweep_share_loop|]; auto; [unfold holdings_total; lia|].
      cbn beta iota. apply rbind_Ok. eexists. split.
      { apply ok_or_Ok, checked_sub_Some. split; [|reflexivity].
        apply floor_shares_within; auto; [lia|unfold holdings_total; lia]. }
      destruct (residual - zsum _ =? 0); [rewrite app_nil_r|rewrite app_assoc]; auto.
Qed.

Lemma derive_close_sweep_spec binding state residuals leaves :
  balances_nonneg state -> (forall a, 0 <= default 0 (residuals !! a) <= U256_MAX) ->
  derive_close_sweep_v5 binding state residuals = Ok leaves <->
  Forall (sweep_fits state residuals) (eb_assets binding) /\
  leaves = concat (map (asset_sweep binding state residuals) (eb_assets binding)).
Proof.
  intros Hn Hr. unfold derive_close_sweep_v5.
  revert leaves. induction (eb_assets binding) as [|x l IH] using rev_ind; intros leaves.
  { cbn. rewrite Ok_Ok. split; [intros <-; auto|intros [_ ->]; auto]. }
  rewrite for_each_app, rbind_Ok, Forall_app, Forall_singleton, map_app, concat_app.
  setoid_rewrite IH. cbn [for_each map concat]. rewrite app_nil_r. split.
  - intros (s & [H1 ->] & H). apply rbind_Ok in H as (s & H & E). apply Ok_Ok in E as <-.
    apply asset_sweep_spec in H as [H2 ->]; auto.
  - intros ([H1 H2] & ->). eexists. split; [eauto|]. apply rbind_Ok. eexists.
    split; [apply asset_sweep_spec; eauto|reflexivity].
Qed.
End SweepSpec.

(** ** Totals per asset *)
Section Totals.
Context {A : Type} (skip : A -> bool) (asset amount : A -> Z).

(** The amounts of the elements that count towards [a]. *)
Definition total_of (l : list A) (a : Z) : Z :=
  zsum (map amount (filter (fun x => skip x = false /\ asset x = a) l)).

Definition totals_map (l : list A) : gmap Z Z :=
  foldl (fun m x => if skip x then m
                    else <[asset x := default 0 (m !! asset x) + amount x]> m) ∅ l.

Lemma total_of_snoc l x a :
  total_of (l ++ [x]) a
  = total_of l a + if decide (skip x = false /\ asset x = a) then amount x else 0.
Proof.
  unfold total_of. rewrite filter_snoc, map_app, zsum_app. f_equal.
  case_decide; unfold zsum; cbn; lia.
Qed.

Lemma totals_map_snoc l x :
  totals_map (l ++ [x])
  = if skip x then totals_map l
    else <[asset x := default 0 (totals_map l !! asset x) + amount x]> (totals_map l).
Proof. unfold totals_map. rewrite foldl_app. reflexivity. Qed.

Lemma totals_map_lookup l a : default 0 (totals_map l !! a) = total_of l a.
Proof.
  revert a. induction l as [|x l IH] using rev_ind; intros a; [reflexivity|].
  rewrite total_of_snoc, totals_map_snoc. destruct (skip x) eqn:Es.
  - rewrite decide_False by (intros [? _]; discriminate). rewrite IH. lia.
  - destruct (decide (asset x = a)) as [<-|Ha].
    + rewrite lookup_insert_eq, decide_True by auto. cbn. rewrite IH. reflexivity.
    + rewrite lookup_insert_ne, decide_False by (auto; intros [_ ?]; contradiction).
      rewrite IH. lia.
Qed.

Lemma totals_map_Some l a :
  is_Some (totals_map l !! a) <-> exists x, x ∈ l /\ skip x = false /\ asset x = a.
Proof.
  revert a. induction l as [|x l IH] using rev_ind; intros a.
  { cbn. rewrite lookup_empty. split; [intros [? ?]; discriminate|].
    intros (x & Hx & _). inversion Hx. }
  rewrite totals_map_snoc. setoid_rewrite elem_of_app. setoid_rewrite list_elem_of_singleton.
  destruct (skip x) eqn:Es.
  - rewrite IH. split; [intros (y & ? & ?); eauto|].
    intros (y & [Hy| ->] & Hs & Ha); [eauto|congruence].
  - destruct (decide (asset x = a)) as [<-|Ha].
    + rewrite lookup_insert_eq. split; [intros _; exists x; auto|eauto].
    + rewrite lookup_insert_ne, IH by exact Ha. split; [intros (y & ? & ?); eauto|].
      intros (y & [Hy| ->] & Hs & He); [eauto|contradiction].
Qed.

(** A loop of [add_total] computes the totals, and fails only on overflow. *)
Lemma totals_loop label l t :
  Forall (fun x => 0 <= amount x) l ->
  for_each (fun m x => if skip x then Ok m else add_total label m (asset x) (amount x)) ∅ l
    = Ok t <-> (forall a, total_of l a <= U256_MAX) /\ t = totals_map l.
Proof.
  intros Hn. revert t. induction l as [|x l IH] using rev_ind; intros t.
  { cbn. rewrite Ok_Ok. unfold total_of, zsum, U256_MAX. cbn.
    split; [intros <-; split; [intros; lia|reflexivity]|intros [_ ->]; auto]. }
  rewrite Forall_app, Forall_singleton in Hn. destruct Hn as [Hn Hx].
  rewrite for_each_app, rbind_Ok. setoid_rewrite (fun t => IH Hn t).
  setoid_rewrite total_of_snoc. rewrite totals_map_snoc. cbn [for_each].
  split.
  - intros (s & [Hl ->] & H). apply rbind_Ok in H as (s & H & E). apply Ok_Ok in E as <-.
    destruct (skip x) eqn:Es.
    + apply Ok_Ok in H as <-. split; [|reflexivity]. intros a.
      rewrite decide_False by (intros [? _]; discriminate). specialize (Hl a). lia.
    + unfold add_total in H. apply rbind_Ok in H as (v & Hv & H).
      apply ok_or_Ok, checked_add_Some in Hv as [Hv ->]. apply Ok_Ok in H as <-.
      split; [|reflexivity]. intros a. rewrite totals_map_lookup in Hv.
      case_decide as Hd; [destruct Hd as [_ <-]|specialize (Hl a)]; lia.
  - intros [Hl ->]. exists (totals_map l). split.
    + split; [|reflexivity]. intros a. specialize (Hl a). revert Hl. case_decide; lia.
    + destruct (skip x) eqn:Es; [reflexivity|]. unfold add_total.
      rewrite totals_map_lookup. unfold checked_add.
      specialize (Hl (asset x)). rewrite decide_True in Hl by auto.
      apply Z.leb_le in Hl as ->. reflexivity.
Qed.

Lemma total_of_zero l a :
  (forall x, x ∈ l -> skip x = false -> asset x <> a) -> total_of l a = 0.
Proof.
  induction l as [|x l IH] using rev_ind; intros H; [reflexivity|].
  rewrite total_of_snoc, IH, decide_False; [reflexivity| |].
  - intros [Hs Ha]. apply (H x); auto. apply elem_of_app. right. left.
  - intros y Hy. apply H, elem_of_app. auto.
Qed.

Lemma total_of_nonneg l a : Forall (fun x => 0 <= amount x) l -> 0 <= total_of l a.
Proof.
  intros Hn. apply zsum_nonneg, Forall_forall. intros v Hv.
  apply list_elem_of_fmap in Hv as (x & -> & Hx). apply list_elem_of_filter in Hx as [_ Hx].
  rewrite Forall_forall in Hn. auto.
Qed.
End Totals.

Lemma total_of_map {A B} (f : A -> B) skip asset amount (l : list A) a :
  total_of skip asset amount (map f l) a
  = total_of (fun x => skip (f x)) (fun x => asset (f x)) (fun x => amount (f x)) l a.
Proof.
  induction l as [|x l IH] using rev_ind; [reflexivity|].
  rewrite map_app. cbn [map]. rewrite !total_of_snoc, IH. reflexivity.
Qed.

(** Deposits that were not refunded, withdrawals and records by asset. *)
Definition deposited (input : BatchInputV5) : Z -> Z :=
  total_of dp_refunded dp_asset dp_amount (bi5_deposits input).
Definition withdrawn (input : BatchInputV5) : Z -> Z :=
  total_of (fun _ => false) wd_asset wd_amount (bi5_withdrawals input).

Lemma asset_amount_total records a :
  asset_amount records a = total_of (fun _ => false) er_asset er_amount records a.
Proof.
  unfold asset_amount, total_of. do 2 f_equal. apply list_filter_iff. intros x. intuition.
Qed.

Lemma asset_amount_app l1 l2 a :
  asset_amount (l1 ++ l2) a = asset_amount l1 a + asset_amount l2 a.
Proof. unfold asset_amount. rewrite filter_app, map_app, zsum_app. reflexivity. Qed.

Lemma asset_amount_same records a :
  Forall (fun r => er_asset r = a) records -> asset_amount records a = zsum (map er_amount records).
Proof.
  unfold asset_amount. intros H. do 2 f_equal.
  induction H as [|r l Hr Hl IH]; [reflexivity|]. rewrite filter_cons_True, IH by exact Hr.
  reflexivity.
Qed.
Lemma asset_amount_other records a b :
  Forall (fun r => er_asset r = a) records -> b <> a -> asset_amount records b = 0.
Proof.
  unfold asset_amount. intros H Hb.
  induction H as [|r l Hr Hl IH]; [reflexivity|]. rewrite filter_cons_False by congruence.
  exact IH.
Qed.

Section SweepSums.
Context {KK : Keccak} {RV : Revm}.
Implicit Types (state : StateMap) (bound : ExitAssetBindingV5).

Lemma asset_sweep_asset binding state residuals bound :
  Forall (fun r => er_asset r = eab_asset bound) (asset_sweep binding state residuals bound).
Proof.
  assert (Hf : forall amount, Forall (fun r => er_asset r = eab_asset bound)
                 (fallback_leaf binding (eab_asset bound) amount)).
  { intros amount. unfold fallback_leaf. destruct (amount =? 0); repeat constructor. }
  unfold asset_sweep. destruct (_ =? 0); [constructor|]. destruct (_ =? 0); [apply Hf|].
  apply Forall_app. split; [|apply Hf]. apply Forall_forall. intros r Hr.
  apply list_elem_of_filter in Hr as [_ Hr]. apply list_elem_of_fmap in Hr as (p & -> & _).
  reflexivity.
Qed.

(** The leaves of an asset add up to its residual, whoever they pay. *)
Lemma asset_sweep_sum binding state residuals bound :
  zsum (map er_amount (asset_sweep binding state residuals bound))
  = default 0 (residuals !! eab_asset bound).
Proof.
  assert (Hf : forall amount, zsum (map er_amount
            (fallback_leaf binding (eab_asset bound) amount)) = amount).
  { intros amount. unfold fallback_leaf. destruct (Z.eqb_spec amount 0); unfold zsum; cbn; lia. }
  unfold asset_sweep. destruct (Z.eqb_spec (default 0 (residuals !! eab_asset bound)) 0) as [->|];
    [reflexivity|].
  destruct (_ =? 0); [apply Hf|]. rewrite map_app, zsum_app, Hf. lia.
Qed.

Lemma close_sweep_sum binding state residuals a :
  NoDup (map eab_asset (eb_assets binding)) ->
  asset_amount (concat (map (asset_sweep binding state residuals) (eb_assets binding))) a
  = if decide (a ∈ map eab_asset (eb_assets binding)) then default 0 (residuals !! a) else 0.
Proof.
  induction (eb_assets binding) as [|x l IH]; intros Hn; [reflexivity|].
  cbn [map concat]. inversion Hn as [|? ? Hx Hn']; subst. rewrite asset_amount_app, IH by exact Hn'.
  pose proof (asset_sweep_asset binding state residuals x) as Ha.
  destruct (decide (a = eab_asset x)) as [->|Hne].
  - rewrite (asset_amount_same _ _ Ha), asset_sweep_sum.
    rewrite decide_False, decide_True by (exact Hx || left). lia.
  - rewrite (asset_amount_other _ _ _ Ha Hne).
    destruct (decide (a ∈ map eab_asset l)) as [Hin|Hout].
    + rewrite decide_True by (right; exact Hin). lia.
    + rewrite decide_False; [lia|]. intros Hin. apply elem_of_cons in Hin as [->|]; auto.
Qed.
End SweepSums.

(** ** The queue records *)
Section Records.
Context {KK : Keccak} {RV : Revm}.
Implicit Types state : StateMap.

(** Record [index] of the queue, as laid out in its storage: three words from
    [records_base_slot + 3 * index]. *)
Record record_at (binding : ExitBindingV5) state (index : Z) (r : ExitRecordV5) : Prop := {
  ra_fits : eb_records_base_slot binding + 3 * index + 2 <= U256_MAX;
  ra_recipient : storage_value (sm_accounts state) (eb_queue_contract binding)
                   (eb_records_base_slot binding + 3 * index) = er_recipient r;
  ra_asset : storage_value (sm_accounts state) (eb_queue_contract binding)
               (eb_records_base_slot binding + 3 * index + 1) = er_asset r;
  ra_amount : storage_value (sm_accounts state) (eb_queue_contract binding)
                (eb_records_base_slot binding + 3 * index + 2) = er_amount r;
  ra_addresses : in_u160 (er_recipient r) /\ in_u160 (er_asset r);
  ra_payable : er_recipient r <> Address_ZERO /\ er_amount r <> 0;
  ra_declared : er_asset r ∈ map eab_asset (eb_assets binding)
}.

Lemma read_storage_v5_ok state a s label v :
  read_storage_v5 state a s label = Ok v <->
  storage_outside state a s = false /\ v = storage_value (sm_accounts state) a s.
Proof. unfold read_storage_v5. rewrite fail_if_Ok, Ok_Ok. intuition. Qed.

Lemma checked_add_exit_ok l r label v :
  checked_add_exit_v5 l r label = Ok v <-> l + r <= U256_MAX /\ v = l + r.
Proof. unfold checked_add_exit_v5. rewrite ok_or_Ok. apply checked_add_Some. Qed.

(** The high bytes of a word are zero exactly when it fits 160 bits. *)
Lemma of_be_app b1 b2 :
  of_be (b1 ++ b2) = of_be b1 * 256 ^ Z.of_nat (length b2) + of_be b2.
Proof.
  rewrite <- of_be_acc_spec. unfold of_be. generalize 0 as acc.
  induction b1 as [|x b1 IH]; intros acc; [reflexivity|]. cbn. apply IH.
Qed.

Lemma address_from_word_ok value label v :
  in_u256 value -> address_from_word_v5 value label = Ok v -> v = value /\ in_u160 value.
Proof.
  intros Hv H. unfold address_from_word_v5 in H. apply fail_if_Ok in H as [G H].
  apply Ok_Ok in H as <-. rewrite existsb_false_iff in G.
  assert (Hz : take 12 (be_bytes 32 value) = repeat 0 12).
  { change (take 12 (be_bytes 32 value) = replicate 12 0).
    symmetry. apply replicate_as_elem_of.
    split; [rewrite length_take, length_be_bytes; reflexivity|]. intros x Hx. apply G, negb_eqb_false in Hx. exact Hx. }
  pose proof (of_be_be_bytes 32 value) as Hbe.
  rewrite pow256_32, Z.mod_small in Hbe by exact Hv.
  rewrite <- (take_drop 12 (be_bytes 32 value)), of_be_app, Hz in Hbe.
  change (of_be (repeat 0 12)) with 0 in Hbe. rewrite Z.mul_0_l, Z.add_0_l in Hbe.
  rewrite Hbe. split; [reflexivity|]. rewrite <- Hbe.
  pose proof (of_be_bound (drop 12 (be_bytes 32 value))) as Hb.
  rewrite length_drop, length_be_bytes in Hb. change (256 ^ Z.of_nat (32 - 12)) with (2 ^ 160) in Hb.
  apply Hb. apply Forall_drop, be_bytes_wf.
Qed.

Definition words_wf state : Prop :=
  forall t s, in_u256 (storage_value (sm_accounts state) t s).

Lemma read_exit_record_ok binding state index r :
  words_wf state -> read_exit_record binding state index = Ok r -> record_at binding state index r.
Proof.
  intros Hw H. unfold read_exit_record in H.
  apply rbind_Ok in H as (o & Ho & H). apply ok_or_Ok in Ho.
  destruct (checked_mul U256_MAX index 3) as [words|] eqn:Em; [|discriminate].
  unfold checked_mul in Em. destruct (_ <=? _); [|discriminate]. injection Em as <-.
  apply checked_add_Some in Ho as [_ ->].
  apply rbind_Ok in H as (o1 & H1 & H). apply checked_add_exit_ok in H1 as [_ ->].
  apply rbind_Ok in H as (o2 & H2 & H). apply checked_add_exit_ok in H2 as [Hfit ->].
  apply rbind_Ok in H as (w1 & H1 & H). apply read_storage_v5_ok in H1 as [_ ->].
  apply rbind_Ok in H as (a1 & H1 & H). apply address_from_word_ok in H1 as [-> R1]; [|apply Hw].
  apply rbind_Ok in H as (w2 & H2 & H). apply read_storage_v5_ok in H2 as [_ ->].
  apply rbind_Ok in H as (a2 & H2 & H). apply address_from_word_ok in H2 as [-> R2]; [|apply Hw].
  apply rbind_Ok in H as (w3 & H3 & H). apply read_storage_v5_ok in H3 as [_ ->].
  apply fail_if_Ok in H as [G H]. apply Ok_Ok in H as <-.
  rewrite !orb_false_iff, !Z.eqb_neq, negb_false_iff in G. destruct G as [[G1 G2] G3].
  rewrite (Z.mul_comm index 3) in *.
  split; cbn [er_recipient er_asset er_amount]; auto.
  apply existsb_exists in G3 as (b & Hb & He). apply Z.eqb_eq in He.
  apply list_elem_of_fmap. exists b. split; [auto|]. apply list_elem_of_In, Hb.
Qed.

Lemma read_exit_records_ok binding state from to records :
  words_wf state -> read_exit_records_v5 binding state from to = Ok records ->
  Forall2 (record_at binding state) (seqZ from (to - from)) records.
Proof.
  intros Hw H. unfold read_exit_records_v5 in H.
  refine (for_each_inv (fun done records => Forall2 (record_at binding state) done records)
            _ _ _ _ _ _ H); [constructor|].
  intros done index s1 s2 I _ Hb. apply rbind_Ok in Hb as (r & Hr & Hb).
  apply Ok_Ok in Hb as <-. apply Forall2_app; [exact I|]. constructor; [|constructor].
  apply read_exit_record_ok; assumption.
Qed.

(** ** The residuals of a closing batch *)
Definition residual_amount (input : BatchInputV5) (records : list ExitRecordV5)
    (pre : AssetLiabilityV5) : Z :=
  al_controlled pre + deposited input (al_asset pre) - asset_amount records (al_asset pre).

Lemma close_residuals_ok input records residuals :
  Forall (fun d => 0 <= dp_amount d) (bi5_deposits input) ->
  Forall (fun r => 0 <= er_amount r) records ->
  Forall (fun l => 0 <= al_controlled l) (bi5_pre_liabilities input) ->
  NoDup (map al_asset (bi5_pre_liabilities input)) ->
  close_residuals input records = Ok residuals ->
  (forall pre, pre ∈ bi5_pre_liabilities input ->
     0 <= residual_amount input records pre <= U256_MAX /\
     default 0 (residuals !! al_asset pre) = residual_amount input records pre) /\
  (forall a, a ∉ map al_asset (bi5_pre_liabilities input) -> residuals !! a = None).
Proof.
  intros Hd Hr Hc Hn H. unfold close_residuals in H.
  apply rbind_Ok in H as (consumed & H1 & H).
  apply (totals_loop dp_refunded dp_asset dp_amount) in H1 as [_ ->]; [|exact Hd].
  apply rbind_Ok in H as (recorded & H2 & H).
  apply (totals_loop (fun _ => false) er_asset er_amount) in H2 as [_ ->]; [|exact Hr].
  assert (Hnr : forall a, 0 <= asset_amount records a).
  { intros a. rewrite asset_amount_total. apply total_of_nonneg, Hr. }
  refine (for_each_inv_at (fun done residuals =>
    (forall pre, pre ∈ done -> 0 <= residual_amount input records pre <= U256_MAX /\
        default 0 (residuals !! al_asset pre) = residual_amount input records pre) /\
    (forall a, a ∉ map al_asset done -> residuals !! a = None)) _ _ _ _ _ _ H).
  { split; [intros pre Hp; inversion Hp|]. intros a _. apply lookup_empty. }
  intros done x rest m m' E [I1 I2] Hb. unfold residual_of in Hb.
  apply rbind_Ok in Hb as (v & Hv & Hb). apply checked_add_exit_ok in Hv as [Hle ->].
  apply rbind_Ok in Hb as (w & Hw & Hb). apply ok_or_Ok, checked_sub_Some in Hw as [Hge ->].
  injection Hb as Hb. rewrite !totals_map_lookup, <- asset_amount_total in *.
  fold (deposited input (al_asset x)) in *.
  change (al_controlled x + deposited input (al_asset x) - asset_amount records (al_asset x))
    with (residual_amount input records x) in Hb.
  assert (Hx : al_asset x ∉ map al_asset done)
    by (apply (NoDup_map_middle al_asset done x rest); rewrite <- E; exact Hn).
  assert (Hm' : forall a, a <> al_asset x -> m' !! a = m !! a).
  { intros a Ha. subst m'. destruct (_ =? 0); [reflexivity|].
    apply lookup_insert_ne. congruence. }
  assert (Hmx : default 0 (m' !! al_asset x) = residual_amount input records x).
  { subst m'. destruct (Z.eqb_spec (residual_amount input records x) 0) as [->|].
    - rewrite (I2 _ Hx). reflexivity.
    - rewrite lookup_insert_eq. reflexivity. }
  split.
  - intros pre Hp. apply elem_of_app in Hp as [Hp|Hp].
    + rewrite Hm'; [apply I1, Hp|]. intros Ha. apply Hx. rewrite <- Ha.
      apply list_elem_of_fmap. eauto.
    + apply list_elem_of_singleton in Hp as ->. split; [|exact Hmx].
      unfold residual_amount. specialize (Hnr (al_asset x)). lia.
  - intros a Ha. rewrite map_app, not_elem_of_app in Ha. destruct Ha as [Ha Hax].
    rewrite Hm'; [apply I2, Ha|]. intros ->. apply Hax. left.
Qed.
End Records.

Section Allocation.
Context {KK : Keccak} {RV : Revm}.
Implicit Types state : StateMap.

(** Who a sweep leaf may pay: the fallback recipient or a code-free account. *)
Definition sweep_payee (binding : ExitBindingV5) state (r : ExitRecordV5) : Prop :=
  er_amount r <> 0 /\
  (er_recipient r = eb_fallback_recipient binding \/
   exists account, sm_accounts state !! er_recipient r = Some account /\
     ar_code account = [] /\ er_recipient r <> 0).

Lemma fallback_payee binding state asset amount :
  Forall (sweep_payee binding state) (fallback_leaf binding asset amount).
Proof.
  unfold fallback_leaf. destruct (Z.eqb_spec amount 0); constructor; [|constructor].
  split; [assumption|]. left. reflexivity.
Qed.

Lemma asset_sweep_payees binding state residuals bound :
  Forall (sweep_payee binding state) (asset_sweep binding state residuals bound).
Proof.
  unfold asset_sweep. destruct (_ =? 0); [constructor|].
  destruct (_ =? 0); [apply fallback_payee|]. apply Forall_app. split; [|apply fallback_payee].
  apply Forall_forall. intros r Hr. apply list_elem_of_filter in Hr as [Ha Hr].
  apply list_elem_of_fmap in Hr as (p & -> & Hp). apply list_elem_of_filter in Hp as [_ Hp].
  apply list_elem_of_fmap in Hp as ([a acct] & -> & He).
  apply list_elem_of_filter in He as [[Hz Hc] He]. apply sorted_entries_elem in He.
  split; [exact Ha|]. right. exists acct. auto.
Qed.

Lemma withdrawn_number_exits input epoch records a :
  bi5_withdrawals input = number_exits epoch records ->
  withdrawn input a = asset_amount records a.
Proof.
  intros H. unfold withdrawn. rewrite H, asset_amount_total. unfold number_exits.
  rewrite total_of_map. rewrite <- (enumerate_snd records) at 2. rewrite total_of_map.
  unfold total_of. f_equal. rewrite (list_filter_iff _
    (fun x : Z * ExitRecordV5 => false = false /\ er_asset x.2 = a)).
  - apply map_ext. intros [i r]. reflexivity.
  - intros [i r]. reflexivity.
Qed.

(** What an accepted validity-only batch allocates. *)
Record exit_allocation (input : BatchInputV5) (binding : ExitBindingV5) (from : Z) state
    (records sweep : list ExitRecordV5) : Prop := {
  xa_count : let count := storage_value (sm_accounts state) (eb_queue_contract binding)
                            (eb_count_slot binding) in
    from <= count <= U64_MAX /\
    Forall2 (record_at binding state) (seqZ from (count - from)) records;
  xa_withdrawals : bi5_withdrawals input
    = number_exits (bj5_post_roster_epoch (bi5_journal input)) (records ++ sweep);
  xa_capacity : withdrawal_tree_capacity_v5 (zlen (records ++ sweep))
    = Ok (bi5_withdrawal_capacity input);
  xa_payees : Forall (sweep_payee binding state) sweep;
  xa_open : bj5_close (bi5_journal input) = false -> sweep = [];
  xa_close : bj5_close (bi5_journal input) = true ->
    forall pre, pre ∈ bi5_pre_liabilities input ->
      al_asset pre ∈ map eab_asset (eb_assets binding) ->
      withdrawn input (al_asset pre) = al_controlled pre + deposited input (al_asset pre)
}.

Lemma number_exits_length epoch records : zlen (number_exits epoch records) = zlen records.
Proof.
  unfold number_exits, zlen. rewrite length_map. f_equal.
  rewrite <- (enumerate_snd records) at 2. rewrite length_map. reflexivity.
Qed.

Lemma record_amounts_nonneg binding state indices records :
  words_wf state -> Forall2 (record_at binding state) indices records ->
  Forall (fun r => 0 <= er_amount r) records.
Proof.
  intros Hw. induction 1 as [|i r il rl Hr Hrl IH]; constructor; [|exact IH].
  rewrite <- (ra_amount _ _ _ _ Hr). apply Hw.
Qed.

Lemma validate_exit_spec input binding from state :
  BatchInputV5_wf input -> balances_nonneg state -> words_wf state ->
  NoDup (map eab_asset (eb_assets binding)) ->
  NoDup (map al_asset (bi5_pre_liabilities input)) ->
  ep5_exit (bi5_policy input) = Some binding ->
  bj5_authorization_mode (bi5_journal input) = 1 ->
  validate_exit_v5 input from state = Ok tt ->
  exists records sweep, exit_allocation input binding from state records sweep.
Proof.
  intros W Hb Hw Hna Hnl Hx Hm H. unfold validate_exit_v5 in H. rewrite Hx, Hm in H.
  cbn [Z.eqb negb Pos.eqb] in H.
  apply rbind_Ok in H as (count & Hc & H). unfold exit_record_count_v5 in Hc.
  apply rbind_Ok in Hc as (c & Hc & H'). apply read_storage_v5_ok in Hc as [_ ->].
  apply fail_if_Ok in H' as [G1 H']. apply Ok_Ok in H' as <-. apply Z.ltb_ge in G1.
  apply fail_if_Ok in H as [G2 H]. apply Z.ltb_ge in G2.
  apply rbind_Ok in H as (records & Hr & H). apply read_exit_records_ok in Hr; [|exact Hw].
  apply rbind_Ok in H as (all & Hall & H). apply rbind_Ok in H as (cap & Hcap & H).
  apply fail_if_Ok in H as [G3 _].
  rewrite orb_false_iff, negb_bool_decide_false, negb_eqb_false in G3. destruct G3 as [Hwd <-].
  rewrite number_exits_length in Hcap.
  destruct (bj5_close (bi5_journal input)) eqn:Ecl.
  - apply rbind_Ok in Hall as (residuals & Hres & Hall).
    apply rbind_Ok in Hall as (sweep & Hs & Hall). apply Ok_Ok in Hall as <-.
    assert (Wl : Forall (fun l => 0 <= al_controlled l) (bi5_pre_liabilities input)).
    { unfold BatchInputV5_wf in W. destruct W as (_ & _ & _ & _ & _ & _ & _ & _ & _ & _ & _ & Wl & _).
      eapply Forall_impl; [exact Wl|]. intros l (_ & _ & (? & _) & _). assumption. }
    assert (Wd : Forall (fun d => 0 <= dp_amount d) (bi5_deposits input)).
    { unfold BatchInputV5_wf in W. destruct W as (_ & _ & _ & _ & _ & _ & _ & _ & _ & _ & _ & _ & _ & Wd & _).
      eapply Forall_impl; [exact Wd|]. intros d (_ & _ & _ & _ & (? & _) & _). assumption. }
    pose proof (record_amounts_nonneg _ _ _ _ Hw Hr) as Wr.
    apply close_residuals_ok in Hres as [Hres Hnone]; auto.
    assert (Hrange : forall a, 0 <= default 0 (residuals !! a) <= U256_MAX).
    { intros a. destruct (decide (a ∈ map al_asset (bi5_pre_liabilities input))) as [Ha|Ha].
      - apply list_elem_of_fmap in Ha as (pre & -> & Hp). destruct (Hres pre Hp) as [? ->]. auto.
      - rewrite (Hnone a Ha). unfold U256_MAX. cbn. lia. }
    apply derive_close_sweep_spec in Hs as [_ ->]; auto.
    exists records, (concat (map (asset_sweep binding state residuals) (eb_assets binding))).
    split; auto; [| |].
    + apply Forall_concat, Forall_forall. intros l Hl.
      apply list_elem_of_fmap in Hl as (b & -> & _). apply asset_sweep_payees.
    + rewrite Ecl. discriminate.
    + intros _ pre Hp Ha. rewrite (withdrawn_number_exits _ _ _ _ Hwd), asset_amount_app.
      rewrite close_sweep_sum, decide_True by assumption.
      destruct (Hres pre Hp) as [_ ->]. unfold residual_amount. lia.
  - apply Ok_Ok in Hall as <-. exists records, [].
    split; rewrite ?app_nil_r; auto. congruence.
Qed.
End Allocation.

Section Claims.
Context {KK : Keccak} {RV : Revm}.
Implicit Types state : StateMap.

(** The close sweep of the bound assets succeeds exactly when, for every asset with a
    residual, the swept balances are readable and nothing overflows 256 bits, and it then
    yields for each asset the floor shares of the code-free accounts in address order
    followed by the fallback leaf with the dust; the leaves of a bound asset add up to its
    residual exactly and no other asset is paid. *)
Theorem close_sweep_exact binding state residuals leaves :
  balances_nonneg state -> (forall a, 0 <= default 0 (residuals !! a) <= U256_MAX) ->
  NoDup (map eab_asset (eb_assets binding)) ->
  (derive_close_sweep_v5 binding state residuals = Ok leaves <->
   Forall (sweep_fits state residuals) (eb_assets binding) /\
   leaves = concat (map (asset_sweep binding state residuals) (eb_assets binding))) /\
  (derive_close_sweep_v5 binding state residuals = Ok leaves ->
   forall a, asset_amount leaves a
     = if decide (a ∈ map eab_asset (eb_assets binding)) then default 0 (residuals !! a)
       else 0).
Proof.
  intros Hb Hr Hn. split; [apply derive_close_sweep_spec; assumption|].
  intros H a. apply derive_close_sweep_spec in H as [_ ->]; auto. apply close_sweep_sum, Hn.
Qed.

(** C12: The withdrawals of a validity-only batch are derived from the proved terminal
    state, never from the witness: an accepted batch pays, positionally and in order, the
    queue records appended since the opening cursor (each read back word by word from the
    queue storage, with a nonzero recipient and amount and a declared asset), and in a
    closing batch then the sweep leaves, which pay code-free accounts or the fallback
    recipient and bring the withdrawals of every bound asset to exactly the controlled
    escrow plus the consumed deposits. *)
Theorem exit_allocation_sound input binding from state :
  BatchInputV5_wf input -> balances_nonneg state -> words_wf state ->
  NoDup (map eab_asset (eb_assets binding)) ->
  NoDup (map al_asset (bi5_pre_liabilities input)) ->
  ep5_exit (bi5_policy input) = Some binding ->
  bj5_authorization_mode (bi5_journal input) = 1 ->
  validate_exit_v5 input from state = Ok tt ->
  exists records sweep, exit_allocation input binding from state records sweep.
Proof. apply validate_exit_spec. Qed.
End Claims.

(** ** Witness: a closing batch with one queue record and a swept residual *)
#[local] Existing Instance toy_keccak.
#[local] Existing Instance toy_revm.

Definition word_range (v : Z) : bool := (0 <=? v) && (v <? 2 ^ 256).
Definition accounts_in_range (accounts : gmap Z AccountRecord) : bool :=
  bool_decide (map_Forall (fun _ r => word_range (ar_balance r) = true /\
    map_Forall (fun _ v => word_range v = true) (ar_storage r)) accounts).

Lemma accounts_in_range_spec {RV : Revm} (state : StateMap) :
  accounts_in_range (sm_accounts state) = true -> balances_nonneg state /\ words_wf state.
Proof.
  intros H. apply bool_decide_eq_true in H.
  assert (Hw : words_wf state).
  { intros t s. unfold storage_value, in_u256.
    destruct (sm_accounts state !! t) as [r|] eqn:E; [|lia]. destruct (H t r E) as [_ Hs].
    destruct (ar_storage r !! s) as [v|] eqn:Ev; cbn; [|lia].
    specialize (Hs s v Ev). cbn in Hs. unfold word_range in Hs. bool_to_prop. lia. }
  split; [split|exact Hw].
  - intros a r E. destruct (H a r E) as [Hb _]. unfold word_range in Hb. bool_to_prop. lia.
  - intros t s. apply Hw.
Qed.

Definition closing_state : StateMap :=
  mk_StateMap _
    (list_to_map
       [ (6, mk_AccountRecord 0 0 [1] (list_to_map [(0, 1); (10, 1001); (12, 40)]));
         (1001, mk_AccountRecord 0 30 [] ∅);
         (1002, mk_AccountRecord 0 10 [] ∅) ])
    ∅ None None None ∅ ∅ DbAccessMetrics_default.
Definition closing_binding : ExitBindingV5 :=
  mk_ExitBindingV5 6 0 10 [mk_ExitAssetBindingV5 0 0 0 0] 9.
Definition closing_journal : BatchJournalV5 :=
  mk_BatchJournalV5 0 0 0 1 0 0 0 0 0 0 0 0 0 0 0 0 0 0 0 0 0 0 0 0 0 3 0 0 0 0 0 0 0 0 0
    0 0 0 0 0 0 0 0 0 0 0 0 0 0 0 0 true.
Definition closing_withdrawals : list WithdrawalV5 :=
  [ mk_WithdrawalV5 0 3 1001 0 40; mk_WithdrawalV5 1 3 1001 0 45;
    mk_WithdrawalV5 2 3 1002 0 15; mk_WithdrawalV5 3 3 9 0 1 ].
Definition closing_input : BatchInputV5 :=
  mk_BatchInputV5 0 0 closing_journal witness_policy 0 [] [] [] [] [] []
    [mk_AssetLiabilityV5 0 0 101 0 0] [] [] closing_withdrawals 4 None
    CompactStateWitnessV4_default [].

Lemma close_sweep_exact_witness :
  asset_amount [mk_ExitRecordV5 1001 0 45; mk_ExitRecordV5 1002 0 15; mk_ExitRecordV5 9 0 1] 0
  = 61.
Proof.
  destruct (accounts_in_range_spec closing_state) as [Hb Hw]; [vm_compute; reflexivity|].
  assert (Hn : NoDup (map eab_asset (eb_assets closing_binding)))
    by (apply (bool_decide_unpack _); vm_compute; exact I).
  assert (Hr : forall a, 0 <= default 0 (({[0 := 61]} : gmap Z Z) !! a) <= U256_MAX).
  { intros a. unfold U256_MAX. destruct (decide (a = 0)) as [->|];
      [rewrite lookup_singleton_eq|rewrite lookup_singleton_ne by auto]; cbn; lia. }
  destruct (close_sweep_exact closing_binding closing_state {[0 := 61]}
    [mk_ExitRecordV5 1001 0 45; mk_ExitRecordV5 1002 0 15; mk_ExitRecordV5 9 0 1]
    Hb Hr Hn) as [_ H].
  rewrite H; vm_compute; reflexivity.
Defined.

Lemma exit_allocation_sound_witness :
  exists records sweep, exit_allocation closing_input closing_binding 0 closing_state records sweep.
Proof.
  destruct (accounts_in_range_spec closing_state) as [Hb Hw]; [vm_compute; reflexivity|].
  apply (exit_allocation_sound closing_input closing_binding 0 closing_state).
  - destruct witness_policy_fits as [Wp _].
    unfold BatchInputV5_wf, closing_input, BatchJournalV5_wf, closing_journal,
      AssetLiabilityV5_wf, WithdrawalV5_wf, closing_withdrawals, CompactStateWitnessV4_wf.
    cbn -[Z.pow witness_policy ExecutionPolicyV5_wf]. split_and!; try exact Wp; solve_wf; constructor.
  - exact Hb.
  - exact Hw.
  - apply (bool_decide_unpack _). vm_compute. exact I.
  - apply (bool_decide_unpack _). vm_compute. exact I.
  - reflexivity.
  - reflexivity.
  - vm_compute. reflexivity.
Defined.
