(* ===== verification/LiabilitiesV5.v ===== *)
(** * Escrow accounting of long-lived rooms: stf-core/src/room_v5/liabilities.rs

    The system credit of consumed deposits and the per-asset conservation rule
    between the two liability vectors of a batch. *)

From S2P Require Import Prelude Types Abi HashV5 State StateEvm Settlement ExitV5.
Open Scope Z_scope.

Section Liabilities.
Context {KK : Keccak} {RV : Revm}.

Definition checked_add_v5 (left right : Z) (label : string) : result string Z :=
  ok_or (checked_add U256_MAX left right) (label ++ " overflow")%string.

(** ** [apply_deposit_credits_v5] *)

(** The fees of the receipts that reference a deposit. *)
Definition referenced_fee (deposit : DepositV5) (fees : Z) (record : AdmissionRecordV5)
  : result string Z :=
  if arc_deposit_inbox_id (are_receipt record) =? dp_inbox_id deposit then
    checked_add_v5 fees (arc_admission_fee (are_receipt record)) "admission fee total"
  else Ok fees.

Definition credit_native_v5 (deposit : DepositV5) (net : Z) (state : StateMap)
  : result string StateMap :=
  let beneficiary := dp_beneficiary deposit in
  fail_if account_outside state beneficiary
    with "deposit beneficiary is outside the complete compact-state envelope"%string in
  let account := default AccountRecord_default (sm_accounts state !! beneficiary) in
  let? balance := checked_add_v5 (ar_balance account) net "beneficiary balance" in
  Ok (set_accounts (<[beneficiary := mk_AccountRecord (ar_nonce account) balance
                        (ar_code account) (ar_storage account)]> (sm_accounts state)) state).

Definition token_binding (policy : ExecutionPolicyV5) (asset : Z)
  : option ExitAssetBindingV5 :=
  match ep5_exit policy with
  | Some exit =>
      List.find (fun bound => (eab_asset bound =? asset) && (eab_kind bound =? 1))
        (eb_assets exit)
  | None => None
  end.

Definition credit_token_v5 (policy : ExecutionPolicyV5) (deposit : DepositV5) (net : Z)
    (state : StateMap) : result string StateMap :=
  let? bound := ok_or (token_binding policy (dp_asset deposit))
                  "deposit asset has no certified in-room token binding"%string in
  let slot := mapping_slot_v5 (dp_beneficiary deposit) (eab_balance_slot bound) in
  let? current := read_storage_v5 state (eab_token bound) slot "deposit credit" in
  let? credited := checked_add_v5 current net "beneficiary token balance" in
  let? account := ok_or (sm_accounts state !! eab_token bound)
                    "deposit credit token account is absent"%string in
  Ok (set_accounts
        (<[eab_token bound := mk_AccountRecord (ar_nonce account) (ar_balance account)
             (ar_code account) (<[slot := credited]> (ar_storage account))]>
           (sm_accounts state)) state).

(** The body of the deposit loop. *)
Definition credit_deposit (input : BatchInputV5) (state : StateMap) (deposit : DepositV5)
  : result string StateMap :=
  if dp_refunded deposit then Ok state else
  let? fees := for_each (referenced_fee deposit) 0 (bi5_admissions input) in
  let? net := ok_or (checked_sub (dp_amount deposit) fees)
                "admission fees exceed the consumed deposit they reference"%string in
  if net =? 0 then Ok state else
  if dp_asset deposit =? Address_ZERO then credit_native_v5 deposit net state
  else credit_token_v5 (bi5_policy input) deposit net state.

Definition apply_deposit_credits_v5 (input : BatchInputV5) (state : StateMap)
  : result string StateMap :=
  for_each (credit_deposit input) state (bi5_deposits input).

(** ** [validate_liabilities_v5] *)

(** The body of the deposit loop: contiguous ids, well-formed records, totals
    of what was not refunded. *)
Definition deposit_step (journal : BatchJournalV5) (deposits : gmap Z Z)
    (entry : Z * DepositV5) : result string (gmap Z Z) :=
  let '(offset, deposit) := entry in
  let? expected_id := ok_or (checked_add U64_MAX (bj5_inbox_cursor_before journal) (offset + 1))
                        "inbox id overflow"%string in
  fail_if negb (dp_inbox_id deposit =? expected_id)
       || (dp_depositor deposit =? Address_ZERO) || (dp_amount deposit =? 0)
       || (dp_beneficiary deposit =? Address_ZERO) || (dp_queued_at_block deposit =? 0)
       || dp_consumed deposit
    with "deposit preimage is malformed or non-contiguous"%string in
  if dp_refunded deposit then Ok deposits
  else add_total "deposit total" deposits (dp_asset deposit) (dp_amount deposit).

Definition withdrawal_step (withdrawals : gmap Z Z) (withdrawal : WithdrawalV5)
  : result string (gmap Z Z) :=
  add_total "withdrawal total" withdrawals (wd_asset withdrawal) (wd_amount withdrawal).

(** The body of the loop over the paired liability vectors. *)
Definition liability_step (close : bool) (s : option Z * gmap Z Z * gmap Z Z)
    (entry : AssetLiabilityV5 * AssetLiabilityV5)
  : result string (option Z * gmap Z Z * gmap Z Z) :=
  let '(previous_asset, deposits, withdrawals) := s in
  let '(pre, post) := entry in
  fail_if negb (al_asset pre =? al_asset post) || not_after previous_asset (al_asset pre)
       || negb (al_paid pre =? al_paid post)
    with "liabilities must use the same sorted assets and paid total"%string in
  let deposit := default 0 (deposits !! al_asset pre) in
  let withdrawal := default 0 (withdrawals !! al_asset pre) in
  let? expected_pending := ok_or (checked_sub (al_pending pre) deposit)
                             "deposit exceeds pending liability"%string in
  let? expected_claimable := checked_add_v5 (al_claimable pre) withdrawal "claimable total" in
  let? available_controlled := checked_add_v5 (al_controlled pre) deposit "controlled total" in
  let? expected_controlled := ok_or (checked_sub available_controlled withdrawal)
                                "withdrawal exceeds controlled liability"%string in
  fail_if negb (al_pending post =? expected_pending)
       || negb (al_claimable post =? expected_claimable)
       || negb (al_controlled post =? expected_controlled)
    with "post-liabilities do not conserve consumed deposits and withdrawals"%string in
  fail_if close && negb (al_controlled post =? 0)
    with "closing batch leaves controlled escrow that could never be withdrawn"%string in
  Ok (Some (al_asset pre), delete (al_asset pre) deposits, delete (al_asset pre) withdrawals).

Definition validate_liabilities_v5 (input : BatchInputV5) : result string unit :=
  let journal := bi5_journal input in
  fail_if (bj5_authorization_mode journal =? 1)
       && bool_decide (ep5_exit (bi5_policy input) = None)
    with "validity-only rooms are unprovable without an exit binding"%string in
  fail_if negb (liabilities_hash_v5 (bi5_pre_liabilities input)
                =? bj5_pre_liabilities_hash journal)
       || negb (liabilities_hash_v5 (bi5_post_liabilities input)
                =? bj5_post_liabilities_hash journal)
       || negb (zlen (bi5_pre_liabilities input) =? zlen (bi5_post_liabilities input))
    with "liability preimages do not match the journal"%string in
  fail_if negb (inbox_records_hash_v5 (bi5_deposits input) =? bj5_inbox_records_hash journal)
    with "L1 inbox records do not match the journal commitment"%string in
  let? deposits := for_each (deposit_step journal) ∅ (enumerate (bi5_deposits input)) in
  let? cursor := ok_or (checked_add U64_MAX (bj5_inbox_cursor_before journal)
                          (zlen (bi5_deposits input))) "inbox cursor overflow"%string in
  fail_if negb (bj5_inbox_cursor_after journal =? cursor)
    with "inbox cursor does not match consumed deposits"%string in
  let? withdrawals := for_each withdrawal_step ∅ (bi5_withdrawals input) in
  let? expected_root :=
    ok_or (withdrawal_root_v5 (bj5_deployment_domain journal) (bj5_room_id journal)
             (bj5_outbox_epoch journal) (bi5_withdrawals input)
             (bi5_withdrawal_capacity input))
      "invalid withdrawal tree preimage"%string in
  fail_if negb (expected_root =? bj5_withdrawal_root journal)
    with "withdrawal tree does not match the journal"%string in
  let? (_, deposits, withdrawals) :=
    for_each (liability_step (bj5_close journal)) (None, deposits, withdrawals)
      (zip (bi5_pre_liabilities input) (bi5_post_liabilities input)) in
  fail_if negb (bool_decide (deposits = ∅)) || negb (bool_decide (withdrawals = ∅))
    with "deposit or withdrawal names an unsupported asset"%string in
  Ok tt.
End Liabilities.

(** * Specification *)
Section LiabilitiesSpec.
Context {KK : Keccak} {RV : Revm}.

(** Deposit [i] of the crossed cursor range. *)
Definition deposit_ok (journal : BatchJournalV5) (i : Z) (deposit : DepositV5) : Prop :=
  bj5_inbox_cursor_before journal + (i + 1) <= U64_MAX /\
  dp_inbox_id deposit = bj5_inbox_cursor_before journal + (i + 1) /\
  dp_depositor deposit <> 0 /\ dp_amount deposit <> 0 /\ dp_beneficiary deposit <> 0 /\
  dp_queued_at_block deposit <> 0 /\ dp_consumed deposit = false.
Definition deposits_ok (journal : BatchJournalV5) (deposits : list DepositV5) : Prop :=
  forall i d, deposits !! i = Some d -> deposit_ok journal (Z.of_nat i) d.

(** What the books of one asset do in a batch that consumes [d] of its
    deposits and mints [w] of its withdrawals. *)
Record asset_moves (close : bool) (d w : Z) (pre post : AssetLiabilityV5) : Prop := {
  am_asset : al_asset post = al_asset pre;
  am_paid : al_paid post = al_paid pre;
  am_pending : d <= al_pending pre /\ al_pending post = al_pending pre - d;
  am_available : al_controlled pre + d <= U256_MAX;
  am_controlled : w <= al_controlled pre + d /\ al_controlled post = al_controlled pre + d - w;
  am_claimable : al_claimable pre + w <= U256_MAX /\ al_claimable post = al_claimable pre + w;
  am_close : close = true -> al_controlled post = 0
}.

Record liabilities_ok (input : BatchInputV5) : Prop := {
  lo_exit : bj5_authorization_mode (bi5_journal input) = 1 -> ep5_exit (bi5_policy input) <> None;
  lo_pre_hash : liabilities_hash_v5 (bi5_pre_liabilities input)
                = bj5_pre_liabilities_hash (bi5_journal input);
  lo_post_hash : liabilities_hash_v5 (bi5_post_liabilities input)
                 = bj5_post_liabilities_hash (bi5_journal input);
  lo_inbox_hash : inbox_records_hash_v5 (bi5_deposits input)
                  = bj5_inbox_records_hash (bi5_journal input);
  lo_deposits : deposits_ok (bi5_journal input) (bi5_deposits input);
  lo_cursor : bj5_inbox_cursor_after (bi5_journal input)
              = bj5_inbox_cursor_before (bi5_journal input) + zlen (bi5_deposits input);
  lo_root : withdrawal_root_v5 (bj5_deployment_domain (bi5_journal input))
              (bj5_room_id (bi5_journal input)) (bj5_outbox_epoch (bi5_journal input))
              (bi5_withdrawals input) (bi5_withdrawal_capacity input)
            = Some (bj5_withdrawal_root (bi5_journal input));
  lo_sorted : key_sorted al_asset (bi5_pre_liabilities input);
  lo_moves : Forall2 (fun pre post =>
      asset_moves (bj5_close (bi5_journal input)) (deposited input (al_asset pre))
        (withdrawn input (al_asset pre)) pre post)
    (bi5_pre_liabilities input) (bi5_post_liabilities input);
  lo_deposits_covered : forall d, d ∈ bi5_deposits input -> dp_refunded d = false ->
    dp_asset d ∈ map al_asset (bi5_pre_liabilities input);
  lo_withdrawals_covered : forall w, w ∈ bi5_withdrawals input ->
    wd_asset w ∈ map al_asset (bi5_pre_liabilities input)
}.

Lemma deposits_ok_snoc journal l x :
  deposits_ok journal (l ++ [x]) <-> deposits_ok journal l /\ deposit_ok journal (zlen l) x.
Proof.
  unfold deposits_ok. split.
  - intros H. split.
    + intros i d Hd. apply H, lookup_app_l_Some, Hd.
    + apply (H (length l)), list_lookup_middle. reflexivity.
  - intros [H Hx] i d Hd. apply lookup_app_Some in Hd as [Hd|[Hge Hd]]; [auto|].
    destruct (i - length l)%nat eqn:E; [|discriminate]. injection Hd as ->.
    replace i with (length l) by lia. exact Hx.
Qed.

Lemma deposit_loop journal l t :
  Forall (fun d => 0 <= dp_amount d) l ->
  for_each (deposit_step journal) ∅ (enumerate l) = Ok t <->
  deposits_ok journal l /\ (forall a, total_of dp_refunded dp_asset dp_amount l a <= U256_MAX) /\
  t = totals_map dp_refunded dp_asset dp_amount l.
Proof.
  intros Hn. rewrite <- (totals_loop dp_refunded dp_asset dp_amount "deposit total") by exact Hn.
  clear Hn. revert t. induction l as [|x l IH] using rev_ind; intros t.
  { cbn. rewrite Ok_Ok. split; [intros <-; split; [|reflexivity]|intros [_ ?]; auto].
    intros i d Hd. rewrite lookup_nil in Hd. discriminate. }
  rewrite enumerate_snoc, !for_each_app, !rbind_Ok, deposits_ok_snoc. setoid_rewrite IH.
  assert (Hstep : forall s s', for_each (deposit_step journal) s [(zlen l, x)] = Ok s' <->
    deposit_ok journal (zlen l) x /\
    for_each (fun m x => if dp_refunded x then Ok m
        else add_total "deposit total" m (dp_asset x) (dp_amount x)) s [x] = Ok s').
  { intros s s'. cbn [for_each]. unfold deposit_step, deposit_ok, Address_ZERO. split.
    - intros H. apply rbind_Ok in H as (s1 & H & E). apply rbind_Ok in H as (id & Hid & H).
      apply ok_or_Ok, checked_add_Some in Hid as [Hle ->].
      apply fail_if_Ok in H as [G H]. rewrite !orb_false_iff, negb_eqb_false, !Z.eqb_neq in G.
      destruct G as [[[[[? ?] ?] ?] ?] ?]. rewrite H. split; [auto 10|exact E].
    - intros [(Hle & Hid & G1 & G2 & G3 & G4 & G5) H].
      rewrite (proj2 (checked_add_Some _ _ _ _) (conj Hle eq_refl)). cbn [ok_or rbind].
      rewrite Hid, Z.eqb_refl, !(proj2 (Z.eqb_neq _ _)), G5 by assumption. exact H. }
  setoid_rewrite Hstep. naive_solver.
Qed.

Lemma withdrawal_loop l t :
  Forall (fun w => 0 <= wd_amount w) l ->
  for_each withdrawal_step ∅ l = Ok t <->
  (forall a, total_of (fun _ => false) wd_asset wd_amount l a <= U256_MAX) /\
  t = totals_map (fun _ => false) wd_asset wd_amount l.
Proof.
  intros Hn. rewrite <- (totals_loop (fun _ => false) wd_asset wd_amount "withdrawal total")
    by exact Hn. reflexivity.
Qed.

(** The pair loop over any list of pairs. *)
Lemma liability_loop close D W l r :
  for_each (liability_step close) (None, D, W) l = Ok r <->
  key_sorted (fun p => al_asset p.1) l /\
  Forall (fun p => asset_moves close (default 0 (D !! al_asset p.1))
                     (default 0 (W !! al_asset p.1)) p.1 p.2) l /\
  r = ((fun p => al_asset p.1) <$> last l, without (map (fun p => al_asset p.1) l) D,
       without (map (fun p => al_asset p.1) l) W).
Proof.
  set (key := fun p : AssetLiabilityV5 * AssetLiabilityV5 => al_asset p.1).
  revert r. induction l as [|[pre post] l IH] using rev_ind; intros r.
  { cbn. rewrite Ok_Ok. split; [intros <-; split_and!; constructor || reflexivity|].
    intros (_ & _ & ->). reflexivity. }
  rewrite for_each_app, rbind_Ok, Forall_app, Forall_singleton, last_snoc, map_app.
  cbn [fst snd map]. rewrite !without_snoc. setoid_rewrite IH.
  rewrite key_sorted_snoc_iff. change (key (pre, post)) with (al_asset pre).
  assert (Hstep : forall s', key_sorted key l ->
    for_each (liability_step close) (key <$> last l, without (map key l) D, without (map key l) W)
      [(pre, post)] = Ok s' <->
    not_after (key <$> last l) (al_asset pre) = false /\
    asset_moves close (default 0 (D !! al_asset pre)) (default 0 (W !! al_asset pre)) pre post /\
    s' = (Some (al_asset pre), delete (al_asset pre) (without (map key l) D),
          delete (al_asset pre) (without (map key l) W))).
  { intros s' Hs. cbn [for_each]. unfold liability_step.
    destruct (not_after (key <$> last l) (al_asset pre)) eqn:En.
    { rewrite orb_true_r, orb_true_l. cbn. split; [discriminate|intros [? _]; discriminate]. }
    assert (Hf : al_asset pre ∉ map key l).
    { assert (Hs2 : key_sorted key (l ++ [(pre, post)])) by (apply key_sorted_snoc_iff; auto).
      apply key_sorted_NoDup in Hs2. apply (NoDup_map_middle key l (pre, post) []) in Hs2.
      exact Hs2. }
    rewrite !without_lookup, !decide_False by exact Hf. rewrite orb_false_r.
    set (d := default 0 (D !! al_asset pre)). set (w := default 0 (W !! al_asset pre)).
    unfold checked_add_v5. split.
    - intros H. apply rbind_Ok in H as (s1 & H & E). apply Ok_Ok in E as ->.
      apply fail_if_Ok in H as [G H]. rewrite orb_false_iff, !negb_eqb_false in G.
      apply rbind_Ok in H as (x1 & H1 & H). apply ok_or_Ok, checked_sub_Some in H1 as [? ->].
      apply rbind_Ok in H as (x2 & H2 & H). apply ok_or_Ok, checked_add_Some in H2 as [? ->].
      apply rbind_Ok in H as (x3 & H3 & H). apply ok_or_Ok, checked_add_Some in H3 as [? ->].
      apply rbind_Ok in H as (x4 & H4 & H). apply ok_or_Ok, checked_sub_Some in H4 as [? ->].
      apply fail_if_Ok in H as [G2 H]. rewrite !orb_false_iff, !negb_eqb_false in G2.
      apply fail_if_Ok in H as [G3 H]. apply Ok_Ok in H as <-.
      split; [reflexivity|]. split; [|reflexivity].
      split; try tauto; try (symmetry; tauto). intros ->. cbn in G3. apply negb_eqb_false, G3.
    - intros (_ & [A1 A2 [A3 A4] A5 [A6 A7] [A8 A9] A10] & ->).
      rewrite A1, A2, !Z.eqb_refl. cbn [negb orb].
      rewrite (proj2 (checked_sub_Some _ _ _) (conj A3 eq_refl)). cbn [ok_or rbind].
      rewrite (proj2 (checked_add_Some _ _ _ _) (conj A8 eq_refl)). cbn [ok_or rbind].
      rewrite (proj2 (checked_add_Some _ _ _ _) (conj A5 eq_refl)). cbn [ok_or rbind].
      rewrite (proj2 (checked_sub_Some _ _ _) (conj A6 eq_refl)). cbn [ok_or rbind].
      rewrite A4, A9, <- A7, !Z.eqb_refl. cbn [negb orb].
      destruct close; [rewrite A10 by reflexivity|]; reflexivity. }
  split.
  - intros (s & (H1 & H2 & ->) & H). apply Hstep in H as (? & ? & ->); auto.
  - intros ((H1 & H2) & (H3 & H4) & ->). eexists. split; [split_and!; eauto|].
    apply Hstep; auto.
Qed.

Lemma amounts_nonneg input :
  BatchInputV5_wf input ->
  Forall (fun d => 0 <= dp_amount d) (bi5_deposits input) /\
  Forall (fun w => 0 <= wd_amount w) (bi5_withdrawals input) /\
  Forall (fun l => 0 <= al_controlled l /\ al_pending l <= U256_MAX /\
                   0 <= al_pending l /\ 0 <= al_claimable l) (bi5_pre_liabilities input) /\
  in_u64 (bj5_inbox_cursor_after (bi5_journal input)).
Proof.
  intros W. unfold BatchInputV5_wf in W.
  destruct W as (_ & _ & Wj & _ & _ & _ & _ & _ & _ & _ & _ & Wl & _ & Wd & Ww & _).
  split_and!.
  - eapply Forall_impl; [exact Wd|]. intros d (_ & _ & _ & _ & [? _] & _). assumption.
  - eapply Forall_impl; [exact Ww|]. intros w (_ & _ & _ & _ & [? _]). assumption.
  - eapply Forall_impl; [exact Wl|]. intros l (_ & W1 & W2 & W3 & _).
    unfold in_u256, U256_MAX in *. lia.
  - unfold BatchJournalV5_wf in Wj. tauto.
Qed.

(** Totals of the covered assets are bounded by the books, so no total of an
    accepted batch overflows. *)
Lemma covered_totals {A} skip asset amount (l : list A) (assets : list Z) a :
  (forall x, x ∈ l -> skip x = false -> asset x ∈ assets) ->
  (forall b, b ∈ assets -> total_of skip asset amount l b <= U256_MAX) ->
  total_of skip asset amount l a <= U256_MAX.
Proof.
  intros Hc Hb. destruct (decide (a ∈ assets)) as [Ha|Ha]; [auto|].
  rewrite total_of_zero; [unfold U256_MAX; lia|].
  intros x Hx Hs <-. apply Ha, Hc; assumption.
Qed.

Lemma validate_liabilities_spec input :
  BatchInputV5_wf input ->
  validate_liabilities_v5 input = Ok tt <-> liabilities_ok input.
Proof.
  intros W. destruct (amounts_nonneg input W) as (Wd & Ww & Wl & Wc).
  unfold validate_liabilities_v5. set (j := bi5_journal input).
  rewrite !fail_if_Ok, !orb_false_iff, !negb_eqb_false, rbind_Ok.
  setoid_rewrite (fun t => deposit_loop j _ t Wd). split.
  - intros (G1 & ([G2 G3] & G4) & G5 & t & (Hd & Ht & ->) & H).
    unfold zlen in G4. apply Nat2Z.inj in G4.
    apply rbind_Ok in H as (c & Hcur & H). apply ok_or_Ok, checked_add_Some in Hcur as [_ ->].
    apply fail_if_Ok in H as [G6 H]. apply negb_eqb_false in G6.
    apply rbind_Ok in H as (u & Hu & H). apply withdrawal_loop in Hu as [_ ->]; [|exact Ww].
    apply rbind_Ok in H as (root & Hroot & H). apply ok_or_Ok in Hroot.
    apply fail_if_Ok in H as [G7 H]. apply negb_eqb_false in G7 as ->.
    apply rbind_Ok in H as (r & Hr & H). apply liability_loop in Hr as (Hs & Hm & ->).
    apply fail_if_Ok in H as [G8 _]. rewrite orb_false_iff, !negb_bool_decide_false in G8.
    destruct G8 as [G8 G9].
    rewrite <- (map_map fst al_asset), map_fst_zip in G8, G9 by exact G4.
    rewrite without_empty in G8, G9.
    split; auto.
    + fold j. intros Hmode. apply Z.eqb_eq in Hmode. rewrite Hmode in G1.
      apply bool_decide_eq_false in G1. exact G1.
    + rewrite <- (map_fst_zip (bi5_pre_liabilities input) (bi5_post_liabilities input)) by exact G4.
      apply key_sorted_map. exact Hs.
    + apply Forall2_zip. split; [exact G4|]. eapply Forall_impl; [exact Hm|].
      intros [pre post]. cbn [fst snd]. rewrite !totals_map_lookup. auto.
    + intros d Hin Hr. apply G8, totals_map_Some. eauto.
    + intros w Hin. apply G9, totals_map_Some. eauto.
  - intros [L1 L2 L3 L4 L5 L6 L7 L8 L9 L10 L11].
    pose proof L9 as [Hlen Hm]%Forall2_zip. change (bi5_journal input) with j in Wc, L1, L2, L3, L4, L5, L6, L7.
    assert (Hb : forall a, a ∈ map al_asset (bi5_pre_liabilities input) ->
                           deposited input a <= U256_MAX /\ withdrawn input a <= U256_MAX).
    { intros a Ha. apply list_elem_of_fmap in Ha as (pre & -> & Hp).
      apply list_elem_of_lookup in Hp as [i Hi].
      rewrite Forall_forall in Wl. specialize (Wl pre ltac:(eapply list_elem_of_lookup_2; eauto)).
      cbn in Wl. destruct (Forall2_lookup_l _ _ _ _ _ L9 Hi) as (post & _ & [_ _ [? _] ? [? _] _ _]).
      lia. }
    split_and!; auto.
    + destruct (Z.eqb_spec (bj5_authorization_mode j) 1) as [E|]; [|reflexivity].
      apply bool_decide_eq_false. auto.
    + unfold zlen. lia.
    + eexists. split; [split_and!; [exact L5| |reflexivity]|].
      { intros a. eapply covered_totals; [exact L10|]. intros b Hin. apply Hb, Hin. }
      apply rbind_Ok. eexists. split.
      { apply ok_or_Ok, checked_add_Some. split; [|reflexivity].
        rewrite <- L6. unfold in_u64, U64_MAX in *. lia. }
      apply fail_if_Ok. rewrite negb_eqb_false. split; [exact L6|].
      apply rbind_Ok. eexists. split.
      { apply withdrawal_loop; [exact Ww|]. split; [|reflexivity].
        intros a. eapply covered_totals; [intros; apply L11; assumption|].
        intros b Hin. apply Hb, Hin. }
      rewrite L7. cbn [ok_or rbind]. rewrite Z.eqb_refl. cbn [negb].
      apply rbind_Ok. eexists. split.
      { apply liability_loop. split_and!; [| |reflexivity].
        - apply (key_sorted_map fst al_asset). rewrite map_fst_zip by exact Hlen. exact L8.
        - eapply Forall_impl; [exact Hm|]. intros [pre post]. cbn [fst snd].
          rewrite !totals_map_lookup. auto. }
      cbn beta iota. apply fail_if_Ok. split; [|reflexivity].
      rewrite orb_false_iff, !negb_bool_decide_false.
      rewrite <- (map_map fst al_asset), map_fst_zip by exact Hlen.
      rewrite !without_empty. split; intros k [x (Hx & Hs & <-)]%totals_map_Some; auto.
Qed.
End LiabilitiesSpec.

(** * What the system credit does to the room state *)
Section Credits.
Context {KK : Keccak} {RV : Revm}.
Implicit Types state : StateMap.

Definition deposit_fees (input : BatchInputV5) (deposit : DepositV5) : Z :=
  total_of (fun _ => false) (fun r => arc_deposit_inbox_id (are_receipt r))
    (fun r => arc_admission_fee (are_receipt r)) (bi5_admissions input) (dp_inbox_id deposit).
(** What a deposit brings its beneficiary. *)
Definition deposit_net (input : BatchInputV5) (deposit : DepositV5) : Z :=
  if dp_refunded deposit then 0 else dp_amount deposit - deposit_fees input deposit.

(** The in-room slot a token deposit is credited to. *)
Definition credited_slot (policy : ExecutionPolicyV5) (deposit : DepositV5) : option (Z * Z) :=
  match token_binding policy (dp_asset deposit) with
  | Some bound =>
      Some (eab_token bound,
            mapping_slot_v5 (dp_beneficiary deposit) (eab_balance_slot bound))
  | None => None
  end.

Definition credits_native (account : Z) (d : DepositV5) : Prop :=
  dp_asset d = 0 /\ dp_beneficiary d = account.
Definition credits_slot (policy : ExecutionPolicyV5) (slot : Z * Z) (d : DepositV5) : Prop :=
  dp_asset d <> 0 /\ credited_slot policy d = Some slot.
#[export] Instance credits_native_dec a d : Decision (credits_native a d).
Proof. unfold credits_native. apply _. Defined.
#[export] Instance credits_slot_dec p s d : Decision (credits_slot p s d).
Proof. unfold credits_slot. apply _. Defined.

Definition native_credit (input : BatchInputV5) (deposits : list DepositV5) (account : Z) : Z :=
  zsum (map (deposit_net input) (filter (credits_native account) deposits)).
Definition slot_credit (input : BatchInputV5) (deposits : list DepositV5) (slot : Z * Z) : Z :=
  zsum (map (deposit_net input) (filter (credits_slot (bi5_policy input) slot) deposits)).

Lemma fee_loop input deposit fees :
  for_each (referenced_fee deposit) 0 (bi5_admissions input) = Ok fees ->
  fees = deposit_fees input deposit.
Proof.
  intros H. unfold deposit_fees.
  refine (for_each_inv (fun done s => s = total_of (fun _ => false)
    (fun r => arc_deposit_inbox_id (are_receipt r))
    (fun r => arc_admission_fee (are_receipt r)) done (dp_inbox_id deposit)) _ _ _ _ _ _ H);
    [reflexivity|].
  intros done x s1 s2 -> _ Hb. rewrite total_of_snoc. unfold referenced_fee in Hb.
  destruct (Z.eqb_spec (arc_deposit_inbox_id (are_receipt x)) (dp_inbox_id deposit)) as [E|E].
  - rewrite decide_True by auto. apply ok_or_Ok, checked_add_Some in Hb as [_ ->]. reflexivity.
  - rewrite decide_False by (intros [_ ?]; contradiction). apply Ok_Ok in Hb as <-. lia.
Qed.

(** What a credit leaves alone: every code and every nonce. *)
Definition keeps_identity state state' : Prop :=
  (forall a, ar_code (default AccountRecord_default (sm_accounts state' !! a))
             = ar_code (default AccountRecord_default (sm_accounts state !! a))) /\
  (forall a, ar_nonce (default AccountRecord_default (sm_accounts state' !! a))
             = ar_nonce (default AccountRecord_default (sm_accounts state !! a))).

(** One deposit. *)
Lemma credit_deposit_spec input state deposit state' :
  credit_deposit input state deposit = Ok state' ->
  0 <= deposit_net input deposit /\
  (deposit_net input deposit <> 0 -> dp_asset deposit <> 0 ->
   credited_slot (bi5_policy input) deposit <> None) /\
  (forall a, native_balance (sm_accounts state') a = native_balance (sm_accounts state) a
     + if decide (credits_native a deposit) then deposit_net input deposit else 0) /\
  (forall t s, storage_value (sm_accounts state') t s = storage_value (sm_accounts state) t s
     + if decide (credits_slot (bi5_policy input) (t, s) deposit)
       then deposit_net input deposit else 0) /\
  keeps_identity state state'.
Proof.
  unfold credit_deposit. intros H. unfold deposit_net.
  destruct (dp_refunded deposit) eqn:Er.
  { apply Ok_Ok in H as <-. split; [lia|]. split; [lia|].
    split_and!; try (intros; case_decide; lia). split; reflexivity. }
  apply rbind_Ok in H as (fees & Hf & H). apply fee_loop in Hf as ->.
  apply rbind_Ok in H as (net & Hn & H). apply ok_or_Ok, checked_sub_Some in Hn as [Hle Hnet].
  rewrite <- Hnet. split; [lia|].
  destruct (Z.eqb_spec net 0) as [E|E].
  { apply Ok_Ok in H as <-. rewrite E. split; [lia|].
    split_and!; try (intros; case_decide; lia). split; reflexivity. }
  unfold Address_ZERO in H. destruct (Z.eqb_spec (dp_asset deposit) 0) as [Ea|Ea].
  - split; [contradiction|]. unfold credit_native_v5 in H. apply fail_if_Ok in H as [_ H].
    apply rbind_Ok in H as (b & Hb & H). apply ok_or_Ok, checked_add_Some in Hb as [_ ->].
    apply Ok_Ok in H as <-. cbn [sm_accounts set_accounts]. split_and!.
    + intros a. unfold native_balance, credits_native. destruct (decide (dp_beneficiary deposit = a)) as [<-|Hb].
      * rewrite lookup_insert_eq, decide_True by auto. cbn.
        destruct (sm_accounts state !! _); cbn; lia.
      * rewrite lookup_insert_ne, decide_False by (auto; intros [_ ?]; contradiction). lia.
    + intros t s. rewrite decide_False by (intros [? _]; contradiction). rewrite Z.add_0_r.
      unfold storage_value. destruct (decide (dp_beneficiary deposit = t)) as [<-|Hb].
      * rewrite lookup_insert_eq. cbn. destruct (sm_accounts state !! _); reflexivity.
      * rewrite lookup_insert_ne by exact Hb. reflexivity.
    + split; intros a; cbn; (destruct (decide (dp_beneficiary deposit = a)) as [<-|Hb];
        [rewrite lookup_insert_eq|rewrite lookup_insert_ne by exact Hb]); reflexivity.
  - unfold credit_token_v5 in H. apply rbind_Ok in H as (bound & Hb & H). apply ok_or_Ok in Hb.
    set (sl := mapping_slot_v5 (dp_beneficiary deposit) (eab_balance_slot bound)) in *.
    assert (Hcs : credited_slot (bi5_policy input) deposit = Some (eab_token bound, sl))
      by (unfold credited_slot; rewrite Hb; reflexivity).
    split; [rewrite Hcs; discriminate|].
    apply rbind_Ok in H as (cur & Hc & H). apply read_storage_v5_ok in Hc as [_ ->].
    apply rbind_Ok in H as (v & Hv & H). apply ok_or_Ok, checked_add_Some in Hv as [_ ->].
    apply rbind_Ok in H as (acct & Hacct & H). apply ok_or_Ok in Hacct.
    apply Ok_Ok in H as <-. cbn [sm_accounts set_accounts]. split_and!.
    + intros a. rewrite decide_False by (intros [? _]; contradiction). rewrite Z.add_0_r.
      unfold native_balance. destruct (decide (eab_token bound = a)) as [<-|Ht].
      * rewrite lookup_insert_eq, Hacct. reflexivity.
      * rewrite lookup_insert_ne by exact Ht. reflexivity.
    + intros t s. unfold storage_value. destruct (decide (eab_token bound = t)) as [<-|Ht].
      * rewrite lookup_insert_eq, Hacct. cbn [ar_storage].
        destruct (decide (sl = s)) as [<-|Hs].
        -- rewrite lookup_insert_eq, decide_True by (split; assumption). reflexivity.
        -- rewrite lookup_insert_ne, decide_False by (auto; intros [_ ?]; congruence). lia.
      * rewrite lookup_insert_ne, decide_False by (auto; intros [_ ?]; congruence). lia.
    + split; intros a; cbn; (destruct (decide (eab_token bound = a)) as [<-|Hb'];
        [rewrite lookup_insert_eq, Hacct|rewrite lookup_insert_ne by exact Hb']); reflexivity.
Qed.

Lemma filtered_sum_snoc {A} (P : A -> Prop) `{!forall x, Decision (P x)} (f : A -> Z) l x :
  zsum (map f (filter P (l ++ [x])))
  = zsum (map f (filter P l)) + if decide (P x) then f x else 0.
Proof.
  rewrite filter_snoc, map_app, zsum_app. f_equal. case_decide; unfold zsum; cbn; lia.
Qed.

Lemma credits_spec input state state' :
  apply_deposit_credits_v5 input state = Ok state' ->
  Forall (fun d => 0 <= deposit_net input d /\
    (deposit_net input d <> 0 -> dp_asset d <> 0 -> credited_slot (bi5_policy input) d <> None))
    (bi5_deposits input) /\
  (forall a, native_balance (sm_accounts state') a
     = native_balance (sm_accounts state) a + native_credit input (bi5_deposits input) a) /\
  (forall t s, storage_value (sm_accounts state') t s
     = storage_value (sm_accounts state) t s + slot_credit input (bi5_deposits input) (t, s)) /\
  keeps_identity state state'.
Proof.
  unfold apply_deposit_credits_v5. intros H.
  refine (for_each_inv (fun done st =>
    Forall (fun d => 0 <= deposit_net input d /\
      (deposit_net input d <> 0 -> dp_asset d <> 0 ->
       credited_slot (bi5_policy input) d <> None)) done /\
    (forall a, native_balance (sm_accounts st) a
       = native_balance (sm_accounts state) a + native_credit input done a) /\
    (forall t s, storage_value (sm_accounts st) t s
       = storage_value (sm_accounts state) t s + slot_credit input done (t, s)) /\
    keeps_identity state st) _ _ _ _ _ _ H).
  - split_and!; [constructor|intros; unfold native_credit, zsum; cbn; lia
      |intros; unfold slot_credit, zsum; cbn; lia|split; reflexivity].
  - intros done d s1 s2 (I1 & I2 & I3 & [I4 I5]) _ Hb.
    apply credit_deposit_spec in Hb as (B1 & B2 & B3 & B4 & [B5 B6]). split_and!.
    + apply Forall_app. auto.
    + intros a. rewrite B3, I2. unfold native_credit. rewrite filtered_sum_snoc. lia.
    + intros t s. rewrite B4, I3. unfold slot_credit. rewrite filtered_sum_snoc. lia.
    + split; intros a; [rewrite B5; apply I4|rewrite B6; apply I5].
Qed.
End Credits.

Section Claims.
Context {KK : Keccak} {RV : Revm}.

(** C10: The books of a long-lived room balance batch by batch.  The liability check accepts
    exactly the batches whose deposits are the contiguous, well-formed, unconsumed records
    of the crossed inbox range, whose withdrawals are the leaves of the journal's tree, and
    where for every asset the consumed deposits move from pending to controlled and the
    minted withdrawals from controlled to claimable, nothing else moving, no asset outside
    the books, and nothing controlled left behind by a closing batch; a validity-only room
    needs an exit binding. *)
Theorem liabilities_exact input :
  BatchInputV5_wf input ->
  validate_liabilities_v5 input = Ok tt <-> liabilities_ok input.
Proof. apply validate_liabilities_spec. Qed.

(** The system credit of the consumed deposits is complete and targeted: every account's
    native balance grows by exactly the net value of the native deposits made out to it,
    every storage slot by exactly the net value of the token deposits bound to it, no code
    and no nonce changes; net values (the amount less the admission fees that reference the
    deposit, zero for a refunded one) are never negative, and a positive token deposit
    always has a certified binding. *)
Theorem deposit_credits_exact input (state state' : StateMap) :
  apply_deposit_credits_v5 input state = Ok state' ->
  Forall (fun d => 0 <= deposit_net input d /\
    (deposit_net input d <> 0 -> dp_asset d <> 0 -> credited_slot (bi5_policy input) d <> None))
    (bi5_deposits input) /\
  (forall a, native_balance (sm_accounts state') a
     = native_balance (sm_accounts state) a + native_credit input (bi5_deposits input) a) /\
  (forall t s, storage_value (sm_accounts state') t s
     = storage_value (sm_accounts state) t s + slot_credit input (bi5_deposits input) (t, s)) /\
  keeps_identity state state'.
Proof. apply credits_spec. Qed.
End Claims.

(** ** Witness: a native and a token deposit are consumed, one withdrawal minted *)
#[local] Existing Instance toy_keccak.
#[local] Existing Instance toy_revm.

Definition books_exit : ExitBindingV5 :=
  mk_ExitBindingV5 6 0 10 [mk_ExitAssetBindingV5 0 0 0 0; mk_ExitAssetBindingV5 70 1 60 2] 9.
Definition books_policy : ExecutionPolicyV5 :=
  mk_ExecutionPolicyV5 0 0 0 0 0 false false [] [] [] [] None (Some books_exit).
Definition books_deposits : list DepositV5 :=
  [ mk_DepositV5 5 800 1001 0 100 12 false false; mk_DepositV5 6 801 1002 70 40 13 false false ].
Definition books_admissions : list AdmissionRecordV5 :=
  [mk_AdmissionRecordV5 (mk_AdmissionReceiptV5 1 0 5 0 0 0 0 5 []) AdmissionOutcomeV5_default].
Definition books_withdrawals : list WithdrawalV5 := [mk_WithdrawalV5 0 3 1001 0 30].
Definition books_pre : list AssetLiabilityV5 :=
  [mk_AssetLiabilityV5 0 100 20 0 7; mk_AssetLiabilityV5 70 60 0 0 0].
Definition books_post : list AssetLiabilityV5 :=
  [mk_AssetLiabilityV5 0 0 90 30 7; mk_AssetLiabilityV5 70 20 40 0 0].
Definition books_inbox_hash : Z := Eval vm_compute in inbox_records_hash_v5 books_deposits.
Definition books_root : Z :=
  Eval vm_compute in default 0 (withdrawal_root_v5 3 7 1 books_withdrawals 1).
Definition books_pre_hash : Z := Eval vm_compute in liabilities_hash_v5 books_pre.
Definition books_post_hash : Z := Eval vm_compute in liabilities_hash_v5 books_post.
Definition books_journal : BatchJournalV5 :=
  mk_BatchJournalV5 0 3 7 1 0 0 0 0 0 0 0 0 0 0 0 0 0 0 0 0 0 0 0 0 0 0 0 0 0 0 4 6
    books_inbox_hash 0 0 0 0 0 0 0 0 0 0 0 0 1 books_root books_pre_hash books_post_hash
    0 0 false.
Definition books_input : BatchInputV5 :=
  mk_BatchInputV5 0 0 books_journal books_policy 0 [] [] [] books_admissions [] []
    books_pre books_post books_deposits books_withdrawals 1 None
    CompactStateWitnessV4_default [].

Definition books_state : StateMap :=
  mk_StateMap _
    (list_to_map [ (60, mk_AccountRecord 1 0 [1] ∅); (1001, mk_AccountRecord 0 30 [] ∅) ])
    ∅ None None None ∅ ∅ DbAccessMetrics_default.
Definition books_credited : StateMap :=
  match apply_deposit_credits_v5 books_input books_state with Ok s => s | Err _ => books_state end.

Lemma books_policy_wf : ExecutionPolicyV5_wf books_policy.
Proof.
  unfold ExecutionPolicyV5_wf, option_wf, books_policy, books_exit, ExitBindingV5_wf,
    ExitAssetBindingV5_wf.
  cbn -[Z.pow]. solve_wf.
Qed.

Lemma books_input_wf : BatchInputV5_wf books_input.
Proof.
  pose proof books_policy_wf as Wp.
  unfold BatchInputV5_wf, books_input, BatchJournalV5_wf, books_journal, AssetLiabilityV5_wf,
    WithdrawalV5_wf, DepositV5_wf, AdmissionRecordV5_wf, AdmissionReceiptV5_wf,
    AdmissionOutcomeV5_wf, CompactStateWitnessV4_wf, books_pre, books_post, books_deposits,
    books_admissions, books_withdrawals, books_inbox_hash, books_root, books_pre_hash,
    books_post_hash, bytes_wf.
  cbn -[Z.pow books_policy ExecutionPolicyV5_wf].
  split_and!; try exact Wp; solve_wf.
Qed.

Lemma liabilities_exact_witness : liabilities_ok books_input.
Proof.
  apply (liabilities_exact books_input books_input_wf). vm_compute. reflexivity.
Defined.

Lemma deposit_credits_exact_witness :
  native_balance (sm_accounts books_credited) 1001 = 30 + 95 /\
  storage_value (sm_accounts books_credited) 60 (mapping_slot_v5 1002 2) = 40.
Proof.
  destruct (deposit_credits_exact books_input books_state books_credited) as (_ & Hb & Hs & _).
  - vm_compute. reflexivity.
  - split; [rewrite Hb|rewrite Hs]; vm_compute; reflexivity.
Defined.
