(* ===== verification/LedgerV5.v ===== *)
(** * The escrow ledger a long-lived room implements

    An abstract machine with one book per asset and two kinds of step, and the
    refinement: the two aggregate liability vectors of an accepted batch are
    the ends of a run of that machine that takes the batch's deposits and
    withdrawals one by one. *)

From S2P Require Import Prelude Types Abi HashV5 State StateEvm Settlement ExitV5 LiabilitiesV5.
Open Scope Z_scope.

(** ** The specification *)
Record book := mk_book {
  bk_pending : Z;      (* deposited on L1, not yet crossed by a batch *)
  bk_controlled : Z;   (* under the control of the room *)
  bk_claimable : Z;    (* allocated to a withdrawal *)
  bk_paid : Z          (* claimed on L1 *)
}.
Abbreviation ledger := (gmap Z book).

Inductive escrow_op := Consume (asset amount : Z) | Allocate (asset amount : Z).

Definition consume (x : Z) (b : book) : book :=
  mk_book (bk_pending b - x) (bk_controlled b + x) (bk_claimable b) (bk_paid b).
Definition allocate (x : Z) (b : book) : book :=
  mk_book (bk_pending b) (bk_controlled b - x) (bk_claimable b + x) (bk_paid b).

(** A step names a known asset and never overdraws. *)
Inductive escrow_step : ledger -> escrow_op -> ledger -> Prop :=
| step_consume m a x b :
    m !! a = Some b -> 0 <= x <= bk_pending b ->
    escrow_step m (Consume a x) (<[a := consume x b]> m)
| step_allocate m a x b :
    m !! a = Some b -> 0 <= x <= bk_controlled b ->
    escrow_step m (Allocate a x) (<[a := allocate x b]> m).

Definition book_total (b : book) : Z :=
  bk_pending b + bk_controlled b + bk_claimable b + bk_paid b.
Definition solvent (b : book) : Prop :=
  0 <= bk_pending b /\ 0 <= bk_controlled b /\ 0 <= bk_claimable b /\ 0 <= bk_paid b.

(** No step creates, destroys or overdraws value in any asset. *)
Lemma escrow_runs_conserve m ops m' :
  runs escrow_step m ops m' ->
  (forall a, book_total <$> m' !! a = book_total <$> m !! a) /\
  (map_Forall (fun _ => solvent) m -> map_Forall (fun _ => solvent) m').
Proof.
  induction 1 as [m|m op m1 l m2 Hs Hr [IH1 IH2]]; [auto|].
  assert (G : (forall a, book_total <$> m1 !! a = book_total <$> m !! a) /\
              (map_Forall (fun _ => solvent) m -> map_Forall (fun _ => solvent) m1)).
  { destruct Hs as [m a x b Hb Hx|m a x b Hb Hx]; (split;
      [intros k; destruct (decide (a = k)) as [<-|Hk];
         [rewrite lookup_insert_eq, Hb; cbn; f_equal; unfold book_total; cbn; lia
         |rewrite lookup_insert_ne by exact Hk; reflexivity]
      |intros Hm; apply map_Forall_insert_2; [|exact Hm];
       specialize (Hm a b Hb); unfold solvent in *; cbn; lia]). }
  destruct G as [G1 G2]. split; [intros a; rewrite IH1; apply G1|auto].
Qed.

(** ** The abstraction of the liability vectors *)
Definition book_of (l : AssetLiabilityV5) : book :=
  mk_book (al_pending l) (al_controlled l) (al_claimable l) (al_paid l).
Definition ledger_of (l : list AssetLiabilityV5) : ledger :=
  list_to_map (map (fun x => (al_asset x, book_of x)) l).

(** The steps of a batch: its consumed deposits, then its withdrawals. *)
Definition live_deposits (input : BatchInputV5) : list DepositV5 :=
  filter (fun d => dp_refunded d = false) (bi5_deposits input).
Definition batch_ops (input : BatchInputV5) : list escrow_op :=
  map (fun d => Consume (dp_asset d) (dp_amount d)) (live_deposits input)
  ++ map (fun w => Allocate (wd_asset w) (wd_amount w)) (bi5_withdrawals input).

(** The ledger after moving [D a] into control and [W a] out of it. *)
Definition moved (d w : Z) (b : book) : book :=
  mk_book (bk_pending b - d) (bk_controlled b + d - w) (bk_claimable b + w) (bk_paid b).
Definition shifted (D W : Z -> Z) (m : ledger) : ledger :=
  map_imap (fun a b => Some (moved (D a) (W a) b)) m.

Lemma shifted_lookup D W m a : shifted D W m !! a = moved (D a) (W a) <$> m !! a.
Proof. unfold shifted. rewrite map_lookup_imap. destruct (m !! a); reflexivity. Qed.

Definition bump (f : Z -> Z) (a x : Z) : Z -> Z := fun k => if decide (a = k) then f k + x else f k.

Lemma consume_shifted D W m a x b :
  m !! a = Some b -> 0 <= x -> D a + x <= bk_pending b ->
  escrow_step (shifted D W m) (Consume a x) (shifted (bump D a x) W m).
Proof.
  intros Hb Hx Hle.
  assert (E : shifted (bump D a x) W m = <[a := consume x (moved (D a) (W a) b)]> (shifted D W m)).
  { apply map_eq. intros k. rewrite shifted_lookup. unfold bump.
    destruct (decide (a = k)) as [<-|Hk].
    - rewrite lookup_insert_eq, Hb. cbn. unfold moved, consume. cbn. do 2 f_equal; lia.
    - rewrite lookup_insert_ne, shifted_lookup by exact Hk. reflexivity. }
  rewrite E. constructor; [rewrite shifted_lookup, Hb; reflexivity|]. cbn. lia.
Qed.

Lemma allocate_shifted D W m a x b :
  m !! a = Some b -> 0 <= x -> W a + x <= bk_controlled b + D a ->
  escrow_step (shifted D W m) (Allocate a x) (shifted D (bump W a x) m).
Proof.
  intros Hb Hx Hle.
  assert (E : shifted D (bump W a x) m = <[a := allocate x (moved (D a) (W a) b)]> (shifted D W m)).
  { apply map_eq. intros k. rewrite shifted_lookup. unfold bump.
    destruct (decide (a = k)) as [<-|Hk].
    - rewrite lookup_insert_eq, Hb. cbn. unfold moved, allocate. cbn. do 2 f_equal; lia.
    - rewrite lookup_insert_ne, shifted_lookup by exact Hk. reflexivity. }
  rewrite E. constructor; [rewrite shifted_lookup, Hb; reflexivity|]. cbn. lia.
Qed.

(** Moving a list of amounts one after the other, given a step for each
    amount that fits below a bound. *)
Section Amounts.
Context {A : Type} (asset amount : A -> Z).
Context (state_at : (Z -> Z) -> ledger) (op : Z -> Z -> escrow_op) (bound : Z -> option Z).
Context (state_ext : forall f g, (forall a, f a = g a) -> state_at f = state_at g).
Context (one : forall f a x b, bound a = Some b -> 0 <= x -> f a + x <= b ->
                 escrow_step (state_at f) (op a x) (state_at (bump f a x))).

Definition sum_for (l : list A) (a : Z) : Z := total_of (fun _ => false) asset amount l a.

Lemma sum_for_cons x l a :
  sum_for (x :: l) a = (if decide (asset x = a) then amount x else 0) + sum_for l a.
Proof.
  unfold sum_for, total_of. destruct (decide (asset x = a)) as [E|E].
  - rewrite filter_cons_True by auto. reflexivity.
  - rewrite filter_cons_False by (intros [_ ?]; contradiction). reflexivity.
Qed.

Lemma amounts_run l f :
  Forall (fun x => 0 <= amount x) l ->
  (forall x, x ∈ l -> exists b, bound (asset x) = Some b /\ f (asset x) + sum_for l (asset x) <= b) ->
  runs escrow_step (state_at f) (map (fun x => op (asset x) (amount x)) l)
    (state_at (fun a => f a + sum_for l a)).
Proof.
  revert f. induction l as [|x l IH]; intros f Hn Hb.
  - assert (E : state_at (fun a => f a + sum_for [] a) = state_at f)
      by (apply state_ext; intros a; unfold sum_for, total_of, zsum; cbn; lia).
    rewrite E. constructor.
  - inversion Hn as [|? ? Hx Hn']; subst.
    assert (Hs : forall a, 0 <= sum_for l a) by (intros a; apply total_of_nonneg, Hn').
    cbn [map]. econstructor.
    + destruct (Hb x (list_elem_of_here _ _)) as (b & Hbound & Hle).
      apply (one _ _ _ b); [exact Hbound|exact Hx|].
      rewrite sum_for_cons, decide_True in Hle by reflexivity. specialize (Hs (asset x)). lia.
    + rewrite (state_ext (fun a => f a + sum_for (x :: l) a)
                 (fun a => bump f (asset x) (amount x) a + sum_for l a)).
      2: { intros a. rewrite sum_for_cons. unfold bump. case_decide; lia. }
      apply IH; [exact Hn'|]. intros y Hy.
      destruct (Hb y (list_elem_of_further _ _ _ Hy)) as (b & Hbound & Hle). exists b.
      split; [exact Hbound|]. rewrite sum_for_cons in Hle. unfold bump. case_decide; lia.
Qed.
End Amounts.

Section Refinement.
Context {KK : Keccak}.

Lemma live_deposits_total input a :
  sum_for dp_asset dp_amount (live_deposits input) a = deposited input a.
Proof.
  unfold sum_for, deposited, total_of, live_deposits. do 2 f_equal.
  rewrite list_filter_filter. apply list_filter_iff. intros d. intuition.
Qed.

Lemma shifted_ext D1 D2 W1 W2 m :
  (forall a, D1 a = D2 a) -> (forall a, W1 a = W2 a) -> shifted D1 W1 m = shifted D2 W2 m.
Proof.
  intros HD HW. apply map_eq. intros a. rewrite !shifted_lookup, HD, HW. reflexivity.
Qed.

Lemma shifted_zero m : shifted (fun _ => 0) (fun _ => 0) m = m.
Proof.
  apply map_eq. intros a. rewrite shifted_lookup. destruct (m !! a) as [[]|]; [|reflexivity].
  cbn. unfold moved. cbn. do 2 f_equal; lia.
Qed.

Lemma ledger_of_lookup l x :
  NoDup (map al_asset l) -> x ∈ l -> ledger_of l !! al_asset x = Some (book_of x).
Proof.
  intros Hn Hx. apply elem_of_list_to_map_1.
  - rewrite <- list_fmap_compose. exact Hn.
  - apply list_elem_of_fmap. eauto.
Qed.

(** The announced post-vector is the shifted pre-vector. *)
Lemma ledger_of_moves close (D W : Z -> Z) pre post :
  Forall2 (fun x y => asset_moves close (D (al_asset x)) (W (al_asset x)) x y) pre post ->
  ledger_of post = shifted D W (ledger_of pre).
Proof.
  induction 1 as [|x y pre post [M1 M2 [_ M3] _ [_ M4] [_ M5] _] _ IH]; [reflexivity|].
  unfold ledger_of, shifted. cbn [map list_to_map foldr]. rewrite map_imap_insert.
  fold (ledger_of pre) (shifted D W (ledger_of pre)).
  change (list_to_map (map (fun x => (al_asset x, book_of x)) pre) : ledger)
    with (ledger_of pre).
  change (list_to_map (map (fun x => (al_asset x, book_of x)) post) : ledger)
    with (ledger_of post).
  fold (shifted D W (ledger_of pre)). rewrite IH, M1. f_equal.
  unfold moved, book_of. cbn. f_equal; lia.
Qed.

Lemma liabilities_refine input :
  BatchInputV5_wf input -> validate_liabilities_v5 input = Ok tt ->
  runs escrow_step (ledger_of (bi5_pre_liabilities input)) (batch_ops input)
    (ledger_of (bi5_post_liabilities input)).
Proof.
  intros W H. destruct (amounts_nonneg input W) as (Wd & Ww & _ & _).
  apply validate_liabilities_spec in H; [|exact W].
  set (m := ledger_of (bi5_pre_liabilities input)).
  assert (Hbook : forall a, a ∈ map al_asset (bi5_pre_liabilities input) -> exists b,
    m !! a = Some b /\ deposited input a <= bk_pending b /\
    withdrawn input a <= bk_controlled b + deposited input a).
  { intros a Ha. apply list_elem_of_fmap in Ha as (x & -> & Hx). exists (book_of x).
    split; [apply ledger_of_lookup; [apply key_sorted_NoDup, (lo_sorted _ H)|exact Hx]|].
    apply list_elem_of_lookup in Hx as [k Hk].
    destruct (Forall2_lookup_l _ _ _ _ _ (lo_moves _ H) Hk) as (y & _ & M).
    destruct M as [_ _ [M1 _] _ [M2 _] _ _]. cbn. lia. }
  rewrite (ledger_of_moves _ _ _ _ _ (lo_moves _ H)). fold m.
  rewrite <- (shifted_zero m) at 1. unfold batch_ops.
  assert (R1 : runs escrow_step (shifted (fun _ => 0) (fun _ => 0) m)
    (map (fun d => Consume (dp_asset d) (dp_amount d)) (live_deposits input))
    (shifted (fun a => 0 + sum_for dp_asset dp_amount (live_deposits input) a) (fun _ => 0) m)).
  { apply (amounts_run dp_asset dp_amount (fun f => shifted f (fun _ => 0) m) Consume
             (fun a => bk_pending <$> m !! a)).
    - intros f g Hfg. apply shifted_ext; auto.
    - intros f a x b Hb Hx Hle. destruct (m !! a) as [bk|] eqn:E; [|discriminate].
      injection Hb as <-. eapply consume_shifted; eauto.
    - rewrite Forall_forall in Wd |- *. intros d Hd. apply list_elem_of_filter in Hd as [_ Hd]. auto.
    - intros d Hd. apply list_elem_of_filter in Hd as [Hr Hd].
      destruct (Hbook (dp_asset d) (lo_deposits_covered _ H d Hd Hr)) as (b & -> & Hp & _).
      exists (bk_pending b). split; [reflexivity|]. rewrite live_deposits_total. lia. }
  assert (R2 : runs escrow_step (shifted (deposited input) (fun _ => 0) m)
    (map (fun w => Allocate (wd_asset w) (wd_amount w)) (bi5_withdrawals input))
    (shifted (deposited input) (fun a => 0 + sum_for wd_asset wd_amount (bi5_withdrawals input) a) m)).
  { apply (amounts_run wd_asset wd_amount (fun f => shifted (deposited input) f m) Allocate
             (fun a => (fun b => bk_controlled b + deposited input a) <$> m !! a)).
    - intros f g Hfg. apply shifted_ext; auto.
    - intros f a x b Hb Hx Hle. destruct (m !! a) as [bk|] eqn:E; [|discriminate].
      injection Hb as <-. eapply allocate_shifted; eauto.
    - exact Ww.
    - intros w Hw. destruct (Hbook (wd_asset w) (lo_withdrawals_covered _ H w Hw))
        as (b & -> & _ & Hc).
      eexists. split; [reflexivity|]. change (sum_for _ _ _ _) with (withdrawn input (wd_asset w)).
      lia. }
  apply runs_app with (s1 := shifted (deposited input) (fun _ => 0) m).
  - erewrite (shifted_ext (deposited input)); [exact R1| |reflexivity].
    intros a. cbv beta. rewrite live_deposits_total. lia.
  - erewrite (shifted_ext _ _ (withdrawn input)); [exact R2|reflexivity|].
    intros a. cbv beta. change (sum_for _ _ _ a) with (withdrawn input a). lia.
Qed.
End Refinement.

Section Claims.
Context {KK : Keccak}.

(** C9: The liability check implements the escrow ledger: whenever a batch is accepted, the
    announced vectors are the ends of a run of the abstract machine that consumes the live
    deposits and allocates the withdrawals one at a time, no step of which overdraws a book;
    so every asset keeps its total over pending, controlled, claimable and paid, and a
    solvent ledger stays solvent. *)
Theorem liabilities_refine_ledger input :
  BatchInputV5_wf input -> validate_liabilities_v5 input = Ok tt ->
  runs escrow_step (ledger_of (bi5_pre_liabilities input)) (batch_ops input)
    (ledger_of (bi5_post_liabilities input)) /\
  (forall a, book_total <$> ledger_of (bi5_post_liabilities input) !! a
             = book_total <$> ledger_of (bi5_pre_liabilities input) !! a) /\
  map_Forall (fun _ => solvent) (ledger_of (bi5_post_liabilities input)).
Proof.
  intros W H. pose proof (liabilities_refine input W H) as R. split; [exact R|].
  apply escrow_runs_conserve in R as [R1 R2]. split; [exact R1|]. apply R2.
  intros a b Hb. apply elem_of_list_to_map_2, list_elem_of_fmap in Hb as (x & E & Hx).
  injection E as -> ->.
  assert (Wx : AssetLiabilityV5_wf x).
  { unfold BatchInputV5_wf in W. destruct W as (_ & _ & _ & _ & _ & _ & _ & _ & _ & _ & _ & Wl & _).
    rewrite Forall_forall in Wl. auto. }
  unfold AssetLiabilityV5_wf, in_u256 in Wx. unfold solvent, book_of. cbn -[Z.pow]. lia.
Qed.
End Claims.

(** ** Witness: two deposits are consumed, one withdrawal allocated *)
Lemma liabilities_refine_ledger_witness :
  runs escrow_step (ledger_of books_pre)
    [Consume 0 100; Consume 70 40; Allocate 0 30] (ledger_of books_post).
Proof.
  apply (@liabilities_refine_ledger toy_keccak books_input books_input_wf).
  vm_compute. reflexivity.
Defined.
