(* ===== verification/ImportV5.v ===== *)
(** * L1 imports and the participant registry: stf-core/src/room_v5/import.rs *)

From S2P Require Import Prelude Types Abi HashV5 State StateEvm Settlement.
Open Scope Z_scope.

Section L1Import.
Context {KK : Keccak} {RV : Revm} {AT : AlloyTrie}.

(** Public fields of a batch without an import. *)
Definition import_fields_not_empty (journal : BatchJournalV5) : bool :=
  negb (bj5_import_cursor_after journal =? bj5_import_cursor_before journal)
  || negb (bj5_imported_l1_block journal =? 0)
  || negb (bj5_imported_l1_header_hash journal =? B256_ZERO)
  || negb (bj5_imported_l1_state_root journal =? B256_ZERO)
  || negb (bj5_import_root journal =? B256_ZERO).

Definition import_metadata_differs (l1_chain_id : Z) (journal : BatchJournalV5)
    (import : L1ImportWitnessV5) : bool :=
  negb (bj5_import_cursor_after journal
        =? saturating_add U64_MAX (bj5_import_cursor_before journal) 1)
  || negb (liw_source_block import =? bj5_imported_l1_block journal)
  || negb (liw_header_hash import =? bj5_imported_l1_header_hash journal)
  || negb (liw_state_root import =? bj5_imported_l1_state_root journal)
  || negb (import_root_v5 (bj5_room_id journal) l1_chain_id import =? bj5_import_root journal)
  || (liw_expiry_block import <? bj5_l1_inclusion_deadline journal)
  || (liw_source import =? Address_ZERO)
  || (liw_source_code_hash import =? B256_ZERO).

Definition source_account (import : L1ImportWitnessV5) : TrieAccount :=
  mk_TrieAccount (liw_source_nonce import) (liw_source_balance import)
    (liw_source_storage_root import) (liw_source_code_hash import).

Definition verify_import_account (import : L1ImportWitnessV5) : result string unit :=
  fail_if (MAX_COMPACT_PROOF_NODES_V4 <? zlen (liw_account_proof import))
       || existsb (fun node => 1024 <? zlen node) (liw_account_proof import)
    with "L1 account proof exceeds the resource envelope"%string in
  fail_if negb (verify_proof (liw_state_root import)
                  (keccak256 (address_bytes (liw_source import)))
                  (Some (rlp_trie_account (source_account import)))
                  (liw_account_proof import))
    with "L1 account proof"%string in
  Ok tt.

(** The body of the storage loop. *)
Definition import_slot (import : L1ImportWitnessV5) (s : option Z * gmap Z Z * Z)
    (slot : L1StorageSlotV5) : result string (option Z * gmap Z Z * Z) :=
  let '(previous_key, values, proof_nodes) := s in
  fail_if not_after previous_key (lss_key slot)
    with "L1 storage keys must be strictly sorted"%string in
  let? proof_nodes := ok_or (checked_add USIZE_MAX proof_nodes (zlen (lss_proof slot)))
                        "L1 proof-node count overflow"%string in
  fail_if (MAX_COMPACT_PROOF_NODES_V4 <? proof_nodes)
       || existsb (fun node => 1024 <? zlen node) (lss_proof slot)
    with "L1 storage proof exceeds the resource envelope"%string in
  fail_if negb (verify_proof (liw_source_storage_root import)
                  (keccak256 (be_bytes 32 (lss_key slot)))
                  (if lss_value slot =? 0 then None else Some (rlp_u256 (lss_value slot)))
                  (lss_proof slot))
    with "L1 storage proof"%string in
  Ok (Some (lss_key slot), <[lss_key slot := lss_value slot]> values, proof_nodes).

Definition certified_bindings (policy : ExecutionPolicyV5) (import : L1ImportWitnessV5)
  : list CertifiedImportBindingV5 :=
  filter (fun binding => cib_adapter_id binding = liw_adapter_id import /\
                         cib_adapter_version binding = liw_adapter_version import /\
                         cib_source binding = liw_source import) (ep5_imports policy).

Definition destination_declared (state : StateMap) (contract slot : Z) : bool :=
  match sm_access_storage state with
  | Some allowed =>
      match allowed !! contract with
      | Some slots => bool_decide (slot ∈ slots)
      | None => false
      end
  | None => false
  end.

(** The body of the mirror loop over the bindings paired with the certified ones. *)
Definition mirror_write (values : gmap Z Z) (state : StateMap)
    (entry : L1MirrorBindingV5 * CertifiedImportBindingV5) : result string StateMap :=
  let '(binding, expected) := entry in
  fail_if negb (lmb_source_key binding =? cib_source_key expected)
       || negb (lmb_room_contract binding =? cib_room_contract expected)
       || negb (lmb_room_slot binding =? cib_room_slot expected)
    with "import mirror write differs from the certified adapter"%string in
  let? value := ok_or (values !! lmb_source_key binding)
                  "import mirror source key is not authenticated"%string in
  fail_if negb (destination_declared state (lmb_room_contract binding) (lmb_room_slot binding))
    with "import mirror destination is outside the state witness"%string in
  let? account := ok_or (sm_accounts state !! lmb_room_contract binding)
                    "import mirror contract is absent"%string in
  Ok (set_accounts
        (<[lmb_room_contract binding := mk_AccountRecord (ar_nonce account) (ar_balance account)
             (ar_code account) (merge_slot (ar_storage account) (lmb_room_slot binding, value))]>
           (sm_accounts state)) state).

Definition verify_and_apply_import_v5 (input : BatchInputV5) (state : StateMap)
  : result string StateMap :=
  let journal := bi5_journal input in
  match bi5_l1_import input with
  | None =>
      fail_if import_fields_not_empty journal
        with "empty import witness has non-empty public fields"%string in
      Ok state
  | Some import =>
      fail_if import_metadata_differs (bi5_l1_chain_id input) journal import
        with "L1 import metadata does not match the journal"%string in
      let? _ := verify_import_account import in
      let? (_, values, _) :=
        for_each (import_slot import) (None, ∅, zlen (liw_account_proof import))
          (liw_storage import) in
      fail_if negb (storage_keys_root_v5 (sorted_keys values) =? liw_storage_keys_root import)
        with "authenticated L1 key set does not match storageKeysRoot"%string in
      let certified := certified_bindings (bi5_policy input) import in
      fail_if negb (zlen certified =? zlen (liw_mirror_bindings import))
        with "import mirror map is not the complete certified adapter map"%string in
      for_each (mirror_write values) state (zip (liw_mirror_bindings import) certified)
  end.

(** ** [participant_state_v5] *)
Definition participant_state_v5 (input : BatchInputV5) (state : StateMap)
  : result string (Z * Z * Z * Z) :=
  let? binding := ok_or (ep5_participant_registry (bi5_policy input))
                    "participant registry binding is required"%string in
  let? account := ok_or (sm_accounts state !! prb_contract binding)
                    "participant registry contract is absent"%string in
  let word slot := default 0 (ar_storage account !! slot) in
  let root := word (prb_root_slot binding) in
  let epoch := word (prb_epoch_slot binding) in
  let count := word (prb_count_slot binding) in
  let capacity := word (prb_capacity_slot binding) in
  fail_if (U64_MAX <? epoch) || (U64_MAX <? count) || (U64_MAX <? capacity)
    with "participant registry metadata exceeds uint64"%string in
  fail_if (root =? B256_ZERO) || (epoch =? 0) || (capacity <? 128) || (32768 <? capacity)
       || negb (is_power_of_two capacity) || (capacity <? count)
    with "participant registry root, epoch, count or capacity is invalid"%string in
  Ok (root, epoch, count, capacity).
End L1Import.

(** * Properties *)
Section ImportFacts.
Context {KK : Keccak} {RV : Revm} {AT : AlloyTrie}.
Implicit Types state : StateMap.

(** A value proved in the storage of the authenticated source contract. *)
Definition authenticated (import : L1ImportWitnessV5) (key value : Z) : Prop :=
  verify_proof (liw_state_root import) (keccak256 (address_bytes (liw_source import)))
    (Some (rlp_trie_account (source_account import))) (liw_account_proof import) = true /\
  exists slot, slot ∈ liw_storage import /\ lss_key slot = key /\ lss_value slot = value /\
    verify_proof (liw_source_storage_root import) (keccak256 (be_bytes 32 key))
      (if value =? 0 then None else Some (rlp_u256 value)) (lss_proof slot) = true.

(** What a write leaves alone: nonces, balances and codes. *)
Definition same_accounts state state' : Prop :=
  forall a, match sm_accounts state !! a, sm_accounts state' !! a with
            | Some r, Some r' => ar_nonce r' = ar_nonce r /\ ar_balance r' = ar_balance r /\
                                 ar_code r' = ar_code r
            | None, None => True
            | _, _ => False
            end.

Lemma import_slots_spec import r :
  for_each (import_slot import) (None, ∅, zlen (liw_account_proof import)) (liw_storage import)
    = Ok r ->
  forall key value, r.1.2 !! key = Some value ->
  exists slot, slot ∈ liw_storage import /\ lss_key slot = key /\ lss_value slot = value /\
    verify_proof (liw_source_storage_root import) (keccak256 (be_bytes 32 key))
      (if value =? 0 then None else Some (rlp_u256 value)) (lss_proof slot) = true.
Proof.
  intros H.
  refine (for_each_inv (fun done s => forall key value, s.1.2 !! key = Some value ->
    exists slot, slot ∈ done /\ lss_key slot = key /\ lss_value slot = value /\
      verify_proof (liw_source_storage_root import) (keccak256 (be_bytes 32 key))
        (if value =? 0 then None else Some (rlp_u256 value)) (lss_proof slot) = true)
    _ _ _ _ _ _ H).
  - intros key value Hk. cbn in Hk. rewrite lookup_empty in Hk. discriminate.
  - intros done x [[p values] n] s2 I _ Hb key value Hk. unfold import_slot in Hb.
    apply fail_if_Ok in Hb as [_ Hb]. apply rbind_Ok in Hb as (n' & _ & Hb).
    apply fail_if_Ok in Hb as [_ Hb]. apply fail_if_Ok in Hb as [G Hb].
    apply Ok_Ok in Hb as <-. apply negb_false_iff in G. cbn [fst snd] in *.
    destruct (decide (lss_key x = key)) as [<-|Hne].
    + rewrite lookup_insert_eq in Hk. injection Hk as <-. exists x. split_and!; auto.
      apply elem_of_app. right. left.
    + rewrite lookup_insert_ne in Hk by exact Hne.
      destruct (I key value Hk) as (slot & Hs & ?). exists slot. split; [|assumption].
      apply elem_of_app. auto.
Qed.

Lemma mirror_write_spec values state b e state' :
  mirror_write values state (b, e) = Ok state' ->
  (exists value, values !! cib_source_key e = Some value /\
   destination_declared state (cib_room_contract e) (cib_room_slot e) = true /\
   forall t s, storage_value (sm_accounts state') t s
     = if decide ((cib_room_contract e, cib_room_slot e) = (t, s)) then value
       else storage_value (sm_accounts state) t s) /\
  same_accounts state state' /\
  sm_access_accounts state' = sm_access_accounts state /\
  sm_access_storage state' = sm_access_storage state.
Proof.
  unfold mirror_write. intros H. apply fail_if_Ok in H as [G H].
  rewrite !orb_false_iff, !negb_eqb_false in G. destruct G as [[E1 E2] E3].
  rewrite E1, E2, E3 in H.
  apply rbind_Ok in H as (v & Hv & H). apply ok_or_Ok in Hv.
  apply fail_if_Ok in H as [G H]. apply negb_false_iff in G.
  apply rbind_Ok in H as (acct & Ha & H). apply ok_or_Ok in Ha. apply Ok_Ok in H as <-.
  cbn [sm_accounts set_accounts]. split; [|split; [|auto]].
  - exists v. split_and!; auto. intros t s. unfold storage_value.
    destruct (decide (cib_room_contract e = t)) as [<-|Hne].
    + rewrite lookup_insert_eq, Ha. cbn [ar_storage]. rewrite merge_slot_lookup.
      destruct (decide (cib_room_slot e = s)); repeat case_decide; congruence.
    + rewrite lookup_insert_ne by exact Hne. case_decide; congruence.
  - intros a. cbn. destruct (decide (cib_room_contract e = a)) as [<-|Hne].
    + rewrite lookup_insert_eq, Ha. auto.
    + rewrite lookup_insert_ne by exact Hne. destruct (sm_accounts state !! a); auto.
Qed.

Lemma same_accounts_trans s1 s2 s3 :
  same_accounts s1 s2 -> same_accounts s2 s3 -> same_accounts s1 s3.
Proof.
  intros H1 H2 a. specialize (H1 a). specialize (H2 a).
  repeat case_match; try contradiction; auto.
  destruct H1 as (E1 & E2 & E3), H2 as (F1 & F2 & F3). split_and!; congruence.
Qed.

(** The mirror loop: the last certified binding of a slot decides its value. *)
Definition mirrored (certified : list CertifiedImportBindingV5) (values : gmap Z Z)
    (t s : Z) : option Z :=
  foldl (fun found e => if decide ((cib_room_contract e, cib_room_slot e) = (t, s))
                        then values !! cib_source_key e else found) None certified.

Lemma mirror_loop values state pairs state' :
  for_each (mirror_write values) state pairs = Ok state' ->
  (forall t s, storage_value (sm_accounts state') t s
     = default (storage_value (sm_accounts state) t s) (mirrored (map snd pairs) values t s)) /\
  Forall (fun e => is_Some (values !! cib_source_key e)) (map snd pairs) /\
  same_accounts state state'.
Proof.
  intros H.
  refine (for_each_inv (fun done st =>
    (forall t s, storage_value (sm_accounts st) t s
       = default (storage_value (sm_accounts state) t s) (mirrored (map snd done) values t s)) /\
    Forall (fun e => is_Some (values !! cib_source_key e)) (map snd done) /\
    same_accounts state st) _ _ _ _ _ _ H).
  - split_and!; [reflexivity|constructor|]. intros a. destruct (sm_accounts state !! a); auto.
  - intros done [b e] s1 s2 (I1 & I2 & I3) _ Hb.
    apply mirror_write_spec in Hb as ((v & Hv & _ & Hs) & Hsame & _). split_and!.
    + intros t s. rewrite Hs, map_app. unfold mirrored. rewrite foldl_app. cbn [map foldl snd].
      case_decide; [rewrite Hv; reflexivity|]. rewrite I1. reflexivity.
    + rewrite map_app. apply Forall_app. split; [exact I2|]. repeat constructor. eauto.
    + eapply same_accounts_trans; eassumption.
Qed.

Lemma map_snd_zip {A B} (l : list A) (k : list B) :
  length k = length l -> map snd (zip l k) = k.
Proof.
  revert l. induction k as [|x k IH]; intros [|y l] H; try discriminate; [reflexivity|].
  cbn in *. rewrite IH by lia. reflexivity.
Qed.

Lemma mirrored_Some certified values t s v :
  mirrored certified values t s = Some v ->
  exists e, e ∈ certified /\ cib_room_contract e = t /\ cib_room_slot e = s /\
            values !! cib_source_key e = Some v.
Proof.
  unfold mirrored. induction certified as [|e l IH] using rev_ind; [discriminate|].
  rewrite foldl_app. cbn. case_decide as Hd.
  - injection Hd as <- <-. intros Hv. exists e. split_and!; auto. apply elem_of_app. right. left.
  - intros Hv. destruct (IH Hv) as (e' & ? & ?). exists e'. split; [apply elem_of_app; auto|auto].
Qed.

Lemma mirrored_certified certified values e :
  NoDup (map (fun e => (cib_room_contract e, cib_room_slot e)) certified) -> e ∈ certified ->
  mirrored certified values (cib_room_contract e) (cib_room_slot e)
  = values !! cib_source_key e.
Proof.
  unfold mirrored. induction certified as [|x l IH] using rev_ind; intros Hn He; [inversion He|].
  rewrite foldl_app. cbn. apply elem_of_app in He as [He|He].
  - rewrite decide_False.
    + apply IH; [|exact He]. rewrite map_app in Hn. apply NoDup_app in Hn. tauto.
    + intros E. rewrite map_app in Hn. apply NoDup_app in Hn as (_ & Hd & _).
      apply (Hd (cib_room_contract e, cib_room_slot e)).
      * apply list_elem_of_fmap. eauto.
      * rewrite <- E. left.
  - apply list_elem_of_singleton in He as ->. rewrite decide_True by reflexivity. reflexivity.
Qed.

(** What an import may do. *)
Record import_confined (input : BatchInputV5) (import : L1ImportWitnessV5)
    (state state' : StateMap) : Prop := {
  ic_bound : import_root_v5 (bj5_room_id (bi5_journal input)) (bi5_l1_chain_id input) import
             = bj5_import_root (bi5_journal input) /\
    liw_state_root import = bj5_imported_l1_state_root (bi5_journal input) /\
    bj5_l1_inclusion_deadline (bi5_journal input) <= liw_expiry_block import;
  ic_writes : forall t s,
    storage_value (sm_accounts state') t s = storage_value (sm_accounts state) t s \/
    exists e, e ∈ certified_bindings (bi5_policy input) import /\
      cib_room_contract e = t /\ cib_room_slot e = s /\
      authenticated import (cib_source_key e) (storage_value (sm_accounts state') t s);
  ic_complete :
    let certified := certified_bindings (bi5_policy input) import in
    NoDup (map (fun e => (cib_room_contract e, cib_room_slot e)) certified) ->
    forall e, e ∈ certified ->
      authenticated import (cib_source_key e)
        (storage_value (sm_accounts state') (cib_room_contract e) (cib_room_slot e));
  ic_same : same_accounts state state'
}.

Lemma import_spec input state state' :
  verify_and_apply_import_v5 input state = Ok state' ->
  match bi5_l1_import input with
  | None => state' = state /\ import_fields_not_empty (bi5_journal input) = false
  | Some import => import_confined input import state state'
  end.
Proof.
  unfold verify_and_apply_import_v5. intros H.
  destruct (bi5_l1_import input) as [import|].
  2: { apply fail_if_Ok in H as [G H]. apply Ok_Ok in H as <-. auto. }
  apply fail_if_Ok in H as [G H]. unfold import_metadata_differs in G.
  rewrite !orb_false_iff, !negb_eqb_false, Z.ltb_ge in G.
  apply rbind_Ok in H as ([] & Ha & H). unfold verify_import_account in Ha.
  apply fail_if_Ok in Ha as [_ Ha]. apply fail_if_Ok in Ha as [Ga _]. apply negb_false_iff in Ga.
  apply rbind_Ok in H as ([[p values] n] & Hs & H).
  pose proof (import_slots_spec import _ Hs) as Hval. cbn [fst snd] in Hval.
  apply fail_if_Ok in H as [_ H]. apply fail_if_Ok in H as [Gl H]. apply negb_eqb_false in Gl.
  unfold zlen in Gl. apply Nat2Z.inj in Gl.
  apply mirror_loop in H as (Hst & Hall & Hsame).
  rewrite map_snd_zip in Hst, Hall by exact Gl.
  set (certified := certified_bindings (bi5_policy input) import) in *.
  assert (Hau : forall key v, values !! key = Some v -> authenticated import key v)
    by (intros key v Hv; split; [exact Ga|apply Hval, Hv]).
  split; [tauto| | |exact Hsame].
  - intros t s. rewrite Hst. destruct (mirrored certified values t s) as [v|] eqn:Em; [|left; auto].
    right. apply mirrored_Some in Em as (e & He & <- & <- & Hv). exists e. split_and!; auto.
  - intros certified' Hn e He. subst certified'. fold certified in Hn, He.
    rewrite Hst, mirrored_certified by assumption.
    rewrite Forall_forall in Hall. destruct (Hall e He) as [v Hv]. rewrite Hv. apply Hau, Hv.
Qed.

Lemma participant_state_spec input state r :
  participant_state_v5 input state = Ok r <->
  exists binding account root epoch count capacity,
    ep5_participant_registry (bi5_policy input) = Some binding /\
    sm_accounts state !! prb_contract binding = Some account /\
    default 0 (ar_storage account !! prb_root_slot binding) = root /\
    default 0 (ar_storage account !! prb_epoch_slot binding) = epoch /\
    default 0 (ar_storage account !! prb_count_slot binding) = count /\
    default 0 (ar_storage account !! prb_capacity_slot binding) = capacity /\
    root <> 0 /\ epoch <> 0 /\ epoch <= U64_MAX /\
    count <= capacity /\ 128 <= capacity <= 32768 /\ is_power_of_two capacity = true /\
    r = (root, epoch, count, capacity).
Proof.
  unfold participant_state_v5. rewrite rbind_Ok. split.
  - intros (b & Hb & H). apply ok_or_Ok in Hb.
    apply rbind_Ok in H as (a & Ha & H). apply ok_or_Ok in Ha.
    apply fail_if_Ok in H as [G1 H]. apply fail_if_Ok in H as [G2 H]. apply Ok_Ok in H as <-.
    rewrite !orb_false_iff, !Z.ltb_ge in G1.
    rewrite !orb_false_iff, !Z.ltb_ge, !Z.eqb_neq, negb_false_iff in G2.
    exists b, a. repeat eexists; tauto || lia.
  - intros (b & a & root & epoch & count & capacity & Hb & Ha & <- & <- & <- & <- & H1 & H2
            & H3 & H4 & H5 & H6 & ->).
    exists b. rewrite Hb, Ha. split; [reflexivity|]. cbn [ok_or rbind].
    unfold U64_MAX in *. rewrite !fail_if_Ok, !orb_false_iff, !Z.ltb_ge, !Z.eqb_neq, negb_false_iff.
    split_and!; auto; lia.
Qed.
End ImportFacts.

Section Claims.
Context {KK : Keccak} {RV : Revm} {AT : AlloyTrie}.

(** C37: An L1 import writes nothing but certified mirror slots.  Without a witness the state
    is unchanged and the journal announces no import; with one, the import is the journal's
    and still valid at its deadline, every slot that changes is the destination of a policy
    binding of that adapter, version and source and receives a value proved in the source
    contract's storage under the announced L1 state root, every certified slot receives its
    value (when the bindings name distinct slots), and no balance, nonce or code moves. *)
Theorem import_writes_certified input (state state' : StateMap) :
  verify_and_apply_import_v5 input state = Ok state' ->
  match bi5_l1_import input with
  | None => state' = state /\ import_fields_not_empty (bi5_journal input) = false
  | Some import => import_confined input import state state'
  end.
Proof. apply import_spec. Qed.
End Claims.

(** ** Witness: one certified slot is mirrored *)
#[local] Existing Instance toy_keccak.
#[local] Existing Instance toy_revm.
#[local] Existing Instance toy_trie.

Definition mirror_storage_root : Z := 42 + keccak256 (be_bytes 32 5).
Definition mirror_state_root : Z := 2 + keccak256 (address_bytes 900).
Definition mirror_import : L1ImportWitnessV5 :=
  mk_L1ImportWitnessV5 20 40 77 mirror_state_root 900 2 0 mirror_storage_root 5 []
    (storage_keys_root_v5 [5]) 1 1 [mk_L1StorageSlotV5 5 42 []] [mk_L1MirrorBindingV5 5 60 3].
Definition mirror_binding : CertifiedImportBindingV5 :=
  mk_CertifiedImportBindingV5 1 1 900 5 60 3.
Definition mirror_policy : ExecutionPolicyV5 :=
  mk_ExecutionPolicyV5 0 0 0 0 0 false false [] [] [] [mirror_binding] None None.
Definition mirror_journal : BatchJournalV5 :=
  mk_BatchJournalV5 0 0 7 0 0 0 0 0 0 0 0 0 0 0 0 0 0 0 0 0 0 0 0 0 0 0 0 0 0 0 0 0 0 0 0 0
    0 0 0 0 1 20 77 mirror_state_root (import_root_v5 7 1 mirror_import) 0 0 0 0 0 30 false.
Definition mirror_input : BatchInputV5 :=
  mk_BatchInputV5 0 1 mirror_journal mirror_policy 0 [] [] [] [] [] [] [] [] [] [] 0
    (Some mirror_import) CompactStateWitnessV4_default [].
Definition mirror_state : StateMap :=
  from_compact {[60 := mk_AccountRecord 1 0 [1] {[3 := 7]}]} {[60]} {[60 := {[3]}]}.
Definition mirror_result : StateMap :=
  match verify_and_apply_import_v5 mirror_input mirror_state with
  | Ok s => s | Err _ => mirror_state end.

Lemma import_writes_certified_witness :
  authenticated mirror_import 5 (storage_value (sm_accounts mirror_result) 60 3) /\
  storage_value (sm_accounts mirror_result) 60 3 = 42.
Proof.
  assert (H : import_confined mirror_input mirror_import mirror_state mirror_result).
  { apply (import_writes_certified mirror_input mirror_state mirror_result).
    vm_compute. reflexivity. }
  split; [|vm_compute; reflexivity].
  apply (ic_complete _ _ _ _ H) with (e := mirror_binding).
  - refine (bool_decide_unpack (NoDup _) _). vm_compute. exact I.
  - assert (E : certified_bindings mirror_policy mirror_import = [mirror_binding])
      by (vm_compute; reflexivity).
    change (bi5_policy mirror_input) with mirror_policy. rewrite E. left.
Defined.
