(* ===== verification/Block.v ===== *)
(** * Single-block execution: stf-core/src/block.rs, txenv.rs and report.rs

    revm enters through the class [Evm]: for a configuration, a database, a
    policy and a transaction it makes database reads and inspector callbacks,
    returns a change set and a result, or rejects the transaction.  Decoding
    and signer recovery are alloy's ([TxCodec]). *)

From S2P Require Import Prelude Types Abi State StateEvm Policy.
Open Scope Z_scope.

(** ** error.rs *)
Inductive StfError :=
| PreRootMismatch (expected computed : Z)
| TxDecode (e : string)
| UnsupportedTx (t : Z)
| TxExecution (e : string)
| BlockHashHistory (e : string)
| FeePolicy (e : string)
| ChainId (expected : Z) (got : option Z)
| BlockGasLimit (used limit : Z)
| InvalidBatch (e : string)
| CompactWitness (e : string)
| CertifiedPolicy (e : string)
| Settlement (e : string)
| GenesisAnchor (e : string)
| ColdPreparation (e : string)
| LongLivedRoom (e : string)
| Panicked (e : string).   (* a Rust panic: the guest aborts without a journal *)

(** ** Foreign interfaces: alloy-consensus and revm *)
Inductive TxType := Legacy | Eip2930 | Eip1559 | Eip4844 | Eip7702.
Definition tx_type_u8 (t : TxType) : Z :=
  match t with Legacy => 0 | Eip2930 => 1 | Eip1559 => 2 | Eip4844 => 3 | Eip7702 => 4 end.

(** The accessors [tx_env_from_raw] reads of a decoded envelope. *)
Record TxEnvelope := mk_TxEnvelope {
  te_tx_type : TxType;
  te_nonce : Z;
  te_max_fee_per_gas : Z;
  te_max_priority_fee_per_gas : option Z;
  te_chain_id : option Z;
  te_gas_limit : Z;
  te_kind : TxKind;
  te_value : Z;
  te_input : bytes;
  te_access_list : option (list (Z * list Z));
  te_signer : option Z   (* [recover_signer] *)
}.

Class TxCodec := {
  decode_2718 : bytes -> option (TxEnvelope * bytes);   (* envelope, unread tail *)
  rlp_b256_list : list Z -> bytes                       (* [alloy_rlp::encode(&Vec<B256>)] *)
}.

Record TxEnv := mk_TxEnv {
  tx_type : Z;
  tx_caller : Z;
  tx_gas_limit : Z;
  tx_gas_price : Z;
  tx_kind : TxKind;
  tx_value : Z;
  tx_data : bytes;
  tx_nonce : Z;
  tx_chain_id : option Z;
  tx_access_list : list (Z * list Z);
  tx_gas_priority_fee : option Z
}.

(** revm's [BlockEnv] as the program fills it; the slot number is zero. *)
Record BlockEnv := mk_BlockEnv {
  be_number : Z;
  be_beneficiary : Z;
  be_timestamp : Z;
  be_gas_limit : Z;
  be_basefee : Z;
  be_difficulty : Z;
  be_prevrandao : option Z;
  be_excess_blob_gas : Z
}.

(** The Osaka configuration: chain id, block environment, gadget table. *)
Record EvmConfig := mk_EvmConfig {
  ec_chain_id : Z;
  ec_block : BlockEnv;
  ec_opcode_gadgets : bool
}.

Inductive db_read :=
| ReadBasic (address : Z)
| ReadCode (hash : Z)
| ReadStorage (address index : Z)
| ReadBlockHash (number : Z).

(** One executed transaction: the database reads in order, the inspector
    callbacks in order, the committed change set and the result. *)
Record EvmRun {RV : Revm} := mk_EvmRun {
  er_reads : list db_read;
  er_hooks : list hook;
  er_changes : list (Z * Account);
  er_success : bool;
  er_gas_used : Z
}.

Class Evm {RV : Revm} := {
  transact : EvmConfig -> StateMap -> ExecutionPolicyV4 -> TxEnv -> result string EvmRun
}.

(** ** report.rs *)
Record TransactionOutcome := mk_TransactionOutcome {
  to_transaction_hash : Z;
  to_status : Z
}.

Record EvmProofWork := mk_EvmProofWork {
  ew_executed_gas : Z;
  ew_transaction_count : Z;
  ew_opcode_steps : Z;
  ew_fused_motif_hits : Z;
  ew_fused_motif_opcodes : Z;
  ew_keccak_opcodes : Z;
  ew_call_opcodes : Z;
  ew_precompile_calls : Z;
  ew_max_memory_bytes : Z;
  ew_db : DbAccessMetrics;
  ew_state_accounts : Z;
  ew_state_storage_slots : Z;
  ew_state_code_bytes : Z
}.
Definition EvmProofWork_default : EvmProofWork :=
  mk_EvmProofWork 0 0 0 0 0 0 0 0 0 DbAccessMetrics_default 0 0 0.

Record BatchProofWork := mk_BatchProofWork {
  bw_block_count : Z;
  bw_encoded_witness_bytes : Z;
  bw_evm : EvmProofWork
}.

Record BlockOutcome {RV : Revm} := mk_BlockOutcome {
  bo_journal : StfJournal;
  bo_gas_used : Z;
  bo_proof_work : EvmProofWork;
  bo_post_state : StateMap;
  bo_transactions : list TransactionOutcome
}.

Record BatchOutcomeV5 := mk_BatchOutcomeV5 {
  bov5_journal : BatchJournalV5;
  bov5_proof_work : BatchProofWork
}.

Definition sat_add (a b : Z) : Z := saturating_add U64_MAX a b.

Definition accumulate (self next : EvmProofWork) : EvmProofWork :=
  let d := ew_db self in
  let e := ew_db next in
  mk_EvmProofWork
    (sat_add (ew_executed_gas self) (ew_executed_gas next))
    (sat_add (ew_transaction_count self) (ew_transaction_count next))
    (sat_add (ew_opcode_steps self) (ew_opcode_steps next))
    (sat_add (ew_fused_motif_hits self) (ew_fused_motif_hits next))
    (sat_add (ew_fused_motif_opcodes self) (ew_fused_motif_opcodes next))
    (sat_add (ew_keccak_opcodes self) (ew_keccak_opcodes next))
    (sat_add (ew_call_opcodes self) (ew_call_opcodes next))
    (sat_add (ew_precompile_calls self) (ew_precompile_calls next))
    (Z.max (ew_max_memory_bytes self) (ew_max_memory_bytes next))
    (mk_DbAccessMetrics
       (sat_add (dm_account_reads d) (dm_account_reads e))
       (sat_add (dm_code_reads d) (dm_code_reads e))
       (sat_add (dm_storage_reads d) (dm_storage_reads e))
       (sat_add (dm_block_hash_reads d) (dm_block_hash_reads e))
       (sat_add (dm_account_writes d) (dm_account_writes e))
       (sat_add (dm_storage_writes d) (dm_storage_writes e)))
    (Z.max (ew_state_accounts self) (ew_state_accounts next))
    (Z.max (ew_state_storage_slots self) (ew_state_storage_slots next))
    (Z.max (ew_state_code_bytes self) (ew_state_code_bytes next)).

(** ** stf-types/src/block.rs *)
Section BlockEnvHash.
Context {KK : Keccak}.
Definition block_env_bytes (env : BlockEnvV1) : bytes :=
  be_bytes 8 (env_number env) ++ be_bytes 8 (env_timestamp env)
  ++ be_bytes 8 (env_gas_limit env) ++ address_bytes (env_coinbase env)
  ++ be_bytes 32 (env_base_fee env) ++ b256_bytes (env_prev_randao env)
  ++ be_bytes 32 (env_difficulty env) ++ be_bytes 8 (env_excess_blob_gas env)
  ++ be_bytes 8 (env_chain_id env).
Definition block_env_hash (env : BlockEnvV1) : Z := keccak256 (block_env_bytes env).
End BlockEnvHash.

(** ** txenv.rs *)
Section TxEnvFromRaw.
Context {TC : TxCodec}.

Definition tx_env_from_raw (raw : bytes) (expected_chain_id : Z) : result StfError TxEnv :=
  match raw with
  | 0x03 :: _ => Err (UnsupportedTx 0x03)
  | 0x04 :: _ => Err (UnsupportedTx 0x04)
  | _ =>
  let? (envelope, buf) := ok_or (decode_2718 raw) (TxDecode "envelope") in
  fail_if negb (bool_decide (buf = []))
    with TxDecode "trailing byte(s) after the transaction envelope" in
  fail_if match te_tx_type envelope with
          | Legacy | Eip2930 | Eip1559 => false | _ => true end
    with UnsupportedTx (tx_type_u8 (te_tx_type envelope)) in
  fail_if te_nonce envelope =? U64_MAX
    with TxDecode "transaction nonce cannot equal the uint64 maximum" in
  fail_if negb (te_max_fee_per_gas envelope =? 0)
    with FeePolicy "non-zero gas price / maxFeePerGas" in
  fail_if negb (default 0 (te_max_priority_fee_per_gas envelope) =? 0)
    with FeePolicy "non-zero maxPriorityFeePerGas" in
  fail_if match te_chain_id envelope with
          | None => true
          | Some id => negb (id =? expected_chain_id)
          end
    with ChainId expected_chain_id (te_chain_id envelope) in
  let? caller := ok_or (te_signer envelope) (TxDecode "signer recovery") in
  Ok (mk_TxEnv (tx_type_u8 (te_tx_type envelope)) caller (te_gas_limit envelope)
        (te_max_fee_per_gas envelope) (te_kind envelope) (te_value envelope)
        (te_input envelope) (te_nonce envelope) (te_chain_id envelope)
        (default [] (te_access_list envelope)) (te_max_priority_fee_per_gas envelope))
  end.
End TxEnvFromRaw.

(** ** block.rs *)
Section Block.
Context {KK : Keccak} {RV : Revm} {AT : AlloyTrie} {OP : OsakaPrecompiles} {TC : TxCodec}
  {EV : Evm}.

Definition tx_commitment_raw (raw_txs : list bytes) : Z :=
  keccak256 (rlp_b256_list (map keccak256 raw_txs)).

Definition room_state_root_v5 (state : StateMap) (mode : Z) : result StfError Z :=
  if mode =? 0 then Ok (state_root state)
  else if mode =? 1 then Ok (sparse_state_root_v5 state)
  else Err (LongLivedRoom "unknown v5 state commitment mode").

Definition install_input_block_hashes (state : StateMap) (input : StfInput)
  : result StfError StateMap :=
  map_err BlockHashHistory
    (install_block_hashes (env_number (si_env input))
       (map (fun entry => (hbh_number entry, hbh_hash entry)) (si_block_hashes input)) state).

(** A read of the database during execution, for its effect on the counters. *)
Definition run_read (db : StateMap) (read : db_read) : StateMap :=
  match read with
  | ReadBasic address => (basic db address).1
  | ReadCode hash => (code_by_hash db hash).1
  | ReadStorage address index => (storage db address index).1
  | ReadBlockHash number => (block_hash db number).1
  end.

(** The evm object of the loop: its inspector and its database. *)
Definition inspect_tx_commit (config : EvmConfig) (policy : ExecutionPolicyV4)
    (evm : CertifiedPolicyInspectorV4 * StateMap) (tx_env : TxEnv)
  : result string (CertifiedPolicyInspectorV4 * StateMap * EvmRun) :=
  let '(inspector, db) := evm in
  let? run := transact config db policy tx_env in
  Ok (foldl (run_hook policy) inspector (er_hooks run),
      commit (foldl run_read db (er_reads run)) (er_changes run), run).

Record BlockLoop := mk_BlockLoop {
  bl_inspector : CertifiedPolicyInspectorV4;
  bl_db : StateMap;
  bl_gas_used : Z;
  bl_transactions : list TransactionOutcome;
  bl_prepared : option (list TxEnv)
}.

(** The next environment: the prepared one, or the decoded raw bytes. *)
Definition next_tx_env (prepared : option (list TxEnv)) (raw : bytes) (chain_id : Z)
  : result StfError (TxEnv * option (list TxEnv)) :=
  match prepared with
  | Some [] => Err (TxDecode "pre-decoded transaction list is exhausted")
  | Some (tx_env :: rest) => Ok (tx_env, Some rest)
  | None => let? tx_env := tx_env_from_raw raw chain_id in Ok (tx_env, None)
  end.

(** The body of the transaction loop. *)
Definition execute_tx (config : EvmConfig) (policy : ExecutionPolicyV4) (gas_limit : Z)
    (s : BlockLoop) (raw : bytes) : result StfError BlockLoop :=
  let? (tx_env, prepared) := next_tx_env (bl_prepared s) raw (ec_chain_id config) in
  let inspector := inspector_reset (bl_inspector s) in
  let? _ := map_err CertifiedPolicy
              (validate_transaction_entry policy (tx_caller tx_env) (tx_kind tx_env)
                 (tx_data tx_env)) in
  let? (inspector, db, run) :=
    map_err TxExecution (inspect_tx_commit config policy (inspector, bl_db s) tx_env) in
  let transactions := bl_transactions s
    ++ [mk_TransactionOutcome (keccak256 raw) (bool_u64 (negb (er_success run)))] in
  match insp_violation inspector with
  | Some error => Err (CertifiedPolicy error)
  | None =>
  match sm_access_violation db with
  | Some _ => Err (TxExecution "undeclared state access")
  | None =>
  let? gas_used := ok_or (checked_add U64_MAX (bl_gas_used s) (er_gas_used run))
                     (BlockGasLimit U64_MAX gas_limit) in
  fail_if gas_limit <? gas_used with BlockGasLimit gas_used gas_limit in
  Ok (mk_BlockLoop inspector db gas_used transactions prepared)
  end
  end.

Definition block_env_of (env : BlockEnvV1) : BlockEnv :=
  mk_BlockEnv (env_number env) (env_coinbase env) (env_timestamp env) (env_gas_limit env)
    (env_base_fee env) (env_difficulty env) (Some (env_prev_randao env))
    (env_excess_blob_gas env).

Definition block_proof_work (input : StfInput) (s : BlockLoop) : EvmProofWork :=
  let inspector_work := insp_proof_work (bl_inspector s) in
  let accounts := map snd (sorted_entries (sm_accounts (bl_db s))) in
  mk_EvmProofWork (bl_gas_used s) (zlen (si_raw_txs input))
    (pw_opcode_steps inspector_work) (pw_fused_motif_hits inspector_work)
    (pw_fused_motif_opcodes inspector_work) (pw_keccak_opcodes inspector_work)
    (pw_call_opcodes inspector_work) (pw_precompile_calls inspector_work)
    (pw_max_memory_bytes inspector_work) (sm_access_metrics (bl_db s))
    (Z.of_nat (size (sm_accounts (bl_db s))))
    (zsum (map (fun account => Z.of_nat (size (ar_storage account))) accounts))
    (zsum (map (fun account => zlen (ar_code account)) accounts)).

Definition execute_block_on_state (input : StfInput) (state : StateMap)
    (policy : option ExecutionPolicyV4) (verify_pre_state_root : bool)
    (state_commitment : Z) (use_opcode_gadgets : bool) (decoded_txs : option (list TxEnv))
  : result StfError BlockOutcome :=
  fail_if match decoded_txs with
          | Some decoded => negb (zlen decoded =? zlen (si_raw_txs input))
          | None => false
          end
    with TxDecode "pre-decoded transaction list does not match the block" in
  let? state := install_input_block_hashes state input in
  let? _ :=
    if verify_pre_state_root then
      let? computed := room_state_root_v5 state state_commitment in
      fail_if negb (computed =? si_prev_state_root input)
        with PreRootMismatch (si_prev_state_root input) computed in
      Ok tt
    else Ok tt in
  let state := set_metrics DbAccessMetrics_default state in
  let env := si_env input in
  fail_if U64_MAX <? env_base_fee env with Panicked "base fee exceeds uint64" in
  let config := mk_EvmConfig (env_chain_id env) (block_env_of env) use_opcode_gadgets in
  let policy := default legacy_unrestricted policy in
  let? s := for_each (execute_tx config policy (env_gas_limit env))
              (mk_BlockLoop inspector_new state 0 [] decoded_txs) (si_raw_txs input) in
  let post_state := bl_db s in
  let? post_state_root := room_state_root_v5 post_state state_commitment in
  Ok (mk_BlockOutcome _
        (mk_StfJournal JOURNAL_VERSION (si_room_id input) (si_block_number input)
           (si_prev_state_root input) post_state_root (tx_commitment_raw (si_raw_txs input))
           (block_env_hash env))
        (bl_gas_used s) (block_proof_work input s) post_state (bl_transactions s)).

(** [initial_storage] of the batches: the storages before their blocks. *)
Definition storages (state : StateMap) : gmap Z (gmap Z Z) := ar_storage <$> sm_accounts state.

(** The entry points that start from an input's own state. *)
Definition execute_from_input (state_commitment : Z) (use_opcode_gadgets : bool)
    (input : StfInput) : result StfError BlockOutcome :=
  let? state := install_input_block_hashes (state_map_from_input (si_state input)) input in
  execute_block_on_state input state None true state_commitment use_opcode_gadgets None.
Definition execute_block_full (input : StfInput) : result StfError BlockOutcome :=
  execute_from_input 0 true input.
Definition execute_block (input : StfInput) : result StfError StfJournal :=
  let? o := execute_block_full input in Ok (bo_journal o).
Definition execute_block_full_without_opcode_gadgets (input : StfInput)
  : result StfError BlockOutcome := execute_from_input 0 false input.
Definition execute_block_full_v5_commitment (input : StfInput) (state_commitment : Z)
  : result StfError BlockOutcome := execute_from_input state_commitment true input.
Definition execute_block_full_with_prepared_runtime (input : StfInput)
    (frozen_code_hashes : gmap Z Z)
  : result StfError (BlockOutcome * PreparedCodeCacheReport) :=
  let? state := install_input_block_hashes (state_map_from_input (si_state input)) input in
  let? (report, state) :=
    map_err CertifiedPolicy (install_prepared_runtime_code frozen_code_hashes state) in
  let? outcome := execute_block_on_state input state None true 0 true None in
  Ok (outcome, report).
End Block.

(** * Properties *)

(** ** The admission policy of raw transactions *)
Section AdmissionFacts.
Context {TC : TxCodec}.

Record admissible (raw : bytes) (chain_id : Z) (e : TxEnvelope) : Prop := {
  ad_decodes : decode_2718 raw = Some (e, []);
  ad_first : forall b rest, raw = b :: rest -> b <> 0x03 /\ b <> 0x04;
  ad_type : te_tx_type e = Legacy \/ te_tx_type e = Eip2930 \/ te_tx_type e = Eip1559;
  ad_nonce : te_nonce e <> U64_MAX;
  ad_free : te_max_fee_per_gas e = 0 /\ default 0 (te_max_priority_fee_per_gas e) = 0;
  ad_chain : te_chain_id e = Some chain_id
}.

Definition env_of (e : TxEnvelope) (caller : Z) : TxEnv :=
  mk_TxEnv (tx_type_u8 (te_tx_type e)) caller (te_gas_limit e) (te_max_fee_per_gas e)
    (te_kind e) (te_value e) (te_input e) (te_nonce e) (te_chain_id e)
    (default [] (te_access_list e)) (te_max_priority_fee_per_gas e).

Lemma tx_env_from_raw_spec raw chain_id tx :
  tx_env_from_raw raw chain_id = Ok tx <->
  exists e caller, admissible raw chain_id e /\ te_signer e = Some caller /\ tx = env_of e caller.
Proof.
  assert (Hbody :
    (let? (envelope, buf) := ok_or (decode_2718 raw) (TxDecode "envelope") in
     fail_if negb (bool_decide (buf = []))
       with TxDecode "trailing byte(s) after the transaction envelope" in
     fail_if match te_tx_type envelope with
             | Legacy | Eip2930 | Eip1559 => false | _ => true end
       with UnsupportedTx (tx_type_u8 (te_tx_type envelope)) in
     fail_if te_nonce envelope =? U64_MAX
       with TxDecode "transaction nonce cannot equal the uint64 maximum" in
     fail_if negb (te_max_fee_per_gas envelope =? 0)
       with FeePolicy "non-zero gas price / maxFeePerGas" in
     fail_if negb (default 0 (te_max_priority_fee_per_gas envelope) =? 0)
       with FeePolicy "non-zero maxPriorityFeePerGas" in
     fail_if match te_chain_id envelope with
             | None => true | Some id => negb (id =? chain_id) end
       with ChainId chain_id (te_chain_id envelope) in
     let? caller := ok_or (te_signer envelope) (TxDecode "signer recovery") in
     Ok (env_of envelope caller)) = Ok tx <->
    exists e caller, decode_2718 raw = Some (e, []) /\
      (te_tx_type e = Legacy \/ te_tx_type e = Eip2930 \/ te_tx_type e = Eip1559) /\
      te_nonce e <> U64_MAX /\
      (te_max_fee_per_gas e = 0 /\ default 0 (te_max_priority_fee_per_gas e) = 0) /\
      te_chain_id e = Some chain_id /\ te_signer e = Some caller /\ tx = env_of e caller).
  { rewrite rbind_Ok. split.
    - intros ([e buf] & He & H). apply ok_or_Ok in He.
      apply fail_if_Ok in H as [G1 H]. apply negb_bool_decide_false in G1 as ->.
      apply fail_if_Ok in H as [G2 H]. apply fail_if_Ok in H as [G3 H]. apply Z.eqb_neq in G3.
      apply fail_if_Ok in H as [G4 H]. apply negb_eqb_false in G4.
      apply fail_if_Ok in H as [G5 H]. apply negb_eqb_false in G5.
      apply fail_if_Ok in H as [G6 H]. apply rbind_Ok in H as (c & Hc & H).
      apply ok_or_Ok in Hc. apply Ok_Ok in H as <-. exists e, c. split_and!; auto.
      + destruct (te_tx_type e); auto; discriminate.
      + destruct (te_chain_id e); [|discriminate]. apply negb_eqb_false in G6 as ->. reflexivity.
    - intros (e & c & He & Ht & Hn & [Hf Hp] & Hc & Hs & ->).
      exists (e, []). split; [apply ok_or_Ok, He|].
      rewrite !fail_if_Ok, negb_bool_decide_false, Z.eqb_neq, !negb_eqb_false, Hc, negb_eqb_false.
      split_and!; auto; [destruct Ht as [->|[-> | ->]]; reflexivity|].
      rewrite Hs. reflexivity. }
  assert (Hspec : (exists e caller, admissible raw chain_id e /\ te_signer e = Some caller /\
                     tx = env_of e caller) <->
    (forall b rest, raw = b :: rest -> b <> 0x03 /\ b <> 0x04) /\
    exists e caller, decode_2718 raw = Some (e, []) /\
      (te_tx_type e = Legacy \/ te_tx_type e = Eip2930 \/ te_tx_type e = Eip1559) /\
      te_nonce e <> U64_MAX /\
      (te_max_fee_per_gas e = 0 /\ default 0 (te_max_priority_fee_per_gas e) = 0) /\
      te_chain_id e = Some chain_id /\ te_signer e = Some caller /\ tx = env_of e caller).
  { split.
    - intros (e & c & [A1 A2 A3 A4 A5 A6] & Hs & ->). split; [exact A2|].
      exists e, c. split_and!; auto; apply A5.
    - intros (A2 & e & c & A1 & A3 & A4 & A5 & A6 & Hs & ->). exists e, c.
      split; [split; auto|auto]. }
  rewrite Hspec, <- Hbody. clear Hspec Hbody.
  unfold tx_env_from_raw, env_of. destruct raw as [|b rest].
  - split; [intros H; split; [discriminate|exact H]|intros [_ H]; exact H].
  - destruct (decide (b = 3)) as [->|H3].
    { split; [discriminate|]. intros [H _]. destruct (H _ _ eq_refl). contradiction. }
    destruct (decide (b = 4)) as [->|H4].
    { split; [discriminate|]. intros [H _]. destruct (H _ _ eq_refl). contradiction. }
    assert (E : forall (A : Type) (x y z : A),
      match b with 3 => x | 4 => y | _ => z end = z).
    { intros A x y z. destruct b as [|p|p]; try reflexivity.
      destruct p as [[]|[[]|[]|]|]; reflexivity || contradiction. }
    rewrite E. split; [intros H; split; [intros b' r' Hb; injection Hb as <- <-; auto|exact H]|].
    intros [_ H]. exact H.
Qed.
End AdmissionFacts.

(** ** The execution loop *)
Section BlockFacts.
Context {KK : Keccak} {RV : Revm} {AT : AlloyTrie} {OP : OsakaPrecompiles} {TC : TxCodec}
  {EV : Evm}.
Implicit Types (state db : StateMap) (policy : ExecutionPolicyV4).

(** One transaction of a block as the guest accepts it. *)
Record executed_tx := mk_executed_tx {
  xt_raw : bytes;
  xt_env : TxEnv;
  xt_run : EvmRun
}.

Definition db_after (db : StateMap) (run : EvmRun) : StateMap :=
  commit (foldl run_read db (er_reads run)) (er_changes run).

Record tx_accepted (config : EvmConfig) policy db (x : executed_tx) db' : Prop := {
  ta_entry : validate_transaction_entry policy (tx_caller (xt_env x)) (tx_kind (xt_env x))
               (tx_data (xt_env x)) = Ok tt;
  ta_run : transact config db policy (xt_env x) = Ok (xt_run x);
  ta_hooks : forallb (hook_permitted policy) (er_hooks (xt_run x)) = true;
  ta_db : db' = db_after db (xt_run x);
  ta_envelope : sm_access_violation db' = None
}.

Definition outcome_of (x : executed_tx) : TransactionOutcome :=
  mk_TransactionOutcome (keccak256 (xt_raw x)) (bool_u64 (negb (er_success (xt_run x)))).

(** The callbacks of a transaction, whatever the inspector counted before. *)
Lemma hooks_permitted policy inspector hooks :
  insp_violation (foldl (run_hook policy) (inspector_reset inspector) hooks) = None
  <-> forallb (hook_permitted policy) hooks = true.
Proof.
  induction hooks as [|h l IH] using rev_ind; [cbn; tauto|].
  rewrite foldl_app, forallb_app. cbn [foldl forallb].
  rewrite run_hook_violation, IH, andb_true_r, andb_true_iff. reflexivity.
Qed.

(** The environments a block runs: prepared ones, or decoded from the bytes. *)
Definition provided (prepared : option (list TxEnv)) (chain_id : Z) (raws : list bytes)
    (envs : list TxEnv) : Prop :=
  match prepared with
  | Some decoded => exists rest, decoded = envs ++ rest
  | None => Forall2 (fun raw tx => tx_env_from_raw raw chain_id = Ok tx) raws envs
  end.
Definition prepared_rest (prepared : option (list TxEnv)) (n : nat) : option (list TxEnv) :=
  option_map (drop n) prepared.

(** The loop state after a prefix of the transactions. *)
Record loop_at (config : EvmConfig) policy (gas_limit : Z) state
    (prepared : option (list TxEnv)) (raws : list bytes) (s : BlockLoop)
    (xs : list executed_tx) : Prop := {
  la_raws : map xt_raw xs = raws;
  la_envs : provided prepared (ec_chain_id config) raws (map xt_env xs);
  la_runs : runs (tx_accepted config policy) state xs (bl_db s);
  la_gas : bl_gas_used s = zsum (map (fun x => er_gas_used (xt_run x)) xs);
  la_budget : xs <> [] -> bl_gas_used s <= gas_limit;
  la_outcomes : bl_transactions s = map outcome_of xs;
  la_rest : bl_prepared s = prepared_rest prepared (length xs)
}.

Lemma loop_step config policy gas_limit state prepared raws s xs raw s' :
  loop_at config policy gas_limit state prepared raws s xs ->
  execute_tx config policy gas_limit s raw = Ok s' ->
  exists x, loop_at config policy gas_limit state prepared (raws ++ [raw]) s' (xs ++ [x]).
Proof.
  intros [L1 L2 L3 L4 L5 L6 L7] H. unfold execute_tx in H.
  apply rbind_Ok in H as ([tx rest] & Hn & H).
  apply rbind_Ok in H as ([] & He & H).
  destruct (validate_transaction_entry policy (tx_caller tx) (tx_kind tx) (tx_data tx))
    as [[]|] eqn:Ev; cbn in He; [clear He|discriminate].
  apply rbind_Ok in H as ([[insp db] run] & Hr & H).
  destruct (inspect_tx_commit _ _ _ _) as [r|] eqn:Ei in Hr; cbn in Hr; [|discriminate].
  injection Hr as ->. unfold inspect_tx_commit in Ei.
  apply rbind_Ok in Ei as (run' & Ht & Ei). injection Ei as Ei1 Ei2 Ei3. subst run'.
  destruct (insp_violation insp) eqn:Evi; [discriminate|].
  destruct (sm_access_violation db) eqn:Eva; [discriminate|].
  apply rbind_Ok in H as (g & Hg & H). apply ok_or_Ok, checked_add_Some in Hg as [_ ->].
  apply fail_if_Ok in H as [G H]. apply Z.ltb_ge in G. apply Ok_Ok in H as <-.
  exists (mk_executed_tx raw tx run). rewrite <- Ei1 in Evi. apply hooks_permitted in Evi.
  assert (Henv : provided prepared (ec_chain_id config) (raws ++ [raw])
                   (map xt_env xs ++ [tx]) /\ rest = prepared_rest prepared (S (length xs))).
  { rewrite L7 in Hn. destruct prepared as [decoded|]; cbn [prepared_rest option_map] in Hn.
    - destruct L2 as [more ->]. rewrite <- (length_map xt_env xs) in Hn.
      rewrite drop_app_length in Hn. destruct more as [|t more]; [discriminate|].
      injection Hn as -> <-. split; [exists more; rewrite <- app_assoc; reflexivity|].
      cbn [prepared_rest option_map]. f_equal. rewrite <- (length_map xt_env xs).
      change (tx :: more) with ([tx] ++ more). rewrite app_assoc.
      symmetry. apply drop_app_length'. rewrite length_app. cbn. lia.
    - cbn in Hn. apply rbind_Ok in Hn as (tx' & Htx & Hn). injection Hn as -> <-.
      split; [|reflexivity]. apply Forall2_app; [exact L2|]. constructor; [exact Htx|constructor]. }
  destruct Henv as [Henv ->].
  split; cbn [bl_db bl_gas_used bl_transactions bl_prepared].
  - rewrite map_app, L1. reflexivity.
  - rewrite map_app. exact Henv.
  - eapply runs_snoc; [exact L3|]. split; cbn [xt_env xt_run]; auto.
  - rewrite map_app, zsum_app, L4. unfold zsum. cbn. lia.
  - intros _. exact G.
  - rewrite map_app, L6. reflexivity.
  - rewrite length_app. cbn. rewrite Nat.add_1_r. reflexivity.
Qed.

Lemma loop_all config policy gas_limit state prepared raws s :
  for_each (execute_tx config policy gas_limit)
    (mk_BlockLoop inspector_new state 0 [] prepared) raws = Ok s ->
  exists xs, loop_at config policy gas_limit state prepared raws s xs.
Proof.
  intros H.
  refine (for_each_inv (fun done s =>
    exists xs, loop_at config policy gas_limit state prepared done s xs) _ _ _ _ _ _ H).
  - exists []. split; try reflexivity; [|constructor|congruence|].
    + destruct prepared as [d|]; [exists d; reflexivity|constructor].
    + destruct prepared; reflexivity.
  - intros done x s1 s2 [xs I] _ Hb. destruct (loop_step _ _ _ _ _ _ _ _ _ _ I Hb) as [y Hy].
    eexists. exact Hy.
Qed.

(** What a block outcome attests. *)
Record block_executed (input : StfInput) policy state (mode : Z) (gadgets : bool)
    (o : BlockOutcome) (xs : list executed_tx) : Prop := {
  be_raws : map xt_raw xs = si_raw_txs input;
  be_runs : runs (tx_accepted (mk_EvmConfig (env_chain_id (si_env input))
                     (block_env_of (si_env input)) gadgets) policy)
              state xs (bo_post_state o);
  be_gas : bo_gas_used o = zsum (map (fun x => er_gas_used (xt_run x)) xs);
  be_budget : xs <> [] -> bo_gas_used o <= env_gas_limit (si_env input);
  be_outcomes : bo_transactions o = map outcome_of xs;
  be_root : room_state_root_v5 (bo_post_state o) mode = Ok (sj_post_state_root (bo_journal o));
  be_journal : bo_journal o
    = mk_StfJournal JOURNAL_VERSION (si_room_id input) (si_block_number input)
        (si_prev_state_root input) (sj_post_state_root (bo_journal o))
        (tx_commitment_raw (si_raw_txs input)) (block_env_hash (si_env input))
}.

Lemma execute_block_spec input state (policy : option ExecutionPolicyV4) verify mode gadgets decoded o :
  execute_block_on_state input state policy verify mode gadgets decoded = Ok o ->
  exists opened xs,
    install_input_block_hashes state input = Ok opened /\
    (verify = true -> room_state_root_v5 opened mode = Ok (si_prev_state_root input)) /\
    block_executed input (default legacy_unrestricted policy)
      (set_metrics DbAccessMetrics_default opened) mode gadgets o xs /\
    match decoded with
    | Some envs => map xt_env xs = envs
    | None => Forall2 (fun raw tx => tx_env_from_raw raw (env_chain_id (si_env input)) = Ok tx)
                (si_raw_txs input) (map xt_env xs)
    end.
Proof.
  unfold execute_block_on_state. intros H. apply fail_if_Ok in H as [Gd H].
  apply rbind_Ok in H as (opened & Ho & H). apply rbind_Ok in H as ([] & Hv & H).
  apply fail_if_Ok in H as [_ H]. apply rbind_Ok in H as (s & Hl & H).
  apply rbind_Ok in H as (root & Hr & H). apply Ok_Ok in H as <-.
  apply loop_all in Hl as [xs [L1 L2 L3 L4 L5 L6 L7]].
  exists opened, xs. split; [exact Ho|]. split; [|split].
  - intros ->. apply rbind_Ok in Hv as (c & Hc & Hv). apply fail_if_Ok in Hv as [G _].
    apply negb_eqb_false in G as <-. exact Hc.
  - split; cbn [bo_post_state bo_gas_used bo_transactions bo_journal sj_post_state_root]; auto.
  - destruct decoded as [envs|]; [|exact L2]. destruct L2 as [rest Hrest].
    apply negb_eqb_false in Gd. rewrite <- L1 in Gd. unfold zlen in Gd.
    apply Nat2Z.inj in Gd. rewrite Hrest, length_app, !length_map in Gd.
    destruct rest; [|cbn in Gd; lia]. rewrite app_nil_r in Hrest. auto.
Qed.

Lemma install_accounts hashes s report s' :
  install_prepared_runtime_code hashes s = Ok (report, s') -> sm_accounts s' = sm_accounts s.
Proof.
  unfold install_prepared_runtime_code. intros H. apply rbind_Ok in H as ([r c] & _ & H).
  injection H as _ <-. reflexivity.
Qed.

(** ** Blocks without a block-hash history *)

(** The environments decoded from raw bytes. *)
Definition decodes (chain_id : Z) (raws : list bytes) (envs : list TxEnv) : Prop :=
  Forall2 (fun raw tx => tx_env_from_raw raw chain_id = Ok tx) raws envs.
Lemma decodes_det chain_id raws e1 e2 :
  decodes chain_id raws e1 -> decodes chain_id raws e2 -> e1 = e2.
Proof.
  intros H1. revert e2. induction H1 as [|raw tx raws e1 Hx H1 IH]; intros e2 H2;
    inversion H2; subst; [reflexivity|]. f_equal; [congruence|]. apply IH. assumption.
Qed.

(** What running the transactions of [input] from [db] means. *)
Record plain_block (input : StfInput) policy (gadgets : bool) db (xs : list executed_tx) db'
  : Prop := {
  pb_raws : map xt_raw xs = si_raw_txs input;
  pb_envs : decodes (env_chain_id (si_env input)) (si_raw_txs input) (map xt_env xs);
  pb_runs : runs (tx_accepted (mk_EvmConfig (env_chain_id (si_env input))
                     (block_env_of (si_env input)) gadgets) policy)
              (set_metrics DbAccessMetrics_default (set_block_hashes ∅ db)) xs db';
  pb_budget : xs <> [] -> zsum (map (fun x => er_gas_used (xt_run x)) xs)
                          <= env_gas_limit (si_env input)
}.

Lemma plain_block_spec input db (policy : option ExecutionPolicyV4) gadgets o :
  si_block_hashes input = [] ->
  execute_block_on_state input db policy false 0 gadgets None = Ok o ->
  exists xs, plain_block input (default legacy_unrestricted policy) gadgets db xs (bo_post_state o)
    /\ state_root (bo_post_state o) = sj_post_state_root (bo_journal o)
    /\ bo_gas_used o = zsum (map (fun x => er_gas_used (xt_run x)) xs)
    /\ sj_tx_commitment (bo_journal o) = tx_commitment_raw (si_raw_txs input)
    /\ sj_env_hash (bo_journal o) = block_env_hash (si_env input).
Proof.
  intros Hh H. apply execute_block_spec in H as (opened & xs & Ho & _ & [B1 B2 B3 B4 B5 B6 B7] & Hd).
  unfold install_input_block_hashes in Ho. rewrite Hh in Ho. injection Ho as <-.
  exists xs. split; [|split_and!].
  - split; auto. intros Hne. rewrite <- B3. apply B4, Hne.
  - injection B6. auto.
  - exact B3.
  - rewrite B7. reflexivity.
  - rewrite B7. reflexivity.
Qed.

(** Reads only move the counters. *)
Lemma run_read_accounts db reads :
  sm_accounts (foldl run_read db reads) = sm_accounts db.
Proof.
  revert db. induction reads as [|r l IH]; intros db; [reflexivity|]. cbn. rewrite IH.
  destruct r; reflexivity.
Qed.

Lemma block_canonical config policy state xs db :
  runs (tx_accepted config policy) state xs db ->
  canonical (sm_accounts state) -> canonical (sm_accounts db).
Proof.
  induction 1 as [|db x db1 l db2 Hx Hr IH]; [auto|]. intros Hc. apply IH.
  rewrite (ta_db _ _ _ _ _ Hx). unfold db_after. rewrite commit_accounts, run_read_accounts.
  generalize dependent (sm_accounts db). induction (er_changes (xt_run x)) as [|c cs IHc];
    intros accounts Hc; [exact Hc|]. cbn. apply IHc, commit_account_canonical, Hc.
Qed.

(** ** Pre-decoded transactions *)
Definition same_but_prepared (s s' : BlockLoop) : Prop :=
  bl_inspector s = bl_inspector s' /\ bl_db s = bl_db s' /\ bl_gas_used s = bl_gas_used s' /\
  bl_transactions s = bl_transactions s'.

(** The same error, or results related by [R]. *)
Definition agree {E A} (R : A -> A -> Prop) (m m' : result E A) : Prop :=
  match m, m' with
  | Ok r, Ok r' => R r r'
  | Err e, Err e' => e = e'
  | _, _ => False
  end.

Lemma predecoded_loop config policy gas_limit raws envs s s' :
  same_but_prepared s s' -> bl_prepared s = None -> bl_prepared s' = Some envs ->
  Forall2 (fun raw tx => tx_env_from_raw raw (ec_chain_id config) = Ok tx) raws envs ->
  agree same_but_prepared (for_each (execute_tx config policy gas_limit) s raws)
    (for_each (execute_tx config policy gas_limit) s' raws).
Proof.
  intros Hs Hp Hp' H. revert s s' Hs Hp Hp'.
  induction H as [|raw tx raws envs Htx H IH]; intros s s' Hs Hp Hp'; [exact Hs|].
  cbn [for_each]. unfold execute_tx at 1 3. destruct Hs as (E1 & E2 & E3 & E4).
  rewrite Hp, Hp', E1, E2, E3, E4. cbn [next_tx_env rbind]. rewrite Htx. cbn [rbind].
  destruct (map_err CertifiedPolicy _) as [[]|]; cbn [rbind]; [|reflexivity].
  destruct (map_err TxExecution _) as [[[insp db] run]|]; cbn [rbind]; [|reflexivity].
  destruct (insp_violation insp); cbn [rbind]; [reflexivity|].
  destruct (sm_access_violation db); cbn [rbind]; [reflexivity|].
  destruct (ok_or _ _) as [g|]; cbn [rbind]; [|reflexivity].
  destruct (gas_limit <? g); cbn [rbind]; [reflexivity|].
  apply IH; [split_and!|..]; reflexivity.
Qed.

Lemma predecoded_block input state (policy : option ExecutionPolicyV4) verify mode gadgets envs :
  Forall2 (fun raw tx => tx_env_from_raw raw (env_chain_id (si_env input)) = Ok tx)
    (si_raw_txs input) envs ->
  execute_block_on_state input state policy verify mode gadgets (Some envs)
  = execute_block_on_state input state policy verify mode gadgets None.
Proof.
  intros H. unfold execute_block_on_state.
  assert (Hl : (zlen envs =? zlen (si_raw_txs input)) = true).
  { apply Z.eqb_eq. unfold zlen. apply Forall2_length in H. lia. }
  rewrite Hl. cbn [negb].
  destruct (install_input_block_hashes state input) as [opened|]; cbn [rbind]; [|reflexivity].
  destruct (if verify then _ else _) as [[]|]; cbn [rbind]; [|reflexivity].
  destruct (U64_MAX <? _); [reflexivity|].
  set (config := mk_EvmConfig _ _ gadgets). set (p := default legacy_unrestricted policy).
  set (db := set_metrics _ opened).
  pose proof (predecoded_loop config p (env_gas_limit (si_env input)) (si_raw_txs input) envs
    (mk_BlockLoop inspector_new db 0 [] None) (mk_BlockLoop inspector_new db 0 [] (Some envs))
    ltac:(split_and!; reflexivity) eq_refl eq_refl H) as Hs.
  destruct (for_each _ (mk_BlockLoop _ _ _ _ None) _) as [r|];
    destruct (for_each _ (mk_BlockLoop _ _ _ _ (Some envs)) _) as [r'|]; cbn [rbind];
    cbn [agree] in Hs; try contradiction; [|congruence].
  destruct Hs as (E1 & E2 & E3 & E4). unfold block_proof_work. rewrite E1, E2, E3, E4. reflexivity.
Qed.
End BlockFacts.

Section Claims.
Context {KK : Keccak} {RV : Revm} {AT : AlloyTrie} {OP : OsakaPrecompiles} {TC : TxCodec}
  {EV : Evm}.

(** The L2 admission policy is exact: a raw transaction is accepted with the
    environment [tx] iff it is one complete legacy, EIP-2930 or EIP-1559 envelope with no
    trailing byte, not a blob or EIP-7702 payload, with a nonce below the maximum, zero
    fees, exactly the expected chain id and a recoverable signer, and [tx] carries its
    fields. *)
Theorem tx_admission_exact raw chain_id tx :
  tx_env_from_raw raw chain_id = Ok tx <->
  exists e caller, admissible raw chain_id e /\ te_signer e = Some caller /\ tx = env_of e caller.
Proof. apply tx_env_from_raw_spec. Qed.

(** C19: What a proved block attests: its transactions ran one after the other on the opened
    state, each admitted by the policy at its root call, each with every revm callback
    permitted by the policy and every committed account and slot inside the access
    envelope; the outcomes are theirs, the gas is their sum and within the block limit, the
    journal's post root is the commitment of the final state and its hashes those of the
    raw transactions and environment; and the transactions run are the decoded raw bytes,
    or the supplied environments. *)
Theorem executed_block_sound input (state : StateMap) policy verify mode gadgets decoded o :
  execute_block_on_state input state policy verify mode gadgets decoded = Ok o ->
  exists opened xs,
    install_input_block_hashes state input = Ok opened /\
    (verify = true -> room_state_root_v5 opened mode = Ok (si_prev_state_root input)) /\
    block_executed input (default legacy_unrestricted policy)
      (set_metrics DbAccessMetrics_default opened) mode gadgets o xs /\
    match decoded with
    | Some envs => map xt_env xs = envs
    | None => Forall2 (fun raw tx => tx_env_from_raw raw (env_chain_id (si_env input)) = Ok tx)
                (si_raw_txs input) (map xt_env xs)
    end.
Proof. apply execute_block_spec. Qed.

(** Recovering the signers once is sound: passing the already decoded environments of a
    block's raw transactions gives, on success and on every error, exactly the result of
    decoding them in the block. *)
Theorem predecoded_block_equivalent input (state : StateMap) policy verify mode gadgets envs :
  Forall2 (fun raw tx => tx_env_from_raw raw (env_chain_id (si_env input)) = Ok tx)
    (si_raw_txs input) envs ->
  execute_block_on_state input state policy verify mode gadgets (Some envs)
  = execute_block_on_state input state policy verify mode gadgets None.
Proof. apply predecoded_block. Qed.
End Claims.

(** ** Witness: one transfer, with a concrete codec and execution *)
Definition toy_tx_codec : TxCodec := {|
  decode_2718 raw :=
    match raw with
    | t :: caller :: target :: value :: nonce :: rest =>
        Some (mk_TxEnvelope (if t =? 2 then Eip1559 else Eip4844) nonce 0 (Some 0) (Some 9) 21000
                (TxCall target) value [] None (Some caller), rest)
    | _ => None
    end;
  rlp_b256_list l := concat (map (be_bytes 32) l)
|}.

(** Transfers between existing accounts. *)
Definition toy_info (r : AccountRecord) (nonce balance : Z) : Account (RV := toy_revm) :=
  mk_Account toy_revm true false false (mk_AccountInfo toy_revm balance nonce 77 None) [].
Definition toy_evm : @Evm toy_revm := {|
  transact config db policy tx :=
    let r a := default AccountRecord_default (sm_accounts (RV := toy_revm) db !! a) in
    match tx_kind tx with
    | TxCall target =>
        let from := r (tx_caller tx) in
        if negb (ar_nonce from =? tx_nonce tx) then Err "nonce"%string else
        Ok (mk_EvmRun toy_revm [ReadBasic (tx_caller tx); ReadBasic target]
              [HCall SchemeCall (tx_caller tx) target (tx_data tx)]
              [(tx_caller tx, toy_info from (ar_nonce from + 1) (ar_balance from - tx_value tx));
               (target, toy_info (r target) (ar_nonce (r target))
                          (ar_balance (r target) + tx_value tx))]
              true 21000)
    | TxCreate => Err "create"%string
    end
|}.
Definition toy_precompiles : OsakaPrecompiles := fun address => address <=? 17.

#[local] Existing Instance toy_keccak.
#[local] Existing Instance toy_revm.
#[local] Existing Instance toy_trie.
#[local] Existing Instance toy_tx_codec.
#[local] Existing Instance toy_evm.
#[local] Existing Instance toy_precompiles.

Definition transfer_raw : bytes := [2; 101; 102; 5; 0].
Definition transfer_input : StfInput :=
  mk_StfInput 7 1 0 [] [transfer_raw]
    (mk_BlockEnvV1 1 1000 30000000 0 0 0 0 0 9) [].
Definition transfer_state : StateMap :=
  mk_StateMap _ {[101 := mk_AccountRecord 0 50 [] ∅; 102 := mk_AccountRecord 0 1 [] ∅]}
    ∅ None None None ∅ ∅ DbAccessMetrics_default.
Definition transfer_env : TxEnv :=
  mk_TxEnv 2 101 21000 0 (TxCall 102) 5 [] 0 (Some 9) [] (Some 0).
Definition transfer_outcome : option BlockOutcome :=
  match execute_block_on_state transfer_input transfer_state None false 0 true None with
  | Ok o => Some o | Err _ => None end.
Definition transfer_post : StateMap :=
  match transfer_outcome with Some o => bo_post_state o | None => transfer_state end.

Lemma executed_block_sound_witness :
  exists o opened xs, transfer_outcome = Some o /\
    block_executed transfer_input legacy_unrestricted
      (set_metrics DbAccessMetrics_default opened) 0 true o xs /\
    ar_balance <$> (sm_accounts transfer_post !! 102) = Some 6.
Proof.
  assert (E : exists o,
    execute_block_on_state transfer_input transfer_state None false 0 true None = Ok o)
    by (eexists; vm_compute; reflexivity).
  destruct E as [o E].
  destruct (executed_block_sound transfer_input transfer_state None false 0 true None o E)
    as (opened & xs & _ & _ & H & _).
  exists o, opened, xs. split; [unfold transfer_outcome; rewrite E; reflexivity|].
  split; [exact H|]. vm_compute. reflexivity.
Defined.

Lemma predecoded_block_equivalent_witness :
  execute_block_on_state transfer_input transfer_state None false 0 true (Some [transfer_env])
  = execute_block_on_state transfer_input transfer_state None false 0 true None.
Proof.
  apply (predecoded_block_equivalent transfer_input transfer_state None false 0 true).
  constructor; [vm_compute; reflexivity|constructor].
Defined.

(** ** A second execution for the batch and template witnesses *)

(** A call stores its value in slot 9 of the target; a creation installs its data as the
    code of the account its value names. *)
Definition slot_change (r : AccountRecord) (nonce hash : Z) (code : option bytes)
    (storage : list (Z * Z)) : Account (RV := toy_revm) :=
  mk_Account toy_revm true false false (mk_AccountInfo toy_revm (ar_balance r) nonce hash code)
    storage.
Definition slot_evm : @Evm toy_revm := {|
  transact config db policy tx :=
    let r a := default AccountRecord_default (sm_accounts (RV := toy_revm) db !! a) in
    let from := r (tx_caller tx) in
    if negb (ar_nonce from =? tx_nonce tx) then Err "nonce"%string else
    let paid := (tx_caller tx, slot_change from (ar_nonce from + 1) 77 None []) in
    match tx_kind tx with
    | TxCall target =>
        Ok (mk_EvmRun toy_revm [ReadBasic (tx_caller tx); ReadStorage target 9]
              [HCall SchemeCall (tx_caller tx) target (tx_data tx)]
              [paid; (target, slot_change (r target) (ar_nonce (r target)) 78 None
                                [(9, tx_value tx)])]
              true 21000)
    | TxCreate =>
        Ok (mk_EvmRun toy_revm [ReadBasic (tx_caller tx)] [HCreate]
              [paid; (tx_value tx, slot_change (r (tx_value tx)) 1 78 (Some (tx_data tx)) [])]
              true 53000)
    end
|}.
(** Type, signer, target, value and nonce in one byte each, then the call data; a creation
    has target zero. *)
Definition slot_codec (chain_id : Z) : TxCodec := {|
  decode_2718 raw :=
    let envelope nonce kind value data signer :=
      Some (mk_TxEnvelope Eip1559 nonce 0 (Some 0) (Some chain_id) 21000 kind value data None
              (Some signer), []) in
    match raw with
    | 2 :: caller :: target :: value :: nonce :: data =>
        envelope nonce (if target =? 0 then TxCreate else TxCall target) value data caller
    | _ => None
    end;
  rlp_b256_list l := concat (map (be_bytes 32) l)
|}.
