(* ===== verification/LigetronGuest.v ===== *)
(** * The Ligetron statement ([ligetron-guest/src/main.rs])

    The wasm program of the Ligetron backend: it decodes the public witness, executes the block
    and asserts, constraint by constraint, that the journal it computed is the public expected
    journal.  A run is the list of the values given to [assert_one], or [None] for a trap (a
    panic, or an index past the end of the expected journal).  The prover prints are left out;
    they constrain nothing. *)

From S2P Require Import Prelude Types Borsh Abi WireV1 State StateEvm Policy Block.
Open Scope Z_scope.

Section Guest.
Context {KK : Keccak} {RV : Revm} {AT : AlloyTrie} {OP : OsakaPrecompiles} {TC : TxCodec}
  {EV : Evm} {BO : Borsh}.

(** [for i in 0..journal_bytes.len() { assert_one(journal_bytes[i] == expected_journal[i]) }] *)
Fixpoint assert_bytes (journal_bytes expected_journal : bytes) : option (list bool) :=
  match journal_bytes, expected_journal with
  | [], _ => Some []
  | _ :: _, [] => None
  | x :: journal_bytes, y :: expected_journal =>
      rest ← assert_bytes journal_bytes expected_journal; Some ((x =? y) :: rest)
  end.

Definition ligetron_main (input_bytes expected_journal : bytes) : option (list bool) :=
  match input_from_borsh input_bytes with
  | Err _ => Some [false]
  | Ok wire =>
      match execute_block (stf_to_input wire) with
      | Err _ => Some [false]
      | Ok journal =>
          match journal_to_borsh journal with
          | Err _ => None
          | Ok journal_bytes =>
              asserted ← assert_bytes journal_bytes expected_journal;
              Some ((zlen journal_bytes =? zlen expected_journal) :: asserted)
          end
      end
  end.

(** The circuit is satisfiable when the program does not trap and asserts no zero. *)
Definition satisfied (run : option (list bool)) : bool :=
  match run with Some constraints => forallb id constraints | None => false end.
End Guest.

(** * Properties *)

Lemma assert_bytes_satisfied j e :
  satisfied (asserted ← assert_bytes j e; Some ((zlen j =? zlen e) :: asserted)) = true <-> j = e.
Proof.
  unfold zlen. revert e. induction j as [|x j IH]; intros [|y e]; cbn [assert_bytes length].
  - cbn. split; reflexivity.
  - cbn. split; discriminate.
  - cbn. split; discriminate.
  - specialize (IH e). destruct (assert_bytes j e) as [l|]; cbn [mbind option_bind satisfied forallb] in *.
    + replace (Z.of_nat (S (length j)) =? Z.of_nat (S (length e)))
        with (Z.of_nat (length j) =? Z.of_nat (length e)) by (apply eq_true_iff_eq; rewrite !Z.eqb_eq; lia).
      unfold id in *. rewrite (andb_comm (x =? y)), andb_assoc, andb_true_iff, IH, Z.eqb_eq.
      split; [intros [-> ->]; reflexivity|intros H; injection H as -> ->; auto].
    + split; [discriminate|]. intros H. injection H as -> ->. discriminate (proj2 IH eq_refl).
Qed.

Section Claims.
Context {KK : Keccak} {RV : Revm} {AT : AlloyTrie} {OP : OsakaPrecompiles} {TC : TxCodec}
  {EV : Evm} {BO : Borsh}.

(** C32: The Ligetron circuit is satisfiable for exactly the public pairs in which the witness
    decodes, its block executes and the expected journal is the encoding of the journal the
    execution computes; a shorter, longer or different expected journal is never proved. *)
Theorem ligetron_statement_exact input_bytes expected_journal :
  satisfied (ligetron_main input_bytes expected_journal) = true <->
  exists wire journal,
    input_from_borsh input_bytes = Ok wire /\
    execute_block (stf_to_input wire) = Ok journal /\
    journal_to_borsh journal = Ok expected_journal.
Proof.
  unfold ligetron_main. destruct (input_from_borsh input_bytes) as [wire|].
  2: { split; [discriminate|]. intros (? & ? & H & _). discriminate H. }
  destruct (execute_block (stf_to_input wire)) as [journal|] eqn:E.
  2: { split; [discriminate|]. intros (? & ? & H & H' & _). injection H as <-. congruence. }
  destruct (journal_to_borsh journal) as [b|] eqn:J.
  - rewrite assert_bytes_satisfied. split; [intros <-; eauto|].
    intros (w & j & H & H' & H''). injection H as <-. congruence.
  - split; [discriminate|]. intros (w & j & H & H' & H''). injection H as <-. congruence.
Qed.
End Claims.

(** ** A transfer proved in the Borsh format itself *)
#[local] Existing Instance toy_keccak.
#[local] Existing Instance toy_revm.
#[local] Existing Instance toy_trie.
#[local] Existing Instance slot_evm.
#[local] Existing Instance toy_precompiles.
#[local] Existing Instance borsh_format.
Definition public_codec : TxCodec := slot_codec 77000007.
#[local] Existing Instance public_codec.

Definition public_wire (root : Z) : StfInputWire :=
  mk_StfInputWire 7 1 (be_bytes 32 root)
    [mk_AccountWire (be_bytes 20 101) 0 (be_bytes 32 50) [] [];
     mk_AccountWire (be_bytes 20 102) 0 (be_bytes 32 1) [] []]
    [[2; 101; 102; 5; 0]] (mk_EnvWire 1000 30000000) [].
Definition public_root : Z :=
  match room_state_root_v5 (state_map_from_input (si_state (stf_to_input (public_wire 0)))) 0 with
  | Ok root => root | Err _ => 0 end.
Definition public_witness : bytes :=
  match input_to_borsh (public_wire public_root) with Ok b => b | Err _ => [] end.
Definition public_journal : bytes :=
  match execute_block (stf_to_input (public_wire public_root)) with
  | Ok j => match journal_to_borsh j with Ok b => b | Err _ => [] end
  | Err _ => []
  end.
(** The journal of the transfer satisfies the circuit; the journal cut by a byte traps, and one
    with a changed byte does not satisfy it. *)
Example transfer_proved :
  zlen public_journal = 145 /\ satisfied (ligetron_main public_witness public_journal) = true /\
  ligetron_main public_witness (take 144 public_journal) = None /\
  satisfied (ligetron_main public_witness (0 :: drop 1 public_journal)) = false.
Proof. vm_compute. repeat split. Qed.
