(* ===== verification/BatchData.v ===== *)
(** * Canonical batch calldata: stf-types/src/batch_data.rs

    alloy-rlp's scalar encoders and list header are foreign ([AlloyRlp]); the
    structure of the calldata, which parent root each block carries and which
    fields are listed in which order, is the source's. *)

From S2P Require Import Prelude Types Abi.
Open Scope Z_scope.

Class AlloyRlp := {
  rlp_u64 : Z -> bytes;
  rlp_b256 : Z -> bytes;
  rlp_address : Z -> bytes;
  rlp_uint256 : Z -> bytes;
  rlp_bytes : bytes -> bytes;
  rlp_list_header : Z -> bytes   (* [Header { list: true, payload_length }] *)
}.

Section BatchData.
Context {KK : Keccak} {AR : AlloyRlp}.

(** The local function [list]. *)
Definition rlp_list (items : list bytes) : bytes :=
  let payload := concat items in
  rlp_list_header (zlen payload) ++ payload.

(** ** v4 *)
Definition encode_block_v4 (parent : Z) (block : BatchBlockV4) : bytes :=
  rlp_list
    [ rlp_u64 (bb4_block_number block);
      rlp_u64 (env_timestamp (bb4_env block));
      rlp_b256 parent;
      rlp_b256 (bb4_expected_post_state_root block);
      rlp_list (map rlp_bytes (bb4_raw_txs block)) ].

(** [blocks.iter().map(..)] with the mutable [parent]. *)
Fixpoint encode_blocks_v4 (parent : Z) (blocks : list BatchBlockV4) : list bytes :=
  match blocks with
  | [] => []
  | block :: rest =>
      encode_block_v4 parent block
      :: encode_blocks_v4 (bb4_expected_post_state_root block) rest
  end.

Definition canonical_batch_bytes_versioned (version : Z) (blocks : list BatchBlockV4)
    (pre_state_root : Z) : bytes :=
  rlp_list [rlp_u64 version; rlp_list (encode_blocks_v4 pre_state_root blocks)].
Definition canonical_batch_bytes_v4 (blocks : list BatchBlockV4) (pre_state_root : Z) : bytes :=
  canonical_batch_bytes_versioned 4 blocks pre_state_root.
Definition batch_block_data_hash_v4 (blocks : list BatchBlockV4) (pre_state_root : Z) : Z :=
  keccak256 (canonical_batch_bytes_v4 blocks pre_state_root).

(** ** v5 *)
Definition encode_history (history : list HistoricalBlockHash) : bytes :=
  rlp_list (map (fun item => rlp_list [rlp_u64 (hbh_number item); rlp_b256 (hbh_hash item)])
              history).
Definition encode_environment (env : BlockEnvV1) : bytes :=
  rlp_list
    [ rlp_u64 (env_number env); rlp_u64 (env_timestamp env); rlp_u64 (env_gas_limit env);
      rlp_address (env_coinbase env); rlp_uint256 (env_base_fee env);
      rlp_b256 (env_prev_randao env); rlp_uint256 (env_difficulty env);
      rlp_u64 (env_excess_blob_gas env); rlp_u64 (env_chain_id env) ].
Definition encode_block_v5 (parent : Z) (block : BatchBlockV5) : bytes :=
  rlp_list
    [ rlp_u64 (bb5_block_number block);
      encode_environment (bb5_env block);
      rlp_b256 parent;
      rlp_b256 (bb5_expected_post_state_root block);
      encode_history (bb5_block_hashes block);
      rlp_list (map rlp_bytes (bb5_raw_txs block)) ].

Fixpoint encode_blocks_v5 (parent : Z) (blocks : list BatchBlockV5) : list bytes :=
  match blocks with
  | [] => []
  | block :: rest =>
      encode_block_v5 parent block
      :: encode_blocks_v5 (bb5_expected_post_state_root block) rest
  end.

Definition canonical_batch_data_v5 (blocks : list BatchBlockV5) (pre_state_root : Z) : bytes :=
  rlp_list [rlp_u64 5; rlp_list (encode_blocks_v5 pre_state_root blocks)].
Definition batch_block_data_hash_v5 (blocks : list BatchBlockV5) (pre_state_root : Z) : Z :=
  keccak256 (canonical_batch_data_v5 blocks pre_state_root).
End BatchData.

(** * Properties *)

(** RLP is prefix-free on the types the calldata uses; an item is never empty. *)
Class RlpLaws (AR : AlloyRlp) : Prop := {
  rlp_u64_inj : prefix_inj in_u64 rlp_u64;
  rlp_b256_inj : prefix_inj in_u256 rlp_b256;
  rlp_address_inj : prefix_inj in_u160 rlp_address;
  rlp_uint256_inj : prefix_inj in_u256 rlp_uint256;
  rlp_bytes_inj : prefix_inj bytes_wf rlp_bytes;
  rlp_bytes_nonempty : forall b, rlp_bytes b <> [];
  rlp_header_inj : prefix_inj in_u64 rlp_list_header;
  rlp_header_nonempty : forall n, rlp_list_header n <> []
}.

Section Injectivity.
Context {KK : Keccak} {AR : AlloyRlp} {RL : RlpLaws AR}.

(** A list whose payload length fits the header. *)
Definition list_fits (items : list bytes) : Prop := in_u64 (zlen (concat items)).

Lemma rlp_list_inj items1 items2 r s :
  list_fits items1 -> list_fits items2 ->
  rlp_list items1 ++ r = rlp_list items2 ++ s -> concat items1 = concat items2 /\ r = s.
Proof.
  intros F1 F2 H. unfold rlp_list in H. rewrite <- !app_assoc in H.
  apply rlp_header_inj in H as [Hl H]; [|exact F1|exact F2].
  apply app_inj_len in H; [exact H|]. unfold zlen in Hl. lia.
Qed.

Lemma rlp_list_nonempty items : rlp_list items <> [].
Proof.
  unfold rlp_list. intros H. apply app_eq_nil in H as [H _]. exact (rlp_header_nonempty _ H).
Qed.

(** Homogeneous items in a list determine their number. *)
Lemma concat_items_inj {A} (P : A -> Prop) (enc : A -> bytes) l1 l2 :
  prefix_inj P enc -> (forall x, enc x <> []) -> Forall P l1 -> Forall P l2 ->
  concat (map enc l1) = concat (map enc l2) -> l1 = l2.
Proof.
  intros Hi Hne F1. revert l2. induction F1 as [|x l1 Hx F1 IH]; intros l2 F2 H.
  - destruct l2 as [|y l2]; [reflexivity|]. cbn in H. symmetry in H.
    apply app_eq_nil in H as [H _]. destruct (Hne y H).
  - destruct F2 as [|y l2 Hy F2].
    + cbn in H. apply app_eq_nil in H as [H _]. destruct (Hne x H).
    + cbn in H. apply Hi in H as [-> H]; auto. f_equal. apply IH; assumption.
Qed.

Lemma rlp_items_prefix_inj {A} (P : A -> Prop) (enc : A -> bytes) :
  prefix_inj P enc -> (forall x, enc x <> []) ->
  prefix_inj (fun l => Forall P l /\ list_fits (map enc l)) (fun l => rlp_list (map enc l)).
Proof.
  intros Hi Hne l1 l2 r s [F1 L1] [F2 L2] H. apply rlp_list_inj in H as [H ->]; auto.
  split; [|reflexivity]. eapply concat_items_inj; eauto.
Qed.

Lemma history_item_prefix_inj :
  prefix_inj (fun i => HistoricalBlockHash_wf i /\
                       list_fits [rlp_u64 (hbh_number i); rlp_b256 (hbh_hash i)])
    (fun item => rlp_list [rlp_u64 (hbh_number item); rlp_b256 (hbh_hash item)]).
Proof.
  intros [n1 h1] [n2 h2] r s [[W1 W2] L1] [[V1 V2] L2] H. cbn in *.
  apply rlp_list_inj in H as [H ->]; auto. cbn in H.
  apply rlp_u64_inj in H as [-> H]; auto. apply rlp_b256_inj in H as [-> _]; auto.
Qed.

(** A block whose lists fit their headers. *)
Definition environment_items (env : BlockEnvV1) : list bytes :=
  [ rlp_u64 (env_number env); rlp_u64 (env_timestamp env); rlp_u64 (env_gas_limit env);
    rlp_address (env_coinbase env); rlp_uint256 (env_base_fee env);
    rlp_b256 (env_prev_randao env); rlp_uint256 (env_difficulty env);
    rlp_u64 (env_excess_blob_gas env); rlp_u64 (env_chain_id env) ].
Definition block_items_v5 (parent : Z) (b : BatchBlockV5) : list bytes :=
  [ rlp_u64 (bb5_block_number b); encode_environment (bb5_env b); rlp_b256 parent;
    rlp_b256 (bb5_expected_post_state_root b); encode_history (bb5_block_hashes b);
    rlp_list (map rlp_bytes (bb5_raw_txs b)) ].
Record block_fits_v5 (parent : Z) (b : BatchBlockV5) : Prop := {
  bf_wf : BatchBlockV5_wf b;
  bf_parent : in_u256 parent;
  bf_items : list_fits (block_items_v5 parent b);
  bf_env : list_fits (environment_items (bb5_env b));
  bf_history : Forall (fun i => list_fits [rlp_u64 (hbh_number i); rlp_b256 (hbh_hash i)])
                 (bb5_block_hashes b) /\
    list_fits (map (fun i => rlp_list [rlp_u64 (hbh_number i); rlp_b256 (hbh_hash i)])
                 (bb5_block_hashes b));
  bf_txs : list_fits (map rlp_bytes (bb5_raw_txs b))
}.

Lemma encode_environment_inj e1 e2 r s :
  BlockEnvV1_wf e1 -> BlockEnvV1_wf e2 ->
  list_fits (environment_items e1) -> list_fits (environment_items e2) ->
  encode_environment e1 ++ r = encode_environment e2 ++ s -> e1 = e2 /\ r = s.
Proof.
  intros W1 W2 L1 L2 H. apply rlp_list_inj in H as [H ->]; auto. split; [|reflexivity].
  destruct e1, e2. unfold BlockEnvV1_wf in *. cbn in *. destruct_wf W1. destruct_wf W2.
  apply rlp_u64_inj in H as [-> H]; auto. apply rlp_u64_inj in H as [-> H]; auto.
  apply rlp_u64_inj in H as [-> H]; auto. apply rlp_address_inj in H as [-> H]; auto.
  apply rlp_uint256_inj in H as [-> H]; auto. apply rlp_b256_inj in H as [-> H]; auto.
  apply rlp_uint256_inj in H as [-> H]; auto. apply rlp_u64_inj in H as [-> H]; auto.
  apply rlp_u64_inj in H as [-> H]; auto.
Qed.

Lemma encode_block_v5_inj p1 p2 b1 b2 r s :
  block_fits_v5 p1 b1 -> block_fits_v5 p2 b2 ->
  encode_block_v5 p1 b1 ++ r = encode_block_v5 p2 b2 ++ s -> p1 = p2 /\ b1 = b2 /\ r = s.
Proof.
  intros [W1 P1 I1 E1 [H1 H1'] T1] [W2 P2 I2 E2 [H2 H2'] T2] H.
  apply rlp_list_inj in H as [H ->]; auto.
  destruct b1 as [n1 t1 e1 h1 x1], b2 as [n2 t2 e2 h2 x2]. unfold BatchBlockV5_wf in *. cbn in *.
  destruct W1 as (A1 & A2 & A3 & A4 & A5), W2 as (B1 & B2 & B3 & B4 & B5).
  apply rlp_u64_inj in H as [-> H]; auto.
  apply encode_environment_inj in H as [-> H]; auto.
  apply rlp_b256_inj in H as [-> H]; auto. apply rlp_b256_inj in H as [-> H]; auto.
  apply (rlp_items_prefix_inj _ _ history_item_prefix_inj (fun _ => rlp_list_nonempty _)) in H
    as [-> H]; [|split; [apply Forall_and; auto|assumption]..].
  apply (rlp_items_prefix_inj _ _ rlp_bytes_inj rlp_bytes_nonempty) in H as [-> _]; auto.
Qed.

Fixpoint blocks_fit_v5 (parent : Z) (blocks : list BatchBlockV5) : Prop :=
  match blocks with
  | [] => True
  | b :: rest => block_fits_v5 parent b /\ blocks_fit_v5 (bb5_expected_post_state_root b) rest
  end.

Lemma encode_blocks_v5_inj p1 p2 l1 l2 :
  blocks_fit_v5 p1 l1 -> blocks_fit_v5 p2 l2 ->
  concat (encode_blocks_v5 p1 l1) = concat (encode_blocks_v5 p2 l2) ->
  l1 = l2 /\ (l1 <> [] -> p1 = p2).
Proof.
  revert p1 p2 l2. induction l1 as [|b1 l1 IH]; intros p1 p2 [|b2 l2] F1 F2 H; cbn in *.
  - split; [reflexivity|congruence].
  - symmetry in H. apply app_eq_nil in H as [H _]. destruct (rlp_list_nonempty _ H).
  - apply app_eq_nil in H as [H _]. destruct (rlp_list_nonempty _ H).
  - destruct F1 as [F1 G1], F2 as [F2 G2].
    apply encode_block_v5_inj in H as (-> & -> & H); auto.
    apply IH in H as [-> _]; auto.
Qed.

Definition batch_fits_v5 (pre : Z) (blocks : list BatchBlockV5) : Prop :=
  blocks_fit_v5 pre blocks /\ list_fits (encode_blocks_v5 pre blocks) /\
  list_fits [rlp_u64 5; rlp_list (encode_blocks_v5 pre blocks)].

Lemma canonical_data_v5_inj p1 p2 l1 l2 :
  batch_fits_v5 p1 l1 -> batch_fits_v5 p2 l2 ->
  canonical_batch_data_v5 l1 p1 = canonical_batch_data_v5 l2 p2 ->
  l1 = l2 /\ (l1 <> [] -> p1 = p2).
Proof.
  intros (F1 & G1 & K1) (F2 & G2 & K2) H. unfold canonical_batch_data_v5 in H.
  apply (f_equal (fun b => b ++ [])) in H. apply rlp_list_inj in H as [H _]; auto.
  cbn in H. apply rlp_u64_inj in H as [_ H]; [|unfold in_u64; lia..].
  rewrite !app_nil_r in H. apply (f_equal (fun b => b ++ [])) in H.
  apply rlp_list_inj in H as [H _]; auto. eapply encode_blocks_v5_inj; eauto.
Qed.

(** The batch-data commitment of a long-lived room names every block completely: two
    batches with the same hash (absent a collision on their two encodings) have the same
    blocks, number, environment, history, transaction bytes and intermediate root by
    intermediate root, and the same pre-state root. *)
Theorem batch_data_hash_v5_binding p1 p2 l1 l2 :
  batch_fits_v5 p1 l1 -> batch_fits_v5 p2 l2 ->
  no_collision [canonical_batch_data_v5 l1 p1; canonical_batch_data_v5 l2 p2] ->
  batch_block_data_hash_v5 l1 p1 = batch_block_data_hash_v5 l2 p2 ->
  l1 = l2 /\ (l1 <> [] -> p1 = p2).
Proof.
  intros F1 F2 Hn H. apply canonical_data_v5_inj; auto. apply keccak256_inj; assumption.
Qed.
End Injectivity.

(** ** Witness: fixed-width scalars, and strings whose bytes are marked until a terminator *)
Definition marked_bytes (b : bytes) : bytes := concat (map (fun x => [1; x]) b) ++ [0].

Lemma marked_bytes_inj : prefix_inj bytes_wf marked_bytes.
Proof.
  intros x y r s _ _. revert y. unfold marked_bytes.
  induction x as [|a x IH]; intros [|c y] H; cbn in H; try discriminate.
  - injection H as ->. auto.
  - injection H as -> H. apply IH in H as [-> ->]. auto.
Qed.

Definition toy_rlp : AlloyRlp := {|
  rlp_u64 := be_bytes 8;
  rlp_b256 := be_bytes 32;
  rlp_address := be_bytes 20;
  rlp_uint256 := be_bytes 32;
  rlp_bytes := marked_bytes;
  rlp_list_header := be_bytes 8
|}.

Lemma toy_rlp_laws : RlpLaws toy_rlp.
Proof.
  split; cbn.
  - exact (prefix_inj_be 8).
  - exact (prefix_inj_be 32).
  - exact (prefix_inj_be 20).
  - exact (prefix_inj_be 32).
  - exact marked_bytes_inj.
  - intros [|x b]; discriminate.
  - exact (prefix_inj_be 8).
  - intros n H. apply (f_equal length) in H. rewrite length_be_bytes in H. discriminate.
Qed.

Definition demo_block : BatchBlockV5 :=
  mk_BatchBlockV5 7 [[1; 2]; [3]] (mk_BlockEnvV1 7 100 30 0 0 0 0 0 9)
    [mk_HistoricalBlockHash 6 55] 77.

Lemma demo_batch_fits : @batch_fits_v5 toy_rlp 5 [demo_block].
Proof.
  assert (D : forall l, bool_decide (in_u64 (zlen (concat l))) = true -> list_fits l).
  { intros l H. apply bool_decide_eq_true in H. exact H. }
  split; [|split; apply D; vm_compute; reflexivity]. split; [|exact I].
  split.
  - unfold BatchBlockV5_wf, demo_block, BlockEnvV1_wf, bytes_wf. cbn -[Z.pow]. solve_wf;
      unfold HistoricalBlockHash_wf; cbn -[Z.pow]; solve_wf.
  - unfold in_u256. lia.
  - apply D. vm_compute. reflexivity.
  - apply D. vm_compute. reflexivity.
  - split; [constructor; [|constructor]|]; apply D; vm_compute; reflexivity.
  - apply D. vm_compute. reflexivity.
Qed.

Lemma batch_data_hash_v5_binding_witness :
  [demo_block] = [demo_block] /\ ([demo_block] <> [] -> 5 = 5).
Proof.
  apply (@batch_data_hash_v5_binding toy_keccak toy_rlp toy_rlp_laws 5 5
           [demo_block] [demo_block]).
  - exact demo_batch_fits.
  - exact demo_batch_fits.
  - apply no_collisionb_spec. vm_compute. reflexivity.
  - reflexivity.
Defined.
