(* ===== verification/ColdState.v ===== *)
(** * Shape rules and the static-state commitment of cold v4 statements

    stf-core/src/cold_state.rs: which runtime code, access and refresh lists are
    well formed, that a state holds exactly the prepared code, and the commitment
    to every template value that is not explicitly refreshable.  The standard
    library's [binary_search] is modelled by its loop. *)

From S2P Require Import Prelude Types Abi HashV4 State StateEvm Policy Block.
Open Scope Z_scope.

(** ** [slice::binary_search] *)

(** The halving loop: [base] moves to [mid] unless the probe is greater. *)
Fixpoint search_base (fuel : nat) (l : list Z) (x base size : Z) : Z :=
  match fuel with
  | O => base
  | S fuel' =>
      if size <=? 1 then base else
      let half := size / 2 in
      let mid := base + half in
      let base := if x <? default 0 (znth l mid) then base else mid in
      search_base fuel' l x base (size - half)
  end.

(** [binary_search(..).is_ok()]. *)
Definition binary_search (l : list Z) (x : Z) : bool :=
  if zlen l =? 0 then false
  else bool_decide (znth l (search_base (length l) l x 0 (zlen l)) = Some x).

Section ColdState.
Context {KK : Keccak} {RV : Revm}.

(** ** Words *)
Definition cold_word_u64 (value : Z) : bytes := repeat 0 24 ++ be_bytes 8 value.
Definition cold_word_address (value : Z) : bytes := repeat 0 12 ++ be_bytes 20 value.
Definition cold_hash_words (words : list bytes) : Z := keccak256 (concat words).

(** ** Shapes *)

(** The body of the loop over the access list: addresses seen, slots counted. *)
Definition access_step (s : gmap Z (list Z) * Z) (access : ColdStateAccessV4)
  : result StfError (gmap Z (list Z) * Z) :=
  let '(access_by_address, access_slots) := s in
  fail_if bool_decide (is_Some (access_by_address !! csa_address access))
    with ColdPreparation "state access accounts must be unique" in
  fail_if negb (strictly_sorted (csa_storage_slots access))
    with ColdPreparation "state access slots must be strictly sorted and unique" in
  let? access_slots := ok_or (checked_add USIZE_MAX access_slots
                                (zlen (csa_storage_slots access)))
                         (ColdPreparation "state access slot count overflow") in
  Ok (<[csa_address access := csa_storage_slots access]> access_by_address, access_slots).

Definition code_has_access (access_by_address : gmap Z (list Z)) (_ : unit)
    (code : ColdRuntimeCodeV4) : result StfError unit :=
  fail_if negb (bool_decide (is_Some (access_by_address !! crc_address code)))
    with ColdPreparation "every runtime contract must have a state access entry" in
  Ok tt.

Definition refresh_step (access_by_address : gmap Z (list Z)) (previous_refresh : option Z)
    (refresh : ColdStateRefreshV4) : result StfError (option Z) :=
  fail_if not_after previous_refresh (csr_address refresh)
    with ColdPreparation "state refresh accounts must be strictly address-sorted and unique" in
  let? allowed_slots := ok_or (access_by_address !! csr_address refresh)
    (ColdPreparation "state refresh account is outside the template access set") in
  fail_if negb (strictly_sorted (csr_storage_slots refresh))
    with ColdPreparation "state refresh slots must be strictly sorted and unique" in
  fail_if negb (csr_refresh_all_storage refresh)
          && existsb (fun slot => negb (binary_search allowed_slots slot))
               (csr_storage_slots refresh)
    with ColdPreparation "state refresh slot is outside the template access set" in
  Ok (Some (csr_address refresh)).

Definition validate_cold_shapes_v4 (runtime_code : list ColdRuntimeCodeV4)
    (state_access : list ColdStateAccessV4) (state_refresh : list ColdStateRefreshV4)
  : result StfError unit :=
  fail_if (MAX_COMPACT_ACCOUNTS_V4 <? zlen runtime_code)
          || (MAX_COMPACT_ACCOUNTS_V4 <? zlen state_access)
          || (MAX_COMPACT_ACCOUNTS_V4 <? zlen state_refresh)
    with ColdPreparation "runtime/access/refresh account cap exceeded" in
  fail_if negb (strictly_sorted (map crc_address runtime_code))
    with ColdPreparation "runtime code must be strictly address-sorted and unique" in
  fail_if existsb (fun entry => crc_code_hash entry =? B256_ZERO) runtime_code
    with ColdPreparation "runtime code hash cannot be zero" in
  let? (access_by_address, access_slots) := for_each access_step (∅, 0) state_access in
  fail_if negb (strictly_sorted (map csa_address state_access))
    with ColdPreparation "state access accounts must be strictly address-sorted" in
  fail_if MAX_COMPACT_STORAGE_SLOTS_V4 <? access_slots
    with ColdPreparation "state access slot cap exceeded" in
  let? _ := for_each (code_has_access access_by_address) tt runtime_code in
  let? _ := for_each (refresh_step access_by_address) None state_refresh in
  Ok tt.

(** ** Runtime code *)
Definition prepared_code_present (accounts : gmap Z AccountRecord) (_ : unit)
    (entry : ColdRuntimeCodeV4) : result StfError unit :=
  let? account := ok_or (accounts !! crc_address entry)
                    (ColdPreparation "prepared runtime account is absent") in
  fail_if bool_decide (ar_code account = []) || negb (code_hash account =? crc_code_hash entry)
    with ColdPreparation "prepared runtime code hash mismatch" in
  Ok tt.

(** [iter().map(..).collect::<BTreeMap>()]. *)
Definition expected_code (runtime_code : list ColdRuntimeCodeV4) : gmap Z Z :=
  keyed_map crc_address crc_code_hash runtime_code.

Definition verify_cold_runtime_code_v4 (state : StateMap)
    (runtime_code : list ColdRuntimeCodeV4) : result StfError unit :=
  let? _ := for_each (prepared_code_present (sm_accounts state)) tt runtime_code in
  fail_if existsb (fun '(address, account) =>
            negb (bool_decide (ar_code account = []))
            && negb (bool_decide (is_Some (expected_code runtime_code !! address))))
            (sorted_entries (sm_accounts state))
    with ColdPreparation "uncommitted runtime code" in
  Ok tt.

(** ** The static-state commitment *)
Definition refresh_rules (state_refresh : list ColdStateRefreshV4)
  : gmap Z ColdStateRefreshV4 :=
  keyed_map csr_address id state_refresh.

(** [rule.is_some_and(..)]. *)
Definition rule_holds (f : ColdStateRefreshV4 -> bool) (rule : option ColdStateRefreshV4)
  : bool := match rule with Some entry => f entry | None => false end.

Definition static_slots (rule : option ColdStateRefreshV4) (slots : list Z) : list Z :=
  if rule_holds csr_refresh_all_storage rule then []
  else List.filter (fun slot =>
         negb (rule_holds (fun entry => binary_search (csr_storage_slots entry) slot) rule))
         slots.

Definition account_type : bytes := b_ "ColdStaticAccountV4(address account,uint64 nonce,uint256 balance,bytes32 codeHash,bytes32 staticStorageHash)".
Definition storage_type : bytes := b_ "ColdStaticStorageV4(uint256 slot,uint256 value)".
Definition state_type : bytes := b_ "ColdStaticStateV4(bytes32 stateAccessRoot,bytes32 stateRefreshRoot,bytes32 accountHashes)".

Definition static_slot_words (account : AccountRecord) (slot : Z) : list bytes :=
  [ b256_word (keccak256 storage_type); be_bytes 32 slot;
    be_bytes 32 (default 0 (ar_storage account !! slot)) ].
Definition static_storage_bytes (account : AccountRecord) (slots : list Z) : bytes :=
  b256_bytes (keccak256 (b_ "ColdStaticStorageV4[]")) ++ cold_word_u64 (zlen slots)
  ++ concat (map (fun slot => b256_bytes (cold_hash_words (static_slot_words account slot)))
               slots).

Definition static_account_words (rule : option ColdStateRefreshV4)
    (access : ColdStateAccessV4) (account : AccountRecord) : list bytes :=
  [ b256_word (keccak256 account_type);
    cold_word_address (csa_address access);
    cold_word_u64 (if rule_holds csr_refresh_nonce rule then 0 else ar_nonce account);
    be_bytes 32 (if rule_holds csr_refresh_balance rule then 0 else ar_balance account);
    b256_word (code_hash account);
    b256_word (keccak256 (static_storage_bytes account
                            (static_slots rule (csa_storage_slots access)))) ].

Definition static_account_step (accounts : gmap Z AccountRecord)
    (refresh : gmap Z ColdStateRefreshV4) (account_hashes : list Z)
    (access : ColdStateAccessV4) : result StfError (list Z) :=
  let? account := ok_or (accounts !! csa_address access)
                    (ColdPreparation "template access account is absent") in
  let rule := refresh !! csa_address access in
  fail_if negb (rule_holds csr_refresh_all_storage rule)
          && existsb (fun slot => negb (binary_search (csa_storage_slots access) slot))
               (sorted_keys (ar_storage account))
    with ColdPreparation "account contains storage outside its cold access set" in
  Ok (account_hashes ++ [cold_hash_words (static_account_words rule access account)]).

Definition static_state_bytes (state_access : list ColdStateAccessV4)
    (state_refresh : list ColdStateRefreshV4) (account_hashes : list Z) : bytes :=
  b256_bytes (keccak256 state_type)
  ++ b256_bytes (hash_cold_state_access_v4 state_access)
  ++ b256_bytes (hash_cold_state_refresh_v4 state_refresh)
  ++ cold_word_u64 (zlen account_hashes)
  ++ concat (map b256_bytes account_hashes).

Definition cold_static_state_commitment_v4 (state : StateMap)
    (state_access : list ColdStateAccessV4) (state_refresh : list ColdStateRefreshV4)
  : result StfError Z :=
  let? _ := validate_cold_shapes_v4 [] state_access state_refresh in
  let? account_hashes :=
    for_each (static_account_step (sm_accounts state) (refresh_rules state_refresh)) []
      state_access in
  Ok (keccak256 (static_state_bytes state_access state_refresh account_hashes)).
End ColdState.

(** * Properties *)

(** ** The search loop *)

(** Position order of a strictly sorted list. *)
Lemma strictly_sorted_lookup l i j x y :
  strictly_sorted l = true -> l !! i = Some x -> l !! j = Some y -> (i < j)%nat -> x < y.
Proof.
  revert i j x y. induction l as [|a l IH]; intros i j x y Hs Hi Hj Hij; [discriminate|].
  assert (Hl : strictly_sorted l = true).
  { cbn in Hs. destruct l; [reflexivity|]. apply andb_true_iff in Hs. tauto. }
  destruct j as [|j]; [lia|]. destruct i as [|i]; [|apply (IH i j x y); auto; lia].
  injection Hi as <-. cbn in Hj.
  destruct l as [|b l]; [discriminate|]. apply andb_true_iff in Hs as [Hab _].
  apply Z.ltb_lt in Hab. destruct j as [|j]; [injection Hj as <-; exact Hab|].
  specialize (IH 0%nat (S j) b y Hl eq_refl Hj). lia.
Qed.

(** The invariant of the loop: what is at or after [base + size] is greater
    than the target, what is before [base] smaller, and the fuel covers the size. *)
Lemma search_base_spec fuel l x base size k :
  strictly_sorted l = true -> l !! k = Some x ->
  0 <= base -> 1 <= size -> base + size <= zlen l -> size <= Z.of_nat fuel ->
  base <= Z.of_nat k < base + size ->
  search_base fuel l x base size = Z.of_nat k.
Proof.
  intros Hs Hk. revert base size. induction fuel as [|fuel IH]; intros base size H0 H1 H2 H3 H4;
    [lia|].
  cbn [search_base]. destruct (Z.leb_spec size 1); [lia|].
  assert (Hh : 1 <= size / 2 < size).
  { split; [apply Z.div_le_lower_bound; lia|apply Z.div_lt; lia]. }
  unfold znth, zlen in *. destruct (Z.ltb_spec (base + size / 2) 0); [lia|].
  destruct (lookup_lt_is_Some_2 l (Z.to_nat (base + size / 2))) as [m Hm]; [lia|].
  rewrite Hm. cbn [default id].
  assert (Hd : size = 2 * (size / 2) + size mod 2) by (apply Z.div_mod; lia).
  pose proof (Z.mod_pos_bound size 2). destruct (Z.ltb_spec x m) as [Hlt|Hge].
  - apply IH; try lia. split; [lia|].
    destruct (decide (Z.of_nat k < base + (size - size / 2))); [assumption|].
    assert (k < Z.to_nat (base + size / 2))%nat; [|lia].
    destruct (decide (k < Z.to_nat (base + size / 2))%nat) as [|Hn]; [assumption|].
    destruct (decide (k = Z.to_nat (base + size / 2))) as [->|];
      [rewrite Hk in Hm; injection Hm as <-; lia|].
    pose proof (strictly_sorted_lookup l _ _ _ _ Hs Hm Hk). lia.
  - apply IH; try lia. split; [|lia].
    destruct (decide (k < Z.to_nat (base + size / 2))%nat) as [Hn|]; [|lia].
    pose proof (strictly_sorted_lookup l _ _ _ _ Hs Hk Hm Hn). lia.
Qed.

(** On a strictly sorted slice the search ends within its fuel and decides membership. *)
Lemma binary_search_spec l x :
  strictly_sorted l = true -> binary_search l x = true <-> x ∈ l.
Proof.
  intros Hs. unfold binary_search. pose proof (zlen_nonneg l).
  destruct (Z.eqb_spec (zlen l) 0) as [Hz|Hz].
  - unfold zlen in Hz. destruct l; [|cbn in Hz; lia]. split; [discriminate|inversion 1].
  - rewrite bool_decide_eq_true. split.
    + unfold znth. destruct (_ <? 0); [discriminate|]. apply list_elem_of_lookup_2.
    + intros [k Hk]%list_elem_of_lookup. pose proof (lookup_lt_Some _ _ _ Hk).
      rewrite (search_base_spec (length l) l x 0 (zlen l) k) by (auto; unfold zlen in *; lia).
      unfold znth. destruct (Z.ltb_spec (Z.of_nat k) 0); [lia|]. rewrite Nat2Z.id. exact Hk.
Qed.

(** Any fuel that covers the size gives the same position: the loop has ended. *)
Lemma search_base_fuel l x f1 f2 base size :
  size <= Z.of_nat f1 -> size <= Z.of_nat f2 ->
  search_base f1 l x base size = search_base f2 l x base size.
Proof.
  revert f2 base size. induction f1 as [|f1 IH]; intros f2 base size H1 H2.
  - destruct f2 as [|f2]; [reflexivity|]. cbn [search_base].
    destruct (Z.leb_spec size 1); [reflexivity|lia].
  - destruct f2 as [|f2]; cbn [search_base].
    + destruct (Z.leb_spec size 1); [reflexivity|lia].
    + destruct (Z.leb_spec size 1) as [|Hs]; [reflexivity|].
      assert (1 <= size / 2) by (apply Z.div_le_lower_bound; lia). apply IH; lia.
Qed.

(** The search over a slice ends and decides membership: with any fuel at least the
    length of the slice the halving loop reaches the same position, which no further
    iteration changes, and on a strictly sorted slice the element is found there exactly
    when the slice contains it. *)
Theorem binary_search_total l x fuel :
  (length l <= fuel)%nat -> strictly_sorted l = true ->
  search_base fuel l x 0 (zlen l) = search_base (length l) l x 0 (zlen l) /\
  (binary_search l x = true <-> x ∈ l).
Proof.
  intros Hf Hs. split; [|apply binary_search_spec, Hs].
  apply search_base_fuel; unfold zlen; lia.
Qed.
Lemma binary_search_total_witness : binary_search [2; 5; 9; 40] 9 = true.
Proof.
  apply (binary_search_total [2; 5; 9; 40] 9 10); [cbn; lia|reflexivity|].
  right. right. left.
Defined.

(** ** Shapes, exactly *)
Section Shapes.
Implicit Types (runtime : list ColdRuntimeCodeV4) (access : list ColdStateAccessV4)
  (refresh : list ColdStateRefreshV4).

Abbreviation access_map := (keyed_map csa_address csa_storage_slots).
Definition access_slots_total access : Z :=
  zsum (map (fun e => zlen (csa_storage_slots e)) access).

(** What a refresh rule may name. *)
Definition refresh_scoped access (r : ColdStateRefreshV4) : Prop :=
  key_sorted id (csr_storage_slots r) /\
  exists e, e ∈ access /\ csa_address e = csr_address r /\
    (csr_refresh_all_storage r = false ->
     forall slot, slot ∈ csr_storage_slots r -> slot ∈ csa_storage_slots e).

Record shapes_ok runtime access refresh : Prop := {
  so_caps : zlen runtime <= MAX_COMPACT_ACCOUNTS_V4 /\ zlen access <= MAX_COMPACT_ACCOUNTS_V4 /\
    zlen refresh <= MAX_COMPACT_ACCOUNTS_V4;
  so_runtime : key_sorted crc_address runtime /\
    Forall (fun e => crc_code_hash e <> B256_ZERO) runtime;
  so_access : key_sorted csa_address access;
  so_access_slots : Forall (fun e => key_sorted id (csa_storage_slots e)) access;
  so_slots : access_slots_total access <= MAX_COMPACT_STORAGE_SLOTS_V4;
  so_covered : Forall (fun c => exists e, e ∈ access /\ csa_address e = crc_address c) runtime;
  so_refresh : key_sorted csr_address refresh /\ Forall (refresh_scoped access) refresh
}.

Lemma access_loop access s :
  for_each access_step (∅, 0) access = Ok s <->
  NoDup (map csa_address access) /\
  Forall (fun e => key_sorted id (csa_storage_slots e)) access /\
  access_slots_total access <= USIZE_MAX /\
  s = (access_map access, access_slots_total access).
Proof.
  revert s. induction access as [|e access IH] using rev_ind; intros s.
  - cbn. split; [intros H; injection H as <-|intros (_ & _ & _ & ->); reflexivity].
    split_and!; [constructor|constructor|vm_compute; discriminate|reflexivity].
  - rewrite for_each_app, rbind_Ok. setoid_rewrite IH. cbn [for_each].
    unfold access_slots_total in *. rewrite !map_app, zsum_app, keyed_map_snoc.
    cbn [map zsum foldr]. rewrite Z.add_0_r, Forall_app, Forall_singleton, NoDup_app.
    pose proof (zsum_zlen_nonneg csa_storage_slots access).
    pose proof (zlen_nonneg (csa_storage_slots e)). split.
    + intros (? & (H1 & H2 & H3 & ->) & H4). apply rbind_Ok in H4 as (s' & H4 & H5).
      apply Ok_Ok in H5 as <-. unfold access_step in H4. apply fail_if_Ok in H4 as [G1 H4].
      apply fail_if_Ok in H4 as [G2 H4]. apply rbind_Ok in H4 as (n & Hn & H4).
      apply ok_or_Ok, checked_add_Some in Hn as [Hn ->]. apply Ok_Ok in H4 as <-.
      apply negb_false_iff, strictly_sorted_id in G2. apply bool_decide_eq_false in G1.
      split_and!; auto; try apply NoDup_singleton.
      intros a Ha ->%list_elem_of_singleton. apply G1.
      apply list_elem_of_fmap in Ha as (x & Hx & Ha). exists (csa_storage_slots x).
      apply keyed_map_lookup; eauto.
    + intros ((H1 & H2 & _) & [H3 H4] & H5 & ->). eexists. split; [split_and!; auto; lia|].
      unfold access_step. rewrite bool_decide_eq_false_2.
      * apply strictly_sorted_id in H4. rewrite H4. cbn [negb].
        destruct (checked_add _ _ _) as [n|] eqn:Hc.
        -- apply checked_add_Some in Hc as [_ ->]. reflexivity.
        -- unfold checked_add in Hc. destruct (Z.leb_spec (zsum (map (fun e => zlen
             (csa_storage_slots e)) access) + zlen (csa_storage_slots e)) USIZE_MAX);
             [discriminate|lia].
      * intros [sl Hsl]. apply keyed_map_lookup in Hsl as (x & Hx & Hxe & _); [|exact H1].
        apply (H2 (csa_address x)); [apply list_elem_of_fmap; eauto|]. rewrite Hxe. left.
Qed.

Lemma refresh_step_spec access p r s :
  NoDup (map csa_address access) ->
  Forall (fun e => key_sorted id (csa_storage_slots e)) access ->
  refresh_step (access_map access) p r = Ok s <->
  not_after p (csr_address r) = false /\ refresh_scoped access r /\ s = Some (csr_address r).
Proof.
  intros Hn Hs. unfold refresh_step. rewrite fail_if_Ok, rbind_Ok. setoid_rewrite ok_or_Ok.
  setoid_rewrite (fun a sl => keyed_map_lookup csa_address csa_storage_slots access a sl Hn).
  setoid_rewrite fail_if_Ok. setoid_rewrite fail_if_Ok. setoid_rewrite Ok_Ok.
  setoid_rewrite negb_false_iff. setoid_rewrite strictly_sorted_id. unfold refresh_scoped.
  assert (G : forall e, e ∈ access ->
    negb (csr_refresh_all_storage r) && existsb (fun slot =>
      negb (binary_search (csa_storage_slots e) slot)) (csr_storage_slots r) = false <->
    (csr_refresh_all_storage r = false ->
     forall slot, slot ∈ csr_storage_slots r -> slot ∈ csa_storage_slots e)).
  { intros e He. rewrite andb_false_iff, negb_false_iff, existsb_false_iff.
    rewrite Forall_forall in Hs. specialize (Hs e He). apply strictly_sorted_id in Hs.
    setoid_rewrite negb_false_iff. setoid_rewrite (binary_search_spec _ _ Hs).
    destruct (csr_refresh_all_storage r); naive_solver. }
  split.
  - intros (Hp & sl & (e & He & Ha & <-) & Hr & Hx & <-). split_and!; auto.
    exists e. split_and!; auto. apply G; assumption.
  - intros (Hp & (Hr & e & He & Ha & Hx) & ->). split; [exact Hp|].
    exists (csa_storage_slots e). split; [eauto|]. split_and!; auto. apply G; assumption.
Qed.

Lemma shapes_spec runtime access refresh :
  validate_cold_shapes_v4 runtime access refresh = Ok tt <-> shapes_ok runtime access refresh.
Proof.
  unfold validate_cold_shapes_v4. rewrite !fail_if_Ok, rbind_Ok, !orb_false_iff, !Z.ltb_ge,
    negb_false_iff, strictly_sorted_key, existsb_false_iff. split.
  - intros (Hcap & Hr & Hz & [m n] & Hl & H). apply access_loop in Hl as (Hn & Hs & _ & Hm).
    injection Hm as -> ->. apply fail_if_Ok in H as [G1 H]. apply fail_if_Ok in H as [G2 H].
    apply rbind_Ok in H as ([] & Hc & H). apply rbind_Ok in H as (l & Hf & _).
    apply negb_false_iff, strictly_sorted_key in G1. apply Z.ltb_ge in G2.
    apply (for_each_ordered csr_address (refresh_scoped access)) in Hf as (F1 & F2 & _);
      [|intros p a s'; apply refresh_step_spec; assumption].
    split; auto; try tauto.
    + split; [exact Hr|]. apply Forall_forall. intros e He. apply Z.eqb_neq, Hz, He.
    + revert Hc. apply for_each_passed. intros [] c [] Hb. unfold code_has_access in Hb.
      apply fail_if_Ok in Hb as [Hb _]. apply negb_bool_decide_false, keyed_map_is_Some in Hb. exact Hb.
  - intros [Hcap [R1 R2] A1 A2 A3 C [F1 F2]]. rewrite Forall_forall in R2.
    assert (Hn : NoDup (map csa_address access)) by (apply key_sorted_NoDup, A1).
    split; [tauto|]. split; [exact R1|]. split; [intros e He; apply Z.eqb_neq, R2, He|].
    exists (access_map access, access_slots_total access). split.
    { apply access_loop. split_and!; auto. unfold MAX_COMPACT_STORAGE_SLOTS_V4, USIZE_MAX in *. lia. }
    rewrite !fail_if_Ok, negb_false_iff, strictly_sorted_key, Z.ltb_ge, rbind_Ok.
    split_and!; auto. exists tt. split.
    + apply for_each_check. intros c Hc. rewrite Forall_forall in C. specialize (C c Hc).
      apply (keyed_map_is_Some csa_address csa_storage_slots) in C. unfold code_has_access.
      rewrite bool_decide_eq_true_2 by exact C. reflexivity.
    + apply rbind_Ok. eexists. split; [|reflexivity].
      apply (for_each_ordered csr_address (refresh_scoped access));
        [intros p a s'; apply refresh_step_spec; assumption|split_and!; auto].
Qed.
End Shapes.

(** ** What the static commitment binds *)
Section Static.
Context {KK : Keccak} {KR : KeccakRange} {RV : Revm}.
Implicit Types (accounts : gmap Z AccountRecord) (rules : gmap Z ColdStateRefreshV4)
  (access : list ColdStateAccessV4) (refresh : list ColdStateRefreshV4).

(** The refresh policy names the slot. *)
Definition refreshed (rule : option ColdStateRefreshV4) (slot : Z) : bool :=
  rule_holds csr_refresh_all_storage rule
  || rule_holds (fun e => bool_decide (slot ∈ csr_storage_slots e)) rule.

(** The storage of a declared account lies in its access set unless all of it is refreshed. *)
Definition storage_declared (rule : option ColdStateRefreshV4) (e : ColdStateAccessV4)
    (account : AccountRecord) : Prop :=
  rule_holds csr_refresh_all_storage rule = false ->
  forall slot, is_Some (ar_storage account !! slot) -> slot ∈ csa_storage_slots e.

Definition static_account accounts rules (e : ColdStateAccessV4) : bytes :=
  concat (static_account_words (rules !! csa_address e) e
            (default AccountRecord_default (accounts !! csa_address e))).

Definition static_bytes accounts access refresh : bytes :=
  static_state_bytes access refresh
    (map (fun e => keccak256 (static_account accounts (refresh_rules refresh) e)) access).

Lemma static_commitment_spec (state : StateMap) access refresh c :
  cold_static_state_commitment_v4 state access refresh = Ok c ->
  shapes_ok [] access refresh /\
  Forall (fun e => exists account, sm_accounts state !! csa_address e = Some account /\
    storage_declared (refresh_rules refresh !! csa_address e) e account) access /\
  c = keccak256 (static_bytes (sm_accounts state) access refresh).
Proof.
  unfold cold_static_state_commitment_v4. intros H.
  apply rbind_Ok in H as ([] & Hs & H). apply shapes_spec in Hs.
  apply rbind_Ok in H as (hs & Hf & H). apply Ok_Ok in H as <-. split; [exact Hs|].
  apply (for_each_collect (fun e h => key_sorted id (csa_storage_slots e) -> (exists account,
      sm_accounts state !! csa_address e = Some account /\
      storage_declared (refresh_rules refresh !! csa_address e) e account) /\
      h = keccak256 (static_account (sm_accounts state) (refresh_rules refresh) e))) in Hf.
  - assert (G : hs = map (fun e => keccak256 (static_account (sm_accounts state)
        (refresh_rules refresh) e)) access /\
      Forall (fun e => exists account, sm_accounts state !! csa_address e = Some account /\
        storage_declared (refresh_rules refresh !! csa_address e) e account) access).
    { pose proof (so_access_slots _ _ _ Hs) as Hso. clear Hs.
      induction Hf as [|e h es hs He Hf IH]; [split; [reflexivity|constructor]|].
      inversion Hso as [|? ? Hso1 Hso2]; subst. destruct (He Hso1) as [H1 ->].
      destruct (IH Hso2) as [-> H2]. split; [reflexivity|]. constructor; assumption. }
    destruct G as [-> G]. split; [exact G|reflexivity].
  - intros l e s Hb. unfold static_account_step in Hb. apply rbind_Ok in Hb as (a & Ha & Hb).
    apply ok_or_Ok in Ha. apply fail_if_Ok in Hb as [G Hb]. apply Ok_Ok in Hb as <-.
    eexists. split; [reflexivity|]. intros Hso. apply strictly_sorted_id in Hso. split.
    + exists a. split; [exact Ha|]. intros Hall slot Hslot. rewrite Hall in G. cbn in G.
      rewrite existsb_false_iff in G. apply sorted_keys_elem in Hslot. specialize (G slot Hslot).
      apply negb_false_iff in G. apply (binary_search_spec _ _ Hso), G.
    + unfold static_account. rewrite Ha. reflexivity.
Qed.

(** Every preimage the commitment hashes, from the slots up. *)
Definition static_entry_preimages accounts rules (e : ColdStateAccessV4) : list bytes :=
  let account := default AccountRecord_default (accounts !! csa_address e) in
  let slots := static_slots (rules !! csa_address e) (csa_storage_slots e) in
  static_account accounts rules e :: static_storage_bytes account slots
  :: map (fun slot => concat (static_slot_words account slot)) slots.
Definition static_preimages accounts access refresh : list bytes :=
  static_bytes accounts access refresh
  :: concat (map (static_entry_preimages accounts (refresh_rules refresh)) access).

(** Machine-typed accounts. *)
Definition account_in_range (a : AccountRecord) : Prop :=
  in_u64 (ar_nonce a) /\ in_u256 (ar_balance a) /\ in_u256 (code_hash a) /\
  map_Forall (fun _ v => in_u256 v) (ar_storage a).

(** Two accounts that differ in nothing but what the rule refreshes. *)
Record static_agree (rule : option ColdStateRefreshV4) (a1 a2 : AccountRecord) : Prop := {
  sag_nonce : rule_holds csr_refresh_nonce rule = false -> ar_nonce a1 = ar_nonce a2;
  sag_balance : rule_holds csr_refresh_balance rule = false -> ar_balance a1 = ar_balance a2;
  sag_code : code_hash a1 = code_hash a2;
  sag_storage : forall slot, refreshed rule slot = false ->
    default 0 (ar_storage a1 !! slot) = default 0 (ar_storage a2 !! slot)
}.

Lemma slot_in_range a slot : account_in_range a -> in_u256 (default 0 (ar_storage a !! slot)).
Proof.
  intros (_ & _ & _ & H). destruct (ar_storage a !! slot) as [v|] eqn:E.
  - apply (H slot v E).
  - cbn. unfold in_u256. lia.
Qed.

Lemma hash_bytes_inj x y :
  b256_bytes (keccak256 x) = b256_bytes (keccak256 y) -> keccak256 x = keccak256 y.
Proof. intros H. apply (be_bytes_inj 32) in H; [exact H|apply keccak_range|apply keccak_range]. Qed.

Lemma map_eq_elem {A B} (f g : A -> B) l x : map f l = map g l -> x ∈ l -> f x = g x.
Proof.
  induction l as [|a l IH]; intros H Hx; [inversion Hx|]. injection H as Ha H.
  apply elem_of_cons in Hx as [->|Hx]; auto.
Qed.

(** Lists of hashes, as bytes, determine the hashes. *)
Lemma hash_list_inj {A} (f g : A -> bytes) l x :
  concat (map (fun a => b256_bytes (keccak256 (f a))) l)
  = concat (map (fun a => b256_bytes (keccak256 (g a))) l) ->
  x ∈ l -> keccak256 (f x) = keccak256 (g x).
Proof.
  intros H Hx. apply (concat_width_inj 32) in H.
  - apply hash_bytes_inj. exact (map_eq_elem _ _ l x H Hx).
  - apply Forall_map, Forall_true. intros a. apply length_be_bytes.
  - apply Forall_map, Forall_true. intros a. apply length_be_bytes.
  - rewrite !length_map. reflexivity.
Qed.

Lemma static_slots_elem rule (slots : list Z) slot :
  (forall e, rule = Some e -> key_sorted id (csr_storage_slots e)) ->
  slot ∈ static_slots rule slots <-> slot ∈ slots /\ refreshed rule slot = false.
Proof.
  intros Hs. unfold static_slots, refreshed. destruct rule as [e|]; cbn [rule_holds].
  - destruct (csr_refresh_all_storage e); cbn [orb].
    + split; [inversion 1|intros [_ H]; discriminate].
    + rewrite list_elem_of_In, filter_In, <- list_elem_of_In, negb_true_iff.
      specialize (Hs e eq_refl). apply strictly_sorted_id in Hs.
      pose proof (binary_search_spec _ slot Hs) as Hb.
      rewrite bool_decide_eq_false, <- not_true_iff_false, Hb. reflexivity.
  - cbn [orb]. rewrite list_elem_of_In, filter_In, <- list_elem_of_In. cbn. naive_solver.
Qed.

Lemma static_storage_inj a1 a2 slots slot :
  account_in_range a1 -> account_in_range a2 ->
  no_collision (map (fun slot => concat (static_slot_words a1 slot)) slots
                ++ map (fun slot => concat (static_slot_words a2 slot)) slots) ->
  static_storage_bytes a1 slots = static_storage_bytes a2 slots -> slot ∈ slots ->
  default 0 (ar_storage a1 !! slot) = default 0 (ar_storage a2 !! slot).
Proof.
  intros R1 R2 Hn H Hin. unfold static_storage_bytes in H. apply app_inv_head, app_inv_head in H.
  apply (hash_list_inj (fun s => concat (static_slot_words a1 s))
           (fun s => concat (static_slot_words a2 s)) slots slot) in H; [|exact Hin].
  apply Hn in H.
  - unfold static_slot_words in H. cbn [concat] in H. rewrite !app_nil_r in H.
    apply app_inv_head, app_inv_head in H.
    apply (be_bytes_inj 32) in H; [exact H|apply slot_in_range, R1|apply slot_in_range, R2].
  - apply elem_of_app. left. apply list_elem_of_fmap. eauto.
  - apply elem_of_app. right. apply list_elem_of_fmap. eauto.
Qed.

Lemma static_entry_inj accounts1 accounts2 rules e a1 a2 :
  accounts1 !! csa_address e = Some a1 -> accounts2 !! csa_address e = Some a2 ->
  account_in_range a1 -> account_in_range a2 ->
  (forall r, rules !! csa_address e = Some r -> key_sorted id (csr_storage_slots r)) ->
  storage_declared (rules !! csa_address e) e a1 ->
  storage_declared (rules !! csa_address e) e a2 ->
  no_collision (static_entry_preimages accounts1 rules e
                ++ static_entry_preimages accounts2 rules e) ->
  keccak256 (static_account accounts1 rules e) = keccak256 (static_account accounts2 rules e) ->
  static_agree (rules !! csa_address e) a1 a2.
Proof.
  intros E1 E2 R1 R2 Hr D1 D2 Hn H. unfold static_entry_preimages in Hn.
  rewrite E1, E2 in Hn. cbn [default id] in Hn.
  apply Hn in H; [|left|apply elem_of_app; right; left].
  unfold static_account in H. rewrite E1, E2 in H. cbn [default id] in H.
  apply (concat_width_inj 32) in H; [|repeat constructor; apply length_be_bytes || (cbn;
    rewrite ?length_app, ?length_be_bytes; reflexivity)..|reflexivity].
  unfold static_account_words in H.
  pose proof (f_equal (fun l => nth 2 l []) H) as Hnonce.
  pose proof (f_equal (fun l => nth 3 l []) H) as Hbal.
  pose proof (f_equal (fun l => nth 4 l []) H) as Hcode.
  apply (f_equal (fun l => nth 5 l [])) in H as Hst. cbn [nth] in Hnonce, Hbal, Hcode, Hst.
  destruct R1 as (N1 & B1 & C1 & V1), R2 as (N2 & B2 & C2 & V2). split.
  - intros Hf. rewrite Hf in Hnonce. apply app_inv_head in Hnonce.
    apply (be_bytes_inj 8) in Hnonce; assumption.
  - intros Hf. rewrite Hf in Hbal. apply (be_bytes_inj 32) in Hbal; assumption.
  - apply (be_bytes_inj 32) in Hcode; assumption.
  - intros slot Hslot. apply hash_bytes_inj in Hst. apply Hn in Hst;
      [|right; left|apply elem_of_app; right; right; left].
    destruct (decide (slot ∈ csa_storage_slots e)) as [Hin|Hout].
    + eapply static_storage_inj; [split; eauto|split; eauto| |exact Hst|].
      * eapply no_collision_mono; [|exact Hn]. intros x Hx.
        apply elem_of_app in Hx as [Hx|Hx]; apply elem_of_app; [left|right]; right; right; exact Hx.
      * apply static_slots_elem; auto.
    + assert (Hall : rule_holds csr_refresh_all_storage (rules !! csa_address e) = false).
      { unfold refreshed in Hslot. apply orb_false_iff in Hslot. tauto. }
      destruct (ar_storage a1 !! slot) eqn:X1; [destruct Hout; apply D1; eauto|].
      destruct (ar_storage a2 !! slot) eqn:X2; [destruct Hout; apply D2; eauto|]. reflexivity.
Qed.

Lemma static_bytes_inj accounts1 accounts2 access refresh e :
  static_bytes accounts1 access refresh = static_bytes accounts2 access refresh -> e ∈ access ->
  keccak256 (static_account accounts1 (refresh_rules refresh) e)
  = keccak256 (static_account accounts2 (refresh_rules refresh) e).
Proof.
  unfold static_bytes, static_state_bytes. unfold zlen. rewrite !length_map.
  intros H He. do 4 apply app_inv_head in H. rewrite !map_map in H.
  exact (hash_list_inj _ _ access e H He).
Qed.

Lemma refresh_rules_sorted access refresh a r :
  shapes_ok [] access refresh -> refresh_rules refresh !! a = Some r ->
  key_sorted id (csr_storage_slots r).
Proof.
  intros [_ _ _ _ _ _ [F1 F2]] H.
  apply (keyed_map_lookup csr_address id) in H as (x & Hx & _ & <-);
    [|apply key_sorted_NoDup, F1].
  rewrite Forall_forall in F2. apply F2, Hx.
Qed.

Definition accounts_typed accounts : Prop := map_Forall (fun _ a => account_in_range a) accounts.

(** States with one commitment under one policy agree on every declared account in
    everything the policy does not refresh. *)
Lemma static_commitment_inj (s1 s2 : StateMap) access refresh c :
  accounts_typed (sm_accounts s1) -> accounts_typed (sm_accounts s2) ->
  no_collision (static_preimages (sm_accounts s1) access refresh
                ++ static_preimages (sm_accounts s2) access refresh) ->
  cold_static_state_commitment_v4 s1 access refresh = Ok c ->
  cold_static_state_commitment_v4 s2 access refresh = Ok c ->
  forall e, e ∈ access -> exists a1 a2,
    sm_accounts s1 !! csa_address e = Some a1 /\ sm_accounts s2 !! csa_address e = Some a2 /\
    static_agree (refresh_rules refresh !! csa_address e) a1 a2.
Proof.
  intros T1 T2 Hn (Hs & F1 & ->)%static_commitment_spec (_ & F2 & Hc)%static_commitment_spec e He.
  rewrite Forall_forall in F1, F2. destruct (F1 e He) as (a1 & E1 & D1).
  destruct (F2 e He) as (a2 & E2 & D2). exists a1, a2. split_and!; auto.
  apply Hn in Hc; [|left|apply elem_of_app; right; left].
  apply (static_entry_inj (sm_accounts s1) (sm_accounts s2)); auto.
  - apply (T1 _ _ E1).
  - apply (T2 _ _ E2).
  - intros r. apply (refresh_rules_sorted access refresh _ _ Hs).
  - eapply no_collision_mono; [|exact Hn]. intros x Hx.
    assert (G : forall accounts, x ∈ static_entry_preimages accounts (refresh_rules refresh) e ->
      x ∈ static_preimages accounts access refresh).
    { intros accounts Hi. right. apply list_elem_of_In, in_concat.
      exists (static_entry_preimages accounts (refresh_rules refresh) e).
      split; [apply in_map, list_elem_of_In, He|apply list_elem_of_In, Hi]. }
    apply elem_of_app in Hx as [Hx|Hx]; apply elem_of_app; auto.
  - apply static_bytes_inj with access; assumption.
Qed.

Lemma runtime_code_spec (state : StateMap) runtime :
  verify_cold_runtime_code_v4 state runtime = Ok tt <->
  Forall (fun c => exists account, sm_accounts state !! crc_address c = Some account /\
    ar_code account <> [] /\ code_hash account = crc_code_hash c) runtime /\
  map_Forall (fun address account => ar_code account <> [] ->
    exists c, c ∈ runtime /\ crc_address c = address) (sm_accounts state).
Proof.
  unfold verify_cold_runtime_code_v4. rewrite rbind_Ok. split.
  - intros ([] & Hp & H). apply fail_if_Ok in H as [G _]. split.
    + revert Hp. apply for_each_passed. intros [] c [] Hb. unfold prepared_code_present in Hb.
      apply rbind_Ok in Hb as (a & Ha & Hb). apply ok_or_Ok in Ha.
      apply fail_if_Ok in Hb as [Hb _]. bool_to_prop. eauto.
    + rewrite existsb_false_iff in G. apply sorted_entries_forall. intros [a r] Hin Hc.
      specialize (G _ Hin). cbn in G, Hc |- *. apply andb_false_iff in G as [G|G]; bool_to_prop;
        [contradiction|]. apply (keyed_map_is_Some crc_address crc_code_hash), G.
  - intros [F M]. exists tt. split.
    + apply for_each_check. intros c Hc. rewrite Forall_forall in F.
      destruct (F c Hc) as (a & Ha & Hne & Hh). unfold prepared_code_present. rewrite Ha. cbn.
      rewrite bool_decide_eq_false_2, Hh, Z.eqb_refl by exact Hne. reflexivity.
    + apply fail_if_Ok. split; [|reflexivity]. apply existsb_false_iff. intros [a r] Hin.
      apply sorted_entries_elem in Hin. apply andb_false_iff.
      destruct (decide (ar_code r = [])) as [He|He];
        [left; rewrite bool_decide_eq_true_2 by exact He; reflexivity|].
      right. apply negb_false_iff, bool_decide_eq_true.
      apply (keyed_map_is_Some crc_address crc_code_hash), (M a r Hin He).
Qed.
End Static.
