(* ===== verification/ColdRoom.v ===== *)
(** * Cold v4 room preparation and the link of a hot batch to it

    stf-core/src/cold_room.rs: the reusable constructor proof, and the check that
    a batch's room-local prestate differs from the proven template in nothing but
    what the refresh policy names. *)

From S2P Require Import Prelude Types Abi HashV4 State StateEvm Policy Block BatchData ColdState.
Open Scope Z_scope.

Section ColdRoom.
Context {KK : Keccak} {RV : Revm} {AT : AlloyTrie} {OP : OsakaPrecompiles} {TC : TxCodec}
  {EV : Evm} {AR : AlloyRlp}.

(** ** The statement and its initial state *)
Definition transaction_count (blocks : list BatchBlockV4) : option Z :=
  foldl (fun total block => match total with
                            | Some total => checked_add USIZE_MAX total (zlen (bb4_raw_txs block))
                            | None => None
                            end) (Some 0) blocks.

Definition initial_account_step (s : Z * Z) (entry : Z * AccountState)
  : result StfError (Z * Z) :=
  let '(storage_count, code_bytes) := s in
  let account := entry.2 in
  fail_if negb (strictly_sorted (map fst (as_storage account)))
          || existsb (fun kv => kv.2 =? 0) (as_storage account)
    with ColdPreparation "initial storage must be strictly slot-sorted, unique and non-zero" in
  let? storage_count := ok_or (checked_add USIZE_MAX storage_count (zlen (as_storage account)))
                          (ColdPreparation "initial storage count overflow") in
  let? code_bytes := ok_or (checked_add USIZE_MAX code_bytes (zlen (as_code account)))
                       (ColdPreparation "initial code size overflow") in
  Ok (storage_count, code_bytes).

Definition validate_cold_statement (input : ColdRoomInputV4) : result StfError unit :=
  fail_if (cri_encoded_witness_bytes input <=? 4)
          || (MAX_BATCH_WITNESS_BYTES_V4 <? cri_encoded_witness_bytes input)
    with ColdPreparation "encoded cold witness size is outside the cap" in
  fail_if (cri_compiled_bundle_hash input =? B256_ZERO) || (cri_preset_hash input =? B256_ZERO)
          || (cri_manifest_hash input =? B256_ZERO) || (cri_proof_program_id input =? B256_ZERO)
    with ColdPreparation "bundle/preset/manifest/program commitments must be non-zero" in
  fail_if bool_decide (cri_runtime_code input = [])
    with ColdPreparation "runtime code commitment list is empty" in
  fail_if negb ((1 <=? zlen (cri_setup_blocks input))
                && (zlen (cri_setup_blocks input) <=? MAX_COLD_BLOCKS_V4))
    with ColdPreparation "setup block count is outside the cap" in
  let? count := ok_or (transaction_count (cri_setup_blocks input))
                  (ColdPreparation "setup transaction count overflow") in
  fail_if (count =? 0) || (MAX_COLD_TRANSACTIONS_V4 <? count)
    with ColdPreparation "setup transaction count is outside the cap" in
  fail_if (MAX_COMPACT_ACCOUNTS_V4 <? zlen (cri_initial_state input))
          || negb (strictly_sorted (map fst (cri_initial_state input)))
    with ColdPreparation "initial state must be capped, strictly address-sorted and unique" in
  let? (storage_count, code_bytes) :=
    for_each initial_account_step (0, 0) (cri_initial_state input) in
  fail_if (MAX_COMPACT_STORAGE_SLOTS_V4 <? storage_count)
          || (MAX_COMPACT_CODE_BYTES_V4 <? code_bytes)
    with ColdPreparation "initial state resource envelope exceeded" in
  validate_cold_shapes_v4 (cri_runtime_code input) (cri_state_access input)
    (cri_state_refresh input).

(** ** The setup blocks *)
Record SetupLoop := mk_SetupLoop {
  su_state : StateMap;
  su_current_root : Z;
  su_previous_timestamp : Z;
  su_saw_creation : bool
}.

Definition is_create (kind : TxKind) : bool :=
  match kind with TxCreate => true | TxCall _ => false end.

Definition note_creation (saw_creation : bool) (raw : bytes) : result StfError bool :=
  let? decoded := tx_env_from_raw raw COLD_TEMPLATE_CHAIN_ID_V4 in
  Ok (saw_creation || is_create (tx_kind decoded)).

Definition outside_cold_profile (previous_timestamp : Z) (env : BlockEnvV1) : bool :=
  (env_timestamp env <? previous_timestamp)
  || negb (env_chain_id env =? COLD_TEMPLATE_CHAIN_ID_V4)
  || negb (env_coinbase env =? Address_ZERO)
  || negb (env_base_fee env =? 0)
  || negb (env_prev_randao env =? B256_ZERO)
  || negb (env_difficulty env =? 0)
  || negb (env_excess_blob_gas env =? 0)
  || negb ((1 <=? env_gas_limit env) && (env_gas_limit env <=? MAX_COLD_GAS_PER_BLOCK_V4)).

Definition setup_input (current_root : Z) (block : BatchBlockV4) : StfInput :=
  mk_StfInput 0 (bb4_block_number block) current_root [] (bb4_raw_txs block) (bb4_env block) [].

Definition setup_block (s : SetupLoop) (item : Z * BatchBlockV4) : result StfError SetupLoop :=
  let '(expected_number, block) := item in
  fail_if negb (bb4_block_number block =? expected_number)
          || negb (env_number (bb4_env block) =? expected_number)
    with ColdPreparation "setup block number/env must both equal its position" in
  fail_if outside_cold_profile (su_previous_timestamp s) (bb4_env block)
    with ColdPreparation "setup block environment is outside the cold Osaka profile" in
  let? saw_creation := for_each note_creation (su_saw_creation s) (bb4_raw_txs block) in
  let? outcome := execute_block_on_state (setup_input (su_current_root s) block) (su_state s)
                    None false 0 true None in
  fail_if negb (sj_post_state_root (bo_journal outcome) =? bb4_expected_post_state_root block)
    with ColdPreparation "setup block post root does not match the supplied transcript" in
  Ok (mk_SetupLoop (bo_post_state outcome) (sj_post_state_root (bo_journal outcome))
        (env_timestamp (bb4_env block)) saw_creation).

(** ** The initialized state *)
Definition initialized_account_step (s : Z * Z) (account : AccountRecord)
  : result StfError (Z * Z) :=
  let '(storage_count, code_bytes) := s in
  let? storage_count := ok_or (checked_add USIZE_MAX storage_count
                                 (Z.of_nat (size (ar_storage account))))
                          (ColdPreparation "initialized storage count overflow") in
  let? code_bytes := ok_or (checked_add USIZE_MAX code_bytes (zlen (ar_code account)))
                       (ColdPreparation "initialized code size overflow") in
  Ok (storage_count, code_bytes).

Definition initialized_envelope (state : StateMap) : result StfError unit :=
  let? (storage_count, code_bytes) :=
    for_each initialized_account_step (0, 0) (map snd (sorted_entries (sm_accounts state))) in
  fail_if (MAX_COMPACT_ACCOUNTS_V4 <? Z.of_nat (size (sm_accounts state)))
          || (MAX_COMPACT_STORAGE_SLOTS_V4 <? storage_count)
          || (MAX_COMPACT_CODE_BYTES_V4 <? code_bytes)
    with ColdPreparation "initialized state resource envelope exceeded" in
  Ok tt.

(** The journal, its template id still zero; then sealed with it. *)
Definition cold_journal (input : ColdRoomInputV4) (initial_root current_root
    static_state_commitment template_id : Z) : ColdRoomJournalV4 :=
  mk_ColdRoomJournalV4 BATCH_JOURNAL_VERSION_V4 template_id (cri_compiled_bundle_hash input)
    (cri_preset_hash input) (cri_manifest_hash input) (cri_proof_program_id input)
    COLD_TEMPLATE_CHAIN_ID_V4 initial_root current_root
    (batch_block_data_hash_v4 (cri_setup_blocks input) initial_root)
    (hash_cold_runtime_code_v4 (cri_runtime_code input))
    (hash_cold_state_access_v4 (cri_state_access input))
    (hash_cold_state_refresh_v4 (cri_state_refresh input))
    static_state_commitment (cri_analyzed_artifact_root input)
    (cri_allowed_call_target_root input).

Definition execute_cold_room_v4 (input : ColdRoomInputV4) : result StfError ColdRoomJournalV4 :=
  let? _ := validate_cold_statement input in
  let state := state_map_from_input (cri_initial_state input) in
  let initial_root := state_root state in
  fail_if negb (initial_root =? cri_initial_state_root input)
    with PreRootMismatch (cri_initial_state_root input) initial_root in
  let? s := for_each setup_block (mk_SetupLoop state initial_root 0 false)
              (enumerate (cri_setup_blocks input)) in
  fail_if negb (su_saw_creation s)
    with ColdPreparation "cold setup must contain at least one contract-creation transaction" in
  fail_if negb (su_current_root s =? cri_initialized_state_root input)
    with ColdPreparation "initialized state root does not match the expected root" in
  let? _ := initialized_envelope (su_state s) in
  let? _ := verify_cold_runtime_code_v4 (su_state s) (cri_runtime_code input) in
  let? static_state_commitment :=
    cold_static_state_commitment_v4 (su_state s) (cri_state_access input)
      (cri_state_refresh input) in
  let journal := cold_journal input initial_root (su_current_root s) static_state_commitment
                   B256_ZERO in
  Ok (cold_journal input initial_root (su_current_root s) static_state_commitment
        (cold_template_id_v4 journal)).

(** ** The link of a composed batch *)
Definition validate_composed_cold_link_v4 (input : ComposedBatchInputV4)
    (refreshed_state : StateMap) : result StfError unit :=
  let cold := cbi_cold_journal input in
  let batch := cbi_batch input in
  fail_if negb (crj_v cold =? BATCH_JOURNAL_VERSION_V4)
          || negb (crj_constructor_chain_id cold =? COLD_TEMPLATE_CHAIN_ID_V4)
          || negb (crj_template_id cold =? cold_template_id_v4 cold)
    with ColdPreparation "invalid cold journal version, chain namespace, or template id" in
  fail_if negb (crj_proof_program_id cold =? bi4_proof_program_id batch)
          || negb (crj_preset_hash cold =? bi4_preset_hash batch)
          || negb (crj_manifest_hash cold =? bi4_manifest_hash batch)
    with ColdPreparation "cold proof does not match the hot batch program/preset/manifest" in
  let? _ := validate_cold_shapes_v4 (cbi_runtime_code input) (cbi_state_access input)
              (cbi_state_refresh input) in
  fail_if negb (hash_cold_runtime_code_v4 (cbi_runtime_code input) =? crj_runtime_code_root cold)
          || negb (hash_cold_state_access_v4 (cbi_state_access input)
                   =? crj_state_access_root cold)
          || negb (hash_cold_state_refresh_v4 (cbi_state_refresh input)
                   =? crj_state_refresh_root cold)
    with ColdPreparation "cold proof-link preimage does not match the proven roots" in
  let? _ := verify_cold_runtime_code_v4 refreshed_state (cbi_runtime_code input) in
  let? refreshed_static := cold_static_state_commitment_v4 refreshed_state
                             (cbi_state_access input) (cbi_state_refresh input) in
  fail_if negb (refreshed_static =? crj_static_state_commitment cold)
    with ColdPreparation "room start changed state outside the proven refresh policy" in
  Ok tt.
End ColdRoom.

(** * Properties *)

(** ** The three lists are bound by their roots *)
Section Lists.
Context {KK : Keccak} {KR : KeccakRange}.

Definition runtime_entry_bytes (c : ColdRuntimeCodeV4) : bytes :=
  concat [ b256_word (keccak256 (b_ "ColdRuntimeCodeV4(address contractAddress,bytes32 codeHash)"));
           address_word (crc_address c); b256_word (crc_code_hash c) ].
Definition slot_list_bytes (domain : bytes) (slots : list Z) : bytes :=
  list_preimage domain (zlen slots) (map uint256_word slots).
Definition access_domain : bytes := b_ "ColdStateAccessStorageSlotV4[]".
Definition refresh_domain : bytes := b_ "ColdStateRefreshStorageSlotV4[]".
Definition access_entry_bytes (e : ColdStateAccessV4) : bytes :=
  concat [ b256_word (keccak256 (b_ "ColdStateAccessV4(address account,bytes32 storageSlotsHash)"));
           address_word (csa_address e);
           b256_word (keccak256 (slot_list_bytes access_domain (csa_storage_slots e))) ].
Definition refresh_entry_bytes (e : ColdStateRefreshV4) : bytes :=
  concat [ b256_word (keccak256 (b_ "ColdStateRefreshV4(address account,bool refreshNonce,bool refreshBalance,bool refreshAllStorage,bytes32 storageSlotsHash)"));
           address_word (csr_address e);
           u256_word (bool_u64 (csr_refresh_nonce e));
           u256_word (bool_u64 (csr_refresh_balance e));
           u256_word (bool_u64 (csr_refresh_all_storage e));
           b256_word (keccak256 (slot_list_bytes refresh_domain (csr_storage_slots e))) ].

(** A list of hashed entries behind its domain and count. *)
Definition entry_list_bytes {A} (domain : bytes) (f : A -> bytes) (l : list A) : bytes :=
  list_preimage domain (zlen l) (map (fun a => b256_word (keccak256 (f a))) l).

Lemma entry_list_inj {A} domain (f : A -> bytes) l1 l2 :
  (forall x y, x ∈ l1 -> y ∈ l2 -> f x = f y -> x = y) ->
  no_collision (map f l1 ++ map f l2) ->
  entry_list_bytes domain f l1 = entry_list_bytes domain f l2 -> l1 = l2.
Proof.
  intros Hf Hn H. unfold entry_list_bytes, list_preimage in H. apply app_inv_head in H.
  apply app_inj_len in H as [_ H]; [|unfold u256_word; rewrite !length_app, !length_be_bytes;
    reflexivity].
  assert (G : map (fun a => keccak256 (f a)) l1 = map (fun a => keccak256 (f a)) l2).
  { apply words_inj'; [apply Forall_map, Forall_true; intros; apply keccak_range..|].
    rewrite !map_map. exact H. }
  clear H. revert l2 Hf Hn G. induction l1 as [|x l1 IH]; intros [|y l2] Hf Hn G;
    try discriminate; [reflexivity|].
  injection G as Hxy G. f_equal.
  - apply Hf; [left|left|]. apply Hn; [left|apply elem_of_app; right; left|exact Hxy].
  - apply IH; [intros a b Ha Hb; apply Hf; right; assumption| |exact G].
    eapply no_collision_mono; [|exact Hn]. intros z Hz. cbn.
    apply elem_of_app in Hz as [Hz|Hz].
    + right. apply elem_of_app. left. exact Hz.
    + right. apply elem_of_app. right. right. exact Hz.
Qed.

Lemma slot_list_inj domain s1 s2 :
  Forall in_u256 s1 -> Forall in_u256 s2 ->
  slot_list_bytes domain s1 = slot_list_bytes domain s2 -> s1 = s2.
Proof.
  intros R1 R2 H. unfold slot_list_bytes, list_preimage in H. apply app_inv_head in H.
  apply app_inj_len in H as [_ H]; [|unfold u256_word; rewrite !length_app, !length_be_bytes;
    reflexivity].
  apply words_inj'; assumption.
Qed.

(** Everything a comparison of two access or refresh roots hashes. *)
Definition list_preimages {A} (domain slot_domain : bytes) (f : A -> bytes) (slots : A -> list Z)
    (l : list A) : list bytes :=
  entry_list_bytes domain f l :: map f l ++ map (fun e => slot_list_bytes slot_domain (slots e)) l.
Definition access_preimages : list ColdStateAccessV4 -> list bytes :=
  list_preimages (b_ "ColdStateAccessV4[]") access_domain access_entry_bytes csa_storage_slots.
Definition refresh_preimages : list ColdStateRefreshV4 -> list bytes :=
  list_preimages (b_ "ColdStateRefreshV4[]") refresh_domain refresh_entry_bytes csr_storage_slots.

Lemma list_root_inj {A} domain slot_domain (f : A -> bytes) (slots : A -> list Z) l1 l2 :
  (forall x y, x ∈ l1 -> y ∈ l2 ->
     (keccak256 (slot_list_bytes slot_domain (slots x))
      = keccak256 (slot_list_bytes slot_domain (slots y)) -> slots x = slots y) ->
     f x = f y -> x = y) ->
  Forall (fun e => Forall in_u256 (slots e)) l1 -> Forall (fun e => Forall in_u256 (slots e)) l2 ->
  no_collision (list_preimages domain slot_domain f slots l1
                ++ list_preimages domain slot_domain f slots l2) ->
  keccak256 (entry_list_bytes domain f l1) = keccak256 (entry_list_bytes domain f l2) -> l1 = l2.
Proof.
  intros Hf R1 R2 Hn H. unfold list_preimages in Hn.
  apply Hn in H; [|left|apply elem_of_app; right; left].
  apply entry_list_inj in H; [exact H| |].
  - intros x y Hx Hy. apply Hf; [assumption..|]. intros Hk. rewrite Forall_forall in R1, R2.
    eapply slot_list_inj; [apply R1, Hx|apply R2, Hy|]. apply Hn; [| |exact Hk].
    + right. apply elem_of_app. left. apply elem_of_app. right. apply list_elem_of_fmap. eauto.
    + apply elem_of_app. right. right. apply elem_of_app. right. apply list_elem_of_fmap. eauto.
  - eapply no_collision_mono; [|exact Hn]. intros z Hz. apply elem_of_app in Hz as [Hz|Hz].
    + right. apply elem_of_app. left. apply elem_of_app. left. exact Hz.
    + apply elem_of_app. right. right. apply elem_of_app. left. exact Hz.
Qed.

Lemma address_word_inj a b : in_u160 a -> in_u160 b -> address_word a = address_word b -> a = b.
Proof.
  intros Ha Hb H. unfold address_word in H. apply app_inv_head in H.
  apply (be_bytes_inj 20) in H; assumption.
Qed.
Lemma bool_word_inj a b : u256_word (bool_u64 a) = u256_word (bool_u64 b) -> a = b.
Proof. destruct a, b; intros H; try reflexivity; discriminate. Qed.
Lemma keccak_word_inj x y :
  b256_word (keccak256 x) = b256_word (keccak256 y) -> keccak256 x = keccak256 y.
Proof. intros H. apply (be_bytes_inj 32) in H; [exact H|apply keccak_range|apply keccak_range]. Qed.

Ltac word_widths :=
  repeat constructor; unfold u256_word, address_word; rewrite ?length_app, ?length_be_bytes;
  reflexivity.
(** Split an equality of concatenated words into the equality at position [i]. *)
Ltac word_at H i E := pose proof (f_equal (fun l => nth i l []) H) as E; cbn [nth] in E.

Lemma access_root_inj l1 l2 :
  Forall ColdStateAccessV4_wf l1 -> Forall ColdStateAccessV4_wf l2 ->
  no_collision (access_preimages l1 ++ access_preimages l2) ->
  hash_cold_state_access_v4 l1 = hash_cold_state_access_v4 l2 -> l1 = l2.
Proof.
  intros W1 W2 Hn H. rewrite Forall_forall in W1, W2.
  apply (list_root_inj (b_ "ColdStateAccessV4[]") access_domain access_entry_bytes
           csa_storage_slots); [|apply Forall_forall; intros e He; apply W1, He
           |apply Forall_forall; intros e He; apply W2, He|exact Hn|exact H].
  intros x y Hx Hy Hs Hb. destruct (W1 x Hx) as [Ax _], (W2 y Hy) as [Ay _].
  apply (concat_width_inj 32) in Hb; [|word_widths..].
  word_at Hb 1%nat Ha. word_at Hb 2%nat Hk. apply address_word_inj in Ha; auto.
  apply keccak_word_inj, Hs in Hk. destruct x, y. cbn in *. congruence.
Qed.

Lemma refresh_root_inj l1 l2 :
  Forall ColdStateRefreshV4_wf l1 -> Forall ColdStateRefreshV4_wf l2 ->
  no_collision (refresh_preimages l1 ++ refresh_preimages l2) ->
  hash_cold_state_refresh_v4 l1 = hash_cold_state_refresh_v4 l2 -> l1 = l2.
Proof.
  intros W1 W2 Hn H. rewrite Forall_forall in W1, W2.
  apply (list_root_inj (b_ "ColdStateRefreshV4[]") refresh_domain refresh_entry_bytes
           csr_storage_slots); [|apply Forall_forall; intros e He; apply W1, He
           |apply Forall_forall; intros e He; apply W2, He|exact Hn|exact H].
  intros x y Hx Hy Hs Hb. destruct (W1 x Hx) as [Ax _], (W2 y Hy) as [Ay _].
  apply (concat_width_inj 32) in Hb; [|word_widths..].
  word_at Hb 1%nat Ha. word_at Hb 2%nat B1. word_at Hb 3%nat B2. word_at Hb 4%nat B3.
  word_at Hb 5%nat Hk. apply address_word_inj in Ha; auto.
  apply bool_word_inj in B1, B2, B3. apply keccak_word_inj, Hs in Hk.
  destruct x, y. cbn in *. congruence.
Qed.

Definition runtime_preimages (l : list ColdRuntimeCodeV4) : list bytes :=
  entry_list_bytes (b_ "ColdRuntimeCodeV4[]") runtime_entry_bytes l :: map runtime_entry_bytes l.

Lemma runtime_root_inj l1 l2 :
  Forall ColdRuntimeCodeV4_wf l1 -> Forall ColdRuntimeCodeV4_wf l2 ->
  no_collision (runtime_preimages l1 ++ runtime_preimages l2) ->
  hash_cold_runtime_code_v4 l1 = hash_cold_runtime_code_v4 l2 -> l1 = l2.
Proof.
  intros W1 W2 Hn H. rewrite Forall_forall in W1, W2. unfold runtime_preimages in Hn.
  apply Hn in H; [|left|apply elem_of_app; right; left].
  apply entry_list_inj in H; [exact H| |].
  - intros x y Hx Hy Hb. destruct (W1 x Hx) as [Ax Cx], (W2 y Hy) as [Ay Cy].
    apply (concat_width_inj 32) in Hb; [|word_widths..].
    word_at Hb 1%nat Ha. word_at Hb 2%nat Hc. apply address_word_inj in Ha; auto.
    apply (be_bytes_inj 32) in Hc; auto. destruct x, y. cbn in *. congruence.
  - eapply no_collision_mono; [|exact Hn]. intros z Hz. apply elem_of_app in Hz as [Hz|Hz];
      apply elem_of_app; [left|right]; right; exact Hz.
Qed.
End Lists.

(** ** The accepted setup *)
Section Setup.
Context {KK : Keccak} {RV : Revm} {AT : AlloyTrie} {OP : OsakaPrecompiles} {TC : TxCodec}
  {EV : Evm} {AR : AlloyRlp}.
Implicit Types (db : StateMap) (input : ColdRoomInputV4).

Abbreviation setup_item := (Z * BatchBlockV4 * list executed_tx)%type.

(** One setup block: numbered by its position, in the deterministic environment. *)
Record cold_block db (x : setup_item) db' : Prop := {
  cb4_number : bb4_block_number x.1.2 = x.1.1 /\ env_number (bb4_env x.1.2) = x.1.1;
  cb4_chain : env_chain_id (bb4_env x.1.2) = COLD_TEMPLATE_CHAIN_ID_V4;
  cb4_fixed : env_coinbase (bb4_env x.1.2) = Address_ZERO /\ env_base_fee (bb4_env x.1.2) = 0 /\
    env_prev_randao (bb4_env x.1.2) = B256_ZERO /\ env_difficulty (bb4_env x.1.2) = 0 /\
    env_excess_blob_gas (bb4_env x.1.2) = 0;
  cb4_gas_limit : 1 <= env_gas_limit (bb4_env x.1.2) <= MAX_COLD_GAS_PER_BLOCK_V4;
  cb4_run : forall root,
    plain_block (setup_input root x.1.2) legacy_unrestricted true db x.2 db';
  cb4_root : state_root db' = bb4_expected_post_state_root x.1.2
}.

Definition creates (xs : list executed_tx) : bool :=
  existsb (fun x => is_create (tx_kind (xt_env x))) xs.

Record setup_at start root (done : list (Z * BatchBlockV4)) (s : SetupLoop)
    (items : list setup_item) : Prop := {
  sa_items : map fst items = done;
  sa_runs : runs cold_block start items (su_state s);
  sa_root : su_current_root s
    = default root (last (map (fun x => bb4_expected_post_state_root x.2) done));
  sa_previous : su_previous_timestamp s
    = default 0 (last (map (fun x => env_timestamp (bb4_env x.2)) done));
  sa_clock : nondecreasing (map (fun x => env_timestamp (bb4_env x.2)) done);
  sa_creation : su_saw_creation s = existsb (fun x => creates x.2) items
}.

Lemma note_creation_loop raws saw s :
  for_each note_creation saw raws = Ok s ->
  exists envs, decodes COLD_TEMPLATE_CHAIN_ID_V4 raws envs /\
    s = (saw || existsb (fun tx => is_create (tx_kind tx)) envs)%bool.
Proof.
  intros H. refine (for_each_inv (fun done s => exists envs,
    decodes COLD_TEMPLATE_CHAIN_ID_V4 done envs /\
    s = (saw || existsb (fun tx => is_create (tx_kind tx)) envs)%bool) _ _ _ _ _ _ H).
  - exists []. split; [constructor|]. cbn. symmetry. apply orb_false_r.
  - intros done raw s1 s2 (envs & Hd & ->) _ Hb. unfold note_creation in Hb.
    apply rbind_Ok in Hb as (tx & Ht & Hb). apply Ok_Ok in Hb as <-.
    exists (envs ++ [tx]). split.
    + apply Forall2_app; [exact Hd|]. constructor; [exact Ht|constructor].
    + rewrite existsb_app. cbn. rewrite orb_false_r, orb_assoc. reflexivity.
Qed.

Lemma existsb_map {A B} (f : A -> B) p l : existsb p (map f l) = existsb (fun x => p (f x)) l.
Proof. induction l as [|x l IH]; [reflexivity|]. cbn. rewrite IH. reflexivity. Qed.

Lemma setup_step start root done s items x s' :
  setup_at start root done s items -> setup_block s x = Ok s' ->
  exists xs, setup_at start root (done ++ [x]) s' (items ++ [(x, xs)]).
Proof.
  intros [L1 L2 L3 L4 L5 L6] H. destruct x as [k b]. unfold setup_block in H.
  apply fail_if_Ok in H as [Gn H]. apply fail_if_Ok in H as [Ge H].
  apply rbind_Ok in H as (saw & Hs & H). apply rbind_Ok in H as (o & Ho & H).
  apply fail_if_Ok in H as [Gr H]. apply negb_eqb_false in Gr. apply Ok_Ok in H as <-.
  rewrite orb_false_iff, !negb_eqb_false in Gn. unfold outside_cold_profile in Ge.
  rewrite !orb_false_iff, !negb_eqb_false, Z.ltb_ge, negb_false_iff, andb_true_iff, !Z.leb_le in Ge.
  destruct Ge as (((((((E1 & E2) & E3) & E4) & E5) & E6) & E7) & E8).
  apply plain_block_spec in Ho as (xs & P & Hroot & _); [|reflexivity].
  apply note_creation_loop in Hs as (envs & Hd & ->).
  exists xs. split; cbn [su_state su_current_root su_previous_timestamp su_saw_creation];
    rewrite ?map_app; cbn [map fst snd].
  - rewrite L1. reflexivity.
  - eapply runs_snoc; [exact L2|]. split; cbn [fst snd]; split_and?; auto; try lia; try congruence.
    intros r. destruct P as [P1 P2 P3 P4]. split; assumption.
  - rewrite last_snoc. exact Gr.
  - rewrite last_snoc. reflexivity.
  - apply nondecreasing_snoc; [exact L5|]. intros p Hp. rewrite L4, Hp in E1. exact E1.
  - rewrite existsb_app, L6. cbn [existsb snd]. rewrite orb_false_r. f_equal.
    destruct P as [_ P2 _ _]. cbn [setup_input si_env si_raw_txs] in P2. rewrite E2 in P2.
    rewrite (decodes_det _ _ _ _ Hd P2), existsb_map. reflexivity.
Qed.

Lemma setup_all start root blocks s :
  for_each setup_block (mk_SetupLoop start root 0 false) (enumerate blocks) = Ok s ->
  exists items, setup_at start root (enumerate blocks) s items.
Proof.
  intros H. refine (for_each_inv (fun done s => exists items, setup_at start root done s items)
    _ _ _ _ _ _ H).
  - exists []. split; try reflexivity; [constructor|]. intros k x y Hx. discriminate.
  - intros done x s1 s2 [items I] _ Hb. destruct (setup_step _ _ _ _ _ _ _ I Hb) as [xs Hxs].
    eauto.
Qed.

(** What a cold journal attests. *)
Record cold_prepared input (items : list setup_item) initialized (j : ColdRoomJournalV4)
  : Prop := {
  cp_initial : state_root (state_map_from_input (cri_initial_state input)) = cri_initial_state_root input;
  cp_blocks : map fst items = enumerate (cri_setup_blocks input) /\
    1 <= zlen (cri_setup_blocks input) <= MAX_COLD_BLOCKS_V4;
  cp_runs : runs cold_block (state_map_from_input (cri_initial_state input)) items initialized;
  cp_clock : nondecreasing (map (fun b => env_timestamp (bb4_env b)) (cri_setup_blocks input));
  cp_creation : existsb (fun x => creates x.2) items = true;
  cp_root : state_root initialized = cri_initialized_state_root input;
  cp_shapes : shapes_ok (cri_runtime_code input) (cri_state_access input)
                (cri_state_refresh input);
  cp_code : verify_cold_runtime_code_v4 initialized (cri_runtime_code input) = Ok tt;
  cp_static : cold_static_state_commitment_v4 initialized (cri_state_access input)
                (cri_state_refresh input) = Ok (crj_static_state_commitment j);
  cp_journal : j = cold_journal input (cri_initial_state_root input)
                     (cri_initialized_state_root input) (crj_static_state_commitment j)
                     (cold_template_id_v4 j)
}.

(** The template id does not cover itself. *)
Lemma template_id_sealed input r1 r2 c t :
  cold_template_id_v4 (cold_journal input r1 r2 c t)
  = cold_template_id_v4 (cold_journal input r1 r2 c B256_ZERO).
Proof. reflexivity. Qed.

Lemma preparation_statement_spec input :
  validate_cold_statement input = Ok tt ->
  1 <= zlen (cri_setup_blocks input) <= MAX_COLD_BLOCKS_V4 /\
  shapes_ok (cri_runtime_code input) (cri_state_access input) (cri_state_refresh input).
Proof.
  unfold validate_cold_statement. intros H. apply fail_if_Ok in H as [_ H].
  apply fail_if_Ok in H as [_ H]. apply fail_if_Ok in H as [_ H].
  apply fail_if_Ok in H as [Gb H]. apply rbind_Ok in H as (n & _ & H).
  apply fail_if_Ok in H as [_ H]. apply fail_if_Ok in H as [_ H].
  apply rbind_Ok in H as ([sc cb] & _ & H). apply fail_if_Ok in H as [_ H].
  apply shapes_spec in H. split; [|exact H].
  rewrite negb_false_iff, andb_true_iff, !Z.leb_le in Gb. exact Gb.
Qed.

(** The state the setup leaves: the constructor transcript, executed. *)
Definition initialized_state input : StateMap :=
  let state := state_map_from_input (cri_initial_state input) in
  match for_each setup_block (mk_SetupLoop state (state_root state) 0 false)
          (enumerate (cri_setup_blocks input)) with
  | Ok s => su_state s
  | Err _ => state
  end.

Lemma cold_room_spec input j :
  execute_cold_room_v4 input = Ok j ->
  exists items, cold_prepared input items (initialized_state input) j.
Proof.
  unfold execute_cold_room_v4. intros H. apply rbind_Ok in H as ([] & Hs & H).
  apply preparation_statement_spec in Hs as [Hb Hs]. apply fail_if_Ok in H as [G1 H].
  apply negb_eqb_false in G1. apply rbind_Ok in H as (s & Hl & H).
  assert (Hi : initialized_state input = su_state s)
    by (unfold initialized_state; rewrite Hl; reflexivity).
  rewrite Hi. rewrite G1 in H, Hl.
  apply setup_all in Hl as [items [L1 L2 L3 L4 L5 L6]].
  apply fail_if_Ok in H as [G2 H]. apply negb_false_iff in G2.
  apply fail_if_Ok in H as [G3 H]. apply negb_eqb_false in G3.
  apply rbind_Ok in H as ([] & _ & H). apply rbind_Ok in H as ([] & Hc & H).
  apply rbind_Ok in H as (c & Hst & H). apply Ok_Ok in H as <-.
  rewrite G3 in *. exists items.
  split; cbn [cold_journal crj_static_state_commitment]; auto.
  - rewrite <- (map_map snd (fun b => env_timestamp (bb4_env b))), enumerate_snd in L5. exact L5.
  - congruence.
  - destruct items as [|x items _] using rev_ind.
    { destruct (cri_setup_blocks input); [unfold zlen in Hb; cbn in Hb; lia|discriminate]. }
    rewrite L3, <- L1, map_app, map_app. cbn [map]. rewrite last_snoc.
    apply runs_snoc_inv in L2 as (m & _ & Hx). apply (cb4_root _ _ _ Hx).
Qed.

(** ** The link *)
Record cold_link_ok (input : ComposedBatchInputV4) (state : StateMap) : Prop := {
  clo_template : crj_v (cbi_cold_journal input) = BATCH_JOURNAL_VERSION_V4 /\
    crj_constructor_chain_id (cbi_cold_journal input) = COLD_TEMPLATE_CHAIN_ID_V4 /\
    crj_template_id (cbi_cold_journal input) = cold_template_id_v4 (cbi_cold_journal input);
  clo_identity :
    crj_proof_program_id (cbi_cold_journal input) = bi4_proof_program_id (cbi_batch input) /\
    crj_preset_hash (cbi_cold_journal input) = bi4_preset_hash (cbi_batch input) /\
    crj_manifest_hash (cbi_cold_journal input) = bi4_manifest_hash (cbi_batch input);
  clo_shapes : shapes_ok (cbi_runtime_code input) (cbi_state_access input)
                 (cbi_state_refresh input);
  clo_roots :
    hash_cold_runtime_code_v4 (cbi_runtime_code input)
    = crj_runtime_code_root (cbi_cold_journal input) /\
    hash_cold_state_access_v4 (cbi_state_access input)
    = crj_state_access_root (cbi_cold_journal input) /\
    hash_cold_state_refresh_v4 (cbi_state_refresh input)
    = crj_state_refresh_root (cbi_cold_journal input);
  clo_code : verify_cold_runtime_code_v4 state (cbi_runtime_code input) = Ok tt;
  clo_static : cold_static_state_commitment_v4 state (cbi_state_access input)
                 (cbi_state_refresh input)
               = Ok (crj_static_state_commitment (cbi_cold_journal input))
}.

Lemma cold_link_spec (input : ComposedBatchInputV4) (state : StateMap) :
  validate_composed_cold_link_v4 input state = Ok tt <-> cold_link_ok input state.
Proof.
  unfold validate_composed_cold_link_v4. rewrite !fail_if_Ok, !orb_false_iff, !negb_eqb_false,
    rbind_Ok. split.
  - intros (G1 & G2 & [] & Hs & H). apply shapes_spec in Hs. apply fail_if_Ok in H as [G3 H].
    rewrite !orb_false_iff, !negb_eqb_false in G3. apply rbind_Ok in H as ([] & Hc & H).
    apply rbind_Ok in H as (c & Hst & H). apply fail_if_Ok in H as [G4 _].
    apply negb_eqb_false in G4 as ->. split; tauto.
  - intros [G1 G2 Hs G3 Hc Hst]. split; [tauto|]. split; [tauto|]. exists tt.
    split; [apply shapes_spec, Hs|]. rewrite fail_if_Ok, !orb_false_iff, !negb_eqb_false, Hc.
    cbn [rbind]. rewrite Hst. cbn [rbind]. rewrite Z.eqb_refl. cbn [negb]. split; [tauto|reflexivity].
Qed.

(** The lists of the link are the lists the cold proof was about. *)
Lemma cold_link_lists {KR : KeccakRange} cold (input : ComposedBatchInputV4) (state : StateMap) :
  execute_cold_room_v4 cold = Ok (cbi_cold_journal input) -> cold_link_ok input state ->
  Forall ColdRuntimeCodeV4_wf (cri_runtime_code cold ++ cbi_runtime_code input) ->
  Forall ColdStateAccessV4_wf (cri_state_access cold ++ cbi_state_access input) ->
  Forall ColdStateRefreshV4_wf (cri_state_refresh cold ++ cbi_state_refresh input) ->
  no_collision (runtime_preimages (cbi_runtime_code input)
                ++ runtime_preimages (cri_runtime_code cold)) ->
  no_collision (access_preimages (cbi_state_access input)
                ++ access_preimages (cri_state_access cold)) ->
  no_collision (refresh_preimages (cbi_state_refresh input)
                ++ refresh_preimages (cri_state_refresh cold)) ->
  cbi_runtime_code input = cri_runtime_code cold /\
  cbi_state_access input = cri_state_access cold /\
  cbi_state_refresh input = cri_state_refresh cold.
Proof.
  intros (items & P)%cold_room_spec L W1 W2 W3 N1 N2 N3.
  rewrite Forall_app in W1. rewrite Forall_app in W2. rewrite Forall_app in W3.
  destruct (clo_roots _ _ L) as (R1 & R2 & R3). rewrite (cp_journal _ _ _ _ P) in R1, R2, R3.
  cbn [cold_journal crj_runtime_code_root crj_state_access_root crj_state_refresh_root] in *.
  split_and!; [apply runtime_root_inj|apply access_root_inj|apply refresh_root_inj]; tauto.
Qed.
End Setup.

Section Claims.
Context {KK : Keccak} {KR : KeccakRange} {RV : Revm} {AT : AlloyTrie} {OP : OsakaPrecompiles}
  {TC : TxCodec} {EV : Evm} {AR : AlloyRlp}.

(** C27: a cold journal attests an executed constructor transcript: from the sorted initial
    state at its committed root, consecutively numbered blocks in the fixed cold
    environment with non-decreasing timestamps execute (at least one transaction a
    contract creation) to the committed initialized root; the initialized state holds
    exactly the listed runtime code, the access and refresh lists are well formed, the
    static commitment is that of the initialized state, and every journal field is
    derived from the statement. *)
Theorem cold_room_sound (input : ColdRoomInputV4) j :
  execute_cold_room_v4 input = Ok j ->
  exists items, cold_prepared input items (initialized_state input) j.
Proof. apply cold_room_spec. Qed.

(** C11: a room opened from a cold proof starts as the template it names: when the link
    check accepts a batch against the journal of an accepted cold preparation, the two
    proofs speak about the same runtime code, access and refresh lists and the same
    program, preset and manifest; each declared account is in both states with the same
    code, and its nonce, balance and every storage slot equal the initialized template's
    except where the refresh policy names them; and every account of the room that has
    code is a prepared contract with exactly the proven code hash. *)
Theorem cold_link_preserves_template cold (input : ComposedBatchInputV4) (state : StateMap) :
  execute_cold_room_v4 cold = Ok (cbi_cold_journal input) ->
  validate_composed_cold_link_v4 input state = Ok tt ->
  Forall ColdRuntimeCodeV4_wf (cri_runtime_code cold ++ cbi_runtime_code input) ->
  Forall ColdStateAccessV4_wf (cri_state_access cold ++ cbi_state_access input) ->
  Forall ColdStateRefreshV4_wf (cri_state_refresh cold ++ cbi_state_refresh input) ->
  accounts_typed (sm_accounts (initialized_state cold)) -> accounts_typed (sm_accounts state) ->
  no_collision (runtime_preimages (cbi_runtime_code input)
                ++ runtime_preimages (cri_runtime_code cold)) ->
  no_collision (access_preimages (cbi_state_access input)
                ++ access_preimages (cri_state_access cold)) ->
  no_collision (refresh_preimages (cbi_state_refresh input)
                ++ refresh_preimages (cri_state_refresh cold)) ->
  no_collision (static_preimages (sm_accounts (initialized_state cold)) (cri_state_access cold)
                  (cri_state_refresh cold)
                ++ static_preimages (sm_accounts state) (cri_state_access cold)
                     (cri_state_refresh cold)) ->
  cri_proof_program_id cold = bi4_proof_program_id (cbi_batch input) /\
  cri_preset_hash cold = bi4_preset_hash (cbi_batch input) /\
  cri_manifest_hash cold = bi4_manifest_hash (cbi_batch input) /\
  (forall e, e ∈ cri_state_access cold -> exists a1 a2,
     sm_accounts (initialized_state cold) !! csa_address e = Some a1 /\
     sm_accounts state !! csa_address e = Some a2 /\
     static_agree (refresh_rules (cri_state_refresh cold) !! csa_address e) a1 a2) /\
  map_Forall (fun address account => ar_code account <> [] ->
    exists c, c ∈ cri_runtime_code cold /\ crc_address c = address /\
      code_hash account = crc_code_hash c) (sm_accounts state).
Proof.
  intros Hc L W1 W2 W3 T1 T2 N1 N2 N3 N4. apply cold_link_spec in L.
  destruct (cold_link_lists cold input state Hc L W1 W2 W3 N1 N2 N3) as (E1 & E2 & E3).
  apply cold_room_spec in Hc as (items & P). destruct L as [_ (I1 & I2 & I3) _ _ Lc Ls].
  rewrite (cp_journal _ _ _ _ P) in I1, I2, I3. rewrite E2, E3 in Ls. rewrite E1 in Lc.
  split_and!; auto.
  - eapply static_commitment_inj; [exact T1|exact T2|exact N4|apply (cp_static _ _ _ _ P)|exact Ls].
  - apply runtime_code_spec in Lc as [F M]. intros a r Ha Hr.
    destruct (M a r Ha Hr) as (c & Hin & <-). exists c. split_and!; auto.
    rewrite Forall_forall in F. destruct (F c Hin) as (r' & Hr' & _ & Hh). congruence.
Qed.
End Claims.

(** ** Witnesses: a template created by one transaction, opened as a room *)
#[local] Existing Instance toy_keccak.
#[local] Existing Instance toy_keccak_range.
#[local] Existing Instance toy_revm.
#[local] Existing Instance toy_trie.
#[local] Existing Instance toy_precompiles.
Definition cold_codec : TxCodec := slot_codec COLD_TEMPLATE_CHAIN_ID_V4.
#[local] Existing Instance cold_codec.
#[local] Existing Instance slot_evm.
#[local] Existing Instance toy_rlp.

Definition hall_runtime : bytes := [0x60; 0x00].
Definition hall_code_hash : Z := Eval vm_compute in keccak256 hall_runtime.
(** Account 101 creates contract 50; a room may refresh slot 8 of the contract, which holds
    the room's domain, and the balance and nonce of the account. *)
Definition hall_access : list ColdStateAccessV4 :=
  [mk_ColdStateAccessV4 50 [8; 9]; mk_ColdStateAccessV4 101 []].
Definition hall_refresh : list ColdStateRefreshV4 :=
  [mk_ColdStateRefreshV4 50 false false false [8]; mk_ColdStateRefreshV4 101 true true false []].
Definition hall_initial : list (Z * AccountState) := [(101, mk_AccountState 0 9 [] [])].
Definition hall_initial_root : Z := Eval vm_compute in state_root (state_map_from_input hall_initial).
Definition hall_setup (r : Z) : list BatchBlockV4 :=
  [mk_BatchBlockV4 0 [[2; 101; 0; 50; 0] ++ hall_runtime]
     (mk_BlockEnvV1 0 5 30000000 0 0 0 0 0 COLD_TEMPLATE_CHAIN_ID_V4) r].
Definition hall_template (r : Z) : ColdRoomInputV4 :=
  mk_ColdRoomInputV4 100 5 6 7 8 hall_initial_root r 0 0 hall_initial (hall_setup r)
    ([mk_ColdRuntimeCodeV4 50 hall_code_hash]) hall_access hall_refresh.
Definition hall_initialized_root : Z :=
  Eval vm_compute in
    match execute_block_on_state (setup_input hall_initial_root (hd BatchBlockV4_default (hall_setup 0)))
            (state_map_from_input hall_initial) None false 0 true None with
    | Ok o => state_root (bo_post_state o)
    | Err _ => 0
    end.
Definition hall_cold : ColdRoomInputV4 := hall_template hall_initialized_root.
Definition hall_journal : ColdRoomJournalV4 :=
  match execute_cold_room_v4 hall_cold with Ok j => j | Err _ => ColdRoomJournalV4_default end.
Lemma hall_prepared : execute_cold_room_v4 hall_cold = Ok hall_journal.
Proof. vm_compute. reflexivity. Qed.

Lemma cold_room_sound_witness :
  exists items, cold_prepared hall_cold items (initialized_state hall_cold) hall_journal.
Proof. exact (cold_room_sound hall_cold hall_journal hall_prepared). Defined.

Definition hall_link : ComposedBatchInputV4 :=
  mk_ComposedBatchInputV4 hall_journal [mk_ColdRuntimeCodeV4 50 hall_code_hash] hall_access
    hall_refresh
    (mk_BatchInputV4 0 0 0 6 7 8 0 0 0 0 0 0 0 0 0 0 0 0 0 0 0 0 0 0 0 0 false 0 [] [] [] []
    [] [] [] [] [] CompactStateWitnessV4_default []).
Definition hall_opened : StateMap :=
  set_accounts {[ 50 := mk_AccountRecord 1 0 hall_runtime {[ 8 := 1234 ]};
                  101 := mk_AccountRecord 7 40 [] ∅ ]} StateMap_default.

(** Slot 9 of the contract and its code are the template's; account 101 may differ. *)
Lemma cold_link_preserves_template_witness :
  exists a1 a2, sm_accounts (initialized_state hall_cold) !! 50 = Some a1 /\
    sm_accounts hall_opened !! 50 = Some a2 /\ code_hash a1 = code_hash a2 /\
    default 0 (ar_storage a1 !! 9) = default 0 (ar_storage a2 !! 9).
Proof.
  destruct (cold_link_preserves_template hall_cold hall_link hall_opened)
    as (_ & _ & _ & H & _).
  - exact hall_prepared.
  - vm_compute. reflexivity.
  - unfold ColdRuntimeCodeV4_wf, in_u160, in_u256.
    refine (bool_decide_unpack _ _). vm_compute. exact I.
  - unfold ColdStateAccessV4_wf, in_u160, in_u256.
    refine (bool_decide_unpack _ _). vm_compute. exact I.
  - unfold ColdStateRefreshV4_wf, in_u160, in_u256.
    refine (bool_decide_unpack _ _). vm_compute. exact I.
  - unfold accounts_typed, account_in_range, in_u64, in_u256.
    refine (bool_decide_unpack _ _). vm_compute. exact I.
  - unfold accounts_typed, account_in_range, in_u64, in_u256.
    refine (bool_decide_unpack _ _). vm_compute. exact I.
  - apply no_collisionb_spec. vm_compute. reflexivity.
  - apply no_collisionb_spec. vm_compute. reflexivity.
  - apply no_collisionb_spec. vm_compute. reflexivity.
  - apply no_collisionb_spec. vm_compute. reflexivity.
  - destruct (H (mk_ColdStateAccessV4 50 [8; 9]) (list_elem_of_here _ _)) as (a1 & a2 & E1 & E2 & A).
    exists a1, a2. split; [exact E1|]. split; [exact E2|]. split; [apply A|].
    apply (sag_storage _ _ _ A). vm_compute. reflexivity.
Defined.
