(* ===== verification/BatchV4.v ===== *)
(** * A v4 batch: stf-core/src/batch_v4.rs

    The composition of the v4 room: masks and roster transition, the
    authenticated prestate (optionally linked to a cold proof), the preset, the
    exit program, the previous claims, the inbox, one to four blocks, the
    settlement of the terminal state and the derived public journal. *)

From S2P Require Import Prelude Types Abi Merkle HashV4 State StateEvm Policy Settlement RosterV4 PresetV4 InboxV4 Compact ExitV4 Block BatchData ColdState ColdRoom.
Open Scope Z_scope.

(** report.rs *)
Record BatchOutcome := mk_BatchOutcome {
  bo4_journal : BatchJournalV4;
  bo4_proof_work : BatchProofWork
}.

Section Batch.
Context {KK : Keccak} {RV : Revm} {AT : AlloyTrie} {OP : OsakaPrecompiles}
  {EC : ExitProgramCodec} {PC : PresetCodec} {TC : TxCodec} {EV : Evm} {AR : AlloyRlp}.

(** ** Statement checks *)

(** [mask & !0x7f != 0] and [a & !b != 0] on [u8]. *)
Definition exceeds_seven (mask : Z) : bool := negb (Z.land mask (Z.lxor 0x7f 0xff) =? 0).
Definition not_subset (active used : Z) : bool := negb (Z.land active (Z.lxor used 0xff) =? 0).

Definition validate_statement (input : BatchInputV4) : result StfError unit :=
  let count := zlen (bi4_blocks input) in
  fail_if negb ((1 <=? count) && (count <=? MAX_BATCH_BLOCKS_V4))
    with InvalidBatch "block count outside the cap" in
  fail_if (count =? 1) && negb (bi4_close input)
    with InvalidBatch "one-block batch is permitted only as a terminal close" in
  fail_if exceeds_seven (bi4_active_mask input) || exceeds_seven (bi4_pre_used_mask input)
          || exceeds_seven (bi4_post_active_mask input) || exceeds_seven (bi4_used_mask input)
    with InvalidBatch "member masks exceed seven slots" in
  fail_if not_subset (bi4_active_mask input) (bi4_pre_used_mask input)
          || not_subset (bi4_post_active_mask input) (bi4_used_mask input)
    with InvalidBatch "active slots must be a subset of lifetime-used slots" in
  fail_if bi4_inbox_end input <? bi4_inbox_start input
    with InvalidBatch "inbox cursor moved backwards" in
  fail_if negb (cst_canonical_state_root (bi4_compact_state input) =? B256_ZERO)
    with CompactWitness "v4 batches require complete room-local state" in
  Ok tt.

(** The membership transition and its hash. *)
Definition membership_hash (input : BatchInputV4) : result StfError Z :=
  let? derived := map_err Settlement
    (validate_membership_transition_v4 (bi4_batch_index input) (bi4_pre_roster_slots input)
       (bi4_post_roster_slots input) (bi4_membership_deltas input) (bi4_pre_roster_root input)
       (bi4_post_roster_root input) (bi4_active_mask input) (bi4_pre_used_mask input)
       (bi4_post_active_mask input) (bi4_used_mask input)) in
  fail_if negb (derived =? bi4_membership_deltas_hash input)
    with Settlement "derived membershipDeltasHash does not match expected public statement" in
  Ok derived.

Definition data_hash (input : BatchInputV4) : result StfError Z :=
  let computed := batch_block_data_hash_v4 (bi4_blocks input) (bi4_prev_state_root input) in
  fail_if negb (computed =? bi4_expected_block_data_hash input)
    with InvalidBatch "block data hash mismatch" in
  Ok computed.

Definition open_compact (input : BatchInputV4) : result StfError StateMap :=
  let? state := map_err CompactWitness (verify_compact_state_v4 (bi4_compact_state input)) in
  fail_if negb (state_root state =? bi4_prev_state_root input)
    with CompactWitness "compact root does not match batch prev root" in
  Ok state.

Definition check_cold_link (cold_link : option ComposedBatchInputV4) (state : StateMap)
  : result StfError unit :=
  match cold_link with
  | Some cold_link => validate_composed_cold_link_v4 cold_link state
  | None => Ok tt
  end.

Definition consume_inbox (input : BatchInputV4) (exit_program : ExitProgramV4)
    (state : StateMap) : result StfError (Z * StateMap) :=
  let? (inbox_inputs_hash, state) := map_err Settlement
    (apply_inbox_v4 exit_program state (bi4_inbox_entries input) (bi4_membership_deltas input)
       (bi4_pre_roster_slots input) (bi4_post_roster_slots input) (bi4_inbox_start input)
       (bi4_inbox_end input)) in
  fail_if negb (inbox_inputs_hash =? bi4_inbox_inputs_hash input)
    with Settlement "derived inboxInputsHash does not match expected public statement" in
  Ok (inbox_inputs_hash, state).

(** Installed after the inbox; the interpreter path clears the cache instead. *)
Definition install_runtime (use_prepared_runtime_cache : bool) (policy : ExecutionPolicyV4)
    (state : StateMap) : result StfError StateMap :=
  if use_prepared_runtime_cache then
    let? (_, state) := map_err CertifiedPolicy
                         (install_prepared_runtime_code (xp_code_hashes policy) state) in
    Ok state
  else Ok (clear_prepared_runtime_code state).

(** ** The block loop *)
Record BatchLoopV4 := mk_BatchLoopV4 {
  ba4_state : StateMap;
  ba4_current_root : Z;
  ba4_journals : list BatchBlockJournalV4;
  ba4_proof_work : EvmProofWork;
  ba4_previous_timestamp : Z
}.

Definition not_room_profile (policy : ExecutionPolicyV4) (env : BlockEnvV1) : bool :=
  negb (env_gas_limit env =? xp_max_gas_per_block policy)
  || negb (env_coinbase env =? Address_ZERO)
  || negb (env_base_fee env =? 0)
  || negb (env_prev_randao env =? B256_ZERO)
  || negb (env_difficulty env =? 0)
  || negb (env_excess_blob_gas env =? 0).

Definition single_input_v4 (input : BatchInputV4) (current_root : Z) (block : BatchBlockV4)
  : StfInput :=
  mk_StfInput (bi4_room_id input) (bb4_block_number block) current_root []
    (bb4_raw_txs block) (bb4_env block) [].

Definition execute_batch_block_v4 (input : BatchInputV4) (policy : ExecutionPolicyV4)
    (use_prepared_runtime_cache : bool) (s : BatchLoopV4) (item : Z * BatchBlockV4)
  : result StfError BatchLoopV4 :=
  let '(offset, block) := item in
  let env := bb4_env block in
  let? expected_number := ok_or (checked_add U64_MAX (bi4_l2_start_height input) offset)
                            (InvalidBatch "L2 height overflow") in
  fail_if negb (bb4_block_number block =? expected_number)
          || negb (env_number env =? expected_number)
    with InvalidBatch "block height/env must both be the expected height" in
  fail_if env_timestamp env <? ba4_previous_timestamp s
    with InvalidBatch "block timestamp precedes previous verified timestamp" in
  fail_if negb (env_chain_id env =? room_chain_id_v4 (bi4_deployment_id input) (bi4_room_id input))
    with InvalidBatch "block chain id does not match room chain id" in
  fail_if not_room_profile policy env
    with InvalidBatch "block environment is not the deterministic v4 room profile" in
  let? outcome := execute_block_on_state (single_input_v4 input (ba4_current_root s) block)
                    (ba4_state s) (Some policy) false 0 use_prepared_runtime_cache None in
  fail_if xp_max_gas_per_block policy <? bo_gas_used outcome
    with CertifiedPolicy "block exceeds the preset gas cap" in
  fail_if negb (sj_post_state_root (bo_journal outcome) =? bb4_expected_post_state_root block)
    with InvalidBatch "block post root does not match canonical batch root" in
  let current_root := sj_post_state_root (bo_journal outcome) in
  Ok (mk_BatchLoopV4 (bo_post_state outcome) current_root
        (ba4_journals s
         ++ [mk_BatchBlockJournalV4 (bb4_block_number block) current_root
               (sj_tx_commitment (bo_journal outcome)) (sj_env_hash (bo_journal outcome))])
        (accumulate (ba4_proof_work s) (bo_proof_work outcome)) (env_timestamp env)).

(** ** The settlement of the terminal state *)
Definition settle (input : BatchInputV4) (exit_program : ExitProgramV4) (state : StateMap)
  : result StfError DerivedSettlementV4 :=
  let? settlement := map_err Settlement
    (derive_settlement_v4 exit_program state (bi4_post_roster_slots input)
       (bi4_asset_totals input) (bi4_residual_allocations input) (bi4_deployment_id input)
       (bi4_room_id input)) in
  let? _ := map_err Settlement
    (enforce_retired_exit_continuity_v4 (bi4_previous_exit_allocations input)
       (ds_exit_allocations settlement) (bi4_pre_used_mask input) (bi4_active_mask input)) in
  fail_if negb (ds_asset_totals_hash settlement =? bi4_asset_totals_hash input)
          || negb (ds_exit_totals_hash settlement =? bi4_exit_totals_hash input)
          || negb (ds_fee_totals_hash settlement =? bi4_fee_totals_hash input)
          || negb (ds_exit_root settlement =? bi4_exit_root input)
    with Settlement "derived batch accounting/root does not match expected public statement" in
  Ok settlement.

Definition batch_journal_v4 (input : BatchInputV4) (s : BatchLoopV4) (l2_end_height
    inbox_inputs_hash computed_data_hash membership_deltas_hash : Z)
    (settlement : DerivedSettlementV4) : BatchJournalV4 :=
  mk_BatchJournalV4 BATCH_JOURNAL_VERSION_V4 (bi4_deployment_id input) (bi4_room_id input)
    (bi4_preset_hash input) (bi4_manifest_hash input) (bi4_proof_program_id input)
    (bi4_batch_index input) (bi4_l2_start_height input) l2_end_height
    (bi4_previous_block_timestamp input) (ba4_previous_timestamp s) (bi4_prev_state_root input)
    (ba4_current_root s) (batch_block_roots_hash_v4 (ba4_journals s)) (ba4_journals s)
    (bi4_pre_roster_root input) (bi4_post_roster_root input) (bi4_active_mask input)
    (bi4_post_active_mask input) (bi4_used_mask input) (bi4_inbox_start input)
    (bi4_inbox_end input) inbox_inputs_hash computed_data_hash
    (ds_asset_totals_hash settlement) (ds_exit_totals_hash settlement)
    (ds_fee_totals_hash settlement) membership_deltas_hash (bi4_previous_exit_root input)
    (ds_exit_root settlement) (bi4_close input) (bi4_l1_inclusion_deadline input)
    (ds_exit_allocations settlement) (ds_accounting settlement).

Definition execute_batch_v4_with_runtime_cache (input : BatchInputV4)
    (use_prepared_runtime_cache : bool) (cold_link : option ComposedBatchInputV4)
  : result StfError BatchOutcome :=
  let count := zlen (bi4_blocks input) in
  let? _ := validate_statement input in
  let? membership_deltas_hash := membership_hash input in
  let? computed_data_hash := data_hash input in
  let? state := open_compact input in
  let compact_root := state_root state in
  let? _ := check_cold_link cold_link state in
  let? policy := map_err CertifiedPolicy (PresetV4.from_input input state) in
  let? exit_program := map_err Settlement
                         (parse (bi4_canonical_exit_program_json input) policy) in
  let? _ := map_err Settlement
    (authenticate_previous_exit_allocations_v4 exit_program (bi4_pre_roster_slots input)
       (bi4_pre_used_mask input) (bi4_previous_exit_allocations input)
       (bi4_previous_exit_root input) (bi4_deployment_id input) (bi4_room_id input)) in
  let? (inbox_inputs_hash, state) := consume_inbox input exit_program state in
  let? state := install_runtime use_prepared_runtime_cache policy state in
  let initial_storage := storages state in
  let current_root := if bool_decide (bi4_inbox_entries input = []) then compact_root
                      else state_root state in
  let? s := for_each (execute_batch_block_v4 input policy use_prepared_runtime_cache)
              (mk_BatchLoopV4 state current_root [] EvmProofWork_default
                 (bi4_previous_block_timestamp input))
              (enumerate (bi4_blocks input)) in
  let? l2_end_height := ok_or (checked_add U64_MAX (bi4_l2_start_height input) count
                               ≫= fun n => checked_sub n 1)
                          (InvalidBatch "L2 end height overflow") in
  let? _ := map_err CertifiedPolicy (validate_post_state policy initial_storage (ba4_state s)) in
  let? settlement := settle input exit_program (ba4_state s) in
  Ok (mk_BatchOutcome
        (batch_journal_v4 input s l2_end_height inbox_inputs_hash computed_data_hash
           membership_deltas_hash settlement)
        (mk_BatchProofWork count (bi4_encoded_witness_bytes input) (ba4_proof_work s))).

(** ** Entry points *)
Definition journal_of (r : result StfError BatchOutcome) : result StfError BatchJournalV4 :=
  let? outcome := r in Ok (bo4_journal outcome).

Definition execute_composed_batch_v4 (input : ComposedBatchInputV4)
  : result StfError BatchJournalV4 :=
  journal_of (execute_batch_v4_with_runtime_cache (cbi_batch input) true (Some input)).
Definition execute_batch_v4_with_report (input : BatchInputV4) : result StfError BatchOutcome :=
  execute_batch_v4_with_runtime_cache input true None.
Definition execute_batch_v4 (input : BatchInputV4) : result StfError BatchJournalV4 :=
  journal_of (execute_batch_v4_with_report input).
Definition execute_batch_v4_interpreter_fallback (input : BatchInputV4)
  : result StfError BatchJournalV4 :=
  journal_of (execute_batch_v4_with_runtime_cache input false None).
End Batch.

(** * Properties *)
Section Facts.
Context {KK : Keccak} {RV : Revm} {AT : AlloyTrie} {OP : OsakaPrecompiles}
  {EC : ExitProgramCodec} {PC : PresetCodec} {TC : TxCodec} {EV : Evm} {AR : AlloyRlp}.
Implicit Types (db state : StateMap) (policy : ExecutionPolicyV4) (input : BatchInputV4).

(** The schema's [asset_id] is a [u8]: what serde parses is in range. *)
Class ExitCodecTyped : Prop := {
  exit_assets_typed : forall value parsed, exit_program_from_value value = Some parsed ->
    Forall (fun a => in_u8 (eaj_asset_id a)) (epj_assets parsed)
}.

(** ** The statement *)
Record statement_ok input : Prop := {
  sto_count : 1 <= zlen (bi4_blocks input) <= MAX_BATCH_BLOCKS_V4;
  sto_close : zlen (bi4_blocks input) = 1 -> bi4_close input = true;
  sto_inbox : bi4_inbox_start input <= bi4_inbox_end input;
  sto_complete : cst_canonical_state_root (bi4_compact_state input) = B256_ZERO
}.

Lemma statement_spec input : validate_statement input = Ok tt -> statement_ok input.
Proof.
  unfold validate_statement. rewrite !fail_if_Ok. intros (G1 & G2 & _ & _ & G3 & G4 & _).
  rewrite negb_false_iff, andb_true_iff, !Z.leb_le in G1. split.
  - exact G1.
  - intros Hc. rewrite Hc in G2. cbn in G2. apply negb_false_iff, G2.
  - apply Z.ltb_ge, G3.
  - apply negb_eqb_false, G4.
Qed.

Lemma open_compact_spec input opened :
  open_compact input = Ok opened ->
  faithful_state (bi4_compact_state input) opened /\ state_root opened = bi4_prev_state_root input.
Proof.
  unfold open_compact. intros H. apply rbind_Ok in H as (s & Hs & H).
  apply map_err_Ok, faithful_spec in Hs. apply fail_if_Ok in H as [G H].
  apply negb_eqb_false in G. apply Ok_Ok in H as <-. auto.
Qed.

(** ** Blocks *)
Abbreviation room_item := (Z * BatchBlockV4 * list executed_tx)%type.

Record room_block input policy (cache : bool) db (x : room_item) db' : Prop := {
  rb_fits : bi4_l2_start_height input + x.1.1 <= U64_MAX;
  rb_number : bb4_block_number x.1.2 = bi4_l2_start_height input + x.1.1 /\
    env_number (bb4_env x.1.2) = bb4_block_number x.1.2;
  rb_chain : env_chain_id (bb4_env x.1.2)
             = room_chain_id_v4 (bi4_deployment_id input) (bi4_room_id input);
  rb_gas_limit : env_gas_limit (bb4_env x.1.2) = xp_max_gas_per_block policy;
  rb_fixed : env_coinbase (bb4_env x.1.2) = Address_ZERO /\ env_base_fee (bb4_env x.1.2) = 0 /\
    env_prev_randao (bb4_env x.1.2) = B256_ZERO /\ env_difficulty (bb4_env x.1.2) = 0 /\
    env_excess_blob_gas (bb4_env x.1.2) = 0;
  rb_run : forall root, plain_block (single_input_v4 input root x.1.2) policy cache db x.2 db';
  rb_gas : zsum (map (fun t => er_gas_used (xt_run t)) x.2) <= xp_max_gas_per_block policy;
  rb_root : state_root db' = bb4_expected_post_state_root x.1.2
}.

(** What a block contributes to the journal. *)
Definition block_entry (b : BatchBlockV4) : BatchBlockJournalV4 :=
  mk_BatchBlockJournalV4 (bb4_block_number b) (bb4_expected_post_state_root b)
    (tx_commitment_raw (bb4_raw_txs b)) (block_env_hash (bb4_env b)).

Definition timestamps (done : list (Z * BatchBlockV4)) : list Z :=
  map (fun x => env_timestamp (bb4_env x.2)) done.

Record room_loop input policy (cache : bool) start root (done : list (Z * BatchBlockV4))
    (s : BatchLoopV4) (items : list room_item) : Prop := {
  rl_items : map fst items = done;
  rl_runs : runs (room_block input policy cache) start items (ba4_state s);
  rl_root : ba4_current_root s
    = default root (last (map (fun x => bb4_expected_post_state_root x.2) done));
  rl_journals : ba4_journals s = map (fun x => block_entry x.2) done;
  rl_previous : last (bi4_previous_block_timestamp input :: timestamps done)
                = Some (ba4_previous_timestamp s);
  rl_clock : nondecreasing (bi4_previous_block_timestamp input :: timestamps done)
}.

Lemma room_step input policy cache start root done s items x s' :
  room_loop input policy cache start root done s items ->
  execute_batch_block_v4 input policy cache s x = Ok s' ->
  exists xs, room_loop input policy cache start root (done ++ [x]) s' (items ++ [(x, xs)]).
Proof.
  intros [L1 L2 L3 L4 L5 L6] H. destruct x as [k b]. unfold execute_batch_block_v4 in H.
  apply rbind_Ok in H as (n & Hn & H). apply ok_or_Ok, checked_add_Some in Hn as [Hfit ->].
  apply fail_if_Ok in H as [Gn H]. apply fail_if_Ok in H as [Gt H].
  apply fail_if_Ok in H as [Gc H]. apply fail_if_Ok in H as [Gp H].
  apply rbind_Ok in H as (o & Ho & H). apply fail_if_Ok in H as [Gg H].
  apply fail_if_Ok in H as [Gr H]. apply negb_eqb_false in Gr. apply Ok_Ok in H as <-.
  unfold not_room_profile in Gp. rewrite !orb_false_iff, !negb_eqb_false in Gp.
  rewrite orb_false_iff, !negb_eqb_false in Gn. apply negb_eqb_false in Gc.
  destruct Gp as (((((E1 & E2) & E3) & E4) & E5) & E6).
  apply Z.ltb_ge in Gt. apply Z.ltb_ge in Gg.
  apply plain_block_spec in Ho as (xs & P & Hroot & Hgas & Htx & Henv); [|reflexivity].
  exists xs. unfold timestamps in *.
  split; unfold timestamps; cbn [ba4_state ba4_current_root ba4_journals ba4_previous_timestamp];
    rewrite ?map_app; cbn [map fst snd].
  - rewrite L1. reflexivity.
  - eapply runs_snoc; [exact L2|]. destruct Gn.
    split; cbn [fst snd]; split_and?; auto; try lia; try congruence.
    intros r. destruct P as [P1 P2 P3 P4]. split; assumption.
  - rewrite last_snoc. exact Gr.
  - rewrite L4. f_equal. unfold block_entry. rewrite Gr, Htx, Henv. reflexivity.
  - rewrite app_comm_cons, last_snoc. reflexivity.
  - rewrite app_comm_cons. apply nondecreasing_snoc; [exact L6|]. intros p Hp.
    rewrite L5 in Hp. injection Hp as <-. exact Gt.
Qed.

Lemma room_loop_all input policy cache start root s :
  for_each (execute_batch_block_v4 input policy cache)
    (mk_BatchLoopV4 start root [] EvmProofWork_default (bi4_previous_block_timestamp input))
    (enumerate (bi4_blocks input)) = Ok s ->
  exists items, room_loop input policy cache start root (enumerate (bi4_blocks input)) s items.
Proof.
  intros H. refine (for_each_inv (fun done s => exists items,
    room_loop input policy cache start root done s items) _ _ _ _ _ _ H).
  - exists []. split; try reflexivity; [constructor|]. intros k x y Hx Hy. destruct k; discriminate.
  - intros done x s1 s2 [items I] _ Hb.
    destruct (room_step _ _ _ _ _ _ _ _ _ _ I Hb) as [xs Hxs]. eauto.
Qed.

(** ** The previous claims *)
Definition claim_checked (program : ExitProgramV4) (roster : list MemberSlotWitnessV4)
    (used_mask : Z) (c : ExitAllocationV4) : Prop :=
  xal_slot c < MAX_MEMBERS /\ xal_asset_id c < MAX_ASSETS /\
  is_ok (asset program (xal_asset_id c)) = true /\ xal_amount c <> 0 /\
  exists member, znth roster (xal_slot c) = Some member /\ msl_slot member = xal_slot c /\
    is_used member = true /\ Z.land used_mask (Z.shiftl 1 (xal_slot c)) <> 0 /\
    xal_recipient c = msl_account member.

Lemma authenticate_allocation_spec program roster used_mask previous c s :
  authenticate_allocation program roster used_mask previous c = Ok s <->
  not_after previous (auth_key c) = false /\ claim_checked program roster used_mask c /\
  s = Some (auth_key c).
Proof.
  unfold authenticate_allocation, claim_checked, auth_key.
  rewrite fail_if_Ok, !orb_false_iff, negb_false_iff, !Z.leb_gt, Z.eqb_neq.
  destruct (znth roster (xal_slot c)) as [m|].
  - rewrite !fail_if_Ok, Ok_Ok, !orb_false_iff, !negb_eqb_false, negb_false_iff, Z.eqb_neq.
    naive_solver.
  - split; [intros [_ H]; discriminate|naive_solver].
Qed.

Lemma authenticate_previous_spec program roster used_mask allocations root d r :
  authenticate_previous_exit_allocations_v4 program roster used_mask allocations root d r = Ok tt ->
  key_sorted auth_key allocations /\ Forall (claim_checked program roster used_mask) allocations /\
  claim_merkle_root_v4 d r allocations = root.
Proof.
  unfold authenticate_previous_exit_allocations_v4. intros H. apply fail_if_Ok in H as [_ H].
  apply rbind_Ok in H as (s & Hf & H). apply fail_if_Ok in H as [G _].
  apply (for_each_ordered auth_key (claim_checked program roster used_mask)) in Hf as (H1 & H2 & _);
    [|intros p c s'; apply authenticate_allocation_spec].
  apply negb_eqb_false in G. auto.
Qed.

(** ** The exit program's assets *)
Lemma parse_typed {ET : ExitCodecTyped} json policy program :
  parse json policy = Ok program ->
  Forall (fun a => in_u8 (xa_asset_id a)) (xpr_assets program).
Proof.
  unfold parse. intros H. apply rbind_Ok in H as (parsed & Hp & H).
  apply rbind_Ok in H as ([last assets] & Ha & H). apply fail_if_Ok in H as [_ H].
  apply rbind_Ok in H as ([seen positions] & _ & H). apply Ok_Ok in H as <-. cbn [xpr_assets].
  apply parse_exit_assets_spec in Ha as (_ & _ & _ & Hids). cbn [snd] in Hids.
  rewrite <- (Forall_map xa_asset_id in_u8). rewrite Hids. apply Forall_map.
  unfold authenticate_exit_program in Hp. apply rbind_Ok in Hp as (v & _ & Hp).
  apply rbind_Ok in Hp as (c & _ & Hp). apply fail_if_Ok in Hp as [_ Hp].
  apply fail_if_Ok in Hp as [_ Hp]. apply rbind_Ok in Hp as (q & Hq & Hp).
  apply fail_if_Ok in Hp as [_ Hp]. apply fail_if_Ok in Hp as [_ Hp]. apply Ok_Ok in Hp as <-.
  apply ok_or_Ok in Hq. eapply exit_assets_typed, Hq.
Qed.

(** ** Settlement *)
Lemma claims_slots_valid program state roster totals d r ds :
  roster_ok roster -> settlement_ok program state roster totals d r ds ->
  slots_valid (ds_exit_allocations ds).
Proof.
  intros Hr S. eapply Forall_impl; [apply (so_claims _ _ _ _ _ _ _ S)|].
  intros c (_ & _ & s & Hs & _ & <- & _). apply list_elem_of_lookup in Hs as [i Hi].
  rewrite (ro_indexed _ Hr _ _ Hi). apply lookup_lt_Some in Hi.
  rewrite (ro_length _ Hr) in Hi. unfold MAX_MEMBERS. lia.
Qed.

Lemma previous_slots_valid program roster used previous :
  Forall ExitAllocationV4_wf previous -> Forall (claim_checked program roster used) previous ->
  slots_valid previous.
Proof.
  intros Hw Hc. apply Forall_and. split.
  - eapply Forall_impl; [exact Hw|]. intros c (H & _). unfold in_u8 in H. lia.
  - eapply Forall_impl; [exact Hc|]. intros c (H & _). exact H.
Qed.

Lemma settle_spec {ET : ExitCodecTyped} input policy program state ds :
  parse (bi4_canonical_exit_program_json input) policy = Ok program ->
  roster_ok (bi4_post_roster_slots input) -> slots_valid (bi4_previous_exit_allocations input) ->
  settle input program state = Ok ds ->
  settlement_ok program state (bi4_post_roster_slots input) (bi4_asset_totals input)
    (bi4_deployment_id input) (bi4_room_id input) ds /\
  (forall slot asset_id, 0 <= slot < MAX_MEMBERS ->
     Z.testbit (bi4_pre_used_mask input) slot = true ->
     Z.testbit (bi4_active_mask input) slot = false ->
     claim_amount (bi4_previous_exit_allocations input) slot asset_id
     = claim_amount (ds_exit_allocations ds) slot asset_id) /\
  ds_asset_totals_hash ds = bi4_asset_totals_hash input /\
  ds_exit_totals_hash ds = bi4_exit_totals_hash input /\
  ds_fee_totals_hash ds = bi4_fee_totals_hash input /\ ds_exit_root ds = bi4_exit_root input.
Proof.
  intros Hp Hr Hv H. unfold settle in H. apply rbind_Ok in H as (ds' & Hs & H).
  apply map_err_Ok in Hs. apply rbind_Ok in H as ([] & Hc & H). apply map_err_Ok in Hc.
  apply fail_if_Ok in H as [G H]. apply Ok_Ok in H as ->.
  rewrite !orb_false_iff, !negb_eqb_false in G.
  pose proof (parse_wf _ _ _ Hp) as [W _]. pose proof (parse_typed _ _ _ Hp) as T.
  apply settlement_spec in Hs; [|apply roster_ok_sorted, Hr|apply W|exact T].
  rewrite continuity_spec in Hc; [|exact Hv|eapply claims_slots_valid; eauto]. tauto.
Qed.

(** ** What an accepted batch is *)
Record v4_transition input opened consumed start policy program
    (resolved : list InboxEntryWitnessV4) (items : list room_item) (cache : bool) terminal ds
  : Prop := {
  vt_statement : statement_ok input;
  vt_membership : transition_ok (bi4_batch_index input) (bi4_pre_roster_slots input)
    (bi4_post_roster_slots input) (bi4_membership_deltas input) (bi4_pre_roster_root input)
    (bi4_post_roster_root input) (bi4_active_mask input) (bi4_pre_used_mask input)
    (bi4_post_active_mask input) (bi4_used_mask input);
  vt_deltas : bi4_membership_deltas_hash input
              = hash_membership_deltas_v4 (bi4_membership_deltas input);
  vt_data : bi4_expected_block_data_hash input
            = batch_block_data_hash_v4 (bi4_blocks input) (bi4_prev_state_root input);
  vt_opening : faithful_state (bi4_compact_state input) opened /\
    state_root opened = bi4_prev_state_root input;
  vt_preset : exists preset, preset_accepted input (sm_accounts opened) preset policy;
  vt_program : exit_program_wf policy program /\
    keccak256 (bi4_canonical_exit_program_json input) = xp_exit_program_id policy;
  vt_previous : key_sorted auth_key (bi4_previous_exit_allocations input) /\
    Forall (claim_checked program (bi4_pre_roster_slots input) (bi4_pre_used_mask input))
      (bi4_previous_exit_allocations input) /\
    claim_merkle_root_v4 (bi4_deployment_id input) (bi4_room_id input)
      (bi4_previous_exit_allocations input) = bi4_previous_exit_root input;
  vt_inbox : zlen (bi4_inbox_entries input)
             = as_usize (bi4_inbox_end input - bi4_inbox_start input) /\
    bi4_inbox_inputs_hash input = hash_inbox_entries_v4 resolved /\
    inbox_effect program opened consumed (bi4_inbox_entries input) resolved
      (bi4_membership_deltas input) (bi4_pre_roster_slots input) (bi4_post_roster_slots input)
      (bi4_inbox_start input);
  vt_start : sm_accounts start = sm_accounts consumed;
  vt_blocks : map fst items = enumerate (bi4_blocks input);
  vt_runs : runs (room_block input policy cache) start items terminal;
  vt_clock : nondecreasing (bi4_previous_block_timestamp input
                            :: map (fun b => env_timestamp (bb4_env b)) (bi4_blocks input));
  vt_certified : xp_certified policy = true ->
    map_Forall (fun address hash => exists account,
      sm_accounts terminal !! address = Some account /\ code_hash account = hash)
      (xp_code_hashes policy) /\
    (forall address slot, write_ok policy (storages start) (sm_accounts terminal) address slot) /\
    guards_ok policy (sm_accounts terminal);
  vt_settlement : settlement_ok program terminal (bi4_post_roster_slots input)
    (bi4_asset_totals input) (bi4_deployment_id input) (bi4_room_id input) ds;
  vt_retired : forall slot asset_id, 0 <= slot < MAX_MEMBERS ->
    Z.testbit (bi4_pre_used_mask input) slot = true ->
    Z.testbit (bi4_active_mask input) slot = false ->
    claim_amount (bi4_previous_exit_allocations input) slot asset_id
    = claim_amount (ds_exit_allocations ds) slot asset_id
}.

(** The journal of an accepted batch: everything but the terminal root, the block entries,
    the clock, the claims and the accounting is copied from the statement. *)
Definition published_journal input (post_state_root final_timestamp : Z)
    (ds : DerivedSettlementV4) : BatchJournalV4 :=
  let entries := map block_entry (bi4_blocks input) in
  mk_BatchJournalV4 BATCH_JOURNAL_VERSION_V4 (bi4_deployment_id input) (bi4_room_id input)
    (bi4_preset_hash input) (bi4_manifest_hash input) (bi4_proof_program_id input)
    (bi4_batch_index input) (bi4_l2_start_height input)
    (bi4_l2_start_height input + zlen (bi4_blocks input) - 1)
    (bi4_previous_block_timestamp input) final_timestamp (bi4_prev_state_root input)
    post_state_root (batch_block_roots_hash_v4 entries) entries
    (bi4_pre_roster_root input) (bi4_post_roster_root input) (bi4_active_mask input)
    (bi4_post_active_mask input) (bi4_used_mask input) (bi4_inbox_start input)
    (bi4_inbox_end input) (bi4_inbox_inputs_hash input) (bi4_expected_block_data_hash input)
    (bi4_asset_totals_hash input) (bi4_exit_totals_hash input) (bi4_fee_totals_hash input)
    (bi4_membership_deltas_hash input) (bi4_previous_exit_root input) (bi4_exit_root input)
    (bi4_close input) (bi4_l1_inclusion_deadline input) (ds_exit_allocations ds)
    (ds_accounting ds).

Lemma install_runtime_accounts cache policy state start :
  install_runtime cache policy state = Ok start -> sm_accounts start = sm_accounts state.
Proof.
  unfold install_runtime. destruct cache.
  - intros H. apply rbind_Ok in H as ([report s] & Hs & H). apply Ok_Ok in H as <-.
    apply map_err_Ok, install_accounts in Hs. exact Hs.
  - intros H. apply Ok_Ok in H as <-. reflexivity.
Qed.

(** The stages of an accepted batch. *)
Record v4_run input (cache : bool) (link : option ComposedBatchInputV4) := {
  vr_opened : StateMap;
  vr_policy : ExecutionPolicyV4;
  vr_program : ExitProgramV4;
  vr_consumed : StateMap;
  vr_start : StateMap;
  vr_root : Z;
  vr_end : BatchLoopV4;
  vr_settlement : DerivedSettlementV4;
  vr_statement : validate_statement input = Ok tt;
  vr_membership : membership_hash input = Ok (bi4_membership_deltas_hash input);
  vr_data : data_hash input = Ok (bi4_expected_block_data_hash input);
  vr_open : open_compact input = Ok vr_opened;
  vr_link : check_cold_link link vr_opened = Ok tt;
  vr_preset : PresetV4.from_input input vr_opened = Ok vr_policy;
  vr_parse : parse (bi4_canonical_exit_program_json input) vr_policy = Ok vr_program;
  vr_previous : authenticate_previous_exit_allocations_v4 vr_program
    (bi4_pre_roster_slots input) (bi4_pre_used_mask input)
    (bi4_previous_exit_allocations input) (bi4_previous_exit_root input)
    (bi4_deployment_id input) (bi4_room_id input) = Ok tt;
  vr_consume : consume_inbox input vr_program vr_opened
               = Ok (bi4_inbox_inputs_hash input, vr_consumed);
  vr_install : install_runtime cache vr_policy vr_consumed = Ok vr_start;
  vr_blocks : for_each (execute_batch_block_v4 input vr_policy cache)
    (mk_BatchLoopV4 vr_start vr_root [] EvmProofWork_default
       (bi4_previous_block_timestamp input)) (enumerate (bi4_blocks input)) = Ok vr_end;
  vr_post : validate_post_state vr_policy (storages vr_start) (ba4_state vr_end) = Ok tt;
  vr_settle : settle input vr_program (ba4_state vr_end) = Ok vr_settlement
}.

Definition vr_journal {input cache link} (r : v4_run input cache link) : BatchJournalV4 :=
  batch_journal_v4 input (vr_end _ _ _ r) (bi4_l2_start_height input + zlen (bi4_blocks input) - 1)
    (bi4_inbox_inputs_hash input) (bi4_expected_block_data_hash input)
    (bi4_membership_deltas_hash input) (vr_settlement _ _ _ r).

Lemma v4_accepted input cache link o :
  execute_batch_v4_with_runtime_cache input cache link = Ok o ->
  exists r : v4_run input cache link, bo4_journal o = vr_journal r.
Proof.
  unfold execute_batch_v4_with_runtime_cache. intros H.
  apply rbind_Ok in H as ([] & H1 & H). apply rbind_Ok in H as (dh & H2 & H).
  apply rbind_Ok in H as (data & H3 & H). apply rbind_Ok in H as (opened & H4 & H).
  apply rbind_Ok in H as ([] & H5 & H). apply rbind_Ok in H as (policy & H6 & H).
  apply rbind_Ok in H as (program & H7 & H). apply rbind_Ok in H as ([] & H8 & H).
  apply rbind_Ok in H as ([ih consumed] & H9 & H). apply rbind_Ok in H as (start & H10 & H).
  apply rbind_Ok in H as (s & H11 & H). apply rbind_Ok in H as (n & H12 & H).
  apply rbind_Ok in H as ([] & H13 & H). apply rbind_Ok in H as (ds & H14 & H).
  apply Ok_Ok in H as <-. apply map_err_Ok in H6, H7, H8, H13.
  assert (E2 : dh = bi4_membership_deltas_hash input).
  { unfold membership_hash in H2. apply rbind_Ok in H2 as (x & _ & H2).
    apply fail_if_Ok in H2 as [G H2]. apply Ok_Ok in H2 as <-. apply negb_eqb_false, G. }
  assert (E3 : data = bi4_expected_block_data_hash input).
  { unfold data_hash in H3. apply fail_if_Ok in H3 as [G H3]. apply Ok_Ok in H3 as <-.
    apply negb_eqb_false, G. }
  assert (E9 : ih = bi4_inbox_inputs_hash input).
  { unfold consume_inbox in H9. apply rbind_Ok in H9 as ([x c] & _ & H9).
    apply fail_if_Ok in H9 as [G H9]. injection H9 as <- _.
    apply negb_eqb_false, G. }
  assert (E12 : n = bi4_l2_start_height input + zlen (bi4_blocks input) - 1).
  { apply ok_or_Ok in H12. apply bind_Some in H12 as (m & Hm & H12).
    apply checked_add_Some in Hm as [_ ->]. apply checked_sub_Some in H12 as [_ ->].
    reflexivity. }
  subst. exists (Build_v4_run input cache link opened policy program consumed start _ s ds
    H1 H2 H3 H4 H5 H6 H7 H8 H9 H10 H11 H13 H14). reflexivity.
Qed.

Lemma membership_hash_spec input h :
  membership_hash input = Ok h ->
  transition_ok (bi4_batch_index input) (bi4_pre_roster_slots input)
    (bi4_post_roster_slots input) (bi4_membership_deltas input) (bi4_pre_roster_root input)
    (bi4_post_roster_root input) (bi4_active_mask input) (bi4_pre_used_mask input)
    (bi4_post_active_mask input) (bi4_used_mask input) /\
  h = hash_membership_deltas_v4 (bi4_membership_deltas input).
Proof.
  unfold membership_hash. intros H. apply rbind_Ok in H as (x & Hx & H).
  apply map_err_Ok, transition_exact_lemma in Hx as [T ->].
  apply fail_if_Ok in H as [_ H]. apply Ok_Ok in H as <-. auto.
Qed.

Lemma consume_inbox_spec input program opened h consumed :
  consume_inbox input program opened = Ok (h, consumed) ->
  zlen (bi4_inbox_entries input) = as_usize (bi4_inbox_end input - bi4_inbox_start input) /\
  exists resolved, h = hash_inbox_entries_v4 resolved /\
    inbox_effect program opened consumed (bi4_inbox_entries input) resolved
      (bi4_membership_deltas input) (bi4_pre_roster_slots input) (bi4_post_roster_slots input)
      (bi4_inbox_start input).
Proof.
  unfold consume_inbox. intros H. apply rbind_Ok in H as ([x c] & Hx & H).
  apply map_err_Ok, apply_inbox_effect in Hx as (Hl & _ & Hr).
  apply fail_if_Ok in H as [_ H]. injection H as <- <-. eauto.
Qed.

Lemma v4_run_transition {ET : ExitCodecTyped} input cache link (r : v4_run input cache link)
    items :
  Forall ExitAllocationV4_wf (bi4_previous_exit_allocations input) ->
  room_loop input (vr_policy _ _ _ r) cache (vr_start _ _ _ r) (vr_root _ _ _ r)
    (enumerate (bi4_blocks input)) (vr_end _ _ _ r) items ->
  exists resolved, v4_transition input (vr_opened _ _ _ r) (vr_consumed _ _ _ r)
    (vr_start _ _ _ r) (vr_policy _ _ _ r) (vr_program _ _ _ r) resolved items cache
    (ba4_state (vr_end _ _ _ r)) (vr_settlement _ _ _ r).
Proof.
  intros Hw L.
  pose proof (membership_hash_spec _ _ (vr_membership _ _ _ r)) as [M1 M2].
  pose proof (consume_inbox_spec _ _ _ _ _ (vr_consume _ _ _ r)) as (I1 & resolved & I2 & I3).
  pose proof (authenticate_previous_spec _ _ _ _ _ _ _ (vr_previous _ _ _ r)) as (P1 & P2 & P3).
  pose proof (vr_data _ _ _ r) as D. unfold data_hash in D. apply fail_if_Ok in D as [_ D].
  injection D as D.
  destruct (settle_spec _ _ _ _ _ (vr_parse _ _ _ r) (tro_after _ _ _ _ _ _ _ _ _ _ M1)
    (previous_slots_valid _ _ _ _ Hw P2) (vr_settle _ _ _ r)) as (S1 & S2 & _).
  exists resolved. split; auto.
  - apply statement_spec, (vr_statement _ _ _ r).
  - apply open_compact_spec, (vr_open _ _ _ r).
  - destruct (from_input_spec _ _ _ (vr_preset _ _ _ r)) as (_ & preset & _ & _ & _ & Hp). eauto.
  - apply (parse_wf _ _ _ (vr_parse _ _ _ r)).
  - eapply install_runtime_accounts, (vr_install _ _ _ r).
  - apply L.
  - apply L.
  - pose proof (rl_clock _ _ _ _ _ _ _ _ L) as Hc. unfold timestamps in Hc.
    rewrite <- (map_map snd (fun b => env_timestamp (bb4_env b))), enumerate_snd in Hc. exact Hc.
  - intros Hc. apply (validate_post_state_spec _ _ _ Hc), (vr_post _ _ _ r).
Qed.

Lemma v4_run_journal {ET : ExitCodecTyped} input cache link (r : v4_run input cache link) items :
  Forall ExitAllocationV4_wf (bi4_previous_exit_allocations input) ->
  room_loop input (vr_policy _ _ _ r) cache (vr_start _ _ _ r) (vr_root _ _ _ r)
    (enumerate (bi4_blocks input)) (vr_end _ _ _ r) items ->
  vr_journal r = published_journal input (state_root (ba4_state (vr_end _ _ _ r)))
    (ba4_previous_timestamp (vr_end _ _ _ r)) (vr_settlement _ _ _ r) /\
  last (bi4_previous_block_timestamp input
        :: map (fun b => env_timestamp (bb4_env b)) (bi4_blocks input))
  = Some (ba4_previous_timestamp (vr_end _ _ _ r)).
Proof.
  intros Hw [L1 L2 L3 L4 L5 L6].
  pose proof (membership_hash_spec _ _ (vr_membership _ _ _ r)) as [M1 _].
  pose proof (authenticate_previous_spec _ _ _ _ _ _ _ (vr_previous _ _ _ r)) as (_ & P2 & _).
  destruct (settle_spec _ _ _ _ _ (vr_parse _ _ _ r) (tro_after _ _ _ _ _ _ _ _ _ _ M1)
    (previous_slots_valid _ _ _ _ Hw P2) (vr_settle _ _ _ r)) as (_ & _ & S3 & S4 & S5 & S6).
  pose proof (sto_count _ (statement_spec _ (vr_statement _ _ _ r))) as Hn.
  unfold timestamps in L5.
  rewrite <- (map_map snd (fun b => env_timestamp (bb4_env b))), enumerate_snd in L5.
  rewrite <- (map_map snd block_entry), enumerate_snd in L4.
  split; [|exact L5]. unfold vr_journal, batch_journal_v4, published_journal.
  rewrite L4, S3, S4, S5, S6. f_equal.
  destruct items as [|x items _] using rev_ind.
  { destruct (bi4_blocks input); [unfold zlen in Hn; cbn in Hn; lia|discriminate]. }
  rewrite L3, <- L1, map_app, map_app. cbn [map]. rewrite last_snoc.
  apply runs_snoc_inv in L2 as (m & _ & Hx). symmetry. apply (rb_root _ _ _ _ _ _ Hx).
Qed.
End Facts.

Section Links.
Context {KK : Keccak} {RV : Revm} {AT : AlloyTrie} {OP : OsakaPrecompiles}
  {EC : ExitProgramCodec} {PC : PresetCodec} {TC : TxCodec} {EV : Evm} {AR : AlloyRlp}.

Lemma unlinked_opening (input : BatchInputV4) cache o :
  execute_batch_v4_with_runtime_cache input cache None = Ok o ->
  exists opened, open_compact input = Ok opened.
Proof. intros H. apply v4_accepted in H as [r _]. eexists. apply (vr_open _ _ _ r). Qed.

(** The link is one more guard on the opened state. *)
Lemma linked_run (input : BatchInputV4) cache link o :
  execute_batch_v4_with_runtime_cache input cache (Some link) = Ok o <->
  execute_batch_v4_with_runtime_cache input cache None = Ok o /\
  exists opened, open_compact input = Ok opened /\
    validate_composed_cold_link_v4 link opened = Ok tt.
Proof.
  split.
  - intros H. pose proof (v4_accepted _ _ _ _ H) as [r _].
    split; [|eexists; split; [apply (vr_open _ _ _ r)|apply (vr_link _ _ _ r)]].
    unfold execute_batch_v4_with_runtime_cache in *.
    rewrite (vr_statement _ _ _ r), (vr_membership _ _ _ r), (vr_data _ _ _ r), (vr_open _ _ _ r)
      in *. cbn [rbind] in *. rewrite (vr_link _ _ _ r) in H. exact H.
  - intros (H & opened & Ho & Hl). pose proof (v4_accepted _ _ _ _ H) as [r _].
    unfold execute_batch_v4_with_runtime_cache in *.
    rewrite (vr_statement _ _ _ r), (vr_membership _ _ _ r), (vr_data _ _ _ r), Ho in *.
    cbn [rbind check_cold_link] in *. rewrite Hl. exact H.
Qed.
End Links.

Section Claims.
Context {KK : Keccak} {RV : Revm} {AT : AlloyTrie} {OP : OsakaPrecompiles}
  {EC : ExitProgramCodec} {PC : PresetCodec} {TC : TxCodec} {EV : Evm} {AR : AlloyRlp}.

(** C8: an accepted v4 batch is a transition of the room, on every execution path (prepared
    runtime cache or interpreter, linked to a cold proof or not). The roster moves by the
    listed deltas; the room opens at the authenticated root; the preset and the exit program
    are the committed ones and the previous claims are those under the previous exit root;
    before the first block only the consumed inbox entries change the state, by exactly the
    credited amounts; the blocks are numbered from the start height, run in the room's fixed
    environment inside the policy and reach the roots they announce on a clock that never
    runs backwards; a certified terminal state keeps every pinned code and writes only
    writable slots; the settlement conserves the terminal state's assets in sorted claims of
    roster members, and claims of retired slots are unchanged. The journal is the statement's,
    with the terminal root, clock, claims and accounting of this run. *)
Theorem batch_v4_sound {ET : ExitCodecTyped} (input : BatchInputV4) cache link o :
  Forall ExitAllocationV4_wf (bi4_previous_exit_allocations input) ->
  execute_batch_v4_with_runtime_cache input cache link = Ok o ->
  exists opened consumed start policy program resolved items terminal ds final_timestamp,
    v4_transition input opened consumed start policy program resolved items cache terminal ds /\
    last (bi4_previous_block_timestamp input
          :: map (fun b => env_timestamp (bb4_env b)) (bi4_blocks input)) = Some final_timestamp /\
    bo4_journal o = published_journal input (state_root terminal) final_timestamp ds.
Proof.
  intros Hw H. apply v4_accepted in H as [r ->].
  destruct (room_loop_all _ _ _ _ (vr_root _ _ _ r) _ (vr_blocks _ _ _ r)) as [items L].
  destruct (v4_run_transition _ _ _ r items Hw L) as [resolved T].
  destruct (v4_run_journal _ _ _ r items Hw L) as [J C]. eauto 14.
Qed.

(** C39: composing a batch with a cold proof adds exactly the link check: the composed entry
    point accepts with a journal if and only if the plain one accepts the batch with the same
    journal and the opened state satisfies the link. *)
Theorem composed_batch_equivalent (input : ComposedBatchInputV4) j :
  execute_composed_batch_v4 input = Ok j <->
  execute_batch_v4 (cbi_batch input) = Ok j /\
  exists opened, 
    verify_compact_state_v4 (bi4_compact_state (cbi_batch input)) = Ok opened /\ cold_link_ok input opened.
Proof.
  unfold execute_composed_batch_v4, execute_batch_v4, execute_batch_v4_with_report, journal_of.
  rewrite !rbind_Ok. setoid_rewrite linked_run. unfold open_compact. split.
  - intros (o & (Ho & opened & Hs & Hl) & Hj). split; [eauto|].
    apply rbind_Ok in Hs as (s & Hs & H). apply map_err_Ok in Hs. apply fail_if_Ok in H as [_ H].
    apply Ok_Ok in H as <-. apply cold_link_spec in Hl. eauto.
  - intros ((o & Ho & Hj) & opened & Hs & Hl). exists o. split; [split; [exact Ho|]|exact Hj].
    exists opened. split; [|apply cold_link_spec, Hl].
    destruct (unlinked_opening _ _ _ Ho) as (s & E). unfold open_compact in E. rewrite Hs in *.
    cbn in *. apply fail_if_Ok in E as [-> _]. reflexivity.
Qed.
End Claims.

(** ** Witness: two blocks of the certified room of [hall_preset], with one consumed deposit *)
Definition hall_chain_id : Z := Eval vm_compute in @room_chain_id_v4 toy_keccak 3 7.
Definition hall_tx_codec : TxCodec := slot_codec hall_chain_id.

#[local] Existing Instance toy_keccak.
#[local] Existing Instance toy_revm.
#[local] Existing Instance toy_trie.
#[local] Existing Instance toy_precompiles.
#[local] Existing Instance hall_codec.
#[local] Existing Instance hall_presets.
#[local] Existing Instance hall_tx_codec.
#[local] Existing Instance slot_evm.
#[local] Existing Instance toy_rlp.

Lemma hall_codec_typed : ExitCodecTyped.
Proof.
  split. cbn. intros v q H. case_bool_decide; [|discriminate]. injection H as <-.
  repeat constructor; cbn; unfold in_u8; lia.
Qed.

Definition hall_opening_root : Z := Eval vm_compute in state_root (witness_state hall_compact).
Definition hall_deposits : list InboxEntryWitnessV4 :=
  [mk_InboxEntryWitnessV4 5 INBOX_DEPOSIT 101 0 INBOX_PENDING [mk_InboxAssetAmountV4 0 7]].
Definition hall_accounting : list AssetAccountingV4 := [mk_AssetAccountingV4 0 37 37 0].
Definition hall_claims : list ExitAllocationV4 := [mk_ExitAllocationV4 0 0 101 37].
Definition hall_block (number timestamp value nonce root : Z) : BatchBlockV4 :=
  mk_BatchBlockV4 number [[2; 101; 50; value; nonce; 1; 2; 3; 4]]
    (mk_BlockEnvV1 number timestamp 30000000 0 0 0 0 0 hall_chain_id) root.
Definition hall_blocks (r1 r2 : Z) : list BatchBlockV4 :=
  [hall_block 10 100 3 0 r1; hall_block 11 100 5 1 r2].
Definition hall_statement (inbox_hash r1 r2 : Z) : BatchInputV4 :=
  mk_BatchInputV4 500 3 7 (keccak256 hall_preset_json) 21 22 1 10 99 hall_opening_root
    hall_roster_root hall_roster_root 1 1 1 1 4 5 inbox_hash
    (batch_block_data_hash_v4 (hall_blocks r1 r2) hall_opening_root)
    (hash_asset_totals_v4 hall_accounting) (hash_exit_totals_v4 hall_accounting)
    (hash_fee_totals_v4 hall_accounting) (hash_membership_deltas_v4 [])
    (claim_merkle_root_v4 3 7 []) (claim_merkle_root_v4 3 7 hall_claims) false 0
    hall_preset_json hall_exit_json hall_roster hall_roster [] hall_deposits
    [mk_AssetTotalWitnessV4 0 37] [] [] hall_compact (hall_blocks r1 r2).
Definition hall_batch : BatchInputV4 :=
  hall_statement 7063010126697550171 12437997942372656839 12437997942372656842.
Definition hall_outcome : BatchOutcome :=
  match execute_batch_v4_with_report hall_batch with
  | Ok o => o
  | Err _ => mk_BatchOutcome BatchJournalV4_default (mk_BatchProofWork 0 0 EvmProofWork_default)
  end.
Lemma hall_batch_accepted :
  execute_batch_v4_with_runtime_cache hall_batch true None = Ok hall_outcome.
Proof. vm_compute. reflexivity. Qed.

(** The deposit of 7 is claimed by member 101 with the 30 the account had. *)
Lemma batch_v4_sound_witness :
  exists opened consumed start policy program resolved items terminal ds,
    v4_transition hall_batch opened consumed start policy program resolved items true terminal ds
    /\ xal_amount <$> bj4_exit_allocations (bo4_journal hall_outcome) = [37].
Proof.
  destruct (batch_v4_sound (ET := hall_codec_typed) hall_batch true None hall_outcome
              (Forall_nil_2 _) hall_batch_accepted)
    as (opened & consumed & start & policy & program & resolved & items & terminal & ds & t &
        T & _).
  exists opened, consumed, start, policy, program, resolved, items, terminal, ds.
  split; [exact T|]. vm_compute. reflexivity.
Defined.
