(* ===== verification/GenesisV4.v ===== *)
(** * The opening of a v4 room: stf-core/src/genesis.rs

    The L1 anchor check and the public statement the initial members approve: one
    authenticated state, the preset and exit program of the room and the settlement
    of that state, without a block and without an inbox segment.  The RLP reader of
    [alloy_rlp] is a parameter. *)

From S2P Require Import Prelude Types Abi Merkle HashV4 State StateEvm Policy Settlement RosterV4 PresetV4 InboxV4 Compact ExitV4 Block BatchData BatchV4.
Open Scope Z_scope.

(** alloy_rlp::PayloadView *)
Inductive PayloadView :=
| PayloadString (payload : bytes)
| PayloadList (fields : list bytes).

(** alloy_rlp::Header: [decode_raw] and [decode_bytes(_, false)] with what is left of the
    buffer; [None] is a decoding error. *)
Class AlloyRlpReader := {
  rlp_decode_raw : bytes -> option (PayloadView * bytes);
  rlp_decode_bytes : bytes -> option (bytes * bytes)
}.

Section Genesis.
Context {KK : Keccak} {RV : Revm} {AT : AlloyTrie} {OP : OsakaPrecompiles}
  {EC : ExitProgramCodec} {PC : PresetCodec} {RR : AlloyRlpReader}.

Definition decode_header_string (raw : bytes) : result StfError bytes :=
  let? (value, cursor) := ok_or (rlp_decode_bytes raw)
                            (GenesisAnchor "invalid RLP") in
  fail_if negb (bool_decide (cursor = [])) with GenesisAnchor "trailing RLP bytes" in
  Ok value.

(** [number_word] is the field left-padded to eight bytes. *)
Definition verify_genesis_l1_anchor_v4 (input : GenesisInputV4) : result StfError unit :=
  fail_if (gi4_l1_block_hash input =? B256_ZERO) || (gi4_l1_state_root input =? B256_ZERO)
    with GenesisAnchor "block hash and state root must be non-zero" in
  fail_if bool_decide (gi4_l1_header_rlp input = []) || (2048 <? zlen (gi4_l1_header_rlp input))
    with GenesisAnchor "header RLP length is outside 1..=2048" in
  fail_if negb (keccak256 (gi4_l1_header_rlp input) =? gi4_l1_block_hash input)
    with GenesisAnchor "header RLP does not hash to l1BlockHash" in
  let? (view, cursor) := ok_or (rlp_decode_raw (gi4_l1_header_rlp input))
                           (GenesisAnchor "invalid header RLP") in
  fail_if negb (bool_decide (cursor = [])) with GenesisAnchor "header RLP has trailing bytes" in
  match view with
  | PayloadString _ => Err (GenesisAnchor "Ethereum header must be an RLP list")
  | PayloadList fields =>
      fail_if zlen fields <? 15 with GenesisAnchor "Ethereum header has fewer than 15 fields" in
      let? field := ok_or (znth fields 3) (Panicked index_panic) in
      let? state_root := decode_header_string field in
      fail_if negb (zlen state_root =? 32)
              || negb (bool_decide (state_root = b256_bytes (gi4_l1_state_root input)))
        with GenesisAnchor "header stateRoot does not match l1StateRoot" in
      let? field := ok_or (znth fields 8) (Panicked index_panic) in
      let? number := decode_header_string field in
      fail_if (8 <? zlen number)
              || ((1 <? zlen number) && bool_decide (znth number 0 = Some 0))
        with GenesisAnchor "header number is not canonical uint64" in
      let number_word := repeat 0 (8 - length number) ++ number in
      fail_if negb (of_be number_word =? gi4_l1_block_number input)
        with GenesisAnchor "header number does not match l1BlockNumber" in
      fail_if gi4_l1_inclusion_deadline input <? gi4_l1_block_number input
        with GenesisAnchor "L1 anchor is after inclusion deadline" in
      Ok tt
  end.

(** The batch input the preset parser sees; every other field is the default. *)
Definition policy_input (input : GenesisInputV4) : BatchInputV4 :=
  mk_BatchInputV4 (gi4_encoded_witness_bytes input) (gi4_deployment_id input)
    (gi4_room_id input) (gi4_preset_hash input) (gi4_manifest_hash input)
    (gi4_proof_program_id input) 0 0 0 B256_ZERO (gi4_genesis_roster_root input)
    (gi4_genesis_roster_root input) (gi4_active_mask input) (gi4_used_mask input)
    (gi4_active_mask input) (gi4_used_mask input) 0 0 B256_ZERO B256_ZERO B256_ZERO B256_ZERO
    B256_ZERO B256_ZERO B256_ZERO B256_ZERO false 0 (gi4_canonical_preset_json input)
    (gi4_canonical_exit_program_json input) (gi4_roster_slots input) (gi4_roster_slots input)
    [] [] [] [] [] (gi4_compact_state input) [].

Definition genesis_journal_v4 (input : GenesisInputV4) (computed_root : Z)
    (settlement : DerivedSettlementV4) : GenesisJournalV4 :=
  mk_GenesisJournalV4 BATCH_JOURNAL_VERSION_V4 (gi4_deployment_id input) (gi4_room_id input)
    (gi4_config_hash input) (gi4_preset_hash input) (gi4_manifest_hash input)
    (gi4_proof_program_id input) (gi4_l1_block_number input) (gi4_l1_block_hash input)
    (gi4_l1_state_root input) computed_root (gi4_genesis_roster_root input)
    (gi4_genesis_exit_root input) (gi4_active_mask input) (gi4_used_mask input)
    (gi4_inbox_cursor input) (ds_asset_totals_hash settlement)
    (ds_exit_totals_hash settlement) (ds_fee_totals_hash settlement)
    (gi4_l1_inclusion_deadline input) (ds_exit_allocations settlement)
    (ds_accounting settlement).

Definition execute_genesis_v4 (input : GenesisInputV4) : result StfError GenesisJournalV4 :=
  fail_if gi4_genesis_state_root input =? B256_ZERO
    with InvalidBatch "genesis state root must be non-zero" in
  fail_if negb (cst_canonical_state_root (gi4_compact_state input) =? B256_ZERO)
    with CompactWitness "room-local genesis state must not masquerade as an L1 multiproof" in
  fail_if negb (gi4_inbox_cursor input =? 0)
    with InvalidBatch "genesis inbox cursor must be zero" in
  let? _ := verify_genesis_l1_anchor_v4 input in
  fail_if exceeds_seven (gi4_active_mask input) || exceeds_seven (gi4_used_mask input)
    with InvalidBatch "genesis member masks exceed seven slots" in
  fail_if not_subset (gi4_active_mask input) (gi4_used_mask input)
    with InvalidBatch "genesis active slots must be a subset of used slots" in
  let? state := map_err CompactWitness (verify_compact_state_v4 (gi4_compact_state input)) in
  let computed_root := state_root state in
  fail_if negb (computed_root =? gi4_genesis_state_root input)
    with CompactWitness "compact genesis root does not match journal root" in
  let? policy := map_err CertifiedPolicy (PresetV4.from_input (policy_input input) state) in
  let? exit_program := map_err Settlement
                         (parse (gi4_canonical_exit_program_json input) policy) in
  let? settlement := map_err Settlement
    (derive_settlement_v4 exit_program state (gi4_roster_slots input) (gi4_asset_totals input)
       (gi4_residual_allocations input) (gi4_deployment_id input) (gi4_room_id input)) in
  fail_if negb (ds_asset_totals_hash settlement =? gi4_asset_totals_hash input)
          || negb (ds_exit_totals_hash settlement =? gi4_exit_totals_hash input)
          || negb (ds_fee_totals_hash settlement =? gi4_fee_totals_hash input)
          || negb (ds_exit_root settlement =? gi4_genesis_exit_root input)
    with Settlement "derived genesis accounting/root does not match expected public statement" in
  Ok (genesis_journal_v4 input computed_root settlement).
End Genesis.

(** * Properties *)
Section Facts.
Context {KK : Keccak} {RV : Revm} {AT : AlloyTrie} {OP : OsakaPrecompiles}
  {EC : ExitProgramCodec} {PC : PresetCodec} {RR : AlloyRlpReader}.
Implicit Types (input : GenesisInputV4).

(** ** The anchor *)
Record anchored input : Prop := {
  an_nonzero : gi4_l1_block_hash input <> 0 /\ gi4_l1_state_root input <> 0;
  an_length : 1 <= zlen (gi4_l1_header_rlp input) <= 2048;
  an_hash : keccak256 (gi4_l1_header_rlp input) = gi4_l1_block_hash input;
  an_fields : exists fields root number,
    rlp_decode_raw (gi4_l1_header_rlp input) = Some (PayloadList fields, []) /\
    15 <= zlen fields /\
    (exists raw, fields !! 3%nat = Some raw /\ rlp_decode_bytes raw = Some (root, [])) /\
    (exists raw, fields !! 8%nat = Some raw /\ rlp_decode_bytes raw = Some (number, [])) /\
    zlen root = 32 /\ root = b256_bytes (gi4_l1_state_root input) /\ zlen number <= 8 /\
    (1 < zlen number -> znth number 0 <> Some 0) /\ of_be number = gi4_l1_block_number input;
  an_deadline : gi4_l1_block_number input <= gi4_l1_inclusion_deadline input
}.

Lemma decode_header_string_spec raw value :
  decode_header_string raw = Ok value <-> rlp_decode_bytes raw = Some (value, []).
Proof.
  unfold decode_header_string. rewrite rbind_Ok. split.
  - intros ([v rest] & Hv & H). apply ok_or_Ok in Hv. apply fail_if_Ok in H as [G H].
    apply negb_bool_decide_false in G as ->. apply Ok_Ok in H as <-. exact Hv.
  - intros H. exists (value, []). rewrite H. split; [reflexivity|].
    rewrite bool_decide_eq_true_2 by reflexivity. reflexivity.
Qed.

Lemma of_be_padded n b : of_be (repeat 0 n ++ b) = of_be b.
Proof. induction n as [|n IH]; [reflexivity|exact IH]. Qed.

Lemma anchor_spec input : verify_genesis_l1_anchor_v4 input = Ok tt <-> anchored input.
Proof.
  unfold verify_genesis_l1_anchor_v4.
  rewrite !fail_if_Ok, !orb_false_iff, !Z.eqb_neq, negb_eqb_false, bool_decide_eq_false,
    Z.ltb_ge, rbind_Ok. unfold B256_ZERO.
  assert (Hl : gi4_l1_header_rlp input <> [] <-> 1 <= zlen (gi4_l1_header_rlp input)).
  { rewrite <- zlen_zero. unfold zlen. lia. }
  rewrite Hl. split.
  - intros (H1 & H2 & H3 & [view rest] & Hv & H). apply ok_or_Ok in Hv.
    apply fail_if_Ok in H as [G H]. apply negb_bool_decide_false in G as ->.
    destruct view as [|fields]; [discriminate|]. apply fail_if_Ok in H as [Gf H].
    apply Z.ltb_ge in Gf. apply rbind_Ok in H as (f3 & F3 & H). apply ok_or_Ok in F3.
    apply rbind_Ok in H as (root & Hr & H). apply decode_header_string_spec in Hr.
    apply fail_if_Ok in H as [Gr H]. apply rbind_Ok in H as (f8 & F8 & H). apply ok_or_Ok in F8.
    apply rbind_Ok in H as (number & Hn & H). apply decode_header_string_spec in Hn.
    apply fail_if_Ok in H as [Gn H]. apply fail_if_Ok in H as [Gb H].
    apply fail_if_Ok in H as [Gd _]. rewrite of_be_padded, negb_eqb_false in Gb.
    rewrite orb_false_iff, negb_eqb_false in Gr. destruct Gr as [Gr Gr'].
    apply negb_bool_decide_false in Gr'. apply Z.ltb_ge in Gd.
    rewrite orb_false_iff, Z.ltb_ge, andb_false_iff, Z.ltb_ge, bool_decide_eq_false in Gn.
    split; auto; try lia. exists fields, root, number. destruct Gn as [Gn0 Gn].
    split_and!; eauto. intros Hlt. destruct Gn as [Gn|Gn]; [lia|exact Gn].
  - intros [H1 H2 H3 (fields & root & number & Hv & Hf & (f3 & F3 & D3) & (f8 & F8 & D8) & R1 &
      R2 & N1 & N2 & N3) H5].
    split_and!; try tauto; try lia. exists (PayloadList fields, []). rewrite Hv.
    split; [reflexivity|]. rewrite bool_decide_eq_true_2 by reflexivity. cbn [negb].
    rewrite fail_if_Ok, Z.ltb_ge. split; [exact Hf|].
    change (znth fields 3) with (fields !! 3%nat). change (znth fields 8) with (fields !! 8%nat).
    rewrite F3. cbn [ok_or rbind]. rewrite (proj2 (decode_header_string_spec _ _) D3).
    cbn [rbind]. rewrite R1, bool_decide_eq_true_2 by exact R2. cbn [negb orb Z.eqb Pos.eqb].
    rewrite F8. cbn [ok_or rbind]. rewrite (proj2 (decode_header_string_spec _ _) D8).
    cbn [rbind]. rewrite !fail_if_Ok, of_be_padded, negb_eqb_false, orb_false_iff, andb_false_iff,
      !Z.ltb_ge, bool_decide_eq_false.
    split_and!; auto; try lia.
    destruct (decide (1 < zlen number)); [right; auto|left; lia].
Qed.

(** ** What an accepted opening is *)
Record genesis_opened input opened policy program ds : Prop := {
  go_statement : gi4_genesis_state_root input <> 0 /\ gi4_inbox_cursor input = 0 /\
    cst_canonical_state_root (gi4_compact_state input) = 0;
  go_anchor : anchored input;
  go_opening : faithful_state (gi4_compact_state input) opened /\
    state_root opened = gi4_genesis_state_root input;
  go_roster : length (gi4_roster_slots input) = 7%nat /\
    shape_for is_active (gi4_roster_slots input) /\
    gi4_active_mask input = mask is_active (gi4_roster_slots input) /\
    gi4_used_mask input = mask is_used (gi4_roster_slots input) /\
    member_roster_root_v4 (gi4_roster_slots input) = Some (gi4_genesis_roster_root input);
  go_preset : exists preset, preset_accepted (policy_input input) (sm_accounts opened) preset policy;
  go_program : exit_program_wf policy program /\
    keccak256 (gi4_canonical_exit_program_json input) = xp_exit_program_id policy;
  go_settlement : settlement_ok program opened (gi4_roster_slots input) (gi4_asset_totals input)
    (gi4_deployment_id input) (gi4_room_id input) ds;
  go_hashes : ds_asset_totals_hash ds = gi4_asset_totals_hash input /\
    ds_exit_totals_hash ds = gi4_exit_totals_hash input /\
    ds_fee_totals_hash ds = gi4_fee_totals_hash input /\
    ds_exit_root ds = gi4_genesis_exit_root input
}.

Lemma shape_for_sorted P l : shape_for P l -> key_sorted msl_slot l.
Proof. intros (Hi & _). apply indexed_sorted, Hi. Qed.

Lemma genesis_spec {ET : ExitCodecTyped} input j :
  execute_genesis_v4 input = Ok j ->
  exists opened policy program ds, genesis_opened input opened policy program ds /\
    j = genesis_journal_v4 input (gi4_genesis_state_root input) ds.
Proof.
  unfold execute_genesis_v4. intros H. apply fail_if_Ok in H as [G1 H].
  apply fail_if_Ok in H as [G2 H]. apply fail_if_Ok in H as [G3 H].
  apply rbind_Ok in H as ([] & Ha & H). apply anchor_spec in Ha.
  apply fail_if_Ok in H as [_ H]. apply fail_if_Ok in H as [_ H].
  apply rbind_Ok in H as (opened & Ho & H). apply map_err_Ok, faithful_spec in Ho.
  apply fail_if_Ok in H as [G4 H]. apply negb_eqb_false in G4.
  apply rbind_Ok in H as (policy & Hp & H). apply map_err_Ok in Hp.
  destruct (from_input_spec _ _ _ Hp) as (_ & preset & _ & _ & _ & A).
  apply rbind_Ok in H as (program & Hx & H). apply map_err_Ok in Hx.
  apply rbind_Ok in H as (ds & Hs & H). apply map_err_Ok in Hs.
  apply fail_if_Ok in H as [G5 H]. apply Ok_Ok in H as <-.
  rewrite !orb_false_iff, !negb_eqb_false in G5. apply negb_eqb_false in G2, G3.
  apply Z.eqb_neq in G1.
  destruct (pa_members _ _ _ _ A) as [M1 M2 [M3 M4] M5 _]. cbn in M1, M2, M3, M4, M5.
  pose proof (parse_wf _ _ _ Hx) as [W1 W2].
  exists opened, policy, program, ds. split; [|rewrite G4; reflexivity].
  split; eauto; try tauto.
  apply settlement_spec in Hs; [exact Hs| |apply W1|eapply parse_typed, Hx].
  eapply shape_for_sorted, M2.
Qed.
End Facts.

Section Claims.
Context {KK : Keccak} {KR : KeccakRange} {RV : Revm} {AT : AlloyTrie} {OP : OsakaPrecompiles}
  {EC : ExitProgramCodec} {PC : PresetCodec} {RR : AlloyRlpReader} {ET : ExitCodecTyped}.

(** C26: an accepted room opening is anchored and settled. The anchor header hashes to the L1
    block hash and carries, in its fields 3 and 8, the announced state root and block number,
    no later than the inclusion deadline; the opened state is the complete authenticated one
    at the announced root; the roster has the announced root and masks; preset and exit
    program are the committed ones and accept that state; the claims settle exactly the
    opening balances; and the journal repeats the statement with these claims. *)
Theorem genesis_sound (input : GenesisInputV4) j :
  execute_genesis_v4 input = Ok j ->
  exists opened policy program ds, genesis_opened input opened policy program ds /\
    j = genesis_journal_v4 input (gi4_genesis_state_root input) ds.
Proof. apply genesis_spec. Qed.

(** From the opening to the first batch: when both are accepted and the batch starts from
    the roster root the opening journal published, the batch's roster is the opening's slot
    for slot with the published masks (unless Keccak collides on the two rosters), and so no
    account, retired ones included, occupied two slots of the opening. An opening whose
    retired member repeats an active account can therefore never be followed by a batch. *)
Theorem genesis_hands_over_roster {TC : TxCodec} {EV : Evm} {AR : AlloyRlp}
    (g : GenesisInputV4) gj (b : BatchInputV4) cache link o :
  execute_genesis_v4 g = Ok gj ->
  execute_batch_v4_with_runtime_cache b cache link = Ok o ->
  bi4_pre_roster_root b = gj4_genesis_roster_root gj ->
  Forall MemberSlotWitnessV4_wf (bi4_pre_roster_slots b) ->
  Forall MemberSlotWitnessV4_wf (gi4_roster_slots g) ->
  no_collision (roster_root_preimages (bi4_pre_roster_slots b) (gi4_roster_slots g)) ->
  bi4_pre_roster_slots b = gi4_roster_slots g /\
  bi4_active_mask b = gj4_active_mask gj /\ bi4_pre_used_mask b = gj4_used_mask gj /\
  NoDup (occupants_of (gi4_roster_slots g)).
Proof.
  intros Hg Hb Hr W1 W2 Hn.
  apply genesis_spec in Hg as (opened & policy & program & ds & [G1 G2 G3 G4 G5 G6 G7 G8] & ->).
  apply v4_accepted in Hb as [r _].
  destruct (membership_hash_spec _ _ (vr_membership _ _ _ r)) as [M _].
  cbn [genesis_journal_v4 gj4_active_mask gj4_used_mask gj4_genesis_roster_root] in *.
  destruct G4 as (_ & S & -> & -> & R).
  pose proof (tro_before _ _ _ _ _ _ _ _ _ _ M) as O.
  pose proof (proj1 (roster_ok_shape _) O) as [_ S'].
  pose proof (tro_pre_root _ _ _ _ _ _ _ _ _ _ M) as R'. rewrite Hr in R'.
  pose proof (shaped_root_determines _ _ _ _ _ S' S W1 W2 Hn R' R) as E.
  rewrite (tro_pre_active _ _ _ _ _ _ _ _ _ _ M), (tro_pre_used _ _ _ _ _ _ _ _ _ _ M), <- E.
  split_and!; auto. apply (ro_occupants _ O).
Qed.
End Claims.

(** ** Witnesses: the certified room of [hall_preset] opened on L1 block 40 *)
#[local] Existing Instance toy_keccak.
#[local] Existing Instance toy_keccak_range.
#[local] Existing Instance toy_revm.
#[local] Existing Instance toy_trie.
#[local] Existing Instance toy_precompiles.
#[local] Existing Instance hall_codec.
#[local] Existing Instance hall_presets.
#[local] Existing Instance hall_codec_typed.
#[local] Existing Instance hall_tx_codec.
#[local] Existing Instance slot_evm.
#[local] Existing Instance toy_rlp.

(** A list of items, each a length byte and its payload. *)
Fixpoint length_prefixed (fuel : nat) (b : bytes) : list bytes :=
  match fuel, b with
  | S fuel, n :: rest =>
      (n :: take (Z.to_nat n) rest) :: length_prefixed fuel (drop (Z.to_nat n) rest)
  | _, _ => []
  end.
#[local] Instance toy_reader : AlloyRlpReader := {|
  rlp_decode_raw b := Some (PayloadList (length_prefixed (length b) b), []);
  rlp_decode_bytes raw :=
    match raw with
    | n :: rest => Some (take (Z.to_nat n) rest, drop (Z.to_nat n) rest)
    | [] => None
    end
|}.

Definition anchor_header : bytes :=
  [0; 0; 0] ++ (32 :: be_bytes 32 777) ++ [0; 0; 0; 0] ++ [1; 40] ++ [0; 0; 0; 0; 0; 0].
Definition twice_roster : list MemberSlotWitnessV4 :=
  mk_MemberSlotWitnessV4 0 1 101 0 None :: mk_MemberSlotWitnessV4 1 2 101 0 (Some 0)
  :: map empty_slot [2; 3; 4; 5; 6].
Definition opening_of (roster : list MemberSlotWitnessV4) (used_mask total : Z)
    (claims : list ExitAllocationV4) : GenesisInputV4 :=
  let accounting := [mk_AssetAccountingV4 0 total total 0] in
  mk_GenesisInputV4 500 3 7 20 (keccak256 hall_preset_json) 21 22 40 (keccak256 anchor_header)
    777 anchor_header hall_opening_root (demo_root roster) (claim_merkle_root_v4 3 7 claims) 1
    used_mask 0 (hash_asset_totals_v4 accounting) (hash_exit_totals_v4 accounting)
    (hash_fee_totals_v4 accounting) 50 hall_preset_json hall_exit_json roster
    [mk_AssetTotalWitnessV4 0 total] [] hall_compact.
Definition hall_opening : GenesisInputV4 :=
  opening_of hall_roster 1 30 [mk_ExitAllocationV4 0 0 101 30].
Definition opening_journal (g : GenesisInputV4) : GenesisJournalV4 :=
  match execute_genesis_v4 g with Ok j => j | Err _ => GenesisJournalV4_default end.
Lemma hall_opening_accepted : execute_genesis_v4 hall_opening = Ok (opening_journal hall_opening).
Proof. vm_compute. reflexivity. Qed.

Lemma genesis_sound_witness :
  exists opened policy program ds, genesis_opened hall_opening opened policy program ds.
Proof.
  destruct (genesis_sound hall_opening _ hall_opening_accepted)
    as (opened & policy & program & ds & G & _).
  exists opened, policy, program, ds. exact G.
Defined.

Lemma genesis_hands_over_roster_witness :
  bi4_pre_roster_slots hall_batch = gi4_roster_slots hall_opening /\
  NoDup (occupants_of (gi4_roster_slots hall_opening)).
Proof.
  destruct (genesis_hands_over_roster hall_opening _ hall_batch true None hall_outcome
    hall_opening_accepted hall_batch_accepted) as (H1 & _ & _ & H2).
  - vm_compute. reflexivity.
  - unfold hall_batch, hall_statement, hall_opening, opening_of, hall_roster,
      MemberSlotWitnessV4_wf. cbn. solve_wf.
  - unfold hall_batch, hall_statement, hall_opening, opening_of, hall_roster,
      MemberSlotWitnessV4_wf. cbn. solve_wf.
  - apply no_collisionb_spec. vm_compute. reflexivity.
  - auto.
Defined.

(** A retired slot that repeats the active member's account is accepted at the opening, and
    the one balance of 30 is settled twice. *)
Lemma opening_settles_twice :
  exists j, execute_genesis_v4
              (opening_of twice_roster 3 60
                 [mk_ExitAllocationV4 0 0 101 30; mk_ExitAllocationV4 1 0 101 30]) = Ok j /\
    gj4_exit_allocations j = [mk_ExitAllocationV4 0 0 101 30; mk_ExitAllocationV4 1 0 101 30].
Proof. eexists. split; vm_compute; reflexivity. Qed.
