(* ===== verification/AdmissionV5.v ===== *)
(** * Operator admissions and forced transactions: stf-core/src/room_v5/admission.rs

    The receipts of a validity-only room, the forced queue of L1 and the
    derivation that makes "deterministically rejected" a proved claim. *)

From S2P Require Import Prelude Types Abi HashV5 HashV4 State StateEvm Policy Block BatchData.
Open Scope Z_scope.

Section Admission.
Context {KK : Keccak} {RV : Revm} {OP : OsakaPrecompiles} {TC : TxCodec} {AR : AlloyRlp}.

(** [&[(u64, Vec<TransactionOutcome>)]]: what the batch executed. *)
Abbreviation executed_blocks := (list (Z * list TransactionOutcome)).

Definition validate_processed_outcome_v5 (blocks : executed_blocks)
    (transaction_hash status l2_block_number transaction_index reason_hash : Z)
  : result string unit :=
  if status =? 2 then
    fail_if negb (l2_block_number =? 0) || negb (transaction_index =? 0)
            || (reason_hash =? B256_ZERO)
      with "rejected admission has invalid location or reason"%string in
    Ok tt
  else
  fail_if (1 <? status) || negb (reason_hash =? B256_ZERO)
    with "processed admission status or reason is invalid"%string in
  let? (_, transactions) :=
    ok_or (List.find (fun b => b.1 =? l2_block_number) blocks)
      "admission names an absent L2 block"%string in
  let? outcome := ok_or (znth transactions transaction_index)
                    "admission names an absent transaction"%string in
  fail_if negb (to_transaction_hash outcome =? transaction_hash)
          || negb (to_status outcome =? status)
    with "admission outcome differs from proved EVM execution"%string in
  Ok tt.

(** Nonce and balance of an account, zero when absent. *)
Definition sender_state (terminal : StateMap) (caller : Z) : Z * Z :=
  match sm_accounts terminal !! caller with
  | Some account => (ar_nonce account, ar_balance account)
  | None => (0, 0)
  end.

Definition forced_rejection_reason_v5 (raw : bytes) (chain_id : Z) (policy : ExecutionPolicyV4)
    (terminal : StateMap) : option Z :=
  match tx_env_from_raw raw chain_id with
  | Err _ => Some FORCED_REJECTION_UNDECODABLE_V5
  | Ok tx =>
      if negb (is_ok (validate_transaction_entry policy (tx_caller tx) (tx_kind tx) (tx_data tx)))
      then Some FORCED_REJECTION_POLICY_V5
      else
        let (nonce, balance) := sender_state terminal (tx_caller tx) in
        if negb (nonce =? tx_nonce tx) || (balance <? tx_value tx)
        then Some FORCED_REJECTION_SENDER_V5
        else None
  end.

(** The checks of the admission loop, in order. *)
Definition admission_identity_invalid (journal : BatchJournalV5) (expected : Z)
    (record : AdmissionRecordV5) : bool :=
  let receipt := are_receipt record in
  negb (arc_admission_id receipt =? expected)
  || negb (aoc_admission_id (are_outcome record) =? expected)
  || negb (arc_transaction_hash receipt =? aoc_transaction_hash (are_outcome record))
  || (arc_maximum_batch_index receipt <? bj5_batch_index journal)
  || (arc_deadline_block receipt <? bj5_l1_inclusion_deadline journal)
  || negb (zlen (arc_signature receipt) =? 65).

Definition admission_funding (deposits : list DepositV5) (receipt : AdmissionReceiptV5)
  : result string unit :=
  if arc_deposit_inbox_id receipt =? 0 then
    fail_if negb (arc_admission_fee receipt =? 0)
            || negb (arc_deposit_content_hash receipt =? B256_ZERO)
      with "unfunded admission carries a fee or deposit content hash"%string in
    Ok tt
  else
    fail_if arc_deposit_content_hash receipt =? B256_ZERO
      with "funded admission omits its deposit content hash"%string in
    match List.find (fun deposit => dp_inbox_id deposit =? arc_deposit_inbox_id receipt)
            deposits with
    | Some deposit =>
        fail_if dp_refunded deposit || dp_consumed deposit
                || negb (deposit_content_hash_v5 deposit =? arc_deposit_content_hash receipt)
                || (dp_amount deposit <? arc_admission_fee receipt)
          with "admission deposit content or fee does not match the L1 inbox record"%string in
        Ok tt
    | None => Ok tt
    end.

Definition executed_here (executed : executed_blocks) (transaction_hash : Z) : bool :=
  existsb (fun b => existsb (fun outcome => to_transaction_hash outcome =? transaction_hash) b.2)
    executed.

Definition check_admission (input : BatchInputV5) (executed : executed_blocks)
    (item : Z * AdmissionRecordV5) : result string unit :=
  let '(offset, record) := item in
  let journal := bi5_journal input in
  let outcome := are_outcome record in
  let? expected := ok_or (checked_add U64_MAX (bj5_admission_cursor_before journal) (offset + 1))
                     "admission id overflow"%string in
  fail_if admission_identity_invalid journal expected record
    with "admission receipt identity, deadline or signature shape is invalid"%string in
  let? _ := admission_funding (bi5_deposits input) (are_receipt record) in
  fail_if (aoc_status outcome =? 2) && executed_here executed (aoc_transaction_hash outcome)
    with "admission is marked rejected but the batch executed that transaction"%string in
  validate_processed_outcome_v5 executed (aoc_transaction_hash outcome) (aoc_status outcome)
    (aoc_l2_block_number outcome) (aoc_transaction_index outcome) (aoc_reason_hash outcome).

Definition check_forced (input : BatchInputV5) (executed : executed_blocks)
    (policy : ExecutionPolicyV4) (terminal : StateMap) (item : Z * ForcedTransactionV5)
  : result string unit :=
  let '(offset, forced) := item in
  let journal := bi5_journal input in
  let outcome := ftx_outcome forced in
  let? expected := ok_or (checked_add U64_MAX (bj5_forced_cursor_before journal) (offset + 1))
                     "forced id overflow"%string in
  let transaction_hash := keccak256 (ftx_raw_transaction forced) in
  fail_if negb (ftx_forced_id forced =? expected)
          || negb (aoc_admission_id outcome =? expected)
          || negb (aoc_transaction_hash outcome =? transaction_hash)
    with "forced transaction identity or hash is invalid"%string in
  let? _ :=
    if aoc_status outcome =? 2 then
      let? reason :=
        ok_or (forced_rejection_reason_v5 (ftx_raw_transaction forced)
                 (room_chain_id_v5 (bj5_deployment_domain journal) (bj5_room_id journal))
                 policy terminal)
          "forced transaction is executable and cannot be deterministically rejected"%string in
      fail_if negb (aoc_reason_hash outcome
                    =? forced_rejection_reason_hash_v5 transaction_hash reason)
        with "forced rejection reason hash is not the proved reason"%string in
      Ok tt
    else Ok tt in
  validate_processed_outcome_v5 executed transaction_hash (aoc_status outcome)
    (aoc_l2_block_number outcome) (aoc_transaction_index outcome) (aoc_reason_hash outcome).

Definition validate_admissions_v5 (input : BatchInputV5) (executed : executed_blocks)
    (policy : ExecutionPolicyV4) (terminal : StateMap) : result string unit :=
  let journal := bi5_journal input in
  let? admission_count :=
    ok_or (checked_sub (bj5_admission_cursor_after journal) (bj5_admission_cursor_before journal))
      "admission cursor moved backwards"%string in
  fail_if negb (admission_count =? zlen (bi5_admissions input))
          || negb (admission_records_hash_v5 (bi5_admissions input)
                   =? bj5_admission_records_hash journal)
    with "admission records do not match cursor range or journal hash"%string in
  let? forced_count :=
    ok_or (checked_sub (bj5_forced_cursor_after journal) (bj5_forced_cursor_before journal))
      "forced cursor moved backwards"%string in
  fail_if negb (forced_count =? zlen (bi5_forced_transactions input))
          || negb (forced_outcomes_hash_v5 (bi5_forced_transactions input)
                   =? bj5_forced_outcomes_hash journal)
    with "forced outcomes do not match cursor range or journal hash"%string in
  if bj5_authorization_mode journal =? 0 then
    fail_if negb (bool_decide (bi5_admissions input = []))
            || negb (bool_decide (bi5_forced_transactions input = []))
            || negb (bool_decide (bi5_canonical_batch_data input = []))
            || negb (bj5_canonical_data_hash journal =? B256_ZERO)
      with "unanimous rooms cannot carry operator admission data"%string in
    Ok tt
  else
  fail_if negb (bj5_authorization_mode journal =? 1)
    with "unknown room authorization mode"%string in
  let canonical := canonical_batch_data_v5 (bi5_blocks input) (bj5_pre_state_root journal) in
  fail_if negb (bool_decide (canonical = bi5_canonical_batch_data input))
          || negb (keccak256 (bi5_canonical_batch_data input) =? bj5_canonical_data_hash journal)
    with "public canonical batch data differs from proved blocks"%string in
  let? _ := for_each (fun _ => check_admission input executed) tt
              (enumerate (bi5_admissions input)) in
  for_each (fun _ => check_forced input executed policy terminal) tt
    (enumerate (bi5_forced_transactions input)).
End Admission.

(** * Properties *)
Section AdmissionFacts.
Context {KK : Keccak} {RV : Revm} {OP : OsakaPrecompiles} {TC : TxCodec} {AR : AlloyRlp}.
Abbreviation executed_blocks := (list (Z * list TransactionOutcome)).

(** The transaction at a position of the batch. *)
Definition executed_at (executed : executed_blocks) (number index : Z)
    (outcome : TransactionOutcome) : Prop :=
  exists transactions,
    first_match (fun b => b.1 =? number) executed (number, transactions) /\
    znth transactions index = Some outcome.

(** What a record may say of its transaction: that it was executed, where, and
    how it ended, or that it was rejected for some reason. *)
Inductive disposition (executed : executed_blocks) (hash status number index reason : Z) : Prop :=
| disposed_executed :
    status <= 1 -> reason = B256_ZERO ->
    executed_at executed number index (mk_TransactionOutcome hash status) ->
    disposition executed hash status number index reason
| disposed_rejected :
    status = 2 -> number = 0 -> index = 0 -> reason <> B256_ZERO ->
    disposition executed hash status number index reason.

Lemma processed_outcome_spec executed hash status number index reason :
  validate_processed_outcome_v5 executed hash status number index reason = Ok tt <->
  disposition executed hash status number index reason.
Proof.
  unfold validate_processed_outcome_v5. destruct (Z.eqb_spec status 2) as [->|Hs].
  - rewrite fail_if_Ok, !orb_false_iff, !negb_eqb_false, Z.eqb_neq. split.
    + intros [[[? ?] ?] _]. apply disposed_rejected; auto.
    + inversion 1; [lia|]. auto.
  - rewrite fail_if_Ok, orb_false_iff, negb_eqb_false, Z.ltb_ge, rbind_Ok. split.
    + intros ([Hle Hr] & [n transactions] & Hf & H). apply ok_or_Ok, find_first_match in Hf.
      apply rbind_Ok in H as ([h s] & Ho & H). apply ok_or_Ok in Ho.
      rewrite fail_if_Ok, orb_false_iff, !negb_eqb_false in H. destruct H as [[H1 H2] _].
      cbn in *. subst.
      pose proof (first_match_elem _ _ _ Hf) as [_ Hn]. cbn in Hn. apply Z.eqb_eq in Hn as ->.
      apply disposed_executed; auto. exists transactions. auto.
    + inversion 1 as [? ? (transactions & Hf & Ho)|]; [|lia]. split; [auto|].
      exists (number, transactions). split; [apply ok_or_Ok, find_first_match, Hf|].
      rewrite Ho. cbn. rewrite !Z.eqb_refl. reflexivity.
Qed.

(** ** Deterministic rejection *)

(** The sender can still execute the transaction in the state. *)
Definition affordable (terminal : StateMap) (tx : TxEnv) : Prop :=
  (sender_state terminal (tx_caller tx)).1 = tx_nonce tx /\
  tx_value tx <= (sender_state terminal (tx_caller tx)).2.
Definition entry_allowed policy (tx : TxEnv) : Prop :=
  validate_transaction_entry policy (tx_caller tx) (tx_kind tx) (tx_data tx) = Ok tt.

(** The batch could have carried the transaction. *)
Definition executable (raw : bytes) (chain_id : Z) policy terminal : Prop :=
  exists tx, tx_env_from_raw raw chain_id = Ok tx /\ entry_allowed policy tx /\
             affordable terminal tx.

Inductive rejected_for (raw : bytes) (chain_id : Z) policy terminal : Z -> Prop :=
| rejected_undecodable :
    (forall tx, tx_env_from_raw raw chain_id <> Ok tx) ->
    rejected_for raw chain_id policy terminal FORCED_REJECTION_UNDECODABLE_V5
| rejected_policy tx :
    tx_env_from_raw raw chain_id = Ok tx -> ~ entry_allowed policy tx ->
    rejected_for raw chain_id policy terminal FORCED_REJECTION_POLICY_V5
| rejected_sender tx :
    tx_env_from_raw raw chain_id = Ok tx -> entry_allowed policy tx -> ~ affordable terminal tx ->
    rejected_for raw chain_id policy terminal FORCED_REJECTION_SENDER_V5.

Lemma is_ok_unit {E} (m : result E unit) : is_ok m = true <-> m = Ok tt.
Proof. destruct m as [[]|e]; cbn; split; congruence. Qed.

Lemma affordable_spec terminal tx (s := sender_state terminal (tx_caller tx)) :
  negb (s.1 =? tx_nonce tx) || (s.2 <? tx_value tx) = false <-> affordable terminal tx.
Proof. rewrite orb_false_iff, negb_eqb_false, Z.ltb_ge. reflexivity. Qed.

Ltac reject_cases :=
  inversion 1 as [Hn|tx' Ht' Hn|tx' Ht' Ha' Hn]; simplify_eq; try congruence; auto;
  try contradiction; try (exfalso; eapply Hn; eassumption).

Lemma rejection_reason_spec raw chain_id policy terminal :
  (forall r, forced_rejection_reason_v5 raw chain_id policy terminal = Some r <->
             rejected_for raw chain_id policy terminal r) /\
  (forced_rejection_reason_v5 raw chain_id policy terminal = None <->
   executable raw chain_id policy terminal).
Proof.
  unfold forced_rejection_reason_v5, executable.
  destruct (tx_env_from_raw raw chain_id) as [tx|e] eqn:Ht.
  2: { split; [|split; [discriminate|naive_solver]]. intros r. split.
       - intros H. injection H as <-. constructor. intros tx. congruence.
       - reject_cases. }
  destruct (is_ok _) eqn:Ha; cbn [negb].
  - apply is_ok_unit in Ha.
    rewrite (surjective_pairing (sender_state terminal (tx_caller tx))).
    destruct (negb _ || _) eqn:Hs.
    + assert (N : ~ affordable terminal tx) by (rewrite <- affordable_spec; congruence).
      split; [|split; [discriminate|naive_solver]]. intros r. split.
      * intros H. injection H as <-. eapply rejected_sender; eauto.
      * reject_cases.
    + apply affordable_spec in Hs. split; [|split; [eauto|reflexivity]].
      intros r. split; [discriminate|]. reject_cases.
  - assert (N : ~ entry_allowed policy tx)
      by (unfold entry_allowed; rewrite <- is_ok_unit; congruence).
    split; [|split; [discriminate|naive_solver]]. intros r. split.
    + intros H. injection H as <-. eapply rejected_policy; eauto.
    + reject_cases.
Qed.

(** ** The two record lists of a batch *)

(** How an admission is funded: not at all, or by an inbox entry whose content,
    when this batch crosses it, is the receipt's. *)
Inductive funded (deposits : list DepositV5) (receipt : AdmissionReceiptV5) : Prop :=
| unfunded :
    arc_deposit_inbox_id receipt = 0 -> arc_admission_fee receipt = 0 ->
    arc_deposit_content_hash receipt = B256_ZERO -> funded deposits receipt
| funded_by :
    arc_deposit_inbox_id receipt <> 0 -> arc_deposit_content_hash receipt <> B256_ZERO ->
    (forall d, first_match (fun d => dp_inbox_id d =? arc_deposit_inbox_id receipt) deposits d ->
       dp_refunded d = false /\ dp_consumed d = false /\
       deposit_content_hash_v5 d = arc_deposit_content_hash receipt /\
       arc_admission_fee receipt <= dp_amount d) -> funded deposits receipt.

Lemma admission_funding_spec deposits receipt :
  admission_funding deposits receipt = Ok tt <-> funded deposits receipt.
Proof.
  unfold admission_funding. destruct (Z.eqb_spec (arc_deposit_inbox_id receipt) 0) as [He|He].
  - rewrite fail_if_Ok, orb_false_iff, !negb_eqb_false. split.
    + intros [[Hf Hc] _]. apply unfunded; auto.
    + inversion 1; [auto|contradiction].
  - rewrite fail_if_Ok, Z.eqb_neq. split.
    + intros [Hc H]. apply funded_by; auto. intros d Hd. apply find_first_match in Hd.
      rewrite Hd, fail_if_Ok, !orb_false_iff, negb_eqb_false, Z.ltb_ge in H. naive_solver.
    + inversion 1 as [|Hi Hc Hd]; [contradiction|]. split; [exact Hc|].
      destruct (List.find _ deposits) as [d|] eqn:E; [|reflexivity].
      apply find_first_match, Hd in E as (-> & -> & -> & Hle). rewrite Z.eqb_refl.
      apply Z.ltb_ge in Hle as ->. reflexivity.
Qed.

Record admission_ok (input : BatchInputV5) (executed : executed_blocks) (k : Z)
    (record : AdmissionRecordV5) : Prop := {
  ao_id : arc_admission_id (are_receipt record)
          = bj5_admission_cursor_before (bi5_journal input) + (k + 1);
  ao_fits : arc_admission_id (are_receipt record) <= U64_MAX;
  ao_same_id : aoc_admission_id (are_outcome record) = arc_admission_id (are_receipt record);
  ao_same_hash : arc_transaction_hash (are_receipt record)
                 = aoc_transaction_hash (are_outcome record);
  ao_in_time : bj5_batch_index (bi5_journal input)
                 <= arc_maximum_batch_index (are_receipt record) /\
               bj5_l1_inclusion_deadline (bi5_journal input)
                 <= arc_deadline_block (are_receipt record);
  ao_signature : zlen (arc_signature (are_receipt record)) = 65;
  ao_funded : funded (bi5_deposits input) (are_receipt record);
  ao_consistent : aoc_status (are_outcome record) = 2 ->
    forall b o, b ∈ executed -> o ∈ b.2 ->
      to_transaction_hash o <> aoc_transaction_hash (are_outcome record);
  ao_disposition : disposition executed (aoc_transaction_hash (are_outcome record))
    (aoc_status (are_outcome record)) (aoc_l2_block_number (are_outcome record))
    (aoc_transaction_index (are_outcome record)) (aoc_reason_hash (are_outcome record))
}.

Lemma executed_here_false executed hash :
  executed_here executed hash = false <->
  forall b o, b ∈ executed -> o ∈ b.2 -> to_transaction_hash o <> hash.
Proof.
  unfold executed_here. rewrite existsb_false_iff. split.
  - intros H b o Hb Ho. apply Z.eqb_neq. specialize (H b Hb). cbv beta in H.
    rewrite existsb_false_iff in H. exact (H o Ho).
  - intros H b Hb. apply existsb_false_iff. intros o Ho. apply Z.eqb_neq. eauto.
Qed.

Lemma check_admission_spec input executed k record :
  check_admission input executed (k, record) = Ok tt <-> admission_ok input executed k record.
Proof.
  unfold check_admission, admission_identity_invalid. rewrite rbind_Ok. split.
  - intros (expected & He & H). apply ok_or_Ok, checked_add_Some in He as [Hm ->].
    apply fail_if_Ok in H as [Hg H].
    rewrite !orb_false_iff, !negb_eqb_false, !Z.ltb_ge in Hg.
    destruct Hg as (((((G1 & G2) & G3) & G4) & G5) & G6).
    apply rbind_Ok in H as ([] & Hf & H). apply admission_funding_spec in Hf.
    apply fail_if_Ok in H as [Hx H]. apply processed_outcome_spec in H.
    split; auto; try lia. intros Hs. apply executed_here_false.
    rewrite Hs in Hx. exact Hx.
  - intros [G1 G2 G3 G4 [G5 G6] G7 G8 G9 G10].
    exists (bj5_admission_cursor_before (bi5_journal input) + (k + 1)).
    rewrite ok_or_Ok, checked_add_Some, fail_if_Ok, !orb_false_iff, !negb_eqb_false, !Z.ltb_ge.
    split_and!; auto; try lia. apply admission_funding_spec in G8. rewrite G8. cbn [rbind].
    rewrite fail_if_Ok. split; [|apply processed_outcome_spec, G10].
    destruct (Z.eqb_spec (aoc_status (are_outcome record)) 2) as [Hs|]; [|reflexivity].
    apply executed_here_false, G9, Hs.
Qed.

Record forced_ok (input : BatchInputV5) (executed : executed_blocks) policy terminal (k : Z)
    (forced : ForcedTransactionV5) : Prop := {
  fo_id : ftx_forced_id forced = bj5_forced_cursor_before (bi5_journal input) + (k + 1);
  fo_fits : ftx_forced_id forced <= U64_MAX;
  fo_same_id : aoc_admission_id (ftx_outcome forced) = ftx_forced_id forced;
  fo_hash : aoc_transaction_hash (ftx_outcome forced) = keccak256 (ftx_raw_transaction forced);
  fo_rejection : aoc_status (ftx_outcome forced) = 2 ->
    exists r,
      rejected_for (ftx_raw_transaction forced)
        (room_chain_id_v5 (bj5_deployment_domain (bi5_journal input))
           (bj5_room_id (bi5_journal input))) policy terminal r /\
      aoc_reason_hash (ftx_outcome forced)
      = forced_rejection_reason_hash_v5 (keccak256 (ftx_raw_transaction forced)) r;
  fo_disposition : disposition executed (keccak256 (ftx_raw_transaction forced))
    (aoc_status (ftx_outcome forced)) (aoc_l2_block_number (ftx_outcome forced))
    (aoc_transaction_index (ftx_outcome forced)) (aoc_reason_hash (ftx_outcome forced))
}.

Lemma check_forced_spec input executed policy terminal k forced :
  check_forced input executed policy terminal (k, forced) = Ok tt <->
  forced_ok input executed policy terminal k forced.
Proof.
  unfold check_forced. rewrite rbind_Ok. split.
  - intros (expected & He & H). apply ok_or_Ok, checked_add_Some in He as [Hm ->].
    apply fail_if_Ok in H as [Hg H]. rewrite !orb_false_iff, !negb_eqb_false in Hg.
    destruct Hg as ((G1 & G2) & G3). apply rbind_Ok in H as ([] & Hr & H).
    apply processed_outcome_spec in H. split; auto; try lia.
    intros Hs. rewrite Hs in Hr. cbn in Hr. apply rbind_Ok in Hr as (r & Hr & Hc).
    apply ok_or_Ok, (rejection_reason_spec _ _ _ _) in Hr.
    apply fail_if_Ok in Hc as [Hc _]. apply negb_eqb_false in Hc. eauto.
  - intros [G1 G2 G3 G4 G5 G6].
    exists (bj5_forced_cursor_before (bi5_journal input) + (k + 1)).
    rewrite ok_or_Ok, checked_add_Some, fail_if_Ok, !orb_false_iff, !negb_eqb_false.
    split_and!; auto; try lia. apply rbind_Ok. exists tt.
    split; [|apply processed_outcome_spec, G6].
    destruct (Z.eqb_spec (aoc_status (ftx_outcome forced)) 2) as [Hs|]; [|reflexivity].
    destruct (G5 Hs) as (r & Hr & Hh). apply (rejection_reason_spec _ _ _ _) in Hr.
    rewrite Hr. cbn. rewrite Hh, Z.eqb_refl. reflexivity.
Qed.

(** A range of [length l] cursor positions. *)
Definition cursor_covers {A} (before after : Z) (l : list A) : Prop := after = before + zlen l.

Inductive admissions_ok (input : BatchInputV5) (executed : executed_blocks) policy terminal
  : Prop :=
| admissions_unanimous :
    bj5_authorization_mode (bi5_journal input) = 0 ->
    bi5_admissions input = [] -> bi5_forced_transactions input = [] ->
    bi5_canonical_batch_data input = [] ->
    bj5_canonical_data_hash (bi5_journal input) = B256_ZERO ->
    admissions_ok input executed policy terminal
| admissions_operator :
    bj5_authorization_mode (bi5_journal input) = 1 ->
    bi5_canonical_batch_data input
      = canonical_batch_data_v5 (bi5_blocks input) (bj5_pre_state_root (bi5_journal input)) ->
    bj5_canonical_data_hash (bi5_journal input) = keccak256 (bi5_canonical_batch_data input) ->
    (forall k r, bi5_admissions input !! k = Some r ->
       admission_ok input executed (Z.of_nat k) r) ->
    (forall k f, bi5_forced_transactions input !! k = Some f ->
       forced_ok input executed policy terminal (Z.of_nat k) f) ->
    admissions_ok input executed policy terminal.

Record admission_batch (input : BatchInputV5) (executed : executed_blocks) policy terminal
  : Prop := {
  ab_cursor : cursor_covers (bj5_admission_cursor_before (bi5_journal input))
                (bj5_admission_cursor_after (bi5_journal input)) (bi5_admissions input);
  ab_hash : bj5_admission_records_hash (bi5_journal input)
            = admission_records_hash_v5 (bi5_admissions input);
  ab_forced_cursor : cursor_covers (bj5_forced_cursor_before (bi5_journal input))
                       (bj5_forced_cursor_after (bi5_journal input))
                       (bi5_forced_transactions input);
  ab_forced_hash : bj5_forced_outcomes_hash (bi5_journal input)
                   = forced_outcomes_hash_v5 (bi5_forced_transactions input);
  ab_records : admissions_ok input executed policy terminal
}.

Lemma cursor_covers_spec {A} before after (l : list A) :
  (exists n, ok_or (checked_sub after before) ""%string = Ok n /\ n = zlen l) <->
  cursor_covers before after l.
Proof.
  unfold cursor_covers. pose proof (zlen_nonneg l). split.
  - intros (n & Hn & ->). apply ok_or_Ok, checked_sub_Some in Hn as [? Hn]. lia.
  - intros ->. exists (zlen l). rewrite ok_or_Ok, checked_sub_Some. lia.
Qed.

Lemma validate_admissions_spec input executed policy terminal :
  validate_admissions_v5 input executed policy terminal = Ok tt <->
  admission_batch input executed policy terminal.
Proof.
  unfold validate_admissions_v5. split.
  - intros H. apply rbind_Ok in H as (n & Hn & H). apply ok_or_Ok, checked_sub_Some in Hn as [Hle ->].
    apply fail_if_Ok in H as [Hg H]. rewrite orb_false_iff, !negb_eqb_false in Hg.
    destruct Hg as [G1 G2]. apply rbind_Ok in H as (n & Hn & H).
    apply ok_or_Ok, checked_sub_Some in Hn as [Hle' ->].
    apply fail_if_Ok in H as [Hg H]. rewrite orb_false_iff, !negb_eqb_false in Hg.
    destruct Hg as [G3 G4]. split; unfold cursor_covers; try lia.
    destruct (Z.eqb_spec (bj5_authorization_mode (bi5_journal input)) 0) as [Hm|Hm].
    + rewrite fail_if_Ok, !orb_false_iff, !negb_bool_decide_false, negb_eqb_false in H.
      destruct H as [[[[? ?] ?] ?] _]. apply admissions_unanimous; auto.
    + apply fail_if_Ok in H as [Hg H]. apply negb_eqb_false in Hg.
      apply fail_if_Ok in H as [Hc H].
      rewrite orb_false_iff, negb_bool_decide_false, negb_eqb_false in Hc.
      destruct Hc as [Hc1 Hc2]. apply rbind_Ok in H as ([] & Ha & H).
      rewrite for_each_enumerate in Ha. rewrite for_each_enumerate in H.
      apply admissions_operator; auto.
      * intros k r Hk. apply check_admission_spec, Ha, Hk.
      * intros k f Hk. apply check_forced_spec, H, Hk.
  - intros [G1 G2 G3 G4 G5]. unfold cursor_covers in *.
    pose proof (zlen_nonneg (bi5_admissions input)).
    pose proof (zlen_nonneg (bi5_forced_transactions input)).
    apply rbind_Ok. exists (zlen (bi5_admissions input)).
    rewrite ok_or_Ok, checked_sub_Some, fail_if_Ok, orb_false_iff, !negb_eqb_false.
    split_and!; auto; try lia.
    apply rbind_Ok. exists (zlen (bi5_forced_transactions input)).
    rewrite ok_or_Ok, checked_sub_Some, fail_if_Ok, orb_false_iff, !negb_eqb_false.
    split_and!; auto; try lia.
    destruct G5 as [Hm -> -> -> Hc|Hm Hd Hc Ha Hf]; rewrite Hm; cbn -[keccak256].
    + rewrite Hc. reflexivity.
    + rewrite fail_if_Ok, orb_false_iff, negb_bool_decide_false, negb_eqb_false.
      split; [auto|]. apply rbind_Ok. exists tt. split; apply for_each_enumerate.
      * intros k r Hk. apply check_admission_spec, Ha, Hk.
      * intros k f Hk. apply check_forced_spec, Hf, Hk.
Qed.
End AdmissionFacts.

Section Claims.
Context {KK : Keccak} {RV : Revm} {OP : OsakaPrecompiles} {TC : TxCodec} {AR : AlloyRlp}.

(** The admission check accepts exactly the batches whose records tell the truth.  Both
    lists fill their cursor ranges and are the committed ones.  A unanimous room carries
    none.  In an operator room the published batch data are the canonical encoding of the
    blocks; each admission has the next id, is in time, has a funding the crossed inbox entry
    confirms, and either was executed where and how the record says or is marked rejected and
    was not executed; each forced transaction has the next id and was executed where and how
    the record says, or was rejected for the reason that follows from its bytes, the policy
    and the terminal state. *)
Theorem admissions_exact input executed policy terminal :
  validate_admissions_v5 input executed policy terminal = Ok tt <->
  admission_batch input executed policy terminal.
Proof. apply validate_admissions_spec. Qed.

(** The reason of a deterministic rejection is a function of the transaction, the policy
    and the terminal state: a reason exists exactly when the transaction cannot be executed
    there, and it names the first of the three obstacles (undecodable, policy, sender). *)
Theorem forced_rejection_exact raw chain_id policy terminal :
  (forall r, forced_rejection_reason_v5 raw chain_id policy terminal = Some r <->
             rejected_for raw chain_id policy terminal r) /\
  (forced_rejection_reason_v5 raw chain_id policy terminal = None <->
   executable raw chain_id policy terminal).
Proof. apply rejection_reason_spec. Qed.
End Claims.
