(* ===== verification/BatchV5.v ===== *)
(** * One proof-backed transition of a long-lived room: stf-core/src/room_v5/mod.rs

    The composition: identity, roster, escrow, the authenticated prestate, the
    import and the deposit credits, the certified policy, the blocks, and the
    checks of the terminal state. *)

From S2P Require Import Prelude Types Abi HashV5 HashV4 State StateEvm Policy Settlement RosterV5 ExitV5 LiabilitiesV5 Compact ImportV5 Block BatchData AdmissionV5.
Open Scope Z_scope.

Section Batch.
Context {KK : Keccak} {RV : Revm} {AT : AlloyTrie} {OP : OsakaPrecompiles} {TC : TxCodec}
  {EV : Evm} {AR : AlloyRlp}.

(** ** The cold-template registration statement *)

(** [Address::repeat_byte(0x01)]. *)
Definition synthetic_member : Z := of_be (repeat 1 20).

Definition execute_cold_template_v5 (input : ColdTemplateInputV5) (genesis_data_hash : Z)
  : result StfError Z :=
  fail_if (cti_initial_state_root input =? B256_ZERO)
          || (cti_policy_hash input =? B256_ZERO)
          || (cti_proof_program_id input =? B256_ZERO)
          || (cti_proof_system_version input =? B256_ZERO)
          || (genesis_data_hash =? B256_ZERO)
          || negb (cold_template_id_v5 (cti_initial_state_root input) (cti_policy_hash input)
                     (cti_proof_system_version input) =? cti_template_id input)
    with LongLivedRoom "cold-template identity is zero or not canonically derived" in
  fail_if negb (cst_canonical_state_root (cti_compact_state input) =? B256_ZERO)
    with LongLivedRoom "cold template requires a complete initial room state" in
  let? state := map_err CompactWitness (verify_compact_state_v4 (cti_compact_state input)) in
  let? initial_root := room_state_root_v5 state (ep5_state_commitment (cti_policy input)) in
  fail_if negb (initial_root =? cti_initial_state_root input)
    with PreRootMismatch (cti_initial_state_root input) initial_root in
  let? _ := map_err CertifiedPolicy
              (from_v5 (cti_policy input) (cti_policy_hash input) {[synthetic_member]} state
                 false) in
  Ok (cold_template_statement_v6 input genesis_data_hash).

Definition derive_forced_rejection_reason_v5 (raw : bytes) (deployment_domain room_id : Z)
    (policy : ExecutionPolicyV5) (policy_hash : Z) (active_members : gset Z)
    (terminal : StateMap) : result StfError (option Z) :=
  let? policy := map_err CertifiedPolicy
                   (from_v5 policy policy_hash active_members terminal false) in
  Ok (forced_rejection_reason_v5 raw (room_chain_id_v5 deployment_domain room_id) policy terminal).

(** ** [execute_batch_v5_with_report], in the order of its statements *)

Definition identity_invalid (journal : BatchJournalV5) : bool :=
  negb (bj5_protocol_version journal =? BATCH_JOURNAL_VERSION_V6)
  || (bj5_deployment_domain journal =? B256_ZERO)
  || (bj5_room_id journal =? 0)
  || (1 <? bj5_authorization_mode journal)
  || (bj5_cold_template_id journal =? B256_ZERO)
  || (bj5_proof_program_id journal =? B256_ZERO)
  || (bj5_proof_system_version journal =? B256_ZERO)
  || (bj5_policy_hash journal =? B256_ZERO)
  || (bj5_batch_index journal =? 0)
  || (bj5_l1_inclusion_deadline journal =? 0).

Definition validate_identity (input : BatchInputV5) : result StfError unit :=
  let journal := bi5_journal input in
  fail_if identity_invalid journal
    with LongLivedRoom "required v6 public identity field is zero or invalid" in
  fail_if (bj5_batch_index journal =? 1)
          && negb (cold_template_id_v5 (bj5_pre_state_root journal) (bj5_policy_hash journal)
                     (bj5_proof_system_version journal) =? bj5_cold_template_id journal)
    with LongLivedRoom "first batch does not open at its cold template's registered state" in
  let count := zlen (bi5_blocks input) in
  fail_if (count =? 0) || (ep5_max_blocks_per_batch (bi5_policy input) <? count)
          || ((count =? 1) && negb (bj5_close journal))
          || (MAX_BATCH_WITNESS_BYTES_V4 <? bi5_encoded_witness_bytes input)
    with LongLivedRoom "batch block count or witness size is outside the policy" in
  let? end_block := ok_or (checked_add U64_MAX (bj5_start_l2_block journal) (count - 1))
                      (LongLivedRoom "L2 block range overflow") in
  fail_if negb (bj5_end_l2_block journal =? end_block)
    with LongLivedRoom "journal L2 range does not match the block count" in
  Ok tt.

Definition participants_of (root epoch count capacity : BatchJournalV5 -> Z)
    (journal : BatchJournalV5) : Z * Z * Z * Z :=
  (root journal, epoch journal, count journal, capacity journal).

(** The authenticated opening: the prestate the compact witness lists, at the
    journal's root and participant registry. *)
Definition open_state (input : BatchInputV5) : result StfError StateMap :=
  let journal := bi5_journal input in
  fail_if negb (cst_canonical_state_root (bi5_compact_state input) =? B256_ZERO)
    with LongLivedRoom "v5 hot batches require a complete room-local prestate" in
  let? state := map_err CompactWitness (verify_compact_state_v4 (bi5_compact_state input)) in
  let? opening_root := room_state_root_v5 state (ep5_state_commitment (bi5_policy input)) in
  fail_if negb (opening_root =? bj5_pre_state_root journal)
    with PreRootMismatch (bj5_pre_state_root journal) opening_root in
  let? opening_participants := map_err LongLivedRoom (participant_state_v5 input state) in
  fail_if negb (bool_decide (opening_participants
                = participants_of bj5_pre_participant_root bj5_pre_participant_epoch
                    bj5_pre_participant_count bj5_participant_capacity journal))
    with LongLivedRoom "opening participant registry differs from the journal" in
  Ok state.

Definition opening_exit_count (input : BatchInputV5) (state : StateMap) : result StfError Z :=
  match ep5_exit (bi5_policy input) with
  | Some binding =>
      if bj5_authorization_mode (bi5_journal input) =? 1
      then map_err LongLivedRoom (exit_record_count_v5 binding state)
      else Ok 0
  | None => Ok 0
  end.

(** The caller pre-pass of a validity-only room. *)
Definition decode_tx (chain_id : Z) (s : gset Z * list TxEnv) (raw : bytes)
  : result StfError (gset Z * list TxEnv) :=
  let '(callers, decoded) := s in
  let? tx_env := map_err (fun _ => TxDecode "transaction") (tx_env_from_raw raw chain_id) in
  Ok ({[tx_caller tx_env]} ∪ callers, decoded ++ [tx_env]).
Definition decode_block (s : gset Z * list (option (list TxEnv))) (block : BatchBlockV5)
  : result StfError (gset Z * list (option (list TxEnv))) :=
  let '(callers, decoded_blocks) := s in
  let? (callers, decoded) :=
    for_each (decode_tx (env_chain_id (bb5_env block))) (callers, []) (bb5_raw_txs block) in
  Ok (callers, decoded_blocks ++ [Some decoded]).
Definition decode_callers (input : BatchInputV5) (callers : gset Z)
  : result StfError (gset Z * list (option (list TxEnv))) :=
  if bj5_authorization_mode (bi5_journal input) =? 1 then
    let? (callers, decoded_blocks) := for_each decode_block (callers, []) (bi5_blocks input) in
    fail_if bool_decide (callers = ∅)
      with LongLivedRoom "validity-only batch has no signed transaction caller" in
    Ok (callers, decoded_blocks)
  else Ok (callers, []).

(** The mutable locals of the block loop. *)
Record BatchLoop := mk_BatchLoop {
  ba_state : StateMap;
  ba_current_root : Z;
  ba_proof_work : EvmProofWork;
  ba_executed : list (Z * list TransactionOutcome);
  ba_previous_timestamp : option Z
}.

Definition block_environment_differs (input : BatchInputV5) (expected_number chain_id : Z)
    (block : BatchBlockV5) : bool :=
  let env := bb5_env block in
  negb (bb5_block_number block =? expected_number)
  || negb (env_number env =? expected_number)
  || negb (env_chain_id env =? chain_id)
  || negb (env_gas_limit env =? ep5_max_gas_per_block (bi5_policy input))
  || (ep5_max_transactions_per_block (bi5_policy input) <? zlen (bb5_raw_txs block))
  || negb (env_coinbase env =? Address_ZERO)
  || negb (env_base_fee env =? 0)
  || negb (env_prev_randao env =? B256_ZERO)
  || negb (env_difficulty env =? 0)
  || negb (env_excess_blob_gas env =? 0).

(** The single-block input the batch hands to the executor. *)
Definition single_input (input : BatchInputV5) (current_root : Z) (block : BatchBlockV5)
  : StfInput :=
  mk_StfInput (bj5_room_id (bi5_journal input)) (bb5_block_number block) current_root []
    (bb5_raw_txs block) (bb5_env block) (bb5_block_hashes block).

(** The body of the loop over [blocks.iter().enumerate()]. *)
Definition execute_batch_block (input : BatchInputV5) (policy : ExecutionPolicyV4)
    (decoded_blocks : list (option (list TxEnv))) (s : BatchLoop) (item : Z * BatchBlockV5)
  : result StfError BatchLoop :=
  let '(offset, block) := item in
  let journal := bi5_journal input in
  let? expected_number := ok_or (checked_add U64_MAX (bj5_start_l2_block journal) offset)
                            (LongLivedRoom "L2 block height overflow") in
  fail_if match ba_previous_timestamp s with
          | Some previous => env_timestamp (bb5_env block) <? previous
          | None => false
          end
    with LongLivedRoom "block timestamp precedes the previous block in the same batch" in
  fail_if block_environment_differs input expected_number
            (room_chain_id_v5 (bj5_deployment_domain journal) (bj5_room_id journal)) block
    with LongLivedRoom "block does not match the certified room environment" in
  let? outcome :=
    execute_block_on_state (single_input input (ba_current_root s) block) (ba_state s)
      (Some policy) false (ep5_state_commitment (bi5_policy input)) true
      (default None (znth decoded_blocks offset)) in
  fail_if negb (sj_post_state_root (bo_journal outcome) =? bb5_expected_post_state_root block)
    with LongLivedRoom "proved intermediate root differs from the approved batch" in
  Ok (mk_BatchLoop (bo_post_state outcome) (sj_post_state_root (bo_journal outcome))
        (accumulate (ba_proof_work s) (bo_proof_work outcome))
        (ba_executed s ++ [(bb5_block_number block, bo_transactions outcome)])
        (Some (env_timestamp (bb5_env block)))).

Definition execute_batch_v5_with_report (input : BatchInputV5) : result StfError BatchOutcomeV5 :=
  let journal := bi5_journal input in
  let? _ := validate_identity input in
  let? authenticated_callers := map_err LongLivedRoom (validate_roster_transition_v5 input) in
  let? _ := map_err LongLivedRoom (validate_liabilities_v5 input) in
  let? state := open_state input in
  let? state := map_err LongLivedRoom (verify_and_apply_import_v5 input state) in
  let? pre_exit_count := opening_exit_count input state in
  let? state := map_err LongLivedRoom (apply_deposit_credits_v5 input state) in
  let? (authenticated_callers, decoded_blocks) := decode_callers input authenticated_callers in
  let? policy := map_err CertifiedPolicy
                   (from_v5 (bi5_policy input) (bj5_policy_hash journal) authenticated_callers
                      state (negb (bool_decide (bi5_roster_changes input = [])))) in
  let? (_, state) := map_err CertifiedPolicy
                       (install_prepared_runtime_code (xp_code_hashes policy) state) in
  let initial_storage := storages state in
  let? current_root := room_state_root_v5 state (ep5_state_commitment (bi5_policy input)) in
  let? s := for_each (execute_batch_block input policy decoded_blocks)
              (mk_BatchLoop state current_root EvmProofWork_default [] None)
              (enumerate (bi5_blocks input)) in
  let? _ := map_err CertifiedPolicy
              (validate_post_state policy initial_storage (ba_state s)) in
  fail_if negb (ba_current_root s =? bj5_post_state_root journal)
          || negb (batch_block_data_hash_v5 (bi5_blocks input) (bj5_pre_state_root journal)
                   =? bj5_batch_data_hash journal)
    with LongLivedRoom "terminal state or approved batch-data commitment differs" in
  let? closing_participants := map_err LongLivedRoom (participant_state_v5 input (ba_state s)) in
  fail_if negb (bool_decide (closing_participants
                = participants_of bj5_post_participant_root bj5_post_participant_epoch
                    bj5_post_participant_count bj5_participant_capacity journal))
    with LongLivedRoom "terminal participant registry differs from the journal" in
  let? _ := map_err LongLivedRoom
              (validate_admissions_v5 input (ba_executed s) policy (ba_state s)) in
  let? _ := map_err LongLivedRoom (validate_exit_v5 input pre_exit_count (ba_state s)) in
  Ok (mk_BatchOutcomeV5 journal
        (mk_BatchProofWork (zlen (bi5_blocks input)) (bi5_encoded_witness_bytes input)
           (ba_proof_work s))).

Definition execute_batch_v5 (input : BatchInputV5) : result StfError BatchJournalV5 :=
  let? outcome := execute_batch_v5_with_report input in Ok (bov5_journal outcome).
End Batch.

(** * Properties *)

(** ** The accepted run of a batch, step by step *)
Section BatchRun.
Context {KK : Keccak} {RV : Revm} {AT : AlloyTrie} {OP : OsakaPrecompiles} {TC : TxCodec}
  {EV : Evm} {AR : AlloyRlp}.
Implicit Types (db : StateMap) (policy : ExecutionPolicyV4).

(** The intermediate values of an accepted batch. *)
Record batch_run (input : BatchInputV5) := {
  br_approvers : gset Z;
  br_opened : StateMap;
  br_imported : StateMap;
  br_exit_count : Z;
  br_credited : StateMap;
  br_callers : gset Z;
  br_decoded : list (option (list TxEnv));
  br_policy : ExecutionPolicyV4;
  br_installed : StateMap;
  br_root : Z;
  br_end : BatchLoop;
  br_identity : validate_identity input = Ok tt;
  br_roster : validate_roster_transition_v5 input = Ok br_approvers;
  br_liabilities : validate_liabilities_v5 input = Ok tt;
  br_open : open_state input = Ok br_opened;
  br_import : verify_and_apply_import_v5 input br_opened = Ok br_imported;
  br_count : opening_exit_count input br_imported = Ok br_exit_count;
  br_credit : apply_deposit_credits_v5 input br_imported = Ok br_credited;
  br_decode : decode_callers input br_approvers = Ok (br_callers, br_decoded);
  br_certify : from_v5 (bi5_policy input) (bj5_policy_hash (bi5_journal input)) br_callers
                 br_credited (negb (bool_decide (bi5_roster_changes input = []))) = Ok br_policy;
  br_install : exists report,
    install_prepared_runtime_code (xp_code_hashes br_policy) br_credited
    = Ok (report, br_installed);
  br_start_root : room_state_root_v5 br_installed (ep5_state_commitment (bi5_policy input))
                  = Ok br_root;
  br_blocks : for_each (execute_batch_block input br_policy br_decoded)
                (mk_BatchLoop br_installed br_root EvmProofWork_default [] None)
                (enumerate (bi5_blocks input)) = Ok br_end;
  br_post : validate_post_state br_policy (storages br_installed) (ba_state br_end) = Ok tt;
  br_post_root : ba_current_root br_end = bj5_post_state_root (bi5_journal input);
  br_data : batch_block_data_hash_v5 (bi5_blocks input)
              (bj5_pre_state_root (bi5_journal input)) = bj5_batch_data_hash (bi5_journal input);
  br_participants : participant_state_v5 input (ba_state br_end)
    = Ok (participants_of bj5_post_participant_root bj5_post_participant_epoch
            bj5_post_participant_count bj5_participant_capacity (bi5_journal input));
  br_admissions : validate_admissions_v5 input (ba_executed br_end) br_policy (ba_state br_end)
                  = Ok tt;
  br_exit : validate_exit_v5 input br_exit_count (ba_state br_end) = Ok tt
}.

Definition run_outcome {input} (r : batch_run input) : BatchOutcomeV5 :=
  mk_BatchOutcomeV5 (bi5_journal input)
    (mk_BatchProofWork (zlen (bi5_blocks input)) (bi5_encoded_witness_bytes input)
       (ba_proof_work (br_end _ r))).

Lemma batch_accepted input o :
  execute_batch_v5_with_report input = Ok o -> exists r : batch_run input, o = run_outcome r.
Proof.
  unfold execute_batch_v5_with_report. intros H.
  apply rbind_Ok in H as ([] & H1 & H). apply rbind_Ok in H as (approvers & H2 & H).
  apply rbind_Ok in H as ([] & H3 & H). apply rbind_Ok in H as (opened & H4 & H).
  apply rbind_Ok in H as (imported & H5 & H). apply rbind_Ok in H as (count & H6 & H).
  apply rbind_Ok in H as (credited & H7 & H).
  apply rbind_Ok in H as ([callers decoded] & H8 & H).
  apply rbind_Ok in H as (policy & H9 & H).
  apply rbind_Ok in H as ([report installed] & H10 & H).
  apply rbind_Ok in H as (root & H11 & H). apply rbind_Ok in H as (s & H12 & H).
  apply rbind_Ok in H as ([] & H13 & H). apply fail_if_Ok in H as [H14 H].
  apply rbind_Ok in H as (closing & H15 & H). apply fail_if_Ok in H as [H16 H].
  apply rbind_Ok in H as ([] & H17 & H). apply rbind_Ok in H as ([] & H18 & H).
  apply Ok_Ok in H as <-.
  rewrite orb_false_iff, !negb_eqb_false in H14. destruct H14 as [H14 H14'].
  apply negb_bool_decide_false in H16 as ->.
  apply map_err_Ok in H2, H3, H5, H7, H9, H10, H13, H15, H17, H18.
  exists (Build_batch_run input approvers opened imported count credited callers decoded policy
    installed root s H1 H2 H3 H4 H5 H6 H7 H8 H9 (ex_intro _ report H10) H11 H12 H13 H14 H14'
    H15 H17 H18). reflexivity.
Qed.

(** ** The caller pre-pass *)
Definition callers_of (envs : list TxEnv) : gset Z := list_to_set (map tx_caller envs).

(** The environments of a block, decoded ahead or to be decoded. *)
Definition decoded_for (decoded : list (option (list TxEnv))) (k : Z) : option (list TxEnv) :=
  default None (znth decoded k).

Lemma decode_tx_loop chain_id callers raws callers' envs :
  for_each (decode_tx chain_id) (callers, []) raws = Ok (callers', envs) ->
  decodes chain_id raws envs /\ callers' = callers ∪ callers_of envs.
Proof.
  intros H. refine (for_each_inv (fun done s =>
    decodes chain_id done s.2 /\ s.1 = callers ∪ callers_of s.2) _ _ _ _ _ _ H).
  - split; [constructor|]. cbn. set_solver.
  - intros done raw [c1 e1] [c2 e2] [I1 I2] _ Hb. cbn [fst snd] in *.
    apply rbind_Ok in Hb as (tx & Htx & Hb). apply map_err_Ok in Htx.
    injection Hb as <- <-. split.
    + apply Forall2_app; [exact I1|]. constructor; [exact Htx|constructor].
    + rewrite I2. unfold callers_of. rewrite map_app, list_to_set_app_L. cbn. set_solver.
Qed.

Definition block_decoded (block : BatchBlockV5) (o : option (list TxEnv)) : Prop :=
  exists envs, o = Some envs /\ decodes (env_chain_id (bb5_env block)) (bb5_raw_txs block) envs.
Definition all_callers (decoded : list (option (list TxEnv))) : gset Z :=
  callers_of (concat (map (default []) decoded)).

Lemma decode_block_loop callers blocks callers' decoded :
  for_each decode_block (callers, []) blocks = Ok (callers', decoded) ->
  Forall2 block_decoded blocks decoded /\ callers' = callers ∪ all_callers decoded.
Proof.
  intros H. refine (for_each_inv (fun done s =>
    Forall2 block_decoded done s.2 /\ s.1 = callers ∪ all_callers s.2) _ _ _ _ _ _ H).
  - split; [constructor|]. cbn. set_solver.
  - intros done b [c1 d1] [c2 d2] [I1 I2] _ Hb. cbn [fst snd] in *.
    apply rbind_Ok in Hb as ([c e] & Hl & Hb). apply decode_tx_loop in Hl as [Hd ->].
    injection Hb as <- <-. split.
    + apply Forall2_app; [exact I1|]. constructor; [|constructor]. exists e. auto.
    + rewrite I2. unfold all_callers, callers_of.
      rewrite map_app, concat_app, map_app, list_to_set_app_L. cbn. rewrite app_nil_r. set_solver.
Qed.

Lemma decode_callers_spec input approvers callers decoded :
  decode_callers input approvers = Ok (callers, decoded) ->
  callers = approvers ∪ all_callers decoded /\
  (bj5_authorization_mode (bi5_journal input) = 1 ->
   callers <> ∅ /\ Forall2 block_decoded (bi5_blocks input) decoded) /\
  (bj5_authorization_mode (bi5_journal input) <> 1 -> decoded = []).
Proof.
  unfold decode_callers. intros H.
  destruct (Z.eqb_spec (bj5_authorization_mode (bi5_journal input)) 1) as [Hm|Hm].
  - apply rbind_Ok in H as ([c d] & Hl & H). apply decode_block_loop in Hl as [Hd Hc].
    apply fail_if_Ok in H as [Hne H]. apply bool_decide_eq_false in Hne.
    injection H as <- <-. split_and!; auto. contradiction.
  - injection H as <- <-. split_and!; [|contradiction|reflexivity].
    unfold all_callers. cbn. set_solver.
Qed.

(** What was decoded ahead for a block is the decoding of its bytes. *)
Lemma decoded_for_spec input approvers callers decoded k block :
  decode_callers input approvers = Ok (callers, decoded) ->
  bi5_blocks input !! k = Some block ->
  forall envs, decoded_for decoded (Z.of_nat k) = Some envs ->
  decodes (env_chain_id (bb5_env block)) (bb5_raw_txs block) envs.
Proof.
  intros H Hk envs He. apply decode_callers_spec in H as (_ & H1 & H2).
  unfold decoded_for, znth in He. destruct (Z.ltb_spec (Z.of_nat k) 0); [lia|].
  rewrite Nat2Z.id in He.
  destruct (decide (bj5_authorization_mode (bi5_journal input) = 1)) as [Hm|Hm].
  - destruct (H1 Hm) as [_ Hd]. destruct (decoded !! k) as [o|] eqn:E; [|discriminate].
    cbn in He. destruct (Forall2_lookup_lr _ _ _ _ _ _ Hd Hk E) as (envs' & -> & Hx).
    injection He as <-. exact Hx.
  - rewrite (H2 Hm) in He. discriminate.
Qed.

(** ** One block of the batch *)
Abbreviation block_item := (Z * BatchBlockV5 * list executed_tx)%type.
Definition item_block (x : block_item) : BatchBlockV5 := x.1.2.

Record batch_block (input : BatchInputV5) policy db (x : block_item) db' : Prop := {
  bb_fits : bj5_start_l2_block (bi5_journal input) + x.1.1 <= U64_MAX;
  bb_number : bb5_block_number (item_block x) = bj5_start_l2_block (bi5_journal input) + x.1.1;
  bb_env_number : env_number (bb5_env (item_block x)) = bb5_block_number (item_block x);
  bb_chain : env_chain_id (bb5_env (item_block x))
             = room_chain_id_v5 (bj5_deployment_domain (bi5_journal input))
                 (bj5_room_id (bi5_journal input));
  bb_limits : env_gas_limit (bb5_env (item_block x)) = ep5_max_gas_per_block (bi5_policy input) /\
              zlen (bb5_raw_txs (item_block x))
                <= ep5_max_transactions_per_block (bi5_policy input);
  bb_env_fixed : env_coinbase (bb5_env (item_block x)) = Address_ZERO /\
    env_base_fee (bb5_env (item_block x)) = 0 /\
    env_prev_randao (bb5_env (item_block x)) = B256_ZERO /\
    env_difficulty (bb5_env (item_block x)) = 0 /\
    env_excess_blob_gas (bb5_env (item_block x)) = 0;
  bb_raws : map xt_raw x.2 = bb5_raw_txs (item_block x);
  bb_envs : decodes (env_chain_id (bb5_env (item_block x))) (bb5_raw_txs (item_block x))
              (map xt_env x.2);
  bb_runs : exists opened,
    install_block_hashes (env_number (bb5_env (item_block x)))
      (map (fun entry => (hbh_number entry, hbh_hash entry)) (bb5_block_hashes (item_block x))) db
    = Ok opened /\
    runs (tx_accepted (mk_EvmConfig (env_chain_id (bb5_env (item_block x)))
                         (block_env_of (bb5_env (item_block x))) true) policy)
      (set_metrics DbAccessMetrics_default opened) x.2 db';
  bb_gas : x.2 <> [] -> zsum (map (fun t => er_gas_used (xt_run t)) x.2)
                          <= ep5_max_gas_per_block (bi5_policy input);
  bb_root : room_state_root_v5 db' (ep5_state_commitment (bi5_policy input))
            = Ok (bb5_expected_post_state_root (item_block x))
}.

Definition item_outcome (x : block_item) : Z * list TransactionOutcome :=
  (bb5_block_number (item_block x), map outcome_of x.2).

Record batch_loop_at (input : BatchInputV5) policy start root (done : list (Z * BatchBlockV5))
    (s : BatchLoop) (items : list block_item) : Prop := {
  bl_items : map fst items = done;
  bl_runs : runs (batch_block input policy) start items (ba_state s);
  bl_root : ba_current_root s
    = default root (last (map (fun x => bb5_expected_post_state_root x.2) done));
  bl_executed : ba_executed s = map item_outcome items;
  bl_previous : ba_previous_timestamp s = last (map (fun x => env_timestamp (bb5_env x.2)) done);
  bl_clock : nondecreasing (map (fun x => env_timestamp (bb5_env x.2)) done)
}.

Lemma batch_block_step input policy decoded start root done s items x s' :
  (forall envs, decoded_for decoded x.1 = Some envs ->
     decodes (env_chain_id (bb5_env x.2)) (bb5_raw_txs x.2) envs) ->
  batch_loop_at input policy start root done s items ->
  execute_batch_block input policy decoded s x = Ok s' ->
  exists xs, batch_loop_at input policy start root (done ++ [x]) s' (items ++ [(x, xs)]).
Proof.
  intros Hdec [L1 L2 L3 L4 L5 L6] H. destruct x as [k b]. unfold execute_batch_block in H.
  apply rbind_Ok in H as (n & Hn & H). apply ok_or_Ok, checked_add_Some in Hn as [Hfit ->].
  apply fail_if_Ok in H as [Gt H]. apply fail_if_Ok in H as [Ge H].
  unfold block_environment_differs in Ge.
  rewrite !orb_false_iff, !negb_eqb_false, Z.ltb_ge in Ge.
  destruct Ge as (((((((((E1 & E2) & E3) & E4) & E5) & E6) & E7) & E8) & E9) & E10).
  apply rbind_Ok in H as (o & Ho & H). apply fail_if_Ok in H as [Gr H].
  apply negb_eqb_false in Gr. apply Ok_Ok in H as <-.
  apply execute_block_spec in Ho as (opened & xs & Hop & _ & [B1 B2 B3 B4 B5 B6 _] & Hd).
  exists xs. cbn [fst snd] in Hdec. unfold install_input_block_hashes in Hop. apply map_err_Ok in Hop.
  cbn [single_input si_raw_txs si_env si_block_hashes default id] in *.
  split; cbn [ba_state ba_current_root ba_executed ba_previous_timestamp];
    rewrite ?map_app; cbn [map fst snd].
  - rewrite L1. reflexivity.
  - eapply runs_snoc; [exact L2|].
    split; unfold item_block; cbn [fst snd]; auto; try congruence; try lia.
    + fold (decoded_for decoded k) in Hd. destruct (decoded_for decoded k) as [envs|] eqn:Ed.
      * rewrite Hd. apply Hdec. reflexivity.
      * exact Hd.
    + exists opened. auto.
    + intros Hne. rewrite <- B3, <- E4. apply B4, Hne.
  - rewrite last_snoc. cbn. exact Gr.
  - rewrite L4, B5. reflexivity.
  - rewrite last_snoc. reflexivity.
  - apply nondecreasing_snoc; [exact L6|]. intros p Hp. rewrite L5, Hp in Gt.
    apply Z.ltb_ge in Gt. exact Gt.
Qed.

Lemma batch_loop_all input approvers callers policy decoded start root s :
  decode_callers input approvers = Ok (callers, decoded) ->
  for_each (execute_batch_block input policy decoded)
    (mk_BatchLoop start root EvmProofWork_default [] None) (enumerate (bi5_blocks input)) = Ok s ->
  exists items,
    batch_loop_at input policy start root (enumerate (bi5_blocks input)) s items.
Proof.
  intros Hd H. refine (for_each_inv (fun done s => exists items,
    batch_loop_at input policy start root done s items) _ _ _ _ _ _ H).
  - exists []. split; try reflexivity; [constructor|]. intros k x y Hx. discriminate.
  - intros done x s1 s2 [items I] Hx Hb.
    apply enumerate_elem_inv in Hx as (k & Hk & Hx).
    eapply batch_block_step in Hb as [xs Hxs]; eauto.
    rewrite Hk. intros envs. eapply decoded_for_spec; eauto.
Qed.

(** ** The identity checks and the authenticated opening *)
Record identity_ok (input : BatchInputV5) : Prop := {
  id_version : bj5_protocol_version (bi5_journal input) = 6;
  id_mode : bj5_authorization_mode (bi5_journal input) <= 1;
  id_nonzero : bj5_deployment_domain (bi5_journal input) <> 0 /\
    bj5_room_id (bi5_journal input) <> 0 /\ bj5_cold_template_id (bi5_journal input) <> 0 /\
    bj5_proof_program_id (bi5_journal input) <> 0 /\
    bj5_proof_system_version (bi5_journal input) <> 0 /\
    bj5_policy_hash (bi5_journal input) <> 0 /\ bj5_batch_index (bi5_journal input) <> 0 /\
    bj5_l1_inclusion_deadline (bi5_journal input) <> 0;
  id_template : bj5_batch_index (bi5_journal input) = 1 ->
    cold_template_id_v5 (bj5_pre_state_root (bi5_journal input))
      (bj5_policy_hash (bi5_journal input)) (bj5_proof_system_version (bi5_journal input))
    = bj5_cold_template_id (bi5_journal input);
  id_blocks : bi5_blocks input <> [] /\
    zlen (bi5_blocks input) <= ep5_max_blocks_per_batch (bi5_policy input) /\
    (bj5_close (bi5_journal input) = false -> 1 < zlen (bi5_blocks input));
  id_witness : bi5_encoded_witness_bytes input <= MAX_BATCH_WITNESS_BYTES_V4;
  id_range : bj5_end_l2_block (bi5_journal input)
             = bj5_start_l2_block (bi5_journal input) + (zlen (bi5_blocks input) - 1) /\
             bj5_end_l2_block (bi5_journal input) <= U64_MAX
}.

Lemma validate_identity_spec input : validate_identity input = Ok tt <-> identity_ok input.
Proof.
  unfold validate_identity, identity_invalid, B256_ZERO, BATCH_JOURNAL_VERSION_V6.
  pose proof (zlen_nonneg (bi5_blocks input)) as Hn.
  pose proof (zlen_zero (bi5_blocks input)) as Hz.
  rewrite !fail_if_Ok, !orb_false_iff, !negb_eqb_false, !Z.eqb_neq, !Z.ltb_ge, rbind_Ok. split.
  - intros (G1 & G2 & G3 & e & He & G4). apply ok_or_Ok, checked_add_Some in He as [He ->].
    apply fail_if_Ok in G4 as [G4 _]. apply negb_eqb_false in G4.
    split; try tauto; try lia.
    destruct G3 as [[[G3 G5] G6] _]. split_and!; [tauto|exact G5|]. intros Hc.
    rewrite Hc, andb_true_r in G6. apply Z.eqb_neq in G6. lia.
  - intros [I1 I2 I3 I4 (I5 & I6 & I7) I8 [I9 I10]].
    assert (bi5_blocks input <> [] -> zlen (bi5_blocks input) <> 0) by tauto.
    split; [tauto|]. split.
    { destruct (Z.eqb_spec (bj5_batch_index (bi5_journal input)) 1) as [Hi|]; [|reflexivity].
      cbn. apply negb_eqb_false. auto. }
    split.
    { split_and!; auto. destruct (bj5_close (bi5_journal input)); [apply andb_false_r|].
      rewrite andb_true_r. apply Z.eqb_neq. specialize (I7 eq_refl). lia. }
    eexists. rewrite ok_or_Ok, checked_add_Some, fail_if_Ok, negb_eqb_false.
    split; [split; [|reflexivity]; lia|]. split; [exact I9|reflexivity].
Qed.

Lemma open_state_spec input opened :
  open_state input = Ok opened ->
  faithful_state (bi5_compact_state input) opened /\
  room_state_root_v5 opened (ep5_state_commitment (bi5_policy input))
  = Ok (bj5_pre_state_root (bi5_journal input)) /\
  participant_state_v5 input opened
  = Ok (participants_of bj5_pre_participant_root bj5_pre_participant_epoch
          bj5_pre_participant_count bj5_participant_capacity (bi5_journal input)).
Proof.
  unfold open_state. intros H. apply fail_if_Ok in H as [_ H].
  apply rbind_Ok in H as (s & Hs & H). apply map_err_Ok, faithful_spec in Hs.
  apply rbind_Ok in H as (root & Hr & H). apply fail_if_Ok in H as [Gr H].
  apply negb_eqb_false in Gr as ->. apply rbind_Ok in H as (p & Hp & H).
  apply map_err_Ok in Hp. apply fail_if_Ok in H as [Gp H].
  apply negb_bool_decide_false in Gp as ->. apply Ok_Ok in H as <-. auto.
Qed.

(** What happens to the opened state before the first block: the certified
    mirror writes of an import and the deposit credits, nothing else. *)
Definition system_effects (input : BatchInputV5) opened start : Prop :=
  exists imported,
    match bi5_l1_import input with
    | None => imported = opened
    | Some import => import_confined input import opened imported
    end /\
    (forall a, native_balance (sm_accounts start) a
       = native_balance (sm_accounts imported) a + native_credit input (bi5_deposits input) a) /\
    (forall t s, storage_value (sm_accounts start) t s
       = storage_value (sm_accounts imported) t s
         + slot_credit input (bi5_deposits input) (t, s)) /\
    keeps_identity imported start.

Lemma run_effects input (r : batch_run input) :
  system_effects input (br_opened _ r) (br_installed _ r).
Proof.
  destruct (br_install _ r) as [report Hi]. apply install_accounts in Hi.
  pose proof (br_import _ r) as Him. apply import_spec in Him.
  pose proof (br_credit _ r) as Hc. apply credits_spec in Hc as (_ & H1 & H2 & H3).
  exists (br_imported _ r). split; [destruct (bi5_l1_import input); tauto|].
  unfold keeps_identity in *. rewrite Hi. auto.
Qed.

(** ** The authenticated callers *)
Lemma decoded_items input policy start items terminal decoded :
  runs (batch_block input policy) start items terminal ->
  Forall2 block_decoded (map item_block items) decoded ->
  map (default []) decoded = map (fun x => map xt_env x.2) items.
Proof.
  intros Hr. revert decoded. induction Hr as [|s x s1 l s2 Hx Hr IH]; intros decoded Hd;
    inversion Hd as [|? o ? d (envs & -> & He) Hd']; subst; [reflexivity|].
  cbn. rewrite (IH _ Hd'). f_equal. eapply decodes_det; [exact He|]. apply (bb_envs _ _ _ _ _ Hx).
Qed.

Definition signers (items : list block_item) : gset Z :=
  callers_of (concat (map (fun x => map xt_env x.2) items)).

Lemma map_fst_enumerate_snd (items : list block_item) (blocks : list BatchBlockV5) :
  map fst items = enumerate blocks -> map item_block items = blocks.
Proof.
  intros H. rewrite <- (enumerate_snd blocks), <- H, map_map. reflexivity.
Qed.

(** ** What an accepted batch is: a transition of the room *)
Record room_transition (input : BatchInputV5) opened start policy
    (items : list block_item) terminal : Prop := {
  rt_identity : identity_ok input;
  rt_opening : faithful_state (bi5_compact_state input) opened /\
    room_state_root_v5 opened (ep5_state_commitment (bi5_policy input))
    = Ok (bj5_pre_state_root (bi5_journal input));
  rt_effects : system_effects input opened start;
  rt_policy : execution_policy_hash_v5 (bi5_policy input) = bj5_policy_hash (bi5_journal input) /\
    exists registry, certified_by (bi5_policy input) (sm_accounts start) policy registry;
  rt_callers : xp_active_members policy
    = if bj5_authorization_mode (bi5_journal input) =? 1 then signers items
      else list_to_set (map rm_member (bi5_pre_roster input));
  rt_blocks : map fst items = enumerate (bi5_blocks input);
  rt_runs : runs (batch_block input policy) start items terminal;
  rt_clock : nondecreasing (map (fun b => env_timestamp (bb5_env b)) (bi5_blocks input));
  rt_root : room_state_root_v5 terminal (ep5_state_commitment (bi5_policy input))
            = Ok (bj5_post_state_root (bi5_journal input));
  rt_data : bj5_batch_data_hash (bi5_journal input)
            = batch_block_data_hash_v5 (bi5_blocks input)
                (bj5_pre_state_root (bi5_journal input));
  rt_pins : map_Forall (fun address hash => exists account,
    sm_accounts terminal !! address = Some account /\ code_hash account = hash)
    (xp_code_hashes policy);
  rt_writes : forall address slot,
    write_ok policy (storages start) (sm_accounts terminal) address slot;
  rt_participants :
    participant_state_v5 input opened
      = Ok (participants_of bj5_pre_participant_root bj5_pre_participant_epoch
              bj5_pre_participant_count bj5_participant_capacity (bi5_journal input)) /\
    participant_state_v5 input terminal
      = Ok (participants_of bj5_post_participant_root bj5_post_participant_epoch
              bj5_post_participant_count bj5_participant_capacity (bi5_journal input))
}.

(** Items of an accepted run. *)
Lemma run_items input (r : batch_run input) :
  exists items, batch_loop_at input (br_policy _ r) (br_installed _ r) (br_root _ r)
                  (enumerate (bi5_blocks input)) (br_end _ r) items.
Proof. eapply batch_loop_all; [apply (br_decode _ r)|apply (br_blocks _ r)]. Qed.

Lemma run_callers input (r : batch_run input) items :
  batch_loop_at input (br_policy _ r) (br_installed _ r) (br_root _ r)
    (enumerate (bi5_blocks input)) (br_end _ r) items ->
  br_callers _ r = if bj5_authorization_mode (bi5_journal input) =? 1 then signers items
                   else list_to_set (map rm_member (bi5_pre_roster input)).
Proof.
  intros [L1 L2 _ _ _ _]. pose proof (br_decode _ r) as Hd.
  apply decode_callers_spec in Hd as (Hc & H1 & H2). rewrite Hc.
  pose proof (br_roster _ r) as Hr. unfold validate_roster_transition_v5 in Hr.
  destruct (Z.eqb_spec (bj5_authorization_mode (bi5_journal input)) 1) as [Hm|Hm].
  - apply fail_if_Ok in Hr as [_ Hr]. apply Ok_Ok in Hr as <-.
    destruct (H1 Hm) as [_ Hd]. rewrite <- (map_fst_enumerate_snd _ _ L1) in Hd.
    unfold all_callers, signers. rewrite (decoded_items _ _ _ _ _ _ L2 Hd). set_solver.
  - rewrite (H2 Hm). apply fail_if_Ok in Hr as [_ Hr].
    apply rbind_Ok in Hr as (expected & _ & Hr). apply rbind_Ok in Hr as (post & _ & Hr).
    apply fail_if_Ok in Hr as [_ Hr]. apply rbind_Ok in Hr as (n & _ & Hr).
    apply fail_if_Ok in Hr as [_ Hr]. apply rbind_Ok in Hr as (e & _ & Hr).
    apply fail_if_Ok in Hr as [_ Hr]. apply rbind_Ok in Hr as (m & _ & Hr).
    apply fail_if_Ok in Hr as [_ Hr]. apply Ok_Ok in Hr as <-.
    unfold all_callers. cbn. set_solver.
Qed.

(** The root after the last block is the terminal root. *)
Lemma run_root input (r : batch_run input) items :
  bi5_blocks input <> [] ->
  batch_loop_at input (br_policy _ r) (br_installed _ r) (br_root _ r)
    (enumerate (bi5_blocks input)) (br_end _ r) items ->
  room_state_root_v5 (ba_state (br_end _ r)) (ep5_state_commitment (bi5_policy input))
  = Ok (bj5_post_state_root (bi5_journal input)).
Proof.
  intros Hne [L1 L2 L3 _ _ _]. rewrite <- (br_post_root _ r), L3.
  destruct items as [|x items _] using rev_ind.
  { destruct (bi5_blocks input); [contradiction|discriminate]. }
  rewrite <- L1, map_app, map_app. cbn [map]. rewrite last_snoc. cbn.
  apply runs_snoc_inv in L2 as (m & _ & Hx). apply (bb_root _ _ _ _ _ Hx).
Qed.

Lemma run_transition input (r : batch_run input) items :
  batch_loop_at input (br_policy _ r) (br_installed _ r) (br_root _ r)
    (enumerate (bi5_blocks input)) (br_end _ r) items ->
  room_transition input (br_opened _ r) (br_installed _ r) (br_policy _ r) items
    (ba_state (br_end _ r)).
Proof.
  intros L. pose proof (br_identity _ r) as Hi. apply validate_identity_spec in Hi.
  pose proof (br_open _ r) as Ho. apply open_state_spec in Ho as (O1 & O2 & O3).
  pose proof (br_certify _ r) as Hp. apply from_v5_certified in Hp as (P1 & P2 & _ & reg & P3).
  destruct (br_install _ r) as [report Hin]. apply install_accounts in Hin.
  pose proof (br_post _ r) as Hpost.
  apply validate_post_state_spec in Hpost as (Q1 & Q2 & _); [|apply (cb_certified _ _ _ _ P3)].
  split; auto.
  - apply run_effects.
  - rewrite Hin. eauto.
  - rewrite P2. apply run_callers, L.
  - apply L.
  - apply L.
  - pose proof (bl_clock _ _ _ _ _ _ _ L) as Hc.
    rewrite <- (map_map snd (fun b => env_timestamp (bb5_env b))), enumerate_snd in Hc. exact Hc.
  - eapply run_root; [apply Hi|exact L].
  - symmetry. apply (br_data _ r).
  - split; [exact O3|apply (br_participants _ r)].
Qed.

(** ** Forced transactions *)

(** A transaction of the executed batch. *)
Definition in_batch (items : list block_item) (number : Z) (x : executed_tx) : Prop :=
  exists item, item ∈ items /\ bb5_block_number (item_block item) = number /\ x ∈ item.2.

Lemma executed_at_item items number index o :
  executed_at (map item_outcome items) number index o ->
  exists x, in_batch items number x /\ outcome_of x = o.
Proof.
  intros (txs & Hf & Ho). apply first_match_elem in Hf as [Hin Hn]. cbn in Hn.
  apply list_elem_of_fmap in Hin as (item & E & Hin). injection E as -> ->.
  unfold znth in Ho. destruct (index <? 0); [discriminate|].
  rewrite list_lookup_fmap in Ho. destruct (item.2 !! Z.to_nat index) as [x|] eqn:Ex;
    [|discriminate]. injection Ho as <-. exists x. split; [|reflexivity].
  exists item. split_and!; auto. eapply list_elem_of_lookup_2, Ex.
Qed.

Definition room_chain (input : BatchInputV5) : Z :=
  room_chain_id_v5 (bj5_deployment_domain (bi5_journal input)) (bj5_room_id (bi5_journal input)).

(** How the batch disposes of a forced transaction. *)
Inductive forced_disposed (input : BatchInputV5) policy (items : list block_item) terminal
    (f : ForcedTransactionV5) : Prop :=
| forced_executed x :
    in_batch items (aoc_l2_block_number (ftx_outcome f)) x ->
    keccak256 (xt_raw x) = keccak256 (ftx_raw_transaction f) ->
    aoc_status (ftx_outcome f) = bool_u64 (negb (er_success (xt_run x))) ->
    forced_disposed input policy items terminal f
| forced_rejected r :
    aoc_status (ftx_outcome f) = 2 ->
    rejected_for (ftx_raw_transaction f) (room_chain input) policy terminal r ->
    ~ executable (ftx_raw_transaction f) (room_chain input) policy terminal ->
    aoc_reason_hash (ftx_outcome f)
    = forced_rejection_reason_hash_v5 (keccak256 (ftx_raw_transaction f)) r ->
    forced_disposed input policy items terminal f.

Lemma run_forced input (r : batch_run input) items k f :
  batch_loop_at input (br_policy _ r) (br_installed _ r) (br_root _ r)
    (enumerate (bi5_blocks input)) (br_end _ r) items ->
  bi5_forced_transactions input !! k = Some f ->
  ftx_forced_id f = bj5_forced_cursor_before (bi5_journal input) + (Z.of_nat k + 1) /\
  forced_disposed input (br_policy _ r) items (ba_state (br_end _ r)) f.
Proof.
  intros L Hk. pose proof (br_admissions _ r) as Ha. apply validate_admissions_spec in Ha.
  destruct (ab_records _ _ _ _ Ha) as [_ _ Hnil _ _|_ _ _ _ Hf]; [rewrite Hnil in Hk; discriminate|].
  destruct (Hf k f Hk) as [F1 _ _ F4 F5 F6]. split; [exact F1|].
  rewrite (bl_executed _ _ _ _ _ _ _ L) in F6.
  destruct F6 as [_ _ Hx|Hs _ _ _].
  - apply executed_at_item in Hx as (x & Hx & Ho). injection Ho as H1 H2.
    eapply forced_executed; eauto.
  - destruct (F5 Hs) as (reason & Hr & Hh). eapply forced_rejected; eauto.
    intros He. destruct (rejection_reason_spec (ftx_raw_transaction f) (room_chain input)
      (br_policy _ r) (ba_state (br_end _ r))) as [S1 S2].
    apply S1 in Hr. apply S2 in He. congruence.
Qed.

(** The crossed ids are the indices of the carried list. *)
Lemma run_forced_range input (r : batch_run input) :
  zlen (bi5_forced_transactions input)
  = bj5_forced_cursor_after (bi5_journal input) - bj5_forced_cursor_before (bi5_journal input) /\
  bj5_forced_outcomes_hash (bi5_journal input)
  = forced_outcomes_hash_v5 (bi5_forced_transactions input).
Proof.
  pose proof (br_admissions _ r) as Ha. apply validate_admissions_spec in Ha.
  split; [|apply (ab_forced_hash _ _ _ _ Ha)].
  pose proof (ab_forced_cursor _ _ _ _ Ha) as C. unfold cursor_covers in C. lia.
Qed.
Lemma run_forced_id input (r : batch_run input) items id :
  batch_loop_at input (br_policy _ r) (br_installed _ r) (br_root _ r)
    (enumerate (bi5_blocks input)) (br_end _ r) items ->
  bj5_forced_cursor_before (bi5_journal input) < id
    <= bj5_forced_cursor_after (bi5_journal input) ->
  exists f,
    bi5_forced_transactions input
      !! Z.to_nat (id - bj5_forced_cursor_before (bi5_journal input) - 1) = Some f /\
    ftx_forced_id f = id /\
    forced_disposed input (br_policy _ r) items (ba_state (br_end _ r)) f.
Proof.
  intros L Hid. destruct (run_forced_range input r) as [C _]. unfold zlen in C.
  destruct (lookup_lt_is_Some_2 (bi5_forced_transactions input)
    (Z.to_nat (id - bj5_forced_cursor_before (bi5_journal input) - 1))) as [f Hf]; [lia|].
  exists f. split; [exact Hf|]. destruct (run_forced _ _ _ _ _ L Hf) as [E D].
  split; [lia|exact D].
Qed.

(** ** The mirror of the rejection derivation *)
Lemma from_v5_same (policy : ExecutionPolicyV5) hash callers s1 s2 c1 c2 p1 p2 :
  from_v5 policy hash callers s1 c1 = Ok p1 -> from_v5 policy hash callers s2 c2 = Ok p2 ->
  p2 = mk_ExecutionPolicyV4 (xp_certified p1) (xp_active_members p1) (xp_code_hashes p1)
         (xp_call_rules p1) (xp_storage_namespaces p1) (xp_active_member_argument_rules p1)
         (xp_membership_state_guards p1) c2 (xp_allow_contract_creation p1)
         (xp_allow_self_destruct p1) (xp_max_gas_per_block p1) (xp_max_memory_bytes p1)
         (xp_exit_program_id p1) (xp_preset_asset_ids p1).
Proof.
  assert (Hcode : forall h1 h2, from_v5_code policy (sm_accounts s1) = Ok h1 ->
            from_v5_code policy (sm_accounts s2) = Ok h2 -> h1 = h2).
  { unfold from_v5_code. intros h1 h2 H1 H2.
    apply rbind_Ok in H1 as ([a b] & H1 & G1). apply rbind_Ok in H2 as ([a' b'] & H2 & G2).
    apply fail_if_Ok in G1 as [_ G1]. apply fail_if_Ok in G1 as [_ G1]. apply Ok_Ok in G1 as <-.
    apply fail_if_Ok in G2 as [_ G2]. apply fail_if_Ok in G2 as [_ G2]. apply Ok_Ok in G2 as <-.
    eapply for_each_det in H2; [|clear|exact H1]; [injection H2; auto|].
    intros [p m] x t1 t2 E1 E2. unfold from_v5_code_one in *. inv_ok. reflexivity. }
  unfold from_v5. intros H1 H2.
  apply rbind_Ok in H1 as ([] & _ & H1). apply rbind_Ok in H2 as ([] & _ & H2).
  apply rbind_Ok in H1 as (h1 & C1 & H1). apply rbind_Ok in H2 as (h2 & C2 & H2).
  rewrite <- (Hcode h1 h2 C1 C2) in H2.
  apply rbind_Ok in H1 as (r1 & R1 & H1). apply rbind_Ok in H2 as (r2 & R2 & H2).
  rewrite R1 in R2. apply Ok_Ok in R2 as <-.
  apply rbind_Ok in H1 as (n1 & N1 & H1). apply rbind_Ok in H2 as (n2 & N2 & H2).
  unfold from_v5_storage in N1, N2.
  apply rbind_Ok in N1 as ([k1 m1] & N1 & G1). rewrite N1 in N2. cbn [rbind] in N2.
  apply fail_if_Ok in G1 as [_ G1]. apply fail_if_Ok in G1 as [_ G1]. apply Ok_Ok in G1 as <-.
  apply fail_if_Ok in N2 as [_ G2]. apply fail_if_Ok in G2 as [_ G2]. apply Ok_Ok in G2 as <-.
  apply rbind_Ok in H1 as (q1 & _ & H1). apply rbind_Ok in H2 as (q2 & _ & H2).
  apply rbind_Ok in H1 as ([] & _ & H1). apply rbind_Ok in H2 as ([] & _ & H2).
  apply fail_if_Ok in H1 as [_ H1]. apply fail_if_Ok in H2 as [_ H2].
  apply Ok_Ok in H1 as <-. apply Ok_Ok in H2 as <-. reflexivity.
Qed.
End BatchRun.

Section Claims.
Context {KK : Keccak} {RV : Revm} {AT : AlloyTrie} {OP : OsakaPrecompiles} {TC : TxCodec}
  {EV : Evm} {AR : AlloyRlp}.

(** The transition behind an accepted batch. *)
Lemma batch_transition input o :
  execute_batch_v5_with_report input = Ok o ->
  bov5_journal o = bi5_journal input /\
  exists opened start policy items terminal,
    room_transition input opened start policy items terminal.
Proof.
  intros H. apply batch_accepted in H as [r ->]. split; [reflexivity|].
  destruct (run_items input r) as [items L].
  exists (br_opened _ r), (br_installed _ r), (br_policy _ r), items, (ba_state (br_end _ r)).
  apply run_transition, L.
Qed.

(** C1: An accepted batch of a long-lived room is a transition of the room that its journal
    tells truthfully.  It opens at the authenticated state whose root the journal names; only
    certified mirror writes and the credits of the consumed deposits precede the first block;
    the certified policy is the one the policy hash names, for callers who are the roster or
    the signers of the batch; the blocks have consecutive numbers from the announced start,
    the certified environment and a clock that never runs backwards, and run exactly their
    transactions, every one inside the policy and the access envelope, each reaching the root
    it announces; the terminal state has the announced root, keeps every pinned code, differs
    from the opening only in writable slots and holds the announced participant registry. *)
Theorem batch_v5_sound input o :
  execute_batch_v5_with_report input = Ok o ->
  bov5_journal o = bi5_journal input /\
  exists opened start policy items terminal,
    room_transition input opened start policy items terminal.
Proof. apply batch_transition. Qed.

(** C2: The forced queue of L1 cannot be censored: for every id between the two forced cursors
    of an accepted batch's journal there is a forced transaction under that id, and it is
    either executed in a block of the batch with the recorded status, or rejected for a reason
    the batch itself establishes; in particular one that its sender can still execute on the
    terminal state was executed.  The cursors never run backwards, the batch carries a
    transaction for each crossed id and no other, and the journal's outcomes hash commits to
    exactly these transactions and outcomes. *)
Theorem forced_not_censored input o :
  execute_batch_v5_with_report input = Ok o ->
  exists opened start policy items terminal,
    room_transition input opened start policy items terminal /\
    (forall id, bj5_forced_cursor_before (bi5_journal input) < id
                  <= bj5_forced_cursor_after (bi5_journal input) ->
       exists f,
         bi5_forced_transactions input
           !! Z.to_nat (id - bj5_forced_cursor_before (bi5_journal input) - 1) = Some f /\
         ftx_forced_id f = id /\ forced_disposed input policy items terminal f) /\
    zlen (bi5_forced_transactions input)
    = bj5_forced_cursor_after (bi5_journal input) - bj5_forced_cursor_before (bi5_journal input) /\
    bj5_forced_outcomes_hash (bi5_journal input)
    = forced_outcomes_hash_v5 (bi5_forced_transactions input).
Proof.
  intros H. apply batch_accepted in H as [r ->]. destruct (run_items input r) as [items L].
  exists (br_opened _ r), (br_installed _ r), (br_policy _ r), items, (ba_state (br_end _ r)).
  split; [apply run_transition, L|]. split; [intros id; apply run_forced_id, L|].
  apply (run_forced_range input r).
Qed.

(** The public derivation that node composers use gives the guest's reason: rebuilding the
    policy against the terminal state instead of the opening state, and without the
    membership flag, changes nothing that the rejection depends on. *)
Theorem forced_mirror_agrees raw domain room policy hash callers opening changed p terminal r :
  from_v5 policy hash callers opening changed = Ok p ->
  derive_forced_rejection_reason_v5 raw domain room policy hash callers terminal = Ok r ->
  r = forced_rejection_reason_v5 raw (room_chain_id_v5 domain room) p terminal.
Proof.
  intros Hp H. unfold derive_forced_rejection_reason_v5 in H.
  apply rbind_Ok in H as (q & Hq & H). apply map_err_Ok in Hq. apply Ok_Ok in H as <-.
  rewrite (from_v5_same _ _ _ _ _ _ _ _ _ Hp Hq). reflexivity.
Qed.

Definition template_preimage (root policy version : Z) : bytes :=
  b256_bytes (keccak256 (b_ "zkdeal/cold-template-id/v5"))
  ++ b256_bytes root ++ b256_bytes policy ++ b256_bytes version.

(** C38: A room starts where its registered template says: when a template statement was
    issued and a first batch that names the template is accepted, the batch opens at the
    template's initial state root, under the same policy and proof-system version (unless
    Keccak collides on the two template identities or the two policies). *)
Theorem template_opens_first_batch tin genesis statement input o :
  execute_cold_template_v5 tin genesis = Ok statement ->
  execute_batch_v5_with_report input = Ok o ->
  ColdTemplateInputV5_wf tin -> BatchJournalV5_wf (bi5_journal input) ->
  policy_fits (cti_policy tin) -> policy_fits (bi5_policy input) ->
  bj5_batch_index (bi5_journal input) = 1 ->
  bj5_cold_template_id (bi5_journal input) = cti_template_id tin ->
  no_collision
    [template_preimage (cti_initial_state_root tin) (cti_policy_hash tin)
       (cti_proof_system_version tin);
     template_preimage (bj5_pre_state_root (bi5_journal input))
       (bj5_policy_hash (bi5_journal input)) (bj5_proof_system_version (bi5_journal input))] ->
  no_collision [execution_policy_bytes (cti_policy tin); execution_policy_bytes (bi5_policy input)] ->
  statement = cold_template_statement_v6 tin genesis /\
  bj5_pre_state_root (bi5_journal input) = cti_initial_state_root tin /\
  bj5_proof_system_version (bi5_journal input) = cti_proof_system_version tin /\
  bi5_policy input = cti_policy tin.
Proof.
  intros Ht Hb Wt Wb Ft Fb Hi Hid Hn Hnp. apply batch_accepted in Hb as [r ->].
  pose proof (br_identity _ r) as Hid'. apply validate_identity_spec in Hid' as [_ _ _ I4 _ _ _].
  specialize (I4 Hi). rewrite Hid in I4.
  pose proof (br_certify _ r) as Hp. apply from_v5_certified in Hp as (Hp & _).
  unfold execute_cold_template_v5 in Ht. apply fail_if_Ok in Ht as [G Ht].
  rewrite !orb_false_iff, negb_eqb_false in G. destruct G as [_ G].
  apply fail_if_Ok in Ht as [_ Ht]. apply rbind_Ok in Ht as (s & _ & Ht).
  apply rbind_Ok in Ht as (root & _ & Ht). apply fail_if_Ok in Ht as [_ Ht].
  apply rbind_Ok in Ht as (q & Hq & Ht). apply map_err_Ok, from_v5_certified in Hq as (Hq & _).
  apply Ok_Ok in Ht as <-. split; [reflexivity|].
  rewrite <- I4 in G. apply (keccak256_inj _ _ Hn) in G.
  unfold template_preimage, b256_bytes in G. apply app_inv_head in G.
  unfold ColdTemplateInputV5_wf in Wt. destruct Wt as (_ & T1 & T2 & _ & T3 & _).
  unfold BatchJournalV5_wf in Wb. destruct_wf Wb.
  apply (prefix_inj_be 32) in G as [G1 G]; [|assumption..].
  apply (prefix_inj_be 32) in G as [G2 G]; [|assumption..].
  apply be_bytes_inj in G; [|assumption..]. split_and!; auto.
  apply execution_policy_bytes_inj; auto. unfold execution_policy_hash_v5 in *.
  apply keccak256_inj; [nc_sub Hnp|congruence].
Qed.
End Claims.

(** ** Witness: two blocks of an operator room with one deposit and two forced transactions *)

Definition demo_chain_id : Z := Eval vm_compute in @room_chain_id_v5 toy_keccak 3 7.
Definition room_codec : TxCodec := slot_codec demo_chain_id.

#[local] Existing Instance toy_keccak.
#[local] Existing Instance toy_revm.
#[local] Existing Instance toy_trie.
#[local] Existing Instance toy_precompiles.
#[local] Existing Instance room_codec.
#[local] Existing Instance slot_evm.
#[local] Existing Instance toy_rlp.

Definition room_code : bytes := [0x60; 0x00].
Definition room_code_hash : Z := Eval vm_compute in keccak256 room_code.
Definition room_policy : ExecutionPolicyV5 :=
  mk_ExecutionPolicyV5 0 4 8 30000000 65536 false false
    [mk_CodeCommitmentV5 50 room_code_hash; mk_CodeCommitmentV5 60 room_code_hash]
    [mk_CallRuleV5 0 50 [[1; 2; 3; 4]] [0]]
    [mk_StorageNamespaceV5 50 0 0 true; mk_StorageNamespaceV5 60 0 0 true]
    [] (Some (mk_ParticipantRegistryBindingV5 50 0 1 2 3))
    (Some (mk_ExitBindingV5 60 0 10 [mk_ExitAssetBindingV5 0 0 0 0] 90)).
Definition room_policy_hash : Z := Eval vm_compute in execution_policy_hash_v5 room_policy.
Definition room_compact : CompactStateWitnessV4 :=
  mk_CompactStateWitnessV4 0
    [ mk_CompactAccountWitnessV4 50 true 1 0 room_code 11 []
        [mk_CompactStorageWitnessV4 0 77 []; mk_CompactStorageWitnessV4 1 1 [];
         mk_CompactStorageWitnessV4 2 2 []; mk_CompactStorageWitnessV4 3 128 [];
         mk_CompactStorageWitnessV4 9 0 []];
      mk_CompactAccountWitnessV4 60 true 1 0 room_code 11 []
        [mk_CompactStorageWitnessV4 0 0 []];
      mk_CompactAccountWitnessV4 101 true 0 30 [] 11 [] [] ].
Definition room_opening_root : Z := Eval vm_compute in state_root (witness_state room_compact).
Definition room_template : Z :=
  Eval vm_compute in cold_template_id_v5 room_opening_root room_policy_hash 22.
Definition room_deposits : list DepositV5 := [mk_DepositV5 5 101 101 0 20 12 false false].
Definition room_pre : list AssetLiabilityV5 := [mk_AssetLiabilityV5 0 25 30 0 0].
Definition room_post : list AssetLiabilityV5 := [mk_AssetLiabilityV5 0 5 50 0 0].
Definition room_tx (value nonce : Z) : bytes := [2; 101; 50; value; nonce; 1; 2; 3; 4].
Definition room_forced : list ForcedTransactionV5 :=
  [ mk_ForcedTransactionV5 9 (room_tx 6 1)
      (mk_AdmissionOutcomeV5 9 (keccak256 (room_tx 6 1)) 0 11 0 0);
    mk_ForcedTransactionV5 10 [9]
      (mk_AdmissionOutcomeV5 10 (keccak256 [9]) 2 0 0
         (forced_rejection_reason_hash_v5 (keccak256 [9]) 1)) ].
Definition room_blocks (r1 r2 : Z) : list BatchBlockV5 :=
  [ mk_BatchBlockV5 10 [room_tx 5 0] (mk_BlockEnvV1 10 100 30000000 0 0 0 0 0 demo_chain_id) [] r1;
    mk_BatchBlockV5 11 [room_tx 6 1] (mk_BlockEnvV1 11 100 30000000 0 0 0 0 0 demo_chain_id) [] r2 ].
Definition room_data_hash (r1 r2 : Z) : Z :=
  batch_block_data_hash_v5 (room_blocks r1 r2) room_opening_root.
Definition room_inbox_hash : Z := Eval vm_compute in inbox_records_hash_v5 room_deposits.
Definition room_admissions_hash : Z := Eval vm_compute in admission_records_hash_v5 [].
Definition room_forced_hash : Z := Eval vm_compute in forced_outcomes_hash_v5 room_forced.
Definition room_changes_hash : Z := Eval vm_compute in roster_changes_hash_v5 [].
Definition room_pre_hash : Z := Eval vm_compute in liabilities_hash_v5 room_pre.
Definition room_post_hash : Z := Eval vm_compute in liabilities_hash_v5 room_post.
Definition room_withdrawal_root : Z :=
  Eval vm_compute in default 0 (withdrawal_root_v5 3 7 1 [] 0).
Definition room_journal (r1 r2 : Z) : BatchJournalV5 :=
  mk_BatchJournalV5 6 3 7 1 room_template 21 22 room_policy_hash 1 10 11 room_opening_root
    r2 (room_data_hash r1 r2) (room_data_hash r1 r2) 77 77 1 1 2 2 128 0 0 1 1 0 0 0 0 4
    5 room_inbox_hash 0 0 room_admissions_hash 8 10 room_forced_hash 0 0 0 0 0 0 1
    room_withdrawal_root room_pre_hash room_post_hash room_changes_hash 30 false.
Definition room_input (r1 r2 : Z) : BatchInputV5 :=
  mk_BatchInputV5 100 1 (room_journal r1 r2) room_policy 0 [] [] [] [] room_forced
    (canonical_batch_data_v5 (room_blocks r1 r2) room_opening_root) room_pre room_post
    room_deposits [] 0 None room_compact (room_blocks r1 r2).
Definition room_batch : BatchInputV5 := room_input 7533591306399803909 7533591306399803911.
Definition room_result : result StfError BatchOutcomeV5 := execute_batch_v5_with_report room_batch.
Definition room_outcome : BatchOutcomeV5 :=
  match room_result with
  | Ok o => o
  | Err _ => mk_BatchOutcomeV5 BatchJournalV5_default (mk_BatchProofWork 0 0 EvmProofWork_default)
  end.
Lemma room_accepted : execute_batch_v5_with_report room_batch = Ok room_outcome.
Proof. vm_compute. reflexivity. Qed.

Lemma batch_v5_sound_witness :
  exists opened start policy items terminal,
    room_transition room_batch opened start policy items terminal.
Proof. exact (proj2 (batch_v5_sound room_batch room_outcome room_accepted)). Defined.

Lemma forced_not_censored_witness :
  exists policy items terminal f1 f2,
    ftx_forced_id f1 = 9 /\ aoc_status (ftx_outcome f1) = 0 /\
    forced_disposed room_batch policy items terminal f1 /\
    ftx_forced_id f2 = 10 /\ aoc_status (ftx_outcome f2) = 2 /\
    forced_disposed room_batch policy items terminal f2.
Proof.
  destruct (forced_not_censored room_batch room_outcome room_accepted)
    as (opened & start & policy & items & terminal & _ & H & _).
  exists policy, items, terminal.
  destruct (H 9) as (f1 & L1 & I1 & D1); [vm_compute; split; [reflexivity|discriminate]|].
  destruct (H 10) as (f2 & L2 & I2 & D2); [vm_compute; split; [reflexivity|discriminate]|].
  exists f1, f2. split_and!; [exact I1| |exact D1|exact I2| |exact D2].
  - vm_compute in L1. injection L1 as <-. reflexivity.
  - vm_compute in L2. injection L2 as <-. reflexivity.
Defined.

Definition room_opened : StateMap := witness_state room_compact.
Definition room_policy_of (state : StateMap) (changed : bool) : ExecutionPolicyV4 :=
  match from_v5 room_policy room_policy_hash {[101]} state changed with
  | Ok p => p | Err _ => legacy_unrestricted end.

Lemma forced_mirror_agrees_witness :
  Some 3 = forced_rejection_reason_v5 (room_tx 6 1) (room_chain_id_v5 3 7)
             (room_policy_of room_opened true) room_opened.
Proof.
  apply (forced_mirror_agrees (room_tx 6 1) 3 7 room_policy room_policy_hash {[101]}
           room_opened true (room_policy_of room_opened true) room_opened (Some 3)).
  - vm_compute. reflexivity.
  - vm_compute. reflexivity.
Defined.

Definition room_template_input : ColdTemplateInputV5 :=
  mk_ColdTemplateInputV5 room_template room_opening_root room_policy_hash 21 22 room_policy
    room_compact.

Lemma room_policy_fits : policy_fits room_policy.
Proof.
  unfold policy_fits, ExecutionPolicyV5_wf, call_rule_fits, option_wf, room_policy, room_code_hash,
    CodeCommitmentV5_wf, CallRuleV5_wf, StorageNamespaceV5_wf,
    ParticipantRegistryBindingV5_wf, ExitBindingV5_wf, ExitAssetBindingV5_wf,
    exit_fits, ExitBindingV5_wf, ExitAssetBindingV5_wf, fits_list, array_wf,
    bytes_wf, zlen. cbn. solve_wf.
Qed.

Lemma room_compact_wf : CompactStateWitnessV4_wf room_compact.
Proof.
  unfold CompactStateWitnessV4_wf, room_compact, CompactAccountWitnessV4_wf,
    CompactStorageWitnessV4_wf, room_code, bytes_wf. cbn -[Z.pow]. solve_wf;
  cbn -[Z.pow]; solve_wf.
Qed.

Lemma room_journal_wf : BatchJournalV5_wf (bi5_journal room_batch).
Proof.
  unfold BatchJournalV5_wf, in_u64, in_u8, in_u256.
  refine (bool_decide_unpack _ _). vm_compute. exact I.
Qed.

Lemma template_opens_first_batch_witness :
  bj5_pre_state_root (bi5_journal room_batch) = room_opening_root /\
  bi5_policy room_batch = room_policy.
Proof.
  destruct (template_opens_first_batch room_template_input 5
    (cold_template_statement_v6 room_template_input 5) room_batch room_outcome)
    as (_ & H1 & _ & H2).
  - vm_compute. reflexivity.
  - exact room_accepted.
  - unfold ColdTemplateInputV5_wf, room_template_input, room_template, room_opening_root,
      room_policy_hash. cbn -[Z.pow room_policy room_compact].
    pose proof (proj1 room_policy_fits). pose proof room_compact_wf. split_and!; auto; solve_wf.
  - exact room_journal_wf.
  - exact room_policy_fits.
  - exact room_policy_fits.
  - reflexivity.
  - reflexivity.
  - apply no_collisionb_spec. vm_compute. reflexivity.
  - apply no_collisionb_spec. vm_compute. reflexivity.
  - split; [exact H1|exact H2].
Defined.
