(* ===== verification/Guest.v ===== *)
(** * The guest program: risc0/methods/guest/src/main.rs

    The one program whose image id is the room's program digest: it selects one of four
    statements by the eight-byte prefix of its input frame, executes it and commits 32 bytes.
    A run is the list of host calls it makes; a panic leaves no receipt and is an error.  The
    bincode decoder is a parameter. *)

From S2P Require Import Prelude BlobEval Types Abi HashV5 HashV4 Hosting State StateEvm Policy Settlement RosterV5 ExitV5 LiabilitiesV5 Compact ImportV5 Block BatchData AdmissionV5 BatchV5.
Open Scope Z_scope.

(** bincode: [strict_bincode().deserialize(..)] at the four input types. *)
Class StrictBincode := {
  deserialize_batch : bytes -> option BatchInputV5;
  deserialize_template : bytes -> option ColdTemplateInputV5;
  deserialize_equivalence : bytes -> option BlobEquivalenceInputV1;
  deserialize_aggregate : bytes -> option AggregateInputV1
}.

Definition ROOM_BATCH_MAGIC_V6 : bytes := b_ "ZKDV6BAT".
Definition COLD_TEMPLATE_MAGIC_V5 : bytes := b_ "ZKDV5CLD".
Definition BLOB_EQUIVALENCE_MAGIC_V1 : bytes := b_ "ZKDBEQV1".
Definition RECURSIVE_AGGREGATE_MAGIC_V1 : bytes := b_ "ZKDAGGV1".

(** [env::verify(image, claim)] adds an assumption to the receipt; [env::commit_slice] appends
    to its journal. *)
Inductive host_call :=
| Verify (image claim : Z)
| Commit (journal : bytes).

Definition with_witness_bytes (n : Z) (input : BatchInputV5) : BatchInputV5 :=
  mk_BatchInputV5 n (bi5_l1_chain_id input) (bi5_journal input) (bi5_policy input)
    (bi5_roster_capacity input) (bi5_pre_roster input) (bi5_post_roster input)
    (bi5_roster_changes input) (bi5_admissions input) (bi5_forced_transactions input)
    (bi5_canonical_batch_data input) (bi5_pre_liabilities input) (bi5_post_liabilities input)
    (bi5_deposits input) (bi5_withdrawals input) (bi5_withdrawal_capacity input)
    (bi5_l1_import input) (bi5_compact_state input) (bi5_blocks input).

Section Guest.
Context {KK : Keccak} {RV : Revm} {AT : AlloyTrie} {OP : OsakaPrecompiles} {TC : TxCodec}
  {EV : Evm} {AR : AlloyRlp} {SH : Sha256} {BS : BlsScalar} {SB : StrictBincode}.

(** The assumptions of one member, in order. *)
Definition member_assumptions (member : AggregateMemberStatementV1) : list host_call :=
  Verify (ams_room_program_id member) (ams_journal_hash member)
  :: (if negb (ams_equivalence_program_id member =? B256_ZERO)
      then [Verify (ams_equivalence_program_id member) (ams_equivalence_statement member)]
      else []).

Definition run_batch (input_bytes encoded : bytes) : result string (list host_call) :=
  let? input := ok_or (deserialize_batch encoded) "v6 room batch witness is malformed"%string in
  let? n := ok_or (u32_try_from (zlen input_bytes)) "v6 room witness length exceeds u32"%string in
  let input := with_witness_bytes n input in
  let? journal := expect "v6 room batch STF execution failed" (execute_batch_v5 input) in
  Ok [Commit (b256_bytes (hash_batch_journal_v5 journal))].

Definition run_template (input_bytes encoded : bytes) : result string (list host_call) :=
  let genesis_data_hash := keccak256 input_bytes in
  let? input := ok_or (deserialize_template encoded) "v5 cold-template witness is malformed"%string in
  let? statement := expect "v5 cold-template validation failed"
                      (execute_cold_template_v5 input genesis_data_hash) in
  Ok [Commit (b256_bytes statement)].

Definition run_equivalence (encoded : bytes) : result string (list host_call) :=
  let? input := ok_or (deserialize_equivalence encoded)
                  "blob-equivalence witness is malformed"%string in
  let? statement := expect "blob-equivalence identity validation failed"
                      (validate_blob_equivalence_v1 input) in
  Ok [Commit (b256_bytes statement)].

Definition run_aggregate (encoded : bytes) : result string (list host_call) :=
  let? input := ok_or (deserialize_aggregate encoded)
                  "recursive aggregate witness is malformed"%string in
  let? statement := expect "recursive aggregate statement is invalid"
                      (validate_aggregate_v1 input) in
  Ok (concat (map member_assumptions (agi_members input)) ++ [Commit (b256_bytes statement)]).

Definition guest_main (input_bytes : bytes) : result string (list host_call) :=
  match strip_prefix ROOM_BATCH_MAGIC_V6 input_bytes with
  | Some encoded => run_batch input_bytes encoded
  | None =>
  match strip_prefix COLD_TEMPLATE_MAGIC_V5 input_bytes with
  | Some encoded => run_template input_bytes encoded
  | None =>
  match strip_prefix BLOB_EQUIVALENCE_MAGIC_V1 input_bytes with
  | Some encoded => run_equivalence encoded
  | None =>
  match strip_prefix RECURSIVE_AGGREGATE_MAGIC_V1 input_bytes with
  | Some encoded => run_aggregate encoded
  | None => Err "unsupported witness magic"%string
  end end end end.
End Guest.

(** * Properties *)

Section GuestProps.
Context {KK : Keccak} {RV : Revm} {AT : AlloyTrie} {OP : OsakaPrecompiles} {TC : TxCodec}
  {EV : Evm} {AR : AlloyRlp} {SH : Sha256} {BS : BlsScalar} {SB : StrictBincode}.

Lemma expect_Ok {E A} message (m : result E A) a : expect message m = Ok a <-> m = Ok a.
Proof. apply map_err_Ok. Qed.

(** ** What the 32 committed bytes are a hash of *)
Definition template_statement_preimage (input : ColdTemplateInputV5) (genesis : Z) : bytes :=
  let label := b_ "zkdeal/cold-template/v6" in
  resize (32 * 9)
    (abi_u64_word_v5 (32 * 7) ++ b256_bytes (cti_template_id input)
     ++ b256_bytes (cti_initial_state_root input)
     ++ b256_bytes (cti_policy_hash input)
     ++ b256_bytes (cti_proof_program_id input)
     ++ b256_bytes (cti_proof_system_version input)
     ++ b256_bytes genesis
     ++ abi_u64_word_v5 (zlen label) ++ label).
Definition da_statement_preimage (input : BlobEquivalenceInputV1) : bytes :=
  concat [ b256_bytes (keccak256 DATA_AVAILABILITY_STATEMENT_LABEL);
           b256_bytes (bei_deployment_domain input);
           abi_u64_word_v5 (bei_room_id input);
           b256_bytes (bei_journal_hash input);
           b256_bytes (keccak256 (bei_canonical_data input));
           abi_u64_word_v5 (zlen (bei_canonical_data input));
           abi_u64_word_v5 (bei_blob_start_index input);
           b256_bytes (abi_b256_array_hash (bei_blob_versioned_hashes input));
           b256_bytes (abi_bytes_array_hash (bei_commitments input));
           b256_bytes (abi_b256_array_hash (bei_evaluation_points input));
           b256_bytes (abi_b256_array_hash (bei_evaluations input)) ].
Definition aggregate_statement_preimage (input : AggregateInputV1) : bytes :=
  concat [ b256_bytes (keccak256 AGGREGATE_STATEMENT_LABEL);
           b256_bytes (agi_deployment_domain input);
           b256_bytes (abi_b256_array_hash (map aggregate_member_hash_v1 (agi_members input))) ].
Definition journal_preimage (journal : BatchJournalV5) : bytes :=
  concat (batch_journal_words_v5 journal).

(** One accepted input frame: its statement's preimage, and what its acceptance means. *)
Inductive accepted_frame (frame : bytes) : list host_call -> bytes -> Prop :=
| accepted_batch encoded raw opened start policy items terminal :
    frame = ROOM_BATCH_MAGIC_V6 ++ encoded -> zlen frame < 2 ^ 32 ->
    deserialize_batch encoded = Some raw ->
    room_transition (with_witness_bytes (zlen frame) raw) opened start policy items terminal ->
    accepted_frame frame [] (journal_preimage (bi5_journal raw))
| accepted_template encoded input :
    frame = COLD_TEMPLATE_MAGIC_V5 ++ encoded -> deserialize_template encoded = Some input ->
    execute_cold_template_v5 input (keccak256 frame)
      = Ok (cold_template_statement_v6 input (keccak256 frame)) ->
    accepted_frame frame [] (template_statement_preimage input (keccak256 frame))
| accepted_equivalence encoded input :
    frame = BLOB_EQUIVALENCE_MAGIC_V1 ++ encoded -> deserialize_equivalence encoded = Some input ->
    validate_blob_equivalence_v1 input = Ok (data_availability_statement_v1 input) ->
    accepted_frame frame [] (da_statement_preimage input)
| accepted_aggregate encoded input :
    frame = RECURSIVE_AGGREGATE_MAGIC_V1 ++ encoded -> deserialize_aggregate encoded = Some input ->
    1 <= zlen (agi_members input) <= MAX_AGGREGATE_ROOMS_V1 ->
    Forall member_ok (agi_members input) -> NoDup (map ams_room_id (agi_members input)) ->
    accepted_frame frame (concat (map member_assumptions (agi_members input)))
      (aggregate_statement_preimage input).

Lemma cold_template_ok input genesis s :
  execute_cold_template_v5 input genesis = Ok s -> s = cold_template_statement_v6 input genesis.
Proof.
  unfold execute_cold_template_v5. intros H. apply fail_if_Ok in H as [_ H].
  apply fail_if_Ok in H as [_ H]. apply rbind_Ok in H as (? & _ & H).
  apply rbind_Ok in H as (? & _ & H). apply fail_if_Ok in H as [_ H].
  apply rbind_Ok in H as (? & _ & H). injection H as <-. reflexivity.
Qed.
Lemma equivalence_ok input s :
  validate_blob_equivalence_v1 input = Ok s -> s = data_availability_statement_v1 input.
Proof.
  unfold validate_blob_equivalence_v1. cbv zeta. intros H. repeat apply fail_if_Ok in H as [_ H].
  apply rbind_Ok in H as ([] & _ & H). injection H as <-. reflexivity.
Qed.

Lemma guest_run frame calls :
  guest_main frame = Ok calls ->
  exists assumptions preimage, accepted_frame frame assumptions preimage
    /\ calls = assumptions ++ [Commit (b256_bytes (keccak256 preimage))].
Proof.
  unfold guest_main. intros H.
  destruct (strip_prefix ROOM_BATCH_MAGIC_V6 frame) as [encoded|] eqn:E.
  { apply strip_prefix_Some in E. unfold run_batch in H.
    apply rbind_Ok in H as (raw & Hd & H). apply ok_or_Ok in Hd.
    apply rbind_Ok in H as (n & Hn & H). apply ok_or_Ok in Hn.
    apply rbind_Ok in H as (journal & Hj & H). apply expect_Ok in Hj. apply Ok_Ok in H as <-.
    unfold u32_try_from in Hn. destruct (Z.ltb_spec (zlen frame) (2 ^ 32)) as [L|]; [|discriminate].
    injection Hn as <-. unfold execute_batch_v5 in Hj. apply rbind_Ok in Hj as (o & Ho & Hj).
    apply Ok_Ok in Hj as <-. apply batch_transition in Ho as (-> & opened & start & policy & items & terminal & R).
    exists [], (journal_preimage (bi5_journal raw)). split; [|reflexivity]. econstructor; eassumption. }
  clear E. destruct (strip_prefix COLD_TEMPLATE_MAGIC_V5 frame) as [encoded|] eqn:E.
  { apply strip_prefix_Some in E. unfold run_template in H. cbv zeta in H.
    apply rbind_Ok in H as (input & Hd & H). apply ok_or_Ok in Hd.
    apply rbind_Ok in H as (s & Hs & H). apply expect_Ok in Hs. apply Ok_Ok in H as <-.
    pose proof (cold_template_ok _ _ _ Hs) as ->.
    exists [], (template_statement_preimage input (keccak256 frame)). split; [|reflexivity].
    eapply accepted_template; eassumption. }
  clear E. destruct (strip_prefix BLOB_EQUIVALENCE_MAGIC_V1 frame) as [encoded|] eqn:E.
  { apply strip_prefix_Some in E. unfold run_equivalence in H.
    apply rbind_Ok in H as (input & Hd & H). apply ok_or_Ok in Hd.
    apply rbind_Ok in H as (s & Hs & H). apply expect_Ok in Hs. apply Ok_Ok in H as <-.
    pose proof (equivalence_ok _ _ Hs) as ->.
    exists [], (da_statement_preimage input). split; [|reflexivity].
    eapply accepted_equivalence; eassumption. }
  clear E. destruct (strip_prefix RECURSIVE_AGGREGATE_MAGIC_V1 frame) as [encoded|] eqn:E; [|discriminate].
  apply strip_prefix_Some in E. unfold run_aggregate in H.
  apply rbind_Ok in H as (input & Hd & H). apply ok_or_Ok in Hd.
  apply rbind_Ok in H as (s & Hs & H). apply expect_Ok in Hs. apply Ok_Ok in H as <-.
  apply validate_aggregate_spec in Hs as (G1 & G2 & G3 & ->).
  exists (concat (map member_assumptions (agi_members input))), (aggregate_statement_preimage input).
  split; [|reflexivity]. eapply accepted_aggregate; eassumption.
Qed.

(** ** The four statements are separated by the length of what they hash *)
Lemma length_abi_word v : length (abi_u64_word_v5 v) = 32%nat.
Proof. unfold abi_u64_word_v5. rewrite length_app, repeat_length, length_be_bytes. reflexivity. Qed.
Lemma length_b256_bytes v : length (b256_bytes v) = 32%nat.
Proof. apply length_be_bytes. Qed.
Lemma length_b256_word v : length (b256_word v) = 32%nat.
Proof. apply length_be_bytes. Qed.
Lemma length_abi_bool_word v : length (abi_bool_word_v5 v) = 32%nat.
Proof. apply length_abi_word. Qed.

Ltac word_lengths :=
  cbn [concat]; rewrite ?length_app, ?length_abi_bool_word, ?length_abi_word, ?length_b256_word,
    ?length_b256_bytes; reflexivity.
Lemma length_journal_preimage j : length (journal_preimage j) = 1664%nat.
Proof. unfold journal_preimage, batch_journal_words_v5. word_lengths. Qed.
Lemma length_da_preimage input : length (da_statement_preimage input) = 352%nat.
Proof. unfold da_statement_preimage. word_lengths. Qed.
Lemma length_aggregate_preimage input : length (aggregate_statement_preimage input) = 96%nat.
Proof. unfold aggregate_statement_preimage. word_lengths. Qed.
Lemma length_template_preimage input genesis :
  length (template_statement_preimage input genesis) = 288%nat.
Proof.
  unfold template_statement_preimage, resize. rewrite length_app, length_take, repeat_length. lia.
Qed.

Lemma journal_preimage_inj j1 j2 :
  BatchJournalV5_wf j1 -> BatchJournalV5_wf j2 -> journal_preimage j1 = journal_preimage j2 -> j1 = j2.
Proof.
  intros W1 W2 H. unfold journal_preimage in H. rewrite !batch_journal_words_spec in H by assumption.
  apply words_inj' in H; auto using batch_journal_values_range.
  apply batch_journal_values_inj. exact H.
Qed.

(** The statement preimage of a frame, from the frame alone. *)
Definition committed_preimage (frame : bytes) : bytes :=
  match strip_prefix ROOM_BATCH_MAGIC_V6 frame with
  | Some encoded => from_option (fun i => journal_preimage (bi5_journal i)) [] (deserialize_batch encoded)
  | None =>
  match strip_prefix COLD_TEMPLATE_MAGIC_V5 frame with
  | Some encoded =>
      from_option (fun i => template_statement_preimage i (keccak256 frame)) []
        (deserialize_template encoded)
  | None =>
  match strip_prefix BLOB_EQUIVALENCE_MAGIC_V1 frame with
  | Some encoded => from_option da_statement_preimage [] (deserialize_equivalence encoded)
  | None =>
  match strip_prefix RECURSIVE_AGGREGATE_MAGIC_V1 frame with
  | Some encoded => from_option aggregate_statement_preimage [] (deserialize_aggregate encoded)
  | None => []
  end end end end.

Lemma accepted_preimage frame assumptions preimage :
  accepted_frame frame assumptions preimage -> preimage = committed_preimage frame.
Proof.
  unfold committed_preimage.
  destruct 1 as [encoded ? ? ? ? ? ? -> _ Hd|encoded ? -> Hd|encoded ? -> Hd|encoded ? -> Hd];
    repeat first [ rewrite strip_prefix_app, Hd; reflexivity
                 | rewrite strip_prefix_other; [|reflexivity|discriminate] ].
Qed.

Lemma assumptions_no_commit members journal :
  Commit journal ∉ concat (map member_assumptions members).
Proof.
  induction members as [|m l IH]; cbn [map concat]; intros H; [inversion H|].
  apply elem_of_app in H as [H|H]; [|contradiction]. unfold member_assumptions in H.
  destruct (negb _); repeat (apply elem_of_cons in H as [H|H]; [discriminate|]); inversion H.
Qed.

(** A run commits one statement, the hash of its preimage. *)
Lemma run_commits frame calls journal :
  guest_main frame = Ok calls -> Commit journal ∈ calls ->
  exists assumptions, accepted_frame frame assumptions (committed_preimage frame)
    /\ journal = b256_bytes (keccak256 (committed_preimage frame)).
Proof.
  intros H Hc. apply guest_run in H as (a & p & Ha & ->). pose proof (accepted_preimage _ _ _ Ha) as ->.
  exists a. split; [exact Ha|]. apply elem_of_app in Hc as [Hc|Hc].
  - exfalso. destruct Ha; try solve [inversion Hc]. eapply assumptions_no_commit, Hc.
  - apply list_elem_of_singleton in Hc. congruence.
Qed.

Lemma statement_bytes_inj {KR : KeccakRange} p q :
  b256_bytes (keccak256 p) = b256_bytes (keccak256 q) -> keccak256 p = keccak256 q.
Proof. intros H. apply be_bytes_inj in H; [exact H|apply keccak_range..]. Qed.

(** A receipt that carries a journal's hash is the receipt of a batch with that journal. *)
Definition settled (frame : bytes) (journal : BatchJournalV5) : Prop :=
  exists encoded raw opened start policy items terminal,
    frame = ROOM_BATCH_MAGIC_V6 ++ encoded /\ deserialize_batch encoded = Some raw
    /\ bi5_journal raw = journal
    /\ room_transition (with_witness_bytes (zlen frame) raw) opened start policy items terminal.

Definition batch_decoder_typed : Prop := forall encoded raw,
  deserialize_batch encoded = Some raw -> BatchJournalV5_wf (bi5_journal raw).
Definition equivalence_decoder_typed : Prop := forall encoded input,
  deserialize_equivalence encoded = Some input -> blob_equivalence_wf input.

Lemma commit_settles {KR : KeccakRange} frame calls journal :
  batch_decoder_typed -> BatchJournalV5_wf journal ->
  no_collision [journal_preimage journal; committed_preimage frame] ->
  guest_main frame = Ok calls -> Commit (b256_bytes (hash_batch_journal_v5 journal)) ∈ calls ->
  settled frame journal.
Proof.
  intros T W Hn H Hc. destruct (run_commits _ _ _ H Hc) as (a & Ha & E).
  change (hash_batch_journal_v5 journal) with (keccak256 (journal_preimage journal)) in E.
  apply statement_bytes_inj, keccak256_inj in E; [|exact Hn].
  pose proof (length_journal_preimage journal) as L. rewrite E in L.
  destruct Ha as [encoded raw opened start policy items terminal F _ Hd R|? ? ? Hd|? ? ? Hd|? ? ? Hd].
  - exists encoded, raw, opened, start, policy, items, terminal. split_and!; auto.
    symmetry. apply journal_preimage_inj; [exact W|apply (T _ _ Hd)|exact E].
  - rewrite length_template_preimage in L. discriminate.
  - rewrite length_da_preimage in L. discriminate.
  - rewrite length_aggregate_preimage in L. discriminate.
Qed.
End GuestProps.

Section Claims.
Context {KK : Keccak} {RV : Revm} {AT : AlloyTrie} {OP : OsakaPrecompiles} {TC : TxCodec}
  {EV : Evm} {AR : AlloyRlp} {SH : Sha256} {BS : BlsScalar} {SB : StrictBincode}.

(** C5: a receipt of the guest attests what its frame decodes to: the frame carries one of the
    four prefixes, its witness was accepted - a room batch is a transition of the room, a
    template, an equivalence or an aggregate passed its validator -, the only committed bytes
    are the 32 bytes of the statement's hash, and they come after exactly the assumptions of
    the members of an aggregate, in order, and after none otherwise. *)
Theorem guest_receipt_sound frame calls :
  guest_main frame = Ok calls ->
  exists assumptions,
    accepted_frame frame assumptions (committed_preimage frame)
    /\ calls = assumptions ++ [Commit (b256_bytes (keccak256 (committed_preimage frame)))].
Proof.
  intros H. apply guest_run in H as (a & p & Ha & ->).
  pose proof (accepted_preimage _ _ _ Ha) as ->. eauto.
Qed.

(** C3: from the receipt to the room: when a receipt of the guest commits the hash L1 computes
    from a batch journal, the guest ran a batch with exactly that journal, and the journal
    describes a transition of the room; no template, equivalence or aggregate receipt can be
    presented in its place (absent a collision of the two hashed strings). *)
Theorem receipt_settles_batch {KR : KeccakRange} frame calls journal :
  batch_decoder_typed -> BatchJournalV5_wf journal ->
  no_collision [journal_preimage journal; committed_preimage frame] ->
  guest_main frame = Ok calls -> Commit (b256_bytes (hash_batch_journal_v5 journal)) ∈ calls ->
  settled frame journal.
Proof. apply commit_settles. Qed.

End Claims.

(** ** Witness: an aggregate of the executed room batch and its blob equivalence *)
#[local] Existing Instance toy_keccak.
#[local] Existing Instance toy_keccak_range.
#[local] Existing Instance toy_revm.
#[local] Existing Instance toy_trie.
#[local] Existing Instance toy_precompiles.
#[local] Existing Instance room_codec.
#[local] Existing Instance slot_evm.
#[local] Existing Instance toy_rlp.
#[local] Existing Instance demo_sha.
#[local] Existing Instance small_scalar.

Definition demo_program : Z := 21.
Abbreviation demo_journal_hash := (hash_batch_journal_v5 (bi5_journal room_batch)).
Definition demo_member : AggregateMemberStatementV1 :=
  mk_AggregateMemberStatementV1 7 demo_program demo_journal_hash demo_program demo_statement.
Definition demo_settlement : AggregateInputV1 := mk_AggregateInputV1 3 [demo_member].
Definition demo_bincode : StrictBincode := {|
  deserialize_batch _ := Some room_batch;
  deserialize_template _ := None;
  deserialize_equivalence _ := Some demo_equivalence;
  deserialize_aggregate _ := Some demo_settlement
|}.
#[local] Existing Instance demo_bincode.

Definition batch_frame : bytes := ROOM_BATCH_MAGIC_V6 ++ [1].
Definition equivalence_frame : bytes := BLOB_EQUIVALENCE_MAGIC_V1 ++ [2].
Definition aggregate_frame : bytes := RECURSIVE_AGGREGATE_MAGIC_V1 ++ [3].
Definition demo_backing (claim : Z) : bytes :=
  if claim =? demo_journal_hash then batch_frame else equivalence_frame.

Lemma batch_frame_runs : guest_main batch_frame = Ok [Commit (b256_bytes demo_journal_hash)].
Proof. vm_compute. reflexivity. Qed.
Lemma equivalence_frame_runs : guest_main equivalence_frame = Ok [Commit (b256_bytes demo_statement)].
Proof.
  unfold guest_main, equivalence_frame. rewrite !strip_prefix_other by (reflexivity || discriminate).
  rewrite strip_prefix_app. unfold run_equivalence. cbn [deserialize_equivalence demo_bincode ok_or rbind].
  rewrite demo_equivalence_accepted. reflexivity.
Qed.
Definition aggregate_calls : list host_call :=
  [ Verify demo_program demo_journal_hash; Verify demo_program demo_statement;
    Commit (b256_bytes (aggregate_statement_v1 demo_settlement)) ].
Lemma aggregate_frame_runs : guest_main aggregate_frame = Ok aggregate_calls.
Proof. vm_compute. reflexivity. Qed.

Lemma two_assumptions program a b journal claim (P : Z -> Prop) :
  Verify program claim ∈ [Verify program a; Verify program b; Commit journal] -> P a -> P b -> P claim.
Proof.
  intros H Ha Hb. apply elem_of_cons in H as [H|H]; [injection H as ->; exact Ha|].
  apply elem_of_cons in H as [H|H]; [injection H as ->; exact Hb|].
  apply elem_of_cons in H as [H|H]; [discriminate|inversion H].
Qed.
Lemma demo_decoder_typed : batch_decoder_typed.
Proof. intros encoded raw H. injection H as <-. exact room_journal_wf. Qed.

Lemma guest_receipt_sound_witness :
  exists assumptions, accepted_frame aggregate_frame assumptions (committed_preimage aggregate_frame)
    /\ aggregate_calls = assumptions ++ [Commit (b256_bytes (keccak256 (committed_preimage aggregate_frame)))].
Proof. exact (guest_receipt_sound aggregate_frame aggregate_calls aggregate_frame_runs). Defined.

Lemma receipt_settles_batch_witness : settled batch_frame (bi5_journal room_batch).
Proof.
  apply (receipt_settles_batch batch_frame [Commit (b256_bytes demo_journal_hash)]).
  - exact demo_decoder_typed.
  - exact room_journal_wf.
  - apply no_collisionb_spec. vm_compute. reflexivity.
  - exact batch_frame_runs.
  - left.
Defined.

