(* ===== verification/HostWitness.v ===== *)
(** * Witness frames and content addresses of the host (risc0/host/src/witness.rs)

    A request names its witness by the SHA-256 of the exact frame and a job id derived from it;
    the host accepts a frame only in the canonical encoding of what it decodes.  Strings are
    their UTF-8 bytes.  serde_json, base64, hex and the host's bincode are parameters. *)

From S2P Require Import Prelude BlobEval Types Abi HashV5 HashV4 Hosting State StateEvm Policy Settlement RosterV5 ExitV5 LiabilitiesV5 Compact ImportV5 Block BatchData AdmissionV5 BatchV5 Guest.
Open Scope Z_scope.

(** [bincode::serialize] and [bincode::deserialize]; the latter tolerates trailing bytes. *)
Class HostBincode := {
  serialize_batch : BatchInputV5 -> option bytes;
  lax_batch : bytes -> option BatchInputV5;
  serialize_template : ColdTemplateInputV5 -> option bytes;
  lax_template : bytes -> option ColdTemplateInputV5
}.

(** serde_json: [from_str], [get(key).and_then(as_str)] and [get(key)] decoded by [from_value];
    base64's decoder; hex's encoder. *)
Class HostText := {
  json : Type;
  json_from_str : bytes -> option json;
  get_str : json -> string -> option bytes;
  get_room_witness : json -> option (option BatchInputV5);
  get_template_witness : json -> option (option ColdTemplateInputV5);
  b64_decode : bytes -> option bytes;
  hex_encode : bytes -> bytes
}.

Definition ROOM_JOB_DOMAIN_V6 : bytes := b_ "zkdeal:v6:room-prover-job".
Definition COLD_TEMPLATE_JOB_DOMAIN_V5 : bytes := b_ "zkdeal:v5:cold-template-prover-job".

Record ContentAddressV5 := mk_ContentAddressV5 {
  ca_input_digest : bytes;
  ca_job_id : bytes;
  ca_proof_mode : bytes
}.

(** [eq_ignore_ascii_case]. *)
Definition ascii_lower (b : Z) : Z := if (65 <=? b) && (b <=? 90) then b + 32 else b.
Definition eq_ignore_ascii_case (a b : bytes) : bool :=
  bool_decide (map ascii_lower a = map ascii_lower b).

Section Witness.
Context {SH : Sha256} {HB : HostBincode} {HT : HostText}.
(** [STF_GUEST_ID]: the image id the host is built with. *)
Context (embedded_program_id_v5 : Z).

Definition input_digest_of (witness_bytes : bytes) : bytes :=
  b_ "0x" ++ hex_encode (sha256 witness_bytes).
Definition job_preimage (job_domain witness_bytes : bytes) (program_id preset_hash : Z)
    (proof_mode : bytes) : bytes :=
  job_domain ++ sha256 witness_bytes ++ b256_bytes program_id ++ b256_bytes preset_hash
  ++ b_ "risc0" ++ proof_mode.
Definition job_id_of (job_domain witness_bytes : bytes) (program_id preset_hash : Z)
    (proof_mode : bytes) : bytes :=
  b_ "0x" ++ hex_encode (sha256 (job_preimage job_domain witness_bytes program_id preset_hash proof_mode)).

Definition validate_content_address_v5 (request : json) (witness_bytes : bytes)
    (program_id preset_hash : Z) (job_domain : bytes) : result string ContentAddressV5 :=
  fail_if negb (program_id =? embedded_program_id_v5)
    with "witness proofProgramId does not match embedded RISC Zero image"%string in
  let proof_mode := default (b_ "groth16") (get_str request "proofMode") in
  fail_if negb (bool_decide (proof_mode = b_ "succinct") || bool_decide (proof_mode = b_ "groth16"))
    with "unsupported proofMode"%string in
  let input_digest := input_digest_of witness_bytes in
  let job_id := job_id_of job_domain witness_bytes program_id preset_hash proof_mode in
  fail_if match get_str request "inputDigest" with
          | Some got => negb (eq_ignore_ascii_case got input_digest)
          | None => false
          end
    with "inputDigest mismatch"%string in
  fail_if match get_str request "jobId" with
          | Some got => negb (eq_ignore_ascii_case got job_id)
          | None => false
          end
    with "jobId mismatch"%string in
  Ok (mk_ContentAddressV5 input_digest job_id proof_mode).

Definition room_input_bytes_v5 (input : BatchInputV5) : result string bytes :=
  let canonical := with_witness_bytes 0 input in
  let? encoded := ok_or (serialize_batch canonical) "serialize v6 room witness"%string in
  Ok (ROOM_BATCH_MAGIC_V6 ++ encoded).

Definition supplied_room_witness (request : json) : result string bytes :=
  match get_str request "roomWitnessB64" with
  | Some encoded => ok_or (b64_decode encoded) "roomWitnessB64 is not valid base64"%string
  | None =>
      let? value := ok_or (get_room_witness request) "roomWitness or roomWitnessB64 is required"%string in
      let? input := ok_or value "v6 room witness JSON decode"%string in
      room_input_bytes_v5 input
  end.

Definition room_witness_from_stdin (raw : bytes)
  : result string (BatchInputV5 * json * bytes * ContentAddressV5) :=
  let? request := ok_or (json_from_str raw) "stdin is not JSON"%string in
  let? supplied := supplied_room_witness request in
  let? encoded := ok_or (strip_prefix ROOM_BATCH_MAGIC_V6 supplied)
                    "roomWitnessB64 has the wrong protocol magic"%string in
  let? input := ok_or (lax_batch encoded) "v6 room witness decode"%string in
  let? canonical := room_input_bytes_v5 input in
  fail_if negb (bool_decide (canonical = supplied))
    with "v6 room witness is not in canonical encoding"%string in
  let? n := ok_or (u32_try_from (zlen supplied)) "v6 room witness exceeds u32"%string in
  let input := with_witness_bytes n input in
  let? address := validate_content_address_v5 request supplied
                    (bj5_proof_program_id (bi5_journal input)) (bj5_policy_hash (bi5_journal input))
                    ROOM_JOB_DOMAIN_V6 in
  Ok (input, request, supplied, address).

Definition cold_template_input_bytes_v5 (input : ColdTemplateInputV5) : result string bytes :=
  let? encoded := ok_or (serialize_template input) "serialize v5 cold-template witness"%string in
  Ok (COLD_TEMPLATE_MAGIC_V5 ++ encoded).

Definition supplied_template_witness (request : json) : result string bytes :=
  match get_str request "coldTemplateWitnessB64" with
  | Some encoded => ok_or (b64_decode encoded) "coldTemplateWitnessB64 is not valid base64"%string
  | None =>
      let? value := ok_or (get_template_witness request)
                      "coldTemplateWitness or coldTemplateWitnessB64 is required"%string in
      let? input := ok_or value "v5 cold-template witness JSON decode"%string in
      cold_template_input_bytes_v5 input
  end.

Definition cold_template_witness_from_stdin (raw : bytes)
  : result string (ColdTemplateInputV5 * json * bytes * ContentAddressV5) :=
  let? request := ok_or (json_from_str raw) "stdin is not JSON"%string in
  let? supplied := supplied_template_witness request in
  let? encoded := ok_or (strip_prefix COLD_TEMPLATE_MAGIC_V5 supplied)
                    "cold-template witness has the wrong protocol magic"%string in
  let? input := ok_or (lax_template encoded) "v5 cold-template witness decode"%string in
  let? canonical := cold_template_input_bytes_v5 input in
  fail_if negb (bool_decide (canonical = supplied))
    with "v5 cold-template witness is not in canonical encoding"%string in
  let? address := validate_content_address_v5 request supplied (cti_proof_program_id input)
                    (cti_policy_hash input) COLD_TEMPLATE_JOB_DOMAIN_V5 in
  Ok (input, request, supplied, address).
End Witness.

(** * Properties *)

(** bincode writes a value so that the guest's strict decoder, which refuses trailing bytes,
    reads it back; a decoded value is in the range of its type. *)
Class HostBincodeLaws {HB : HostBincode} {SB : StrictBincode} : Prop := {
  batch_serialized input encoded :
    BatchInputV5_wf input -> serialize_batch input = Some encoded ->
    deserialize_batch encoded = Some input;
  batch_typed encoded input : lax_batch encoded = Some input -> BatchInputV5_wf input;
  template_serialized input encoded :
    ColdTemplateInputV5_wf input -> serialize_template input = Some encoded ->
    deserialize_template encoded = Some input;
  template_typed encoded input : lax_template encoded = Some input -> ColdTemplateInputV5_wf input
}.
(** Two byte strings have the same hex digits only if they are equal. *)
Class HexInjective {HT : HostText} : Prop :=
  hex_encode_inj : forall a b, bytes_wf a -> bytes_wf b -> hex_encode a = hex_encode b -> a = b.

(** [sha256] is collision free on the strings of [P]. *)
Definition sha_no_collision {SH : Sha256} (P : list bytes) : Prop :=
  forall x y, x ∈ P -> y ∈ P -> sha256 x = sha256 y -> x = y.

Lemma with_witness_bytes_wf n input :
  in_u32 n -> BatchInputV5_wf input -> BatchInputV5_wf (with_witness_bytes n input).
Proof. intros Hn [_ W]. split; [exact Hn|exact W]. Qed.
Lemma with_witness_bytes_twice n m input :
  with_witness_bytes n (with_witness_bytes m input) = with_witness_bytes n input.
Proof. reflexivity. Qed.
Lemma with_own_witness_bytes input :
  with_witness_bytes (bi5_encoded_witness_bytes input) input = input.
Proof. destruct input. reflexivity. Qed.

Section WitnessProps.
Context {SH : Sha256} {HB : HostBincode} {HT : HostText}.
Variable program : Z.

Lemma content_address_spec request witness id preset domain address :
  validate_content_address_v5 program request witness id preset domain = Ok address ->
  id = program
  /\ (ca_proof_mode address = b_ "succinct" \/ ca_proof_mode address = b_ "groth16")
  /\ ca_input_digest address = input_digest_of witness
  /\ ca_job_id address = job_id_of domain witness id preset (ca_proof_mode address)
  /\ (forall got, get_str request "inputDigest" = Some got ->
        eq_ignore_ascii_case got (ca_input_digest address) = true)
  /\ (forall got, get_str request "jobId" = Some got ->
        eq_ignore_ascii_case got (ca_job_id address) = true).
Proof.
  unfold validate_content_address_v5. cbv zeta. intros H.
  apply fail_if_Ok in H as [Hid H]. apply fail_if_Ok in H as [Hm H].
  apply fail_if_Ok in H as [Hd H]. apply fail_if_Ok in H as [Hj H]. apply Ok_Ok in H as <-.
  apply negb_eqb_false in Hid. cbn [ca_proof_mode ca_input_digest ca_job_id].
  apply negb_false_iff, orb_true_iff in Hm. rewrite !bool_decide_eq_true in Hm.
  split_and!; auto; intros got G; rewrite G in Hd, Hj || rewrite G in Hj || rewrite G in Hd;
    apply negb_false_iff; assumption.
Qed.

Lemma room_witness_spec raw input request supplied address :
  room_witness_from_stdin program raw = Ok (input, request, supplied, address) ->
  exists encoded decoded,
    supplied = ROOM_BATCH_MAGIC_V6 ++ encoded /\ lax_batch encoded = Some decoded
    /\ serialize_batch (with_witness_bytes 0 decoded) = Some encoded
    /\ u32_try_from (zlen supplied) = Some (zlen supplied)
    /\ input = with_witness_bytes (zlen supplied) decoded
    /\ validate_content_address_v5 program request supplied
         (bj5_proof_program_id (bi5_journal input)) (bj5_policy_hash (bi5_journal input))
         ROOM_JOB_DOMAIN_V6 = Ok address.
Proof.
  unfold room_witness_from_stdin. intros H.
  apply rbind_Ok in H as (req & _ & H). apply rbind_Ok in H as (s & _ & H).
  apply rbind_Ok in H as (e & He & H). apply ok_or_Ok, strip_prefix_Some in He.
  apply rbind_Ok in H as (i & Hi & H). apply ok_or_Ok in Hi.
  apply rbind_Ok in H as (c & Hc & H). apply fail_if_Ok in H as [Hs H].
  apply negb_false_iff, bool_decide_eq_true in Hs. subst c.
  apply rbind_Ok in H as (n & Hn & H). apply ok_or_Ok in Hn.
  pose proof Hn as Hz. unfold u32_try_from in Hz. destruct (_ <? _); [|discriminate].
  injection Hz as <-. cbv zeta in H. apply rbind_Ok in H as (a & Ha & H).
  injection H as <- <- <- <-.
  unfold room_input_bytes_v5 in Hc. cbv zeta in Hc. apply rbind_Ok in Hc as (e' & He' & Hc).
  apply ok_or_Ok in He'. apply (proj1 (Ok_Ok _ _)) in Hc. rewrite He in Hc. apply app_inv_head in Hc as ->.
  exists e, i. auto 6.
Qed.

Lemma template_witness_spec raw input request supplied address :
  cold_template_witness_from_stdin program raw = Ok (input, request, supplied, address) ->
  exists encoded,
    supplied = COLD_TEMPLATE_MAGIC_V5 ++ encoded /\ lax_template encoded = Some input
    /\ serialize_template input = Some encoded
    /\ validate_content_address_v5 program request supplied (cti_proof_program_id input)
         (cti_policy_hash input) COLD_TEMPLATE_JOB_DOMAIN_V5 = Ok address.
Proof.
  unfold cold_template_witness_from_stdin. intros H.
  apply rbind_Ok in H as (req & _ & H). apply rbind_Ok in H as (s & _ & H).
  apply rbind_Ok in H as (e & He & H). apply ok_or_Ok, strip_prefix_Some in He.
  apply rbind_Ok in H as (i & Hi & H). apply ok_or_Ok in Hi.
  apply rbind_Ok in H as (c & Hc & H). apply fail_if_Ok in H as [Hs H].
  apply negb_false_iff, bool_decide_eq_true in Hs. subst c.
  apply rbind_Ok in H as (a & Ha & H). injection H as <- <- <- <-.
  unfold cold_template_input_bytes_v5 in Hc. apply rbind_Ok in Hc as (e' & He' & Hc).
  apply ok_or_Ok in He'. apply (proj1 (Ok_Ok _ _)) in Hc. rewrite He in Hc. apply app_inv_head in Hc as ->.
  exists e. auto.
Qed.

(** ** The job id *)

(** A request the host accepts, with the string its job id is the hash of. *)
Inductive accepted_job (raw : bytes) : bytes -> bytes -> ContentAddressV5 -> Prop :=
| accepted_room input request supplied address :
    room_witness_from_stdin program raw = Ok (input, request, supplied, address) ->
    accepted_job raw
      (job_preimage ROOM_JOB_DOMAIN_V6 supplied (bj5_proof_program_id (bi5_journal input))
         (bj5_policy_hash (bi5_journal input)) (ca_proof_mode address)) supplied address
| accepted_cold_template input request supplied address :
    cold_template_witness_from_stdin program raw = Ok (input, request, supplied, address) ->
    accepted_job raw
      (job_preimage COLD_TEMPLATE_JOB_DOMAIN_V5 supplied (cti_proof_program_id input)
         (cti_policy_hash input) (ca_proof_mode address)) supplied address.

Lemma accepted_job_spec raw preimage witness address :
  accepted_job raw preimage witness address ->
  exists domain id preset,
    preimage = job_preimage domain witness id preset (ca_proof_mode address)
    /\ (domain = ROOM_JOB_DOMAIN_V6 \/ domain = COLD_TEMPLATE_JOB_DOMAIN_V5)
    /\ (ca_proof_mode address = b_ "succinct" \/ ca_proof_mode address = b_ "groth16")
    /\ ca_job_id address = b_ "0x" ++ hex_encode (sha256 preimage)
    /\ ca_input_digest address = input_digest_of witness.
Proof.
  destruct 1 as [input request supplied address H|input request supplied address H].
  - apply room_witness_spec in H as (e & d & _ & _ & _ & _ & _ & H).
    apply content_address_spec in H as (_ & Hm & Hd & Hj & _). eauto 9.
  - apply template_witness_spec in H as (e & _ & _ & _ & H).
    apply content_address_spec in H as (_ & Hm & Hd & Hj & _). eauto 9.
Qed.

Context {SR : Sha256Range} {HI : HexInjective}.

Lemma length_sha b : length (sha256 b) = 32%nat.
Proof. destruct (sha256_range b) as [H _]. unfold zlen in H. lia. Qed.

Lemma job_preimage_inj d1 w1 i1 p1 m1 d2 w2 i2 p2 m2 :
  d1 = ROOM_JOB_DOMAIN_V6 \/ d1 = COLD_TEMPLATE_JOB_DOMAIN_V5 ->
  d2 = ROOM_JOB_DOMAIN_V6 \/ d2 = COLD_TEMPLATE_JOB_DOMAIN_V5 ->
  m1 = b_ "succinct" \/ m1 = b_ "groth16" -> m2 = b_ "succinct" \/ m2 = b_ "groth16" ->
  job_preimage d1 w1 i1 p1 m1 = job_preimage d2 w2 i2 p2 m2 ->
  d1 = d2 /\ sha256 w1 = sha256 w2 /\ m1 = m2.
Proof.
  intros D1 D2 M1 M2 H. unfold job_preimage in H.
  assert (L : length d1 = length d2).
  { apply (f_equal length) in H. rewrite !length_app, !length_sha, !length_b256_bytes in H.
    destruct D1 as [->| ->], D2 as [->| ->], M1 as [->| ->], M2 as [->| ->]; cbn in H |- *; lia. }
  apply app_inj_len in H as [-> H]; [|exact L].
  apply app_inj_len in H as [Hw H]; [|rewrite !length_sha; reflexivity].
  apply app_inj_len in H as [_ H]; [|rewrite !length_b256_bytes; reflexivity].
  apply app_inj_len in H as [_ H]; [|rewrite !length_b256_bytes; reflexivity].
  apply app_inv_head in H. auto.
Qed.
End WitnessProps.

Section Claims.
Context {KK : Keccak} {RV : Revm} {AT : AlloyTrie} {OP : OsakaPrecompiles} {TC : TxCodec}
  {EV : Evm} {AR : AlloyRlp} {SH : Sha256} {BS : BlsScalar} {SB : StrictBincode}
  {HB : HostBincode} {HT : HostText}.

Lemma accepted_run {HL : HostBincodeLaws} program raw input request supplied address :
  room_witness_from_stdin program raw = Ok (input, request, supplied, address) ->
  strip_prefix ROOM_BATCH_MAGIC_V6 supplied ≫= deserialize_batch
    = Some (with_witness_bytes 0 input)
  /\ bi5_encoded_witness_bytes input = zlen supplied
  /\ bj5_proof_program_id (bi5_journal input) = program
  /\ guest_main supplied
     = (let? journal := expect "v6 room batch STF execution failed" (execute_batch_v5 input) in
        Ok [Commit (b256_bytes (hash_batch_journal_v5 journal))]).
Proof.
  intros H. apply room_witness_spec in H as (e & d & -> & Hd & He & Hn & -> & Ha).
  apply content_address_spec in Ha as (Hid & _).
  assert (Hs : deserialize_batch e = Some (with_witness_bytes 0 d)).
  { apply batch_serialized; [|exact He]. apply with_witness_bytes_wf; [unfold in_u32; lia|].
    eapply batch_typed, Hd. }
  unfold guest_main. rewrite strip_prefix_app. cbn [mbind option_bind].
  split_and!; [exact Hs|reflexivity|exact Hid|].
  unfold run_batch. rewrite Hs. cbn [ok_or rbind]. rewrite Hn. reflexivity.
Qed.

(** C23: What the host accepts is what the guest proves: an accepted room witness is the magic
    followed by an encoding the guest's strict decoder reads as the same batch, the batch
    names the embedded program, the host's input counts exactly the bytes of the frame, and
    the guest on that frame runs the batch transition on that very input and commits the hash
    of its journal, whatever its outcome. *)
Theorem accepted_witness_is_proved {HL : HostBincodeLaws} program raw input request supplied address :
  room_witness_from_stdin program raw = Ok (input, request, supplied, address) ->
  strip_prefix ROOM_BATCH_MAGIC_V6 supplied ≫= deserialize_batch
    = Some (with_witness_bytes 0 input)
  /\ bi5_encoded_witness_bytes input = zlen supplied
  /\ bj5_proof_program_id (bi5_journal input) = program
  /\ guest_main supplied
     = (let? journal := expect "v6 room batch STF execution failed" (execute_batch_v5 input) in
        Ok [Commit (b256_bytes (hash_batch_journal_v5 journal))]).
Proof. apply accepted_run. Qed.

(** C24: A job id names one job: two requests the host accepts, room batches or cold templates,
    with the same job id carry the same witness bytes, are of the same kind, ask for the same
    proof mode and have the same input digest (absent a collision of SHA-256 on the hashed
    strings). *)
Theorem job_id_names_witness {SR : Sha256Range} {HI : HexInjective} program
    raw1 preimage1 witness1 address1 raw2 preimage2 witness2 address2 :
  accepted_job program raw1 preimage1 witness1 address1 ->
  accepted_job program raw2 preimage2 witness2 address2 ->
  sha_no_collision [preimage1; preimage2; witness1; witness2] ->
  ca_job_id address1 = ca_job_id address2 ->
  witness1 = witness2 /\ preimage1 = preimage2 /\ ca_proof_mode address1 = ca_proof_mode address2
  /\ ca_input_digest address1 = ca_input_digest address2.
Proof.
  intros A1 A2 N E.
  apply accepted_job_spec in A1 as (d1 & i1 & q1 & P1 & D1 & M1 & J1 & I1).
  apply accepted_job_spec in A2 as (d2 & i2 & q2 & P2 & D2 & M2 & J2 & I2).
  rewrite J1, J2 in E. apply app_inv_head in E.
  apply hex_encode_inj in E; [|apply sha256_range..].
  apply N in E; [|rewrite !elem_of_cons; tauto..]. pose proof E as Ep. rewrite P1, P2 in E.
  apply job_preimage_inj in E as (_ & Ew & Em); [|assumption..].
  apply N in Ew; [|rewrite !elem_of_cons; tauto..]. rewrite I1, I2, Ew. auto.
Qed.
End Claims.

(** ** Witness: the executed room batch, presented as bytes and as a value *)
#[local] Existing Instance toy_keccak.
#[local] Existing Instance toy_keccak_range.
#[local] Existing Instance toy_revm.
#[local] Existing Instance toy_trie.
#[local] Existing Instance toy_precompiles.
#[local] Existing Instance room_codec.
#[local] Existing Instance slot_evm.
#[local] Existing Instance toy_rlp.
#[local] Existing Instance demo_sha.
#[local] Existing Instance small_scalar.

Definition unsized_batch : BatchInputV5 := with_witness_bytes 0 room_batch.

(** Batches are comparable. *)
#[local] Instance CodeCommitmentV5_eq_dec : EqDecision CodeCommitmentV5.
Proof. solve_decision. Defined.
#[local] Instance CallRuleV5_eq_dec : EqDecision CallRuleV5.
Proof. solve_decision. Defined.
#[local] Instance StorageNamespaceV5_eq_dec : EqDecision StorageNamespaceV5.
Proof. solve_decision. Defined.
#[local] Instance CertifiedImportBindingV5_eq_dec : EqDecision CertifiedImportBindingV5.
Proof. solve_decision. Defined.
#[local] Instance ParticipantRegistryBindingV5_eq_dec : EqDecision ParticipantRegistryBindingV5.
Proof. solve_decision. Defined.
#[local] Instance ExitAssetBindingV5_eq_dec : EqDecision ExitAssetBindingV5.
Proof. solve_decision. Defined.
#[local] Instance ExitBindingV5_eq_dec : EqDecision ExitBindingV5.
Proof. solve_decision. Defined.
#[local] Instance ExecutionPolicyV5_eq_dec : EqDecision ExecutionPolicyV5.
Proof. solve_decision. Defined.
#[local] Instance RosterChangeV5_eq_dec : EqDecision RosterChangeV5.
Proof. solve_decision. Defined.
#[local] Instance AdmissionReceiptV5_eq_dec : EqDecision AdmissionReceiptV5.
Proof. solve_decision. Defined.
#[local] Instance AdmissionOutcomeV5_eq_dec : EqDecision AdmissionOutcomeV5.
Proof. solve_decision. Defined.
#[local] Instance AdmissionRecordV5_eq_dec : EqDecision AdmissionRecordV5.
Proof. solve_decision. Defined.
#[local] Instance ForcedTransactionV5_eq_dec : EqDecision ForcedTransactionV5.
Proof. solve_decision. Defined.
#[local] Instance AssetLiabilityV5_eq_dec : EqDecision AssetLiabilityV5.
Proof. solve_decision. Defined.
#[local] Instance DepositV5_eq_dec : EqDecision DepositV5.
Proof. solve_decision. Defined.
#[local] Instance L1StorageSlotV5_eq_dec : EqDecision L1StorageSlotV5.
Proof. solve_decision. Defined.
#[local] Instance L1MirrorBindingV5_eq_dec : EqDecision L1MirrorBindingV5.
Proof. solve_decision. Defined.
#[local] Instance L1ImportWitnessV5_eq_dec : EqDecision L1ImportWitnessV5.
Proof. solve_decision. Defined.
#[local] Instance CompactStorageWitnessV4_eq_dec : EqDecision CompactStorageWitnessV4.
Proof. solve_decision. Defined.
#[local] Instance CompactAccountWitnessV4_eq_dec : EqDecision CompactAccountWitnessV4.
Proof. solve_decision. Defined.
#[local] Instance CompactStateWitnessV4_eq_dec : EqDecision CompactStateWitnessV4.
Proof. solve_decision. Defined.
#[local] Instance BlockEnvV1_eq_dec : EqDecision BlockEnvV1.
Proof. solve_decision. Defined.
#[local] Instance HistoricalBlockHash_eq_dec : EqDecision HistoricalBlockHash.
Proof. solve_decision. Defined.
#[local] Instance BatchBlockV5_eq_dec : EqDecision BatchBlockV5.
Proof. solve_decision. Defined.
#[local] Instance BatchInputV5_eq_dec : EqDecision BatchInputV5.
Proof. solve_decision. Defined.

(** One batch has an encoding. *)
Definition one_batch_bincode : StrictBincode := {|
  deserialize_batch encoded := if decide (encoded = [1]) then Some unsized_batch else None;
  deserialize_template _ := None;
  deserialize_equivalence _ := None;
  deserialize_aggregate _ := None
|}.
Definition one_batch_host : HostBincode := {|
  serialize_batch input := if decide (input = unsized_batch) then Some [1] else None;
  lax_batch encoded := if decide (take 1 encoded = [1]) then Some unsized_batch else None;
  serialize_template _ := None;
  lax_template _ := None
|}.
(** A request is the frame itself, or empty when it carries the batch as a value; base64 is the
    identity and a hex digit a byte. *)
Definition plain_text : HostText := {|
  json := bytes;
  json_from_str := Some;
  get_str request key :=
    if decide (key = "roomWitnessB64"%string /\ request <> []) then Some request else None;
  get_room_witness _ := Some (Some room_batch);
  get_template_witness _ := None;
  b64_decode := Some;
  hex_encode b := b
|}.
#[local] Existing Instance one_batch_bincode.
#[local] Existing Instance one_batch_host.
#[local] Existing Instance plain_text.

Lemma unsized_batch_wf : BatchInputV5_wf unsized_batch.
Proof.
  unfold BatchInputV5_wf, BatchJournalV5_wf, ExecutionPolicyV5_wf, CodeCommitmentV5_wf, CallRuleV5_wf,
    StorageNamespaceV5_wf, CertifiedImportBindingV5_wf, ParticipantRegistryBindingV5_wf,
    ExitBindingV5_wf, ExitAssetBindingV5_wf, RosterMemberV5_wf, RosterChangeV5_wf,
    AdmissionRecordV5_wf, AdmissionReceiptV5_wf, AdmissionOutcomeV5_wf, ForcedTransactionV5_wf,
    AssetLiabilityV5_wf, DepositV5_wf, WithdrawalV5_wf, L1ImportWitnessV5_wf,
    CompactStateWitnessV4_wf, CompactAccountWitnessV4_wf, CompactStorageWitnessV4_wf,
    BatchBlockV5_wf, BlockEnvV1_wf, HistoricalBlockHash_wf, option_wf, array_wf, bytes_wf, is_byte,
    in_u8, in_u32, in_u64, in_u256.
  cbn -[Z.pow].
  refine (bool_decide_unpack _ _). vm_compute. exact I.
Qed.
#[local] Instance one_batch_laws : HostBincodeLaws.
Proof.
  split.
  - intros input encoded _ H. cbn in H. case_decide as E; [|discriminate]. injection H as <-.
    cbn. rewrite decide_True by reflexivity. rewrite E. reflexivity.
  - intros encoded input H. cbn in H. case_decide; [|discriminate]. injection H as <-.
    exact unsized_batch_wf.
  - intros input encoded _ H. discriminate H.
  - intros encoded input H. discriminate H.
Qed.
#[local] Instance plain_hex : HexInjective.
Proof. intros a b _ _ H. exact H. Qed.
#[local] Instance demo_sha_range : Sha256Range.
Proof.
  intros b. split; [unfold zlen, sha256, demo_sha; rewrite length_be_bytes; reflexivity|apply (be_bytes_wf 32)].
Qed.

Definition demo_frame : bytes := ROOM_BATCH_MAGIC_V6 ++ [1].
Definition demo_sized : BatchInputV5 := with_witness_bytes 9 room_batch.
Definition demo_address : ContentAddressV5 :=
  mk_ContentAddressV5 (input_digest_of demo_frame)
    (job_id_of ROOM_JOB_DOMAIN_V6 demo_frame 21 room_policy_hash (b_ "groth16")) (b_ "groth16").
Lemma demo_frame_accepted :
  room_witness_from_stdin 21 demo_frame = Ok (demo_sized, demo_frame, demo_frame, demo_address).
Proof. vm_compute. reflexivity. Qed.
Lemma demo_value_accepted :
  room_witness_from_stdin 21 [] = Ok (demo_sized, [], demo_frame, demo_address).
Proof. vm_compute. reflexivity. Qed.
Lemma demo_padding_refused :
  room_witness_from_stdin 21 (demo_frame ++ [0])
  = Err "v6 room witness is not in canonical encoding"%string.
Proof. vm_compute. reflexivity. Qed.

Lemma accepted_witness_is_proved_witness :
  bi5_encoded_witness_bytes demo_sized = zlen demo_frame
  /\ guest_main demo_frame
     = (let? journal := expect "v6 room batch STF execution failed" (execute_batch_v5 demo_sized) in
        Ok [Commit (b256_bytes (hash_batch_journal_v5 journal))]).
Proof.
  destruct (accepted_witness_is_proved 21 _ _ _ _ _ demo_frame_accepted) as (_ & H1 & _ & H2).
  split; [exact H1|exact H2].
Defined.

Definition demo_preimage : bytes :=
  job_preimage ROOM_JOB_DOMAIN_V6 demo_frame 21 room_policy_hash (b_ "groth16").
Lemma job_id_names_witness_witness :
  demo_frame = demo_frame /\ demo_preimage = demo_preimage
  /\ ca_proof_mode demo_address = b_ "groth16"
  /\ ca_input_digest demo_address = ca_input_digest demo_address.
Proof.
  apply (job_id_names_witness 21 demo_frame demo_preimage demo_frame demo_address
           [] demo_preimage demo_frame demo_address).
  - exact (accepted_room 21 _ _ _ _ _ demo_frame_accepted).
  - exact (accepted_room 21 _ _ _ _ _ demo_value_accepted).
  - intros x y Hx Hy H. set_unfold in Hx. set_unfold in Hy. destruct_or! Hx; destruct_or! Hy; subst;
      first [reflexivity|exfalso; revert H; vm_compute; discriminate].
  - reflexivity.
Defined.
