(* ===== verification/LivePrepare.v ===== *)
(** * Live batch preparation of the host (risc0/host/src/live_prepare.rs)

    The caller supplies the state of the room, the blocks its engine produced and the opening
    facts L1 holds; [prepare_input] derives every cursor and commitment of the journal,
    [cmd_prepare_live_room_batch] executes the batch natively and frames its witness.  k256 and
    serde_json are parameters; the JSON objects of the answer are a record. *)

From S2P Require Import Prelude BlobEval Types Abi HashV5 HashV4 Hosting State StateEvm Policy Settlement RosterV5 ExitV5 LiabilitiesV5 Compact ImportV5 Block BatchData AdmissionV5 BatchV5 Guest HostWitness.
Open Scope Z_scope.

(** k256: ECDSA signatures, recovery ids and public keys. *)
Class K256 := {
  signature : Type;
  verifying_key : Type;
  signature_from_slice : bytes -> option signature;
  normalize_s : signature -> option signature;
  recovery_id_try_from : Z -> option Z;
  recover_from_prehash : Z -> signature -> Z -> option verifying_key;
  to_encoded_point : verifying_key -> bytes
}.

Definition LIVE_PREPARE_SCHEMA_V1 : Z := 1.
Definition ROOM_STATE_OPEN : Z := 1.
Definition ROOM_STATE_CLOSED : Z := 2.
Definition VALIDITY_ONLY : Z := 1.
Definition ADMISSION_RECEIPT_TYPE : bytes :=
  b_ "AdmissionReceipt(uint64 roomId,uint64 admissionId,bytes32 transactionHash,uint64 depositInboxId,bytes32 depositContentHash,uint64 deadlineBlock,uint64 maximumBatchIndex,uint64 bondEpoch,uint256 admissionFee)".

Record LiveOpeningV1 := mk_LiveOpeningV1 {
  lop_room_state : Z;
  lop_deployment_domain : Z;
  lop_eip712_domain_separator : Z;
  lop_room_id : Z;
  lop_authorization_mode : Z;
  lop_cold_template_id : Z;
  lop_proof_program_id : Z;
  lop_proof_system_version : Z;
  lop_policy_hash : Z;
  lop_state_root : Z;
  lop_participant_root : Z;
  lop_participant_epoch : Z;
  lop_participant_count : Z;
  lop_participant_capacity : Z;
  lop_approver_root : Z;
  lop_approver_epoch : Z;
  lop_active_count : Z;
  lop_batch_index : Z;
  lop_l2_block_height : Z;
  lop_approver_change_cursor : Z;
  lop_inbox_cursor : Z;
  lop_admission_cursor : Z;
  lop_forced_cursor : Z;
  lop_import_cursor : Z;
  lop_outbox_epoch : Z;
  lop_maximum_admission_window : Z;
  lop_bond_epoch : Z;
  lop_admission_signer : Z;
  lop_minimum_service_bond : Z;
  lop_service_bond : Z;
  lop_liabilities_hash : Z;
  lop_observed_l1_block : Z
}.

Record LiveClosingV1 := mk_LiveClosingV1 {
  lcl_participant_root : Z;
  lcl_participant_epoch : Z;
  lcl_participant_count : Z;
  lcl_l1_inclusion_deadline : Z;
  lcl_close : bool
}.

Record LiveBatchPrepareRequestV1 := mk_LiveBatchPrepareRequestV1 {
  lpr_schema_version : Z;
  lpr_production : bool;
  lpr_proof_mode : bytes;
  lpr_l1_chain_id : Z;
  lpr_terminal : bool;
  lpr_opening : LiveOpeningV1;
  lpr_closing : LiveClosingV1;
  lpr_policy : ExecutionPolicyV5;
  lpr_approver_capacity : Z;
  lpr_pre_approvers : list RosterMemberV5;
  lpr_post_approvers : list RosterMemberV5;
  lpr_approver_changes : list RosterChangeV5;
  lpr_admissions : list AdmissionRecordV5;
  lpr_forced_transactions : list ForcedTransactionV5;
  lpr_pre_liabilities : list AssetLiabilityV5;
  lpr_post_liabilities : list AssetLiabilityV5;
  lpr_deposits : list DepositV5;
  lpr_withdrawals : list WithdrawalV5;
  lpr_withdrawal_capacity : Z;
  lpr_l1_import : option L1ImportWitnessV5;
  lpr_compact_state : CompactStateWitnessV4;
  lpr_blocks : list BatchBlockV5
}.

(** serde_json: the prepare request, and the text of [{"roomWitness": input, "proofMode":
    "groth16", "production": true}]. *)
Class LiveJson := {
  prepare_request_from_str : bytes -> option LiveBatchPrepareRequestV1;
  proof_request_to_string : BatchInputV5 -> option bytes
}.

Section Helpers.
Context {KK : Keccak} {KC : K256}.

(** [u64::try_from(usize)]. *)
Definition u64_try_from (n : Z) : option Z := if n <? 2 ^ 64 then Some n else None.
Definition checked_advance (value count : Z) (label : string) : result string Z :=
  let? n := ok_or (u64_try_from count) "batch item count exceeds u64"%string in
  ok_or (checked_add U64_MAX value n) (label +:+ " overflow")%string.

Definition abi_u64 (value : Z) : bytes := repeat 0 24 ++ be_bytes 8 value.
Definition abi_u256 (value : Z) : bytes := be_bytes 32 value.
Definition keccak_words (words : list bytes) : Z := keccak256 (concat words).

Definition admission_receipt_struct_hash (room_id : Z) (record : AdmissionRecordV5) : Z :=
  let receipt := are_receipt record in
  keccak_words
    [ b256_bytes (keccak256 ADMISSION_RECEIPT_TYPE);
      abi_u64 room_id;
      abi_u64 (arc_admission_id receipt);
      b256_bytes (arc_transaction_hash receipt);
      abi_u64 (arc_deposit_inbox_id receipt);
      b256_bytes (arc_deposit_content_hash receipt);
      abi_u64 (arc_deadline_block receipt);
      abi_u64 (arc_maximum_batch_index receipt);
      abi_u64 (arc_bond_epoch receipt);
      abi_u256 (arc_admission_fee receipt) ].

(** The recovery id of the 65th byte. *)
Definition recovery_byte (b : Z) : result string Z :=
  if (b =? 0) || (b =? 1) then Ok b
  else if (b =? 27) || (b =? 28) then Ok (b - 27)
  else Err "admission receipt recovery id is not 0/1/27/28"%string.

Definition recover_address (digest : Z) (bytes : bytes) : result string Z :=
  fail_if negb (zlen bytes =? 65)
    with "admission receipt signature must be exactly 65 bytes"%string in
  let? signature := ok_or (signature_from_slice (take 64 bytes)) "admission ECDSA signature"%string in
  fail_if bool_decide (is_Some (normalize_s signature))
    with "admission receipt signature is not low-s canonical"%string in
  let? v := recovery_byte (default 0 (bytes !! 64%nat)) in
  let? recovery := ok_or (recovery_id_try_from v) "admission recovery id"%string in
  let? key := ok_or (recover_from_prehash digest signature recovery) "recover admission signer"%string in
  let encoded := to_encoded_point key in
  Ok (of_be (drop 12 (b256_bytes (keccak256 (drop 1 encoded))))).

(** The EIP-712 digest of a receipt. *)
Definition receipt_digest (opening : LiveOpeningV1) (record : AdmissionRecordV5) : Z :=
  keccak256 ([25; 1] ++ b256_bytes (lop_eip712_domain_separator opening)
             ++ b256_bytes (admission_receipt_struct_hash (lop_room_id opening) record)).

(** The body of the loop over [request.admissions]. *)
Definition validate_envelope (request : LiveBatchPrepareRequestV1) (batch_index latest_deadline : Z)
    (_ : unit) (record : AdmissionRecordV5) : result string unit :=
  let opening := lpr_opening request in
  let receipt := are_receipt record in
  fail_if negb (arc_bond_epoch receipt =? lop_bond_epoch opening)
          || (arc_maximum_batch_index receipt <? batch_index)
          || (arc_deadline_block receipt <? lcl_l1_inclusion_deadline (lpr_closing request))
          || (latest_deadline <? arc_deadline_block receipt)
    with "admission receipt is outside the live room bond, batch or deadline facts"%string in
  let? signer := recover_address (receipt_digest opening record) (arc_signature receipt) in
  fail_if negb (signer =? lop_admission_signer opening)
    with "admission receipt is not signed by the live room admission signer"%string in
  Ok tt.

Definition validate_admission_envelopes (request : LiveBatchPrepareRequestV1) (batch_index : Z)
  : result string unit :=
  if bool_decide (lpr_admissions request = []) then Ok tt
  else
    let opening := lpr_opening request in
    fail_if (lop_admission_signer opening =? Address_ZERO)
            || (lop_eip712_domain_separator opening =? B256_ZERO)
            || (lop_maximum_admission_window opening =? 0)
            || (lop_service_bond opening <? lop_minimum_service_bond opening)
      with "live admission opening facts do not satisfy the on-chain service boundary"%string in
    let? latest_deadline :=
      ok_or (checked_add U64_MAX (lop_observed_l1_block opening) (lop_maximum_admission_window opening))
        "maximum admission deadline overflow"%string in
    for_each (validate_envelope request batch_index latest_deadline) tt (lpr_admissions request).
End Helpers.

Section Prepare.
Context {KK : Keccak} {AR : AlloyRlp} {KC : K256}.

Definition opening_invalid (request : LiveBatchPrepareRequestV1) : bool :=
  let opening := lpr_opening request in
  negb (lop_room_state opening
        =? (if lpr_terminal request then ROOM_STATE_CLOSED else ROOM_STATE_OPEN))
  || negb (lop_authorization_mode opening =? VALIDITY_ONLY)
  || (lop_room_id opening =? 0)
  || (lop_deployment_domain opening =? B256_ZERO)
  || (lop_state_root opening =? B256_ZERO)
  || (lop_participant_root opening =? B256_ZERO)
  || (lop_participant_epoch opening =? 0)
  || (lop_participant_capacity opening =? 0)
  || (lop_proof_program_id opening =? B256_ZERO)
  || (lop_proof_system_version opening =? B256_ZERO)
  || (lop_policy_hash opening =? B256_ZERO).

Definition carries_approvers (request : LiveBatchPrepareRequestV1) : bool :=
  let opening := lpr_opening request in
  negb (bool_decide (lpr_pre_approvers request = []))
  || negb (bool_decide (lpr_post_approvers request = []))
  || negb (bool_decide (lpr_approver_changes request = []))
  || negb (lop_approver_root opening =? B256_ZERO)
  || negb (lop_active_count opening =? 0).

Definition closing_invalid (request : LiveBatchPrepareRequestV1) : bool :=
  let opening := lpr_opening request in
  let closing := lpr_closing request in
  (lcl_participant_root closing =? B256_ZERO)
  || (lcl_participant_epoch closing =? 0)
  || (lop_participant_capacity opening <? lcl_participant_count closing)
  || (lcl_l1_inclusion_deadline closing <=? lop_observed_l1_block opening).

(** [map_or] over the L1 import. *)
Definition import_or {A} (request : LiveBatchPrepareRequestV1) (d : A) (f : L1ImportWitnessV5 -> A) : A :=
  from_option f d (lpr_l1_import request).

(** The journal literal. *)
Definition prepared_journal (request : LiveBatchPrepareRequestV1)
    (batch_index start_l2_block end_l2_block post_state_root : Z) (canonical_batch_data : bytes)
    (withdrawal_root inbox_cursor_after admission_cursor_after forced_cursor_after
     import_cursor_after outbox_epoch : Z) : BatchJournalV5 :=
  let opening := lpr_opening request in
  let closing := lpr_closing request in {|
    bj5_protocol_version := BATCH_JOURNAL_VERSION_V6;
    bj5_deployment_domain := lop_deployment_domain opening;
    bj5_room_id := lop_room_id opening;
    bj5_authorization_mode := lop_authorization_mode opening;
    bj5_cold_template_id := lop_cold_template_id opening;
    bj5_proof_program_id := lop_proof_program_id opening;
    bj5_proof_system_version := lop_proof_system_version opening;
    bj5_policy_hash := lop_policy_hash opening;
    bj5_batch_index := batch_index;
    bj5_start_l2_block := start_l2_block;
    bj5_end_l2_block := end_l2_block;
    bj5_pre_state_root := lop_state_root opening;
    bj5_post_state_root := post_state_root;
    bj5_batch_data_hash := batch_block_data_hash_v5 (lpr_blocks request) (lop_state_root opening);
    bj5_canonical_data_hash := keccak256 canonical_batch_data;
    bj5_pre_participant_root := lop_participant_root opening;
    bj5_post_participant_root := lcl_participant_root closing;
    bj5_pre_participant_epoch := lop_participant_epoch opening;
    bj5_post_participant_epoch := lcl_participant_epoch closing;
    bj5_pre_participant_count := lop_participant_count opening;
    bj5_post_participant_count := lcl_participant_count closing;
    bj5_participant_capacity := lop_participant_capacity opening;
    bj5_pre_roster_root := B256_ZERO;
    bj5_post_roster_root := B256_ZERO;
    bj5_pre_roster_epoch := lop_approver_epoch opening;
    bj5_post_roster_epoch := lop_approver_epoch opening;
    bj5_pre_active_count := 0;
    bj5_post_active_count := 0;
    bj5_roster_change_cursor_before := lop_approver_change_cursor opening;
    bj5_roster_change_cursor_after := lop_approver_change_cursor opening;
    bj5_inbox_cursor_before := lop_inbox_cursor opening;
    bj5_inbox_cursor_after := inbox_cursor_after;
    bj5_inbox_records_hash := inbox_records_hash_v5 (lpr_deposits request);
    bj5_admission_cursor_before := lop_admission_cursor opening;
    bj5_admission_cursor_after := admission_cursor_after;
    bj5_admission_records_hash := admission_records_hash_v5 (lpr_admissions request);
    bj5_forced_cursor_before := lop_forced_cursor opening;
    bj5_forced_cursor_after := forced_cursor_after;
    bj5_forced_outcomes_hash := forced_outcomes_hash_v5 (lpr_forced_transactions request);
    bj5_import_cursor_before := lop_import_cursor opening;
    bj5_import_cursor_after := import_cursor_after;
    bj5_imported_l1_block := import_or request 0 liw_source_block;
    bj5_imported_l1_header_hash := import_or request B256_ZERO liw_header_hash;
    bj5_imported_l1_state_root := import_or request B256_ZERO liw_state_root;
    bj5_import_root :=
      import_or request B256_ZERO (import_root_v5 (lop_room_id opening) (lpr_l1_chain_id request));
    bj5_outbox_epoch := outbox_epoch;
    bj5_withdrawal_root := withdrawal_root;
    bj5_pre_liabilities_hash := liabilities_hash_v5 (lpr_pre_liabilities request);
    bj5_post_liabilities_hash := liabilities_hash_v5 (lpr_post_liabilities request);
    bj5_roster_changes_hash := roster_changes_hash_v5 [];
    bj5_l1_inclusion_deadline := lcl_l1_inclusion_deadline closing;
    bj5_close := lcl_close closing
  |}.

(** The input literal. *)
Definition prepared_input (request : LiveBatchPrepareRequestV1) (journal : BatchJournalV5)
    (canonical_batch_data : bytes) : BatchInputV5 := {|
  bi5_encoded_witness_bytes := 0;
  bi5_l1_chain_id := lpr_l1_chain_id request;
  bi5_journal := journal;
  bi5_policy := lpr_policy request;
  bi5_roster_capacity := lpr_approver_capacity request;
  bi5_pre_roster := lpr_pre_approvers request;
  bi5_post_roster := lpr_post_approvers request;
  bi5_roster_changes := lpr_approver_changes request;
  bi5_admissions := lpr_admissions request;
  bi5_forced_transactions := lpr_forced_transactions request;
  bi5_canonical_batch_data := canonical_batch_data;
  bi5_pre_liabilities := lpr_pre_liabilities request;
  bi5_post_liabilities := lpr_post_liabilities request;
  bi5_deposits := lpr_deposits request;
  bi5_withdrawals := lpr_withdrawals request;
  bi5_withdrawal_capacity := lpr_withdrawal_capacity request;
  bi5_l1_import := lpr_l1_import request;
  bi5_compact_state := lpr_compact_state request;
  bi5_blocks := lpr_blocks request
|}.

Definition prepare_input (request : LiveBatchPrepareRequestV1) : result string BatchInputV5 :=
  fail_if negb (lpr_schema_version request =? LIVE_PREPARE_SCHEMA_V1)
          || negb (lpr_production request)
          || negb (bool_decide (lpr_proof_mode request = b_ "groth16"))
    with "live prepare requires schemaVersion=1, production=true and proofMode=groth16"%string in
  let opening := lpr_opening request in
  let closing := lpr_closing request in
  fail_if lpr_terminal request && negb (lcl_close closing)
    with "terminal live preparation requires a closing journal"%string in
  fail_if opening_invalid request
    with "live prepare opening facts are zero, in the wrong room state, or not VALIDITY_ONLY"%string in
  fail_if bool_decide (lpr_blocks request = [])
    with "live prepare requires at least one live engine block"%string in
  fail_if negb (execution_policy_hash_v5 (lpr_policy request) =? lop_policy_hash opening)
    with "live execution policy does not match the on-chain policyHash"%string in
  fail_if negb (liabilities_hash_v5 (lpr_pre_liabilities request) =? lop_liabilities_hash opening)
    with "live pre-liabilities do not match the on-chain liabilities hash"%string in
  fail_if carries_approvers request
    with "VALIDITY_ONLY live preparation cannot carry checkpoint approvers"%string in
  let? batch_index := ok_or (checked_add U64_MAX (lop_batch_index opening) 1)
                        "batch index overflow"%string in
  let? start_l2_block := ok_or (checked_add U64_MAX (lop_l2_block_height opening) 1)
                           "L2 block height overflow"%string in
  let? end_l2_block := checked_advance start_l2_block (zlen (lpr_blocks request) - 1) "L2 range" in
  let? post_state_root := ok_or (option_map bb5_expected_post_state_root (last (lpr_blocks request)))
                            "live block list is empty"%string in
  fail_if negb (bool_decide (option_map bb5_block_number (head (lpr_blocks request))
                             = Some start_l2_block))
          || negb (bool_decide (option_map bb5_block_number (last (lpr_blocks request))
                                = Some end_l2_block))
          || (post_state_root =? B256_ZERO)
    with "live blocks do not continue the on-chain L2 height or omit a terminal root"%string in
  fail_if closing_invalid request
    with "live closing participant or inclusion-deadline facts are invalid"%string in
  let? _ := validate_admission_envelopes request batch_index in
  fail_if negb (lpr_withdrawal_capacity request =? 0)
          && bool_decide (lpr_withdrawals request = [])
    with "a batch without withdrawal leaves must declare capacity 0"%string in
  let canonical_batch_data :=
    canonical_batch_data_v5 (lpr_blocks request) (lop_state_root opening) in
  let? outbox_epoch := ok_or (checked_add U64_MAX (lop_outbox_epoch opening) 1)
                         "outbox epoch overflow"%string in
  let? withdrawal_root :=
    ok_or (withdrawal_root_v5 (lop_deployment_domain opening) (lop_room_id opening) outbox_epoch
             (lpr_withdrawals request) (lpr_withdrawal_capacity request))
      "invalid live withdrawal positional tree"%string in
  let? inbox_cursor_after :=
    checked_advance (lop_inbox_cursor opening) (zlen (lpr_deposits request)) "inbox cursor" in
  let? admission_cursor_after :=
    checked_advance (lop_admission_cursor opening) (zlen (lpr_admissions request))
      "admission cursor" in
  let? forced_cursor_after :=
    checked_advance (lop_forced_cursor opening) (zlen (lpr_forced_transactions request))
      "forced cursor" in
  let? import_cursor_after :=
    ok_or (checked_add U64_MAX (lop_import_cursor opening) (import_or request 0 (fun _ => 1)))
      "import cursor overflow"%string in
  let journal :=
    prepared_journal request batch_index start_l2_block end_l2_block post_state_root
      canonical_batch_data withdrawal_root inbox_cursor_after admission_cursor_after
      forced_cursor_after import_cursor_after outbox_epoch in
  Ok (prepared_input request journal canonical_batch_data).
End Prepare.

(** The answer: the fields that are not renderings of others. *)
Record PreparedLiveBatch := mk_PreparedLiveBatch {
  plb_journal : BatchJournalV5;
  plb_journal_hash : Z;
  plb_prepare_artifact_digest : bytes;
  plb_prover_job_identity : bytes;
  plb_room_witness : bytes;
  plb_block_count : Z;
  plb_encoded_witness_bytes : Z
}.

Section Command.
Context {KK : Keccak} {RV : Revm} {AT : AlloyTrie} {OP : OsakaPrecompiles} {TC : TxCodec}
  {EV : Evm} {AR : AlloyRlp} {SH : Sha256} {HB : HostBincode} {HT : HostText} {KC : K256}
  {LJ : LiveJson}.
Context (embedded_program_id_v5 : Z).

(** The statements after [prepare_input]. *)
Definition prepare_witness (input : BatchInputV5) : result string PreparedLiveBatch :=
  let? outcome := map_err (fun _ => "native live room preparation failed"%string)
                    (execute_batch_v5_with_report input) in
  fail_if negb (bool_decide (bov5_journal outcome = bi5_journal input))
    with "native live room execution returned a different journal"%string in
  let? proof_request_raw := ok_or (proof_request_to_string input) "serialize"%string in
  let? validated := room_witness_from_stdin embedded_program_id_v5 proof_request_raw in
  let '(_, _, witness, address) := validated in
  let? prepare_artifact_digest :=
    ok_or (strip_prefix (b_ "0x") (ca_input_digest address))
      "room witness input digest is not canonical 0x-prefixed SHA-256"%string in
  Ok (mk_PreparedLiveBatch (bi5_journal input) (hash_batch_journal_v5 (bi5_journal input))
        prepare_artifact_digest (ca_job_id address) witness
        (bw_block_count (bov5_proof_work outcome)) (zlen witness)).

Definition cmd_prepare_live_room_batch (raw : bytes) : result string PreparedLiveBatch :=
  let? request := ok_or (prepare_request_from_str raw)
                    "live room prepare request is not schema-v1 JSON"%string in
  let? input := prepare_input request in
  prepare_witness input.
End Command.

(** * Properties *)

(** ** The guest's run on a frame of another size *)
Section Resize.
Context {KK : Keccak} {RV : Revm} {AT : AlloyTrie} {OP : OsakaPrecompiles} {TC : TxCodec}
  {EV : Evm} {AR : AlloyRlp}.

(** One step of an accepted run, taken again. *)
Ltac same_step H :=
  match type of H with
  | rbind _ _ = Ok _ =>
      let x := fresh "x" in let Hx := fresh "Hx" in
      apply rbind_Ok in H as (x & Hx & H); apply rbind_Ok; exists x; split; [exact Hx|];
      repeat match goal with p : (_ * _)%type |- _ => destruct p end
  | (if _ then _ else _) = Ok _ =>
      let G := fresh "G" in
      apply fail_if_Ok in H as [G H]; apply fail_if_Ok; split; [exact G|]
  end.

(** Only the identity check reads the size of the witness. *)
Lemma execute_resized n input o :
  n <= MAX_BATCH_WITNESS_BYTES_V4 -> execute_batch_v5_with_report input = Ok o ->
  execute_batch_v5_with_report (with_witness_bytes n input)
  = Ok (mk_BatchOutcomeV5 (bov5_journal o)
          (mk_BatchProofWork (bw_block_count (bov5_proof_work o)) n (bw_evm (bov5_proof_work o)))).
Proof.
  intros Hn H. unfold execute_batch_v5_with_report in *. cbv zeta in *.
  apply rbind_Ok in H as ([] & Hid & H). apply rbind_Ok. exists tt. split.
  { apply validate_identity_spec in Hid as []. apply validate_identity_spec. split; assumption. }
  repeat same_step H. injection H as <-. reflexivity.
Qed.
End Resize.

(** ** What [prepare_input] accepts *)
Definition LiveOpeningV1_wf (o : LiveOpeningV1) : Prop :=
  in_u64 (lop_batch_index o) /\ in_u64 (lop_l2_block_height o) /\ in_u64 (lop_inbox_cursor o)
  /\ in_u64 (lop_admission_cursor o) /\ in_u64 (lop_forced_cursor o)
  /\ in_u64 (lop_import_cursor o) /\ in_u64 (lop_outbox_epoch o).

Section Preparable.
Context {KK : Keccak} {AR : AlloyRlp} {KC : K256}.
Implicit Types (request : LiveBatchPrepareRequestV1).

(** A receipt inside the room's bond, batch and deadline facts, signed by its admission signer. *)
Record envelope_ok request (batch_index : Z) (record : AdmissionRecordV5) : Prop := {
  ev_bond : arc_bond_epoch (are_receipt record) = lop_bond_epoch (lpr_opening request);
  ev_batch : batch_index <= arc_maximum_batch_index (are_receipt record);
  ev_deadline : lcl_l1_inclusion_deadline (lpr_closing request)
                <= arc_deadline_block (are_receipt record)
                <= lop_observed_l1_block (lpr_opening request)
                   + lop_maximum_admission_window (lpr_opening request);
  ev_signed : recover_address (receipt_digest (lpr_opening request) record)
                (arc_signature (are_receipt record))
              = Ok (lop_admission_signer (lpr_opening request))
}.
Record service_ok request : Prop := {
  sv_signer : lop_admission_signer (lpr_opening request) <> 0;
  sv_domain : lop_eip712_domain_separator (lpr_opening request) <> 0;
  sv_window : lop_maximum_admission_window (lpr_opening request) <> 0;
  sv_bond : lop_minimum_service_bond (lpr_opening request)
            <= lop_service_bond (lpr_opening request);
  sv_range : lop_observed_l1_block (lpr_opening request)
             + lop_maximum_admission_window (lpr_opening request) <= U64_MAX
}.

Lemma validate_envelope_spec request batch_index record :
  validate_envelope request batch_index
    (lop_observed_l1_block (lpr_opening request) + lop_maximum_admission_window (lpr_opening request))
    tt record = Ok tt
  <-> envelope_ok request batch_index record.
Proof.
  unfold validate_envelope.
  rewrite fail_if_Ok, rbind_Ok, !orb_false_iff, negb_eqb_false, !Z.ltb_ge. split.
  - intros ([[[G1 G2] G3] G4] & signer & Hs & H). apply fail_if_Ok in H as [G _].
    apply negb_eqb_false in G as ->. split; auto.
  - intros [G1 G2 [G3 G4] G5]. split; [tauto|]. eexists. split; [exact G5|].
    rewrite Z.eqb_refl. reflexivity.
Qed.

Lemma validate_envelopes_spec request batch_index :
  validate_admission_envelopes request batch_index = Ok tt
  <-> (lpr_admissions request <> [] -> service_ok request)
      /\ Forall (envelope_ok request batch_index) (lpr_admissions request).
Proof.
  unfold validate_admission_envelopes. case_bool_decide as Hn.
  { rewrite Hn. split; [intros _; split; [tauto|constructor]|reflexivity]. }
  unfold Address_ZERO, B256_ZERO.
  rewrite fail_if_Ok, rbind_Ok, !orb_false_iff, !Z.eqb_neq, Z.ltb_ge. split.
  - intros ([[[G1 G2] G3] G4] & d & Hd & H). apply ok_or_Ok, checked_add_Some in Hd as [G5 ->].
    split; [intros _; split; assumption|]. apply Forall_forall. intros x Hx.
    apply validate_envelope_spec, (proj1 (for_each_check _ _) H), Hx.
  - intros [G H]. destruct (G Hn) as [G1 G2 G3 G4 G5]. split; [tauto|]. eexists.
    rewrite ok_or_Ok, checked_add_Some. split; [split; [exact G5|reflexivity]|].
    apply for_each_check. intros x Hx. apply validate_envelope_spec. rewrite Forall_forall in H. auto.
Qed.

Lemma checked_advance_spec value count label r :
  0 <= value -> checked_advance value count label = Ok r <-> value + count <= U64_MAX /\ r = value + count.
Proof.
  intros Hv. unfold checked_advance, u64_try_from, U64_MAX. rewrite rbind_Ok. split.
  - intros (n & Hn & H). apply ok_or_Ok in Hn, H. destruct (_ <? _); [|discriminate].
    injection Hn as <-. apply checked_add_Some in H. exact H.
  - intros [H ->]. exists count. rewrite !ok_or_Ok, checked_add_Some.
    destruct (Z.ltb_spec count (2 ^ 64)); [auto|lia].
Qed.
(** The guards of [prepare_input], read as propositions. *)
Record preparable request : Prop := {
  pr_schema : lpr_schema_version request = 1 /\ lpr_production request = true
              /\ lpr_proof_mode request = b_ "groth16";
  pr_state : lop_room_state (lpr_opening request) = (if lpr_terminal request then 2 else 1)
             /\ (lpr_terminal request = true -> lcl_close (lpr_closing request) = true)
             /\ lop_authorization_mode (lpr_opening request) = 1;
  pr_opening : Forall (fun fact => fact (lpr_opening request) <> 0)
    [lop_room_id; lop_deployment_domain; lop_state_root; lop_participant_root;
     lop_participant_epoch; lop_participant_capacity; lop_proof_program_id;
     lop_proof_system_version; lop_policy_hash];
  pr_policy : execution_policy_hash_v5 (lpr_policy request) = lop_policy_hash (lpr_opening request);
  pr_liabilities : liabilities_hash_v5 (lpr_pre_liabilities request)
                   = lop_liabilities_hash (lpr_opening request);
  pr_approvers : lpr_pre_approvers request = [] /\ lpr_post_approvers request = []
                 /\ lpr_approver_changes request = []
                 /\ lop_approver_root (lpr_opening request) = 0
                 /\ lop_active_count (lpr_opening request) = 0;
  pr_blocks : exists first terminal,
    head (lpr_blocks request) = Some first /\ last (lpr_blocks request) = Some terminal
    /\ bb5_block_number first = lop_l2_block_height (lpr_opening request) + 1
    /\ bb5_block_number terminal
       = lop_l2_block_height (lpr_opening request) + zlen (lpr_blocks request)
    /\ bb5_expected_post_state_root terminal <> 0;
  pr_closing : lcl_participant_root (lpr_closing request) <> 0
    /\ lcl_participant_epoch (lpr_closing request) <> 0
    /\ lcl_participant_count (lpr_closing request)
       <= lop_participant_capacity (lpr_opening request)
    /\ lop_observed_l1_block (lpr_opening request)
       < lcl_l1_inclusion_deadline (lpr_closing request);
  pr_service : lpr_admissions request <> [] -> service_ok request;
  pr_receipts : Forall (envelope_ok request (lop_batch_index (lpr_opening request) + 1))
                  (lpr_admissions request);
  pr_withdrawals : lpr_withdrawals request = [] -> lpr_withdrawal_capacity request = 0;
  pr_range : lop_batch_index (lpr_opening request) + 1 <= U64_MAX
    /\ lop_l2_block_height (lpr_opening request) + zlen (lpr_blocks request) <= U64_MAX
    /\ lop_outbox_epoch (lpr_opening request) + 1 <= U64_MAX
    /\ lop_inbox_cursor (lpr_opening request) + zlen (lpr_deposits request) <= U64_MAX
    /\ lop_admission_cursor (lpr_opening request) + zlen (lpr_admissions request) <= U64_MAX
    /\ lop_forced_cursor (lpr_opening request) + zlen (lpr_forced_transactions request)
       <= U64_MAX
    /\ lop_import_cursor (lpr_opening request) + import_or request 0 (fun _ => 1) <= U64_MAX
}.

(** ** The contract of preparation, apart from its literals

    A batch is prepared when it carries the items of the request ([carries]), opens where L1
    holds the room and closes as announced ([opens_from]), and its public commitments are
    those of the carried items ([commits]). *)
Record carries request (input : BatchInputV5) : Prop := {
  cy_chain : bi5_l1_chain_id input = lpr_l1_chain_id request;
  cy_policy : bi5_policy input = lpr_policy request;
  cy_capacity : bi5_roster_capacity input = lpr_approver_capacity request;
  cy_approvers : bi5_pre_roster input = lpr_pre_approvers request
    /\ bi5_post_roster input = lpr_post_approvers request
    /\ bi5_roster_changes input = lpr_approver_changes request;
  cy_admissions : bi5_admissions input = lpr_admissions request;
  cy_forced : bi5_forced_transactions input = lpr_forced_transactions request;
  cy_liabilities : bi5_pre_liabilities input = lpr_pre_liabilities request
    /\ bi5_post_liabilities input = lpr_post_liabilities request;
  cy_deposits : bi5_deposits input = lpr_deposits request;
  cy_withdrawals : bi5_withdrawals input = lpr_withdrawals request
    /\ bi5_withdrawal_capacity input = lpr_withdrawal_capacity request;
  cy_import : bi5_l1_import input = lpr_l1_import request;
  cy_state : bi5_compact_state input = lpr_compact_state request;
  cy_blocks : bi5_blocks input = lpr_blocks request
}.

(** The facts L1 holds before the batch, the next index and epoch, the announced closing. *)
Record opens_from request (j : BatchJournalV5) : Prop := {
  of_room : bj5_deployment_domain j = lop_deployment_domain (lpr_opening request)
    /\ bj5_room_id j = lop_room_id (lpr_opening request);
  of_mode : bj5_authorization_mode j = lop_authorization_mode (lpr_opening request);
  of_programs : bj5_cold_template_id j = lop_cold_template_id (lpr_opening request)
    /\ bj5_proof_program_id j = lop_proof_program_id (lpr_opening request)
    /\ bj5_proof_system_version j = lop_proof_system_version (lpr_opening request)
    /\ bj5_policy_hash j = lop_policy_hash (lpr_opening request);
  of_index : bj5_batch_index j = lop_batch_index (lpr_opening request) + 1;
  of_root : bj5_pre_state_root j = lop_state_root (lpr_opening request);
  of_participants : bj5_pre_participant_root j = lop_participant_root (lpr_opening request)
    /\ bj5_pre_participant_epoch j = lop_participant_epoch (lpr_opening request)
    /\ bj5_pre_participant_count j = lop_participant_count (lpr_opening request)
    /\ bj5_participant_capacity j = lop_participant_capacity (lpr_opening request);
  of_approvers : bj5_pre_roster_epoch j = lop_approver_epoch (lpr_opening request)
    /\ bj5_roster_change_cursor_before j = lop_approver_change_cursor (lpr_opening request);
  of_cursors : bj5_inbox_cursor_before j = lop_inbox_cursor (lpr_opening request)
    /\ bj5_admission_cursor_before j = lop_admission_cursor (lpr_opening request)
    /\ bj5_forced_cursor_before j = lop_forced_cursor (lpr_opening request)
    /\ bj5_import_cursor_before j = lop_import_cursor (lpr_opening request);
  of_outbox : bj5_outbox_epoch j = lop_outbox_epoch (lpr_opening request) + 1;
  of_closing : bj5_post_participant_root j = lcl_participant_root (lpr_closing request)
    /\ bj5_post_participant_epoch j = lcl_participant_epoch (lpr_closing request)
    /\ bj5_post_participant_count j = lcl_participant_count (lpr_closing request)
    /\ bj5_l1_inclusion_deadline j = lcl_l1_inclusion_deadline (lpr_closing request)
    /\ bj5_close j = lcl_close (lpr_closing request)
}.

(** The public import fields: those of the carried import, or none. *)
Definition import_published request (j : BatchJournalV5) : Prop :=
  match lpr_l1_import request with
  | None => bj5_import_cursor_after j = bj5_import_cursor_before j
      /\ bj5_imported_l1_block j = 0 /\ bj5_imported_l1_header_hash j = 0
      /\ bj5_imported_l1_state_root j = 0 /\ bj5_import_root j = 0
  | Some import => bj5_import_cursor_after j = bj5_import_cursor_before j + 1
      /\ bj5_imported_l1_block j = liw_source_block import
      /\ bj5_imported_l1_header_hash j = liw_header_hash import
      /\ bj5_imported_l1_state_root j = liw_state_root import
      /\ bj5_import_root j
         = import_root_v5 (bj5_room_id j) (lpr_l1_chain_id request) import
  end.

(** What the journal commits to beyond the opening: each cursor passes the carried items,
    each hash and root is that of what is carried, and there are no approvers. *)
Record commits request (input : BatchInputV5) : Prop := {
  ct_version : bj5_protocol_version (bi5_journal input) = 6;
  ct_heights : exists first terminal,
    head (lpr_blocks request) = Some first /\ last (lpr_blocks request) = Some terminal
    /\ bj5_start_l2_block (bi5_journal input) = bb5_block_number first
    /\ bj5_end_l2_block (bi5_journal input)
       = bb5_block_number first + zlen (lpr_blocks request) - 1
    /\ bj5_post_state_root (bi5_journal input) = bb5_expected_post_state_root terminal;
  ct_data : bj5_batch_data_hash (bi5_journal input)
    = batch_block_data_hash_v5 (lpr_blocks request) (bj5_pre_state_root (bi5_journal input));
  ct_public : bi5_canonical_batch_data input
      = canonical_batch_data_v5 (lpr_blocks request) (bj5_pre_state_root (bi5_journal input))
    /\ bj5_canonical_data_hash (bi5_journal input) = keccak256 (bi5_canonical_batch_data input);
  ct_approvers : bj5_pre_roster_root (bi5_journal input) = 0
    /\ bj5_post_roster_root (bi5_journal input) = 0
    /\ bj5_pre_active_count (bi5_journal input) = 0
    /\ bj5_post_active_count (bi5_journal input) = 0
    /\ bj5_post_roster_epoch (bi5_journal input) = bj5_pre_roster_epoch (bi5_journal input)
    /\ bj5_roster_change_cursor_after (bi5_journal input)
       = bj5_roster_change_cursor_before (bi5_journal input)
    /\ bj5_roster_changes_hash (bi5_journal input) = roster_changes_hash_v5 [];
  ct_inbox : cursor_covers (bj5_inbox_cursor_before (bi5_journal input))
      (bj5_inbox_cursor_after (bi5_journal input)) (lpr_deposits request)
    /\ bj5_inbox_records_hash (bi5_journal input) = inbox_records_hash_v5 (lpr_deposits request);
  ct_admissions : cursor_covers (bj5_admission_cursor_before (bi5_journal input))
      (bj5_admission_cursor_after (bi5_journal input)) (lpr_admissions request)
    /\ bj5_admission_records_hash (bi5_journal input)
       = admission_records_hash_v5 (lpr_admissions request);
  ct_forced : cursor_covers (bj5_forced_cursor_before (bi5_journal input))
      (bj5_forced_cursor_after (bi5_journal input)) (lpr_forced_transactions request)
    /\ bj5_forced_outcomes_hash (bi5_journal input)
       = forced_outcomes_hash_v5 (lpr_forced_transactions request);
  ct_import : import_published request (bi5_journal input);
  ct_withdrawals :
    withdrawal_root_v5 (bj5_deployment_domain (bi5_journal input)) (bj5_room_id (bi5_journal input))
      (bj5_outbox_epoch (bi5_journal input)) (lpr_withdrawals request)
      (lpr_withdrawal_capacity request)
    = Some (bj5_withdrawal_root (bi5_journal input));
  ct_liabilities : bj5_pre_liabilities_hash (bi5_journal input)
      = liabilities_hash_v5 (lpr_pre_liabilities request)
    /\ bj5_post_liabilities_hash (bi5_journal input)
       = liabilities_hash_v5 (lpr_post_liabilities request)
}.

(** Nothing of the batch but the size of its frame is left open by the contract. *)
Lemma contract_determines request a b :
  carries request a -> opens_from request (bi5_journal a) -> commits request a ->
  carries request b -> opens_from request (bi5_journal b) -> commits request b ->
  b = with_witness_bytes (bi5_encoded_witness_bytes b) a.
Proof.
  destruct a as [? ? ja], b as [? ? jb], ja, jb.
  intros [] [] [? (f & t & ? & ? & ?)] [] [] [? (f' & t' & ? & ? & ?)].
  unfold with_witness_bytes, import_published, cursor_covers in *.
  cbn -[batch_block_data_hash_v5 canonical_batch_data_v5 withdrawal_root_v5 keccak256
        import_root_v5 liabilities_hash_v5 zlen] in *.
  destruct_and?. simplify_eq. destruct (lpr_l1_import request); destruct_and?; simplify_eq;
    f_equal; f_equal; congruence.
Qed.

(** The input of a request whose withdrawals have the positional root [root]. *)
Definition derived_input request (root : Z) : BatchInputV5 :=
  let o := lpr_opening request in
  let data := canonical_batch_data_v5 (lpr_blocks request) (lop_state_root o) in
  prepared_input request
    (prepared_journal request (lop_batch_index o + 1) (lop_l2_block_height o + 1)
       (lop_l2_block_height o + zlen (lpr_blocks request))
       (from_option bb5_expected_post_state_root 0 (last (lpr_blocks request))) data root
       (lop_inbox_cursor o + zlen (lpr_deposits request))
       (lop_admission_cursor o + zlen (lpr_admissions request))
       (lop_forced_cursor o + zlen (lpr_forced_transactions request))
       (lop_import_cursor o + import_or request 0 (fun _ => 1)) (lop_outbox_epoch o + 1)) data.
Definition derived_root request : option Z :=
  let o := lpr_opening request in
  withdrawal_root_v5 (lop_deployment_domain o) (lop_room_id o) (lop_outbox_epoch o + 1)
    (lpr_withdrawals request) (lpr_withdrawal_capacity request).

Lemma opening_invalid_spec request :
  opening_invalid request = false
  <-> lop_room_state (lpr_opening request) = (if lpr_terminal request then 2 else 1)
      /\ lop_authorization_mode (lpr_opening request) = 1
      /\ Forall (fun fact => fact (lpr_opening request) <> 0)
           [lop_room_id; lop_deployment_domain; lop_state_root; lop_participant_root;
            lop_participant_epoch; lop_participant_capacity; lop_proof_program_id;
            lop_proof_system_version; lop_policy_hash].
Proof.
  unfold opening_invalid, ROOM_STATE_CLOSED, ROOM_STATE_OPEN, VALIDITY_ONLY, B256_ZERO.
  rewrite !orb_false_iff, !negb_eqb_false, !Z.eqb_neq, !Forall_cons, Forall_nil. tauto.
Qed.
Lemma carries_approvers_spec request :
  carries_approvers request = false
  <-> lpr_pre_approvers request = [] /\ lpr_post_approvers request = []
      /\ lpr_approver_changes request = [] /\ lop_approver_root (lpr_opening request) = 0
      /\ lop_active_count (lpr_opening request) = 0.
Proof.
  unfold carries_approvers, B256_ZERO.
  rewrite !orb_false_iff, !negb_eqb_false, !negb_bool_decide_false. tauto.
Qed.
Lemma closing_invalid_spec request :
  closing_invalid request = false
  <-> lcl_participant_root (lpr_closing request) <> 0
      /\ lcl_participant_epoch (lpr_closing request) <> 0
      /\ lcl_participant_count (lpr_closing request)
         <= lop_participant_capacity (lpr_opening request)
      /\ lop_observed_l1_block (lpr_opening request)
         < lcl_l1_inclusion_deadline (lpr_closing request).
Proof.
  unfold closing_invalid, B256_ZERO.
  rewrite !orb_false_iff, !Z.eqb_neq, Z.ltb_ge, Z.leb_gt. tauto.
Qed.

(** The blocks continue the room's height and end at a root. *)
Lemma live_blocks_spec request height n root :
  (negb (bool_decide (option_map bb5_block_number (head (lpr_blocks request)) = Some (height + 1)))
   || negb (bool_decide (option_map bb5_block_number (last (lpr_blocks request)) = Some n))
   || (root =? B256_ZERO) = false
   /\ option_map bb5_expected_post_state_root (last (lpr_blocks request)) = Some root)
  <-> exists first terminal,
        head (lpr_blocks request) = Some first /\ last (lpr_blocks request) = Some terminal
        /\ bb5_block_number first = height + 1 /\ bb5_block_number terminal = n
        /\ bb5_expected_post_state_root terminal = root /\ root <> 0.
Proof.
  unfold B256_ZERO. rewrite !orb_false_iff, !negb_bool_decide_false, Z.eqb_neq.
  destruct (head _) as [first|], (last _) as [terminal|]; cbn; split.
  all: try (intros (? & ? & ? & ? & _); discriminate).
  all: try (intros [[[? ?] ?] ?]; discriminate).
  - intros [[[H1 H2] H3] H4]. exists first, terminal. split_and!; congruence.
  - intros (f & t & E1 & E2 & H1 & H2 & H3 & H4).
    injection E1 as ->. injection E2 as ->. split_and!; congruence.
Qed.

Lemma prepare_input_inv request input :
  LiveOpeningV1_wf (lpr_opening request) -> prepare_input request = Ok input ->
  preparable request
  /\ exists root, derived_root request = Some root /\ input = derived_input request root.
Proof.
  intros (W1 & W2 & W3 & W4 & W5 & W6 & W7). unfold prepare_input, derived_root. cbv zeta.
  unfold in_u64 in *. intros H.
  apply fail_if_Ok in H as [G1 H]. apply fail_if_Ok in H as [G2 H].
  apply fail_if_Ok in H as [G3 H]. apply fail_if_Ok in H as [G4 H].
  apply fail_if_Ok in H as [G5 H]. apply fail_if_Ok in H as [G6 H].
  apply fail_if_Ok in H as [G7 H].
  apply rbind_Ok in H as (batch & Hb & H). apply ok_or_Ok, checked_add_Some in Hb as [R1 ->].
  apply rbind_Ok in H as (start & Hb & H). apply ok_or_Ok, checked_add_Some in Hb as [R2 ->].
  apply rbind_Ok in H as (stop & Hb & H). apply checked_advance_spec in Hb as [R3 ->]; [|lia].
  apply rbind_Ok in H as (post & Hpost & H). apply ok_or_Ok in Hpost.
  apply fail_if_Ok in H as [G8 H]. apply fail_if_Ok in H as [G9 H].
  apply rbind_Ok in H as ([] & Hadm & H). apply validate_envelopes_spec in Hadm as [A1 A2].
  apply fail_if_Ok in H as [G10 H].
  apply rbind_Ok in H as (outbox & Hb & H). apply ok_or_Ok, checked_add_Some in Hb as [R4 ->].
  apply rbind_Ok in H as (root & Hroot & H). apply ok_or_Ok in Hroot.
  apply rbind_Ok in H as (x5 & Hb & H). apply checked_advance_spec in Hb as [R5 ->]; [|lia].
  apply rbind_Ok in H as (x6 & Hb & H). apply checked_advance_spec in Hb as [R6 ->]; [|lia].
  apply rbind_Ok in H as (x7 & Hb & H). apply checked_advance_spec in Hb as [R7 ->]; [|lia].
  apply rbind_Ok in H as (x8 & Hb & H). apply ok_or_Ok, checked_add_Some in Hb as [R8 ->].
  apply Ok_Ok in H as <-.
  apply opening_invalid_spec in G3 as (O1 & O2 & O3). apply negb_eqb_false in G5, G6.
  apply carries_approvers_spec in G7. apply closing_invalid_spec in G9.
  destruct (proj1 (live_blocks_spec _ _ _ _) (conj G8 Hpost)) as (f & t & B1 & B2 & B3 & B4 & B5 & B6).
  rewrite !orb_false_iff, negb_eqb_false, negb_bool_decide_false, negb_false_iff in G1.
  split; [|exists root; split; [exact Hroot|]].
  + split; auto; try tauto; try lia.
    * split_and!; auto. intros T. rewrite T in G2. apply negb_false_iff. exact G2.
    * exists f, t. rewrite B5. split_and!; auto. lia.
    * intros E. rewrite (bool_decide_eq_true_2 _ E), andb_true_r in G10. apply negb_eqb_false. exact G10.
  + unfold derived_input. cbv zeta. rewrite B2. cbn [from_option]. rewrite <- B5.
    replace (lop_l2_block_height (lpr_opening request) + zlen (lpr_blocks request))
      with (lop_l2_block_height (lpr_opening request) + 1 + (zlen (lpr_blocks request) - 1)) by lia.
    reflexivity.
Qed.

(** Hand the next checked sum of a chain of [let?]. *)
Ltac supply x :=
  apply rbind_Ok; exists x; split;
  [first [ apply ok_or_Ok, checked_add_Some; split; [lia|reflexivity]
         | apply checked_advance_spec; lia ]|].

Lemma prepare_input_total request root :
  LiveOpeningV1_wf (lpr_opening request) -> preparable request ->
  derived_root request = Some root -> prepare_input request = Ok (derived_input request root).
Proof.
  intros (W1 & W2 & W3 & W4 & W5 & W6 & W7). unfold prepare_input, derived_root. cbv zeta.
  unfold in_u64 in *. intros [(P1 & P2 & P3) (S1 & S2 & S3) P4 P5 P6 P7 (f & t & B1 & B2 & B3 & B4 & B5) P8 P9 P10 P11 (R1 & R2 & R3 & R4 & R5 & R6 & R7)] Hroot.
  assert (Hne : 0 < zlen (lpr_blocks request)).
  { destruct (lpr_blocks request); [discriminate|]. unfold zlen. cbn. lia. }
  rewrite fail_if_Ok, P1, P2, bool_decide_eq_true_2 by exact P3. split; [reflexivity|].
  apply fail_if_Ok. split; [destruct (lpr_terminal request); [rewrite S2 by reflexivity|]; reflexivity|].
  apply fail_if_Ok. split; [apply opening_invalid_spec; auto|].
  apply fail_if_Ok. split; [apply bool_decide_eq_false; intros E; rewrite E in Hne; discriminate Hne|].
  apply fail_if_Ok. split; [apply negb_eqb_false, P5|].
  apply fail_if_Ok. split; [apply negb_eqb_false, P6|].
  apply fail_if_Ok. split; [apply carries_approvers_spec, P7|].
  supply (lop_batch_index (lpr_opening request) + 1).
  supply (lop_l2_block_height (lpr_opening request) + 1).
  supply (lop_l2_block_height (lpr_opening request) + zlen (lpr_blocks request)).
  destruct (proj2 (live_blocks_spec request (lop_l2_block_height (lpr_opening request))
    (lop_l2_block_height (lpr_opening request) + zlen (lpr_blocks request))
    (bb5_expected_post_state_root t))) as [G Hpost]; [exists f, t; auto 8|].
  apply rbind_Ok. exists (bb5_expected_post_state_root t). split; [apply ok_or_Ok, Hpost|].
  apply fail_if_Ok. split; [exact G|]. apply fail_if_Ok. split; [apply closing_invalid_spec, P8|].
  apply rbind_Ok. exists tt. split; [apply validate_envelopes_spec; auto|].
  apply fail_if_Ok. split.
  { destruct (bool_decide_reflect (lpr_withdrawals request = [])) as [E|E]; [|apply andb_false_r].
    rewrite (P11 E). reflexivity. }
  supply (lop_outbox_epoch (lpr_opening request) + 1).
  apply rbind_Ok. exists root. split; [apply ok_or_Ok, Hroot|].
  supply (lop_inbox_cursor (lpr_opening request) + zlen (lpr_deposits request)).
  supply (lop_admission_cursor (lpr_opening request) + zlen (lpr_admissions request)).
  supply (lop_forced_cursor (lpr_opening request) + zlen (lpr_forced_transactions request)).
  supply (lop_import_cursor (lpr_opening request) + import_or request 0 (fun _ => 1)).
  unfold derived_input. cbv zeta. rewrite B2. reflexivity.
Qed.

(** The contract of preparation. *)
Record prepared_from request (input : BatchInputV5) : Prop := {
  pf_unsized : bi5_encoded_witness_bytes input = 0;
  pf_carries : carries request input;
  pf_opens : opens_from request (bi5_journal input);
  pf_commits : commits request input
}.

Lemma derived_prepared request root :
  preparable request -> derived_root request = Some root ->
  prepared_from request (derived_input request root).
Proof.
  intros P Hr. pose proof (pr_blocks _ P) as (f & t & B1 & B2 & B3 & B4 & B5).
  split; [reflexivity|split; repeat split|split; repeat split|].
  split; try reflexivity; try (split_and!; reflexivity).
  - exists f, t. unfold derived_input. cbn -[zlen]. rewrite B2, B3. cbn [from_option]. split_and!; auto; lia.
  - unfold import_published, derived_input. cbn. unfold import_or.
    destruct (lpr_l1_import request); cbn; split_and!; auto. lia.
  - exact Hr.
Qed.

Lemma prepare_input_spec request input :
  LiveOpeningV1_wf (lpr_opening request) ->
  prepare_input request = Ok input <-> preparable request /\ prepared_from request input.
Proof.
  intros W. split.
  - intros H. apply prepare_input_inv in H as (P & root & Hr & ->); [|exact W].
    split; [exact P|]. apply derived_prepared; assumption.
  - intros [P [U Hc Ho Hm]].
    assert (Hr : derived_root request = Some (bj5_withdrawal_root (bi5_journal input))).
    { pose proof (ct_withdrawals _ _ Hm) as E. destruct (of_room _ _ Ho) as [E1 E2].
      rewrite E1, E2, (of_outbox _ _ Ho) in E. exact E. }
    pose proof (derived_prepared _ _ P Hr) as [Du Dc Do Dm].
    rewrite (contract_determines request _ input Dc Do Dm Hc Ho Hm), U.
    apply prepare_input_total; assumption.
Qed.
End Preparable.

(** ** The guest holds a batch to the same contract *)
Section GuestAgrees.
Context {KK : Keccak} {RV : Revm} {AT : AlloyTrie} {OP : OsakaPrecompiles} {TC : TxCodec}
  {EV : Evm} {AR : AlloyRlp} {KC : K256}.
Implicit Types (request : LiveBatchPrepareRequestV1) (batch : BatchInputV5).

(** The checks of the liability vectors that read the journal. *)
Lemma liabilities_published batch :
  validate_liabilities_v5 batch = Ok tt ->
  bj5_pre_liabilities_hash (bi5_journal batch) = liabilities_hash_v5 (bi5_pre_liabilities batch)
  /\ bj5_post_liabilities_hash (bi5_journal batch) = liabilities_hash_v5 (bi5_post_liabilities batch)
  /\ bj5_inbox_records_hash (bi5_journal batch) = inbox_records_hash_v5 (bi5_deposits batch)
  /\ cursor_covers (bj5_inbox_cursor_before (bi5_journal batch))
       (bj5_inbox_cursor_after (bi5_journal batch)) (bi5_deposits batch)
  /\ withdrawal_root_v5 (bj5_deployment_domain (bi5_journal batch))
       (bj5_room_id (bi5_journal batch)) (bj5_outbox_epoch (bi5_journal batch))
       (bi5_withdrawals batch) (bi5_withdrawal_capacity batch)
     = Some (bj5_withdrawal_root (bi5_journal batch)).
Proof.
  unfold validate_liabilities_v5. intros H. apply fail_if_Ok in H as [_ H].
  apply fail_if_Ok in H as [G1 H]. apply fail_if_Ok in H as [G2 H].
  apply rbind_Ok in H as (ds & _ & H). apply rbind_Ok in H as (c & Hc & H).
  apply ok_or_Ok, checked_add_Some in Hc as [_ ->]. apply fail_if_Ok in H as [G3 H].
  apply rbind_Ok in H as (ws & _ & H). apply rbind_Ok in H as (root & Hr & H).
  apply ok_or_Ok in Hr. apply fail_if_Ok in H as [G4 _].
  rewrite !orb_false_iff, !negb_eqb_false in G1. rewrite !negb_eqb_false in *.
  destruct G1 as [[G1 G1'] _]. subst root. split_and!; auto.
Qed.

Lemma import_checked batch state state' :
  verify_and_apply_import_v5 batch state = Ok state' ->
  match bi5_l1_import batch with
  | None => import_fields_not_empty (bi5_journal batch) = false
  | Some import =>
      import_metadata_differs (bi5_l1_chain_id batch) (bi5_journal batch) import = false
  end.
Proof.
  unfold verify_and_apply_import_v5. destruct (bi5_l1_import batch); intros H;
    apply fail_if_Ok in H as [G _]; exact G.
Qed.

(** The import cursor of an accepted batch saturates; within 64 bits it advances by one. *)
Lemma import_fields_published request batch state state' :
  verify_and_apply_import_v5 batch state = Ok state' ->
  carries request batch ->
  bj5_import_cursor_before (bi5_journal batch) + import_or request 0 (fun _ => 1) <= U64_MAX ->
  import_published request (bi5_journal batch).
Proof.
  intros H%import_checked C. rewrite (cy_import _ _ C), (cy_chain _ _ C) in H.
  unfold import_published, import_or. destruct (lpr_l1_import request) as [import|]; cbn [from_option].
  - intros Hle. unfold import_metadata_differs in H.
    rewrite !orb_false_iff, !negb_eqb_false in H.
    destruct H as (((((((M1 & M2) & M3) & M4) & M5) & _) & _) & _).
    split_and!; auto. rewrite M1. unfold saturating_add. lia.
  - intros _. unfold import_fields_not_empty, B256_ZERO in H.
    rewrite !orb_false_iff, !negb_eqb_false in H. tauto.
Qed.

(** The first and the last block of an accepted run. *)
Lemma heights_published batch (r : batch_run batch) :
  exists first terminal,
    head (bi5_blocks batch) = Some first /\ last (bi5_blocks batch) = Some terminal
    /\ bj5_start_l2_block (bi5_journal batch) = bb5_block_number first
    /\ bj5_end_l2_block (bi5_journal batch)
       = bb5_block_number first + zlen (bi5_blocks batch) - 1
    /\ bj5_post_state_root (bi5_journal batch) = bb5_expected_post_state_root terminal.
Proof.
  pose proof (br_identity _ r) as Hid. apply validate_identity_spec in Hid as [_ _ _ _ [Hne _] _ [He _]].
  destruct (run_items _ r) as [items [L1 L2 L3 _ _ _]]. pose proof (br_post_root _ r) as Hp.
  destruct (bi5_blocks batch) as [|first rest] eqn:Eb; [contradiction|].
  assert (exists terminal, last (first :: rest) = Some terminal) as [terminal Ht].
  { destruct (last (first :: rest)) eqn:E; [eauto|]. apply last_None in E. discriminate. }
  exists first, terminal. rewrite Ht.
  assert (Hs : bb5_block_number first = bj5_start_l2_block (bi5_journal batch)).
  { destruct items as [|[[k b] xs] items]; [discriminate|].
    inversion L1. subst. inversion L2; subst.
    match goal with Hb : batch_block _ _ _ _ _ |- _ => apply bb_number in Hb; cbn in Hb; rewrite Hb end.
    lia. }
  split_and!; auto; try lia. rewrite <- Hp, L3.
  rewrite <- (map_map snd bb5_expected_post_state_root), enumerate_snd.
  rewrite fmap_last. rewrite Ht. reflexivity.
Qed.

(** Whatever batch of the request's items the guest executes from the same opening, its
    commitments are the contract's. *)
Lemma guest_commits request batch (r : batch_run batch) :
  preparable request -> carries request batch -> opens_from request (bi5_journal batch) ->
  commits request batch.
Proof.
  intros P C O. pose proof (br_liabilities _ r) as L.
  apply liabilities_published in L as (L1 & L2 & L3 & L4 & L5).
  pose proof (br_admissions _ r) as A. apply validate_admissions_spec in A as [A1 A2 A3 A4 A5].
  pose proof (heights_published _ r) as Hh. pose proof (br_roster _ r) as R.
  assert (Hm : bj5_authorization_mode (bi5_journal batch) = 1)
    by (rewrite (of_mode _ _ O); apply (pr_state _ P)).
  unfold validate_roster_transition_v5 in R. rewrite Hm in R. cbn [Z.eqb Pos.eqb] in R.
  apply fail_if_Ok in R as [R _]. apply validity_only_spec in R. unfold validity_only in R.
  destruct C as [C1 C2 C3 C4 C5 C6 [C7 C8] C9 [C10 C11] C12 C13 C14] eqn:EC.
  rewrite C14 in Hh. rewrite C5 in A1, A2. rewrite C6 in A3, A4. rewrite C7 in L1.
  rewrite C8 in L2. rewrite C9 in L3, L4. rewrite C10, C11 in L5.
  split; auto.
  - pose proof (br_identity _ r) as Hid. apply validate_identity_spec in Hid as []. assumption.
  - pose proof (br_data _ r) as D. rewrite C14 in D. auto.
  - destruct A5 as [E|_ E1 E2]; [congruence|]. rewrite C14 in E1. auto.
  - destruct_and!. split_and!; auto.
  - eapply import_fields_published; [apply (br_import _ r)|exact C|].
    destruct (of_cursors _ _ O) as (_ & _ & _ & ->). apply (pr_range _ P).
Qed.

Lemma guest_agrees request input batch j :
  LiveOpeningV1_wf (lpr_opening request) -> prepare_input request = Ok input ->
  execute_batch_v5 batch = Ok j -> carries request batch ->
  opens_from request (bi5_journal batch) ->
  batch = with_witness_bytes (bi5_encoded_witness_bytes batch) input.
Proof.
  intros W H E C O. apply prepare_input_spec in H as [P [_ Dc Do Dm]]; [|exact W].
  unfold execute_batch_v5 in E. apply rbind_Ok in E as (o & E & _).
  apply batch_accepted in E as [r _].
  exact (contract_determines request _ _ Dc Do Dm C O (guest_commits _ _ r P C O)).
Qed.
End GuestAgrees.

(** ** What [cmd_prepare_live_room_batch] hands out *)

(** serde_json reads back the batch the host wrote; a decoded batch is in the range of its type. *)
Class LiveJsonLaws {HT : HostText} {LJ : LiveJson} : Prop := {
  room_witness_typed request input :
    get_room_witness request = Some (Some input) -> BatchInputV5_wf input;
  proof_request_read input raw :
    proof_request_to_string input = Some raw ->
    exists request, json_from_str raw = Some request
      /\ get_str request "roomWitnessB64" = None
      /\ get_str request "proofMode" = Some (b_ "groth16")
      /\ get_room_witness request = Some (Some input)
}.

Section Command.
Context {KK : Keccak} {RV : Revm} {AT : AlloyTrie} {OP : OsakaPrecompiles} {TC : TxCodec}
  {EV : Evm} {AR : AlloyRlp} {SH : Sha256} {BS : BlsScalar} {SB : StrictBincode}
  {HB : HostBincode} {HT : HostText} {HL : HostBincodeLaws} {LJ : LiveJson} {LL : LiveJsonLaws}.
Variable program : Z.

(** The frame of a proof request is the frame of the batch in it. *)
Lemma proof_request_witness input raw decoded request witness address :
  bi5_encoded_witness_bytes input = 0 -> proof_request_to_string input = Some raw ->
  room_witness_from_stdin program raw = Ok (decoded, request, witness, address) ->
  decoded = with_witness_bytes (zlen witness) input /\ ca_proof_mode address = b_ "groth16".
Proof.
  intros Hz Hraw H. destruct (proof_request_read _ _ Hraw) as (request' & R1 & R2 & R3 & R4).
  assert (Hs : room_input_bytes_v5 input = Ok witness /\ request' = request).
  { unfold room_witness_from_stdin, supplied_room_witness in H. rewrite R1 in H. cbn [ok_or rbind] in H.
    rewrite R2, R4 in H. cbn [ok_or rbind] in H.
    apply rbind_Ok in H as (s & Hs & H). apply rbind_Ok in H as (? & _ & H).
    apply rbind_Ok in H as (? & _ & H). apply rbind_Ok in H as (? & _ & H).
    apply fail_if_Ok in H as [_ H]. apply rbind_Ok in H as (? & _ & H).
    cbv zeta in H. apply rbind_Ok in H as (? & _ & H). injection H as _ <- <- _. auto. }
  destruct Hs as [Hs ->]. apply room_witness_spec in H as (e & d & -> & Hd & He & _ & -> & Ha).
  split.
  - unfold room_input_bytes_v5 in Hs. cbv zeta in Hs. apply rbind_Ok in Hs as (e' & He' & Hs).
    apply ok_or_Ok in He'. apply (proj1 (Ok_Ok _ _)) in Hs. apply app_inv_head in Hs as ->.
    pose proof (with_own_witness_bytes input) as E. rewrite Hz in E. rewrite E in He'.
    pose proof (batch_serialized _ _ (room_witness_typed _ _ R4) He') as D1.
    assert (W : BatchInputV5_wf (with_witness_bytes 0 d)).
    { apply with_witness_bytes_wf; [unfold in_u32; lia|]. eapply batch_typed, Hd. }
    pose proof (batch_serialized _ _ W He) as D2. rewrite D1 in D2. injection D2 as ->.
    rewrite with_witness_bytes_twice. reflexivity.
  - unfold validate_content_address_v5 in Ha. cbv zeta in Ha. rewrite R3 in Ha. cbn [default] in Ha.
    do 4 apply fail_if_Ok in Ha as [_ Ha]. apply Ok_Ok in Ha as <-. reflexivity.
Qed.

Lemma prepare_input_unsized {KC : K256} request input :
  prepare_input request = Ok input -> bi5_encoded_witness_bytes input = 0.
Proof.
  unfold prepare_input. cbv zeta. intros H.
  repeat first [ apply fail_if_Ok in H as [_ H]
               | let x := fresh "x" in apply rbind_Ok in H as (x & _ & H) ].
  apply Ok_Ok in H as <-. reflexivity.
Qed.

(** The guest's run on the frame of an executed batch, by its size. *)
Lemma executed_frame input o n :
  execute_batch_v5_with_report input = Ok o -> n <= MAX_BATCH_WITNESS_BYTES_V4 ->
  execute_batch_v5 (with_witness_bytes n input) = Ok (bov5_journal o).
Proof. intros H Hn. unfold execute_batch_v5. rewrite (execute_resized _ _ _ Hn H). reflexivity. Qed.
Lemma oversized_refused input n :
  MAX_BATCH_WITNESS_BYTES_V4 < n -> exists e, execute_batch_v5 (with_witness_bytes n input) = Err e.
Proof.
  intros Hn. destruct (execute_batch_v5 (with_witness_bytes n input)) as [j|e] eqn:E; [|eauto].
  apply rbind_Ok in E as (o & E & _). unfold execute_batch_v5_with_report in E.
  apply rbind_Ok in E as ([] & E & _). apply validate_identity_spec in E as [? ? ? ? ? L _].
  cbn in L. lia.
Qed.
End Command.

Section Claims.
Context {KK : Keccak} {RV : Revm} {AT : AlloyTrie} {OP : OsakaPrecompiles} {TC : TxCodec}
  {EV : Evm} {AR : AlloyRlp} {SH : Sha256} {BS : BlsScalar} {SB : StrictBincode}
  {HB : HostBincode} {HT : HostText} {KC : K256} {LJ : LiveJson}.

(** C22: What live preparation derives. A request is prepared exactly when the opening facts
    are those of an open (or, to terminate, closed) validity-only room, the policy and the
    liabilities are the ones L1 holds, the blocks continue the room's height to a root, every
    admission is signed by the room's signer inside its bond, batch and deadline facts and no
    counter passes 64 bits; and the prepared batch is the one that carries the request's items,
    opens where L1 holds the room, closes as announced, and whose cursors, hashes and roots are
    those of the carried items. The guest leaves no other choice: every batch of the same items
    that it executes from the same opening is the prepared one but for the size of its frame. *)
Theorem prepare_input_exact request input :
  LiveOpeningV1_wf (lpr_opening request) ->
  (prepare_input request = Ok input
   <-> preparable request /\ prepared_from request input)
  /\ (prepare_input request = Ok input ->
      forall batch j, execute_batch_v5 batch = Ok j ->
      carries request batch -> opens_from request (bi5_journal batch) ->
      batch = with_witness_bytes (bi5_encoded_witness_bytes batch) input).
Proof.
  intros W. split; [apply prepare_input_spec, W|].
  intros H batch j E C O. eapply guest_agrees; eassumption.
Qed.

(** C6: What a prepared batch is worth: when preparation succeeds, the frame it hands out
    decodes in the guest to the derived input, its job id and digest are those of that frame,
    and the guest on that frame commits exactly the announced journal hash if and only if the
    frame is within the witness limit; preparation does not check the limit, and beyond it the
    guest refuses. *)
Theorem prepared_batch_provable {HL : HostBincodeLaws} {LL : LiveJsonLaws} program raw prepared :
  cmd_prepare_live_room_batch program raw = Ok prepared ->
  exists request input,
    prepare_request_from_str raw = Some request /\ prepare_input request = Ok input
    /\ plb_journal prepared = bi5_journal input
    /\ bj5_proof_program_id (plb_journal prepared) = program
    /\ plb_journal_hash prepared = hash_batch_journal_v5 (plb_journal prepared)
    /\ plb_prepare_artifact_digest prepared = hex_encode (sha256 (plb_room_witness prepared))
    /\ plb_prover_job_identity prepared
       = job_id_of ROOM_JOB_DOMAIN_V6 (plb_room_witness prepared) program
           (bj5_policy_hash (plb_journal prepared)) (b_ "groth16")
    /\ strip_prefix ROOM_BATCH_MAGIC_V6 (plb_room_witness prepared) ≫= deserialize_batch
       = Some input
    /\ guest_main (plb_room_witness prepared)
       = (if zlen (plb_room_witness prepared) <=? MAX_BATCH_WITNESS_BYTES_V4
          then Ok [Commit (b256_bytes (plb_journal_hash prepared))]
          else Err "v6 room batch STF execution failed"%string).
Proof.
  unfold cmd_prepare_live_room_batch, prepare_witness. intros H.
  apply rbind_Ok in H as (request & Hr & H). apply ok_or_Ok in Hr.
  apply rbind_Ok in H as (input & Hi & H). apply rbind_Ok in H as (o & Ho & H).
  apply map_err_Ok in Ho. apply fail_if_Ok in H as [Hj H]. apply negb_bool_decide_false in Hj.
  apply rbind_Ok in H as (text & Ht & H). apply ok_or_Ok in Ht.
  apply rbind_Ok in H as ([[[decoded req] witness] address] & Hw & H).
  apply rbind_Ok in H as (digest & Hd & H). apply ok_or_Ok, strip_prefix_Some in Hd.
  apply Ok_Ok in H as <-. exists request, input.
  destruct (proof_request_witness program _ _ _ _ _ _ (prepare_input_unsized _ _ Hi) Ht Hw) as [-> Hm].
  pose proof (accepted_run program _ _ _ _ _ Hw) as (R1 & _ & R2 & R3).
  apply room_witness_spec in Hw as (e & d & _ & _ & _ & _ & _ & Ha).
  apply content_address_spec in Ha as (_ & _ & Ha1 & Ha2 & _).
  cbn [plb_journal plb_journal_hash plb_prepare_artifact_digest plb_prover_job_identity
       plb_room_witness].
  split_and!; auto.
  - rewrite Ha1 in Hd. unfold input_digest_of in Hd. apply app_inv_head in Hd. auto.
  - rewrite Ha2, Hm, R2. reflexivity.
  - rewrite R1, with_witness_bytes_twice, <- (prepare_input_unsized _ _ Hi), with_own_witness_bytes.
    reflexivity.
  - rewrite R3. destruct (Z.leb_spec (zlen witness) MAX_BATCH_WITNESS_BYTES_V4) as [L|L].
    + rewrite (executed_frame _ _ _ Ho L), Hj. reflexivity.
    + destruct (oversized_refused input _ L) as [e' ->]. reflexivity.
Qed.
End Claims.

(** ** Witness: the live request of the executed room batch *)
#[local] Existing Instance toy_keccak.
#[local] Existing Instance toy_keccak_range.
#[local] Existing Instance toy_revm.
#[local] Existing Instance toy_trie.
#[local] Existing Instance toy_precompiles.
#[local] Existing Instance room_codec.
#[local] Existing Instance slot_evm.
#[local] Existing Instance toy_rlp.
#[local] Existing Instance demo_sha.
#[local] Existing Instance small_scalar.
#[local] Existing Instance one_batch_bincode.
#[local] Existing Instance one_batch_host.
#[local] Existing Instance one_batch_laws.
#[local] Existing Instance plain_text.

(** The signer of a digest is the digest with the key of the signature's first byte. *)
Definition toy_k256 : K256 := {|
  signature := Z;
  verifying_key := bytes;
  signature_from_slice b := head b;
  normalize_s s := if 100 <? s then Some (s - 100) else None;
  recovery_id_try_from v := if v <=? 3 then Some v else None;
  recover_from_prehash digest s v := Some [4; digest mod 256; s; v];
  to_encoded_point key := key
|}.
#[local] Existing Instance toy_k256.

Definition live_opening (signer : Z) : LiveOpeningV1 := {|
  lop_room_state := 1; lop_deployment_domain := 3; lop_eip712_domain_separator := 55;
  lop_room_id := 7; lop_authorization_mode := 1; lop_cold_template_id := room_template;
  lop_proof_program_id := 21; lop_proof_system_version := 22; lop_policy_hash := room_policy_hash;
  lop_state_root := room_opening_root; lop_participant_root := 77; lop_participant_epoch := 1;
  lop_participant_count := 2; lop_participant_capacity := 128; lop_approver_root := 0;
  lop_approver_epoch := 1; lop_active_count := 0; lop_batch_index := 0; lop_l2_block_height := 9;
  lop_approver_change_cursor := 0; lop_inbox_cursor := 4; lop_admission_cursor := 0;
  lop_forced_cursor := 8; lop_import_cursor := 0; lop_outbox_epoch := 0;
  lop_maximum_admission_window := 50; lop_bond_epoch := 2; lop_admission_signer := signer;
  lop_minimum_service_bond := 10; lop_service_bond := 10; lop_liabilities_hash := room_pre_hash;
  lop_observed_l1_block := 20
|}.
Definition live_request (signer : Z) (admissions : list AdmissionRecordV5) : LiveBatchPrepareRequestV1 := {|
  lpr_schema_version := 1; lpr_production := true; lpr_proof_mode := b_ "groth16";
  lpr_l1_chain_id := 1; lpr_terminal := false; lpr_opening := live_opening signer;
  lpr_closing := mk_LiveClosingV1 77 1 2 30 false; lpr_policy := room_policy;
  lpr_approver_capacity := 0; lpr_pre_approvers := []; lpr_post_approvers := [];
  lpr_approver_changes := []; lpr_admissions := admissions;
  lpr_forced_transactions := room_forced; lpr_pre_liabilities := room_pre;
  lpr_post_liabilities := room_post; lpr_deposits := room_deposits; lpr_withdrawals := [];
  lpr_withdrawal_capacity := 0; lpr_l1_import := None; lpr_compact_state := room_compact;
  lpr_blocks := bi5_blocks room_batch
|}.

Lemma live_opening_wf signer : LiveOpeningV1_wf (live_opening signer).
Proof. unfold LiveOpeningV1_wf, in_u64. cbn. lia. Qed.

(** One signed admission. *)
Definition live_admission : AdmissionRecordV5 :=
  mk_AdmissionRecordV5 (mk_AdmissionReceiptV5 0 41 0 0 60 5 2 1 (repeat 9 64 ++ [28]))
    (mk_AdmissionOutcomeV5 0 41 0 10 0 0).
Definition live_signer : Z :=
  match recover_address (receipt_digest (live_opening 1) live_admission)
          (arc_signature (are_receipt live_admission)) with
  | Ok signer => signer | Err _ => 0 end.
Definition admitting_request : LiveBatchPrepareRequestV1 := live_request live_signer [live_admission].

Lemma admitting_prepared :
  prepare_input admitting_request = Ok (derived_input admitting_request 0).
Proof. vm_compute. reflexivity. Qed.
Lemma other_signer_refused :
  prepare_input (live_request (live_signer + 1) [live_admission])
  = Err "admission receipt is not signed by the live room admission signer"%string.
Proof. vm_compute. reflexivity. Qed.

(** The executed room batch carries the items of a request at its opening. *)
Lemma room_batch_executed : execute_batch_v5 room_batch = Ok (bov5_journal room_outcome).
Proof. unfold execute_batch_v5. rewrite room_accepted. reflexivity. Qed.
Lemma room_batch_carries : carries (live_request 0 []) room_batch.
Proof. split; repeat split. Qed.
Lemma room_batch_opens : opens_from (live_request 0 []) (bi5_journal room_batch).
Proof. split; repeat split. Qed.
Lemma room_request_prepared : prepare_input (live_request 0 []) = Ok unsized_batch.
Proof. vm_compute. reflexivity. Qed.

Lemma prepare_input_exact_witness :
  (preparable admitting_request
   /\ prepared_from admitting_request (derived_input admitting_request 0))
  /\ room_batch = with_witness_bytes (bi5_encoded_witness_bytes room_batch) unsized_batch.
Proof.
  split.
  - exact (proj1 (proj1 (prepare_input_exact admitting_request _ (live_opening_wf _)))
      admitting_prepared).
  - exact (proj2 (prepare_input_exact (live_request 0 []) unsized_batch (live_opening_wf _))
      room_request_prepared room_batch _ room_batch_executed room_batch_carries room_batch_opens).
Defined.

(** The text of a proof request carries the one encodable batch by value. *)
Definition live_text : HostText := {|
  json := bytes;
  json_from_str := Some;
  get_str _ key := if decide (key = "proofMode"%string) then Some (b_ "groth16") else None;
  get_room_witness _ := Some (Some unsized_batch);
  get_template_witness _ := None;
  b64_decode := Some;
  hex_encode b := b
|}.
#[local] Remove Hints plain_text : typeclass_instances.
#[local] Existing Instance live_text.
Definition live_json : LiveJson := {|
  prepare_request_from_str _ := Some (live_request 0 []);
  proof_request_to_string input := option_map (fun _ => [0]) (serialize_batch input)
|}.
#[local] Existing Instance live_json.
#[local] Instance live_json_laws : LiveJsonLaws.
Proof.
  split.
  - intros request input H. injection H as <-. exact unsized_batch_wf.
  - intros input raw H. cbn in H. case_decide as E; [|discriminate]. subst input.
    exists raw. split_and!; reflexivity.
Qed.

Definition live_prepared : PreparedLiveBatch :=
  mk_PreparedLiveBatch (bi5_journal room_batch) (hash_batch_journal_v5 (bi5_journal room_batch))
    (sha256 demo_frame)
    (job_id_of ROOM_JOB_DOMAIN_V6 demo_frame 21 room_policy_hash (b_ "groth16")) demo_frame 2 9.
Lemma live_request_prepared : cmd_prepare_live_room_batch 21 [] = Ok live_prepared.
Proof. vm_compute. reflexivity. Qed.

Lemma prepared_batch_provable_witness :
  zlen (plb_room_witness live_prepared) = 9
  /\ guest_main (plb_room_witness live_prepared)
     = (if zlen (plb_room_witness live_prepared) <=? MAX_BATCH_WITNESS_BYTES_V4
        then Ok [Commit (b256_bytes (plb_journal_hash live_prepared))]
        else Err "v6 room batch STF execution failed"%string).
Proof.
  split; [reflexivity|].
  destruct (prepared_batch_provable 21 [] live_prepared live_request_prepared)
    as (request & input & _ & _ & _ & _ & _ & _ & _ & _ & H).
  exact H.
Defined.
