(* ===== verification/HostHosting.v ===== *)
(** * Hosting commands of the host (risc0/host/src/hosting.rs)

    The blob bundle behind a data-availability statement and the receipts behind an aggregate:
    what the host checks before it proves, and what it accepts when it verifies.  c-kzg, the
    RISC Zero receipts, bincode and serde_json are parameters; proving itself and the
    telemetry of the answers are left out. *)

From S2P Require Import Prelude BlobEval Types Abi HashV5 HashV4 Hosting State StateEvm Policy Settlement RosterV5 ExitV5 LiabilitiesV5 Compact ImportV5 Block BatchData AdmissionV5 BatchV5 Guest HostWitness.
Open Scope Z_scope.

(** c-kzg under the Ethereum settings; a 32-byte value is the integer it spells. *)
Class CKzg := {
  kzg_blob : Type;
  kzg_commitment : Type;
  kzg_proof : Type;
  blob_from_bytes : bytes -> option kzg_blob;
  blob_to_kzg_commitment : kzg_blob -> option kzg_commitment;
  commitment_to_bytes : kzg_commitment -> bytes;
  compute_kzg_proof : kzg_blob -> Z -> option (kzg_proof * Z);
  proof_to_bytes : kzg_proof -> bytes;
  verify_kzg_proof : bytes -> Z -> Z -> bytes -> option bool
}.

(** risc0_zkvm's receipts: bincode's decoder, [InnerReceipt::Fake], [verify] under an image id,
    and the journal bytes. *)
Class Receipts := {
  receipt : Type;
  receipt_deserialize : bytes -> option receipt;
  is_fake : receipt -> bool;
  receipt_verify : receipt -> Z -> bool;
  journal_bytes : receipt -> bytes
}.

(** serde_json: [get], [as_array], equality, the typed members of a request, and the rendering
    of the values of a manifest. *)
Class HostingJson {HT : HostText} := {
  get : json -> string -> option json;
  as_array : json -> option (list json);
  json_eqb : json -> json -> bool;
  get_equivalence_witness : json -> option (option BlobEquivalenceInputV1);
  get_aggregate_witness : json -> option (option AggregateInputV1);
  json_text : bytes -> json;
  json_number : Z -> json;
  json_words : list Z -> json;
  json_byte_strings : list bytes -> json
}.

(** [bincode::serialize] of the two hosting inputs. *)
Class HostingBincode := {
  serialize_equivalence : BlobEquivalenceInputV1 -> option bytes;
  serialize_aggregate : AggregateInputV1 -> option bytes
}.

(** [iter().map(..).collect::<Result<Vec<_>>>()]: the first error ends it. *)
Fixpoint try_collect {E A B} (f : A -> result E B) (l : list A) : result E (list B) :=
  match l with
  | [] => Ok []
  | x :: rest =>
      let? y := f x in
      let? ys := try_collect f rest in
      Ok (y :: ys)
  end.

Record PreparedDataAvailabilityV1 := mk_PreparedDataAvailabilityV1 {
  pda_input : BlobEquivalenceInputV1;
  pda_statement : Z;
  pda_blobs : list bytes;
  pda_kzg_proofs : list bytes
}.

(** Struct updates of the witness. *)
Definition with_bundle (commitments : list bytes) (versioned_hashes points evaluations : list Z)
    (input : BlobEquivalenceInputV1) : BlobEquivalenceInputV1 :=
  mk_BlobEquivalenceInputV1 (bei_deployment_domain input) (bei_room_id input)
    (bei_journal_hash input) (bei_canonical_data input) (bei_blob_start_index input)
    versioned_hashes commitments points evaluations.
Definition set_point (index : nat) (point : Z) (input : BlobEquivalenceInputV1) :=
  with_bundle (bei_commitments input) (bei_blob_versioned_hashes input)
    (<[index := point]> (bei_evaluation_points input)) (bei_evaluations input) input.
Definition set_evaluation (index : nat) (evaluation : Z) (input : BlobEquivalenceInputV1) :=
  with_bundle (bei_commitments input) (bei_blob_versioned_hashes input)
    (bei_evaluation_points input) (<[index := evaluation]> (bei_evaluations input)) input.

Definition require_empty_or_equal {A} `{EqDecision A} (supplied derived : list A)
    (mismatch : string) : result string unit :=
  fail_if negb (bool_decide (supplied = [])) && negb (bool_decide (supplied = derived))
    with mismatch in
  Ok tt.

(** A panic of the worker thread, and a refusal with its context. *)
Definition in_worker {A} (context : string) (m : result hosting_failure A) : result string A :=
  map_err (fun failure =>
    match failure with
    | Hosting.Panicked _ => "KZG bundle worker panicked"%string
    | Hosting.Refused _ => context
    end) m.

Section HostHosting.
Context {KK : Keccak} {SH : Sha256} {BS : BlsScalar} {HT : HostText} {CK : CKzg} {RC : Receipts}
  {HJ : HostingJson} {HB : HostingBincode}.

Definition equivalence_input (request : json) : result string BlobEquivalenceInputV1 :=
  let? value := ok_or (get_equivalence_witness request) "equivalenceWitness is required"%string in
  ok_or value "equivalenceWitness decode"%string.
Definition aggregate_input (request : json) : result string AggregateInputV1 :=
  let? value := ok_or (get_aggregate_witness request) "aggregateWitness is required"%string in
  ok_or value "aggregateWitness decode"%string.

(** [PreparedDataAvailabilityV1::manifest], an object as its fields. *)
Definition manifest (self : PreparedDataAvailabilityV1) (equivalence_seal : bytes)
  : list (string * json) :=
  let input := pda_input self in
  [ ("canonicalDataHash"%string,
      json_text (b_ "0x" ++ hex_encode (b256_bytes (keccak256 (bei_canonical_data input)))));
    ("canonicalDataLength"%string, json_number (zlen (bei_canonical_data input)));
    ("blobStartIndex"%string, json_number (bei_blob_start_index input));
    ("blobVersionedHashes"%string, json_words (bei_blob_versioned_hashes input));
    ("commitments"%string, json_byte_strings (bei_commitments input));
    ("evaluationPoints"%string, json_words (bei_evaluation_points input));
    ("evaluations"%string, json_words (bei_evaluations input));
    ("kzgProofs"%string, json_byte_strings (pda_kzg_proofs self));
    ("equivalenceSeal"%string, json_text equivalence_seal);
    ("fallbackDeadlineBlock"%string, json_number 0);
    ("fallbackSignature"%string, json_text (b_ "0x")) ].
Definition asserted_fields : list string :=
  [ "canonicalDataHash"; "canonicalDataLength"; "blobStartIndex"; "blobVersionedHashes";
    "commitments"; "evaluationPoints"; "evaluations"; "kzgProofs" ]%string.

(** The comparison of one asserted field with the derived manifest. *)
Definition assert_field (asserted : json) (expected : list (string * json)) (_ : unit)
    (field : string) : result string unit :=
  match get asserted field with
  | Some value =>
      fail_if negb (existsb (fun entry => String.eqb entry.1 field && json_eqb value entry.2) expected)
        with "dataAvailabilityManifest field does not match the canonical blob bundle"%string in
      Ok tt
  | None => Ok tt
  end.

(** The body of the loop that fills the evaluation points. *)
Definition derive_point (input : BlobEquivalenceInputV1) (index : Z)
  : result string BlobEquivalenceInputV1 :=
  let? point := ok_or (blob_equivalence_challenge_v1 input index)
                  "derive canonical blob evaluation point"%string in
  Ok (set_point (Z.to_nat index) point input).

(** The body of the loop that opens the blobs. *)
Definition open_blob (blobs : list kzg_blob) (commitments : list kzg_commitment)
    (s : BlobEquivalenceInputV1 * list bytes) (index : Z)
  : result string (BlobEquivalenceInputV1 * list bytes) :=
  let '(input, kzg_proofs) := s in
  let indexed {A} (values : list A) := ok_or (znth values index) "KZG bundle worker panicked"%string in
  let? z := indexed (bei_evaluation_points input) in
  let? blob := indexed blobs in
  let? (proof, c_kzg_y) := ok_or (compute_kzg_proof blob z) "canonical blob KZG opening"%string in
  let? derived_y := in_worker "canonical blob evaluation" (blob_equivalence_evaluation_v1 input index) in
  fail_if negb (derived_y =? c_kzg_y)
    with "canonical blob evaluation disagrees with c-kzg"%string in
  let? commitment := indexed commitments in
  let? verified := ok_or (verify_kzg_proof (commitment_to_bytes commitment) z c_kzg_y (proof_to_bytes proof))
                     "canonical blob KZG verification"%string in
  fail_if negb verified with "canonical blob generated an invalid KZG proof"%string in
  Ok (set_evaluation (Z.to_nat index) derived_y input, kzg_proofs ++ [proof_to_bytes proof]).

Definition prepare_data_availability_bundle_inner_v1 (request : json)
  : result string PreparedDataAvailabilityV1 :=
  let? supplied := equivalence_input request in
  fail_if bool_decide (bei_canonical_data supplied = [])
    with "equivalenceWitness.canonicalData must not be empty"%string in
  let blob_count := div_ceil (zlen (bei_canonical_data supplied)) CANONICAL_BYTES_PER_BLOB_V1 in
  fail_if (blob_count =? 0) || (MAX_BLOBS_PER_BATCH_V1 <? blob_count)
    with "canonical data requires an unsupported number of blobs"%string in
  let indices := map Z.of_nat (seq 0 (Z.to_nat blob_count)) in
  let? blob_bytes := in_worker "canonical blob"
                       (try_collect (canonical_blob_bytes_v1 (bei_canonical_data supplied)) indices) in
  let? blobs := try_collect (fun b => ok_or (blob_from_bytes b) "canonical blob decode"%string)
                  blob_bytes in
  let? kzg_commitments :=
    try_collect (fun blob => ok_or (blob_to_kzg_commitment blob) "canonical blob commitment"%string)
      blobs in
  let commitments := map commitment_to_bytes kzg_commitments in
  let versioned_hashes := map blob_versioned_hash_v1 commitments in
  let? _ := require_empty_or_equal (bei_commitments supplied) commitments
              "equivalenceWitness.commitments does not match the canonical blob bundle" in
  let? _ := require_empty_or_equal (bei_blob_versioned_hashes supplied) versioned_hashes
              "equivalenceWitness.blobVersionedHashes does not match the canonical blob bundle" in
  let zeros := repeat B256_ZERO (Z.to_nat blob_count) in
  let input := with_bundle commitments versioned_hashes zeros zeros supplied in
  let? input := for_each derive_point input indices in
  let? _ := require_empty_or_equal (bei_evaluation_points supplied) (bei_evaluation_points input)
              "equivalenceWitness.evaluationPoints does not match the canonical blob bundle" in
  let? (input, kzg_proofs) := for_each (open_blob blobs kzg_commitments) (input, []) indices in
  let? _ := require_empty_or_equal (bei_evaluations supplied) (bei_evaluations input)
              "equivalenceWitness.evaluations does not match the canonical blob bundle" in
  let? statement := in_worker "blob-equivalence witness invalid" (validate_blob_equivalence_v1 input) in
  let prepared := mk_PreparedDataAvailabilityV1 input statement blob_bytes kzg_proofs in
  let? _ :=
    match get request "dataAvailabilityManifest" with
    | Some asserted =>
        for_each (assert_field asserted (manifest prepared (b_ "0x"))) tt asserted_fields
    | None => Ok tt
    end in
  Ok prepared.

(** [framed], at its two types. *)
Definition framed_equivalence (value : BlobEquivalenceInputV1) : result string bytes :=
  let? encoded := ok_or (serialize_equivalence value) "serialize hosting witness"%string in
  Ok (BLOB_EQUIVALENCE_MAGIC_V1 ++ encoded).
Definition framed_aggregate (value : AggregateInputV1) : result string bytes :=
  let? encoded := ok_or (serialize_aggregate value) "serialize hosting witness"%string in
  Ok (RECURSIVE_AGGREGATE_MAGIC_V1 ++ encoded).

Definition proof_mode (request : json) : result string bytes :=
  let mode := default (b_ "groth16") (get_str request "proofMode") in
  fail_if negb (bool_decide (mode = b_ "succinct") || bool_decide (mode = b_ "groth16"))
    with "unsupported proofMode"%string in
  Ok mode.

(** ** Receipts *)
Definition decode_receipt (value : json) (field : string) : result string receipt :=
  let? encoded := ok_or (get_str value field) (field +:+ " is required")%string in
  let? bytes := ok_or (b64_decode encoded) (field +:+ " is not valid base64")%string in
  let? receipt := ok_or (receipt_deserialize bytes) (field +:+ " receipt decode")%string in
  fail_if is_fake receipt with (field +:+ " is a development receipt")%string in
  Ok receipt.

(** receipt.rs. *)
Definition require_committed_journal_hash (bytes expected : bytes) : result string unit :=
  fail_if negb (zlen bytes =? 32)
    with "guest journal is not exactly one 32-byte statement hash"%string in
  fail_if negb (bool_decide (bytes = expected))
    with "guest committed another statement than native execution computed"%string in
  Ok tt.

Definition verify_claim (receipt : receipt) (program_id statement : Z) : result string unit :=
  fail_if negb (receipt_verify receipt program_id)
    with "member receipt verification failed"%string in
  require_committed_journal_hash (journal_bytes receipt) (b256_bytes statement).

(** The body of the loop over the members and their receipts. *)
Definition member_receipts (assumptions : list receipt)
    (item : AggregateMemberStatementV1 * json) : result string (list receipt) :=
  let '(member, value) := item in
  let? room := decode_receipt value "roomReceiptB64" in
  let? _ := verify_claim room (ams_room_program_id member) (ams_journal_hash member) in
  let assumptions := assumptions ++ [room] in
  if negb (ams_equivalence_program_id member =? B256_ZERO) then
    let? equivalence := decode_receipt value "equivalenceReceiptB64" in
    let? _ := verify_claim equivalence (ams_equivalence_program_id member)
                (ams_equivalence_statement member) in
    Ok (assumptions ++ [equivalence])
  else
    fail_if bool_decide (is_Some (get value "equivalenceReceiptB64"))
      with "member is calldata-backed and must not include an equivalence receipt"%string in
    Ok assumptions.

Definition aggregate_assumptions (request : json) (input : AggregateInputV1)
  : result string (list receipt) :=
  let? receipt_values := ok_or (get request "memberReceipts" ≫= as_array)
                           "memberReceipts is required"%string in
  fail_if negb (zlen receipt_values =? zlen (agi_members input))
    with "memberReceipts length must equal aggregateWitness.members length"%string in
  for_each member_receipts [] (combine (agi_members input) receipt_values).

(** ** The commands: the parts of their answers that are not telemetry *)
Context (program : Z).

Definition cmd_execute_aggregate_v1 (raw : bytes) : result string (Z * Z * Z) :=
  let? request := ok_or (json_from_str raw) "stdin is not JSON"%string in
  let? input := aggregate_input request in
  let? statement := map_err (fun _ => "aggregate witness invalid"%string) (validate_aggregate_v1 input) in
  let? assumptions := aggregate_assumptions request input in
  Ok (statement, zlen (agi_members input), zlen assumptions).

Definition cmd_verify_aggregate_v1 (raw : bytes) : result string Z :=
  let? request := ok_or (json_from_str raw) "stdin is not JSON"%string in
  let? input := aggregate_input request in
  let? statement := map_err (fun _ => "aggregate witness invalid"%string) (validate_aggregate_v1 input) in
  let? receipt := decode_receipt request "receiptB64" in
  let? _ := verify_claim receipt program statement in
  Ok statement.

Definition cmd_prepare_data_availability_v1 (raw : bytes) : result string PreparedDataAvailabilityV1 :=
  let? request := ok_or (json_from_str raw) "stdin is not JSON"%string in
  prepare_data_availability_bundle_inner_v1 request.

Definition cmd_verify_data_availability_v1 (raw : bytes) : result string PreparedDataAvailabilityV1 :=
  let? request := ok_or (json_from_str raw) "stdin is not JSON"%string in
  let? prepared := prepare_data_availability_bundle_inner_v1 request in
  let? receipt := decode_receipt request "receiptB64" in
  let? _ := verify_claim receipt program (pda_statement prepared) in
  Ok prepared.
End HostHosting.

(** * Properties *)

(** The guest's strict decoder reads back what bincode wrote. *)
Class HostingBincodeLaws {HB : HostingBincode} {SB : StrictBincode} : Prop := {
  equivalence_serialized input encoded :
    serialize_equivalence input = Some encoded -> deserialize_equivalence encoded = Some input;
  aggregate_serialized input encoded :
    serialize_aggregate input = Some encoded -> deserialize_aggregate encoded = Some input
}.

Lemma try_collect_Ok {E A B} (f : A -> result E B) l ys :
  try_collect f l = Ok ys <-> Forall2 (fun x y => f x = Ok y) l ys.
Proof.
  revert ys. induction l as [|x l IH]; intros ys; cbn [try_collect].
  - rewrite Ok_Ok. split; [intros <-; constructor|intros H; inversion H; reflexivity].
  - rewrite rbind_Ok. split.
    + intros (y & Hy & H). apply rbind_Ok in H as (zs & Hz & H). apply Ok_Ok in H as <-.
      constructor; [exact Hy|apply IH, Hz].
    + intros H. inversion H as [|? y ? zs Hy Hz]; subst. exists y. split; [exact Hy|].
      apply rbind_Ok. exists zs. split; [apply IH, Hz|reflexivity].
Qed.
Lemma require_empty_or_equal_spec {A} `{EqDecision A} (supplied derived : list A) mismatch :
  require_empty_or_equal supplied derived mismatch = Ok tt <-> supplied = [] \/ supplied = derived.
Proof.
  unfold require_empty_or_equal.
  rewrite fail_if_Ok, andb_false_iff, !negb_bool_decide_false. tauto.
Qed.
Lemma in_worker_Ok {A} context (m : result hosting_failure A) a : in_worker context m = Ok a <-> m = Ok a.
Proof. apply map_err_Ok. Qed.
(** The elements of [0..n] are their positions. *)
Lemma index_at n done x rest :
  map Z.of_nat (seq 0 n) = done ++ x :: rest ->
  x = Z.of_nat (length done) /\ (length done < n)%nat.
Proof.
  intros H. assert (L : map Z.of_nat (seq 0 n) !! length done = Some x).
  { rewrite H, lookup_app_r, Nat.sub_diag by lia. reflexivity. }
  apply list_lookup_fmap_Some in L as (k & -> & Hk). apply lookup_seq in Hk as [-> Hk]. auto.
Qed.

(** ** The receipts of an aggregate *)
Section Assumptions.
Context {KK : Keccak} {HT : HostText} {RC : Receipts} {HJ : HostingJson}.

(** A receipt that resolves a verification call of the guest. *)
Definition discharges (r : receipt) (call : host_call) : Prop :=
  match call with
  | Verify image claim =>
      is_fake r = false /\ receipt_verify r image = true /\ journal_bytes r = b256_bytes claim
  | Commit _ => False
  end.

Lemma claim_discharges value field r program statement :
  decode_receipt value field = Ok r -> verify_claim r program statement = Ok tt ->
  discharges r (Verify program statement).
Proof.
  unfold decode_receipt, verify_claim, require_committed_journal_hash. intros Hd Hv.
  do 3 apply rbind_Ok in Hd as (? & _ & Hd). apply fail_if_Ok in Hd as [G Hd].
  apply Ok_Ok in Hd as ->. apply fail_if_Ok in Hv as [G1 Hv]. apply fail_if_Ok in Hv as [_ Hv].
  apply fail_if_Ok in Hv as [G2 _]. apply negb_false_iff in G1. apply negb_bool_decide_false in G2.
  split_and!; assumption.
Qed.

Lemma member_receipts_spec done member value out :
  member_receipts done (member, value) = Ok out ->
  exists rs, out = done ++ rs /\ Forall2 discharges rs (member_assumptions member).
Proof.
  unfold member_receipts, member_assumptions. intros H.
  apply rbind_Ok in H as (room & Hr & H). apply rbind_Ok in H as ([] & Hv & H).
  pose proof (claim_discharges _ _ _ _ _ Hr Hv) as D. cbv zeta in H.
  destruct (negb _).
  - apply rbind_Ok in H as (eq & He & H). apply rbind_Ok in H as ([] & Hw & H).
    apply Ok_Ok in H as <-. pose proof (claim_discharges _ _ _ _ _ He Hw) as D'.
    exists [room; eq]. rewrite <- app_assoc. split; [reflexivity|].
    constructor; [exact D|]. constructor; [exact D'|constructor].
  - apply fail_if_Ok in H as [_ H]. apply Ok_Ok in H as <-. exists [room].
    split; [reflexivity|]. constructor; [exact D|constructor].
Qed.

Lemma members_receipts_spec members values done out :
  length values = length members ->
  for_each member_receipts done (combine members values) = Ok out ->
  exists rs, out = done ++ rs /\ Forall2 discharges rs (concat (map member_assumptions members)).
Proof.
  revert values done. induction members as [|m members IH]; intros [|v values] done L H; try discriminate.
  - apply Ok_Ok in H as <-. exists []. rewrite app_nil_r. split; [reflexivity|constructor].
  - cbn [combine for_each] in H. apply rbind_Ok in H as (mid & Hm & H).
    apply member_receipts_spec in Hm as (r1 & -> & F1).
    apply IH in H as (r2 & -> & F2); [|cbn in L; lia].
    exists (r1 ++ r2). rewrite app_assoc. split; [reflexivity|]. apply Forall2_app; assumption.
Qed.

Lemma aggregate_assumptions_spec request input receipts :
  aggregate_assumptions request input = Ok receipts ->
  Forall2 discharges receipts (concat (map member_assumptions (agi_members input))).
Proof.
  unfold aggregate_assumptions. intros H. apply rbind_Ok in H as (values & _ & H).
  apply fail_if_Ok in H as [G H]. apply negb_eqb_false in G. unfold zlen in G.
  apply members_receipts_spec in H as (rs & -> & F); [exact F|lia].
Qed.
End Assumptions.

(** ** The blob bundle *)
Section Bundle.
Context {KK : Keccak} {SH : Sha256} {BS : BlsScalar} {HT : HostText} {CK : CKzg}
  {HJ : HostingJson}.

Lemma derive_points_spec input indices input' :
  for_each derive_point input indices = Ok input' ->
  exists points, input' = with_bundle (bei_commitments input) (bei_blob_versioned_hashes input)
                            points (bei_evaluations input) input.
Proof.
  apply (for_each_inv (fun _ i => exists points,
    i = with_bundle (bei_commitments input) (bei_blob_versioned_hashes input) points
          (bei_evaluations input) input)).
  - exists (bei_evaluation_points input). destruct input. reflexivity.
  - intros done x i1 i2 (points & ->) _ H. unfold derive_point in H.
    apply rbind_Ok in H as (point & _ & H). apply Ok_Ok in H as <-. eexists. reflexivity.
Qed.

(** An opening c-kzg has verified: the commitment to the blob opens at the point to the value. *)
Definition opening_verified (input : BlobEquivalenceInputV1) (proofs : list bytes) (index : Z) : Prop :=
  exists commitment z y proof,
    znth (bei_commitments input) index = Some commitment
    /\ znth (bei_evaluation_points input) index = Some z
    /\ znth (bei_evaluations input) index = Some y
    /\ znth proofs index = Some proof
    /\ verify_kzg_proof commitment z y proof = Some true.

(** The state of the opening loop after the blobs [done]. *)
Definition openings_done (input0 : BlobEquivalenceInputV1) (done : list Z)
    (s : BlobEquivalenceInputV1 * list bytes) : Prop :=
  (exists evaluations,
     s.1 = with_bundle (bei_commitments input0) (bei_blob_versioned_hashes input0)
             (bei_evaluation_points input0) evaluations input0
     /\ length evaluations = length (bei_evaluations input0))
  /\ length s.2 = length done
  /\ forall k, (k < length done)%nat -> opening_verified s.1 s.2 (Z.of_nat k).

Lemma open_blob_step input0 blobs commitments n done x rest s1 s2 :
  bei_commitments input0 = map commitment_to_bytes commitments ->
  length (bei_evaluations input0) = n ->
  map Z.of_nat (seq 0 n) = done ++ x :: rest -> openings_done input0 done s1 ->
  open_blob blobs commitments s1 x = Ok s2 -> openings_done input0 (done ++ [x]) s2.
Proof.
  intros Hc Hn Hl ((evaluations & E & L) & Lp & Hv) H. destruct s1 as [i proofs]. cbn [fst snd] in *.
  apply index_at in Hl as [-> Hk]. unfold open_blob in H.
  apply rbind_Ok in H as (z & Hz & H). apply ok_or_Ok in Hz.
  apply rbind_Ok in H as (blob & _ & H). apply rbind_Ok in H as ([proof y] & _ & H).
  apply rbind_Ok in H as (y' & _ & H). apply fail_if_Ok in H as [G H]. apply negb_eqb_false in G as ->.
  apply rbind_Ok in H as (c & Hcm & H). apply ok_or_Ok in Hcm.
  apply rbind_Ok in H as (ok & Hok & H). apply ok_or_Ok in Hok.
  apply fail_if_Ok in H as [G H]. apply negb_false_iff in G as ->. apply Ok_Ok in H as <-.
  subst i. split; [|split].
  - cbn [fst]. exists (<[length done := y]> evaluations).
    rewrite Nat2Z.id, length_insert. split; [reflexivity|exact L].
  - cbn [snd]. rewrite !length_app, Lp. reflexivity.
  - intros k Hk'. cbn [fst snd]. rewrite length_app in Hk'. cbn [length] in Hk'.
    rewrite znth_lookup in Hz. rewrite znth_lookup in Hcm. rewrite Nat2Z.id.
    destruct (Nat.eq_dec k (length done)) as [->|Hne].
    + exists (commitment_to_bytes c), z, y, (proof_to_bytes proof). rewrite !znth_lookup.
      cbn [set_evaluation with_bundle bei_commitments bei_evaluation_points bei_evaluations] in *.
      split_and!; [|exact Hz| | |exact Hok].
      * rewrite Hc, list_lookup_fmap, Hcm. reflexivity.
      * apply list_lookup_insert_eq. lia.
      * rewrite <- Lp. apply list_lookup_middle. reflexivity.
    + destruct (Hv k) as (c' & z' & w & p' & V1 & V2 & V3 & V4 & V5); [lia|].
      exists c', z', w, p'. rewrite znth_lookup in V1. rewrite znth_lookup in V2.
      rewrite znth_lookup in V3. rewrite znth_lookup in V4. rewrite !znth_lookup.
      cbn [set_evaluation with_bundle bei_commitments bei_evaluation_points bei_evaluations] in *.
      split_and!; [exact V1|exact V2| | |exact V5].
      * rewrite list_lookup_insert_ne by congruence. exact V3.
      * apply lookup_app_l_Some. exact V4.
Qed.

Lemma open_blobs_spec input0 blobs commitments n s :
  bei_commitments input0 = map commitment_to_bytes commitments ->
  length (bei_evaluations input0) = n ->
  for_each (open_blob blobs commitments) (input0, []) (map Z.of_nat (seq 0 n)) = Ok s ->
  openings_done input0 (map Z.of_nat (seq 0 n)) s.
Proof.
  intros Hc Hn. apply for_each_inv_at.
  - split; [exists (bei_evaluations input0); destruct input0; auto|]. split; [reflexivity|].
    intros k Hk. inversion Hk.
  - intros done x rest s1 s2 Hl I H. eapply open_blob_step; eassumption.
Qed.

(** A derived vector is the supplied one, where one was supplied. *)
Definition respects {A} (supplied derived : list A) : Prop := supplied = [] \/ supplied = derived.

(** What a bundle is, given the witness it was derived from. *)
Record bundle_of (supplied : BlobEquivalenceInputV1) (p : PreparedDataAvailabilityV1) : Prop := {
  bu_input : exists commitments points evaluations,
    pda_input p = with_bundle commitments (map blob_versioned_hash_v1 commitments) points
                    evaluations supplied
    /\ respects (bei_commitments supplied) commitments
    /\ respects (bei_evaluation_points supplied) points
    /\ respects (bei_evaluations supplied) evaluations;
  bu_hashes : respects (bei_blob_versioned_hashes supplied)
                (bei_blob_versioned_hashes (pda_input p));
  bu_statement : validate_blob_equivalence_v1 (pda_input p) = Ok (pda_statement p);
  bu_blobs : Forall2 (fun index blob => canonical_blob_bytes_v1 (bei_canonical_data supplied) index = Ok blob)
               (map Z.of_nat (seq 0 (length (pda_blobs p)))) (pda_blobs p);
  bu_count : zlen (pda_blobs p)
             = div_ceil (zlen (bei_canonical_data supplied)) CANONICAL_BYTES_PER_BLOB_V1;
  bu_openings : length (pda_kzg_proofs p) = length (pda_blobs p)
    /\ forall k, (k < length (pda_blobs p))%nat ->
         opening_verified (pda_input p) (pda_kzg_proofs p) (Z.of_nat k)
}.

Lemma bundle_spec request p :
  prepare_data_availability_bundle_inner_v1 request = Ok p ->
  exists supplied, equivalence_input request = Ok supplied /\ bundle_of supplied p.
Proof.
  unfold prepare_data_availability_bundle_inner_v1. cbv zeta. intros H.
  apply rbind_Ok in H as (supplied & Hs & H). exists supplied. split; [exact Hs|].
  apply fail_if_Ok in H as [_ H]. apply fail_if_Ok in H as [G H].
  apply orb_false_iff in G as [G _]. apply Z.eqb_neq in G.
  set (count := div_ceil (zlen (bei_canonical_data supplied)) CANONICAL_BYTES_PER_BLOB_V1) in *.
  apply rbind_Ok in H as (raw & Hraw & H). apply in_worker_Ok, try_collect_Ok in Hraw.
  apply rbind_Ok in H as (blobs & _ & H). apply rbind_Ok in H as (commitments & _ & H).
  apply rbind_Ok in H as ([] & R1 & H). apply require_empty_or_equal_spec in R1.
  apply rbind_Ok in H as ([] & R2 & H). apply require_empty_or_equal_spec in R2.
  apply rbind_Ok in H as (input & Hp & H). apply derive_points_spec in Hp as (points & ->).
  apply rbind_Ok in H as ([] & R3 & H). apply require_empty_or_equal_spec in R3.
  apply rbind_Ok in H as ([input proofs] & Ho & H).
  apply open_blobs_spec in Ho as ((evaluations & E & L) & Lp & Hv);
    [|reflexivity|apply repeat_length].
  apply rbind_Ok in H as ([] & R4 & H). apply require_empty_or_equal_spec in R4.
  apply rbind_Ok in H as (statement & Hst & H). apply in_worker_Ok in Hst.
  apply rbind_Ok in H as ([] & _ & H). apply Ok_Ok in H as <-.
  cbn [fst snd] in *. subst input. pose proof (Forall2_length _ _ _ Hraw) as Lr.
  rewrite length_map, length_seq in Lr, Lp, Hv.
  assert (Hc : 0 <= count) by (unfold count, div_ceil, zlen; apply Z.div_pos; [change CANONICAL_BYTES_PER_BLOB_V1 with 126976; lia|reflexivity]).
  split; cbn [pda_input pda_statement pda_blobs pda_kzg_proofs].
  - exists (map commitment_to_bytes commitments), points, evaluations. auto.
  - exact R2.
  - exact Hst.
  - rewrite <- Lr. exact Hraw.
  - fold count. unfold zlen. lia.
  - rewrite <- Lr. auto.
Qed.
End Bundle.

Section Claims.
Context {KK : Keccak} {RV : Revm} {AT : AlloyTrie} {OP : OsakaPrecompiles} {TC : TxCodec}
  {EV : Evm} {AR : AlloyRlp} {SH : Sha256} {BS : BlsScalar} {SB : StrictBincode}
  {HT : HostText} {CK : CKzg} {RC : Receipts} {HJ : HostingJson} {HB : HostingBincode}
  {HL : HostingBincodeLaws}.

Lemma equivalence_runs input frame statement :
  framed_equivalence input = Ok frame -> validate_blob_equivalence_v1 input = Ok statement ->
  guest_main frame = Ok [Commit (b256_bytes statement)].
Proof.
  unfold framed_equivalence. intros Hf Hs. apply rbind_Ok in Hf as (e & He & Hf).
  apply ok_or_Ok in He. apply (proj1 (Ok_Ok _ _)) in Hf as <-. unfold guest_main.
  rewrite !strip_prefix_other by (reflexivity || discriminate). rewrite strip_prefix_app.
  unfold run_equivalence. rewrite (equivalence_serialized _ _ He). cbn [ok_or rbind].
  rewrite Hs. reflexivity.
Qed.
Lemma aggregate_runs input frame statement :
  framed_aggregate input = Ok frame -> validate_aggregate_v1 input = Ok statement ->
  guest_main frame
  = Ok (concat (map member_assumptions (agi_members input)) ++ [Commit (b256_bytes statement)]).
Proof.
  unfold framed_aggregate. intros Hf Hs. apply rbind_Ok in Hf as (e & He & Hf).
  apply ok_or_Ok in He. apply (proj1 (Ok_Ok _ _)) in Hf as <-. unfold guest_main.
  rewrite !strip_prefix_other by (reflexivity || discriminate). rewrite strip_prefix_app.
  unfold run_aggregate. rewrite (aggregate_serialized _ _ He). cbn [ok_or rbind].
  rewrite Hs. reflexivity.
Qed.

(** C7: The receipts the host collects are the ones the guest asks for: when an aggregate
    request is accepted, the guest on the framed aggregate commits the answered statement, and
    the collected receipts, none of them a development receipt, match its verification calls
    one by one and in order, each verified under the call's image and committing the call's
    claim. *)
Theorem aggregate_receipts_discharge raw statement members count :
  cmd_execute_aggregate_v1 raw = Ok (statement, members, count) ->
  exists request input receipts calls,
    json_from_str raw = Some request /\ aggregate_input request = Ok input
    /\ aggregate_assumptions request input = Ok receipts
    /\ members = zlen (agi_members input) /\ count = zlen receipts
    /\ Forall2 discharges receipts calls
    /\ forall frame, framed_aggregate input = Ok frame ->
         guest_main frame = Ok (calls ++ [Commit (b256_bytes statement)]).
Proof.
  unfold cmd_execute_aggregate_v1. intros H.
  apply rbind_Ok in H as (request & Hr & H). apply ok_or_Ok in Hr.
  apply rbind_Ok in H as (input & Hi & H). apply rbind_Ok in H as (s & Hs & H).
  apply map_err_Ok in Hs. apply rbind_Ok in H as (receipts & Ha & H).
  apply (proj1 (Ok_Ok _ _)) in H. injection H as <- <- <-.
  exists request, input, receipts, (concat (map member_assumptions (agi_members input))).
  pose proof (aggregate_assumptions_spec _ _ _ Ha). split_and!; auto.
  intros frame Hf. apply aggregate_runs; assumption.
Qed.

(** C14: A published blob bundle is the guest's: a prepared bundle keeps the room, the journal
    and the public bytes of the request and contradicts none of the vectors it supplies, its
    blobs are the canonical blobs of those bytes, each with an opening c-kzg verified at the
    derived point to the derived value, and the guest on the framed witness commits exactly
    the bundle's statement. *)
Theorem prepared_bundle_published raw p :
  cmd_prepare_data_availability_v1 raw = Ok p ->
  exists request supplied,
    json_from_str raw = Some request /\ equivalence_input request = Ok supplied
    /\ bundle_of supplied p
    /\ forall frame, framed_equivalence (pda_input p) = Ok frame ->
         guest_main frame = Ok [Commit (b256_bytes (pda_statement p))].
Proof.
  unfold cmd_prepare_data_availability_v1. intros H.
  apply rbind_Ok in H as (request & Hr & H). apply ok_or_Ok in Hr.
  apply bundle_spec in H as (supplied & Hs & B). exists request, supplied. split_and!; auto.
  intros frame Hf. eapply equivalence_runs; [exact Hf|apply B].
Qed.
End Claims.

(** ** Witnesses: the aggregate of the executed room batch, and the blob of one public byte *)
#[local] Existing Instance toy_keccak.
#[local] Existing Instance toy_revm.
#[local] Existing Instance toy_trie.
#[local] Existing Instance toy_precompiles.
#[local] Existing Instance room_codec.
#[local] Existing Instance slot_evm.
#[local] Existing Instance toy_rlp.
#[local] Existing Instance demo_sha.
#[local] Existing Instance small_scalar.

#[local] Instance AggregateMemberStatementV1_eq_dec : EqDecision AggregateMemberStatementV1.
Proof. solve_decision. Defined.
#[local] Instance AggregateInputV1_eq_dec : EqDecision AggregateInputV1.
Proof. solve_decision. Defined.
#[local] Instance BlobEquivalenceInputV1_eq_dec : EqDecision BlobEquivalenceInputV1.
Proof. solve_decision. Defined.

(** One aggregate and one equivalence input have an encoding. *)
Definition hosting_decoder : StrictBincode := {|
  deserialize_batch _ := None;
  deserialize_template _ := None;
  deserialize_equivalence encoded := if decide (encoded = [2]) then Some demo_equivalence else None;
  deserialize_aggregate encoded := if decide (encoded = [3]) then Some demo_settlement else None
|}.
Definition hosting_encoder : HostingBincode := {|
  serialize_equivalence input := if decide (input = demo_equivalence) then Some [2] else None;
  serialize_aggregate input := if decide (input = demo_settlement) then Some [3] else None
|}.
#[local] Existing Instance hosting_decoder.
#[local] Existing Instance hosting_encoder.
#[local] Instance hosting_laws : HostingBincodeLaws.
Proof.
  split; intros input encoded H; cbn in H; case_decide as E; try discriminate;
    injection H as <-; rewrite E; reflexivity.
Qed.

(** Values: 0 is the request, 1 the array of member receipts, 2 its one element. *)
Definition receipt_text : HostText := {|
  json := Z;
  json_from_str _ := Some 0;
  get_str value key :=
    if decide (value = 2 /\ key = "roomReceiptB64"%string) then Some [1]
    else if decide (value = 2 /\ key = "equivalenceReceiptB64"%string) then Some [2] else None;
  get_room_witness _ := None;
  get_template_witness _ := None;
  b64_decode := Some;
  hex_encode b := b
|}.
#[local] Existing Instance receipt_text.
Definition demo_supplied : BlobEquivalenceInputV1 := with_bundle [] [] [749] [] demo_equivalence.
Definition receipt_json : HostingJson := {|
  get value key := if decide (value = 0 /\ key = "memberReceipts"%string) then Some 1 else None;
  as_array value := if decide (value = 1) then Some [2] else None;
  json_eqb := Z.eqb;
  get_equivalence_witness _ := Some (Some demo_supplied);
  get_aggregate_witness _ := Some (Some demo_settlement);
  json_text _ := 3;
  json_number n := n;
  json_words _ := 4;
  json_byte_strings _ := 5
|}.
(** Receipt 1 is the batch's, receipt 2 the equivalence's. *)
Definition numbered_receipts : Receipts := {|
  receipt := Z;
  receipt_deserialize b := head b;
  is_fake r := negb (r <=? 2);
  receipt_verify _ image := image =? demo_program;
  journal_bytes r :=
    b256_bytes (if r =? 1 then hash_batch_journal_v5 (bi5_journal room_batch) else demo_statement)
|}.
#[local] Existing Instance receipt_json.
#[local] Existing Instance numbered_receipts.

Lemma demo_aggregate_accepted :
  cmd_execute_aggregate_v1 [] = Ok (aggregate_statement_v1 demo_settlement, 1, 2).
Proof. vm_compute. reflexivity. Qed.

Lemma aggregate_receipts_discharge_witness :
  exists receipts calls,
    2 = zlen receipts /\ Forall2 discharges receipts calls
    /\ guest_main (RECURSIVE_AGGREGATE_MAGIC_V1 ++ [3])
       = Ok (calls ++ [Commit (b256_bytes (aggregate_statement_v1 demo_settlement))]).
Proof.
  destruct (aggregate_receipts_discharge [] _ _ _ demo_aggregate_accepted)
    as (request & input & receipts & calls & _ & Hi & _ & _ & Hn & F & Hg).
  exists receipts, calls. split; [exact Hn|]. split; [exact F|].
  apply Hg. injection Hi as <-. unfold framed_aggregate, serialize_aggregate, hosting_encoder.
  rewrite decide_True by reflexivity. reflexivity.
Defined.

(** A commitment scheme of one commitment, whose openings are right at the value [3544]. *)
Definition one_commitment : CKzg := {|
  kzg_blob := bytes;
  kzg_commitment := unit;
  kzg_proof := unit;
  blob_from_bytes := Some;
  blob_to_kzg_commitment _ := Some tt;
  commitment_to_bytes _ := demo_commitment;
  compute_kzg_proof _ _ := Some (tt, 3544);
  proof_to_bytes _ := [8];
  verify_kzg_proof _ _ y _ := Some (y =? 3544)
|}.
#[local] Existing Instance one_commitment.

Definition demo_blob : bytes :=
  match canonical_blob_bytes_v1 demo_data 0 with Ok blob => blob | Err _ => [] end.
Lemma demo_blob_packed : canonical_blob_bytes_v1 demo_data 0 = Ok demo_blob.
Proof. unfold demo_blob, canonical_blob_bytes_v1. rewrite demo_values. reflexivity. Qed.

(** The value of the blob at the challenge, from the interpolation of an impulse. *)
Lemma demo_evaluation input :
  bei_canonical_data input = demo_data -> bei_evaluation_points input = [749] ->
  blob_equivalence_evaluation_v1 input 0 = Ok 3544.
Proof.
  intros Hd Hp. unfold blob_equivalence_evaluation_v1. rewrite Hd, Hp, demo_values.
  assert (E : @scalar_from_be small_scalar 749 = Some (small_residue 749)) by reflexivity.
  change (znth [749] 0) with (Some 749). cbn [ok_or rbind]. rewrite E. cbn [ok_or rbind].
  rewrite (proj2 (@evaluate_blob_refines small_scalar small_scalar_field
                    (small_residue 9 :: repeat (small_residue 0) 4095) (small_residue 749)
                    (small_residue 3544) eq_refl)); [reflexivity|].
  exists (@impulse small_scalar (small_residue 9)).
  split; [apply (@impulse_polynomial small_scalar small_scalar_field)|].
  symmetry. apply (small_impulse 9 749 3544 6048); [discriminate|vm_compute; reflexivity|reflexivity].
Qed.

Definition demo_bundle : PreparedDataAvailabilityV1 :=
  mk_PreparedDataAvailabilityV1 demo_equivalence demo_statement [demo_blob] [[8]].
Lemma demo_bundle_prepared : cmd_prepare_data_availability_v1 [] = Ok demo_bundle.
Proof.
  unfold cmd_prepare_data_availability_v1. apply rbind_Ok. exists 0. split; [reflexivity|].
  unfold prepare_data_availability_bundle_inner_v1. cbv zeta.
  apply rbind_Ok. exists demo_supplied. split; [reflexivity|].
  apply fail_if_Ok. split; [reflexivity|]. apply fail_if_Ok. split; [reflexivity|].
  apply rbind_Ok. exists [demo_blob]. split.
  { apply in_worker_Ok, try_collect_Ok. constructor; [exact demo_blob_packed|constructor]. }
  apply rbind_Ok. exists [demo_blob]. split; [reflexivity|].
  apply rbind_Ok. exists [tt]. split; [reflexivity|].
  apply rbind_Ok. exists tt. split; [reflexivity|]. apply rbind_Ok. exists tt. split; [reflexivity|].
  apply rbind_Ok. exists (set_evaluation 0 0 demo_equivalence). split; [vm_compute; reflexivity|].
  apply rbind_Ok. exists tt. split; [reflexivity|].
  apply rbind_Ok. exists (demo_equivalence, [[8]]). split.
  { change (map Z.of_nat _) with [0]. cbn [for_each]. apply rbind_Ok.
    exists (demo_equivalence, [[8]]). split; [|reflexivity]. unfold open_blob.
    cbn -[blob_equivalence_evaluation_v1]. rewrite demo_evaluation by reflexivity. reflexivity. }
  apply rbind_Ok. exists tt. split; [reflexivity|].
  apply rbind_Ok. exists demo_statement. split; [apply in_worker_Ok, demo_equivalence_accepted|].
  reflexivity.
Qed.

Lemma prepared_bundle_published_witness :
  bundle_of demo_supplied demo_bundle
  /\ guest_main (BLOB_EQUIVALENCE_MAGIC_V1 ++ [2])
     = Ok [Commit (b256_bytes (pda_statement demo_bundle))].
Proof.
  destruct (prepared_bundle_published [] demo_bundle demo_bundle_prepared)
    as (request & supplied & _ & Hs & B & Hg).
  injection Hs as <-. split; [exact B|]. apply Hg.
  unfold framed_equivalence, serialize_equivalence, hosting_encoder.
  change (pda_input demo_bundle) with demo_equivalence.
  rewrite decide_True by reflexivity. reflexivity.
Defined.
